(* ===== verification/_CoqProject ===== *)
-Q . S2P
Prelude.v
Record.v
RecordSpec.v
Bolt.v
BoltRecord.v
BoltRefine.v
MemRecord.v
Base64.v
Glob.v
Rbac.v
RbacStore.v
Hosts.v
Scheduler.v
Text.v
Url.v
Printf.v
Hostname.v
V1.v
Codes.v
Document.v
Config.v
Scenario.v
Experiment.v
V1Spec.v
Includes.v
ConfigStore.v
ConfigStoreSpec.v
ConfigRecords.v
Configs.v
ConfigsSpec.v
Experiments.v
ExperimentsSpec.v
Workflow.v
WorkflowSpec.v
Specs.v
Decimal.v
Settings.v
SettingsSpec.v
Subnet.v
Checks.v
Matchers.v
Layers.v
Icons.v
Validate.v
Parents.v
ValidateSpec.v
EdgeSpec.v
DocumentSpec.v
Topology.v
TopologySpec.v
PublishChecks.v
Warnings.v
Publish.v
Drafts.v
Content.v
Generate.v
GenerateSpec.v
DraftService.v
DraftSpec.v
DraftStore.v
DraftWrites.v
DraftAppend.v
DraftCalls.v
DraftPublish.v
DraftCreate.v
DraftTrace.v
Published.v
PublishedSpec.v
CleanupSpec.v
CleanupExact.v
LayerSets.v
LayerSetSpec.v
TemplateLibrary.v
TemplateSpec.v
DraftSample.v
IconLibrary.v
IconSpec.v
ServiceSample.v
TopologySample.v
ConfigSample.v
