(* ===== verification/Prelude.v ===== *)
(** * phenix: a verification library

    phenix runs experiments of virtual machines on minimega clusters. A user
    draws a diagram in the builder, saves it as a draft, publishes it as a
    config, and an experiment made of that config is scheduled on the hosts
    of a cluster; roles say who may do what. This library models the Go code
    that carries state or decides something on that way, and leaves the glue
    around it aside. Paths below are under src/src/go.

    ** The parts

    Records (store/). [Record] is record.go: a record, the sentinel errors
    and their wrapping, the names a store accepts. [RecordSpec] is the
    contract in store.go: an abstract store ([Spec.state], a finite map with
    the last revision given), a class of operations ([RecordTx]) and one of
    their laws ([RecordTxRefines]) that an implementation instantiates,
    [client]s of a transaction, well-formed states ([Spec.wf]) and the order
    of states ([later]). [Bolt] is the interface to bbolt, with its
    documented laws and an instance in memory; [BoltRecord] is
    bolt_record.go over it, and [BoltRefine] shows it implements the
    contract. [MemRecord] is recordtest/memrecord with its optimistic
    commit, and it ends with the proof that the two stores cannot be told
    apart.

    Access (web/rbac). [Glob] is filepath.Match and [Base64]
    encoding/base64, which the code relies on. [Rbac] is role.go, policy.go
    and the pure half of migrations.go; [RbacStore] is user.go and the rest
    over the config store, which is a class.

    Placement (scheduler/, util/mm/types.go). [Hosts] is the host list, its
    sorts and pages; [Scheduler] the three schedulers and their dispatch.

    The builder's documents (types/builder). [Document] is the data
    (document.go, spec.go), [Text], [Decimal] and [Subnet] the reading of
    texts, numbers and addresses, [Codes] the registry of codes.go,
    [Checks], [Matchers], [Layers], [Icons] the checks of fields, of regular
    expressions (layerset.go), of layer sets and templates, of PNGs
    (customicons.go), and [Validate] the validator of validate.go, function
    by function. [Parents], [ValidateSpec], [EdgeSpec] and [DocumentSpec]
    say what a valid document is without the validator's loops and maps, and
    prove that it agrees.

    The builder's topologies (types/builder). [Specs] is spec.go, the
    readers and writers of a decoded spec, and [Topology] the projection of
    a document onto a topology in topology.go; [TopologySpec] says what it
    gives. [PublishChecks] has the checks of topology.go that only a publish
    makes, [Warnings] is warnings.go, with the sweep over subnets, and
    [Publish] devicewarnings.go and the projection with all its warnings and
    blockers, for publishing and for export. The other way, [Generate] is
    generate.go, detach.go and residue.go, which make a document of a topology
    or an experiment with what it includes, less what an experiment adds to its
    topology; [GenerateSpec] has their theorems.

    Experiments (types/version/v1, v2, types, api/experiment). [Hostname]
    and [V1] are hostname.go, node.go, network.go and topology.go, and
    [Experiment] experiment.go: validation, defaults, initialisation and the
    operations on nodes, rulesets, VLANs and schedules; [V1Spec] has their
    theorems. [Scenario] is scenario.go of both packages, [Includes]
    types/topology.go with topologies that include others,
    [Experiments] the config hooks and the storage of experiments
    ([ExperimentsSpec]). [Printf] is the part of fmt that texts come from.

    Configs (store/, api/config). [Config] is types.go and the contract of a
    store of configs ([Store], [StoreView], [StoreLaws]); [ConfigStore] is
    the config half of bolt.go over [Bolt], transaction by transaction, and
    [ConfigStoreSpec] shows that it keeps the contract; [ConfigRecords] that
    configs and records share a file and keep out of each other's way.
    [Configs] is api/config over any store of configs, with its hooks, and
    [ConfigsSpec] what its calls do. [Settings] is api/settings over the
    same store ([SettingsSpec]).

    Workflows (api/workflow, web/workflow.go). [Workflow] is spec.go, plan.go
    and prepare.go: the experiment a branch means, and the check of the
    configs of an apply or a dry run; [Url] is the part of net/url that the
    refs of pending configs are written in. [WorkflowSpec] has their
    theorems.

    The builder's service (api/builder). [Drafts] has types.go, limits.go,
    errors.go and the checks of validate.go; [Content] is content.go;
    [DraftService] is every method of service.go; [Published] is
    published.go and cleanup.go; [LayerSets] is layersets.go,
    [TemplateLibrary] templates.go and [IconLibrary] icons.go. They run over the abstract store of
    [RecordSpec], and either store implements that as long as revisions,
    times and sizes fit the machine. [DraftSpec], [DraftStore] and
    [DraftWrites] have the invariant and the parts of a call, [DraftAppend],
    [DraftCalls], [DraftPublish], [DraftCreate] and [PublishedSpec] a call
    each, [DraftTrace] every interleaving, [CleanupSpec] and [CleanupExact]
    the cleanups, [LayerSetSpec], [TemplateSpec] and [IconSpec] the
    libraries. The files named Sample have concrete codecs and runs on which
    every theorem is applied.

    ** How the code is modelled

    A function that returns a value and an error is a [res]; one that also
    changes a store is an [st], and both keep what the code keeps when it
    fails. Panics the code can run into are error values. An int64 is a [Z]
    with its wrap-around written out ([wrap64]); bytes are [byte]s; a Go
    string is a [string] of its bytes; a time is its nanoseconds; a slice is
    a list, an option of one where the code asks whether it is nil; a map is
    a [gmap], and where Go's iteration order could show, the order is a
    parameter that the theorem quantifies over. The text of an error is kept
    as its format and its arguments, unformatted.

    Code that is not in the repository is a class with the documented laws
    the code relies on: bbolt ([BoltLaws]), sort.Slice, encoding/json of
    drafts and published documents ([ServiceJSON], [PublishedJSON], with
    [ServiceLaws] and [PublishedLaws]) and of the libraries, gzip and SHA-256 ([Compression]),
    regexp and PNG decoding, bcrypt, and encoding/json of configs
    ([ConfigJSON]). Apps, schedulers of users and mapstructure are arguments.
    The classes with laws have instances that keep them, and the theorems are
    applied with those. Of the Go library, what matters byte by byte (globs, base64,
    netip, strconv, UTF-8) is written out.

    Concurrency. A transaction is one step. A call of the service reads and
    later writes: its [env] has the clock, the identifiers it asks for, the
    context, how its commit ends, and [between], what everybody else does to
    the store in the meantime. [run] in [DraftTrace] makes the states of the
    store from such calls in any order, each reading any earlier state and
    writing to the newest; a cleanup, which goes to the store many times,
    takes an [env] for each access, and so do the calls of the libraries. A call on configs opens the file and
    runs several transactions on it, each of which may fail to commit:
    [cenv] says which do.

    Fuel. Loops that are not structural take fuel: the byte scanners
    ([Glob], [Matchers], [Icons]) one step for each byte, the walk to a
    parent one for each node, the pruning of a history one for each step of
    its cursor, the decoding of topologies that include others one for each
    name of a topology and one more, the resolution of the includes of an
    import one for each of the 100 reads it may make and one more. Each has a
    lemma that this is enough. Where the code itself bounds a loop, the bound
    is the code's: the attempts of an update, the aliases of an icon.

    ** What is proved

    Stores: every transaction over Bolt refines the abstract transaction,
    errors and rollback included; the in-memory store refines it too, and the
    two give a caller the same results and records when its hooks are quiet:
    the times are those of the [Stamp] hook, or without hooks those of a Bolt
    file whose clock runs with the revisions; a commit is all or nothing and
    what it read is current; an update replaces exactly what was read; the
    stored form reads back.

    Drafts: over every interleaving each snapshot of each draft is in the
    store, whole, and is a valid document, each record of a draft is well
    formed and opens; of two edits that read the same draft one fails; a
    call that fails changes nothing; what each call leaves when it succeeds,
    and that one does succeed; pruning terminates.

    Published documents: publishing; a cleanup never removes content in use
    whatever goes on meanwhile, every other call is one it allows for, and
    alone it removes exactly the garbage: the content at the key of a
    snapshot or of a document that no record names.

    Libraries: an update applies its change to what is stored at the moment
    of its last access and raises the version of exactly what it changed; over
    every interleaving of the calls an entity tag names one content for ever; a
    rename of an icon is of the icon that the name led to, keeps its names
    leading to it and changes nothing else.

    Configs: the Bolt store keeps the contract of a config store whatever
    transaction fails; by that contract Create may overwrite a config when its
    own lookup failed. What creating, updating, renaming and deleting leave,
    and where the code does not do what its comments say.

    Experiments: when initialising a topology or an experiment succeeds or
    panics, at a nil node or section, and what it leaves; VLAN aliases and
    ranges; which bridge an interface has. With the config hooks of experiments
    and of scorch, an update keeps bridges apart, and a creation does exactly
    when the bridge that the apps leave the experiment is free: an app that
    chooses a bridge of another experiment is not stopped. Decoding a topology
    with its includes ends, with the nodes they resolve to; what merging
    scenarios gives.

    Imports: a topology that is imported and published again is the one it
    was; resolving includes ends and, when all can be read, finds exactly what
    is included; a check of includes that finds nothing can be relied on.

    Publishing: what is published has distinct host names that phenix takes,
    VLANs, addresses of its own, drives, and the settings that OSPF and NTP
    need; the checks pass exactly what they should, as the fields of the spec
    and the connections of the document say ([PublishChecks]); the sweep over
    subnets finds exactly those that overlap another.

    Workflows and settings: which experiment a plan acts on; a dry run
    refuses nothing that the apply accepts; the check of a bridge agrees with
    the hooks that choose one; the ref of a pending config reads back; saved
    settings of passwords are what is read; where the code drops an error or
    a bound.

    Documents: the validator accepts exactly the documents of the
    declarative [document_ok], its report does not depend on Go's map order,
    a cycle of parents is found exactly when there is one, a nested repeat
    is found exactly when the grammar has one, what is a host of a subnet,
    and what topology a document projects onto.

    Access: a role allows exactly what its policies say; updates of users
    compose; tokens; the migrations.

    Placement: what each scheduler does to every VM, and pages.

    ** What is not modelled

    The files and the preflight of api/builder, and YAML,
    packages and the legacy diagram of types/builder, which are about formats
    of third-party libraries; JSON schemas, which are data. Starting and
    stopping experiments, apps, VMs, state of health, scorch, the minimega
    driver, the web server and the command line are input and output around
    third-party processes, with little state of
    their own; nil entries of the lists of apps and hosts of a scenario;
    logging, options and the messages of Error() are left out of
    the modelled files. The user scheduler runs a command: it is an
    argument. Telling when a JSON text decodes is left to the class of the
    codec. *)

From Stdlib Require Import ZArith Lia Ascii String Strings.Byte.
From stdpp Require Import base option list gmap strings sorting.

(** ** Notation and results *)

Declare Scope go_scope.
Delimit Scope go_scope with go.

(** The result of Go code that returns a value and an error: exactly one of
    the two is meant. *)
Inductive res (E A : Type) : Type :=
  | Ok (a : A)
  | Err (e : E).
Arguments Ok {E A} a.
Arguments Err {E A} e.

Definition res_bind {E A B} (m : res E A) (f : A -> res E B) : res E B :=
  match m with
  | Ok a => f a
  | Err e => Err e
  end.

Definition res_map_err {E E' A} (f : E -> E') (m : res E A) : res E' A :=
  match m with
  | Ok a => Ok a
  | Err e => Err (f e)
  end.

Lemma bind_ok {E A B} (m : res E A) (k : A -> res E B) b : res_bind m k = Ok b <-> exists a, m = Ok a /\ k a = Ok b.
Proof. destruct m as [a|e]; simpl; [|naive_solver]. split; [eauto|]. by intros (? & [= <-] & ?). Qed.

Lemma bind_unit {E B} (m : res E unit) (k : unit -> res E B) b : res_bind m k = Ok b <-> m = Ok tt /\ k tt = Ok b.
Proof. destruct m as [[]|e]; simpl; naive_solver. Qed.

Lemma res_map_err_ok {E F A} (f : E -> F) (r : res E A) a : res_map_err f r = Ok a <-> r = Ok a.
Proof. destruct r; cbn; naive_solver. Qed.

Notation "'let?' x ':=' m 'in' k" := (res_bind m (fun x => k))
  (at level 10, x pattern, m at level 100, k at level 200) : go_scope.

(** A guard of the form [if cond { return err }]. *)
Definition guard_err {E} (bad : bool) (e : E) : res E unit :=
  if bad then Err e else Ok tt.

(** Effectful Go code: it reads and changes a state and returns a value or an
    error. The state it left is kept in both cases, as Go keeps it. *)
Definition st (S E A : Type) : Type := S -> res E A * S.

Definition st_ret {S E A} (a : A) : st S E A := fun s => (Ok a, s).

Definition st_err {S E A} (e : E) : st S E A := fun s => (Err e, s).

Definition st_bind {S E A B} (m : st S E A) (f : A -> st S E B) : st S E B :=
  fun s =>
    match m s with
    | (Ok a, s') => f a s'
    | (Err e, s') => (Err e, s')
    end.

(** [fmt.Errorf("...: %w", err)]: the error is wrapped, the state is kept. *)
Definition st_wrap {S E A} (f : E -> E) (m : st S E A) : st S E A :=
  fun s => let '(r, s') := m s in (res_map_err f r, s').

Definition st_lift {S E A} (r : res E A) : st S E A := fun s => (r, s).

Notation "'let!' x ':=' m 'in' k" := (st_bind m (fun x => k))
  (at level 10, x pattern, m at level 100, k at level 200) : go_scope.

(** ** Machine integers

    Go's [int] and [int64] are 64-bit two's complement, [uint64] is unsigned. *)

Definition wrap64 (z : Z) : Z := (z + 2 ^ 63) mod 2 ^ 64 - 2 ^ 63.
Definition wrapu64 (z : Z) : Z := z mod 2 ^ 64.
Definition add64 (a b : Z) : Z := wrap64 (a + b).
Definition sub64 (a b : Z) : Z := wrap64 (a - b).
Definition mul64 (a b : Z) : Z := wrap64 (a * b).

Definition int64 (z : Z) : Prop := (- 2 ^ 63 <= z < 2 ^ 63)%Z.

(** [lia] with [mod] and [/] by a constant written out. *)
Ltac zlia := Z.div_mod_to_equations; lia.

Lemma wrap64_range z : int64 (wrap64 z).
Proof. unfold int64, wrap64. zlia. Qed.

Lemma wrap64_id z : int64 z -> wrap64 z = z.
Proof. unfold int64, wrap64. intros. rewrite Z.mod_small; lia. Qed.

Lemma wrap64_wrapu64 z : int64 z -> wrap64 (wrapu64 z) = z.
Proof.
  unfold int64, wrap64, wrapu64. intros.
  rewrite Zplus_mod_idemp_l, Z.mod_small; lia.
Qed.

Lemma wrapu64_range z : (0 <= wrapu64 z < 2 ^ 64)%Z.
Proof. unfold wrapu64. zlia. Qed.

(** ** Bytes

    A Go [[]byte] that is not nil is a [list byte]. *)

#[export] Instance byte_eq_dec : EqDecision byte := Byte.byte_eq_dec.

Definition byte_Z (b : byte) : Z := Z.of_N (Byte.to_N b).

Definition Z_byte (z : Z) : byte :=
  default x00 (Byte.of_N (Z.to_N (z mod 256))).

Lemma byte_Z_range b : (0 <= byte_Z b < 256)%Z.
Proof. unfold byte_Z. pose proof (Byte.to_N_bounded b). lia. Qed.

Lemma byte_Z_Z_byte z : byte_Z (Z_byte z) = (z mod 256)%Z.
Proof.
  unfold byte_Z, Z_byte.
  assert (0 <= z mod 256 < 256)%Z as Hz by zlia.
  destruct (Byte.of_N _) as [b|] eqn:E.
  - apply Byte.to_of_N in E. simpl. rewrite E. lia.
  - apply Byte.of_N_None_iff in E. lia.
Qed.

(** The value of bytes read as one big-endian number. *)
Definition be_Z (l : list byte) : Z :=
  foldl (fun acc b => acc * 256 + byte_Z b)%Z 0%Z l.

(** The [n] low bytes of a number, most significant first. *)
Fixpoint Z_be (n : nat) (z : Z) : list byte :=
  match n with
  | O => []
  | S n' => Z_be n' (z / 256) ++ [Z_byte z]
  end.

Lemma be_Z_snoc l b : be_Z (l ++ [b]) = (be_Z l * 256 + byte_Z b)%Z.
Proof. unfold be_Z. by rewrite foldl_app. Qed.

Lemma length_Z_be n z : length (Z_be n z) = n.
Proof. revert z. induction n; intros; simpl; rewrite ?length_app, ?IHn; simpl; lia. Qed.

Lemma be_Z_Z_be n z : be_Z (Z_be n z) = (z mod 256 ^ Z.of_nat n)%Z.
Proof.
  revert z. induction n as [|n IH]; intros z.
  - cbn. by rewrite Z.mod_1_r.
  - cbn [Z_be]. rewrite be_Z_snoc, IH, byte_Z_Z_byte.
    rewrite Nat2Z.inj_succ, Z.pow_succ_r by lia.
    rewrite Z.rem_mul_r by lia. lia.
Qed.

(** [binary.BigEndian.Uint64] and [PutUint64] on eight bytes. *)
Definition be_uint64 (l : list byte) : Z := be_Z l.
Definition put_uint64 (z : Z) : list byte := Z_be 8 (wrapu64 z).

Lemma length_put_uint64 z : length (put_uint64 z) = 8.
Proof. apply length_Z_be. Qed.

Lemma be_uint64_put_uint64 z : be_uint64 (put_uint64 z) = wrapu64 z.
Proof.
  unfold be_uint64, put_uint64. rewrite be_Z_Z_be.
  change (256 ^ Z.of_nat 8)%Z with (2 ^ 64)%Z.
  unfold wrapu64. by rewrite Z.mod_mod.
Qed.

(** ** Strings

    A Go [string] is a sequence of bytes: Rocq's [string]. *)

Definition to_bytes (s : string) : list byte := String.list_byte_of_string s.
Definition of_bytes (l : list byte) : string := String.string_of_list_byte l.

Definition ascii_Z (c : ascii) : Z := Z.of_N (N_of_ascii c).

(** The bytes of a string as numbers, and [len(s)]. *)
Definition bytes_Z (s : string) : list Z := map ascii_Z (String.list_ascii_of_string s).
Definition slen (s : string) : Z := Z.of_nat (String.length s).

(** [strings.HasPrefix]. *)
Definition has_prefix (s p : string) : bool := String.prefix p s.

(** [strings.HasSuffix]. *)
Fixpoint has_suffix (s p : string) : bool :=
  String.eqb s p ||
  match s with
  | EmptyString => false
  | String _ s' => has_suffix s' p
  end.

(** [strings.Contains]. *)
Fixpoint contains (s sub : string) : bool :=
  String.prefix sub s ||
  match s with
  | EmptyString => false
  | String _ s' => contains s' sub
  end.

(** [strings.Split] by one byte: the pieces between its occurrences. *)
Fixpoint split_on (c : ascii) (s : string) : list string :=
  match s with
  | EmptyString => [""]
  | String a s' =>
      if Ascii.eqb a c then "" :: split_on c s'
      else
        match split_on c s' with
        | [] => [String a ""]
        | p :: ps => String a p :: ps
        end
  end.

(** [strings.Join]. *)
Fixpoint join (sep : string) (l : list string) : string :=
  match l with
  | [] => ""
  | [x] => x
  | x :: xs => x +:+ sep +:+ join sep xs
  end.

(** ** Boolean tests over lists *)

Lemma forallb_Forall {A} (f : A -> bool) l :
  forallb f l = true <-> Forall (fun x => f x = true) l.
Proof.
  induction l as [|x l IH]; [done|]. simpl. by rewrite andb_true_iff, Forall_cons, IH.
Qed.

Lemma existsb_Forall {A} (f : A -> bool) l :
  existsb f l = false <-> Forall (fun x => f x = false) l.
Proof.
  induction l as [|x l IH]; [done|]. simpl. by rewrite orb_false_iff, Forall_cons, IH.
Qed.

(** [List.find] of a failing element finds none exactly when all pass. *)
Lemma find_none_forallb {A} (f : A -> bool) l :
  List.find (fun x => negb (f x)) l = None <-> forallb f l = true.
Proof.
  induction l as [|x l IH]; [done|]. simpl. destruct (f x); simpl; [apply IH|done].
Qed.

(** Closes [P <-> Q] when both sides are contradictory, or both are plain. *)
Ltac refute :=
  split; intros; destruct_and?; simpl in *; rewrite ?andb_false_r in *;
  (done || congruence || lia).

(** ** UTF-8, as [unicode/utf8] and the range loop over a string read it

    Each step gives a rune and how many bytes it took; a byte that starts no
    valid encoding is the rune [RuneError] of one byte. *)

Definition RuneError : Z := 65533.

Definition cont_byte (b : Z) : bool := (128 <=? b)%Z && (b <=? 191)%Z.

Definition in_range (lo hi b : Z) : bool := (lo <=? b)%Z && (b <=? hi)%Z.

(** The bounds on the second byte, given the first. *)
Definition second_ok (b0 b1 : Z) : bool :=
  if (b0 =? 224)%Z then in_range 160 191 b1
  else if (b0 =? 237)%Z then in_range 128 159 b1
  else if (b0 =? 240)%Z then in_range 144 191 b1
  else if (b0 =? 244)%Z then in_range 128 143 b1
  else cont_byte b1.

(** [utf8.DecodeRune]: the first rune of the bytes and its width. *)
Definition decode_rune (l : list Z) : Z * nat :=
  match l with
  | [] => (RuneError, 0%nat)
  | b0 :: l1 =>
      if (b0 <? 128)%Z then (b0, 1%nat)
      else if in_range 194 223 b0 then
        match l1 with
        | b1 :: _ =>
            if cont_byte b1 then (((b0 - 192) * 64 + (b1 - 128))%Z, 2%nat)
            else (RuneError, 1%nat)
        | [] => (RuneError, 1%nat)
        end
      else if in_range 224 239 b0 then
        match l1 with
        | b1 :: b2 :: _ =>
            if second_ok b0 b1 && cont_byte b2 then
              (((b0 - 224) * 4096 + (b1 - 128) * 64 + (b2 - 128))%Z, 3%nat)
            else (RuneError, 1%nat)
        | _ => (RuneError, 1%nat)
        end
      else if in_range 240 244 b0 then
        match l1 with
        | b1 :: b2 :: b3 :: _ =>
            if second_ok b0 b1 && cont_byte b2 && cont_byte b3 then
              (((b0 - 240) * 262144 + (b1 - 128) * 4096 + (b2 - 128) * 64 + (b3 - 128))%Z, 4%nat)
            else (RuneError, 1%nat)
        | _ => (RuneError, 1%nat)
        end
      else (RuneError, 1%nat)
  end.

(** The runes of the bytes with their widths. Every step takes at least one
    byte, so as many steps as bytes are enough (see [runes_w_fuel]). *)
Fixpoint runes_fuel (n : nat) (l : list Z) : list (Z * nat) :=
  match n, l with
  | _, [] => []
  | O, _ => []
  | S n', _ =>
      let '(r, w) := decode_rune l in
      (r, w) :: runes_fuel n' (drop w l)
  end.

Definition runes_w (l : list Z) : list (Z * nat) := runes_fuel (length l) l.

(** [for _, r := range s]. *)
Definition runes (s : string) : list Z := map fst (runes_w (bytes_Z s)).

(** [utf8.ValidString]: no byte was read as an error. *)
Definition valid_utf8 (s : string) : bool :=
  forallb (fun '(r, w) => negb ((r =? RuneError)%Z && (w =? 1)%nat)) (runes_w (bytes_Z s)).

(** [strings.ContainsFunc]. *)
Definition contains_func (s : string) (f : Z -> bool) : bool := existsb f (runes s).

(** ** [strconv.Itoa] *)

Definition digit_char (d : Z) : ascii := ascii_of_N (Z.to_N (48 + d)).

Fixpoint itoa_pos (n : nat) (z : Z) (acc : string) : string :=
  match n with
  | O => acc
  | S n' =>
      if (z <? 10)%Z then String (digit_char z) acc
      else itoa_pos n' (z / 10) (String (digit_char (z mod 10)) acc)
  end.

(** Twenty digits are enough for every 64-bit number. *)
Definition itoa (z : Z) : string :=
  if (z <? 0)%Z then String "-" (itoa_pos 20 (- z) "") else itoa_pos 20 z "".

(** ** Facts about strings and runes *)

Lemma decode_rune_width l : l <> [] -> 1 <= snd (decode_rune l) <= length l.
Proof.
  intros Hl. unfold decode_rune.
  repeat case_match; simplify_eq/=; lia.
Qed.

Lemma runes_fuel_enough n l : length l <= n -> runes_fuel n l = runes_w l.
Proof.
  unfold runes_w. revert l.
  assert (H : forall k n l, length l <= k -> length l <= n -> runes_fuel n l = runes_fuel k l).
  { induction k as [|k IH]; intros m l Hk Hn.
    - destruct l; [by destruct m|simpl in *; lia].
    - destruct l as [|b l]; [by destruct m|]. destruct m as [|m]; [simpl in *; lia|].
      cbn [runes_fuel]. destruct (decode_rune (b :: l)) as [r w] eqn:E.
      pose proof (decode_rune_width (b :: l)) as Hw. rewrite E in Hw.
      destruct Hw as [Hw _]; [done|]. f_equal. simpl in Hw.
      apply IH; rewrite length_drop; simpl in *; lia. }
  intros l Hn. apply H; lia.
Qed.

(** One step of the range loop. *)
Lemma runes_w_cons b l :
  runes_w (b :: l) =
    decode_rune (b :: l) :: runes_w (drop (snd (decode_rune (b :: l))) (b :: l)).
Proof.
  unfold runes_w at 1. cbn [length runes_fuel].
  destruct (decode_rune (b :: l)) as [r w] eqn:E. f_equal.
  pose proof (decode_rune_width (b :: l)) as Hw. rewrite E in Hw.
  destruct Hw as [Hw _]; [done|]. simpl in Hw |- *.
  apply runes_fuel_enough. rewrite length_drop. simpl. lia.
Qed.

Lemma string_app_cons a s t : String a s +:+ t = String a (s +:+ t).
Proof. done. Qed.

Lemma has_prefix_cons a s b p :
  has_prefix (String a s) (String b p) = bool_decide (a = b) && has_prefix s p.
Proof. unfold has_prefix. simpl. destruct (ascii_dec b a); case_bool_decide; naive_solver. Qed.

Lemma string_app_assoc (a b c : string) : (a +:+ b) +:+ c = a +:+ (b +:+ c).
Proof. induction a as [|x a IH]; [done|]. by rewrite !string_app_cons, IH. Qed.

Lemma has_prefix_nil s : has_prefix s "" = true.
Proof. by destruct s. Qed.

Lemma has_prefix_spec s p : has_prefix s p = true <-> exists r, s = p +:+ r.
Proof.
  revert s. induction p as [|b p IH]; intros s.
  - split; [|by destruct s]. intros _. by exists s.
  - destruct s as [|a s]; [split; [done|by intros [r ?]]|].
    rewrite has_prefix_cons, andb_true_iff, bool_decide_eq_true, IH.
    setoid_rewrite string_app_cons. split; [intros [-> [r ->]]; eauto|]. intros [r Hr]. simplify_eq. eauto.
Qed.

(** ** Formatted text

    The text [fmt.Sprintf] makes is kept as its format and its arguments, so
    two texts are equal here exactly when they were made the same way. How a
    verb renders its argument is not modelled. *)

Inductive arg : Type :=
  | AStr (s : string)
  | AInt (z : Z)
  | ARune (r : Z).

Record text : Type := Sprintf { format : string; args : list arg }.

(** A plain message. *)
Definition lit (s : string) : text := Sprintf s [].

#[export] Instance arg_eq_dec : EqDecision arg.
Proof. solve_decision. Defined.

#[export] Instance text_eq_dec : EqDecision text.
Proof. solve_decision. Defined.

(** A byte below 128 is its own rune; every other byte starts a rune that is
    128 or more. *)
Lemma decode_rune_ascii b l : (b < 128)%Z -> decode_rune (b :: l) = (b, 1%nat).
Proof. intros Hb. unfold decode_rune. by rewrite (proj2 (Z.ltb_lt b 128) Hb). Qed.

Lemma decode_rune_high b l : (128 <= b)%Z -> (128 <= fst (decode_rune (b :: l)))%Z.
Proof.
  intros Hb. unfold decode_rune, RuneError, second_ok, cont_byte, in_range in *.
  repeat case_match; simplify_eq/=;
    lia.
Qed.

(** When a rune predicate accepts only ASCII, it holds of every rune of a
    string exactly when it holds of every byte. *)
Lemma runes_ascii_only (P : Z -> bool) s :
  (forall r, P r = true -> (r < 128)%Z) ->
  forallb P (runes s) = forallb P (bytes_Z s).
Proof.
  intros HP. unfold runes. generalize (bytes_Z s) as l. clear s. intros l.
  induction l as [|b l IH]; [done|].
  destruct (decide (b < 128)%Z) as [Hb|Hb].
  - rewrite runes_w_cons, decode_rune_ascii by done. simpl. by rewrite drop_0, IH.
  - rewrite runes_w_cons. pose proof (decode_rune_high b l ltac:(lia)) as Hr.
    destruct (decode_rune (b :: l)) as [r w]. simpl in *.
    assert (forall x, (128 <= x)%Z -> P x = false) as Hhigh.
    { intros x Hx. destruct (P x) eqn:E; [|done]. apply HP in E. lia. }
    rewrite !Hhigh by lia. done.
Qed.

Lemma be_Z_range l : (0 <= be_Z l < 256 ^ Z.of_nat (length l))%Z.
Proof.
  induction l as [|b l IH] using rev_ind; [done|].
  rewrite be_Z_snoc, length_app, Nat2Z.inj_add, Z.pow_add_r by lia.
  pose proof (byte_Z_range b). change (256 ^ Z.of_nat (length [b]))%Z with 256%Z. nia.
Qed.

Lemma Z_byte_byte_Z b : Z_byte (byte_Z b) = b.
Proof.
  unfold Z_byte. rewrite Z.mod_small by apply byte_Z_range.
  unfold byte_Z. by rewrite N2Z.id, Byte.of_to_N.
Qed.

Lemma Z_byte_mod z : Z_byte (z mod 256) = Z_byte z.
Proof. unfold Z_byte. by rewrite Z.mod_mod. Qed.

Lemma Z_be_be_Z l : Z_be (length l) (be_Z l) = l.
Proof.
  induction l as [|b l IH] using rev_ind; [done|].
  rewrite length_app, Nat.add_comm. cbn [length Nat.add Z_be].
  rewrite be_Z_snoc. pose proof (byte_Z_range b).
  rewrite Z.div_add_l, (Z.div_small (byte_Z b)), Z.add_0_r, IH by lia.
  rewrite <- Z_byte_mod, Z.add_comm, Z.mod_add, Z_byte_mod, Z_byte_byte_Z by lia. done.
Qed.

Lemma wrapu64_wrap64 z : (0 <= z < 2 ^ 64)%Z -> wrapu64 (wrap64 z) = z.
Proof. unfold wrapu64, wrap64. zlia. Qed.

(** Reading eight bytes as an [int64] and writing it back gives the bytes. *)
Lemma put_uint64_wrap64 l : length l = 8 -> put_uint64 (wrap64 (be_uint64 l)) = l.
Proof.
  intros Hl. unfold put_uint64, be_uint64. pose proof (be_Z_range l) as Hr.
  rewrite wrapu64_wrap64 by (rewrite Hl in Hr; lia).
  rewrite <- Hl. apply Z_be_be_Z.
Qed.

Lemma wrap64_be_put z : int64 z -> wrap64 (be_uint64 (put_uint64 z)) = z.
Proof. intros. rewrite be_uint64_put_uint64. by apply wrap64_wrapu64. Qed.

(** ** Byte order of strings *)

Lemma string_compare_cons a s b t :
  String.compare (String a s) (String b t) =
    match Ascii.compare a b with Eq => String.compare s t | c => c end.
Proof. done. Qed.

Lemma ascii_compare_refl a : Ascii.compare a a = Eq.
Proof. unfold Ascii.compare. apply N.compare_refl. Qed.

(** A prefix comes before what it is a prefix of. *)
Lemma has_prefix_leb s p : has_prefix s p = true -> String.leb p s = true.
Proof.
  revert s. induction p as [|b p IH]; intros s; [by destruct s|].
  destruct s as [|a s]; [done|]. rewrite has_prefix_cons, andb_true_iff, bool_decide_eq_true.
  intros [-> Hp]. unfold String.leb. rewrite string_compare_cons, ascii_compare_refl. by apply IH.
Qed.

(** The strings with a prefix lie together: one between the prefix and a
    string with the prefix has the prefix. *)
Lemma has_prefix_between p s t :
  String.leb p s = true -> String.ltb s t = true -> has_prefix t p = true -> has_prefix s p = true.
Proof.
  revert s t. induction p as [|b p IH]; intros s t; [intros; apply has_prefix_nil|].
  destruct s as [|a s]; [done|]. destruct t as [|c t]; [done|].
  unfold String.leb, String.ltb. rewrite !string_compare_cons, !has_prefix_cons, !andb_true_iff,
    !bool_decide_eq_true. intros Hle Hlt [-> Hp].
  destruct (Ascii.compare b a) eqn:E.
  - apply Ascii.compare_eq_iff in E as ->. rewrite ascii_compare_refl in Hlt.
    split; [done|]. by apply (IH s t).
  - rewrite Ascii.compare_antisym in Hlt. rewrite E in Hlt. done.
  - done.
Qed.

Lemma ltb_leb s t : String.ltb s t = true -> String.leb s t = true.
Proof. unfold String.ltb, String.leb. by destruct (String.compare s t). Qed.

Lemma ltb_irrefl s : String.ltb s s = false.
Proof.
  unfold String.ltb. induction s as [|a s IH]; [done|].
  by rewrite string_compare_cons, ascii_compare_refl.
Qed.

(** A strictly ordered list is the sorted list of the set of its elements. *)
Lemma strict_sorted (l : list string) :
  StronglySorted (fun a b => String.ltb a b = true) l -> StronglySorted String.le l /\ NoDup l.
Proof.
  induction 1 as [|k l Hl [IHs IHn] Hk]; [by split; constructor|]. split; constructor; try done.
  - eapply Forall_impl; [exact Hk|]. intros j Hj. unfold String.le. by rewrite ltb_leb.
  - intros Hin. eapply Forall_forall in Hk; [|exact Hin]. by rewrite ltb_irrefl in Hk.
Qed.

Lemma sorted_list_unique (l : list string) (X : gset string) :
  StronglySorted (fun a b => String.ltb a b = true) l ->
  (forall k, k ∈ l <-> k ∈ X) ->
  l = merge_sort String.le (elements X).
Proof.
  intros [Hs Hn]%strict_sorted Hk. apply (StronglySorted_unique String.le).
  - done.
  - apply StronglySorted_merge_sort; apply _.
  - rewrite merge_sort_Permutation. apply NoDup_Permutation; [done|apply NoDup_elements|].
    intros k. by rewrite Hk, elem_of_elements.
Qed.

(** ** Lists *)

Lemma map_fmap {A B} (h : A -> B) l : map h l = h <$> l.
Proof. by induction l as [|a l IH]; cbn; [|rewrite IH]. Qed.

Lemma NoDup_filter_fmap {A B} (h : A -> B) f l : NoDup (h <$> l) -> NoDup (h <$> List.filter f l).
Proof.
  induction l as [|a l IH]; cbn [List.filter fmap list_fmap]; [done|]. rewrite NoDup_cons. intros [Ha Hd]. destruct (f a); [|by apply IH].
  apply NoDup_cons. split; [|by apply IH]. intros (b & He & Hb%list_elem_of_In%filter_In)%list_elem_of_fmap. apply Ha. rewrite He.
  apply list_elem_of_fmap_2. destruct Hb as [Hb _]. by apply list_elem_of_In.
Qed.

Lemma Forall_filter_b {A} (P : A -> Prop) f l : Forall P l -> Forall P (List.filter f l).
Proof. rewrite !Forall_forall. intros Hl a Ha%list_elem_of_In%filter_In. apply Hl, list_elem_of_In, Ha. Qed.

(** [sort.SliceStable] by an order: equal elements keep their places. *)
Section Sort.
Context {A : Type} (le : A -> A -> bool).

Fixpoint insert_by (a : A) (l : list A) : list A :=
  match l with
  | [] => [a]
  | b :: l' => if le a b then a :: l else b :: insert_by a l'
  end.

Definition sort_by (l : list A) : list A := foldr insert_by [] l.

Lemma insert_by_perm a l : insert_by a l ≡ₚ a :: l.
Proof. induction l as [|b l IH]; [done|]. cbn. destruct (le a b); [done|]. rewrite IH. apply Permutation_swap. Qed.

Lemma sort_by_perm l : sort_by l ≡ₚ l.
Proof. induction l as [|a l IH]; [done|]. cbn. by rewrite insert_by_perm, IH. Qed.

Lemma insert_by_sorted a l :
  (forall a b, le a b = true \/ le b a = true) -> (forall a b c, le a b = true -> le b c = true -> le a c = true) ->
  StronglySorted (fun a b => le a b = true) l -> StronglySorted (fun a b => le a b = true) (insert_by a l).
Proof.
  intros Ht Htr. induction 1 as [|b l Hl IH Hb]; cbn; [repeat constructor|]. destruct (le a b) eqn:E.
  - constructor; [by constructor|]. constructor; [done|]. eapply Forall_impl; [exact Hb|]. intros c. by apply Htr.
  - constructor; [done|]. rewrite insert_by_perm. constructor; [|done]. destruct (Ht a b); [congruence|done].
Qed.

Lemma sort_by_sorted l :
  (forall a b, le a b = true \/ le b a = true) -> (forall a b c, le a b = true -> le b c = true -> le a c = true) ->
  StronglySorted (fun a b => le a b = true) (sort_by l).
Proof. intros Ht Htr. induction l as [|a l IH]; cbn; [constructor|]. by apply insert_by_sorted. Qed.

(** Elements that come before all others keep their order. *)
Lemma insert_by_filter P a l :
  (forall b, P a = true -> P b = false -> le a b = true) -> (forall b, P a = true -> P b = true -> le a b = true) ->
  List.filter P (insert_by a l) = List.filter P (a :: l).
Proof.
  intros H1 H2. induction l as [|b l IH]; [done|]. cbn [insert_by]. destruct (le a b) eqn:E; [done|]. cbn [List.filter] in *. rewrite IH.
  destruct (P a) eqn:Pa; [|done]. destruct (P b) eqn:Pb; [|done]. rewrite H2 in E; done.
Qed.

Lemma sort_by_filter P l :
  (forall a b, P a = true -> le a b = true) -> List.filter P (sort_by l) = List.filter P l.
Proof.
  intros Hle. induction l as [|a l IH]; [done|]. cbn [sort_by foldr]. rewrite insert_by_filter by auto. cbn [List.filter].
  unfold sort_by in IH. by rewrite IH.
Qed.

End Sort.

(** ** Automation

    [go] proves the ranges of machine integers and bytes, and rewrites the
    lengths of encoded data. *)

Lemma length_bytes_Z s : length (bytes_Z s) = String.length s.
Proof. unfold bytes_Z. rewrite length_map. induction s; simpl; congruence. Qed.

Create HintDb go.
#[export] Hint Resolve wrap64_range wrapu64_range byte_Z_range be_Z_range : go.
#[export] Hint Resolve has_prefix_nil ascii_compare_refl ltb_irrefl : go.
#[export] Hint Rewrite @length_app @length_map length_Z_be length_put_uint64 length_bytes_Z : go.
