(* ===== verification/Record.v ===== *)
(** * store/record.go: records, their errors, and the names a store accepts *)

From Stdlib Require Import ZArith Lia Ascii String Strings.Byte.
From stdpp Require Import base option list gmap strings sorting.
From S2P Require Import Prelude.

Open Scope Z_scope.
Open Scope go_scope.

(** ** Data *)

Definition AnyRevision : Z := 0.
Definition maxRecordNamespaceLen : Z := 128.
Definition maxRecordKeyLen : Z := 512.
Definition recordKeySeparator : ascii := "/".

(** A record: an opaque value under a namespace and a key. [Value] is [None]
    for a nil slice; the times are nanoseconds since the Unix epoch. *)
Record record : Type := mkRecord {
  Namespace : string;
  Key : string;
  Value : option (list byte);
  Revision : Z;
  Created : Z;
  Updated : Z
}.

(** The sentinel errors callers match with [errors.Is]. *)
Inductive sentinel : Type :=
  | ErrRecordNotExist
  | ErrRecordExist
  | ErrRecordConflict
  | ErrInvalidRecordNamespace
  | ErrInvalidRecordKey.

#[export] Instance sentinel_eq_dec : EqDecision sentinel.
Proof. solve_decision. Defined.

(** The errors of the record stores. [OpaqueError] is an error of code the
    stores only call (the Bolt library, a test hook), and [Wrapped] is
    [fmt.Errorf] with a [%w] verb. *)
Inductive error : Type :=
  | RecordNotExistError (namespace key : string)
  | RecordExistError (namespace key : string)
  | RecordConflictError (namespace key : string) (expected actual : Z)
  | InvalidRecordError (namespace key : string) (reason : text) (err : sentinel)
  | errBoltRecordFormat
  | OpaqueError (what : string)
  | Wrapped (context : text) (err : error).

Definition NewRecordNotExistError (namespace key : string) : error :=
  RecordNotExistError namespace key.

Definition NewRecordExistError (namespace key : string) : error :=
  RecordExistError namespace key.

Definition NewRecordConflictError (namespace key : string) (expected actual : Z) : error :=
  RecordConflictError namespace key expected actual.

Definition newInvalidNamespaceError (namespace : string) (reason : text) : error :=
  InvalidRecordError namespace "" reason ErrInvalidRecordNamespace.

Definition newInvalidKeyError (key : string) (reason : text) : error :=
  InvalidRecordError "" key reason ErrInvalidRecordKey.

(** [Unwrap] of each error, and [errors.Is] against a sentinel, which follows
    it. *)
Definition Unwrap (e : error) : option (error + sentinel) :=
  match e with
  | RecordNotExistError _ _ => Some (inr ErrRecordNotExist)
  | RecordExistError _ _ => Some (inr ErrRecordExist)
  | RecordConflictError _ _ _ _ => Some (inr ErrRecordConflict)
  | InvalidRecordError _ _ _ err => Some (inr err)
  | errBoltRecordFormat | OpaqueError _ => None
  | Wrapped _ err => Some (inl err)
  end.

Fixpoint errors_Is (e : error) (s : sentinel) : bool :=
  match e with
  | RecordNotExistError _ _ => bool_decide (ErrRecordNotExist = s)
  | RecordExistError _ _ => bool_decide (ErrRecordExist = s)
  | RecordConflictError _ _ _ _ => bool_decide (ErrRecordConflict = s)
  | InvalidRecordError _ _ _ err => bool_decide (err = s)
  | errBoltRecordFormat | OpaqueError _ => false
  | Wrapped _ err => errors_Is err s
  end.

(** The error at the end of a chain of wrapped errors. *)
Fixpoint cause (e : error) : error :=
  match e with
  | Wrapped _ err => cause err
  | _ => e
  end.

(** ** Names *)

Definition isRecordNameStart (r : Z) : bool :=
  in_range 97 122 r || in_range 65 90 r || in_range 48 57 r.

(** '-' is 45, '_' is 95 and '.' is 46. *)
Definition isRecordNameRune (r : Z) : bool :=
  isRecordNameStart r || (r =? 45) || (r =? 95) || (r =? 46).

(** The first rune of the range loop that is no record name rune. *)
Definition first_bad_rune (ok : Z -> bool) (s : string) : option Z :=
  List.find (fun r => negb (ok r)) (runes s).

Definition ValidateRecordNamespace (namespace : string) : res error unit :=
  match namespace with
  | EmptyString => Err (newInvalidNamespaceError namespace (lit "namespace must not be empty"))
  | String c _ =>
      if maxRecordNamespaceLen <? slen namespace then
        Err (newInvalidNamespaceError namespace
               (Sprintf "namespace must be at most %d bytes" [AInt maxRecordNamespaceLen]))
      else if negb (isRecordNameStart (ascii_Z c)) then
        Err (newInvalidNamespaceError namespace
               (lit "namespace must start with an alphanumeric character"))
      else
        match first_bad_rune isRecordNameRune namespace with
        | Some r =>
            Err (newInvalidNamespaceError namespace
                   (Sprintf "namespace contains invalid character %q" [ARune r]))
        | None => Ok tt
        end
  end.

(** [r < ' ' || r == 0x7f]. *)
Definition isControl (r : Z) : bool := (r <? 32) || (r =? 127).

Definition relative_segment (segment : string) : bool :=
  String.eqb segment "." || String.eqb segment "..".

Definition validateRecordKeyOrPrefix (key : string) (isPrefix : bool) : res error unit :=
  if maxRecordKeyLen <? slen key then
    Err (newInvalidKeyError key (Sprintf "key must be at most %d bytes" [AInt maxRecordKeyLen]))
  else if negb (valid_utf8 key) then
    Err (newInvalidKeyError key (lit "key must be valid UTF-8"))
  else if has_prefix key "/" then
    Err (newInvalidKeyError key (lit "key must not start with '/'"))
  else if negb isPrefix && has_suffix key "/" then
    Err (newInvalidKeyError key (lit "key must not end with '/'"))
  else if contains key "//" then
    Err (newInvalidKeyError key (lit "key must not contain empty segments"))
  else if existsb isControl (runes key) then
    Err (newInvalidKeyError key (lit "key must not contain control characters"))
  else if existsb relative_segment (split_on recordKeySeparator key) then
    Err (newInvalidKeyError key (lit "key must not contain relative path segments"))
  else Ok tt.

Definition ValidateRecordKey (key : string) : res error unit :=
  match key with
  | EmptyString => Err (newInvalidKeyError key (lit "key must not be empty"))
  | _ => validateRecordKeyOrPrefix key false
  end.

Definition ValidateRecordPrefix (prefix : string) : res error unit :=
  match prefix with
  | EmptyString => Ok tt
  | _ => validateRecordKeyOrPrefix prefix true
  end.

Definition ValidateRecordDeletePrefix (prefix : string) : res error unit :=
  match prefix with
  | EmptyString => Err (newInvalidKeyError prefix (lit "delete prefix must not be empty"))
  | _ => validateRecordKeyOrPrefix prefix true
  end.

(** The copy has its own backing array; a nil value stays nil. *)
Definition CopyRecordValue (value : option (list byte)) : option (list byte) :=
  match value with
  | None => None
  | Some bs => Some bs
  end.

(** ** Facts about names *)

Definition nonempty (s : string) : bool := negb (String.eqb s "").

Lemma split_on_nonempty c s : exists p ps, split_on c s = p :: ps.
Proof.
  destruct s as [|a s]; simpl; [by eexists _, _|].
  destruct (Ascii.eqb a c); [by eexists _, _|]. destruct (split_on c s); by eexists _, _.
Qed.

(** The slashes of a string, by the pieces between them: no piece after the
    first is empty exactly when the string does not end with a slash and has
    no two slashes in a row. *)
Lemma split_tail_nonempty s :
  forallb nonempty (tail (split_on "/" s)) = negb (has_suffix s "/") && negb (contains s "//").
Proof.
  induction s as [|a s IH]; [done|]. cbn [split_on has_suffix contains].
  destruct (Ascii.eqb_spec a "/") as [->|Hne].
  - cbn [tail]. destruct s as [|b s]; [done|].
    destruct (split_on_nonempty "/" (String b s)) as (p & ps & E).
    rewrite E in IH |- *. cbn [tail forallb] in IH |- *. rewrite IH.
    cbn [split_on] in E. replace (String.eqb (String "/" (String b s)) "/") with false by done.
    change (String.prefix "//" (String "/" (String b s))) with (has_prefix (String "/" (String b s)) "//").
    rewrite !has_prefix_cons, bool_decide_true by done.
    destruct (Ascii.eqb_spec b "/") as [->|Hb].
    + injection E as <- <-. rewrite bool_decide_true, has_prefix_nil by done. cbn. by rewrite andb_false_r.
    + rewrite bool_decide_false by done. simpl.
      destruct (split_on "/" s); injection E as <- <-; done.
  - assert (String.eqb (String a s) "/" = false) as -> by (simpl; by destruct (Ascii.eqb_spec a "/")).
    change (String.prefix "//" (String a s)) with (has_prefix (String a s) "//").
    rewrite has_prefix_cons, bool_decide_false by done. simpl. rewrite <- IH.
    by destruct (split_on "/" s).
Qed.

Lemma split_head_nonempty s :
  nonempty (hd "" (split_on "/" s)) = nonempty s && negb (has_prefix s "/").
Proof.
  destruct s as [|a s]; [done|]. cbn [split_on]. rewrite has_prefix_cons.
  destruct (Ascii.eqb_spec a "/") as [->|Hne].
  - rewrite bool_decide_true by done. by destruct s.
  - rewrite bool_decide_false by done. by destruct (split_on "/" s).
Qed.

(** What a segment of a stored key may be. *)
Definition safe_segment (seg : string) : Prop := seg <> "" /\ seg <> "." /\ seg <> "..".

Lemma relative_segment_false seg : relative_segment seg = false <-> seg <> "." /\ seg <> "..".
Proof.
  unfold relative_segment. rewrite orb_false_iff.
  by rewrite !String.eqb_neq.
Qed.

Lemma safe_segments l :
  Forall safe_segment l <-> forallb nonempty l = true /\ existsb relative_segment l = false.
Proof.
  induction l as [|x l IH]; [done|]. simpl. rewrite Forall_cons, IH, andb_true_iff, orb_false_iff.
  rewrite relative_segment_false. unfold safe_segment, nonempty.
  rewrite negb_true_iff, String.eqb_neq. tauto.
Qed.

Lemma key_segments s :
  forallb nonempty (split_on "/" s) =
    nonempty s && negb (has_prefix s "/") && (negb (has_suffix s "/") && negb (contains s "//")).
Proof.
  rewrite <- split_head_nonempty, <- split_tail_nonempty.
  by destruct (split_on_nonempty "/" s) as (p & ps & ->).
Qed.

(** The names a Bolt bucket or key can take: see [Bolt]. *)
Lemma valid_key_ok key : ValidateRecordKey key = Ok tt -> key <> "" /\ slen key <= maxRecordKeyLen.
Proof.
  destruct key; [done|]. simpl. unfold validateRecordKeyOrPrefix.
  destruct (Z.ltb_spec maxRecordKeyLen (slen (String a key))); [done|]. done.
Qed.

Lemma valid_namespace_ok ns :
  ValidateRecordNamespace ns = Ok tt -> ns <> "" /\ slen ns <= maxRecordNamespaceLen.
Proof.
  destruct ns; [done|]. unfold ValidateRecordNamespace.
  destruct (Z.ltb_spec maxRecordNamespaceLen (slen (String a ns))); [done|]. done.
Qed.

Lemma isRecordNameRune_ascii r : isRecordNameRune r = true -> r < 128.
Proof. unfold isRecordNameRune, isRecordNameStart, in_range. lia. Qed.

(** The checks of a key, one by one. *)
Lemma valid_key_checks key :
  key <> "" ->
  ValidateRecordKey key = Ok tt <->
    slen key <= 512 /\ valid_utf8 key = true /\ Forall (fun r => isControl r = false) (runes key) /\
    forallb nonempty (split_on "/" key) = true /\ existsb relative_segment (split_on "/" key) = false.
Proof.
  rewrite <- existsb_Forall, key_segments. destruct key as [|a key]; [done|]. intros _.
  unfold ValidateRecordKey, validateRecordKeyOrPrefix, maxRecordKeyLen, recordKeySeparator.
  cbn [negb andb nonempty String.eqb].
  destruct (Z.ltb_spec 512 (slen (String a key))); [split; [done|lia]|].
  destruct (valid_utf8 _); [|refute].
  destruct (has_prefix _ _); [refute|].
  destruct (has_suffix _ _); [refute|].
  destruct (contains _ _); [refute|].
  destruct (existsb isControl _); [refute|].
  destruct (existsb relative_segment _); [refute|]. by simpl; intuition.
Qed.

(** A record key is accepted exactly when it is at most 512 bytes of valid
    UTF-8 without control characters and every piece between its slashes is a
    safe segment: not empty, not "." and not "..". So an accepted key can
    neither escape nor collide with another key space. *)
Theorem ValidateRecordKey_iff key :
  ValidateRecordKey key = Ok tt <->
    slen key <= 512 /\ valid_utf8 key = true /\
    Forall (fun r => isControl r = false) (runes key) /\
    Forall safe_segment (split_on "/" key).
Proof.
  destruct (decide (key = "")) as [->|Hne].
  - split; [done|]. intros (_ & _ & _ & [[? _] _]%(Forall_cons safe_segment "" [])). done.
  - by rewrite valid_key_checks, safe_segments.
Qed.

(** A namespace is accepted exactly when it is 1 to 128 bytes, starts with
    an ASCII letter or digit, and every byte of it is an ASCII letter or digit,
    '-', '_' or '.': a multi-byte character is never accepted. *)
Theorem ValidateRecordNamespace_iff ns :
  ValidateRecordNamespace ns = Ok tt <->
    1 <= slen ns <= 128 /\
    Forall (fun b => isRecordNameRune b = true) (bytes_Z ns) /\
    isRecordNameStart (hd 0 (bytes_Z ns)) = true.
Proof.
  destruct ns as [|a ns]; [split; [done|cbn; lia]|].
  unfold ValidateRecordNamespace, maxRecordNamespaceLen, first_bad_rune.
  rewrite <- forallb_Forall.
  assert (1 <= slen (String a ns)) by (unfold slen; cbn; lia).
  destruct (Z.ltb_spec 128 (slen (String a ns))); [split; [done|lia]|].
  change (hd 0 (bytes_Z (String a ns))) with (ascii_Z a).
  destruct (isRecordNameStart (ascii_Z a)); cbn [negb]; [|refute].
  pose proof (runes_ascii_only isRecordNameRune (String a ns) isRecordNameRune_ascii) as E.
  pose proof (find_none_forallb isRecordNameRune (runes (String a ns))) as F.
  rewrite E in F. destruct (List.find _ _).
  - split; [done|]. intros (_ & H' & _). by apply F in H'.
  - split; [|done]. intros _. split_and!; [lia|lia|by apply F|done].
Qed.
