(* ===== verification/RecordSpec.v ===== *)
(** * store/store.go: what a record store promises

    [RecordStore] and [RecordTx] are interfaces; their comments are the
    contract. It is written here as an abstract store, a finite map from
    (namespace, key) to records with the last revision given, and as a
    typeclass that an implementation instantiates by proving that each of its
    operations does what the abstract store does. *)

From Stdlib Require Import ZArith Lia Ascii String Strings.Byte.
From stdpp Require Import base option list gmap strings sorting.
From S2P Require Import Prelude Record.

Open Scope Z_scope.
Open Scope go_scope.

(** The namespace and the key are both good names. *)
Definition validateRecordNamespaceAndKey (namespace key : string) : res error unit :=
  let? _ := ValidateRecordNamespace namespace in ValidateRecordKey key.

Definition validateRecordNamespaceAndPrefix (namespace prefix : string) : res error unit :=
  let? _ := ValidateRecordNamespace namespace in ValidateRecordPrefix prefix.

Definition checkRecordRevision (namespace key : string) (expected actual : Z) : res error unit :=
  if (expected =? AnyRevision) || (expected =? actual) then Ok tt
  else Err (NewRecordConflictError namespace key expected actual).

(** Nil and empty values are one value: a store need not tell them apart. *)
Definition bytes_of (v : option (list byte)) : list byte := default [] v.

Definition canon (r : record) : record :=
  mkRecord (Namespace r) (Key r) (Some (bytes_of (Value r))) (Revision r) (Created r) (Updated r).

(** ** The operations of a transaction

    [now] is what [time.Now] returns to the operation, in nanoseconds. *)
Inductive tx_op : Type :=
  | GetRecord (namespace key : string)
  | CreateRecord (now : Z) (namespace key : string) (value : option (list byte))
  | UpdateRecord (now : Z) (namespace key : string) (value : option (list byte)) (expected : Z)
  | DeleteRecord (namespace key : string) (expected : Z)
  | DeleteRecordPrefix (namespace prefix : string).

Inductive reply : Type :=
  | ARecord (r : record)
  | ADone
  | ACount (n : Z).

Definition canon_reply (a : reply) : reply :=
  match a with
  | ARecord r => ARecord (canon r)
  | _ => a
  end.

(** ** The abstract store *)

Module Spec.

Record state : Type := mkState { rev : Z; recs : gmap (string * string) record }.

Definition empty : state := mkState 0 ∅.

(** The keys of a namespace that start with [prefix]. *)
Definition keys (s : state) (namespace prefix : string) : gset string :=
  set_map snd (filter (fun p => p.1 = namespace /\ has_prefix p.2 prefix = true) (dom (recs s))).

Definition sorted_keys (s : state) (namespace prefix : string) : list string :=
  merge_sort String.le (elements (keys s namespace prefix)).

Definition lookup (namespace key : string) (s : state) : res error record :=
  match recs s !! (namespace, key) with
  | Some r => Ok r
  | None => Err (NewRecordNotExistError namespace key)
  end.

(** A write takes the next revision. *)
Definition write (r : record) (s : state) : state :=
  mkState (Revision r) (<[(Namespace r, Key r) := r]> (recs s)).

Definition get (namespace key : string) : st state error record := fun s =>
  (let? _ := validateRecordNamespaceAndKey namespace key in lookup namespace key s, s).

Definition create (now : Z) (namespace key : string) (value : option (list byte))
  : st state error record := fun s =>
  match validateRecordNamespaceAndKey namespace key with
  | Err e => (Err e, s)
  | Ok _ =>
      match recs s !! (namespace, key) with
      | Some _ => (Err (NewRecordExistError namespace key), s)
      | None =>
          let r := mkRecord namespace key (Some (bytes_of value)) (rev s + 1) now now in
          (Ok r, write r s)
      end
  end.

Definition update (now : Z) (namespace key : string) (value : option (list byte)) (expected : Z)
  : st state error record := fun s =>
  match (let? _ := validateRecordNamespaceAndKey namespace key in
         let? old := lookup namespace key s in
         let? _ := checkRecordRevision namespace key expected (Revision old) in Ok old) with
  | Err e => (Err e, s)
  | Ok old =>
      let r := mkRecord namespace key (Some (bytes_of value)) (rev s + 1) (Created old) now in
      (Ok r, write r s)
  end.

Definition delete (namespace key : string) (expected : Z) : st state error unit := fun s =>
  match (let? _ := validateRecordNamespaceAndKey namespace key in
         let? old := lookup namespace key s in
         checkRecordRevision namespace key expected (Revision old)) with
  | Err e => (Err e, s)
  | Ok _ => (Ok tt, mkState (rev s) (base.delete (namespace, key) (recs s)))
  end.

Definition delete_prefix (namespace prefix : string) : st state error Z := fun s =>
  match (let? _ := ValidateRecordNamespace namespace in ValidateRecordDeletePrefix prefix) with
  | Err e => (Err e, s)
  | Ok _ =>
      (Ok (Z.of_nat (size (keys s namespace prefix))),
       mkState (rev s)
         (filter (fun '((n, k), _) => ~ (n = namespace /\ has_prefix k prefix = true)) (recs s)))
  end.

(** Listing gives the records with the prefix, ordered by key. *)
Definition list_keys (namespace prefix : string) (s : state) : res error (list string) :=
  let? _ := validateRecordNamespaceAndPrefix namespace prefix in
  Ok (sorted_keys s namespace prefix).

Definition list_records (namespace prefix : string) (s : state) : res error (list record) :=
  let? _ := validateRecordNamespaceAndPrefix namespace prefix in
  Ok (omap (fun k => recs s !! (namespace, k)) (sorted_keys s namespace prefix)).

Definition run (o : tx_op) : st state error reply :=
  match o with
  | GetRecord ns k => let! r := get ns k in st_ret (ARecord r)
  | CreateRecord now ns k v => let! r := create now ns k v in st_ret (ARecord r)
  | UpdateRecord now ns k v e => let! r := update now ns k v e in st_ret (ARecord r)
  | DeleteRecord ns k e => let! _ := delete ns k e in st_ret ADone
  | DeleteRecordPrefix ns p => let! n := delete_prefix ns p in st_ret (ACount n)
  end.

(** The abstract store's own invariant: each record is under its own name,
    with a revision the store gave, and no two records share one. *)
Definition wf (s : state) : Prop :=
  0 <= rev s /\
  (forall ns k r, recs s !! (ns, k) = Some r ->
     Namespace r = ns /\ Key r = k /\ 0 < Revision r <= rev s /\ Value r = Some (bytes_of (Value r))) /\
  (forall p q r1 r2, recs s !! p = Some r1 -> recs s !! q = Some r2 ->
     Revision r1 = Revision r2 -> p = q).

End Spec.

(** ** The interface

    [in_bounds o s] is what an operation needs of the machine: times and sizes
    that can be stored and a revision that is not used up. *)
Definition errors_match (e e' : error) : Prop := cause e = cause e'.

Definition replies_match (a a' : res error reply) : Prop :=
  match a, a' with
  | Ok x, Ok y => canon_reply x = y
  | Err e, Err e' => errors_match e e'
  | _, _ => False
  end.

Definition in_bounds (o : tx_op) (s : Spec.state) : Prop :=
  Spec.rev s < 2 ^ 63 - 1 /\
  match o with
  | CreateRecord now _ _ v | UpdateRecord now _ _ v _ =>
      int64 now /\ Z.of_nat (length (bytes_of v)) <= 2 ^ 30
  | _ => True
  end.

Class RecordTx (S : Type) : Type := {
  tx_run : tx_op -> st S error reply;
  tx_rel : S -> Spec.state -> Prop
}.

(** An implementation does what the abstract store does, step by step. *)
Class RecordTxRefines (S : Type) `{RecordTx S} : Prop := {
  tx_refines (o : tx_op) (c : S) (s : Spec.state) :
    tx_rel c s -> in_bounds o s ->
    replies_match (fst (tx_run o c)) (fst (Spec.run o s)) /\
    tx_rel (snd (tx_run o c)) (snd (Spec.run o s))
}.

(** ** Clients

    What a caller of [RecordTxn] does in its transaction: it calls operations,
    and what it does next depends on what it saw. A caller sees a record up to
    nil and empty values, and an error up to the messages it is wrapped in. *)
Inductive client (A : Type) : Type :=
  | Return (r : res error A)
  | Call (o : tx_op) (k : res error reply -> client A).
Arguments Return {A} r.
Arguments Call {A} o k.

Definition view (a : res error reply) : res error reply :=
  match a with
  | Ok x => Ok (canon_reply x)
  | Err e => Err (cause e)
  end.

Fixpoint run_client {S A} (run : tx_op -> st S error reply) (c : client A) : st S error A :=
  match c with
  | Return r => st_lift r
  | Call o k => fun s => let '(a, s') := run o s in run_client run (k (view a)) s'
  end.

(** Each operation the client calls is within the bounds where it calls it. *)
Fixpoint fits {A} (c : client A) (s : Spec.state) : Prop :=
  match c with
  | Return _ => True
  | Call o k => in_bounds o s /\ fits (k (view (fst (Spec.run o s)))) (snd (Spec.run o s))
  end.

(** A transaction: the client's changes are kept only when it returned no
    error. *)
Definition spec_txn {A} (c : client A) : st Spec.state error A := fun s =>
  match run_client Spec.run c s with
  | (Ok a, s') => (Ok a, s')
  | (Err e, _) => (Err e, s)
  end.

Lemma view_match a a' : replies_match a a' -> view a = view a'.
Proof.
  destruct a as [x|e], a' as [y|e']; simpl; try done.
  - intros <-. by destruct x.
  - unfold errors_match. by intros ->.
Qed.

(** An implementation of the interface runs every client as the abstract store
    does. *)
Lemma client_refines {S A} `{RecordTxRefines S} (c : client A) (t : S) (s : Spec.state) :
  tx_rel t s -> fits c s ->
  fst (run_client tx_run c t) = fst (run_client Spec.run c s) /\
  tx_rel (snd (run_client tx_run c t)) (snd (run_client Spec.run c s)).
Proof.
  revert t s. induction c as [r|o k IH]; intros t s Hrel Hfit; [done|].
  destruct Hfit as [Hb Hfit]. cbn [run_client].
  destruct (tx_refines o t s Hrel Hb) as [Hm Hrel'].
  destruct (tx_run o t) as [a t'], (Spec.run o s) as [a' s']. simpl in *.
  rewrite (view_match _ _ Hm). by apply IH.
Qed.

(** ** Revisions *)

(** [s'] comes after [s]: a record of [s'] with a revision that [s] had given
    already is the record of [s]. *)
Definition later (s s' : Spec.state) : Prop :=
  Spec.rev s <= Spec.rev s' /\
  forall p r, Spec.recs s' !! p = Some r -> Revision r <= Spec.rev s -> Spec.recs s !! p = Some r.

#[export] Instance later_preorder : PreOrder later.
Proof.
  split.
  - intros s. by split; [lia|].
  - intros s1 s2 s3 [H1 H1'] [H2 H2']. split; [lia|]. intros p r Hr Hle.
    apply H1'; [|done]. apply H2'; [done|lia].
Qed.

Lemma wf_write s ns k v c u :
  Spec.wf s ->
  Spec.wf (Spec.write (mkRecord ns k (Some (bytes_of v)) (Spec.rev s + 1) c u) s).
Proof.
  intros (H0 & H1 & H2). unfold Spec.write. split; [simpl; lia|]. split; cbn [Spec.rev Spec.recs].
  - intros ns' k' r. cbn. rewrite lookup_insert_Some. intros [[[= <- <-] <-]|[_ Hr]].
    + cbn. split_and!; auto; lia.
    + apply H1 in Hr as (?&?&?&?). split_and!; auto; lia.
  - intros p q r1 r2. cbn. rewrite !lookup_insert_Some.
    intros [[<- <-]|[Hp Hr1]] [[<- <-]|[Hq Hr2]] Heq; try done; cbn in Heq.
    + destruct q. apply H1 in Hr2. lia.
    + destruct p. apply H1 in Hr1. lia.
    + by eapply H2.
Qed.

Lemma later_write s r : Spec.rev s < Revision r -> later s (Spec.write r s).
Proof.
  intros Hr. split; cbn; [lia|]. intros p r'. rewrite lookup_insert_Some.
  intros [[_ <-]|[_ ?]]; [lia|done].
Qed.

(** Dropping records keeps the invariant. *)
Lemma wf_drop s m :
  Spec.wf s -> m ⊆ Spec.recs s -> Spec.wf (Spec.mkState (Spec.rev s) m).
Proof.
  intros (H0 & H1 & H2) Hsub. split; [done|]. cbn [Spec.rev Spec.recs]. split.
  - intros ns k r Hr. apply H1. by eapply lookup_weaken.
  - intros p q r1 r2 Hr1 Hr2. apply H2; by eapply lookup_weaken.
Qed.

Lemma later_drop s m : m ⊆ Spec.recs s -> later s (Spec.mkState (Spec.rev s) m).
Proof. intros Hsub. split; cbn; [lia|]. intros. by eapply lookup_weaken. Qed.

Lemma st_ret_snd {S E A B} (m : st S E A) (f : A -> B) s :
  snd ((let! x := m in st_ret (f x)) s) = snd (m s).
Proof. unfold st_bind. by destruct (m s) as [[?|?] ?]. Qed.

Lemma run_wf_later o s :
  Spec.wf s -> Spec.wf (snd (Spec.run o s)) /\ later s (snd (Spec.run o s)).
Proof.
  intros Hwf.
  assert (Hsame : Spec.wf s /\ later s s) by (split; [done|reflexivity]).
  destruct o; cbn [Spec.run]; rewrite st_ret_snd.
  - done.
  - unfold Spec.create. destruct (validateRecordNamespaceAndKey _ _) as [[]|]; [|done].
    destruct (_ !! _); [done|]. split; [by apply wf_write|]. apply later_write. cbn. lia.
  - unfold Spec.update. destruct (let? _ := _ in _) as [old|]; [|done].
    split; [by apply wf_write|]. apply later_write. cbn. lia.
  - unfold Spec.delete. destruct (let? _ := _ in _) as [[]|]; [|done].
    split; [apply wf_drop; [done|]|apply later_drop]; apply delete_subseteq.
  - unfold Spec.delete_prefix. destruct (let? _ := _ in _) as [[]|]; [|done].
    split; [apply wf_drop; [done|]|apply later_drop]; apply map_filter_subseteq.
Qed.

Lemma run_client_wf_later {A} (c : client A) s :
  Spec.wf s ->
  Spec.wf (snd (run_client Spec.run c s)) /\ later s (snd (run_client Spec.run c s)).
Proof.
  revert s. induction c as [r|o k IH]; intros s Hwf; [split; [done|reflexivity]|].
  cbn [run_client]. destruct (run_wf_later o s Hwf) as [Hwf1 Hl1].
  destruct (Spec.run o s) as [a s1]. simpl in *.
  destruct (IH (view a) s1 Hwf1) as [? ?]. split; [done|]. by etransitivity.
Qed.

(** A revision names one write: the record that has it later is the record
    that had it before, wherever it is. *)
Lemma revision_names_write s s' p q r r' :
  Spec.wf s -> later s s' -> Spec.recs s !! p = Some r -> Spec.recs s' !! q = Some r' ->
  Revision r' = Revision r -> p = q /\ r = r'.
Proof.
  intros Hwf [_ Hl] Hp Hq Heq.
  assert (Revision r <= Spec.rev s).
  { destruct Hwf as (_ & H1 & _). destruct p. by apply H1 in Hp as (_&_&[_ ?]&_). }
  pose proof (Hl q r' Hq ltac:(lia)) as Hq'. destruct Hwf as (_ & _ & Hu). assert (p = q) as <- by (eapply Hu; [done..|congruence]).
  split; [done|congruence].
Qed.

Lemma wf_empty : Spec.wf Spec.empty.
Proof. split; [done|]. split; intros *; cbn; by rewrite lookup_empty. Qed.

(** ** Keys and prefixes *)

Lemma elem_of_keys s ns prefix k :
  k ∈ Spec.keys s ns prefix <-> is_Some (Spec.recs s !! (ns, k)) /\ has_prefix k prefix = true.
Proof.
  unfold Spec.keys. rewrite elem_of_map. split.
  - intros ([n j] & -> & Hf). simpl. apply elem_of_filter in Hf as [[Hn Hp] Hd]. simpl in *. subst n.
    split; [by apply elem_of_dom|done].
  - intros [Hk Hp]. exists (ns, k). split; [done|]. apply elem_of_filter. split; [done|].
    by apply elem_of_dom.
Qed.

Lemma elem_of_sorted_keys s ns prefix k :
  k ∈ Spec.sorted_keys s ns prefix <->
    is_Some (Spec.recs s !! (ns, k)) /\ has_prefix k prefix = true.
Proof. unfold Spec.sorted_keys. by rewrite merge_sort_Permutation, elem_of_elements, elem_of_keys. Qed.

(** Deleting the keys with the prefix one by one leaves the others. *)
Lemma foldl_delete_lookup (ns : string) (ks : list string) (m : gmap (string * string) record)
    (p : string * string) :
  foldl (fun m k => base.delete (ns, k) m) m ks !! p =
    if decide (p.1 = ns /\ p.2 ∈ ks) then None else m !! p.
Proof.
  revert m. induction ks as [|k ks IH]; intros m; cbn [foldl].
  - rewrite decide_False; [done|]. by intros [_ ?%elem_of_nil].
  - rewrite IH. destruct p as [n j]. simpl.
    destruct (decide (n = ns /\ j ∈ ks)) as [[-> Hj]|Hn].
    + rewrite decide_True by (split; [done|by right]). done.
    + destruct (decide ((n, j) = (ns, k))) as [[= -> ->]|Hne].
      * by rewrite lookup_delete_eq, decide_True by (split; [done|left]).
      * rewrite lookup_delete_ne by done. rewrite decide_False; [done|].
        rewrite elem_of_cons. intros [-> [->|Hj]]; [done|]. by apply Hn.
Qed.

(** Any list that has all the keys with the prefix, and no other, will do. *)
Lemma foldl_delete_filter s ns prefix ks :
  (forall k, k ∈ ks -> has_prefix k prefix = true) ->
  (forall k, k ∈ Spec.keys s ns prefix -> k ∈ ks) ->
  foldl (fun m k => base.delete (ns, k) m) (Spec.recs s) ks =
    filter (fun '((n, k), _) => ~ (n = ns /\ has_prefix k prefix = true)) (Spec.recs s).
Proof.
  intros Hp Hk. apply map_eq. intros [n k]. rewrite foldl_delete_lookup. simpl.
  destruct (Spec.recs s !! (n, k)) as [r|] eqn:E.
  - destruct (decide _) as [[-> Hin]|Hn]; symmetry.
    + apply map_lookup_filter_None. right. intros r' Hr'. simpl. intros Hf. apply Hf. auto.
    + apply map_lookup_filter_Some. split; [done|]. simpl. intros [-> Hpk]. apply Hn.
      split; [done|]. apply Hk, elem_of_keys. rewrite E. by split.
  - destruct (decide _); symmetry; apply map_lookup_filter_None; by left.
Qed.

Lemma delete_sorted_keys s ns prefix :
  foldl (fun m k => base.delete (ns, k) m) (Spec.recs s) (Spec.sorted_keys s ns prefix) =
    filter (fun '((n, k), _) => ~ (n = ns /\ has_prefix k prefix = true)) (Spec.recs s).
Proof.
  apply foldl_delete_filter; intros k.
  - by intros [_ ?]%elem_of_sorted_keys.
  - rewrite elem_of_keys. by intros ?%elem_of_sorted_keys.
Qed.

Lemma length_sorted_keys s ns prefix :
  length (Spec.sorted_keys s ns prefix) = size (Spec.keys s ns prefix).
Proof. unfold Spec.sorted_keys. by rewrite merge_sort_Permutation. Qed.

(** ** Simulation *)

Section Sim.
Context {T : Type} (Rel : T -> Spec.state -> Prop).

(** Two computations agree: results related by [R], or errors with one cause,
    and states related again. *)
Definition sim {A B} (R : A -> B -> Prop) (c : res error A * T) (a : res error B * Spec.state) : Prop :=
  match c.1, a.1 with
  | Ok x, Ok y => R x y
  | Err e, Err e' => errors_match e e'
  | _, _ => False
  end /\ Rel c.2 a.2.

Lemma sim_wrap {A B} (R : A -> B -> Prop) ctx (c : st T error A) t a :
  sim R (c t) a -> sim R (st_wrap (Wrapped ctx) c t) a.
Proof. unfold sim, st_wrap. destruct (c t) as [[x|e] t'], a as [[y|e'] s']; done. Qed.

Definition same_record (r r' : record) : Prop := canon r = r'.

Lemma sim_reply {A B} (R : A -> B -> Prop) f g (c : st T error A) (a : st Spec.state error B) t s :
  sim R (c t) (a s) -> (forall x y, R x y -> canon_reply (f x) = g y) ->
  replies_match (fst ((let! x := c in st_ret (f x)) t)) (fst ((let! y := a in st_ret (g y)) s)) /\
  Rel (snd ((let! x := c in st_ret (f x)) t)) (snd ((let! y := a in st_ret (g y)) s)).
Proof.
  unfold sim, st_bind. destruct (c t) as [[x|e] t'], (a s) as [[y|e'] s']; simpl; intros [? ?] HR;
    split; auto; done.
Qed.
End Sim.
