(* ===== verification/Bolt.v ===== *)
(** * The Bolt key/value library, as store/bolt_record.go uses it

    Bolt (go.etcd.io/bbolt) is third-party code, so the record store is written
    against this interface: the operations of one transaction that the store
    calls, and the documented behaviour it relies on. [MemBolt] is an instance
    of both, which shows that the laws can hold and lets the store run.

    A bucket is named by its path, innermost name first; [[]] is the
    transaction itself, which holds the top-level buckets. *)

From Stdlib Require Import ZArith Lia Ascii String Strings.Byte.
From stdpp Require Import base option list gmap strings sorting.
From S2P Require Import Prelude.

Open Scope Z_scope.

(** Strict byte order, in which a cursor yields keys. *)
Definition key_lt (a b : string) : Prop := String.ltb a b = true.

(** Bolt's limits on a key, a bucket name and a value. *)
Definition MaxKeySize : Z := 32768.
Definition MaxValueSize : Z := 2147483646.

Class Bolt (T : Type) : Type := {
  (** [Bucket(name) != nil], along the path. *)
  bolt_bucket : T -> list string -> bool;
  (** [CreateBucketIfNotExists]. *)
  bolt_create : list string -> T -> res string unit * T;
  (** [Sequence] and [NextSequence]. *)
  bolt_sequence : T -> list string -> Z;
  bolt_next_sequence : list string -> T -> res string Z * T;
  (** [Get], [Put] and [Delete] of a bucket. *)
  bolt_get : T -> list string -> string -> option (list byte);
  bolt_put : list string -> string -> list byte -> T -> res string unit * T;
  bolt_delete : list string -> string -> T -> res string unit * T;
  (** What a cursor yields from [Seek] to the end: each key with its value, or
      with no value for a nested bucket. *)
  bolt_seek : T -> list string -> string -> list (string * option (list byte))
}.

(** What a change of a transaction leaves alone. *)
Definition same_buckets {T} `{Bolt T} (t t' : T) : Prop :=
  forall p, bolt_bucket t' p = bolt_bucket t p.
Definition same_sequences {T} `{Bolt T} (t t' : T) : Prop :=
  forall p, bolt_sequence t' p = bolt_sequence t p.
Definition same_values {T} `{Bolt T} (t t' : T) : Prop :=
  forall p k, bolt_get t' p k = bolt_get t p k.

(** The documented behaviour, in a read-write transaction on a healthy file. *)
Class BoltLaws (T : Type) `{Bolt T} : Prop := {
  bolt_bucket_nil (t : T) : bolt_bucket t [] = true;
  bolt_bucket_parent (t : T) p k : bolt_bucket t (k :: p) = true -> bolt_bucket t p = true;
  bolt_get_no_bucket (t : T) p k : bolt_bucket t p = false -> bolt_get t p k = None;
  bolt_sequence_no_bucket (t : T) p : bolt_bucket t p = false -> bolt_sequence t p = 0;
  bolt_sequence_nonneg (t : T) p : 0 <= bolt_sequence t p;
  (** A new bucket is empty; an existing one is returned. *)
  bolt_create_ok (t : T) p k :
    bolt_bucket t p = true -> k <> "" -> slen k <= MaxKeySize -> bolt_get t p k = None ->
    exists t', bolt_create (k :: p) t = (Ok tt, t') /\
      (forall q, bolt_bucket t' q = bool_decide (q = k :: p) || bolt_bucket t q) /\
      same_sequences t t' /\ same_values t t';
  bolt_next_sequence_ok (t : T) p :
    bolt_bucket t p = true -> bolt_sequence t p < 2 ^ 64 - 1 ->
    exists t', bolt_next_sequence p t = (Ok (bolt_sequence t p + 1), t') /\
      (forall q, bolt_sequence t' q =
                 if decide (q = p) then bolt_sequence t p + 1 else bolt_sequence t q) /\
      same_buckets t t' /\ same_values t t';
  bolt_put_ok (t : T) p k v :
    bolt_bucket t p = true -> k <> "" -> slen k <= MaxKeySize ->
    Z.of_nat (length v) <= MaxValueSize -> bolt_bucket t (k :: p) = false ->
    exists t', bolt_put p k v t = (Ok tt, t') /\
      (forall q j, bolt_get t' q j = if decide ((q, j) = (p, k)) then Some v else bolt_get t q j) /\
      same_buckets t t' /\ same_sequences t t';
  bolt_put_large (t : T) p k v :
    MaxValueSize < Z.of_nat (length v) -> exists e t', bolt_put p k v t = (Err e, t');
  bolt_delete_ok (t : T) p k :
    bolt_bucket t p = true -> bolt_bucket t (k :: p) = false ->
    exists t', bolt_delete p k t = (Ok tt, t') /\
      (forall q j, bolt_get t' q j = if decide ((q, j) = (p, k)) then None else bolt_get t q j) /\
      same_buckets t t' /\ same_sequences t t';
  (** A cursor yields the keys from the one it seeks, in byte order. *)
  bolt_seek_sorted (t : T) p s : StronglySorted key_lt (map fst (bolt_seek t p s));
  bolt_seek_elem (t : T) p s k v :
    bolt_bucket t p = true ->
    (k, v) ∈ bolt_seek t p s <->
      String.leb s k = true /\
      match v with
      | Some bs => bolt_get t p k = Some bs
      | None => bolt_bucket t (k :: p) = true
      end
}.

(** ** An instance in memory *)

Module MemBolt.

(** The entries of each bucket, where an entry without a value is a nested
    bucket, and the bucket's sequence. *)
Abbreviation t := (gmap (list string) (Z * gmap string (option (list byte)))).

Definition entries (m : t) (p : list string) : gmap string (option (list byte)) :=
  match m !! p with
  | Some (_, es) => es
  | None => ∅
  end.

Definition sequence (m : t) (p : list string) : Z :=
  match m !! p with
  | Some (n, _) => n
  | None => 0
  end.

(** A bucket exists when every name of its path is a nested bucket. *)
Fixpoint bucket (m : t) (p : list string) : bool :=
  match p with
  | [] => true
  | k :: q => bucket m q && match entries m q !! k with Some None => true | _ => false end
  end.

Definition get (m : t) (p : list string) (k : string) : option (list byte) :=
  if bucket m p then
    match entries m p !! k with
    | Some (Some v) => Some v
    | _ => None
    end
  else None.

Definition set_entry (m : t) (p : list string) (k : string) (v : option (option (list byte))) : t :=
  <[p := (sequence m p, partial_alter (fun _ => v) k (entries m p))]> m.

Definition bad_name (k : string) : bool := String.eqb k "" || (MaxKeySize <? slen k).

Definition create (p : list string) (m : t) : res string unit * t :=
  match p with
  | [] => (Err "bucket name required", m)
  | k :: q =>
      if bucket m p then (Ok tt, m)
      else if bad_name k || negb (bucket m q) || bool_decide (is_Some (get m q k)) then
        (Err "cannot create bucket", m)
      else (Ok tt, <[k :: q := (0, ∅)]> (set_entry m q k (Some None)))
  end.

(** Sequence numbers are [uint64]: they wrap. A number is kept only for a
    bucket that exists. *)
Definition next_sequence (p : list string) (m : t) : res string Z * t :=
  if bucket m p then
    let n := wrapu64 (Z.abs (sequence m p) + 1) in (Ok n, <[p := (n, entries m p)]> m)
  else (Err "bucket not found", m).

Definition put (p : list string) (k : string) (v : list byte) (m : t) : res string unit * t :=
  if negb (bucket m p) || bad_name k || (MaxValueSize <? Z.of_nat (length v)) || bucket m (k :: p) then (Err "cannot put", m)
  else (Ok tt, set_entry m p k (Some (Some v))).

Definition delete (p : list string) (k : string) (m : t) : res string unit * t :=
  if negb (bucket m p) || bucket m (k :: p) then (Err "cannot delete", m)
  else (Ok tt, set_entry m p k None).

Definition seek (m : t) (p : list string) (s : string) : list (string * option (list byte)) :=
  let ks := merge_sort String.le (elements (dom (entries m p))) in
  omap (fun k => if String.leb s k then pair k <$> entries m p !! k else None) ks.

#[global] Instance bolt : Bolt t := {
  bolt_bucket := bucket;
  bolt_create := create;
  bolt_sequence m p := if bucket m p then Z.abs (sequence m p) else 0;
  bolt_next_sequence := next_sequence;
  bolt_get := get;
  bolt_put := put;
  bolt_delete := delete;
  bolt_seek := seek
}.

(** *** The laws hold *)

Lemma entries_set m p k v q :
  entries (set_entry m p k v) q =
    if decide (q = p) then partial_alter (fun _ => v) k (entries m p) else entries m q.
Proof.
  unfold entries, set_entry. destruct (decide (q = p)) as [->|Hne].
  - by rewrite lookup_insert_eq.
  - by rewrite lookup_insert_ne.
Qed.

Lemma sequence_insert m p n es q :
  sequence (<[p := (n, es)]> m) q = if decide (q = p) then n else sequence m q.
Proof.
  unfold sequence. destruct (decide (q = p)) as [->|Hne].
  - by rewrite lookup_insert_eq.
  - by rewrite lookup_insert_ne.
Qed.

Lemma sequence_set m p k v q : sequence (set_entry m p k v) q = sequence m q.
Proof. unfold set_entry. rewrite sequence_insert. by destruct (decide (q = p)) as [->|]. Qed.

Lemma entries_insert m p n es q :
  entries (<[p := (n, es)]> m) q = if decide (q = p) then es else entries m q.
Proof.
  unfold entries. destruct (decide (q = p)) as [->|Hne].
  - by rewrite lookup_insert_eq.
  - by rewrite lookup_insert_ne.
Qed.

(** An entry that is no bucket, before and after, makes no bucket. *)
Lemma bucket_set m p k v q :
  bucket m p = true -> bucket m (k :: p) = false -> v <> Some None ->
  bucket (set_entry m p k v) q = bucket m q.
Proof.
  intros Hp Hk Hv. simpl in Hk. rewrite Hp in Hk. simpl in Hk.
  induction q as [|j q IH]; [done|]. simpl. rewrite IH, entries_set. f_equal.
  destruct (decide (q = p)) as [->|Hne]; [|done].
  destruct (decide (j = k)) as [->|Hj].
  - rewrite lookup_partial_alter_eq. destruct v as [[|]|]; [|done|];
      by destruct (entries m p !! k) as [[|]|].
  - by rewrite lookup_partial_alter_ne.
Qed.

Lemma get_set m p k v q j :
  bucket m p = true -> bucket m (k :: p) = false -> v <> Some None ->
  get (set_entry m p k v) q j =
    if decide ((q, j) = (p, k)) then v ≫= id else get m q j.
Proof.
  intros Hp Hk Hv. unfold get. rewrite bucket_set, entries_set by done.
  destruct (decide (q = p)) as [->|Hne].
  - rewrite Hp. destruct (decide (j = k)) as [->|Hj].
    + rewrite lookup_partial_alter_eq, decide_True by done. by destruct v as [[|]|].
    + rewrite lookup_partial_alter_ne, decide_False by congruence. done.
  - rewrite decide_False by congruence. done.
Qed.

Lemma bad_name_ok k : k <> "" -> slen k <= MaxKeySize -> bad_name k = false.
Proof.
  intros Hk Hlen. unfold bad_name. rewrite orb_false_iff. split.
  - by apply String.eqb_neq.
  - lia.
Qed.

(** The state [create] leaves when it makes a bucket. *)
Definition created (m : t) (k : string) (p : list string) : t :=
  <[k :: p := (0, ∅)]> (set_entry m p k (Some None)).

Lemma cons_ne (k : string) p : p <> k :: p.
Proof. intros H. apply (f_equal length) in H. simpl in H. lia. Qed.

Lemma bucket_created m k p q :
  bucket m p = true -> bucket m (k :: p) = false ->
  bucket (created m k p) q = bool_decide (q = k :: p) || bucket m q.
Proof.
  intros Hp Hk. induction q as [|j r IH]; [done|].
  cbn [bucket]. rewrite IH. unfold created. rewrite entries_insert.
  destruct (decide (r = k :: p)) as [->|Hr].
  - rewrite lookup_empty, andb_false_r, Hk. simpl. rewrite orb_false_r.
    rewrite bool_decide_false; [done|]. intros [= _ H2]. by apply (cons_ne k p).
  - rewrite bool_decide_false by done. simpl. rewrite entries_set.
    destruct (decide (r = p)) as [->|Hrp].
    + rewrite Hp. destruct (decide (j = k)) as [->|Hj].
      * by rewrite lookup_partial_alter_eq, bool_decide_true.
      * rewrite lookup_partial_alter_ne, bool_decide_false by congruence. done.
    + rewrite bool_decide_false by congruence. done.
Qed.

Lemma get_created m k p q j :
  bucket m p = true -> bucket m (k :: p) = false -> get m p k = None ->
  get (created m k p) q j = get m q j.
Proof.
  intros Hp Hk Hget. unfold get. rewrite bucket_created by done.
  unfold created. rewrite entries_insert, entries_set.
  destruct (decide (q = k :: p)) as [->|Hq].
  - rewrite Hk, bool_decide_true by done. simpl. by rewrite lookup_empty.
  - rewrite bool_decide_false by done. simpl.
    destruct (decide (q = p)) as [->|Hqp]; [|done].
    destruct (decide (j = k)) as [->|Hj]; [|by rewrite lookup_partial_alter_ne].
    rewrite lookup_partial_alter_eq. unfold get in Hget. simpl in Hk. rewrite Hp in *.
    simpl in *. by destruct (entries m p !! k) as [[|]|].
Qed.

Lemma seek_elem m p s k v :
  (k, v) ∈ seek m p s <-> String.leb s k = true /\ entries m p !! k = Some v.
Proof.
  unfold seek. rewrite list_elem_of_omap. split.
  - intros (j & Hj & Hs). destruct (String.leb s j) eqn:E; [|done].
    destruct (entries m p !! j) as [w|] eqn:Ej; [|done]. by simplify_eq/=.
  - intros [Hs Hk]. exists k. rewrite Hs, Hk. split; [|done].
    rewrite merge_sort_Permutation, elem_of_elements, elem_of_dom. by eexists.
Qed.

Lemma key_lt_of_le a b : String.le a b -> a <> b -> key_lt a b.
Proof.
  unfold String.le, String.leb, key_lt, String.ltb. intros Hle Hne.
  destruct (String.compare a b) eqn:E; [|done|done].
  by apply String.compare_eq_iff in E.
Qed.

Lemma sorted_omap_fst {A} (f : string -> option A) (l : list string) :
  StronglySorted key_lt l ->
  StronglySorted key_lt (map fst (omap (fun k => pair k <$> f k) l)).
Proof.
  induction 1 as [|k l Hl IH Hk]; [constructor|]. simpl.
  destruct (f k) as [a|]; simpl; [|done]. constructor; [done|].
  apply Forall_forall. intros j Hj. apply list_elem_of_fmap in Hj as ([j' a'] & -> & Hin).
  apply list_elem_of_omap in Hin as (i & Hi & Heq).
  destruct (f i); simplify_eq/=. by eapply Forall_forall in Hk.
Qed.

Lemma sorted_keys (X : gset string) :
  StronglySorted key_lt (merge_sort String.le (elements X)).
Proof.
  assert (Hnd : NoDup (merge_sort String.le (elements X))).
  { rewrite merge_sort_Permutation. apply NoDup_elements. }
  assert (Hs : StronglySorted String.le (merge_sort String.le (elements X))).
  { apply StronglySorted_merge_sort; apply _. }
  induction Hs as [|k l Hl IH Hk]; [constructor|].
  apply NoDup_cons in Hnd as [Hnin Hnd]. constructor; [by apply IH|].
  apply Forall_forall. intros j Hj. apply key_lt_of_le.
  - by eapply Forall_forall in Hk.
  - by intros ->.
Qed.

Lemma seek_as_omap m p s :
  seek m p s =
    omap (fun k => pair k <$> (if String.leb s k then entries m p !! k else None))
      (merge_sort String.le (elements (dom (entries m p)))).
Proof.
  apply list_omap_ext, Forall_Forall2_diag, Forall_forall. intros k _.
  by destruct (String.leb s k).
Qed.

#[global] Instance bolt_laws : BoltLaws t.
Proof.
  split; cbn [bolt_bucket bolt_create bolt_sequence bolt_next_sequence bolt_get bolt_put
              bolt_delete bolt_seek bolt].
  - done.
  - intros m p k. simpl. by intros [? _]%andb_true_iff.
  - intros m p k Hp. unfold get. by rewrite Hp.
  - intros m p Hp. by rewrite Hp.
  - intros m p. destruct (bucket m p); lia.
  - intros m p k Hp Hk Hlen Hget. unfold create.
    destruct (bucket m (k :: p)) eqn:E.
    + exists m. split_and!; [done| |done|done]. intros q. cbn [bolt_bucket bolt].
      case_bool_decide; [by subst|done].
    + rewrite bad_name_ok, Hp, Hget by done. simpl.
      exists (created m k p). split_and!; [done|by intros; apply bucket_created| |].
      * intros q. cbn. rewrite bucket_created by done. unfold created.
        rewrite sequence_insert, sequence_set.
        destruct (decide (q = k :: p)) as [->|Hq]; [by rewrite E, bool_decide_true|].
        by rewrite bool_decide_false.
      * intros q j. by apply get_created.
  - intros m p Hp Hlt. unfold next_sequence. rewrite Hp in *.
    assert (wrapu64 (Z.abs (sequence m p) + 1) = Z.abs (sequence m p) + 1) as Hw.
    { unfold wrapu64. rewrite Z.mod_small; lia. }
    assert (Hb : forall q, bucket (<[p:=(wrapu64 (Z.abs (sequence m p) + 1), entries m p)]> m) q
                    = bucket m q).
    { intros q. induction q as [|j q IH]; [done|]. simpl. rewrite IH, entries_insert.
      by destruct (decide (q = p)) as [->|]. }
    eexists. split_and!; [by rewrite Hw| | |].
    + intros q. rewrite <- Hw, Hb, sequence_insert.
      destruct (decide (q = p)) as [->|]; [|done]. rewrite Hp. lia.
    + intros q. cbn. by rewrite <- Hw, Hb.
    + intros q j. cbn. unfold get. rewrite <- Hw, Hb, entries_insert.
      by destruct (decide (q = p)) as [->|].
  - intros m p k v Hp Hk Hlen Hv Hnb. unfold put. rewrite Hp, bad_name_ok, (proj2 (Z.ltb_ge _ _) Hv), Hnb by done. cbn [negb orb].
    eexists. split_and!; [done| | |].
    + intros q j. rewrite get_set by done. done.
    + intros q. by apply bucket_set.
    + intros q. cbn. by rewrite bucket_set, sequence_set.
  - intros m p k v Hv. unfold put. rewrite (proj2 (Z.ltb_lt _ _) Hv), orb_true_r. by eexists _, _.
  - intros m p k Hp Hnb. unfold delete. rewrite Hp, Hnb. simpl.
    eexists. split_and!; [done| | |].
    + intros q j. rewrite get_set by done. done.
    + intros q. by apply bucket_set.
    + intros q. cbn. by rewrite bucket_set, sequence_set.
  - intros m p s. rewrite seek_as_omap. apply sorted_omap_fst, sorted_keys.
  - intros m p s k v Hp. rewrite seek_elem. unfold get. rewrite Hp. simpl. rewrite Hp. simpl.
    destruct v as [bs|].
    + destruct (entries m p !! k) as [[|]|]; naive_solver.
    + destruct (entries m p !! k) as [[|]|]; naive_solver.
Qed.

End MemBolt.
