(* ===== verification/BoltRecord.v ===== *)
(** * store/bolt_record.go: records in a Bolt database

    The whole file is modelled over the [Bolt] interface: the on-disk form of a
    record, the operations of one write transaction, the transaction with its
    rollback, and the read transactions. [time.Now] is an argument. *)

From Stdlib Require Import ZArith Lia Ascii String Strings.Byte.
From stdpp Require Import base option list gmap strings sorting.
From S2P Require Import Prelude Record RecordSpec Bolt.

Open Scope Z_scope.
Open Scope go_scope.

(** ** The on-disk form *)

Definition boltRecordsBucket : string := "phenix_records".
Definition boltRecordFormat : byte := x01.
Definition boltRecordHeaderSize : nat := 1 + 3 * 8.

(** A record as it is stored, without its namespace and key. *)
Record boltRecord : Type := mkBoltRecord {
  value : option (list byte);
  revision : Z;
  created : Z;
  updated : Z
}.

(** [time.Unix(0, int64(...)).UTC()], in nanoseconds. *)
Definition boltRecordTime (b : list byte) : Z := wrap64 (be_uint64 b).

(** Go's [v[i:j]]. *)
Definition slice (v : list byte) (i j : nat) : list byte := take (j - i) (drop i v).

Definition decodeBoltRecord (v : list byte) : res error boltRecord :=
  match v with
  | b0 :: _ =>
      if (length v <? boltRecordHeaderSize)%nat || negb (Byte.eqb b0 boltRecordFormat)
      then Err errBoltRecordFormat
      else Ok (mkBoltRecord (Some (drop boltRecordHeaderSize v))
                 (wrap64 (be_uint64 (slice v 1 9)))
                 (boltRecordTime (slice v 9 17))
                 (boltRecordTime (slice v 17 25)))
  | [] => Err errBoltRecordFormat
  end.

Definition encodeBoltRecord (stored : boltRecord) : list byte :=
  [boltRecordFormat] ++ put_uint64 (revision stored) ++ put_uint64 (created stored)
    ++ put_uint64 (updated stored) ++ bytes_of (value stored).

(** The stored record with its names and a value of its own. *)
Definition to_record (r : boltRecord) (namespace key : string) : record :=
  mkRecord namespace key (CopyRecordValue (value r)) (revision r) (created r) (updated r).

(** ** One transaction *)

Section Tx.
Context {T : Type} `{Bolt T}.

(** A call of the library, its error wrapped as the source wraps it. *)
Definition bolt_call {A} (context : text) (m : T -> res string A * T) : st T error A := fun t =>
  let '(r, t') := m t in (res_map_err (fun e => Wrapped context (OpaqueError e)) r, t').

(** The path of a namespace's bucket, [None] for the nil bucket. *)
Definition boltNamespaceBucket (t : T) (namespace : string) : option (list string) :=
  if bolt_bucket t [boltRecordsBucket] then
    if bolt_bucket t [namespace; boltRecordsBucket] then Some [namespace; boltRecordsBucket]
    else None
  else None.

Definition boltEnsureNamespaceBucket (namespace : string) : st T error (list string) :=
  let! _ := bolt_call (lit "creating records bucket in Bolt") (bolt_create [boltRecordsBucket]) in
  let! _ := bolt_call (Sprintf "creating record namespace bucket %s in Bolt" [AStr namespace])
              (bolt_create [namespace; boltRecordsBucket]) in
  st_ret [namespace; boltRecordsBucket].

Definition boltNextRevision : st T error Z :=
  let! _ := bolt_call (lit "creating records bucket in Bolt") (bolt_create [boltRecordsBucket]) in
  let! seq := bolt_call (lit "generating record revision in Bolt")
                (bolt_next_sequence [boltRecordsBucket]) in
  st_ret (wrap64 seq).

Definition boltGetRecord (t : T) (namespace key : string) : res error boltRecord :=
  match boltNamespaceBucket t namespace with
  | None => Err (NewRecordNotExistError namespace key)
  | Some bucket =>
      match bolt_get t bucket key with
      | None => Err (NewRecordNotExistError namespace key)
      | Some v => decodeBoltRecord v
      end
  end.

Definition boltPutRecord (bucket : list string) (key : string) (stored : boltRecord)
  : st T error unit :=
  bolt_call (lit "writing record to Bolt") (bolt_put bucket key (encodeBoltRecord stored)).

(** The loop over a cursor: from [Seek] while the key has the prefix; nested
    buckets are passed over, and an undecodable record ends it with an error. *)
Fixpoint for_each {A} (prefix : string) (fn : A -> string -> boltRecord -> res error A)
    (acc : A) (l : list (string * option (list byte))) : res error A :=
  match l with
  | [] => Ok acc
  | (k, v) :: l' =>
      if has_prefix k prefix then
        match v with
        | None => for_each prefix fn acc l'
        | Some bs =>
            match decodeBoltRecord bs with
            | Err e => Err (Wrapped (Sprintf "reading record %q" [AStr k]) e)
            | Ok stored =>
                let? acc' := fn acc k stored in for_each prefix fn acc' l'
            end
        end
      else Ok acc
  end.

Definition boltForEachPrefix {A} (t : T) (bucket : list string) (prefix : string)
    (fn : A -> string -> boltRecord -> res error A) (acc : A) : res error A :=
  for_each prefix fn acc (bolt_seek t bucket prefix).

(** *** The unexported bodies *)

Definition create (now : Z) (namespace key : string) (v : option (list byte))
  : st T error record :=
  let! bucket := boltEnsureNamespaceBucket namespace in
  fun t =>
    match bolt_get t bucket key with
    | Some _ => (Err (NewRecordExistError namespace key), t)
    | None =>
        (let! rev := boltNextRevision in
         let stored := mkBoltRecord v rev now now in
         let! _ := boltPutRecord bucket key stored in
         st_ret (to_record stored namespace key)) t
    end.

Definition update (now : Z) (namespace key : string) (v : option (list byte)) (expected : Z)
  : st T error record := fun t =>
  (let! existing := st_lift (boltGetRecord t namespace key) in
   let! _ := st_lift (checkRecordRevision namespace key expected (revision existing)) in
   let! rev := boltNextRevision in
   let stored := mkBoltRecord v rev (created existing) now in
   let! bucket := boltEnsureNamespaceBucket namespace in
   let! _ := boltPutRecord bucket key stored in
   st_ret (to_record stored namespace key)) t.

Definition delete (namespace key : string) (expected : Z) : st T error unit := fun t =>
  (let! existing := st_lift (boltGetRecord t namespace key) in
   let! _ := st_lift (checkRecordRevision namespace key expected (revision existing)) in
   match boltNamespaceBucket t namespace with
   | None => st_err (NewRecordNotExistError namespace key)
   | Some bucket => bolt_call (lit "deleting record from Bolt") (bolt_delete bucket key)
   end) t.

(** The keys are gathered first and deleted after the scan. *)
Fixpoint delete_keys (bucket : list string) (keys : list string) : st T error unit :=
  match keys with
  | [] => st_ret tt
  | k :: ks =>
      let! _ := bolt_call (lit "deleting record from Bolt") (bolt_delete bucket k) in
      delete_keys bucket ks
  end.

Definition deletePrefix (namespace prefix : string) : st T error Z := fun t =>
  match boltNamespaceBucket t namespace with
  | None => (Ok 0, t)
  | Some bucket =>
      (let! keys := st_lift (boltForEachPrefix t bucket prefix (fun ks k _ => Ok (ks ++ [k])) []) in
       let! _ := delete_keys bucket keys in
       st_ret (Z.of_nat (length keys))) t
  end.

(** *** The operations of [RecordTx] *)

Definition tx_GetRecord (namespace key : string) : st T error record := fun t =>
  (let! _ := st_lift (validateRecordNamespaceAndKey namespace key) in
   let! stored := st_wrap (Wrapped (Sprintf "getting record %s/%s" [AStr namespace; AStr key]))
                    (st_lift (boltGetRecord t namespace key)) in
   st_ret (to_record stored namespace key)) t.

Definition tx_CreateRecord (now : Z) (namespace key : string) (v : option (list byte))
  : st T error record :=
  let! _ := st_lift (validateRecordNamespaceAndKey namespace key) in
  st_wrap (Wrapped (Sprintf "creating record %s/%s" [AStr namespace; AStr key]))
    (create now namespace key v).

Definition tx_UpdateRecord (now : Z) (namespace key : string) (v : option (list byte))
    (expected : Z) : st T error record :=
  let! _ := st_lift (validateRecordNamespaceAndKey namespace key) in
  st_wrap (Wrapped (Sprintf "updating record %s/%s" [AStr namespace; AStr key]))
    (update now namespace key v expected).

Definition tx_DeleteRecord (namespace key : string) (expected : Z) : st T error unit :=
  let! _ := st_lift (validateRecordNamespaceAndKey namespace key) in
  st_wrap (Wrapped (Sprintf "deleting record %s/%s" [AStr namespace; AStr key]))
    (delete namespace key expected).

Definition tx_DeleteRecordPrefix (namespace prefix : string) : st T error Z :=
  let! _ := st_lift (ValidateRecordNamespace namespace) in
  let! _ := st_lift (ValidateRecordDeletePrefix prefix) in
  st_wrap (Wrapped (Sprintf "deleting records in namespace %s with prefix %s"
                      [AStr namespace; AStr prefix]))
    (deletePrefix namespace prefix).

Definition run_op (o : tx_op) : st T error reply :=
  match o with
  | GetRecord ns k => let! r := tx_GetRecord ns k in st_ret (ARecord r)
  | CreateRecord now ns k v => let! r := tx_CreateRecord now ns k v in st_ret (ARecord r)
  | UpdateRecord now ns k v e => let! r := tx_UpdateRecord now ns k v e in st_ret (ARecord r)
  | DeleteRecord ns k e => let! _ := tx_DeleteRecord ns k e in st_ret ADone
  | DeleteRecordPrefix ns p => let! n := tx_DeleteRecordPrefix ns p in st_ret (ACount n)
  end.
End Tx.

(** ** The database: transactions that commit or leave nothing *)

(** Whether the file opens and whether the commit is written, with the error
    when not. *)
Record env : Type := mkEnv { open_error : option string; commit_error : option string }.

Definition opened {S A} (e : env) (m : S -> res error A * S) : S -> res error A * S := fun db =>
  match open_error e with
  | Some w => (Err (Wrapped (lit "opening BoltDB file") (OpaqueError w)), db)
  | None => m db
  end.

Section Database.
Context {T : Type} `{Bolt T}.

(** [RecordTxn]: [db.Update] runs [fn] on a copy of the database that becomes
    the database only when [fn] returned nil and the commit was written. *)
Definition RecordTxn {A} (e : env) (fn : st T error A) : st T error A :=
  opened e (fun db =>
    match fn db with
    | (Err err, _) => (Err err, db)
    | (Ok a, db') =>
        match commit_error e with
        | Some w => (Err (Wrapped (lit "committing records to Bolt") (OpaqueError w)), db)
        | None => (Ok a, db')
        end
    end).

Definition CreateRecord (e : env) (now : Z) (ns key : string) (v : option (list byte)) :=
  RecordTxn e (tx_CreateRecord now ns key v).
Definition UpdateRecord (e : env) (now : Z) (ns key : string) (v : option (list byte)) (x : Z) :=
  RecordTxn e (tx_UpdateRecord now ns key v x).
Definition DeleteRecord (e : env) (ns key : string) (x : Z) :=
  RecordTxn e (tx_DeleteRecord ns key x).
Definition DeleteRecordPrefix (e : env) (ns prefix : string) :=
  RecordTxn e (tx_DeleteRecordPrefix ns prefix).

(** [viewRecords]: a read transaction. *)
Definition viewRecords {A} (e : env) (fn : T -> res error A) (db : T) : res error A :=
  fst (opened e (fun db => (fn db, db)) db).

Definition GetRecord (e : env) (namespace key : string) (db : T) : res error record :=
  let? _ := validateRecordNamespaceAndKey namespace key in
  res_map_err (Wrapped (Sprintf "getting record %s/%s" [AStr namespace; AStr key]))
    (viewRecords e (fun t =>
       let? stored := boltGetRecord t namespace key in
       Ok (to_record stored namespace key)) db).

Definition ListRecords (e : env) (namespace prefix : string) (db : T) : res error (list record) :=
  let? _ := validateRecordNamespaceAndPrefix namespace prefix in
  res_map_err (Wrapped (Sprintf "listing records in namespace %s" [AStr namespace]))
    (viewRecords e (fun t =>
       match boltNamespaceBucket t namespace with
       | None => Ok []
       | Some bucket =>
           boltForEachPrefix t bucket prefix
             (fun rs k stored => Ok (rs ++ [to_record stored namespace k])) []
       end) db).

(** The key loop reads no values, so it also yields nested buckets. *)
Fixpoint keys_while (prefix : string) (l : list (string * option (list byte))) : list string :=
  match l with
  | [] => []
  | (k, _) :: l' => if has_prefix k prefix then k :: keys_while prefix l' else []
  end.

Definition ListRecordKeys (e : env) (namespace prefix : string) (db : T)
  : res error (list string) :=
  let? _ := validateRecordNamespaceAndPrefix namespace prefix in
  res_map_err (Wrapped (Sprintf "listing record keys in namespace %s" [AStr namespace]))
    (viewRecords e (fun t =>
       match boltNamespaceBucket t namespace with
       | None => Ok []
       | Some bucket => Ok (keys_while prefix (bolt_seek t bucket prefix))
       end) db).
End Database.

(** ** The on-disk form is faithful *)

Definition storable (r : boltRecord) : Prop :=
  int64 (revision r) /\ int64 (created r) /\ int64 (updated r).

Lemma length_encode r : length (encodeBoltRecord r) = (25 + length (bytes_of (value r)))%nat.
Proof. unfold encodeBoltRecord. rewrite !length_app, !length_put_uint64. simpl. lia. Qed.

Lemma slice_app_at (l1 l2 l3 : list byte) i j :
  length l1 = i -> (i + length l2 = j)%nat -> slice (l1 ++ l2 ++ l3) i j = l2.
Proof.
  intros <- <-. unfold slice. rewrite drop_app_length. rewrite take_app_length'; [done|lia].
Qed.

Lemma encode_fields r :
  slice (encodeBoltRecord r) 1 9 = put_uint64 (revision r) /\
  slice (encodeBoltRecord r) 9 17 = put_uint64 (created r) /\
  slice (encodeBoltRecord r) 17 25 = put_uint64 (updated r) /\
  drop boltRecordHeaderSize (encodeBoltRecord r) = bytes_of (value r).
Proof.
  unfold encodeBoltRecord.
  generalize (length_put_uint64 (revision r)), (length_put_uint64 (created r)),
    (length_put_uint64 (updated r)).
  generalize (put_uint64 (revision r)), (put_uint64 (created r)), (put_uint64 (updated r)).
  intros l1 l2 l3 H1 H2 H3. split_and!.
  - apply slice_app_at; simpl; lia.
  - rewrite app_assoc. apply slice_app_at; rewrite ?length_app; simpl; lia.
  - rewrite 2!app_assoc. apply slice_app_at; rewrite ?length_app; simpl; lia.
  - rewrite 3!app_assoc. rewrite drop_app_length'; [done|].
    rewrite !length_app. unfold boltRecordHeaderSize. simpl. lia.
Qed.

Lemma decode_unfold v :
  decodeBoltRecord v =
    if (length v <? boltRecordHeaderSize)%nat || negb (Byte.eqb (hd x00 v) boltRecordFormat)
    then Err errBoltRecordFormat
    else Ok (mkBoltRecord (Some (drop boltRecordHeaderSize v)) (wrap64 (be_uint64 (slice v 1 9)))
               (boltRecordTime (slice v 9 17)) (boltRecordTime (slice v 17 25))).
Proof. by destruct v. Qed.

Lemma decode_encode_storable r :
  storable r ->
  decodeBoltRecord (encodeBoltRecord r) =
    Ok (mkBoltRecord (Some (bytes_of (value r))) (revision r) (created r) (updated r)).
Proof.
  intros (Hr & Hc & Hu). rewrite decode_unfold.
  assert ((length (encodeBoltRecord r) <? boltRecordHeaderSize)%nat = false) as ->.
  { rewrite length_encode. apply Nat.ltb_ge. unfold boltRecordHeaderSize. lia. }
  replace (hd x00 (encodeBoltRecord r)) with boltRecordFormat by done. cbn [orb negb Byte.eqb].
  destruct (encode_fields r) as (-> & -> & -> & ->). unfold boltRecordTime.
  by rewrite !wrap64_be_put.
Qed.

(** What is written can be read back: decoding an encoded record gives the
    record, for every revision and time an [int64] holds and every value. *)
Theorem decode_encode r :
  storable r ->
  decodeBoltRecord (encodeBoltRecord r) =
    Ok (mkBoltRecord (Some (bytes_of (value r))) (revision r) (created r) (updated r)).
Proof. apply decode_encode_storable. Qed.

Lemma drop_slice (v : list byte) i j : (i <= j)%nat -> drop i v = slice v i j ++ drop j v.
Proof.
  intros Hij. unfold slice. rewrite <- (take_drop (j - i) (drop i v)) at 1.
  rewrite drop_drop. do 2 f_equal. lia.
Qed.

Lemma encode_decode_fields v :
  (25 <= length v)%nat ->
  v = [hd x00 v] ++ slice v 1 9 ++ slice v 9 17 ++ slice v 17 25 ++ drop 25 v.
Proof.
  intros Hv. rewrite <- (drop_slice v 17 25), <- (drop_slice v 9 17), <- (drop_slice v 1 9) by lia.
  by destruct v as [|b v]; [simpl in Hv; lia|].
Qed.

(** The stored form is canonical: bytes that decode at all are exactly the
    encoding of the record they decode to, so no two byte strings are one
    record and nothing of the bytes is ignored. *)
Theorem encode_decode v r :
  decodeBoltRecord v = Ok r -> encodeBoltRecord r = v.
Proof.
  rewrite decode_unfold.
  destruct (Nat.ltb_spec (length v) boltRecordHeaderSize) as [|Hlen]; [done|].
  destruct (Byte.eqb (hd x00 v) boltRecordFormat) eqn:Hf; [|done].
  apply Byte.byte_dec_bl in Hf. cbn [orb negb]. intros [= <-].
  unfold encodeBoltRecord, boltRecordTime. cbn [revision created updated value bytes_of default].
  unfold boltRecordHeaderSize in *. simpl in Hlen.
  rewrite !put_uint64_wrap64 by (unfold slice; rewrite length_take, length_drop; lia).
  rewrite <- Hf. symmetry. by apply encode_decode_fields.
Qed.

Definition sample_record : boltRecord :=
  mkBoltRecord (Some [x61; x62]) 7 1704067200000000000 (-5).

Lemma decode_encode_witness :
  storable sample_record /\
  decodeBoltRecord (encodeBoltRecord sample_record) = Ok sample_record.
Proof.
  split; [unfold storable, int64; simpl; lia|].
  apply (decode_encode sample_record). unfold storable, int64; simpl; lia.
Defined.

Lemma encode_decode_witness :
  encodeBoltRecord sample_record = encodeBoltRecord sample_record.
Proof.
  apply (encode_decode (encodeBoltRecord sample_record) sample_record).
  vm_compute. reflexivity.
Defined.
