(* ===== verification/BoltRefine.v ===== *)
(** * The Bolt record store implements the contract of store.go

    [rel] relates a Bolt transaction to the abstract store: the sequence of the
    records bucket is the last revision, and each namespace bucket holds the
    encoding of each record. Every operation keeps the relation and answers as
    the abstract store does. *)

From Stdlib Require Import ZArith Lia Ascii String Strings.Byte.
From stdpp Require Import base option list gmap strings sorting.
From S2P Require Import Prelude Record RecordSpec Bolt BoltRecord.

Open Scope Z_scope.
Open Scope go_scope.

Notation root := boltRecordsBucket.

#[local] Opaque encodeBoltRecord decodeBoltRecord.

(** A record as its stored form. *)
Definition stored_of (r : record) : boltRecord :=
  mkBoltRecord (Value r) (Revision r) (Created r) (Updated r).

(** What the stored form needs of a record. *)
Definition record_ok (ns k : string) (rev : Z) (r : record) : Prop :=
  Namespace r = ns /\ Key r = k /\ Value r = Some (bytes_of (Value r)) /\
  0 < Revision r <= rev /\ int64 (Created r) /\ int64 (Updated r).

Section Refine.
Context {T : Type} `{HB : BoltLaws T}.

Record rel (t : T) (s : Spec.state) : Prop := mkRel {
  rel_rev : bolt_sequence t [root] = Spec.rev s;
  rel_bound : Spec.rev s < 2 ^ 63;
  rel_recs ns k : bolt_get t [ns; root] k = (encodeBoltRecord ∘ stored_of) <$> Spec.recs s !! (ns, k);
  rel_ok ns k r : Spec.recs s !! (ns, k) = Some r -> record_ok ns k (Spec.rev s) r;
  rel_nested ns k : bolt_bucket t [k; ns; root] = false;
  rel_top : bolt_get t [] root = None;
  rel_root ns : bolt_get t [root] ns = None
}.

(** ** What keeps the relation *)

Lemma rel_frame t t' s :
  rel t s -> same_sequences t t' -> same_values t t' ->
  (forall ns k, bolt_bucket t' [k; ns; root] = false) -> rel t' s.
Proof.
  intros [] Hs Hv Hn. split; try done.
  - by rewrite Hs.
  - intros. by rewrite Hv.
  - by rewrite Hv.
  - intros. by rewrite Hv.
Qed.

(** Making the records bucket or a namespace bucket changes nothing else. *)
Lemma bolt_call_create c t s p k :
  rel t s -> bolt_bucket t p = true -> (p = [] /\ k = root \/ p = [root]) ->
  k <> "" -> slen k <= MaxKeySize ->
  exists t', bolt_call c (bolt_create (k :: p)) t = (Ok tt, t') /\ rel t' s /\
    bolt_bucket t' (k :: p) = true /\ (forall q, bolt_bucket t q = true -> bolt_bucket t' q = true).
Proof.
  intros Hrel Hp Hpk Hk Hlen.
  destruct (bolt_create_ok t p k) as (t' & Ht' & Hb & Hs & Hv); [done..| |].
  { destruct Hrel. destruct Hpk as [[-> ->]| ->]; done. }
  exists t'. unfold bolt_call. rewrite Ht'. split_and!; [done| | |].
  - apply (rel_frame t); [done..|]. intros ns j. rewrite Hb.
    rewrite (rel_nested _ _ Hrel), bool_decide_false; [done|].
    destruct Hpk as [[-> ->]| ->]; congruence.
  - by rewrite Hb, bool_decide_true.
  - intros q Hq. rewrite Hb, Hq. by rewrite orb_true_r.
Qed.

Lemma root_ok : root <> "" /\ slen root <= MaxKeySize.
Proof. unfold MaxKeySize, slen. split; [done|]. vm_compute. done. Qed.

Lemma ensure_ok t s ns :
  rel t s -> ns <> "" -> slen ns <= MaxKeySize ->
  exists t', boltEnsureNamespaceBucket ns t = (Ok [ns; root], t') /\ rel t' s /\
    bolt_bucket t' [ns; root] = true.
Proof.
  intros Hrel Hns Hlen. destruct root_ok as [Hr1 Hr2]. unfold boltEnsureNamespaceBucket, st_bind.
  destruct (bolt_call_create (lit "creating records bucket in Bolt") t s [] root)
    as (t1 & -> & Hrel1 & Hb1 & _); [done|apply bolt_bucket_nil|by left|done..|].
  destruct (bolt_call_create (Sprintf "creating record namespace bucket %s in Bolt" [AStr ns])
              t1 s [root] ns) as (t2 & -> & Hrel2 & Hb2 & _); [done|done|by right|done..|].
  by exists t2.
Qed.

Lemma next_revision_ok t s :
  rel t s -> Spec.rev s < 2 ^ 63 - 1 ->
  exists t', boltNextRevision t = (Ok (Spec.rev s + 1), t') /\
    rel t' (Spec.mkState (Spec.rev s + 1) (Spec.recs s)) /\
    (forall q, bolt_bucket t q = true -> bolt_bucket t' q = true).
Proof.
  intros Hrel Hlt. destruct root_ok as [Hr1 Hr2]. unfold boltNextRevision, st_bind.
  destruct (bolt_call_create (lit "creating records bucket in Bolt") t s [] root)
    as (t1 & -> & Hrel1 & Hb1 & Hmono); [done|apply bolt_bucket_nil|by left|done..|].
  pose proof (rel_rev _ _ Hrel1) as Hseq.
  destruct (bolt_next_sequence_ok t1 [root]) as (t2 & Ht2 & Hs2 & Hbk & Hv2);
    [done|rewrite Hseq; lia|].
  unfold bolt_call. rewrite Ht2, Hseq. simpl. exists t2. split_and!.
  - rewrite wrap64_id; [done|]. pose proof (bolt_sequence_nonneg t1 [root]).
    rewrite Hseq in *. unfold int64. lia.
  - destruct Hrel1. split; simpl.
    + rewrite Hs2, decide_True by done. lia.
    + lia.
    + intros. by rewrite Hv2.
    + intros ns k r Hr. destruct (rel_ok0 _ _ _ Hr) as (?&?&?&?&?&?).
      unfold record_ok. split_and!; auto; lia.
    + intros. by rewrite Hbk.
    + by rewrite Hv2.
    + intros. by rewrite Hv2.
  - intros q Hq. rewrite Hbk. by apply Hmono.
Qed.

Lemma put_ok t s ns k r :
  rel t s -> bolt_bucket t [ns; root] = true -> k <> "" -> slen k <= MaxKeySize ->
  Z.of_nat (length (bytes_of (Value r))) <= 2 ^ 30 -> record_ok ns k (Spec.rev s) r ->
  exists t', boltPutRecord [ns; root] k (stored_of r) t = (Ok tt, t') /\
    rel t' (Spec.mkState (Spec.rev s) (<[(ns, k) := r]> (Spec.recs s))).
Proof.
  intros Hrel Hb Hk Hlen Hv Hok. unfold boltPutRecord, bolt_call.
  destruct (bolt_put_ok t [ns; root] k (encodeBoltRecord (stored_of r)))
    as (t' & -> & Hg & Hbk & Hs); [done..| | |].
  { rewrite length_encode. unfold MaxValueSize. simpl. lia. }
  { by apply (rel_nested _ _ Hrel). }
  exists t'. split; [done|]. destruct Hrel. split; simpl; try done.
  - by rewrite Hs.
  - intros ns' k'. rewrite Hg. destruct (decide (([ns'; root], k') = ([ns; root], k))) as [E|E].
    + injection E as -> ->. by rewrite lookup_insert_eq.
    + rewrite lookup_insert_ne by congruence. done.
  - intros ns' k' r'. rewrite lookup_insert_Some. intros [[[= <- <-] <-]|[_ Hr']]; auto.
  - intros. by rewrite Hbk.
  - rewrite Hg, decide_False by done. done.
  - intros. rewrite Hg, decide_False by congruence. done.
Qed.

(** ** Reading *)

Lemma decode_stored ns k rev r :
  record_ok ns k rev r -> rev < 2 ^ 63 ->
  decodeBoltRecord (encodeBoltRecord (stored_of r)) = Ok (stored_of r).
Proof.
  intros (?&?&Hv&?&?&?) Hrev. rewrite decode_encode_storable by (unfold storable, int64 in *; simpl; lia).
  unfold stored_of. simpl. by rewrite <- Hv.
Qed.

Lemma bucket_of_record t s ns k :
  rel t s -> is_Some (Spec.recs s !! (ns, k)) -> boltNamespaceBucket t ns = Some [ns; root].
Proof.
  intros Hrel [r Hr]. pose proof (rel_recs _ _ Hrel ns k) as Hg. rewrite Hr in Hg. simpl in Hg.
  unfold boltNamespaceBucket.
  destruct (bolt_bucket t [ns; root]) eqn:E.
  - by rewrite (bolt_bucket_parent _ _ _ E).
  - by rewrite (bolt_get_no_bucket _ _ _ E) in Hg.
Qed.

Lemma boltGetRecord_ok t s ns k :
  rel t s ->
  boltGetRecord t ns k =
    match Spec.recs s !! (ns, k) with
    | Some r => Ok (stored_of r)
    | None => Err (NewRecordNotExistError ns k)
    end.
Proof.
  intros Hrel. unfold boltGetRecord. destruct (Spec.recs s !! (ns, k)) as [r|] eqn:E.
  - rewrite (bucket_of_record t s ns k) by (rewrite ?E; eauto).
    rewrite (rel_recs _ _ Hrel), E. simpl.
    eapply decode_stored; [by eapply rel_ok|by eapply rel_bound].
  - unfold boltNamespaceBucket. destruct (bolt_bucket t [root]); [|done].
    destruct (bolt_bucket t [ns; root]); [|done]. by rewrite (rel_recs _ _ Hrel), E.
Qed.

Lemma to_record_stored ns k rev r : record_ok ns k rev r -> to_record (stored_of r) ns k = r.
Proof.
  intros (<-&<-&Hv&_). unfold to_record, stored_of. destruct r as [? ? v]. simpl in *.
  by destruct v.
Qed.

(** ** Scanning by prefix *)

(** The keys of a namespace with their records, as a cursor yields them. *)
Definition live (s : Spec.state) (ns prefix : string) (l : list (string * option (list byte))) : Prop :=
  StronglySorted key_lt (map fst l) /\
  forall k v, (k, v) ∈ l -> exists r, v = Some (encodeBoltRecord (stored_of r)) /\
    Spec.recs s !! (ns, k) = Some r.

Lemma seek_live t s ns prefix :
  rel t s -> bolt_bucket t [ns; root] = true -> live s ns prefix (bolt_seek t [ns; root] prefix).
Proof.
  intros Hrel Hb. split; [apply bolt_seek_sorted|].
  intros k v [Hk Hv]%(bolt_seek_elem _ _ _ _ _ Hb). destruct v as [bs|].
  - rewrite (rel_recs _ _ Hrel) in Hv. destruct (Spec.recs s !! (ns, k)) as [r|]; [|done].
    exists r. by simplify_eq/=.
  - by rewrite (rel_nested _ _ Hrel) in Hv.
Qed.

(** The loop that gathers [g k stored] gathers it for every key the cursor
    yields while the prefix lasts. *)
Lemma for_each_live {B} (g : string -> boltRecord -> B) s ns prefix l acc :
  live s ns prefix l -> (forall k r, Spec.recs s !! (ns, k) = Some r -> record_ok ns k (Spec.rev s) r) ->
  Spec.rev s < 2 ^ 63 ->
  for_each prefix (fun rs k stored => Ok (rs ++ [g k stored])) acc l =
    Ok (acc ++ omap (fun k => (g k ∘ stored_of) <$> Spec.recs s !! (ns, k)) (keys_while prefix l)).
Proof.
  intros [Hs Hl] Hok Hrev. revert acc. induction l as [|[k v] l IH]; intros acc; simpl.
  { by rewrite app_nil_r. }
  destruct (has_prefix k prefix); [|simpl; by rewrite app_nil_r].
  destruct (Hl k v) as (r & -> & Hr); [left|]. cbn [omap list_omap]. rewrite Hr. simpl.
  rewrite (decode_stored ns k (Spec.rev s) r) by auto. simpl.
  rewrite IH.
  - by rewrite <- app_assoc.
  - simpl in Hs. by inversion Hs.
  - intros k' v' Hin. apply Hl. by right.
Qed.

Lemma keys_while_elem prefix l k :
  StronglySorted key_lt (map fst l) -> Forall (fun j => String.leb prefix j = true) (map fst l) ->
  k ∈ keys_while prefix l <-> k ∈ map fst l /\ has_prefix k prefix = true.
Proof.
  induction l as [|[j v] l IH]; simpl; intros Hs Hle.
  { split; [|intros [? _]]; by intros ?%elem_of_nil || idtac. }
  apply StronglySorted_inv in Hs as [Hs Hj]. apply Forall_cons in Hle as [Hle1 Hle].
  destruct (has_prefix j prefix) eqn:E.
  - rewrite !elem_of_cons, IH by done. naive_solver.
  - split; [by intros ?%elem_of_nil|]. intros [[->|Hin]%elem_of_cons Hk]; [congruence|].
    eapply Forall_forall in Hj; [|exact Hin].
    by rewrite (has_prefix_between prefix j k) in E.
Qed.

Lemma keys_while_sorted prefix l :
  StronglySorted key_lt (map fst l) -> StronglySorted key_lt (keys_while prefix l).
Proof.
  induction l as [|[j v] l IH]; simpl; intros Hs; [constructor|].
  apply StronglySorted_inv in Hs as [Hs Hj]. destruct (has_prefix j prefix); [|constructor].
  constructor; [by apply IH|]. apply Forall_forall. intros k Hk.
  eapply Forall_forall in Hj; [exact Hj|]. revert Hk. clear. induction l as [|[i w] l IH]; simpl; [done|].
  destruct (has_prefix i prefix); [|by intros ?%elem_of_nil].
  rewrite !elem_of_cons. naive_solver.
Qed.

(** The keys a scan yields are the abstract store's keys, in order. *)
Lemma scan_keys t s ns prefix :
  rel t s -> bolt_bucket t [ns; root] = true ->
  keys_while prefix (bolt_seek t [ns; root] prefix) = Spec.sorted_keys s ns prefix.
Proof.
  intros Hrel Hb. pose proof (seek_live t s ns prefix Hrel Hb) as [Hs Hl].
  apply sorted_list_unique; [by apply keys_while_sorted|]. intros k.
  rewrite keys_while_elem; [|done|].
  - rewrite elem_of_keys, list_elem_of_fmap. split.
    + intros [([j v] & -> & Hin) Hp]. destruct (Hl _ _ Hin) as (r & _ & Hr). simpl. rewrite Hr. by split; [eexists|].
    + intros [[r Hr] Hp]. split; [|done].
      exists (k, Some (encodeBoltRecord (stored_of r))). split; [done|].
      apply bolt_seek_elem; [done|]. split; [by apply has_prefix_leb|].
      by rewrite (rel_recs _ _ Hrel), Hr.
  - apply Forall_forall. intros j ([j' v] & -> & Hin)%list_elem_of_fmap.
    by apply bolt_seek_elem in Hin as [? _].
Qed.

(** ** Each operation *)

Lemma names_ok ns k :
  validateRecordNamespaceAndKey ns k = Ok tt ->
  (ns <> "" /\ slen ns <= MaxKeySize) /\ k <> "" /\ slen k <= MaxKeySize.
Proof.
  unfold validateRecordNamespaceAndKey, res_bind.
  destruct (ValidateRecordNamespace ns) as [[]|] eqn:E; [|done]. intros Hk.
  apply valid_namespace_ok in E as [? E]. apply valid_key_ok in Hk as [? Hk].
  unfold maxRecordNamespaceLen, maxRecordKeyLen, MaxKeySize in *. split_and!; auto; lia.
Qed.

Lemma stored_of_bytes ns k v rev c u :
  encodeBoltRecord (mkBoltRecord v rev c u) =
  encodeBoltRecord (stored_of (mkRecord ns k (Some (bytes_of v)) rev c u)).
Proof. done. Qed.

Lemma canon_to_record v rev c u ns k :
  canon (to_record (mkBoltRecord v rev c u) ns k) = mkRecord ns k (Some (bytes_of v)) rev c u.
Proof. unfold canon, to_record. simpl. by destruct v. Qed.

(** Writing a record under a fresh revision, as both [create] and [update] do
    once they have the bucket. *)
Lemma write_ok t s ns k v c u rev :
  rel t s -> bolt_bucket t [ns; root] = true -> k <> "" -> slen k <= MaxKeySize ->
  Z.of_nat (length (bytes_of v)) <= 2 ^ 30 -> int64 c -> int64 u -> 0 < rev -> Spec.rev s = rev ->
  sim rel same_record
    ((let! _ := boltPutRecord [ns; root] k (mkBoltRecord v rev c u) in
      st_ret (to_record (mkBoltRecord v rev c u) ns k)) t)
    (Ok (mkRecord ns k (Some (bytes_of v)) rev c u),
     Spec.write (mkRecord ns k (Some (bytes_of v)) rev c u) s).
Proof.
  intros Hrel Hb Hk Hlen Hv Hc Hu Hpos Hrev. unfold st_bind, boltPutRecord.
  rewrite (stored_of_bytes ns k).
  destruct (put_ok t s ns k (mkRecord ns k (Some (bytes_of v)) rev c u)) as (t' & Ht & Hrel');
    [done..| |].
  { unfold record_ok. simpl. split_and!; auto; lia. }
  unfold boltPutRecord in Ht. rewrite Ht. split; simpl.
  - apply canon_to_record.
  - unfold Spec.write. simpl. by rewrite <- Hrev in *.
Qed.

Lemma get_ok ns k t s :
  rel t s -> sim rel same_record (tx_GetRecord ns k t) (Spec.get ns k s).
Proof.
  intros Hrel. unfold tx_GetRecord, Spec.get, st_bind, st_lift, st_wrap, sim.
  destruct (validateRecordNamespaceAndKey ns k) as [[]|e] eqn:E; [|done].
  rewrite (boltGetRecord_ok t s) by done. unfold Spec.lookup, res_bind.
  destruct (Spec.recs s !! (ns, k)) as [r|] eqn:Er; [|done]. split; [|done].
  apply (rel_ok _ _ Hrel) in Er. simpl. rewrite (to_record_stored ns k _ _ Er).
  destruct Er as (_&_&Hv&_). unfold same_record, canon. rewrite <- Hv. by destruct r.
Qed.

Lemma create_ok now ns k v t s :
  rel t s -> in_bounds (RecordSpec.CreateRecord now ns k v) s ->
  sim rel same_record (tx_CreateRecord now ns k v t) (Spec.create now ns k v s).
Proof.
  intros Hrel (Hrev & Hnow & Hv). unfold tx_CreateRecord, Spec.create.
  unfold st_bind at 1, st_lift.
  destruct (validateRecordNamespaceAndKey ns k) as [[]|e] eqn:E; [|done].
  apply names_ok in E as ((Hns & Hnl) & Hk & Hkl). apply sim_wrap.
  unfold create, st_bind at 1.
  destruct (ensure_ok t s ns) as (t1 & -> & Hrel1 & Hb1); [done..|].
  rewrite (rel_recs _ _ Hrel1).
  destruct (Spec.recs s !! (ns, k)) as [r|] eqn:Er; [done|]. simpl.
  unfold st_bind at 1.
  destruct (next_revision_ok t1 s) as (t2 & -> & Hrel2 & Hmono); [done..|].
  refine (write_ok t2 _ ns k v now now (Spec.rev s + 1) Hrel2 (Hmono _ Hb1) Hk Hkl Hv Hnow Hnow _ _);
    [|done].
  pose proof (bolt_sequence_nonneg t [root]). rewrite (rel_rev _ _ Hrel) in *. lia.
Qed.

Lemma update_ok now ns k v x t s :
  rel t s -> in_bounds (RecordSpec.UpdateRecord now ns k v x) s ->
  sim rel same_record (tx_UpdateRecord now ns k v x t) (Spec.update now ns k v x s).
Proof.
  intros Hrel (Hrev & Hnow & Hv). unfold tx_UpdateRecord, Spec.update.
  unfold st_bind at 1, st_lift.
  destruct (validateRecordNamespaceAndKey ns k) as [[]|e] eqn:E; [|done].
  apply names_ok in E as ((Hns & Hnl) & Hk & Hkl). apply sim_wrap.
  unfold update, st_bind, st_lift, res_bind, Spec.lookup.
  rewrite (boltGetRecord_ok t s) by done.
  destruct (Spec.recs s !! (ns, k)) as [r|] eqn:Er; [|done]. cbn [revision created stored_of].
  destruct (checkRecordRevision ns k x (Revision r)) as [[]|e]; [|done].
  destruct (next_revision_ok t s) as (t1 & -> & Hrel1 & _); [done..|].
  destruct (ensure_ok t1 (Spec.mkState (Spec.rev s + 1) (Spec.recs s)) ns) as (t2 & -> & Hrel2 & Hb2);
    [done..|].
  apply (rel_ok _ _ Hrel) in Er as (_&_&_&Hr&Hc&_).
  refine (write_ok t2 _ ns k v (Created r) now (Spec.rev s + 1) Hrel2 Hb2 Hk Hkl Hv Hc Hnow _ _);
    [lia|done].
Qed.

(** Deleting one key of a namespace bucket. *)
Lemma delete_key_ok t s ns k ctx :
  rel t s -> bolt_bucket t [ns; root] = true ->
  exists t', bolt_call ctx (bolt_delete [ns; root] k) t = (Ok tt, t') /\
    rel t' (Spec.mkState (Spec.rev s) (base.delete (ns, k) (Spec.recs s))) /\
    bolt_bucket t' [ns; root] = true.
Proof.
  intros Hrel Hb. destruct (bolt_delete_ok t [ns; root] k) as (t' & Ht & Hg & Hbk & Hs);
    [done|apply (rel_nested _ _ Hrel)|].
  exists t'. unfold bolt_call. rewrite Ht. split_and!; [done| |by rewrite Hbk].
  destruct Hrel. split; simpl; try done.
  - by rewrite Hs.
  - intros ns' k'. rewrite Hg. destruct (decide (([ns'; root], k') = ([ns; root], k))) as [E|E].
    + injection E as -> ->. by rewrite lookup_delete_eq.
    + rewrite lookup_delete_ne by congruence. done.
  - intros ns' k' r. rewrite lookup_delete_Some. intros [_ Hr]; auto.
  - intros. by rewrite Hbk.
  - rewrite Hg, decide_False by done. done.
  - intros. rewrite Hg, decide_False by congruence. done.
Qed.

Lemma delete_ok ns k x t s :
  rel t s -> sim rel eq (tx_DeleteRecord ns k x t) (Spec.delete ns k x s).
Proof.
  intros Hrel. unfold tx_DeleteRecord, Spec.delete. unfold st_bind at 1, st_lift.
  destruct (validateRecordNamespaceAndKey ns k) as [[]|e] eqn:E; [|done].
  apply sim_wrap. unfold delete, st_bind, st_lift, res_bind, Spec.lookup.
  rewrite (boltGetRecord_ok t s) by done.
  destruct (Spec.recs s !! (ns, k)) as [r|] eqn:Er; [|done]. cbn [revision stored_of].
  destruct (checkRecordRevision ns k x (Revision r)) as [[]|e]; [|done].
  rewrite (bucket_of_record t s ns k) by (rewrite ?Er; eauto).
  destruct (delete_key_ok t s ns k (lit "deleting record from Bolt")) as (t' & -> & Hrel' & _);
    [done| |done].
  pose proof (rel_recs _ _ Hrel ns k) as Hg. rewrite Er in Hg.
  destruct (bolt_bucket t [ns; root]) eqn:Eb; [done|].
  by rewrite (bolt_get_no_bucket _ _ _ Eb) in Hg.
Qed.

Lemma delete_keys_ok ns ks t s :
  rel t s -> bolt_bucket t [ns; root] = true ->
  exists t', delete_keys [ns; root] ks t = (Ok tt, t') /\
    rel t' (Spec.mkState (Spec.rev s) (foldl (fun m k => base.delete (ns, k) m) (Spec.recs s) ks)).
Proof.
  revert t s. induction ks as [|k ks IH]; intros t s Hrel Hb; cbn [delete_keys foldl].
  - exists t. split; [done|]. by destruct s.
  - unfold st_bind.
    destruct (delete_key_ok t s ns k (lit "deleting record from Bolt")) as (t1 & -> & Hrel1 & Hb1);
      [done..|].
    by apply (IH t1 _ Hrel1).
Qed.

(** No namespace bucket, no records of the namespace. *)
Lemma no_bucket_no_keys t s ns prefix :
  rel t s -> boltNamespaceBucket t ns = None -> Spec.keys s ns prefix = ∅.
Proof.
  intros Hrel Hb. apply set_eq. intros k. rewrite elem_of_keys. split; [|by intros ?%elem_of_empty].
  intros [Hk _]. by rewrite (bucket_of_record t s ns k) in Hb.
Qed.

Lemma namespace_bucket_some t ns b :
  boltNamespaceBucket t ns = Some b -> b = [ns; root] /\ bolt_bucket t [ns; root] = true.
Proof.
  unfold boltNamespaceBucket. destruct (bolt_bucket t [root]); [|done].
  destruct (bolt_bucket t [ns; root]); [|done]. by intros [= <-].
Qed.

Lemma rel_live_ok t s ns :
  rel t s ->
  (forall k r, Spec.recs s !! (ns, k) = Some r -> record_ok ns k (Spec.rev s) r) /\ Spec.rev s < 2 ^ 63.
Proof. intros Hrel. split; [intros k r; apply (rel_ok _ _ Hrel)|apply (rel_bound _ _ Hrel)]. Qed.

(** Every key of the sorted list has its record. *)
Lemma sorted_keys_is_Some s ns prefix :
  Forall (fun k => is_Some (Spec.recs s !! (ns, k))) (Spec.sorted_keys s ns prefix).
Proof.
  apply Forall_forall. intros k. unfold Spec.sorted_keys.
  rewrite merge_sort_Permutation, elem_of_elements, elem_of_keys. by intros [? _].
Qed.

(** A scan of the namespace gathers [g] over the records with the prefix. *)
Lemma scan_ok {B} (g : string -> boltRecord -> B) t s ns prefix b :
  rel t s -> boltNamespaceBucket t ns = Some b ->
  boltForEachPrefix t b prefix (fun rs k stored => Ok (rs ++ [g k stored])) [] =
    Ok (omap (fun k => (g k ∘ stored_of) <$> Spec.recs s !! (ns, k)) (Spec.sorted_keys s ns prefix)).
Proof.
  intros Hrel [-> Hb]%namespace_bucket_some. unfold boltForEachPrefix.
  destruct (rel_live_ok t s ns Hrel) as [Hok Hrev].
  rewrite (for_each_live g s ns prefix); [|by apply (seek_live t)|done..].
  by rewrite (scan_keys t s).
Qed.

Lemma omap_key_id (P : string -> option record) ks :
  Forall (fun k => is_Some (P k)) ks -> omap (fun k => ((fun _ => k) : record -> string) <$> P k) ks = ks.
Proof.
  induction 1 as [|k ks [r Hr] Hks IH]; [done|]. cbn. rewrite Hr. cbn. by rewrite IH.
Qed.

Lemma delete_prefix_ok ns prefix t s :
  rel t s -> sim rel eq (tx_DeleteRecordPrefix ns prefix t) (Spec.delete_prefix ns prefix s).
Proof.
  intros Hrel. unfold tx_DeleteRecordPrefix, Spec.delete_prefix.
  unfold st_bind, st_lift, res_bind at 1.
  destruct (ValidateRecordNamespace ns) as [[]|e]; [|done].
  destruct (ValidateRecordDeletePrefix prefix) as [[]|e]; [|done].
  apply sim_wrap. unfold deletePrefix.
  destruct (boltNamespaceBucket t ns) as [b|] eqn:Eb.
  - unfold st_bind, st_lift. rewrite (scan_ok (fun k _ => k) t s ns prefix b Hrel Eb).
    replace (omap _ _) with (Spec.sorted_keys s ns prefix) by
      (symmetry; apply (omap_key_id (fun k => Spec.recs s !! (ns, k))), sorted_keys_is_Some).
    apply namespace_bucket_some in Eb as [-> Eb].
    destruct (delete_keys_ok ns (Spec.sorted_keys s ns prefix) t s Hrel Eb) as (t' & -> & Hrel').
    rewrite delete_sorted_keys in Hrel'. split; simpl; [|done]. by rewrite length_sorted_keys.
  - pose proof (no_bucket_no_keys t s ns prefix Hrel Eb) as Hk.
    split; simpl; [by rewrite Hk, size_empty|].
    rewrite <- delete_sorted_keys. unfold Spec.sorted_keys. rewrite Hk, elements_empty. simpl.
    by destruct s.
Qed.

(** ** The interface *)

#[export] Instance bolt_record_tx : RecordTx T := { tx_run := run_op; tx_rel := rel }.

#[export] Instance bolt_record_tx_refines : RecordTxRefines T.
Proof.
  split. intros o t s Hrel Hb. destruct o; cbn [tx_run tx_rel bolt_record_tx run_op Spec.run].
  - apply (sim_reply rel same_record); [by apply get_ok|]. by intros x y <-.
  - apply (sim_reply rel same_record); [by apply create_ok|]. by intros x y <-.
  - apply (sim_reply rel same_record); [by apply update_ok|]. by intros x y <-.
  - apply (sim_reply rel eq); [by apply delete_ok|]. done.
  - apply (sim_reply rel eq); [by apply delete_prefix_ok|]. by intros x y ->.
Qed.

Lemma run_client_ok {A} (c : client A) t s :
  rel t s -> fits c s ->
  fst (run_client run_op c t) = fst (run_client Spec.run c s) /\
  rel (snd (run_client run_op c t)) (snd (run_client Spec.run c s)).
Proof. exact (@client_refines T A bolt_record_tx bolt_record_tx_refines c t s). Qed.

(** A database without records. *)
Lemma rel_empty t : (forall p, p <> [] -> bolt_bucket t p = false) ->
  (forall k, bolt_get t [] k = None) -> rel t Spec.empty.
Proof.
  intros Hb Hg. split; cbn; intros; rewrite ?lookup_empty; auto.
  - by apply bolt_sequence_no_bucket, Hb.
  - lia.
  - by apply bolt_get_no_bucket, Hb.
  - done.
  - by apply bolt_get_no_bucket, Hb.
Qed.

(** C1: a transaction of the Bolt store does what the contract says. Whatever
    the caller does in it, the caller gets the results of the abstract store;
    when it returns no error and the commit is written, the database holds
    exactly the abstract store's records; and when it returns an error, or the
    file cannot be opened or the commit fails, the database is as it was. *)
Theorem RecordTxn_refines {A} (e : env) (c : client A) (t : T) (s : Spec.state) :
  rel t s -> fits c s ->
  let '(a, t') := RecordTxn e (run_client run_op c) t in
  let '(b, s') := spec_txn c s in
  match open_error e, b, commit_error e with
  | None, Ok x, None => a = Ok x /\ rel t' s'
  | None, Err err, _ => a = Err err /\ t' = t
  | _, _, _ => (exists err, a = Err err) /\ t' = t
  end.
Proof.
  intros Hrel Hfit. destruct (run_client_ok c t s Hrel Hfit) as [Hr Hrel'].
  unfold RecordTxn, opened, spec_txn.
  destruct (run_client run_op c t) as [a t'], (run_client Spec.run c s) as [b s']. simpl in *. subst b.
  destruct (open_error e); [destruct a; simpl; eauto|].
  destruct a as [x|err]; [|done]. destruct (commit_error e); eauto.
Qed.

Lemma get_found t s ns k r :
  rel t s -> fst (tx_GetRecord ns k t) = Ok r -> Spec.recs s !! (ns, k) = Some (canon r).
Proof.
  intros Hrel Hr. destruct (get_ok ns k t s Hrel) as [Hm _]. rewrite Hr in Hm.
  revert Hm. unfold Spec.get, Spec.lookup, same_record. cbn [fst]. destruct (validateRecordNamespaceAndKey ns k); [|done].
  cbn [res_bind]. by destruct (Spec.recs s !! (ns, k)); [intros ->|].
Qed.

Lemma get_of_found t s ns k r :
  rel t s -> validateRecordNamespaceAndKey ns k = Ok tt -> Spec.recs s !! (ns, k) = Some r ->
  exists r1, fst (tx_GetRecord ns k t) = Ok r1 /\ canon r1 = r.
Proof.
  intros Hrel Hv Hr. destruct (get_ok ns k t s Hrel) as [Hm _].
  revert Hm. unfold Spec.get, Spec.lookup, same_record. cbn [fst]. rewrite Hv, Hr. cbn [res_bind].
  destruct (fst (tx_GetRecord ns k t)) as [r1|]; [|done]. by exists r1.
Qed.

Lemma update_checked now ns k v x s r :
  fst (Spec.update now ns k v x s) = Ok r -> x <> AnyRevision ->
  validateRecordNamespaceAndKey ns k = Ok tt /\
  exists old, Spec.recs s !! (ns, k) = Some old /\ Revision old = x.
Proof.
  unfold Spec.update, Spec.lookup.
  destruct (validateRecordNamespaceAndKey ns k) as [[]|]; [|done]. cbn [res_bind].
  destruct (Spec.recs s !! (ns, k)) as [old|]; [|done]. cbn [res_bind].
  unfold checkRecordRevision. intros Hr Hx. split; [done|]. exists old. split; [done|].
  destruct (Z.eqb_spec x AnyRevision); [done|]. by destruct (Z.eqb_spec x (Revision old)).
Qed.

(** No update is lost. When a record was read and, after whatever other
    operations, an update that expects the revision that was read succeeds, the
    record it replaces is the record that was read: a delete and a new create
    at the same key in between, or any other write, makes it fail. *)
Theorem update_replaces_what_was_read {A} (c : client A) (t : T) (s : Spec.state) ns k r now v r' :
  rel t s -> Spec.wf s -> fits c s ->
  fst (tx_GetRecord ns k t) = Ok r ->
  let t1 := snd (run_client run_op c t) in
  in_bounds (RecordSpec.UpdateRecord now ns k v (Revision r)) (snd (run_client Spec.run c s)) ->
  fst (tx_UpdateRecord now ns k v (Revision r) t1) = Ok r' ->
  exists r1, fst (tx_GetRecord ns k t1) = Ok r1 /\ canon r1 = canon r.
Proof.
  intros Hrel Hwf Hfit Hget t1 Hb Hup. pose proof (get_found t s ns k r Hrel Hget) as Hs.
  destruct (run_client_ok c t s Hrel Hfit) as [_ Hrel1].
  destruct (run_client_wf_later c s Hwf) as [_ Hl]. fold t1 in Hrel1.
  set (s1 := snd (run_client Spec.run c s)) in *.
  destruct (update_ok now ns k v (Revision r) t1 s1 Hrel1 Hb) as [Hm _]. fold t1 in Hm. rewrite Hup in Hm.
  destruct (fst (Spec.update now ns k v (Revision r) s1)) as [r2|] eqn:E; [|done].
  apply update_checked in E as (Hv & old & Hold & Hrev).
  - destruct (revision_names_write s s1 (ns, k) (ns, k) (canon r) old) as [_ <-]; [done..|].
    by apply (get_of_found t1 s1).
  - apply (rel_ok _ _ Hrel) in Hs as (_&_&_&Hpos&_). simpl in Hpos. unfold AnyRevision. lia.
Qed.

(** ** Listing *)

Lemma omap_to_record s ns (ks : list string) :
  (forall k r, Spec.recs s !! (ns, k) = Some r -> record_ok ns k (Spec.rev s) r) ->
  omap (fun k => ((fun stored => to_record stored ns k) ∘ stored_of) <$> Spec.recs s !! (ns, k)) ks =
  omap (fun k => Spec.recs s !! (ns, k)) ks.
Proof.
  intros Hok. induction ks as [|k ks IH]; [done|]. cbn.
  destruct (Spec.recs s !! (ns, k)) as [r|] eqn:E; cbn; [|done].
  by rewrite IH, (to_record_stored ns k (Spec.rev s)) by auto.
Qed.

(** Listing a namespace gives every record in it whose key has the prefix,
    once, in byte order of the keys, and nothing else; the key list names the
    same records. A bad namespace or prefix is the only error when the file
    opens. *)
Theorem ListRecords_ok (ce : option string) (t : T) (s : Spec.state) ns prefix :
  rel t s ->
  match Spec.list_records ns prefix s, Spec.list_keys ns prefix s with
  | Ok rs, Ok ks =>
      ListRecords (mkEnv None ce) ns prefix t = Ok rs /\
      ListRecordKeys (mkEnv None ce) ns prefix t = Ok ks /\ map Key rs = ks
  | Err e, Err e' =>
      ListRecords (mkEnv None ce) ns prefix t = Err e /\
      ListRecordKeys (mkEnv None ce) ns prefix t = Err e /\ e = e'
  | _, _ => False
  end.
Proof.
  intros Hrel. unfold Spec.list_records, Spec.list_keys, ListRecords, ListRecordKeys, viewRecords.
  destruct (validateRecordNamespaceAndPrefix ns prefix) as [[]|e]; [|done]. simpl.
  destruct (rel_live_ok t s ns Hrel) as [Hok Hrev].
  assert (Hkeys : map Key (omap (fun k => Spec.recs s !! (ns, k)) (Spec.sorted_keys s ns prefix)) =
                  Spec.sorted_keys s ns prefix).
  { induction (sorted_keys_is_Some s ns prefix) as [|k ks [r Hr] _ IH]; [done|].
    cbn. rewrite Hr. cbn. rewrite IH. by destruct (Hok _ _ Hr) as (_ & -> & _). }
  destruct (boltNamespaceBucket t ns) as [b|] eqn:Eb.
  - rewrite (scan_ok (fun k stored => to_record stored ns k) t s ns prefix b Hrel Eb).
    rewrite omap_to_record by done.
    apply namespace_bucket_some in Eb as [-> Eb]. by rewrite (scan_keys t s).
  - unfold Spec.sorted_keys in *. by rewrite (no_bucket_no_keys t s ns prefix Hrel Eb), elements_empty.
Qed.
End Refine.

(** ** At a concrete database *)

Module Sample.

Definition db0 : MemBolt.t := ∅.

Lemma rel0 : rel db0 Spec.empty.
Proof.
  apply rel_empty; [|done]. intros p Hp. destruct p as [|k p]; [done|].
  cbn. destruct (MemBolt.bucket db0 p); [|done]. cbn. done.
Qed.

(** A client that creates a record, reads it back and gives its revision. *)
Definition create_and_read : client Z :=
  Call (RecordSpec.CreateRecord 5 "topology" "a/b" (Some [x61])) (fun _ =>
  Call (RecordSpec.GetRecord "topology" "a/b") (fun a =>
  Return (match a with Ok (ARecord r) => Ok (Revision r) | Ok _ => Ok 0 | Err e => Err e end))).

Lemma fits0 : fits create_and_read Spec.empty.
Proof. vm_compute. by split_and!. Qed.

Definition open_env : env := mkEnv None None.

Lemma RecordTxn_refines_witness :
  fst (RecordTxn open_env (run_client run_op create_and_read) db0) = Ok 1 /\
  rel (snd (RecordTxn open_env (run_client run_op create_and_read) db0))
      (snd (spec_txn create_and_read Spec.empty)).
Proof.
  pose proof (RecordTxn_refines open_env create_and_read db0 Spec.empty rel0 fits0) as H.
  destruct (RecordTxn open_env (run_client run_op create_and_read) db0) as [a t'] eqn:Ea.
  assert (Hb : fst (spec_txn create_and_read Spec.empty) = Ok 1) by (vm_compute; reflexivity).
  destruct (spec_txn create_and_read Spec.empty) as [b s']. cbn [fst snd] in *. subst b. exact H.
Defined.

(** The database after [create_and_read]. *)
Definition db1 : MemBolt.t := snd (run_client run_op create_and_read db0).
Definition state1 : Spec.state := snd (run_client Spec.run create_and_read Spec.empty).

Lemma rel1 : rel db1 state1.
Proof. apply (run_client_ok create_and_read db0 Spec.empty rel0 fits0). Qed.

Lemma wf1 : Spec.wf state1.
Proof.
  pose proof (run_client_wf_later create_and_read Spec.empty wf_empty) as [H _]. exact H.
Qed.

(** Reading another key between the read and the update changes nothing. *)
Definition look : client Z :=
  Call (RecordSpec.GetRecord "topology" "other") (fun _ => Return (Ok 0)).

Lemma update_replaces_what_was_read_witness :
  exists r r', fst (tx_GetRecord "topology" "a/b" db1) = Ok r /\
    fst (tx_UpdateRecord 9 "topology" "a/b" None (Revision r) db1) = Ok r' /\ Revision r' = 2 /\
    exists r1, fst (tx_GetRecord "topology" "a/b" db1) = Ok r1 /\ canon r1 = canon r.
Proof.
  destruct (fst (tx_GetRecord "topology" "a/b" db1)) as [r|] eqn:Er; [|vm_compute in Er; done].
  assert (Hrev : Revision r = 1) by (vm_compute in Er; by injection Er as <-).
  destruct (fst (tx_UpdateRecord 9 "topology" "a/b" None (Revision r) db1)) as [r'|] eqn:Eu;
    rewrite Hrev in Eu; [|vm_compute in Eu; done].
  exists r, r'. split; [done|]. split; [by rewrite Hrev|]. split; [vm_compute in Eu; by injection Eu as <-|].
  rewrite <- Er.
  apply (update_replaces_what_was_read look db1 state1 "topology" "a/b" r 9 None r' rel1 wf1).
  - vm_compute. by split_and!.
  - done.
  - vm_compute. by split_and!.
  - rewrite Hrev. exact Eu.
Defined.

Lemma ListRecords_ok_witness :
  ListRecordKeys open_env "topology" "a" db1 = Ok ["a/b"].
Proof.
  pose proof (ListRecords_ok None db1 state1 "topology" "a" rel1) as H.
  replace (Spec.list_records "topology" "a" state1)
    with (Ok (E:=error) [mkRecord "topology" "a/b" (Some [x61]) 1 5 5]) in H by (vm_compute; reflexivity).
  replace (Spec.list_keys "topology" "a" state1) with (Ok (E:=error) ["a/b"]) in H
    by (vm_compute; reflexivity).
  destruct H as (_ & H & _). exact H.
Defined.
End Sample.
