(* ===== verification/MemRecord.v ===== *)
(** * store/recordtest/memrecord: an in-memory record store

    A transaction stages its writes and does not hold the store's lock, so other
    writers may change the store while it runs; the commit checks that what it
    read has not changed. The whole package is modelled. A hook may call back into
    the store: it is a function that changes the store. *)

From Stdlib Require Import ZArith Lia Ascii String Strings.Byte.
From stdpp Require Import base option list gmap strings sorting.
From S2P Require Import Prelude Record RecordSpec.

Open Scope Z_scope.
Open Scope go_scope.

(** ** Data *)

Abbreviation ref := (string * string)%type.

(** The fields of [Store] that change. A namespace that was never written and
    one without records are told apart, as in Go. *)
Record Store : Type := mkStore {
  revision : Z;
  records : gmap string (gmap string record);
  commits : Z
}.

(** The hooks of [Store]. [Stamp] is set or not; when it is, what it returns is
    the operation's clock reading. *)
Definition hook : Type := string -> string -> Store -> option error * Store.

Record Hooks : Type := mkHooks {
  BeforeCreate : option hook;
  BeforeUpdate : option hook;
  FailDelete : option hook;
  FailPrefixDelete : option hook;
  Stamp : bool
}.

Record seen : Type := mkSeen { seen_revision : Z; anyRevision : bool }.

Record txn : Type := mkTxn {
  staged : gmap ref (option record);
  order : list ref;
  seen_of : gmap ref seen
}.

Definition New : Store := mkStore 0 ∅ 0.
Definition no_hooks : Hooks := mkHooks None None None None false.
Definition new_txn : txn := mkTxn ∅ [] ∅.

(** [s.records[namespace]] and [s.records[namespace][key]]: a nil map has no
    entries. *)
Definition namespace_of (s : Store) (namespace : string) : gmap string record :=
  default ∅ (records s !! namespace).
Definition stored (s : Store) (at_ : ref) : option record := namespace_of s at_.1 !! at_.2.

Definition validate (namespace key : string) : res error unit :=
  let? _ := ValidateRecordNamespace namespace in ValidateRecordKey key.

Definition clone (r : record) : record :=
  mkRecord (Namespace r) (Key r) (CopyRecordValue (Value r)) (Revision r) (Created r) (Updated r).

(** 2024-01-01 UTC plus [n] seconds; [time.Duration] is an [int64]. *)
Definition Time (n : Z) : Z := 1704067200000000000 + mul64 n 1000000000.

Definition now_ (h : Hooks) (clock : Z) (s : Store) : Z :=
  if Stamp h then clock else Time (revision s).

(** [next]: the next revision and its time. *)
Definition next (h : Hooks) (clock : Z) (s : Store) : (Z * Z) * Store :=
  let s' := mkStore (add64 (revision s) 1) (records s) (commits s) in
  ((revision s', now_ h clock s'), s').

(** ** A transaction *)

(** The transaction's state is the store it points to and its own maps. *)
Abbreviation tx := (Store * txn)%type.

Definition run_hook (h : option hook) (namespace key : string) : st tx error unit := fun '(s, t) =>
  match h with
  | None => (Ok tt, (s, t))
  | Some f =>
      match f namespace key s with
      | (Some err, s') => (Err err, (s', t))
      | (None, s') => (Ok tt, (s', t))
      end
  end.

(** [read]: the record as the transaction sees it. Nothing of the store is
    remembered for a record the transaction wrote. *)
Definition read (at_ : ref) (any : bool) (x : tx) : option record * tx :=
  let '(s, t) := x in
  match staged t !! at_ with
  | Some o => (o, (s, t))
  | None =>
      let o := stored s at_ in
      let seen' :=
        match seen_of t !! at_ with
        | None => <[at_ := mkSeen (match o with Some r => Revision r | None => 0 end) any]> (seen_of t)
        | Some before =>
            if anyRevision before && negb any
            then <[at_ := mkSeen (seen_revision before) false]> (seen_of t)
            else seen_of t
        end in
      (o, (s, mkTxn (staged t) (order t) seen'))
  end.

Definition check (at_ : ref) (expected : Z) : st tx error record := fun x =>
  let '(o, x') := read at_ (expected =? AnyRevision) x in
  match o with
  | None => (Err (NewRecordNotExistError at_.1 at_.2), x')
  | Some existing =>
      if negb (expected =? AnyRevision) && negb (Revision existing =? expected) then
        (Err (NewRecordConflictError at_.1 at_.2 expected (Revision existing)), x')
      else (Ok existing, x')
  end.

Definition stage (at_ : ref) (o : option record) (x : tx) : tx :=
  let '(s, t) := x in
  let order' := match staged t !! at_ with Some _ => order t | None => order t ++ [at_] end in
  (s, mkTxn (<[at_ := o]> (staged t)) order' (seen_of t)).

(** [keys]: the keys of the store or of the staged writes, sorted. *)
Definition keys (namespace prefix : string) (x : tx) : list string :=
  let '(s, t) := x in
  let found : gset string :=
    filter (fun k => has_prefix k prefix = true) (dom (namespace_of s namespace)) ∪
    set_map snd (filter (fun p : ref => p.1 = namespace /\ has_prefix p.2 prefix = true)
                   (dom (staged t))) in
  merge_sort String.le (elements found).

Definition tx_GetRecord (namespace key : string) : st tx error record := fun x =>
  match validate namespace key with
  | Err e => (Err e, x)
  | Ok _ =>
      let '(o, x') := read (namespace, key) false x in
      match o with
      | None => (Err (NewRecordNotExistError namespace key), x')
      | Some r => (Ok (clone r), x')
      end
  end.

Definition tx_CreateRecord (h : Hooks) (clock : Z) (namespace key : string) (value : option (list byte))
  : st tx error record :=
  let! _ := st_lift (validate namespace key) in
  let! _ := run_hook (BeforeCreate h) namespace key in
  fun x =>
    let at_ := (namespace, key) in
    let '(o, (s, t)) := read at_ false x in
    match o with
    | Some _ => (Err (NewRecordExistError namespace key), (s, t))
    | None =>
        let '((rev, now), s') := next h clock s in
        let r := mkRecord namespace key (CopyRecordValue value) rev now now in
        (Ok (clone r), stage at_ (Some r) (s', t))
    end.

Definition tx_UpdateRecord (h : Hooks) (clock : Z) (namespace key : string) (value : option (list byte))
    (expected : Z) : st tx error record :=
  let! _ := st_lift (validate namespace key) in
  let! _ := run_hook (BeforeUpdate h) namespace key in
  let at_ := (namespace, key) in
  let! existing := check at_ expected in
  fun '(s, t) =>
    let '((rev, now), s') := next h clock s in
    let r := mkRecord namespace key (CopyRecordValue value) rev (Created existing) now in
    (Ok (clone r), stage at_ (Some r) (s', t)).

Definition tx_DeleteRecord (h : Hooks) (namespace key : string) (expected : Z) : st tx error unit :=
  let! _ := st_lift (validate namespace key) in
  let! _ := run_hook (FailDelete h) namespace key in
  let at_ := (namespace, key) in
  let! _ := check at_ expected in
  fun x => (Ok tt, stage at_ None x).

(** The loop over the keys: a key that is there is deleted and counted. *)
Fixpoint delete_loop (namespace : string) (ks : list string) (deleted : Z) (x : tx) : Z * tx :=
  match ks with
  | [] => (deleted, x)
  | key :: ks' =>
      let at_ := (namespace, key) in
      let '(o, x') := read at_ true x in
      match o with
      | Some _ => delete_loop namespace ks' (deleted + 1) (stage at_ None x')
      | None => delete_loop namespace ks' deleted x'
      end
  end.

Definition tx_DeleteRecordPrefix (h : Hooks) (namespace prefix : string) : st tx error Z :=
  let! _ := st_lift (ValidateRecordNamespace namespace) in
  let! _ := st_lift (ValidateRecordDeletePrefix prefix) in
  let! _ := run_hook (FailDelete h) namespace prefix in
  let! _ := run_hook (FailPrefixDelete h) namespace prefix in
  fun x => let '(n, x') := delete_loop namespace (keys namespace prefix x) 0 x in (Ok n, x').

Definition run_op (h : Hooks) (o : tx_op) : st tx error reply :=
  match o with
  | GetRecord ns k => let! r := tx_GetRecord ns k in st_ret (ARecord r)
  | CreateRecord now ns k v => let! r := tx_CreateRecord h now ns k v in st_ret (ARecord r)
  | UpdateRecord now ns k v e => let! r := tx_UpdateRecord h now ns k v e in st_ret (ARecord r)
  | DeleteRecord ns k e => let! _ := tx_DeleteRecord h ns k e in st_ret ADone
  | DeleteRecordPrefix ns p => let! n := tx_DeleteRecordPrefix h ns p in st_ret (ACount n)
  end.

(** ** The store *)

(** [unchanged]: what a transaction read of a record is still so. *)
Definition unchanged (s : Store) (at_ : ref) (before : seen) : res error unit :=
  match stored s at_ with
  | Some r =>
      if seen_revision before =? 0 then Err (NewRecordExistError at_.1 at_.2)
      else if negb (anyRevision before) && negb (Revision r =? seen_revision before) then
        Err (NewRecordConflictError at_.1 at_.2 (seen_revision before) (Revision r))
      else Ok tt
  | None =>
      if negb (seen_revision before =? 0) then Err (NewRecordNotExistError at_.1 at_.2) else Ok tt
  end.

Fixpoint all_unchanged (s : Store) (l : list (ref * seen)) : res error unit :=
  match l with
  | [] => Ok tt
  | (at_, before) :: l' => let? _ := unchanged s at_ before in all_unchanged s l'
  end.

(** One write of the commit: [staged[at_]] of a ref that is not in the map is
    nil, a delete. *)
Definition apply_one (t : txn) (s : Store) (at_ : ref) : Store :=
  match default None (staged t !! at_) with
  | None =>
      match records s !! at_.1 with
      | Some m => mkStore (revision s) (<[at_.1 := delete at_.2 m]> (records s)) (commits s)
      | None => s
      end
  | Some r => mkStore (revision s) (<[at_.1 := <[at_.2 := r]> (namespace_of s at_.1)]> (records s)) (commits s)
  end.

(** The commit. [range] is the order in which Go iterates over the map, which
    it does not specify. *)
Definition commit (range : gmap ref seen -> list (ref * seen)) (s : Store) (t : txn) : res error unit * Store :=
  match all_unchanged s (range (seen_of t)) with
  | Err e => (Err e, s)
  | Ok _ =>
      let s' := foldl (apply_one t) s (order t) in
      (Ok tt, mkStore (revision s') (records s')
                (if (0 <? length (order t))%nat then commits s' + 1 else commits s'))
  end.

Definition RecordTxn {A : Type} (range : gmap ref seen -> list (ref * seen)) (fn : st tx error A)
  : st Store error A := fun s =>
  match fn (s, new_txn) with
  | (Err e, (s', _)) => (Err e, s')
  | (Ok a, (s', t)) =>
      match commit range s' t with
      | (Err e, s'') => (Err e, s'')
      | (Ok _, s'') => (Ok a, s'')
      end
  end.

Definition CreateRecord range h clock ns k v := RecordTxn range (tx_CreateRecord h clock ns k v).
Definition UpdateRecord range h clock ns k v x := RecordTxn range (tx_UpdateRecord h clock ns k v x).
Definition DeleteRecord range h ns k x := RecordTxn range (tx_DeleteRecord h ns k x).
Definition DeleteRecordPrefix range h ns p := RecordTxn range (tx_DeleteRecordPrefix h ns p).

Definition GetRecord (namespace key : string) (s : Store) : res error record :=
  let? _ := validate namespace key in
  match stored s (namespace, key) with
  | None => Err (NewRecordNotExistError namespace key)
  | Some r => Ok (clone r)
  end.

(** [sort.Slice] by key: the keys of a namespace are distinct, so the order of
    the iteration does not matter. *)
Definition key_le (r r' : record) : Prop := String.le (Key r) (Key r').
#[export] Instance key_le_dec : RelDecision key_le.
Proof. intros r r'. unfold key_le. apply _. Defined.

Definition ListRecords (namespace prefix : string) (s : Store) : res error (list record) :=
  let? _ := ValidateRecordNamespace namespace in
  let? _ := ValidateRecordPrefix prefix in
  Ok (merge_sort key_le
        (omap (fun '(k, r) => if has_prefix k prefix then Some (clone r) else None)
           (map_to_list (namespace_of s namespace)))).

Definition ListRecordKeys (namespace prefix : string) (s : Store) : res error (list string) :=
  let? rs := ListRecords namespace prefix s in Ok (map Key rs).

Definition Commits (s : Store) : Z := commits s.
Definition Count (namespace : string) (s : Store) : Z := Z.of_nat (size (namespace_of s namespace)).
Definition Keys (namespace : string) (s : Store) : list string :=
  merge_sort String.le (elements (dom (namespace_of s namespace))).

Definition SetValue (namespace key : string) (value : option (list byte)) (s : Store) : Store :=
  match stored s (namespace, key) with
  | None => s
  | Some r =>
      let r' := mkRecord (Namespace r) (Key r) (CopyRecordValue value) (Revision r) (Created r) (Updated r) in
      mkStore (revision s) (<[namespace := <[key := r']> (namespace_of s namespace)]> (records s)) (commits s)
  end.

Definition Drop (namespace key : string) (s : Store) : Store :=
  match records s !! namespace with
  | Some m => mkStore (revision s) (<[namespace := delete key m]> (records s)) (commits s)
  | None => s
  end.

(** ** The transaction's view *)

(** What the transaction sees of a record. *)
Definition view_of (x : tx) (at_ : ref) : option record :=
  match staged x.2 !! at_ with
  | Some o => o
  | None => stored x.1 at_
  end.

(** Reading keeps the store and the staged writes. *)
Lemma read_spec at_ any x :
  exists seen', read at_ any x = (view_of x at_, (x.1, mkTxn (staged x.2) (order x.2) seen')).
Proof.
  destruct x as [s t]. unfold read, view_of. cbn [fst snd].
  destruct (staged t !! at_) as [o|]; [|by eexists]. exists (seen_of t). by destruct t.
Qed.

(** What the transaction remembers of a record is what the store has. *)
Definition exact (x : tx) : Prop :=
  forall at_ b, seen_of x.2 !! at_ = Some b ->
    seen_revision b = match stored x.1 at_ with Some r => Revision r | None => 0 end.

Record mem_rel (x : tx) (s : Spec.state) : Prop := mkMemRel {
  mr_rev : revision x.1 = Spec.rev s;
  mr_bound : 0 <= Spec.rev s < 2 ^ 63;
  mr_recs at_ : Spec.recs s !! at_ = canon <$> view_of x at_;
  mr_ok at_ r : view_of x at_ = Some r ->
    Namespace r = at_.1 /\ Key r = at_.2 /\ 0 < Revision r <= Spec.rev s;
  mr_stored at_ r : stored x.1 at_ = Some r -> 0 < Revision r;
  mr_exact : exact x;
  mr_order at_ : at_ ∈ order x.2 <-> is_Some (staged x.2 !! at_)
}.

Lemma exact_unchanged x at_ b :
  exact x -> (forall a r, stored x.1 a = Some r -> 0 < Revision r) ->
  seen_of x.2 !! at_ = Some b -> unchanged x.1 at_ b = Ok tt.
Proof.
  intros He Hpos Hb. apply He in Hb. unfold unchanged. rewrite Hb.
  destruct (stored x.1 at_) as [r|] eqn:E; [|done]. rewrite Z.eqb_refl, andb_false_r.
  specialize (Hpos _ _ E). by rewrite (proj2 (Z.eqb_neq _ _)) by lia.
Qed.

Lemma read_exact at_ any x : exact x -> exact (snd (read at_ any x)).
Proof.
  destruct x as [s t]. unfold exact, read. cbn [fst snd]. intros He.
  destruct (staged t !! at_) as [o|]; cbn [fst snd seen_of]; [done|].
  destruct (seen_of t !! at_) as [b0|] eqn:E.
  - destruct (anyRevision b0 && negb any); [|done].
    intros a b [[<- <-]|[_ Hb]]%lookup_insert_Some; [|by apply He]. cbn. by apply He.
  - intros a b [[<- <-]|[_ Hb]]%lookup_insert_Some; [done|by apply He].
Qed.

Lemma read_ok at_ any x s :
  mem_rel x s -> exists x', read at_ any x = (view_of x at_, x') /\ mem_rel x' s /\
    (forall a, view_of x' a = view_of x a) /\ x'.1 = x.1.
Proof.
  intros Hrel. destruct (read_spec at_ any x) as [sn Hsn]. eexists. split; [exact Hsn|].
  pose proof (read_exact at_ any x (mr_exact _ _ Hrel)) as He. rewrite Hsn in He.
  split_and!; [|done..]. destruct Hrel. by split.
Qed.

Lemma staged_stage at_ o x : staged (stage at_ o x).2 = <[at_ := o]> (staged x.2).
Proof. by destruct x. Qed.

Lemma view_stage at_ o x a :
  view_of (stage at_ o x) a = if decide (a = at_) then o else view_of x a.
Proof.
  unfold view_of. rewrite staged_stage. destruct (decide (a = at_)) as [->|Hne].
  - by rewrite lookup_insert_eq.
  - rewrite lookup_insert_ne by done. by destruct x.
Qed.

(** Staging a write does to the view what it will do to the store. *)
Lemma stage_ok at_ o x s :
  mem_rel x s ->
  (forall r, o = Some r -> Namespace r = at_.1 /\ Key r = at_.2 /\ 0 < Revision r <= Spec.rev s) ->
  mem_rel (stage at_ o x)
    (Spec.mkState (Spec.rev s) (partial_alter (fun _ => canon <$> o) at_ (Spec.recs s))).
Proof.
  intros [] Ho. split; cbn [Spec.rev Spec.recs]; try (by destruct x).
  - intros a. rewrite view_stage. destruct (decide (a = at_)) as [->|Hne].
    + by rewrite lookup_partial_alter_eq.
    + by rewrite lookup_partial_alter_ne.
  - intros a r. rewrite view_stage. destruct (decide (a = at_)) as [->|Hne]; [apply Ho|apply mr_ok0].
  - intros a. rewrite staged_stage, lookup_insert_is_Some. specialize (mr_order0 a).
    destruct x as [σ t]. cbn in *. destruct (staged t !! at_) eqn:E.
    + rewrite mr_order0. split; [destruct (decide (at_ = a)); tauto|]. intros [<-|[_ ?]]; [by eexists|done].
    + rewrite elem_of_app, list_elem_of_singleton, mr_order0.
      split.
      * intros [Ha|Ha]; [right|by left]. split; [|done]. intros <-. rewrite E in Ha. by destruct Ha.
      * intros [Ha|[_ Ha]]; [by right|by left].
Qed.

Lemma next_ok h clock σ t s :
  mem_rel (σ, t) s -> Spec.rev s < 2 ^ 63 - 1 ->
  exists σ', next h clock σ = ((Spec.rev s + 1, now_ h clock σ'), σ') /\
    mem_rel (σ', t) (Spec.mkState (Spec.rev s + 1) (Spec.recs s)).
Proof.
  intros [] Hb. cbn in *. unfold next.
  assert (add64 (revision σ) 1 = Spec.rev s + 1) as ->.
  { unfold add64. rewrite mr_rev0. apply wrap64_id. unfold int64. lia. }
  eexists. split; [done|]. split; cbn; try done.
  - lia.
  - intros a r Hr. destruct (mr_ok0 a r Hr) as (?&?&?). split_and!; try done; lia.
Qed.

(** ** Each operation, with a clock

    A store whose [Stamp] hook is the clock of the caller, and no other hook. *)

Definition stamped : Hooks := mkHooks None None None None true.

Lemma canon_clone r : canon (clone r) = canon r.
Proof. unfold canon, clone. simpl. by destruct (Value r). Qed.

Lemma get_sim ns k x s :
  mem_rel x s -> sim mem_rel same_record (tx_GetRecord ns k x) (Spec.get ns k s).
Proof.
  intros Hrel. unfold tx_GetRecord, Spec.get, sim, validate, validateRecordNamespaceAndKey, Spec.lookup.
  destruct (let? _ := _ in _) as [[]|]; [|done]. cbn [res_bind].
  destruct (read_ok (ns, k) false x s Hrel) as (x' & -> & Hrel' & _). rewrite (mr_recs _ _ Hrel).
  destruct (view_of x (ns, k)); cbn; [|done]. split; [|done]. apply canon_clone.
Qed.

(** A record gets the clock's time. *)
Lemma staged_write x s ns k v c u rev :
  mem_rel x s -> 0 < rev -> Spec.rev s = rev ->
  sim mem_rel same_record
    (Ok (clone (mkRecord ns k (CopyRecordValue v) rev c u)),
     stage (ns, k) (Some (mkRecord ns k (CopyRecordValue v) rev c u)) x)
    (Ok (mkRecord ns k (Some (bytes_of v)) rev c u),
     Spec.write (mkRecord ns k (Some (bytes_of v)) rev c u) s).
Proof.
  intros Hrel Hpos <-. split; cbn [fst snd].
  - unfold same_record, canon, clone. cbn. by destruct v.
  - pose proof (stage_ok (ns, k) (Some (mkRecord ns k (CopyRecordValue v) (Spec.rev s) c u)) x s Hrel) as H.
    unfold Spec.write. cbn [Namespace Key Revision].
    replace (<[(ns, k):=_]> (Spec.recs s)) with
      (partial_alter (fun _ => canon <$> Some (mkRecord ns k (CopyRecordValue v) (Spec.rev s) c u))
         (ns, k) (Spec.recs s)).
    + apply H. intros r [= <-]. cbn. split_and!; auto; lia.
    + unfold insert, map_insert, canon. cbn. by destruct v.
Qed.

Lemma create_sim now ns k v x s :
  mem_rel x s -> in_bounds (RecordSpec.CreateRecord now ns k v) s ->
  sim mem_rel same_record (tx_CreateRecord stamped now ns k v x) (Spec.create now ns k v s).
Proof.
  intros Hrel (Hrev & _ & _). unfold tx_CreateRecord, Spec.create, st_bind, st_lift, validate,
    validateRecordNamespaceAndKey.
  destruct (let? _ := _ in _) as [[]|]; [|done]. destruct x as [σ t]. cbn [run_hook stamped BeforeCreate].
  destruct (read_ok (ns, k) false (σ, t) s Hrel) as ([σ' t'] & -> & Hrel' & _).
  rewrite (mr_recs _ _ Hrel).
  destruct (view_of (σ, t) (ns, k)); cbn [fmap option_fmap option_map]; [done|].
  destruct (next_ok stamped now σ' t' s Hrel' Hrev) as (σ2 & -> & Hrel2).
  apply (staged_write (σ2, t') _ ns k v now now (Spec.rev s + 1) Hrel2); [|done].
  pose proof (mr_bound _ _ Hrel). lia.
Qed.

(** [check] is the lookup and the revision check of the abstract store. *)
Lemma check_ok ns k e x s :
  mem_rel x s ->
  match (let? old := Spec.lookup ns k s in
         let? _ := checkRecordRevision ns k e (Revision old) in Ok old) with
  | Err err => exists x', check (ns, k) e x = (Err err, x') /\ mem_rel x' s
  | Ok old => exists r x', check (ns, k) e x = (Ok r, x') /\ mem_rel x' s /\ canon r = old
  end.
Proof.
  intros Hrel. unfold check, Spec.lookup, checkRecordRevision.
  destruct (read_ok (ns, k) (e =? AnyRevision) x s Hrel) as (x' & -> & Hrel' & _).
  rewrite (mr_recs _ _ Hrel). destruct (view_of x (ns, k)) as [r|]; cbn; [|by eexists].
  rewrite (Z.eqb_sym (Revision r) e).
  destruct (e =? AnyRevision), (e =? Revision r); cbn; eauto.
Qed.

Lemma update_sim now ns k v e x s :
  mem_rel x s -> in_bounds (RecordSpec.UpdateRecord now ns k v e) s ->
  sim mem_rel same_record (tx_UpdateRecord stamped now ns k v e x) (Spec.update now ns k v e s).
Proof.
  intros Hrel (Hrev & _ & _). unfold tx_UpdateRecord, Spec.update, st_bind, st_lift, validate,
    validateRecordNamespaceAndKey.
  destruct (let? _ := ValidateRecordNamespace _ in _) as [[]|]; [|done]. cbn [res_bind].
  destruct x as [σ t]. cbn [run_hook stamped BeforeUpdate].
  pose proof (check_ok ns k e (σ, t) s Hrel) as Hc.
  destruct (let? old := _ in _) as [old|err].
  - destruct Hc as (r & [σ' t'] & -> & Hrel' & <-).
    destruct (next_ok stamped now σ' t' s Hrel' Hrev) as (σ2 & -> & Hrel2).
    apply (staged_write (σ2, t') _ ns k v (Created r) now (Spec.rev s + 1) Hrel2); [|done].
    pose proof (mr_bound _ _ Hrel). lia.
  - by destruct Hc as (x' & -> & Hrel').
Qed.

Lemma staged_delete x s ns k :
  mem_rel x s -> mem_rel (stage (ns, k) None x) (Spec.mkState (Spec.rev s) (base.delete (ns, k) (Spec.recs s))).
Proof. intros Hrel. by apply (stage_ok (ns, k) None x s Hrel). Qed.

Lemma delete_sim ns k e x s :
  mem_rel x s -> sim mem_rel eq (tx_DeleteRecord stamped ns k e x) (Spec.delete ns k e s).
Proof.
  intros Hrel. unfold tx_DeleteRecord, Spec.delete, st_bind, st_lift, validate, validateRecordNamespaceAndKey.
  destruct (let? _ := ValidateRecordNamespace _ in _) as [[]|]; [|done]. cbn [res_bind].
  destruct x as [σ t]. cbn [run_hook stamped FailDelete].
  pose proof (check_ok ns k e (σ, t) s Hrel) as Hc. revert Hc. unfold res_bind.
  destruct (Spec.lookup ns k s) as [old|err]; [|by intros (x' & -> & ?)].
  destruct (checkRecordRevision _ _ _ _) as [[]|]; [|by intros (x' & -> & ?)].
  intros (r & x' & -> & Hrel' & _). split; [done|]. by apply staged_delete.
Qed.

Lemma delete_loop_ok ns ks n x s :
  mem_rel x s -> NoDup ks ->
  exists x', delete_loop ns ks n x =
      (n + Z.of_nat (length (List.filter (fun k => bool_decide (is_Some (Spec.recs s !! (ns, k)))) ks)), x') /\
    mem_rel x' (Spec.mkState (Spec.rev s) (foldl (fun m k => base.delete (ns, k) m) (Spec.recs s) ks)).
Proof.
  revert n x s. induction ks as [|k ks IH]; intros n x s Hrel Hnd; cbn [delete_loop foldl List.filter].
  - exists x. split; [f_equal; cbn; lia|]. by destruct s.
  - apply NoDup_cons in Hnd as [Hnin Hnd].
    destruct (read_ok (ns, k) true x s Hrel) as (x' & -> & Hrel' & _).
    pose proof (mr_recs _ _ Hrel (ns, k)) as Hk.
    assert (Hf : List.filter (fun j => bool_decide (is_Some (base.delete (ns, k) (Spec.recs s) !! (ns, j)))) ks =
                 List.filter (fun j => bool_decide (is_Some (Spec.recs s !! (ns, j)))) ks).
    { apply List.filter_ext_in. intros j Hj%list_elem_of_In. rewrite lookup_delete_ne; [done|].
      by intros [= ->]. }
    destruct (view_of x (ns, k)) as [r|]; cbn in Hk.
    + destruct (IH (n + 1) (stage (ns, k) None x') _ (staged_delete _ _ ns k Hrel') Hnd) as (x2 & -> & Hrel2).
      exists x2. split; [|done]. f_equal. cbn [Spec.recs]. rewrite Hf, Hk, bool_decide_true by by eexists.
      cbn [length]. lia.
    + destruct (IH n x' s Hrel' Hnd) as (x2 & -> & Hrel2). exists x2.
      rewrite Hk, bool_decide_false by by intros [? ?]. by rewrite delete_id.
Qed.

Lemma elem_of_mem_keys ns prefix x k :
  k ∈ keys ns prefix x <->
    has_prefix k prefix = true /\ (is_Some (stored x.1 (ns, k)) \/ is_Some (staged x.2 !! (ns, k))).
Proof.
  destruct x as [σ t]. unfold keys. rewrite merge_sort_Permutation, elem_of_elements, elem_of_union.
  rewrite elem_of_filter, elem_of_map, elem_of_dom. cbn [fst snd]. unfold stored. cbn [fst snd]. split.
  - intros [[Hp Hk]|([n j] & -> & Hf)]; [by auto|].
    apply elem_of_filter in Hf as [[Hn Hp] Hd%elem_of_dom]. cbn in *. subst n. auto.
  - intros [Hp [Hk|Hk]]; [by left|]. right. exists (ns, k). split; [done|].
    apply elem_of_filter. split; [done|]. by apply elem_of_dom.
Qed.

Lemma filter_keys_size (ks : list string) s ns prefix :
  NoDup ks -> (forall k, k ∈ ks -> has_prefix k prefix = true) ->
  (forall k, k ∈ Spec.keys s ns prefix -> k ∈ ks) ->
  length (List.filter (fun k => bool_decide (is_Some (Spec.recs s !! (ns, k)))) ks) =
    size (Spec.keys s ns prefix).
Proof.
  intros Hnd Hp Hk. rewrite <- (size_list_to_set (C:=gset string)).
  - f_equal. apply set_eq. intros k. rewrite elem_of_list_to_set, elem_of_keys.
    rewrite list_elem_of_In, List.filter_In, <- list_elem_of_In, bool_decide_eq_true.
    split; [by intros [? ?]; auto|]. intros Hs. split; [|apply Hs]. by apply Hk, elem_of_keys.
  - apply NoDup_ListNoDup, List.NoDup_filter. by apply NoDup_ListNoDup.
Qed.

Lemma delete_prefix_sim ns prefix x s :
  mem_rel x s -> sim mem_rel eq (tx_DeleteRecordPrefix stamped ns prefix x) (Spec.delete_prefix ns prefix s).
Proof.
  intros Hrel. unfold tx_DeleteRecordPrefix, Spec.delete_prefix, st_bind, st_lift, res_bind.
  destruct (ValidateRecordNamespace ns) as [[]|]; [|done].
  destruct (ValidateRecordDeletePrefix prefix) as [[]|]; [|done].
  destruct x as [σ t]. cbn [run_hook stamped FailDelete FailPrefixDelete].
  assert (Hnd : NoDup (keys ns prefix (σ, t))).
  { unfold keys. rewrite merge_sort_Permutation. apply NoDup_elements. }
  destruct (delete_loop_ok ns (keys ns prefix (σ, t)) 0 (σ, t) s Hrel Hnd) as (x' & -> & Hrel').
  assert (Hp : forall k, k ∈ keys ns prefix (σ, t) -> has_prefix k prefix = true).
  { by intros k [? _]%elem_of_mem_keys. }
  assert (Hk : forall k, k ∈ Spec.keys s ns prefix -> k ∈ keys ns prefix (σ, t)).
  { intros k [Hk Hpk]%elem_of_keys. apply elem_of_mem_keys. split; [done|].
    rewrite (mr_recs _ _ Hrel) in Hk. unfold view_of in Hk.
    destruct (staged _ !! _); [right; by eexists|]. left. by destruct (stored _ _); [eexists|destruct Hk]. }
  rewrite (foldl_delete_filter s ns prefix) in Hrel' by done. split; [|done]. cbn.
  by rewrite (filter_keys_size _ s ns prefix).
Qed.

#[export] Instance mem_record_tx : RecordTx tx := { tx_run := run_op stamped; tx_rel := mem_rel }.

#[export] Instance mem_record_tx_refines : RecordTxRefines tx.
Proof.
  split. intros o x s Hrel Hb. destruct o; cbn [tx_run tx_rel mem_record_tx run_op Spec.run].
  - apply (sim_reply mem_rel same_record); [by apply get_sim|]. by intros ? ? <-.
  - apply (sim_reply mem_rel same_record); [by apply create_sim|]. by intros ? ? <-.
  - apply (sim_reply mem_rel same_record); [by apply update_sim|]. by intros ? ? <-.
  - apply (sim_reply mem_rel eq); [by apply delete_sim|]. done.
  - apply (sim_reply mem_rel eq); [by apply delete_prefix_sim|]. by intros ? ? ->.
Qed.

Lemma run_client_sim {A} (c : client A) x s :
  mem_rel x s -> fits c s ->
  fst (run_client (run_op stamped) c x) = fst (run_client Spec.run c s) /\
  mem_rel (snd (run_client (run_op stamped) c x)) (snd (run_client Spec.run c s)).
Proof. exact (@client_refines tx A mem_record_tx mem_record_tx_refines c x s). Qed.

(** ** The commit *)

Lemma stored_apply_one t s a b :
  stored (apply_one t s a) b = if decide (b = a) then default None (staged t !! a) else stored s b.
Proof.
  destruct a as [n k], b as [n' k']. unfold apply_one, stored, namespace_of. cbn [fst snd].
  destruct (default None (staged t !! (n, k))) as [r|]; cbn [records].
  - destruct (decide (n' = n)) as [->|Hn].
    + rewrite lookup_insert_eq. cbn. destruct (decide (k' = k)) as [->|Hk].
      * by rewrite lookup_insert_eq, decide_True.
      * rewrite lookup_insert_ne, decide_False by congruence. done.
    + rewrite lookup_insert_ne, decide_False by congruence. done.
  - destruct (records s !! n) as [m|] eqn:E; cbn [records].
    + destruct (decide (n' = n)) as [->|Hn].
      * rewrite lookup_insert_eq, E. cbn. destruct (decide (k' = k)) as [->|Hk].
        -- by rewrite lookup_delete_eq, decide_True.
        -- rewrite lookup_delete_ne, decide_False by congruence. done.
      * rewrite lookup_insert_ne, decide_False by congruence. done.
    + destruct (decide ((n', k') = (n, k))) as [[= -> ->]|Hn]; [|done]. by rewrite E.
Qed.

Lemma stored_apply t s l b :
  stored (foldl (apply_one t) s l) b = if decide (b ∈ l) then default None (staged t !! b) else stored s b.
Proof.
  revert s. induction l as [|a l IH]; intros s; cbn [foldl].
  - by rewrite decide_False by by intros ?%elem_of_nil.
  - rewrite IH, stored_apply_one. destruct (decide (b ∈ l)) as [Hb|Hb].
    + by rewrite decide_True by by right.
    + destruct (decide (b = a)) as [->|Hne]; [by rewrite decide_True by left|].
      rewrite decide_False; [done|]. by intros [?|?]%elem_of_cons.
Qed.

Lemma revision_apply t s l : revision (foldl (apply_one t) s l) = revision s.
Proof.
  revert s. induction l as [|a l IH]; intros s; cbn [foldl]; [done|]. rewrite IH. unfold apply_one.
  destruct (default None _); [done|]. by destruct (records s !! a.1).
Qed.

Lemma all_unchanged_spec s l :
  match all_unchanged s l with
  | Ok _ => forall a b, (a, b) ∈ l -> unchanged s a b = Ok tt
  | Err e => exists a b, (a, b) ∈ l /\ unchanged s a b = Err e
  end.
Proof.
  induction l as [|[a b] l IH]; cbn [all_unchanged]; [by intros ? ? ?%elem_of_nil|].
  destruct (unchanged s a b) as [[]|e] eqn:E; cbn [res_bind]; [|exists a, b; split; [left|done]].
  destruct (all_unchanged s l) as [[]|e].
  - intros a' b' [[= -> ->]|?]%elem_of_cons; auto.
  - destruct IH as (a' & b' & ? & ?). exists a', b'. split; [by right|done].
Qed.

Section Commit.

(** The order in which Go iterates over a map is some order of its entries. *)
Context (range : gmap ref seen -> list (ref * seen)).
Context (range_perm : forall m, range m ≡ₚ map_to_list m).

Lemma all_unchanged_range s m :
  match all_unchanged s (range m) with
  | Ok _ => forall a b, m !! a = Some b -> unchanged s a b = Ok tt
  | Err e => exists a b, m !! a = Some b /\ unchanged s a b = Err e
  end.
Proof.
  pose proof (all_unchanged_spec s (range m)) as H. destruct (all_unchanged s (range m)) as [[]|e].
  - intros a b Hb. apply H. rewrite range_perm. by apply elem_of_map_to_list.
  - destruct H as (a & b & Hin & ?). exists a, b. split; [|done].
    rewrite range_perm in Hin. by apply elem_of_map_to_list.
Qed.

Lemma commit_spec s t :
  (forall a, a ∈ order t <-> is_Some (staged t !! a)) ->
  match commit range s t with
  | (Ok _, s') =>
      (forall a b, seen_of t !! a = Some b -> unchanged s a b = Ok tt) /\
      (forall a, stored s' a = view_of (s, t) a) /\ revision s' = revision s
  | (Err e, s') => s' = s /\ exists a b, seen_of t !! a = Some b /\ unchanged s a b = Err e
  end.
Proof.
  intros Hord. unfold commit. pose proof (all_unchanged_range s (seen_of t)) as H.
  destruct (all_unchanged s (range (seen_of t))) as [[]|e]; [|done]. split; [done|]. cbn [revision].
  split; [|apply revision_apply]. intros a.
  change (stored (foldl (apply_one t) s (order t)) a = view_of (s, t) a).
  rewrite stored_apply. unfold view_of. cbn [fst snd].
  destruct (decide (a ∈ order t)) as [Ha|Ha]; rewrite Hord in Ha.
  - destruct Ha as [o ->]. done.
  - by rewrite <- eq_None_not_Some in Ha; rewrite Ha.
Qed.

(** *** What every operation keeps, whatever the hooks do *)

(** The writes are staged in order, and what the transaction read of [at_],
    with its revision, is remembered. *)
Definition keeps (at_ : ref) (rev : option Z) (x : tx) : Prop :=
  (forall a, a ∈ order x.2 <-> is_Some (staged x.2 !! a)) /\
  match rev with
  | Some v => exists b, seen_of x.2 !! at_ = Some b /\ seen_revision b = v /\ anyRevision b = false
  | None => True
  end.

Lemma keeps_read at_ v a any x : keeps at_ v x -> keeps at_ v (snd (read a any x)).
Proof.
  destruct x as [s t]. unfold keeps, read. cbn [fst snd].
  destruct (staged t !! a); cbn [fst snd]; [done|]. intros [Ho Hv]. split; [done|]. cbn [seen_of].
  destruct v as [v|]; [|done]. destruct Hv as (b & Hb & Hv & Hany).
  destruct (decide (a = at_)) as [->|Hne].
  - rewrite Hb, Hany. cbn. by exists b.
  - exists b. split; [|done]. destruct (seen_of t !! a) as [b'|]; [|by rewrite lookup_insert_ne].
    destruct (anyRevision b' && negb any); [|done]. by rewrite lookup_insert_ne.
Qed.

Lemma keeps_stage at_ v a o x : keeps at_ v x -> keeps at_ v (stage a o x).
Proof.
  destruct x as [s t]. unfold keeps. intros [Ho Hv]. split; [|by destruct v].
  intros a'. cbn. cbn in Ho. rewrite lookup_insert_is_Some. destruct (staged t !! a) as [o'|] eqn:E.
  - rewrite Ho. split; [destruct (decide (a = a')); tauto|]. intros [<-|[_ ?]]; [by eexists|done].
  - rewrite elem_of_app, list_elem_of_singleton, Ho. split.
    + intros [Ha|Ha]; [right|by left]. split; [|done]. intros <-. rewrite E in Ha. by destruct Ha.
    + intros [Ha|[_ Ha]]; [by right|by left].
Qed.

Lemma keeps_store at_ v s s' t : keeps at_ v (s, t) -> keeps at_ v (s', t).
Proof. done. Qed.

(** A computation that keeps it. *)
Definition keeper {A} (at_ : ref) (v : option Z) (m : st tx error A) : Prop :=
  forall x, keeps at_ v x -> keeps at_ v (snd (m x)).

Lemma keeper_bind {A B} at_ v (m : st tx error A) (f : A -> st tx error B) :
  keeper at_ v m -> (forall a, keeper at_ v (f a)) -> keeper at_ v (st_bind m f).
Proof.
  intros Hm Hf x Hx. unfold st_bind. specialize (Hm x Hx). destruct (m x) as [[a|e] x']; [|done].
  by apply Hf.
Qed.

Lemma keeper_lift {A} at_ v (r : res error A) : keeper at_ v (st_lift r).
Proof. by intros x. Qed.

Lemma keeper_hook at_ v h ns k : keeper at_ v (run_hook h ns k).
Proof. intros [s t] Hx. unfold run_hook. destruct h as [f|]; [|done]. by destruct (f ns k s) as [[?|] ?]. Qed.

Lemma keeper_check at_ v a e : keeper at_ v (check a e).
Proof.
  intros x Hx. unfold check. pose proof (keeps_read at_ v a (e =? AnyRevision) x Hx) as H.
  destruct (read a (e =? AnyRevision) x) as [[r|] x']; [|done]. by case_match.
Qed.

Lemma keeps_loop at_ v ns ks n x : keeps at_ v x -> keeps at_ v (snd (delete_loop ns ks n x)).
Proof.
  revert n x. induction ks as [|k ks IH]; intros n x Hx; cbn [delete_loop]; [done|].
  pose proof (keeps_read at_ v (ns, k) true x Hx) as H.
  destruct (read (ns, k) true x) as [[r|] x']; apply IH; [|done]. by apply keeps_stage.
Qed.

Lemma keeper_op at_ v h o : keeper at_ v (run_op h o).
Proof.
  assert (Hret : forall A B (m : st tx error A) (f : A -> B),
            keeper at_ v m -> keeper at_ v (let! a := m in st_ret (f a))).
  { intros A B m f Hm. apply keeper_bind; [done|]. by intros a x. }
  destruct o as [namespace key|now namespace key w|now namespace key w e|namespace key e|namespace pre]; apply Hret.
  - intros x Hx. unfold tx_GetRecord. destruct (validate _ _); [|done].
    pose proof (keeps_read at_ v (namespace, key) false x Hx) as H.
    destruct (read _ _ x) as [[r|] x']; exact H.
  - apply keeper_bind; [apply keeper_lift|]. intros _. apply keeper_bind; [apply keeper_hook|]. intros _ x Hx.
    cbv zeta. pose proof (keeps_read at_ v (namespace, key) false x Hx) as H.
    destruct (read _ _ x) as [[r|] [s' t']]; [exact H|]. by apply keeps_stage.
  - apply keeper_bind; [apply keeper_lift|]. intros _. apply keeper_bind; [apply keeper_hook|]. intros _.
    apply keeper_bind; [apply keeper_check|]. intros r [s' t'] Hx. by apply keeps_stage.
  - apply keeper_bind; [apply keeper_lift|]. intros _. apply keeper_bind; [apply keeper_hook|]. intros _.
    apply keeper_bind; [apply keeper_check|]. intros r x Hx. by apply keeps_stage.
  - repeat (apply keeper_bind; [first [apply keeper_lift|apply keeper_hook]|]; intros _). intros x Hx.
    pose proof (keeps_loop at_ v namespace (keys namespace pre x) 0 x Hx) as H.
    destruct (delete_loop _ _ _ x) as [n x']; exact H.
Qed.

Lemma keeper_client {A} at_ v h (c : client A) : keeper at_ v (run_client (run_op h) c).
Proof.
  induction c as [r|o k IH]; [apply keeper_lift|]. intros x Hx. cbn [run_client].
  pose proof (keeper_op at_ v h o x Hx) as H. destruct (run_op h o x) as [a x']. by apply IH.
Qed.

Lemma keeps_new at_ s : keeps at_ None (s, new_txn).
Proof.
  split; [|done]. intros a. cbn. rewrite lookup_empty. split; [by intros ?%elem_of_nil|by intros [? ?]].
Qed.

(** ** Transactions *)

(** *** What a transaction did, told by its events

    [Looked at exact found] is a look at the record of the store that has [at],
    at its revision or just for whether it is there, and what was found;
    [Wrote at o] a write that was accepted. They are told from the operation,
    the store it met after its hooks, and its reply. *)
Inductive event : Type :=
  | Looked (at_ : ref) (exact_ : bool) (found : option Z)
  | Wrote (at_ : ref) (o : option record).

Definition last_write (tr : list event) (at_ : ref) : option (option record) :=
  foldl (fun last e => match e with Wrote a o => if decide (a = at_) then Some o else last | _ => last end) None tr.

Definition first_look (tr : list event) (at_ : ref) : option (option Z) :=
  foldl (fun first e =>
    match first, e with None, Looked a _ found => if decide (a = at_) then Some found else None | _, _ => first end) None tr.

Definition looked_exactly (tr : list event) (at_ : ref) : Prop :=
  exists found, Looked at_ true found ∈ tr.

(** A record the transaction wrote is not looked up in the store. *)
Definition look (tr : list event) (s : Store) (at_ : ref) (exact_ : bool) : list event :=
  match last_write tr at_ with
  | Some _ => []
  | None => [Looked at_ exact_ (Revision <$> stored s at_)]
  end.

Definition there (tr : list event) (s : Store) (at_ : ref) : bool :=
  match last_write tr at_ with
  | Some o => bool_decide (is_Some o)
  | None => bool_decide (is_Some (stored s at_))
  end.

(** A hook that let the operation go on, and the store it left. *)
Definition passed (h : option hook) (ns k : string) (s : Store) : option Store :=
  match h with
  | None => Some s
  | Some f => match f ns k s with (None, s') => Some s' | (Some _, _) => None end
  end.

Fixpoint prefix_events (ns : string) (ks : list string) (s : Store) (tr : list event) : list event :=
  match ks with
  | [] => []
  | k :: ks =>
      let new := look tr s (ns, k) false ++ (if there tr s (ns, k) then [Wrote (ns, k) None] else []) in
      new ++ prefix_events ns ks s (tr ++ new)
  end.

(** The keys with the prefix that are in the store or that the transaction
    wrote, in order. *)
Definition prefix_keys (ns p : string) (s : Store) (tr : list event) : list string :=
  merge_sort String.le (elements (filter (fun k => has_prefix k p = true)
    (dom (namespace_of s ns) ∪
     list_to_set (omap (fun e => match e with Wrote a _ => if decide (a.1 = ns) then Some a.2 else None | _ => None end) tr) : gset string))).

Definition valid_ref (ns k : string) : bool := match validate ns k with Ok _ => true | Err _ => false end.

Definition events (h : Hooks) (o : tx_op) (s : Store) (tr : list event) (a : res error reply) : list event :=
  let wrote at_ := match a with Ok (ARecord r) => [Wrote at_ (Some r)] | Ok _ => [Wrote at_ None] | Err _ => [] end in
  match o with
  | RecordSpec.GetRecord ns k => if valid_ref ns k then look tr s (ns, k) true else []
  | RecordSpec.CreateRecord _ ns k _ =>
      match passed (BeforeCreate h) ns k s with
      | Some s' => if valid_ref ns k then look tr s' (ns, k) true ++ wrote (ns, k) else []
      | None => []
      end
  | RecordSpec.UpdateRecord _ ns k _ x =>
      match passed (BeforeUpdate h) ns k s with
      | Some s' => if valid_ref ns k then look tr s' (ns, k) (negb (x =? AnyRevision)) ++ wrote (ns, k) else []
      | None => []
      end
  | RecordSpec.DeleteRecord ns k x =>
      match passed (FailDelete h) ns k s with
      | Some s' => if valid_ref ns k then look tr s' (ns, k) (negb (x =? AnyRevision)) ++ wrote (ns, k) else []
      | None => []
      end
  | RecordSpec.DeleteRecordPrefix ns p =>
      match passed (FailDelete h) ns p s ≫= passed (FailPrefixDelete h) ns p with
      | Some s' => match a with Ok _ => prefix_events ns (prefix_keys ns p s' tr) s' tr | Err _ => [] end
      | None => []
      end
  end.

Fixpoint trace {A} (h : Hooks) (c : client A) (x : tx) (tr : list event) : list event :=
  match c with
  | Return _ => tr
  | Call o k => let '(a, x') := run_op h o x in trace h (k (view a)) x' (tr ++ events h o x.1 tr a)
  end.

(** What the transaction knows is what its events say. *)
Definition known (tr : list event) (x : tx) : Prop :=
  (forall at_, staged x.2 !! at_ = last_write tr at_) /\
  (forall at_, is_Some (staged x.2 !! at_) <-> at_ ∈ order x.2) /\
  (forall at_, match first_look tr at_ with
    | None => seen_of x.2 !! at_ = None /\ ~ looked_exactly tr at_
    | Some found => exists b, seen_of x.2 !! at_ = Some b /\ seen_revision b = default 0 found /\
        (anyRevision b = false <-> looked_exactly tr at_)
    end).

(** Nothing that was read has changed, and that something has, with the error
    that says so. *)
Definition settled (tr : list event) (s : Store) : Prop :=
  forall at_ found, first_look tr at_ = Some found ->
    (is_Some found <-> is_Some (stored s at_)) /\ (looked_exactly tr at_ -> Revision <$> stored s at_ = found).

Definition stale (tr : list event) (s : Store) (at_ : ref) (e : error) : Prop :=
  exists found, first_look tr at_ = Some found /\
    match found, stored s at_ with
    | None, Some _ => e = NewRecordExistError at_.1 at_.2
    | Some _, None => e = NewRecordNotExistError at_.1 at_.2
    | Some v, Some r => looked_exactly tr at_ /\ v <> Revision r /\ e = NewRecordConflictError at_.1 at_.2 v (Revision r)
    | None, None => False
    end.

Lemma last_write_app tr tr' at_ : last_write (tr ++ tr') at_ = match last_write tr' at_ with Some o => Some o | None => last_write tr at_ end.
Proof.
  unfold last_write. rewrite foldl_app. generalize (foldl (fun last e => match e with Wrote a o => if decide (a = at_) then Some o else last | _ => last end) None tr).
  induction tr' as [|e tr' IH] using rev_ind; intros o; [done|]. rewrite !foldl_app. cbn. rewrite IH. destruct e; [done|]. by case_decide.
Qed.

Lemma first_look_app tr tr' at_ : first_look (tr ++ tr') at_ = match first_look tr at_ with Some f => Some f | None => first_look tr' at_ end.
Proof.
  unfold first_look. rewrite foldl_app. destruct (foldl _ None tr) as [f|]; [|done].
  induction tr' as [|e tr' IH]; [done|]. cbn. by destruct e.
Qed.

Lemma looked_exactly_app tr tr' at_ : looked_exactly (tr ++ tr') at_ <-> looked_exactly tr at_ \/ looked_exactly tr' at_.
Proof. unfold looked_exactly. setoid_rewrite elem_of_app. naive_solver. Qed.

Lemma looked_one at_ ex found a : looked_exactly [Looked at_ ex found] a <-> a = at_ /\ ex = true.
Proof.
  unfold looked_exactly. setoid_rewrite list_elem_of_singleton. split; [by intros (f & [= -> -> ->])|]. intros [-> ->]. by eexists.
Qed.

Lemma clone_id r : clone r = r.
Proof. destruct r as [? ? v ? ? ?]. unfold clone, CopyRecordValue. cbn. by destruct v. Qed.

(** Looking up a record tells what [read] remembers. *)
Lemma known_read tr s t at_ any :
  known tr (s, t) -> known (tr ++ look tr s at_ (negb any)) (snd (read at_ any (s, t))).
Proof.
  intros (Hw & Ho & Hr). unfold look, read. rewrite <- Hw. cbn [snd]. destruct (staged t !! at_) as [o|] eqn:E; [by rewrite app_nil_r|].
  cbn [snd]. split; [|split]; cbn [snd staged order seen_of].
  - intros a. rewrite last_write_app. cbn. apply Hw.
  - exact Ho.
  - intros a. specialize (Hr a). cbn [snd seen_of] in Hr. rewrite first_look_app. cbn.
    destruct (decide (a = at_)) as [->|Hne].
    + destruct (first_look tr at_) as [found|].
      * destruct Hr as (b & Hb & Hv & Hx). rewrite Hb. destruct (anyRevision b) eqn:Hany; cbn [andb].
        -- destruct any; cbn [negb].
           ++ exists b. split; [done|]. split; [done|]. rewrite looked_exactly_app, looked_one, Hany. rewrite <- Hx. naive_solver.
           ++ eexists. rewrite lookup_insert_eq. split; [done|]. split; [done|]. cbn. rewrite looked_exactly_app, looked_one. naive_solver.
        -- exists b. split; [done|]. split; [done|]. rewrite looked_exactly_app, looked_one, Hany. naive_solver.
      * destruct Hr as [Hb Hx]. rewrite Hb, lookup_insert_eq, decide_True by done. eexists. split; [done|]. cbn. split.
        -- by destruct (stored s at_).
        -- rewrite looked_exactly_app, looked_one, negb_true_iff. naive_solver.
    + assert (looked_exactly (tr ++ [Looked at_ (negb any) (Revision <$> stored s at_)]) a <-> looked_exactly tr a) as Hl
        by (rewrite looked_exactly_app, looked_one; naive_solver).
      set (m := match seen_of t !! at_ with Some _ => _ | None => _ end).
      assert (m !! a = seen_of t !! a) as Hm.
      { unfold m. destruct (seen_of t !! at_) as [b|]; [destruct (_ && _)|]; [|done|]; by rewrite lookup_insert_ne. }
      rewrite decide_False by done. destruct (first_look tr a) as [found|]; [|by rewrite Hm, Hl].
      destruct Hr as (b & ? & ? & ?). exists b. by rewrite Hm, Hl.
Qed.

Lemma known_stage tr x at_ o : known tr x -> known (tr ++ [Wrote at_ o]) (stage at_ o x).
Proof.
  destruct x as [s t]. intros (Hw & Ho & Hr). split; [|split]; cbn [snd stage staged order seen_of].
  - intros a. rewrite last_write_app. cbn. destruct (decide (at_ = a)) as [->|Hne]; [by rewrite lookup_insert_eq|]. rewrite lookup_insert_ne by done. apply Hw.
  - intros a. cbn [snd] in Ho. rewrite lookup_insert_is_Some. destruct (staged t !! at_) as [o'|] eqn:E.
    + rewrite <- Ho. split; [|destruct (decide (at_ = a)); tauto]. intros [<-|[_ ?]]; [by eexists|done].
    + rewrite elem_of_app, list_elem_of_singleton, <- Ho. split; [intros [Ha|[_ Ha]]; [by right|by left]|].
      intros [Ha|Ha]; [right|by left]. split; [|done]. intros <-. rewrite E in Ha. by destruct Ha.
  - intros a. specialize (Hr a). cbn [snd seen_of] in Hr. rewrite first_look_app. cbn.
    assert (looked_exactly (tr ++ [Wrote at_ o]) a <-> looked_exactly tr a) as Hl.
    { rewrite looked_exactly_app. unfold looked_exactly at 2. setoid_rewrite list_elem_of_singleton. naive_solver. }
    destruct (first_look tr a) as [found|]; [|by rewrite Hl]. destruct Hr as (b & ? & ? & ?). exists b. by rewrite Hl.
Qed.

Lemma known_store tr s s' t : known tr (s, t) -> known tr (s', t).
Proof. done. Qed.

Lemma last_write_is_Some tr at_ : is_Some (last_write tr at_) <-> exists o, Wrote at_ o ∈ tr.
Proof.
  induction tr as [|e tr IH] using rev_ind; [split; [by intros [? ?]|by intros (o & ?%elem_of_nil)]|].
  rewrite last_write_app. setoid_rewrite elem_of_app. setoid_rewrite list_elem_of_singleton. destruct e as [a ex f|a o]; cbn; [naive_solver|].
  case_decide as Hd; [subst; split; [intros _; exists o; by right|by eexists]|]. rewrite IH. naive_solver.
Qed.

Lemma prefix_keys_ok ns p s t tr : known tr (s, t) -> keys ns p (s, t) = prefix_keys ns p s tr.
Proof.
  intros (Hw & _ & _). unfold keys, prefix_keys. f_equal. f_equal. apply set_eq. intros k.
  rewrite elem_of_union, !elem_of_filter, elem_of_union, elem_of_map, elem_of_list_to_set, list_elem_of_omap.
  assert ((exists y, k = y.2 /\ y ∈ filter (fun q : ref => q.1 = ns /\ has_prefix q.2 p = true) (dom (staged t))) <->
    has_prefix k p = true /\ is_Some (last_write tr (ns, k))) as ->.
  { rewrite <- Hw. cbn [snd]. rewrite <- elem_of_dom. split.
    - intros ([n k'] & -> & Hf). apply elem_of_filter in Hf as [[Hn Hp] Hd]. cbn in *. by subst n.
    - intros [Hp Hd]. exists (ns, k). split; [done|]. by apply elem_of_filter. }
  rewrite last_write_is_Some.
  assert ((exists x, x ∈ tr /\ match x with Looked _ _ _ => None | Wrote a _ => if decide (a.1 = ns) then Some a.2 else None end = Some k) <->
    exists o, Wrote (ns, k) o ∈ tr) as ->; [|tauto].
  split.
  - intros ([?|[n k'] o] & Hin & He); [done|]. case_decide as Hd; [|done]. cbn in *. subst n. injection He as ->. by exists o.
  - intros [o Hin]. exists (Wrote (ns, k) o). split; [done|]. cbn. by rewrite decide_True.
Qed.

Lemma there_read tr s t at_ any o x : known tr (s, t) -> read at_ any (s, t) = (o, x) -> there tr s at_ = bool_decide (is_Some o).
Proof.
  intros (Hw & _ & _) Hr. destruct (read_spec at_ any (s, t)) as [sn Hsn]. rewrite Hsn in Hr. injection Hr as <- _.
  unfold there, view_of. rewrite <- Hw. cbn [fst snd]. by destruct (staged t !! at_).
Qed.

Lemma read_store at_ any s t : fst (snd (read at_ any (s, t))) = s.
Proof. by destruct (read_spec at_ any (s, t)) as [sn ->]. Qed.

Lemma known_loop ns ks n s t tr :
  known tr (s, t) -> known (tr ++ prefix_events ns ks s tr) (snd (delete_loop ns ks n (s, t))).
Proof.
  revert n t tr. induction ks as [|k ks IH]; intros n t tr Hk; cbn [delete_loop prefix_events]; [by rewrite app_nil_r|].
  pose proof (known_read tr s t (ns, k) true Hk) as Hk1. cbn [negb] in Hk1. pose proof (read_store (ns, k) true s t) as Hs.
  destruct (read (ns, k) true (s, t)) as [o [s1 t1]] eqn:Er. cbn [fst snd] in *. subst s1.
  rewrite (there_read _ _ _ _ _ _ _ Hk Er). destruct o as [r|].
  - rewrite bool_decide_eq_true_2 by by eexists. rewrite app_assoc. apply (known_stage _ _ (ns, k) None) in Hk1. rewrite <- app_assoc in Hk1.
    destruct (stage (ns, k) None (s, t1)) as [s2 t2] eqn:Est. assert (s2 = s) as -> by (cbn in Est; by injection Est). by apply IH.
  - rewrite bool_decide_eq_false_2 by (by intros [? ?]). rewrite app_nil_r, app_assoc. by apply IH.
Qed.

Lemma run_hook_passed hk ns k s t :
  match passed hk ns k s with
  | Some s' => run_hook hk ns k (s, t) = (Ok tt, (s', t))
  | None => exists e s', run_hook hk ns k (s, t) = (Err e, (s', t))
  end.
Proof. unfold passed, run_hook. destruct hk as [f|]; [|done]. destruct (f ns k s) as [[e|] s']; [by eexists _, _|done]. Qed.

Lemma known_check tr s t at_ x :
  known tr (s, t) -> known (tr ++ look tr s at_ (negb (x =? AnyRevision))) (snd (check at_ x (s, t))).
Proof.
  intros Hk. unfold check. pose proof (known_read tr s t at_ (x =? AnyRevision) Hk) as Hk1.
  destruct (read at_ (x =? AnyRevision) (s, t)) as [[r|] x']; [|done]. by case_match.
Qed.

(** Each operation tells what it did. *)
Lemma known_op h o x tr :
  known tr x -> let '(a, x') := run_op h o x in known (tr ++ events h o x.1 tr a) x'.
Proof.
  destruct x as [s t]. intros Hk. destruct o as [ns k|now ns k v|now ns k v e|ns k e|ns p]; cbn [run_op events fst].
  - unfold st_bind, tx_GetRecord, valid_ref. destruct (validate ns k); [|by rewrite app_nil_r].
    pose proof (known_read tr s t (ns, k) false Hk) as Hk1. by destruct (read (ns, k) false (s, t)) as [[r|] x'].
  - unfold st_bind, tx_CreateRecord, st_lift, valid_ref. destruct (validate ns k); [|destruct (passed _ _ _ _); by rewrite app_nil_r].
    unfold st_bind. pose proof (run_hook_passed (BeforeCreate h) ns k s t) as Hh. destruct (passed (BeforeCreate h) ns k s) as [s'|].
    2: { destruct Hh as (err & s' & ->). by rewrite app_nil_r. }
    rewrite Hh. pose proof (known_read tr s' t (ns, k) false Hk) as Hk1. destruct (read (ns, k) false (s', t)) as [[r|] [s1 t1]]; [by rewrite app_nil_r|].
    destruct (next h now s1) as [[rev u] s2]. cbn [snd] in *. unfold st_ret. cbn beta iota. rewrite clone_id, app_assoc.
    pose proof (known_stage _ (s2, t1) (ns, k) (Some (mkRecord ns k (CopyRecordValue v) rev u u)) Hk1) as Hk2. exact Hk2.
  - unfold st_bind, tx_UpdateRecord, st_lift, valid_ref. destruct (validate ns k); [|destruct (passed _ _ _ _); by rewrite app_nil_r].
    unfold st_bind. pose proof (run_hook_passed (BeforeUpdate h) ns k s t) as Hh. destruct (passed (BeforeUpdate h) ns k s) as [s'|].
    2: { destruct Hh as (err & s' & ->). by rewrite app_nil_r. }
    rewrite Hh. pose proof (known_check tr s' t (ns, k) e Hk) as Hk1. destruct (check (ns, k) e (s', t)) as [[r|] [s1 t1]]; [|by rewrite app_nil_r].
    destruct (next h now s1) as [[rev u] s2]. cbn [snd] in *. unfold st_ret. cbn beta iota. rewrite clone_id, app_assoc.
    pose proof (known_stage _ (s2, t1) (ns, k) (Some (mkRecord ns k (CopyRecordValue v) rev (Created r) u)) Hk1) as Hk2. exact Hk2.
  - unfold st_bind, tx_DeleteRecord, st_lift, valid_ref. destruct (validate ns k); [|destruct (passed _ _ _ _); by rewrite app_nil_r].
    unfold st_bind. pose proof (run_hook_passed (FailDelete h) ns k s t) as Hh. destruct (passed (FailDelete h) ns k s) as [s'|].
    2: { destruct Hh as (err & s' & ->). by rewrite app_nil_r. }
    rewrite Hh. pose proof (known_check tr s' t (ns, k) e Hk) as Hk1. destruct (check (ns, k) e (s', t)) as [[r|] x1]; [|by rewrite app_nil_r].
    cbn [snd] in *. unfold st_ret. cbn beta iota. rewrite app_assoc. by apply known_stage.
  - unfold st_bind, tx_DeleteRecordPrefix, st_lift, st_bind. destruct (ValidateRecordNamespace ns); [|by destruct (_ ≫= _); rewrite app_nil_r].
    destruct (ValidateRecordDeletePrefix p); [|by destruct (_ ≫= _); rewrite app_nil_r].
    pose proof (run_hook_passed (FailDelete h) ns p s t) as Hh. destruct (passed (FailDelete h) ns p s) as [s'|]; cbn [mbind option_bind].
    2: { destruct Hh as (err & s' & ->). by rewrite app_nil_r. }
    rewrite Hh. pose proof (run_hook_passed (FailPrefixDelete h) ns p s' t) as Hh2. destruct (passed (FailPrefixDelete h) ns p s') as [s2|].
    2: { destruct Hh2 as (err & s2 & ->). by rewrite app_nil_r. }
    rewrite Hh2. rewrite (prefix_keys_ok ns p s2 t tr) by done. pose proof (known_loop ns (prefix_keys ns p s2 tr) 0 s2 t tr Hk) as Hk1.
    by destruct (delete_loop _ _ _ _) as [n x'].
Qed.

Lemma known_client {A} h (c : client A) x tr : known tr x -> known (trace h c x tr) (snd (run_client (run_op h) c x)).
Proof.
  revert x tr. induction c as [r|o k IH]; intros x tr Hk; [done|]. cbn [trace run_client].
  pose proof (known_op h o x tr Hk) as Ho. destruct (run_op h o x) as [a x']. by apply IH.
Qed.

Lemma known_new s : known [] (s, new_txn).
Proof.
  split; [done|]. split; [|intros a; split; [done|by intros (? & ?%elem_of_nil)]].
  intros a. cbn. split; [by intros [? ?]|by intros ?%elem_of_nil].
Qed.

Lemma first_look_in tr at_ found : first_look tr at_ = Some found -> exists ex, Looked at_ ex found ∈ tr.
Proof.
  induction tr as [|e tr IH] using rev_ind; [done|]. rewrite first_look_app. destruct (first_look tr at_) as [f|].
  - intros [= ->]. destruct (IH eq_refl) as [ex Hin]. exists ex. apply elem_of_app. by left.
  - destruct e as [a ex f|]; [|done]. cbn. case_decide as Hd; [|done]. intros [= ->]. subst a. exists ex. apply elem_of_app. right. by apply list_elem_of_singleton.
Qed.

Lemma looks_positive tr :
  Forall (fun e => match e with Looked _ _ found => found <> Some 0 | Wrote _ _ => True end) tr ->
  forall at_ found, first_look tr at_ = Some found -> found <> Some 0.
Proof. intros Hf at_ found (ex & Hin)%first_look_in. by apply (proj1 (Forall_forall _ _) Hf) in Hin. Qed.

(** The check of the commit, told by the events. *)
Lemma unchanged_settled tr s t s1 :
  known tr (s, t) -> (forall at_ found, first_look tr at_ = Some found -> found <> Some 0) ->
  (forall at_ b, seen_of t !! at_ = Some b -> unchanged s1 at_ b = Ok tt) <-> settled tr s1.
Proof.
  intros (_ & _ & Hr) Hpos. cbn [snd] in Hr. split.
  - intros Hu at_ found Hf. specialize (Hr at_). rewrite Hf in Hr. destruct Hr as (b & Hb & Hv & Hx). specialize (Hu at_ b Hb). rewrite <- Hx.
    pose proof (Hpos at_ found Hf) as Hne. unfold unchanged in Hu. rewrite Hv in Hu. destruct found as [v|]; unfold default, from_option, id in Hu.
    + assert (v <> 0) as Hv0 by congruence. rewrite (proj2 (Z.eqb_neq _ _) Hv0) in Hu. cbn [negb] in Hu.
      destruct (stored s1 at_) as [r|]; [|done]. split; [split; by eexists|]. intros Hany. rewrite Hany in Hu. cbn in *.
      destruct (Z.eqb_spec (Revision r) v) as [->|]; [done|]. done.
    + cbn in Hu. destruct (stored s1 at_) as [r|]; [done|]. split; [split; by intros [? ?]|done].
  - intros Hs at_ b Hb. specialize (Hr at_). destruct (first_look tr at_) as [found|] eqn:Hf; [|destruct Hr; congruence].
    destruct Hr as (b' & Hb' & Hv & Hx). assert (b' = b) as -> by congruence. destruct (Hs at_ found Hf) as [Hex Hrev]. rewrite <- Hx in Hrev.
    pose proof (Hpos at_ found Hf) as Hne. unfold unchanged. rewrite Hv. destruct (stored s1 at_) as [r|].
    + destruct found as [v|]; [|destruct Hex as [_ Hex]; destruct Hex as [? ?]; [by eexists|done]]. unfold default, from_option, id.
      assert (v <> 0) as Hv0 by congruence. rewrite (proj2 (Z.eqb_neq _ _) Hv0). destruct (anyRevision b); [done|]. cbn in *.
      specialize (Hrev eq_refl). injection Hrev as ->. by rewrite Z.eqb_refl.
    + destruct found as [v|]; [|done]. destruct Hex as [Hex _]. destruct Hex as [? ?]; [by eexists|done].
Qed.

Lemma unchanged_stale tr s t s1 at_ b e :
  known tr (s, t) -> (forall at_ found, first_look tr at_ = Some found -> found <> Some 0) ->
  seen_of t !! at_ = Some b -> unchanged s1 at_ b = Err e -> stale tr s1 at_ e.
Proof.
  intros (_ & _ & Hr) Hpos Hb Hu. cbn [snd] in Hr. specialize (Hr at_). destruct (first_look tr at_) as [found|] eqn:Hf; [|destruct Hr; congruence].
  destruct Hr as (b' & Hb' & Hv & Hx). assert (b' = b) as -> by congruence. exists found. split; [done|]. pose proof (Hpos at_ found Hf) as Hne.
  unfold unchanged in Hu. rewrite Hv in Hu. destruct found as [v|]; unfold default, from_option, id in Hu.
  - assert (v <> 0) as Hv0 by congruence. rewrite (proj2 (Z.eqb_neq _ _) Hv0) in Hu. destruct (stored s1 at_) as [r|]; [|by injection Hu].
    destruct (anyRevision b) eqn:Hany; [done|]. cbn in Hu. destruct (Z.eqb_spec (Revision r) v); [done|]. cbn in Hu. injection Hu as <-.
    split; [by apply Hx|]. split; [done|done].
  - destruct (stored s1 at_) as [r|]; [by injection Hu|done].
Qed.


(** The read that begins a transaction remembers what it read. *)
Lemma read_keeps s ns k :
  keeps (ns, k) (Some (match stored s (ns, k) with Some r => Revision r | None => 0 end))
    (snd (read (ns, k) false (s, new_txn))).
Proof.
  unfold keeps, read. cbn. rewrite !lookup_empty. cbn. split.
  - intros a. rewrite lookup_empty. split; [by intros ?%elem_of_nil|by intros [? ?]].
  - eexists. by rewrite lookup_insert_eq.
Qed.

Lemma first_read h s ns k :
  validate ns k = Ok tt ->
  exists a x, run_op h (RecordSpec.GetRecord ns k) (s, new_txn) = (a, x) /\
    keeps (ns, k) (Some (match stored s (ns, k) with Some r => Revision r | None => 0 end)) x.
Proof.
  intros Hv. cbn [run_op]. unfold st_bind, tx_GetRecord. rewrite Hv.
  pose proof (read_keeps s ns k) as Hk.
  destruct (read (ns, k) false (s, new_txn)) as [[r|] x]; eexists _, _; split; done.
Qed.

(** Reads are stable. When a transaction that began by reading a record
    commits, the record is at the revision that was read, or still absent, at
    the moment of the commit, whatever hooks and other writers did between. *)
Theorem committed_read_is_current {A} (h : Hooks) (ns k : string) (c : res error reply -> client A)
    (s s' : Store) (x : A) :
  validate ns k = Ok tt -> (forall r, stored s (ns, k) = Some r -> Revision r <> 0) ->
  let fn := run_client (run_op h) (Call (RecordSpec.GetRecord ns k) c) in
  RecordTxn range fn s = (Ok x, s') ->
  Revision <$> stored (fst (snd (fn (s, new_txn)))) (ns, k) = Revision <$> stored s (ns, k).
Proof.
  intros Hv Hpos fn. unfold RecordTxn, fn. cbn [run_client].
  destruct (first_read h s ns k Hv) as (a & x1 & -> & Hk).
  pose proof (keeper_client _ _ h (c (view a)) x1 Hk) as [Hord (b & Hb & Hbr & Hany)].
  destruct (run_client (run_op h) (c (view a)) x1) as [[y|e] [s1 t]]; [|by intros [=]]. cbn [fst snd] in *.
  pose proof (commit_spec s1 t Hord) as Hc. destruct (commit range s1 t) as [[[]|e] s2]; [|by intros [=]].
  intros _. destruct Hc as (Hun & _). specialize (Hun _ _ Hb). revert Hun. unfold unchanged. rewrite Hbr, Hany.
  destruct (stored s (ns, k)) as [r|] eqn:Es.
  - specialize (Hpos r eq_refl). rewrite (proj2 (Z.eqb_neq _ _) Hpos). cbn [negb andb].
    destruct (stored s1 (ns, k)) as [r1|]; [|done].
    destruct (Z.eqb_spec (Revision r1) (Revision r)) as [Heq|]; [|done]. cbn. by rewrite Heq.
  - cbn [Z.eqb negb]. by destruct (stored s1 (ns, k)).
Qed.
End Commit.

(** ** The same contract as the Bolt store *)

Lemma mem_rel_new : mem_rel (New, new_txn) Spec.empty.
Proof.
  split; try done.
  intros a. cbn. rewrite lookup_empty. split; [by intros ?%elem_of_nil|by intros [? ?]].
Qed.

(** Without other hooks no other writer runs: the commit finds nothing changed, and
    leaves the store the transaction saw. *)
Lemma commit_ok range s t sp :
  (forall m, range m ≡ₚ map_to_list m) -> mem_rel (s, t) sp ->
  exists s', commit range s t = (Ok tt, s') /\ mem_rel (s', new_txn) sp.
Proof.
  intros Hperm Hrel. pose proof (commit_spec range Hperm s t (mr_order _ _ Hrel)) as Hc.
  destruct (commit range s t) as [[[]|e] s'].
  - destruct Hc as (_ & Hst & Hrev). exists s'. split; [done|].
    assert (Hview : forall a, view_of (s', new_txn) a = view_of (s, t) a).
    { intros a. unfold view_of at 1. cbn. by rewrite lookup_empty, Hst. }
    destruct Hrel. cbn in *. split; cbn; try done.
    + by rewrite Hrev.
    + intros a. by rewrite Hview.
    + intros a r. rewrite Hview. apply mr_ok0.
    + intros a r. rewrite Hst. intros Hr. by destruct (mr_ok0 a r Hr) as (_ & _ & ? & _).
    + intros a. rewrite lookup_empty. split; [by intros ?%elem_of_nil|by intros [? ?]].
  - exfalso. destruct Hc as (_ & a & b & Hb & He).
    pose proof (exact_unchanged (s, t) a b (mr_exact _ _ Hrel) (mr_stored _ _ Hrel) Hb) as H.
    cbn in H. by rewrite He in H.
Qed.

(** Without other hooks an operation leaves the store's records alone: its writes are
    staged. *)
Lemma op_staged o x : records (fst (snd (run_op stamped o x))) = records x.1.
Proof.
  assert (Hret : forall A B (m : st tx error A) (f : A -> B) y,
            fst (snd (m y)) = fst (snd ((let! a := m in st_ret (f a)) y))).
  { intros A B m f y. unfold st_bind. by destruct (m y) as [[?|?] ?]. }
  assert (Hread : forall a any y, fst (snd (read a any y)) = fst y).
  { intros a any y. by destruct (read_spec a any y) as [sn ->]. }
  assert (Hcheck : forall a e y, fst (snd (check a e y)) = fst y).
  { intros a e y. unfold check. pose proof (Hread a (e =? AnyRevision) y).
    destruct (read _ _ y) as [[r|] y']; [|done]. by case_match. }
  assert (Hstage : forall a r y, fst (stage a r y) = fst y) by by intros a r [s t].
  assert (Hloop : forall ns ks n y, fst (snd (delete_loop ns ks n y)) = fst y).
  { intros ns ks. induction ks as [|k ks IH]; intros n y; cbn [delete_loop]; [done|].
    pose proof (Hread (ns, k) true y). destruct (read _ _ y) as [[r|] y'];
      rewrite IH, ?Hstage; done. }
  destruct x as [s t]. destruct o as [ns k|now ns k v|now ns k v e|ns k e|ns p]; cbn [run_op];
    rewrite <- Hret; unfold tx_GetRecord, tx_CreateRecord, tx_UpdateRecord, tx_DeleteRecord,
    tx_DeleteRecordPrefix, st_bind, st_lift.
  - destruct (validate ns k); [|done]. pose proof (Hread (ns, k) false (s, t)) as H.
    destruct (read _ _ _) as [[r|] y]; cbn in *; by rewrite H.
  - destruct (validate ns k); [|done]. cbn [run_hook stamped BeforeCreate].
    pose proof (Hread (ns, k) false (s, t)) as H.
    destruct (read _ _ _) as [[r|] [s' t']]; cbn in H; subst s'; done.
  - destruct (validate ns k); [|done]. cbn [run_hook stamped BeforeUpdate].
    pose proof (Hcheck (ns, k) e (s, t)) as H.
    destruct (check _ _ _) as [[r|] [s' t']]; cbn in H; subst s'; done.
  - destruct (validate ns k); [|done]. cbn [run_hook stamped FailDelete].
    pose proof (Hcheck (ns, k) e (s, t)) as H.
    destruct (check _ _ _) as [[r|] [s' t']]; cbn in H; subst s'; done.
  - destruct (ValidateRecordNamespace ns); [|done]. destruct (ValidateRecordDeletePrefix p); [|done].
    cbn [run_hook stamped FailDelete FailPrefixDelete].
    pose proof (Hloop ns (keys ns p (s, t)) 0 (s, t)) as H.
    destruct (delete_loop _ _ _ _) as [n y]. cbn in *. by rewrite H.
Qed.

Lemma client_staged {A} (c : client A) x :
  records (fst (snd (run_client (run_op stamped) c x))) = records x.1.
Proof.
  revert x. induction c as [r|o k IH]; intros x; [done|]. cbn [run_client].
  pose proof (op_staged o x) as H. destruct (run_op stamped o x) as [a x']. cbn [snd] in H.
  by rewrite IH.
Qed.

(** With a clock and no other hook the in-memory store also does what the contract says: the
    same results as the abstract store, its state when the caller returns no
    error, and no record changed when it does. (The revisions a failed
    transaction took are not given again, unlike in a Bolt file.) *)
Theorem mem_RecordTxn_refines {A} range (c : client A) (s : Store) (sp : Spec.state) :
  (forall m, range m ≡ₚ map_to_list m) -> mem_rel (s, new_txn) sp -> fits c sp ->
  let '(a, s') := RecordTxn range (run_client (run_op stamped) c) s in
  let '(b, sp') := spec_txn c sp in
  a = b /\ match b with Ok _ => mem_rel (s', new_txn) sp' | Err _ => records s' = records s end.
Proof.
  intros Hperm Hrel Hfit. destruct (run_client_sim c (s, new_txn) sp Hrel Hfit) as [Hr Hrel'].
  pose proof (client_staged c (s, new_txn)) as Hst. unfold RecordTxn, spec_txn.
  destruct (run_client (run_op stamped) c (s, new_txn)) as [a [s1 t]], (run_client Spec.run c sp) as [b sp'].
  cbn [fst snd] in *. subst b. destruct a as [x|e]; [|done].
  by destruct (commit_ok range s1 t sp' Hperm Hrel') as (s2 & -> & Hrel2).
Qed.

(** ** Examples *)

Definition sample_client : client Z :=
  Call (RecordSpec.CreateRecord 5 "topology" "a/b" (Some [x61])) (fun _ =>
  Call (RecordSpec.GetRecord "topology" "a/b") (fun a =>
  Return (match a with Ok (ARecord r) => Ok (Revision r) | Ok _ => Ok 0 | Err e => Err e end))).

(** A hook that lets another writer create the record "n/k". *)
Definition racing_hook : hook := fun _ _ s =>
  (None, mkStore 1 {[ "n" := {[ "k" := mkRecord "n" "k" None 1 0 0 ]} ]} (commits s)).

Definition racing : Hooks := mkHooks None None (Some racing_hook) None true.

(** A client that finds no record "n/k" and then deletes another one. *)
Definition racing_client : client unit :=
  Call (RecordSpec.GetRecord "n" "k") (fun _ =>
  Call (RecordSpec.DeleteRecord "n" "j" 0) (fun _ => Return (Ok tt))).


Lemma mem_RecordTxn_refines_witness :
  exists s', RecordTxn map_to_list (run_client (run_op stamped) sample_client) New = (Ok 1, s') /\
    mem_rel (s', new_txn) (snd (spec_txn sample_client Spec.empty)).
Proof.
  assert (Hf : fits sample_client Spec.empty) by (vm_compute; by split_and!).
  pose proof (mem_RecordTxn_refines map_to_list sample_client New Spec.empty
                (fun m => Permutation_refl _) mem_rel_new Hf) as H.
  destruct (RecordTxn map_to_list (run_client (run_op stamped) sample_client) New) as [a s'] eqn:Ea.
  assert (Hb : fst (spec_txn sample_client Spec.empty) = Ok 1) by (vm_compute; reflexivity).
  destruct (spec_txn sample_client Spec.empty) as [b sp']. cbn [fst snd] in *. subst b.
  destruct H as [-> H]. exists s'. split; [reflexivity|exact H].
Defined.

Lemma committed_read_is_current_witness :
  Revision <$> stored (fst (snd (run_client (run_op stamped)
     (Call (RecordSpec.GetRecord "topology" "x") (fun _ => sample_client)) (New, new_txn)))) ("topology", "x")
  = None.
Proof.
  set (c := fun _ : res error reply => sample_client).
  destruct (RecordTxn map_to_list
      (run_client (run_op stamped) (Call (RecordSpec.GetRecord "topology" "x") c)) New)
    as [[x|e] s'] eqn:E; [|vm_compute in E; done].
  apply (committed_read_is_current map_to_list (fun m => Permutation_refl _) stamped "topology" "x" c New s' x).
  - vm_compute. reflexivity.
  - by intros r Hr.
  - exact E.
Defined.

(** ** The two record stores agree

    The in-memory store stands in for the Bolt store in the tests of code that
    uses a [RecordStore]. That is sound for one transaction: from the same
    records, a caller cannot tell the two apart. *)

From S2P Require Import Bolt BoltRecord BoltRefine.

(** What a caller of [RecordTxn] gets from a Bolt file that can be opened and
    written, and from the store in memory. *)
Definition bolt_result {T A} `{Bolt T} (c : client A) (t : T) : res error A :=
  fst (BoltRecord.RecordTxn (mkEnv None None) (run_client BoltRecord.run_op c) t).

Definition mem_result {A} (h : Hooks) range (c : client A) (s : MemRecord.Store) : res error A :=
  fst (MemRecord.RecordTxn range (run_client (MemRecord.run_op h) c) s).

(** No hook that fails an operation or lets another writer run. *)
Definition quiet (h : Hooks) : Prop :=
  BeforeCreate h = None /\ BeforeUpdate h = None /\ FailDelete h = None /\ FailPrefixDelete h = None.

Definition at_time (u : Z) (o : tx_op) : tx_op :=
  match o with
  | RecordSpec.CreateRecord _ ns k v => RecordSpec.CreateRecord u ns k v
  | RecordSpec.UpdateRecord _ ns k v x => RecordSpec.UpdateRecord u ns k v x
  | o => o
  end.

(** The client when the clock reads, at each write, the [Time] of the revision
    the write takes. *)
Fixpoint on_revision_time {A} (c : client A) (s : Spec.state) : client A :=
  match c with
  | Return r => Return r
  | Call o k =>
      let o := at_time (Time (Spec.rev s + 1)) o in
      Call o (fun a => on_revision_time (k a) (snd (Spec.run o s)))
  end.

(** The client at the times the store stamps. *)
Definition on_store_time {A} (h : Hooks) (c : client A) (s : Spec.state) : client A :=
  if Stamp h then c else on_revision_time c s.

Lemma run_op_quiet h o x : quiet h -> Stamp h = true -> MemRecord.run_op h o x = MemRecord.run_op stamped o x.
Proof. destruct h as [? ? ? ? st]. intros (H1 & H2 & H3 & H4) H5. cbn in *. by subst. Qed.

Lemma run_op_unstamped h o x s :
  quiet h -> Stamp h = false -> mem_rel x s -> Spec.rev s < 2 ^ 63 - 1 ->
  MemRecord.run_op h o x = MemRecord.run_op stamped (at_time (Time (Spec.rev s + 1)) o) x.
Proof.
  destruct h as [? ? ? ? st]. intros (H1 & H2 & H3 & H4) H5 Hrel Hb. cbn in *. subst.
  assert (forall clock σ t, mem_rel (σ, t) s ->
    next (mkHooks None None None None false) clock σ = next stamped (Time (Spec.rev s + 1)) σ) as Hn.
  { intros clock σ t Hr. unfold next, now_, stamped. cbn [Stamp].
    pose proof (mr_rev _ _ Hr) as He. pose proof (mr_bound _ _ Hr). cbn [fst] in He. cbn [MemRecord.revision].
    assert (add64 (MemRecord.revision σ) 1 = Spec.rev s + 1) as ->; [|done].
    unfold add64. rewrite He. apply wrap64_id. unfold int64. lia. }
  destruct o as [ns k|now ns k v|now ns k v e|ns k e|ns p]; cbn [MemRecord.run_op at_time]; try done; destruct x as [σ t].
  - unfold MemRecord.tx_CreateRecord, st_bind, st_lift. destruct (validate ns k); [|done]. cbn [run_hook BeforeCreate stamped].
    destruct (read_ok (ns, k) false (σ, t) s Hrel) as ([σ' t'] & -> & Hrel' & _). destruct (view_of _ _); [done|]. by rewrite (Hn now σ' t' Hrel').
  - unfold MemRecord.tx_UpdateRecord, st_bind, st_lift. destruct (validate ns k); [|done]. cbn [run_hook BeforeUpdate stamped].
    pose proof (check_ok ns k e (σ, t) s Hrel) as Hc. destruct (let? old := _ in _) as [old|err].
    + destruct Hc as (r & [σ' t'] & -> & Hrel' & _). by rewrite (Hn now σ' t' Hrel').
    + by destruct Hc as (x' & -> & _).
Qed.

(** A quiet store does what a stamped one does at its times. *)
Lemma run_client_quiet {A} h (c : client A) x s :
  quiet h -> mem_rel x s -> fits (on_store_time h c s) s ->
  run_client (MemRecord.run_op h) c x = run_client (MemRecord.run_op stamped) (on_store_time h c s) x.
Proof.
  intros Hq. unfold on_store_time. destruct (Stamp h) eqn:Hst.
  - intros _ _. revert x. induction c as [r|o k IH]; intros x; [done|]. cbn [run_client]. rewrite run_op_quiet by done.
    destruct (MemRecord.run_op stamped o x). apply IH.
  - revert x s. induction c as [r|o k IH]; intros x s Hrel Hf; [done|]. cbn [run_client on_revision_time] in *. destruct Hf as [Hb Hf].
    rewrite (run_op_unstamped h o x s Hq Hst Hrel (proj1 Hb)). set (o' := at_time _ o) in *.
    pose proof (@tx_refines tx mem_record_tx mem_record_tx_refines o' x s Hrel Hb) as [Hm Hrel'].
    cbn [tx_run tx_rel mem_record_tx] in Hm, Hrel'. apply view_match in Hm.
    destruct (MemRecord.run_op stamped o' x) as [a x'] eqn:E. cbn [fst snd] in *. rewrite Hm. by apply IH.
Qed.

(** C6: from related contents, a transaction gives every caller the same result
    on a Bolt file that can be opened and written and in memory, whatever the
    caller does, when no hook of the store in memory fails operations or lets
    other writers run. Its records have the times its [Stamp] hook gives, or, as
    in a new store without hooks, those of a Bolt file whose clock reads, at
    each write, the [Time] of the revision that the write takes. *)
Theorem stores_agree {T A} `{BoltLaws T} (h : Hooks) range (c : client A) (t : T) (s : MemRecord.Store) (sp : Spec.state) :
  (forall m, range m ≡ₚ map_to_list m) -> quiet h ->
  rel t sp -> mem_rel (s, new_txn) sp -> fits (on_store_time h c sp) sp ->
  bolt_result (on_store_time h c sp) t = mem_result h range c s.
Proof.
  intros Hperm Hq Hb Hm Hfit. unfold bolt_result, mem_result.
  unfold BoltRecord.RecordTxn, MemRecord.RecordTxn, opened. cbn [open_error commit_error].
  rewrite (run_client_quiet h c _ sp Hq Hm Hfit). set (c' := on_store_time h c sp) in *.
  destruct (run_client_ok c' t sp Hb Hfit) as [Hr _].
  destruct (run_client_sim c' (s, new_txn) sp Hm Hfit) as [Hr' Hm'].
  destruct (run_client BoltRecord.run_op c' t) as [a t'], (run_client Spec.run c' sp) as [b sp'],
    (run_client (MemRecord.run_op stamped) c' (s, new_txn)) as [a' [s1 t1]]. cbn [fst snd] in *. subst a a'.
  destruct b as [x|e]; [|done].
  by destruct (commit_ok range s1 t1 sp' Hperm Hm') as (s2 & -> & _).
Qed.

(** What a caller of a new store sees of the time of its first record. *)
Definition time_client : client Z :=
  Call (RecordSpec.CreateRecord 5 "topology" "a/b" (Some [x61])) (fun a =>
  Return (match a with Ok (ARecord r) => Ok (Updated r) | Ok _ => Ok 0 | Err e => Err e end)).

Lemma stores_agree_witness :
  bolt_result (on_store_time no_hooks time_client Spec.empty) Sample.db0 = mem_result no_hooks map_to_list time_client New /\
  mem_result no_hooks map_to_list time_client New = Ok (Time 1) /\
  bolt_result sample_client Sample.db0 = mem_result stamped map_to_list sample_client New.
Proof.
  split; [|split; [vm_compute; reflexivity|]].
  - apply (stores_agree no_hooks map_to_list time_client Sample.db0 New Spec.empty).
    + intros m. apply Permutation_refl.
    + by split_and!.
    + exact Sample.rel0.
    + exact mem_rel_new.
    + vm_compute. by split_and!.
  - apply (stores_agree stamped map_to_list sample_client Sample.db0 New Spec.empty).
    + intros m. apply Permutation_refl.
    + by split_and!.
    + exact Sample.rel0.
    + exact mem_rel_new.
    + vm_compute. by split_and!.
Defined.
