(* ===== verification/Base64.v ===== *)
(** * base64 ([encoding/base64])

    The standard encoding, as the access tokens of web/rbac are written with
    it and the custom icons of the builder are read with it. *)

From Stdlib Require Import ZArith Lia Ascii String Strings.Byte.
From stdpp Require Import base option list gmap strings sorting.
From S2P Require Import Prelude.

Open Scope Z_scope.
Open Scope go_scope.

(** ** [base64.StdEncoding.EncodeToString] *)

Definition b64_alphabet : list ascii :=
  String.list_ascii_of_string "ABCDEFGHIJKLMNOPQRSTUVWXYZabcdefghijklmnopqrstuvwxyz0123456789+/".

Definition b64_char (i : Z) : ascii := nth (Z.to_nat i) b64_alphabet "="%char.

Fixpoint b64 (l : list Z) : list ascii :=
  match l with
  | [] => []
  | [a] => [b64_char (a / 4); b64_char (a mod 4 * 16); "="; "="]%char
  | [a; b] => [b64_char (a / 4); b64_char (a mod 4 * 16 + b / 16); b64_char (b mod 16 * 4); "="%char]
  | a :: b :: c :: l' =>
      b64_char (a / 4) :: b64_char (a mod 4 * 16 + b / 16) :: b64_char (b mod 16 * 4 + c / 64) ::
      b64_char (c mod 64) :: b64 l'
  end.

Definition EncodeToString (s : string) : string := String.string_of_list_ascii (b64 (bytes_Z s)).

Example b64_1 : EncodeToString "phenix" = "cGhlbml4". Proof. reflexivity. Qed.
Example b64_2 : EncodeToString "a" = "YQ==". Proof. reflexivity. Qed.
Example b64_3 : EncodeToString "ab?" = "YWI/". Proof. reflexivity. Qed.

(** ** [base64.StdEncoding.Strict().DecodeString]

    Strict: the bits of the last character that no byte takes are zero. *)

Fixpoint position (c : ascii) (i : Z) (l : list ascii) : option Z :=
  match l with
  | [] => None
  | a :: l' => if Ascii.eqb a c then Some i else position c (i + 1) l'
  end.

Definition b64_value (c : ascii) : option Z := position c 0 b64_alphabet.

Definition is_pad (c : ascii) : bool := Ascii.eqb c "="%char.

Fixpoint b64_decode (l : list ascii) : option (list Z) :=
  match l with
  | [] => Some []
  | c0 :: c1 :: c2 :: c3 :: l' =>
      match b64_value c0, b64_value c1 with
      | Some x, Some y =>
          if is_pad c2 then
            if is_pad c3 && (y mod 16 =? 0) && match l' with [] => true | _ => false end
            then Some [x * 4 + y / 16] else None
          else
            match b64_value c2 with
            | None => None
            | Some z =>
                if is_pad c3 then
                  if (z mod 4 =? 0) && match l' with [] => true | _ => false end
                  then Some [x * 4 + y / 16; y mod 16 * 16 + z / 4] else None
                else
                  match b64_value c3, b64_decode l' with
                  | Some w, Some r => Some (x * 4 + y / 16 :: y mod 16 * 16 + z / 4 :: z mod 4 * 64 + w :: r)
                  | _, _ => None
                  end
            end
      | _, _ => None
      end
  | _ => None
  end.

(** ** base64 is injective *)

Lemma b64_char_inj i j : 0 <= i < 64 -> 0 <= j < 64 -> b64_char i = b64_char j -> i = j.
Proof.
  intros Hi Hj H. assert (Hnd : NoDup b64_alphabet).
  { apply (bool_decide_unpack _). vm_compute. exact I. }
  assert (Hlen : length b64_alphabet = 64%nat) by reflexivity.
  apply NoDup_ListNoDup in Hnd. pose proof (proj1 (NoDup_nth b64_alphabet "="%char) Hnd) as Hnth.
  unfold b64_char in H. specialize (Hnth (Z.to_nat i) (Z.to_nat j)). rewrite Hlen in Hnth.
  specialize (Hnth ltac:(lia) ltac:(lia) H). lia.
Qed.

Lemma b64_char_eq i : 0 <= i < 64 -> b64_char i <> "="%char.
Proof.
  intros Hi H. assert (Hnin : "="%char ∉ b64_alphabet).
  { apply (bool_decide_unpack _). vm_compute. exact I. }
  apply Hnin. rewrite <- H. apply list_elem_of_In, nth_In. change (length b64_alphabet) with 64%nat. lia.
Qed.

Definition is_byte (z : Z) : Prop := 0 <= z < 256.

Ltac b64_solve :=
  repeat match goal with
  | H : b64_char _ = b64_char _ |- _ => apply b64_char_inj in H; [|unfold is_byte in *; zlia..]
  | H : b64_char _ = "="%char |- _ => exfalso; revert H; apply b64_char_eq; unfold is_byte in *; zlia
  | H : "="%char = b64_char _ |- _ => symmetry in H
  end.

Lemma b64_inj l l' : Forall is_byte l -> Forall is_byte l' -> b64 l = b64 l' -> l = l'.
Proof.
  remember (length l) as n eqn:Hn. assert (Hle : (length l <= n)%nat) by lia. clear Hn.
  revert l l' Hle. induction n as [|n IH]; intros l l' Hle Hl Hl' Heq.
  { destruct l; [|simpl in Hle; lia]. by destruct l' as [|a [|b [|c l']]]. }
  destruct l as [|a [|b [|c l]]], l' as [|a' [|b' [|c' l']]]; try done; cbn [b64] in Heq;
    repeat match goal with H : Forall _ (_ :: _) |- _ => apply Forall_cons in H as [? H] end;
    injection Heq; clear Heq; intros; b64_solve.
  - f_equal. unfold is_byte in *; zlia.
  - f_equal; [unfold is_byte in *; zlia|]. f_equal. unfold is_byte in *; zlia.
  - assert (l = l') as <- by (apply IH; [cbn in *; lia|done..]).
    f_equal; [unfold is_byte in *; zlia|]. f_equal; [unfold is_byte in *; zlia|].
    f_equal. unfold is_byte in *; zlia.
Qed.

Lemma bytes_Z_byte s : Forall is_byte (bytes_Z s).
Proof.
  apply Forall_forall. intros z Hz. unfold bytes_Z in Hz. apply list_elem_of_fmap in Hz as (c & -> & _).
  unfold is_byte, ascii_Z. pose proof (N_ascii_bounded c). lia.
Qed.

Lemma ascii_Z_inj a b : ascii_Z a = ascii_Z b -> a = b.
Proof.
  unfold ascii_Z. intros H. rewrite <- (ascii_N_embedding a), <- (ascii_N_embedding b).
  f_equal. lia.
Qed.

Lemma EncodeToString_inj s t : EncodeToString s = EncodeToString t -> s = t.
Proof.
  unfold EncodeToString. intros H. apply (f_equal String.list_ascii_of_string) in H.
  rewrite !String.list_ascii_of_string_of_list_ascii in H.
  apply b64_inj in H; [|apply bytes_Z_byte..]. unfold bytes_Z in H.
  rewrite <- (String.string_of_list_ascii_of_string s), <- (String.string_of_list_ascii_of_string t). f_equal.
  revert H. generalize (String.list_ascii_of_string s), (String.list_ascii_of_string t).
  induction l as [|a l IH]; intros [|b l']; [done..|]. cbn. intros [= H1%ascii_Z_inj H2]. f_equal; auto.
Qed.

(** ** The decoder reads exactly what the encoder writes *)

Lemma position_spec c l i j :
  position c i l = Some j -> i <= j < i + Z.of_nat (length l) /\ nth (Z.to_nat (j - i)) l "="%char = c.
Proof.
  revert i. induction l as [|a l IH]; intros i; cbn [position]; [done|].
  destruct (Ascii.eqb_spec a c) as [->|Hne].
  - intros [= <-]. rewrite Z.sub_diag. simpl. split; [lia|done].
  - intros [Hr Hn]%IH. cbn [length]. split; [lia|].
    replace (Z.to_nat (j - i)) with (S (Z.to_nat (j - (i + 1)))) by lia. done.
Qed.

Lemma b64_value_char c i : b64_value c = Some i -> 0 <= i < 64 /\ b64_char i = c.
Proof.
  intros Hp%position_spec. change (Z.of_nat (length b64_alphabet)) with 64 in Hp.
  unfold b64_char. rewrite Z.sub_0_r in Hp. split; [lia|apply Hp].
Qed.

Lemma b64_char_value i : 0 <= i < 64 -> b64_value (b64_char i) = Some i.
Proof.
  intros Hi.
  assert (forallb (fun n => bool_decide (b64_value (b64_char (Z.of_nat n)) = Some (Z.of_nat n))) (seq 0 64) = true) as H
    by (vm_compute; reflexivity).
  rewrite forallb_forall in H. specialize (H (Z.to_nat i) ltac:(apply in_seq; lia)).
  apply bool_decide_eq_true in H. by rewrite Z2Nat.id in H by lia.
Qed.

Lemma is_pad_char i : 0 <= i < 64 -> is_pad (b64_char i) = false.
Proof. intros Hi. apply Ascii.eqb_neq. by apply b64_char_eq. Qed.

Lemma b64_decode_b64 l : Forall is_byte l -> b64_decode (b64 l) = Some l.
Proof.
  remember (length l) as n eqn:Hn. assert (Hle : (length l <= n)%nat) by lia. clear Hn.
  revert l Hle. induction n as [|n IH]; intros l Hle Hl; [by destruct l; [|simpl in Hle; lia]|].
  destruct l as [|a [|b [|c l]]]; [done|..];
    repeat match goal with H : Forall _ (_ :: _) |- _ => apply Forall_cons in H as [? H] end;
    unfold is_byte in *; cbn [b64 b64_decode]; rewrite !b64_char_value by zlia.
  - assert (a mod 4 * 16 mod 16 =? 0 = true) as -> by (apply Z.eqb_eq; zlia). simpl. f_equal. f_equal. zlia.
  - rewrite is_pad_char by zlia.
    assert (b mod 16 * 4 mod 4 =? 0 = true) as -> by (apply Z.eqb_eq; zlia). simpl. f_equal. f_equal; [zlia|]. f_equal. zlia.
  - rewrite !is_pad_char, IH by (zlia || (simpl in Hle; lia) || done). f_equal.
    f_equal; [zlia|]. f_equal; [zlia|]. f_equal. zlia.
Qed.

Lemma quad_ind {A} (P : list A -> Prop) :
  P [] -> (forall a, P [a]) -> (forall a b, P [a; b]) -> (forall a b c, P [a; b; c]) ->
  (forall a b c d l, P l -> P (a :: b :: c :: d :: l)) -> forall l, P l.
Proof.
  intros H0 H1 H2 H3 H4. fix IH 1. intros [|a [|b [|c [|d l]]]]; [done|apply H1|apply H2|apply H3|apply H4, IH].
Qed.

(** Lets the characters be those of their values. *)
Ltac b64_chars :=
  repeat match goal with
  | H : b64_value ?c = Some ?i |- _ => apply b64_value_char in H as [? <-]
  | H : is_pad ?c = true |- _ => apply Ascii.eqb_eq in H as ->
  end.

Lemma b64_decode_inv l r : b64_decode l = Some r -> Forall is_byte r /\ l = b64 r.
Proof.
  revert r. induction l as [| | | |c0 c1 c2 c3 l IH] using quad_ind; intros r; cbn [b64_decode]; try done.
  { intros [= <-]. done. }
  destruct (b64_value c0) as [x|] eqn:E0; [|done]. destruct (b64_value c1) as [y|] eqn:E1; [|done].
  destruct (is_pad c2) eqn:P2.
  { destruct (is_pad c3) eqn:P3; [|done]. destruct (y mod 16 =? 0) eqn:Ey; [|done]. destruct l; [|done].
    intros [= <-]. apply Z.eqb_eq in Ey. b64_chars. unfold is_byte. split; [repeat constructor; zlia|].
    cbn [b64]. repeat f_equal; zlia. }
  destruct (b64_value c2) as [z|] eqn:E2; [|done]. destruct (is_pad c3) eqn:P3.
  { destruct (z mod 4 =? 0) eqn:Ez; [|done]. destruct l; [|done].
    intros [= <-]. apply Z.eqb_eq in Ez. b64_chars. unfold is_byte. split; [repeat constructor; zlia|].
    cbn [b64]. repeat f_equal; zlia. }
  destruct (b64_value c3) as [w|] eqn:E3; [|done]. destruct (b64_decode l) as [r'|]; [|done].
  intros [= <-]. destruct (IH r' eq_refl) as [Hr ->]. b64_chars. unfold is_byte in *.
  split; [repeat constructor; [zlia..|done]|]. cbn [b64]. repeat f_equal; zlia.
Qed.
