(* ===== verification/Glob.v ===== *)
(** * filepath.Match: the patterns of roles and of layer names

    The Go Standard Library's [path/filepath.Match] on a Unix system, loop by
    loop over the bytes of the pattern and the name. The loops take fuel, as
    many steps as there are bytes, which is always enough ([ranges_fuel],
    [match_chunk_fuel], [check_rest_fuel], [match_bytes_ok]). *)

From Stdlib Require Import ZArith Lia Ascii String Strings.Byte.
From stdpp Require Import base option list gmap strings sorting.
From S2P Require Import Prelude.

Open Scope Z_scope.
Open Scope go_scope.

(** [filepath.ErrBadPattern] is the only error. *)
Inductive bad_pattern : Type := ErrBadPattern.

Definition c_star : Z := 42.
Definition c_dash : Z := 45.
Definition c_slash : Z := 47.
Definition c_quest : Z := 63.
Definition c_open : Z := 91.
Definition c_back : Z := 92.
Definition c_close : Z := 93.
Definition c_caret : Z := 94.

(** The leading stars of a pattern. *)
Fixpoint strip_stars (p : list Z) : bool * list Z :=
  match p with
  | c :: p' => if c =? c_star then (true, snd (strip_stars p')) else (false, p)
  | [] => (false, [])
  end.

(** The bytes up to the next star outside a character class. *)
Fixpoint scan (inrange : bool) (p : list Z) : list Z * list Z :=
  match p with
  | [] => ([], [])
  | c :: p' =>
      if c =? c_back then
        match p' with
        | [] => ([c], [])
        | d :: p'' => let '(a, b) := scan inrange p'' in (c :: d :: a, b)
        end
      else if (c =? c_star) && negb inrange then ([], p)
      else
        let '(a, b) := scan (if c =? c_open then true else if c =? c_close then false else inrange) p' in
        (c :: a, b)
  end.

Definition scanChunk (pattern : list Z) : bool * list Z * list Z :=
  let '(star, p) := strip_stars pattern in
  let '(chunk, rest) := scan false p in
  (star, chunk, rest).

(** A possibly escaped character of a class, with what follows it, which is
    never empty. *)
Definition getEsc (chunk : list Z) : res bad_pattern (Z * list Z) :=
  match chunk with
  | [] => Err ErrBadPattern
  | c :: chunk' =>
      if (c =? c_dash) || (c =? c_close) then Err ErrBadPattern
      else
        let chunk := if c =? c_back then chunk' else chunk in
        match chunk with
        | [] => Err ErrBadPattern
        | _ =>
            let '(r, n) := decode_rune chunk in
            let nchunk := drop n chunk in
            if ((r =? RuneError) && (n =? 1)%nat) || match nchunk with [] => true | _ => false end
            then Err ErrBadPattern
            else Ok (r, nchunk)
        end
  end.

(** The ranges of a class: whether one holds [r], and the rest of the chunk. *)
Fixpoint ranges (fuel : nat) (r : Z) (first found : bool) (chunk : list Z)
  : res bad_pattern (bool * list Z) :=
  match fuel with
  | O => Err ErrBadPattern
  | S fuel' =>
      if negb first && (hd 0 chunk =? c_close) then Ok (found, tail chunk)
      else
        let? (lo, chunk1) := getEsc chunk in
        let? (hi, chunk2) := (if hd 0 chunk1 =? c_dash then getEsc (tail chunk1) else Ok (lo, chunk1)) in
        ranges fuel' r false (found || ((lo <=? r) && (r <=? hi))) chunk2
  end.

(** [matchChunk]: [None] for a failed match, else what is left of the name.
    After a failure the rest of the chunk is still read, for its syntax: the
    name [None] stands for [failed]. *)
Fixpoint match_chunk (fuel : nat) (chunk : list Z) (s : option (list Z))
  : res bad_pattern (option (list Z)) :=
  match fuel, chunk with
  | _, [] => Ok s
  | O, _ => Err ErrBadPattern
  | S fuel', c :: chunk' =>
      let s := match s with Some [] => None | _ => s end in
      if c =? c_open then
        let '(r, s1) :=
          match s with
          | Some l => let '(r, n) := decode_rune l in (r, Some (drop n l))
          | None => (0, None)
          end in
        let '(negated, chunk1) :=
          if negb (match chunk' with [] => true | _ => false end) && (hd 0 chunk' =? c_caret)
          then (true, tail chunk') else (false, chunk') in
        let? (found, chunk2) := ranges (S (length chunk1)) r true false chunk1 in
        match_chunk fuel' chunk2 (if Bool.eqb found negated then None else s1)
      else if c =? c_quest then
        match_chunk fuel' chunk'
          match s with
          | Some l => if hd 0 l =? c_slash then None else Some (drop (snd (decode_rune l)) l)
          | None => None
          end
      else
        let? lit := (if c =? c_back then match chunk' with [] => Err ErrBadPattern | _ => Ok chunk' end
                     else Ok chunk) in
        match_chunk fuel' (tail lit)
          match s with
          | Some l => if hd 0 lit =? hd 0 l then Some (tail l) else None
          | None => None
          end
  end.

Definition matchChunk (chunk s : list Z) : res bad_pattern (option (list Z)) :=
  match_chunk (length chunk) chunk (Some s).

(** The loop that checks the rest of a pattern. *)
Fixpoint check_rest (fuel : nat) (pattern : list Z) : res bad_pattern unit :=
  match fuel, pattern with
  | _, [] => Ok tt
  | O, _ => Err ErrBadPattern
  | S fuel', _ =>
      let '(_, chunk, rest) := scanChunk pattern in
      let? _ := matchChunk chunk [] in check_rest fuel' rest
  end.

(** The match may end here: the last chunk must exhaust the name. *)
Definition ends (rest t : list Z) : bool :=
  match rest, t with
  | [], _ :: _ => false
  | _, _ => true
  end.

(** The loop that skips bytes of the name, but no slash, after a star. *)
Fixpoint skip (chunk rest name : list Z) : res bad_pattern (option (list Z)) :=
  match name with
  | [] => Ok None
  | c :: name' =>
      if c =? c_slash then Ok None
      else
        let? m := matchChunk chunk name' in
        match m with
        | Some t => if ends rest t then Ok (Some t) else skip chunk rest name'
        | None => skip chunk rest name'
        end
  end.

Fixpoint match_bytes (fuel : nat) (pattern name : list Z) : res bad_pattern bool :=
  match fuel, pattern with
  | _, [] => Ok match name with [] => true | _ => false end
  | O, _ => Err ErrBadPattern
  | S fuel', _ =>
      let '(star, chunk, rest) := scanChunk pattern in
      if star && match chunk with [] => true | _ => false end then
        Ok (negb (existsb (fun c => c =? c_slash) name))
      else
        let? m := matchChunk chunk name in
        let? next :=
          match m with
          | Some t => if ends rest t then Ok (Some t) else if star then skip chunk rest name else Ok None
          | None => if star then skip chunk rest name else Ok None
          end in
        match next with
        | Some t => match_bytes fuel' rest t
        | None => let? _ := check_rest (length rest) rest in Ok false
        end
  end.

Definition Match (pattern name : string) : res bad_pattern bool :=
  match_bytes (String.length pattern) (bytes_Z pattern) (bytes_Z name).

(** [matched, _ := filepath.Match(...)]. *)
Definition matched (pattern name : string) : bool :=
  match Match pattern name with
  | Ok b => b
  | Err _ => false
  end.

Example match_star : Match "foo_*" "foo_1" = Ok true. Proof. reflexivity. Qed.
Example match_slash : Match "*" "a/b" = Ok false. Proof. reflexivity. Qed.
Example match_class : Match "[a-c]?\*[^x]" "bz*y" = Ok true. Proof. reflexivity. Qed.
Example match_bad : Match "a[" "useless" = Err ErrBadPattern. Proof. reflexivity. Qed.
Example match_skip : Match "*ab*c" "xababxc" = Ok true. Proof. reflexivity. Qed.

(** ** Whether a pattern is bad does not depend on the name *)

Definition is_ok {E A} (r : res E A) : bool := match r with Ok _ => true | Err _ => false end.

Lemma ranges_indep fuel r r' first found found' chunk :
  match ranges fuel r first found chunk, ranges fuel r' first found' chunk with
  | Ok (_, c), Ok (_, c') => c = c'
  | Err _, Err _ => True
  | _, _ => False
  end.
Proof.
  revert first found found' chunk. induction fuel as [|fuel IH]; intros first found found' chunk; [done|].
  cbn [ranges]. destruct (negb first && _); [done|].
  destruct (getEsc chunk) as [[lo chunk1]|]; [|done]. cbn [res_bind].
  destruct (if hd 0 chunk1 =? c_dash then _ else _) as [[hi chunk2]|]; [|done]. cbn [res_bind]. apply IH.
Qed.

Lemma match_chunk_indep fuel chunk s s' :
  is_ok (match_chunk fuel chunk s) = is_ok (match_chunk fuel chunk s').
Proof.
  revert chunk s s'. induction fuel as [|fuel IH]; intros chunk s s'; [by destruct chunk|].
  destruct chunk as [|c chunk']; [done|]. cbn [match_chunk].
  destruct (c =? c_open).
  - destruct (match (match s with Some [] => None | _ => s end) with Some _ => _ | None => _ end) as [r s1].
    destruct (match (match s' with Some [] => None | _ => s' end) with Some _ => _ | None => _ end) as [r' s1'].
    destruct (if negb _ && _ then _ else _) as [negated chunk1].
    pose proof (ranges_indep (S (length chunk1)) r r' true false false chunk1) as H.
    destruct (ranges _ r _ _ _) as [[f c2]|], (ranges _ r' _ _ _) as [[f' c2']|]; try done.
    subst c2'. cbn [res_bind]. apply IH.
  - destruct (c =? c_quest); [apply IH|].
    destruct (if c =? c_back then _ else _); [|done]. cbn [res_bind]. apply IH.
Qed.

Lemma matchChunk_indep chunk s s' : is_ok (matchChunk chunk s) = is_ok (matchChunk chunk s').
Proof. apply match_chunk_indep. Qed.

(** ** The fuel is enough *)

Lemma getEsc_shrinks chunk r chunk' : getEsc chunk = Ok (r, chunk') -> (length chunk' < length chunk)%nat.
Proof.
  unfold getEsc. destruct chunk as [|c chunk1]; [done|]. destruct (_ || _); [done|].
  assert (Hstep : forall l : list Z, (length l <= length (c :: chunk1))%nat -> l <> [] ->
    (let '(r0, n) := decode_rune l in
     let nchunk := drop n l in
     if ((r0 =? RuneError) && (n =? 1)%nat) || match nchunk with [] => true | _ => false end
     then Err ErrBadPattern else Ok (r0, nchunk)) = Ok (r, chunk') ->
    (length chunk' < length (c :: chunk1))%nat).
  { intros l Hl Hne. pose proof (decode_rune_width l Hne) as Hw. destruct (decode_rune l) as [r0 n].
    cbn [snd] in Hw. cbv zeta. destruct (_ || _); [done|]. intros [= -> <-]. rewrite length_drop. lia. }
  destruct (c =? c_back); [|by apply Hstep].
  destruct chunk1 as [|d chunk2] eqn:Ec; [done|]. apply Hstep; [cbn; lia|done].
Qed.

Lemma ranges_fuel n m r first found chunk :
  (length chunk < n)%nat -> (length chunk < m)%nat ->
  ranges n r first found chunk = ranges m r first found chunk.
Proof.
  revert m first found chunk. induction n as [|n IH]; intros m first found chunk Hn Hm; [lia|].
  destruct m as [|m]; [lia|]. cbn [ranges]. destruct (negb first && _); [done|].
  destruct (getEsc chunk) as [[lo chunk1]|] eqn:E1; [|done]. cbn [res_bind].
  apply getEsc_shrinks in E1. destruct (hd 0 chunk1 =? c_dash).
  - destruct (getEsc (tail chunk1)) as [[hi chunk2]|] eqn:E2; [|done]. cbn [res_bind].
    apply getEsc_shrinks in E2. apply IH; destruct chunk1; cbn in *; lia.
  - cbn [res_bind]. apply IH; lia.
Qed.

Lemma ranges_shrinks n r first found chunk b chunk' :
  ranges n r first found chunk = Ok (b, chunk') -> (length chunk' <= length chunk)%nat.
Proof.
  revert first found chunk. induction n as [|n IH]; intros first found chunk; [done|]. cbn [ranges].
  destruct (negb first && _); [intros [= _ <-]; destruct chunk; cbn; lia|].
  destruct (getEsc chunk) as [[lo chunk1]|] eqn:E1; [|done]. cbn [res_bind].
  apply getEsc_shrinks in E1. destruct (hd 0 chunk1 =? c_dash).
  - destruct (getEsc (tail chunk1)) as [[hi chunk2]|] eqn:E2; [|done]. cbn [res_bind].
    apply getEsc_shrinks in E2. intros H%IH. destruct chunk1; cbn in *; lia.
  - cbn [res_bind]. intros H%IH. lia.
Qed.

Lemma match_chunk_fuel n m chunk s :
  (length chunk <= n)%nat -> (length chunk <= m)%nat -> match_chunk n chunk s = match_chunk m chunk s.
Proof.
  revert m chunk s. induction n as [|n IH]; intros m chunk s Hn Hm.
  { by destruct chunk; [destruct m|simpl in Hn; lia]. }
  destruct m as [|m]; [by destruct chunk; [|simpl in Hm; lia]|].
  destruct chunk as [|c chunk']; [done|]. cbn [match_chunk]. cbn [length] in *.
  destruct (c =? c_open).
  - destruct (match (match s with Some [] => None | _ => s end) with Some _ => _ | None => _ end) as [r s1].
    destruct (if negb _ && _ then _ else _) as [negated chunk1] eqn:E.
    assert (length chunk1 <= length chunk')%nat.
    { destruct (negb _ && _); injection E as <- <-; [destruct chunk'; cbn; lia|lia]. }
    destruct (ranges _ _ _ _ _) as [[f chunk2]|] eqn:E2; [|done]. cbn [res_bind].
    apply ranges_shrinks in E2. apply IH; lia.
  - destruct (c =? c_quest); [apply IH; lia|].
    destruct (if c =? c_back then _ else _) as [lit|] eqn:E; [|done]. cbn [res_bind].
    assert (length lit <= S (length chunk'))%nat.
    { destruct (c =? c_back); [destruct chunk'; [done|]|]; injection E as <-; cbn; lia. }
    destruct lit; apply IH; cbn in *; lia.
Qed.

(** A step over a pattern leaves less of it. *)
Lemma scan_app inrange p : fst (scan inrange p) ++ snd (scan inrange p) = p.
Proof.
  remember (length p) as n eqn:Hn. assert (Hle : (length p <= n)%nat) by lia. clear Hn.
  revert inrange p Hle. induction n as [|n IH]; intros inrange p Hle.
  { destruct p; [done|simpl in Hle; lia]. }
  destruct p as [|c p]; [done|]. cbn [scan]. cbn [length] in Hle.
  destruct (c =? c_back).
  - destruct p as [|d p]; [done|]. cbn [length] in Hle.
    specialize (IH inrange p ltac:(lia)). destruct (scan inrange p) as [a b]. cbn in *. by rewrite IH.
  - destruct ((c =? c_star) && negb inrange); [done|].
    specialize (IH (if c =? c_open then true else if c =? c_close then false else inrange) p ltac:(lia)).
    destruct (scan _ p) as [a b]. cbn in *. by rewrite IH.
Qed.

Lemma strip_stars_length p :
  (length (snd (strip_stars p)) + (if fst (strip_stars p) then 1 else 0) <= length p)%nat.
Proof.
  induction p as [|c p IH]; cbn; [lia|]. destruct (c =? c_star); cbn; [|lia].
  destruct (fst (strip_stars p)); lia.
Qed.

Lemma strip_stars_hd p : hd 0 (snd (strip_stars p)) =? c_star = false.
Proof. induction p as [|c p IH]; [done|]. cbn. destruct (c =? c_star) eqn:E; done. Qed.

Lemma scan_progress p : hd 0 p =? c_star = false -> p <> [] -> fst (scan false p) <> [].
Proof.
  destruct p as [|c p]; [done|]. cbn [hd scan]. intros Hc _. rewrite Hc.
  destruct (c =? c_back); [by destruct p as [|d p]; [|destruct (scan false p)]|].
  cbn [andb]. by destruct (scan _ p).
Qed.

Lemma scanChunk_shrinks pattern star chunk rest :
  pattern <> [] -> scanChunk pattern = (star, chunk, rest) -> (length rest < length pattern)%nat.
Proof.
  intros Hne. unfold scanChunk. pose proof (strip_stars_length pattern) as Hlen.
  pose proof (strip_stars_hd pattern) as Hhd.
  assert (Hnil : fst (strip_stars pattern) = false -> snd (strip_stars pattern) = pattern).
  { destruct pattern as [|c p]; [done|]. cbn. by destruct (c =? c_star). }
  destruct (strip_stars pattern) as [st p]. cbn [fst snd] in *.
  pose proof (scan_app false p) as Happ. pose proof (scan_progress p Hhd) as Hp.
  destruct (scan false p) as [a b]. cbn [fst snd] in *. intros [= -> -> ->].
  apply (f_equal length) in Happ. rewrite length_app in Happ. destruct star.
  - lia.
  - specialize (Hnil eq_refl). subst p. specialize (Hp Hne). destruct chunk; [done|]. cbn in *. lia.
Qed.

(** A star before an empty chunk ends the pattern. *)
Lemma scanChunk_trailing pattern rest : scanChunk pattern = (true, [], rest) -> rest = [].
Proof.
  unfold scanChunk. pose proof (strip_stars_hd pattern) as Hhd.
  destruct (strip_stars pattern) as [st p]. cbn [snd] in Hhd.
  pose proof (scan_progress p Hhd) as Hp. destruct p as [|c p]; [by intros [= _ <-]|].
  specialize (Hp ltac:(done)). destruct (scan false (c :: p)) as [a b]. cbn [fst] in Hp. by intros [= _ -> _].
Qed.

Lemma check_rest_step fuel pattern star chunk rest :
  pattern <> [] -> scanChunk pattern = (star, chunk, rest) ->
  check_rest (S fuel) pattern = (let? _ := matchChunk chunk [] in check_rest fuel rest).
Proof. intros Hne E. destruct pattern; [done|]. cbn [check_rest]. by rewrite E. Qed.

Lemma check_rest_fuel n m q :
  (length q <= n)%nat -> (length q <= m)%nat -> check_rest n q = check_rest m q.
Proof.
  revert m q. induction n as [|n IH]; intros m q Hn Hm.
  { by destruct q; [destruct m|simpl in Hn; lia]. }
  destruct m as [|m]; [by destruct q; [|simpl in Hm; lia]|].
  destruct q as [|c q]; [done|]. destruct (scanChunk (c :: q)) as [[st ch] r] eqn:E.
  pose proof (scanChunk_shrinks (c :: q) st ch r ltac:(done) E) as Hlt. cbn [length] in *.
  rewrite !(check_rest_step _ _ st ch r) by done.
  destruct (matchChunk ch []); [|done]. cbn [res_bind]. apply IH; lia.
Qed.

Lemma skip_ok chunk rest name :
  is_ok (matchChunk chunk []) = true -> is_ok (skip chunk rest name) = true.
Proof.
  intros Hok. induction name as [|c name IH]; [done|]. cbn [skip]. destruct (c =? c_slash); [done|].
  pose proof (matchChunk_indep chunk name []) as H. rewrite Hok in H.
  destruct (matchChunk chunk name) as [[t|]|]; [|done|done]. cbn [res_bind]. by destruct (ends rest t).
Qed.

(** Fuel for the length of the pattern is enough, and the match fails exactly
    when the check of the whole pattern does. *)
Lemma match_bytes_ok fuel pattern name :
  (length pattern <= fuel)%nat ->
  is_ok (match_bytes fuel pattern name) = is_ok (check_rest (length pattern) pattern).
Proof.
  revert pattern name. induction fuel as [|fuel IH]; intros pattern name Hf.
  { by destruct pattern; [|simpl in Hf; lia]. }
  destruct pattern as [|c p]; [done|].
  remember (c :: p) as pattern eqn:Hp. assert (Hne : pattern <> []) by by subst.
  destruct (scanChunk pattern) as [[star chunk] rest] eqn:E.
  pose proof (scanChunk_shrinks _ _ _ _ Hne E) as Hlt.
  replace (match_bytes (S fuel) pattern name) with
    (let '(star, chunk, rest) := scanChunk pattern in
     if star && match chunk with [] => true | _ => false end then
       Ok (negb (existsb (fun c => c =? c_slash) name))
     else let? m := matchChunk chunk name in
       let? next := match m with
         | Some t => if ends rest t then Ok (Some t) else if star then skip chunk rest name else Ok None
         | None => if star then skip chunk rest name else Ok None end in
       match next with
       | Some t => match_bytes fuel rest t
       | None => let? _ := check_rest (length rest) rest in Ok false
       end) by (subst pattern; done).
  rewrite E. destruct pattern as [|c' p']; [done|]. cbn [length].
  rewrite (check_rest_step _ _ star chunk rest) by done. cbn [length] in *.
  assert (Hrest : is_ok (check_rest (length rest) rest) = is_ok (check_rest (length p') rest))
    by (rewrite (check_rest_fuel (length rest) (length p') rest) by lia; done).
  destruct (star && _) eqn:Etr.
  - apply andb_true_iff in Etr as [-> Hch]. destruct chunk; [|done].
    apply scanChunk_trailing in E as ->. cbn. by destruct (length p').
  - pose proof (matchChunk_indep chunk name []) as Hm.
    pose proof (skip_ok chunk rest name) as Hsk.
    destruct (matchChunk chunk name) as [m|], (matchChunk chunk []) as [m0|]; try done.
    specialize (Hsk eq_refl). cbn [res_bind].
    assert (Hend : forall t, is_ok (match_bytes fuel rest t) = is_ok (check_rest (length p') rest)).
    { intros t. rewrite IH by lia. done. }
    assert (Hnone : is_ok (let? _ := check_rest (length rest) rest in Ok false) = is_ok (check_rest (length p') rest)).
    { rewrite <- Hrest. by destruct (check_rest _ rest). }
    assert (Hstar : is_ok (let? next := (if star then skip chunk rest name else Ok None) in
         match next with Some t => match_bytes fuel rest t
         | None => let? _ := check_rest (length rest) rest in Ok false end) = is_ok (check_rest (length p') rest)).
    { destruct star; [|done]. destruct (skip chunk rest name) as [[t|]|]; [apply Hend|done|done]. }
    destruct m as [t|]; [|done]. destruct (ends rest t); [|done]. apply Hend.
Qed.

(** A pattern is bad for one name exactly when it is bad for another. *)
Lemma Match_bad_indep pattern name name' : is_ok (Match pattern name) = is_ok (Match pattern name').
Proof. unfold Match. rewrite !match_bytes_ok by (rewrite length_bytes_Z; lia). done. Qed.
