(* ===== verification/Rbac.v ===== *)
(** * web/rbac: roles, policies and what they allow

    [role.go], [policy.go] and the pure part of [migrations.go]. A slice that
    the code compares with nil is an option; every other nil slice is the empty
    list. Go's map iteration order is a parameter, [range]. *)

From Stdlib Require Import ZArith Lia Ascii String Strings.Byte.
From stdpp Require Import base option list gmap strings sorting.
From S2P Require Import Prelude Glob.

Open Scope Z_scope.
Open Scope go_scope.

(** ** Data (types/version/v1/rbac.go) *)

Record PolicySpec : Type := mkPolicySpec {
  Resources : list string;
  ResourceNames : option (list string);
  Verbs : list string
}.

Record RoleSpec : Type := mkRoleSpec { Name : string; Policies : list PolicySpec }.

#[export] Instance PolicySpec_eq_dec : EqDecision PolicySpec.
Proof. solve_decision. Defined.

Definition names_of (p : PolicySpec) : list string := default [] (ResourceNames p).

(** [slices.Contains] on strings. *)
Definition slices_contains (l : list string) (x : string) : bool := existsb (String.eqb x) l.

(** ** Policies *)

(** [strings.Replace(n, "!", "", 1)]: the first "!" wherever it is. *)
Fixpoint replace_bang (n : string) : string :=
  match n with
  | EmptyString => EmptyString
  | String c n' => if Ascii.eqb c "!" then n' else String c (replace_bang n')
  end.

Fixpoint name_loop (allowed : bool) (patterns : list string) (name : string) : bool :=
  match patterns with
  | [] => allowed
  | n :: patterns' =>
      let negate := has_prefix n "!" in
      let n := replace_bang n in
      if matched n name then (if negate then false else name_loop true patterns' name)
      else name_loop allowed patterns' name
  end.

Definition resourceNameAllowed (p : PolicySpec) (name : string) : bool :=
  name_loop false (names_of p) name.

Definition verbAllowed (p : PolicySpec) (verb : string) : bool :=
  existsb (fun v => String.eqb v "*" || String.eqb v verb) (Verbs p).

(** ** Roles *)

Inductive role_error : Type :=
  | ErrResourceNameExists (what : text)
  | ErrResourceNameInvalid (name : string)
  | InvalidResources (invalid : list string).

(** The loop over one policy's resources: a bad pattern is put aside, any other
    gets the policy. *)
Definition map_policy (policy : PolicySpec) (acc : gmap string (list PolicySpec) * list string)
  : gmap string (list PolicySpec) * list string :=
  foldl (fun '(m, invalid) resource =>
           match Match resource "useless" with
           | Err _ => (m, invalid ++ [resource])
           | Ok _ => (<[resource := default [] (m !! resource) ++ [policy]]> m, invalid)
           end) acc (Resources policy).

(** [mapPolicies]: the map is kept even when there are bad patterns. *)
Definition mapPolicies (spec : RoleSpec) (mapped : option (gmap string (list PolicySpec)))
  : res role_error unit * gmap string (list PolicySpec) :=
  match mapped with
  | Some m => (Ok tt, m)
  | None =>
      let '(m, invalid) := foldl (fun acc policy => map_policy policy acc) (∅, []) (Policies spec) in
      (match invalid with [] => Ok tt | _ => Err (InvalidResources invalid) end, m)
  end.

Section Allowed.
Context (range : gmap string (list PolicySpec) -> list (string * list PolicySpec)).

(** The receiver is a copy, so the map is made anew for each call. *)
Definition policiesForResource (spec : RoleSpec) (resource : string) : list PolicySpec :=
  match mapPolicies spec None with
  | (Err _, _) => []
  | (Ok _, m) => concat (map (fun '(r, p) => if matched r resource then p else []) (range m))
  end.

Definition Allowed (spec : RoleSpec) (resource verb : string) (names : list string) : bool :=
  existsb (fun policy =>
             verbAllowed policy verb &&
             match names with
             | [] => true
             | _ => existsb (resourceNameAllowed policy) names
             end) (policiesForResource spec resource).
End Allowed.

(** *** Changing a role

    The role's policies are pointers: a change made before an error stays. *)

(** The names one policy gets, one by one. *)
Fixpoint set_names (names : list string) (policy : PolicySpec) : res role_error unit * PolicySpec :=
  match names with
  | [] => (Ok tt, policy)
  | name :: names' =>
      match Match name "useless" with
      | Err _ => (Err (ErrResourceNameInvalid name), policy)
      | Ok _ =>
          set_names names'
            (mkPolicySpec (Resources policy) (Some (names_of policy ++ [name])) (Verbs policy))
      end
  end.

Fixpoint set_policies (names : list string) (policies : list PolicySpec)
  : res role_error unit * list PolicySpec :=
  match policies with
  | [] => (Ok tt, [])
  | policy :: policies' =>
      match ResourceNames policy with
      | Some _ =>
          (Err (ErrResourceNameExists (lit "resource names already exist for policy")), policies)
      | None =>
          match set_names names policy with
          | (Err e, policy') => (Err e, policy' :: policies')
          | (Ok _, policy') =>
              let '(r, ps) := set_policies names policies' in (r, policy' :: ps)
          end
      end
  end.

(** No names, or a single empty one, stand for all names. *)
Definition default_names (names : list string) : list string :=
  match names with
  | [] | [EmptyString] => ["*"]
  | _ => names
  end.

Definition SetResourceNames (names : list string) (spec : RoleSpec) : res role_error unit * RoleSpec :=
  let '(r, ps) := set_policies (default_names names) (Policies spec) in (r, mkRoleSpec (Name spec) ps).

(** The inner loop ranges over the names the policy had when it began. *)
Fixpoint add_names (name : string) (existing : list string) (policy : PolicySpec)
  : res role_error unit * PolicySpec :=
  match existing with
  | [] => (Ok tt, policy)
  | e :: existing' =>
      if String.eqb name e then (Err (ErrResourceNameExists (Sprintf "%s" [AStr name])), policy)
      else
        match Match name "useless" with
        | Err _ => (Err (ErrResourceNameInvalid name), policy)
        | Ok _ =>
            add_names name existing'
              (mkPolicySpec (Resources policy) (Some (names_of policy ++ [name])) (Verbs policy))
        end
  end.

Fixpoint add_policies (name : string) (policies : list PolicySpec) : res role_error unit * list PolicySpec :=
  match policies with
  | [] => (Ok tt, [])
  | policy :: policies' =>
      match add_names name (names_of policy) policy with
      | (Err e, policy') => (Err e, policy' :: policies')
      | (Ok _, policy') => let '(r, ps) := add_policies name policies' in (r, policy' :: ps)
      end
  end.

Definition AddResourceName (name : string) (spec : RoleSpec) : res role_error unit * RoleSpec :=
  let '(r, ps) := add_policies name (Policies spec) in (r, mkRoleSpec (Name spec) ps).

Definition AddPolicy (res_ : list string) (rn : option (list string)) (v : list string) (spec : RoleSpec)
  : RoleSpec := mkRoleSpec (Name spec) (Policies spec ++ [mkPolicySpec res_ rn v]).

(** ** Migrations of a role (migrations.go) *)

Definition experimentFilesResource : string := "experiments/files".
Definition experimentFilesCreateVerb : string := "create".
Definition experimentAdminRole : string := "Experiment Admin".
Definition experimentUserRole : string := "Experiment User".

Definition experimentFilesRole (name : string) : bool :=
  String.eqb name experimentAdminRole || String.eqb name experimentUserRole.

(** The names that are missing are appended, in order. *)
Fixpoint append_missing (names : list string) (rn : option (list string)) : bool * option (list string) :=
  match names with
  | [] => (false, rn)
  | name :: names' =>
      if slices_contains (default [] rn) name then append_missing names' rn
      else (true, snd (append_missing names' (Some (default [] rn ++ [name]))))
  end.

Definition ensure_policy (names : list string) (policy : PolicySpec) : bool * PolicySpec :=
  let '(changed, verbs) :=
    if slices_contains (Verbs policy) experimentFilesCreateVerb then (false, Verbs policy)
    else (true, Verbs policy ++ [experimentFilesCreateVerb]) in
  let '(changed', rn) := append_missing names (ResourceNames policy) in
  (changed || changed', mkPolicySpec (Resources policy) rn verbs).

(** The first policy for experiment files is changed, or one is appended. *)
Fixpoint ensure_policies (names : option (list string)) (policies : list PolicySpec)
  : bool * list PolicySpec :=
  match policies with
  | [] => (true, [mkPolicySpec [experimentFilesResource] names [experimentFilesCreateVerb]])
  | policy :: policies' =>
      if slices_contains (Resources policy) experimentFilesResource then
        let '(changed, policy') := ensure_policy (default [] names) policy in (changed, policy' :: policies')
      else
        let '(changed, ps) := ensure_policies names policies' in (changed, policy :: ps)
  end.

Definition ensureExperimentFilesCreatePolicy (names : option (list string)) (role : RoleSpec)
  : bool * RoleSpec :=
  let '(changed, ps) := ensure_policies names (Policies role) in (changed, mkRoleSpec (Name role) ps).

Definition experimentResourceNames (role : RoleSpec) : option (list string) :=
  match List.find (fun policy => slices_contains (Resources policy) "experiments") (Policies role) with
  | Some policy => ResourceNames policy
  | None => None
  end.

Definition builderRoleConfig : string := "builder".
Definition builderRoleName : string := "Builder".
Definition builderResource : string := "builder".
Definition builderUseVerb : string := "use".

Definition builderAllowsUse range (spec : RoleSpec) : bool := Allowed range spec builderResource builderUseVerb [].

Definition builderUsePolicy : PolicySpec := mkPolicySpec [builderResource] None [builderUseVerb].

(** ** What a role allows *)

(** A pattern that [filepath.Match] reads. *)
Definition good_pattern (p : string) : bool := is_ok (Match p "useless").

Definition good_role (spec : RoleSpec) : bool := forallb (fun p => forallb good_pattern (Resources p)) (Policies spec).

Lemma slices_contains_spec l x : slices_contains l x = true <-> x ∈ l.
Proof.
  unfold slices_contains. rewrite existsb_exists. setoid_rewrite String.eqb_eq.
  split; [intros (y & Hy & ->)|intros Hx; exists x]; rewrite <- ?list_elem_of_In in *; auto.
Qed.

(** The policies mapped under a resource pattern, in the order of the spec. *)
Lemma map_policy_spec policy m invalid :
  forallb good_pattern (Resources policy) = true ->
  exists m', map_policy policy (m, invalid) = (m', invalid) /\
    forall r p, p ∈ default [] (m' !! r) <-> p ∈ default [] (m !! r) \/ (p = policy /\ r ∈ Resources policy).
Proof.
  unfold map_policy. revert m. induction (Resources policy) as [|x rs IH]; intros m; cbn [foldl forallb].
  - intros _. exists m. split; [done|]. intros r p. rewrite elem_of_nil. tauto.
  - intros [Hx Hrs]%andb_true_iff. unfold good_pattern, is_ok in Hx.
    destruct (Match x "useless"); [|done].
    destruct (IH (<[x:=default [] (m !! x) ++ [policy]]> m) Hrs) as (m' & -> & Hm').
    exists m'. split; [done|]. intros r p. rewrite Hm', elem_of_cons.
    destruct (decide (r = x)) as [->|Hne].
    + rewrite lookup_insert_eq. cbn. rewrite elem_of_app, list_elem_of_singleton. tauto.
    + rewrite lookup_insert_ne by done. tauto.
Qed.

Lemma map_policy_bad policy m invalid :
  exists l, snd (map_policy policy (m, invalid)) = invalid ++ l /\
    (l = [] <-> forallb good_pattern (Resources policy) = true).
Proof.
  unfold map_policy. revert m invalid.
  induction (Resources policy) as [|x rs IH]; intros m invalid; cbn [foldl forallb].
  - exists []. by rewrite app_nil_r.
  - unfold good_pattern at 1, is_ok. destruct (Match x "useless"); [apply IH|].
    destruct (IH m (invalid ++ [x])) as (l & -> & _). exists (x :: l).
    rewrite <- app_assoc. by split.
Qed.

Lemma mapPolicies_ok spec :
  good_role spec = true ->
  exists m, mapPolicies spec None = (Ok tt, m) /\
    forall r p, p ∈ default [] (m !! r) <-> p ∈ Policies spec /\ r ∈ Resources p.
Proof.
  unfold mapPolicies, good_role. intros Hgood.
  assert (Hgen : forall ps m, forallb (fun p => forallb good_pattern (Resources p)) ps = true ->
    exists m', foldl (fun acc policy => map_policy policy acc) (m, []) ps = (m', []) /\
      forall r p, p ∈ default [] (m' !! r) <-> p ∈ default [] (m !! r) \/ (p ∈ ps /\ r ∈ Resources p)).
  { clear. intros ps. induction ps as [|q ps IH]; intros m; cbn [foldl forallb].
    - intros _. exists m. split; [done|]. intros r p. rewrite elem_of_nil. tauto.
    - intros [Hq Hps]%andb_true_iff. destruct (map_policy_spec q m [] Hq) as (m1 & -> & Hm1).
      destruct (IH m1 Hps) as (m2 & -> & Hm2). exists m2. split; [done|].
      intros r p. rewrite Hm2, Hm1, elem_of_cons. split; [|].
      + intros [[?|[-> ?]]|[? ?]]; auto.
      + intros [?|[[->|?] ?]]; auto. }
  destruct (Hgen (Policies spec) ∅ Hgood) as (m & -> & Hm). exists m. split; [done|].
  intros r p. rewrite Hm, lookup_empty. cbn. rewrite elem_of_nil. tauto.
Qed.

Lemma mapPolicies_bad spec : good_role spec = false -> exists e, fst (mapPolicies spec None) = Err e.
Proof.
  unfold mapPolicies, good_role. intros Hbad.
  assert (Hgen : forall ps m inv, exists l,
    snd (foldl (fun acc policy => map_policy policy acc) (m, inv) ps) = inv ++ l /\
    (l = [] <-> forallb (fun p => forallb good_pattern (Resources p)) ps = true)).
  { clear. intros ps. induction ps as [|q ps IH]; intros m inv; cbn [foldl forallb].
    - exists []. by rewrite app_nil_r.
    - destruct (map_policy_bad q m inv) as (l1 & Hl1 & H1).
      destruct (map_policy q (m, inv)) as [m1 inv1]. cbn in Hl1. subst inv1.
      destruct (IH m1 (inv ++ l1)) as (l2 & -> & H2). exists (l1 ++ l2). rewrite app_assoc. split; [done|].
      rewrite app_nil, andb_true_iff. tauto. }
  destruct (Hgen (Policies spec) ∅ []) as (l & Hl & Hiff).
  destruct (foldl _ _ _) as [m inv]. cbn in Hl. subst inv.
  destruct l as [|x l]; [|by eexists]. rewrite (proj1 Hiff) in Hbad by done. done.
Qed.

Section AllowedFacts.
Context (range : gmap string (list PolicySpec) -> list (string * list PolicySpec)).
Context (range_perm : forall m, range m ≡ₚ map_to_list m).

Lemma elem_of_policiesForResource spec resource p :
  p ∈ policiesForResource range spec resource <->
    good_role spec = true /\ p ∈ Policies spec /\ exists r, r ∈ Resources p /\ matched r resource = true.
Proof.
  unfold policiesForResource. destruct (good_role spec) eqn:Hgood.
  - destruct (mapPolicies_ok spec Hgood) as (m & -> & Hm).
    rewrite list_elem_of_In, in_concat. setoid_rewrite <- list_elem_of_In. split.
    + intros (l & Hl & Hp). apply list_elem_of_fmap in Hl as ([r ps] & -> & Hr).
      rewrite range_perm in Hr. apply elem_of_map_to_list in Hr.
      destruct (matched r resource) eqn:E; [|by apply elem_of_nil in Hp].
      specialize (Hm r p). rewrite Hr in Hm. cbn in Hm. apply Hm in Hp as [? ?]. eauto.
    + intros (_ & Hp & r & Hr & Hmt). specialize (Hm r p).
      destruct (m !! r) as [ps|] eqn:E; cbn in Hm.
      * exists ps. split; [|by apply Hm]. apply list_elem_of_fmap. exists (r, ps). rewrite Hmt. split; [done|].
        rewrite range_perm. by apply elem_of_map_to_list.
      * rewrite elem_of_nil in Hm. tauto.
  - destruct (mapPolicies_bad spec Hgood) as [e He]. destruct (mapPolicies spec None) as [r m]. cbn in He. subst r.
    rewrite elem_of_nil. by split; [|intros [? _]].
Qed.

Lemma Allowed_char spec resource verb names :
  Allowed range spec resource verb names = true <->
    good_role spec = true /\
    exists p, p ∈ Policies spec /\ (exists r, r ∈ Resources p /\ matched r resource = true) /\
      verbAllowed p verb = true /\
      (names = [] \/ exists name, name ∈ names /\ resourceNameAllowed p name = true).
Proof.
  unfold Allowed. rewrite existsb_exists. setoid_rewrite <- list_elem_of_In.
  setoid_rewrite elem_of_policiesForResource. setoid_rewrite andb_true_iff.
  assert (Hn : forall p, match names with [] => true | _ => existsb (resourceNameAllowed p) names end = true <->
    (names = [] \/ exists name, name ∈ names /\ resourceNameAllowed p name = true)).
  { intros p. destruct names as [|n ns]; [by split; [left|]|].
    rewrite existsb_exists. setoid_rewrite <- list_elem_of_In. split; [by right|]. by intros [?|?]. }
  setoid_rewrite Hn. split.
  - intros (p & (Hg & Hp & Hr) & Hv & Hnm). eauto 10.
  - intros (Hg & p & Hp & Hr & Hv & Hnm). eauto 10.
Qed.

End AllowedFacts.

Lemma name_loop_iff allowed patterns name :
  name_loop allowed patterns name = true <->
    (allowed = true \/ exists n, n ∈ patterns /\ has_prefix n "!" = false /\ matched (replace_bang n) name = true) /\
    (forall n, n ∈ patterns -> has_prefix n "!" = true -> matched (replace_bang n) name = false).
Proof.
  revert allowed. induction patterns as [|n ps IH]; intros allowed; cbn [name_loop].
  - split; [intros ->; split; [by left|by intros ? ?%elem_of_nil]|].
    by intros [[?|(? & ?%elem_of_nil & _)] _].
  - setoid_rewrite elem_of_cons. destruct (matched (replace_bang n) name) eqn:Hm.
    + destruct (has_prefix n "!") eqn:Hn.
      * split; [done|]. intros [_ H]. specialize (H n (or_introl eq_refl) Hn). congruence.
      * rewrite IH. split.
        -- intros [_ H]. split; [right; exists n; auto|]. intros n' [->|?]; [congruence|auto].
        -- intros [_ H]. split; [by left|]. intros n' ? ?. apply H; auto.
    + rewrite IH. split.
      * intros [[?|(n1 & ? & ?)] Hall]; (split; [eauto|]); intros n'' [->|?]; auto.
      * intros [[?|(n1 & [->|?] & ? & ?)] Hall]; (split; [|intros; apply Hall; auto]); eauto; congruence.
Qed.

(** Within a policy, a name is allowed exactly when one of its patterns
    matches it and none of its negated patterns does, in whatever order they
    are listed. *)
Lemma allowed_name_iff p name :
  resourceNameAllowed p name = true <->
    (exists n, n ∈ names_of p /\ has_prefix n "!" = false /\ matched (replace_bang n) name = true) /\
    (forall n, n ∈ names_of p -> has_prefix n "!" = true -> matched (replace_bang n) name = false).
Proof.
  unfold resourceNameAllowed. rewrite name_loop_iff. split.
  - by intros [[?|?] ?].
  - intros [? ?]. auto.
Qed.

Lemma verbAllowed_iff p verb : verbAllowed p verb = true <-> "*" ∈ Verbs p \/ verb ∈ Verbs p.
Proof.
  unfold verbAllowed. rewrite existsb_exists. setoid_rewrite <- list_elem_of_In. setoid_rewrite orb_true_iff. setoid_rewrite String.eqb_eq.
  split; [intros (v & ? & [->| ->]); auto|]. intros [?|?]; eauto.
Qed.

(** C20: A role allows a verb on a resource exactly when all of its resource
    patterns can be read and some policy has a pattern that matches the
    resource, lists the verb or "*", and, when names are given, has a name
    pattern that matches one of them while none of its negated patterns
    matches that one. The answer does not depend on the order in which Go
    iterates over the mapped policies, nor on the order in which names are
    listed, and one pattern that cannot be read denies everything. *)
Theorem Allowed_iff range spec resource verb names :
  (forall m, Permutation (range m) (map_to_list m)) ->
  Allowed range spec resource verb names = true <->
    good_role spec = true /\
    exists p, p ∈ Policies spec /\ (exists r, r ∈ Resources p /\ matched r resource = true) /\
      ("*" ∈ Verbs p \/ verb ∈ Verbs p) /\
      (names = [] \/ exists name, name ∈ names /\
        (exists n, n ∈ names_of p /\ has_prefix n "!" = false /\ matched (replace_bang n) name = true) /\
        forall n, n ∈ names_of p -> has_prefix n "!" = true -> matched (replace_bang n) name = false).
Proof.
  intros Hrange. rewrite (Allowed_char range Hrange). setoid_rewrite verbAllowed_iff. setoid_rewrite allowed_name_iff. done.
Qed.

Lemma Allowed_iff_witness :
  Allowed map_to_list
    (mkRoleSpec "r" [mkPolicySpec ["vms"; "vms/*"] (Some ["foo_*"; "!foo_2"]) ["get"]])
    "vms/screenshot" "get" ["foo_1"] = true.
Proof.
  apply (Allowed_iff map_to_list _ _ _ _ (fun m => Permutation_refl _)). split; [vm_compute; reflexivity|].
  eexists. split; [left|]. split; [exists "vms/*"; split; [right; left|vm_compute; reflexivity]|].
  split; [right; left|]. right. exists "foo_1". split; [left|]. split.
  - exists "foo_*". split; [left|split; vm_compute; reflexivity].
  - intros n Hn. repeat (apply elem_of_cons in Hn as [->|Hn]); [vm_compute; done|vm_compute; done|by apply elem_of_nil in Hn].
Defined.

(** A "!" is dropped wherever it first occurs, not only in front: a policy
    for the name "a!b" does not allow "a!b" and does allow "ab". *)
Theorem interior_bang :
  let p := mkPolicySpec ["vms"] (Some ["a!b"]) ["get"] in
  resourceNameAllowed p "a!b" = false /\ resourceNameAllowed p "ab" = true.
Proof. vm_compute. done. Qed.

(** ** Changing a role *)

Lemma set_names_ok names policy :
  forallb good_pattern names = true ->
  set_names names policy =
    (Ok tt, match names with
            | [] => policy
            | _ => mkPolicySpec (Resources policy) (Some (names_of policy ++ names)) (Verbs policy)
            end).
Proof.
  revert policy. induction names as [|n ns IH]; intros policy; [done|]. cbn [set_names forallb].
  unfold good_pattern at 1, is_ok. destruct (Match n "useless"); [|done]. intros Hns. rewrite IH by done.
  destruct ns as [|n' ns']; [done|]. unfold names_of. cbn. by rewrite <- app_assoc.
Qed.

(** Names are set on every policy of a role that has none yet, none given
    standing for all names. A role with a policy that already has names is
    refused; the policies before that one keep the names they were given. *)
Theorem SetResourceNames_spec names spec :
  forallb good_pattern (default_names names) = true ->
  let give p := mkPolicySpec (Resources p) (Some (default_names names)) (Verbs p) in
  exists before after,
    Policies spec = before ++ after /\ Forall (fun p => ResourceNames p = None) before /\
    SetResourceNames names spec =
      (match after with
       | [] => Ok tt
       | _ => Err (ErrResourceNameExists (lit "resource names already exist for policy"))
       end, mkRoleSpec (Name spec) (map give before ++ after)) /\
    match after with [] => True | p :: _ => ResourceNames p <> None end.
Proof.
  intros Hgood give. unfold SetResourceNames.
  assert (Hne : default_names names <> []) by by destruct names as [|[] []].
  assert (H : forall ps, exists before after, ps = before ++ after /\
    Forall (fun p => ResourceNames p = None) before /\
    set_policies (default_names names) ps =
      (match after with [] => Ok tt
       | _ => Err (ErrResourceNameExists (lit "resource names already exist for policy")) end,
       map give before ++ after) /\ match after with [] => True | p :: _ => ResourceNames p <> None end).
  { induction ps as [|p ps IH]; [by exists [], []|]. cbn [set_policies].
    destruct (ResourceNames p) as [l|] eqn:E.
    - exists [], (p :: ps). split_and!; [done|constructor|done|by rewrite E].
    - rewrite set_names_ok by done. destruct (default_names names) as [|n ns] eqn:En; [done|].
      destruct IH as (b & a & -> & Hb & -> & Ha). exists (p :: b), a.
      split_and!; [done|by constructor| |done]. unfold names_of. rewrite E. cbn. unfold give.
      by destruct a. }
  destruct (H (Policies spec)) as (b & a & Hps & Hb & Hset & Ha). exists b, a. rewrite Hset. auto.
Qed.

Lemma SetResourceNames_spec_witness :
  fst (SetResourceNames [] (mkRoleSpec "r" [mkPolicySpec ["vms"] None ["get"]])) = Ok tt.
Proof.
  destruct (SetResourceNames_spec [] (mkRoleSpec "r" [mkPolicySpec ["vms"] None ["get"]]))
    as (b & a & Hab & Hb & -> & Ha); [vm_compute; reflexivity|]. cbn in *.
  destruct a as [|p a]; [reflexivity|]. exfalso. apply Ha.
  destruct b as [|q b]; [by injection Hab as <- _|]. injection Hab as _ Hab. by destruct b.
Defined.

Lemma add_names_ok name existing policy :
  is_ok (Match name "useless") = true -> name ∉ existing ->
  add_names name existing policy =
    (Ok tt, match existing with
            | [] => policy
            | _ => mkPolicySpec (Resources policy)
                     (Some (names_of policy ++ replicate (length existing) name)) (Verbs policy)
            end).
Proof.
  intros Hgood. revert policy. induction existing as [|e es IH]; intros policy; [done|].
  intros [Hne Hnin]%not_elem_of_cons. cbn [add_names].
  rewrite (proj2 (String.eqb_neq name e)) by done. unfold is_ok in Hgood.
  destruct (Match name "useless"); [|done]. rewrite IH by done.
  destruct es as [|e' es']; [done|]. unfold names_of. cbn. by rewrite <- app_assoc.
Qed.

(** Adding a name to a role appends it to each policy once for every name
    the policy already has: a policy without names is left without, and one
    with several gets duplicates. *)
Theorem AddResourceName_appends name spec :
  is_ok (Match name "useless") = true -> Forall (fun p => name ∉ names_of p) (Policies spec) ->
  AddResourceName name spec =
    (Ok tt, mkRoleSpec (Name spec)
       (map (fun p => match names_of p with
                      | [] => p
                      | l => mkPolicySpec (Resources p) (Some (l ++ replicate (length l) name)) (Verbs p)
                      end) (Policies spec))).
Proof.
  intros Hgood Hall. unfold AddResourceName.
  replace (add_policies name (Policies spec)) with (Ok (E:=role_error) tt,
    map (fun p => match names_of p with
                  | [] => p
                  | l => mkPolicySpec (Resources p) (Some (l ++ replicate (length l) name)) (Verbs p)
                  end) (Policies spec)); [done|].
  induction Hall as [|p ps Hp Hps IH]; [done|]. cbn [add_policies map].
  rewrite add_names_ok, <- IH by done. by destruct (names_of p).
Qed.

Lemma AddResourceName_appends_witness :
  AddResourceName "x" (mkRoleSpec "r" [mkPolicySpec ["vms"] (Some ["a"; "b"]) []; mkPolicySpec ["exps"] None []]) =
    (Ok tt, mkRoleSpec "r" [mkPolicySpec ["vms"] (Some ["a"; "b"; "x"; "x"]) []; mkPolicySpec ["exps"] None []]).
Proof.
  rewrite (AddResourceName_appends "x"); [reflexivity|vm_compute; reflexivity|].
  repeat constructor; cbn; apply (bool_decide_unpack _); vm_compute; reflexivity.
Defined.

(** ** Migrations *)

Lemma append_missing_spec names rn :
  let '(changed, rn') := append_missing names rn in
  append_missing names rn' = (false, rn') /\ (changed = false -> rn' = rn) /\
  (forall n, n ∈ default [] rn' <-> n ∈ default [] rn \/ n ∈ names).
Proof.
  revert rn. induction names as [|n ns IH]; intros rn; cbn [append_missing].
  { split_and!; [done|done|]. intros m. rewrite elem_of_nil. tauto. }
  destruct (slices_contains (default [] rn) n) eqn:E.
  - specialize (IH rn). destruct (append_missing ns rn) as [c rn'] eqn:Ea.
    destruct IH as (Hidem & Hsame & Hin). apply slices_contains_spec in E.
    assert (slices_contains (default [] rn') n = true) as ->.
    { apply slices_contains_spec, Hin. by left. }
    split_and!; [done|done|]. intros m. rewrite Hin, elem_of_cons.
    split; [tauto|]. intros [?|[->|?]]; auto.
  - specialize (IH (Some (default [] rn ++ [n]))).
    destruct (append_missing ns (Some (default [] rn ++ [n]))) as [c rn'] eqn:Ea. cbn [snd].
    destruct IH as (Hidem & _ & Hin).
    assert (slices_contains (default [] rn') n = true) as ->.
    { apply slices_contains_spec, Hin. left. cbn. apply elem_of_app. right. by left. }
    split_and!; [done|done|]. intros m. rewrite Hin. cbn.
    rewrite elem_of_app, list_elem_of_singleton, elem_of_cons. tauto.
Qed.

Lemma ensure_policy_spec names p :
  let '(changed, p') := ensure_policy names p in
  ensure_policy names p' = (false, p') /\ (changed = false -> p' = p) /\ Resources p' = Resources p /\
  experimentFilesCreateVerb ∈ Verbs p' /\ (forall n, n ∈ names -> n ∈ names_of p').
Proof.
  unfold ensure_policy. pose proof (append_missing_spec names (ResourceNames p)) as H.
  destruct (slices_contains (Verbs p) experimentFilesCreateVerb) eqn:Ev.
  - destruct (append_missing names (ResourceNames p)) as [c rn'] eqn:Ea. cbn [ResourceNames Verbs Resources].
    destruct H as (Hidem & Hsame & Hin). rewrite Ev, Hidem. apply slices_contains_spec in Ev.
    split_and!; try done.
    + cbn. intros ->. specialize (Hsame eq_refl). subst rn'. by destruct p.
    + intros n Hn. unfold names_of. cbn. apply Hin. by right.
  - destruct (append_missing names (ResourceNames p)) as [c rn'] eqn:Ea. cbn [ResourceNames Verbs Resources].
    destruct H as (Hidem & Hsame & Hin). rewrite Hidem.
    assert (Hv : experimentFilesCreateVerb ∈ Verbs p ++ [experimentFilesCreateVerb]).
    { apply elem_of_app. right. by left. }
    rewrite (proj2 (slices_contains_spec _ _) Hv). split_and!; try done.
    intros n Hn. unfold names_of. cbn. apply Hin. by right.
Qed.

(** A policy that lets experiment files be created, for these names. *)
Definition grants_files (names : list string) (p : PolicySpec) : Prop :=
  experimentFilesResource ∈ Resources p /\ experimentFilesCreateVerb ∈ Verbs p /\
  forall n, n ∈ names -> n ∈ names_of p.

Lemma ensure_policies_spec names ps :
  let '(changed, ps') := ensure_policies names ps in
  ensure_policies names ps' = (false, ps') /\ (changed = false -> ps' = ps) /\
  (exists p, p ∈ ps' /\ grants_files (default [] names) p) /\
  (forallb (fun p => forallb good_pattern (Resources p)) ps = true ->
   forallb (fun p => forallb good_pattern (Resources p)) ps' = true).
Proof.
  induction ps as [|p ps IH]; cbn [ensure_policies].
  - set (p0 := mkPolicySpec [experimentFilesResource] names [experimentFilesCreateVerb]).
    pose proof (ensure_policy_spec (default [] names) p0) as H. unfold ensure_policy in H |- *.
    change (slices_contains (Resources p0) experimentFilesResource) with true.
    change (slices_contains (Verbs p0) experimentFilesCreateVerb) with true in *.
    assert (Hids : forall l rn, (forall n, n ∈ l -> n ∈ default [] rn) -> append_missing l rn = (false, rn)).
    { clear. induction l as [|x l IH]; intros rn Hl; [done|]. cbn [append_missing].
      rewrite (proj2 (slices_contains_spec _ _)) by (apply Hl; left). apply IH. intros n Hn. apply Hl. by right. }
    cbn [ResourceNames p0] in *. rewrite (Hids (default [] names) names) in * by done.
    split_and!; try done. exists p0. split; [left|]. unfold grants_files. cbn.
    split_and!; [left|left|done].
  - destruct (slices_contains (Resources p) experimentFilesResource) eqn:Er.
    + pose proof (ensure_policy_spec (default [] names) p) as H.
      destruct (ensure_policy (default [] names) p) as [c p'] eqn:Ep. cbn [ensure_policies].
      destruct H as (Hidem & Hsame & Hres & Hverb & Hn). rewrite Hres, Er, Hidem. split_and!.
      * done.
      * intros ->. by rewrite Hsame.
      * exists p'. split; [left|]. unfold grants_files. rewrite Hres. split_and!; [|done|done].
        by apply slices_contains_spec.
      * cbn [forallb]. by rewrite Hres.
    + destruct (ensure_policies names ps) as [c ps'] eqn:Ep. cbn [ensure_policies]. rewrite Er.
      destruct IH as (Hidem & Hsame & (q & Hq & Hg) & Hgood). rewrite Hidem. split_and!.
      * done.
      * intros ->. by rewrite Hsame.
      * exists q. split; [by right|done].
      * cbn [forallb]. rewrite !andb_true_iff. intros [? ?]. auto.
Qed.

(** The migration for experiment files is idempotent: run again it changes
    nothing and says so. Afterwards a policy of the role lets files be created
    for every name given, and, when the role's patterns can be read, the role
    allows it. It says that nothing changed only when nothing did. *)
Theorem ensureExperimentFilesCreatePolicy_idempotent range names role :
  (forall m, range m ≡ₚ map_to_list m) ->
  let '(changed, role') := ensureExperimentFilesCreatePolicy names role in
  ensureExperimentFilesCreatePolicy names role' = (false, role') /\
  (changed = false -> role' = role) /\
  (exists p, p ∈ Policies role' /\ grants_files (default [] names) p) /\
  (good_role role = true ->
   Allowed range role' experimentFilesResource experimentFilesCreateVerb [] = true).
Proof.
  intros Hperm. unfold ensureExperimentFilesCreatePolicy.
  pose proof (ensure_policies_spec names (Policies role)) as H.
  destruct (ensure_policies names (Policies role)) as [c ps']. destruct H as (Hidem & Hsame & Hg & Hgood).
  cbn [Policies Name]. rewrite Hidem. split_and!; [done| |done|].
  - intros Hc. rewrite Hsame by done. by destruct role.
  - intros Hr. apply (Allowed_char range Hperm). split; [by apply Hgood|].
    destruct Hg as (p & Hp & Hres & Hverb & _). exists p. split; [done|]. split.
    + exists experimentFilesResource. split; [done|]. vm_compute. reflexivity.
    + split; [|by left]. unfold verbAllowed. apply existsb_exists. exists experimentFilesCreateVerb.
      split; [by apply list_elem_of_In|]. vm_compute. reflexivity.
Qed.

Lemma ensureExperimentFilesCreatePolicy_witness :
  let '(changed, role') := ensureExperimentFilesCreatePolicy (Some ["exp1"]) (mkRoleSpec "Experiment User" []) in
  changed = true /\ ensureExperimentFilesCreatePolicy (Some ["exp1"]) role' = (false, role').
Proof.
  pose proof (ensureExperimentFilesCreatePolicy_idempotent map_to_list (Some ["exp1"])
    (mkRoleSpec "Experiment User" []) (fun m => Permutation_refl _)) as H.
  destruct (ensureExperimentFilesCreatePolicy (Some ["exp1"]) (mkRoleSpec "Experiment User" [])) as [c r] eqn:E.
  destruct H as [H _]. split; [|exact H]. vm_compute in E. by injection E as <- _.
Defined.
