(* ===== verification/RbacStore.v ===== *)
(** * web/rbac: users, tokens and the start-up migrations over the config store

    [user.go], the storing half of [role.go] and of [migrations.go]. The config
    store (api/config, store) and the third-party code these files call
    (bcrypt, mapstructure, structs) are classes; [MemStore] is an instance. *)

From Stdlib Require Import ZArith Lia Ascii String Strings.Byte.
From stdpp Require Import base option list gmap strings sorting.
From S2P Require Import Prelude Base64 Glob Rbac.

Open Scope Z_scope.
Open Scope go_scope.

(** ** Stored configs *)

(** What a decoded YAML or JSON value is ([any]). *)
Inductive value : Type :=
  | VNull
  | VString (s : string)
  | VList (l : list value)
  | VMap (m : list (string * value)).

Record Config : Type := mkConfig {
  Kind : string;
  MetaName : string;
  Spec : option (gmap string value)
}.

(** [config.Spec[key]]: nil for a nil map and for no entry. *)
Definition spec_get (c : Config) (key : string) : value :=
  default VNull (default ∅ (Spec c) !! key).

Record UserSpec : Type := mkUserSpec {
  uUsername : string;
  Password : string;
  uFirstName : string;
  uLastName : string;
  uRole : option RoleSpec;
  Tokens : option (gmap string string)
}.

Inductive rerror : Type :=
  | StoreError (what : string)
  | ErrExist
  | DecodeError (what : string)
  | ErrUserExists
  | ErrPasswordInvalid
  | BcryptError (what : string)
  | TokenNotFound
  | RoleNotFound
  | Wrap (context : text) (e : rerror).

(** [errors.Is(err, store.ErrExist)]. *)
Fixpoint is_exist (e : rerror) : bool :=
  match e with
  | ErrExist => true
  | Wrap _ e => is_exist e
  | _ => false
  end.

(** ** The interfaces *)

Class ConfigStore (S : Type) : Type := {
  cs_list : string -> S -> res rerror (list Config);
  cs_get : string -> string -> S -> res rerror Config;
  cs_update : Config -> st S rerror unit;
  cs_create : Config -> st S rerror unit;
  cs_create_default : string -> string -> st S rerror unit
}.

(** [mapstructure.Decode] and [structs.MapDefaultCase]. *)
Class Codec : Type := {
  decode_role : option (gmap string value) -> res string RoleSpec;
  decode_user : option (gmap string value) -> res string UserSpec;
  encode_role : RoleSpec -> gmap string value;
  encode_user : UserSpec -> gmap string value
}.

Inductive bcrypt_result : Type := Match_ | ErrMismatchedHashAndPassword | OtherError (what : string).

Class Bcrypt : Type := {
  GenerateFromPassword : string -> res string string;
  CompareHashAndPassword : string -> string -> bcrypt_result
}.

(** What the store and the codec promise to the code here. *)
Class ConfigStoreLaws (S : Type) `{ConfigStore S} `{Codec} : Prop := {
  cs_get_update s c s' :
    cs_update c s = (Ok tt, s') -> cs_get (Kind c) (MetaName c) s' = Ok c;
  cs_get_name s k n c : cs_get k n s = Ok c -> Kind c = k /\ MetaName c = n;
  decode_encode_user u : decode_user (Some (encode_user u)) = Ok u
}.

Record Role : Type := mkRole { rSpec : RoleSpec; rconfig : option Config }.
Record User : Type := mkUser { uSpec : UserSpec; uconfig : Config }.

Section Store.
Context {S : Type} `{CS : ConfigStore S} `{CO : Codec} `{BC : Bcrypt}.
Context (range : gmap string (list PolicySpec) -> list (string * list PolicySpec)).

Definition decoded {A} (ctx : string) (r : res string A) : res rerror A :=
  res_map_err (fun e => Wrap (lit ctx) (DecodeError e)) r.

(** ** Roles *)

Fixpoint decode_roles (configs : list Config) : res rerror (list Role) :=
  match configs with
  | [] => Ok []
  | c :: cs =>
      let? u := decoded "decoding roles config" (decode_role (Spec c)) in
      let? rs := decode_roles cs in Ok (mkRole u (Some c) :: rs)
  end.

Definition GetRoles (s : S) : res rerror (list Role) :=
  let? configs := res_map_err (Wrap (lit "getting role configs")) (cs_list "role" s) in
  decode_roles configs.

Definition is_string (v : value) (name : string) : bool :=
  match v with
  | VString s => String.eqb s name
  | _ => false
  end.

(** The first role whose metadata name or role name is [name]. *)
Definition RoleFromConfig (name : string) (s : S) : res rerror Role :=
  let? roles := res_map_err (Wrap (lit "getting role from store")) (cs_list "role" s) in
  match List.find (fun c => String.eqb (MetaName c) name || is_string (spec_get c "roleName") name) roles with
  | Some c => let? role := decoded "decoding role" (decode_role (Spec c)) in Ok (mkRole role (Some c))
  | None => Err RoleNotFound
  end.

(** [Save]: a role without a config cannot be saved (the code dereferences a
    nil pointer). *)
Definition Role_Save (r : Role) : st S rerror Role := fun s =>
  match rconfig r with
  | None => (Err (StoreError "nil pointer"), s)
  | Some c =>
      let c' := mkConfig (Kind c) (MetaName c) (Some (encode_role (rSpec r))) in
      (let! _ := st_wrap (Wrap (lit "updating role in store")) (cs_update c') in
       st_ret (mkRole (rSpec r) (Some c'))) s
  end.

(** ** Users *)

Definition NewUser (u p firstName lastName : string) : st S rerror User :=
  let! hashed := st_lift (res_map_err (fun e => Wrap (lit "hashing password") (BcryptError e))
                            (GenerateFromPassword p)) in
  let spec := mkUserSpec u hashed firstName lastName None None in
  let c := mkConfig "User" u (Some (encode_user spec)) in
  fun s =>
    match cs_create c s with
    | (Err e, s') =>
        (Err (Wrap (Sprintf "creating user %s" [AStr u]) (if is_exist e then ErrUserExists else e)), s')
    | (Ok _, s') => (Ok (mkUser spec c), s')
    end.

Fixpoint decode_users (configs : list Config) : res rerror (list User) :=
  match configs with
  | [] => Ok []
  | c :: cs =>
      let? u := decoded "decoding user config" (decode_user (Spec c)) in
      let? us := decode_users cs in Ok (mkUser u c :: us)
  end.

Definition GetUsers (s : S) : res rerror (list User) :=
  let? configs := res_map_err (Wrap (lit "getting user configs")) (cs_list "user" s) in
  decode_users configs.

Definition GetUser (uname : string) (s : S) : res rerror User :=
  let? c := res_map_err (Wrap (lit "getting user config")) (cs_get "User" uname s) in
  let? u := decoded "decoding user config" (decode_user (Spec c)) in
  Ok (mkUser u c).

Definition Username (u : User) : string := uUsername (uSpec u).
Definition FirstName (u : User) : string := uFirstName (uSpec u).
Definition LastName (u : User) : string := uLastName (uSpec u).

Definition User_Role (u : User) (s : S) : res rerror Role :=
  match uRole (uSpec u) with
  | None => res_map_err (Wrap (lit "getting disabled role")) (RoleFromConfig "disabled" s)
  | Some r => Ok (mkRole r None)
  end.

Definition RoleName (u : User) (s : S) : string :=
  match uRole (uSpec u) with
  | None => match RoleFromConfig "disabled" s with Ok r => Name (rSpec r) | Err _ => "" end
  | Some r => Name r
  end.

Definition User_Save (u : User) : st S rerror unit :=
  st_wrap (Wrap (lit "updating user in store")) (cs_update (uconfig u)).

(** [update]: the change is made to the record that is stored, not to the
    caller's copy of it; the copy becomes what was stored. The whole of it runs
    under the lock of the user's name, so it is one step. *)
Definition update (u : User) (change : UserSpec -> UserSpec) : st S rerror User :=
  let name := MetaName (uconfig u) in
  let! current := (fun s => (GetUser name s, s)) in
  let spec := change (uSpec current) in
  let c := uconfig current in
  let current' := mkUser spec (mkConfig (Kind c) (MetaName c) (Some (encode_user spec))) in
  let! _ := User_Save current' in
  st_ret current'.

Definition set_first_name (name : string) (x : UserSpec) : UserSpec :=
  mkUserSpec (uUsername x) (Password x) name (uLastName x) (uRole x) (Tokens x).
Definition set_last_name (name : string) (x : UserSpec) : UserSpec :=
  mkUserSpec (uUsername x) (Password x) (uFirstName x) name (uRole x) (Tokens x).
Definition set_password (hashed : string) (x : UserSpec) : UserSpec :=
  mkUserSpec (uUsername x) hashed (uFirstName x) (uLastName x) (uRole x) (Tokens x).
Definition set_role (r : option RoleSpec) (x : UserSpec) : UserSpec :=
  mkUserSpec (uUsername x) (Password x) (uFirstName x) (uLastName x) r (Tokens x).
Definition set_tokens (t : option (gmap string string)) (x : UserSpec) : UserSpec :=
  mkUserSpec (uUsername x) (Password x) (uFirstName x) (uLastName x) (uRole x) t.

Definition UpdateFirstName (u : User) (name : string) : st S rerror User :=
  st_wrap (Wrap (lit "updating user first name")) (update u (set_first_name name)).

Definition UpdateLastName (u : User) (name : string) : st S rerror User :=
  st_wrap (Wrap (lit "updating user last name")) (update u (set_last_name name)).

Definition ValidatePassword (u : User) (p : string) : res rerror unit :=
  match CompareHashAndPassword (Password (uSpec u)) p with
  | Match_ => Ok tt
  | ErrMismatchedHashAndPassword => Err ErrPasswordInvalid
  | OtherError e => Err (BcryptError e)
  end.

Definition UpdatePassword (u : User) (old newPass : string) : st S rerror User :=
  let! _ := st_lift (ValidatePassword u old) in
  let! hashed := st_lift (res_map_err (fun e => Wrap (lit "generating password hash") (BcryptError e))
                            (GenerateFromPassword newPass)) in
  st_wrap (Wrap (lit "updating user password")) (update u (set_password hashed)).

Definition SetRole (u : User) (role : Role) : st S rerror User :=
  st_wrap (Wrap (lit "setting user role")) (update u (set_role (Some (rSpec role)))).

(** *** Tokens *)

Definition tokenProxied : string := "proxied".

(** The change of [AddToken]: one proxy token at most is kept. *)
Definition add_token (enc note : string) (x : UserSpec) : UserSpec :=
  let tokens := default ∅ (Tokens x) in
  let tokens :=
    if String.eqb note tokenProxied then filter (fun '(_, v) => v <> tokenProxied) tokens else tokens in
  set_tokens (Some (<[enc := note]> tokens)) x.

(** [delete] on a nil map does nothing. *)
Definition delete_token (enc : string) (x : UserSpec) : UserSpec :=
  set_tokens (base.delete enc <$> Tokens x) x.

Definition AddToken (u : User) (token note : string) : st S rerror User :=
  st_wrap (Wrap (lit "persisting new user token")) (update u (add_token (EncodeToString token) note)).

Definition DeleteToken (u : User) (token : string) : st S rerror User :=
  st_wrap (Wrap (lit "deleting user token")) (update u (delete_token (EncodeToString token))).

Definition ValidateToken (u : User) (token : string) : res rerror unit :=
  match default ∅ (Tokens (uSpec u)) !! EncodeToString token with
  | Some _ => Ok tt
  | None => Err TokenNotFound
  end.

(** The first proxy token in the order Go iterates. *)
Definition GetProxyToken (trange : gmap string string -> list (string * string)) (u : User) : string :=
  match List.find (fun '(_, note) => String.eqb note tokenProxied) (trange (default ∅ (Tokens (uSpec u)))) with
  | Some (token, _) => token
  | None => ""
  end.

(** ** Start-up migrations *)

Fixpoint files_roles (roles : list Role) : st S rerror unit :=
  match roles with
  | [] => st_ret tt
  | role :: rs =>
      let! _ :=
        (if experimentFilesRole (Name (rSpec role)) then
           let '(changed, spec) := ensureExperimentFilesCreatePolicy None (rSpec role) in
           if changed then
             let! _ := st_wrap (Wrap (Sprintf "saving role %s" [AStr (Name spec)]))
                         (Role_Save (mkRole spec (rconfig role))) in st_ret tt
           else st_ret tt
         else st_ret tt) in
      files_roles rs
  end.

Fixpoint files_users (users : list User) : st S rerror unit :=
  match users with
  | [] => st_ret tt
  | user :: us =>
      let! _ :=
        match uRole (uSpec user) with
        | Some role =>
            if experimentFilesRole (Name role) then
              let '(changed, role') :=
                ensureExperimentFilesCreatePolicy (experimentResourceNames role) role in
              if changed then
                let spec := set_role (Some role') (uSpec user) in
                let c := uconfig user in
                st_wrap (Wrap (Sprintf "saving user %s" [AStr (uUsername spec)]))
                  (User_Save (mkUser spec (mkConfig (Kind c) (MetaName c) (Some (encode_user spec)))))
              else st_ret tt
            else st_ret tt
        | None => st_ret tt
        end in
      files_users us
  end.

Definition EnsureExperimentFilesCreatePermission : st S rerror unit :=
  let! roles := st_wrap (Wrap (lit "getting roles")) (fun s => (GetRoles s, s)) in
  let! _ := files_roles roles in
  let! users := st_wrap (Wrap (lit "getting users")) (fun s => (GetUsers s, s)) in
  files_users users.

Definition any_strings (l : list string) : value := VList (map VString l).

(** [ensureBuilderUse]: the policy is added to the stored spec as it is, when
    that has the shape the store decodes. *)
Definition ensureBuilderUse (r : Role) : st S rerror Role := fun s =>
  if builderAllowsUse range (rSpec r) then (Ok r, s)
  else
    let spec := mkRoleSpec (Name (rSpec r)) (Policies (rSpec r) ++ [builderUsePolicy]) in
    match rconfig r with
    | None => (Err (StoreError "nil pointer"), s)
    | Some c =>
        let raw := VMap [("resources", any_strings [builderResource]); ("verbs", any_strings [builderUseVerb])] in
        match Spec c, spec_get c "policies" with
        | Some m, VList ps =>
            let c' := mkConfig (Kind c) (MetaName c) (Some (<["policies" := VList (ps ++ [raw])]> m)) in
            (let! _ := st_wrap (Wrap (Sprintf "saving role %s" [AStr (Name spec)])) (cs_update c') in
             st_ret (mkRole spec (Some c'))) s
        | Some m, VNull =>
            let c' := mkConfig (Kind c) (MetaName c) (Some (<["policies" := VList [raw]]> m)) in
            (let! _ := st_wrap (Wrap (Sprintf "saving role %s" [AStr (Name spec)])) (cs_update c') in
             st_ret (mkRole spec (Some c'))) s
        | _, _ => Role_Save (mkRole spec (Some c)) s
        end
    end.

(** The loop over the roles: whether the Builder role was found, and the role
    names whose users hold a copy of it. *)
Fixpoint builder_roles (roles : list Role) (found : bool) (names : list string)
  : st S rerror (bool * list string) :=
  match roles with
  | [] => st_ret (found, names)
  | role :: rs =>
      let meta := match rconfig role with Some c => MetaName c | None => "" end in
      if negb (String.eqb meta builderRoleConfig) && negb (String.eqb (Name (rSpec role)) builderRoleName)
      then builder_roles rs found names
      else
        let! _ := ensureBuilderUse role in
        builder_roles rs true (names ++ [Name (rSpec role)])
  end.

(** The change made to a user's stored role. *)
Definition grant_builder (spec : UserSpec) : UserSpec :=
  match uRole spec with
  | Some r =>
      if builderAllowsUse range r then spec
      else set_role (Some (mkRoleSpec (Name r) (Policies r ++ [builderUsePolicy]))) spec
  | None => spec
  end.

Fixpoint builder_users (users : list User) (names : list string) : st S rerror unit :=
  match users with
  | [] => st_ret tt
  | user :: us =>
      let! _ :=
        match uRole (uSpec user) with
        | Some r =>
            if negb (slices_contains names (Name r)) || builderAllowsUse range r then st_ret tt
            else
              let! _ := st_wrap (Wrap (Sprintf "saving user %s" [AStr (Username user)]))
                          (update user grant_builder) in st_ret tt
        | None => st_ret tt
        end in
      builder_users us names
  end.

Definition EnsureBuilderRolePermissions : st S rerror unit :=
  let! roles := st_wrap (Wrap (lit "getting roles")) (fun s => (GetRoles s, s)) in
  let! (found, names) := builder_roles roles false [builderRoleName] in
  let! _ :=
    (if found then st_ret tt
     else st_wrap (Wrap (Sprintf "creating the %s role" [AStr builderRoleName]))
            (cs_create_default "Role" builderRoleConfig)) in
  let! users := st_wrap (Wrap (lit "getting users")) (fun s => (GetUsers s, s)) in
  builder_users users names.
End Store.

(** ** Users *)

Section UserFacts.
Context {S : Type} `{CL : ConfigStoreLaws S} `{BC : Bcrypt}.
Context (range : gmap string (list PolicySpec) -> list (string * list PolicySpec)).
Context (range_perm : forall m, range m ≡ₚ map_to_list m).

(** A change that succeeds was made to the stored record and stored. *)
Lemma user_update_ok u f s u' s' :
  update u f s = (Ok u', s') ->
  exists cur, GetUser (MetaName (uconfig u)) s = Ok cur /\ uSpec u' = f (uSpec cur) /\
    MetaName (uconfig u') = MetaName (uconfig u) /\ GetUser (MetaName (uconfig u)) s' = Ok u'.
Proof.
  unfold update, st_bind, User_Save, st_wrap. cbv zeta.
  destruct (GetUser (MetaName (uconfig u)) s) as [cur|] eqn:Eg; [|done].
  set (c := mkConfig _ _ _). cbn [uconfig]. destruct (cs_update c s) as [[[]|] s1] eqn:Eu; [|done].
  cbn. intros [= <- <-]. exists cur. split; [done|]. split; [done|].
  unfold GetUser in Eg. destruct (cs_get "User" (MetaName (uconfig u)) s) as [c0|] eqn:Ec; [|done].
  cbn in Eg. destruct (decoded _ _) as [spec|]; [|done]. cbn in Eg. injection Eg as <-. cbn in *.
  destruct (cs_get_name _ _ _ _ Ec) as [Hk Hm]. split; [done|].
  pose proof (cs_get_update _ _ _ Eu) as Hg. cbn in Hg. rewrite Hk, Hm in Hg.
  unfold GetUser. rewrite Hg. cbn. by rewrite decode_encode_user.
Qed.

(** C19: parallel requests keep each other's changes. When two requests hold
    copies of one user, however old, and each makes a change to it, the stored
    user has both changes, made one after the other to the record as it was
    stored, and each copy becomes the record it stored. *)
Theorem updates_compose u v f g s u' s1 v' s2 :
  MetaName (uconfig v) = MetaName (uconfig u) ->
  update u f s = (Ok u', s1) -> update v g s1 = (Ok v', s2) ->
  exists cur, GetUser (MetaName (uconfig u)) s = Ok cur /\
    GetUser (MetaName (uconfig u)) s2 = Ok v' /\ uSpec v' = g (f (uSpec cur)).
Proof.
  intros Hname Hu Hv. destruct (user_update_ok u f s u' s1 Hu) as (cur & Hg & Hs & _ & Hg1).
  destruct (user_update_ok v g s1 v' s2 Hv) as (cur1 & Hg1' & Hs1 & _ & Hg2). rewrite Hname in *.
  assert (cur1 = u') as -> by congruence. exists cur. by rewrite <- Hs, <- Hs1.
Qed.

Definition note_of (u : User) (token : string) : option string :=
  default ∅ (Tokens (uSpec u)) !! EncodeToString token.

Lemma validate_note u t : ValidateToken u t = Ok tt <-> is_Some (note_of u t).
Proof.
  unfold ValidateToken, note_of. destruct (_ !! _); (split; [try done; by eexists|try done; by intros [? ?]]).
Qed.

(** After a token was added, the tokens that are valid are it and the ones
    that were valid before, save that a proxy token replaces every other proxy
    token: the user's proxy token is then the new one, in whatever order Go
    looks for it. No token is valid in place of another. *)
Theorem AddToken_spec (trange : gmap string string -> list (string * string)) u token note s u' s' :
  (forall m, trange m ≡ₚ map_to_list m) ->
  AddToken u token note s = (Ok u', s') ->
  exists cur, GetUser (MetaName (uconfig u)) s = Ok cur /\
    (forall t, ValidateToken u' t = Ok tt <->
       t = token \/ (ValidateToken cur t = Ok tt /\
                     (note = tokenProxied -> note_of cur t <> Some tokenProxied))) /\
    (note = tokenProxied -> GetProxyToken trange u' = EncodeToString token).
Proof.
  intros Hperm. unfold AddToken, st_wrap.
  destruct (update u (add_token (EncodeToString token) note) s) as [[u1|] s1] eqn:E; [|done].
  cbn. intros [= <- <-]. destruct (user_update_ok _ _ _ _ _ E) as (cur & Hg & Hs & _ & _).
  exists cur. split; [done|]. set (old := default ∅ (Tokens (uSpec cur))).
  set (kept := if String.eqb note tokenProxied then filter (fun '(_, v) => v <> tokenProxied) old else old).
  assert (Htok : Tokens (uSpec u1) = Some (<[EncodeToString token := note]> kept)) by by rewrite Hs.
  assert (Hnote : forall t, note_of u1 t = <[EncodeToString token := note]> kept !! EncodeToString t)
    by (intros t; unfold note_of; by rewrite Htok).
  split.
  - intros t. rewrite !validate_note, Hnote. unfold note_of. fold old.
    rewrite lookup_insert_is_Some. destruct (decide (t = token)) as [->|Hne]; [tauto|].
    assert (EncodeToString token <> EncodeToString t) by by intros ?%EncodeToString_inj.
    assert (Hk : is_Some (kept !! EncodeToString t) <->
              is_Some (old !! EncodeToString t) /\ (note = tokenProxied -> old !! EncodeToString t <> Some tokenProxied)).
    { unfold kept. destruct (String.eqb_spec note tokenProxied) as [Hn|Hn]; [|tauto].
      unfold is_Some. setoid_rewrite map_lookup_filter_Some. split.
      - intros (x & Hx & Hnp). split; [by exists x|]. intros _. rewrite Hx. congruence.
      - intros [[x Hx] Hnp]. exists x. split; [done|]. specialize (Hnp Hn). rewrite Hx in Hnp. congruence. }
    rewrite Hk. tauto.
  - intros Hn. unfold GetProxyToken. rewrite Htok. cbn [from_option id].
    set (m := <[EncodeToString token:=note]> kept).
    assert (Hall : forall k v, (k, v) ∈ trange m -> String.eqb v tokenProxied = true -> k = EncodeToString token).
    { intros k v Hin Hv%String.eqb_eq. rewrite Hperm in Hin. apply elem_of_map_to_list in Hin.
      unfold m in Hin. apply lookup_insert_Some in Hin as [[? _]|[_ Hin]]; [done|].
      unfold kept in Hin. rewrite Hn, String.eqb_refl in Hin.
      apply map_lookup_filter_Some in Hin as [_ Hin]. done. }
    destruct (List.find _ (trange m)) as [[k v]|] eqn:Ef.
    + apply List.find_some in Ef as [Hin Hv]. apply (Hall k v); [by apply list_elem_of_In|done].
    + exfalso. pose proof (List.find_none _ _ Ef (EncodeToString token, note)) as Hnone.
      cbn in Hnone. rewrite Hn, String.eqb_refl in Hnone.
      assert (true = false); [apply Hnone|done]. apply list_elem_of_In. rewrite Hperm. apply elem_of_map_to_list. unfold m. rewrite Hn. apply lookup_insert_eq.
Qed.

(** After a token was deleted, the tokens that are valid are the ones that
    were valid before without it. *)
Theorem DeleteToken_spec u token s u' s' :
  DeleteToken u token s = (Ok u', s') ->
  exists cur, GetUser (MetaName (uconfig u)) s = Ok cur /\
    forall t, ValidateToken u' t = Ok tt <-> t <> token /\ ValidateToken cur t = Ok tt.
Proof.
  unfold DeleteToken, st_wrap.
  destruct (update u (delete_token (EncodeToString token)) s) as [[u1|] s1] eqn:E; [|done].
  cbn. intros [= <- <-]. destruct (user_update_ok _ _ _ _ _ E) as (cur & Hg & Hs & _ & _).
  exists cur. split; [done|]. intros t. rewrite !validate_note. unfold note_of. rewrite Hs. cbn.
  destruct (Tokens (uSpec cur)) as [m|]; cbn; rewrite ?lookup_empty; [|split; [by intros [? ?]|by intros [_ [? ?]]]].
  rewrite lookup_delete_is_Some. split; intros [Hne ?]; split; auto.
  - by intros ->.
  - intros ?%EncodeToString_inj. auto.
Qed.

(** ** The Builder role *)

Lemma builderAllowsUse_append name ps :
  builderAllowsUse range (mkRoleSpec name (ps ++ [builderUsePolicy])) = good_role (mkRoleSpec name ps).
Proof.
  assert (Hg : good_role (mkRoleSpec name (ps ++ [builderUsePolicy])) = good_role (mkRoleSpec name ps)).
  { unfold good_role. cbn [Policies]. rewrite forallb_app. cbn [forallb]. by rewrite andb_true_r. }
  destruct (good_role (mkRoleSpec name ps)) eqn:E.
  - apply (Allowed_char range range_perm). split; [done|]. exists builderUsePolicy.
    split; [apply elem_of_app; right; left|]. split; [|split; [done|by left]].
    exists builderResource. split; [left|]. vm_compute. reflexivity.
  - destruct (builderAllowsUse range _) eqn:Ea; [|done].
    apply (Allowed_char range range_perm) in Ea as [Hgood _]. congruence.
Qed.

Lemma ensureBuilderUse_spec_of r s r' s' :
  ensureBuilderUse range r s = (Ok r', s') ->
  if builderAllowsUse range (rSpec r) then r' = r /\ s' = s
  else rSpec r' = mkRoleSpec (Name (rSpec r)) (Policies (rSpec r) ++ [builderUsePolicy]).
Proof.
  unfold ensureBuilderUse. destruct (builderAllowsUse range (rSpec r)); [by intros [= <- <-]|].
  destruct (rconfig r) as [c|]; [|done].
  assert (Hup : forall ctx (c' : Config) spec, (let! _ := st_wrap (Wrap ctx) (cs_update c') in
      st_ret (mkRole spec (Some c'))) s = (Ok r', s') -> rSpec r' = spec).
  { intros ctx c' spec. unfold st_bind, st_wrap. destruct (cs_update c' s) as [[[]|] s1]; [|done].
    by intros [= <- <-]. }
  unfold Role_Save. cbn [rSpec rconfig].
  destruct (Spec c); [destruct (spec_get c "policies")|]; intros Hr; by eapply Hup in Hr.
Qed.

(** At start-up a role that cannot use the Builder gets a policy for it. If
    its patterns can be read, it can then use the Builder and the next start
    leaves it alone, without a write. If one of them cannot be read, the role
    still cannot use the Builder, and each start appends one more policy. *)
Theorem ensureBuilderUse_grants r s r' s' :
  ensureBuilderUse range r s = (Ok r', s') ->
  (good_role (rSpec r) = true ->
     builderAllowsUse range (rSpec r') = true /\
     forall s1, ensureBuilderUse range r' s1 = (Ok r', s1)) /\
  (good_role (rSpec r) = false ->
     builderAllowsUse range (rSpec r') = false /\ good_role (rSpec r') = false /\
     Policies (rSpec r') = Policies (rSpec r) ++ [builderUsePolicy]).
Proof.
  intros Hr%ensureBuilderUse_spec_of.
  assert (Hname : mkRoleSpec (Name (rSpec r)) (Policies (rSpec r)) = rSpec r) by by destruct (rSpec r).
  pose proof (builderAllowsUse_append (Name (rSpec r)) (Policies (rSpec r))) as Happ. rewrite Hname in Happ.
  destruct (builderAllowsUse range (rSpec r)) eqn:E.
  - destruct Hr as [-> _]. split.
    + intros _. split; [done|]. intros s1. unfold ensureBuilderUse. by rewrite E.
    + intros Hbad. apply (Allowed_char range range_perm) in E as [Hgood _]. congruence.
  - rewrite <- Hr in Happ. split.
    + intros Hgood. rewrite Hgood in Happ. split; [done|]. intros s1. unfold ensureBuilderUse. by rewrite Happ.
    + intros Hbad. rewrite Hbad in Happ. split_and!; [done| |by rewrite Hr].
      rewrite Hr. unfold good_role in *. cbn [Policies]. rewrite forallb_app, Hbad. done.
Qed.
End UserFacts.

(** ** An instance in memory *)

Module MemStore.

Definition enc_list (l : list string) : value := VList (map VString l).
Definition enc_opt (o : option (list string)) : value := match o with Some l => enc_list l | None => VNull end.
Definition enc_policy (p : PolicySpec) : value :=
  VMap [("resources", enc_list (Resources p)); ("resourceNames", enc_opt (ResourceNames p));
        ("verbs", enc_list (Verbs p))].
Definition enc_role (r : RoleSpec) : value :=
  VMap [("roleName", VString (Name r)); ("policies", VList (map enc_policy (Policies r)))].

Definition dec_string (v : value) : string := match v with VString s => s | _ => "" end.
Definition dec_list (v : value) : list string := match v with VList l => map dec_string l | _ => [] end.
Definition dec_opt (v : value) : option (list string) := match v with VList l => Some (map dec_string l) | _ => None end.

Definition field (v : value) (k : string) : value :=
  match v with
  | VMap m => match List.find (fun '(k', _) => String.eqb k' k) m with Some (_, x) => x | None => VNull end
  | _ => VNull
  end.

Definition dec_policy (v : value) : PolicySpec :=
  mkPolicySpec (dec_list (field v "resources")) (dec_opt (field v "resourceNames")) (dec_list (field v "verbs")).

Definition dec_role (v : value) : RoleSpec :=
  mkRoleSpec (dec_string (field v "roleName"))
    match field v "policies" with VList l => map dec_policy l | _ => [] end.

Definition enc_tokens (t : option (gmap string string)) : value :=
  match t with Some m => VMap (map (fun '(k, v) => (k, VString v)) (map_to_list m)) | None => VNull end.
Definition dec_tokens (v : value) : option (gmap string string) :=
  match v with VMap m => Some (list_to_map (map (fun '(k, x) => (k, dec_string x)) m)) | _ => None end.

Definition fields (m : gmap string value) (k : string) : value := default VNull (m !! k).

Definition enc_user (u : UserSpec) : gmap string value :=
  list_to_map
    [("username", VString (uUsername u)); ("password", VString (Password u));
     ("first_name", VString (uFirstName u)); ("last_name", VString (uLastName u));
     ("rbac", match uRole u with Some r => enc_role r | None => VNull end);
     ("tokens", enc_tokens (Tokens u))].

Definition dec_user (m : gmap string value) : UserSpec :=
  mkUserSpec (dec_string (fields m "username")) (dec_string (fields m "password"))
    (dec_string (fields m "first_name")) (dec_string (fields m "last_name"))
    match fields m "rbac" with VNull => None | v => Some (dec_role v) end (dec_tokens (fields m "tokens")).

#[global] Instance codec : Codec := {
  decode_role m := Ok (dec_role (VMap (map_to_list (default ∅ m))));
  decode_user m := Ok (dec_user (default ∅ m));
  encode_role r := list_to_map [("roleName", VString (Name r)); ("policies", VList (map enc_policy (Policies r)))];
  encode_user := enc_user
}.

Abbreviation store := (gmap (string * string) Config).

#[global] Instance config_store : ConfigStore store := {
  cs_list kind s := Ok (map snd (map_to_list (filter (fun '((k, _), _) => k = kind) s)));
  cs_get kind name s :=
    match s !! (kind, name) with
    | Some c => if bool_decide (Kind c = kind /\ MetaName c = name) then Ok c else Err (StoreError "corrupt")
    | None => Err (StoreError "config does not exist")
    end;
  cs_update c s :=
    match s !! (Kind c, MetaName c) with
    | Some _ => (Ok tt, <[(Kind c, MetaName c) := c]> s)
    | None => (Err (StoreError "config does not exist"), s)
    end;
  cs_create c s :=
    match s !! (Kind c, MetaName c) with
    | Some _ => (Err ErrExist, s)
    | None => (Ok tt, <[(Kind c, MetaName c) := c]> s)
    end;
  cs_create_default kind name s := (Err (StoreError "no defaults"), s)
}.

#[global] Instance bcrypt : Bcrypt := {
  GenerateFromPassword p := Ok ("$" +:+ p);
  CompareHashAndPassword h p := if String.eqb h ("$" +:+ p) then Match_ else ErrMismatchedHashAndPassword
}.

Lemma dec_enc_list l : dec_list (enc_list l) = l.
Proof. cbn. rewrite map_map. apply map_id. Qed.

Lemma dec_enc_role r : dec_role (enc_role r) = r.
Proof.
  destruct r as [n ps]. unfold dec_role. cbn. f_equal. rewrite map_map.
  rewrite <- (map_id ps) at 2. apply map_ext. intros [r o v]. unfold dec_policy, enc_policy. cbn.
  rewrite !map_map, !map_id. by destruct o as [l|]; cbn; rewrite ?map_map, ?map_id.
Qed.

Lemma dec_enc_tokens t : dec_tokens (enc_tokens t) = t.
Proof.
  destruct t as [m|]; [|done]. cbn. f_equal. rewrite map_map.
  rewrite <- (list_to_map_to_list m) at 2. f_equal. rewrite <- (map_id (map_to_list m)) at 2.
  apply map_ext. by intros [k v].
Qed.

#[global] Instance config_store_laws : ConfigStoreLaws store.
Proof.
  split.
  - intros s c s'. cbn. destruct (s !! (Kind c, MetaName c)); [|done]. intros [= <-].
    by rewrite lookup_insert_eq, bool_decide_true.
  - intros s k n c. cbn. destruct (s !! (k, n)); [|done]. case_bool_decide; [|done]. by intros [= <-].
  - intros u. change (Ok (E:=string) (dec_user (enc_user u)) = Ok u). f_equal.
    assert (fields (enc_user u) "username" = VString (uUsername u)) as H1 by reflexivity.
    assert (fields (enc_user u) "password" = VString (Password u)) as H2 by reflexivity.
    assert (fields (enc_user u) "first_name" = VString (uFirstName u)) as H3 by reflexivity.
    assert (fields (enc_user u) "last_name" = VString (uLastName u)) as H4 by reflexivity.
    assert (fields (enc_user u) "rbac" = match uRole u with Some r => enc_role r | None => VNull end) as H5
      by reflexivity.
    assert (fields (enc_user u) "tokens" = enc_tokens (Tokens u)) as H6 by reflexivity.
    unfold dec_user. rewrite H1, H2, H3, H4, H5, H6, dec_enc_tokens.
    destruct u as [n p f l [r|] t]; cbn [uUsername Password uFirstName uLastName uRole Tokens dec_string]; [|done].
    rewrite <- (dec_enc_role r) at 2. done.
Qed.
End MemStore.

(** ** At a concrete store *)

Module SampleUsers.
Import MemStore.

Definition ann_spec : UserSpec := mkUserSpec "ann" "$pw" "Ann" "" None (Some {[ "b2xk" := "proxied" ]}).
Definition ann : User := mkUser ann_spec (mkConfig "User" "ann" (Some (enc_user ann_spec))).
Definition s0 : store := {[ ("User", "ann") := uconfig ann ]}.

(** Two requests that both hold the user as it was at first. *)
Lemma updates_compose_witness :
  exists cur v' s2, GetUser "ann" s0 = Ok cur /\ GetUser "ann" s2 = Ok v' /\
    uSpec v' = set_last_name "Lee" (set_first_name "Anne" (uSpec cur)).
Proof.
  destruct (update ann (set_first_name "Anne") s0) as [[u'|] s1] eqn:Eu; [|vm_compute in Eu; discriminate].
  destruct (update ann (set_last_name "Lee") s1) as [[v'|] s2] eqn:Ev.
  - destruct (updates_compose ann ann _ _ s0 u' s1 v' s2 eq_refl Eu Ev) as (cur & H1 & H2 & H3).
    exists cur, v', s2. split; [exact H1|]. split; [exact H2|exact H3].
  - exfalso. assert (s1 = snd (update ann (set_first_name "Anne") s0)) as -> by (rewrite Eu; reflexivity).
    vm_compute in Ev. discriminate.
Defined.

Lemma AddToken_spec_witness :
  exists u' s', AddToken ann "new" "proxied" s0 = (Ok u', s') /\
    ValidateToken u' "new" = Ok tt /\ GetProxyToken map_to_list u' = "bmV3".
Proof.
  destruct (AddToken ann "new" "proxied" s0) as [[u'|] s'] eqn:E; [|vm_compute in E; discriminate].
  destruct (AddToken_spec map_to_list ann "new" "proxied" s0 u' s' (fun m => Permutation_refl _) E)
    as (cur & _ & H1 & H2).
  exists u', s'. split; [reflexivity|]. split; [apply H1; left; reflexivity|exact (H2 eq_refl)].
Defined.

Lemma DeleteToken_spec_witness :
  exists u' s', DeleteToken ann "old" s0 = (Ok u', s') /\ ValidateToken u' "old" <> Ok tt.
Proof.
  destruct (DeleteToken ann "old" s0) as [[u'|] s'] eqn:E; [|vm_compute in E; discriminate].
  destruct (DeleteToken_spec ann "old" s0 u' s' E) as (cur & _ & H).
  exists u', s'. split; [reflexivity|]. intros Hv. apply H in Hv as [Hne _]. by apply Hne.
Defined.

(** A stored role with a pattern that cannot be read. *)
Definition bad_role : RoleSpec := mkRoleSpec "Builder" [mkPolicySpec ["vms["] None ["get"]].
Definition bad : Role := mkRole bad_role (Some (mkConfig "Role" "builder" (Some (encode_role bad_role)))).
Definition s_bad : store := {[ ("Role", "builder") := mkConfig "Role" "builder" (Some (encode_role bad_role)) ]}.

Lemma ensureBuilderUse_grants_witness :
  exists r' s', ensureBuilderUse map_to_list bad s_bad = (Ok r', s') /\
    builderAllowsUse map_to_list (rSpec r') = false /\ length (Policies (rSpec r')) = 2%nat.
Proof.
  destruct (ensureBuilderUse map_to_list bad s_bad) as [[r'|] s'] eqn:E; [|vm_compute in E; discriminate].
  destruct (ensureBuilderUse_grants map_to_list (fun m => Permutation_refl _) bad s_bad r' s' E) as [_ H].
  destruct (H eq_refl) as (H1 & _ & H2). exists r', s'. split; [reflexivity|]. split; [exact H1|].
  rewrite H2. reflexivity.
Defined.
End SampleUsers.
