(* ===== verification/Hosts.v ===== *)
(** * util/mm/types.go: cluster hosts, pages of VMs and disk configs

    The host list with its sorts and counters, [Paginate], and the parsing of a
    disk config. [sort.Slice] may order equal elements as it likes: it is a
    class with its documented contract. [Load], [Tx], [Rx], [Bandwidth],
    [DiskUsage], [Uptime] of a host, which no code here reads, are left out, as
    are the sorts of VMs by lower-cased name. *)

From Stdlib Require Import ZArith Lia Ascii String Strings.Byte.
From stdpp Require Import base option list gmap strings sorting.
From S2P Require Import Prelude.

Open Scope Z_scope.
Open Scope go_scope.

Record Host : Type := mkHost {
  Name : string;
  CPUs : Z;
  CPUCommit : Z;
  MemUsed : Z;
  MemTotal : Z;
  MemCommit : Z;
  NetCommit : Z;
  VMs : Z;
  Schedulable : bool;
  Headnode : bool
}.

(** ** Sorting *)

(** [sort.Slice] on hosts. Its contract is for an order that compares keys. *)
Class GoSort : Type := { go_sort : (Host -> Host -> bool) -> list Host -> list Host }.

Definition by_key (key : Host -> Z) (less : Host -> Host -> bool) : Prop :=
  forall a b, less a b = (key a <? key b).

Class GoSortLaws `{GoSort} : Prop := {
  go_sort_perm less l : go_sort less l ≡ₚ l;
  go_sort_sorted key less l :
    by_key key less -> StronglySorted (fun a b => less b a = false) (go_sort less l)
}.

Section Sorts.
Context `{GoSort}.

Definition less_by (key : Host -> Z) (asc : bool) (a b : Host) : bool :=
  if asc then key a <? key b else key b <? key a.

Definition SortByUnallocatedCPU (asc : bool) : list Host -> list Host :=
  go_sort (less_by (fun h => sub64 (CPUs h) (CPUCommit h)) asc).
Definition SortByCommittedCPU (asc : bool) : list Host -> list Host := go_sort (less_by CPUCommit asc).
Definition SortByUnallocatedMem (asc : bool) : list Host -> list Host :=
  go_sort (less_by (fun h => sub64 (MemTotal h) (MemCommit h)) asc).
Definition SortByCommittedMem (asc : bool) : list Host -> list Host := go_sort (less_by MemCommit asc).
Definition SortByVMs (asc : bool) : list Host -> list Host := go_sort (less_by VMs asc).
End Sorts.

(** ** Finding and counting *)

Definition FindHostByName (name : string) (h : list Host) : option Host :=
  List.find (fun host => String.eqb (Name host) name) h.

(** The first host of the name is changed; [None] is [ErrHostNotFound]. *)
Fixpoint incr_host (f : Host -> Host) (name : string) (h : list Host) : option (list Host) :=
  match h with
  | [] => None
  | host :: h' =>
      if String.eqb (Name host) name then Some (f host :: h')
      else cons host <$> incr_host f name h'
  end.

Definition with_vms (v : Z) (h : Host) : Host :=
  mkHost (Name h) (CPUs h) (CPUCommit h) (MemUsed h) (MemTotal h) (MemCommit h) (NetCommit h) v
    (Schedulable h) (Headnode h).
Definition with_cpu (v : Z) (h : Host) : Host :=
  mkHost (Name h) (CPUs h) v (MemUsed h) (MemTotal h) (MemCommit h) (NetCommit h) (VMs h)
    (Schedulable h) (Headnode h).
Definition with_mem (v : Z) (h : Host) : Host :=
  mkHost (Name h) (CPUs h) (CPUCommit h) (MemUsed h) (MemTotal h) v (NetCommit h) (VMs h)
    (Schedulable h) (Headnode h).

Definition IncrHostVMs (name : string) (incr : Z) : list Host -> option (list Host) :=
  incr_host (fun h => with_vms (add64 (VMs h) incr) h) name.
Definition IncrHostCPUCommit (name : string) (incr : Z) : list Host -> option (list Host) :=
  incr_host (fun h => with_cpu (add64 (CPUCommit h) incr) h) name.
Definition IncrHostMemCommit (name : string) (incr : Z) : list Host -> option (list Host) :=
  incr_host (fun h => with_mem (add64 (MemCommit h) incr) h) name.

(** ** Pages *)

(** [Paginate]: [None] is a slice out of range, where Go panics. *)
Definition Paginate {A} (page size : Z) (v : list A) : option (list A) :=
  let start := mul64 (sub64 page 1) size in
  let end_ := add64 start size in
  let len := Z.of_nat (length v) in
  if len <=? start then Some []
  else
    let end_ := if len <? end_ then len else end_ in
    if (start <? 0) || (end_ <? start) then None
    else Some (take (Z.to_nat (end_ - start)) (drop (Z.to_nat start) v)).

(** ** Disk configs *)

(** [filepath.Base] on a Unix system. *)
Fixpoint strip_slashes (s : string) : string :=
  match s with
  | EmptyString => EmptyString
  | String c s' =>
      match strip_slashes s' with
      | EmptyString => if Ascii.eqb c "/" then EmptyString else String c EmptyString
      | t => String c t
      end
  end.

Definition Base (path : string) : string :=
  match path with
  | EmptyString => "."
  | _ =>
      match strip_slashes path with
      | EmptyString => "/"
      | p => List.last (split_on "/" p) ""
      end
  end.

Record diskConfig : Type := mkDiskConfig { path : string; base : string; cache : string }.

Definition newDiskConfig (c : string) : diskConfig :=
  let tokens := split_on "," c in
  let first := hd "" tokens in
  mkDiskConfig first (Base first) (nth 1 tokens "").

Definition disk_string (d : diskConfig) (cache_ : string) : string :=
  if negb (String.eqb cache_ "") then path d +:+ "," +:+ cache_
  else if negb (String.eqb (cache d) "") then path d +:+ "," +:+ cache d
  else path d.

Example disk_1 : newDiskConfig "/images/a.qc2,writeback" = mkDiskConfig "/images/a.qc2" "a.qc2" "writeback".
Proof. reflexivity. Qed.

(** ** Facts *)

Lemma less_by_key key asc : exists k, by_key k (less_by key asc).
Proof.
  destruct asc.
  - exists key. intros a b. done.
  - exists (fun h => - key h). intros a b. unfold less_by. lia.
Qed.

Section SortFacts.
Context `{GL : GoSortLaws}.

Lemma sorted_head key asc l x l' :
  go_sort (less_by key asc) l = x :: l' -> Forall (fun h => less_by key asc h x = false) (x :: l').
Proof.
  intros E. destruct (less_by_key key asc) as [k Hk].
  pose proof (go_sort_sorted k _ l Hk) as Hs. rewrite E in Hs.
  apply StronglySorted_inv in Hs as [_ Hs]. constructor; [|done].
  unfold less_by. destruct asc; apply Z.ltb_irrefl.
Qed.
End SortFacts.

Lemma FindHostByName_spec name l :
  match FindHostByName name l with
  | Some h => h ∈ l /\ Name h = name
  | None => Forall (fun h => Name h <> name) l
  end.
Proof.
  unfold FindHostByName. destruct (List.find _ l) as [h|] eqn:E.
  - apply List.find_some in E as [Hin Hn%String.eqb_eq]. split; [by apply list_elem_of_In|done].
  - apply Forall_forall. intros h Hh%list_elem_of_In. pose proof (List.find_none _ _ E h Hh) as Hn.
    by apply String.eqb_neq.
Qed.

(** With distinct names the counter of one host changes. *)
Lemma incr_host_map f name l :
  NoDup (map Name l) -> (forall h, Name (f h) = Name h) ->
  default l (incr_host f name l) = map (fun h => if String.eqb (Name h) name then f h else h) l.
Proof.
  intros Hnd Hf. induction l as [|h l IH]; [done|]. cbn [map] in Hnd. apply NoDup_cons in Hnd as [Hnin Hnd].
  cbn [incr_host map]. destruct (String.eqb_spec (Name h) name) as [<-|Hne].
  - cbn. f_equal. rewrite <- (map_id l) at 1. apply map_ext_in. intros a Ha%list_elem_of_In.
    destruct (String.eqb_spec (Name a) (Name h)) as [Heq|]; [|done].
    exfalso. apply Hnin. rewrite <- Heq. by apply list_elem_of_fmap_2.
  - specialize (IH Hnd). destruct (incr_host f name l); cbn in *; by rewrite <- IH.
Qed.

(** The pages of a list, in order, are the list: with a positive page size
    and no more than 2^31 elements on a page, page [n] is the elements from
    [(n-1)*size] on, at most [size] of them, and nothing when the list ends
    before it. *)
Theorem Paginate_spec {A} (page size : Z) (v : list A) :
  1 <= page < 2 ^ 31 -> 1 <= size < 2 ^ 31 -> Z.of_nat (length v) < 2 ^ 62 ->
  Paginate page size v = Some (take (Z.to_nat size) (drop (Z.to_nat ((page - 1) * size)) v)).
Proof.
  intros Hp Hs Hv. unfold Paginate, mul64, sub64, add64.
  assert (0 <= (page - 1) * size < 2 ^ 62) by nia.
  rewrite (wrap64_id (page - 1)), (wrap64_id ((page - 1) * size)),
    (wrap64_id ((page - 1) * size + size)) by (unfold int64; lia).
  set (start := (page - 1) * size) in *.
  destruct (Z.leb_spec (Z.of_nat (length v)) start).
  - rewrite drop_ge by lia. by rewrite take_nil.
  - assert ((start <? 0) || ((if Z.of_nat (length v) <? start + size then Z.of_nat (length v)
              else start + size) <? start) = false) as -> by (destruct (Z.ltb_spec (Z.of_nat (length v)) (start + size)); lia).
    f_equal. destruct (Z.ltb_spec (Z.of_nat (length v)) (start + size)).
    + rewrite !take_ge by (rewrite length_drop; lia). done.
    + do 2 f_equal. lia.
Qed.

Lemma Paginate_spec_witness : Paginate 2 2 ["a"; "b"; "c"] = Some ["c"].
Proof. rewrite (Paginate_spec 2 2); [reflexivity|lia|lia|cbn; lia]. Defined.
