(* ===== verification/Scheduler.v ===== *)
(** * scheduler: placing the VMs of an experiment on cluster hosts

    The three built-in schedulers and the dispatch between them. The cluster
    (mm.GetClusterHosts) and what a user scheduler's command does are
    arguments; Go's map iteration order and [sort.Slice] are parameters. A
    scheduler changes the experiment's schedules, a shared map, so the map is
    part of the result when it fails, too. Ratios are IEEE doubles. *)

From Stdlib Require Import ZArith Lia Ascii String Strings.Byte.
From Stdlib Require Import Floats.SpecFloat.
From stdpp Require Import base option list gmap strings sorting.
From S2P Require Import Prelude Hosts.

Open Scope Z_scope.
Open Scope go_scope.

(** ** Data *)

(** What the schedulers read of a node; [VLANs] has one entry per interface. *)
Record Node : Type := mkNode {
  External : bool;
  Hostname : string;
  VCPU : Z;
  Memory : Z;
  VLANs : list string
}.

Abbreviation schedules := (gmap string string).

Inductive sched_error : Type :=
  | NoVMs
  | ClusterError (what : string)
  | NoInterfaces (hostname : string)
  | NoUnusedHosts
  | UserSchedulerError (what : string)
  | IndexOutOfRange.

(** A scheduler run: it changes the map of schedules. *)
Abbreviation run := (st schedules sched_error unit).

(** The hosts mapped to each VLAN alias (subnet-compute.go). *)
Abbreviation vlan_map := (gmap string (list string)).

(** ** Float64 ratios (isolate.go) *)

Definition float64 (z : Z) : spec_float := binary_normalize 53 1024 z 0 false.
Definition fdiv (a b : spec_float) : spec_float := SFdiv 53 1024 a b.

Definition maxUsageRatio : spec_float := float64 1.

Example half : fdiv (float64 1) (float64 2) = S754_finite false 4503599627370496 (-53).
Proof. reflexivity. Qed.
Example nan_is_not_less : SFltb (fdiv (float64 0) (float64 0)) maxUsageRatio = false.
Proof. reflexivity. Qed.

Definition below (used total : Z) : bool := SFltb (fdiv (float64 used) (float64 total)) maxUsageRatio.

(** The experiment fits on the host: both ratios are below one. *)
Definition fits_on (totalCPU totalMEM : Z) (h : Host) : bool :=
  below (add64 totalCPU (CPUCommit h)) (CPUs h) && below (add64 totalMEM (MemCommit h)) (MemTotal h).

(** ** isolate-experiment *)

Definition vms (nodes : list Node) : list Node := List.filter (fun n => negb (External n)) nodes.

Definition total (f : Node -> Z) (nodes : list Node) : Z := foldl (fun acc n => add64 acc (f n)) 0 (vms nodes).

(** The hostname of the first VM; one that is empty is passed over. *)
Definition first_vm (nodes : list Node) : string :=
  match List.find (fun n => negb (String.eqb (Hostname n) "")) (vms nodes) with
  | Some n => Hostname n
  | None => ""
  end.

Definition put_all (nodes : list Node) (host : string) (s : schedules) : schedules :=
  foldl (fun s n => <[Hostname n := host]> s) s (vms nodes).

Section Schedulers.
Context `{GoSort}.
Context (range : schedules -> list (string * string)).

Definition unused (h : Host) : bool := VMs h =? 0.

(** The host the first VM is scheduled on by hand, when it is not in use. *)
Definition pinned_host (first : string) (cluster : list Host) (s : schedules) : option Host :=
  match s !! first with
  | Some name =>
      match FindHostByName name cluster with
      | Some h => if unused h then Some h else None
      | None => None
      end
  | None => None
  end.

Definition isolate_host (totalCPU totalMEM : Z) (first : string) (cluster : list Host) (s : schedules)
  : option Host :=
  match pinned_host first cluster s with
  | Some h => Some h
  | None =>
      let cluster := SortByUnallocatedMem false cluster in
      match List.find (fun h => unused h && fits_on totalCPU totalMEM h) cluster with
      | Some h => Some h
      | None => List.find unused cluster
      end
  end.

Definition isolate_Schedule (nodes : list Node) (cluster : res string (list Host)) : run := fun s =>
  match nodes with
  | [] => (Err NoVMs, s)
  | _ =>
      match cluster with
      | Err e => (Err (ClusterError e), s)
      | Ok cluster =>
          match isolate_host (total VCPU nodes) (total Memory nodes) (first_vm nodes) cluster s with
          | Some h => (Ok tt, put_all nodes (Name h) s)
          | None => (Err NoUnusedHosts, s)
          end
      end
  end.

(** ** round-robin *)

(** VMs scheduled by hand count for their hosts. *)
Definition count_pins (s : schedules) (cluster : list Host) : list Host :=
  foldl (fun cl name =>
           match FindHostByName name cl with
           | Some _ => default cl (IncrHostVMs name 1 cl)
           | None => cl
           end) cluster (map snd (range s)).

Fixpoint rr_loop (nodes : list Node) (cluster : list Host) : run :=
  match nodes with
  | [] => st_ret tt
  | n :: nodes' => fun s =>
      if External n then rr_loop nodes' cluster s
      else
        match s !! Hostname n with
        | Some _ => rr_loop nodes' cluster s
        | None =>
            match cluster with
            | [] => (Err IndexOutOfRange, s)
            | h :: hs =>
                rr_loop nodes' (SortByVMs true (with_vms (add64 (VMs h) 1) h :: hs))
                  (<[Hostname n := Name h]> s)
            end
        end
  end.

Definition rr_Schedule (nodes : list Node) (cluster : res string (list Host)) : run := fun s =>
  match nodes with
  | [] => (Err NoVMs, s)
  | _ =>
      match cluster with
      | Err e => (Err (ClusterError e), s)
      | Ok cluster => rr_loop nodes (SortByVMs true (count_pins s cluster)) s
      end
  end.

(** ** subnet-compute *)

Definition FindNodeByName (name : string) (nodes : list Node) : option Node :=
  List.find (fun n => String.eqb (Hostname n) name) nodes.

Definition add_vlan (vlan host : string) (vlans : vlan_map) : vlan_map :=
  <[vlan := default [] (vlans !! vlan) ++ [host]]> vlans.

(** The nodes scheduled by hand: they take memory of their host and map the
    VLAN of their first interface to it. *)
Fixpoint sc_pins (nodes : list Node) (pins : list (string * string)) (cluster : list Host) (vlans : vlan_map)
  : res sched_error (list Host * vlan_map) :=
  match pins with
  | [] => Ok (cluster, vlans)
  | (node, host) :: pins' =>
      match FindHostByName host cluster, FindNodeByName node nodes with
      | Some h, Some n =>
          match VLANs n with
          | [] => Err (NoInterfaces (Hostname n))
          | vlan :: _ =>
              sc_pins nodes pins' (default cluster (IncrHostMemCommit host (Memory n) cluster))
                (add_vlan vlan (Name h) vlans)
          end
      | _, _ => sc_pins nodes pins' cluster vlans
      end
  end.

(** The first host mapped to the VLAN that has the memory. *)
Fixpoint sc_find (memory : Z) (hosts : list string) (cluster : list Host) : option Host :=
  match hosts with
  | [] => None
  | name :: hosts' =>
      match FindHostByName name cluster with
      | Some h => if add64 (MemCommit h) memory <? MemTotal h then Some h else sc_find memory hosts' cluster
      | None => sc_find memory hosts' cluster
      end
  end.

Fixpoint sc_loop (nodes : list Node) (cluster : list Host) (vlans : vlan_map) : run :=
  match nodes with
  | [] => st_ret tt
  | n :: nodes' => fun s =>
      if External n then sc_loop nodes' cluster vlans s
      else
        match s !! Hostname n with
        | Some _ => sc_loop nodes' cluster vlans s
        | None =>
            match VLANs n with
            | [] => (Err (NoInterfaces (Hostname n)), s)
            | vlan :: _ =>
                let found :=
                  match vlans !! vlan with
                  | Some hosts => sc_find (Memory n) hosts cluster
                  | None => None
                  end in
                match found, cluster with
                | None, [] => (Err IndexOutOfRange, s)
                | None, h :: _ =>
                    sc_loop nodes'
                      (SortByCommittedMem true (default cluster (IncrHostMemCommit (Name h) (Memory n) cluster)))
                      (add_vlan vlan (Name h) vlans) (<[Hostname n := Name h]> s)
                | Some h, _ =>
                    sc_loop nodes'
                      (SortByCommittedMem true (default cluster (IncrHostMemCommit (Name h) (Memory n) cluster)))
                      vlans (<[Hostname n := Name h]> s)
                end
            end
        end
  end.

Definition sc_Schedule (nodes : list Node) (cluster : res string (list Host)) : run := fun s =>
  match nodes with
  | [] => (Err NoVMs, s)
  | _ =>
      match cluster with
      | Err e => (Err (ClusterError e), s)
      | Ok cluster =>
          match sc_pins nodes (range s) cluster ∅ with
          | Err e => (Err e, s)
          | Ok (cluster, vlans) => sc_loop nodes (SortByCommittedMem true cluster) vlans s
          end
      end
  end.

(** ** Dispatch (scheduler.go)

    [user name] is what running the command of the user scheduler of that name
    does. *)
Definition Schedule (user : string -> run) (name : string) (nodes : list Node)
    (cluster : res string (list Host)) : run :=
  if String.eqb name "isolate-experiment" then isolate_Schedule nodes cluster
  else if String.eqb name "round-robin" then rr_Schedule nodes cluster
  else if String.eqb name "subnet-compute" then sc_Schedule nodes cluster
  else user name.
End Schedulers.

(** ** isolate-experiment: one unused host for all *)

Lemma put_all_lookup nodes host s k :
  put_all nodes host s !! k =
    if decide (k ∈ map Hostname (vms nodes)) then Some host else s !! k.
Proof.
  unfold put_all. revert s. induction (vms nodes) as [|n l IH]; intros s; cbn [foldl map].
  - rewrite decide_False; [done|]. by intros ?%elem_of_nil.
  - rewrite IH. destruct (decide (k ∈ map Hostname l)) as [Hk|Hk].
    + by rewrite decide_True by by right.
    + destruct (decide (k = Hostname n)) as [->|Hne].
      * by rewrite lookup_insert_eq, decide_True by left.
      * rewrite lookup_insert_ne by done. rewrite decide_False; [done|]. by intros [?|?]%elem_of_cons.
Qed.

Section Facts.
Context `{GL : GoSortLaws}.
Context (range : schedules -> list (string * string)).
Context (range_perm : forall m, range m ≡ₚ map_to_list m).

Definition unallocated (h : Host) : Z := sub64 (MemTotal h) (MemCommit h).

(** [List.find] on a sorted list gives an element no other is less than. *)
Lemma find_sorted_max f l h :
  List.find f (SortByUnallocatedMem false l) = Some h ->
  h ∈ l /\ f h = true /\ forall h', h' ∈ l -> f h' = true -> unallocated h' <= unallocated h.
Proof.
  intros Hf. apply List.find_some in Hf as Hf'. destruct Hf' as [Hin Hh].
  apply list_elem_of_In in Hin. unfold SortByUnallocatedMem in *. split_and!; [by rewrite go_sort_perm in Hin|done|].
  intros h' Hin' Hh'. rewrite <- (go_sort_perm (less_by (fun h0 => sub64 (MemTotal h0) (MemCommit h0)) false)) in Hin'.
  destruct (less_by_key (fun h0 => sub64 (MemTotal h0) (MemCommit h0)) false) as [k Hk].
  pose proof (go_sort_sorted k _ l Hk) as Hs. revert Hf Hin' Hs.
  generalize (go_sort (less_by (fun h0 => sub64 (MemTotal h0) (MemCommit h0)) false) l) as l'. clear Hin.
  induction l' as [|x l' IH]; [by intros _ ?%elem_of_nil|]. cbn [List.find]. intros Hf Hin' Hs.
  apply StronglySorted_inv in Hs as [Hs Hx]. destruct (f x) eqn:Efx.
  - injection Hf as <-. apply elem_of_cons in Hin' as [->|Hin']; [done|].
    eapply Forall_forall in Hx; [|exact Hin']. unfold less_by, unallocated in *. lia.
  - apply elem_of_cons in Hin' as [->|Hin']; [congruence|]. by apply IH.
Qed.

(** An isolated experiment has one host to itself. When the scheduler
    succeeds, every VM is scheduled on one host of the cluster that had no VMs,
    and no other entry of the schedules changed. The host is the one the first
    VM was pinned to, if that was unused; else, if the experiment fits on an
    unused host, one on which it fits and with the most unallocated memory of
    those. When it fails, the cluster has no unused host and the schedules are
    as they were. *)
Theorem isolate_spec nodes cluster s :
  nodes <> [] ->
  let cpu := total VCPU nodes in let mem := total Memory nodes in
  match isolate_Schedule nodes (Ok cluster) s with
  | (Ok _, s') => exists h,
      h ∈ cluster /\ VMs h = 0 /\
      (forall k, s' !! k = if decide (k ∈ map Hostname (vms nodes)) then Some (Name h) else s !! k) /\
      match pinned_host (first_vm nodes) cluster s with
      | Some p => h = p
      | None => forall h', h' ∈ cluster -> VMs h' = 0 -> fits_on cpu mem h' = true ->
                  fits_on cpu mem h = true /\ unallocated h' <= unallocated h
      end
  | (Err e, s') => e = NoUnusedHosts /\ s' = s /\ forall h, h ∈ cluster -> VMs h <> 0
  end.
Proof.
  intros Hne cpu mem. unfold isolate_Schedule.
  destruct (match nodes with [] => true | _ => false end) eqn:En; [by destruct nodes|].
  replace (match nodes with [] => (Err NoVMs, s) | _ => _ end) with
    (match isolate_host cpu mem (first_vm nodes) cluster s with
     | Some h => (Ok tt, put_all nodes (Name h) s)
     | None => (Err (A:=unit) NoUnusedHosts, s)
     end) by by destruct nodes.
  unfold isolate_host.
  destruct (pinned_host (first_vm nodes) cluster s) as [p|] eqn:Ep.
  - exists p. unfold pinned_host in Ep. destruct (s !! first_vm nodes); [|done].
    pose proof (FindHostByName_spec s0 cluster) as Hf. destruct (FindHostByName s0 cluster) as [h|]; [|done].
    unfold unused in Ep. destruct (Z.eqb_spec (VMs h) 0); [|done]. injection Ep as <-. destruct Hf as [Hf _].
    split_and!; [done|done| |done]. intros k. apply put_all_lookup.
  - destruct (List.find (fun h => unused h && fits_on cpu mem h) _) as [h|] eqn:Ef.
    + apply find_sorted_max in Ef as (Hin & [Hu Hfit]%andb_true_iff & Hmax). exists h.
      split_and!; [done|by apply Z.eqb_eq|intros k; apply put_all_lookup|].
      intros h' Hin' Hv Hfit'. split; [done|]. apply Hmax; [done|].
      unfold unused. by rewrite Hv, Hfit'.
    + assert (Hnone : forall h, h ∈ cluster -> VMs h = 0 -> fits_on cpu mem h = true -> False).
      { intros h Hin Hv Hfit. unfold SortByUnallocatedMem in Ef.
        rewrite <- (go_sort_perm (less_by (fun h0 => sub64 (MemTotal h0) (MemCommit h0)) false)) in Hin.
        pose proof (List.find_none _ _ Ef h (proj1 (list_elem_of_In _ _) Hin)) as Hn. cbn in Hn.
        unfold unused in Hn. by rewrite Hv, Hfit in Hn. }
      destruct (List.find unused _) as [h|] eqn:Eu.
      * apply find_sorted_max in Eu as (Hin & Hu & _). exists h.
        split_and!; [done|by apply Z.eqb_eq|intros k; apply put_all_lookup|].
        intros h' Hin' Hv Hfit'. by destruct (Hnone h').
      * split_and!; [done|done|]. intros h Hin. unfold SortByUnallocatedMem in Eu.
        rewrite <- (go_sort_perm (less_by (fun h0 => sub64 (MemTotal h0) (MemCommit h0)) false)) in Hin.
        pose proof (List.find_none _ _ Eu h (proj1 (list_elem_of_In _ _) Hin)) as Hn. by apply Z.eqb_neq.
Qed.

(** ** round-robin: the VMs are spread evenly *)

(** The entries of the schedules that name a host. *)
Definition pinned_to (s : schedules) (name : string) : Z :=
  Z.of_nat (size (filter (fun kv => kv.2 = name) s)).

(** The VMs a host has when its scheduled ones are counted in. *)
Definition load (s : schedules) (h : Host) : Z := VMs h + pinned_to s (Name h).

Lemma pinned_to_insert s k n m :
  s !! k = None -> pinned_to (<[k := n]> s) m = pinned_to s m + (if String.eqb n m then 1 else 0).
Proof.
  intros Hk. unfold pinned_to. destruct (String.eqb_spec n m) as [->|Hne].
  - rewrite map_filter_insert_True by done. rewrite map_size_insert_None; [lia|].
    apply map_lookup_filter_None. by left.
  - rewrite map_filter_insert_False by done. rewrite delete_id by done. lia.
Qed.

Lemma pinned_to_bound s m : 0 <= pinned_to s m <= Z.of_nat (size s).
Proof.
  unfold pinned_to. split; [lia|].
  pose proof (map_subseteq_size _ _ (map_filter_subseteq (fun kv : string * string => kv.2 = m) s)). lia.
Qed.

(** How often a name is in a list. *)
Definition occurs (name : string) (l : list string) : Z :=
  Z.of_nat (length (List.filter (fun n => String.eqb n name) l)).

Lemma occurs_pinned s name : occurs name (map snd (range s)) = pinned_to s name.
Proof.
  unfold occurs, pinned_to. f_equal. rewrite <- length_map_to_list.
  assert (Hp : map_to_list (filter (fun kv => kv.2 = name) s) ≡ₚ filter (fun kv => kv.2 = name) (map_to_list s)).
  { apply NoDup_Permutation; [apply NoDup_map_to_list|apply list.NoDup_filter, NoDup_map_to_list|].
    intros [k v]. rewrite elem_of_map_to_list, map_lookup_filter_Some, list_elem_of_filter, elem_of_map_to_list.
    tauto. }
  rewrite Hp, <- (range_perm s).
  induction (range s) as [|[k v] l IH]; [done|]. cbn [map List.filter snd].
  destruct (String.eqb_spec v name) as [->|Hne].
  - rewrite filter_cons_True by done. cbn [length]. by rewrite IH.
  - rewrite filter_cons_False by done. done.
Qed.

Definition at_load (f : Host -> Z) (cluster : list Host) : list Host := map (fun h => with_vms (f h) h) cluster.

Lemma names_at_load f cluster : map Name (at_load f cluster) = map Name cluster.
Proof. unfold at_load. rewrite map_map. done. Qed.

Lemma with_vms_twice v w h : with_vms v (with_vms w h) = with_vms v h.
Proof. done. Qed.

Lemma with_vms_id h : with_vms (VMs h) h = h.
Proof. by destruct h. Qed.

Lemma pin_step name cluster :
  NoDup (map Name cluster) ->
  match FindHostByName name cluster with
  | Some _ => default cluster (IncrHostVMs name 1 cluster)
  | None => cluster
  end = map (fun h => if String.eqb (Name h) name then with_vms (add64 (VMs h) 1) h else h) cluster.
Proof.
  intros Hnd. pose proof (FindHostByName_spec name cluster) as Hf.
  destruct (FindHostByName name cluster) as [h|]; [by apply incr_host_map|].
  rewrite <- (map_id cluster) at 1. apply map_ext_in. intros a Ha%list_elem_of_In.
  eapply Forall_forall in Hf; [|exact Ha]. by rewrite (proj2 (String.eqb_neq _ _) Hf).
Qed.

Lemma count_pins_spec s cluster :
  NoDup (map Name cluster) -> Forall (fun h => 0 <= VMs h /\ VMs h + Z.of_nat (size s) < 2 ^ 63) cluster ->
  count_pins range s cluster = at_load (load s) cluster.
Proof.
  intros Hnd Hb. unfold count_pins.
  assert (Hgen : forall l f, Forall (fun h => 0 <= f h /\ f h + Z.of_nat (length l) < 2 ^ 63) cluster ->
    foldl (fun cl name => match FindHostByName name cl with
             | Some _ => default cl (IncrHostVMs name 1 cl) | None => cl end) (at_load f cluster) l =
    at_load (fun h => f h + occurs (Name h) l) cluster).
  { induction l as [|x l IH]; intros f Hf; cbn [foldl].
    - unfold at_load. apply map_ext. intros h. unfold occurs. cbn. by rewrite Z.add_0_r.
    - rewrite pin_step by by rewrite names_at_load. unfold at_load at 1. rewrite map_map.
      transitivity (foldl (fun cl name => match FindHostByName name cl with
             | Some _ => default cl (IncrHostVMs name 1 cl) | None => cl end)
             (at_load (fun h => f h + if String.eqb x (Name h) then 1 else 0) cluster) l).
      + f_equal. unfold at_load. apply map_ext_in. intros h Hh%list_elem_of_In.
        eapply Forall_forall in Hf; [|exact Hh]. cbn [Name with_vms]. rewrite (String.eqb_sym (Name h)).
        destruct (String.eqb x (Name h)); [|by rewrite Z.add_0_r].
        cbn [VMs with_vms length] in *. unfold add64. rewrite wrap64_id by (unfold int64; lia). done.
      + rewrite IH.
        * unfold at_load. apply map_ext. intros h. unfold occurs. cbn [List.filter].
          destruct (String.eqb x (Name h)); cbn [length]; f_equal; lia.
        * eapply Forall_impl; [exact Hf|]. intros h. cbn [length]. destruct (String.eqb x (Name h)); lia. }
  assert (Hid : cluster = at_load VMs cluster).
  { unfold at_load. rewrite <- (map_id cluster) at 1. apply map_ext. intros h. by rewrite with_vms_id. }
  rewrite Hid at 1. rewrite Hgen.
  - unfold at_load. apply map_ext. intros h. by rewrite occurs_pinned.
  - assert (Hlen : length (map snd (range s)) = size s).
    { rewrite length_map, range_perm. apply length_map_to_list. }
    by rewrite Hlen.
Qed.

(** The host at the front has the fewest VMs. *)
Definition least_first (cluster : list Host) : Prop :=
  match cluster with
  | [] => True
  | x :: _ => Forall (fun h => VMs x <= VMs h) cluster
  end.

Lemma SortByVMs_least l : least_first (SortByVMs true l).
Proof.
  unfold least_first. destruct (SortByVMs true l) as [|x l'] eqn:E; [done|].
  pose proof (sorted_head VMs true l x l' E) as Hs. eapply Forall_impl; [exact Hs|].
  intros h. unfold less_by. lia.
Qed.

(** One VM more on the host at the front. *)
Lemma place_at_load cluster s k h hs h0 :
  NoDup (map Name cluster) -> s !! k = None ->
  h :: hs ≡ₚ at_load (load s) cluster -> h0 ∈ cluster -> h = with_vms (load s h0) h0 ->
  int64 (load s h0 + 1) ->
  with_vms (add64 (VMs h) 1) h :: hs ≡ₚ at_load (load (<[k := Name h0]> s)) cluster.
Proof.
  intros Hnd Hk Hp Hin -> Hb. apply elem_of_Permutation in Hin as [r Hr].
  assert (Hnin : forall a, a ∈ r -> Name a <> Name h0).
  { rewrite Hr in Hnd. cbn [map] in Hnd. apply NoDup_cons in Hnd as [Hnin _].
    intros a Ha Heq. apply Hnin. rewrite <- Heq. by apply list_elem_of_fmap_2. }
  unfold at_load in *. rewrite Hr in Hp |- *. cbn [map] in *. apply Permutation_cons_inv in Hp.
  assert (E0 : load (<[k := Name h0]> s) h0 = load s h0 + 1).
  { unfold load. rewrite pinned_to_insert by done. rewrite String.eqb_refl. lia. }
  rewrite E0. cbn [VMs with_vms]. unfold add64. rewrite wrap64_id by done. rewrite Hp.
  rewrite with_vms_twice. apply Permutation_cons; [done|].
  rewrite (map_ext_in _ (fun h => with_vms (load (<[k:=Name h0]> s) h) h)); [done|].
  intros a Ha%list_elem_of_In. f_equal. unfold load. rewrite pinned_to_insert by done.
  specialize (Hnin a Ha). rewrite (proj2 (String.eqb_neq _ _)) by auto. lia.
Qed.

(** [h] got a VM that was not scheduled in [s0]. *)
Definition got_new (s0 s : schedules) (h : Host) : Prop :=
  exists k, s0 !! k = None /\ s !! k = Some (Name h).

Definition balanced (cluster : list Host) (s0 s : schedules) : Prop :=
  forall h1 h2, h1 ∈ cluster -> h2 ∈ cluster -> got_new s0 s h1 -> load s h1 <= load s h2 + 1.

(** Hosts with distinct names are told apart by them. *)
Lemma name_inj cluster h1 h2 :
  NoDup (map Name cluster) -> h1 ∈ cluster -> h2 ∈ cluster -> Name h1 = Name h2 -> h1 = h2.
Proof.
  induction cluster as [|a l IH]; [by intros _ ?%elem_of_nil|]. cbn [map].
  intros [Hn Hl]%NoDup_cons [->|Ha]%elem_of_cons [->|Hb]%elem_of_cons Heq; [done| | |by apply IH].
  - exfalso. apply Hn. rewrite Heq. by apply list_elem_of_fmap_2.
  - exfalso. apply Hn. rewrite <- Heq. by apply list_elem_of_fmap_2.
Qed.

Lemma balanced_place cluster s0 s k h0 :
  s !! k = None -> NoDup (map Name cluster) -> h0 ∈ cluster ->
  (forall h, h ∈ cluster -> load s h0 <= load s h) ->
  balanced cluster s0 s -> balanced cluster s0 (<[k := Name h0]> s).
Proof.
  intros Hk Hnd Hin Hmin Hbal h1 h2 H1 H2 (j & Hj0 & Hj).
  assert (Hload : forall h, load (<[k := Name h0]> s) h = load s h + if String.eqb (Name h0) (Name h) then 1 else 0).
  { intros h. unfold load. rewrite pinned_to_insert by done. lia. }
  rewrite !Hload. pose proof (Hmin h2 H2).
  destruct (String.eqb_spec (Name h0) (Name h1)) as [Heq|Hne].
  - apply (name_inj cluster) in Heq as <-; [|done..].
    destruct (String.eqb (Name h0) (Name h2)); lia.
  - assert (got_new s0 s h1) as Hnew.
    { exists j. split; [done|]. destruct (decide (j = k)) as [->|Hjk].
      - rewrite lookup_insert_eq in Hj. congruence.
      - by rewrite lookup_insert_ne in Hj. }
    pose proof (Hbal h1 h2 H1 H2 Hnew). destruct (String.eqb (Name h0) (Name h2)); lia.
Qed.

(** What the loop keeps: the cluster shows the loads, the host at the front has
    the least, and the new VMs are spread evenly. *)
Record rr_inv (cluster : list Host) (s0 s : schedules) (cl : list Host) : Prop := mkRrInv {
  rr_cluster : cl ≡ₚ at_load (load s) cluster;
  rr_least : least_first cl;
  rr_pins : s0 ⊆ s;
  rr_new k name : s0 !! k = None -> s !! k = Some name -> exists h, h ∈ cluster /\ Name h = name;
  rr_balanced : balanced cluster s0 s
}.

Lemma load_least cluster s h h0 hs :
  h :: hs ≡ₚ at_load (load s) cluster -> least_first (h :: hs) -> h = with_vms (load s h0) h0 ->
  forall a, a ∈ cluster -> load s h0 <= load s a.
Proof.
  intros Hp Hl -> a Ha. cbn [least_first] in Hl.
  assert (Hin : with_vms (load s a) a ∈ with_vms (load s h0) h0 :: hs).
  { rewrite Hp. unfold at_load. by apply (list_elem_of_fmap_2 (fun h => with_vms (load s h) h)). }
  eapply Forall_forall in Hl; [|exact Hin]. exact Hl.
Qed.

Lemma rr_step cluster s0 s h hs k :
  NoDup (map Name cluster) -> s !! k = None -> rr_inv cluster s0 s (h :: hs) ->
  Forall (fun a => int64 (load s a + 1)) cluster ->
  rr_inv cluster s0 (<[k := Name h]> s) (SortByVMs true (with_vms (add64 (VMs h) 1) h :: hs)).
Proof.
  intros Hnd Hk [Hp Hl Hpins Hnew Hbal] Hb.
  assert (Hin : h ∈ at_load (load s) cluster) by (rewrite <- Hp; left).
  apply list_elem_of_fmap in Hin as (h0 & Hh & Hin).
  assert (Hname : Name h = Name h0) by by subst h. rewrite Hname.
  pose proof (load_least cluster s h h0 hs Hp Hl Hh) as Hmin. split.
  - unfold SortByVMs. rewrite go_sort_perm. apply place_at_load; try done.
    by eapply Forall_forall in Hb.
  - apply SortByVMs_least.
  - etransitivity; [exact Hpins|by apply insert_subseteq].
  - intros j name Hj. rewrite lookup_insert_Some. intros [[<- <-]|[_ Hj']]; [by exists h0|by eapply Hnew].
  - by apply balanced_place.
Qed.

Lemma size_place (s : schedules) k v : s !! k = None -> size (<[k := v]> s) = S (size s).
Proof. apply map_size_insert_None. Qed.

Lemma rr_loop_spec cluster s0 nodes cl s :
  NoDup (map Name cluster) -> cluster <> [] -> rr_inv cluster s0 s cl ->
  Forall (fun h => 0 <= VMs h /\ VMs h + Z.of_nat (size s + length nodes) < 2 ^ 63) cluster ->
  exists s' cl', rr_loop nodes cl s = (Ok tt, s') /\ rr_inv cluster s0 s' cl' /\ s ⊆ s' /\
    (forall n, n ∈ vms nodes -> is_Some (s' !! Hostname n)) /\
    (forall k, s !! k = None -> is_Some (s' !! k) -> k ∈ map Hostname (vms nodes)).
Proof.
  intros Hnd Hne. revert cl s. induction nodes as [|n nodes IH]; intros cl s Hinv Hb; cbn [rr_loop].
  { exists s, cl. split_and!; [done..|by intros n ?%elem_of_nil|]. intros k -> []. done. }
  unfold vms in *. cbn [List.filter].
  assert (Hb' : Forall (fun h => 0 <= VMs h /\ VMs h + Z.of_nat (size s + length nodes) < 2 ^ 63) cluster).
  { eapply Forall_impl; [exact Hb|]. cbn [length]. intros h ?. lia. }
  destruct (External n); cbn [negb]; [by apply IH|]. destruct (s !! Hostname n) as [v|] eqn:En.
  - destruct (IH cl s Hinv Hb') as (s' & cl' & H1 & H2 & H3 & H4 & H5). exists s', cl'.
    split_and!; [done..| |].
    + intros m [->|?]%elem_of_cons; [|by apply H4]. exists v. by eapply lookup_weaken.
    + intros k Hk Hk'. cbn [map]. right. by apply H5.
  - destruct cl as [|h hs].
    { pose proof (rr_cluster _ _ _ _ Hinv) as Hp. apply Permutation_nil_l in Hp. by destruct cluster. }
    assert (Hld : Forall (fun a => int64 (load s a + 1)) cluster).
    { eapply Forall_impl; [exact Hb|]. intros a [? ?]. unfold load, int64.
      pose proof (pinned_to_bound s (Name a)). cbn [length] in *. lia. }
    destruct (IH _ _ (rr_step cluster s0 s h hs (Hostname n) Hnd En Hinv Hld))
      as (s' & cl' & H1 & H2 & H3 & H4 & H5).
    { eapply Forall_impl; [exact Hb|]. intros a ?. rewrite size_place by done. cbn [length] in *. lia. }
    exists s', cl'. split_and!; [done|done| | |].
    + etransitivity; [|exact H3]. by apply insert_subseteq.
    + intros m [->|?]%elem_of_cons; [|by apply H4]. exists (Name h).
      eapply lookup_weaken; [|exact H3]. by rewrite lookup_insert_eq.
    + intros k Hk Hk'. cbn [map]. destruct (decide (k = Hostname n)) as [->|Hkn]; [left|right].
      apply H5; [|done]. by rewrite lookup_insert_ne.
Qed.

(** Round-robin places every VM and spreads the ones it places evenly. On a
    cluster with hosts, it succeeds, every VM is scheduled, the entries made by
    hand stay, each new entry is for a VM and names a host of the cluster, and
    no host that was given a VM ends up with more than one VM above any other
    host, counting the VMs that were there and the ones scheduled by hand. *)
Theorem rr_spec nodes cluster s0 :
  nodes <> [] -> cluster <> [] -> NoDup (map Name cluster) ->
  Forall (fun h => 0 <= VMs h /\ VMs h + Z.of_nat (size s0 + length nodes) < 2 ^ 63) cluster ->
  exists s', rr_Schedule range nodes (Ok cluster) s0 = (Ok tt, s') /\ s0 ⊆ s' /\
    (forall n, n ∈ vms nodes -> is_Some (s' !! Hostname n)) /\
    (forall k name, s0 !! k = None -> s' !! k = Some name ->
       k ∈ map Hostname (vms nodes) /\ exists h, h ∈ cluster /\ Name h = name) /\
    balanced cluster s0 s'.
Proof.
  intros Hn Hne Hnd Hb.
  assert (Hinv : rr_inv cluster s0 s0 (SortByVMs true (count_pins range s0 cluster))).
  { split; [|apply SortByVMs_least|done|by intros k name ->|].
    - unfold SortByVMs. rewrite go_sort_perm, count_pins_spec; [done..|].
      eapply Forall_impl; [exact Hb|]. intros h [? ?]. lia.
    - intros h1 h2 _ _ (k & Hk & Hk'). congruence. }
  destruct (rr_loop_spec cluster s0 nodes _ s0 Hnd Hne Hinv Hb) as (s' & cl' & H1 & H2 & H3 & H4 & H5).
  exists s'. split_and!; [by destruct nodes|done|done| |by destruct H2].
  intros k name Hk Hk'. split; [apply H5; [done|by rewrite Hk']|by apply (rr_new _ _ _ _ H2 k)].
Qed.

(** Without a host to place a VM on, round-robin indexes an empty list and
    panics, where the isolating scheduler gives an error. *)
Theorem rr_empty_cluster n s :
  External n = false -> s !! Hostname n = None ->
  fst (rr_Schedule range [n] (Ok []) s) = Err IndexOutOfRange /\
  fst (isolate_Schedule [n] (Ok []) s) = Err NoUnusedHosts.
Proof.
  intros He Hs. unfold rr_Schedule, isolate_Schedule, isolate_host, pinned_host.
  assert (Hnil : forall f, go_sort f [] = []).
  { intros f. apply Permutation_nil_r. apply go_sort_perm. }
  assert (Hc : count_pins range s [] = []).
  { unfold count_pins. by induction (map snd (range s)). }
  rewrite Hc. unfold SortByVMs, SortByUnallocatedMem. rewrite !Hnil. cbn. rewrite He, Hs. split; [done|].
  by destruct (s !! first_vm [n]).
Qed.

(** ** subnet-compute: the VMs of a network stay together *)

Lemma IncrHostMemCommit_names name m cl :
  map Name (default cl (IncrHostMemCommit name m cl)) = map Name cl.
Proof.
  unfold IncrHostMemCommit. induction cl as [|h cl IH]; [done|]. cbn [incr_host].
  destruct (String.eqb (Name h) name); [done|].
  destruct (incr_host _ name cl); cbn in *; [by rewrite IH|done].
Qed.

Lemma sc_find_spec memory hosts cl h :
  sc_find memory hosts cl = Some h -> h ∈ cl /\ Name h ∈ hosts /\ add64 (MemCommit h) memory < MemTotal h.
Proof.
  induction hosts as [|x hosts IH]; cbn [sc_find]; [done|]. pose proof (FindHostByName_spec x cl) as Hf.
  destruct (FindHostByName x cl) as [a|].
  - destruct Hf as [Ha <-]. destruct (Z.ltb_spec (add64 (MemCommit a) memory) (MemTotal a)).
    + intros [= ->]. split_and!; [done|left|done].
    + intros (? & ? & ?)%IH. split_and!; [done|by right|done].
  - intros (? & ? & ?)%IH. split_and!; [done|by right|done].
Qed.

(** What the subnet scheduler did to a host's name, wherever the host went. *)
Definition same_names (cl cl' : list Host) : Prop := map Name cl ≡ₚ map Name cl'.

Lemma sc_next_names name m cl :
  same_names (SortByCommittedMem true (default cl (IncrHostMemCommit name m cl))) cl.
Proof. unfold same_names, SortByCommittedMem. by rewrite go_sort_perm, IncrHostMemCommit_names. Qed.

Lemma sc_loop_places nodes cl vlans s :
  cl <> [] ->
  let '(r, s') := sc_loop nodes cl vlans s in
  s ⊆ s' /\
  (forall k name, s !! k = None -> s' !! k = Some name ->
     k ∈ map Hostname (vms nodes) /\ name ∈ map Name cl) /\
  match r with
  | Ok _ => forall n, n ∈ vms nodes -> is_Some (s' !! Hostname n)
  | Err e => exists n, n ∈ vms nodes /\ VLANs n = [] /\ e = NoInterfaces (Hostname n)
  end.
Proof.
  revert cl vlans s. induction nodes as [|n nodes IH]; intros cl vlans s Hne; cbn [sc_loop].
  { split_and!; [done|by intros k name ->|by intros n ?%elem_of_nil]. }
  unfold vms in *. cbn [List.filter]. destruct (External n) eqn:Ex; cbn [negb]; [by apply IH|].
  assert (Hskip : forall v, s !! Hostname n = Some v ->
    let '(r, s') := sc_loop nodes cl vlans s in
    s ⊆ s' /\ (forall k name, s !! k = None -> s' !! k = Some name ->
       k ∈ map Hostname (n :: List.filter (fun n => negb (External n)) nodes) /\ name ∈ map Name cl) /\
    match r with
    | Ok _ => forall m, m ∈ n :: List.filter (fun n => negb (External n)) nodes -> is_Some (s' !! Hostname m)
    | Err e => exists m, m ∈ n :: List.filter (fun n => negb (External n)) nodes /\ VLANs m = [] /\
                 e = NoInterfaces (Hostname m)
    end).
  { intros v Hv. specialize (IH cl vlans s Hne). destruct (sc_loop nodes cl vlans s) as [r s'].
    destruct IH as (H1 & H2 & H3). split_and!; [done| |].
    - intros k name Hk Hk'. destruct (H2 k name Hk Hk'). split; [by right|done].
    - destruct r as [[]|e].
      + intros m [->|Hm]%elem_of_cons; [|by apply H3]. exists v. by eapply lookup_weaken.
      + destruct H3 as (m & ? & ? & ?). exists m. split; [by right|done]. }
  destruct (s !! Hostname n) as [v|] eqn:En; [by apply (Hskip v)|]. clear Hskip.
  destruct (VLANs n) as [|vlan vl] eqn:Ev.
  { split_and!; [done|by intros k name ->|]. exists n. split; [left|done]. }
  assert (Hplace : forall h vlans', h ∈ cl ->
    let '(r, s') := sc_loop nodes (SortByCommittedMem true (default cl (IncrHostMemCommit (Name h) (Memory n) cl)))
                      vlans' (<[Hostname n := Name h]> s) in
    s ⊆ s' /\ (forall k name, s !! k = None -> s' !! k = Some name ->
       k ∈ map Hostname (n :: List.filter (fun n => negb (External n)) nodes) /\ name ∈ map Name cl) /\
    match r with
    | Ok _ => forall m, m ∈ n :: List.filter (fun n => negb (External n)) nodes -> is_Some (s' !! Hostname m)
    | Err e => exists m, m ∈ n :: List.filter (fun n => negb (External n)) nodes /\ VLANs m = [] /\
                 e = NoInterfaces (Hostname m)
    end).
  { intros h vlans' Hh. set (cl' := SortByCommittedMem true _).
    assert (Hnames : same_names cl' cl) by apply sc_next_names. unfold same_names in Hnames.
    assert (Hne' : cl' <> []).
    { intros E. rewrite E in Hnames. apply Permutation_nil_l in Hnames. by destruct cl. }
    specialize (IH cl' vlans' (<[Hostname n := Name h]> s) Hne').
    destruct (sc_loop nodes cl' vlans' _) as [r s']. destruct IH as (H1 & H2 & H3). split_and!.
    - etransitivity; [|exact H1]. by apply insert_subseteq.
    - intros k name Hk Hk'. destruct (decide (k = Hostname n)) as [->|Hkn].
      + split; [left|]. assert (name = Name h) as ->; [|by apply list_elem_of_fmap_2].
        pose proof (lookup_weaken _ _ (Hostname n) (Name h) (lookup_insert_eq s _ _) H1). congruence.
      + destruct (H2 k name) as [Hin Hnm]; [by rewrite lookup_insert_ne|done|].
        split; [by right|]. by rewrite <- Hnames.
    - destruct r as [[]|e].
      + intros m [->|Hm]%elem_of_cons; [|by apply H3]. exists (Name h).
        eapply lookup_weaken; [|exact H1]. apply lookup_insert_eq.
      + destruct H3 as (m & ? & ? & ?). exists m. split; [by right|done]. }
  destruct (match vlans !! vlan with Some hosts => sc_find (Memory n) hosts cl | None => None end) as [h|] eqn:Ef.
  - apply Hplace. destruct (vlans !! vlan) as [hosts|]; [|done]. by apply sc_find_spec in Ef as [? _].
  - destruct cl as [|h0 hs]; [done|]. apply (Hplace h0). left.
Qed.

Lemma sc_pins_names nodes pins cl vlans :
  match sc_pins nodes pins cl vlans with
  | Ok (cl', _) => same_names cl' cl
  | Err e => exists n, n ∈ nodes /\ VLANs n = [] /\ e = NoInterfaces (Hostname n)
  end.
Proof.
  revert cl vlans. induction pins as [|[node host] pins IH]; intros cl vlans; cbn [sc_pins]; [by unfold same_names|].
  destruct (FindHostByName host cl) as [h|]; [|apply IH].
  destruct (FindNodeByName node nodes) as [n|] eqn:En; [|apply IH].
  apply List.find_some in En as [Hn _]. destruct (VLANs n) as [|vlan vl] eqn:Ev.
  - exists n. split; [by apply list_elem_of_In|done].
  - specialize (IH (default cl (IncrHostMemCommit host (Memory n) cl)) (add_vlan vlan (Name h) vlans)).
    destruct (sc_pins _ _ _ _) as [[cl' vl']|e]; [|done]. unfold same_names in *.
    by rewrite IH, IncrHostMemCommit_names.
Qed.

(** On a cluster with hosts, subnet-compute fails only for a node without
    network interfaces. Entries made by hand stay, each new entry is for a VM
    and names a host of the cluster, and when it succeeds every VM is
    scheduled. *)
Theorem sc_spec nodes cluster s0 :
  nodes <> [] -> cluster <> [] ->
  let '(r, s') := sc_Schedule range nodes (Ok cluster) s0 in
  s0 ⊆ s' /\
  (forall k name, s0 !! k = None -> s' !! k = Some name ->
     k ∈ map Hostname (vms nodes) /\ name ∈ map Name cluster) /\
  match r with
  | Ok _ => forall n, n ∈ vms nodes -> is_Some (s' !! Hostname n)
  | Err e => exists n, n ∈ nodes /\ VLANs n = [] /\ e = NoInterfaces (Hostname n)
  end.
Proof.
  intros Hn Hne. unfold sc_Schedule.
  destruct (match nodes with [] => true | _ => false end) eqn:En; [by destruct nodes|].
  pose proof (sc_pins_names nodes (range s0) cluster ∅) as Hp.
  destruct nodes as [|n1 ns]; [done|]. set (nodes := n1 :: ns) in *.
  destruct (sc_pins nodes (range s0) cluster ∅) as [[cl vlans]|e].
  - set (cl' := SortByCommittedMem true cl).
    assert (Hnames : map Name cl' ≡ₚ map Name cluster).
    { unfold cl', SortByCommittedMem. rewrite go_sort_perm. exact Hp. }
    assert (Hne' : cl' <> []).
    { intros E. rewrite E in Hnames. apply Permutation_nil_l in Hnames. by destruct cluster. }
    pose proof (sc_loop_places nodes cl' vlans s0 Hne') as H1.
    destruct (sc_loop nodes cl' vlans s0) as [r s']. destruct H1 as (H1 & H2 & H3). split_and!; [done| |].
    + intros k name Hk Hk'. destruct (H2 k name Hk Hk') as [? Hnm]. split; [done|]. by rewrite <- Hnames.
    + destruct r as [|e]; [done|]. destruct H3 as (m & Hm & ? & ?). exists m. split; [|done].
      unfold vms in Hm. apply list_elem_of_In, List.filter_In in Hm as [Hm _]. by apply list_elem_of_In.
  - split_and!; [done|by intros k name ->|done].
Qed.

(** The VLAN of a node's first interface. *)
Definition first_vlan (n : Node) : string := hd "" (VLANs n).

Definition mem_sum (nodes : list Node) : Z := foldr (fun n acc => Memory n + acc) 0 nodes.

(** Every host has room for all the nodes that are left. *)
Definition has_room (nodes : list Node) (h : Host) : Prop :=
  0 <= MemCommit h /\ MemCommit h + mem_sum nodes < MemTotal h < 2 ^ 63.

Definition roomy (nodes : list Node) (cl : list Host) : Prop := Forall (has_room nodes) cl.

(** Each VLAN seen so far has one host, and its VMs are there. *)
Record together (placed : list Node) (vlans : vlan_map) (s : schedules) (cl : list Host) : Prop := mkTogether {
  tg_one v hosts : vlans !! v = Some hosts -> exists x, hosts = [x] /\ x ∈ map Name cl;
  tg_placed n : n ∈ placed -> exists x, s !! Hostname n = Some x /\ vlans !! first_vlan n = Some [x];
  tg_only k : is_Some (s !! k) -> k ∈ map Hostname placed
}.

Lemma mem_sum_nonneg nodes : Forall (fun n => 0 <= Memory n) nodes -> 0 <= mem_sum nodes.
Proof. unfold mem_sum. induction 1; cbn [foldr]; lia. Qed.

Lemma roomy_commit n nodes cl name :
  0 <= Memory n -> Forall (fun n => 0 <= Memory n) nodes -> roomy (n :: nodes) cl ->
  roomy nodes (default cl (IncrHostMemCommit name (Memory n) cl)).
Proof.
  intros Hn Hnn Hr. pose proof (mem_sum_nonneg nodes Hnn) as Hsum. unfold roomy in *.
  assert (Hweak : forall h, has_room (n :: nodes) h -> has_room nodes h).
  { unfold has_room. intros h [? ?]. cbn [mem_sum foldr] in *. fold (mem_sum nodes) in *. lia. }
  unfold IncrHostMemCommit. induction Hr as [|h cl Hh Hr IH]; [constructor|]. cbn [incr_host].
  destruct (String.eqb (Name h) name).
  - cbn. constructor; [|by eapply Forall_impl]. destruct Hh as [? ?]. unfold has_room.
    cbn [mem_sum foldr MemCommit MemTotal with_mem] in *. fold (mem_sum nodes) in *.
    unfold add64. rewrite wrap64_id by (unfold int64; lia). lia.
  - destruct (incr_host _ name cl); cbn in *; constructor; auto.
Qed.

Lemma roomy_sort nodes cl : roomy nodes cl -> roomy nodes (SortByCommittedMem true cl).
Proof. unfold roomy, SortByCommittedMem. by rewrite go_sort_perm. Qed.

(** A host that is mapped to a VLAN has room for one node more. *)
Lemma sc_find_roomy n nodes cl x :
  0 <= Memory n -> Forall (fun n => 0 <= Memory n) nodes -> roomy (n :: nodes) cl -> x ∈ map Name cl ->
  exists h, sc_find (Memory n) [x] cl = Some h /\ Name h = x.
Proof.
  intros Hn Hnn Hr Hx. cbn [sc_find]. pose proof (FindHostByName_spec x cl) as Hf.
  pose proof (mem_sum_nonneg nodes Hnn) as Hsum.
  destruct (FindHostByName x cl) as [h|].
  - destruct Hf as [Hh Hname]. unfold roomy in Hr. eapply Forall_forall in Hr; [|exact Hh].
    destruct Hr as [? ?]. cbn [mem_sum foldr] in *. fold (mem_sum nodes) in *. unfold add64.
    rewrite wrap64_id by (unfold int64; lia).
    rewrite (proj2 (Z.ltb_lt _ _)) by lia. by exists h.
  - exfalso. apply list_elem_of_fmap in Hx as (h & -> & Hh). eapply Forall_forall in Hf; [|exact Hh]. done.
Qed.

(** What a placement keeps: the node is on [x], the host of its VLAN. *)
Lemma together_place placed vlans s cl cl' n x :
  map Name cl' ≡ₚ map Name cl -> s !! Hostname n = None -> together placed vlans s cl ->
  vlans !! first_vlan n = Some [x] ->
  together (n :: placed) vlans (<[Hostname n := x]> s) cl'.
Proof.
  intros Hnames Hk [H1 H2 H3] Hv. split.
  - intros v hosts Hh. destruct (H1 v hosts Hh) as (y & -> & Hy). exists y. split; [done|]. by rewrite Hnames.
  - intros m [->|Hm]%elem_of_cons; [exists x; by rewrite lookup_insert_eq|].
    destruct (H2 m Hm) as (y & Hy & Hvy). exists y. split; [|done]. rewrite lookup_insert_ne; [done|]. congruence.
  - intros k. rewrite lookup_insert_is_Some. cbn [map]. intros [<-|[_ ?]]; [left|right; auto].
Qed.

Lemma together_vlan placed vlans s cl v x :
  vlans !! v = None -> x ∈ map Name cl -> together placed vlans s cl ->
  together placed (add_vlan v x vlans) s cl.
Proof.
  intros Hv Hx [H1 H2 H3]. unfold add_vlan. rewrite Hv. cbn. split; [| |done].
  - intros w hosts. rewrite lookup_insert_Some. intros [[<- <-]|[_ ?]]; [by exists x|by apply (H1 w)].
  - intros m Hm. destruct (H2 m Hm) as (y & Hy & Hvy). exists y. split; [done|].
    rewrite lookup_insert_ne; [done|]. congruence.
Qed.

Lemma sc_loop_together nodes placed cl vlans s :
  cl <> [] -> NoDup (map Hostname (placed ++ vms nodes)) ->
  Forall (fun n => 0 <= Memory n) (vms nodes) -> Forall (fun n => VLANs n <> []) (vms nodes) ->
  roomy (vms nodes) cl -> together placed vlans s cl ->
  exists s' (vlans' : vlan_map), sc_loop nodes cl vlans s = (Ok tt, s') /\
    forall n, n ∈ placed ++ vms nodes -> exists x, s' !! Hostname n = Some x /\ vlans' !! first_vlan n = Some [x].
Proof.
  revert placed cl vlans s. induction nodes as [|n nodes IH]; intros placed cl vlans s Hne Hnd Hmem Hvl Hroom Htg;
    cbn [sc_loop].
  { exists s, vlans. split; [done|]. cbn. rewrite app_nil_r. apply (tg_placed _ _ _ _ Htg). }
  unfold vms in *. cbn [List.filter] in *. destruct (External n); cbn [negb] in *; [by apply IH|].
  apply Forall_cons in Hmem as [Hm Hmem]. apply Forall_cons in Hvl as [Hv Hvl].
  rewrite map_app in Hnd. cbn [map] in Hnd.
  assert (Hk : s !! Hostname n = None).
  { destruct (s !! Hostname n) eqn:E; [|done]. exfalso.
    apply NoDup_app in Hnd as (_ & Hdis & _). apply (Hdis (Hostname n)); [|left].
    apply (tg_only _ _ _ _ Htg). by rewrite E. }
  rewrite Hk. destruct (VLANs n) as [|vlan vl] eqn:Ev; [done|].
  assert (Hfv : first_vlan n = vlan) by (unfold first_vlan; by rewrite Ev).
  assert (Hgo : forall h vlans1, Name h ∈ map Name cl -> together placed vlans1 s cl ->
    vlans1 !! vlan = Some [Name h] ->
    exists s' (vlans' : vlan_map), sc_loop nodes (SortByCommittedMem true (default cl (IncrHostMemCommit (Name h) (Memory n) cl)))
        vlans1 (<[Hostname n := Name h]> s) = (Ok tt, s') /\
      forall m, m ∈ placed ++ n :: List.filter (fun n => negb (External n)) nodes ->
        exists x, s' !! Hostname m = Some x /\ vlans' !! first_vlan m = Some [x]).
  { intros h vlans1 Hh Htg1 Hv1. set (cl' := SortByCommittedMem true _).
    assert (Hnames : map Name cl' ≡ₚ map Name cl) by apply sc_next_names.
    destruct (IH (n :: placed) cl' vlans1 (<[Hostname n := Name h]> s)) as (s' & vlans' & -> & Hall).
    - intros E. rewrite E in Hnames. apply Permutation_nil_l in Hnames. by destruct cl.
    - cbn [app map]. rewrite map_app. by rewrite Permutation_middle.
    - done.
    - done.
    - unfold cl'. by apply roomy_sort, roomy_commit.
    - apply (together_place placed vlans1 s cl cl' n); [done..|]. by rewrite Hfv.
    - exists s', vlans'. split; [done|]. intros m Hin. apply Hall. cbn [app].
      by rewrite Permutation_middle. }
  destruct (vlans !! vlan) as [hosts|] eqn:El.
  - destruct (tg_one _ _ _ _ Htg vlan hosts El) as (x & -> & Hx).
    destruct (sc_find_roomy n _ cl x Hm Hmem Hroom Hx) as (h & -> & <-). by apply Hgo.
  - destruct cl as [|h0 hs] eqn:Ecl; [done|]. rewrite <- Ecl in *.
    assert (Hin : Name h0 ∈ map Name cl) by (rewrite Ecl; left).
    destruct (Hgo h0 (add_vlan vlan (Name h0) vlans) Hin) as (s' & vl' & Hs' & Hall).
    + by apply together_vlan.
    + unfold add_vlan. rewrite El. apply lookup_insert_eq.
    + exists s', vl'. by rewrite Ecl in Hs' |- *.
Qed.

(** The VMs of a network stay together while they fit. When nothing is
    scheduled by hand, the hostnames differ, and every host has room for the
    whole experiment, subnet-compute succeeds and VMs whose first interface is
    on one VLAN are on one host. *)
Theorem sc_keeps_vlans_together nodes cluster n m :
  cluster <> [] -> NoDup (map Hostname (vms nodes)) ->
  Forall (fun n => 0 <= Memory n) (vms nodes) -> Forall (fun n => VLANs n <> []) (vms nodes) ->
  roomy (vms nodes) cluster -> n ∈ vms nodes -> m ∈ vms nodes -> first_vlan n = first_vlan m ->
  exists s' x, sc_Schedule range nodes (Ok cluster) ∅ = (Ok tt, s') /\
    s' !! Hostname n = Some x /\ s' !! Hostname m = Some x.
Proof.
  intros Hne Hnd Hmem Hvl Hroom Hn Hm Heq. unfold sc_Schedule.
  destruct nodes as [|n1 ns]; [by apply elem_of_nil in Hn|]. set (nodes := n1 :: ns) in *.
  assert (Hr : range ∅ = []).
  { apply Permutation_nil_r. rewrite range_perm. by rewrite map_to_list_empty. }
  rewrite Hr. cbn [sc_pins].
  destruct (sc_loop_together nodes [] (SortByCommittedMem true cluster) ∅ ∅) as (s' & vl & -> & Hall).
  - intros E. unfold SortByCommittedMem in E. pose proof (go_sort_perm (less_by MemCommit true) cluster) as Hp.
    rewrite E in Hp. apply Permutation_nil_l in Hp. by destruct cluster.
  - done.
  - done.
  - done.
  - by apply roomy_sort.
  - split; [by intros v hosts|by intros k ?%elem_of_nil|by intros k [? ?]].
  - destruct (Hall n Hn) as (x & Hx & Hvx), (Hall m Hm) as (y & Hy & Hvy).
    rewrite Heq, Hvy in Hvx. injection Hvx as <-. by exists s', y.
Qed.
End Facts.

(** ** Examples *)

Definition less_rel (less : Host -> Host -> bool) (a b : Host) : Prop := less b a = false.
#[export] Instance less_rel_dec less : RelDecision (less_rel less).
Proof. intros a b. unfold less_rel. apply _. Defined.

#[global] Instance merge_go_sort : GoSort := { go_sort less l := merge_sort (less_rel less) l }.

#[global] Instance merge_go_sort_laws : GoSortLaws.
Proof.
  split.
  - intros less l. apply merge_sort_Permutation.
  - intros key less l Hk. unfold go_sort, merge_go_sort.
    assert (Htr : Transitive (less_rel less)).
    { intros a b c. unfold less_rel. rewrite !Hk. lia. }
    assert (Hto : Total (less_rel less)).
    { intros a b. unfold less_rel. rewrite !Hk. destruct (Z.ltb_spec (key b) (key a)); [right; lia|by left]. }
    apply (StronglySorted_merge_sort (less_rel less) l).
Qed.

Definition host (name : string) (v : Z) : Host := mkHost name 8 0 0 4096 0 0 v true false.
Definition vm (name vlan : string) : Node := mkNode false name 1 512 [vlan].
Definition sample_nodes : list Node := [vm "a" "lan"; vm "b" "wan"; mkNode true "ext" 1 1 []; vm "c" "lan"].

Lemma rr_spec_witness :
  exists s', rr_Schedule map_to_list sample_nodes (Ok [host "h1" 0; host "h2" 3]) {[ "b" := "h1" ]} = (Ok tt, s') /\
    s' !! "b" = Some "h1" /\ balanced [host "h1" 0; host "h2" 3] {[ "b" := "h1" ]} s'.
Proof.
  destruct (rr_spec map_to_list (fun m => Permutation_refl _) sample_nodes [host "h1" 0; host "h2" 3] {[ "b" := "h1" ]})
    as (s' & H1 & H2 & _ & _ & H5).
  - discriminate.
  - discriminate.
  - apply (bool_decide_unpack _). vm_compute. exact I.
  - repeat constructor; cbn; lia.
  - exists s'. split; [exact H1|]. split; [|exact H5]. by eapply lookup_weaken; [|exact H2].
Defined.

Lemma isolate_spec_witness :
  exists s', isolate_Schedule sample_nodes (Ok [host "h1" 2; host "h2" 0]) ∅ = (Ok tt, s') /\
    s' !! "a" = Some "h2".
Proof.
  pose proof (isolate_spec sample_nodes [host "h1" 2; host "h2" 0] ∅ ltac:(discriminate)) as H.
  destruct (isolate_Schedule sample_nodes (Ok [host "h1" 2; host "h2" 0]) ∅) as [[[]|e] s'] eqn:E.
  - exists s'. split; [reflexivity|]. destruct H as (h & Hin & Hv & Hs & _). rewrite Hs.
    rewrite decide_True by (vm_compute; left). f_equal.
    apply elem_of_cons in Hin as [->|Hin]; [discriminate Hv|].
    apply list_elem_of_singleton in Hin as ->. reflexivity.
  - vm_compute in E. discriminate.
Defined.

Lemma rr_empty_cluster_witness :
  fst (rr_Schedule map_to_list [vm "a" "lan"] (Ok []) ∅) = Err IndexOutOfRange.
Proof. apply (rr_empty_cluster map_to_list (vm "a" "lan") ∅); [reflexivity|apply lookup_empty]. Defined.

Lemma sc_spec_witness :
  exists s', sc_Schedule map_to_list sample_nodes (Ok [host "h1" 0]) ∅ = (Ok tt, s') /\ is_Some (s' !! "c").
Proof.
  pose proof (sc_spec map_to_list sample_nodes [host "h1" 0] ∅ ltac:(discriminate) ltac:(discriminate)) as H.
  destruct (sc_Schedule map_to_list sample_nodes (Ok [host "h1" 0]) ∅) as [[[]|e] s'] eqn:E;
    [|vm_compute in E; discriminate].
  exists s'. split; [reflexivity|]. destruct H as (_ & _ & H). apply (H (vm "c" "lan")).
  right; right; left.
Defined.

Lemma sc_keeps_vlans_together_witness :
  exists s' x, sc_Schedule map_to_list sample_nodes (Ok [host "h1" 0; host "h2" 0]) ∅ = (Ok tt, s') /\
    s' !! "a" = Some x /\ s' !! "c" = Some x.
Proof.
  apply (sc_keeps_vlans_together map_to_list (fun m => Permutation_refl _) sample_nodes
           [host "h1" 0; host "h2" 0] (vm "a" "lan") (vm "c" "lan")).
  - discriminate.
  - apply (bool_decide_unpack _). vm_compute. exact I.
  - repeat constructor; cbn; lia.
  - repeat constructor; discriminate.
  - repeat constructor; cbn; lia.
  - left.
  - right; right; left.
  - reflexivity.
Defined.
