(* ===== verification/Text.v ===== *)
(** * Text of a builder document: folding, blanks, UUIDs and digests

    What the builder package takes of Go's [strings], [unicode] and
    [encoding/hex], byte for byte, and the small text predicates of the
    package itself: [foldKey] and [hasNameSpace] (spec.go), [truncate]
    (decode.go), [isControl] (validate.go), [IsUUID] (uuid.go), [IsDigest]
    (ids.go). The patterns the package compiles into regular expressions are
    recognisers over the bytes. *)

From Stdlib Require Import ZArith Lia Ascii String Strings.Byte.
From stdpp Require Import base option list gmap strings sorting.
From S2P Require Import Prelude.

Open Scope Z_scope.
Open Scope go_scope.

(** ** Bytes and runes of strings *)

(** The string with the given bytes. *)
Definition Z_string (l : list Z) : string :=
  String.string_of_list_ascii (map (fun z => ascii_of_N (Z.to_N z)) l).

(** [utf8.AppendRune]: a rune that has no encoding becomes [RuneError]. *)
Definition encode_rune (r : Z) : list Z :=
  let r := if (r <? 0) || (1114111 <? r) || ((55296 <=? r) && (r <=? 57343)) then RuneError else r in
  if r <? 128 then [r]
  else if r <? 2048 then [192 + r / 64; 128 + r mod 64]
  else if r <? 65536 then [224 + r / 4096; 128 + r / 64 mod 64; 128 + r mod 64]
  else [240 + r / 262144; 128 + r / 4096 mod 64; 128 + r / 64 mod 64; 128 + r mod 64].

(** The tables of package unicode the code reaches through
    [unicode.ToLower] and [strings.EqualFold]: the lower case of a rune, and
    whether two runes are the same when case is ignored. *)
Class Unicode := {
  to_lower_rune : Z -> Z;
  same_fold : Z -> Z -> bool;
}.

Definition is_ascii (s : string) : bool := forallb (fun b => b <? 128) (bytes_Z s).

Definition ascii_lower (b : Z) : Z := if (65 <=? b) && (b <=? 90) then b + 32 else b.

(** [unicode.IsSpace]. *)
Definition IsSpace (r : Z) : bool :=
  in_range 9 13 r || (r =? 32) || (r =? 133) || (r =? 160) || (r =? 5760) ||
  in_range 8192 8202 r || (r =? 8232) || (r =? 8233) || (r =? 8239) || (r =? 8287) || (r =? 12288).

(** Leading spaces of runes with their widths. *)
Fixpoint drop_spaces (l : list (Z * nat)) : list (Z * nat) :=
  match l with
  | (r, w) :: l' => if IsSpace r then drop_spaces l' else l
  | [] => []
  end.

Definition widths (l : list (Z * nat)) : nat := foldr (fun p n => (snd p + n)%nat) 0%nat l.

(** [strings.TrimSpace]: without the white space at both ends. *)
Definition TrimSpace (s : string) : string :=
  let all := runes_w (bytes_Z s) in
  let right := drop_spaces all in
  let both := rev (drop_spaces (rev right)) in
  Z_string (take (widths both) (drop (widths all - widths right) (bytes_Z s))).

(** [strings.ToUpper], [strings.ToLower]: ASCII text byte by byte, other text
    rune by rune. *)
Section Fold.
Context `{Unicode}.

Definition ToLower (s : string) : string :=
  if is_ascii s then Z_string (map ascii_lower (bytes_Z s))
  else Z_string (concat (map (fun r => let r' := to_lower_rune r in
                                       if r' <? 0 then [] else encode_rune r') (runes s))).

(** [strings.EqualFold]. *)
Fixpoint equal_fold (l l' : list Z) : bool :=
  match l, l' with
  | [], [] => true
  | r :: l, r' :: l' =>
      ((r =? r') || (if (r <? 128) && (r' <? 128) then ascii_lower r =? ascii_lower r' else same_fold r r'))
      && equal_fold l l'
  | _, _ => false
  end.

Definition EqualFold (s t : string) : bool := equal_fold (runes s) (runes t).

(** [foldKey] normalizes a value for case-insensitive comparisons. *)
Definition foldKey (value : string) : string := ToLower (TrimSpace value).

End Fold.

Definition isNameSpace (r : Z) : bool :=
  (r =? 65279) || (negb (r =? 133) && IsSpace r).

Definition hasNameSpace (name : string) : bool := contains_func name isNameSpace.

(** [strings.TrimSpace(s) == ""]. *)
Definition blank (s : string) : bool := String.eqb (TrimSpace s) "".

Definition isControl (r : Z) : bool := (r <? 32) || (r =? 127).

Definition isNoteControl (r : Z) : bool := isControl r && negb (r =? 10) && negb (r =? 9).

(** [utf8.RuneStart]. *)
Definition RuneStart (b : Z) : bool := negb (Z.land b 192 =? 128).

Fixpoint rune_cut (l : list Z) (cut : nat) : nat :=
  match cut with
  | O => O
  | S cut' => if RuneStart (nth cut l 0) then cut else rune_cut l cut'
  end.

Definition truncate (value : string) : string :=
  if (String.length value <=? 64)%nat then value
  else Z_string (take (rune_cut (bytes_Z value) 64) (bytes_Z value)) +:+ "...".

(** ** Patterns *)

Definition is_digit (b : Z) : bool := in_range 48 57 b.
Definition is_letter (b : Z) : bool := in_range 65 90 b || in_range 97 122 b.
Definition is_alnum (b : Z) : bool := is_digit b || is_letter b.

Definition is_hex (b : Z) : bool := is_digit b || in_range 97 102 b || in_range 65 70 b.
Definition is_hex_lower (b : Z) : bool := is_digit b || in_range 97 102 b.

(** [^[A-Za-z0-9_@.-]+$], of config names and icon names. *)
Definition name_byte (b : Z) : bool :=
  is_alnum b || (b =? 95) || (b =? 64) || (b =? 46) || (b =? 45).

Definition all_bytes (P : Z -> bool) (s : string) : bool :=
  negb (String.eqb s "") && forallb P (bytes_Z s).

Definition configName (s : string) : bool := all_bytes name_byte s.

(** [^#[0-9a-fA-F]{6}$]. *)
Definition hexColor (s : string) : bool :=
  match bytes_Z s with
  | c :: l => (c =? 35) && (length l =? 6)%nat && forallb is_hex l
  | [] => false
  end.

(** ** [encoding/hex] *)

Definition hex_value (b : Z) : option Z :=
  if is_digit b then Some (b - 48)
  else if in_range 97 102 b then Some (b - 87)
  else if in_range 65 70 b then Some (b - 55)
  else None.

(** [hex.DecodeString]: an odd length is an error. *)
Fixpoint hex_decode (l : list Z) : option (list Z) :=
  match l with
  | [] => Some []
  | a :: b :: l' =>
      match hex_value a, hex_value b, hex_decode l' with
      | Some x, Some y, Some r => Some (x * 16 + y :: r)
      | _, _, _ => None
      end
  | _ :: [] => None
  end.

(** ** UUIDs *)

Definition uuidLength : nat := 36.
Definition uuidVersionShift : Z := 4.
Definition uuidVariantRFC : Z := 128.
Definition uuidVariantCheck : Z := 192.
Definition uuidMinVersion : Z := 1.
Definition uuidMaxVersion : Z := 8.

Definition dash : Z := 45.

(** [parseUUID]: the sixteen bytes, or nothing. *)
Definition parseUUID (value : string) : option (list Z) :=
  let l := bytes_Z value in
  if negb (length l =? uuidLength)%nat then None
  else if negb (forallb (fun position => nth position l 0 =? dash) [8; 13; 18; 23]%nat) then None
  else
    match hex_decode (List.filter (fun b => negb (b =? dash)) l) with
    | Some decoded =>
        if negb (length decoded =? 16)%nat then None
        else
          let version := Z.shiftr (nth 6 decoded 0) uuidVersionShift in
          if (version <? uuidMinVersion) || (uuidMaxVersion <? version) then None
          else if negb (Z.land (nth 8 decoded 0) uuidVariantCheck =? uuidVariantRFC) then None
          else Some decoded
    | None => None
    end.

Definition IsUUID (value : string) : bool := bool_decide (is_Some (parseUUID value)).

(** ** Digests *)

Definition digestPrefix : string := "sha256:".
Definition digestHexLength : nat := 64.

(** [IsDigest]: the prefix and 64 lower-case hex digits. [strings.ToLower]
    leaves a text alone when it has no upper-case letter. *)
Definition IsDigest `{Unicode} (value : string) : bool :=
  if has_prefix value digestPrefix then
    let encoded := String.substring 7 (String.length value - 7) value in
    if negb (String.length encoded =? digestHexLength)%nat || negb (String.eqb encoded (ToLower encoded)) then false
    else bool_decide (is_Some (hex_decode (bytes_Z encoded)))
  else false.

Example uuid_1 : IsUUID "6ba7b811-9dad-11d1-80b4-00c04fd430c8" = true.
Proof. vm_compute. reflexivity. Qed.

Example uuid_2 : IsUUID "6ba7b811-9dad-11d1-00b4-00c04fd430c8" = false.
Proof. vm_compute. reflexivity. Qed.

Example trim_1 : TrimSpace "  a b	 " = "a b".
Proof. vm_compute. reflexivity. Qed.

(** ** Facts about folding and blanks *)

Lemma bytes_Z_app s t : bytes_Z (s +:+ t) = bytes_Z s ++ bytes_Z t.
Proof.
  induction s as [|a s IH]; [done|]. rewrite string_app_cons.
  change (ascii_Z a :: bytes_Z (s +:+ t) = ascii_Z a :: bytes_Z s ++ bytes_Z t). by rewrite IH.
Qed.

Lemma ascii_of_ascii_Z a : ascii_of_N (Z.to_N (ascii_Z a)) = a.
Proof. unfold ascii_Z. by rewrite N2Z.id, ascii_N_embedding. Qed.

Lemma Z_string_bytes_Z s : Z_string (bytes_Z s) = s.
Proof.
  unfold Z_string, bytes_Z. induction s as [|a s IH]; [done|]. simpl. rewrite ascii_of_ascii_Z. by f_equal.
Qed.

Lemma bytes_Z_inj s t : bytes_Z s = bytes_Z t -> s = t.
Proof. intros H. by rewrite <- (Z_string_bytes_Z s), H, Z_string_bytes_Z. Qed.

Lemma bytes_Z_range s : Forall (fun b => 0 <= b < 256) (bytes_Z s).
Proof.
  unfold bytes_Z. apply Forall_map, Forall_true. intros a. unfold ascii_Z.
  pose proof (N_ascii_bounded a). lia.
Qed.

Lemma bytes_Z_string l : Forall (fun b => 0 <= b < 256) l -> bytes_Z (Z_string l) = l.
Proof.
  unfold Z_string, bytes_Z. induction 1 as [|b l Hb Hl IH]; [done|]. simpl. f_equal; [|done].
  unfold ascii_Z. rewrite N_ascii_embedding; lia.
Qed.

(** ** Facts about hex *)

Lemma hex_value_is_hex b : is_Some (hex_value b) <-> is_hex b = true.
Proof.
  unfold hex_value, is_hex, is_digit, in_range.
  repeat case_match; split; intros; destruct_or?; rewrite ?orb_true_iff in *; try done; eauto;
    match goal with H : is_Some None |- _ => by destruct H | _ => idtac end;
    repeat match goal with H : context [_ || _] |- _ => apply orb_true_iff in H end; naive_solver.
Qed.

Lemma hex_value_range b x : hex_value b = Some x -> 0 <= x < 16.
Proof. unfold hex_value, is_digit, in_range. intros. repeat case_match; simplify_eq; lia. Qed.

Lemma pair_ind {A} (P : list A -> Prop) :
  P [] -> (forall a, P [a]) -> (forall a b l, P l -> P (a :: b :: l)) -> forall l, P l.
Proof.
  intros H0 H1 H2. fix IH 1. intros [|a [|b l]]; [done|apply H1|apply H2, IH].
Qed.

Lemma hex_decode_length l d : hex_decode l = Some d -> length l = (2 * length d)%nat.
Proof.
  revert d. induction l as [|a|a b l IH] using pair_ind; intros d H; cbn in H; [by simplify_eq|done|].
  repeat case_match; simplify_eq. simpl. erewrite IH by done. lia.
Qed.

Lemma hex_decode_some l :
  is_Some (hex_decode l) <-> Nat.even (length l) = true /\ forallb is_hex l = true.
Proof.
  induction l as [|a|a b l IH] using pair_ind; cbn [hex_decode length Nat.even forallb].
  - naive_solver.
  - split; [by intros []|naive_solver].
  - rewrite !andb_true_iff, <- !hex_value_is_hex. rewrite (and_comm (is_Some (hex_value a))).
    destruct (hex_value a), (hex_value b), (hex_decode l); rewrite ?is_Some_alt; naive_solver.
Qed.

Lemma hex_decode_nth l d i :
  hex_decode l = Some d -> (i < length d)%nat ->
  exists x y, hex_value (nth (2 * i) l 0) = Some x /\ hex_value (nth (2 * i + 1) l 0) = Some y /\
              nth i d 0 = x * 16 + y.
Proof.
  revert d i. induction l as [|a|a b l IH] using pair_ind; intros d i H Hi; cbn in H; [simplify_eq; simpl in *; lia|done|].
  destruct (hex_value a) as [x|] eqn:Ea; [|done]. destruct (hex_value b) as [y|] eqn:Eb; [|done].
  destruct (hex_decode l) as [r|] eqn:Er; [|done]. simplify_eq.
  destruct i as [|i]; [by exists x, y|]. simpl in Hi.
  destruct (IH r i eq_refl ltac:(lia)) as (x' & y' & Hx & Hy & Hd). exists x', y'.
  replace (2 * S i)%nat with (S (S (2 * i))) by lia.
  replace (S (S (2 * i)) + 1)%nat with (S (S (2 * i + 1))) by lia. done.
Qed.

(** ** UUIDs *)

(** The canonical text of an RFC 4122 UUID: groups of 8, 4, 4, 4 and 12 hex
    digits, the third starting with a version from 1 to 8 and the fourth with
    the variant. *)
Definition uuid_text (l : list Z) : Prop :=
  exists a b c d e,
    l = a ++ [dash] ++ b ++ [dash] ++ c ++ [dash] ++ d ++ [dash] ++ e /\
    (length a, length b, length c, length d, length e) = (8, 4, 4, 4, 12)%nat /\
    forallb is_hex (a ++ b ++ c ++ d ++ e) = true /\
    in_range 49 56 (hd 0 c) = true /\
    hd 0 d ∈ [56; 57; 97; 98; 65; 66].

Definition not_dash (b : Z) : bool := negb (b =? dash).

Lemma filter_length_id {A} (f : A -> bool) l :
  (length l <= length (List.filter f l))%nat -> List.filter f l = l.
Proof.
  induction l as [|a l IH]; [done|]. simpl. pose proof (List.filter_length_le f l).
  destruct (f a); simpl; intros; [f_equal; apply IH; lia|lia].
Qed.

Lemma filter_hex_id l : forallb is_hex l = true -> List.filter not_dash l = l.
Proof.
  induction l as [|b l IH]; [done|]. simpl. intros [Hb Hl]%andb_true_iff. unfold not_dash at 1.
  destruct (b =? dash) eqn:E; simpl; [|by rewrite IH].
  apply Z.eqb_eq in E. subst. done.
Qed.

(** A text of 36 bytes with dashes in the four places. *)
Lemma uuid_groups l :
  length l = uuidLength -> forallb (fun position => nth position l 0 =? dash) [8; 13; 18; 23]%nat = true ->
  exists a b c d e, l = a ++ [dash] ++ b ++ [dash] ++ c ++ [dash] ++ d ++ [dash] ++ e /\
    (length a, length b, length c, length d, length e) = (8, 4, 4, 4, 12)%nat.
Proof.
  intros Hl Hd. do 36 (destruct l as [|? l]; [done|]). destruct l; [|done].
  simpl in Hd. rewrite !andb_true_iff, !Z.eqb_eq in Hd. destruct Hd as (-> & -> & -> & -> & _).
  eexists [_; _; _; _; _; _; _; _], [_; _; _; _], [_; _; _; _], [_; _; _; _], [_; _; _; _; _; _; _; _; _; _; _; _].
  by split.
Qed.

Lemma nth_groups {A} (a b c d e : list A) x :
  (length a, length b, length c, length d, length e) = (8, 4, 4, 4, 12)%nat ->
  nth 12 (a ++ b ++ c ++ d ++ e) x = hd x c /\ nth 16 (a ++ b ++ c ++ d ++ e) x = hd x d.
Proof.
  intros [= Ha Hb Hc Hd _].
  destruct c as [|c0 c]; [done|]. destruct d as [|d0 d]; [done|]. simpl in Hc, Hd.
  assert (c0 :: c ++ (d0 :: d) ++ e = (c0 :: c) ++ (d0 :: d) ++ e) as Hr by done.
  split.
  - rewrite app_nth2, Ha, app_nth2, Hb by lia. done.
  - rewrite app_nth2, Ha, app_nth2, Hb, app_nth2 by (simpl; lia). simpl length. rewrite Hc. done.
Qed.

Definition nibble_ok (v x y : Z) : bool :=
  Bool.eqb (negb ((Z.shiftr (x * 16 + y) uuidVersionShift <? uuidMinVersion) ||
                  (uuidMaxVersion <? Z.shiftr (x * 16 + y) uuidVersionShift)))
    (in_range 1 8 x) &&
  Bool.eqb (Z.land (x * 16 + y) uuidVariantCheck =? uuidVariantRFC) (in_range 8 11 x).

Lemma nibbles x y :
  0 <= x < 16 -> 0 <= y < 16 ->
  (negb ((Z.shiftr (x * 16 + y) uuidVersionShift <? uuidMinVersion) ||
         (uuidMaxVersion <? Z.shiftr (x * 16 + y) uuidVersionShift)) = in_range 1 8 x) /\
  ((Z.land (x * 16 + y) uuidVariantCheck =? uuidVariantRFC) = in_range 8 11 x).
Proof.
  intros Hx Hy.
  assert (forallb (fun x => forallb (nibble_ok 0 x) (map Z.of_nat (seq 0 16))) (map Z.of_nat (seq 0 16)) = true) as H
    by (vm_compute; reflexivity).
  assert (forall z, 0 <= z < 16 -> In z (map Z.of_nat (seq 0 16))) as Hin.
  { intros z Hz. apply in_map_iff. exists (Z.to_nat z). split; [lia|]. apply in_seq. lia. }
  rewrite forallb_forall in H. specialize (H x (Hin x Hx)).
  rewrite forallb_forall in H. specialize (H y (Hin y Hy)).
  unfold nibble_ok in H. rewrite andb_true_iff, !eqb_true_iff in H. done.
Qed.

(** A first digit that gives the version, and one that gives the variant. *)
Lemma version_digit b x : hex_value b = Some x -> in_range 1 8 x = in_range 49 56 b.
Proof. unfold hex_value, is_digit, in_range. intros. repeat case_match; simplify_eq; lia. Qed.

Lemma variant_digit b x :
  hex_value b = Some x -> in_range 8 11 x = true <-> b ∈ [56; 57; 97; 98; 65; 66].
Proof.
  unfold hex_value, is_digit, in_range. intros. rewrite list_elem_of_In. simpl.
  repeat case_match; simplify_eq; lia.
Qed.

(** What the decoded bytes say of the digits. *)
Lemma uuid_bits a b c d e r :
  (length a, length b, length c, length d, length e) = (8, 4, 4, 4, 12)%nat ->
  hex_decode (a ++ b ++ c ++ d ++ e) = Some r ->
  length r = 16%nat /\
  (let version := Z.shiftr (nth 6 r 0) uuidVersionShift in
   negb ((version <? uuidMinVersion) || (uuidMaxVersion <? version))) = in_range 49 56 (hd 0 c) /\
  ((Z.land (nth 8 r 0) uuidVariantCheck =? uuidVariantRFC) = true <-> hd 0 d ∈ [56; 57; 97; 98; 65; 66]).
Proof.
  intros Hlen Er. assert (length r = 16%nat) as Hr.
  { apply hex_decode_length in Er. rewrite !length_app in Er. injection Hlen as ? ? ? ? ?. lia. }
  split; [done|]. destruct (nth_groups a b c d e 0 Hlen) as [N12 N16].
  destruct (hex_decode_nth _ _ 6%nat Er ltac:(lia)) as (x & y & Hx & Hy & ->).
  destruct (hex_decode_nth _ _ 8%nat Er ltac:(lia)) as (x' & y' & Hx' & Hy' & ->).
  cbn [Nat.mul Nat.add] in Hx, Hx'. rewrite N12 in Hx. rewrite N16 in Hx'.
  cbn zeta. rewrite (proj1 (nibbles x y ltac:(by eapply hex_value_range) ltac:(by eapply hex_value_range))).
  rewrite (proj2 (nibbles x' y' ltac:(by eapply hex_value_range) ltac:(by eapply hex_value_range))).
  by rewrite (version_digit _ _ Hx), (variant_digit _ _ Hx').
Qed.

(** Without its dashes the text is its digits. *)
Lemma filter_groups a b c d e :
  List.filter not_dash (a ++ [dash] ++ b ++ [dash] ++ c ++ [dash] ++ d ++ [dash] ++ e) =
    List.filter not_dash a ++ List.filter not_dash b ++ List.filter not_dash c ++
    List.filter not_dash d ++ List.filter not_dash e.
Proof. by rewrite !List.filter_app. Qed.

(** Sixteen bytes come only from groups without further dashes. *)
Lemma filter_groups_full a b c d e :
  (length a, length b, length c, length d, length e) = (8, 4, 4, 4, 12)%nat ->
  length (List.filter not_dash (a ++ [dash] ++ b ++ [dash] ++ c ++ [dash] ++ d ++ [dash] ++ e)) = 32%nat ->
  List.filter not_dash (a ++ [dash] ++ b ++ [dash] ++ c ++ [dash] ++ d ++ [dash] ++ e) = a ++ b ++ c ++ d ++ e.
Proof.
  intros [= ? ? ? ? ?] Hf. rewrite filter_groups in *. rewrite !length_app in Hf.
  pose proof (List.filter_length_le not_dash a). pose proof (List.filter_length_le not_dash b).
  pose proof (List.filter_length_le not_dash c). pose proof (List.filter_length_le not_dash d).
  pose proof (List.filter_length_le not_dash e). by rewrite !filter_length_id by lia.
Qed.

(** The dashes of five groups are where [parseUUID] looks for them. *)
Lemma groups_dashes a b c d e :
  (length a, length b, length c, length d, length e) = (8, 4, 4, 4, 12)%nat ->
  let l := a ++ [dash] ++ b ++ [dash] ++ c ++ [dash] ++ d ++ [dash] ++ e in
  length l = uuidLength /\ forallb (fun position => nth position l 0 =? dash) [8; 13; 18; 23]%nat = true.
Proof.
  intros [= ? ? ? ? ?] l. split; [unfold l; rewrite !length_app; simpl; unfold uuidLength; lia|].
  unfold l. do 8 (destruct a as [|? a]; [done|]). do 4 (destruct b as [|? b]; [done|]).
  do 4 (destruct c as [|? c]; [done|]). do 4 (destruct d as [|? d]; [done|]). destruct a, b, c, d; done.
Qed.

(** [IsUUID] accepts exactly the canonical texts: 8, 4, 4, 4 and 12 hex
    digits of either case between dashes, of version 1 to 8 and the RFC 4122
    variant. *)
Theorem IsUUID_iff value : IsUUID value = true <-> uuid_text (bytes_Z value).
Proof.
  unfold IsUUID. rewrite bool_decide_eq_true. unfold parseUUID. set (l := bytes_Z value).
  change (fun b => negb (b =? dash)) with not_dash. split.
  - destruct (_ =? uuidLength)%nat eqn:Hl; cbn [negb]; [|by intros []]. apply Nat.eqb_eq in Hl.
    destruct (forallb _ _) eqn:Hd; cbn [negb]; [|by intros []].
    destruct (uuid_groups l Hl Hd) as (a & b & c & d & e & Hg & Hlen).
    destruct (hex_decode _) as [r|] eqn:Er; [|by intros []].
    destruct (length r =? 16)%nat eqn:Hr; cbn [negb]; [|by intros []]. apply Nat.eqb_eq in Hr.
    rewrite Hg, filter_groups_full in Er
      by (try done; apply hex_decode_length in Er; lia).
    intros Hok. exists a, b, c, d, e. repeat (split; [done|]).
    split; [apply hex_decode_some; by rewrite Er|].
    destruct (uuid_bits _ _ _ _ _ _ Hlen Er) as (_ & <- & <-). cbn zeta in *.
    destruct (_ || _); [by destruct Hok|]. split; [done|]. by destruct (_ =? uuidVariantRFC); [|destruct Hok].
  - intros (a & b & c & d & e & Hg & Hlen & Hhex & Hv & Hd).
    destruct (groups_dashes a b c d e Hlen) as [Hl Hp]. rewrite Hg, Hl, Hp, Nat.eqb_refl. cbn [negb].
    rewrite filter_groups. rewrite !forallb_app, !andb_true_iff in Hhex. destruct_and!.
    rewrite !filter_hex_id by done.
    assert (is_Some (hex_decode (a ++ b ++ c ++ d ++ e))) as [r Er].
    { apply hex_decode_some. rewrite !forallb_app, !andb_true_iff, !length_app.
      injection Hlen as -> -> -> -> ->. done. }
    rewrite Er. destruct (uuid_bits _ _ _ _ _ _ Hlen Er) as (-> & Hv' & Hd'). cbn zeta in *.
    rewrite Hv in Hv'. apply negb_true_iff in Hv'. apply Hd' in Hd. by rewrite Hv', Hd.
Qed.
