(* ===== verification/Url.v ===== *)
(** * net/url: query strings

    [url.QueryEscape], [url.Values] with its [Encode], and [url.ParseQuery], as
    the refs of pending workflow configs use them, and that what was encoded
    parses back. Go releases after 1.24 also bound how many parameters are
    parsed. *)

From Stdlib Require Import ZArith Lia Ascii String Strings.Byte.
From stdpp Require Import base option list gmap strings sorting.
From S2P Require Import Prelude Text.

Open Scope Z_scope.

(** ** Escaping *)

(** The bytes that stand for themselves: letters, digits, '-', '_', '.', '~'. *)
Definition unreserved (b : Z) : bool := is_alnum b || (b =? 45) || (b =? 95) || (b =? 46) || (b =? 126).

Definition upper_hex (d : Z) : ascii := ascii_of_N (Z.to_N (if d <? 10 then 48 + d else 55 + d)).

Definition escape_char (c : ascii) : string :=
  let b := ascii_Z c in
  if unreserved b then String c ""
  else if b =? 32 then "+"
  else String "%" (String (upper_hex (b / 16)) (String (upper_hex (b mod 16)) "")).

Fixpoint QueryEscape (s : string) : string :=
  match s with
  | EmptyString => ""
  | String c s => escape_char c +:+ QueryEscape s
  end.

(** Nothing when a '%' is not followed by two digits. *)
Fixpoint QueryUnescape (s : string) : option string :=
  match s with
  | EmptyString => Some ""
  | String "%" s =>
      match s with
      | String a (String b s) =>
          x ← hex_value (ascii_Z a); y ← hex_value (ascii_Z b);
          String (ascii_of_N (Z.to_N (x * 16 + y))) <$> QueryUnescape s
      | _ => None
      end
  | String "+" s => String " " <$> QueryUnescape s
  | String c s => String c <$> QueryUnescape s
  end.

(** [strings.Cut] by one byte: what is before it, and what is after it if it is
    there. *)
Fixpoint cut (c : ascii) (s : string) : string * option string :=
  match s with
  | EmptyString => ("", None)
  | String a s => if Ascii.eqb a c then ("", Some s) else let '(l, r) := cut c s in (String a l, r)
  end.

(** ** Values *)

Abbreviation Values := (gmap string (list string)).

Definition values (v : Values) (key : string) : list string := default [] (v !! key).

(** [Values.Get]. *)
Definition values_get (v : Values) (key : string) : string := default "" (head (values v key)).

(** [Values.Add]. *)
Definition values_add (v : Values) (key value : string) : Values := <[ key := values v key ++ [value] ]> v.

Definition sorted_keys (v : Values) : list string := merge_sort String.le (elements (dom v)).

Definition pairs (v : Values) : list (string * string) := sorted_keys v ≫= fun key => (fun value => (key, value)) <$> values v key.

Definition Encode (v : Values) : string := join "&" ((fun '(key, value) => QueryEscape key +:+ "=" +:+ QueryEscape value) <$> pairs v).

(** One part of a query between the '&'. *)
Definition parse_part (part : string) (v : Values) : option Values :=
  if contains part ";" then None
  else if String.eqb part "" then Some v
  else
    let '(key, value) := cut "=" part in
    key ← QueryUnescape key;
    value ← QueryUnescape (default "" value);
    Some (values_add v key value).

Fixpoint parse_parts (parts : list string) (v : Values) : option Values :=
  match parts with
  | [] => Some v
  | part :: parts => v ← parse_part part v; parse_parts parts v
  end.

(** [url.ParseQuery]; its errors say no more than that it is malformed. *)
Definition ParseQuery (query : string) : option Values := parse_parts (split_on "&" query) ∅.

(** ** What was encoded parses back *)

(** A byte that is nowhere in a text. *)
Definition free (c : ascii) (s : string) : bool := forallb (fun a => negb (Ascii.eqb a c)) (String.list_ascii_of_string s).

Lemma free_cons c a s : free c (String a s) = true <-> Ascii.eqb a c = false /\ free c s = true.
Proof. unfold free. cbn [String.list_ascii_of_string forallb]. rewrite andb_true_iff, negb_true_iff. done. Qed.

Lemma free_app c s t : free c s = true -> free c t = true -> free c (s +:+ t) = true.
Proof.
  induction s as [|a s IH]; [done|]. intros [Ha Hs]%free_cons Ht. rewrite string_app_cons. apply free_cons. split; [done|by apply IH].
Qed.

Lemma split_free c s : free c s = true -> split_on c s = [s] /\ forall t, split_on c (s +:+ String c t) = s :: split_on c t.
Proof.
  induction s as [|a s IH].
  - intros _. split; [done|]. intros t. change ("" +:+ String c t) with (String c t). cbn [split_on]. by rewrite Ascii.eqb_refl.
  - intros [Ha Hs]%free_cons. destruct (IH Hs) as [IH1 IH2]. split; [cbn [split_on]; by rewrite Ha, IH1|].
    intros t. rewrite string_app_cons. cbn [split_on]. by rewrite Ha, IH2.
Qed.

Lemma cut_free c s : free c s = true -> cut c s = (s, None) /\ forall t, cut c (s +:+ String c t) = (s, Some t).
Proof.
  induction s as [|a s IH].
  - intros _. split; [done|]. intros t. change ("" +:+ String c t) with (String c t). cbn [cut]. by rewrite Ascii.eqb_refl.
  - intros [Ha Hs]%free_cons. destruct (IH Hs) as [IH1 IH2]. split; [cbn [cut]; by rewrite Ha, IH1|].
    intros t. rewrite string_app_cons. cbn [cut]. by rewrite Ha, IH2.
Qed.

Lemma forallb_free P c s : forallb P (bytes_Z s) = true -> P (ascii_Z c) = false -> free c s = true.
Proof.
  unfold bytes_Z, free. intros Hs Hc. induction (String.list_ascii_of_string s) as [|a l IH]; [done|]. cbn [map forallb] in *.
  apply andb_true_iff in Hs as [Ha Hs]. rewrite IH by done. destruct (Ascii.eqb_spec a c) as [->|]; [congruence|done].
Qed.

(** No byte that separates anything. *)
Fixpoint plain (s : string) : bool :=
  match s with
  | EmptyString => true
  | String c s => negb (Ascii.eqb c "&" || Ascii.eqb c ";" || Ascii.eqb c "=") && plain s
  end.

Lemma plain_app s t : plain (s +:+ t) = plain s && plain t.
Proof. induction s as [|c s IH]; [done|]. rewrite string_app_cons. cbn [plain]. by rewrite IH, andb_assoc. Qed.

Lemma escape_char_plain c : plain (escape_char c) = true.
Proof. by destruct c as [[] [] [] [] [] [] [] []]. Qed.

Lemma QueryEscape_plain s : plain (QueryEscape s) = true.
Proof. induction s as [|c s IH]; [done|]. cbn [QueryEscape]. by rewrite plain_app, escape_char_plain, IH. Qed.

Lemma unescape_char c s : QueryUnescape (escape_char c +:+ s) = String c <$> QueryUnescape s.
Proof. by destruct c as [[] [] [] [] [] [] [] []]. Qed.

Lemma QueryUnescape_Escape s : QueryUnescape (QueryEscape s) = Some s.
Proof. induction s as [|c s IH]; [done|]. cbn [QueryEscape]. by rewrite unescape_char, IH. Qed.

Lemma plain_free s : plain s = true -> free "&" s = true /\ free ";" s = true /\ free "=" s = true.
Proof.
  induction s as [|c s IH]; [done|]. cbn [plain]. intros [[[Ha Hb]%orb_false_iff Hc]%negb_true_iff%orb_false_iff Hs]%andb_true_iff.
  rewrite !free_cons. naive_solver.
Qed.

Lemma free_contains c s : free c s = true -> contains s (String c "") = false.
Proof.
  induction s as [|a s IH]; [done|]. intros [Ha Hs]%free_cons. cbn [contains String.prefix]. rewrite IH by done. rewrite orb_false_r.
  destruct (ascii_dec c a) as [->|]; [by rewrite Ascii.eqb_refl in Ha|done].
Qed.

Definition part_text (p : string * string) : string := QueryEscape (fst p) +:+ "=" +:+ QueryEscape (snd p).

Lemma part_free p : free "&" (part_text p) = true /\ free ";" (part_text p) = true.
Proof.
  destruct (plain_free _ (QueryEscape_plain (fst p))) as (? & ? & _), (plain_free _ (QueryEscape_plain (snd p))) as (? & ? & _).
  split; unfold part_text; (apply free_app; [done|]); rewrite string_app_cons; by apply free_cons.
Qed.

Lemma parse_part_text p v : parse_part (part_text p) v = Some (values_add v (fst p) (snd p)).
Proof.
  unfold parse_part. rewrite free_contains by apply part_free. destruct (String.eqb_spec (part_text p) "") as [E|_].
  { unfold part_text in E. by destruct (QueryEscape (fst p)). }
  unfold part_text. rewrite string_app_cons. destruct (plain_free _ (QueryEscape_plain (fst p))) as (_ & _ & Hf). rewrite (proj2 (cut_free _ _ Hf)), QueryUnescape_Escape. cbn [mbind option_bind default from_option id].
  change ("" +:+ ?s) with s. by rewrite QueryUnescape_Escape.
Qed.

Lemma split_join parts :
  Forall (fun p => forall t, split_on "&" (p +:+ String "&" t) = p :: split_on "&" t) parts -> Forall (fun p => split_on "&" p = [p]) parts ->
  split_on "&" (join "&" parts) = match parts with [] => [""] | _ => parts end.
Proof.
  induction parts as [|p parts IH]; intros H1 H2; [done|]. apply Forall_cons in H1 as [Hp H1]. apply Forall_cons in H2 as [Hp' H2].
  destruct parts as [|q parts]; [done|]. change (join "&" (p :: q :: parts)) with (p +:+ String "&" (join "&" (q :: parts))). rewrite Hp. f_equal. by apply IH.
Qed.

Lemma parse_parts_text l v : parse_parts (part_text <$> l) v = Some (foldl (fun v p => values_add v (fst p) (snd p)) v l).
Proof.
  revert v. induction l as [|p l IH]; intros v; [done|]. rewrite fmap_cons. cbn [parse_parts]. rewrite parse_part_text. cbn [mbind option_bind foldl]. apply IH.
Qed.

Lemma ParseQuery_pairs l : ParseQuery (join "&" (part_text <$> l)) = Some (foldl (fun v p => values_add v (fst p) (snd p)) ∅ l).
Proof.
  unfold ParseQuery. rewrite split_join.
  - destruct l as [|p l]; [done|]. exact (parse_parts_text (p :: l) ∅).
  - apply Forall_fmap, Forall_true. intros p. exact (proj2 (split_free "&" (part_text p) (proj1 (part_free p)))).
  - apply Forall_fmap, Forall_true. intros p. exact (proj1 (split_free "&" (part_text p) (proj1 (part_free p)))).
Qed.

(** The values of a key among pairs. *)
Definition picked (key : string) (l : list (string * string)) : list string := snd <$> filter (fun p => fst p = key) l.

Lemma values_add_same v key x : values (values_add v key x) key = values v key ++ [x].
Proof. unfold values at 1, values_add. by rewrite lookup_insert_eq. Qed.

Lemma values_add_other v k key x : k <> key -> values_add v k x !! key = v !! key.
Proof. intros Hne. unfold values_add. by rewrite lookup_insert_ne. Qed.

Lemma foldl_add l v key :
  foldl (fun v p => values_add v (fst p) (snd p)) v l !! key =
    match values v key ++ picked key l with [] => v !! key | vs => Some vs end.
Proof.
  revert v. induction l as [|[k x] l IH]; intros v; cbn [foldl fst snd].
  - unfold picked. cbn. rewrite app_nil_r. unfold values. by destruct (v !! key) as [[]|].
  - rewrite IH. unfold picked. rewrite filter_cons. cbn [fst snd]. destruct (decide (k = key)) as [->|Hne].
    + rewrite values_add_same, fmap_cons. cbn [snd]. rewrite <- app_assoc. cbn [app]. by destruct (values v key).
    + unfold values. by rewrite values_add_other.
Qed.

Lemma picked_app key l l' : picked key (l ++ l') = picked key l ++ picked key l'.
Proof. unfold picked. by rewrite filter_app, fmap_app. Qed.

Lemma picked_keys v key keys : NoDup keys -> picked key (keys ≫= fun k => (fun x => (k, x)) <$> values v k) = if decide (key ∈ keys) then values v key else [].
Proof.
  assert (forall k, picked key ((fun x => (k, x)) <$> values v k) = if decide (k = key) then values v k else []) as H1.
  { intros k. unfold picked. induction (values v k) as [|x xs IH]; [by destruct (decide _)|]. rewrite fmap_cons, filter_cons. cbn [fst]. destruct (decide (k = key)) as [->|].
    - rewrite fmap_cons. cbn [snd]. by rewrite IH.
    - exact IH. }
  induction 1 as [|k keys Hk Hnd IH]; [done|]. rewrite bind_cons, picked_app, H1, IH. destruct (decide (k = key)) as [->|Hne].
  - rewrite decide_False by done. rewrite app_nil_r. by rewrite decide_True by left.
  - cbn [app]. destruct (decide (key ∈ keys)); [by rewrite decide_True by (by right)|]. rewrite decide_False; [done|]. by intros [->|?]%elem_of_cons.
Qed.

(** A query string made of values parses back to them. *)
Lemma ParseQuery_values (v : Values) : (forall key, v !! key <> Some []) -> ParseQuery (Encode v) = Some v.
Proof.
  intros Hv. unfold Encode. change (fun '(key, value) => _) with (fun p : string * string => let '(key, value) := p in QueryEscape key +:+ "=" +:+ QueryEscape value).
  rewrite (list_fmap_ext _ part_text) by (by intros _ [? ?] _). rewrite ParseQuery_pairs. f_equal. apply map_eq. intros key. rewrite foldl_add.
  unfold values at 1. rewrite lookup_empty. cbn [default app]. unfold pairs. rewrite picked_keys.
  - assert (key ∈ sorted_keys v <-> key ∈ dom v) as Hin by (unfold sorted_keys; by rewrite merge_sort_Permutation, elem_of_elements).
    destruct (decide (key ∈ sorted_keys v)) as [Hk|Hk]; rewrite Hin, elem_of_dom in Hk.
    + destruct Hk as [vs Hk]. unfold values. rewrite Hk. cbn [default]. destruct vs; [by destruct (Hv key)|done].
    + symmetry. by apply eq_None_not_Some.
  - unfold sorted_keys. rewrite merge_sort_Permutation. apply NoDup_elements.
Qed.
