(* ===== verification/Printf.v ===== *)
(** * The verbs of package fmt

    What [fmt.Sprintf] makes of a text whose verbs are %s, %d, %q and %v, for
    the places where a message becomes part of a value, and [strconv.Quote]. *)

From Stdlib Require Import ZArith Lia Ascii String Strings.Byte.
From stdpp Require Import base option list gmap strings.
From S2P Require Import Prelude Text.

Open Scope Z_scope.
Open Scope go_scope.

(** The table behind [strconv.IsPrint]. *)
Class Printable := { is_print : Z -> bool }.

Section Printf.
Context `{Printable}.

Definition hex_digit (d : Z) : Z := if d <? 10 then 48 + d else 87 + d.

(** The lower case hexadecimal digits of a number, as many as asked for. *)
Fixpoint hex_digits (n : nat) (z : Z) : list Z :=
  match n with
  | O => []
  | S n => hex_digits n (z / 16) ++ [hex_digit (z mod 16)]
  end.

Definition c_quote : Z := 34.
Definition c_backslash : Z := 92.

(** [strconv.appendEscapedRune], with the bytes the rune was read from. *)
Definition escape_rune (r : Z) : list Z :=
  if (r =? c_quote) || (r =? c_backslash) then [c_backslash; r]
  else if is_print r then encode_rune r
  else
    match r with
    | 7 => [c_backslash; 97]
    | 8 => [c_backslash; 98]
    | 12 => [c_backslash; 102]
    | 10 => [c_backslash; 110]
    | 13 => [c_backslash; 114]
    | 9 => [c_backslash; 116]
    | 11 => [c_backslash; 118]
    | _ =>
        if (r <? 32) || (r =? 127) then [c_backslash; 120] ++ hex_digits 2 r
        else if r <? 65536 then [c_backslash; 117] ++ hex_digits 4 r
        else [c_backslash; 85] ++ hex_digits 8 r
    end.

(** The runes of a text with the byte each starts at: one that does not decode
    is quoted as the byte it is. *)
Fixpoint quote_runes (l : list (Z * nat)) (bytes : list Z) : list Z :=
  match l with
  | [] => []
  | (r, w) :: l =>
      (if (r =? RuneError) && (w =? 1)%nat then [c_backslash; 120] ++ hex_digits 2 (hd 0 bytes) else escape_rune r) ++
      quote_runes l (drop w bytes)
  end.

(** [strconv.Quote]. *)
Definition Quote (s : string) : string :=
  Z_string ([c_quote] ++ quote_runes (runes_w (bytes_Z s)) (bytes_Z s) ++ [c_quote]).

(** What a verb makes of an argument. *)
Definition show_arg (verb : ascii) (a : arg) : string :=
  match a with
  | AStr s => if Ascii.eqb verb "q"%char then Quote s else s
  | AInt z => itoa z
  | ARune r => Z_string (encode_rune r)
  end.

(** A verb without an argument says so, as Go's does. *)
Fixpoint render_from (fmt : string) (arguments : list arg) : string :=
  match fmt with
  | EmptyString => EmptyString
  | String "%"%char (String verb rest) =>
      if Ascii.eqb verb "%"%char then String "%"%char (render_from rest arguments)
      else
        match arguments with
        | a :: arguments => show_arg verb a +:+ render_from rest arguments
        | [] => "%!" +:+ String verb "(MISSING)" +:+ render_from rest []
        end
  | String c rest => String c (render_from rest arguments)
  end.

Definition render (t : text) : string := render_from (format t) (args t).

(** [fmt.Sprintf] where its result is a value. *)
Definition sprintf (fmt : string) (arguments : list arg) : string := render_from fmt arguments.

End Printf.
