(* ===== verification/Hostname.v ===== *)
(** * types/version/v1/hostname.go: host names that phenix refuses *)

From Stdlib Require Import ZArith Lia Ascii String Strings.Byte.
From stdpp Require Import base option list gmap strings.
From S2P Require Import Prelude Text.

Open Scope Z_scope.
Open Scope go_scope.

Definition minimegaWildcardVM : string := "all".
Definition phenixHostname : string := "phenix".

Fixpoint trim_left_bytes (f : Z -> bool) (l : list Z) : list Z :=
  match l with b :: l' => if f b then trim_left_bytes f l' else l | [] => [] end.

(** [strings.Trim] with a set of ASCII characters. *)
Definition trim_bytes (f : Z -> bool) (l : list Z) : list Z := rev (trim_left_bytes f (rev (trim_left_bytes f l))).

Definition trim_set (f : Z -> bool) (s : string) : string := Z_string (trim_bytes f (bytes_Z s)).

Definition isDigits (s : string) : bool := negb (String.eqb s "") && String.eqb (trim_set is_digit s) "".

Section Hostname.
Context `{Unicode}.

(** [checkHostnameKeywords]: a warning, or nothing; or why the host name is
    refused. *)
Definition checkHostnameKeywords (hostname osType : string) : res text (option text) :=
  if String.eqb hostname minimegaWildcardVM then
    Err (Sprintf ("hostname '%s' is reserved: minimega uses 'all' as its wildcard VM target, so it refuses to launch " +:+
                  "a VM named 'all', and commands that target a VM by name (such as 'vm kill all') act on every VM " +:+
                  "in the experiment") [AStr hostname])
  else if isDigits hostname then
    Err (Sprintf ("hostname '%s' is all digits: minimega reads 'vm launch kvm %s' as a number of VMs to launch rather " +:+
                  "than a VM name, and reads a numeric VM target as a VM ID") [AStr hostname; AStr hostname])
  else if EqualFold hostname minimegaWildcardVM then
    Ok (Some (Sprintf ("hostname '%s' differs from the reserved name 'all' only by case: minimega accepts it because its " +:+
                       "reserved-name check is case-sensitive, but any tool or script that lowercases VM names would " +:+
                       "treat it as minimega's wildcard for every VM") [AStr hostname]))
  else if EqualFold hostname phenixHostname && EqualFold osType "windows" then
    Err (Sprintf ("hostname '%s' can't be used for a Windows node: the startup app writes each Windows node's startup " +:+
                  "script to '<hostname>-startup.ps1' in the experiment's startup directory, where it also stages " +:+
                  "'phenix-startup.ps1', the startup wrapper every Windows node runs; the file names collide (in any " +:+
                  "casing on a case-insensitive filesystem), so one file overwrites the other") [AStr hostname])
  else if EqualFold hostname phenixHostname then
    Ok (Some (Sprintf ("hostname '%s' matches 'phenix', the hostname 'phenix image' bakes into the images it builds: until " +:+
                       "the startup app renames them, other VMs built from those images also report 'phenix' to miniccc, " +:+
                       "so hostname-based C2 checks for this node (such as delay.c2 without useUUID) can match the wrong " +:+
                       "VM; this hostname also fails validation if the node's os_type is changed to windows") [AStr hostname]))
  else Ok None.

Definition CheckHostname (hostname osType : string) : res text (option text) := checkHostnameKeywords hostname osType.

End Hostname.
