(* ===== verification/V1.v ===== *)
(** * types/version/v1: experiments, topologies and nodes as phenix runs them

    The structs of node.go, network.go, topology.go and experiment.go with the
    operations that decide or change something; a getter is a field. A pointer
    is an [option], and what dereferences a nil one panics. *)

From Stdlib Require Import ZArith Lia Ascii String Strings.Byte.
From stdpp Require Import base option list gmap strings.
From S2P Require Import Prelude Text Printf Hostname.

Open Scope Z_scope.
Open Scope go_scope.

(** The Go value is kept as it is handed to apps; nothing looks into it. *)
Section Data.
Context {any : Type}.

(** ** network.go *)

Record Interface : Type := {
  if_Name : string; if_Type : string; if_Proto : string; if_UDPPort : Z; if_BaudRate : Z; if_Device : string; if_VLAN : string;
  if_Bridge : string; if_Autostart : bool; if_MAC : string; if_Driver : string; if_MTU : Z; if_Address : string; if_Mask : Z;
  if_Gateway : string; if_DNS : list string; if_QinQ : bool; if_RulesetIn : string; if_RulesetOut : string;
  BridgeSetInTopo : option bool;
}.

Record Route : Type := { rt_Destination : string; rt_Next : string; rt_Cost : option Z }.
Record AreaNetwork : Type := { an_Network : string }.
Record Area : Type := { ar_AreaID : option Z; ar_AreaNetworks : list AreaNetwork }.

Record OSPF : Type := {
  os_RouterID : string; os_Areas : list Area; os_DeadInterval : option Z; os_HelloInterval : option Z; os_RetransmissionInterval : option Z;
}.

Record AddrPort : Type := { ap_Address : string; ap_Port : Z }.

Record Rule : Type := {
  ru_ID : Z; ru_Description : string; ru_Action : string; ru_Protocol : string; ru_Source : option AddrPort;
  ru_Destination : option AddrPort; ru_Stateful : bool;
}.

Record Ruleset : Type := { rs_Name : string; rs_Description : string; rs_Default : string; rs_Rules : list Rule }.
Record NAT : Type := { nat_In : list string; nat_Out : string }.

Record Network : Type := {
  nw_Interfaces : list (option Interface); nw_Routes : list Route; nw_OSPF : option OSPF; nw_Rulesets : list Ruleset; nw_NAT : list NAT;
}.

(** ** node.go *)

Record General : Type := {
  ge_Hostname : string; ge_Description : string; ge_VMType : string; ge_Snapshot : option bool; ge_DoNotBoot : option bool;
}.

Record Drive : Type := { dr_Image : string; dr_Iface : string; dr_CacheMode : string; dr_InjectPartition : option Z }.
Record Hardware : Type := { hw_CPU : string; hw_VCPU : Z; hw_Memory : Z; hw_OSType : string; hw_Drives : list Drive }.
Record Injection : Type := { in_Src : string; in_Dst : string; in_Description : string; in_Permissions : string }.
Record Deletion : Type := { de_Path : string; de_Description : string }.
Record C2Delay : Type := { c2_Hostname : string; c2_UseUUID : bool }.
Record Delay : Type := { dl_Timer : string; dl_User : bool; dl_C2 : list C2Delay }.

Record Node : Type := {
  nd_Annotations : option (gmap string any);
  nd_Labels : option (gmap string string);
  nd_Type : string;
  nd_General : option General;
  nd_Hardware : option Hardware;
  nd_Network : option Network;
  nd_Injections : list Injection;
  nd_Deletions : list Deletion;
  nd_Advanced : option (gmap string string);
  nd_Overrides : option (gmap string string);
  nd_Delay : option Delay;
  nd_Commands : list string;
  nd_External : option bool;
}.

(** ** topology.go, experiment.go *)

(** The nodes are pointers: an entry can be nil, and what is called on a nil
    node panics. *)
Record TopologySpec : Type := { ts_IncludeTopologies : list string; ts_Nodes : list (option Node) }.
Record VLANSpec : Type := { vl_Aliases : option (gmap string Z); vl_Min : Z; vl_Max : Z }.

(** What the specs fail with; [VPanic] is a nil pointer or map that is used. *)
Inductive verror : Type :=
  | VPanic
  | VFail (what : text).

Definition set_interfaces (n : Network) (ifaces : list (option Interface)) : Network := {|
  nw_Interfaces := ifaces; nw_Routes := nw_Routes n; nw_OSPF := nw_OSPF n; nw_Rulesets := nw_Rulesets n; nw_NAT := nw_NAT n |}.

Definition set_bridge (i : Interface) (bridge : string) (in_topo : option bool) : Interface := {|
  if_Name := if_Name i; if_Type := if_Type i; if_Proto := if_Proto i; if_UDPPort := if_UDPPort i; if_BaudRate := if_BaudRate i;
  if_Device := if_Device i; if_VLAN := if_VLAN i; if_Bridge := bridge; if_Autostart := if_Autostart i; if_MAC := if_MAC i;
  if_Driver := if_Driver i; if_MTU := if_MTU i; if_Address := if_Address i; if_Mask := if_Mask i; if_Gateway := if_Gateway i;
  if_DNS := if_DNS i; if_QinQ := if_QinQ i; if_RulesetIn := if_RulesetIn i; if_RulesetOut := if_RulesetOut i; BridgeSetInTopo := in_topo |}.

(** ** Networks *)

(** One turn of [Network.SetDefaults]. *)
Definition default_bridge (bridge : string) (i : Interface) : Interface :=
  if String.eqb (if_Bridge i) bridge then i
  else
    let set_in_topo :=
      match BridgeSetInTopo i with
      | Some b => b
      | None => negb (String.eqb (if_Bridge i) "") && negb (String.eqb (if_Bridge i) "phenix")
      end in
    set_bridge i (if set_in_topo then if_Bridge i else bridge) (Some set_in_topo).

Definition SetDefaults (bridge : string) (n : Network) : option Network :=
  ifaces ← mapM (fun i : option Interface => i ← i; Some (Some (default_bridge bridge i))) (nw_Interfaces n);
  Some (set_interfaces n ifaces).

(** [InterfaceConfig]: the interfaces as minimega takes them. *)
Definition interface_config (i : Interface) : string :=
  join "," ([if_Bridge i; if_VLAN i] ++ (if String.eqb (if_MAC i) "" then [] else [if_MAC i]) ++
            (if String.eqb (if_Driver i) "" then [] else [if_Driver i]) ++ (if if_QinQ i then ["qinq"] else [])).

Definition InterfaceConfig (n : Network) : option string :=
  configs ← mapM (fun i => interface_config <$> i) (nw_Interfaces n); Some (join " " configs).

Definition AddRuleset (n : Network) (rule : Ruleset) : Network := {|
  nw_Interfaces := nw_Interfaces n; nw_Routes := nw_Routes n; nw_OSPF := nw_OSPF n; nw_Rulesets := nw_Rulesets n ++ [rule]; nw_NAT := nw_NAT n |}.

Definition SetRulesets (n : Network) (rules : list Ruleset) : Network := {|
  nw_Interfaces := nw_Interfaces n; nw_Routes := nw_Routes n; nw_OSPF := nw_OSPF n; nw_Rulesets := rules; nw_NAT := nw_NAT n |}.

Definition ruleIDDecrement : Z := 10.

(** The loop of [UnshiftRule]; 0 stands for no minimum yet. *)
Definition min_rule (rules : list Rule) : Z :=
  foldl (fun minVal rule => if (minVal =? 0) || (ru_ID rule <? minVal) then ru_ID rule else minVal) 0 rules.

Definition with_rules (rs : Ruleset) (rules : list Rule) : Ruleset := {|
  rs_Name := rs_Name rs; rs_Description := rs_Description rs; rs_Default := rs_Default rs; rs_Rules := rules |}.

Definition new_rule (id : Z) : Rule := {|
  ru_ID := id; ru_Description := ""; ru_Action := ""; ru_Protocol := ""; ru_Source := None; ru_Destination := None; ru_Stateful := false |}.

(** [UnshiftRule]: the rule added in front, if there is room. *)
Definition UnshiftRule (rs : Ruleset) : option Rule * Ruleset :=
  let minVal := min_rule (rs_Rules rs) in
  if minVal <=? 1 then (None, rs)
  else
    let id := wrap64 (minVal - ruleIDDecrement) in
    let r := new_rule (if id <? 1 then 1 else id) in
    (Some r, with_rules rs (r :: rs_Rules rs)).

(** The first element that the test holds for goes. *)
Fixpoint remove_first {A} (f : A -> bool) (l : list A) : list A :=
  match l with
  | [] => []
  | a :: l => if f a then l else a :: remove_first f l
  end.

Definition RemoveRule (rs : Ruleset) (id : Z) : Ruleset := with_rules rs (remove_first (fun r => ru_ID r =? id) (rs_Rules rs)).

(** ** Nodes *)

Definition External (n : Node) : bool := bool_decide (is_Some (nd_External n)).

Definition Delayed (n : Node) : string :=
  match nd_Delay n with
  | None => ""
  | Some d =>
      if negb (String.eqb (dl_Timer d) "") then "timer:" +:+ dl_Timer d
      else if dl_User d then "user"
      else if bool_decide (dl_C2 d = []) then ""
      else "cc:" +:+ join "," (map c2_Hostname (dl_C2 d))
  end.

Definition with_hardware (n : Node) (h : option Hardware) : Node := {|
  nd_Annotations := nd_Annotations n; nd_Labels := nd_Labels n; nd_Type := nd_Type n; nd_General := nd_General n; nd_Hardware := h;
  nd_Network := nd_Network n; nd_Injections := nd_Injections n; nd_Deletions := nd_Deletions n; nd_Advanced := nd_Advanced n;
  nd_Overrides := nd_Overrides n; nd_Delay := nd_Delay n; nd_Commands := nd_Commands n; nd_External := nd_External n |}.

Definition with_network (n : Node) (w : option Network) : Node := {|
  nd_Annotations := nd_Annotations n; nd_Labels := nd_Labels n; nd_Type := nd_Type n; nd_General := nd_General n; nd_Hardware := nd_Hardware n;
  nd_Network := w; nd_Injections := nd_Injections n; nd_Deletions := nd_Deletions n; nd_Advanced := nd_Advanced n;
  nd_Overrides := nd_Overrides n; nd_Delay := nd_Delay n; nd_Commands := nd_Commands n; nd_External := nd_External n |}.

Definition with_files (n : Node) (injections : list Injection) (deletions : list Deletion) (commands : list string) : Node := {|
  nd_Annotations := nd_Annotations n; nd_Labels := nd_Labels n; nd_Type := nd_Type n; nd_General := nd_General n; nd_Hardware := nd_Hardware n;
  nd_Network := nd_Network n; nd_Injections := injections; nd_Deletions := deletions; nd_Advanced := nd_Advanced n;
  nd_Overrides := nd_Overrides n; nd_Delay := nd_Delay n; nd_Commands := commands; nd_External := nd_External n |}.

Definition with_maps (n : Node) (annotations : option (gmap string any)) (labels advanced overrides : option (gmap string string)) : Node := {|
  nd_Annotations := annotations; nd_Labels := labels; nd_Type := nd_Type n; nd_General := nd_General n; nd_Hardware := nd_Hardware n;
  nd_Network := nd_Network n; nd_Injections := nd_Injections n; nd_Deletions := nd_Deletions n; nd_Advanced := advanced;
  nd_Overrides := overrides; nd_Delay := nd_Delay n; nd_Commands := nd_Commands n; nd_External := nd_External n |}.

Definition with_delay (n : Node) (delay : option Delay) : Node := {|
  nd_Annotations := nd_Annotations n; nd_Labels := nd_Labels n; nd_Type := nd_Type n; nd_General := nd_General n; nd_Hardware := nd_Hardware n;
  nd_Network := nd_Network n; nd_Injections := nd_Injections n; nd_Deletions := nd_Deletions n; nd_Advanced := nd_Advanced n;
  nd_Overrides := nd_Overrides n; nd_Delay := delay; nd_Commands := nd_Commands n; nd_External := nd_External n |}.

(** [m[key] = value] where a nil map is made first. *)
Definition made_insert {V} (key : string) (value : V) (m : option (gmap string V)) : option (gmap string V) :=
  Some (<[ key := value ]> (default ∅ m)).

Definition AddAnnotation (n : Node) (k : string) (i : any) : Node :=
  with_maps n (made_insert k i (nd_Annotations n)) (nd_Labels n) (nd_Advanced n) (nd_Overrides n).
Definition SetLabels (n : Node) (labels : option (gmap string string)) : Node :=
  with_maps n (nd_Annotations n) labels (nd_Advanced n) (nd_Overrides n).
Definition AddLabel (n : Node) (k v : string) : Node := SetLabels n (made_insert k v (nd_Labels n)).
Definition AddAdvanced (n : Node) (config value : string) : Node :=
  with_maps n (nd_Annotations n) (nd_Labels n) (made_insert config value (nd_Advanced n)) (nd_Overrides n).
Definition AddOverride (n : Node) (pattern replace : string) : Node :=
  with_maps n (nd_Annotations n) (nd_Labels n) (nd_Advanced n) (made_insert pattern replace (nd_Overrides n)).

(** A timer and a user delay are set in the delay that is there. *)
Definition AddTimerDelay (n : Node) (delay : string) : option Node :=
  d ← nd_Delay n; Some (with_delay n (Some {| dl_Timer := delay; dl_User := dl_User d; dl_C2 := dl_C2 d |})).
Definition AddUserDelay (n : Node) (delay : bool) : option Node :=
  d ← nd_Delay n; Some (with_delay n (Some {| dl_Timer := dl_Timer d; dl_User := delay; dl_C2 := dl_C2 d |})).
Definition AddC2Delay (n : Node) (hostname : string) (useuuid : bool) : Node :=
  with_delay n (Some {| dl_Timer := ""; dl_User := false; dl_C2 := [{| c2_Hostname := hostname; c2_UseUUID := useuuid |}] |}).

Definition no_network : Network := {| nw_Interfaces := []; nw_Routes := []; nw_OSPF := None; nw_Rulesets := []; nw_NAT := [] |}.

Definition new_interface (typ name vlan : string) : Interface := {|
  if_Name := name; if_Type := typ; if_Proto := ""; if_UDPPort := 0; if_BaudRate := 0; if_Device := ""; if_VLAN := vlan; if_Bridge := "";
  if_Autostart := false; if_MAC := ""; if_Driver := ""; if_MTU := 0; if_Address := ""; if_Mask := 0; if_Gateway := ""; if_DNS := [];
  if_QinQ := false; if_RulesetIn := ""; if_RulesetOut := ""; BridgeSetInTopo := None |}.

Definition AddHardware (n : Node) (os : string) (vcpu memory : Z) : Node :=
  with_hardware n (Some {| hw_CPU := ""; hw_VCPU := vcpu; hw_Memory := memory; hw_OSType := os; hw_Drives := [] |}).

Definition AddNetworkInterface (n : Node) (typ name vlan : string) : Node :=
  let w := default no_network (nd_Network n) in
  with_network n (Some (set_interfaces w (nw_Interfaces w ++ [Some (new_interface typ name vlan)]))).

Definition AddNetworkRoute (n : Node) (dest next : string) (cost : Z) : Node :=
  let w := default no_network (nd_Network n) in
  with_network n (Some {| nw_Interfaces := nw_Interfaces w; nw_Routes := nw_Routes w ++ [{| rt_Destination := dest; rt_Next := next; rt_Cost := Some cost |}];
                          nw_OSPF := nw_OSPF w; nw_Rulesets := nw_Rulesets w; nw_NAT := nw_NAT w |}).

(** The first element that the test holds for is changed, or one is added. *)
Fixpoint change_or_add {A} (f : A -> bool) (g : A -> A) (new : A) (l : list A) : list A :=
  match l with
  | [] => [new]
  | a :: l => if f a then g a :: l else a :: change_or_add f g new l
  end.

Definition injects_disabled (n : Node) : bool :=
  match nd_Labels n with Some labels => bool_decide (is_Some (labels !! "disable-injects")) | None => false end.

Definition AddInject (n : Node) (src dst perms desc : string) : Node :=
  if injects_disabled n then n
  else
    let new := {| in_Src := src; in_Dst := dst; in_Description := desc; in_Permissions := perms |} in
    with_files n (change_or_add (fun i => String.eqb (in_Dst i) dst) (fun _ => new) new (nd_Injections n)) (nd_Deletions n) (nd_Commands n).

Definition AddDeletion (n : Node) (path desc : string) : Node :=
  if injects_disabled n then n
  else
    let new := {| de_Path := path; de_Description := desc |} in
    with_files n (nd_Injections n) (change_or_add (fun d => String.eqb (de_Path d) path) (fun _ => new) new (nd_Deletions n)) (nd_Commands n).

Definition AddCommand (n : Node) (cmd : string) : Node :=
  if bool_decide (cmd ∈ nd_Commands n) then n else with_files n (nd_Injections n) (nd_Deletions n) (nd_Commands n ++ [cmd]).

Definition FileDeletions (n : Node) : string :=
  join "," (map (fun d => String (ascii_of_nat 34) (de_Path d +:+ String (ascii_of_nat 34) "")) (nd_Deletions n)).

(** [Hardware.DiskConfig]: the drives as minimega takes them, the first from
    the snapshot if there is one. *)
Definition disk_config (snapshot : string) (i : nat) (d : Drive) : string :=
  let image := if (i =? 0)%nat && negb (String.eqb snapshot "") then snapshot else dr_Image d in
  let iface := if String.eqb (dr_Iface d) "" then [] else [dr_Iface d] in
  let cache :=
    if String.eqb (dr_CacheMode d) "" then (if String.eqb snapshot "" then [] else ["writeback"]) else [dr_CacheMode d] in
  join "," ([image] ++ iface ++ cache).

Definition DiskConfig (h : Hardware) (snapshot : string) : string := join " " (imap (disk_config snapshot) (hw_Drives h)).

Definition GetInjectPartition (d : Drive) : Z := default 1 (dr_InjectPartition d).

End Data.

Arguments Node : clear implicits.
Arguments TopologySpec : clear implicits.

(** ** Validation and defaults *)

Section Init.
Context {any : Type} `{Unicode}.

(** The loop of [Node.validate] over interfaces: the names seen, and the
    gateways counted. *)
Fixpoint validate_interfaces (seen : gset string) (gateways : Z) (ifaces : list (option Interface)) : res text unit :=
  match ifaces with
  | [] => Ok tt
  | None :: ifaces => validate_interfaces seen gateways ifaces
  | Some i :: ifaces =>
      if negb (String.eqb (if_Name i) "") && bool_decide (if_Name i ∈ seen) then
        Err (Sprintf "interface name %q is defined more than once" [AStr (if_Name i)])
      else
        let seen := if String.eqb (if_Name i) "" then seen else {[ if_Name i ]} ∪ seen in
        if String.eqb (if_Gateway i) "" then validate_interfaces seen gateways ifaces
        else if bool_decide (ToLower (if_Proto i) ∈ ["dhcp"; "manual"]) then
          Err (Sprintf "interface %q sets a gateway but uses the %q protocol, where the gateway is ignored" [AStr (if_Name i); AStr (if_Proto i)])
        else if 1 <? gateways + 1 then Err (lit "internal nodes should not have more than one gateway interface")
        else validate_interfaces seen (gateways + 1) ifaces
  end.

(** [Node.validate]: the error, or nothing; the warning is only logged. *)
Definition validate (n : Node any) : res verror unit :=
  match nd_External n with
  | Some external =>
      if external then Ok tt
      else Err (VFail (lit "the external key should not be included for internal nodes (even if set to false)"))
  | None =>
      match nd_General n with
      | None => Err VPanic
      | Some g =>
          let osType := match nd_Hardware n with Some h => hw_OSType h | None => "" end in
          let? _ := res_map_err VFail (checkHostnameKeywords (ge_Hostname g) osType) in
          match nd_Network n with
          | None => Ok tt
          | Some w => res_map_err VFail (validate_interfaces ∅ 0 (nw_Interfaces w))
          end
      end
  end.

Definition default_general (g : General) : General := {|
  ge_Hostname := ge_Hostname g; ge_Description := ge_Description g;
  ge_VMType := if String.eqb (ge_VMType g) "" then "kvm" else ge_VMType g;
  ge_Snapshot := Some (default true (ge_Snapshot g)); ge_DoNotBoot := Some (default false (ge_DoNotBoot g)) |}.

Definition default_hardware (h : Hardware) : Hardware := {|
  hw_CPU := if String.eqb (hw_CPU h) "" then "Broadwell" else hw_CPU h;
  hw_VCPU := if hw_VCPU h =? 0 then 1 else hw_VCPU h;
  hw_Memory := if hw_Memory h =? 0 then 512 else hw_Memory h;
  hw_OSType := if String.eqb (hw_OSType h) "" then "linux" else hw_OSType h;
  hw_Drives := hw_Drives h |}.

(** [Node.setDefaults]; it dereferences the general and hardware sections. *)
Definition setDefaults (bridge : string) (n : Node any) : option (Node any) :=
  if External n then Some n
  else
    g ← nd_General n;
    h ← nd_Hardware n;
    w ← match nd_Network n with None => Some None | Some w => Some <$> SetDefaults bridge w end;
    Some {| nd_Annotations := nd_Annotations n; nd_Labels := nd_Labels n; nd_Type := nd_Type n; nd_General := Some (default_general g);
            nd_Hardware := Some (default_hardware h); nd_Network := w; nd_Injections := nd_Injections n; nd_Deletions := nd_Deletions n;
            nd_Advanced := Some (default ∅ (nd_Advanced n)); nd_Overrides := Some (default ∅ (nd_Overrides n)); nd_Delay := nd_Delay n;
            nd_Commands := nd_Commands n; nd_External := nd_External n |}.

(** [TopologySpec.Init]: the errors in order and the nodes, or a panic, which a
    nil node gives too. *)
Fixpoint init_nodes (bridge : string) (seen : gset string) (nodes : list (option (Node any))) : option (list text * list (option (Node any))) :=
  match nodes with
  | [] => Some ([], [])
  | n :: nodes =>
      n ← n;
      g ← nd_General n;
      let hostname := ge_Hostname g in
      let dup := if bool_decide (ToLower hostname ∈ seen) then [Sprintf "duplicate node hostname %q" [AStr hostname]] else [] in
      invalid ← match validate n with Ok _ => Some [] | Err VPanic => None | Err (VFail what) => Some [Sprintf ("validating node %s: " +:+ format what) (AStr hostname :: args what)] end;
      n ← setDefaults bridge n;
      '(errs, nodes) ← init_nodes bridge ({[ ToLower hostname ]} ∪ seen) nodes;
      Some (dup ++ invalid ++ errs, Some n :: nodes)
  end.

Definition Init (bridge : string) (t : TopologySpec any) : option (list text * TopologySpec any) :=
  '(errs, nodes) ← init_nodes bridge ∅ (ts_Nodes t);
  Some (errs, {| ts_IncludeTopologies := ts_IncludeTopologies t; ts_Nodes := nodes |}).

(** ** Finding nodes

    A host name is read through the node's general section, so that what looks
    at a node without one, or at a nil node, panics: the outer [option]. *)

Definition hostname_of (n : option (Node any)) : option string := n ← n; ge_Hostname <$> nd_General n.

Fixpoint filter_panic {A} (f : A -> option bool) (l : list A) : option (list A) :=
  match l with
  | [] => Some []
  | a :: l => keep ← f a; rest ← filter_panic f l; Some (if keep : bool then a :: rest else rest)
  end.

(** The index of the first element that the test holds for. *)
Fixpoint find_index {A} (f : A -> option bool) (l : list A) : option (option nat) :=
  match l with
  | [] => Some None
  | a :: l => found ← f a; if found : bool then Some (Some 0%nat) else i ← find_index f l; Some (option_map S i)
  end.

Definition BootableNodes (t : TopologySpec any) : option (list (option (Node any))) :=
  filter_panic (fun n => n ← n; (fun g => negb (default false (ge_DoNotBoot g))) <$> nd_General n) (ts_Nodes t).

Definition SchedulableNodes (t : TopologySpec any) : option (list (option (Node any))) :=
  filter_panic (fun n => (fun n => negb (External n)) <$> n) (ts_Nodes t).

Definition has_name (name : string) (n : option (Node any)) : option bool := n ← n; (fun g => String.eqb (ge_Hostname g) name) <$> nd_General n.

Definition FindNodeByName (t : TopologySpec any) (name : string) : option (option (Node any)) :=
  i ← find_index (has_name name) (ts_Nodes t); Some (i ≫= fun i => mjoin (ts_Nodes t !! i)).

(** Without labels no node is looked at. *)
Definition FindNodesWithLabels (t : TopologySpec any) (labels : list string) : option (list (option (Node any))) :=
  filter_panic (fun n =>
    if bool_decide (labels = []) then Some false
    else (fun n => existsb (fun l => match nd_Labels n with Some m => bool_decide (is_Some (m !! l)) | None => false end) labels) <$> n) (ts_Nodes t).

Definition FindDelayedNodes (t : TopologySpec any) : option (list (option (Node any))) :=
  filter_panic (fun n => (fun n => negb (String.eqb (Delayed n) "")) <$> n) (ts_Nodes t).

Definition on_vlan (vlan : string) (n : option (Node any)) : option bool :=
  n ← n; w ← nd_Network n; i ← find_index (fun i => i ← i; Some (String.eqb (if_VLAN i) vlan)) (nw_Interfaces w); Some (bool_decide (is_Some i)).

Definition FindNodesWithVLAN (t : TopologySpec any) (vlan : string) : option (list (option (Node any))) := filter_panic (on_vlan vlan) (ts_Nodes t).

Definition new_node (typ hostname : string) : Node any := {|
  nd_Annotations := None; nd_Labels := None; nd_Type := typ;
  nd_General := Some {| ge_Hostname := hostname; ge_Description := ""; ge_VMType := ""; ge_Snapshot := None; ge_DoNotBoot := None |};
  nd_Hardware := None; nd_Network := None; nd_Injections := []; nd_Deletions := []; nd_Advanced := None; nd_Overrides := None;
  nd_Delay := None; nd_Commands := []; nd_External := None |}.

Definition with_nodes (t : TopologySpec any) (nodes : list (option (Node any))) : TopologySpec any := {|
  ts_IncludeTopologies := ts_IncludeTopologies t; ts_Nodes := nodes |}.

Definition AddNode (t : TopologySpec any) (typ hostname : string) : TopologySpec any := with_nodes t (ts_Nodes t ++ [Some (new_node typ hostname)]).

Definition RemoveNode (t : TopologySpec any) (hostname : string) : option (TopologySpec any) :=
  i ← find_index (has_name hostname) (ts_Nodes t);
  Some (match i with Some i => with_nodes t (take i (ts_Nodes t) ++ drop (S i) (ts_Nodes t)) | None => t end).

Definition HasCommands (t : TopologySpec any) : option bool :=
  i ← find_index (fun n => (fun n => negb (bool_decide (nd_Commands n = []))) <$> n) (ts_Nodes t); Some (bool_decide (is_Some i)).

End Init.
