(* ===== verification/Codes.v ===== *)
(** * Issue codes (codes.go)

    The stable names of the rules the builder reports, the registry that gives
    each its default severity and the rule in one sentence, and the issue
    itself (validate.go). *)

From Stdlib Require Import ZArith Lia Ascii String.
From stdpp Require Import base option list gmap strings.
From S2P Require Import Prelude.

Inductive Severity : Type := SeverityError | SeverityWarning.

#[export] Instance severity_eq_dec : EqDecision Severity.
Proof. solve_decision. Defined.

Definition Code := string.

Record CodeInfo : Type := {
  info_code : Code;
  info_severity : Severity;
  info_description : string;
}.

#[export] Instance code_info_eq_dec : EqDecision CodeInfo.
Proof. solve_decision. Defined.

(** A double quote, for the texts that hold one. *)
Definition dq : string := String (ascii_of_nat 34) EmptyString.

Definition CodeDocumentInvalid : Code := "document.invalid".
Definition CodeDocumentContentMissing : Code := "document.content.missing".
Definition CodeDocumentSchemaMismatch : Code := "document.schema.mismatch".
Definition CodeDocumentRevisionMismatch : Code := "document.revision.mismatch".
Definition CodeDocumentListMissing : Code := "document.list.missing".
Definition CodeDocumentViewportNotFinite : Code := "document.viewport.not-finite".
Definition CodeDocumentZoomNotPositive : Code := "document.zoom.not-positive".
Definition CodeDocumentGridInvalid : Code := "document.grid.invalid".
Definition CodeDocumentIconSizeUnknown : Code := "document.icon-size.unknown".
Definition CodeDocumentLayoutNotText : Code := "document.layout.not-text".
Definition CodeDocumentFieldUnknown : Code := "document.field.unknown".
Definition CodeMetadataNotObject : Code := "metadata.not-object".
Definition CodeMetadataIDRequired : Code := "metadata.id.required".
Definition CodeMetadataIDInvalid : Code := "metadata.id.invalid".
Definition CodeMetadataNameTooLong : Code := "metadata.name.too-long".
Definition CodeMetadataNameControl : Code := "metadata.name.control".
Definition CodeMetadataUserNotText : Code := "metadata.user.not-text".
Definition CodeMetadataUserTooLong : Code := "metadata.user.too-long".
Definition CodeMetadataUserControl : Code := "metadata.user.control".
Definition CodeMetadataTimeNotText : Code := "metadata.time.not-text".
Definition CodeMetadataTimeInvalid : Code := "metadata.time.invalid".
Definition CodeMetadataNotesNotList : Code := "metadata.notes.not-list".
Definition CodeMetadataNotesTooMany : Code := "metadata.notes.too-many".
Definition CodeMetadataNoteNotText : Code := "metadata.note.not-text".
Definition CodeMetadataNoteBlank : Code := "metadata.note.blank".
Definition CodeMetadataNoteTooLong : Code := "metadata.note.too-long".
Definition CodeMetadataNoteControl : Code := "metadata.note.control".
Definition CodeNetworkIDRequired : Code := "network.id.required".
Definition CodeNetworkIDInvalid : Code := "network.id.invalid".
Definition CodeNetworkIDDuplicate : Code := "network.id.duplicate".
Definition CodeNetworkNameRequired : Code := "network.name.required".
Definition CodeNetworkNameWhitespace : Code := "network.name.whitespace".
Definition CodeNetworkNameDuplicate : Code := "network.name.duplicate".
Definition CodeNetworkLineStyle : Code := "network.line-style.unknown".
Definition CodeNetworkAliasRange : Code := "network.alias.out-of-range".
Definition CodeNetworkAliasDuplicate : Code := "network.alias.duplicate".
Definition CodeNetworkSwitchMissing : Code := "network.switch.missing".
Definition CodeNetworkSubnetInvalid : Code := "network.subnet.invalid".
Definition CodeNetworkGatewayInvalid : Code := "network.gateway.invalid".
Definition CodeNetworkGatewayOutside : Code := "network.gateway.outside-subnet".
Definition CodeNetworkGatewayUnowned : Code := "network.gateway.unowned".
Definition CodeNetworkSubnetOverlap : Code := "network.subnet.overlap".
Definition CodeNodeIDRequired : Code := "node.id.required".
Definition CodeNodeIDInvalid : Code := "node.id.invalid".
Definition CodeNodeIDDuplicate : Code := "node.id.duplicate".
Definition CodeNodePositionNotFinite : Code := "node.position.not-finite".
Definition CodeNodeSizeInvalid : Code := "node.size.invalid".
Definition CodeNodeKindUnknown : Code := "node.kind.unknown".
Definition CodeNodePayloadMissing : Code := "node.payload.missing".
Definition CodeNodePayloadExtra : Code := "node.payload.extra".
Definition CodeNodeHostnameRequired : Code := "node.hostname.required".
Definition CodeNodeHostnameWhitespace : Code := "node.hostname.whitespace".
Definition CodeNodeHostnameDuplicate : Code := "node.hostname.duplicate".
Definition CodeNodeHostnameShort : Code := "node.hostname.short".
Definition CodeNodeHostnameReserved : Code := "node.hostname.reserved".
Definition CodeNodeHostnameNumeric : Code := "node.hostname.numeric".
Definition CodeNodeHostnameWindows : Code := "node.hostname.windows-phenix".
Definition CodeNodeHostnameReservedCase : Code := "node.hostname.reserved-case".
Definition CodeNodeHostnamePhenix : Code := "node.hostname.phenix".
Definition CodeNodeParentSelf : Code := "node.parent.self".
Definition CodeNodeParentUnknown : Code := "node.parent.unknown".
Definition CodeNodeParentNotGroup : Code := "node.parent.not-group".
Definition CodeNodeParentCycle : Code := "node.parent.cycle".
Definition CodeDeviceSpecRequired : Code := "device.spec.required".
Definition CodeDeviceHostnameMismatch : Code := "device.hostname.mismatch".
Definition CodeDeviceIconKeyUnknown : Code := "device.icon-key.unknown".
Definition CodeDeviceIconInvalid : Code := "device.icon.invalid".
Definition CodeDeviceIconSizeUnknown : Code := "device.icon-size.unknown".
Definition CodeDeviceColorInvalid : Code := "device.color.invalid".
Definition CodeDeviceLayerRange : Code := "device.layer.out-of-range".
Definition CodeDeviceHideDescriptionType : Code := "device.hide-description.not-boolean".
Definition CodeDeviceIncludedFromInvalid : Code := "device.included-from.invalid".
Definition CodeDeviceIncludedFromNoSource : Code := "device.included-from.no-includes".
Definition CodeDeviceInterfacesNone : Code := "device.interfaces.none".
Definition CodeDeviceDrivesNone : Code := "device.drives.none".
Definition CodeDeviceImageUnknown : Code := "device.image.unknown".
Definition CodeDeviceRulesetsIgnored : Code := "device.rulesets.ignored".
Definition CodeDeviceRouterOSUnsupported : Code := "device.router-os.unsupported".
Definition CodeDeviceInterfacesUnset : Code := "device.interfaces.unconfigured".
Definition CodeDeviceSerialUnset : Code := "device.serial.unconfigured".
Definition CodeDeviceInjectionsUnapplied : Code := "device.injections.unapplied".
Definition CodeDeviceOSPFMissing : Code := "device.ospf.missing".
Definition CodeDeviceOSPFUnused : Code := "device.ospf.unused".
Definition CodeDeviceOSPFNetworkUnused : Code := "device.ospf-network.unused".
Definition CodeDeviceNTPServerInvalid : Code := "device.ntp-server.invalid".
Definition CodeDeviceNTPServerIgnored : Code := "device.ntp-server.ignored".
Definition CodeDeviceNTPServerNoMgmt : Code := "device.ntp-server.no-mgmt".
Definition CodeDeviceEnableSSHInvalid : Code := "device.enable-ssh.invalid".
Definition CodeDeviceAutotunnelInvalid : Code := "device.autotunnel.invalid".
Definition CodeDeviceDefaultAppsInvalid : Code := "device.default-apps.invalid".
Definition CodeInterfaceIDRequired : Code := "interface.id.required".
Definition CodeInterfaceIDInvalid : Code := "interface.id.invalid".
Definition CodeInterfaceIDDuplicate : Code := "interface.id.duplicate".
Definition CodeInterfaceNameRequired : Code := "interface.name.required".
Definition CodeInterfaceNameDuplicate : Code := "interface.name.duplicate".
Definition CodeInterfaceNameUnmatched : Code := "interface.name.unmatched".
Definition CodeInterfaceVLANMissing : Code := "interface.vlan.missing".
Definition CodeInterfaceVLANImplicit : Code := "interface.vlan.implicit".
Definition CodeInterfaceVLANCase : Code := "interface.vlan.case-mismatch".
Definition CodeInterfaceVLANUnknown : Code := "interface.vlan.unknown".
Definition CodeInterfaceNetworkNone : Code := "interface.network.unconnected".
Definition CodeInterfaceIPShared : Code := "interface.ip.shared".
Definition CodeInterfaceMACShared : Code := "interface.mac.shared".
Definition CodeInterfaceIPOutside : Code := "interface.ip.outside-subnet".
Definition CodeInterfaceRulesetUnknown : Code := "interface.ruleset.unknown".
Definition CodeInterfaceOSPFOutside : Code := "interface.ospf.outside-area".
Definition CodeSwitchNetworkRequired : Code := "switch.network.required".
Definition CodeSwitchNetworkUnknown : Code := "switch.network.unknown".
Definition CodeSwitchColorInvalid : Code := "switch.color.invalid".
Definition CodeSwitchIconSizeUnknown : Code := "switch.icon-size.unknown".
Definition CodeSwitchLayerRange : Code := "switch.layer.out-of-range".
Definition CodeGroupBorderStyleUnknown : Code := "group.border-style.unknown".
Definition CodeGroupIconKeyUnknown : Code := "group.icon-key.unknown".
Definition CodeGroupIconInvalid : Code := "group.icon.invalid".
Definition CodeGroupIconSizeUnknown : Code := "group.icon-size.unknown".
Definition CodeGroupHideDescriptionType : Code := "group.hide-description.not-boolean".
Definition CodeDrawingShapeUnknown : Code := "drawing.shape.unknown".
Definition CodeDrawingColorInvalid : Code := "drawing.color.invalid".
Definition CodeDrawingBorderStyleUnknown : Code := "drawing.border-style.unknown".
Definition CodeDrawingIconAmbiguous : Code := "drawing.icon.ambiguous".
Definition CodeDrawingIconKeyUnknown : Code := "drawing.icon-key.unknown".
Definition CodeDrawingIconInvalid : Code := "drawing.icon.invalid".
Definition CodeDrawingPointsTooFew : Code := "drawing.points.too-few".
Definition CodeDrawingPointsTooMany : Code := "drawing.points.too-many".
Definition CodeDrawingPointsNotFinite : Code := "drawing.points.not-finite".
Definition CodeDrawingLineStyleUnknown : Code := "drawing.line-style.unknown".
Definition CodeDrawingArrowNotBoolean : Code := "drawing.arrow.not-boolean".
Definition CodeEdgeIDRequired : Code := "edge.id.required".
Definition CodeEdgeIDInvalid : Code := "edge.id.invalid".
Definition CodeEdgeIDDuplicate : Code := "edge.id.duplicate".
Definition CodeEdgeRouteTooFew : Code := "edge.route.too-few".
Definition CodeEdgeRouteNotFinite : Code := "edge.route.not-finite".
Definition CodeEdgeLineStyleUnknown : Code := "edge.line-style.unknown".
Definition CodeEdgeSourceUnknown : Code := "edge.source.unknown".
Definition CodeEdgeTargetUnknown : Code := "edge.target.unknown".
Definition CodeEdgeEndpointsSame : Code := "edge.endpoints.same".
Definition CodeEdgeEndpointsInvalid : Code := "edge.endpoints.invalid".
Definition CodeEdgeHandleUnknown : Code := "edge.handle.unknown".
Definition CodeEdgeInterfaceTaken : Code := "edge.interface.connected".
Definition CodeEdgeNetworkRequired : Code := "edge.network.required".
Definition CodeEdgeNetworkUnknown : Code := "edge.network.unknown".
Definition CodeEdgeNetworkMismatch : Code := "edge.network.mismatch".
Definition CodeScenarioListTooMany : Code := "scenario.list.too-many".
Definition CodeScenarioNameRequired : Code := "scenario.name.required".
Definition CodeScenarioNameTooLong : Code := "scenario.name.too-long".
Definition CodeScenarioNameInvalid : Code := "scenario.name.invalid".
Definition CodeScenarioNameDuplicate : Code := "scenario.name.duplicate".
Definition CodeLayerListTooMany : Code := "layer.list.too-many".
Definition CodeLayerIDRange : Code := "layer.id.out-of-range".
Definition CodeLayerIDDuplicate : Code := "layer.id.duplicate".
Definition CodeLayerLabelRequired : Code := "layer.label.required".
Definition CodeLayerLabelTooLong : Code := "layer.label.too-long".
Definition CodeLayerLabelControl : Code := "layer.label.control".
Definition CodeLayerIconKeyUnknown : Code := "layer.icon-key.unknown".
Definition CodeLayerIconInvalid : Code := "layer.icon.invalid".
Definition CodeLayerColorInvalid : Code := "layer.color.invalid".
Definition CodeLayerMatchersNotObject : Code := "layer.matchers.not-object".
Definition CodeLayerMatchersTooMany : Code := "layer.matchers.too-many".
Definition CodeLayerMatcherPathTooLong : Code := "layer.matcher-path.too-long".
Definition CodeLayerMatcherPathInvalid : Code := "layer.matcher-path.invalid".
Definition CodeLayerMatcherPatternNotText : Code := "layer.matcher-pattern.not-text".
Definition CodeLayerMatcherPatternRequired : Code := "layer.matcher-pattern.required".
Definition CodeLayerMatcherPatternTooLong : Code := "layer.matcher-pattern.too-long".
Definition CodeLayerMatcherPatternInvalid : Code := "layer.matcher-pattern.invalid".
Definition CodeLayerSetNotObject : Code := "layerset.not-object".
Definition CodeLayerSetNameRequired : Code := "layerset.name.required".
Definition CodeLayerSetNameTooLong : Code := "layerset.name.too-long".
Definition CodeLayerSetNameControl : Code := "layerset.name.control".
Definition CodeLayerSetDescriptionTooLong : Code := "layerset.description.too-long".
Definition CodeLayerSetDescriptionControl : Code := "layerset.description.control".
Definition CodeLayerSetIconKeyUnknown : Code := "layerset.icon-key.unknown".
Definition CodeLayerSetIconInvalid : Code := "layerset.icon.invalid".
Definition CodeLayerSetMatchConflictUnknown : Code := "layerset.match-conflict.unknown".
Definition CodeLayerSetOutlinesNotBoolean : Code := "layerset.layer-outlines.not-boolean".
Definition CodeLayerSetLayersEmpty : Code := "layerset.layers.empty".
Definition CodeLayerSetSourceIDInvalid : Code := "layerset.source-id.invalid".
Definition CodeLayerSetSourceVersionInvalid : Code := "layerset.source-version.invalid".
Definition CodeLayerSetFileSchemaMismatch : Code := "layerset.file.schema-mismatch".
Definition CodeLayerSetInvalid : Code := "layerset.invalid".
Definition CodeLayerSetReadOnly : Code := "layerset.read-only".
Definition CodeLayerSetStale : Code := "layerset.stale".
Definition CodeLayerSetLibraryFull : Code := "layerset.library.full".
Definition CodeLayerSetDefaultUnknown : Code := "layerset.default.unknown".
Definition CodeSourceKindUnknown : Code := "source.kind.unknown".
Definition CodeSourceDigestMalformed : Code := "source.digest.malformed".
Definition CodeSourceAnnotationsNotMap : Code := "source.annotations.not-object".
Definition CodeSourceAnnotationsTooMany : Code := "source.annotations.too-many".
Definition CodeSourceAnnotationsTooLarge : Code := "source.annotations.too-large".
Definition CodeSourceAnnotationNotText : Code := "source.annotation.not-text".
Definition CodeSourceAnnotationKeyBlank : Code := "source.annotation-key.blank".
Definition CodeSourceAnnotationKeyLong : Code := "source.annotation-key.too-long".
Definition CodeSourceAnnotationKeyCtrl : Code := "source.annotation-key.control".
Definition CodeIncludeListNotList : Code := "include.list.not-list".
Definition CodeIncludeNameRequired : Code := "include.name.required".
Definition CodeIncludeNameWhitespace : Code := "include.name.whitespace".
Definition CodeTemplateListNotList : Code := "template.list.not-list".
Definition CodeTemplateListTooMany : Code := "template.list.too-many".
Definition CodeTemplateIDRequired : Code := "template.id.required".
Definition CodeTemplateIDInvalid : Code := "template.id.invalid".
Definition CodeTemplateIDDuplicate : Code := "template.id.duplicate".
Definition CodeTemplateNameRequired : Code := "template.name.required".
Definition CodeTemplateNameTooLong : Code := "template.name.too-long".
Definition CodeTemplateNameControl : Code := "template.name.control".
Definition CodeTemplateNameDuplicate : Code := "template.name.duplicate".
Definition CodeTemplateDescriptionTooLong : Code := "template.description.too-long".
Definition CodeTemplateDescriptionControl : Code := "template.description.control".
Definition CodeTemplateSpecRequired : Code := "template.spec.required".
Definition CodeTemplateHostnameRequired : Code := "template.hostname.required".
Definition CodeTemplateHostnameWhitespace : Code := "template.hostname.whitespace".
Definition CodeTemplateIconKeyUnknown : Code := "template.icon-key.unknown".
Definition CodeTemplateIconInvalid : Code := "template.icon.invalid".
Definition CodeTemplateIconSizeUnknown : Code := "template.icon-size.unknown".
Definition CodeTemplateColorInvalid : Code := "template.color.invalid".
Definition CodeTemplateLayerRange : Code := "template.layer.out-of-range".
Definition CodeTemplateHideDescriptionType : Code := "template.hide-description.not-boolean".
Definition CodeTemplateDeviceUnencodable : Code := "template.device.unencodable".
Definition CodeTemplateDeviceTooLarge : Code := "template.device.too-large".
Definition CodeTemplateSourceKindUnknown : Code := "template.source.kind-unknown".
Definition CodeTemplateSourceIDInvalid : Code := "template.source.id-invalid".
Definition CodeTemplateSourceVersionInvalid : Code := "template.source.version-invalid".
Definition CodeTemplateSourceDigestInvalid : Code := "template.source.digest-invalid".
Definition CodeTemplateFileInvalid : Code := "template.file.invalid".
Definition CodeTemplateFileSchemaMismatch : Code := "template.file.schema-mismatch".
Definition CodeTemplateFileEmpty : Code := "template.file.empty".
Definition CodeTemplateFileTooMany : Code := "template.file.too-many".
Definition CodeTemplateCollectionRequired : Code := "template.collection-name.required".
Definition CodeTemplateCollectionTooLong : Code := "template.collection-name.too-long".
Definition CodeTemplateCollectionControl : Code := "template.collection-name.control".
Definition CodeTemplateCollectionDescLong : Code := "template.collection-description.too-long".
Definition CodeTemplateCollectionDescControl : Code := "template.collection-description.control".
Definition CodeTemplateItemReadOnly : Code := "template.item.read-only".
Definition CodeTemplateItemStale : Code := "template.item.stale".
Definition CodeIconListNotObject : Code := "icon.list.not-object".
Definition CodeIconListTooMany : Code := "icon.list.too-many".
Definition CodeIconNameInvalid : Code := "icon.name.invalid".
Definition CodeIconDataInvalid : Code := "icon.data.invalid".
Definition CodeIconPNGInvalid : Code := "icon.png.invalid".
Definition CodePackageInvalid : Code := "package.invalid".
Definition CodePackageTooLarge : Code := "package.too-large".
Definition CodePackageSchemaMismatch : Code := "package.schema.mismatch".
Definition CodePackageDocumentMissing : Code := "package.document.missing".
Definition CodePackageDocumentInvalid : Code := "package.document.invalid".
Definition CodePackageConfigsTooMany : Code := "package.configs.too-many".
Definition CodePackageConfigKeyInvalid : Code := "package.config-key.invalid".
Definition CodePackageConfigKindMismatch : Code := "package.config-kind.mismatch".
Definition CodePackageConfigNameMismatch : Code := "package.config-name.mismatch".
Definition CodePackageConfigVersionInvalid : Code := "package.config-api-version.invalid".
Definition CodePackageConfigSpecMissing : Code := "package.config-spec.missing".
Definition CodePackageConfigUnlisted : Code := "package.config.unlisted".
Definition CodePackageConfigBuilderNote : Code := "package.config-annotation.builder".
Definition CodePackageRequirementsMissing : Code := "package.requirements.missing".
Definition CodePackageRequirementsTooMany : Code := "package.requirements.too-many".
Definition CodePackageRequirementBlank : Code := "package.requirement.blank".
Definition CodePackageRequirementTooLong : Code := "package.requirement.too-long".
Definition CodePackageRequirementControl : Code := "package.requirement.control".
Definition CodePackageConfigUnreadable : Code := "package.config.unreadable".
Definition CodePackageIncludeFilePath : Code := "package.include.file-path".
Definition CodePackageIconMissing : Code := "package.icon.missing".
Definition CodePackageIconsTooMany : Code := "package.icons.too-many".
Definition CodePackageRequirementLeftOut : Code := "package.requirement.left-out".
Definition CodePackageRequirementsTruncated : Code := "package.requirements.truncated".
Definition CodePublishBlocked : Code := "publish.blocked".
Definition CodePublishTopologyInvalid : Code := "publish.topology.invalid".
Definition CodePublishTopologyExists : Code := "publish.topology.exists".
Definition CodePublishTopologyMissing : Code := "publish.topology.missing".
Definition CodePublishTopologyNotSource : Code := "publish.topology.not-source".
Definition CodePublishTopologyChanged : Code := "publish.topology.changed".
Definition CodePublishTopologyFileMismatch : Code := "publish.topology.file-mismatch".
Definition CodePublishTopologyFileChanged : Code := "publish.topology.file-changed".
Definition CodePublishExperimentExists : Code := "publish.experiment.exists".
Definition CodePublishExperimentMissing : Code := "publish.experiment.missing".
Definition CodePublishExperimentNotSource : Code := "publish.experiment.not-source".
Definition CodePublishExperimentChanged : Code := "publish.experiment.changed".
Definition CodePublishExperimentRunning : Code := "publish.experiment.running".
Definition CodePublishExperimentInvalid : Code := "publish.experiment.invalid".
Definition CodePublishExperimentReserved : Code := "publish.experiment.reserved".
Definition CodePublishExperimentNameLong : Code := "publish.experiment.name-too-long".
Definition CodePublishExperimentUnmerged : Code := "publish.experiment.unmergeable".
Definition CodePublishSourceChanged : Code := "publish.source.changed".
Definition CodePublishScenarioMissing : Code := "publish.scenario.missing".
Definition CodePublishScenarioNotListed : Code := "publish.scenario.not-listed".
Definition CodePublishScenarioInvalid : Code := "publish.scenario.invalid".
Definition CodePublishIncludeClash : Code := "publish.include.clash".
Definition CodePublishIncludeHostname : Code := "publish.include.hostname".
Definition CodePublishTargetInvalid : Code := "publish.target.invalid".
Definition CodePublishStageFailed : Code := "publish.stage.failed".
Definition CodePublishCleanupFailed : Code := "publish.cleanup.failed".
Definition CodePublishBroadcastFailed : Code := "publish.broadcast.failed".
Definition CodePublishFileUnchanged : Code := "publish.file.unchanged".
Definition CodePublishLegacyReplaced : Code := "publish.legacy.replaced".
Definition CodePublishLegacyRemoved : Code := "publish.legacy.removed".
Definition CodePublishExperimentUnrecorded : Code := "publish.experiment.unrecorded".
Definition CodePublishExperimentPins : Code := "publish.experiment.pins-removed".
Definition CodePublishScenarioPartial : Code := "publish.scenario.partial".
Definition CodePublishRetryComplete : Code := "publish.retry.complete".
Definition CodePublishRetryAvailable : Code := "publish.retry.available".
Definition CodePreflightCapacityCPU : Code := "preflight.capacity.cpu".
Definition CodePreflightCapacityMemory : Code := "preflight.capacity.memory".
Definition CodePreflightCapacityVMTooBig : Code := "preflight.capacity.vm-too-large".
Definition CodePreflightNetworkVLANRange : Code := "preflight.network.vlan-range".
Definition CodePreflightNetworkAliasInUse : Code := "preflight.network.alias-in-use".
Definition CodePreflightNetworkBridge : Code := "preflight.network.bridge-missing".
Definition CodePreflightDiskMissing : Code := "preflight.disk.missing".
Definition CodePreflightDiskKind : Code := "preflight.disk.kind".
Definition CodePreflightAppMissing : Code := "preflight.app.missing".
Definition CodePreflightScenarioMissing : Code := "preflight.app.scenario-missing".
Definition CodePreflightScenarioUnread : Code := "preflight.app.scenario-unreadable".
Definition CodePreflightUnavailable : Code := "preflight.unavailable".
Definition CodeDraftStale : Code := "draft.stale".
Definition CodeDraftConflict : Code := "draft.conflict".
Definition CodeDraftSnapshotCurrent : Code := "draft.snapshot.current".
Definition CodeDraftLimit : Code := "draft.limit".
Definition CodeImportNameInvalid : Code := "import.name.invalid".
Definition CodeImportNameSource : Code := "import.name.source".
Definition CodeRequestInvalid : Code := "request.invalid".
Definition CodeRequestForbidden : Code := "request.forbidden".
Definition CodeRequestNotFound : Code := "request.not-found".
Definition CodeRequestMethodNotAllowed : Code := "request.method-not-allowed".
Definition CodeRequestConflict : Code := "request.conflict".
Definition CodeRequestStale : Code := "request.stale".
Definition CodeRequestTooLarge : Code := "request.too-large".
Definition CodeRequestUnprocessable : Code := "request.unprocessable".
Definition CodeServerError : Code := "server.error".
Definition CodeServerBusy : Code := "server.busy".

Local Notation info c s d := {| info_code := c; info_severity := s; info_description := d |}.

Definition codeRegistry : list CodeInfo := [
  info CodeDocumentInvalid SeverityError
    ("The document does not validate. The issues field lists each reason.");
  info CodeDocumentContentMissing SeverityError
    ("There is no document at all.");
  info CodeDocumentSchemaMismatch SeverityError
    ("The document's $schema is not the Builder document schema.");
  info CodeDocumentRevisionMismatch SeverityError
    ("The document's revision is not the one this phenix reads.");
  info CodeDocumentListMissing SeverityError
    ("nodes, networks or edges is missing, null or not a list.");
  info CodeDocumentViewportNotFinite SeverityError
    ("A viewport value is not a finite number.");
  info CodeDocumentZoomNotPositive SeverityError
    ("The viewport zoom is not a positive number.");
  info CodeDocumentGridInvalid SeverityError
    ("The grid size is not a whole number from 4 to 200.");
  info CodeDocumentIconSizeUnknown SeverityError
    ("The document's icon size is not small, medium or large.");
  info CodeDocumentLayoutNotText SeverityError
    ("The document's layout is not text.");
  info CodeDocumentFieldUnknown SeverityError
    ("An object of the document holds a key that is not one of its fields.");
  info CodeMetadataNotObject SeverityError
    ("The document's metadata is not an object.");
  info CodeMetadataIDRequired SeverityError
    ("The document has no ID.");
  info CodeMetadataIDInvalid SeverityError
    ("The document ID is not a UUID.");
  info CodeMetadataNameTooLong SeverityError
    ("The document name is longer than 512 bytes.");
  info CodeMetadataNameControl SeverityError
    ("The document name holds a control character.");
  info CodeMetadataUserNotText SeverityError
    ("createdBy or updatedBy is not text.");
  info CodeMetadataUserTooLong SeverityError
    ("createdBy or updatedBy is longer than 256 bytes.");
  info CodeMetadataUserControl SeverityError
    ("createdBy or updatedBy holds a control character.");
  info CodeMetadataTimeNotText SeverityError
    ("createdAt or updatedAt is not text.");
  info CodeMetadataTimeInvalid SeverityError
    ("createdAt or updatedAt is not a UTC time of the form YYYY-MM-DDTHH:MM:SSZ.");
  info CodeMetadataNotesNotList SeverityError
    ("The diagram's notes are not a list of text.");
  info CodeMetadataNotesTooMany SeverityError
    ("The diagram has more than 100 notes.");
  info CodeMetadataNoteNotText SeverityError
    ("A note of the diagram is not text.");
  info CodeMetadataNoteBlank SeverityError
    ("A note of the diagram is blank.");
  info CodeMetadataNoteTooLong SeverityError
    ("A note of the diagram is longer than 4096 bytes.");
  info CodeMetadataNoteControl SeverityError
    ("A note of the diagram holds a control character other than newline and tab.");
  info CodeNetworkIDRequired SeverityError
    ("A network has no ID.");
  info CodeNetworkIDInvalid SeverityError
    ("A network ID is not a UUID.");
  info CodeNetworkIDDuplicate SeverityError
    ("Two networks have the same ID, ignoring case.");
  info CodeNetworkNameRequired SeverityError
    ("A network has no name.");
  info CodeNetworkNameWhitespace SeverityError
    ("A network name holds white space.");
  info CodeNetworkNameDuplicate SeverityError
    ("Two networks have exactly the same name.");
  info CodeNetworkLineStyle SeverityError
    ("A network's line style is not one the Builder draws.");
  info CodeNetworkAliasRange SeverityError
    ("A network's VLAN alias is not from 1 to 4094.");
  info CodeNetworkAliasDuplicate SeverityError
    ("Two networks have the same VLAN alias.");
  info CodeNetworkSwitchMissing SeverityWarning
    ("A network has no switch on the canvas.");
  info CodeNetworkSubnetInvalid SeverityError
    ("A network's subnet is not an IPv4 network such as 10.1.0.0/24.");
  info CodeNetworkGatewayInvalid SeverityError
    ("A network's gateway is not an IPv4 address.");
  info CodeNetworkGatewayOutside SeverityError
    ("A network's gateway is not a host address of its subnet.");
  info CodeNetworkGatewayUnowned SeverityWarning
    ("No interface on a network has the network's gateway address.");
  info CodeNetworkSubnetOverlap SeverityWarning
    ("The subnets of two networks overlap. It is a problem only for networks that connect, not for isolated enclaves that reuse a subnet on purpose.");
  info CodeNodeIDRequired SeverityError
    ("A node has no ID.");
  info CodeNodeIDInvalid SeverityError
    ("A node ID is not a UUID.");
  info CodeNodeIDDuplicate SeverityError
    ("Two nodes have the same ID, ignoring case.");
  info CodeNodePositionNotFinite SeverityError
    ("A node's position is not finite numbers.");
  info CodeNodeSizeInvalid SeverityError
    ("A node's size is not positive finite numbers.");
  info CodeNodeKindUnknown SeverityError
    ("A node's kind is not one the Builder knows.");
  info CodeNodePayloadMissing SeverityError
    ("A node lacks the payload of its kind.");
  info CodeNodePayloadExtra SeverityError
    ("A node carries the payload of another kind.");
  info CodeNodeHostnameRequired SeverityError
    ("A device has no hostname.");
  info CodeNodeHostnameWhitespace SeverityError
    ("A device hostname holds white space.");
  info CodeNodeHostnameDuplicate SeverityError
    ("Two devices have the same hostname, ignoring case.");
  info CodeNodeHostnameShort SeverityError
    ("A device hostname is 1 character long, which phenix refuses.");
  info CodeNodeHostnameReserved SeverityError
    ("A device hostname is " +:+ dq +:+ "all" +:+ dq +:+ ", which minimega takes for every VM.");
  info CodeNodeHostnameNumeric SeverityError
    ("A device hostname is all digits, which phenix refuses in an experiment.");
  info CodeNodeHostnameWindows SeverityError
    ("A Windows device has the hostname " +:+ dq +:+ "phenix" +:+ dq +:+ ", which phenix refuses in an experiment.");
  info CodeNodeHostnameReservedCase SeverityWarning
    ("A device hostname differs from " +:+ dq +:+ "all" +:+ dq +:+ " only by case.");
  info CodeNodeHostnamePhenix SeverityWarning
    ("A device that is not Windows has the hostname " +:+ dq +:+ "phenix" +:+ dq +:+ ", the hostname of phenix's own images.");
  info CodeNodeParentSelf SeverityError
    ("A node is its own parent.");
  info CodeNodeParentUnknown SeverityError
    ("A node's parent is no node of the document.");
  info CodeNodeParentNotGroup SeverityError
    ("A node's parent is not a group.");
  info CodeNodeParentCycle SeverityError
    ("Groups contain each other in a cycle.");
  info CodeDeviceSpecRequired SeverityError
    ("A device has no spec.");
  info CodeDeviceHostnameMismatch SeverityWarning
    ("The spec of a device names a hostname other than the device hostname. The topology uses the device hostname.");
  info CodeDeviceIconKeyUnknown SeverityError
    ("A device's icon key is not a built-in icon.");
  info CodeDeviceIconInvalid SeverityError
    ("A device's custom icon is not an icon name.");
  info CodeDeviceIconSizeUnknown SeverityError
    ("A device's icon size is not small, medium or large.");
  info CodeDeviceColorInvalid SeverityError
    ("A device's outline or fill color is not #rrggbb.");
  info CodeDeviceLayerRange SeverityError
    ("A device's layer is not an integer from 0 to 99.");
  info CodeDeviceHideDescriptionType SeverityError
    ("A device's hideDescription is not true or false.");
  info CodeDeviceIncludedFromInvalid SeverityError
    ("A device names an included topology, but the name is blank or holds white space.");
  info CodeDeviceIncludedFromNoSource SeverityError
    ("A device names an included topology, but the document includes no topology.");
  info CodeDeviceInterfacesNone SeverityWarning
    ("A device has no interfaces.");
  info CodeDeviceDrivesNone SeverityError
    ("A device phenix starts has no drive, which blocks publishing.");
  info CodeDeviceImageUnknown SeverityWarning
    ("A device's drive image is not one of the server's disk images.");
  info CodeDeviceRulesetsIgnored SeverityWarning
    ("A device that is not a Router or a Firewall has firewall rulesets, which phenix does not apply.");
  info CodeDeviceRouterOSUnsupported SeverityWarning
    ("A Router or Firewall has an os_type other than vyatta, vyos or minirouter, so phenix does not configure it as a router.");
  info CodeDeviceInterfacesUnset SeverityWarning
    ("A device has static interfaces, but its os_type is one for which phenix writes no interface configuration.");
  info CodeDeviceSerialUnset SeverityWarning
    ("A device has serial interfaces, but phenix sets them up only when its os_type is linux.");
  info CodeDeviceInjectionsUnapplied SeverityWarning
    ("A device has file injections or deletions that phenix does not apply, because its snapshot is off or its first drive's inject partition is 0.");
  info CodeDeviceOSPFMissing SeverityError
    ("A Vyatta or VyOS router has an interface with proto ospf but no network.ospf, so the experiment fails to start, which blocks publishing.");
  info CodeDeviceOSPFUnused SeverityWarning
    ("A minirouter has network.ospf, but none of its interfaces has proto ospf.");
  info CodeDeviceOSPFNetworkUnused SeverityWarning
    ("An OSPF area network of a minirouter holds the address of none of its interfaces with proto ospf, so minirouter does not advertise it.");
  info CodeDeviceNTPServerInvalid SeverityError
    ("The ntp-server label names no interface of its device, or one with no IP address, so the experiment fails to start, which blocks publishing.");
  info CodeDeviceNTPServerIgnored SeverityWarning
    ("More than one device has the ntp-server label, and phenix uses only the first.");
  info CodeDeviceNTPServerNoMgmt SeverityWarning
    ("Routers get their NTP server from an interface of the ntp-server device on VLAN mgmt, and it has none.");
  info CodeDeviceEnableSSHInvalid SeverityWarning
    ("The vrouter/enable-ssh annotation of a Vyatta or VyOS router is neither an IP address nor the name of an interface with an address.");
  info CodeDeviceAutotunnelInvalid SeverityWarning
    ("The phenix/startup-autotunnel annotation is not a list of " +:+ dq +:+ "port" +:+ dq +:+ ", " +:+ dq +:+ "port:dport" +:+ dq +:+ " or " +:+ dq +:+ "port:host:dport" +:+ dq +:+ " texts.");
  info CodeDeviceDefaultAppsInvalid SeverityWarning
    ("The phenix/default-apps annotation is not true or false.");
  info CodeInterfaceIDRequired SeverityError
    ("A connection point has no ID.");
  info CodeInterfaceIDInvalid SeverityError
    ("A connection point ID is not a UUID.");
  info CodeInterfaceIDDuplicate SeverityError
    ("Two connection points have the same ID, ignoring case.");
  info CodeInterfaceNameRequired SeverityError
    ("A connection point has no name.");
  info CodeInterfaceNameDuplicate SeverityError
    ("Two connection points of a device have the same name, ignoring case.");
  info CodeInterfaceNameUnmatched SeverityWarning
    ("A connection point names no interface of the device's spec, so publishing drops it.");
  info CodeInterfaceVLANMissing SeverityError
    ("An interface of a device phenix starts has no VLAN, which blocks publishing.");
  info CodeInterfaceVLANImplicit SeverityWarning
    ("A publish puts an unconnected interface on the network of the diagram that its VLAN names.");
  info CodeInterfaceVLANCase SeverityWarning
    ("An interface's VLAN differs from a network's name only in case, and phenix does not match them.");
  info CodeInterfaceVLANUnknown SeverityWarning
    ("An interface's VLAN names no network of the diagram.");
  info CodeInterfaceNetworkNone SeverityWarning
    ("An interface is not connected to a network.");
  info CodeInterfaceIPShared SeverityError
    ("Interfaces on one network use the same IP address, which blocks publishing.");
  info CodeInterfaceMACShared SeverityError
    ("Interfaces on one network use the same MAC address, which blocks publishing.");
  info CodeInterfaceIPOutside SeverityWarning
    ("An interface's IP address is not a host address of the subnet of its network.");
  info CodeInterfaceRulesetUnknown SeverityWarning
    ("An interface names a firewall ruleset that its device does not have, so phenix applies no firewall to that interface.");
  info CodeInterfaceOSPFOutside SeverityWarning
    ("An interface with proto ospf of a minirouter is in no OSPF area network of the device, or the device has no network.ospf. As a result, the interface is in no OSPF area.");
  info CodeSwitchNetworkRequired SeverityError
    ("A switch names no network.");
  info CodeSwitchNetworkUnknown SeverityError
    ("A switch names a network the document does not have.");
  info CodeSwitchColorInvalid SeverityError
    ("A switch's outline or fill color is not #rrggbb.");
  info CodeSwitchIconSizeUnknown SeverityError
    ("A switch's icon size is not small, medium or large.");
  info CodeSwitchLayerRange SeverityError
    ("A switch's layer is not an integer from 0 to 99.");
  info CodeGroupBorderStyleUnknown SeverityError
    ("A group's border style is not one the Builder draws.");
  info CodeGroupIconKeyUnknown SeverityError
    ("A group's icon key is not a built-in icon.");
  info CodeGroupIconInvalid SeverityError
    ("A group's custom icon is not an icon name.");
  info CodeGroupIconSizeUnknown SeverityError
    ("A group's icon size is not small, medium or large.");
  info CodeGroupHideDescriptionType SeverityError
    ("A group's hideDescription is not true or false.");
  info CodeDrawingShapeUnknown SeverityError
    ("A shape's figure is not rectangle or circle.");
  info CodeDrawingColorInvalid SeverityError
    ("A shape's or a line's color is not #rrggbb.");
  info CodeDrawingBorderStyleUnknown SeverityError
    ("A shape's border style is not one the Builder draws.");
  info CodeDrawingIconAmbiguous SeverityError
    ("An icon drawing names both or neither of a built-in icon and a custom icon.");
  info CodeDrawingIconKeyUnknown SeverityError
    ("An icon drawing's icon key is not a built-in icon.");
  info CodeDrawingIconInvalid SeverityError
    ("An icon drawing's custom icon is not an icon name.");
  info CodeDrawingPointsTooFew SeverityError
    ("A line has fewer than 2 points.");
  info CodeDrawingPointsTooMany SeverityError
    ("A line has more than 64 points.");
  info CodeDrawingPointsNotFinite SeverityError
    ("A point of a line is not finite numbers.");
  info CodeDrawingLineStyleUnknown SeverityError
    ("A line's style is not one the Builder draws.");
  info CodeDrawingArrowNotBoolean SeverityError
    ("A line's startArrow or endArrow is not true or false.");
  info CodeEdgeIDRequired SeverityError
    ("A connection has no ID.");
  info CodeEdgeIDInvalid SeverityError
    ("A connection ID is not a UUID.");
  info CodeEdgeIDDuplicate SeverityError
    ("Two connections have the same ID, ignoring case.");
  info CodeEdgeRouteTooFew SeverityError
    ("A connection's route has fewer than 2 points.");
  info CodeEdgeRouteNotFinite SeverityError
    ("A point of a connection's route is not finite numbers.");
  info CodeEdgeLineStyleUnknown SeverityError
    ("A connection's line style is not one the Builder draws.");
  info CodeEdgeSourceUnknown SeverityError
    ("A connection's source is no node of the document.");
  info CodeEdgeTargetUnknown SeverityError
    ("A connection's target is no node of the document.");
  info CodeEdgeEndpointsSame SeverityError
    ("A connection joins a node to itself.");
  info CodeEdgeEndpointsInvalid SeverityError
    ("A connection does not join one device interface to one switch.");
  info CodeEdgeHandleUnknown SeverityError
    ("A connection names a connection point its device does not have.");
  info CodeEdgeInterfaceTaken SeverityError
    ("More than one connection attaches to an interface.");
  info CodeEdgeNetworkRequired SeverityError
    ("A connection names no network.");
  info CodeEdgeNetworkUnknown SeverityError
    ("A connection names a network the document does not have.");
  info CodeEdgeNetworkMismatch SeverityError
    ("A connection names a network other than the network of its switch.");
  info CodeScenarioListTooMany SeverityError
    ("The document lists more than 20 scenarios.");
  info CodeScenarioNameRequired SeverityError
    ("A listed scenario has no name.");
  info CodeScenarioNameTooLong SeverityError
    ("A scenario name is longer than 256 bytes.");
  info CodeScenarioNameInvalid SeverityError
    ("A scenario name is not a config name.");
  info CodeScenarioNameDuplicate SeverityError
    ("The document lists a scenario twice, ignoring case.");
  info CodeLayerListTooMany SeverityError
    ("The document defines more than 32 layers.");
  info CodeLayerIDRange SeverityError
    ("A layer ID is not an integer from 0 to 99.");
  info CodeLayerIDDuplicate SeverityError
    ("Two layers have the same ID.");
  info CodeLayerLabelRequired SeverityError
    ("A layer has no label.");
  info CodeLayerLabelTooLong SeverityError
    ("A layer label is longer than 64 bytes.");
  info CodeLayerLabelControl SeverityError
    ("A layer label holds a control character.");
  info CodeLayerIconKeyUnknown SeverityError
    ("A layer's icon key is not a built-in icon.");
  info CodeLayerIconInvalid SeverityError
    ("A layer's custom icon is not an icon name.");
  info CodeLayerColorInvalid SeverityError
    ("A layer's color is not #rrggbb.");
  info CodeLayerMatchersNotObject SeverityError
    ("A layer's node matchers are not an object of patterns by field.");
  info CodeLayerMatchersTooMany SeverityError
    ("A layer has more than 16 node matchers.");
  info CodeLayerMatcherPathTooLong SeverityError
    ("A node matcher field is longer than 128 bytes.");
  info CodeLayerMatcherPathInvalid SeverityError
    ("A node matcher field is not keys of letters, digits, _ or - joined by dots.");
  info CodeLayerMatcherPatternNotText SeverityError
    ("A node matcher pattern is not text.");
  info CodeLayerMatcherPatternRequired SeverityError
    ("A node matcher has no pattern.");
  info CodeLayerMatcherPatternTooLong SeverityError
    ("A node matcher pattern is longer than 256 bytes.");
  info CodeLayerMatcherPatternInvalid SeverityError
    ("A node matcher pattern is not a regular expression, or it has a repeat that Builder refuses. Builder refuses a repeated group that holds a repeat or an alternation, such as (a+)+. It also refuses more than 3 *, + or {n,} repeats.");
  info CodeLayerSetNotObject SeverityError
    ("The document's layer set options are not an object.");
  info CodeLayerSetNameRequired SeverityError
    ("A layer set has no name.");
  info CodeLayerSetNameTooLong SeverityError
    ("A layer set name is longer than 128 bytes.");
  info CodeLayerSetNameControl SeverityError
    ("A layer set name holds a control character.");
  info CodeLayerSetDescriptionTooLong SeverityError
    ("A layer set description is longer than 1024 bytes.");
  info CodeLayerSetDescriptionControl SeverityError
    ("A layer set description holds a control character.");
  info CodeLayerSetIconKeyUnknown SeverityError
    ("A layer set's icon key is not a built-in icon.");
  info CodeLayerSetIconInvalid SeverityError
    ("A layer set's custom icon is not an icon name.");
  info CodeLayerSetMatchConflictUnknown SeverityError
    ("A layer set's match conflict rule is not lowest or highest.");
  info CodeLayerSetOutlinesNotBoolean SeverityError
    ("The layer outlines option of a layer set is not true or false.");
  info CodeLayerSetLayersEmpty SeverityError
    ("A layer set holds no layer.");
  info CodeLayerSetSourceIDInvalid SeverityError
    ("The layer set ID that a document names is not a layer set ID.");
  info CodeLayerSetSourceVersionInvalid SeverityError
    ("The layer set version that a document names is not an integer of 1 or more.");
  info CodeLayerSetFileSchemaMismatch SeverityError
    ("A layer set file's $schema is not the layer set file schema.");
  info CodeLayerSetInvalid SeverityError
    ("A layer set does not validate. The issues field lists each reason.");
  info CodeLayerSetReadOnly SeverityError
    ("A request cannot change or delete a built-in layer set. Duplicate it to change it.");
  info CodeLayerSetStale SeverityError
    ("The If-Match entity tag names a version of the layer set that is no longer current.");
  info CodeLayerSetLibraryFull SeverityError
    ("The layer set library holds 200 sets, the most it may.");
  info CodeLayerSetDefaultUnknown SeverityError
    ("The layer set chosen as the default does not exist.");
  info CodeSourceKindUnknown SeverityError
    ("The source's kind is not manual, topology or experiment.");
  info CodeSourceDigestMalformed SeverityError
    ("The source digest is not sha256: and 64 hex digits.");
  info CodeSourceAnnotationsNotMap SeverityError
    ("The source annotations are not an object of text values.");
  info CodeSourceAnnotationsTooMany SeverityError
    ("The source carries more than 100 annotations.");
  info CodeSourceAnnotationsTooLarge SeverityError
    ("The source annotations take more than 256 KiB.");
  info CodeSourceAnnotationNotText SeverityError
    ("A source annotation's value is not text.");
  info CodeSourceAnnotationKeyBlank SeverityError
    ("A source annotation key is blank.");
  info CodeSourceAnnotationKeyLong SeverityError
    ("A source annotation key is longer than 512 bytes.");
  info CodeSourceAnnotationKeyCtrl SeverityError
    ("A source annotation key holds a control character.");
  info CodeIncludeListNotList SeverityError
    ("The included topologies are not a list of names.");
  info CodeIncludeNameRequired SeverityError
    ("An included topology has no name.");
  info CodeIncludeNameWhitespace SeverityError
    ("The name of an included topology holds white space.");
  info CodeTemplateListNotList SeverityError
    ("The document's templates are not a list.");
  info CodeTemplateListTooMany SeverityError
    ("The document carries more than 50 templates.");
  info CodeTemplateIDRequired SeverityError
    ("A template has no ID.");
  info CodeTemplateIDInvalid SeverityError
    ("A template ID is not a UUID.");
  info CodeTemplateIDDuplicate SeverityError
    ("Two templates have the same ID, ignoring case.");
  info CodeTemplateNameRequired SeverityError
    ("A template has no name.");
  info CodeTemplateNameTooLong SeverityError
    ("A template name is longer than 128 bytes.");
  info CodeTemplateNameControl SeverityError
    ("A template name holds a control character.");
  info CodeTemplateNameDuplicate SeverityError
    ("Two templates of a template file have the same name, ignoring case.");
  info CodeTemplateDescriptionTooLong SeverityError
    ("A template description is longer than 1024 bytes.");
  info CodeTemplateDescriptionControl SeverityError
    ("A template description holds a control character.");
  info CodeTemplateSpecRequired SeverityError
    ("A template's device has no spec.");
  info CodeTemplateHostnameRequired SeverityError
    ("A template's spec has no general.hostname.");
  info CodeTemplateHostnameWhitespace SeverityError
    ("A template's hostname holds white space.");
  info CodeTemplateIconKeyUnknown SeverityError
    ("A template's icon key is not a built-in icon.");
  info CodeTemplateIconInvalid SeverityError
    ("A template's custom icon is not an icon name.");
  info CodeTemplateIconSizeUnknown SeverityError
    ("A template's icon size is not small, medium or large.");
  info CodeTemplateColorInvalid SeverityError
    ("A template's outline or fill color is not #rrggbb.");
  info CodeTemplateLayerRange SeverityError
    ("A template's layer is not an integer from 0 to 99.");
  info CodeTemplateHideDescriptionType SeverityError
    ("A template's hideDescription is not true or false.");
  info CodeTemplateDeviceUnencodable SeverityError
    ("Builder cannot encode a template's device as JSON.");
  info CodeTemplateDeviceTooLarge SeverityError
    ("A template's device takes more than 16 KiB as JSON.");
  info CodeTemplateSourceKindUnknown SeverityError
    ("A template's source kind is not library, builtin or preloaded.");
  info CodeTemplateSourceIDInvalid SeverityError
    ("A template's source has no ID, or an ID that is not a template ID.");
  info CodeTemplateSourceVersionInvalid SeverityError
    ("A template's source version is less than 1.");
  info CodeTemplateSourceDigestInvalid SeverityError
    ("A template's source digest is not sha256 and 64 lowercase hex digits.");
  info CodeTemplateFileInvalid SeverityError
    ("A template file does not validate. The issues field lists each reason.");
  info CodeTemplateFileSchemaMismatch SeverityError
    ("A template file's $schema is not the template file schema.");
  info CodeTemplateFileEmpty SeverityError
    ("A template file holds no template.");
  info CodeTemplateFileTooMany SeverityError
    ("A template file holds more than 200 templates.");
  info CodeTemplateCollectionRequired SeverityError
    ("A template file's collection has no name.");
  info CodeTemplateCollectionTooLong SeverityError
    ("A collection name is longer than 128 bytes.");
  info CodeTemplateCollectionControl SeverityError
    ("A collection name holds a control character.");
  info CodeTemplateCollectionDescLong SeverityError
    ("A collection description is longer than 1024 bytes.");
  info CodeTemplateCollectionDescControl SeverityError
    ("A collection description holds a control character.");
  info CodeTemplateItemReadOnly SeverityError
    ("A request changes a built-in template or an item of a template file. These are read only.");
  info CodeTemplateItemStale SeverityError
    ("A template or collection changed after the request read it. Reload the template library.");
  info CodeIconListNotObject SeverityError
    ("The custom icons are not an object of icons by name.");
  info CodeIconListTooMany SeverityError
    ("The document carries more than 50 custom icons.");
  info CodeIconNameInvalid SeverityError
    ("A custom icon's name is not an icon name.");
  info CodeIconDataInvalid SeverityError
    ("A custom icon's data is not base64 of at most 40960 bytes.");
  info CodeIconPNGInvalid SeverityError
    ("A custom icon is not a PNG the Builder accepts.");
  info CodePackageInvalid SeverityError
    ("A Builder package does not decode or validate. The issues field lists each item that does not validate.");
  info CodePackageTooLarge SeverityError
    ("A Builder package is larger than 5 MiB.");
  info CodePackageSchemaMismatch SeverityError
    ("A package's $schema is not the Builder package schema.");
  info CodePackageDocumentMissing SeverityError
    ("A package holds no Builder document.");
  info CodePackageDocumentInvalid SeverityError
    ("A package's document does not decode as a Builder document.");
  info CodePackageConfigsTooMany SeverityError
    ("A package carries more than 20 Scenario configs or 100 Topology configs.");
  info CodePackageConfigKeyInvalid SeverityError
    ("The key a package keeps a config under is not a config name.");
  info CodePackageConfigKindMismatch SeverityError
    ("A carried config's kind is not the kind of its list.");
  info CodePackageConfigNameMismatch SeverityError
    ("A carried config's metadata.name is not the key the package keeps it under.");
  info CodePackageConfigVersionInvalid SeverityError
    ("A carried config's apiVersion is not phenix.sandia.gov/v and a number.");
  info CodePackageConfigSpecMissing SeverityError
    ("A carried config has no spec.");
  info CodePackageConfigUnlisted SeverityError
    ("A package carries a config its requirements do not name.");
  info CodePackageConfigBuilderNote SeverityError
    ("A carried config has a Builder annotation, which a package never carries.");
  info CodePackageRequirementsMissing SeverityError
    ("A list of a package's requirements is missing or null.");
  info CodePackageRequirementsTooMany SeverityError
    ("A list of a package's requirements holds more than 1000 entries.");
  info CodePackageRequirementBlank SeverityError
    ("An entry of a package's requirements is blank.");
  info CodePackageRequirementTooLong SeverityError
    ("An entry of a package's requirements is longer than 4096 bytes.");
  info CodePackageRequirementControl SeverityError
    ("An entry of a package's requirements holds a control character.");
  info CodePackageConfigUnreadable SeverityWarning
    ("A Scenario config or included topology that the document names does not exist, or the caller may not read it. The package does not carry it.");
  info CodePackageIncludeFilePath SeverityWarning
    ("An included topology is a file path, which a package never carries.");
  info CodePackageIconMissing SeverityWarning
    ("A custom icon the document names is not in the icon library, so the package does not carry it.");
  info CodePackageIconsTooMany SeverityWarning
    ("The document names more custom icons than the 50 a package carries. The package does not carry the rest.");
  info CodePackageRequirementLeftOut SeverityWarning
    ("A name or path that the document or a config holds is blank, longer than 4096 bytes or holds a control character. The package does not list it.");
  info CodePackageRequirementsTruncated SeverityWarning
    ("A list of the requirements would hold more than 1000 entries, so the package lists the first 1000.");
  info CodePublishBlocked SeverityError
    ("Only publishing refuses the topology. The issues field lists each interface, address or hostname to fix.");
  info CodePublishTopologyInvalid SeverityError
    ("phenix's topology schema refuses the topology the document publishes as.");
  info CodePublishTopologyExists SeverityError
    ("The topology a publish creates already exists.");
  info CodePublishTopologyMissing SeverityError
    ("The topology a publish updates does not exist.");
  info CodePublishTopologyNotSource SeverityError
    ("The topology is not the source of this draft, so the draft cannot update it.");
  info CodePublishTopologyChanged SeverityError
    ("The topology changed after this draft published it.");
  info CodePublishTopologyFileMismatch SeverityError
    ("The topology is not what its Builder file publishes, so a publish cannot update it.");
  info CodePublishTopologyFileChanged SeverityError
    ("The topology or its Builder file changed after Builder opened this draft from the file.");
  info CodePublishExperimentExists SeverityError
    ("The experiment a publish creates already exists.");
  info CodePublishExperimentMissing SeverityError
    ("The experiment a publish updates does not exist.");
  info CodePublishExperimentNotSource SeverityError
    ("The experiment is not the source of this draft, so the draft cannot update it.");
  info CodePublishExperimentChanged SeverityError
    ("The experiment changed after this draft published it.");
  info CodePublishExperimentRunning SeverityError
    ("A publish cannot update a running experiment.");
  info CodePublishExperimentInvalid SeverityError
    ("phenix refuses the experiment a publish would write.");
  info CodePublishExperimentReserved SeverityError
    ("The experiment is named " +:+ dq +:+ "all" +:+ dq +:+ ", which phenix reserves.");
  info CodePublishExperimentNameLong SeverityError
    ("This server names a bridge after the experiment, and the experiment name is too long for a bridge name.");
  info CodePublishExperimentUnmerged SeverityError
    ("An update cannot merge an included topology into the experiment that it writes.");
  info CodePublishSourceChanged SeverityError
    ("The topology or experiment that is the source of a diagram changed on the server after Builder made the diagram.");
  info CodePublishScenarioMissing SeverityError
    ("A scenario the document lists does not exist, or the caller may not read it.");
  info CodePublishScenarioNotListed SeverityError
    ("The experiment's scenario is not one the document lists.");
  info CodePublishScenarioInvalid SeverityError
    ("A listed scenario is not valid if the publish adds the topology.");
  info CodePublishIncludeClash SeverityError
    ("The topology and a topology that it includes have the same hostname.");
  info CodePublishIncludeHostname SeverityError
    ("An included topology has a hostname phenix refuses in an experiment.");
  info CodePublishTargetInvalid SeverityError
    ("A topology, experiment or scenario name is not a config name.");
  info CodePublishStageFailed SeverityError
    ("A publish stage failed after the server wrote earlier stages.");
  info CodePublishCleanupFailed SeverityWarning
    ("The publication is complete, but the server could not remove the content that it replaces.");
  info CodePublishBroadcastFailed SeverityWarning
    ("The server stored a config, but it could not broadcast the live update of the config.");
  info CodePublishFileUnchanged SeverityWarning
    ("The topology names a Builder file that publishing does not change.");
  info CodePublishLegacyReplaced SeverityWarning
    ("This diagram replaced the topology's legacy Builder diagram.");
  info CodePublishLegacyRemoved SeverityWarning
    ("The server could not read the topology's legacy Builder diagram. The server removed it.");
  info CodePublishExperimentUnrecorded SeverityWarning
    ("The server stored the experiment, but not which draft published it.");
  info CodePublishExperimentPins SeverityWarning
    ("The experiment update removed the host pins of VMs that are no longer in the topology.");
  info CodePublishScenarioPartial SeverityWarning
    ("The server updated some scenarios before the scenario stage failed.");
  info CodePublishRetryComplete SeverityWarning
    ("The same publication was already complete. The server wrote nothing.");
  info CodePublishRetryAvailable SeverityWarning
    ("A stage failed after the server wrote other stages. Publish again with the same choices to finish. The server skips the steps that are already done.");
  info CodePreflightCapacityCPU SeverityWarning
    ("The schedulable hosts have fewer free CPUs than the devices take. VMs would share CPUs.");
  info CodePreflightCapacityMemory SeverityError
    ("The schedulable hosts have less free memory than the diagram's devices take.");
  info CodePreflightCapacityVMTooBig SeverityError
    ("A device fits on no single schedulable host: none has both its CPUs and its memory.");
  info CodePreflightNetworkVLANRange SeverityError
    ("The experiment's VLAN range is too small for the diagram, or leaves out a VLAN alias.");
  info CodePreflightNetworkAliasInUse SeverityError
    ("A network's VLAN alias is a VLAN a running experiment already uses.");
  info CodePreflightNetworkBridge SeverityWarning
    ("A bridge the diagram's interfaces or the experiment use does not exist on a host yet.");
  info CodePreflightDiskMissing SeverityError
    ("A drive image is not one of the server's disk images.");
  info CodePreflightDiskKind SeverityError
    ("A drive image is not of the kind its device needs: VM or ISO for kvm, container otherwise.");
  info CodePreflightAppMissing SeverityError
    ("A scenario names an app that is not a default, built-in or user app of this server.");
  info CodePreflightScenarioMissing SeverityError
    ("A scenario the diagram lists does not exist.");
  info CodePreflightScenarioUnread SeverityWarning
    ("The caller may not read a scenario the diagram lists, or the server cannot read it now.");
  info CodePreflightUnavailable SeverityWarning
    ("The server could not do a preflight check, or part of one. The message says why.");
  info CodeDraftStale SeverityError
    ("The If-Match entity tag names a version of the draft that is no longer current.");
  info CodeDraftConflict SeverityError
    ("The draft changed while the server handled the request. Read the draft again and retry.");
  info CodeDraftSnapshotCurrent SeverityError
    ("A request cannot delete the current version of a draft.");
  info CodeDraftLimit SeverityError
    ("The server holds 2000 drafts, the most it may. Delete some, or run Clean up in the settings.");
  info CodeImportNameInvalid SeverityError
    ("The new topology name of a copy or a combined import is not a config name.");
  info CodeImportNameSource SeverityError
    ("The new topology name of a copy or a combined import is the imported topology's own name.");
  info CodeRequestInvalid SeverityError
    ("The body, a header or a parameter of the request is not valid.");
  info CodeRequestForbidden SeverityError
    ("The caller's role does not allow the operation.");
  info CodeRequestNotFound SeverityError
    ("What the request names does not exist, or the caller may not see it.");
  info CodeRequestMethodNotAllowed SeverityError
    ("The route does not take the method of the request. The Allow header names the methods it takes.");
  info CodeRequestConflict SeverityError
    ("The request conflicts with what is stored.");
  info CodeRequestStale SeverityError
    ("The If-Match entity tag names a version that is no longer current.");
  info CodeRequestTooLarge SeverityError
    ("The request or what it stores is larger than a limit.");
  info CodeRequestUnprocessable SeverityError
    ("The request is well formed, but the server cannot do what it asks for.");
  info CodeServerError SeverityError
    ("The server failed. Its log says why.");
  info CodeServerBusy SeverityError
    ("The server stopped trying because what the request asked for kept changing. Try again.")
].

(** [codeIndex] is the position of each code in [codeRegistry]. *)
Definition codeIndex : gmap string nat :=
  foldl (fun m p => <[ info_code (snd p) := fst p ]> m) ∅
    (zip (seq 0 (length codeRegistry)) codeRegistry).

(** [LookupCode] says what the registry holds for a code, and whether it does. *)
Definition LookupCode (code : Code) : CodeInfo * bool :=
  match codeIndex !! code with
  | None => ({| info_code := code; info_severity := SeverityError; info_description := "" |}, false)
  | Some i =>
      match codeRegistry !! i with
      | Some e => (e, true)
      | None => ({| info_code := code; info_severity := SeverityError; info_description := "" |}, false)
      end
  end.

Definition DefaultSeverity (code : Code) : Severity := info_severity (fst (LookupCode code)).

(** An [Issue]: a problem with its code, severity and location. *)
Record Issue : Type := {
  iss_code : Code;
  iss_severity : Severity;
  iss_message : text;
  iss_path : string;
  iss_node : string;
  iss_edge : string;
  iss_network : string;
  iss_field : string;
}.

Definition NewIssue (code : Code) (path : string) (message : text) : Issue := {|
  iss_code := code; iss_severity := DefaultSeverity code; iss_message := message; iss_path := path;
  iss_node := ""; iss_edge := ""; iss_network := ""; iss_field := "";
|}.

Definition IssueMessages (issues : list Issue) : list text := map iss_message issues.

(** Every code the package declares. *)
Definition all_codes : list Code := [
  CodeDocumentInvalid; CodeDocumentContentMissing; CodeDocumentSchemaMismatch;
  CodeDocumentRevisionMismatch; CodeDocumentListMissing; CodeDocumentViewportNotFinite;
  CodeDocumentZoomNotPositive; CodeDocumentGridInvalid; CodeDocumentIconSizeUnknown;
  CodeDocumentLayoutNotText; CodeDocumentFieldUnknown; CodeMetadataNotObject;
  CodeMetadataIDRequired; CodeMetadataIDInvalid; CodeMetadataNameTooLong; CodeMetadataNameControl;
  CodeMetadataUserNotText; CodeMetadataUserTooLong; CodeMetadataUserControl;
  CodeMetadataTimeNotText; CodeMetadataTimeInvalid; CodeMetadataNotesNotList;
  CodeMetadataNotesTooMany; CodeMetadataNoteNotText; CodeMetadataNoteBlank; CodeMetadataNoteTooLong;
  CodeMetadataNoteControl; CodeNetworkIDRequired; CodeNetworkIDInvalid; CodeNetworkIDDuplicate;
  CodeNetworkNameRequired; CodeNetworkNameWhitespace; CodeNetworkNameDuplicate;
  CodeNetworkLineStyle; CodeNetworkAliasRange; CodeNetworkAliasDuplicate; CodeNetworkSwitchMissing;
  CodeNetworkSubnetInvalid; CodeNetworkGatewayInvalid; CodeNetworkGatewayOutside;
  CodeNetworkGatewayUnowned; CodeNetworkSubnetOverlap; CodeNodeIDRequired; CodeNodeIDInvalid;
  CodeNodeIDDuplicate; CodeNodePositionNotFinite; CodeNodeSizeInvalid; CodeNodeKindUnknown;
  CodeNodePayloadMissing; CodeNodePayloadExtra; CodeNodeHostnameRequired;
  CodeNodeHostnameWhitespace; CodeNodeHostnameDuplicate; CodeNodeHostnameShort;
  CodeNodeHostnameReserved; CodeNodeHostnameNumeric; CodeNodeHostnameWindows;
  CodeNodeHostnameReservedCase; CodeNodeHostnamePhenix; CodeNodeParentSelf; CodeNodeParentUnknown;
  CodeNodeParentNotGroup; CodeNodeParentCycle; CodeDeviceSpecRequired; CodeDeviceHostnameMismatch;
  CodeDeviceIconKeyUnknown; CodeDeviceIconInvalid; CodeDeviceIconSizeUnknown;
  CodeDeviceColorInvalid; CodeDeviceLayerRange; CodeDeviceHideDescriptionType;
  CodeDeviceIncludedFromInvalid; CodeDeviceIncludedFromNoSource; CodeDeviceInterfacesNone;
  CodeDeviceDrivesNone; CodeDeviceImageUnknown; CodeDeviceRulesetsIgnored;
  CodeDeviceRouterOSUnsupported; CodeDeviceInterfacesUnset; CodeDeviceSerialUnset;
  CodeDeviceInjectionsUnapplied; CodeDeviceOSPFMissing; CodeDeviceOSPFUnused;
  CodeDeviceOSPFNetworkUnused; CodeDeviceNTPServerInvalid; CodeDeviceNTPServerIgnored;
  CodeDeviceNTPServerNoMgmt; CodeDeviceEnableSSHInvalid; CodeDeviceAutotunnelInvalid;
  CodeDeviceDefaultAppsInvalid; CodeInterfaceIDRequired; CodeInterfaceIDInvalid;
  CodeInterfaceIDDuplicate; CodeInterfaceNameRequired; CodeInterfaceNameDuplicate;
  CodeInterfaceNameUnmatched; CodeInterfaceVLANMissing; CodeInterfaceVLANImplicit;
  CodeInterfaceVLANCase; CodeInterfaceVLANUnknown; CodeInterfaceNetworkNone; CodeInterfaceIPShared;
  CodeInterfaceMACShared; CodeInterfaceIPOutside; CodeInterfaceRulesetUnknown;
  CodeInterfaceOSPFOutside; CodeSwitchNetworkRequired; CodeSwitchNetworkUnknown;
  CodeSwitchColorInvalid; CodeSwitchIconSizeUnknown; CodeSwitchLayerRange;
  CodeGroupBorderStyleUnknown; CodeGroupIconKeyUnknown; CodeGroupIconInvalid;
  CodeGroupIconSizeUnknown; CodeGroupHideDescriptionType; CodeDrawingShapeUnknown;
  CodeDrawingColorInvalid; CodeDrawingBorderStyleUnknown; CodeDrawingIconAmbiguous;
  CodeDrawingIconKeyUnknown; CodeDrawingIconInvalid; CodeDrawingPointsTooFew;
  CodeDrawingPointsTooMany; CodeDrawingPointsNotFinite; CodeDrawingLineStyleUnknown;
  CodeDrawingArrowNotBoolean; CodeEdgeIDRequired; CodeEdgeIDInvalid; CodeEdgeIDDuplicate;
  CodeEdgeRouteTooFew; CodeEdgeRouteNotFinite; CodeEdgeLineStyleUnknown; CodeEdgeSourceUnknown;
  CodeEdgeTargetUnknown; CodeEdgeEndpointsSame; CodeEdgeEndpointsInvalid; CodeEdgeHandleUnknown;
  CodeEdgeInterfaceTaken; CodeEdgeNetworkRequired; CodeEdgeNetworkUnknown; CodeEdgeNetworkMismatch;
  CodeScenarioListTooMany; CodeScenarioNameRequired; CodeScenarioNameTooLong;
  CodeScenarioNameInvalid; CodeScenarioNameDuplicate; CodeLayerListTooMany; CodeLayerIDRange;
  CodeLayerIDDuplicate; CodeLayerLabelRequired; CodeLayerLabelTooLong; CodeLayerLabelControl;
  CodeLayerIconKeyUnknown; CodeLayerIconInvalid; CodeLayerColorInvalid; CodeLayerMatchersNotObject;
  CodeLayerMatchersTooMany; CodeLayerMatcherPathTooLong; CodeLayerMatcherPathInvalid;
  CodeLayerMatcherPatternNotText; CodeLayerMatcherPatternRequired; CodeLayerMatcherPatternTooLong;
  CodeLayerMatcherPatternInvalid; CodeLayerSetNotObject; CodeLayerSetNameRequired;
  CodeLayerSetNameTooLong; CodeLayerSetNameControl; CodeLayerSetDescriptionTooLong;
  CodeLayerSetDescriptionControl; CodeLayerSetIconKeyUnknown; CodeLayerSetIconInvalid;
  CodeLayerSetMatchConflictUnknown; CodeLayerSetOutlinesNotBoolean; CodeLayerSetLayersEmpty;
  CodeLayerSetSourceIDInvalid; CodeLayerSetSourceVersionInvalid; CodeLayerSetFileSchemaMismatch;
  CodeLayerSetInvalid; CodeLayerSetReadOnly; CodeLayerSetStale; CodeLayerSetLibraryFull;
  CodeLayerSetDefaultUnknown; CodeSourceKindUnknown; CodeSourceDigestMalformed;
  CodeSourceAnnotationsNotMap; CodeSourceAnnotationsTooMany; CodeSourceAnnotationsTooLarge;
  CodeSourceAnnotationNotText; CodeSourceAnnotationKeyBlank; CodeSourceAnnotationKeyLong;
  CodeSourceAnnotationKeyCtrl; CodeIncludeListNotList; CodeIncludeNameRequired;
  CodeIncludeNameWhitespace; CodeTemplateListNotList; CodeTemplateListTooMany;
  CodeTemplateIDRequired; CodeTemplateIDInvalid; CodeTemplateIDDuplicate; CodeTemplateNameRequired;
  CodeTemplateNameTooLong; CodeTemplateNameControl; CodeTemplateNameDuplicate;
  CodeTemplateDescriptionTooLong; CodeTemplateDescriptionControl; CodeTemplateSpecRequired;
  CodeTemplateHostnameRequired; CodeTemplateHostnameWhitespace; CodeTemplateIconKeyUnknown;
  CodeTemplateIconInvalid; CodeTemplateIconSizeUnknown; CodeTemplateColorInvalid;
  CodeTemplateLayerRange; CodeTemplateHideDescriptionType; CodeTemplateDeviceUnencodable;
  CodeTemplateDeviceTooLarge; CodeTemplateSourceKindUnknown; CodeTemplateSourceIDInvalid;
  CodeTemplateSourceVersionInvalid; CodeTemplateSourceDigestInvalid; CodeTemplateFileInvalid;
  CodeTemplateFileSchemaMismatch; CodeTemplateFileEmpty; CodeTemplateFileTooMany;
  CodeTemplateCollectionRequired; CodeTemplateCollectionTooLong; CodeTemplateCollectionControl;
  CodeTemplateCollectionDescLong; CodeTemplateCollectionDescControl; CodeTemplateItemReadOnly;
  CodeTemplateItemStale; CodeIconListNotObject; CodeIconListTooMany; CodeIconNameInvalid;
  CodeIconDataInvalid; CodeIconPNGInvalid; CodePackageInvalid; CodePackageTooLarge;
  CodePackageSchemaMismatch; CodePackageDocumentMissing; CodePackageDocumentInvalid;
  CodePackageConfigsTooMany; CodePackageConfigKeyInvalid; CodePackageConfigKindMismatch;
  CodePackageConfigNameMismatch; CodePackageConfigVersionInvalid; CodePackageConfigSpecMissing;
  CodePackageConfigUnlisted; CodePackageConfigBuilderNote; CodePackageRequirementsMissing;
  CodePackageRequirementsTooMany; CodePackageRequirementBlank; CodePackageRequirementTooLong;
  CodePackageRequirementControl; CodePackageConfigUnreadable; CodePackageIncludeFilePath;
  CodePackageIconMissing; CodePackageIconsTooMany; CodePackageRequirementLeftOut;
  CodePackageRequirementsTruncated; CodePublishBlocked; CodePublishTopologyInvalid;
  CodePublishTopologyExists; CodePublishTopologyMissing; CodePublishTopologyNotSource;
  CodePublishTopologyChanged; CodePublishTopologyFileMismatch; CodePublishTopologyFileChanged;
  CodePublishExperimentExists; CodePublishExperimentMissing; CodePublishExperimentNotSource;
  CodePublishExperimentChanged; CodePublishExperimentRunning; CodePublishExperimentInvalid;
  CodePublishExperimentReserved; CodePublishExperimentNameLong; CodePublishExperimentUnmerged;
  CodePublishSourceChanged; CodePublishScenarioMissing; CodePublishScenarioNotListed;
  CodePublishScenarioInvalid; CodePublishIncludeClash; CodePublishIncludeHostname;
  CodePublishTargetInvalid; CodePublishStageFailed; CodePublishCleanupFailed;
  CodePublishBroadcastFailed; CodePublishFileUnchanged; CodePublishLegacyReplaced;
  CodePublishLegacyRemoved; CodePublishExperimentUnrecorded; CodePublishExperimentPins;
  CodePublishScenarioPartial; CodePublishRetryComplete; CodePublishRetryAvailable;
  CodePreflightCapacityCPU; CodePreflightCapacityMemory; CodePreflightCapacityVMTooBig;
  CodePreflightNetworkVLANRange; CodePreflightNetworkAliasInUse; CodePreflightNetworkBridge;
  CodePreflightDiskMissing; CodePreflightDiskKind; CodePreflightAppMissing;
  CodePreflightScenarioMissing; CodePreflightScenarioUnread; CodePreflightUnavailable;
  CodeDraftStale; CodeDraftConflict; CodeDraftSnapshotCurrent; CodeDraftLimit;
  CodeImportNameInvalid; CodeImportNameSource; CodeRequestInvalid; CodeRequestForbidden;
  CodeRequestNotFound; CodeRequestMethodNotAllowed; CodeRequestConflict; CodeRequestStale;
  CodeRequestTooLarge; CodeRequestUnprocessable; CodeServerError; CodeServerBusy
].

Lemma registry_found :
  forallb (fun i => bool_decide (LookupCode (info_code i) = (i, true))) codeRegistry = true.
Proof. vm_compute. reflexivity. Qed.

Lemma index_sound :
  forallb (fun p => bool_decide (info_code <$> codeRegistry !! snd p = Some (fst p))) (map_to_list codeIndex) = true.
Proof. vm_compute. reflexivity. Qed.

(** The registry is a function of the code: looking a code up finds the
    one entry that was written for it, a code without an entry is reported as
    not found, and every code the package declares has an entry. *)
Theorem LookupCode_spec :
  (forall c i, LookupCode c = (i, true) <-> i ∈ codeRegistry /\ info_code i = c) /\
  (forall c, c ∈ all_codes -> snd (LookupCode c) = true).
Proof.
  split.
  - intros c i. split.
    + unfold LookupCode. destruct (codeIndex !! c) as [n|] eqn:En; [|done].
      apply elem_of_map_to_list in En.
      pose proof (proj1 (forallb_forall _ _) index_sound (c, n) (proj1 (list_elem_of_In _ _) En)) as H.
      apply bool_decide_eq_true in H. cbn [fst snd] in H.
      destruct (codeRegistry !! n) as [e|] eqn:Ee; [|done]. intros [= ->]. injection H as H.
      split; [by eapply list_elem_of_lookup_2|done].
    + intros [Hi <-].
      pose proof (proj1 (forallb_forall _ _) registry_found i (proj1 (list_elem_of_In _ _) Hi)) as H.
      by apply bool_decide_eq_true in H.
  - assert (forallb (fun c => snd (LookupCode c)) all_codes = true) as H by (vm_compute; reflexivity).
    intros c Hc%list_elem_of_In. by apply (proj1 (forallb_forall _ _) H).
Qed.
