(* ===== verification/Document.v ===== *)
(** * The builder document (document.go, template.go, layerset.go)

    The data of a diagram, field by field in the order of the source, with
    its lookups and the provenance operations. A pointer that may be nil is an
    [option]; so is a slice whose being nil the code asks about. A [float64]
    is its exact value. A JSON object is an association list. *)

From Stdlib Require Import ZArith Lia Ascii String Strings.Byte.
From stdpp Require Import base option list gmap strings sorting.
From S2P Require Import Prelude Text.

Open Scope Z_scope.
Open Scope go_scope.

(** ** Floating point numbers

    [Fin m e] is the number [m * 2^e]; the code tells no zero from the other. *)

Inductive float64 : Type :=
  | NaN
  | Inf (negative : bool)
  | Fin (m e : Z).

(** The mantissas of two finite numbers at their smaller exponent. *)
Definition align (m e m' e' : Z) : Z * Z :=
  let k := Z.min e e' in (m * 2 ^ (e - k), m' * 2 ^ (e' - k)).

Definition f_eqb (a b : float64) : bool :=
  match a, b with
  | NaN, _ | _, NaN => false
  | Inf n, Inf n' => Bool.eqb n n'
  | Fin m e, Fin m' e' => let '(x, y) := align m e m' e' in x =? y
  | _, _ => false
  end.

Definition f_ltb (a b : float64) : bool :=
  match a, b with
  | NaN, _ | _, NaN => false
  | Inf n, Inf n' => n && negb n'
  | Inf n, Fin _ _ => n
  | Fin _ _, Inf n => negb n
  | Fin m e, Fin m' e' => let '(x, y) := align m e m' e' in x <? y
  end.

Definition f_int (n : Z) : float64 := Fin n 0.

(** [a <= b]. *)
Definition f_leb (a b : float64) : bool := f_ltb a b || f_eqb a b.

(** [math.Trunc]. *)
Definition Trunc (a : float64) : float64 :=
  match a with
  | Fin m e => if e <? 0 then Fin (Z.quot m (2 ^ (- e))) 0 else a
  | _ => a
  end.

(** [finite]: neither NaN nor an infinity. *)
Definition finite (value : float64) : bool :=
  match value with Fin _ _ => true | _ => false end.

(** ** Values of a spec

    A decoded value: [Int] is an int of any width, [Num] a float of either,
    [Obj] a map with keys that are strings, the first of each the one, and
    [AnyMap] a map as YAML decoders make it. *)

Inductive any : Type :=
  | Null
  | Bool (b : bool)
  | Int (n : Z)
  | Num (f : float64)
  | Str (s : string)
  | Arr (l : list any)
  | Obj (fields : list (string * any))
  | AnyMap (fields : list (any * any)).

Definition spec := list (string * any).

Fixpoint field (fields : spec) (key : string) : option any :=
  match fields with
  | [] => None
  | (k, v) :: fields' => if String.eqb k key then Some v else field fields' key
  end.

Fixpoint spec_path (current : any) (keys : list string) : option any :=
  match keys with
  | [] => Some current
  | key :: keys' =>
      match current with
      | Obj fields => match field fields key with Some v => spec_path v keys' | None => None end
      | _ => None
      end
  end.

(** [specString] reads a string in nested spec maps, or "". *)
Definition specString (s : spec) (keys : list string) : string :=
  match spec_path (Obj s) keys with Some (Str v) => v | _ => "" end.

(** ** Bounds *)

Definition SchemaURI : string := "https://phenix.sandia.gov/schemas/builder/v1".
Definition SchemaRevision : Z := 1.
Definition MaxUserBytes : Z := 256.
Definition TimeLayout : string := "2006-01-02T15:04:05Z".
Definition MaxDiagramNotes : Z := 100.
Definition MaxDiagramNoteBytes : Z := 4096.
Definition MaxScenarios : Z := 20.
Definition MaxScenarioNameBytes : Z := 256.
Definition MinLinePoints : Z := 2.
Definition MaxLinePoints : Z := 64.
Definition MaxLayers : Z := 32.
Definition MaxLayerID : Z := 99.
Definition MinGridSize : Z := 4.
Definition MaxGridSize : Z := 200.
Definition MaxLayerLabelBytes : Z := 64.
Definition defaultGridSize : Z := 16.

(** ** Kinds

    A kind is a string; a text that is none of the kinds is kept as it is. *)

Inductive NodeKind : Type :=
  | NodeKindDevice
  | NodeKindSwitch
  | NodeKindNote
  | NodeKindGroup
  | NodeKindShape
  | NodeKindIcon
  | NodeKindLine
  | NodeKindOther (s : string).

Definition kind_string (k : NodeKind) : string :=
  match k with
  | NodeKindDevice => "device"
  | NodeKindSwitch => "switch"
  | NodeKindNote => "note"
  | NodeKindGroup => "group"
  | NodeKindShape => "shape"
  | NodeKindIcon => "icon"
  | NodeKindLine => "line"
  | NodeKindOther s => s
  end.

#[export] Instance node_kind_eq_dec : EqDecision NodeKind.
Proof. solve_decision. Defined.

Inductive SourceKind : Type :=
  | SourceKindManual
  | SourceKindTopology
  | SourceKindExperiment
  | SourceKindOther (s : string).

Inductive TemplateSourceKind : Type :=
  | TemplateSourceLibrary
  | TemplateSourceBuiltin
  | TemplateSourcePreloaded
  | TemplateSourceOther (s : string).

(** ** The parts of a document *)

Record Position : Type := { X : float64; Y : float64 }.
Record Size : Type := { Width : float64; Height : float64 }.
Record Viewport : Type := { view_X : float64; view_Y : float64; Zoom : float64 }.
Record Grid : Type := { Enabled : bool; grid_Size : float64 }.

Record InterfaceHandle : Type := { handle_ID : string; handle_Name : string; handle_Index : Z }.

Record Device : Type := {
  Hostname : string;
  dev_IconKey : string;
  dev_Icon : string;
  dev_IconSize : string;
  dev_OutlineColor : string;
  dev_FillColor : string;
  dev_HideDescription : bool;
  dev_Layer : option Z;
  dev_Spec : option spec;
  Interfaces : list InterfaceHandle;
  IncludedFrom : string;
}.

Record Switch : Type := {
  sw_NetworkID : string;
  sw_OutlineColor : string;
  sw_FillColor : string;
  sw_IconSize : string;
  sw_Layer : option Z;
}.

Record Note : Type := { note_Text : string; note_Color : string }.

Record Group : Type := {
  grp_Title : string;
  grp_Description : string;
  grp_Color : string;
  grp_BorderStyle : string;
  grp_IconKey : string;
  grp_Icon : string;
  grp_IconSize : string;
  grp_Collapsed : bool;
  grp_HideDescription : bool;
}.

Record Shape : Type := {
  sh_Shape : string;
  sh_Label : string;
  sh_FillColor : string;
  sh_OutlineColor : string;
  sh_BorderStyle : string;
}.

Record IconNode : Type := { in_IconKey : string; in_Icon : string; in_Label : string }.

Record Line : Type := {
  Points : list Position;
  line_Label : string;
  line_Color : string;
  line_LineStyle : string;
  StartArrow : bool;
  EndArrow : bool;
}.

Record Node : Type := {
  node_ID : string;
  node_Kind : NodeKind;
  node_Label : string;
  node_Position : Position;
  node_Size : option Size;
  ParentID : string;
  node_Device : option Device;
  node_Switch : option Switch;
  node_Note : option Note;
  node_Group : option Group;
  node_Shape : option Shape;
  node_Icon : option IconNode;
  node_Line : option Line;
}.

Record Network : Type := {
  net_ID : string;
  net_Name : string;
  Alias : option Z;
  net_Description : string;
  net_Color : string;
  net_LineStyle : string;
  Subnet : string;
  Gateway : string;
}.

Record Edge : Type := {
  edge_ID : string;
  SourceNodeID : string;
  SourceHandleID : string;
  TargetNodeID : string;
  TargetHandleID : string;
  edge_NetworkID : string;
  edge_Label : string;
  edge_Color : string;
  edge_LineStyle : string;
  Route : option (list Position);
}.

Record Layer : Type := {
  layer_ID : option Z;
  layer_Label : string;
  layer_IconKey : string;
  layer_Icon : string;
  layer_Color : string;
  Matchers : gmap string string;
}.

Record LayerSetSource : Type := { lss_ID : string; lss_Version : Z }.

Record DocumentLayerSet : Type := {
  dls_Name : string;
  dls_MatchConflict : string;
  dls_LayerOutlines : bool;
  dls_Source : option LayerSetSource;
}.

Record LayerSet : Type := {
  ls_Name : string;
  ls_Description : string;
  ls_IconKey : string;
  ls_Icon : string;
  ls_MatchConflict : string;
  ls_LayerOutlines : bool;
  ls_Layers : list Layer;
}.

Record TemplateSource : Type := {
  ts_Kind : TemplateSourceKind;
  ts_ID : string;
  ts_Version : Z;
  ts_Digest : string;
}.

Record TemplateDevice : Type := {
  td_IconKey : string;
  td_Icon : string;
  td_IconSize : string;
  td_OutlineColor : string;
  td_FillColor : string;
  td_HideDescription : bool;
  td_Layer : option Z;
  td_Spec : option spec;
}.

Record Template : Type := {
  tpl_ID : string;
  tpl_Name : string;
  tpl_Description : string;
  tpl_Device : TemplateDevice;
  tpl_Source : option TemplateSource;
}.

(** A custom icon is its data, in base64. *)
Record Icon : Type := { icon_Data : string }.

Record Source : Type := {
  src_Kind : SourceKind;
  src_Name : string;
  APIVersion : string;
  src_Topology : string;
  ImportedAt : string;
  src_Digest : string;
  src_UpdatedAt : string;
  IncludeTopologies : list string;
  UnresolvedIncludes : list string;
  Annotations : gmap string string;
  Warnings : list string;
}.

Record Metadata : Type := {
  meta_ID : string;
  meta_Name : string;
  meta_Description : string;
  CreatedBy : string;
  CreatedAt : string;
  UpdatedBy : string;
  UpdatedAt : string;
  Notes : list string;
}.

Record Document : Type := {
  Schema : string;
  Revision : Z;
  Meta : Metadata;
  Nodes : option (list Node);
  Networks : option (list Network);
  Edges : option (list Edge);
  doc_Viewport : Viewport;
  doc_Grid : Grid;
  Scenarios : list string;
  doc_Source : option Source;
  Layout : string;
  doc_IconSize : string;
  Templates : list Template;
  Layers : list Layer;
  doc_LayerSet : option DocumentLayerSet;
  Icons : gmap string Icon;
}.

(** The elements of a slice: none when it is nil. *)
Definition elems {A} (l : option (list A)) : list A := default [] l.

(** ** Lookups *)

Definition NodeByID (d : Document) (id : string) : option Node :=
  List.find (fun n => String.eqb (node_ID n) id) (elems (Nodes d)).

Definition NetworkByID (d : Document) (id : string) : option Network :=
  List.find (fun n => String.eqb (net_ID n) id) (elems (Networks d)).

Definition FindDevice `{Unicode} (d : Document) (hostname : string) : option Node :=
  List.find (fun n =>
    bool_decide (node_Kind n = NodeKindDevice) &&
    match node_Device n with
    | Some dev => EqualFold (Hostname dev) hostname
    | None => false
    end) (elems (Nodes d)).

(** [Device.InterfaceHandle]: the first handle with the ID. *)
Definition find_handle (dev : option Device) (id : string) : option InterfaceHandle :=
  match dev with
  | None => None
  | Some dev => List.find (fun h => String.eqb (handle_ID h) id) (Interfaces dev)
  end.

(** ** Provenance *)

Record Provenance : Type := {
  prov_CreatedBy : string;
  prov_CreatedAt : string;
  prov_UpdatedBy : string;
  prov_UpdatedAt : string;
}.

Definition provenance (d : Document) : Provenance := {|
  prov_CreatedBy := CreatedBy (Meta d);
  prov_CreatedAt := CreatedAt (Meta d);
  prov_UpdatedBy := UpdatedBy (Meta d);
  prov_UpdatedAt := UpdatedAt (Meta d);
|}.

Definition set_metadata (d : Document) (m : Metadata) : Document := {|
  Schema := Schema d; Revision := Revision d; Meta := m; Nodes := Nodes d; Networks := Networks d;
  Edges := Edges d; doc_Viewport := doc_Viewport d; doc_Grid := doc_Grid d; Scenarios := Scenarios d;
  doc_Source := doc_Source d; Layout := Layout d; doc_IconSize := doc_IconSize d;
  Templates := Templates d; Layers := Layers d; doc_LayerSet := doc_LayerSet d; Icons := Icons d;
|}.

Definition SetProvenance (d : Document) (p : Provenance) : Document :=
  set_metadata d {|
    meta_ID := meta_ID (Meta d); meta_Name := meta_Name (Meta d);
    meta_Description := meta_Description (Meta d);
    CreatedBy := prov_CreatedBy p; CreatedAt := prov_CreatedAt p;
    UpdatedBy := prov_UpdatedBy p; UpdatedAt := prov_UpdatedAt p;
    Notes := Notes (Meta d);
  |}.

(** ** Identifiers (ids.go)

    The version 5 UUID of a name in a namespace is gofrs/uuid's; the ID of an
    entity is that of its kind and its semantic keys. *)
Class UUIDs := {
  uuid_NewV5 : string -> string -> string;
  NamespaceURL : string;
}.

Definition idSeparator : string := String (ascii_of_nat 31) EmptyString.

Section IDs.
Context `{UUIDs, Unicode}.

Definition NamespaceUUID : string := uuid_NewV5 NamespaceURL SchemaURI.

Definition UUIDv5 (namespace name : string) : string :=
  if IsUUID namespace then uuid_NewV5 namespace name else "".

Definition deterministicID (parts : list string) : string :=
  UUIDv5 NamespaceUUID (join idSeparator parts).

Definition DocumentID (name : string) : string := deterministicID ["document"; ToLower name].
Definition DeviceNodeID (hostname : string) : string := deterministicID ["device"; ToLower hostname].
Definition SwitchNodeID (network : string) : string := deterministicID ["switch"; network].
Definition NetworkID (name : string) : string := deterministicID ["network"; name].
Definition NoteNodeID (key : string) : string := deterministicID ["note"; key].
Definition LegacyNodeID (kind : NodeKind) (cellID : string) : string :=
  deterministicID ["legacy"; kind_string kind; cellID].
Definition InterfaceHandleID (hostname iface : string) (index : Z) : string :=
  deterministicID ["handle"; ToLower hostname; ToLower iface; itoa index].
Definition EdgeID (sourceNodeID sourceHandleID targetNodeID targetHandleID : string) : string :=
  deterministicID ["edge"; sourceNodeID; sourceHandleID; targetNodeID; targetHandleID].

Definition NewDocument (name : string) : Document := {|
  Schema := SchemaURI;
  Revision := SchemaRevision;
  Meta := {| meta_ID := DocumentID name; meta_Name := name; meta_Description := "";
             CreatedBy := ""; CreatedAt := ""; UpdatedBy := ""; UpdatedAt := ""; Notes := [] |};
  Nodes := Some [];
  Networks := Some [];
  Edges := Some [];
  doc_Viewport := {| view_X := f_int 0; view_Y := f_int 0; Zoom := f_int 1 |};
  doc_Grid := {| Enabled := true; grid_Size := f_int defaultGridSize |};
  Scenarios := [];
  doc_Source := None;
  Layout := "";
  doc_IconSize := "";
  Templates := [];
  Layers := [];
  doc_LayerSet := None;
  Icons := ∅;
|}.

End IDs.
