(* ===== verification/Config.v ===== *)
(** * store/types.go, store/store.go: configs, their names and the store's contract

    A config and the names it goes by, the structured annotations, and what a
    store of configs promises ([Store], [StoreLaws]), against which api/config
    is proved. *)

From Stdlib Require Import ZArith Lia Ascii String Strings.Byte.
From stdpp Require Import base option list gmap strings.
From S2P Require Import Prelude Text Document.

Open Scope Z_scope.
Open Scope go_scope.

Definition APIGroup : string := "phenix.sandia.gov".
Definition configNameParts : nat := 2.

(** ** Data *)

Record ConfigMetadata : Type := { md_Name : string; md_Created : string; md_Updated : string; md_Annotations : option (gmap string string) }.

Record Config : Type := {
  cf_Version : string; cf_Kind : string; cf_Metadata : ConfigMetadata; cf_Spec : option spec; cf_Status : option spec;
}.

Definition cf_Name (c : Config) : string := md_Name (cf_Metadata c).

Definition with_metadata (c : Config) (m : ConfigMetadata) : Config := {|
  cf_Version := cf_Version c; cf_Kind := cf_Kind c; cf_Metadata := m; cf_Spec := cf_Spec c; cf_Status := cf_Status c |}.

Definition with_times (c : Config) (created updated : string) : Config :=
  with_metadata c {| md_Name := cf_Name c; md_Created := created; md_Updated := updated; md_Annotations := md_Annotations (cf_Metadata c) |}.

Definition with_spec (c : Config) (s : option spec) : Config := {|
  cf_Version := cf_Version c; cf_Kind := cf_Kind c; cf_Metadata := cf_Metadata c; cf_Spec := s; cf_Status := cf_Status c |}.

Definition with_annotations (c : Config) (a : option (gmap string string)) : Config :=
  with_metadata c {| md_Name := cf_Name c; md_Created := md_Created (cf_Metadata c); md_Updated := md_Updated (cf_Metadata c); md_Annotations := a |}.

(** What configs and their store fail with: the two errors that callers ask
    for with [errors.Is], a failed validation, a message, an error around
    another, and several at once. *)
Inductive cerror : Type :=
  | ErrExist
  | ErrNotExist
  | ErrInvalid (what : string)
  | CError (what : text)
  | CWrapped (context : text) (e : cerror)
  | CMany (es : list cerror).

(** [errors.Is(err, ErrNotExist)] and [errors.Is(err, ErrExist)]. *)
Fixpoint is_not_exist (e : cerror) : bool :=
  match e with
  | ErrNotExist => true
  | CWrapped _ e => is_not_exist e
  | CMany es => existsb is_not_exist es
  | _ => false
  end.

Fixpoint is_exist (e : cerror) : bool :=
  match e with
  | ErrExist => true
  | CWrapped _ e => is_exist e
  | CMany es => existsb is_exist es
  | _ => false
  end.

(** [StoredVersion] (types/version/version.go), in the order it is written. *)
Definition StoredVersions : list (string * string) :=
  [("Topology", "v1"); ("Scenario", "v2"); ("Experiment", "v1"); ("Image", "v1"); ("User", "v1"); ("Role", "v1"); ("Node", "v1");
   ("Ruleset", "v1"); ("Setting", "v2")].

(** [StoredVersion[kind]]. *)
Definition StoredVersion (kind : string) : string :=
  match List.find (fun '(k, _) => String.eqb k kind) StoredVersions with Some (_, v) => v | None => "" end.

(** ** Names *)

Section Names.
Context `{Unicode}.

(** The loop over the kinds, whose order Go leaves open. *)
Definition canonicalKind_in (order : list string) (kind : string) : string :=
  default "" (List.find (fun k => EqualFold k kind) order).

Definition canonicalKind : string -> string := canonicalKind_in (map fst StoredVersions).

(** A config that has nothing but its version, kind and name. *)
Definition blank (kind name : string) : Config := {|
  cf_Version := APIGroup +:+ "/" +:+ StoredVersion kind; cf_Kind := kind;
  cf_Metadata := {| md_Name := name; md_Created := ""; md_Updated := ""; md_Annotations := None |}; cf_Spec := None; cf_Status := None |}.

Definition NewConfig (name : string) : res cerror Config :=
  match split_on "/"%char name with
  | [kind; n] =>
      let canonical := canonicalKind kind in
      if String.eqb canonical "" then Err (CError (Sprintf "invalid config kind provided: %s" [AStr kind])) else Ok (blank canonical n)
  | _ => Err (CError (Sprintf "invalid config name provided: %s" [AStr name]))
  end.

Definition ConfigFullName (name : list string) : string :=
  let full (kind n : string) := let kind := canonicalKind kind in if String.eqb kind "" then "" else kind +:+ "/" +:+ n in
  match name with
  | [one] => match split_on "/"%char one with [kind; n] => full kind n | _ => "" end
  | [kind; n] => full kind n
  | _ => ""
  end.

End Names.

Definition config_APIGroup (c : Config) : string :=
  match split_on "/"%char (cf_Version c) with group :: _ :: _ => group | _ => "" end.

Definition config_APIVersion (c : Config) : string :=
  match split_on "/"%char (cf_Version c) with [] => "" | [v] => v | _ :: v :: _ => v end.

Definition HasAnnotation (c : Config) (name : string) : bool :=
  match md_Annotations (cf_Metadata c) with Some a => bool_decide (is_Some (a !! name)) | None => false end.

Definition FullName (c : Config) : string := cf_Kind c +:+ "/" +:+ cf_Name c.

(** Decoding a config from a user resets its times. *)
Definition reset_times (c : Config) : Config := with_times c "" "".

(** ** Annotations as JSON and YAML show them *)

Definition StructuredAnnotation (key : string) : bool := String.eqb key "builder-doc".

(** encoding/json on the strings of structured annotations: the sub-keys of
    one, nothing for a string that is no object of texts, and the compact
    object of sub-keys. *)
Class AnnotationJSON := {
  structuredValue : string -> option (gmap string string);
  structuredString : gmap string string -> string;
}.

Class AnnotationJSONLaws `{AnnotationJSON} : Prop := {
  structuredValue_String sub : structuredValue (structuredString sub) = Some sub;
}.

(** A value as it is shown: a text, or a map of texts. *)
Inductive wire_value : Type :=
  | WText (s : string)
  | WSub (sub : gmap string string).

Section Annotations.
Context `{AnnotationJSON}.

Definition wire_one (key value : string) : wire_value :=
  if StructuredAnnotation key then match structuredValue value with Some sub => WSub sub | None => WText value end else WText value.

(** [Annotations.wire]. *)
Definition wire (a : option (gmap string string)) : option (gmap string wire_value) := option_map (map_imap (fun key value => Some (wire_one key value))) a.

(** What [UnmarshalJSON] and [UnmarshalYAML] make of one value. *)
Definition unwire_one (key : string) (value : wire_value) : option string :=
  match value with
  | WText s => Some s
  | WSub sub => if StructuredAnnotation key then Some (structuredString sub) else None
  end.

End Annotations.

(** ** The contract of a store *)

(** What one call finds: whether the file opens, whether the n-th transaction
    commits, and the time. *)
Record cenv : Type := { c_open : option string; c_commit : nat -> option string; c_now : string }.

Class Store (S : Type) : Type := {
  store_List : cenv -> list string -> st S cerror (list Config);
  store_Get : cenv -> Config -> st S cerror Config;
  store_Create : cenv -> Config -> st S cerror Config;
  store_Update : cenv -> Config -> st S cerror Config;
  store_Delete : cenv -> Config -> st S cerror unit;
}.

(** What [Create] and [Update] stamp a config with. *)
Definition created_at (now : string) (c : Config) : Config :=
  with_times c (if String.eqb (md_Created (cf_Metadata c)) "" then now else md_Created (cf_Metadata c)) now.

Definition updated_at (now : string) (c : Config) : Config := with_times c (md_Created (cf_Metadata c)) now.

(** A state of the store, seen as the configs in it: [view] is what is read
    under a kind and a name, and [storable] are the configs that can be kept
    under theirs. A call that fails changes nothing that is seen. A create looks
    its config up in the first transaction: it says that the config exists
    exactly when that transaction commits and the config is there, so it
    replaces a config, as new, when that transaction fails. *)
Class StoreView (S : Type) : Type := {
  store_valid : S -> Prop;
  view : S -> string -> string -> option Config;
  storable : Config -> Prop;
  kept : Config -> Config;
}.

(** Nothing fails. *)
Definition healthy (e : cenv) : Prop := c_open e = None /\ forall n, c_commit e n = None.

(** The configs seen after one of them is set or goes. *)
Definition view_set (v : string -> string -> option Config) (kind name : string) (c : option Config) : string -> string -> option Config :=
  fun k n => if decide (k = kind /\ n = name) then c else v k n.

Class StoreLaws (S : Type) `{Store S, StoreView S} : Prop := {
  store_kept c : storable c -> cf_Kind (kept c) = cf_Kind c /\ cf_Name (kept c) = cf_Name c;
  store_storable c c' : cf_Kind c' = cf_Kind c -> cf_Name c' = cf_Name c -> storable c -> storable c';
  store_kinds kind : kind ∈ map fst StoredVersions -> storable (blank kind "x");
  store_view_names s kind name c : store_valid s -> view s kind name = Some c -> cf_Kind c = kind /\ cf_Name c = name /\ storable c;
  store_get_ok e s kind name r s' :
    store_valid s -> storable (blank kind "x") -> store_Get e (blank kind name) s = (r, s') ->
    store_valid s' /\ (forall k n, view s' k n = view s k n) /\
    match r with
    | Ok c => view s kind name = Some c
    | Err err => (is_not_exist err = true -> view s kind name = None) /\ (healthy e -> view s kind name = None)
    end;
  store_create_ok e s c r s' :
    store_valid s -> storable c -> store_Create e c s = (r, s') ->
    store_valid s' /\
    (r = Err ErrExist <-> c_open e = None /\ c_commit e 0 = None /\ is_Some (view s (cf_Kind c) (cf_Name c))) /\
    match r with
    | Ok c' => c' = created_at (c_now e) c /\ (c_commit e 0 = None -> view s (cf_Kind c) (cf_Name c) = None) /\
               forall k n, view s' k n = view_set (view s) (cf_Kind c) (cf_Name c) (Some (kept c')) k n
    | Err err => forall k n, view s' k n = view s k n
    end;
  store_update_ok e s c r s' :
    store_valid s -> storable c -> store_Update e c s = (r, s') ->
    store_valid s' /\
    match r with
    | Ok c' => c' = updated_at (c_now e) c /\ is_Some (view s (cf_Kind c) (cf_Name c)) /\
               forall k n, view s' k n = view_set (view s) (cf_Kind c) (cf_Name c) (Some (kept c')) k n
    | Err err => (is_not_exist err = true -> view s (cf_Kind c) (cf_Name c) = None) /\ forall k n, view s' k n = view s k n
    end;
  store_delete_ok e s c r s' :
    store_valid s -> storable c -> store_Delete e c s = (r, s') ->
    store_valid s' /\
    match r with
    | Ok _ => is_Some (view s (cf_Kind c) (cf_Name c)) /\ forall k n, view s' k n = view_set (view s) (cf_Kind c) (cf_Name c) None k n
    | Err err => (healthy e -> view s (cf_Kind c) (cf_Name c) = None) /\ forall k n, view s' k n = view s k n
    end;
  store_list_ok e s kinds r s' :
    store_valid s -> Forall (fun kind => storable (blank kind "x")) kinds -> store_List e kinds s = (r, s') ->
    store_valid s' /\ (forall k n, view s' k n = view s k n) /\
    match r with Ok l => forall c, c ∈ l <-> exists kind name, kind ∈ kinds /\ view s kind name = Some c | Err _ => ~ healthy e end;
}.
