(* ===== verification/Scenario.v ===== *)
(** * types/version/v2/scenario.go, types/scenario.go: scenarios

    The apps of a scenario, the topologies it is marked for, and the settings
    that an app takes from another scenario. The code has pointers to apps and
    hosts: a list with a nil entry, at which its loops panic, is not one here. *)

From Stdlib Require Import ZArith Lia Ascii String Strings.Byte.
From stdpp Require Import base option list gmap strings.
From S2P Require Import Prelude Text Document Config.

Open Scope Z_scope.
Open Scope go_scope.

Section Data.
Context {any : Type}.

Record ScenarioAppHost : Type := { sh_Hostname : string; sh_Metadata : option (gmap string any) }.

Record ScenarioApp : Type := {
  sa_Name : string; sa_FromScenario : string; sa_AssetDir : string; sa_Metadata : option (gmap string any);
  sa_Hosts : list ScenarioAppHost; sa_RunPeriodically : string; sa_Disabled : bool;
}.

Record ScenarioSpec : Type := { ss_Apps : list ScenarioApp }.

Definition new_app (name : string) : ScenarioApp := {|
  sa_Name := name; sa_FromScenario := ""; sa_AssetDir := ""; sa_Metadata := None; sa_Hosts := []; sa_RunPeriodically := ""; sa_Disabled := false |}.

(** [ScenarioSpec.App]: the first app of a name. *)
Definition find_app (apps : list ScenarioApp) (name : string) : option ScenarioApp := List.find (fun a => String.eqb (sa_Name a) name) apps.

Definition App (ss : option ScenarioSpec) (name : string) : option ScenarioApp := ss ← ss; find_app (ss_Apps ss) name.

Definition AddApp (ss : ScenarioSpec) (name : string) : ScenarioSpec := {| ss_Apps := ss_Apps ss ++ [new_app name] |}.

Definition AddHost (a : ScenarioApp) (hostname : string) : ScenarioApp := {|
  sa_Name := sa_Name a; sa_FromScenario := sa_FromScenario a; sa_AssetDir := sa_AssetDir a; sa_Metadata := sa_Metadata a;
  sa_Hosts := sa_Hosts a ++ [{| sh_Hostname := hostname; sh_Metadata := None |}]; sa_RunPeriodically := sa_RunPeriodically a; sa_Disabled := sa_Disabled a |}.

Definition SetDisabled (a : ScenarioApp) (d : bool) : ScenarioApp := {|
  sa_Name := sa_Name a; sa_FromScenario := sa_FromScenario a; sa_AssetDir := sa_AssetDir a; sa_Metadata := sa_Metadata a; sa_Hosts := sa_Hosts a;
  sa_RunPeriodically := sa_RunPeriodically a; sa_Disabled := d |}.

(** The settings that an app takes from another one. *)
Definition take_settings (a from : ScenarioApp) : ScenarioApp := {|
  sa_Name := sa_Name a; sa_FromScenario := sa_FromScenario a; sa_AssetDir := sa_AssetDir from; sa_Metadata := sa_Metadata from; sa_Hosts := sa_Hosts from;
  sa_RunPeriodically := sa_RunPeriodically from; sa_Disabled := sa_Disabled from |}.

(** ** types/scenario.go *)

(** mapstructure on the spec of a config. *)
Context (decode_scenario : Config -> res string ScenarioSpec).

Definition DecodeScenarioFromConfig (c : Config) : res cerror ScenarioSpec :=
  if negb (String.eqb (config_APIVersion c) (StoredVersion (cf_Kind c))) then Err (CError (Sprintf "unknown scenario version %s" [AStr (config_APIVersion c)]))
  else if negb (String.eqb (cf_Kind c) "Scenario") then Err (CError (lit "invalid spec in config"))
  else res_map_err (fun what => CWrapped (lit "decoding versioned spec") (CError (lit what))) (decode_scenario c).

Definition MakeCustomScenarioFromConfig (c : Config) (disabledApps : list string) : res cerror ScenarioSpec :=
  let? spec := res_map_err (CWrapped (lit "error make custom scenario")) (DecodeScenarioFromConfig c) in
  Ok {| ss_Apps := map (fun a => if bool_decide (sa_Name a ∈ disabledApps) then SetDisabled a true else a) (ss_Apps spec) |}.

(** [strings.Contains] on the annotation, which is a comma-separated list. *)
Definition CheckScenarioTopology (name : string) (annotations : option (gmap string string)) (topology : string) : res cerror unit :=
  match a ← annotations; a !! "topology" with
  | None => Err (CError (Sprintf "topology annotation missing from scenario %s" [AStr name]))
  | Some topo =>
      if contains topo topology then Ok tt else Err (CError (Sprintf "experiment/scenario topology mismatch for scenario %s" [AStr name]))
  end.

(** [HasTopologyAnnotation] (api/builder/changes.go) on the same annotation. *)
Definition HasTopologyAnnotation `{Unicode} (value topology : string) : bool :=
  existsb (fun item => String.eqb (TrimSpace item) topology) (split_on ","%char value).

Context `{Unicode}.
(** What the store gives for a scenario. *)
Context (load : string -> res cerror Config).

Definition FromScenarioConfig (name topology : string) : res cerror Config :=
  match load name with
  | Err _ => Err (CError (Sprintf "scenario %s doesn't exist" [AStr name]))
  | Ok c => let? _ := CheckScenarioTopology name (md_Annotations (cf_Metadata c)) topology in Ok c
  end.

(** One app of the loop of [MergeScenariosForTopology]. *)
Definition merge_app (topology : string) (a : ScenarioApp) : res cerror ScenarioApp :=
  if String.eqb (sa_FromScenario a) "" then Ok a
  else
    let? c := FromScenarioConfig (sa_FromScenario a) topology in
    let? from := res_map_err (CWrapped (Sprintf "decoding scenario %s from config" [AStr (sa_FromScenario a)])) (DecodeScenarioFromConfig c) in
    match find_app (ss_Apps from) (sa_Name a) with
    | Some b => Ok (take_settings a b)
    | None => Err (CError (Sprintf "no app named %s in scenario %s" [AStr (sa_Name a); AStr (sa_FromScenario a)]))
    end.

Fixpoint merge_apps (topology : string) (apps : list ScenarioApp) : res cerror (list ScenarioApp) :=
  match apps with
  | [] => Ok []
  | a :: apps => let? a := merge_app topology a in let? rest := merge_apps topology apps in Ok (a :: rest)
  end.

Definition MergeScenariosForTopology (scenario : ScenarioSpec) (topology : string) : res cerror ScenarioSpec :=
  let? apps := merge_apps topology (ss_Apps scenario) in Ok {| ss_Apps := apps |}.

End Data.

Arguments ScenarioAppHost : clear implicits.
Arguments ScenarioApp : clear implicits.
Arguments ScenarioSpec : clear implicits.

(** ** What an app takes *)

Section Merge.
Context {any : Type} (decode_scenario : Config -> res string (ScenarioSpec any)) (load : string -> res cerror Config).
Implicit Types (a b : ScenarioApp any).

(** The annotation of a scenario has the name of the topology in it, anywhere:
    a scenario that names "plant2" is taken to be marked for "plant". *)
Definition marked (c : Config) (topology : string) : Prop :=
  exists m l r, md_Annotations (cf_Metadata c) = Some m /\ m !! "topology" = Some (l +:+ topology +:+ r).

(** A config that is a scenario of the stored version and decodes. *)
Definition decodes (c : Config) (apps : list (ScenarioApp any)) : Prop :=
  cf_Kind c = "Scenario" /\ config_APIVersion c = "v2" /\ exists spec, decode_scenario c = Ok spec /\ ss_Apps spec = apps.

(** [a] takes its settings from the first app of its name in a scenario that
    is stored and marked for the topology; an app that takes none stays. *)
Definition merged (topology : string) a b : Prop :=
  (sa_FromScenario a = "" /\ b = a) \/
  (sa_FromScenario a <> "" /\ exists c before from after,
     load (sa_FromScenario a) = Ok c /\ marked c topology /\ decodes c (before ++ from :: after) /\
     sa_Name from = sa_Name a /\ Forall (fun other => sa_Name other <> sa_Name a) before /\
     b = {| sa_Name := sa_Name a; sa_FromScenario := sa_FromScenario a; sa_AssetDir := sa_AssetDir from; sa_Metadata := sa_Metadata from;
            sa_Hosts := sa_Hosts from; sa_RunPeriodically := sa_RunPeriodically from; sa_Disabled := sa_Disabled from |}).

Lemma contains_part s sub : contains s sub = true <-> exists l r, s = l +:+ sub +:+ r.
Proof.
  assert (forall s, contains s sub = has_prefix s sub || match s with EmptyString => false | String _ s' => contains s' sub end) as Hc by (by intros []).
  induction s as [|c s IH]; rewrite Hc.
  - rewrite orb_false_r, has_prefix_spec. split; [intros [r ->]; by exists "", r|]. intros ([|c l] & r & E); [by exists r|done].
  - rewrite orb_true_iff, IH, has_prefix_spec. split.
    + intros [[r ->]|(l & r & ->)]; [by exists "", r|]. by exists (String c l), r.
    + intros ([|c' l] & r & E); [left; by exists r|]. right. injection E as -> ->. by exists l, r.
Qed.

Lemma find_app_first (apps : list (ScenarioApp any)) name from :
  find_app apps name = Some from <-> exists before after, apps = before ++ from :: after /\ sa_Name from = name /\ Forall (fun other => sa_Name other <> name) before.
Proof.
  unfold find_app. split.
  - induction apps as [|a apps IH]; cbn [List.find]; [done|]. destruct (String.eqb_spec (sa_Name a) name) as [He|Hne].
    + intros [= ->]. by exists [], apps.
    + intros (before & after & -> & Hn & Hb)%IH. exists (a :: before), after. split; [done|]. split; [done|]. by constructor.
  - intros (before & after & -> & Hn & Hb). induction Hb as [|a before Ha _ IH]; cbn [app List.find]; [by rewrite Hn, String.eqb_refl|].
    by rewrite (proj2 (String.eqb_neq _ _) Ha).
Qed.

Lemma CheckScenarioTopology_ok name annotations topology :
  CheckScenarioTopology name annotations topology = Ok tt <->
  exists topo, (m ← annotations; m !! "topology") = Some topo /\ contains topo topology = true.
Proof.
  unfold CheckScenarioTopology. destruct (m ← annotations; m !! "topology") as [topo|]; [|split; [done|by intros (? & ? & _)]].
  destruct (contains topo topology) eqn:E; split; try done; [intros _; by exists topo|]. intros (? & [= <-] & ?). congruence.
Qed.

Lemma CheckScenarioTopology_marked name c topology : CheckScenarioTopology name (md_Annotations (cf_Metadata c)) topology = Ok tt <-> marked c topology.
Proof.
  rewrite CheckScenarioTopology_ok. unfold marked. split.
  - intros (topo & Hm & (l & r & ->)%contains_part). destruct (md_Annotations (cf_Metadata c)) as [m|]; [|done]. by exists m, l, r.
  - intros (m & l & r & -> & Hm). exists (l +:+ topology +:+ r). split; [done|]. apply contains_part. by exists l, r.
Qed.

Lemma DecodeScenario_decodes c spec : DecodeScenarioFromConfig decode_scenario c = Ok spec <-> decodes c (ss_Apps spec).
Proof.
  unfold DecodeScenarioFromConfig, decodes. split.
  - destruct (String.eqb_spec (config_APIVersion c) (StoredVersion (cf_Kind c))) as [Hv|]; [|done]. destruct (String.eqb_spec (cf_Kind c) "Scenario") as [Hk|]; [|done].
    intros Hd%res_map_err_ok. split; [done|]. split; [by rewrite Hv, Hk|]. by exists spec.
  - intros (Hk & Hv & [apps] & Hd & He). rewrite Hv, Hk. cbn in He. rewrite Hd. destruct spec. cbn in *. by subst.
Qed.

Lemma merge_app_ok topology a b : merge_app decode_scenario load topology a = Ok b <-> merged topology a b.
Proof.
  unfold merge_app, merged. destruct (String.eqb_spec (sa_FromScenario a) "") as [He|He].
  - split; [intros [= <-]; by left|]. intros [[_ ->]|[? _]]; done.
  - split.
    + intros (c & Hc & Hr)%bind_ok. unfold FromScenarioConfig in Hc. destruct (load (sa_FromScenario a)) as [c'|] eqn:El; [|done].
      apply bind_unit in Hc as [Hm%CheckScenarioTopology_marked [= <-]]. apply bind_ok in Hr as (spec & Hd%res_map_err_ok & Hf).
      destruct (find_app _ _) as [from|] eqn:Ef; [|done]. injection Hf as <-. right. split; [done|]. apply DecodeScenario_decodes in Hd.
      apply find_app_first in Ef as (before & after & E & Hn & Hb). rewrite E in Hd. by exists c', before, from, after.
    + intros [[? _]|(_ & c & before & from & after & Hl & Hm & Hd & Hn & Hb & ->)]; [done|]. unfold FromScenarioConfig. rewrite Hl.
      rewrite (proj2 (CheckScenarioTopology_marked _ _ _) Hm). cbn [res_bind].
      apply (DecodeScenario_decodes c {| ss_Apps := before ++ from :: after |}) in Hd. rewrite Hd. cbn [res_map_err res_bind ss_Apps].
      by rewrite (proj2 (find_app_first (before ++ from :: after) (sa_Name a) from)) by (by exists before, after).
Qed.

(** C30: merging the scenarios that apps take their settings from succeeds
    exactly when each of those is stored, has an annotation that the name of
    the topology is a part of, is a scenario that decodes, and has an app of
    that name. Every app then has the directory, the metadata, the hosts, the
    period and the disabling of the first such app, and keeps its own name and
    what it takes them from; an app that takes none is as it was, and the order
    stays. *)
Theorem MergeScenarios_spec topology scenario out :
  MergeScenariosForTopology decode_scenario load scenario topology = Ok out <-> Forall2 (merged topology) (ss_Apps scenario) (ss_Apps out).
Proof.
  unfold MergeScenariosForTopology. rewrite bind_ok.
  assert (forall apps apps', merge_apps decode_scenario load topology apps = Ok apps' <-> Forall2 (merged topology) apps apps') as Happs.
  { induction apps as [|a apps IH]; intros apps'; cbn [merge_apps].
    - split; [intros [= <-]; constructor|by inversion 1].
    - rewrite bind_ok. split.
      + intros (b & Hb%merge_app_ok & (rest & Hr & [= <-])%bind_ok). constructor; [done|by apply IH].
      + inversion 1 as [|? b ? rest Hb Hr]; subst. exists b. split; [by apply merge_app_ok|]. apply bind_ok. exists rest. split; [by apply IH|done]. }
  split.
  - intros (apps & Ha%Happs & [= <-]). done.
  - intros Ha%Happs. exists (ss_Apps out). split; [done|]. by destruct out.
Qed.

(** ** The topologies that a scenario is marked for *)

Lemma split_on_part c s part : part ∈ split_on c s -> exists l r, s = l +:+ part +:+ r.
Proof.
  assert (forall s part rest, split_on c s = part :: rest -> exists r, s = part +:+ r) as Hfirst.
  { clear s part. induction s as [|a s IH]; intros part rest; cbn [split_on]; [intros [= <- _]; by exists ""|].
    destruct (Ascii.eqb a c); [intros [= <- _]; by exists (String a s)|]. destruct (split_on c s) as [|p ps]; intros [= <- _]; [by exists s|].
    destruct (IH _ _ eq_refl) as [r ->]. by exists r. }
  revert part. induction s as [|a s IH]; intros part; cbn [split_on].
  - intros ->%list_elem_of_singleton. by exists "", "".
  - destruct (Ascii.eqb a c).
    + intros [->|Hp]%elem_of_cons; [by exists "", (String a s)|]. destruct (IH _ Hp) as (l & r & ->). by exists (String a l), r.
    + destruct (split_on c s) as [|p ps] eqn:E; [intros ->%list_elem_of_singleton; exists "", s; done|]. intros [->|Hp]%elem_of_cons.
      * destruct (Hfirst _ _ _ E) as [r ->]. by exists "", r.
      * destruct (IH part) as (l & r & ->); [by right|]. by exists (String a l), r.
Qed.

Lemma TrimSpace_part s : exists l r, s = l +:+ TrimSpace s +:+ r.
Proof.
  unfold TrimSpace. set (n := (widths _ - widths _)%nat). set (m := widths _). exists (Z_string (take n (bytes_Z s))), (Z_string (drop m (drop n (bytes_Z s)))).
  assert (forall l l', Z_string (l ++ l') = Z_string l +:+ Z_string l') as Happ.
  { intros l l'. induction l as [|z l IH]; [done|]. unfold Z_string in *. cbn. by rewrite IH. }
  by rewrite <- !Happ, !take_drop, Z_string_bytes_Z.
Qed.

(** A scenario that the Builder takes to name a topology is accepted for
    it; but a scenario that only names a topology whose name contains the other
    one is accepted too, which the Builder does not take to name it. *)
Theorem scenario_topologies `{Unicode} name m value topology :
  m !! "topology" = Some value ->
  (HasTopologyAnnotation value topology = true -> CheckScenarioTopology name (Some m) topology = Ok tt) /\
  (CheckScenarioTopology name (Some m) topology = Ok tt <-> exists l r, value = l +:+ topology +:+ r) /\
  HasTopologyAnnotation "plant2" "plant" = false /\ CheckScenarioTopology name (Some {[ "topology" := "plant2" ]}) "plant" = Ok tt.
Proof.
  intros Hm. assert (CheckScenarioTopology name (Some m) topology = Ok tt <-> exists l r, value = l +:+ topology +:+ r) as Hc.
  { rewrite CheckScenarioTopology_ok. cbn. rewrite Hm. split; [intros (? & [= <-] & ?); by apply contains_part|]. intros ?. exists value. split; [done|by apply contains_part]. }
  split; [|split; [exact Hc|split; [vm_compute; reflexivity|vm_compute; reflexivity]]].
  rewrite Hc. unfold HasTopologyAnnotation. intros (item & Hin & <-%String.eqb_eq)%existsb_exists. apply list_elem_of_In in Hin.
  destruct (split_on_part _ _ _ Hin) as (l & r & ->). destruct (TrimSpace_part item) as (l' & r' & E). exists (l +:+ l'), (r' +:+ r). rewrite E at 1. by rewrite !string_app_assoc.
Qed.

End Merge.
