(* ===== verification/Experiment.v ===== *)
(** * types/version/v1/experiment.go: experiments

    The spec of an experiment with its VLANs and schedules, its status, and the
    operations on both. What the maps of Go hold in an order of their own is
    walked in an order that is an argument. *)

From Stdlib Require Import ZArith Lia Ascii String Strings.Byte.
From stdpp Require Import base option list gmap strings.
From S2P Require Import Prelude Text Printf Hostname V1 Scenario.

Open Scope Z_scope.
Open Scope go_scope.

(** ** File paths *)

(** [path/filepath] of a system whose separator is a slash. *)
Definition IsAbs (path : string) : bool := has_prefix path "/".

(** One element of [filepath.Clean]: the elements so far, the last first. *)
Definition clean_step (rooted : bool) (out : list string) (element : string) : list string :=
  if String.eqb element "" || String.eqb element "." then out
  else if String.eqb element ".." then
    match out with
    | last :: rest => if String.eqb last ".." then element :: out else rest
    | [] => if rooted then [] else [element]
    end
  else element :: out.

Definition Clean (path : string) : string :=
  let rooted := IsAbs path in
  let out := join "/" (rev (foldl (clean_step rooted) [] (split_on "/"%char path))) in
  if rooted then "/" +:+ out else if String.eqb out "" then "." else out.

(** [filepath.Abs], given what [os.Getwd] gives: nothing when that fails. *)
Definition Abs (wd : option string) (path : string) : option string :=
  if IsAbs path then Some (Clean path)
  else wd ← wd; Some (Clean (if String.eqb wd "" then path else if String.eqb path "" then wd else wd +:+ "/" +:+ path)).

(** ** VLANs *)

Definition VLANSpec_Init (v : VLANSpec) : VLANSpec := {|
  vl_Aliases := Some (default ∅ (vl_Aliases v)); vl_Min := vl_Min v; vl_Max := vl_Max v |}.

Definition Aliases (v : VLANSpec) : gmap string Z := default ∅ (vl_Aliases v).

Definition with_aliases (v : VLANSpec) (aliases : option (gmap string Z)) : VLANSpec := {|
  vl_Aliases := aliases; vl_Min := vl_Min v; vl_Max := vl_Max v |}.

(** [new(VLANSpec)]. *)
Definition no_vlans : VLANSpec := {| vl_Aliases := None; vl_Min := 0; vl_Max := 0 |}.

(** The loops over aliases: the first one outside of the range, and the words
    of the message about it. *)
Fixpoint outside_range (proposed : string) (min max : Z) (aliases : list (string * Z)) : option text :=
  match aliases with
  | [] => None
  | (k, v) :: aliases =>
      if negb (min =? 0) && (v <? min) then
        Some (Sprintf ("topology VLAN %s (VLAN ID %d) is less than " +:+ proposed +:+ "experiment min VLAN ID of %d") [AStr k; AInt v; AInt min])
      else if negb (max =? 0) && (max <? v) then
        Some (Sprintf ("topology VLAN %s (VLAN ID %d) is greater than " +:+ proposed +:+ "experiment min VLAN ID of %d") [AStr k; AInt v; AInt max])
      else outside_range proposed min max aliases
  end.

(** The entries of a map in the order that a loop over it takes. *)
Definition walk {V} (order : list string) (m : gmap string V) : list (string * V) :=
  omap (fun k => pair k <$> m !! k) order.

Definition VLANSpec_Validate (order : list string) (v : VLANSpec) : res verror unit :=
  match outside_range "" (vl_Min v) (vl_Max v) (walk order (Aliases v)) with
  | Some what => Err (VFail what)
  | None => Ok tt
  end.

(** ** The spec *)

Section Experiment.
Context {any : Type} `{Unicode}.

Record ExperimentSpec : Type := {
  ExperimentName : string;
  BaseDir : string;
  DefaultBridge : string;
  es_Topology : option (TopologySpec any);
  es_Scenario : option (ScenarioSpec any);
  es_VLANs : option VLANSpec;
  es_Schedules : option (gmap string string);
  DeployMode : string;
  UseGREMesh : bool;
}.

Definition with_vlans (e : ExperimentSpec) (v : VLANSpec) : ExperimentSpec := {|
  ExperimentName := ExperimentName e; BaseDir := BaseDir e; DefaultBridge := DefaultBridge e; es_Topology := es_Topology e;
  es_Scenario := es_Scenario e; es_VLANs := Some v; es_Schedules := es_Schedules e; DeployMode := DeployMode e; UseGREMesh := UseGREMesh e |}.

Definition with_schedules (e : ExperimentSpec) (schedules : gmap string string) : ExperimentSpec := {|
  ExperimentName := ExperimentName e; BaseDir := BaseDir e; DefaultBridge := DefaultBridge e; es_Topology := es_Topology e;
  es_Scenario := es_Scenario e; es_VLANs := es_VLANs e; es_Schedules := Some schedules; DeployMode := DeployMode e; UseGREMesh := UseGREMesh e |}.

Definition with_topology (e : ExperimentSpec) (t : TopologySpec any) : ExperimentSpec := {|
  ExperimentName := ExperimentName e; BaseDir := BaseDir e; DefaultBridge := DefaultBridge e; es_Topology := Some t;
  es_Scenario := es_Scenario e; es_VLANs := es_VLANs e; es_Schedules := es_Schedules e; DeployMode := DeployMode e; UseGREMesh := UseGREMesh e |}.

Definition SetDefaultBridge (e : ExperimentSpec) (bridge : string) : ExperimentSpec := {|
  ExperimentName := ExperimentName e; BaseDir := BaseDir e; DefaultBridge := bridge; es_Topology := es_Topology e;
  es_Scenario := es_Scenario e; es_VLANs := es_VLANs e; es_Schedules := es_Schedules e; DeployMode := DeployMode e; UseGREMesh := UseGREMesh e |}.

(** The VLANs that the interfaces of a node name. *)
Definition node_vlans (n : Node any) : option (list string) :=
  match nd_Network n with
  | None => Some []
  | Some w => mapM (fun i => if_VLAN <$> i) (nw_Interfaces w)
  end.

Definition topology_vlans (t : TopologySpec any) : option (list (list string)) := mapM (fun n => n ← n; node_vlans n) (ts_Nodes t).

(** An alias that is not there is recorded with no ID. *)
Definition record_alias (aliases : gmap string Z) (vlan : string) : gmap string Z :=
  match aliases !! vlan with Some _ => aliases | None => <[ vlan := 0 ]> aliases end.

(** The fields that [ExperimentSpec.Init] fills before it looks at the
    topology. *)
Definition init_fields (base : string) (wd : option string) (e : ExperimentSpec) : ExperimentSpec :=
  let dir := if String.eqb (BaseDir e) "" then base +:+ "/experiments/" +:+ ExperimentName e else BaseDir e in
  {| ExperimentName := ExperimentName e;
     BaseDir := if IsAbs dir then dir else default dir (Abs wd dir);
     DefaultBridge := if String.eqb (DefaultBridge e) "" then "phenix" else DefaultBridge e;
     es_Topology := es_Topology e; es_Scenario := es_Scenario e;
     es_VLANs := Some (VLANSpec_Init (default no_vlans (es_VLANs e)));
     es_Schedules := Some (default ∅ (es_Schedules e)); DeployMode := DeployMode e; UseGREMesh := UseGREMesh e |}.

(** [ExperimentSpec.Init]: the errors and the spec, or a panic. The aliases are
    recorded only when the topology has no errors. *)
Definition ExperimentSpec_Init (base : string) (wd : option string) (e : ExperimentSpec) : option (list text * ExperimentSpec) :=
  let e := init_fields base wd e in
  match es_Topology e with
  | None => Some ([], e)
  | Some t =>
      '(errs, t) ← Init (DefaultBridge e) t;
      let e := with_topology e t in
      if bool_decide (errs = []) then
        vlans ← topology_vlans t;
        let v := default no_vlans (es_VLANs e) in
        Some ([], with_vlans e (with_aliases v (Some (foldl record_alias (Aliases v) (concat vlans)))))
      else Some (errs, e)
  end.

(** What the setters start from. *)
Definition made_vlans (e : ExperimentSpec) : VLANSpec :=
  default {| vl_Aliases := Some ∅; vl_Min := 0; vl_Max := 0 |} (es_VLANs e).

(** A name is looked up in a nil map too, but not set in one. *)
Definition SetVLANAlias (a : string) (i : Z) (f : bool) : st ExperimentSpec verror unit := fun e =>
  let v := made_vlans e in
  let e := with_vlans e v in
  if bool_decide (is_Some (Aliases v !! a)) && negb f then
    (Err (VFail (Sprintf "vlan alias %s already exists for experiment %s" [AStr a; AStr (ExperimentName e)])), e)
  else if negb (vl_Min v =? 0) && (i <? vl_Min v) then
    (Err (VFail (Sprintf "vlan ID %d is less than experiment min VLAN ID of %d" [AInt i; AInt (vl_Min v)])), e)
  else if negb (vl_Max v =? 0) && (vl_Max v <? i) then
    (Err (VFail (Sprintf "vlan ID %d is greater than experiment max VLAN ID of %d" [AInt i; AInt (vl_Max v)])), e)
  else
    match vl_Aliases v with
    | None => (Err VPanic, e)
    | Some aliases => (Ok tt, with_vlans e (with_aliases v (Some (<[ a := i ]> aliases))))
    end.

Definition SetVLANRange (order : list string) (minVal maxVal : Z) (f : bool) : st ExperimentSpec verror unit := fun e =>
  let v := made_vlans e in
  let e := with_vlans e v in
  if negb (vl_Min v =? 0) && negb (vl_Max v =? 0) && negb f then
    (Err (VFail (Sprintf "vlan range %d-%d already exists for experiment %s" [AInt (vl_Min v); AInt (vl_Max v); AStr (ExperimentName e)])), e)
  else
    match outside_range "proposed " minVal maxVal (walk order (Aliases v)) with
    | Some what => (Err (VFail what), e)
    | None => (Ok tt, with_vlans e {| vl_Aliases := vl_Aliases v; vl_Min := minVal; vl_Max := maxVal |})
    end.

(** [e.SchedulesF[node] = host] panics on a nil map. *)
Definition ScheduleNode (node host : string) : st ExperimentSpec verror unit := fun e =>
  match es_Schedules e with
  | None => (Err VPanic, e)
  | Some schedules => (Ok tt, with_schedules e (<[ node := host ]> schedules))
  end.

(** [VerifyScenario]: the warnings it notes, or a panic. *)
Definition VerifyScenario (e : ExperimentSpec) : option (list text) :=
  match es_Scenario e with
  | None => Some []
  | Some scenario =>
      t ← es_Topology e;
      hosts ← mapM hostname_of (ts_Nodes t);
      Some (concat (map (fun app =>
        map (fun host => Sprintf "host %s in app %s not in topology" [AStr host; AStr (sa_Name app)])
          (List.filter (fun host => negb (bool_decide (host ∈ hosts))) (map sh_Hostname (sa_Hosts app)))) (ss_Apps scenario)))
  end.

Definition SnapshotName (headnode : string) (e : ExperimentSpec) (node : string) : string :=
  headnode +:+ "_" +:+ ExperimentName e +:+ "_" +:+ node +:+ "_snapshot".

(** ** The status *)

Record ExperimentStatus : Type := {
  StartTime : string;
  st_Schedules : option (gmap string string);
  st_Apps : option (gmap string any);
  st_VLANs : option (gmap string Z);
  st_Frequency : option (gmap string string);
  st_Running : option (gmap string bool);
  st_Cleanup : option (gmap string bool);
}.

Definition with_apps (s : ExperimentStatus) (apps : option (gmap string any)) (frequency : option (gmap string string))
    (running cleanup : option (gmap string bool)) : ExperimentStatus := {|
  StartTime := StartTime s; st_Schedules := st_Schedules s; st_Apps := apps; st_VLANs := st_VLANs s; st_Frequency := frequency;
  st_Running := running; st_Cleanup := cleanup |}.

Definition ExperimentStatus_Init (s : ExperimentStatus) : ExperimentStatus := {|
  StartTime := StartTime s; st_Schedules := Some (default ∅ (st_Schedules s)); st_Apps := Some (default ∅ (st_Apps s));
  st_VLANs := Some (default ∅ (st_VLANs s)); st_Frequency := st_Frequency s; st_Running := st_Running s; st_Cleanup := st_Cleanup s |}.

Definition SetStartTime (s : ExperimentStatus) (t : string) : ExperimentStatus := {|
  StartTime := t; st_Schedules := st_Schedules s; st_Apps := st_Apps s; st_VLANs := st_VLANs s; st_Frequency := st_Frequency s;
  st_Running := st_Running s; st_Cleanup := st_Cleanup s |}.

(** [m[key] = value] where a nil map is made first, or [delete(m, key)]. *)
Definition put_or_delete {V} (key : string) (value : option V) (m : option (gmap string V)) : option (gmap string V) :=
  let m := default ∅ m in Some (match value with Some value => <[ key := value ]> m | None => delete key m end).

(** A status that is a struct is first made a map by a package; [status] is
    what is stored, or nothing for nil. *)
Definition SetAppStatus (s : ExperimentStatus) (a : string) (status : option any) : ExperimentStatus :=
  with_apps s (put_or_delete a status (st_Apps s)) (st_Frequency s) (st_Running s) (st_Cleanup s).

Definition SetAppFrequency (s : ExperimentStatus) (a f : string) : ExperimentStatus :=
  with_apps s (st_Apps s) (put_or_delete a (if String.eqb f "" then None else Some f) (st_Frequency s)) (st_Running s) (st_Cleanup s).

Definition SetAppRunning (s : ExperimentStatus) (a : string) (r : bool) : ExperimentStatus :=
  with_apps s (st_Apps s) (st_Frequency s) (put_or_delete a (Some r) (st_Running s)) (st_Cleanup s).

Definition SetAppCleanup (s : ExperimentStatus) (a : string) (pending : bool) : ExperimentStatus :=
  with_apps s (st_Apps s) (st_Frequency s) (st_Running s) (put_or_delete a (if pending then Some true else None) (st_Cleanup s)).

Definition SetVLANs (s : ExperimentStatus) (v : option (gmap string Z)) : ExperimentStatus := {|
  StartTime := StartTime s; st_Schedules := st_Schedules s; st_Apps := st_Apps s; st_VLANs := v; st_Frequency := st_Frequency s;
  st_Running := st_Running s; st_Cleanup := st_Cleanup s |}.

Definition SetSchedule (s : ExperimentStatus) (sched : option (gmap string string)) : ExperimentStatus := {|
  StartTime := StartTime s; st_Schedules := sched; st_Apps := st_Apps s; st_VLANs := st_VLANs s; st_Frequency := st_Frequency s;
  st_Running := st_Running s; st_Cleanup := st_Cleanup s |}.

(** The cleanup that is pending outlives the status of a run. *)
Definition ResetAppStatus (s : ExperimentStatus) : ExperimentStatus := with_apps s (Some ∅) None None (st_Cleanup s).

End Experiment.

Arguments ExperimentSpec : clear implicits.
Arguments ExperimentStatus : clear implicits.
