(* ===== verification/V1Spec.v ===== *)
(** * What initialising a topology and an experiment does

    When a topology has no errors, that initialising twice is initialising
    once, which interfaces follow the default bridge, and what becomes of the
    VLANs. *)

From Stdlib Require Import ZArith Lia Ascii String Strings.Byte.
From stdpp Require Import base option list gmap strings.
From S2P Require Import Prelude Text Printf Hostname V1 Experiment.

Open Scope Z_scope.
Open Scope go_scope.

(** ** Bridges *)

(** A topology names a bridge of its own for an interface unless it leaves it
    empty or names the default. *)
Definition own_bridge (bridge : string) : bool := negb (String.eqb bridge "") && negb (String.eqb bridge "phenix").

Definition expected_bridge (original bridge : string) : string := if own_bridge original then original else bridge.

(** What an interface that named [original] is after defaults for bridges of
    which [bridge] was the last: either its own bridge was noted, or whether it
    has one is not decided yet, because every default was the bridge it names. *)
Definition bridged (original : Interface) (bridge : string) (i : Interface) : Prop :=
  i = set_bridge original (if_Bridge i) (BridgeSetInTopo i) /\
  if_Bridge i = expected_bridge (if_Bridge original) bridge /\
  (BridgeSetInTopo i = Some (own_bridge (if_Bridge original)) \/ BridgeSetInTopo i = None /\ if_Bridge i = if_Bridge original).

Lemma set_bridge_self i : i = set_bridge i (if_Bridge i) (BridgeSetInTopo i).
Proof. by destruct i. Qed.

Lemma default_bridge_first i bridge : BridgeSetInTopo i = None -> bridged i bridge (default_bridge bridge i).
Proof.
  intros Hn. unfold default_bridge, bridged, expected_bridge. rewrite Hn. fold (own_bridge (if_Bridge i)).
  destruct (String.eqb_spec (if_Bridge i) bridge) as [Hb|Hb].
  - split; [apply set_bridge_self|]. split; [rewrite Hb; by destruct (own_bridge bridge)|]. right. done.
  - cbn. split; [done|]. split; [done|]. by left.
Qed.

Lemma default_bridge_again original bridge bridge' i : bridged original bridge i -> bridged original bridge' (default_bridge bridge' i).
Proof.
  intros (Hi & Hb & Hs). unfold default_bridge, bridged, expected_bridge in *.
  destruct (String.eqb_spec (if_Bridge i) bridge') as [He|He].
  - split; [done|]. split; [|done]. rewrite <- He, Hb. by destruct (own_bridge _).
  - destruct Hs as [->|[-> Hs]]; cbn.
    + split; [by rewrite Hi|]. split; [|by left]. rewrite Hb. by destruct (own_bridge _).
    + rewrite Hs. fold (own_bridge (if_Bridge original)). split; [by rewrite Hi|]. split; [|by left]. done.
Qed.

Lemma default_bridge_idempotent bridge i : default_bridge bridge (default_bridge bridge i) = default_bridge bridge i.
Proof.
  unfold default_bridge at 2 3. destruct (String.eqb_spec (if_Bridge i) bridge) as [He|He].
  - unfold default_bridge. by rewrite (proj2 (String.eqb_eq _ _)).
  - set (own := match BridgeSetInTopo i with Some b => b | None => _ end). clearbody own. unfold default_bridge. cbn. destruct own.
    + rewrite (proj2 (String.eqb_neq _ _) He). by destruct i.
    + by rewrite String.eqb_refl.
Qed.

(** Defaults for one bridge after the other. *)
Fixpoint SetDefaults_all (bridges : list string) (n : Network) : option Network :=
  match bridges with
  | [] => Some n
  | bridge :: bridges => n ← SetDefaults bridge n; SetDefaults_all bridges n
  end.

Lemma SetDefaults_some bridge n n' :
  SetDefaults bridge n = Some n' <->
  exists l, nw_Interfaces n = Some <$> l /\ n' = set_interfaces n (Some <$> (default_bridge bridge <$> l)).
Proof.
  unfold SetDefaults. rewrite bind_Some. split.
  - intros (l' & Hl & [= <-]). rewrite mapM_Some in Hl. assert (exists l, nw_Interfaces n = Some <$> l /\ l' = Some <$> (default_bridge bridge <$> l)) as (l & ? & ->).
    { induction Hl as [|x y k k' Hx Hk (l & -> & ->)]; [by exists []|]. apply bind_Some in Hx as (i & -> & [= <-]). by exists (i :: l). }
    by exists l.
  - intros (l & Hl & ->). rewrite Hl. exists (Some <$> (default_bridge bridge <$> l)). split; [|done]. apply mapM_Some.
    clear. induction l; constructor; cbn; done.
Qed.

Lemma set_interfaces_twice n l l' : set_interfaces (set_interfaces n l) l' = set_interfaces n l'.
Proof. done. Qed.

Lemma last_of_cons {A} (l : list A) x d : List.last (x :: l) d = List.last l x.
Proof. revert x d. induction l as [|y l IH]; intros x d; [done|]. cbn [List.last] in *. destruct l; [done|apply IH]. Qed.

Lemma SetDefaults_all_bridged bridges bridge n l l0 :
  Forall2 (fun original i => bridged original bridge i) l0 l ->
  exists l', SetDefaults_all bridges (set_interfaces n (Some <$> l)) = Some (set_interfaces n (Some <$> l')) /\
    Forall2 (fun original i => bridged original (List.last bridges bridge) i) l0 l'.
Proof.
  revert bridge l. induction bridges as [|bridge' bridges IH]; intros bridge l Hl; [by exists l|]. cbn [SetDefaults_all].
  assert (SetDefaults bridge' (set_interfaces n (Some <$> l)) = Some (set_interfaces n (Some <$> (default_bridge bridge' <$> l)))) as ->.
  { apply SetDefaults_some. by exists l. }
  cbn [mbind option_bind]. destruct (IH bridge' (default_bridge bridge' <$> l)) as (l' & -> & Hl').
  { apply Forall2_fmap_r. eapply Forall2_impl; [exact Hl|]. intros original i. apply default_bridge_again. }
  exists l'. split; [done|]. by rewrite last_of_cons.
Qed.

(** Whatever bridges an experiment has as its default one after the other,
    in the end an interface for which the topology named a bridge of its own
    has that bridge, every other interface has the last default, and nothing
    else of the network changed. *)
Theorem bridges_follow bridges bridge n l :
  nw_Interfaces n = Some <$> l -> Forall (fun i => BridgeSetInTopo i = None) l ->
  exists l', SetDefaults_all (bridges ++ [bridge]) n = Some (set_interfaces n (Some <$> l')) /\
    Forall2 (fun original i =>
      if_Bridge i = (if own_bridge (if_Bridge original) then if_Bridge original else bridge) /\
      set_bridge i "" None = set_bridge original "" None) l l'.
Proof.
  intros Hl Hn.
  assert (exists first rest, bridges ++ [bridge] = first :: rest /\ List.last rest first = bridge) as (first & rest & -> & Hlast).
  { destruct bridges as [|first rest]; [by exists bridge, []|]. exists first, (rest ++ [bridge]). split; [done|]. by rewrite List.last_last. }
  cbn [SetDefaults_all]. assert (SetDefaults first n = Some (set_interfaces n (Some <$> (default_bridge first <$> l)))) as ->.
  { apply SetDefaults_some. by exists l. }
  cbn [mbind option_bind]. destruct (SetDefaults_all_bridged rest first n (default_bridge first <$> l) l) as (l' & -> & Hl').
  { apply Forall2_fmap_r. apply Forall_Forall2_diag. eapply Forall_impl; [exact Hn|]. intros i. apply default_bridge_first. }
  exists l'. split; [done|]. rewrite Hlast in Hl'. eapply Forall2_impl; [exact Hl'|]. intros original i (Hi & Hb & _). split; [done|]. by rewrite Hi.
Qed.

(** ** Rules *)

Lemma min_rule_from rules m :
  Forall (fun r => 0 < ru_ID r) rules -> 0 <= m ->
  let m' := foldl (fun minVal rule => if (minVal =? 0) || (ru_ID rule <? minVal) then ru_ID rule else minVal) m rules in
  0 <= m' /\ (m' = 0 <-> m = 0 /\ rules = []) /\ (0 < m -> m' <= m) /\ Forall (fun r => m' <= ru_ID r) rules /\
  (m' = m \/ exists r, r ∈ rules /\ ru_ID r = m').
Proof.
  intros Hr. revert m. induction Hr as [|r rules Hr Hrs IH]; intros m Hm; cbn [foldl].
  - split; [done|]. split; [naive_solver|]. split; [lia|]. split; [constructor|by left].
  - destruct (IH (if (m =? 0) || (ru_ID r <? m) then ru_ID r else m)) as (H1 & H2 & H3 & H4 & H5).
    { destruct (_ || _); lia. }
    set (m' := foldl _ _ _) in *. destruct (Z.eqb_spec m 0) as [->|Hm0]; cbn [orb] in *.
    + split; [done|]. split; [|split; [lia|split; [constructor; [lia|done]|]]].
      * split; [intros E; apply H2 in E; lia|by intros [_ ?]].
      * destruct H5 as [->|(x & ? & ?)]; right; [exists r; split; [left|done]|exists x; split; [by right|done]].
    + destruct (Z.ltb_spec (ru_ID r) m) as [Hlt|Hle].
      * split; [done|]. split; [|split; [lia|split; [constructor; [lia|done]|]]].
        -- split; [intros E; apply H2 in E; lia|by intros [? _]].
        -- destruct H5 as [->|(x & ? & ?)]; right; [exists r; split; [left|done]|exists x; split; [by right|done]].
      * split; [done|]. split; [|split; [lia|split; [constructor; [lia|done]|]]].
        -- split; [intros E; apply H2 in E; lia|by intros [? _]].
        -- destruct H5 as [->|(x & ? & ?)]; [by left|]. right. exists x. split; [by right|done].
Qed.

(** A rule is added in front of a ruleset whose rules have positive IDs
    exactly when there are rules and the smallest ID is more than 1. Its ID is
    at least 1 and less than every other one, and the other rules stay. *)
Theorem UnshiftRule_spec rs :
  Forall (fun r => 0 < ru_ID r < 2 ^ 63) (rs_Rules rs) ->
  (UnshiftRule rs = (None, rs) /\ (rs_Rules rs = [] \/ exists r, r ∈ rs_Rules rs /\ ru_ID r = 1)) \/
  (exists r, UnshiftRule rs = (Some r, with_rules rs (r :: rs_Rules rs)) /\ rs_Rules rs <> [] /\
     1 <= ru_ID r /\ Forall (fun r' => ru_ID r < ru_ID r') (rs_Rules rs)).
Proof.
  intros Hr. destruct (min_rule_from (rs_Rules rs) 0) as (H1 & H2 & _ & H4 & H5); [|done|].
  { eapply Forall_impl; [exact Hr|]. cbn. lia. }
  fold (min_rule (rs_Rules rs)) in *. unfold UnshiftRule. destruct (Z.leb_spec (min_rule (rs_Rules rs)) 1) as [Hle|Hlt].
  - left. split; [done|]. destruct (decide (min_rule (rs_Rules rs) = 0)) as [E|E]; [left; by apply H2|].
    destruct H5 as [H5|(r & Hin & He)]; [done|]. right. exists r. split; [done|]. rewrite Forall_forall in Hr. specialize (Hr _ Hin). lia.
  - right. destruct H5 as [H5|(r & Hin & He)]; [lia|]. assert (ru_ID r < 2 ^ 63) as Hr63 by (rewrite Forall_forall in Hr; by apply Hr).
    assert (wrap64 (min_rule (rs_Rules rs) - ruleIDDecrement) = min_rule (rs_Rules rs) - ruleIDDecrement) as Hw.
    { apply wrap64_id. unfold int64, ruleIDDecrement. lia. }
    eexists. split; [done|]. cbn [new_rule ru_ID]. rewrite Hw. unfold ruleIDDecrement. split; [intros E; apply list_elem_of_lookup in Hin as [? Hin]; by rewrite E in Hin|].
    destruct (Z.ltb_spec (min_rule (rs_Rules rs) - 10) 1).
    + split; [lia|]. eapply Forall_impl; [exact H4|]. cbn. lia.
    + split; [lia|]. eapply Forall_impl; [exact H4|]. cbn. lia.
Qed.

(** ** Topologies *)

Section Init.
Context {any : Type} `{Unicode}.
Implicit Types (n : Node any) (t : TopologySpec any) (e : ExperimentSpec any).

Definition name_of n : string := match nd_General n with Some g => ge_Hostname g | None => "" end.

(** The nodes of a list of pointers of which none is nil. *)
Definition there (entries : list (option (Node any))) (nodes : list (Node any)) : Prop := entries = Some <$> nodes.

Lemma there_fun entries nodes nodes' : there entries nodes -> there entries nodes' -> nodes = nodes'.
Proof. unfold there. intros -> E. by apply (inj (fmap Some)) in E. Qed.

(** What [TopologySpec.Init] dereferences of a node is there. *)
Definition ready n : Prop :=
  is_Some (nd_General n) /\
  (External n = true \/ is_Some (nd_Hardware n) /\ match nd_Network n with Some w => Forall is_Some (nw_Interfaces w) | None => True end).

Lemma SetDefaults_ready bridge w : is_Some (SetDefaults bridge w) <-> Forall is_Some (nw_Interfaces w).
Proof.
  split.
  - intros [w' (l & -> & _)%SetDefaults_some]. apply Forall_fmap, Forall_true. by eexists.
  - intros Hw. assert (exists l, nw_Interfaces w = Some <$> l) as [l Hl].
    { induction Hw as [|i k [x ->] _ [l ->]]; [by exists []|]. by exists (x :: l). }
    eexists. apply SetDefaults_some. by exists l.
Qed.

Lemma setDefaults_ready bridge n :
  is_Some (setDefaults bridge n) <->
  (External n = true \/ is_Some (nd_General n) /\ is_Some (nd_Hardware n) /\ match nd_Network n with Some w => Forall is_Some (nw_Interfaces w) | None => True end).
Proof.
  unfold setDefaults. destruct (External n); [split; [by left|by eexists]|].
  destruct (nd_General n) as [g|]; cbn [mbind option_bind]; [|split; [by intros [? ?]|intros [?|[[? ?] _]]; done]].
  destruct (nd_Hardware n) as [h|]; cbn [mbind option_bind]; [|split; [by intros [? ?]|intros [?|(_ & [? ?] & _)]; done]].
  destruct (nd_Network n) as [w|]; cbn [mbind option_bind].
  - rewrite <- (SetDefaults_ready bridge). destruct (SetDefaults bridge w); cbn.
    + split; [intros _; right|intros _; by eexists]. split; [by eexists|]. split; by eexists.
    + split; [by intros [? ?]|]. intros [?|(_ & _ & [? ?])]; done.
  - split; [intros _; right|intros _; by eexists]. split; [by eexists|]. split; [by eexists|done].
Qed.

Lemma validate_panics n : validate n = Err VPanic -> External n = false /\ nd_General n = None.
Proof.
  unfold validate, External. destruct (nd_External n) as [[]|]; try done. destruct (nd_General n) as [g|]; [|done].
  destruct (checkHostnameKeywords _ _); cbn; [|done]. destruct (nd_Network n) as [w|]; [|done]. by destruct (validate_interfaces _ _ _).
Qed.

Lemma init_nodes_there bridge seen entries r : init_nodes bridge seen entries = Some r -> exists nodes, there entries nodes.
Proof.
  revert seen r. induction entries as [|[n|] entries IH]; intros seen r; cbn [init_nodes]; [exists []; exact eq_refl| |done].
  cbn [mbind option_bind]. intros (g & _ & (l & _ & (n' & _ & ([? ?] & [nodes ->]%IH & _)%bind_Some)%bind_Some)%bind_Some)%bind_Some.
  exists (n :: nodes). exact eq_refl.
Qed.

Lemma init_nodes_spec bridge seen nodes :
  (is_Some (init_nodes bridge seen (Some <$> nodes)) <-> Forall ready nodes) /\
  forall errs entries, init_nodes bridge seen (Some <$> nodes) = Some (errs, entries) -> exists nodes', there entries nodes' /\
    Forall2 (fun n n' => setDefaults bridge n = Some n') nodes nodes' /\
    (errs = [] <-> NoDup ((fun n => ToLower (name_of n)) <$> nodes) /\ Forall (fun n => ToLower (name_of n) ∉ seen) nodes /\ Forall (fun n => validate n = Ok tt) nodes).
Proof.
  revert seen. induction nodes as [|n nodes IH]; intros seen; [|rewrite fmap_cons]; cbn [init_nodes mbind option_bind].
  - split; [split; [constructor|by eexists]|]. intros errs entries [= <- <-]. exists []. split; [exact eq_refl|]. split; [constructor|]. split; [|done]. intros _. split; [apply NoDup_nil_2|]. split; constructor.
  - rewrite Forall_cons. unfold ready at 1. destruct (nd_General n) as [g|] eqn:Eg; cbn [mbind option_bind]; [|split; [split; [by intros [? ?]|intros [[[? ?] _] _]; done]|done]].
    set (invalid := match validate n with Ok _ => Some [] | Err VPanic => None | Err (VFail what) => _ end).
    assert (exists l, invalid = Some l /\ (l = [] <-> validate n = Ok tt)) as (l & -> & Hinv).
    { unfold invalid. destruct (validate n) as [[]|[|what]] eqn:Ev; [by eexists| |by eexists]. apply validate_panics in Ev as [_ Ev]. congruence. }
    cbn [mbind option_bind]. destruct (IH ({[ ToLower (ge_Hostname g) ]} ∪ seen)) as [IH1 IH2]. clear IH.
    assert (is_Some (setDefaults bridge n) <-> ready n) as Hdef.
    { rewrite setDefaults_ready. unfold ready. rewrite Eg. split; [|naive_solver]. intros [?|(? & ? & ?)]; (split; [by eexists|]); [by left|by right]. }
    unfold ready in Hdef. rewrite Eg in Hdef. rewrite <- Hdef, <- IH1.
    destruct (setDefaults bridge n) as [n'|] eqn:Ed; cbn [mbind option_bind]; [|split; [split; [by intros [? ?]|intros [[? ?] _]; done]|done]].
    destruct (init_nodes bridge _ _) as [[errs entries]|]; cbn [mbind option_bind]; [|split; [split; [by intros [? ?]|intros [_ [? ?]]; done]|done]].
    split; [split; [intros _; split; by eexists|by eexists]|]. intros errs' entries' [= <- <-]. destruct (IH2 _ _ eq_refl) as (nodes' & Hth & Hall & He).
    exists (n' :: nodes'). split; [exact (f_equal (cons (Some n')) Hth)|]. split; [by constructor|]. rewrite fmap_cons, NoDup_cons, !Forall_cons. assert (name_of n = ge_Hostname g) as -> by (unfold name_of; by rewrite Eg). rewrite <- Hinv.
    assert (Forall (fun n => ToLower (name_of n) ∉ {[ToLower (ge_Hostname g)]} ∪ seen) nodes <->
      ToLower (ge_Hostname g) ∉ ((fun n => ToLower (name_of n)) <$> nodes) /\ Forall (fun n => ToLower (name_of n) ∉ seen) nodes) as Hsplit.
    { clear. induction nodes as [|n nodes IH]; [set_solver|]. rewrite fmap_cons, !Forall_cons, IH, not_elem_of_cons. set_solver. }
    rewrite Hsplit in He. case_bool_decide; cbn [app]; [split; [done|by intros (_ & [? _] & _)]|].
    destruct l; cbn; [|split; [done|by intros (_ & _ & ? & _)]]. rewrite He. naive_solver.
Qed.

(** Initialising a topology panics or not, and what it gives. *)
Lemma Init_there bridge t :
  (is_Some (Init bridge t) <-> exists nodes, there (ts_Nodes t) nodes /\ Forall ready nodes) /\
  forall errs t', Init bridge t = Some (errs, t') -> exists nodes nodes',
    there (ts_Nodes t) nodes /\ there (ts_Nodes t') nodes' /\ Forall2 (fun n n' => setDefaults bridge n = Some n') nodes nodes' /\
    (errs = [] <-> NoDup ((fun n => ToLower (name_of n)) <$> nodes) /\ Forall (fun n => validate n = Ok tt) nodes).
Proof.
  unfold Init. split.
  - split.
    + intros [r ([errs entries] & Hi & _)%bind_Some]. destruct (init_nodes_there _ _ _ _ Hi) as [nodes Hn]. exists nodes. split; [exact Hn|].
      rewrite Hn in Hi. apply (init_nodes_spec bridge ∅). by eexists.
    + intros (nodes & -> & Hr). apply (init_nodes_spec bridge ∅) in Hr as [[errs entries] ->]. by eexists.
  - intros errs t' ([errs' entries] & Hi & [= <- <-])%bind_Some. destruct (init_nodes_there _ _ _ _ Hi) as [nodes Hn]. rewrite Hn in Hi.
    destruct (proj2 (init_nodes_spec bridge ∅ nodes) _ _ Hi) as (nodes' & -> & Hall & He). exists nodes, nodes'. split; [exact Hn|]. split; [done|]. split; [done|].
    rewrite He. split; [naive_solver|]. intros [? ?]. split; [done|]. split; [|done]. apply Forall_true. set_solver.
Qed.

(** C36: initialising a topology panics exactly when a node is nil, or has no
    general section, or is not external and has no hardware or a nil
    interface. Else it reports nothing exactly when no two host names are the
    same when case is ignored and each node is valid, and it sets the defaults
    of every node either way. *)
Theorem TopologyInit_spec bridge t :
  (is_Some (Init bridge t) <-> exists nodes, there (ts_Nodes t) nodes /\ Forall ready nodes) /\
  forall errs t', Init bridge t = Some (errs, t') -> exists nodes nodes',
    there (ts_Nodes t) nodes /\ there (ts_Nodes t') nodes' /\ Forall2 (fun n n' => setDefaults bridge n = Some n') nodes nodes' /\
    (errs = [] <-> NoDup ((fun n => ToLower (name_of n)) <$> nodes) /\ Forall (fun n => validate n = Ok tt) nodes).
Proof. apply Init_there. Qed.

(** *** Twice is once *)

Lemma SetDefaults_idempotent bridge w w' : SetDefaults bridge w = Some w' -> SetDefaults bridge w' = Some w'.
Proof.
  intros (l & Hl & ->)%SetDefaults_some. apply SetDefaults_some. exists (default_bridge bridge <$> l). split; [done|].
  rewrite set_interfaces_twice. do 2 f_equal. rewrite <- list_fmap_compose. apply list_fmap_ext. intros _ i _. symmetry. apply default_bridge_idempotent.
Qed.

Lemma default_general_idempotent g : default_general (default_general g) = default_general g.
Proof. unfold default_general. cbn. f_equal. destruct (String.eqb (ge_VMType g) "") eqn:E; by rewrite ?E. Qed.

Lemma default_hardware_idempotent h : default_hardware (default_hardware h) = default_hardware h.
Proof.
  unfold default_hardware. cbn. f_equal.
  - destruct (String.eqb (hw_CPU h) "") eqn:E; by rewrite ?E.
  - destruct (hw_VCPU h =? 0) eqn:E; by rewrite ?E.
  - destruct (hw_Memory h =? 0) eqn:E; by rewrite ?E.
  - destruct (String.eqb (hw_OSType h) "") eqn:E; by rewrite ?E.
Qed.

(** What the defaults of a node that is not external are. *)
Lemma setDefaults_some bridge n n' :
  setDefaults bridge n = Some n' ->
  (External n = true /\ n' = n) \/
  (exists g h, External n = false /\ External n' = false /\ nd_General n = Some g /\ nd_Hardware n = Some h /\
    nd_General n' = Some (default_general g) /\ nd_Hardware n' = Some (default_hardware h) /\
    match nd_Network n with None => nd_Network n' = None | Some w => exists w', SetDefaults bridge w = Some w' /\ nd_Network n' = Some w' end /\
    is_Some (nd_Advanced n') /\ is_Some (nd_Overrides n')).
Proof.
  unfold setDefaults. destruct (External n) eqn:Ex; [intros [= <-]; by left|].
  intros (g & Hg & (h & Hh & (w & Hw & [= <-])%bind_Some)%bind_Some)%bind_Some. right. exists g, h. cbn. unfold External in *. cbn.
  split_and!; try done; try (by eexists). destruct (nd_Network n) as [w0|]; [|by injection Hw as <-].
  destruct (SetDefaults bridge w0) as [w1|]; [|done]. injection Hw as <-. by exists w1.
Qed.

Lemma setDefaults_idempotent bridge n n' : setDefaults bridge n = Some n' -> setDefaults bridge n' = Some n'.
Proof.
  intros [[Hx ->]|(g & h & _ & Hx & _ & _ & Hg & Hh & Hw & [a Ha] & [o Ho])]%setDefaults_some; unfold setDefaults; rewrite Hx; [done|].
  rewrite Hg, Hh, Ha, Ho. cbn [mbind option_bind]. rewrite default_general_idempotent, default_hardware_idempotent.
  assert (match nd_Network n' with None => Some None | Some w => Some <$> SetDefaults bridge w end = Some (nd_Network n')) as ->.
  { destruct (nd_Network n) as [w|]; [|by rewrite Hw]. destruct Hw as (w' & Hw & ->). by rewrite (SetDefaults_idempotent _ _ _ Hw). }
  cbn. f_equal. rewrite <- Hg, <- Hh, <- Ha, <- Ho. by destruct n'.
Qed.

Lemma validate_interfaces_default bridge seen gateways l :
  validate_interfaces seen gateways (Some <$> (default_bridge bridge <$> l)) = validate_interfaces seen gateways (Some <$> l).
Proof.
  revert seen gateways. induction l as [|i l IH]; intros seen gateways; [done|]. cbn.
  assert (if_Name (default_bridge bridge i) = if_Name i /\ if_Gateway (default_bridge bridge i) = if_Gateway i /\ if_Proto (default_bridge bridge i) = if_Proto i) as (-> & -> & ->).
  { unfold default_bridge. by destruct (String.eqb _ _). }
  by rewrite !IH.
Qed.

Lemma keywords_os hostname os os' :
  EqualFold os "windows" = EqualFold os' "windows" -> checkHostnameKeywords hostname os = checkHostnameKeywords hostname os'.
Proof. intros Ho. unfold checkHostnameKeywords. by rewrite Ho. Qed.

Lemma validate_default bridge n n' : setDefaults bridge n = Some n' -> validate n' = validate n.
Proof.
  intros [[Hx ->]|(g & h & Hx & Hx' & Hg & Hh & Hg' & Hh' & Hw & _)]%setDefaults_some; [done|]. unfold validate, External in *.
  destruct (nd_External n); [done|]. destruct (nd_External n'); [done|]. rewrite Hg, Hg', Hh, Hh'. cbn [ge_Hostname default_general].
  rewrite (keywords_os _ (hw_OSType (default_hardware h)) (hw_OSType h)).
  - f_equal. destruct (nd_Network n) as [w|]; [|by rewrite Hw]. destruct Hw as (w' & (l & Hl & ->)%SetDefaults_some & ->). cbn. by rewrite Hl, validate_interfaces_default.
  - cbn. by destruct (String.eqb_spec (hw_OSType h) "") as [->|].
Qed.

Lemma init_nodes_idempotent bridge seen (nodes : list (option (Node any))) errs nodes' :
  init_nodes bridge seen nodes = Some (errs, nodes') -> init_nodes bridge seen nodes' = Some (errs, nodes').
Proof.
  revert seen errs nodes'. induction nodes as [|n nodes IH]; intros seen errs nodes'; cbn [init_nodes]; [by intros [= <- <-]|].
  intros (n0 & -> & (g & Hg & (l & Hl & (n' & Hn & ([es ns] & Hi & [= <- <-])%bind_Some)%bind_Some)%bind_Some)%bind_Some)%bind_Some. cbn [init_nodes mbind option_bind].
  rewrite (validate_default _ _ _ Hn). assert (exists g', nd_General n' = Some g' /\ ge_Hostname g' = ge_Hostname g) as (g' & -> & Hh).
  { apply setDefaults_some in Hn as [[_ ->]|(g' & h & _ & _ & Hg' & _ & -> & _)]; [by exists g|]. eexists. split; [done|]. cbn. congruence. }
  cbn [mbind option_bind]. rewrite Hh, Hl. cbn [mbind option_bind]. rewrite (setDefaults_idempotent _ _ _ Hn). cbn [mbind option_bind]. by rewrite (IH _ _ _ Hi).
Qed.

Lemma TopologyInit_again bridge t errs t' : Init bridge t = Some (errs, t') -> Init bridge t' = Some (errs, t').
Proof.
  unfold Init. intros ([errs' nodes] & Hi & [= <- <-])%bind_Some. cbn [ts_Nodes]. by rewrite (init_nodes_idempotent _ _ _ _ _ Hi).
Qed.

(** Initialising a topology a second time with the same default bridge
    changes nothing and reports what the first time reported. *)
Theorem TopologyInit_idempotent bridge t errs t' : Init bridge t = Some (errs, t') -> Init bridge t' = Some (errs, t').
Proof. apply TopologyInit_again. Qed.

(** ** Experiments *)

(** The VLANs that a topology names. *)
Definition names_vlan t (vlan : string) : Prop :=
  exists n w i, Some n ∈ ts_Nodes t /\ nd_Network n = Some w /\ Some i ∈ nw_Interfaces w /\ if_VLAN i = vlan.

Lemma node_vlans_default bridge n n' : setDefaults bridge n = Some n' -> node_vlans n' = node_vlans n.
Proof.
  intros [[_ ->]|(g & h & _ & _ & _ & _ & _ & _ & Hw & _)]%setDefaults_some; [done|]. unfold node_vlans.
  destruct (nd_Network n) as [w|]; [|by rewrite Hw]. destruct Hw as (w' & (l & Hl & ->)%SetDefaults_some & ->). cbn. rewrite Hl. clear.
  induction l as [|i l IH]; [done|]. cbn. rewrite IH. unfold default_bridge. by destruct (String.eqb _ _).
Qed.

Lemma node_vlans_elem n l vlan :
  node_vlans n = Some l -> vlan ∈ l <-> exists w i, nd_Network n = Some w /\ Some i ∈ nw_Interfaces w /\ if_VLAN i = vlan.
Proof.
  unfold node_vlans. destruct (nd_Network n) as [w|]; [|intros [= <-]; set_solver]. rewrite mapM_Some. intros Hl.
  transitivity (exists i, Some i ∈ nw_Interfaces w /\ if_VLAN i = vlan); [|naive_solver].
  induction Hl as [|x v k k' Hx Hk IH]; [set_solver|]. destruct x as [i|]; [|done]. injection Hx as <-. rewrite elem_of_cons, IH. split.
  - intros [->|(j & ? & ?)]; [exists i; split; [left|done]|exists j; split; [by right|done]].
  - intros (j & [[= ->]|Hj]%elem_of_cons & <-); [by left|]. right. by exists j.
Qed.

Lemma record_alias_lookup l m vlan :
  foldl record_alias m l !! vlan = match m !! vlan with Some id => Some id | None => if decide (vlan ∈ l) then Some 0 else None end.
Proof.
  revert m. induction l as [|v l IH]; intros m; cbn [foldl].
  - destruct (m !! vlan); [done|]. by rewrite decide_False by set_solver.
  - rewrite IH. unfold record_alias. destruct (m !! v) as [id|] eqn:Ev.
    + destruct (m !! vlan) eqn:E; [done|]. assert (vlan <> v) by congruence. by destruct (decide (vlan ∈ l)), (decide (vlan ∈ v :: l)); set_solver.
    + destruct (decide (vlan = v)) as [->|Hne].
      * rewrite lookup_insert_eq, Ev. by rewrite decide_True by set_solver.
      * rewrite lookup_insert_ne by done. destruct (m !! vlan); [done|]. by destruct (decide (vlan ∈ l)), (decide (vlan ∈ v :: l)); set_solver.
Qed.

Lemma record_alias_known l m : Forall (fun v => is_Some (m !! v)) l -> foldl record_alias m l = m.
Proof. induction 1 as [|v l [id Hv] _ IH]; [done|]. cbn [foldl]. unfold record_alias at 2. by rewrite Hv. Qed.

Definition aliases e : gmap string Z := Aliases (default no_vlans (es_VLANs e)).

(** What [ExperimentSpec.Init] gives when it reports nothing. *)
Lemma ExperimentInit_ok base wd e e' :
  ExperimentSpec_Init base wd e = Some ([], e') ->
  match es_Topology e with
  | None => e' = init_fields base wd e
  | Some t => exists t' vlans, Init (DefaultBridge (init_fields base wd e)) t = Some ([], t') /\ topology_vlans t' = Some vlans /\
      topology_vlans t = Some vlans /\
      e' = with_vlans (with_topology (init_fields base wd e) t')
             (with_aliases (VLANSpec_Init (default no_vlans (es_VLANs e))) (Some (foldl record_alias (aliases e) (concat vlans))))
  end.
Proof.
  unfold ExperimentSpec_Init. cbn [es_Topology init_fields]. destruct (es_Topology e) as [t|]; [|by intros [= <-]].
  intros ([errs t'] & Hi & Hr)%bind_Some. case_bool_decide as He; [|congruence]. apply bind_Some in Hr as (vlans & Hv & [= <-]).
  exists t', vlans. cbn [ts_Nodes with_topology] in Hv. rewrite He in Hi. split; [done|]. split; [done|]. split; [|done].
  rewrite <- Hv. destruct (proj2 (Init_there _ _) _ _ Hi) as (nodes & nodes' & Ht & Ht' & Hall & _). unfold topology_vlans. rewrite Ht, Ht'.
  clear -Hall. induction Hall as [|n n' l l' Hn _ IH]; [done|]. cbn. by rewrite (node_vlans_default _ _ _ Hn), IH.
Qed.

Lemma mapM_elem {A B} (f : A -> option (list B)) l ls b :
  mapM f l = Some ls -> b ∈ concat ls <-> exists a bs, a ∈ l /\ f a = Some bs /\ b ∈ bs.
Proof.
  rewrite mapM_Some. induction 1 as [|a bs l ls Ha _ IH]; [set_solver|]. cbn [concat]. rewrite elem_of_app, IH. split.
  - intros [Hb|(a' & bs' & ? & ? & ?)]; [exists a, bs; split; [left|done]|exists a', bs'; split; [by right|done]].
  - intros (a' & bs' & [->|?]%elem_of_cons & ? & ?); [left; congruence|]. right. by exists a', bs'.
Qed.

Lemma topology_vlans_elem t vlans vlan : topology_vlans t = Some vlans -> vlan ∈ concat vlans <-> names_vlan t vlan.
Proof.
  intros Hv. rewrite (mapM_elem _ _ _ _ Hv). unfold names_vlan. split.
  - intros ([n|] & l & Hn & Hl & Hin); [|done]. apply (node_vlans_elem _ _ _ Hl) in Hin as (w & i & ? & ? & ?). by exists n, w, i.
  - intros (n & w & i & Hn & Hw & Hi & He). assert (exists l, node_vlans n = Some l) as [l Hl].
    { apply mapM_Some in Hv. apply list_elem_of_lookup in Hn as [k Hk]. destruct (Forall2_lookup_l _ _ _ _ _ Hv Hk) as (l & _ & Hl). by exists l. }
    exists (Some n), l. split; [done|]. split; [done|]. apply (node_vlans_elem _ _ _ Hl). by exists w, i.
Qed.

(** The aliases of an experiment that was initialised. *)
Lemma init_aliases base wd e e' vlan :
  ExperimentSpec_Init base wd e = Some ([], e') ->
  (is_Some (aliases e !! vlan) -> aliases e' !! vlan = aliases e !! vlan) /\
  (aliases e !! vlan = None ->
     (aliases e' !! vlan = Some 0 /\ exists t, es_Topology e = Some t /\ names_vlan t vlan) \/
     (aliases e' !! vlan = None /\ forall t, es_Topology e = Some t -> ~ names_vlan t vlan)).
Proof.
  intros He%ExperimentInit_ok. destruct (es_Topology e) as [t|].
  - destruct He as (t' & vlans & _ & _ & Hv & He). assert (aliases e' = foldl record_alias (aliases e) (concat vlans)) as -> by (by rewrite He).
    rewrite record_alias_lookup. split; [by intros [id ->]|]. intros ->.
    destruct (decide (vlan ∈ concat vlans)) as [Hin|Hin]; rewrite (topology_vlans_elem _ _ _ Hv) in Hin; [left; split; [done|by exists t]|right; split; [done|]; by intros t0 [= <-]].
  - subst e'. assert (aliases (init_fields base wd e) = aliases e) as -> by done. split; [done|]. intros ->. by right.
Qed.

Lemma with_vlans_same e v : es_VLANs e = Some v -> with_vlans e v = e.
Proof. intros Hv. unfold with_vlans. rewrite <- Hv. by destruct e. Qed.

(** *** Paths *)

Lemma Clean_abs path : IsAbs path = true -> IsAbs (Clean path) = true.
Proof. intros Hp. unfold Clean. rewrite Hp. unfold IsAbs. apply has_prefix_spec. by eexists. Qed.

Lemma init_fields_idempotent base wd e :
  match wd with Some wd => IsAbs wd = true | None => True end ->
  init_fields base wd (init_fields base wd e) = init_fields base wd e.
Proof.
  intros Hwd. unfold init_fields at 1. cbn [ExperimentName BaseDir DefaultBridge es_Topology es_Scenario es_VLANs es_Schedules DeployMode UseGREMesh init_fields default from_option id].
  set (dir := if String.eqb (BaseDir e) "" then _ else BaseDir e).
  assert (dir <> "") as Hdir.
  { unfold dir. destruct (String.eqb_spec (BaseDir e) ""); [|done]. by destruct base. }
  set (dir' := if IsAbs dir then dir else default dir (Abs wd dir)).
  assert ((if String.eqb dir' "" then base +:+ "/experiments/" +:+ ExperimentName e else dir') = dir' /\ (if IsAbs dir' then dir' else default dir' (Abs wd dir')) = dir') as [-> ->].
  { unfold dir'. destruct (IsAbs dir) eqn:Ed; [rewrite (proj2 (String.eqb_neq dir "")), Ed; done|].
    unfold Abs. rewrite Ed. destruct wd as [wd|]; cbn [mbind option_bind default from_option id].
    - destruct (String.eqb_spec wd "") as [->|Hne]; [done|]. rewrite (proj2 (String.eqb_neq dir "")) by done.
      assert (IsAbs (Clean (wd +:+ "/" +:+ dir)) = true) as Ha by (apply Clean_abs; apply has_prefix_spec in Hwd as [r ->]; apply has_prefix_spec; by eexists).
      rewrite Ha. split; [|done]. by destruct (Clean _).
    - by rewrite (proj2 (String.eqb_neq dir "")), Ed. }
  unfold init_fields. f_equal. by destruct (String.eqb_spec (DefaultBridge e) "") as [|Hne]; [|rewrite (proj2 (String.eqb_neq _ _) Hne)].
Qed.

(** C37: initialising an experiment keeps every VLAN alias, and gives each other
    VLAN that an interface of its topology names the alias 0, and no other one.
    Doing it again changes nothing. *)
Theorem ExperimentInit_spec base wd e e' :
  match wd with Some wd => IsAbs wd = true | None => True end ->
  ExperimentSpec_Init base wd e = Some ([], e') ->
  (forall vlan id, aliases e' !! vlan = Some id <->
     aliases e !! vlan = Some id \/ aliases e !! vlan = None /\ id = 0 /\ exists t, es_Topology e = Some t /\ names_vlan t vlan) /\
  ExperimentSpec_Init base wd e' = Some ([], e').
Proof.
  intros Hwd He. split.
  - intros vlan id. destruct (init_aliases _ _ _ _ vlan He) as [Hs Hn]. destruct (aliases e !! vlan) as [x|].
    + rewrite Hs by (by eexists). naive_solver.
    + destruct (Hn eq_refl) as [[-> ?]|[-> Hno]]; naive_solver.
  - apply ExperimentInit_ok in He as Hok. destruct (es_Topology e) as [t|] eqn:Et.
    + destruct Hok as (t' & vlans & Hi & Hv & _ & ->). unfold ExperimentSpec_Init.
      set (e1 := init_fields base wd e) in *. set (v := with_aliases _ _).
      assert (init_fields base wd (with_vlans (with_topology e1 t') v) = with_vlans (with_topology e1 t') v) as ->.
      { pose proof (init_fields_idempotent base wd e Hwd) as Hid. fold e1 in Hid. rewrite <- Hid at 2. unfold init_fields at 1 2. cbn. reflexivity. }
      cbn [es_Topology with_vlans with_topology DefaultBridge]. fold e1. rewrite (TopologyInit_again _ _ _ _ Hi). cbn [mbind option_bind ts_Nodes with_topology with_vlans es_VLANs].
      rewrite bool_decide_eq_true_2 by done. cbn [es_Topology ts_Nodes]. rewrite Hv. cbn [mbind option_bind]. do 2 f_equal.
      cbn [es_VLANs with_vlans default from_option id]. assert (Aliases v = foldl record_alias (aliases e) (concat vlans)) as -> by done.
      rewrite record_alias_known; [done|]. apply Forall_forall. intros vlan Hin. rewrite record_alias_lookup.
      destruct (aliases e !! vlan); [by eexists|]. rewrite decide_True by done. by eexists.
    + subst e'. unfold ExperimentSpec_Init. rewrite init_fields_idempotent by done. cbn. by rewrite Et.
Qed.
(** *** VLAN ranges *)

Lemma outside_range_none proposed min max l :
  outside_range proposed min max l = None <-> Forall (fun a => (min = 0 \/ min <= a.2) /\ (max = 0 \/ a.2 <= max)) l.
Proof.
  induction l as [|[k v] l IH]; [split; [constructor|done]|]. cbn [outside_range]. rewrite Forall_cons, <- IH. cbn [snd].
  destruct (Z.eqb_spec min 0), (Z.ltb_spec v min), (Z.eqb_spec max 0), (Z.ltb_spec max v); cbn [negb andb];
    (split; [intros Hn; first [done|split; [lia|done]]|intros [? ?]; first [lia|done]]).
Qed.

Lemma walk_Forall {V} (P : string * V -> Prop) order (m : gmap string V) :
  (forall k, is_Some (m !! k) -> k ∈ order) -> Forall P (walk order m) <-> forall k v, m !! k = Some v -> P (k, v).
Proof.
  intros Ho. rewrite Forall_forall. unfold walk. split.
  - intros HP k v Hk. apply HP, list_elem_of_omap. exists k. split; [apply Ho; by eexists|]. by rewrite Hk.
  - intros HP [k v] (k' & _ & Hk)%list_elem_of_omap. destruct (m !! k') as [v'|] eqn:E; [|done]. injection Hk as <- <-. by apply HP.
Qed.

(** Every alias is in the range of the VLANs, where there is one. *)
Definition in_range (v : VLANSpec) : Prop :=
  forall name id, Aliases v !! name = Some id -> (vl_Min v = 0 \/ vl_Min v <= id) /\ (vl_Max v = 0 \/ id <= vl_Max v).

(** A loop over a map meets each of its keys. *)
Definition covers (order : list string) e : Prop := forall name, is_Some (aliases e !! name) -> name ∈ order.

(** C38: a range of VLANs can be set exactly when there is none yet or it is
    forced, and every alias is in the new one; nothing changes else. Aliases and
    ranges that are set so are always in the range. *)
Theorem SetVLANRange_spec order min max f e :
  covers order e -> es_VLANs e <> None ->
  let '(r, e') := SetVLANRange order min max f e in
  let v := default no_vlans (es_VLANs e) in
  (r = Ok tt <-> (vl_Min v = 0 \/ vl_Max v = 0 \/ f = true) /\ in_range {| vl_Aliases := vl_Aliases v; vl_Min := min; vl_Max := max |}) /\
  (r = Ok tt -> e' = with_vlans e {| vl_Aliases := vl_Aliases v; vl_Min := min; vl_Max := max |}) /\
  (r <> Ok tt -> e' = e) /\
  forall a i f', fst (SetVLANAlias a i f' e) = Ok tt -> in_range v -> in_range (default no_vlans (es_VLANs (snd (SetVLANAlias a i f' e)))).
Proof.
  intros Ho Hv. unfold SetVLANRange, made_vlans, covers, aliases in *. destruct (es_VLANs e) as [v|] eqn:Ev; [|done]. cbn [default from_option id] in *.
  assert (with_vlans e v = e) as He by (by apply with_vlans_same). rewrite He.
  assert (forall a i f', fst (SetVLANAlias a i f' e) = Ok tt -> in_range v -> in_range (default no_vlans (es_VLANs (snd (SetVLANAlias a i f' e))))) as Halias.
  { intros a i f'. unfold SetVLANAlias, made_vlans. rewrite Ev. cbn [default from_option id]. rewrite He.
    destruct (_ && negb f'); [done|]. destruct (Z.eqb_spec (vl_Min v) 0), (Z.ltb_spec i (vl_Min v)), (Z.eqb_spec (vl_Max v) 0), (Z.ltb_spec (vl_Max v) i); cbn [negb andb]; try done;
      (destruct (vl_Aliases v) as [m|] eqn:Em; [|done]); intros _ Hr name id; cbn; rewrite lookup_insert_Some; (intros [[_ <-]|[_ Hn]]; [lia|]);
      apply (Hr name); unfold Aliases; by rewrite Em. }
  pose proof (walk_Forall (fun a => (min = 0 \/ min <= a.2) /\ (max = 0 \/ a.2 <= max)) order (Aliases v) Ho) as Hw.
  rewrite <- (outside_range_none "proposed " min max) in Hw. change (forall k v0, _) with (in_range {| vl_Aliases := vl_Aliases v; vl_Min := min; vl_Max := max |}) in Hw.
  set (v' := {| vl_Aliases := vl_Aliases v; vl_Min := min; vl_Max := max |}) in *.
  destruct (Z.eqb_spec (vl_Min v) 0), (Z.eqb_spec (vl_Max v) 0), f; cbn [negb andb];
    try (destruct (outside_range _ _ _ _) as [what|]; (split; [|split; [done|split; [done|exact Halias]]]); split; [done|intros [_ Hr]; by apply Hw in Hr|split; [naive_solver|by apply Hw]|done]).
  split; [|split; [done|split; [done|exact Halias]]]. split; [done|]. intros [[?|[?|?]] _]; done.
Qed.

(** What initialising and ranges do together: once an experiment whose
    topology names a VLAN without an alias is initialised, no range with a
    minimum can be set, forced or not, because the alias recorded for that VLAN
    is 0. *)
Theorem unassigned_vlan_blocks_range base wd e e' t vlan order min max f :
  ExperimentSpec_Init base wd e = Some ([], e') ->
  es_Topology e = Some t -> names_vlan t vlan -> aliases e !! vlan = None -> 0 < min -> covers order e' ->
  exists what, SetVLANRange order min max f e' = (Err (VFail what), e').
Proof.
  intros He Ht Hn Ha Hmin Ho. destruct (init_aliases _ _ _ _ vlan He) as [_ Hnone]. destruct (Hnone Ha) as [[H0 _]|[_ Hno]]; [|by destruct (Hno t)].
  unfold SetVLANRange, covers, made_vlans, aliases in *. assert (exists v, es_VLANs e' = Some v) as [v Hv].
  { apply ExperimentInit_ok in He. rewrite Ht in He. destruct He as (t' & vlans & _ & _ & _ & ->). by eexists. }
  rewrite Hv in *. cbn [default from_option id] in *. rewrite with_vlans_same by done. destruct (_ && negb f); [by eexists|].
  destruct (outside_range "proposed " min max (walk order (Aliases v))) as [what|] eqn:E; [by eexists|].
  rewrite outside_range_none, walk_Forall in E by done. destruct (E _ _ H0) as [Hm _]. cbn in Hm. lia.
Qed.

End Init.
