(* ===== verification/Includes.v ===== *)
(** * types/topology.go: topologies that include others

    Loading a topology from the store or a file, and decoding one with all that
    it includes, at any depth: the recursion ends, and it succeeds exactly when
    the includes can be resolved, with the nodes that they resolve to. *)

From Stdlib Require Import ZArith Lia Ascii String Strings.Byte.
From stdpp Require Import base option list gmap strings.
From S2P Require Import Prelude Text V1 Config.

Open Scope Z_scope.
Open Scope go_scope.

(** What decoding fails with; [IPanic] is a node without a general section, and
    [IFuel] stands for a recursion that was cut off. *)
Inductive ierror : Type :=
  | ICyclic (name : string)
  | IVersion (version : string)
  | IDecode (what : string)
  | ILoad (include : string) (e : cerror)
  | IIncluded (include : string) (e : ierror)
  | IDuplicate (include hostname : string)
  | IPanic
  | IFuel.

Section Load.
Context {S : Type} `{Unicode, Store S}.

(** [LoadTopology]: the stored config, else the file at that path, of which
    [file] says what it decodes to, if it exists. *)
Definition LoadTopology (e : cenv) (file : string -> option (res cerror Config)) (source : string) : st S cerror Config := fun s =>
  let '(stored, s) :=
    match NewConfig ("Topology/" +:+ source) with
    | Err err => (Err err, s)
    | Ok c => store_Get e c s
    end in
  match stored with
  | Ok c => (Ok c, s)
  | Err _ =>
      match file source with
      | Some r => (r, s)
      | None => (Err (CError (Sprintf "could not find topology %s" [AStr source])), s)
      end
  end.

End Load.

Section Includes.
Context {any : Type}.

(** mapstructure on the spec of a config, and [LoadTopology]. *)
Context (decode : Config -> res string (TopologySpec any)) (load : string -> res cerror Config).

(** Where the host name of a node is read, one that is nil panics as well as one
    without a general section. *)
Definition general_of (n : option (Node any)) : option General := n ← n; nd_General n.

(** The nodes of an include are appended one by one, unless a host name is
    there already. *)
Fixpoint add_nodes (include : string) (existing : gset string) (nodes : list (option (Node any))) : res ierror (list (option (Node any))) :=
  match nodes with
  | [] => Ok []
  | n :: nodes =>
      match general_of n with
      | None => Err IPanic
      | Some g =>
          if bool_decide (ge_Hostname g ∈ existing) then Err (IDuplicate include (ge_Hostname g))
          else let? rest := add_nodes include ({[ ge_Hostname g ]} ∪ existing) nodes in Ok (n :: rest)
      end
  end.

(** The host names of the nodes, or a panic. *)
Definition existing_hosts (nodes : list (option (Node any))) : res ierror (gset string) :=
  match mapM (fun n => ge_Hostname <$> general_of n) nodes with
  | Some hosts => Ok (list_to_set hosts)
  | None => Err IPanic
  end.

(** The loop over the includes, given how an included config is decoded. *)
Fixpoint merge_includes (rec : Config -> res ierror (TopologySpec any)) (includes : list string) (nodes : list (option (Node any))) : res ierror (list (option (Node any))) :=
  match includes with
  | [] => Ok nodes
  | include :: includes =>
      let? c := res_map_err (ILoad include) (load include) in
      let? child := res_map_err (IIncluded include) (rec c) in
      let? existing := existing_hosts nodes in
      let? added := add_nodes include existing (ts_Nodes child) in
      merge_includes rec includes (nodes ++ added)
  end.

Fixpoint decodeTopologyRecursive (fuel : nat) (c : Config) (visited : gset string) : res ierror (TopologySpec any) :=
  match fuel with
  | O => Err IFuel
  | Datatypes.S fuel =>
      if bool_decide (cf_Name c ∈ visited) then Err (ICyclic (cf_Name c))
      else if negb (String.eqb (config_APIVersion c) (StoredVersion (cf_Kind c))) then Err (IVersion (config_APIVersion c))
      else if negb (String.eqb (cf_Kind c) "Topology") then Err (IDecode "invalid spec in config")
      else
        let? spec := res_map_err IDecode (decode c) in
        let? nodes := merge_includes (fun c' => decodeTopologyRecursive fuel c' ({[ cf_Name c ]} ∪ visited)) (ts_IncludeTopologies spec) (ts_Nodes spec) in
        Ok {| ts_IncludeTopologies := ts_IncludeTopologies spec; ts_Nodes := nodes |}
  end.

Definition DecodeTopologyFromConfig (fuel : nat) (c : Config) : res ierror (TopologySpec any) := decodeTopologyRecursive fuel c ∅.

(** Whether a recursion was cut off. *)
Fixpoint out_of_fuel (e : ierror) : bool :=
  match e with
  | IFuel => true
  | IIncluded _ e => out_of_fuel e
  | _ => false
  end.

(** ** What it means to include

    [resolves path c nodes]: the nodes of the topology [c] and of all that it
    includes, where [path] are the names from the root to it. A topology is
    included under its own name as often as it is named, but never below
    itself. *)
Definition own (c : Config) (spec : TopologySpec any) : Prop :=
  config_APIVersion c = StoredVersion (cf_Kind c) /\ cf_Kind c = "Topology" /\ decode c = Ok spec.

(** The host names of nodes that have them. *)
Definition named (nodes : list (option (Node any))) (hosts : list string) : Prop := Forall2 (fun n host => ge_Hostname <$> general_of n = Some host) nodes hosts.

Inductive resolves : gset string -> Config -> list (option (Node any)) -> Prop :=
  | resolves_topology path c spec nodes :
      cf_Name c ∉ path -> own c spec ->
      includes ({[ cf_Name c ]} ∪ path) (ts_IncludeTopologies spec) (ts_Nodes spec) nodes ->
      resolves path c nodes
with includes : gset string -> list string -> list (option (Node any)) -> list (option (Node any)) -> Prop :=
  | includes_nil path nodes : includes path [] nodes nodes
  | includes_cons path include rest c added hosts new nodes out :
      load include = Ok c -> resolves path c added ->
      named nodes hosts -> named added new -> NoDup new -> (forall host, host ∈ new -> host ∉ hosts) ->
      includes path rest (nodes ++ added) out ->
      includes path (include :: rest) nodes out.

End Includes.

(** ** How the includes resolve *)

Scheme resolves_ind2 := Induction for resolves Sort Prop with includes_ind2 := Induction for includes Sort Prop.
Combined Scheme resolves_includes_ind from resolves_ind2, includes_ind2.

Section Spec.
Context {any : Type} (decode : Config -> res string (TopologySpec any)) (load : string -> res cerror Config).
Implicit Types (c : Config) (nodes : list (option (Node any))).

Notation decode_rec := (decodeTopologyRecursive decode load).

Lemma add_nodes_ok include existing nodes nodes' :
  add_nodes include existing nodes = Ok nodes' <->
  nodes' = nodes /\ exists hosts, named nodes hosts /\ NoDup hosts /\ forall host, host ∈ hosts -> host ∉ existing.
Proof.
  revert existing nodes'. induction nodes as [|n nodes IH]; intros existing nodes'; cbn [add_nodes].
  - split; [intros [= <-]; split; [done|]; exists []; split; [constructor|]; split; [apply NoDup_nil_2|set_solver]|]. by intros [-> _].
  - destruct (general_of n) as [g|] eqn:Eg.
    + case_bool_decide as Hin; [split; [done|]|].
      * intros (_ & hosts & Hn & _ & Hnot). exfalso. inversion Hn as [|? host ? ? Hh]; subst. rewrite Eg in Hh. injection Hh as <-. apply (Hnot (ge_Hostname g)); [left|done].
      * rewrite bind_ok. setoid_rewrite IH. split.
        -- intros (rest & (-> & hosts & Hn & Hd & Hnot) & [= <-]). split; [done|]. exists (ge_Hostname g :: hosts). split; [constructor; [by rewrite Eg|done]|].
           split; [apply NoDup_cons; split; [|done]; intros Hg; by apply (Hnot _ Hg); set_solver|]. intros host [->|Hh]%elem_of_cons; [done|]. specialize (Hnot _ Hh). set_solver.
        -- intros (-> & hosts & Hn & Hd & Hnot). inversion Hn as [|? host ? hosts' Hh Hn']; subst. rewrite Eg in Hh. injection Hh as <-.
           apply NoDup_cons in Hd as [Hg Hd]. exists nodes. split; [|done]. split; [done|]. exists hosts'. split; [done|]. split; [done|].
           intros host Hh. assert (host ∉ existing) by (apply Hnot; by right). set_solver.
    + split; [done|]. intros (_ & hosts & Hn & _). exfalso. inversion Hn as [|? host ? ? Hh]; subst. by rewrite Eg in Hh.
Qed.

Lemma existing_hosts_ok nodes set : existing_hosts nodes = Ok set <-> exists hosts, named nodes hosts /\ set = list_to_set hosts.
Proof.
  unfold existing_hosts, named. destruct (mapM _ nodes) as [hosts|] eqn:E.
  - apply mapM_Some in E. split; [intros [= <-]; by exists hosts|]. intros (hosts' & Hn & ->). do 2 f_equal.
    clear -E Hn. revert hosts' Hn. induction E as [|n host l l' Hh _ IH]; intros hosts' Hn; inversion Hn as [|? host' ? ? Hh']; subst; [done|]. f_equal; [congruence|auto].
  - split; [done|]. intros (hosts & Hn & _). apply mapM_Some in Hn. congruence.
Qed.
(** ** Fuel *)

Definition cut_off {A} (r : res ierror A) : bool := match r with Err e => out_of_fuel e | Ok _ => false end.

Lemma cut_off_bind {A B} (r : res ierror A) (k : A -> res ierror B) :
  cut_off (res_bind r k) = match r with Ok a => cut_off (k a) | Err e => out_of_fuel e end.
Proof. by destruct r. Qed.

Lemma add_nodes_not_cut include existing nodes : cut_off (add_nodes include existing nodes) = false.
Proof.
  revert existing. induction nodes as [|n nodes IH]; intros existing; cbn [add_nodes]; [done|]. destruct (general_of n) as [g|]; [|done].
  case_bool_decide; [done|]. rewrite cut_off_bind. specialize (IH ({[ ge_Hostname g ]} ∪ existing)). by destruct (add_nodes _ _ _).
Qed.

(** Where the decoding of no include is cut off, the loop is not. *)
Lemma merge_not_cut rec incs nodes :
  (forall source c, load source = Ok c -> cut_off (rec c) = false) -> cut_off (merge_includes load rec incs nodes) = false.
Proof.
  intros Hrec. revert nodes. induction incs as [|include incs IH]; intros nodes; cbn [merge_includes]; [done|]. rewrite cut_off_bind.
  destruct (load include) as [c|] eqn:El; cbn [res_map_err]; [|done]. rewrite cut_off_bind. specialize (Hrec _ _ El).
  destruct (rec c) as [child|e]; cbn [res_map_err]; [|done]. rewrite cut_off_bind.
  destruct (existing_hosts nodes) as [set|e] eqn:Ee; [|unfold existing_hosts in Ee; destruct (mapM _ _); by simplify_eq]. rewrite cut_off_bind.
  pose proof (add_nodes_not_cut include set (ts_Nodes child)) as Ha. by destruct (add_nodes _ _ _).
Qed.

(** Where the decoding of no include is cut off, more fuel decodes the same. *)
Lemma merge_more rec rec' incs nodes :
  (forall c, cut_off (rec c) = false -> rec' c = rec c) -> cut_off (merge_includes load rec incs nodes) = false ->
  merge_includes load rec' incs nodes = merge_includes load rec incs nodes.
Proof.
  intros Hrec. revert nodes. induction incs as [|include incs IH]; intros nodes; cbn [merge_includes]; [done|]. rewrite cut_off_bind.
  destruct (load include) as [c|]; cbn [res_map_err res_bind]; [|done]. intros Hc.
  assert (cut_off (rec c) = false) as Hr. { rewrite cut_off_bind in Hc. destruct (rec c); [done|]. exact Hc. }
  rewrite (Hrec c Hr). destruct (rec c) as [child|e]; cbn [res_map_err res_bind] in *; [|done].
  destruct (existing_hosts nodes) as [set|e]; cbn [res_bind] in *; [|done]. destruct (add_nodes _ _ _) as [added|e]; cbn [res_bind] in *; [|done]. by apply IH.
Qed.

Lemma decode_more fuel fuel' c visited :
  (fuel <= fuel')%nat -> cut_off (decode_rec fuel c visited) = false -> decode_rec fuel' c visited = decode_rec fuel c visited.
Proof.
  revert fuel' c visited. induction fuel as [|fuel IH]; intros fuel' c visited Hle; [done|]. destruct fuel' as [|fuel']; [lia|]. cbn [decodeTopologyRecursive].
  case_bool_decide; [done|]. destruct (negb _); [done|]. destruct (negb _); [done|]. destruct (decode c) as [spec|]; cbn [res_map_err res_bind]; [|done].
  intros Hc. rewrite cut_off_bind in Hc.
  erewrite merge_more; [done| |by destruct (merge_includes _ _ _ _)]. intros c' Hc'. apply IH; [lia|done].
Qed.

(** Every name is on the path at most once, so that a recursion ends. *)
Lemma decode_ends (U : gset string) fuel c visited :
  (forall source c, load source = Ok c -> cf_Name c ∈ U) -> cf_Name c ∈ U -> (size (U ∖ visited) < fuel)%nat ->
  cut_off (decode_rec fuel c visited) = false.
Proof.
  intros HU. revert c visited. induction fuel as [|fuel IH]; intros c visited Hc Hf; [lia|]. cbn [decodeTopologyRecursive].
  case_bool_decide as Hv; [done|]. destruct (negb _); [done|]. destruct (negb _); [done|]. destruct (decode c) as [spec|]; cbn [res_map_err res_bind]; [|done].
  rewrite cut_off_bind. pose proof (merge_not_cut (fun c' => decode_rec fuel c' ({[cf_Name c]} ∪ visited)) (ts_IncludeTopologies spec) (ts_Nodes spec)) as Hm.
  destruct (merge_includes _ _ _ _); [done|]. apply Hm. intros source c' Hl. apply IH; [by eapply HU|].
  assert (size (U ∖ ({[cf_Name c]} ∪ visited)) < size (U ∖ visited))%nat; [|lia]. apply subset_size. set_solver.
Qed.

(** ** What is decoded *)

Lemma merge_sound rec path :
  (forall c t, rec c = Ok t -> resolves decode load path c (ts_Nodes t)) ->
  forall incs nodes out, merge_includes load rec incs nodes = Ok out -> includes decode load path incs nodes out.
Proof.
  intros Hrec incs. induction incs as [|include incs IH]; intros nodes out; cbn [merge_includes]; [intros [= <-]; constructor|].
  intros (c & Hl%res_map_err_ok & (child & Hc%res_map_err_ok & (set & (hosts & Hn & ->)%existing_hosts_ok & (added & (-> & new & Hnew & Hd & Hnot)%add_nodes_ok & Hm)%bind_ok)%bind_ok)%bind_ok)%bind_ok.
  eapply (includes_cons _ _ _ _ _ _ (ts_Nodes child) hosts new); [done|by apply Hrec|done|done|done| |by apply IH].
  intros host Hh. specialize (Hnot host Hh). by rewrite elem_of_list_to_set in Hnot.
Qed.

Lemma decode_sound fuel c visited t : decode_rec fuel c visited = Ok t -> resolves decode load visited c (ts_Nodes t) /\ exists spec, own decode c spec /\ ts_IncludeTopologies t = ts_IncludeTopologies spec.
Proof.
  revert c visited t. induction fuel as [|fuel IH]; intros c visited t; cbn [decodeTopologyRecursive]; [done|].
  case_bool_decide as Hv; [done|]. destruct (String.eqb_spec (config_APIVersion c) (StoredVersion (cf_Kind c))) as [Ha|]; cbn [negb]; [|done].
  destruct (String.eqb_spec (cf_Kind c) "Topology") as [Hk|]; cbn [negb]; [|done]. intros (spec & Hd%res_map_err_ok & (nodes & Hm & [= <-])%bind_ok)%bind_ok.
  cbn [ts_Nodes ts_IncludeTopologies]. split; [|by exists spec]. eapply resolves_topology; [done|done|]. eapply merge_sound; [|exact Hm]. intros c' t' E. by apply IH in E as [? _].
Qed.

Lemma complete :
  (forall path c nodes, resolves decode load path c nodes -> exists fuel t, decode_rec fuel c path = Ok t /\ ts_Nodes t = nodes) /\
  (forall path incs nodes out, includes decode load path incs nodes out ->
     exists fuel, merge_includes load (fun c' => decode_rec fuel c' path) incs nodes = Ok out).
Proof.
  apply resolves_includes_ind.
  - intros path c spec nodes Hv (Ha & Hk & Hd) _ [fuel Hm]. exists (S fuel). eexists. cbn [decodeTopologyRecursive].
    rewrite bool_decide_eq_false_2, Ha, String.eqb_refl by done. cbn [negb]. rewrite Hk, String.eqb_refl, Hd. cbn [negb res_map_err res_bind]. rewrite Hm. by split.
  - intros path nodes. by exists 0%nat.
  - intros path include incs c added hosts new nodes out Hl _ (fuel1 & t & Ht & <-) Hn Hnew Hd Hnot _ [fuel2 Hm].
    exists (Nat.max fuel1 fuel2). cbn [merge_includes]. rewrite Hl. cbn [res_map_err res_bind].
    rewrite (decode_more fuel1) by (lia || by rewrite Ht). rewrite Ht. cbn [res_map_err res_bind].
    rewrite (proj2 (existing_hosts_ok nodes (list_to_set hosts))) by (by exists hosts). cbn [res_bind].
    rewrite (proj2 (add_nodes_ok include (list_to_set hosts) (ts_Nodes t) (ts_Nodes t))).
    + cbn [res_bind]. erewrite merge_more; [exact Hm| |by rewrite Hm]. intros c' Hc'. apply decode_more; [lia|done].
    + split; [done|]. exists new. split; [done|]. split; [done|]. intros host Hh. rewrite elem_of_list_to_set. by apply Hnot.
Qed.

(** C12: decoding a topology with its includes ends: with more fuel than there
    are names of topologies it is never cut off. It succeeds exactly when the
    includes resolve - no topology is below itself, each loads and decodes, and
    no include brings a host name that is there already - with the nodes they
    resolve to, own nodes first and each include's in its place. *)
Theorem decode_topology (U : gset string) fuel c :
  (forall source c, load source = Ok c -> cf_Name c ∈ U) -> cf_Name c ∈ U -> (size U < fuel)%nat ->
  (forall e, DecodeTopologyFromConfig decode load fuel c = Err e -> out_of_fuel e = false) /\
  forall nodes, (exists t, DecodeTopologyFromConfig decode load fuel c = Ok t /\ ts_Nodes t = nodes) <-> resolves decode load ∅ c nodes.
Proof.
  intros HU Hc Hf. unfold DecodeTopologyFromConfig.
  assert (cut_off (decode_rec fuel c ∅) = false) as Hcut by (apply (decode_ends U); [done|done|by rewrite difference_empty_L]).
  split; [intros e E; by rewrite E in Hcut|]. intros nodes. split.
  - intros (t & E & <-). by apply decode_sound in E as [? _].
  - intros (fuel' & t & E & Ht)%complete. exists t. split; [|done]. destruct (Nat.le_ge_cases fuel fuel') as [Hle|Hle].
    + by rewrite <- (decode_more fuel fuel').
    + by rewrite (decode_more fuel' fuel) by (done || by rewrite E).
Qed.

(** ** Host names *)

Lemma named_app nodes nodes' hosts hosts' : named nodes hosts -> named nodes' hosts' -> named (nodes ++ nodes') (hosts ++ hosts').
Proof. apply Forall2_app. Qed.

(** No include can bring a host name twice: when the own nodes of a topology
    have distinct host names, those of all that it resolves to are distinct,
    and the own nodes come first. *)
Theorem resolved_names_distinct path c spec nodes hosts :
  resolves decode load path c nodes -> own decode c spec -> named (ts_Nodes spec) hosts -> NoDup hosts ->
  exists more, named (drop (length (ts_Nodes spec)) nodes) more /\ take (length (ts_Nodes spec)) nodes = ts_Nodes spec /\ NoDup (hosts ++ more).
Proof.
  intros Hr Ho Hn Hd. inversion Hr as [? ? spec' ? _ Ho' Hi]; subst. assert (spec' = spec) as -> by (destruct Ho as (_ & _ & E), Ho' as (_ & _ & E'); congruence).
  assert (exists added more, nodes = ts_Nodes spec ++ added /\ named added more /\ NoDup (hosts ++ more)) as (added & more & -> & Hm & Hd').
  { clear Hr Ho Ho'. revert Hn Hd. remember ({[cf_Name c]} ∪ path) as p eqn:Ep. clear Ep. revert hosts. induction Hi as [p nodes|p include incs c' added hosts' new nodes out Hl Hres Hn' Hnew Hd' Hnot Hi IH]; intros hosts Hn Hd.
    - exists [], []. rewrite !app_nil_r. split; [done|]. split; [constructor|done].
    - assert (hosts' = hosts) as ->. { clear -Hn Hn'. revert hosts Hn. induction Hn'; intros hosts Hn; inversion Hn; subst; [done|]. f_equal; [congruence|auto]. }
      destruct (IH (hosts ++ new)) as (added' & more & -> & Hm & Hd2); [by apply named_app| |].
      { apply NoDup_app. split; [done|]. split; [|done]. intros host Hh Hh'. by apply (Hnot host). }
      exists (added ++ added'), (new ++ more). rewrite !app_assoc. split; [done|]. split; [by apply named_app|done]. }
  exists more. rewrite drop_app_length, take_app_length. done.
Qed.

End Spec.
