(* ===== verification/ConfigStore.v ===== *)
(** * store/bolt.go: configs in a Bolt database

    Each call opens the file, which holds its lock, and runs a few transactions
    on it, any of which can fail to commit. The calls are an instance of
    [Store], and the contract of [StoreLaws] holds for them on every database
    whose config buckets hold what the calls put there. *)

From Stdlib Require Import ZArith Lia Ascii String Strings.Byte.
From stdpp Require Import base option list gmap strings.
From S2P Require Import Prelude Text Document Bolt Config.

Open Scope Z_scope.
Open Scope go_scope.

(** encoding/json on configs: [StoredJSON], [json.Unmarshal] into a config
    that may have fields already, and what a config is after both. *)
Class ConfigJSON := {
  StoredJSON : Config -> res string (list byte);
  Unmarshal : list byte -> Config -> res string Config;
  stored_form : Config -> Config;
}.

Class ConfigJSONLaws `{ConfigJSON} : Prop := {
  Unmarshal_StoredJSON c v kind name :
    StoredJSON c = Ok v -> valid_utf8 (cf_Kind c) = true -> valid_utf8 (cf_Name c) = true ->
    Unmarshal v (blank kind name) = Ok (stored_form c) /\
    Unmarshal v {| cf_Version := ""; cf_Kind := ""; cf_Metadata := {| md_Name := ""; md_Created := ""; md_Updated := ""; md_Annotations := None |};
                   cf_Spec := None; cf_Status := None |} = Ok (stored_form c);
  stored_form_names c :
    valid_utf8 (cf_Kind c) = true -> valid_utf8 (cf_Name c) = true -> cf_Kind (stored_form c) = cf_Kind c /\ cf_Name (stored_form c) = cf_Name c;
}.

Section ConfigStore.
Context {T : Type} `{Bolt T, ConfigJSON}.

(** [bbolt.Open], then the rest of the call. *)
Definition opened {A} (e : cenv) (m : st T cerror A) : st T cerror A := fun t =>
  match c_open e with
  | Some what => (Err (CWrapped (lit "opening BoltDB file") (CError (lit what))), t)
  | None => m t
  end.

(** [db.Update]: what fails, in the function or when it is committed, leaves
    nothing. *)
Definition db_update {A} (commit : option string) (m : st T cerror A) : st T cerror A := fun t =>
  match m t with
  | (Err e, _) => (Err e, t)
  | (Ok a, t') => match commit with Some what => (Err (CError (lit what)), t) | None => (Ok a, t') end
  end.

Definition bolt_do {A} (m : T -> res string A * T) : st T cerror A := fun t =>
  let '(r, t) := m t in (res_map_err (fun what => CError (lit what)) r, t).

(** The n-th transaction of a call. *)
Definition ensureBucket (e : cenv) (n : nat) (name : string) : st T cerror unit :=
  db_update (c_commit e n) (st_wrap (CWrapped (lit "creating bucket in Bolt")) (bolt_do (bolt_create [name]))).

Definition get (e : cenv) (n : nat) (bucket k : string) : st T cerror (list byte) :=
  let! _ := ensureBucket e n bucket in
  fun t =>
    match bolt_get t [bucket] k with
    | Some v => (Ok v, t)
    | None => (Err (CWrapped (Sprintf "key %s does not exist in bucket %s" [AStr k; AStr bucket]) ErrNotExist), t)
    end.

Definition put (e : cenv) (n : nat) (bucket k : string) (v : list byte) : st T cerror unit :=
  let! _ := ensureBucket e n bucket in
  st_wrap (CWrapped (Sprintf "updating value for key %s in bucket %s" [AStr k; AStr bucket]))
    (db_update (c_commit e (S n)) (bolt_do (bolt_put [bucket] k v))).

Definition json_res {A} (context : string) (r : res string A) : st T cerror A :=
  st_lift (res_map_err (fun what => CWrapped (lit context) (CError (lit what))) r).

(** The component buckets. A value without bytes panics where its first one is
    read: the outer [option]. *)
Definition IsInitialized (e : cenv) (component : string) (t : T) : option bool * T :=
  match opened e (get e 0 "phenix" component) t with
  | (Ok [], t) => (None, t)
  | (Ok (b :: _), t) => (Some (Byte.eqb b x01), t)
  | (Err _, t) => (Some false, t)
  end.

Definition InitializeComponent (e : cenv) (component : string) : st T cerror unit :=
  opened e (st_wrap (CWrapped (Sprintf "marking component %s as initialized" [AStr component])) (put e 0 "phenix" component [x01])).

(** ** Configs *)

Definition no_config : Config := {|
  cf_Version := ""; cf_Kind := ""; cf_Metadata := {| md_Name := ""; md_Created := ""; md_Updated := ""; md_Annotations := None |};
  cf_Spec := None; cf_Status := None |}.

(** The callback of [ForEach]; a nested bucket has no value to decode. *)
Fixpoint decode_each (entries : list (string * option (list byte))) : res string (list Config) :=
  match entries with
  | [] => Ok []
  | (_, v) :: entries => let? c := Unmarshal (default [] v) no_config in let? rest := decode_each entries in Ok (c :: rest)
  end.

Fixpoint list_kinds (e : cenv) (n : nat) (kinds : list string) : st T cerror (list Config) :=
  match kinds with
  | [] => st_ret []
  | kind :: kinds =>
      let! _ := ensureBucket e n kind in
      fun t =>
        (let! configs := json_res "getting configs from store" (decode_each (bolt_seek t [kind] "")) in
         let! rest := list_kinds e (S n) kinds in
         st_ret (configs ++ rest)) t
  end.

Definition List (e : cenv) (kinds : list string) : st T cerror (list Config) := opened e (list_kinds e 0 kinds).

Definition Get (e : cenv) (c : Config) : st T cerror Config :=
  opened e (let! v := st_wrap (CWrapped (lit "getting config")) (get e 0 (cf_Kind c) (cf_Name c)) in
            json_res "unmarshaling config JSON" (Unmarshal v c)).

(** A config that is there is an error of its own; any error of the lookup
    counts as none there. *)
Definition Create (e : cenv) (c : Config) : st T cerror Config :=
  opened e (fun t =>
    match get e 0 (cf_Kind c) (cf_Name c) t with
    | (Ok _, t) => (Err ErrExist, t)
    | (Err _, t) =>
        let c := created_at (c_now e) c in
        (let! v := json_res "marshaling config JSON" (StoredJSON c) in
         let! _ := st_wrap (CWrapped (lit "writing config JSON to Bolt")) (put e 1 (cf_Kind c) (cf_Name c) v) in
         st_ret c) t
    end).

Definition Update (e : cenv) (c : Config) : st T cerror Config :=
  opened e (let! _ := st_wrap (CWrapped (lit "getting config")) (get e 0 (cf_Kind c) (cf_Name c)) in
            let c := updated_at (c_now e) c in
            let! v := json_res "marshaling config JSON" (StoredJSON c) in
            let! _ := st_wrap (CWrapped (lit "writing config JSON to Bolt")) (put e 1 (cf_Kind c) (cf_Name c) v) in
            st_ret c).

Definition Delete (e : cenv) (c : Config) : st T cerror unit :=
  opened e (st_wrap (CWrapped (Sprintf "deleting key %s in bucket %s" [AStr (cf_Name c); AStr (cf_Kind c)]))
    (db_update (c_commit e 0) (fun t =>
       if negb (bolt_bucket t [cf_Kind c]) || negb (bool_decide (is_Some (bolt_get t [cf_Kind c] (cf_Name c)))) then (Err ErrNotExist, t)
       else bolt_do (bolt_delete [cf_Kind c] (cf_Name c)) t))).

#[export] Instance bolt_store : Store T := {
  store_List := List; store_Get := Get; store_Create := Create; store_Update := Update; store_Delete := Delete }.

End ConfigStore.
