(* ===== verification/ConfigStoreSpec.v ===== *)
(** * The config store keeps its contract

    On a database whose config buckets hold encodings of configs under their
    names, every call gives such a database again, and what is seen of it
    changes as [StoreLaws] says. Records and components are not touched. *)

From Stdlib Require Import ZArith Lia Ascii String Strings.Byte.
From stdpp Require Import base option list gmap strings.
From S2P Require Import Prelude Text Document Bolt Config ConfigStore.

Open Scope Z_scope.
Open Scope go_scope.

Section Laws.
Context {T : Type} `{BoltLaws T, ConfigJSONLaws}.
Implicit Types (t : T) (c : Config) (e : cenv).

(** The top-level buckets that are not configs. *)
Definition reserved (kind : string) : Prop := kind = "phenix" \/ kind = "phenix_records".

Definition key_ok (k : string) : Prop := k <> "" /\ slen k <= MaxKeySize /\ valid_utf8 k = true.

Definition config_ok (kind name : string) : Prop := ~ reserved kind /\ key_ok kind /\ key_ok name.

(** No values stand beside the buckets, config buckets hold no buckets, and
    each of their values is what [StoredJSON] gave for a config of that name. *)
Definition db_valid t : Prop :=
  (forall k, bolt_get t [] k = None) /\
  (forall kind name, ~ reserved kind -> bolt_bucket t [name; kind] = false) /\
  (forall kind name v, ~ reserved kind -> bolt_get t [kind] name = Some v ->
     config_ok kind name /\ exists c, StoredJSON c = Ok v /\ cf_Kind c = kind /\ cf_Name c = name).

Definition db_view t (kind name : string) : option Config :=
  if bool_decide (kind = "phenix" \/ kind = "phenix_records") then None
  else v ← bolt_get t [kind] name; match Unmarshal v (blank kind name) with Ok c => Some c | Err _ => None end.

#[export] Instance bolt_view : StoreView T := {
  store_valid := db_valid; view := db_view; storable c := config_ok (cf_Kind c) (cf_Name c); kept := stored_form }.

Lemma view_iff t kind name :
  db_valid t -> ~ reserved kind ->
  (forall c, db_view t kind name = Some c <-> exists c0 v, bolt_get t [kind] name = Some v /\ StoredJSON c0 = Ok v /\ cf_Kind c0 = kind /\ cf_Name c0 = name /\ c = stored_form c0) /\
  (db_view t kind name = None <-> bolt_get t [kind] name = None).
Proof.
  intros (_ & _ & Hv) Hr. unfold db_view. rewrite bool_decide_eq_false_2 by done. destruct (bolt_get t [kind] name) as [v|] eqn:E; cbn.
  - destruct (Hv _ _ _ Hr E) as ((_ & (_ & _ & Hk) & (_ & _ & Hn)) & c0 & Hc0 & <- & <-).
    destruct (Unmarshal_StoredJSON c0 v (cf_Kind c0) (cf_Name c0) Hc0 Hk Hn) as [-> _]. split; [|done]. intros c. split.
    + intros [= <-]. by exists c0, v.
    + intros (c1 & v' & [= <-] & Hc1 & Hk1 & Hn1 & ->). f_equal.
      destruct (Unmarshal_StoredJSON c1 v (cf_Kind c0) (cf_Name c0) Hc1) as [E1 _]; [congruence|congruence|].
      destruct (Unmarshal_StoredJSON c0 v (cf_Kind c0) (cf_Name c0) Hc0 Hk Hn) as [E0 _]. congruence.
  - split; [|done]. intros c. split; [done|]. by intros (? & ? & ? & _).
Qed.

(** What leaves every value and makes at most top-level buckets that hold
    nothing. *)
Definition same_values_at t t' : Prop := (forall p k, bolt_get t' p k = bolt_get t p k) /\ forall k k' p, bolt_bucket t' (k :: k' :: p) = bolt_bucket t (k :: k' :: p).

Lemma same_valid t t' : same_values_at t t' -> db_valid t -> db_valid t' /\ forall kind name, db_view t' kind name = db_view t kind name.
Proof.
  intros [Hg Hb] (Htop & Hnest & Hvals). split; [|intros; unfold db_view; by rewrite Hg]. split; [intros k; by rewrite Hg|].
  split; [intros kind name Hr; rewrite Hb; by apply Hnest|]. intros kind name v Hr. rewrite Hg. by apply Hvals.
Qed.

Lemma same_refl t : same_values_at t t.
Proof. done. Qed.

Lemma ensureBucket_spec e n name t r t' :
  db_valid t -> key_ok name -> ensureBucket e n name t = (r, t') ->
  same_values_at t t' /\ (r = Ok tt <-> c_commit e n = None) /\ (r = Ok tt -> bolt_bucket t' [name] = true) /\ (forall err, r = Err err -> is_not_exist err = false).
Proof.
  intros (Hg & _) (Hk & Hl & _). unfold ensureBucket, db_update, st_wrap, bolt_do.
  destruct (bolt_create_ok t [] name) as (t1 & E & Hb & _ & Hv); [apply bolt_bucket_nil|done|done|apply Hg|]. rewrite E. cbn [res_map_err].
  destruct (c_commit e n) as [what|]; intros [= <- <-].
  - split; [apply same_refl|]. split; [done|]. split; [done|]. by intros err [= <-].
  - split; [|split; [done|split; [|done]]].
    + split; [done|]. intros k k' p. rewrite Hb. by rewrite bool_decide_eq_false_2.
    + intros _. rewrite Hb. by rewrite bool_decide_eq_true_2.
Qed.

Lemma get_spec e n kind name t r t' :
  db_valid t -> key_ok kind -> get e n kind name t = (r, t') ->
  same_values_at t t' /\ (c_commit e n = None -> bolt_bucket t' [kind] = true) /\
  match r with
  | Ok v => bolt_get t [kind] name = Some v /\ c_commit e n = None
  | Err err => (is_not_exist err = true -> bolt_get t [kind] name = None) /\ (c_commit e n = None -> bolt_get t [kind] name = None)
  end.
Proof.
  intros Ht Hk. unfold get, st_bind. destruct (ensureBucket e n kind t) as [r1 t1] eqn:E1. apply ensureBucket_spec in E1 as (Hs & Hr & Hb & Hne); [|done|done].
  destruct r1 as [[]|err]; [|intros [= <- <-]].
  - rewrite (proj1 Hs). destruct (bolt_get t [kind] name) as [v|] eqn:Ev; intros [= <- <-]; (split; [done|]); (split; [intros _; by apply Hb|]).
    + split; [done|by apply Hr].
    + done.
  - split; [done|]. split; [intros Hc; apply Hr in Hc; done|]. rewrite (Hne err) by done. split; [done|]. intros Hc. by apply Hr in Hc.
Qed.

Lemma put_spec e n c v t r t' :
  db_valid t -> config_ok (cf_Kind c) (cf_Name c) -> StoredJSON c = Ok v -> put e n (cf_Kind c) (cf_Name c) v t = (r, t') ->
  db_valid t' /\
  match r with
  | Ok _ => forall k m, db_view t' k m = view_set (db_view t) (cf_Kind c) (cf_Name c) (Some (stored_form c)) k m
  | Err err => is_not_exist err = false /\ forall k m, db_view t' k m = db_view t k m
  end.
Proof.
  intros Ht Hok Hc. assert (Hok' := Hok). destruct Hok' as (Hres & Hkind & Hname). unfold put, st_bind. destruct (ensureBucket e n (cf_Kind c) t) as [r1 t1] eqn:E1.
  apply ensureBucket_spec in E1 as (Hs & Hr & Hb & Hne); [|done|done]. destruct (same_valid _ _ Hs Ht) as [Ht1 Hv1].
  destruct r1 as [[]|err]; [|intros [= <- <-]; split; [done|]; split; [by apply Hne|done]].
  unfold st_wrap, db_update, bolt_do. destruct (Z.leb_spec (Z.of_nat (length v)) MaxValueSize) as [Hle|Hgt].
  - destruct (bolt_put_ok t1 [cf_Kind c] (cf_Name c) v) as (t2 & E & Hg & Hbk & _); [by apply Hb|apply Hname|apply Hname|done|by apply Ht1|].
    rewrite E. cbn [res_map_err]. destruct (c_commit e (S n)) as [what|]; intros [= <- <-]; [done|]. split.
    + destruct Ht1 as (Htop & Hnest & Hvals). split; [|split].
      * intros k. rewrite Hg, decide_False by done. apply Htop.
      * intros kind name Hn. rewrite Hbk. by apply Hnest.
      * intros kind name w Hn. rewrite Hg. destruct (decide _) as [[= -> ->]|_]; [|by apply Hvals]. intros [= <-]. split; [done|]. by exists c.
    + intros k m. unfold view_set. rewrite <- Hv1. unfold db_view. rewrite Hg. destruct (decide (k = cf_Kind c /\ m = cf_Name c)) as [[-> ->]|Hne'].
      * rewrite bool_decide_eq_false_2 by done. rewrite decide_True by done. cbn.
        by destruct (Unmarshal_StoredJSON c v (cf_Kind c) (cf_Name c) Hc) as [-> _]; [apply Hkind|apply Hname|].
      * by rewrite decide_False by (intros [= -> ->]; by apply Hne').
  - destruct (bolt_put_large t1 [cf_Kind c] (cf_Name c) v Hgt) as (err & t2 & E). rewrite E. intros [= <- <-]. done.
Qed.

Lemma is_Some_view t kind name :
  db_valid t -> ~ reserved kind -> is_Some (db_view t kind name) <-> is_Some (bolt_get t [kind] name).
Proof.
  intros Ht Hr. destruct (view_iff t kind name Ht Hr) as [_ Hn]. destruct (db_view t kind name), (bolt_get t [kind] name);
    split; intros [? ?]; try done; try (by eexists); exfalso; naive_solver.
Qed.

Lemma get_config_ok e t kind name r t' :
  db_valid t -> config_ok kind "x" -> Get e (blank kind name) t = (r, t') ->
  db_valid t' /\ (forall k n, db_view t' k n = db_view t k n) /\
  match r with
  | Ok c => db_view t kind name = Some c
  | Err err => (is_not_exist err = true -> db_view t kind name = None) /\ (healthy e -> db_view t kind name = None)
  end.
Proof.
  intros Ht (Hres & Hkind & _). unfold Get, opened. destruct (c_open e) as [what|] eqn:Eo; [intros [= <- <-]; do 3 (split; [done|]); intros [? _]; congruence|].
  unfold st_bind, st_wrap. cbn [cf_Kind cf_Name blank cf_Metadata md_Name].
  destruct (get e 0 kind name t) as [r1 t1] eqn:E. apply get_spec in E as (Hs & _ & Hr); [|done|done]. destruct (same_valid _ _ Hs Ht) as [Ht1 Hv1].
  destruct (view_iff t kind name Ht Hres) as [Hsome Hn]. destruct r1 as [v|err]; cbn [res_map_err].
  - destruct Hr as [Hv _]. unfold json_res, st_lift. destruct (proj2 (is_Some_view t kind name Ht Hres)) as [c Hc]; [by eexists|].
    assert (Unmarshal v (blank kind name) = Ok c) as ->.
    { unfold db_view in Hc. rewrite bool_decide_eq_false_2 in Hc by done. rewrite Hv in Hc. cbn in Hc. destruct (Unmarshal _ _); congruence. }
    cbn [res_map_err]. by intros [= <- <-].
  - intros [= <- <-]. split; [done|]. split; [done|]. cbn. split; [intros Hx; apply Hn; by apply (proj1 Hr)|intros [_ Hc]; apply Hn; by apply (proj2 Hr)].
Qed.

Lemma create_config_ok e t c r t' :
  db_valid t -> config_ok (cf_Kind c) (cf_Name c) -> Create e c t = (r, t') ->
  db_valid t' /\
  (r = Err ErrExist <-> c_open e = None /\ c_commit e 0 = None /\ is_Some (db_view t (cf_Kind c) (cf_Name c))) /\
  match r with
  | Ok c' => c' = created_at (c_now e) c /\ (c_commit e 0 = None -> db_view t (cf_Kind c) (cf_Name c) = None) /\
             forall k n, db_view t' k n = view_set (db_view t) (cf_Kind c) (cf_Name c) (Some (stored_form c')) k n
  | Err err => forall k n, db_view t' k n = db_view t k n
  end.
Proof.
  intros Ht Hok. unfold Create, opened. destruct (c_open e) as [what|]; [intros [= <- <-]; split; [done|]; split; [split; [done|by intros [? _]]|done]|].
  destruct (get e 0 (cf_Kind c) (cf_Name c) t) as [r1 t1] eqn:E. apply get_spec in E as (Hs & _ & Hr); [|done|apply Hok]. destruct (same_valid _ _ Hs Ht) as [Ht1 Hv1].
  destruct r1 as [v|err].
  { intros [= <- <-]. split; [done|]. split; [|done]. split; [intros _|done]. destruct Hr as [Hv Hc]. split; [done|]. split; [done|].
    apply is_Some_view; [done|apply Hok|by eexists]. }
  assert (forall a : res cerror Config, a <> Err ErrExist -> a = Err ErrExist <-> @None string = None /\ c_commit e 0 = None /\ is_Some (db_view t (cf_Kind c) (cf_Name c))) as Hexist.
  { intros a Ha. split; [done|]. intros (_ & Hc & Hv). exfalso. apply is_Some_view in Hv; [|done|apply Hok]. rewrite (proj2 Hr Hc) in Hv. by destruct Hv. }
  unfold st_bind, json_res, st_lift. destruct (StoredJSON _) as [v|what] eqn:Ej; cbn [res_map_err]; [|intros [= <- <-]; split; [done|]; split; [by apply Hexist|done]].
  unfold st_wrap. change (cf_Kind c) with (cf_Kind (created_at (c_now e) c)). change (cf_Name c) with (cf_Name (created_at (c_now e) c)).
  destruct (put e 1 _ _ v t1) as [r2 t2] eqn:E. apply (put_spec _ _ (created_at (c_now e) c)) in E as [Ht2 Hp]; [|done|done|done].
  destruct r2 as [[]|err2]; cbn [res_map_err]; intros [= <- <-]; (split; [done|]); (split; [by apply Hexist|]).
  - split; [done|]. split.
    + intros Hc. apply view_iff; [done|apply Hok|]. by apply (proj2 Hr).
    + intros k n. rewrite Hp. unfold view_set. by rewrite Hv1.
  - intros k n. destruct Hp as [_ Hp]. by rewrite Hp.
Qed.

Lemma update_config_ok e t c r t' :
  db_valid t -> config_ok (cf_Kind c) (cf_Name c) -> Update e c t = (r, t') ->
  db_valid t' /\
  match r with
  | Ok c' => c' = updated_at (c_now e) c /\ is_Some (db_view t (cf_Kind c) (cf_Name c)) /\
             forall k n, db_view t' k n = view_set (db_view t) (cf_Kind c) (cf_Name c) (Some (stored_form c')) k n
  | Err err => (is_not_exist err = true -> db_view t (cf_Kind c) (cf_Name c) = None) /\ forall k n, db_view t' k n = db_view t k n
  end.
Proof.
  intros Ht Hok. unfold Update, opened. destruct (c_open e); [by intros [= <- <-]|]. unfold st_bind at 1, st_wrap at 1.
  destruct (get e 0 (cf_Kind c) (cf_Name c) t) as [r1 t1] eqn:E. apply get_spec in E as (Hs & _ & Hr); [|done|apply Hok]. destruct (same_valid _ _ Hs Ht) as [Ht1 Hv1].
  destruct r1 as [v|err]; cbn [res_map_err].
  - unfold st_bind, json_res, st_lift. destruct (StoredJSON _) as [w|what] eqn:Ej; cbn [res_map_err]; [|by intros [= <- <-]].
    unfold st_wrap. change (cf_Kind c) with (cf_Kind (updated_at (c_now e) c)). change (cf_Name c) with (cf_Name (updated_at (c_now e) c)).
    destruct (put e 1 _ _ w t1) as [r2 t2] eqn:E. apply (put_spec _ _ (updated_at (c_now e) c)) in E as [Ht2 Hp]; [|done|done|done].
    destruct r2 as [[]|err2]; cbn [res_map_err]; intros [= <- <-]; (split; [done|]).
    + split; [done|]. split; [apply is_Some_view; [done|apply Hok|]; eexists; apply Hr|]. intros k n. rewrite Hp. unfold view_set. by rewrite Hv1.
    + destruct Hp as [Hne Hp]. cbn. rewrite Hne. split; [done|]. intros k n. by rewrite Hp.
  - intros [= <- <-]. split; [done|]. split; [|done]. cbn. intros Hx. apply view_iff; [done|apply Hok|]. by apply (proj1 Hr).
Qed.

Lemma delete_config_ok e t c r t' :
  db_valid t -> config_ok (cf_Kind c) (cf_Name c) -> Delete e c t = (r, t') ->
  db_valid t' /\
  match r with
  | Ok _ => is_Some (db_view t (cf_Kind c) (cf_Name c)) /\ forall k n, db_view t' k n = view_set (db_view t) (cf_Kind c) (cf_Name c) None k n
  | Err err => (healthy e -> db_view t (cf_Kind c) (cf_Name c) = None) /\ forall k n, db_view t' k n = db_view t k n
  end.
Proof.
  intros Ht Hok. assert (Hok' := Hok). destruct Hok' as (Hres & Hkind & Hname). unfold Delete, opened.
  destruct (c_open e) as [what|] eqn:Eo; [intros [= <- <-]; split; [done|]; split; [intros [? _]; congruence|done]|]. unfold st_wrap, db_update.
  destruct (bolt_bucket t [cf_Kind c]) eqn:Eb; cbn [negb orb]; [case_bool_decide as Eg; cbn [negb]|].
  - unfold bolt_do. destruct (bolt_delete_ok t [cf_Kind c] (cf_Name c)) as (t1 & E & Hg & Hbk & _); [done|by apply Ht|]. rewrite E. cbn [res_map_err].
    destruct (c_commit e 0) as [what|] eqn:Ec; cbn [res_map_err]; intros [= <- <-]; [split; [done|]; split; [intros [_ Hc]; by rewrite Hc in Ec|done]|]. split.
    + destruct Ht as (Htop & Hnest & Hvals). split; [|split].
      * intros k. rewrite Hg, decide_False by done. apply Htop.
      * intros kind name Hn. rewrite Hbk. by apply Hnest.
      * intros kind name w Hn. rewrite Hg. destruct (decide _); [done|]. by apply Hvals.
    + split; [by apply is_Some_view|]. intros k n. unfold view_set, db_view. rewrite Hg. destruct (decide (k = cf_Kind c /\ n = cf_Name c)) as [[-> ->]|Hne'].
      * rewrite decide_True by done. by destruct (bool_decide _).
      * by rewrite decide_False by (intros [= -> ->]; by apply Hne').
  - intros [= <- <-]. split; [done|]. split; [|done]. intros _. apply view_iff; [done..|]. by destruct (bolt_get t [cf_Kind c] (cf_Name c)); [destruct Eg; eexists|].
  - intros [= <- <-]. split; [done|]. split; [|done]. intros _. apply view_iff; [done..|]. by apply bolt_get_no_bucket.
Qed.

Lemma decode_each_ok kind name0 t l :
  db_valid t -> config_ok kind name0 -> (forall n v, (n, v) ∈ l -> match v with Some bs => bolt_get t [kind] n = Some bs | None => False end) ->
  exists cs, decode_each l = Ok cs /\ forall c, c ∈ cs <-> exists n v, (n, v) ∈ l /\ db_view t kind n = Some c.
Proof.
  intros Ht (Hres & Hkind & _) Hl. induction l as [|[n v] l IH]; cbn [decode_each].
  - exists []. split; [done|]. set_solver.
  - destruct IH as (cs & E & Hcs); [intros m w Hin; by apply Hl; right|]. specialize (Hl n v ltac:(left)). destruct v as [v|]; [|done].
    destruct Ht as (Htop & Hnest & Hvals). destruct (Hvals _ _ _ Hres Hl) as ((_ & _ & Hname) & c0 & Hj & <- & <-).
    destruct (Unmarshal_StoredJSON c0 v (cf_Kind c0) (cf_Name c0) Hj) as [Eb En]; [apply Hkind|apply Hname|]. cbn [default from_option id]. unfold no_config. rewrite En, E. cbn [res_bind].
    exists (stored_form c0 :: cs). split; [done|]. intros c. rewrite elem_of_cons, Hcs.
    assert (db_view t (cf_Kind c0) (cf_Name c0) = Some (stored_form c0)) as Hview.
    { unfold db_view. rewrite bool_decide_eq_false_2 by done. rewrite Hl. cbn. by rewrite Eb. }
    split.
    + intros [->|(m & w & Hin & Hc)]; [exists (cf_Name c0), (Some v); split; [left|done]|exists m, w; split; [by right|done]].
    + intros (m & w & [[= -> ->]|Hin]%elem_of_cons & Hc); [left; congruence|]. right. by exists m, w.
Qed.

Lemma list_kinds_ok e n kinds t r t' :
  db_valid t -> Forall (fun kind => config_ok kind "x") kinds -> list_kinds e n kinds t = (r, t') ->
  db_valid t' /\ (forall k m, db_view t' k m = db_view t k m) /\
  match r with
  | Ok l => forall c, c ∈ l <-> exists kind name, kind ∈ kinds /\ db_view t kind name = Some c
  | Err _ => exists m, c_commit e m <> None
  end.
Proof.
  revert n t r t'. induction kinds as [|kind kinds IH]; intros n t r t' Ht Hk; cbn [list_kinds].
  - intros [= <- <-]. split; [done|]. split; [done|]. set_solver.
  - apply Forall_cons in Hk as [Hkind Hk]. unfold st_bind at 1. destruct (ensureBucket e n kind t) as [r1 t1] eqn:E1.
    apply ensureBucket_spec in E1 as (Hs & Hr1 & Hb & _); [|done|apply Hkind]. destruct (same_valid _ _ Hs Ht) as [Ht1 Hv1].
    destruct r1 as [[]|err]; [|intros [= <- <-]; do 2 (split; [done|]); exists n; intros Hc; by apply Hr1 in Hc]. assert (bolt_bucket t1 [kind] = true) as Hbk by by apply Hb.
    destruct (decode_each_ok kind "x" t1 (bolt_seek t1 [kind] "") Ht1 Hkind) as (cs & E & Hcs).
    { intros m v Hin. apply bolt_seek_elem in Hin as [_ Hin]; [|done]. destruct v as [bs|]; [done|]. rewrite (proj1 (proj2 Ht1)) in Hin; [done|apply Hkind]. }
    unfold st_bind, json_res, st_lift. rewrite E. cbn [res_map_err]. destruct (list_kinds e (S n) kinds t1) as [r2 t2] eqn:E2.
    apply IH in E2 as (Ht2 & Hv2 & Hr); [|done|done]. destruct r2 as [rest|err]; intros [= <- <-]; (split; [done|]); (split; [intros; by rewrite Hv2|]); [|done].
    intros c. rewrite elem_of_app, Hcs, Hr. split.
    + intros [(m & v & _ & Hc)|(k & m & Hin & Hc)]; [exists kind, m; split; [left|by rewrite <- Hv1]|exists k, m; split; [by right|by rewrite <- Hv1]].
    + intros (k & m & [->|Hin]%elem_of_cons & Hc); [left|right; exists k, m; by rewrite Hv1].
      rewrite <- Hv1 in Hc. assert (is_Some (bolt_get t1 [kind] m)) as [v Hv] by (apply is_Some_view; [done|apply Hkind|by eexists]).
      exists m, (Some v). split; [|done]. apply bolt_seek_elem; [done|]. split; [by destruct m|done].
Qed.

(** The Bolt store keeps the contract of config stores. *)
#[export] Instance bolt_store_laws : StoreLaws T.
Proof.
  split; cbn [store_valid view storable kept bolt_view store_List store_Get store_Create store_Update store_Delete bolt_store].
  - intros c (_ & (_ & _ & Hk) & (_ & _ & Hn)). by apply stored_form_names.
  - by intros c c' -> ->.
  - intros kind Hk. assert (kind ∈ ["Topology"; "Scenario"; "Experiment"; "Image"; "User"; "Role"; "Node"; "Ruleset"; "Setting"]) as Hin by exact Hk.
    unfold config_ok, reserved, key_ok. cbn [cf_Kind cf_Name blank cf_Metadata md_Name]. split; [intros [->| ->]; set_solver|].
    split; [|by split_and!]. repeat (apply elem_of_cons in Hin as [->|Hin]; [by split_and!|]). set_solver.
  - intros t kind name c Ht Hc. assert (~ reserved kind) as Hres.
    { intros Hr. unfold db_view in Hc. by rewrite bool_decide_eq_true_2 in Hc. }
    apply view_iff in Hc as (c0 & v & Hv & Hj & <- & <- & ->); [|done..].
    destruct Ht as (_ & _ & Hvals). destruct (Hvals _ _ _ Hres Hv) as ((_ & Hk & Hn) & _). destruct (stored_form_names c0) as [-> ->]; [apply Hk|apply Hn|]. done.
  - intros e t kind name r t' Ht Hok. by apply get_config_ok.
  - intros e t c r t'. apply create_config_ok.
  - intros e t c r t'. apply update_config_ok.
  - intros e t c r t'. apply delete_config_ok.
  - intros e t kinds r t' Ht Hk. unfold List, opened. destruct (c_open e) as [what|] eqn:Eo; [intros [= <- <-]; do 2 (split; [done|]); intros [? _]; congruence|].
    intros E. apply list_kinds_ok in E as (? & ? & Hr); [|done|done]. split; [done|]. split; [done|]. destruct r; [done|]. intros [_ Hc]. destruct Hr as [m Hm]. by rewrite Hc in Hm.
Qed.


End Laws.
