(* ===== verification/ConfigRecords.v ===== *)
(** * Configs and records in one database

    The config store and the record store keep their buckets in one Bolt file.
    Config calls leave every record as it is; and one that fails to look a
    config up can overwrite it. *)

From Stdlib Require Import ZArith Lia Ascii String Strings.Byte.
From stdpp Require Import base option list gmap strings.
From S2P Require Import Prelude Text Document Record RecordSpec Bolt BoltRecord Config.
From S2P Require ConfigStore ConfigStoreSpec.

Open Scope Z_scope.
Open Scope go_scope.

Section Frame.
Import ConfigStore ConfigStoreSpec.
Context {T : Type} `{BoltLaws T, ConfigJSONLaws}.
Implicit Types (t : T) (c : Config) (e : cenv).

(** Every bucket but the one of a kind is as it was. *)
Definition frame (kind : string) t t' : Prop :=
  forall p, p <> [kind] -> (forall k, bolt_get t' p k = bolt_get t p k) /\ bolt_bucket t' p = bolt_bucket t p.

Lemma frame_refl kind t : frame kind t t.
Proof. done. Qed.

Lemma frame_trans kind t1 t2 t3 : frame kind t1 t2 -> frame kind t2 t3 -> frame kind t1 t3.
Proof. intros E1 E2 p Hp. destruct (E1 p Hp) as [G1 B1], (E2 p Hp) as [G2 B2]. split; [intros k; by rewrite G2|congruence]. Qed.

Lemma ensure_frame e n kind t : db_valid t -> key_ok kind -> frame kind t (snd (ensureBucket e n kind t)).
Proof.
  intros (Hg & _) (Hk & Hl & _). unfold ensureBucket, db_update, st_wrap, bolt_do.
  destruct (bolt_create_ok t [] kind) as (t1 & E & Hb & _ & Hv); [apply bolt_bucket_nil|done|done|apply Hg|]. rewrite E. cbn [res_map_err].
  destruct (c_commit e n); [apply frame_refl|]. intros p Hp. split; [intros k; apply Hv|]. cbn [snd]. rewrite Hb. by rewrite bool_decide_eq_false_2.
Qed.

Lemma get_frame e n kind name t : db_valid t -> key_ok kind -> frame kind t (snd (get e n kind name t)).
Proof.
  intros Ht Hk. pose proof (ensure_frame e n kind t Ht Hk) as Hf. unfold get, st_bind. destruct (ensureBucket e n kind t) as [[[]|err] t1]; cbn [snd] in *; [|done].
  by destruct (bolt_get t1 [kind] name).
Qed.

Lemma put_frame e n c v t :
  db_valid t -> config_ok (cf_Kind c) (cf_Name c) -> frame (cf_Kind c) t (snd (put e n (cf_Kind c) (cf_Name c) v t)).
Proof.
  intros Ht (Hres & Hkind & Hname). pose proof (ensure_frame e n (cf_Kind c) t Ht Hkind) as Hf. unfold put, st_bind.
  destruct (ensureBucket e n (cf_Kind c) t) as [r1 t1] eqn:E1. apply ensureBucket_spec in E1 as (Hs & _ & Hb & _); [|done|done]. destruct (same_valid _ _ Hs Ht) as [Ht1 _].
  cbn [snd] in Hf. destruct r1 as [[]|err]; [|done]. unfold st_wrap, db_update, bolt_do. destruct (Z.leb_spec (Z.of_nat (length v)) MaxValueSize) as [Hle|Hgt].
  - destruct (bolt_put_ok t1 [cf_Kind c] (cf_Name c) v) as (t2 & E & Hg & Hbk & _); [by apply Hb|apply Hname|apply Hname|done|by apply Ht1|].
    rewrite E. cbn [res_map_err]. destruct (c_commit e (S n)); [done|]. eapply frame_trans; [exact Hf|]. intros p Hp. cbn [snd]. split; [|apply Hbk].
    intros k. rewrite Hg. by rewrite decide_False by congruence.
  - destruct (bolt_put_large t1 [cf_Kind c] (cf_Name c) v Hgt) as (err & t2 & E). by rewrite E.
Qed.

Lemma valid_after_get e n kind name t : db_valid t -> key_ok kind -> db_valid (snd (get e n kind name t)).
Proof. intros Ht Hk. destruct (get e n kind name t) as [r t1] eqn:E. apply get_spec in E as (Hs & _); [|done|done]. by apply (same_valid t t1). Qed.

(** The calls on one config. *)
Inductive config_call : Type := CallGet | CallCreate | CallUpdate | CallDelete.

Definition run_call (e : cenv) (call : config_call) (c : Config) (t : T) : T :=
  match call with
  | CallGet => snd (Get e (blank (cf_Kind c) (cf_Name c)) t)
  | CallCreate => snd (Create e c t)
  | CallUpdate => snd (Update e c t)
  | CallDelete => snd (Delete e c t)
  end.

(** The end of a call that stores a config. *)
Lemma stored_frame e c' c v t t1 :
  cf_Kind c' = cf_Kind c -> cf_Name c' = cf_Name c -> db_valid t1 -> config_ok (cf_Kind c) (cf_Name c) -> frame (cf_Kind c) t t1 ->
  frame (cf_Kind c) t (snd (let '(r, s) := let '(r, s) := put e 1 (cf_Kind c') (cf_Name c') v t1 in (res_map_err (CWrapped (lit "writing config JSON to Bolt")) r, s) in
    match r with Ok _ => st_ret c' s | Err err => (Err err, s) end)).
Proof.
  intros Hk Hn Ht1 Hok Hf. pose proof (put_frame e 1 c' v t1 Ht1) as Hp. rewrite Hk, Hn in *. specialize (Hp Hok).
  destruct (put e 1 _ _ v t1) as [[[]|] t2]; cbn [res_map_err snd] in *; by eapply frame_trans.
Qed.

Lemma call_frame e call c t : db_valid t -> config_ok (cf_Kind c) (cf_Name c) -> frame (cf_Kind c) t (run_call e call c t).
Proof.
  intros Ht Hok. assert (Hok' := Hok). destruct Hok' as (Hres & Hkind & Hname).
  pose proof (get_frame e 0 (cf_Kind c) (cf_Name c) t Ht Hkind) as Hf. pose proof (valid_after_get e 0 (cf_Kind c) (cf_Name c) t Ht Hkind) as Ht1.
  destruct call; cbn [run_call]; unfold Get, Create, Update, Delete, opened; destruct (c_open e); try done; unfold st_bind, st_wrap, json_res, st_lift; cbv zeta.
  - change (cf_Kind (blank _ _)) with (cf_Kind c). change (cf_Name (blank _ _)) with (cf_Name c).
    destruct (get e 0 (cf_Kind c) (cf_Name c) t) as [[v|err] t1]; cbn [snd res_map_err] in *; done.
  - destruct (get e 0 (cf_Kind c) (cf_Name c) t) as [[v|err] t1]; cbn [snd] in *; [done|]. destruct (StoredJSON _) as [v|what]; cbn [res_map_err snd]; [|done].
    by apply (stored_frame e (created_at (c_now e) c) c v t t1).
  - destruct (get e 0 (cf_Kind c) (cf_Name c) t) as [[v|err] t1]; cbn [snd res_map_err] in *; [|done]. destruct (StoredJSON _) as [w|what]; cbn [res_map_err snd]; [|done].
    by apply (stored_frame e (updated_at (c_now e) c) c w t t1).
  - unfold db_update. destruct (bolt_bucket t [cf_Kind c]) eqn:Eb; cbn [negb orb]; [case_bool_decide; cbn [negb]|]; cbn [res_map_err snd]; [|done|done].
    unfold bolt_do. destruct (bolt_delete_ok t [cf_Kind c] (cf_Name c)) as (t1 & E & Hg & Hbk & _); [done|by apply Ht|]. rewrite E. cbn [res_map_err].
    destruct (c_commit e 0); cbn [res_map_err snd]; [done|]. intros p Hp. split; [|apply Hbk]. intros k. rewrite Hg. by rewrite decide_False by congruence.
Qed.

(** A call on a config leaves every record of the file as it is: each is
    read as before, whatever the call was and whatever failed. *)
Theorem config_calls_keep_records e call c t env namespace key :
  db_valid t -> config_ok (cf_Kind c) (cf_Name c) ->
  BoltRecord.GetRecord env namespace key (run_call e call c t) = BoltRecord.GetRecord env namespace key t.
Proof.
  intros Ht Hok. pose proof (call_frame e call c t Ht Hok) as Hf. destruct Hok as (Hres & _).
  assert (boltRecordsBucket <> cf_Kind c) as Hne by (intros E; apply Hres; by right).
  unfold BoltRecord.GetRecord, viewRecords, BoltRecord.opened. destruct (validateRecordNamespaceAndKey namespace key); [|done]. cbn [res_bind]. f_equal.
  destruct (open_error env); [done|]. cbn [fst]. unfold boltGetRecord, boltNamespaceBucket.
  destruct (Hf [boltRecordsBucket]) as [_ ->]; [congruence|]. destruct (Hf [namespace; boltRecordsBucket]) as [Hg ->]; [congruence|].
  destruct (bolt_bucket t [boltRecordsBucket]); [|done]. destruct (bolt_bucket t [namespace; boltRecordsBucket]); [|done]. by rewrite Hg.
Qed.

(** When only the first transaction of [Create] fails, the one that makes
    the bucket for the lookup, a config that is there is not found to be there:
    it is overwritten and no error is reported. *)
Theorem create_overwrites_after_failed_lookup e c v t what :
  db_valid t -> config_ok (cf_Kind c) (cf_Name c) -> StoredJSON (created_at (c_now e) c) = Ok v -> Z.of_nat (length v) <= MaxValueSize ->
  c_open e = None -> c_commit e 0 = Some what -> (forall n, c_commit e (S n) = None) ->
  exists t', Create e c t = (Ok (created_at (c_now e) c), t') /\
    db_view t' (cf_Kind c) (cf_Name c) = Some (stored_form (created_at (c_now e) c)).
Proof.
  intros Ht Hok Hj Hlen Ho Hc0 Hc. assert (Hok' := Hok). destruct Hok' as (Hres & Hkind & Hname).
  destruct (Create e c t) as [r t'] eqn:E. assert (r = Ok (created_at (c_now e) c)) as ->.
  { revert E. unfold Create, opened. rewrite Ho. destruct (get e 0 (cf_Kind c) (cf_Name c) t) as [r1 t1] eqn:E1. apply get_spec in E1 as (Hs & _ & Hr1); [|done|done].
    destruct (same_valid _ _ Hs Ht) as [Ht1 _]. destruct r1 as [w|err]; [destruct Hr1 as [_ Hr1]; congruence|].
    unfold st_bind, json_res, st_lift, st_wrap. rewrite Hj. cbn [res_map_err]. unfold put, st_bind. cbn [created_at with_times with_metadata cf_Kind].
    destruct (ensureBucket e 1 (cf_Kind c) t1) as [r2 t2] eqn:E2. apply ensureBucket_spec in E2 as (Hs2 & Hr2 & Hb2 & _); [|done|done].
    assert (r2 = Ok tt) as -> by by apply Hr2. destruct (same_valid _ _ Hs2 Ht1) as [Ht2 _]. unfold st_wrap, db_update, bolt_do.
    change (cf_Name (created_at (c_now e) c)) with (cf_Name c).
    destruct (bolt_put_ok t2 [cf_Kind c] (cf_Name c) v) as (t3 & E3 & _); [by apply Hb2|apply Hname|apply Hname|done|by apply Ht2|].
    unfold cf_Name, created_at, with_times, with_metadata in *. cbn [cf_Metadata md_Name] in *. rewrite E3. cbn [res_map_err]. rewrite Hc. cbn. by intros [= <- _]. }
  exists t'. split; [done|]. apply create_config_ok in E as (_ & _ & _ & _ & Hset); [|done|done]. rewrite Hset. unfold view_set. by apply decide_True.
Qed.

End Frame.
