(* ===== verification/Configs.v ===== *)
(** * api/config/config.go: the life of configs

    Creating, updating, renaming and deleting configs in a store of configs,
    with their validation and the hooks of their kind. The store is any [Store];
    hooks are functions on a config and the state, which holds the store and
    whatever else hooks change. *)

From Stdlib Require Import ZArith Lia Ascii String Strings.Byte.
From stdpp Require Import base option list gmap strings.
From S2P Require Import Prelude Text Document Config.

Open Scope Z_scope.
Open Scope go_scope.

Definition kindExperiment : string := "Experiment".
Definition AllKinds : list string := ["Topology"; "Scenario"; kindExperiment; "Image"; "User"; "Role"].

(** [NameRegex]: any number of letters, digits, '_', '@', '.' and '-'. *)
Definition config_name_byte (b : Z) : bool := is_alnum b || (b =? 95) || (b =? 64) || (b =? 46) || (b =? 45).
Definition NameRegex (name : string) : bool := forallb config_name_byte (bytes_Z name).

(** The stages of hooks. *)
Inductive stage : Type := Startup | OnCreate | OnUpdate | OnDelete | OnRename.

#[export] Instance stage_eq_dec : EqDecision stage.
Proof. solve_decision. Defined.

Section Configs.
Context {S : Type} `{Unicode, Store S}.

Definition hook : Type := stage -> Config -> st S cerror Config.

(** The hook that this package registers for all its kinds. *)
Definition name_hook : hook := fun stage c =>
  if bool_decide (stage = OnCreate \/ stage = OnUpdate) && negb (NameRegex (cf_Name c)) then st_err (CError (lit "config name is not a valid format"))
  else st_ret c.

(** The hooks that other packages registered, and the check of a config
    against the OpenAPI schemas: nothing when it is valid. *)
Context (registered : string -> list hook) (schema_problem : Config -> option string).

Definition hooks (kind : string) : list hook := (if bool_decide (kind ∈ AllKinds) then [name_hook] else []) ++ registered kind.

(** [types.ValidateConfigSpec]. *)
Definition ValidateConfigSpec (c : Config) : res cerror unit :=
  let g := config_APIGroup c in
  if negb (String.eqb g APIGroup) then Err (ErrInvalid (if String.eqb g "" then "missing API group" else "invalid API group " +:+ g))
  else match schema_problem c with Some what => Err (ErrInvalid what) | None => Ok tt end.

Definition Validate (c : Config) : res cerror unit := res_map_err (CWrapped (lit "validating config")) (ValidateConfigSpec c).

(** The hooks of a stage that can change the config, each followed by a
    validation if one is asked for. *)
Fixpoint run_hooks (stage : stage) (validate : bool) (hs : list hook) (c : Config) : st S cerror Config :=
  match hs with
  | [] => st_ret c
  | h :: hs =>
      let! c := st_wrap (CWrapped (lit "calling config hook")) (h stage c) in
      let! _ := st_lift (if validate then res_map_err (CWrapped (lit "validating config after config hooks")) (ValidateConfigSpec c) else Ok tt) in
      run_hooks stage validate hs c
  end.

(** The hooks of a stage after the store changed: their errors are gathered. *)
Fixpoint after_hooks (stage : stage) (context : text) (hs : list hook) (c : Config) (s : S) : list cerror * S :=
  match hs with
  | [] => ([], s)
  | h :: hs =>
      let '(r, s) := h stage c s in
      let c := match r with Ok c => c | Err _ => c end in
      let '(errs, s) := after_hooks stage context hs c s in
      (match r with Err e => CWrapped context e :: errs | Ok _ => errs end, s)
  end.

Definition gathered (errs : list cerror) : res cerror unit := match errs with [] => Ok tt | _ => Err (CMany errs) end.

(** [List]: the kinds that a name stands for. *)
Definition kinds_of (which : string) : option (list string) :=
  let w := ToLower which in
  if String.eqb w "" || String.eqb w "all" then Some AllKinds
  else (fun k => [k]) <$> List.find (fun k => String.eqb w (ToLower k)) AllKinds.

Definition List (e : cenv) (which : string) : st S cerror (list Config) :=
  match kinds_of which with
  | None => st_err (CError (Sprintf "unknown config kind provided: %s" [AStr which]))
  | Some kinds => st_wrap (CWrapped (lit "getting list of configs from store")) (store_List e kinds)
  end.

Definition Get (e : cenv) (name : string) : st S cerror Config :=
  if String.eqb name "" then st_err (CError (lit "no config name provided"))
  else
    let! c := st_lift (NewConfig name) in
    st_wrap (CWrapped (lit "getting config from store")) (store_Get e c).

(** [createOptions]: the config itself, or what a file or the text decodes to. *)
Record createOptions : Type := {
  o_config : option Config; o_file : option (res cerror Config); o_data : option (res cerror Config); o_validate : bool;
}.

Definition create_source (o : createOptions) : res cerror Config :=
  match o_config o, o_file o, o_data o with
  | Some c, _, _ => Ok c
  | None, Some r, _ => res_map_err (CWrapped (lit "creating new config from file")) r
  | None, None, Some r => res_map_err (CWrapped (lit "creating new config from YAML")) r
  | None, None, None => Err (CError (lit "no config, path, or data provided"))
  end.

Definition Create (e : cenv) (o : createOptions) : st S cerror Config :=
  let! c := st_lift (create_source o) in
  let! _ := st_lift (if o_validate o then Validate c else Ok tt) in
  let! c := run_hooks OnCreate (o_validate o) (hooks (cf_Kind c)) c in
  st_wrap (CWrapped (lit "storing config")) (store_Create e c).

(** [renamed]. *)
Definition renamed (name : string) (old : Config) (s : S) : res cerror unit * S :=
  let '(errs, s) := after_hooks OnRename (Sprintf "executing rename hook for config %s" [AStr name]) (hooks (cf_Kind old)) old s in
  (gathered errs, s).

(** [Update]; [es] is what each access to the store finds. A store that has
    nothing under the name of the config means that the name changed. *)
Definition Update (es : nat -> cenv) (name : string) (c : Config) : st S cerror unit :=
  let! old := st_lift (res_map_err (CWrapped (lit "getting config to update")) (NewConfig name)) in
  let! old := st_wrap (CWrapped (lit "getting config to update")) (store_Get (es 0%nat) old) in
  let c := with_times c (md_Created (cf_Metadata old)) (md_Updated (cf_Metadata c)) in
  let! _ := st_lift (Validate c) in
  let! c := run_hooks OnUpdate true (hooks (cf_Kind c)) c in
  fun s =>
    match store_Update (es 1%nat) c s with
    | (Ok _, s) => (Ok tt, s)
    | (Err err, s) =>
        if is_not_exist err then
          match store_Create (es 2%nat) c s with
          | (Err err, s) => (Err (CWrapped (lit "renaming updated config in store") err), s)
          | (Ok c, s) =>
              match store_Delete (es 3%nat) old s with
              | (Err err, s) => let '(_, s) := store_Delete (es 4%nat) c s in (Err (CWrapped (lit "renaming updated config in store") err), s)
              | (Ok _, s) => renamed name old s
              end
          end
        else (Err (CWrapped (lit "updating config in store") err), s)
    end.

(** [Delete] of one config. *)
Definition delete_one (es : nat -> cenv) (name : string) : st S cerror unit :=
  let! c := st_wrap (CWrapped (Sprintf "getting config %s" [AStr name])) (Get (es 0%nat) name) in
  let! _ := st_wrap (CWrapped (Sprintf "deleting config %s" [AStr name])) (store_Delete (es 1%nat) c) in
  fun s =>
    let '(errs, s) := after_hooks OnDelete (Sprintf "executing delete experiment hook for config %s" [AStr name]) (hooks (cf_Kind c)) c s in
    (gathered errs, s).

(** The loop over all configs: one that cannot be deleted is passed over. *)
Fixpoint delete_each (es : nat -> cenv) (n : nat) (configs : list Config) (s : S) : list cerror * S :=
  match configs with
  | [] => ([], s)
  | c :: configs =>
      match store_Delete (es n) c s with
      | (Err err, s) =>
          let '(errs, s) := delete_each es (Datatypes.S n) configs s in
          (CWrapped (Sprintf "deleting config %s/%s" [AStr (cf_Kind c); AStr (cf_Name c)]) err :: errs, s)
      | (Ok _, s) =>
          let '(errs, s) := after_hooks OnDelete (Sprintf "executing delete experiment hook for config %s/%s" [AStr (cf_Kind c); AStr (cf_Name c)])
                              (hooks (cf_Kind c)) c s in
          let '(more, s) := delete_each es (Datatypes.S n) configs s in
          (errs ++ more, s)
      end
  end.

(** An error of the listing is dropped, and nothing is deleted then. *)
Definition delete_all (es : nat -> cenv) (s : S) : res cerror unit * S :=
  let '(r, s) := List (es 0%nat) "all" s in
  let '(errs, s) := delete_each es 1 (match r with Ok configs => configs | Err _ => [] end) s in
  (gathered errs, s).

Definition Delete (es : nat -> cenv) (name : string) : st S cerror unit :=
  if String.eqb name "" then st_err (CError (lit "no config name provided"))
  else if String.eqb name "all" then delete_all es
  else delete_one es name.

(** The last part of [Init]: the startup hooks of every stored config, and the
    configs of kinds that have any written back. *)
Fixpoint startup_hooks (hs : list hook) (c : Config) : st S cerror Config :=
  match hs with [] => st_ret c | h :: hs => let! c := h Startup c in startup_hooks hs c end.

Fixpoint startup (es : nat -> cenv) (n : nat) (configs : list Config) : st S cerror unit :=
  match configs with
  | [] => st_ret tt
  | c :: configs =>
      let! c' := st_wrap (CWrapped (lit "calling startup config hook")) (startup_hooks (hooks (cf_Kind c)) c) in
      let! _ := match hooks (cf_Kind c) with
                | [] => st_ret c'
                | _ => st_wrap (CWrapped (lit "updating config in store")) (store_Update (es n) c')
                end in
      startup es (Datatypes.S n) configs
  end.

End Configs.
