(* ===== verification/ConfigsSpec.v ===== *)
(** * What creating, updating, renaming and deleting configs does

    Proved over any store that keeps the contract of [StoreLaws] and any hooks
    that leave the stored configs and the name of their config alone. *)

From Stdlib Require Import ZArith Lia Ascii String Strings.Byte.
From stdpp Require Import base option list gmap strings.
From S2P Require Import Prelude Text Document Config Configs.

Open Scope Z_scope.
Open Scope go_scope.

(** What the hooks of a program keep: the configs in the store, and the kind,
    the name and the time of creation of the config they get. *)
Class HookLaws {S : Type} `{StoreView S} (registered : string -> list (@hook S)) : Prop := {
  hook_keeps kind h stage c s r s' :
    h ∈ registered kind -> store_valid s -> h stage c s = (r, s') ->
    store_valid s' /\ (forall k n, view s' k n = view s k n) /\
    forall c', r = Ok c' -> cf_Kind c' = cf_Kind c /\ cf_Name c' = cf_Name c /\ md_Created (cf_Metadata c') = md_Created (cf_Metadata c);
}.

Section Spec.
Context {S : Type} `{Unicode, Laws : StoreLaws S}.
Context (registered : string -> list (@hook S)) (schema_problem : Config -> option string) `{!HookLaws registered}.
Implicit Types (s : S) (c : Config) (e : cenv).

Notation hooks := (hooks registered).
Notation valid := (ValidateConfigSpec schema_problem).

(** The same configs are seen. *)
Definition same_view s s' : Prop := forall k n, view s' k n = view s k n.

Definition same_names c c' : Prop := cf_Kind c' = cf_Kind c /\ cf_Name c' = cf_Name c /\ md_Created (cf_Metadata c') = md_Created (cf_Metadata c).

Lemma same_view_refl s : same_view s s.
Proof. done. Qed.

Lemma same_view_trans s1 s2 s3 : same_view s1 s2 -> same_view s2 s3 -> same_view s1 s3.
Proof. intros E1 E2 k n. by rewrite E2. Qed.

Lemma same_names_trans c1 c2 c3 : same_names c1 c2 -> same_names c2 c3 -> same_names c1 c3.
Proof. unfold same_names. naive_solver congruence. Qed.

Lemma hooks_keep kind h stage c s r s' :
  h ∈ hooks kind -> store_valid s -> h stage c s = (r, s') ->
  store_valid s' /\ same_view s s' /\ forall c', r = Ok c' -> same_names c c'.
Proof.
  unfold Configs.hooks. intros [Hin|Hin]%elem_of_app Hs E; [|by eapply hook_keeps].
  case_bool_decide; [|set_solver]. apply list_elem_of_singleton in Hin as ->. unfold name_hook in E.
  destruct (_ && _); injection E as <- <-; (split; [done|]); (split; [done|]); [done|]. by intros c' [= <-].
Qed.

Lemma run_hooks_keep stage validate hs c s r s' :
  (forall h, h ∈ hs -> h ∈ hooks (cf_Kind c)) -> store_valid s -> run_hooks schema_problem stage validate hs c s = (r, s') ->
  store_valid s' /\ same_view s s' /\ forall c', r = Ok c' ->
    same_names c c' /\ (validate = true -> valid c = Ok tt -> valid c' = Ok tt).
Proof.
  revert c s r s'. induction hs as [|h hs IH]; intros c s r s' Hh Hs; cbn [run_hooks].
  - intros [= <- <-]. split; [done|]. split; [done|]. by intros c' [= <-].
  - unfold st_bind, st_wrap, st_lift. destruct (h stage c s) as [r1 s1] eqn:E1. apply (hooks_keep (cf_Kind c)) in E1 as (Hs1 & Hv1 & Hn1); [|apply Hh; left|done].
    destruct r1 as [c1|err]; cbn [res_map_err]; [|by intros [= <- <-]]. specialize (Hn1 c1 eq_refl).
    destruct validate.
    + destruct (valid c1) as [[]|err] eqn:Ev; cbn [res_map_err]; [|by intros [= <- <-]]. intros E.
      apply IH in E as (Hs2 & Hv2 & Hc2); [|intros h' Hin; rewrite (proj1 Hn1); apply Hh; by right|done]. split; [done|]. split; [by eapply same_view_trans|].
      intros c' Hc. destruct (Hc2 c' Hc) as [Hn2 Hval]. split; [by eapply same_names_trans|]. intros _ _. by apply Hval.
    + intros E. apply IH in E as (Hs2 & Hv2 & Hc2); [|intros h' Hin; rewrite (proj1 Hn1); apply Hh; by right|done]. split; [done|]. split; [by eapply same_view_trans|].
      intros c' Hc. destruct (Hc2 c' Hc) as [Hn2 _]. split; [by eapply same_names_trans|done].
Qed.

(** The name of a config that the hooks let through. *)
Lemma run_hooks_name stage validate c s c' s' :
  stage = OnCreate \/ stage = OnUpdate -> cf_Kind c ∈ AllKinds ->
  run_hooks schema_problem stage validate (hooks (cf_Kind c)) c s = (Ok c', s') -> NameRegex (cf_Name c) = true.
Proof.
  intros Hst Hk. unfold Configs.hooks. rewrite bool_decide_eq_true_2 by done. cbn [app run_hooks]. unfold st_bind at 1, st_wrap, name_hook.
  rewrite bool_decide_eq_true_2 by done. by destruct (NameRegex (cf_Name c)).
Qed.

Lemma after_hooks_keep stage context kind hs c s errs s' :
  (forall h, h ∈ hs -> h ∈ hooks kind) -> store_valid s -> after_hooks stage context hs c s = (errs, s') -> store_valid s' /\ same_view s s'.
Proof.
  revert c s errs s'. induction hs as [|h hs IH]; intros c s errs s' Hh Hs; cbn [after_hooks]; [by intros [= <- <-]|].
  destruct (h stage c s) as [r1 s1] eqn:E1. apply (hooks_keep kind) in E1 as (Hs1 & Hv1 & _); [|apply Hh; left|done].
  destruct (after_hooks stage context hs _ s1) as [more s2] eqn:E2. apply IH in E2 as (Hs2 & Hv2); [|intros h' Hin; apply Hh; by right|done].
  intros [= <- <-]. split; [done|]. by eapply same_view_trans.
Qed.

Lemma NewConfig_ok name c : NewConfig name = Ok c -> exists kind n, c = blank kind n /\ kind ∈ map fst StoredVersions /\ canonicalKind (hd "" (split_on "/"%char name)) = kind.
Proof.
  unfold NewConfig. destruct (split_on "/"%char name) as [|k [|n [|]]]; try done. destruct (String.eqb_spec (canonicalKind k) "") as [|Hne]; [done|].
  intros [= <-]. exists (canonicalKind k), n. split; [done|]. split; [|done]. unfold canonicalKind, canonicalKind_in in *.
  destruct (List.find _ _) as [x|] eqn:E; [|done]. apply find_some in E as [Hin _]. by apply list_elem_of_In.
Qed.

Lemma blank_inj kind n kind' n' : Ok (blank kind n) = (Ok (blank kind' n') : res cerror Config) -> kind = kind' /\ n = n'.
Proof. intros E. assert (blank kind n = blank kind' n') as Hb by congruence. split; [exact (f_equal cf_Kind Hb)|exact (f_equal cf_Name Hb)]. Qed.

(** [c] went through the hooks of its kind, in a state with the configs of [s],
    and came out as [c']. *)
Definition hooked (stage : stage) (validate : bool) s c c' : Prop :=
  exists s0 s1, store_valid s0 /\ same_view s s0 /\ run_hooks schema_problem stage validate (hooks (cf_Kind c)) c s0 = (Ok c', s1).

(** ** Creating *)

Lemma create_cases e o c s r s' :
  create_source o = Ok c -> store_valid s -> storable c -> Create registered schema_problem e o s = (r, s') ->
  store_valid s' /\
  match r with
  | Ok c' => cf_Kind c' = cf_Kind c /\ cf_Name c' = cf_Name c /\ (cf_Kind c ∈ AllKinds -> NameRegex (cf_Name c) = true) /\
      (healthy e -> view s (cf_Kind c) (cf_Name c) = None) /\
      (exists c1, c' = created_at (c_now e) c1 /\ hooked OnCreate (o_validate o) s c c1 /\ (o_validate o = true -> valid c1 = Ok tt)) /\
      forall k n, view s' k n = view_set (view s) (cf_Kind c) (cf_Name c) (Some (kept c')) k n
  | Err _ => same_view s s'
  end.
Proof.
  intros Ho Hs Hc. unfold Create, st_bind at 1, st_lift. rewrite Ho.
  unfold st_bind at 1. destruct (if o_validate o then Validate schema_problem c else Ok tt) as [[]|err] eqn:Ev; [|by intros [= <- <-]].
  unfold st_bind. destruct (run_hooks _ _ _ _ c s) as [r1 s1] eqn:E1. destruct r1 as [c1|err].
  - assert (cf_Kind c ∈ AllKinds -> NameRegex (cf_Name c) = true) as Hname by (intros Hk; eapply run_hooks_name; [by left|exact Hk|exact E1]).
    destruct (run_hooks_keep _ _ _ _ _ _ _ ltac:(done) Hs E1) as (Hs1 & Hv1 & Hc1). destruct (Hc1 c1 eq_refl) as [(Hk & Hn & Hcr) Hval].
    unfold st_wrap. destruct (store_Create e c1 s1) as [r2 s2] eqn:E2. apply store_create_ok in E2 as (Hs2 & _ & Hr2); [|done|by eapply store_storable].
    destruct r2 as [c2|err]; cbn [res_map_err]; intros [= <- <-]; (split; [done|]).
    + destruct Hr2 as (-> & Hnone & Hset). rewrite Hk, Hn in *. split; [done|]. split; [done|]. split; [exact Hname|]. split; [intros He; rewrite <- Hv1; apply Hnone, (proj2 He)|]. split.
      * exists c1. split; [done|]. split; [by exists s, s1|]. intros Hv. apply Hval; [done|]. rewrite Hv in Ev. unfold Validate in Ev. by apply res_map_err_ok in Ev.
      * intros k n. rewrite Hset. unfold view_set. by rewrite Hv1.
    + intros k n. by rewrite Hr2.
  - apply run_hooks_keep in E1 as (Hs1 & Hv1 & _); [|done..]. by intros [= <- <-].
Qed.

(** Creating a config that succeeds gave it to the store with its kind and
    name, valid if that was asked for, where nothing was before, after it went through the hooks; and the name
    is one that configs may have. A config that is not created changes no
    config. *)
Theorem Create_spec e o c s r s' :
  create_source o = Ok c -> store_valid s -> storable c -> Create registered schema_problem e o s = (r, s') ->
  store_valid s' /\
  match r with
  | Ok c' => cf_Kind c' = cf_Kind c /\ cf_Name c' = cf_Name c /\ (cf_Kind c ∈ AllKinds -> NameRegex (cf_Name c) = true) /\
      (healthy e -> view s (cf_Kind c) (cf_Name c) = None) /\
      (exists c1, c' = created_at (c_now e) c1 /\ hooked OnCreate (o_validate o) s c c1 /\ (o_validate o = true -> valid c1 = Ok tt)) /\
      forall k n, view s' k n = view_set (view s) (cf_Kind c) (cf_Name c) (Some (kept c')) k n
  | Err _ => same_view s s'
  end.
Proof. apply create_cases. Qed.

(** ** Updating *)

(** The config that an update stores under its own name or a new one. *)
Definition update_stored s (old c c' : Config) : Prop :=
  hooked OnUpdate true s (with_times c (md_Created (cf_Metadata old)) (md_Updated (cf_Metadata c))) c' /\
  cf_Kind c' = cf_Kind c /\ cf_Name c' = cf_Name c /\ md_Created (cf_Metadata c') = md_Created (cf_Metadata old) /\
  valid c' = Ok tt /\ (cf_Kind c ∈ AllKinds -> NameRegex (cf_Name c) = true).

(** What an update can come to. *)
Lemma update_cases es name c s r s' :
  store_valid s -> storable c -> Update registered schema_problem es name c s = (r, s') ->
  store_valid s' /\
  ((same_view s s' /\ exists err, r = Err err) \/
   exists kind n old c', NewConfig name = Ok (blank kind n) /\ view s kind n = Some old /\ update_stored s old c c' /\
     ((is_Some (view s (cf_Kind c) (cf_Name c)) /\ r = Ok tt /\
       forall k m, view s' k m = view_set (view s) (cf_Kind c) (cf_Name c) (Some (kept (updated_at (c_now (es 1%nat)) c'))) k m) \/
      (view s (cf_Kind c) (cf_Name c) = None /\
       forall k m, view s' k m = view_set (view_set (view s) (cf_Kind c) (cf_Name c) (Some (kept (created_at (c_now (es 2%nat)) c')))) kind n None k m) \/
      (view s (cf_Kind c) (cf_Name c) = None /\ (exists err, r = Err err) /\ ~ healthy (es 3%nat) /\ ~ healthy (es 4%nat) /\
       forall k m, view s' k m = view_set (view s) (cf_Kind c) (cf_Name c) (Some (kept (created_at (c_now (es 2%nat)) c'))) k m))).
Proof.
  intros Hs Hc. unfold Update, st_bind at 1, st_lift. destruct (NewConfig name) as [b|err] eqn:Eb; cbn [res_map_err]; [|intros [= <- <-]; split; [done|]; left; split; [done|by eexists]].
  destruct (NewConfig_ok _ _ Eb) as (kind & n & -> & Hkind & _). unfold st_bind at 1, st_wrap at 1. destruct (store_Get _ _ s) as [r0 s0] eqn:E0.
  apply store_get_ok in E0 as (Hs0 & Hv0 & Hr0); [|done|by apply store_kinds]. destruct r0 as [old|err]; cbn [res_map_err]; [|intros [= <- <-]; split; [done|]; left; split; [done|by eexists]].
  set (c0 := with_times c _ _). assert (same_names c0 c0 /\ cf_Kind c0 = cf_Kind c /\ cf_Name c0 = cf_Name c) as (_ & Hk0 & Hn0) by done.
  unfold st_bind at 1. destruct (Validate schema_problem c0) as [[]|err] eqn:Ev; [|intros [= <- <-]; split; [done|]; left; split; [done|by eexists]].
  apply res_map_err_ok in Ev. unfold st_bind. destruct (run_hooks _ _ _ _ c0 s0) as [r1 s1] eqn:E1. destruct r1 as [c1|err].
  2: { apply run_hooks_keep in E1 as (Hs1 & Hv1 & _); [|done..]. intros [= <- <-]. split; [done|]. left. split; [by eapply same_view_trans|by eexists]. }
  assert (cf_Kind c ∈ AllKinds -> NameRegex (cf_Name c) = true) as Hname by (intros Hk; eapply (run_hooks_name OnUpdate _ c0); [by right|exact Hk|exact E1]).
  destruct (run_hooks_keep _ _ _ _ _ _ _ ltac:(done) Hs0 E1) as (Hs1 & Hv1 & Hc1). destruct (Hc1 c1 eq_refl) as [(Hk & Hn & Hcr) Hval].
  assert (same_view s s1) as Hv by by eapply same_view_trans. assert (storable c1) as Hst by (apply (store_storable c c1); [by rewrite Hk|by rewrite Hn|done]).
  assert (update_stored s old c c1) as Hus by (split; [by exists s0, s1|]; split; [by rewrite Hk|]; split; [by rewrite Hn|]; split; [by rewrite Hcr|]; split; [by apply Hval|exact Hname]).
  destruct (store_Update (es 1%nat) c1 s1) as [r2 s2] eqn:E2. apply store_update_ok in E2 as [Hs2 Hr2]; [|done|done]. rewrite Hk, Hn, Hk0, Hn0, Hv in Hr2.
  destruct r2 as [c2|err].
  { intros [= <- <-]. split; [done|]. right. exists kind, n, old, c1. split; [done|]. split; [done|]. split; [exact Hus|]. left. destruct Hr2 as (-> & Hsome & Hset).
    split; [done|]. split; [done|]. intros k m. rewrite Hset. unfold view_set. by rewrite Hv. }
  destruct Hr2 as [Hnone Hv2]. assert (same_view s s2) as Hvs2 by by eapply same_view_trans.
  destruct (is_not_exist err); [|intros [= <- <-]; split; [done|]; left; split; [done|by eexists]]. specialize (Hnone eq_refl).
  destruct (store_Create (es 2%nat) c1 s2) as [r3 s3] eqn:E3. apply store_create_ok in E3 as (Hs3 & _ & Hr3); [|done|done]. rewrite Hk, Hn, Hk0, Hn0 in Hr3.
  destruct r3 as [c3|err3]; [|intros [= <- <-]; split; [done|]; left; split; [by eapply same_view_trans|by eexists]]. destruct Hr3 as (-> & _ & Hset3).
  destruct (store_view_names s kind n old Hs Hr0) as (Hok & Hon & Host).
  assert (forall k m, view s3 k m = view_set (view s) (cf_Kind c) (cf_Name c) (Some (kept (created_at (c_now (es 2%nat)) c1))) k m) as Hview3 by (intros k m; rewrite Hset3; unfold view_set; by rewrite Hvs2).
  destruct (store_Delete (es 3%nat) old s3) as [r4 s4] eqn:E4. apply store_delete_ok in E4 as [Hs4 Hr4]; [|done|done]. rewrite Hok, Hon in Hr4.
  assert ((cf_Kind c, cf_Name c) <> (kind, n)) as Hne by (intros [= Hx Hy]; rewrite Hx, Hy in Hnone; congruence).
  destruct r4 as [[]|err4].
  - destruct Hr4 as [_ Hset4]. unfold renamed. destruct (after_hooks _ _ _ old s4) as [errs s5] eqn:E5. apply (after_hooks_keep _ _ (cf_Kind old)) in E5 as [Hs5 Hv5]; [|done|done].
    intros [= <- <-]. split; [done|]. right. exists kind, n, old, c1. split; [done|]. split; [done|]. split; [exact Hus|]. right. left. split; [done|].
    intros k m. rewrite Hv5, Hset4. unfold view_set at 1 2. by rewrite Hview3.
  - destruct Hr4 as [Hh3 Hv4]. destruct (store_Delete (es 4%nat) _ s4) as [r5 s5] eqn:E5. apply store_delete_ok in E5 as [Hs5 Hr5]; [|done|by apply (store_storable c1)].
    cbn [created_at with_times with_metadata cf_Kind cf_Name cf_Metadata md_Name] in Hr5. rewrite Hk, Hk0 in Hr5. change (md_Name (cf_Metadata c1)) with (cf_Name c1) in Hr5. rewrite Hn, Hn0 in Hr5.
    intros [= <- <-]. split; [done|]. destruct r5 as [[]|err5].
    + left. split; [|by eexists]. destruct Hr5 as [_ Hset5]. intros k m. rewrite Hset5. unfold view_set. rewrite Hv4, Hview3. unfold view_set.
      destruct (decide _) as [[-> ->]|]; [by rewrite Hnone|done].
    + right. exists kind, n, old, c1. split; [done|]. split; [done|]. split; [exact Hus|]. right. right. split; [done|]. split; [by eexists|].
      destruct Hr5 as [Hh5 Hv5]. rewrite Hv4, Hview3 in Hh5. unfold view_set in Hh5. rewrite decide_True in Hh5 by done.
      rewrite Hview3 in Hh3. unfold view_set in Hh3. rewrite decide_False in Hh3 by (intros [-> ->]; by apply Hne).
      split; [intros Hh; specialize (Hh3 Hh); congruence|]. split; [intros Hh; by specialize (Hh5 Hh)|]. intros k m. by rewrite Hv5, Hv4.
Qed.

(** C10: updating the config [name] with [c] gives one of three things. Nothing
    changes; or a config was stored under the name of [c] already - be it
    [name] or not - and it is replaced; or none was, and then [c] is created and
    the config [name] is deleted, or, only if that fails twice, both stay. The
    config stored is valid and keeps the time of creation of [name]. When the
    call succeeds, it is one of the first two changes. *)
Theorem Update_spec es name c s r s' :
  store_valid s -> storable c -> Update registered schema_problem es name c s = (r, s') ->
  store_valid s' /\
  ((same_view s s' /\ exists err, r = Err err) \/
   exists kind n old c', NewConfig name = Ok (blank kind n) /\ view s kind n = Some old /\ update_stored s old c c' /\
     ((is_Some (view s (cf_Kind c) (cf_Name c)) /\ r = Ok tt /\
       forall k m, view s' k m = view_set (view s) (cf_Kind c) (cf_Name c) (Some (kept (updated_at (c_now (es 1%nat)) c'))) k m) \/
      (view s (cf_Kind c) (cf_Name c) = None /\
       forall k m, view s' k m = view_set (view_set (view s) (cf_Kind c) (cf_Name c) (Some (kept (created_at (c_now (es 2%nat)) c')))) kind n None k m) \/
      (view s (cf_Kind c) (cf_Name c) = None /\ (exists err, r = Err err) /\ ~ healthy (es 3%nat) /\ ~ healthy (es 4%nat) /\
       forall k m, view s' k m = view_set (view s) (cf_Kind c) (cf_Name c) (Some (kept (created_at (c_now (es 2%nat)) c'))) k m))).
Proof. apply update_cases. Qed.

(** A config that is updated to the name of another config is not renamed:
    it stays as it is, and the other one is overwritten. *)
Theorem rename_onto_existing es name kind n c s s' :
  store_valid s -> storable c -> NewConfig name = Ok (blank kind n) -> (cf_Kind c, cf_Name c) <> (kind, n) ->
  is_Some (view s (cf_Kind c) (cf_Name c)) -> Update registered schema_problem es name c s = (Ok tt, s') ->
  view s' kind n = view s kind n /\ is_Some (view s kind n) /\
  exists old c', view s kind n = Some old /\ update_stored s old c c' /\ view s' (cf_Kind c) (cf_Name c) = Some (kept (updated_at (c_now (es 1%nat)) c')).
Proof.
  intros Hs Hc Hname Hne Hsome E. destruct (update_cases es name c s _ s' Hs Hc E) as [_ [[_ [err Herr]]|(k & m & old & c' & Hnew & Hold & Hst & Hcase)]]; [done|].
  rewrite Hname in Hnew. apply blank_inj in Hnew as [<- <-]. destruct Hcase as [(_ & _ & Hset)|[(Hnone & _)|(Hnone & _)]]; [|by rewrite Hnone in Hsome; destruct Hsome..].
  split; [|split; [by eexists|exists old, c'; split; [done|]; split; [done|]]]; rewrite Hset; unfold view_set.
  - apply decide_False. intros [-> ->]. by apply Hne.
  - by apply decide_True.
Qed.

(** ** Deleting *)

Lemma delete_each_spec es k0 configs s errs s' :
  store_valid s -> Forall (fun c => storable c /\ cf_Kind c ∈ AllKinds) configs -> delete_each registered es k0 configs s = (errs, s') ->
  store_valid s' /\
  (forall k m, view s' k m = view s k m \/ (k ∈ AllKinds /\ view s' k m = None)) /\
  ((forall n, healthy (es n)) -> forall c, c ∈ configs -> view s' (cf_Kind c) (cf_Name c) = None).
Proof.
  revert k0 s errs s'. induction configs as [|c configs IH]; intros k0 s errs s' Hs Hall; cbn [delete_each].
  { intros [= <- <-]. split; [done|]. split; [by left|]. set_solver. }
  apply Forall_cons in Hall as [[Hc Hk] Hall]. destruct (store_Delete (es k0) c s) as [r1 s1] eqn:E1. apply store_delete_ok in E1 as [Hs1 Hr1]; [|done|done].
  (* The state from which the loop goes on. *)
  assert (forall s2 more, store_valid s2 -> (forall k m, view s2 k m = view s k m \/ (k ∈ AllKinds /\ view s2 k m = None)) ->
    ((forall n, healthy (es n)) -> view s2 (cf_Kind c) (cf_Name c) = None) -> delete_each registered es (Datatypes.S k0) configs s2 = (more, s') ->
    store_valid s' /\ (forall k m, view s' k m = view s k m \/ (k ∈ AllKinds /\ view s' k m = None)) /\
    ((forall n, healthy (es n)) -> forall c', c' ∈ c :: configs -> view s' (cf_Kind c') (cf_Name c') = None)) as Hgo.
  { intros s2 more Hs2 Hv2 Hn2 E2. apply IH in E2 as (Hs' & Hv' & Hn'); [|done|done]. split; [done|]. split.
    - intros k m. destruct (Hv' k m) as [->|?]; [apply Hv2|by right].
    - intros Hh c' [->|Hin]%elem_of_cons; [|by apply Hn']. destruct (Hv' (cf_Kind c) (cf_Name c)) as [->|[_ ?]]; [by apply Hn2|done]. }
  destruct r1 as [[]|err].
  - destruct Hr1 as [_ Hset]. destruct (after_hooks _ _ _ c s1) as [errs1 s2] eqn:E2. apply (after_hooks_keep _ _ (cf_Kind c)) in E2 as [Hs2 Hv2]; [|done|done].
    destruct (delete_each _ _ _ configs s2) as [more s3] eqn:E3. intros [= <- <-]. apply (Hgo s2 more); [done| | |done].
    + intros k m. rewrite Hv2, Hset. unfold view_set. destruct (decide _) as [[-> ->]|]; [by right|by left].
    + intros _. rewrite Hv2, Hset. unfold view_set. by apply decide_True.
  - destruct Hr1 as [Hh Hv1]. destruct (delete_each _ _ _ configs s1) as [more s3] eqn:E3. intros [= <- <-]. apply (Hgo s1 more); [done| | |done].
    + intros k m. left. by rewrite Hv1.
    + intros Hall'. rewrite Hv1. by apply Hh.
Qed.

Lemma delete_all_spec es s r s' :
  store_valid s -> delete_all registered es s = (r, s') ->
  store_valid s' /\
  (forall k m, view s' k m = view s k m \/ (k ∈ AllKinds /\ view s' k m = None)) /\
  ((forall n, healthy (es n)) -> forall k m, k ∈ AllKinds -> view s' k m = None).
Proof.
  intros Hs. unfold delete_all, List. change (kinds_of "all") with (Some AllKinds). cbn [st_wrap]. unfold st_wrap. destruct (store_List (es 0%nat) AllKinds s) as [r0 s0] eqn:E0.
  apply store_list_ok in E0 as (Hs0 & Hv0 & Hr0); [|done|].
  2: { apply Forall_forall. intros kind Hin. apply store_kinds. revert Hin. unfold AllKinds, kindExperiment. cbn. set_solver. }
  set (configs := match res_map_err _ r0 with Ok configs => configs | Err _ => [] end).
  destruct (delete_each _ _ _ configs s0) as [errs s1] eqn:E1. intros [= <- <-].
  assert (Forall (fun c => storable c /\ cf_Kind c ∈ AllKinds) configs) as Hall.
  { apply Forall_forall. intros c Hin. unfold configs in Hin. destruct r0 as [l|]; cbn [res_map_err] in Hin; [|set_solver].
    apply Hr0 in Hin as (kind & n & Hk & Hc). destruct (store_view_names s kind n c Hs Hc) as (<- & _ & ?). done. }
  apply delete_each_spec in E1 as (Hs1 & Hv1 & Hn1); [|done|done]. split; [done|]. split.
  - intros k m. rewrite <- Hv0. apply Hv1.
  - intros Hh k m Hk. destruct (Hv1 k m) as [E|[_ ?]]; [|done]. rewrite E, Hv0. destruct (view s k m) as [c|] eqn:Ec; [|done]. exfalso.
    destruct (store_view_names s k m c Hs Ec) as (Hck & Hcn & _). assert (c ∈ configs) as Hin.
    { unfold configs. destruct r0 as [l|]; cbn [res_map_err]; [|by destruct (Hr0 (Hh 0%nat))]. apply Hr0. by exists k, m. }
    specialize (Hn1 Hh c Hin). rewrite Hck, Hcn, E, Hv0 in Hn1. congruence.
Qed.

(** Deleting one config removes it and nothing else, or changes nothing;
    deleting all of them removes only configs of the kinds there are and, when
    the store works, every one of them. *)
Theorem Delete_spec es name s r s' :
  store_valid s -> Delete registered es name s = (r, s') ->
  store_valid s' /\
  (name <> "all" ->
    (same_view s s' /\ (exists err, r = Err err) /\ ((forall n, healthy (es n)) -> forall kind n, NewConfig name = Ok (blank kind n) -> view s kind n = None)) \/
    exists kind n, NewConfig name = Ok (blank kind n) /\ is_Some (view s kind n) /\ forall k m, view s' k m = view_set (view s) kind n None k m) /\
  (name = "all" ->
    (forall k m, view s' k m = view s k m \/ (k ∈ AllKinds /\ view s' k m = None)) /\
    ((forall n, healthy (es n)) -> forall k m, k ∈ AllKinds -> view s' k m = None)).
Proof.
  intros Hs. unfold Delete. destruct (String.eqb_spec name "") as [->|Hne].
  { intros [= <- <-]. split; [done|]. split; [|done]. intros _. left. split; [done|]. split; [by eexists|done]. }
  destruct (String.eqb_spec name "all") as [->|Hall].
  { intros E. apply delete_all_spec in E as (? & ? & ?); [|done]. done. }
  intros E. assert (store_valid s' /\ ((same_view s s' /\ (exists err, r = Err err) /\ ((forall n, healthy (es n)) -> forall kind n, NewConfig name = Ok (blank kind n) -> view s kind n = None)) \/
    exists kind n, NewConfig name = Ok (blank kind n) /\ is_Some (view s kind n) /\ forall k m, view s' k m = view_set (view s) kind n None k m)) as [? ?]; [|done].
  revert E. unfold delete_one, Get. rewrite (proj2 (String.eqb_neq name "")) by done. unfold st_bind, st_wrap, st_lift.
  destruct (NewConfig name) as [b|err] eqn:Eb; cbn [res_map_err]; [|intros [= <- <-]; split; [done|]; left; split; [done|]; split; [by eexists|done]].
  destruct (NewConfig_ok _ _ Eb) as (kind & n & -> & Hkind & _). destruct (store_Get _ _ s) as [r0 s0] eqn:E0.
  apply store_get_ok in E0 as (Hs0 & Hv0 & Hr0); [|done|by apply store_kinds]. destruct r0 as [c|err]; cbn [res_map_err].
  2: { intros [= <- <-]. split; [done|]. left. split; [done|]. split; [by eexists|]. intros Hh kind' n' Hb. apply blank_inj in Hb as [<- <-]. by apply Hr0. }
  destruct (store_view_names s kind n c Hs Hr0) as (Hck & Hcn & Hst). destruct (store_Delete _ c s0) as [r1 s1] eqn:E1.
  apply store_delete_ok in E1 as [Hs1 Hr1]; [|done|done]. rewrite Hck, Hcn in Hr1. destruct r1 as [[]|err]; cbn [res_map_err].
  - destruct Hr1 as [_ Hset]. destruct (after_hooks _ _ _ c s1) as [errs s2] eqn:E2. apply (after_hooks_keep _ _ (cf_Kind c)) in E2 as [Hs2 Hv2]; [|done|done].
    intros [= <- <-]. split; [done|]. right. exists kind, n. split; [done|]. split; [by eexists|]. intros k m. rewrite Hv2, Hset. unfold view_set. by rewrite Hv0.
  - intros [= <- <-]. destruct Hr1 as [Hh Hv1]. split; [done|]. left. split; [by eapply same_view_trans|]. split; [by eexists|].
    intros Hall' kind' n' Hb. apply blank_inj in Hb as [<- <-]. rewrite <- Hv0. by apply Hh.
Qed.

End Spec.
