(* ===== verification/Experiments.v ===== *)
(** * types/experiment.go, api/experiment/experiment.go: stored experiments

    An experiment as its config holds it, the config hooks of experiments, and
    the calls that read one, change it and store it. Apps, which are programs
    of their own, are a parameter, and so is minimega. *)

From Stdlib Require Import ZArith Lia Ascii String Strings.Byte.
From stdpp Require Import base option list gmap strings.
From S2P Require Import Prelude Text Hostname V1 Scenario Experiment Document Config Configs.

Open Scope Z_scope.
Open Scope go_scope.

Definition MaxBridgeNameLength : Z := 15.
Definition ReservedName : string := "all".
Definition defaultBridgeName : string := "phenix".

(** ** strings.ReplaceAll *)

Fixpoint replace_from (n : nat) (s old new : string) : string :=
  match n with
  | O => s
  | S n =>
      if has_prefix s old then new +:+ replace_from n (String.substring (String.length old) (String.length s) s) old new
      else match s with EmptyString => EmptyString | String c s => String c (replace_from n s old new) end
  end.

(** Every rune of the text followed by [new]. *)
Fixpoint interleave (l : list (Z * nat)) (bytes : list Z) (new : string) : string :=
  match l with
  | [] => ""
  | (_, w) :: l => Z_string (take w bytes) +:+ new +:+ interleave l (drop w bytes) new
  end.

Definition ReplaceAll (s old new : string) : string :=
  if String.eqb old "" then new +:+ interleave (runes_w (bytes_Z s)) (bytes_Z s) new else replace_from (S (String.length s)) s old new.

Section Experiments.
Context {S : Type} {any : Type} `{Unicode, Store S}.

Record Experiment : Type := { ex_Metadata : ConfigMetadata; ex_Spec : ExperimentSpec any; ex_Status : ExperimentStatus any }.

(** mapstructure and structs between the maps of a config and the structs. *)
Context (decode : Config -> res string (ExperimentSpec any * ExperimentStatus any)).
Context (encode_spec : ExperimentSpec any -> spec) (encode_status : ExperimentStatus any -> spec).

Definition DecodeExperimentFromConfig (c : Config) : res cerror Experiment :=
  if negb (String.eqb (cf_Kind c) "Experiment" && String.eqb (config_APIVersion c) "v1") then Err (CError (lit "invalid spec in config"))
  else
    let? (spec, status) := res_map_err (fun what => CWrapped (Sprintf "decoding versioned spec for experiment %s" [AStr (cf_Name c)]) (CError (lit what))) (decode c) in
    Ok {| ex_Metadata := cf_Metadata c; ex_Spec := spec; ex_Status := status |}.

Definition ex_Name (exp : Experiment) : string := md_Name (ex_Metadata exp).

Definition Running (exp : Experiment) : bool := negb (String.eqb (StartTime (ex_Status exp)) "").

Definition DryRun (exp : Experiment) : bool := Running exp && contains (StartTime (ex_Status exp)) "DRYRUN".

(** Decoding of several configs stops at the first that fails. *)
Fixpoint decode_all (configs : list Config) : res cerror (list Experiment) :=
  match configs with
  | [] => Ok []
  | c :: configs =>
      let? exp := res_map_err (CWrapped (Sprintf "decoding experiment %s from config" [AStr (cf_Name c)])) (DecodeExperimentFromConfig c) in
      let? rest := decode_all configs in
      Ok (exp :: rest)
  end.

Definition Experiments (e : cenv) (running : bool) : st S cerror (list Experiment) :=
  let! configs := st_wrap (CWrapped (lit "getting list of experiment configs from store")) (store_List e ["Experiment"]) in
  st_lift (let? exps := decode_all configs in Ok (List.filter (fun exp => negb running || Running exp) exps)).

(** ** The config hooks *)

(** How phenix runs: bridges named after experiments, the GRE mesh, where its
    files are, and what the apps of an experiment make of it when they
    configure it. *)
Context (auto_bridge use_mesh : bool) (phenix_base : string) (wd : option string).
Context (configure : Experiment -> res string (ExperimentSpec any)).

Definition verror_text (errs : list text) : cerror := CMany (map CError errs).

(** [exp.Spec.Init()]; a panic is an error of its own. *)
Definition init_spec (context : string) (spec : ExperimentSpec any) : res cerror (ExperimentSpec any) :=
  match ExperimentSpec_Init phenix_base wd spec with
  | None => Err (CError (lit "panic"))
  | Some ([], spec) => Ok spec
  | Some (errs, _) => Err (CWrapped (lit context) (verror_text errs))
  end.

Definition with_name (e : ExperimentSpec any) (name dir : string) : ExperimentSpec any := {|
  ExperimentName := name; BaseDir := dir; DefaultBridge := DefaultBridge e; es_Topology := es_Topology e; es_Scenario := es_Scenario e;
  es_VLANs := es_VLANs e; es_Schedules := es_Schedules e; DeployMode := DeployMode e; UseGREMesh := UseGREMesh e |}.

Definition with_mesh (e : ExperimentSpec any) (mesh : bool) : ExperimentSpec any := {|
  ExperimentName := ExperimentName e; BaseDir := BaseDir e; DefaultBridge := DefaultBridge e; es_Topology := es_Topology e; es_Scenario := es_Scenario e;
  es_VLANs := es_VLANs e; es_Schedules := es_Schedules e; DeployMode := DeployMode e; UseGREMesh := mesh |}.

(** The default bridge: the name of the experiment in the auto mode, and never
    longer than the name of an interface can be. *)
Definition choose_bridge (name : string) (spec : ExperimentSpec any) : res cerror (ExperimentSpec any) :=
  if auto_bridge && (MaxBridgeNameLength <? slen name) then
    Err (CError (Sprintf "experiment name must be %d characters or less when using auto bridge mode" [AInt MaxBridgeNameLength]))
  else
    let spec := if auto_bridge then SetDefaultBridge spec name else spec in
    if MaxBridgeNameLength <? slen (DefaultBridge spec) then
      Err (CError (Sprintf "default bridge name must be %d characters or less" [AInt MaxBridgeNameLength]))
    else Ok (with_mesh spec (UseGREMesh spec || use_mesh)).

(** The loop over the other experiments. *)
Fixpoint bridge_free (name bridge : string) (existing : list Experiment) : res cerror unit :=
  match existing with
  | [] => Ok tt
  | other :: existing =>
      if String.eqb (ex_Name other) name || String.eqb bridge defaultBridgeName then bridge_free name bridge existing
      else if String.eqb (DefaultBridge (ex_Spec other)) bridge then
        Err (CError (Sprintf "experiment %s already using default bridge %s" [AStr (ex_Name other); AStr (DefaultBridge (ex_Spec other))]))
      else bridge_free name bridge existing
  end.

(** [existing, _ := types.Experiments(false)]: no experiments when one of them
    cannot be decoded. *)
Definition check_bridge (e : cenv) (name bridge : string) : st S cerror unit := fun s =>
  let '(r, s) := Experiments e false s in (bridge_free name bridge (match r with Ok l => l | Err _ => [] end), s).

Definition hookStartup (exp : Experiment) (c : Config) : res cerror Config :=
  if String.eqb (DefaultBridge (ex_Spec exp)) "" then
    let? spec := init_spec "re-initializing experiment with default bridge" (SetDefaultBridge (ex_Spec exp) defaultBridgeName) in
    Ok (with_spec c (Some (encode_spec spec)))
  else Ok c.

(** [VerifyScenario] gives warnings or panics; [ApplyApps] is [configure]. *)
Definition hookCreate (e : cenv) (exp : Experiment) (c : Config) : st S cerror Config :=
  let! spec := st_lift (init_spec "initializing experiment" (with_name (ex_Spec exp) (cf_Name c) (BaseDir (ex_Spec exp)))) in
  let! spec := st_lift (choose_bridge (cf_Name c) spec) in
  let! _ := check_bridge e (ex_Name exp) (DefaultBridge spec) in
  let! _ := st_lift (match VerifyScenario spec with Some _ => Ok tt | None => Err (CError (lit "panic")) end) in
  let! spec := st_lift (res_map_err (fun what => CWrapped (lit "applying apps to experiment") (CError (lit what)))
                 (configure {| ex_Metadata := ex_Metadata exp; ex_Spec := spec; ex_Status := ex_Status exp |})) in
  st_ret (with_spec c (Some (encode_spec spec))).

(** An experiment that is renamed moves its base directory with it. *)
Definition rename_spec (name : string) (spec : ExperimentSpec any) : ExperimentSpec any :=
  if String.eqb (ExperimentName spec) name then spec
  else
    with_name spec name
      (if contains (BaseDir spec) (ExperimentName spec) then ReplaceAll (BaseDir spec) (ExperimentName spec) name else BaseDir spec).

Definition hookUpdate (e : cenv) (exp : Experiment) (c : Config) : st S cerror Config :=
  if Running exp then st_err (CError (lit "cannot update running experiment"))
  else
    let! spec := st_lift (init_spec "re-initializing experiment (after update)" (ex_Spec exp)) in
    let! spec := st_lift (choose_bridge (cf_Name c) spec) in
    let! _ := check_bridge e (ex_Name exp) (DefaultBridge spec) in
    st_ret (with_spec c (Some (encode_spec (rename_spec (cf_Name c) spec)))).

(** [experimentConfigHook]; a delete removes files. *)
Definition experiment_hook (e : cenv) : hook := fun stage c =>
  let! exp := st_lift (res_map_err (CWrapped (lit "decoding experiment from config")) (DecodeExperimentFromConfig c)) in
  match stage with
  | Startup => st_lift (hookStartup exp c)
  | OnCreate => hookCreate e exp c
  | OnUpdate => hookUpdate e exp c
  | OnDelete | OnRename => st_ret c
  end.

(** ** Reading and storing one experiment *)

Definition get_config (e : cenv) (name : string) : st S cerror Config :=
  let! c := st_lift (NewConfig ("experiment/" +:+ name)) in
  st_wrap (CWrapped (Sprintf "getting experiment %s from store" [AStr name])) (store_Get e c).

Definition Get (e : cenv) (name : string) : st S cerror Experiment :=
  if String.eqb name "" then st_err (CError (lit "no experiment name provided"))
  else
    let! c := get_config e name in
    st_lift (res_map_err (CWrapped (lit "decoding experiment from config")) (DecodeExperimentFromConfig c)).

(** [WriteToStore]: annotations, spec and status are written to the config that
    is stored, each over what is there. *)
Definition WriteToStore (es : nat -> cenv) (exp : Experiment) (statusOnly : bool) : st S cerror unit :=
  let! c := get_config (es 0%nat) (ex_Name exp) in
  let c := with_annotations c (md_Annotations (ex_Metadata exp)) in
  let c := if statusOnly then c else with_spec c (Some (encode_spec (ex_Spec exp))) in
  let c := {| cf_Version := cf_Version c; cf_Kind := cf_Kind c; cf_Metadata := cf_Metadata c; cf_Spec := cf_Spec c;
              cf_Status := Some (encode_status (ex_Status exp)) |} in
  let! _ := st_wrap (CWrapped (lit "saving experiment config")) (store_Update (es 1%nat) c) in
  st_ret tt.

Definition Save (es : nat -> cenv) (name : string) (spec : option (ExperimentSpec any)) : st S cerror unit :=
  if String.eqb name "" then st_err (CError (lit "experiment name required"))
  else
    let! c := get_config (es 0%nat) name in
    let c := match spec with Some spec => with_spec c (Some (encode_spec spec)) | None => c end in
    let! _ := st_wrap (CWrapped (lit "saving experiment config")) (store_Update (es 1%nat) c) in
    st_ret tt.

(** [Schedule], given the scheduler that is asked for. *)
Definition Schedule (es : nat -> cenv) (scheduler : ExperimentSpec any -> res string (ExperimentSpec any)) (name : string) : st S cerror unit :=
  let! c := get_config (es 0%nat) name in
  let! exp := st_lift (res_map_err (CWrapped (lit "decoding experiment from config")) (DecodeExperimentFromConfig c)) in
  if Running exp then st_err (CError (Sprintf "experiment already running (started at: %s)" [AStr (StartTime (ex_Status exp))]))
  else
    let! spec := st_lift (res_map_err (fun what => CWrapped (lit "running scheduler algorithm") (CError (lit what))) (scheduler (ex_Spec exp))) in
    let! _ := st_wrap (CWrapped (lit "updating experiment config")) (store_Update (es 1%nat) (with_spec c (Some (encode_spec spec)))) in
    st_ret tt.

End Experiments.

Arguments Experiment : clear implicits.
