(* ===== verification/ExperimentsSpec.v ===== *)
(** * Experiments keep their bridges apart

    The config hooks of experiments are hooks that leave configs alone, so that
    what is proved of configs holds of experiments; and every bridge but the
    default one belongs to one experiment. *)

From Stdlib Require Import ZArith Lia Ascii String Strings.Byte.
From stdpp Require Import base option list gmap strings.
From S2P Require Import Prelude Text Hostname V1 Scenario Experiment Document Config Configs ConfigsSpec Experiments.

Open Scope Z_scope.
Open Scope go_scope.

(** What reading back the spec that was written keeps. *)
Class ExperimentCodec {S any} `{StoreView S} (decode : Config -> res string (ExperimentSpec any * ExperimentStatus any)) (encode_spec : ExperimentSpec any -> spec) : Prop := {
  decode_encode_spec c spec0 status spec created updated :
    decode c = Ok (spec0, status) ->
    exists spec', decode (kept (with_times (with_spec c (Some (encode_spec spec))) created updated)) = Ok (spec', status) /\ DefaultBridge spec' = DefaultBridge spec;
  kept_version c : config_APIVersion (kept c) = config_APIVersion c;
}.

Section Spec.
Context {S any : Type} `{Unicode, Laws : StoreLaws S}.
Context (decode : Config -> res string (ExperimentSpec any * ExperimentStatus any)) (encode_spec : ExperimentSpec any -> spec).
Context `{!ExperimentCodec (S := S) decode encode_spec}.
Context (auto_bridge use_mesh : bool) (phenix_base : string) (wd : option string) (configure : Experiment any -> res string (ExperimentSpec any)).
Context (schema_problem : Config -> option string) (others : string -> list (@hook S)) `{!HookLaws others} (e : cenv).
Implicit Types (s : S) (c : Config).

Notation Experiments := (Experiments decode).
Notation experiment_hook := (experiment_hook decode encode_spec auto_bridge use_mesh phenix_base wd configure e).

(** The hook that Scorch registers: on an update or a delete it forgets the
    pipelines it draws of the experiment, and it leaves the config alone. *)
Definition scorch_hook : @hook S := fun _ c => st_ret c.

(** The hooks of the program: those of experiments, in the order in which the
    packages that register them start, and those of other kinds. *)
Definition registered (kind : string) : list hook := if bool_decide (kind = "Experiment") then [experiment_hook; scorch_hook] else others kind.

(** ** The hooks keep the configs *)

Lemma Experiments_keep e' running s r s' :
  store_valid s -> Experiments e' running s = (r, s') -> store_valid s' /\ forall k n, view s' k n = view s k n.
Proof.
  intros Hs. unfold Experiments.Experiments, st_bind, st_wrap, st_lift. destruct (store_List e' ["Experiment"] s) as [r0 s0] eqn:E0.
  apply store_list_ok in E0 as (Hs0 & Hv0 & _); [|done|].
  - destruct r0; cbn [res_map_err]; by intros [= _ <-].
  - constructor; [|constructor]. apply store_kinds. cbn. set_solver.
Qed.

Lemma check_bridge_keep e' name bridge s r s' :
  store_valid s -> check_bridge decode e' name bridge s = (r, s') -> store_valid s' /\ forall k n, view s' k n = view s k n.
Proof.
  intros Hs. unfold check_bridge. destruct (Experiments e' false s) as [r0 s0] eqn:E0. apply Experiments_keep in E0; [|done]. by intros [= _ <-].
Qed.

Lemma experiment_hook_keeps stage c s r s' :
  store_valid s -> experiment_hook stage c s = (r, s') ->
  store_valid s' /\ (forall k n, view s' k n = view s k n) /\
  forall c', r = Ok c' -> c' = c \/ exists spec, c' = with_spec c (Some (encode_spec spec)).
Proof.
  intros Hs. unfold Experiments.experiment_hook, st_bind at 1, st_lift. destruct (DecodeExperimentFromConfig decode c) as [exp|err]; cbn [res_map_err]; [|by intros [= <- <-]].
  destruct stage.
  - intros [= <- <-]. split; [done|]. split; [done|]. unfold hookStartup. intros c'. destruct (String.eqb _ _); [|intros [= <-]; by left].
    intros (spec & _ & [= <-])%bind_ok. right. by exists spec.
  - unfold hookCreate, st_bind, st_lift. destruct (init_spec _ _ _ _) as [spec|]; [|by intros [= <- <-]]. destruct (choose_bridge _ _ _ _) as [spec1|]; [|by intros [= <- <-]].
    destruct (check_bridge _ _ _ _ s) as [r1 s1] eqn:E1. apply check_bridge_keep in E1 as [Hs1 Hv1]; [|done]. destruct r1; [|by intros [= <- <-]].
    destruct (match VerifyScenario spec1 with Some _ => _ | None => _ end); [|by intros [= <- <-]]. destruct (res_map_err _ (configure _)) as [spec2|]; [|by intros [= <- <-]].
    unfold st_ret. intros [= <- <-]. split; [done|]. split; [done|]. intros c' [= <-]. right. by exists spec2.
  - unfold hookUpdate. destruct (Running exp); [by intros [= <- <-]|]. unfold st_bind, st_lift. destruct (init_spec _ _ _ _) as [spec|]; [|by intros [= <- <-]].
    destruct (choose_bridge _ _ _ _) as [spec1|]; [|by intros [= <- <-]]. destruct (check_bridge _ _ _ _ s) as [r1 s1] eqn:E1. apply check_bridge_keep in E1 as [Hs1 Hv1]; [|done].
    destruct r1; [|by intros [= <- <-]]. unfold st_ret. intros [= <- <-]. split; [done|]. split; [done|]. intros c' [= <-]. right. by eexists.
  - intros [= <- <-]. split; [done|]. split; [done|]. intros c' [= <-]. by left.
  - intros [= <- <-]. split; [done|]. split; [done|]. intros c' [= <-]. by left.
Qed.

(** The hooks of the program keep what hooks have to keep. *)
#[export] Instance registered_laws : HookLaws registered.
Proof.
  split. intros kind h stage c s r s' Hh Hs E. unfold registered in Hh. case_bool_decide; [|by eapply hook_keeps].
  apply elem_of_cons in Hh as [->| ->%list_elem_of_singleton]; [|injection E as <- <-; split; [done|]; split; [done|]; by intros c' [= <-]].
  apply experiment_hook_keeps in E as (? & ? & Hc); [|done]. split; [done|]. split; [done|].
  intros c' Hr. destruct (Hc c' Hr) as [->|[spec ->]]; done.
Qed.

(** ** Bridges *)

Definition bridge_of c : option string :=
  match DecodeExperimentFromConfig decode c with Ok exp => Some (DefaultBridge (ex_Spec exp)) | Err _ => None end.

(** Every stored experiment can be read. *)
Definition readable s : Prop := forall n c, view s "Experiment" n = Some c -> is_Some (bridge_of c).

(** A bridge of two experiments is the default one. *)
Definition bridges_apart s : Prop :=
  forall n m c d b, view s "Experiment" n = Some c -> view s "Experiment" m = Some d -> bridge_of c = Some b -> bridge_of d = Some b -> n <> m -> b = defaultBridgeName.

Lemma decode_all_ok l :
  Forall (fun c => is_Some (bridge_of c)) l -> exists exps, decode_all decode l = Ok exps /\ forall c, c ∈ l -> exists exp, exp ∈ exps /\ DecodeExperimentFromConfig decode c = Ok exp.
Proof.
  induction 1 as [|c l Hc _ (exps & E & Hexps)]; cbn [decode_all]; [exists []; split; [done|set_solver]|]. unfold bridge_of in Hc.
  destruct (DecodeExperimentFromConfig decode c) as [exp|] eqn:Ed; [|by destruct Hc]. cbn [res_map_err res_bind]. rewrite E. cbn [res_bind]. exists (exp :: exps). split; [done|].
  intros c' [->|Hin]%elem_of_cons; [exists exp; split; [left|done]|]. destruct (Hexps c' Hin) as (exp' & ? & ?). exists exp'. split; [by right|done].
Qed.

Lemma decode_name c exp : DecodeExperimentFromConfig decode c = Ok exp -> ex_Name exp = cf_Name c.
Proof. unfold DecodeExperimentFromConfig. destruct (negb _); [done|]. by intros ([? ?] & _ & [= <-])%bind_ok. Qed.

Lemma bridge_free_ok name bridge (exps : list (Experiment any)) :
  bridge_free name bridge exps = Ok tt -> forall exp, exp ∈ exps -> ex_Name exp = name \/ bridge = defaultBridgeName \/ DefaultBridge (ex_Spec exp) <> bridge.
Proof.
  induction exps as [|other exps IH]; cbn [bridge_free]; [set_solver|]. intros Hb exp [->|Hin]%elem_of_cons.
  - destruct (String.eqb_spec (ex_Name other) name); [by left|]. destruct (String.eqb_spec bridge defaultBridgeName); [by right; left|]. cbn [orb] in Hb.
    destruct (String.eqb_spec (DefaultBridge (ex_Spec other)) bridge); [done|]. by right; right.
  - apply IH; [|done]. destruct (_ || _); [done|]. by destruct (String.eqb _ _).
Qed.

(** [b] is the default bridge, or no experiment of another name has it. *)
Definition free_bridge s (name b : string) : Prop :=
  b = defaultBridgeName \/ forall n d, view s "Experiment" n = Some d -> n <> name -> bridge_of d <> Some b.

(** The bridge that an experiment is to have: its name, where phenix chooses
    bridges, and else the one it names, or the default one. *)
Definition intended c (b : string) : Prop :=
  exists b0, bridge_of c = Some b0 /\ b = if auto_bridge then cf_Name c else if String.eqb b0 "" then defaultBridgeName else b0.

(** A bridge that passed the check is free among all that can be read. *)
Lemma check_bridge_ok name bridge s s' :
  healthy e -> store_valid s -> readable s -> check_bridge decode e name bridge s = (Ok tt, s') ->
  free_bridge s name bridge.
Proof.
  enough (healthy e -> store_valid s -> readable s -> check_bridge decode e name bridge s = (Ok tt, s') ->
    forall n c b, view s "Experiment" n = Some c -> bridge_of c = Some b -> n = name \/ bridge = defaultBridgeName \/ b <> bridge) as Hall.
  { intros He Hs Hr E. destruct (decide (bridge = defaultBridgeName)) as [|Hnd]; [by left|]. right. intros n d Hd Hne Hb.
    by destruct (Hall He Hs Hr E n d bridge Hd Hb) as [?|[?|?]]. }
  intros He Hs Hr. unfold check_bridge, Experiments.Experiments, st_bind, st_wrap, st_lift. destruct (store_List e ["Experiment"] s) as [r0 s0] eqn:E0.
  apply store_list_ok in E0 as (Hs0 & _ & Hl); [|done|constructor; [|constructor]; apply store_kinds; cbn; set_solver].
  destruct r0 as [l|]; [|done]. cbn [res_map_err]. destruct (decode_all_ok l) as (exps & E & Hexps).
  { apply Forall_forall. intros c (kind & n & ->%list_elem_of_singleton & Hc)%Hl. by eapply Hr. }
  rewrite E. cbn [res_bind]. intros [= Hb _] n c b Hc Hbc. assert (List.filter (fun exp : Experiment any => negb false || Running exp) exps = exps) as Hf.
  { clear. induction exps as [|exp exps IH]; [done|]. cbn. f_equal. exact IH. }
  cbn [negb orb] in Hf, Hb. rewrite Hf in Hb. destruct (Hexps c) as (exp & Hin & Hd); [apply Hl; exists "Experiment", n; split; [left|done]|].
  destruct (store_view_names s _ _ _ Hs Hc) as (_ & Hn & _). unfold bridge_of in Hbc. rewrite Hd in Hbc. injection Hbc as <-.
  destruct (bridge_free_ok _ _ _ Hb exp Hin) as [He'|[?|?]]; [left|by right; left|by right; right]. by rewrite <- He', (decode_name c exp Hd).
Qed.

(** Initialising a spec gives it the default bridge when it names none. *)
Lemma init_spec_bridge what (spec spec' : ExperimentSpec any) :
  init_spec phenix_base wd what spec = Ok spec' -> DefaultBridge spec' = if String.eqb (DefaultBridge spec) "" then defaultBridgeName else DefaultBridge spec.
Proof.
  unfold init_spec, ExperimentSpec_Init. intros E. revert E. cbn [es_Topology init_fields]. destruct (es_Topology spec) as [t|].
  - destruct (Init _ t) as [[errs t']|]; cbn [mbind option_bind]; [|done]. case_bool_decide.
    + destruct (topology_vlans _); cbn [mbind option_bind]; [|done]. by intros [= <-].
    + by destruct errs.
  - by intros [= <-].
Qed.

Lemma choose_bridge_ok name (spec spec' : ExperimentSpec any) :
  choose_bridge auto_bridge use_mesh name spec = Ok spec' -> DefaultBridge spec' = if auto_bridge then name else DefaultBridge spec.
Proof. unfold choose_bridge. destruct auto_bridge; cbn; repeat (destruct (_ <? _); [done|]); by intros [= <-]. Qed.

(** What the hook of experiments makes of the bridge of a config: the one it
    is to have, which is free; in a new config then what the apps, which
    configure the experiment after that, leave of it. *)
Definition hook_bridge (stage : stage) s c (b' : string) : Prop :=
  exists b, intended c b /\ free_bridge s (cf_Name c) b /\
    if bool_decide (stage = OnCreate) then exists exp spec, ex_Metadata exp = cf_Metadata c /\ DefaultBridge (ex_Spec exp) = b /\ configure exp = Ok spec /\ b' = DefaultBridge spec
    else b' = b.

(** The config that comes out of the hook has that bridge. *)
Lemma experiment_hook_bridge stage c s c' s' created updated :
  stage = OnCreate \/ stage = OnUpdate -> healthy e -> store_valid s -> readable s -> storable c -> experiment_hook stage c s = (Ok c', s') ->
  exists b, bridge_of (kept (with_times c' created updated)) = Some b /\ hook_bridge stage s c b.
Proof.
  intros Hst He Hs Hr Hsto. unfold Experiments.experiment_hook, st_bind at 1, st_lift. destruct (DecodeExperimentFromConfig decode c) as [exp|err] eqn:Ed; cbn [res_map_err]; [|done].
  pose proof (decode_name c exp Ed) as Hname. assert (bridge_of c = Some (DefaultBridge (ex_Spec exp))) as Hb0 by (unfold bridge_of; by rewrite Ed).
  unfold DecodeExperimentFromConfig in Ed. destruct (negb (String.eqb (cf_Kind c) "Experiment" && _)) eqn:Ek; [done|].
  apply bind_ok in Ed as ([spec0 status] & Hd%res_map_err_ok & [= <-]). cbn [ex_Spec] in Hb0.
  assert (forall spec, bridge_of (kept (with_times (with_spec c (Some (encode_spec spec))) created updated)) = Some (DefaultBridge spec)) as Hkept.
  { intros spec. destruct (decode_encode_spec c spec0 status spec created updated Hd) as (spec' & Hd' & Hb). unfold bridge_of, DecodeExperimentFromConfig.
    rewrite kept_version. destruct (store_kept (with_times (with_spec c (Some (encode_spec spec))) created updated)) as [-> _]; [by apply (store_storable c)|].
    change (negb _) with (negb (String.eqb (cf_Kind c) "Experiment" && String.eqb (config_APIVersion c) "v1")). rewrite Ek, Hd'. cbn. by rewrite Hb. }
  assert (forall what (spec0' spec spec1 : ExperimentSpec any), init_spec phenix_base wd what spec0' = Ok spec -> DefaultBridge spec0' = DefaultBridge spec0 ->
    choose_bridge auto_bridge use_mesh (cf_Name c) spec = Ok spec1 -> intended c (DefaultBridge spec1)) as Hint.
  { intros what spec0' spec spec1 Hi E Hc. exists (DefaultBridge spec0). split; [done|]. rewrite (choose_bridge_ok _ _ _ Hc), (init_spec_bridge _ _ _ Hi), E. done. }
  destruct Hst as [-> | ->].
  - unfold hookCreate, st_bind, st_lift. destruct (init_spec _ _ _ _) as [spec|] eqn:Ei; [|done]. destruct (choose_bridge _ _ _ _) as [spec1|] eqn:Ech; [|done].
    destruct (check_bridge _ _ _ _ s) as [r1 s1] eqn:E1. destruct r1 as [[]|]; [|done]. apply (check_bridge_ok _ _ _ _ He Hs Hr) in E1.
    destruct (match VerifyScenario spec1 with Some _ => _ | None => _ end); [|done]. destruct (configure _) as [spec2|] eqn:Ec; [|done]. cbn [res_map_err].
    unfold st_ret. intros [= <- _]. exists (DefaultBridge spec2). split; [apply Hkept|]. exists (DefaultBridge spec1). split; [by eapply Hint|]. split; [exact E1|].
    rewrite bool_decide_eq_true_2 by done. match type of Ec with configure ?x = _ => by exists x, spec2 end.
  - unfold hookUpdate. destruct (Running _); [done|]. unfold st_bind, st_lift. destruct (init_spec _ _ _ _) as [spec|] eqn:Ei; [|done].
    destruct (choose_bridge _ _ _ _) as [spec1|] eqn:Ech; [|done]. destruct (check_bridge _ _ _ _ s) as [r1 s1] eqn:E1. destruct r1 as [[]|]; [|done]. apply (check_bridge_ok _ _ _ _ He Hs Hr) in E1.
    unfold st_ret. intros [= <- _]. exists (DefaultBridge spec1). split; [rewrite Hkept; unfold rename_spec; by destruct (String.eqb (ExperimentName _) _)|].
    exists (DefaultBridge spec1). split; [by eapply Hint|]. by split; [exact E1|].
Qed.

(** The bridge of a config that went through the hooks of experiments. *)
Lemma hooked_bridge stage validate s c c' created updated :
  stage = OnCreate \/ stage = OnUpdate -> healthy e -> readable s -> storable c -> cf_Kind c = "Experiment" ->
  hooked registered schema_problem stage validate s c c' ->
  exists b, bridge_of (kept (with_times c' created updated)) = Some b /\ hook_bridge stage s c b.
Proof.
  intros Hst He Hr Hsto Hk (s0 & s1 & Hs0 & Hv0 & E). unfold hooks, registered in E. rewrite Hk in E. rewrite !bool_decide_eq_true_2 in E by set_solver.
  cbn [app run_hooks] in E. unfold st_bind at 1, st_wrap at 1, name_hook in E. destruct (_ && _) in E; [done|]. unfold st_ret at 1 in E. cbn [res_map_err] in E.
  unfold st_bind at 1, st_lift at 1 in E. destruct (if validate then _ else _) as [[]|] in E; [|done]. unfold st_bind at 1, st_wrap at 1 in E.
  destruct (experiment_hook stage c s0) as [r2 s2] eqn:E2. destruct r2 as [c2|]; [|done]. cbn [res_map_err] in E. unfold st_bind, st_lift, st_wrap, scorch_hook, st_ret in E.
  destruct (if validate then _ else _) as [[]|] in E; [|done]. cbn [res_map_err] in E. destruct (if validate then _ else _) as [[]|] in E; [|done]. injection E as <- <-.
  destruct (experiment_hook_bridge stage c s0 c2 s2 created updated) as (b & Hb & b0 & Hint & Hfree & Hb'); [done|done|done| |done|done|].
  - intros n d. rewrite Hv0. apply Hr.
  - exists b. split; [done|]. exists b0. split; [done|]. split; [|done]. destruct Hfree as [|Hfree]; [by left|]. right. intros n d. rewrite <- Hv0. apply Hfree.
Qed.

(** Setting one experiment to a config with a free bridge. *)
Lemma set_apart s (v' : string -> string -> option Config) name c b :
  readable s -> bridges_apart s -> bridge_of c = Some b ->
  free_bridge s name b ->
  (forall n, v' "Experiment" n = Some c /\ n = name \/ n <> name /\ (v' "Experiment" n = view s "Experiment" n \/ v' "Experiment" n = None)) ->
  (forall n d, v' "Experiment" n = Some d -> is_Some (bridge_of d)) /\
  (forall n m d1 d2 b', v' "Experiment" n = Some d1 -> v' "Experiment" m = Some d2 -> bridge_of d1 = Some b' -> bridge_of d2 = Some b' -> n <> m -> b' = defaultBridgeName).
Proof.
  intros Hr Hapart Hb Hfree0 Hv. assert (forall n d b', view s "Experiment" n = Some d -> bridge_of d = Some b' -> n = name \/ b = defaultBridgeName \/ b' <> b) as Hfree.
  { intros n d b' Hd Hb'. destruct Hfree0 as [|Hf]; [by right; left|]. destruct (decide (n = name)); [by left|]. right; right. intros ->. by eapply Hf. }
  split.
  - intros n d Hd. destruct (Hv n) as [[Hn _]|[_ [Hn|Hn]]]; rewrite Hn in Hd; [injection Hd as <-; by eexists|by eapply Hr|done].
  - intros n m d1 d2 b' Hv1 Hv2 Hb1 Hb2 Hne. destruct (Hv n) as [[Hn ->]|[Hnn [Hn|Hn]]], (Hv m) as [[Hm ->]|[Hnm [Hm|Hm]]]; rewrite Hn in Hv1; rewrite Hm in Hv2; try done.
    + injection Hv1 as <-. destruct (Hfree _ _ _ Hv2 Hb2) as [?|[?|?]]; congruence.
    + injection Hv2 as <-. destruct (Hfree _ _ _ Hv1 Hb1) as [?|[?|?]]; congruence.
    + exact (Hapart n m d1 d2 b' Hv1 Hv2 Hb1 Hb2 Hne).
Qed.

(** Adding an experiment keeps the bridges apart exactly when its one is free. *)
Lemma create_apart s s' name c b :
  readable s -> bridges_apart s -> bridge_of c = Some b -> (forall k n, view s' k n = view_set (view s) "Experiment" name (Some c) k n) ->
  readable s' /\ (bridges_apart s' <-> free_bridge s name b).
Proof.
  intros Hr Ha Hb Hset. split.
  - intros n d. rewrite Hset. unfold view_set. case_decide; [intros [= <-]; by eexists|apply Hr].
  - split; [|intros Hfree; refine (proj2 (set_apart s (view s') name c b Hr Ha Hb Hfree _))].
    + intros Ha'. destruct (decide (b = defaultBridgeName)) as [|Hnd]; [by left|]. right. intros n d Hd Hne Hbd. apply Hnd.
      apply (Ha' name n c d b); [| |done|done|done]; rewrite Hset; unfold view_set; [by rewrite decide_True|rewrite decide_False; [done|by intros [_ ?]]].
    + intros n. rewrite Hset. unfold view_set. destruct (decide (n = name)) as [->|Hne].
      * left. by rewrite decide_True.
      * right. rewrite decide_False by (by intros [_ ?]). split; [done|by left].
Qed.

(** C11: creating and updating experiments keeps their bridges apart, as long as
    the apps let them: when every stored experiment can be read and no bridge
    but the default one is of two of them, then, while the store works,

    - an update of an experiment, renamed or not, leaves it so;
    - an experiment is created only when the bridge it is to have is free;
      the apps that configure it after that may give it another one, and the
      bridges are apart afterwards exactly when the one they leave is free. *)
Theorem bridges_stay_apart s s' c o r1 es name r2 :
  (forall n, healthy (es n)) -> healthy e -> store_valid s -> storable c -> cf_Kind c = "Experiment" -> readable s -> bridges_apart s ->
  create_source o = Ok c ->
  (Configs.Create registered schema_problem e o s = (Ok r1, s') ->
    readable s' /\ exists b exp spec,
      intended c b /\ free_bridge s (cf_Name c) b /\ ex_Metadata exp = cf_Metadata c /\ DefaultBridge (ex_Spec exp) = b /\ configure exp = Ok spec /\
      (bridges_apart s' <-> free_bridge s (cf_Name c) (DefaultBridge spec))) /\
  (Configs.Update registered schema_problem es name c s = (r2, s') -> readable s' /\ bridges_apart s').
Proof.
  intros Hes He Hs Hsto Hk Hr Ha Ho. split.
  - intros E. apply (create_cases registered schema_problem e o c) in E as [_ (_ & _ & _ & _ & (c1 & -> & Hh & _) & Hset)]; [|done..]. rewrite Hk in Hset.
    destruct (hooked_bridge OnCreate _ s c c1 (if String.eqb (md_Created (cf_Metadata c1)) "" then c_now e else md_Created (cf_Metadata c1)) (c_now e)
      ltac:(by left) He Hr Hsto Hk Hh) as (b & Hb & b0 & Hint & Hfree & Happs).
    rewrite bool_decide_eq_true_2 in Happs by done. destruct Happs as (exp & spec & Hmd & Hb0 & Hc & ->).
    destruct (create_apart s s' (cf_Name c) _ _ Hr Ha Hb Hset) as [Hr' Hiff]. split; [exact Hr'|]. by exists b0, exp, spec.
  - intros E. apply (update_cases registered schema_problem es name c) in E as [_ [[Hsame _]|(kind & n & old & c1 & _ & Hold & (Hh & _) & Hcase)]]; [| |done|done].
    + split; [intros m d; rewrite Hsame; by apply Hr|]. intros m m' d d' b. rewrite !Hsame. by apply Ha.
    + set (c0 := with_times c _ _) in Hh. assert (storable c0) as Hsto0 by by apply (store_storable c).
      destruct (hooked_bridge OnUpdate true s c0 c1 (md_Created (cf_Metadata c1)) (c_now (es 1%nat)) ltac:(by right) He Hr Hsto0 Hk Hh) as (b & Hb & ? & _ & Hfree & ->).
      destruct (hooked_bridge OnUpdate true s c0 c1 (if String.eqb (md_Created (cf_Metadata c1)) "" then c_now (es 2%nat) else md_Created (cf_Metadata c1)) (c_now (es 2%nat))
        ltac:(by right) He Hr Hsto0 Hk Hh) as (b2 & Hb2 & ? & _ & Hfree2 & ->). rewrite Hk in Hcase. change (cf_Name c0) with (cf_Name c) in Hfree, Hfree2.
      destruct Hcase as [(_ & _ & Hset)|[(Hnone & Hset)|(_ & _ & Hbad & _)]]; [| |by destruct (Hbad (Hes 3%nat))].
      * apply (set_apart s (view s') (cf_Name c) _ _ Hr Ha Hb Hfree). intros m. rewrite Hset. unfold view_set. destruct (decide (m = cf_Name c)) as [->|Hne].
        -- left. by rewrite decide_True.
        -- right. rewrite decide_False by (by intros [_ ?]). split; [done|by left].
      * apply (set_apart s (view s') (cf_Name c) _ _ Hr Ha Hb2 Hfree2). intros m. rewrite Hset. unfold view_set.
        destruct (decide ("Experiment" = kind /\ m = n)) as [[<- ->]|Hne1].
        -- right. split; [|by right]. intros ->. congruence.
        -- destruct (decide (m = cf_Name c)) as [->|Hne]; [left; by rewrite decide_True|]. right. rewrite decide_False by (by intros [_ ?]). split; [done|by left].
Qed.

(** Unless bridges are chosen by phenix, an experiment with a bridge of its
    own cannot be renamed: the experiment that it was is found to have the
    bridge already, and nothing changes. *)
Theorem rename_keeps_out s s' c es name n old b r :
  auto_bridge = false -> (forall n, healthy (es n)) -> healthy e -> store_valid s -> storable c -> cf_Kind c = "Experiment" -> readable s ->
  NewConfig name = Ok (blank "Experiment" n) -> view s "Experiment" n = Some old -> bridge_of old = Some b ->
  view s "Experiment" (cf_Name c) = None -> bridge_of (with_times c (md_Created (cf_Metadata old)) (md_Updated (cf_Metadata c))) = Some b ->
  b <> "" -> b <> defaultBridgeName ->
  Configs.Update registered schema_problem es name c s = (r, s') ->
  (exists err, r = Err err) /\ forall k m, view s' k m = view s k m.
Proof.
  intros Hman Hes He Hs Hsto Hk Hr Hname Hold Hb Hnew Hc Hne Hnd E.
  apply (update_cases registered schema_problem es name c) in E as [_ [[Hsame Herr]|(kind & n' & old' & c1 & Hn & Hold' & (Hh & _) & _)]]; [done| |done|done].
  exfalso. rewrite Hname in Hn. apply blank_inj in Hn as [<- <-]. assert (old' = old) as -> by congruence. set (c0 := with_times c _ _) in Hh.
  assert (storable c0) as Hsto0 by by apply (store_storable c).
  destruct (hooked_bridge OnUpdate true s c0 c1 "" "" ltac:(by right) He Hr Hsto0 Hk Hh) as (b' & _ & b1 & (b0 & Hb0 & ->) & Hfree & _).
  assert (b0 = b) as -> by (unfold c0 in Hb0; congruence). rewrite Hman in Hfree. apply String.eqb_neq in Hne. rewrite Hne in Hfree. destruct Hfree as [|Hfree]; [done|].
  change (cf_Name c0) with (cf_Name c) in Hfree. destruct (decide (n = cf_Name c)) as [->|Hnn]; [|by eapply Hfree].
  congruence.
Qed.

End Spec.
