(* ===== verification/Workflow.v ===== *)
(** * api/workflow/spec.go, plan.go, prepare.go: applying a workflow

    What a workflow config says, the plan that applying it to a branch comes
    to, and the checks that an apply makes of everything the plan needs before
    anything changes. Reading configs and files changes nothing that is seen,
    so preparing reads one state. *)

From Stdlib Require Import ZArith Lia Ascii String Strings.Byte.
From stdpp Require Import base option list gmap strings.
From S2P Require Import Prelude Text Url Hostname Document Config Scenario V1 Experiment Includes Configs Experiments.

Open Scope Z_scope.
Open Scope go_scope.

(** What a workflow call fails with; [WPanic] is a panic. *)
Inductive werror : Type :=
  | WConflict (what : text)
  | WPlanChanged (want plan : string)
  | WUnknownAction (action : string)
  | WInvalidSpec (what : text)
  | WInvalidName (name : string)
  | WUnresolved (what : text)
  | WConfigUnresolved (what : text) (e : cerror)
  | WTopologyUnresolved (what : text) (e : ierror)
  | WUnusable (name : string) (why : list text)
  | WPanic.

(** ** spec.go *)

Definition BranchAnnotation : string := "phenix.workflow/branch".
Definition TagsAnnotation : string := "phenix.workflow/tags".

Record Auto : Type := { au_Create : string; au_Update : option bool; au_Restart : option bool }.

Record VLANRange : Type := { vr_Min : Z; vr_Max : Z }.

Record Spec : Type := {
  wf_Auto : option Auto; wf_Topology : string; wf_Scenario : string; wf_VLANs : option (gmap string Z);
  wf_Schedules : option (gmap string string); wf_DeployMode : string; wf_UseGREMesh : bool; wf_VLANRange : option VLANRange;
  wf_DefaultBridge : string;
}.

Definition AutoUpdate (s : Spec) : bool := match wf_Auto s with None => true | Some a => default true (au_Update a) end.
Definition AutoRestart (s : Spec) : bool := match wf_Auto s with None => true | Some a => default true (au_Restart a) end.
Definition ExperimentName (s : Spec) : string := match wf_Auto s with None => "" | Some a => au_Create a end.
Definition VLANMappings (s : Spec) : gmap string Z := default ∅ (wf_VLANs s).
Definition ScheduleMappings (s : Spec) : gmap string string := default ∅ (wf_Schedules s).
Definition VLANMin (s : Spec) : Z := match wf_VLANRange s with None => 0 | Some r => vr_Min r end.
Definition VLANMax (s : Spec) : Z := match wf_VLANRange s with None => 0 | Some r => vr_Max r end.
Definition DefaultBridgeName (s : Spec) : string := if String.eqb (wf_DefaultBridge s) "" then defaultBridgeName else wf_DefaultBridge s.

Definition Validate (s : Spec) : res werror unit :=
  if MaxBridgeNameLength <? slen (DefaultBridgeName s) then
    Err (WInvalidSpec (Sprintf "default bridge name %q is longer than %d characters" [AStr (DefaultBridgeName s); AInt MaxBridgeNameLength]))
  else Ok tt.

(** [validName]: a letter or digit, then letters, digits, '.', '_' and '-'. *)
Definition workflow_byte (b : Z) : bool := is_alnum b || (b =? 46) || (b =? 95) || (b =? 45).

Definition ValidateName (name : string) : res werror unit :=
  match name with
  | EmptyString => Err (WInvalidName name)
  | String c _ => if is_alnum (ascii_Z c) && all_bytes workflow_byte name then Ok tt else Err (WInvalidName name)
  end.

(** ** plan.go *)

Inductive Action : Type := ActionNone | ActionCreate | ActionCreateAndStart | ActionUpdate | ActionUpdateAndStart | ActionRestart.

#[export] Instance Action_eq_dec : EqDecision Action.
Proof. solve_decision. Defined.

Definition action_text (a : Action) : string :=
  match a with
  | ActionNone => "none"
  | ActionCreate => "create"
  | ActionCreateAndStart => "createAndStart"
  | ActionUpdate => "update"
  | ActionUpdateAndStart => "updateAndStart"
  | ActionRestart => "restart"
  end.

Definition actions : list Action := [ActionNone; ActionCreate; ActionCreateAndStart; ActionUpdate; ActionUpdateAndStart; ActionRestart].

Definition ParseAction (s : string) : res werror Action :=
  match List.find (fun a => String.eqb (action_text a) s) actions with Some a => Ok a | None => Err (WUnknownAction s) end.

Definition reasonNoCreate : string := "no experiment mapped and auto.create not set".
Definition reasonNoUpdate : string := "auto.update is false".
Definition reasonNoRestart : string := "running and auto.restart is false".

Record Plan : Type := { pl_Action : Action; pl_Experiment : string; pl_Reason : string }.

Section Workflow.
Context {any : Type} `{Unicode}.

(** [exp.Metadata.Annotations[key]]. *)
Definition annotation (exp : Experiments.Experiment any) (key : string) : option string := a ← md_Annotations (ex_Metadata exp); a !! key.

Definition Mapped (exps : list (Experiments.Experiment any)) (branch : string) : list (Experiments.Experiment any) :=
  List.filter (fun exp => bool_decide (annotation exp BranchAnnotation = Some branch)) exps.

Definition CheckExpected (p : Plan) (expect : string) : res werror unit :=
  if String.eqb expect "" then Ok tt
  else
    let? want := ParseAction expect in
    if bool_decide (pl_Action p = want) then Ok tt else Err (WPlanChanged (action_text want) (action_text (pl_Action p))).

Definition planCreate (spec : Spec) (branch : string) (existing : list string) : res werror Plan :=
  let name := ExperimentName spec in
  if String.eqb name "" then Ok {| pl_Action := ActionNone; pl_Experiment := ""; pl_Reason := reasonNoCreate |}
  else if negb (NameRegex name) || EqualFold name ReservedName then
    Err (WInvalidSpec (Sprintf "auto.create %q is not a valid experiment name" [AStr name]))
  else if bool_decide (name ∈ existing) then
    Err (WConflict (Sprintf "experiment %q already exists and is not mapped to workflow branch %q" [AStr name; AStr branch]))
  else if AutoRestart spec then Ok {| pl_Action := ActionCreateAndStart; pl_Experiment := name; pl_Reason := "" |}
  else Ok {| pl_Action := ActionCreate; pl_Experiment := name; pl_Reason := "" |}.

Definition planUpdate (spec : Spec) (exp : Experiments.Experiment any) : Plan :=
  let name := ex_Name exp in
  if negb (AutoUpdate spec) then {| pl_Action := ActionNone; pl_Experiment := name; pl_Reason := reasonNoUpdate |}
  else if Running exp && negb (AutoRestart spec) then {| pl_Action := ActionNone; pl_Experiment := name; pl_Reason := reasonNoRestart |}
  else if Running exp then {| pl_Action := ActionRestart; pl_Experiment := name; pl_Reason := "" |}
  else if AutoRestart spec then {| pl_Action := ActionUpdateAndStart; pl_Experiment := name; pl_Reason := "" |}
  else {| pl_Action := ActionUpdate; pl_Experiment := name; pl_Reason := "" |}.

(** [conflictMapped]: the names, sorted. *)
Definition conflictMapped (branch : string) (mapped : list (Experiments.Experiment any)) : werror :=
  WConflict (Sprintf "%d experiments are mapped to workflow branch %q (%s); at most one is allowed"
    [AInt (Z.of_nat (length mapped)); AStr branch; AStr (join ", " (sort_by String.leb (map ex_Name mapped)))]).

Definition NewPlan (spec : Spec) (branch : string) (mapped : list (Experiments.Experiment any)) (existing : list string) : res werror Plan :=
  match mapped with
  | [] => planCreate spec branch existing
  | [exp] => Ok (planUpdate spec exp)
  | _ => Err (conflictMapped branch mapped)
  end.

(** ** CheckBridge *)

Fixpoint bridge_used (name bridge : string) (exps : list (Experiments.Experiment any)) : res werror unit :=
  match exps with
  | [] => Ok tt
  | other :: exps =>
      if negb (String.eqb (ex_Name other) name) && String.eqb (DefaultBridge (ex_Spec other)) bridge then
        Err (WInvalidSpec (Sprintf "experiment %q already uses default bridge %q" [AStr (ex_Name other); AStr bridge]))
      else bridge_used name bridge exps
  end.

(** [auto] is the bridge mode. *)
Definition CheckBridge (spec : Spec) (plan : Plan) (exps : list (Experiments.Experiment any)) (auto : bool) : res werror unit :=
  if bool_decide (pl_Action plan = ActionNone) then Ok tt
  else if auto && (MaxBridgeNameLength <? slen (pl_Experiment plan)) then
    Err (WInvalidSpec (Sprintf "experiment name %q must be %d characters or less when the bridge mode is auto"
      [AStr (pl_Experiment plan); AInt MaxBridgeNameLength]))
  else
    let bridge := if auto then pl_Experiment plan else DefaultBridgeName spec in
    if String.eqb bridge defaultBridgeName then Ok tt else bridge_used (pl_Experiment plan) bridge exps.

(** ** prepare.go: pending refs *)

Definition topologyKey : string := "topology".
Definition scenarioKey : string := "scenario".
Definition pendingFrom : string := "from".
Definition pendingInclude : string := "include".

Record pendingConfig : Type := {
  pc_described : bool; pc_annotations : option (gmap string string); pc_from : list string; pc_includes : list string;
}.

(** mapstructure: a scenario or a topology, that is decoded with weak typing
    here, from the spec of a config. *)
Context (decode_scenario : Config -> res string (ScenarioSpec any)) (decode_topology weak_topology : Config -> res string (TopologySpec any)).

(** The scenarios that apps take settings from, each once. *)
Fixpoint froms (apps : list (ScenarioApp any)) (seen : list string) : list string :=
  match apps with
  | [] => seen
  | a :: apps =>
      let from := sa_FromScenario a in
      froms apps (if negb (String.eqb from "") && negb (bool_decide (from ∈ seen)) then seen ++ [from] else seen)
  end.

(** A key without values is not there. *)
Definition with_values (key : string) (vs : list string) (v : Values) : Values := match vs with [] => v | _ => <[ key := vs ]> v end.

Definition topology_annotation (c : Config) : option string := a ← md_Annotations (cf_Metadata c); a !! topologyKey.

Definition scenario_facts (c : Config) : Values :=
  let facts := with_values topologyKey (match topology_annotation c with Some topo => [topo] | None => [] end) ∅ in
  match DecodeScenarioFromConfig decode_scenario c with
  | Ok spec => with_values pendingFrom (froms (ss_Apps spec) []) facts
  | Err _ => facts
  end.

Definition topology_facts (c : Config) : Values :=
  match weak_topology c with Ok spec => with_values pendingInclude (ts_IncludeTopologies spec) ∅ | Err _ => ∅ end.

Definition PendingRef (c : Config) : string :=
  let ref := FullName c in
  if String.eqb (cf_Kind c) "Scenario" then ref +:+ "?" +:+ Encode (scenario_facts c)
  else if String.eqb (cf_Kind c) "Topology" then
    if bool_decide (topology_facts c = ∅) then ref else ref +:+ "?" +:+ Encode (topology_facts c)
  else ref.

(** What one ref says, and of which config. *)
Definition pending_one (ref : string) : res werror (string * pendingConfig) :=
  let '(name, query) := cut "?" ref in
  let full := ConfigFullName [name] in
  if String.eqb full "" then Err (WInvalidSpec (Sprintf "pending config %q is not a <kind>/<name> config name" [AStr ref]))
  else
    match ParseQuery (default "" query) with
    | None => Err (WInvalidSpec (Sprintf "pending config %q" [AStr ref]))
    | Some facts =>
        Ok (full, {| pc_described := bool_decide (is_Some query);
                     pc_annotations := if bool_decide (is_Some (facts !! topologyKey)) then Some {[ topologyKey := values_get facts topologyKey ]} else None;
                     pc_from := values facts pendingFrom; pc_includes := values facts pendingInclude |})
    end.

Fixpoint pending_all (refs : list string) (pending : gmap string pendingConfig) : res werror (gmap string pendingConfig) :=
  match refs with
  | [] => Ok pending
  | ref :: refs => let? (full, p) := pending_one ref in pending_all refs (<[ full := p ]> pending)
  end.

Definition pendingConfigs (refs : list string) : res werror (gmap string pendingConfig) := pending_all refs ∅.

(** ** prepare.go: topologies *)

(** What [Init] would panic on: a nil node, a node without a section that it
    follows a pointer to, and a nil interface. *)
Fixpoint check_interfaces (hostname : string) (i j : Z) (ifaces : list (option Interface)) : res text unit :=
  match ifaces with
  | [] => Ok tt
  | None :: _ => Err (Sprintf "node %s (nodes[%d]): interfaces[%d] is empty" [AStr hostname; AInt i; AInt j])
  | Some _ :: ifaces => check_interfaces hostname i (j + 1) ifaces
  end.

Definition node_interfaces (n : Node any) : list (option Interface) := match nd_Network n with Some w => nw_Interfaces w | None => [] end.

Fixpoint check_nodes (i : Z) (nodes : list (option (Node any))) : res text unit :=
  match nodes with
  | [] => Ok tt
  | None :: _ => Err (Sprintf "nodes[%d] is empty" [AInt i])
  | Some n :: nodes =>
      match nd_General n with
      | None => Err (Sprintf "nodes[%d] has no general section" [AInt i])
      | Some g =>
          if negb (bool_decide (is_Some (nd_Hardware n))) && negb (External n) then
            Err (Sprintf "node %s (nodes[%d]) has no hardware section" [AStr (ge_Hostname g); AInt i])
          else let? _ := check_interfaces (ge_Hostname g) i 0 (node_interfaces n) in check_nodes (i + 1) nodes
      end
  end.

Definition checkNodeSections (t : TopologySpec any) : res text unit := check_nodes 0 (ts_Nodes t).

Definition checkTopology (name : string) (t : TopologySpec any) : res werror unit :=
  match checkNodeSections t with
  | Err why => Err (WUnusable name [why])
  | Ok _ =>
      match Init "" t with
      | None => Err WPanic
      | Some ([], _) => Ok tt
      | Some (errs, _) => Err (WUnusable name errs)
      end
  end.

(** [CheckConfig]: a topology's own nodes. *)
Definition CheckConfig (c : Config) : res werror unit :=
  if negb (String.eqb (cf_Kind c) "Topology") then Ok tt
  else
    match weak_topology c with
    | Err what => Err (WUnresolved (Sprintf ("decoding topology %q: " +:+ what) [AStr (cf_Name c)]))
    | Ok spec => checkTopology (cf_Name c) spec
    end.

(** The VLANs of all interfaces and the IDs that the workflow has for them. *)
Definition vlanAliases (t : TopologySpec any) (mappings : gmap string Z) : option (gmap string Z) :=
  vlans ← topology_vlans t;
  Some (foldl (fun aliases alias => <[ alias := default 0 (mappings !! alias) ]> aliases) ∅ (concat vlans)).

Fixpoint schedules_of (nodes : list (option (Node any))) (mappings schedules : gmap string string) : option (gmap string string) :=
  match nodes with
  | [] => Some schedules
  | n :: nodes =>
      n ← n;
      if External n then schedules_of nodes mappings schedules
      else
        hostname ← hostname_of (Some n);
        schedules_of nodes mappings (match mappings !! hostname with Some host => <[ hostname := host ]> schedules | None => schedules end)
  end.

Definition nodeSchedules (t : TopologySpec any) (mappings : gmap string string) : option (gmap string string) := schedules_of (ts_Nodes t) mappings ∅.

(** ** prepare.go: what the plan needs *)

Record Prepared : Type := {
  pr_TopologyName : string; pr_Topology : option (TopologySpec any); pr_ScenarioName : string; pr_Scenario : option (ScenarioSpec any);
  pr_Aliases : option (gmap string Z); pr_Schedules : option (gmap string string);
}.

Definition nothing_prepared : Prepared := {|
  pr_TopologyName := ""; pr_Topology := None; pr_ScenarioName := ""; pr_Scenario := None; pr_Aliases := None; pr_Schedules := None |}.

(** What the store gives for a config, and what a file decodes to if there is
    one at a path; [fuel] is for topologies that include others. *)
Context (get : Config -> res cerror Config) (file : string -> option (res cerror Config)) (fuel : nat).

(** [types.LoadTopology] ([Includes.LoadTopology]) on the state that is read. *)
Definition load_topology (source : string) : res cerror Config :=
  match (let? c := NewConfig ("Topology/" +:+ source) in get c) with
  | Ok c => Ok c
  | Err _ => match file source with Some r => r | None => Err (CError (Sprintf "could not find topology %s" [AStr source])) end
  end.

Definition readConfig (kind name : string) : res werror Config :=
  res_map_err (WConfigUnresolved (Sprintf (kind +:+ " %q") [AStr name])) (let? c := NewConfig (kind +:+ "/" +:+ name) in get c).

(** How [types] reads a scenario. *)
Definition load_scenario (name : string) : res cerror Config := let? c := NewConfig ("scenario/" +:+ name) in get c.

Definition decodeTopology (c : Config) (name : string) : res werror (TopologySpec any) :=
  res_map_err (WTopologyUnresolved (Sprintf "decoding topology %q" [AStr name])) (DecodeTopologyFromConfig decode_topology load_topology fuel c).

(** The topology is decoded twice: the checks fill in defaults. *)
Definition resolveTopology (name : string) : res werror (TopologySpec any) :=
  let? c := readConfig topologyKey name in
  let? checked := decodeTopology c name in
  let? _ := checkTopology name checked in
  decodeTopology c name.

Definition scenarioMatchesTopology (name : string) (annotations : option (gmap string string)) (topoName : string) : res werror unit :=
  match a ← annotations; a !! topologyKey with
  | None => Err (WUnresolved (Sprintf "scenario %q has no %s annotation" [AStr name; AStr topologyKey]))
  | Some annotated =>
      if contains annotated topoName then Ok tt
      else Err (WUnresolved (Sprintf "scenario %q is annotated for topology %q, not %q" [AStr name; AStr annotated; AStr topoName]))
  end.

Definition resolveScenario (name topoName : string) (checkScenarioTopology : bool) : res werror (ScenarioSpec any) :=
  let? c := readConfig scenarioKey name in
  let? _ := if checkScenarioTopology then scenarioMatchesTopology name (md_Annotations (cf_Metadata c)) topoName else Ok tt in
  let? spec := res_map_err (WConfigUnresolved (Sprintf "decoding scenario %q" [AStr name])) (DecodeScenarioFromConfig decode_scenario c) in
  res_map_err (WConfigUnresolved (Sprintf "merging scenario %q" [AStr name])) (MergeScenariosForTopology decode_scenario load_scenario spec topoName).

Fixpoint checkPendingIncludes (topoName : string) (includes : list string) (pending : gmap string pendingConfig) : res werror unit :=
  match includes with
  | [] => Ok tt
  | include :: includes =>
      match pending !! ConfigFullName [topologyKey; include] with
      | Some _ => checkPendingIncludes topoName includes pending
      | None =>
          let? _ := res_map_err (WConfigUnresolved (Sprintf "decoding topology %q: loading included topology %s" [AStr topoName; AStr include])) (load_topology include) in
          checkPendingIncludes topoName includes pending
      end
  end.

Definition checkFromScenario (name from topoName : string) (pending : gmap string pendingConfig) : res werror unit :=
  res_map_err (WConfigUnresolved (Sprintf "merging scenario %q" [AStr name]))
    (match pending !! ConfigFullName [scenarioKey; from] with
     | Some scn => if pc_described scn then CheckScenarioTopology from (pc_annotations scn) topoName else Ok tt
     | None => let? _ := FromScenarioConfig load_scenario from topoName in Ok tt
     end).

Fixpoint check_froms (name topoName : string) (l : list string) (pending : gmap string pendingConfig) : res werror unit :=
  match l with
  | [] => Ok tt
  | from :: l => let? _ := checkFromScenario name from topoName pending in check_froms name topoName l pending
  end.

Definition checkPendingScenario (name topoName : string) (scn : pendingConfig) (checkTopology : bool) (pending : gmap string pendingConfig) : res werror unit :=
  if negb (pc_described scn) then Ok tt
  else
    let? _ := if checkTopology then scenarioMatchesTopology name (pc_annotations scn) topoName else Ok tt in
    check_froms name topoName (pc_from scn) pending.

Definition resolveConfigs (topoName scenarioName : string) (checkScenarioTopology : bool) (pending : gmap string pendingConfig) : res werror Prepared :=
  let? topology :=
    match pending !! ConfigFullName [topologyKey; topoName] with
    | Some topo => let? _ := checkPendingIncludes topoName (pc_includes topo) pending in Ok None
    | None => let? t := resolveTopology topoName in Ok (Some t)
    end in
  let prep (scenario : option (ScenarioSpec any)) := {|
    pr_TopologyName := topoName; pr_Topology := topology; pr_ScenarioName := scenarioName; pr_Scenario := scenario; pr_Aliases := None; pr_Schedules := None |} in
  if String.eqb scenarioName "" then Ok (prep None)
  else
    match pending !! ConfigFullName [scenarioKey; scenarioName] with
    | Some scn => let? _ := checkPendingScenario scenarioName topoName scn checkScenarioTopology pending in Ok (prep None)
    | None => let? s := resolveScenario scenarioName topoName checkScenarioTopology in Ok (prep (Some s))
    end.

Definition prepareCreate (spec : Spec) (pending : gmap string pendingConfig) : res werror Prepared :=
  if String.eqb (wf_Topology spec) "" then Err (WInvalidSpec (lit "auto.create is set but topology is not"))
  else resolveConfigs (wf_Topology spec) (wf_Scenario spec) true pending.

(** [cmp.Or] of the workflow's name and the annotation of the experiment. *)
Definition name_or (name : string) (exp : option (Experiments.Experiment any)) (key : string) : string :=
  if String.eqb name "" then default "" (exp ← exp; annotation exp key) else name.

Definition prepareUpdate (spec : Spec) (exp : option (Experiments.Experiment any)) (pending : gmap string pendingConfig) : res werror Prepared :=
  let topoName := name_or (wf_Topology spec) exp topologyKey in
  if String.eqb topoName "" then
    Err (WUnresolved (Sprintf "no topology: the workflow config sets none and the experiment has no %s annotation" [AStr topologyKey]))
  else
    let? prep := resolveConfigs topoName (name_or (wf_Scenario spec) exp scenarioKey) false pending in
    match pr_Topology prep with
    | None => Ok prep
    | Some t =>
        match vlanAliases t (VLANMappings spec), nodeSchedules t (ScheduleMappings spec) with
        | Some aliases, Some schedules =>
            Ok {| pr_TopologyName := pr_TopologyName prep; pr_Topology := pr_Topology prep; pr_ScenarioName := pr_ScenarioName prep;
                  pr_Scenario := pr_Scenario prep; pr_Aliases := Some aliases; pr_Schedules := Some schedules |}
        | _, _ => Err WPanic
        end
    end.

Definition Prepare (spec : Spec) (plan : Plan) (exp : option (Experiments.Experiment any)) (refs : list string) : res werror Prepared :=
  let? pending := pendingConfigs refs in
  match pl_Action plan with
  | ActionNone => Ok nothing_prepared
  | ActionCreate | ActionCreateAndStart => prepareCreate spec pending
  | ActionUpdate | ActionUpdateAndStart | ActionRestart => prepareUpdate spec exp pending
  end.

(** ** web/workflow.go: an update

    What [updateFromWorkflow] makes of the experiment before it is written; a
    panic where it has no VLAN section or no annotations. The order is the one
    in which the aliases are walked, and the error of the range is dropped. *)
Context (default_mode : string).

(** [ExperimentDeployMode], with [common.ParseDeployMode]. *)
Definition ExperimentDeployMode (s : Spec) : string :=
  let mode := ToLower (wf_DeployMode s) in
  if bool_decide (mode ∈ ["no-headnode"; "only-headnode"; "all"]) then mode else default_mode.

Definition updated_annotations (prep : Prepared) (tags : string) (a : gmap string string) : gmap string string :=
  let a := <[ topologyKey := pr_TopologyName prep ]> a in
  let a := if String.eqb (pr_ScenarioName prep) "" then a else <[ scenarioKey := pr_ScenarioName prep ]> a in
  if String.eqb tags "" then a else <[ TagsAnnotation := tags ]> a.

Definition updated_spec (order : list string) (spec : Spec) (prep : Prepared) (v : VLANSpec) (e : ExperimentSpec any) : ExperimentSpec any :=
  let e := {|
    Experiment.ExperimentName := Experiment.ExperimentName e; BaseDir := BaseDir e; DefaultBridge := DefaultBridgeName spec;
    es_Topology := pr_Topology prep; es_Scenario := if String.eqb (pr_ScenarioName prep) "" then es_Scenario e else pr_Scenario prep;
    es_VLANs := Some {| vl_Aliases := pr_Aliases prep; vl_Min := vl_Min v; vl_Max := vl_Max v |};
    es_Schedules := pr_Schedules prep; DeployMode := ExperimentDeployMode spec; UseGREMesh := UseGREMesh e |} in
  let e := snd (SetVLANRange order (VLANMin spec) (VLANMax spec) true e) in
  with_mesh e (wf_UseGREMesh spec).

Definition workflow_update (order : list string) (spec : Spec) (prep : Prepared) (tags : string) (exp : Experiments.Experiment any) : option (Experiments.Experiment any) :=
  a ← md_Annotations (ex_Metadata exp);
  v ← es_VLANs (ex_Spec exp);
  let m := ex_Metadata exp in
  Some {| ex_Metadata := {| md_Name := md_Name m; md_Created := md_Created m; md_Updated := md_Updated m;
                            md_Annotations := Some (updated_annotations prep tags a) |};
          ex_Spec := updated_spec order spec prep v (ex_Spec exp); ex_Status := ex_Status exp |}.

End Workflow.
