(* ===== verification/WorkflowSpec.v ===== *)
(** * What an apply of a workflow checks

    The checks of a topology keep its initialisation from panicking, the check
    of the bridge is the one that the config hooks of experiments make, refs of
    pending configs read back, and how far a dry run sees what the real apply
    will. *)

From Stdlib Require Import ZArith Lia Ascii String Strings.Byte FunctionalExtensionality.
From stdpp Require Import base option list gmap strings.
From S2P Require Import Prelude Text Url Hostname Document Config Scenario V1 Experiment V1Spec Includes Configs Experiments Workflow.

Open Scope Z_scope.
Open Scope go_scope.

(** ** Plans *)

Section Plans.
Context {any : Type} `{Unicode}.
Implicit Types (exps : list (Experiments.Experiment any)).

(** C14: A plan acts on one experiment that the branch means. It creates an
    experiment only when none is mapped to the branch, under a name that no
    experiment has and that an experiment may have; it updates only the one
    experiment that is mapped, if updates are allowed; it touches a running one
    and starts one only if restarts are. And there is a plan unless several
    experiments are mapped, or the name for a new one is taken or not allowed. *)
Theorem NewPlan_spec spec branch exps :
  match NewPlan spec branch (Mapped exps branch) (map ex_Name exps) with
  | Ok p =>
      match pl_Action p with
      | ActionNone => True
      | ActionCreate | ActionCreateAndStart =>
          (forall exp, exp ∈ exps -> annotation exp BranchAnnotation <> Some branch /\ ex_Name exp <> pl_Experiment p) /\
          NameRegex (pl_Experiment p) = true /\ pl_Experiment p <> "" /\ EqualFold (pl_Experiment p) ReservedName = false /\
          (pl_Action p = ActionCreateAndStart <-> AutoRestart spec = true)
      | ActionUpdate | ActionUpdateAndStart | ActionRestart =>
          exists exp, exp ∈ exps /\ annotation exp BranchAnnotation = Some branch /\ pl_Experiment p = ex_Name exp /\
          (forall exp', exp' ∈ exps -> annotation exp' BranchAnnotation = Some branch -> exp' = exp) /\
          AutoUpdate spec = true /\ (pl_Action p = ActionRestart <-> Running exp = true) /\
          (pl_Action p = ActionUpdate <-> AutoRestart spec = false)
      end
  | Err _ =>
      (2 <= length (Mapped exps branch))%nat \/
      (Mapped exps branch = [] /\ let name := ExperimentName spec in
       name ∈ map ex_Name exps \/ NameRegex name = false \/ EqualFold name ReservedName = true)
  end.
Proof.
  assert (forall exp, exp ∈ Mapped exps branch <-> exp ∈ exps /\ annotation exp BranchAnnotation = Some branch) as Hm.
  { intros exp. unfold Mapped. rewrite !list_elem_of_In, filter_In. by rewrite bool_decide_eq_true. }
  destruct (Mapped exps branch) as [|exp [|exp' l]] eqn:E; cbn [NewPlan].
  - unfold planCreate. destruct (String.eqb_spec (ExperimentName spec) "") as [|Hne]; [done|].
    destruct (NameRegex (ExperimentName spec)) eqn:Er; [|by right; split; [|right; left]].
    destruct (EqualFold (ExperimentName spec) ReservedName) eqn:Ef; [by right; split; [|right; right]|]. cbn [negb orb].
    case_bool_decide as Hin; [by right; split; [|left]|].
    assert (forall exp, exp ∈ exps -> annotation exp BranchAnnotation <> Some branch /\ ex_Name exp <> ExperimentName spec) as Hexps.
    { intros exp Hexp. split; [intros Ha; assert (exp ∈ []) as Hbad by (by apply Hm); by apply elem_of_nil in Hbad|].
      intros Hn. apply Hin. rewrite <- Hn, map_fmap. by apply list_elem_of_fmap_2. }
    destruct (AutoRestart spec); cbn [pl_Action pl_Experiment]; by split_and!.
  - assert (exp ∈ exps /\ annotation exp BranchAnnotation = Some branch) as [Hexp Ha] by (apply Hm; by left).
    assert (forall exp', exp' ∈ exps -> annotation exp' BranchAnnotation = Some branch -> exp' = exp) as Huniq.
    { intros exp' Hin Ha'. assert (exp' ∈ [exp]) as Hin' by (by apply Hm). by apply list_elem_of_singleton in Hin'. }
    unfold planUpdate. destruct (AutoUpdate spec); [|done]. destruct (Running exp) eqn:Er, (AutoRestart spec); cbn [negb andb pl_Action pl_Experiment]; [|done| |];
      exists exp; rewrite ?Er; by split_and!.
  - left. cbn. lia.
Qed.

(** C18: CheckBridge answers what the config hooks of experiments will: for a
    valid spec and a plan that does something, it succeeds exactly when the
    hooks choose a bridge for an experiment that has the default bridge of the
    workflow, and find it free. *)
Theorem CheckBridge_agrees spec plan exps (auto mesh : bool) (e : ExperimentSpec any) :
  Validate spec = Ok tt -> pl_Action plan <> ActionNone -> DefaultBridge e = DefaultBridgeName spec ->
  CheckBridge spec plan exps auto = Ok tt <->
  exists e', choose_bridge auto mesh (pl_Experiment plan) e = Ok e' /\ bridge_free (pl_Experiment plan) (DefaultBridge e') exps = Ok tt.
Proof.
  intros Hv Ha He. unfold CheckBridge. rewrite bool_decide_eq_false_2 by done.
  assert (forall bridge, (if String.eqb bridge defaultBridgeName then Ok tt else bridge_used (pl_Experiment plan) bridge exps) = Ok tt <->
    bridge_free (pl_Experiment plan) bridge exps = Ok tt) as Hfree.
  { intros bridge. destruct (String.eqb_spec bridge defaultBridgeName) as [->|Hne].
    - split; [|done]. intros _. induction exps as [|other exps IH]; [done|]. cbn [bridge_free]. by rewrite orb_true_r.
    - induction exps as [|other exps IH]; [done|]. cbn [bridge_used bridge_free]. rewrite (proj2 (String.eqb_neq _ _) Hne), orb_false_r.
      destruct (String.eqb (ex_Name other) (pl_Experiment plan)); [exact IH|]. cbn [negb andb]. by destruct (String.eqb (DefaultBridge (ex_Spec other)) bridge). }
  assert ((MaxBridgeNameLength <? slen (DefaultBridgeName spec)) = false) as Hlen by (unfold Validate in Hv; by destruct (_ <? _)).
  unfold choose_bridge. destruct auto; cbn [andb].
  - destruct (MaxBridgeNameLength <? slen (pl_Experiment plan)) eqn:El; [split; [done|by intros (? & ? & _)]|].
    cbn [SetDefaultBridge DefaultBridge]. rewrite El, Hfree. split; [intros ?; eexists; split; [reflexivity|done]|]. by intros (e' & [= <-] & ?).
  - rewrite He, Hlen, Hfree. split; [intros ?; eexists; split; [reflexivity|]; cbn [with_mesh DefaultBridge]; by rewrite He|].
    intros (e' & [= <-] & Hb). cbn [with_mesh DefaultBridge] in Hb. by rewrite He in Hb.
Qed.

(** ** Topologies *)

(** The sections that [Init] follows pointers to. *)
Definition has_sections (n : Node any) : Prop :=
  is_Some (nd_General n) /\ (External n = true \/ is_Some (nd_Hardware n)) /\ Forall is_Some (node_interfaces n).

Lemma check_interfaces_ok hostname i j ifaces : check_interfaces hostname i j ifaces = Ok tt <-> Forall is_Some ifaces.
Proof.
  revert j. induction ifaces as [|[x|] ifaces IH]; intros j; cbn [check_interfaces].
  - split; [constructor|done].
  - rewrite IH, Forall_cons. naive_solver.
  - split; [done|]. by intros [[? ?] _]%Forall_cons.
Qed.

Lemma check_nodes_there i (entries : list (option (Node any))) : check_nodes i entries = Ok tt -> exists nodes, there entries nodes.
Proof.
  revert i. induction entries as [|[n|] entries IH]; intros i; cbn [check_nodes]; [exists []; exact eq_refl| |done].
  destruct (nd_General n); [|done]. destruct (_ && _); [done|]. intros ([] & _ & [nodes Hn]%IH)%bind_ok. exists (n :: nodes). exact (f_equal (cons (Some n)) Hn).
Qed.

Lemma check_nodes_ok i (nodes : list (Node any)) : check_nodes i (Some <$> nodes) = Ok tt <-> Forall has_sections nodes.
Proof.
  revert i. induction nodes as [|n nodes IH]; intros i; [|rewrite fmap_cons]; cbn [check_nodes]; [split; [constructor|done]|]. rewrite Forall_cons. unfold has_sections at 1.
  destruct (nd_General n) as [g|]; [|split; [done|by intros [[[? ?] _] _]]].
  destruct (negb (bool_decide (is_Some (nd_Hardware n))) && negb (External n)) eqn:E.
  - apply andb_true_iff in E as [Eh%negb_true_iff%bool_decide_eq_false Ee%negb_true_iff]. split; [done|]. intros [(_ & [?|?] & _) _]; congruence.
  - rewrite bind_unit, check_interfaces_ok, IH. apply andb_false_iff in E. split; [|naive_solver].
    intros [Hi Hn]. split; [|done]. split; [by eexists|]. split; [|done]. destruct E as [Eh%negb_false_iff%bool_decide_eq_true|Ee%negb_false_iff]; [by right|by left].
Qed.

Lemma sections_ready (n : Node any) : has_sections n -> ready n.
Proof.
  intros (Hg & [He|Hh] & Hi); (split; [done|]); [by left|right]. split; [done|]. unfold node_interfaces in Hi. by destruct (nd_Network n).
Qed.

(** C15: The check that an apply makes of a topology never panics. It passes
    exactly when no node is nil, every node has the sections that initialising
    an experiment follows pointers to, no two host names are the same when case is ignored,
    and every node is valid; and then initialising it with any default bridge
    succeeds. *)
Theorem checkTopology_spec name (t : TopologySpec any) :
  checkTopology name t <> Err WPanic /\
  (checkTopology name t = Ok tt <-> exists nodes, there (ts_Nodes t) nodes /\
     Forall has_sections nodes /\ NoDup ((fun n => ToLower (name_of n)) <$> nodes) /\ Forall (fun n => validate n = Ok tt) nodes) /\
  (checkTopology name t = Ok tt -> forall bridge, exists t', Init bridge t = Some ([], t')).
Proof.
  assert (forall bridge nodes, there (ts_Nodes t) nodes -> Forall has_sections nodes -> exists errs t', Init bridge t = Some (errs, t') /\
    (errs = [] <-> NoDup ((fun n => ToLower (name_of n)) <$> nodes) /\ Forall (fun n => validate n = Ok tt) nodes)) as Hinit.
  { intros bridge nodes Hn Hs. destruct (Init_there bridge t) as [Htotal Hspec]. destruct (proj2 Htotal) as [[errs t'] E].
    - exists nodes. split; [exact Hn|]. exact (Forall_impl _ _ _ Hs sections_ready).
    - exists errs, t'. split; [exact E|]. destruct (Hspec _ _ E) as (nodes' & _ & Hn' & _ & _ & He). by rewrite (there_fun _ _ _ Hn Hn'). }
  unfold checkTopology, checkNodeSections. destruct (check_nodes 0 (ts_Nodes t)) as [[]|why] eqn:E.
  - destruct (check_nodes_there _ _ E) as [nodes Hn]. rewrite Hn in E. apply check_nodes_ok in E. destruct (Hinit "" nodes Hn E) as (errs & t' & -> & He). destruct errs as [|err errs].
    + split; [done|]. split; [split; [intros _; exists nodes; naive_solver|done]|]. intros _ bridge. destruct (Hinit bridge nodes Hn E) as (errs' & t'' & -> & He').
      assert (errs' = []) as -> by (apply He', He; done). by eexists.
    + split; [done|]. split; [|done]. split; [done|]. intros (nodes' & Hn' & _ & Hd & Hval). pose proof (there_fun _ _ _ Hn' Hn) as ->. by assert (err :: errs = []) by (by apply He).
  - split; [done|]. split; [|done]. split; [done|]. intros (nodes & Hn & Hs & _). rewrite Hn in E. apply check_nodes_ok with (i := 0) in Hs. congruence.
Qed.

(** ** The range of VLANs that a workflow asks for *)

(** An update through a workflow gives the experiment the aliases prepared
    for it, and its range of VLANs only if all of these are in it: else the
    experiment silently keeps the range it had. An alias of the topology that
    the workflow has no ID for is never in a range with a minimum. *)
Theorem workflow_range order spec prep tags (exp exp' : Experiments.Experiment any) v default_mode :
  workflow_update default_mode order spec prep tags exp = Some exp' -> es_VLANs (ex_Spec exp) = Some v ->
  (forall alias, is_Some (default ∅ (pr_Aliases prep) !! alias) -> alias ∈ order) ->
  exists v', es_VLANs (ex_Spec exp') = Some v' /\ vl_Aliases v' = pr_Aliases prep /\
    (V1Spec.in_range {| vl_Aliases := pr_Aliases prep; vl_Min := VLANMin spec; vl_Max := VLANMax spec |} -> vl_Min v' = VLANMin spec /\ vl_Max v' = VLANMax spec) /\
    (~ V1Spec.in_range {| vl_Aliases := pr_Aliases prep; vl_Min := VLANMin spec; vl_Max := VLANMax spec |} -> vl_Min v' = vl_Min v /\ vl_Max v' = vl_Max v) /\
    forall (t : TopologySpec any) mappings alias, vlanAliases t mappings = pr_Aliases prep -> mappings !! alias = None -> is_Some (default ∅ (pr_Aliases prep) !! alias) ->
      0 < VLANMin spec -> vl_Min v' = vl_Min v /\ vl_Max v' = vl_Max v.
Proof.
  intros Hu Hv Ho. unfold workflow_update in Hu. apply bind_Some in Hu as (a & _ & (v0 & Ev & [= <-])%bind_Some). rewrite Ev in Hv. injection Hv as ->.
  cbn [ex_Spec]. unfold updated_spec, SetVLANRange, made_vlans. cbn [es_VLANs default from_option id].
  set (v1 := {| vl_Aliases := pr_Aliases prep; vl_Min := vl_Min v; vl_Max := vl_Max v |}). rewrite andb_false_r.
  set (v2 := {| vl_Aliases := pr_Aliases prep; vl_Min := VLANMin spec; vl_Max := VLANMax spec |}).
  pose proof (walk_Forall (fun a => (VLANMin spec = 0 \/ VLANMin spec <= a.2) /\ (VLANMax spec = 0 \/ a.2 <= VLANMax spec)) order (Aliases v1) Ho) as Hw.
  rewrite <- (outside_range_none "proposed ") in Hw. change (forall k v0, _) with (V1Spec.in_range v2) in Hw.
  assert (forall v', (vl_Min v' = vl_Min v /\ vl_Max v' = vl_Max v) \/ V1Spec.in_range v2 ->
    forall (t : TopologySpec any) mappings alias, vlanAliases t mappings = pr_Aliases prep -> mappings !! alias = None -> is_Some (default ∅ (pr_Aliases prep) !! alias) ->
      0 < VLANMin spec -> vl_Min v' = vl_Min v /\ vl_Max v' = vl_Max v) as Hzero.
  { intros v' [Hold|Hin] t mappings alias Ht Hnone [vid Hid] Hmin; [done|]. exfalso. destruct (Hin alias vid Hid) as [[?|Hle] _]; [cbn in *; lia|]. cbn in Hle.
    assert (vid = 0) as ->; [|lia]. unfold vlanAliases in Ht.
    destruct (topology_vlans t) as [vlans|]; cbn [mbind option_bind] in Ht; [|rewrite <- Ht in Hid; cbn in Hid; done].
    rewrite <- Ht in Hid. cbn [default from_option id] in Hid. clear -Hid Hnone.
    assert (forall (l : list string) (m : gmap string Z), (forall x, m !! alias = Some x -> x = 0) -> foldl (fun aliases a => <[ a := default 0 (mappings !! a) ]> aliases) m l !! alias = Some vid -> vid = 0) as Hf.
    { induction l as [|x l IH]; intros m Hm; cbn [foldl]; [apply Hm|]. apply IH. intros y. rewrite lookup_insert_Some. intros [[-> <-]|[_ ?]]; [by rewrite Hnone|by apply Hm]. }
    refine (Hf (concat vlans) ∅ _ Hid). intros x Hx. by rewrite lookup_empty in Hx. }
  destruct (outside_range _ _ _ _) as [what|]; cbn [snd].
  - exists v1. split; [done|]. split; [done|]. split; [intros Hin; by apply Hw in Hin|]. split; [done|]. apply Hzero. by left.
  - exists v2. split; [done|]. split; [done|]. split; [done|]. assert (V1Spec.in_range v2) as Hin by by apply Hw. split; [done|]. apply Hzero. by right.
Qed.

End Plans.

(** ** Pending refs *)

Section Pending.
Context {any : Type} `{Unicode}.
Context (decode_scenario : Config -> res string (ScenarioSpec any)) (decode_topology weak_topology : Config -> res string (TopologySpec any)).

Notation PendingRef := (PendingRef decode_scenario weak_topology).

(** The kinds and names that the refs of configs are made of. *)
Definition plain_name (c : Config) : Prop :=
  (cf_Kind c = "Topology" \/ cf_Kind c = "Scenario") /\ canonicalKind (cf_Kind c) = cf_Kind c /\ NameRegex (cf_Name c) = true.

(** What a ref says of a config. *)
Definition described (c : Config) : pendingConfig :=
  let facts := if String.eqb (cf_Kind c) "Scenario" then scenario_facts decode_scenario c else topology_facts weak_topology c in {|
  pc_described := String.eqb (cf_Kind c) "Scenario" || negb (bool_decide (facts = ∅));
  pc_annotations := (fun topo => {[ topologyKey := topo ]}) <$> (if String.eqb (cf_Kind c) "Scenario" then topology_annotation c else None);
  pc_from := if String.eqb (cf_Kind c) "Scenario" then match DecodeScenarioFromConfig decode_scenario c with Ok s => froms (ss_Apps s) [] | Err _ => [] end else [];
  pc_includes := if String.eqb (cf_Kind c) "Scenario" then [] else match weak_topology c with Ok s => ts_IncludeTopologies s | Err _ => [] end |}.

Lemma plain_full c : plain_name c -> free "/" (cf_Kind c) = true /\ free "/" (cf_Name c) = true /\ free "?" (FullName c) = true.
Proof.
  intros (Hk & _ & Hn). assert (free "/" (cf_Kind c) = true /\ free "?" (cf_Kind c) = true) as [Hk1 Hk2] by (by destruct Hk as [-> | ->]).
  split; [done|]. split; [by apply (forallb_free config_name_byte)|]. unfold FullName. apply free_app; [done|]. rewrite string_app_cons. apply free_cons. split; [done|].
  by apply (forallb_free config_name_byte).
Qed.

Lemma ConfigFullName_full c : plain_name c -> ConfigFullName [FullName c] = FullName c.
Proof.
  intros Hp. destruct (plain_full c Hp) as (Hk & Hn & _). destruct Hp as (Hkind & Hc & _). unfold ConfigFullName, FullName.
  rewrite string_app_cons. change ("" +:+ cf_Name c) with (cf_Name c). rewrite (proj2 (split_free _ _ Hk)), (proj1 (split_free _ _ Hn)), Hc.
  by destruct Hkind as [-> | ->].
Qed.

Lemma with_values_nonempty key vs (v : Values) : (forall k, v !! k <> Some []) -> forall k, with_values key vs v !! k <> Some [].
Proof.
  intros Hv k. unfold with_values. destruct vs as [|x vs]; [apply Hv|]. destruct (decide (k = key)) as [->|]; [by rewrite lookup_insert_eq|]. by rewrite lookup_insert_ne.
Qed.

Lemma scenario_facts_nonempty c k : scenario_facts decode_scenario c !! k <> Some [].
Proof.
  unfold scenario_facts. assert (forall k, with_values topologyKey (match topology_annotation c with Some topo => [topo] | None => [] end) ∅ !! k <> Some []) as H1.
  { apply with_values_nonempty. intros k'. by rewrite lookup_empty. }
  destruct (DecodeScenarioFromConfig _ _); [by apply with_values_nonempty|apply H1].
Qed.

Lemma topology_facts_nonempty c k : topology_facts weak_topology c !! k <> Some [].
Proof. unfold topology_facts. destruct (weak_topology c); [apply with_values_nonempty; intros k'|]; by rewrite lookup_empty. Qed.

Lemma with_values_same key vs (v : Values) : v !! key = None -> values (with_values key vs v) key = vs.
Proof. intros Hv. unfold values, with_values. destruct vs; [by rewrite Hv|]. by rewrite lookup_insert_eq. Qed.

Lemma with_values_other key key' vs (v : Values) : key <> key' -> with_values key vs v !! key' = v !! key'.
Proof. intros Hne. unfold with_values. destruct vs; [done|]. by rewrite lookup_insert_ne. Qed.

(** The ref of a config says what is described. *)
Lemma pending_one_ref c : plain_name c -> pending_one (PendingRef c) = Ok (FullName c, described c).
Proof.
  intros Hp. destruct (plain_full c Hp) as (_ & _ & Hfree). pose proof (ConfigFullName_full c Hp) as Hfull. destruct Hp as (Hk & Hcan & _).
  assert (FullName c <> "") as Hne by (unfold FullName; destruct Hk as [-> | ->]; done).
  assert (forall facts : Values, (forall k, facts !! k <> Some []) -> forall d, 
    pending_one (FullName c +:+ "?" +:+ Encode facts) = Ok (FullName c, d) <->
    d = {| pc_described := true; pc_annotations := if bool_decide (is_Some (facts !! topologyKey)) then Some {[ topologyKey := values_get facts topologyKey ]} else None;
           pc_from := values facts pendingFrom; pc_includes := values facts pendingInclude |}) as Hone.
  { intros facts Hf d. unfold pending_one. rewrite string_app_cons, (proj2 (cut_free _ _ Hfree)), Hfull, (proj2 (String.eqb_neq _ _) Hne).
    cbn [default from_option id]. change ("" +:+ ?s) with s. rewrite (ParseQuery_values facts Hf). split; [by intros [= <-]|by intros ->]. }
  unfold Workflow.PendingRef, described. destruct Hk as [Hk|Hk]; rewrite Hk; cbn [String.eqb Ascii.eqb Bool.eqb].
  - change ("Topology" =? "Scenario")%string with false. change ("Topology" =? "Topology")%string with true. cbn [orb].
    case_bool_decide as Hemp.
    + unfold pending_one. rewrite (proj1 (cut_free _ _ Hfree)), Hfull, (proj2 (String.eqb_neq _ _) Hne). cbn [default from_option id].
      change (ParseQuery "") with (Some (∅ : Values)). cbn [negb]. f_equal. f_equal. unfold values, values_get. rewrite lookup_empty.
      unfold topology_facts in Hemp. destruct (weak_topology c) as [s|]; [|done]. unfold with_values in Hemp. destruct (ts_IncludeTopologies s); [done|].
      by apply insert_non_empty in Hemp.
    + apply Hone; [apply topology_facts_nonempty|]. cbn [negb]. f_equal.
      * unfold topology_facts. destruct (weak_topology c) as [s|]; [|done]. rewrite with_values_other by done. by rewrite lookup_empty.
      * unfold topology_facts, values. destruct (weak_topology c) as [s|]; [|done]. rewrite with_values_other by done. by rewrite lookup_empty.
      * unfold topology_facts. destruct (weak_topology c) as [s|]; [|done]. by rewrite with_values_same.
  - change ("Scenario" =? "Scenario")%string with true. cbn [orb]. apply Hone; [apply scenario_facts_nonempty|].
    set (base := with_values topologyKey (match topology_annotation c with Some topo => [topo] | None => [] end) ∅).
    assert (scenario_facts decode_scenario c = match DecodeScenarioFromConfig decode_scenario c with Ok s => with_values pendingFrom (froms (ss_Apps s) []) base | Err _ => base end) as -> by done.
    assert (forall k, k <> pendingFrom -> match DecodeScenarioFromConfig decode_scenario c with Ok s => with_values pendingFrom (froms (ss_Apps s) []) base | Err _ => base end !! k = base !! k) as Hother.
    { intros k Hkf. destruct (DecodeScenarioFromConfig _ _); [|done]. by apply with_values_other. }
    assert (base !! topologyKey = (fun topo => [topo]) <$> topology_annotation c) as Hbase.
    { unfold base, with_values. destruct (topology_annotation c); [by rewrite lookup_insert_eq|by rewrite lookup_empty]. }
    assert (forall k, k <> topologyKey -> base !! k = None) as Hnone.
    { intros k Hk'. unfold base. rewrite with_values_other by done. by rewrite lookup_empty. }
    f_equal.
    + unfold values_get, values. rewrite Hother by done. rewrite Hbase. by destruct (topology_annotation c).
    + destruct (DecodeScenarioFromConfig _ _) as [s|]; [rewrite with_values_same; [done|by apply Hnone]|unfold values; by rewrite Hnone].
    + unfold values. rewrite Hother, Hnone by done. done.
Qed.

(** C17: The ref of a pending config reads back as what it says: the config it
    is of, the topology its annotation names, the scenarios that its apps take
    settings from and the topologies it includes. *)
Theorem PendingRef_roundtrip c : plain_name c -> pendingConfigs [PendingRef c] = Ok {[ FullName c := described c ]}.
Proof. intros Hp. unfold pendingConfigs. cbn [pending_all]. by rewrite (pending_one_ref c Hp). Qed.

End Pending.

(** ** Dry runs *)

Section DryRun.
Context {any : Type} `{Unicode}.
Context (decode_scenario : Config -> res string (ScenarioSpec any)) (decode_topology weak_topology : Config -> res string (TopologySpec any)).
Context (file : string -> option (res cerror Config)) (fuel : nat).

Notation PendingRef := (PendingRef decode_scenario weak_topology).
Notation Prepare get := (Prepare decode_scenario decode_topology get file fuel).
Notation resolveConfigs get := (resolveConfigs decode_scenario decode_topology get file fuel).
Notation load_topology get := (load_topology get file).

(** Case does not matter in the kinds that this package names. *)
Lemma kinds_named :
  canonicalKind "topology" = "Topology" /\ canonicalKind "Topology" = "Topology" /\ canonicalKind "scenario" = "Scenario" /\ canonicalKind "Scenario" = "Scenario".
Proof. by vm_compute. Qed.

(** The store once [c] is in it as [c']. *)
Definition stored_as (get : Config -> res cerror Config) (c c' : Config) : Config -> res cerror Config :=
  fun q => if decide (cf_Kind q = cf_Kind c /\ cf_Name q = cf_Name c) then Ok c' else get q.

(** What the store may change of a config. *)
Definition same_content (c c' : Config) : Prop :=
  cf_Version c' = cf_Version c /\ cf_Kind c' = cf_Kind c /\ cf_Name c' = cf_Name c /\ md_Annotations (cf_Metadata c') = md_Annotations (cf_Metadata c) /\
  decode_scenario c' = decode_scenario c /\ decode_topology c' = decode_topology c.

(** The topology and the scenario that carrying out a plan takes. *)
Definition plan_names (spec : Spec) (plan : Plan) (exp : option (Experiments.Experiment any)) : string * string :=
  match pl_Action plan with
  | ActionUpdate | ActionUpdateAndStart | ActionRestart => (name_or (wf_Topology spec) exp topologyKey, name_or (wf_Scenario spec) exp scenarioKey)
  | _ => (wf_Topology spec, wf_Scenario spec)
  end.

Lemma split_single c s x : split_on c s = [x] -> free c s = true.
Proof.
  revert x. induction s as [|a s IH]; intros x; [done|]. cbn [split_on]. destruct (Ascii.eqb a c) eqn:E.
  - intros Hs. injection Hs as _ Hs. exfalso. clear -Hs. destruct s as [|b s]; [done|]. cbn in Hs. destruct (Ascii.eqb b c); [done|]. by destruct (split_on c s).
  - destruct (split_on c s) as [|p ps] eqn:Es; [by destruct s as [|b s']; [|cbn in Es; destruct (Ascii.eqb b c); [|destruct (split_on c s')]]|].
    intros [= _ ->]. apply free_cons. split; [done|by eapply IH].
Qed.

(** Reading a config of a kind by its name. *)
Lemma read_stored get c c' key kind n :
  plain_name c -> free "/" key = true -> canonicalKind key = kind -> kind <> "" ->
  (let? q := NewConfig (key +:+ "/" +:+ n) in stored_as get c c' q) =
    if decide (cf_Kind c = kind /\ cf_Name c = n) then Ok c' else (let? q := NewConfig (key +:+ "/" +:+ n) in get q).
Proof.
  intros Hp Hkey Hkind Hne. destruct (plain_full c Hp) as (_ & Hn & _). unfold NewConfig. rewrite string_app_cons. change ("" +:+ n) with n.
  rewrite (proj2 (split_free _ _ Hkey)), Hkind, (proj2 (String.eqb_neq _ _) Hne).
  destruct (split_on "/" n) as [|x [|y l]] eqn:Es.
  - destruct (decide _) as [[_ <-]|]; [|done]. by rewrite (proj1 (split_free _ _ Hn)) in Es.
  - pose proof (split_single _ _ _ Es) as Hf. rewrite (proj1 (split_free _ _ Hf)) in Es. injection Es as <-. cbn [res_bind]. unfold stored_as.
    cbn [cf_Kind blank cf_Name cf_Metadata md_Name]. destruct (decide (kind = cf_Kind c /\ n = cf_Name c)) as [[-> ->]|Hno]; [by rewrite decide_True|].
    rewrite decide_False; [done|]. intros [? ?]. by apply Hno.
  - destruct (decide _) as [[_ <-]|]; [|done]. by rewrite (proj1 (split_free _ _ Hn)) in Es.
Qed.

Lemma load_stored get c c' include :
  plain_name c -> load_topology (stored_as get c c') include = if decide (cf_Kind c = "Topology" /\ cf_Name c = include) then Ok c' else load_topology get include.
Proof.
  intros Hp. unfold Workflow.load_topology. change ("Topology/" +:+ include) with ("Topology" +:+ "/" +:+ include).
  rewrite (read_stored get c c' "Topology" "Topology") by done. by destruct (decide _).
Qed.

Lemma scenario_stored get c c' name :
  plain_name c -> load_scenario (stored_as get c c') name = if decide (cf_Kind c = "Scenario" /\ cf_Name c = name) then Ok c' else load_scenario get name.
Proof. intros Hp. unfold load_scenario. change ("scenario/" +:+ name) with ("scenario" +:+ "/" +:+ name). by rewrite (read_stored get c c' "scenario" "Scenario"). Qed.

(** A name of the store is that of a config of one kind. *)
Lemma full_name_inj (kind n : string) c : plain_name c -> kind = "Topology" \/ kind = "Scenario" -> kind +:+ "/" +:+ n = FullName c <-> cf_Kind c = kind /\ cf_Name c = n.
Proof.
  intros (Hk & _) Hkind. unfold FullName. rewrite !string_app_cons. split; [|by intros [<- <-]].
  destruct Hk as [-> | ->], Hkind as [-> | ->]; cbn; try done; intros E; (split; [done|]); by injection E.
Qed.

Lemma pending_lookup key kind n c (d : pendingConfig) :
  plain_name c -> canonicalKind key = kind -> kind = "Topology" \/ kind = "Scenario" ->
  ({[ FullName c := d ]} : gmap string pendingConfig) !! ConfigFullName [key; n] = if decide (cf_Kind c = kind /\ cf_Name c = n) then Some d else None.
Proof.
  intros Hp Hkey Hkind. unfold ConfigFullName. rewrite Hkey. rewrite (proj2 (String.eqb_neq kind "")) by (by destruct Hkind as [-> | ->]).
  pose proof (full_name_inj kind n c Hp Hkind) as Hinj. destruct (decide _) as [Hyes|Hno].
  - rewrite (proj2 Hinj Hyes). by rewrite lookup_singleton_eq.
  - apply lookup_singleton_ne. intros E. by apply Hno, Hinj.
Qed.

Lemma includes_load load path includes (nodes out : list (option (Node any))) :
  Includes.includes decode_topology load path includes nodes out -> Forall (fun i => exists c, load i = Ok c) includes.
Proof. induction 1; constructor; [by eexists|done]. Qed.

(** What the real apply merged, the dry run finds too. *)
Lemma merge_loads load apps apps' topo :
  merge_apps decode_scenario load topo apps = Ok apps' ->
  Forall (fun a => sa_FromScenario a = "" \/ exists c, FromScenarioConfig load (sa_FromScenario a) topo = Ok c) apps.
Proof.
  revert apps'. induction apps as [|a apps IH]; intros apps'; cbn [merge_apps]; [constructor|].
  intros (b & Hb & (rest & Hr & _)%bind_ok)%bind_ok. constructor; [|by eapply IH]. unfold merge_app in Hb.
  destruct (String.eqb_spec (sa_FromScenario a) ""); [by left|right]. apply bind_ok in Hb as (c & Hc & _). by exists c.
Qed.

Lemma froms_in (apps : list (ScenarioApp any)) seen from :
  from ∈ froms apps seen -> from ∈ seen \/ exists a, a ∈ apps /\ sa_FromScenario a = from /\ from <> "".
Proof.
  revert seen. induction apps as [|a apps IH]; intros seen; cbn [froms]; [by left|]. intros [Hin|(b & Hb & Hf)]%IH.
  - destruct (String.eqb_spec (sa_FromScenario a) "") as [|Hne]; cbn [negb andb] in Hin; [by left|]. case_bool_decide; cbn [negb] in Hin; [by left|].
    apply elem_of_app in Hin as [?| ->%list_elem_of_singleton]; [by left|]. right. exists a. split; [by left|done].
  - right. exists b. split; [by right|done].
Qed.

Lemma FromScenario_ok load name topo c :
  FromScenarioConfig load name topo = Ok c <-> load name = Ok c /\ CheckScenarioTopology name (md_Annotations (cf_Metadata c)) topo = Ok tt.
Proof.
  unfold FromScenarioConfig. destruct (load name) as [x|]; [|split; [done|by intros [? _]]]. rewrite bind_unit. split; [by intros [? [= <-]]|]. by intros [[= <-] ?].
Qed.

(** Both checks of an annotation look at one key. *)
Lemma check_topology_only name topo c :
  CheckScenarioTopology name ((fun t => {[ topologyKey := t ]}) <$> topology_annotation c) topo = CheckScenarioTopology name (md_Annotations (cf_Metadata c)) topo.
Proof.
  unfold CheckScenarioTopology, topology_annotation. destruct (md_Annotations (cf_Metadata c)) as [a|]; cbn [mbind option_bind]; [|done].
  change topologyKey with "topology". destruct (a !! "topology"); cbn [fmap option_fmap option_map mbind option_bind]; [|done]. by rewrite lookup_singleton_eq.
Qed.

Lemma matches_topology_only name topo c :
  scenarioMatchesTopology name ((fun t => {[ topologyKey := t ]}) <$> topology_annotation c) topo = scenarioMatchesTopology name (md_Annotations (cf_Metadata c)) topo.
Proof.
  unfold scenarioMatchesTopology, topology_annotation. destruct (md_Annotations (cf_Metadata c)) as [a|]; cbn [mbind option_bind]; [|done].
  destruct (a !! topologyKey); cbn [fmap option_fmap option_map mbind option_bind]; [|done]. by rewrite lookup_singleton_eq.
Qed.

Lemma includes_found get c c' name includes d :
  plain_name c -> Forall (fun i => exists x, load_topology (stored_as get c c') i = Ok x) includes ->
  checkPendingIncludes get file name includes {[ FullName c := d ]} = Ok tt.
Proof.
  intros Hp. induction 1 as [|i more (x & Hx) _ IH]; [done|]. cbn [checkPendingIncludes]. rewrite (pending_lookup topologyKey "Topology") by (done || by left).
  rewrite load_stored in Hx by done. destruct (decide _); [exact IH|]. rewrite Hx. cbn [res_map_err res_bind]. exact IH.
Qed.

(** The pending config is the topology. *)
Lemma resolve_pending_topology get c c' scnName check prep' :
  plain_name c -> same_content c c' -> cf_Kind c = "Topology" -> (forall s, decode_topology c = Ok s -> weak_topology c = Ok s) ->
  resolveConfigs (stored_as get c c') (cf_Name c) scnName check ∅ = Ok prep' ->
  exists prep, resolveConfigs get (cf_Name c) scnName check {[ FullName c := described decode_scenario weak_topology c ]} = Ok prep /\
    pr_TopologyName prep = pr_TopologyName prep' /\ pr_ScenarioName prep = pr_ScenarioName prep' /\ pr_Topology prep = None /\ pr_Scenario prep = pr_Scenario prep'.
Proof.
  intros Hp (Hver & Hk' & Hn' & Ha' & Hds & Hdt) Hk Hweak. unfold Workflow.resolveConfigs. rewrite lookup_empty.
  rewrite (pending_lookup topologyKey "Topology") by (done || by left). rewrite decide_True by done.
  intros (topology & (t & Ht & [= <-])%bind_ok & Hrest)%bind_ok.
  assert (checkPendingIncludes get file (cf_Name c) (pc_includes (described decode_scenario weak_topology c)) {[ FullName c := described decode_scenario weak_topology c ]} = Ok tt) as ->.
  { unfold resolveTopology in Ht. apply bind_ok in Ht as (x & Hx & (checked & _ & (_ & _ & Hd)%bind_ok)%bind_ok).
    unfold readConfig in Hx. apply res_map_err_ok in Hx. rewrite (read_stored get c c' topologyKey "Topology") in Hx by done. rewrite decide_True in Hx by done. injection Hx as <-.
    unfold decodeTopology in Hd. apply res_map_err_ok in Hd. unfold DecodeTopologyFromConfig in Hd. apply decode_sound in Hd as [Hr _].
    inversion Hr as [? ? spec ? _ (_ & _ & Hspec) Hi]; subst. apply includes_load in Hi. rewrite Hdt in Hspec.
    unfold described. rewrite Hk. change ("Topology" =? "Scenario")%string with false. cbn [pc_includes]. rewrite (Hweak spec Hspec).
    by apply (includes_found get c c'). }
  cbn [res_bind]. destruct (String.eqb scnName ""); [injection Hrest as <-; eexists; split; [reflexivity|done]|].
  rewrite lookup_empty in Hrest. rewrite (pending_lookup scenarioKey "Scenario") by (done || by right). rewrite decide_False by (rewrite Hk; by intros [? _]).
  assert (resolveScenario decode_scenario get scnName (cf_Name c) check = resolveScenario decode_scenario (stored_as get c c') scnName (cf_Name c) check) as ->.
  { unfold resolveScenario, readConfig. rewrite (read_stored get c c' scenarioKey "Scenario") by done. rewrite decide_False by (rewrite Hk; by intros [? _]).
    assert (load_scenario (stored_as get c c') = load_scenario get) as ->; [|done]. apply functional_extensionality. intros name.
    rewrite scenario_stored by done. apply decide_False. rewrite Hk. by intros [? _]. }
  apply bind_ok in Hrest as (s & -> & [= <-]). eexists. split; [reflexivity|done].
Qed.

(** The pending config is the scenario. *)
Lemma resolve_pending_scenario get c c' topoName check prep' :
  plain_name c -> same_content c c' -> cf_Kind c = "Scenario" ->
  resolveConfigs (stored_as get c c') topoName (cf_Name c) check ∅ = Ok prep' ->
  exists prep, resolveConfigs get topoName (cf_Name c) check {[ FullName c := described decode_scenario weak_topology c ]} = Ok prep /\
    pr_TopologyName prep = pr_TopologyName prep' /\ pr_ScenarioName prep = pr_ScenarioName prep' /\ pr_Topology prep = pr_Topology prep'.
Proof.
  intros Hp (Hver & Hk' & Hn' & Ha' & Hds & Hdt) Hk. unfold Workflow.resolveConfigs. rewrite lookup_empty.
  rewrite (pending_lookup topologyKey "Topology") by (done || by left). rewrite decide_False by (rewrite Hk; by intros [? _]).
  assert (resolveTopology decode_topology get file fuel topoName = resolveTopology decode_topology (stored_as get c c') file fuel topoName) as ->.
  { unfold resolveTopology, readConfig. rewrite (read_stored get c c' topologyKey "Topology") by done. rewrite decide_False by (rewrite Hk; by intros [? _]).
    unfold decodeTopology. assert (load_topology (stored_as get c c') = load_topology get) as ->; [|done]. apply functional_extensionality. intros name.
    rewrite load_stored by done. apply decide_False. rewrite Hk. by intros [? _]. }
  intros (topology & (t & -> & [= <-])%bind_ok & Hrest)%bind_ok. cbn [res_bind].
  destruct (String.eqb (cf_Name c) ""); [injection Hrest as <-; eexists; split; [reflexivity|done]|].
  rewrite lookup_empty in Hrest. rewrite (pending_lookup scenarioKey "Scenario") by (done || by right). rewrite decide_True by done.
  apply bind_ok in Hrest as (s & Hs & [= <-]).
  assert (checkPendingScenario get (cf_Name c) topoName (described decode_scenario weak_topology c) check {[ FullName c := described decode_scenario weak_topology c ]} = Ok tt) as ->;
    [|eexists; split; [reflexivity|done]].
  unfold resolveScenario, readConfig in Hs. rewrite (read_stored get c c' scenarioKey "Scenario") in Hs by done. rewrite decide_True in Hs by done. cbn [res_map_err res_bind] in Hs.
  assert (described decode_scenario weak_topology c = {| pc_described := true; pc_annotations := (fun topo => {[ topologyKey := topo ]}) <$> topology_annotation c;
    pc_from := match DecodeScenarioFromConfig decode_scenario c with Ok s => froms (ss_Apps s) [] | Err _ => [] end; pc_includes := [] |}) as Hdesc by (unfold described; by rewrite Hk).
  assert (pc_described (described decode_scenario weak_topology c) = true /\
    pc_annotations (described decode_scenario weak_topology c) = ((fun topo => {[ topologyKey := topo ]}) <$> topology_annotation c) /\
    pc_from (described decode_scenario weak_topology c) = match DecodeScenarioFromConfig decode_scenario c with Ok s => froms (ss_Apps s) [] | Err _ => [] end) as (Hd1 & Hd2 & Hd3)
    by (rewrite Hdesc; done).
  clear Hdesc. generalize dependent (described decode_scenario weak_topology c). intros d Hd1 Hd2 Hd3. unfold checkPendingScenario. rewrite Hd1, Hd2, Hd3. cbn [negb]. rewrite matches_topology_only, <- Ha'.
  apply bind_ok in Hs as ([] & -> & (spec & Hspec & Hm)%bind_ok). cbn [res_bind]. apply res_map_err_ok in Hspec, Hm.
  unfold MergeScenariosForTopology in Hm. apply bind_ok in Hm as (apps & Hm & _). apply merge_loads in Hm.
  assert (DecodeScenarioFromConfig decode_scenario c = Ok spec) as ->.
  { unfold DecodeScenarioFromConfig in *. unfold config_APIVersion in *. by rewrite Hver, Hk', Hds in Hspec. }
  assert (forall from, from ∈ froms (ss_Apps spec) [] -> exists x, FromScenarioConfig (load_scenario (stored_as get c c')) from topoName = Ok x) as Hfrom.
  { intros from [Hin|(a & Ha & <- & Hne)]%froms_in; [by apply elem_of_nil in Hin|]. rewrite Forall_forall in Hm. by destruct (Hm a Ha). }
  generalize dependent (froms (ss_Apps spec) []). intros l0 Hfrom. assert (forall l, (forall from, from ∈ l -> from ∈ l0) -> check_froms get (cf_Name c) topoName l
    {[ FullName c := d ]} = Ok tt) as Hall; [|by apply Hall].
  induction l as [|from l IH]; intros Hl; [done|]. cbn [check_froms]. rewrite IH by (intros; apply Hl; by right). assert (from ∈ l0) as Hin by (apply Hl; by left).
  destruct (Hfrom from Hin) as (x & [Hload Hx]%FromScenario_ok). unfold checkFromScenario.
  rewrite (pending_lookup scenarioKey "Scenario") by (done || by right). rewrite scenario_stored in Hload by done. destruct (decide _).
  - injection Hload as <-. rewrite Hd1, Hd2, check_topology_only, <- Ha', Hx. done.
  - rewrite (proj2 (FromScenario_ok _ _ _ x)) by done. done.
Qed.

(** C13: A dry run with the ref of the topology or the scenario that the plan
    takes, before that config is stored, refuses nothing that the apply will
    accept once it is: if everything resolves after the config was stored, the
    dry run resolves too, with the same names. *)
Theorem dry_run_complete get spec plan exp c c' prep' :
  plain_name c -> same_content c c' -> (forall s, decode_topology c = Ok s -> weak_topology c = Ok s) ->
  (cf_Kind c = "Topology" /\ fst (plan_names spec plan exp) = cf_Name c \/ cf_Kind c = "Scenario" /\ snd (plan_names spec plan exp) = cf_Name c) ->
  Prepare (stored_as get c c') spec plan exp [] = Ok prep' ->
  exists prep, Prepare get spec plan exp [PendingRef c] = Ok prep /\
    pr_TopologyName prep = pr_TopologyName prep' /\ pr_ScenarioName prep = pr_ScenarioName prep'.
Proof.
  intros Hp Hc Hweak Hnames. unfold Workflow.Prepare, pendingConfigs, plan_names in *. cbn [pending_all].
  rewrite (pending_one_ref decode_scenario weak_topology c Hp). cbn [res_bind]. rewrite insert_empty.
  assert (forall topoName scnName check prep', (cf_Kind c = "Topology" /\ topoName = cf_Name c \/ cf_Kind c = "Scenario" /\ scnName = cf_Name c) ->
    resolveConfigs (stored_as get c c') topoName scnName check ∅ = Ok prep' ->
    exists prep, resolveConfigs get topoName scnName check {[ FullName c := described decode_scenario weak_topology c ]} = Ok prep /\
      pr_TopologyName prep = pr_TopologyName prep' /\ pr_ScenarioName prep = pr_ScenarioName prep' /\
      (pr_Topology prep = None \/ pr_Topology prep = pr_Topology prep')) as Hres.
  { intros topoName scnName check p' [[Hk ->]|[Hk ->]] E.
    - apply resolve_pending_topology in E as (p & ? & ? & ? & ? & _); [|done..]. exists p. split_and!; try done. by left.
    - apply resolve_pending_scenario in E as (p & ? & ? & ? & ?); [|done..]. exists p. split_and!; try done. by right. }
  assert (prepareCreate decode_scenario decode_topology (stored_as get c c') file fuel spec ∅ = Ok prep' ->
    cf_Kind c = "Topology" /\ wf_Topology spec = cf_Name c \/ cf_Kind c = "Scenario" /\ wf_Scenario spec = cf_Name c ->
    exists prep, prepareCreate decode_scenario decode_topology get file fuel spec {[ FullName c := described decode_scenario weak_topology c ]} = Ok prep /\
      pr_TopologyName prep = pr_TopologyName prep' /\ pr_ScenarioName prep = pr_ScenarioName prep') as Hcreate.
  { unfold prepareCreate. destruct (String.eqb _ ""); [done|]. intros E Hn. destruct (Hres _ _ _ _ Hn E) as (p & ? & ? & ? & _). by exists p. }
  assert (prepareUpdate decode_scenario decode_topology (stored_as get c c') file fuel spec exp ∅ = Ok prep' ->
    cf_Kind c = "Topology" /\ name_or (wf_Topology spec) exp topologyKey = cf_Name c \/ cf_Kind c = "Scenario" /\ name_or (wf_Scenario spec) exp scenarioKey = cf_Name c ->
    exists prep, prepareUpdate decode_scenario decode_topology get file fuel spec exp {[ FullName c := described decode_scenario weak_topology c ]} = Ok prep /\
      pr_TopologyName prep = pr_TopologyName prep' /\ pr_ScenarioName prep = pr_ScenarioName prep') as Hupdate.
  { unfold prepareUpdate. destruct (String.eqb _ ""); [done|]. intros (p' & E & Hrest)%bind_ok Hn. destruct (Hres _ _ _ _ Hn E) as (p & -> & Ht & Hs & Htopo). cbn [res_bind].
    assert (pr_TopologyName prep' = pr_TopologyName p' /\ pr_ScenarioName prep' = pr_ScenarioName p') as [-> ->].
    { destruct (pr_Topology p') as [t|]; [|by injection Hrest as <-]. destruct (vlanAliases t _); [|done]. destruct (nodeSchedules t _); [|done]. by injection Hrest as <-. }
    destruct Htopo as [->| ->]; [by exists p|]. destruct (pr_Topology p') as [t|]; [|by exists p].
    destruct (vlanAliases t _); [|done]. destruct (nodeSchedules t _); [|done]. eexists. split; [reflexivity|done]. }
  destruct (pl_Action plan); cbn [fst snd] in Hnames; auto. intros [= <-]. by eexists.
Qed.

(** A dry run does not see a pending config below a stored one: when the
    stored topology of the plan includes a topology that is not there yet, the
    dry run fails, whatever configs it is told are pending. *)
Theorem dry_run_reads_stored get spec plan exp refs pending c spec_c include err :
  pl_Action plan <> ActionNone -> pendingConfigs refs = Ok pending ->
  let topoName := fst (plan_names spec plan exp) in
  topoName <> "" -> free "/" topoName = true -> pending !! ("Topology/" +:+ topoName) = None ->
  get (blank "Topology" topoName) = Ok c -> own decode_topology c spec_c -> include ∈ ts_IncludeTopologies spec_c -> load_topology get include = Err err ->
  exists e, Prepare get spec plan exp refs = Err e.
Proof.
  intros Ha Hrefs topoName. assert (topoName = fst (plan_names spec plan exp)) as Htopo by done. clearbody topoName. intros Hne Hfree Hnone Hget Hown Hin Hload.
  assert (forall scnName check, exists e, resolveConfigs get topoName scnName check pending = Err e) as Hres.
  { intros scnName check. unfold Workflow.resolveConfigs, ConfigFullName. change topologyKey with "topology". rewrite (proj1 kinds_named). change ("Topology" =? "")%string with false. cbn match.
    change ("Topology" +:+ "/" +:+ topoName) with ("Topology/" +:+ topoName). rewrite Hnone.
    destruct (resolveTopology decode_topology get file fuel topoName) as [t|e] eqn:E; [|by eexists]. exfalso. unfold resolveTopology in E.
    apply bind_ok in E as (x & Hx & (t1 & Ht1 & _)%bind_ok). unfold readConfig, NewConfig in Hx. change (topologyKey +:+ "/" +:+ topoName) with ("topology" +:+ String "/" topoName) in Hx.
    rewrite (proj2 (split_free "/" "topology" eq_refl)), (proj1 (split_free _ _ Hfree)), (proj1 kinds_named) in Hx. change ("Topology" =? "")%string with false in Hx.
    cbn [res_bind] in Hx. rewrite Hget in Hx. injection Hx as <-. unfold decodeTopology in Ht1. apply res_map_err_ok in Ht1. unfold DecodeTopologyFromConfig in Ht1.
    apply decode_sound in Ht1 as [Hr _]. inversion Hr as [? ? spec' ? _ (_ & _ & Hspec) Hi]; subst. destruct Hown as (_ & _ & Hspec').
    assert (spec' = spec_c) as -> by congruence. apply includes_load in Hi. rewrite Forall_forall in Hi. destruct (Hi include Hin) as [y Hy]. congruence. }
  assert (topoName = wf_Topology spec -> exists e, prepareCreate decode_scenario decode_topology get file fuel spec pending = Err e) as Hcreate.
  { intros Heq. unfold prepareCreate. rewrite <- Heq, (proj2 (String.eqb_neq _ _) Hne). apply Hres. }
  assert (topoName = name_or (wf_Topology spec) exp topologyKey -> exists e, prepareUpdate decode_scenario decode_topology get file fuel spec exp pending = Err e) as Hupdate.
  { intros Heq. unfold prepareUpdate. rewrite <- Heq, (proj2 (String.eqb_neq _ _) Hne). destruct (Hres (name_or (wf_Scenario spec) exp scenarioKey) false) as [e ->]. by eexists. }
  unfold Workflow.Prepare. rewrite Hrefs. cbn [res_bind]. unfold plan_names in Htopo. destruct (pl_Action plan); cbn [fst] in Htopo; auto. done.
Qed.

End DryRun.
