(* ===== verification/Specs.v ===== *)
(** * types/builder/spec.go: node specs

    A spec is a decoded object. These are the readers and writers of its
    fields, and [normalizeSpec], which makes what YAML and JSON decoders give
    one form. *)

From Stdlib Require Import ZArith Lia Ascii String Strings.Byte.
From stdpp Require Import base option list gmap strings.
From S2P Require Import Prelude Text Document.

Open Scope Z_scope.
Open Scope go_scope.

(** ** Fields of a map *)

(** [m[key] = value]: the place of a key is kept. *)
Fixpoint set_field (fields : spec) (key : string) (value : any) : spec :=
  match fields with
  | [] => [(key, value)]
  | (k, v) :: fields => if String.eqb k key then (k, value) :: fields else (k, v) :: set_field fields key value
  end.

(** [delete(m, key)]. *)
Definition delete_field (fields : spec) (key : string) : spec :=
  List.filter (fun '(k, _) => negb (String.eqb k key)) fields.

(** [value, _ := m[key].(string)], the map of an entry, and its list. *)
Definition field_string (fields : spec) (key : string) : string :=
  match field fields key with Some (Str s) => s | _ => "" end.

Definition as_map (value : any) : option spec := match value with Obj fields => Some fields | _ => None end.

Definition field_list (fields : spec) (key : string) : list any :=
  match field fields key with Some (Arr l) => l | _ => [] end.

(** [m[key] != nil]. *)
Definition field_set (fields : spec) (key : string) : bool :=
  match field fields key with None | Some Null => false | _ => true end.

(** ** spec.go *)

Definition specNodeInterfaces (s : spec) : list any :=
  match field s "network" with
  | Some (Obj network) => field_list network "interfaces"
  | _ => []
  end.

(** The spec with other interfaces in the place of those it has. *)
Definition with_interfaces (s : spec) (ifaces : list any) : spec :=
  match field s "network" with
  | Some (Obj network) =>
      match field network "interfaces" with
      | Some (Arr _) => set_field s "network" (Obj (set_field network "interfaces" (Arr ifaces)))
      | _ => s
      end
  | _ => s
  end.

(** [specSetString]: the spec as it is changed, or nothing when a value on the
    way is not a map. *)
Fixpoint specSetString (s : spec) (value : string) (keys : list string) : option spec :=
  match keys with
  | [] => None
  | [key] => Some (set_field s key (Str value))
  | key :: keys =>
      match field s key with
      | None | Some Null => created ← specSetString [] value keys; Some (set_field s key (Obj created))
      | Some (Obj inner) => inner ← specSetString inner value keys; Some (set_field s key (Obj inner))
      | _ => None
      end
  end.

(** [math.Abs]; [int] of a float that is whole. *)
Definition f_abs (f : float64) : float64 :=
  match f with
  | NaN => NaN
  | Inf _ => Inf false
  | Fin m e => Fin (Z.abs m) e
  end.

Definition f_to_int (f : float64) : Z :=
  match f with
  | Fin m e => if e <? 0 then Z.quot m (2 ^ (- e)) else m * 2 ^ e
  | _ => 0
  end.

Definition MaxInt32 : Z := 2 ^ 31 - 1.

Definition f_is_inf (f : float64) : bool := match f with Inf _ => true | _ => false end.

(** What [normalizeSpec] and [normalizeSpecMap] fail with: a key that is not a
    string, and a value that is not an object. *)
Inductive spec_error : Type :=
  | NonStringKey (key : any)
  | NotObject (value : any).

(** The entries of a map and the items of a list, one after the other, until
    one fails. *)
Definition map_res {E A B} (f : A -> res E B) : list A -> res E (list B) :=
  fix go l :=
    match l with
    | [] => Ok []
    | a :: l => let? b := f a in let? rest := go l in Ok (b :: rest)
    end.

Fixpoint normalizeSpec (value : any) : res spec_error any :=
  match value with
  | Obj fields => let? out := map_res (fun '(key, val) => let? v := normalizeSpec val in Ok (key, v)) fields in Ok (Obj out)
  | AnyMap fields =>
      let? out := map_res (fun '(key, val) =>
        match key with
        | Str key => let? v := normalizeSpec val in Ok (key, v)
        | _ => Err (NonStringKey key)
        end) fields in Ok (Obj out)
  | Arr l => let? out := map_res normalizeSpec l in Ok (Arr out)
  | Num f =>
      if f_eqb f (Trunc f) && negb (f_is_inf f) && f_leb (f_abs f) (f_int MaxInt32) then Ok (Int (f_to_int f)) else Ok (Num f)
  | _ => Ok value
  end.

(** [normalizeSpecMap]: nothing for a value that is nil. *)
Definition normalizeSpecMap (value : any) : res spec_error (option spec) :=
  let? normalized := normalizeSpec value in
  match normalized with
  | Null => Ok None
  | Obj fields => Ok (Some fields)
  | _ => Err (NotObject value)
  end.

Definition interfaceName (iface : any) : string :=
  match iface with Obj fields => field_string fields "name" | _ => "" end.

Definition interfaceVLAN (iface : any) : string :=
  match iface with Obj fields => field_string fields "vlan" | _ => "" end.

(** ** Values *)

(** Induction over values: what holds of the parts holds of the whole. *)
Section Induction.
Context (P : any -> Prop).
Context (HNull : P Null) (HBool : forall b, P (Bool b)) (HInt : forall n, P (Int n)) (HNum : forall f, P (Num f)) (HStr : forall s, P (Str s)).
Context (HArr : forall l, Forall P l -> P (Arr l)).
Context (HObj : forall fields, Forall (fun f => P (snd f)) fields -> P (Obj fields)).
Context (HAny : forall fields, Forall (fun f => P (snd f)) fields -> P (AnyMap fields)).

Fixpoint any_parts (v : any) : P v :=
  match v with
  | Null => HNull
  | Bool b => HBool b
  | Int n => HInt n
  | Num f => HNum f
  | Str s => HStr s
  | Arr l => HArr l ((fix go l : Forall P l := match l with [] => Forall_nil_2 P | v :: l => Forall_cons_2 P v l (any_parts v) (go l) end) l)
  | Obj fields =>
      HObj fields ((fix go l : Forall (fun f => P (snd f)) l :=
         match l with [] => Forall_nil_2 _ | f :: l => Forall_cons_2 _ f l (any_parts (snd f)) (go l) end) fields)
  | AnyMap fields =>
      HAny fields ((fix go l : Forall (fun f => P (snd f)) l :=
         match l with [] => Forall_nil_2 _ | f :: l => Forall_cons_2 _ f l (any_parts (snd f)) (go l) end) fields)
  end.

End Induction.
