(* ===== verification/Decimal.v ===== *)
(** * Decimal numbers: [strconv.Itoa] and [strconv.Atoi]

    The reading of decimal digits and its agreement with the writing of them
    in the prelude. *)

From Stdlib Require Import ZArith Lia Ascii String Strings.Byte.
From stdpp Require Import base option list gmap strings sorting.
From S2P Require Import Prelude Text.

Open Scope Z_scope.
Open Scope go_scope.

(** The value of ASCII digits. *)
Definition digits_value (l : list Z) : Z := foldl (fun acc b => acc * 10 + (b - 48)) 0 l.

Definition maxInt : Z := 2 ^ 63 - 1.
Definition minInt : Z := - 2 ^ 63.

(** [strconv.Atoi]: the value and whether it is one. Out of range, the value
    is the nearest int; of no number, it is 0. *)
Definition Atoi (s : string) : Z * bool :=
  let l := bytes_Z s in
  let signed := (hd 0 l =? 43) || (hd 0 l =? 45) in
  let digits := if signed then tail l else l in
  if match digits with [] => true | _ => negb (forallb is_digit digits) end then (0, false)
  else
    let v := digits_value digits in
    let v := if hd 0 l =? 45 then - v else v in
    if maxInt <? v then (maxInt, false)
    else if v <? minInt then (minInt, false)
    else (v, true).

(** ** Canonical digits *)

Definition all_digits (l : list Z) : Prop := Forall (fun b => 48 <= b <= 57) l.

(** At least one digit, and no leading zero. *)
Definition canonical (l : list Z) : Prop :=
  l <> [] /\ all_digits l /\ (hd 0 l = 48 -> length l = 1%nat).

Lemma is_digit_iff b : is_digit b = true <-> 48 <= b <= 57.
Proof. unfold is_digit, in_range. rewrite andb_true_iff. lia. Qed.

Lemma all_digits_iff l : forallb is_digit l = true <-> all_digits l.
Proof.
  unfold all_digits. rewrite forallb_Forall. unfold is_digit, in_range.
  split; intros Hl; (eapply Forall_impl; [exact Hl|]); intros b ?; simpl in *; lia.
Qed.

Lemma digits_value_snoc l b : digits_value (l ++ [b]) = digits_value l * 10 + (b - 48).
Proof. unfold digits_value. by rewrite foldl_app. Qed.

Lemma all_digits_snoc l b : all_digits (l ++ [b]) <-> all_digits l /\ 48 <= b <= 57.
Proof. unfold all_digits. by rewrite Forall_app, Forall_singleton. Qed.

Lemma digits_value_bounds l :
  all_digits l -> 0 <= digits_value l < 10 ^ Z.of_nat (length l).
Proof.
  induction l as [|b l IH] using rev_ind; [done|].
  intros [Hl Hb]%all_digits_snoc. specialize (IH Hl).
  rewrite digits_value_snoc, length_app, Nat2Z.inj_add, Z.pow_add_r by lia.
  change (10 ^ Z.of_nat (length [b])) with 10. lia.
Qed.

Lemma canonical_snoc l b : canonical (l ++ [b]) -> l <> [] -> canonical l /\ 1 <= digits_value l.
Proof.
  intros (_ & [Hl Hb]%all_digits_snoc & Hz) Hne. destruct l as [|a l]; [done|].
  assert (a <> 48) as Ha.
  { intros ->. specialize (Hz eq_refl). rewrite length_app in Hz. simpl in Hz. lia. }
  split; [split; [done|]; split; [done|]; intros Hh; by simpl in Hh|].
  clear Hz Hne. revert Hl. induction l as [|c l IH] using rev_ind.
  - intros [Ha' _]%Forall_cons. unfold digits_value. simpl. lia.
  - rewrite app_comm_cons. intros [Hl Hc]%all_digits_snoc.
    rewrite digits_value_snoc. specialize (IH Hl). lia.
Qed.

(** A number is written in one way. *)
Lemma canonical_inj l l' :
  canonical l -> canonical l' -> digits_value l = digits_value l' -> l = l'.
Proof.
  revert l'. induction l as [|b l IH] using rev_ind; intros l'; [by intros [? _]|].
  destruct (decide (l' = [])) as [->|]; [by intros _ [? _]|].
  destruct l' as [|b' l'] using rev_ind; [done|]. clear IHl'.
  intros Hc Hc'. rewrite !digits_value_snoc. intros Hv.
  assert (48 <= b <= 57 /\ 48 <= b' <= 57) as [Hb Hb'].
  { destruct Hc as (_ & [_ ?]%all_digits_snoc & _).
    destruct Hc' as (_ & [_ ?]%all_digits_snoc & _). done. }
  assert (digits_value l = digits_value l' /\ b = b') as [Hl ->] by lia.
  f_equal. destruct (decide (l = [])) as [->|Hn], (decide (l' = [])) as [->|Hn']; [done| | |].
  - destruct (canonical_snoc _ _ Hc' Hn') as [_ ?]. unfold digits_value in Hl at 1. simpl in Hl. lia.
  - destruct (canonical_snoc _ _ Hc Hn) as [_ ?]. unfold digits_value in Hl at 2. simpl in Hl. lia.
  - apply IH; [by apply (canonical_snoc _ b')|by apply (canonical_snoc _ b')|done].
Qed.

(** The digits at the start of a text, and the rest. *)
Fixpoint span_digits (l : list Z) : list Z * list Z :=
  match l with
  | b :: l' => if is_digit b then let '(ds, r) := span_digits l' in (b :: ds, r) else ([], l)
  | [] => ([], [])
  end.

Lemma span_digits_spec l :
  l = fst (span_digits l) ++ snd (span_digits l) /\ all_digits (fst (span_digits l)) /\
  is_digit (hd 0 (snd (span_digits l))) = false.
Proof.
  induction l as [|b l (IH1 & IH2 & IH3)]; [by repeat constructor|]. simpl.
  destruct (is_digit b) eqn:Hb; [|by repeat constructor].
  destruct (span_digits l) as [ds r]. simpl in *. subst. split; [done|]. split; [|done].
  constructor; [|done]. unfold is_digit, in_range in Hb. lia.
Qed.

Lemma span_digits_app ds r :
  all_digits ds -> is_digit (hd 0 r) = false -> span_digits (ds ++ r) = (ds, r).
Proof.
  intros Hd Hr. induction Hd as [|b ds Hb Hds IH]; simpl.
  - destruct r as [|b r]; [done|]. simpl in *. by rewrite Hr.
  - by rewrite IH, (proj2 (is_digit_iff b)).
Qed.

(** ** Writing and reading *)

Lemma digit_char_Z d : 0 <= d < 10 -> ascii_Z (digit_char d) = 48 + d.
Proof. intros Hd. unfold digit_char, ascii_Z. rewrite N_ascii_embedding; lia. Qed.

Lemma bytes_Z_cons a s : bytes_Z (String a s) = ascii_Z a :: bytes_Z s.
Proof. done. Qed.

Lemma itoa_pos_spec n z acc :
  0 <= z < 10 ^ Z.of_nat n ->
  exists ds, bytes_Z (itoa_pos n z acc) = ds ++ bytes_Z acc /\
             (n <> O -> canonical ds) /\ digits_value ds = z.
Proof.
  revert z acc. induction n as [|n IH]; intros z acc Hz.
  - exists []. simpl in *. split; [done|]. split; [done|]. unfold digits_value. simpl. lia.
  - rewrite Nat2Z.inj_succ, Z.pow_succ_r in Hz by lia. cbn [itoa_pos].
    destruct (z <? 10) eqn:Hs; [apply Z.ltb_lt in Hs|apply Z.ltb_ge in Hs].
    + exists [48 + z]. rewrite bytes_Z_cons, digit_char_Z by lia. split; [done|].
      split; [|unfold digits_value; simpl; lia]. intros _. split; [done|]. split; [|done].
      apply Forall_singleton. lia.
    + destruct (IH (z / 10) (String (digit_char (z mod 10)) acc) ltac:(zlia)) as (ds & Hds & Hc & Hv).
      exists (ds ++ [48 + z mod 10]). rewrite Hds, bytes_Z_cons, digit_char_Z, <- app_assoc by zlia.
      split; [done|]. split; [|rewrite digits_value_snoc, Hv; zlia]. intros _.
      assert (n <> O) as Hn by (intros ->; simpl in Hz; lia). destruct (Hc Hn) as (Hne & Hd & Hh).
      split; [by destruct ds|]. split; [apply all_digits_snoc; split; [done|zlia]|].
      destruct ds as [|d ds]; [done|]. cbn [app hd]. intros ->. specialize (Hh eq_refl).
      destruct ds; [|done]. unfold digits_value in Hv. simpl in Hv. zlia.
Qed.

Lemma itoa_canonical z :
  0 <= z < 10 ^ 20 -> canonical (bytes_Z (itoa z)) /\ digits_value (bytes_Z (itoa z)) = z.
Proof.
  intros Hz. unfold itoa. rewrite (proj2 (Z.ltb_ge z 0)) by lia.
  destruct (itoa_pos_spec 20 z "" Hz) as (ds & -> & Hc & Hv). rewrite app_nil_r. split; [by apply Hc|done].
Qed.

(** Canonical digits are what [Itoa] writes of their value. *)
Lemma canonical_itoa l :
  canonical l -> digits_value l < 10 ^ 20 -> l = bytes_Z (itoa (digits_value l)).
Proof.
  intros Hl Hv. pose proof (digits_value_bounds l ltac:(apply Hl)) as Hb.
  destruct (itoa_canonical (digits_value l)) as [Hc Hd]; [lia|].
  by apply canonical_inj.
Qed.

Lemma itoa_inj x y : 0 <= x < 10 ^ 20 -> 0 <= y < 10 ^ 20 -> itoa x = itoa y -> x = y.
Proof.
  intros Hx Hy H. destruct (itoa_canonical x Hx) as [_ <-]. destruct (itoa_canonical y Hy) as [_ <-].
  by rewrite H.
Qed.

Lemma Atoi_itoa z : 0 <= z <= maxInt -> Atoi (itoa z) = (z, true).
Proof.
  intros Hz. destruct (itoa_canonical z) as [(Hne & Hd & _) Hv]; [unfold maxInt in *; lia|].
  unfold Atoi. set (l := bytes_Z (itoa z)) in *.
  assert (hd 0 l =? 43 = false /\ hd 0 l =? 45 = false) as [H43 H45].
  { destruct l as [|b l]; [done|]. apply Forall_cons in Hd as [Hb _]. simpl. lia. }
  rewrite H43, H45. cbn [orb]. rewrite Hv. apply all_digits_iff in Hd. rewrite Hd.
  destruct l; [done|]. cbn [negb]. unfold minInt, maxInt in *.
  rewrite (proj2 (Z.ltb_ge _ _)), (proj2 (Z.ltb_ge _ _)) by lia. done.
Qed.
