(* ===== verification/Settings.v ===== *)
(** * api/settings: settings in the config store

    The settings that a server keeps as configs of their own kind, the
    defaults that are filled in when some are missing, and the rules of
    passwords, which are settings. *)

From Stdlib Require Import ZArith Lia Ascii String Strings.Byte.
From stdpp Require Import base option list gmap strings.
From S2P Require Import Prelude Text Decimal Document Config.

Open Scope Z_scope.
Open Scope go_scope.

(** ** defaults.go, types *)

(** [v2.Setting]. *)
Record Setting : Type := { sg_Category : string; sg_Name : string; sg_Value : string; sg_Type : string }.

#[export] Instance Setting_eq_dec : EqDecision Setting.
Proof. solve_decision. Defined.

Definition MaxPasswordMinLen : Z := 32.
Definition MinPasswordMinLen : Z := 8.
Definition MaxPasswordBytes : Z := 72.
Definition settingCategoryPassword : string := "Password".
Definition settingCategoryLogging : string := "Logging".
Definition settingCategoryTimeout : string := "Timeout".
Definition settingAPIVersion : string := "phenix.sandia.gov/v2".
Definition settingKind : string := "Setting".

Definition FormatBool (b : bool) : string := if b then "true" else "false".

Definition ParseBool (s : string) : option bool :=
  if bool_decide (s ∈ ["1"; "t"; "T"; "true"; "TRUE"; "True"]) then Some true
  else if bool_decide (s ∈ ["0"; "f"; "F"; "false"; "FALSE"; "False"]) then Some false
  else None.

(** [parseInt]: [strconv.ParseInt] with 32 bits. *)
Definition parseInt (s : string) : option Z :=
  let '(z, ok) := Atoi s in if ok && (- 2 ^ 31 <=? z) && (z <? 2 ^ 31) then Some z else None.

(** [formatInt] of an int32. *)
Definition formatInt (z : Z) : string := itoa z.

Definition default_of (category name typ value : string) : Setting := {| sg_Category := category; sg_Name := name; sg_Value := value; sg_Type := typ |}.

Definition DefaultSettings : list Setting :=
  [default_of settingCategoryPassword "NumberReq" "bool" (FormatBool true); default_of settingCategoryPassword "SymbolReq" "bool" (FormatBool true);
   default_of settingCategoryPassword "LowercaseReq" "bool" (FormatBool true); default_of settingCategoryPassword "UppercaseReq" "bool" (FormatBool false);
   default_of settingCategoryPassword "MinLength" "int" (formatInt 8);
   default_of settingCategoryTimeout "Enabled" "bool" (FormatBool false); default_of settingCategoryTimeout "TimeoutMin" "float64" "30";
   default_of settingCategoryTimeout "WarningMin" "float64" "3";
   default_of settingCategoryLogging "MaxFileRotations" "int" (formatInt 0); default_of settingCategoryLogging "MaxFileSize" "int" (formatInt 100);
   default_of settingCategoryLogging "MaxFileAge" "int" (formatInt 90)].

Definition GetStoreName (category name : string) : string := category +:+ "." +:+ name.

Definition store_name (s : Setting) : string := GetStoreName (sg_Category s) (sg_Name s).

Definition with_value (s : Setting) (value : string) : Setting := {|
  sg_Category := sg_Category s; sg_Name := sg_Name s; sg_Value := value; sg_Type := sg_Type s |}.

Definition existsAlready (name category : string) (existing : list Setting) : bool :=
  existsb (fun s => String.eqb (sg_Name s) name && String.eqb (sg_Category s) category) existing.

(** ** passwords.go: reading settings *)

Record PasswordSettings : Type := { LowercaseReq : bool; UppercaseReq : bool; NumberReq : bool; SymbolReq : bool; MinLength : Z }.

Definition no_password_settings : PasswordSettings := {|
  LowercaseReq := false; UppercaseReq := false; NumberReq := false; SymbolReq := false; MinLength := 0 |}.

Definition set_lower (p : PasswordSettings) b := {| LowercaseReq := b; UppercaseReq := UppercaseReq p; NumberReq := NumberReq p; SymbolReq := SymbolReq p; MinLength := MinLength p |}.
Definition set_upper (p : PasswordSettings) b := {| LowercaseReq := LowercaseReq p; UppercaseReq := b; NumberReq := NumberReq p; SymbolReq := SymbolReq p; MinLength := MinLength p |}.
Definition set_number (p : PasswordSettings) b := {| LowercaseReq := LowercaseReq p; UppercaseReq := UppercaseReq p; NumberReq := b; SymbolReq := SymbolReq p; MinLength := MinLength p |}.
Definition set_symbol (p : PasswordSettings) b := {| LowercaseReq := LowercaseReq p; UppercaseReq := UppercaseReq p; NumberReq := NumberReq p; SymbolReq := b; MinLength := MinLength p |}.
Definition set_length (p : PasswordSettings) z := {| LowercaseReq := LowercaseReq p; UppercaseReq := UppercaseReq p; NumberReq := NumberReq p; SymbolReq := SymbolReq p; MinLength := z |}.

Definition parse_error (s : Setting) : cerror := CError (Sprintf "error parsing %s.%s setting" [AStr (sg_Category s); AStr (sg_Name s)]).

(** One setting of the loop. *)
Definition password_step (p : PasswordSettings) (s : Setting) : res cerror PasswordSettings :=
  if negb (String.eqb (sg_Category s) settingCategoryPassword) then Ok p
  else
    let parsed {A} (r : option A) (set : A -> PasswordSettings) := match r with Some a => Ok (set a) | None => Err (parse_error s) end in
    if String.eqb (sg_Name s) "NumberReq" then parsed (ParseBool (sg_Value s)) (set_number p)
    else if String.eqb (sg_Name s) "SymbolReq" then parsed (ParseBool (sg_Value s)) (set_symbol p)
    else if String.eqb (sg_Name s) "LowercaseReq" then parsed (ParseBool (sg_Value s)) (set_lower p)
    else if String.eqb (sg_Name s) "UppercaseReq" then parsed (ParseBool (sg_Value s)) (set_upper p)
    else if String.eqb (sg_Name s) "MinLength" then parsed (parseInt (sg_Value s)) (set_length p)
    else Ok p.

Fixpoint password_steps (p : PasswordSettings) (l : list Setting) : res cerror PasswordSettings :=
  match l with
  | [] => Ok p
  | s :: l => let? p := password_step p s in password_steps p l
  end.

Definition GetPasswordSettingsFromList : list Setting -> res cerror PasswordSettings := password_steps no_password_settings.

(** ** logfile.go *)

Record LoggingSettings : Type := { MaxFileRotations : Z; MaxFileSize : Z; MaxFileAge : Z }.

Definition logging_step (p : LoggingSettings) (s : Setting) : res cerror LoggingSettings :=
  if negb (String.eqb (sg_Category s) settingCategoryLogging) then Ok p
  else
    let parsed (set : Z -> LoggingSettings) := match parseInt (sg_Value s) with Some z => Ok (set z) | None => Err (parse_error s) end in
    if String.eqb (sg_Name s) "MaxFileRotations" then parsed (fun z => {| MaxFileRotations := z; MaxFileSize := MaxFileSize p; MaxFileAge := MaxFileAge p |})
    else if String.eqb (sg_Name s) "MaxFileSize" then parsed (fun z => {| MaxFileRotations := MaxFileRotations p; MaxFileSize := z; MaxFileAge := MaxFileAge p |})
    else if String.eqb (sg_Name s) "MaxFileAge" then parsed (fun z => {| MaxFileRotations := MaxFileRotations p; MaxFileSize := MaxFileSize p; MaxFileAge := z |})
    else Ok p.

Fixpoint logging_steps (p : LoggingSettings) (l : list Setting) : res cerror LoggingSettings :=
  match l with
  | [] => Ok p
  | s :: l => let? p := logging_step p s in logging_steps p l
  end.

Definition GetLoggingSettingsFromList : list Setting -> res cerror LoggingSettings :=
  logging_steps {| MaxFileRotations := 0; MaxFileSize := 0; MaxFileAge := 0 |}.

(** ** Passwords *)

(** The tables of package unicode that a password is looked up in. *)
Class RuneClasses := { IsNumber : Z -> bool; IsLower : Z -> bool; IsUpper : Z -> bool; IsSymbol : Z -> bool; IsPunct : Z -> bool }.

(** The class of a rune: the first that the switch finds. *)
Inductive rune_kind : Type := KNumber | KLower | KUpper | KSymbol | KOther.

#[export] Instance rune_kind_eq_dec : EqDecision rune_kind.
Proof. solve_decision. Defined.

Definition kind_of `{RuneClasses} (c : Z) : rune_kind :=
  if IsNumber c then KNumber else if IsLower c then KLower else if IsUpper c then KUpper else if IsSymbol c || IsPunct c then KSymbol else KOther.

(** [IsPasswordValid], given the settings. *)
Definition password_valid `{RuneClasses} (ps : PasswordSettings) (password : string) : bool :=
  let found k := existsb (fun c => bool_decide (kind_of c = k)) (runes password) in
  if MaxPasswordBytes <? slen password then false
  else if Z.of_nat (length (runes password)) <? MinLength ps then false
  else (found KLower || negb (LowercaseReq ps)) && (found KUpper || negb (UppercaseReq ps)) &&
       (found KNumber || negb (NumberReq ps)) && (found KSymbol || negb (SymbolReq ps)).

(** ** settings.go: the store *)

Section Settings.
Context {S : Type} `{Unicode, Store S}.

(** mapstructure and structs between a setting and the map of its config. *)
Context (decode_setting : Config -> res string Setting) (encode_setting : Setting -> spec).

(** A setting as it is given to the store: nothing else of its config is kept. *)
Definition setting_config (s : Setting) : Config := {|
  cf_Version := settingAPIVersion; cf_Kind := settingKind;
  cf_Metadata := {| md_Name := store_name s; md_Created := ""; md_Updated := ""; md_Annotations := None |};
  cf_Spec := Some (encode_setting s); cf_Status := None |}.

Definition decode_one (name : string) (c : Config) : res cerror Setting :=
  res_map_err (fun what => CWrapped (Sprintf "decoding setting %s" [AStr name]) (CError (lit what))) (decode_setting c).

Definition GetSetting (e : cenv) (category name : string) : st S cerror Setting :=
  let combined := GetStoreName category name in
  let! c := st_lift (res_map_err (CWrapped (Sprintf "creating setting config %s" [AStr combined])) (NewConfig ("setting/" +:+ combined))) in
  let! c := st_wrap (CWrapped (Sprintf "getting setting config %s from store" [AStr combined])) (store_Get e c) in
  st_lift (decode_one combined c).

(** The n-th access and those after it. *)
Definition later (n : nat) (es : nat -> cenv) : nat -> cenv := fun k => es (n + k)%nat.

Fixpoint set_missing (es : nat -> cenv) (defaults existing : list Setting) : st S cerror (list Setting) :=
  match defaults with
  | [] => st_ret []
  | d :: defaults =>
      if existsAlready (sg_Name d) (sg_Category d) existing then set_missing es defaults existing
      else fun s =>
        match store_Create (es 0%nat) (setting_config d) s with
        | (Ok _, s) => (let! rest := set_missing (later 1 es) defaults existing in st_ret (d :: rest)) s
        | (Err err, s) =>
            if is_exist err then
              (let! stored := GetSetting (es 1%nat) (sg_Category d) (sg_Name d) in
               let! rest := set_missing (later 2 es) defaults existing in
               st_ret (stored :: rest)) s
            else (Err (CWrapped (Sprintf "storing setting %s" [AStr (store_name d)]) err), s)
        end
  end.

Definition setMissingDefaults (es : nat -> cenv) (existing : list Setting) : st S cerror (list Setting) :=
  let! added := set_missing es DefaultSettings existing in st_ret (existing ++ added).

Fixpoint decode_settings (configs : list Config) : res cerror (list Setting) :=
  match configs with
  | [] => Ok []
  | c :: configs => let? s := decode_one (cf_Name c) c in let? rest := decode_settings configs in Ok (s :: rest)
  end.

Definition List (es : nat -> cenv) : st S cerror (list Setting) :=
  let! configs := st_wrap (CWrapped (lit "getting list of settings from store")) (store_List (es 0%nat) [settingKind]) in
  let! settings := st_lift (decode_settings configs) in
  if (length settings <? length DefaultSettings)%nat then setMissingDefaults (later 1 es) settings else st_ret settings.

(** Whether the value changed. *)
Definition Update (es : nat -> cenv) (category name value : string) : st S cerror bool :=
  let! old := st_wrap (CWrapped (lit "error getting existing setting")) (GetSetting (es 0%nat) category name) in
  if String.eqb (sg_Value old) value then st_ret false
  else
    let c := setting_config (with_value old value) in
    let c := {| cf_Version := cf_Version c; cf_Kind := cf_Kind c;
                cf_Metadata := {| md_Name := GetStoreName category name; md_Created := ""; md_Updated := ""; md_Annotations := None |};
                cf_Spec := cf_Spec c; cf_Status := None |} in
    let! _ := st_wrap (CWrapped (Sprintf "storing setting %s" [AStr (GetStoreName category name)])) (store_Update (es 1%nat) c) in
    st_ret true.

(** A type that is none of these is not checked; [float_ok] is whether
    [strconv.ParseFloat] takes the value. *)
Definition verify (float_ok : string -> bool) (typ value : string) : res cerror unit :=
  let bad := Err (CError (Sprintf "error parsing %s" [AStr typ])) in
  if String.eqb typ "bool" then match ParseBool value with Some _ => Ok tt | None => bad end
  else if String.eqb typ "int" then match parseInt value with Some _ => Ok tt | None => bad end
  else if String.eqb typ "float64" then if float_ok value then Ok tt else bad
  else Ok tt.

Definition UpdateWithVerification (float_ok : string -> bool) (es : nat -> cenv) (category name value : string) : st S cerror unit :=
  let! old := st_wrap (CWrapped (lit "error getting existing setting")) (GetSetting (es 0%nat) category name) in
  if String.eqb (sg_Value old) value then st_ret tt
  else
    let! _ := st_lift (res_map_err (CWrapped (lit "error verifying setting")) (verify float_ok (sg_Type old) value)) in
    let c := setting_config (with_value old value) in
    let c := {| cf_Version := cf_Version c; cf_Kind := cf_Kind c;
                cf_Metadata := {| md_Name := GetStoreName category name; md_Created := ""; md_Updated := ""; md_Annotations := None |};
                cf_Spec := cf_Spec c; cf_Status := None |} in
    let! _ := st_wrap (CWrapped (Sprintf "storing setting %s" [AStr (GetStoreName category name)])) (store_Update (es 1%nat) c) in
    st_ret tt.

Fixpoint set_defaults (es : nat -> cenv) (defaults : list Setting) : st S cerror unit :=
  match defaults with
  | [] => st_ret tt
  | d :: defaults =>
      let! _ := st_wrap (CWrapped (Sprintf "storing setting %s" [AStr (store_name d)])) (store_Create (es 0%nat) (setting_config d)) in
      set_defaults (later 1 es) defaults
  end.

Definition SetDefaults (es : nat -> cenv) : st S cerror unit := set_defaults es DefaultSettings.

(** ** Passwords in the store *)

Definition GetPasswordSettings (es : nat -> cenv) : st S cerror PasswordSettings :=
  let! l := List es in st_lift (GetPasswordSettingsFromList l).

(** Several settings of a category, one after the other: two accesses each. *)
Fixpoint update_each (es : nat -> cenv) (label category : string) (l : list (string * string)) : st S cerror unit :=
  match l with
  | [] => st_ret tt
  | (name, value) :: l =>
      let! _ := st_wrap (CWrapped (Sprintf "error updating %s.%s" [AStr label; AStr name])) (Update es category name value) in
      update_each (later 2 es) label category l
  end.

Definition UpdatePasswordSettings (es : nat -> cenv) (p : PasswordSettings) : st S cerror unit :=
  if (MaxPasswordMinLen <? MinLength p) || (MinLength p <? MinPasswordMinLen) then
    st_err (CError (Sprintf "minimum password length must be between %d and %d" [AInt MinPasswordMinLen; AInt MaxPasswordMinLen]))
  else
    update_each es "Settings" settingCategoryPassword
      [("NumberReq", FormatBool (NumberReq p)); ("SymbolReq", FormatBool (SymbolReq p)); ("LowercaseReq", FormatBool (LowercaseReq p));
       ("UppercaseReq", FormatBool (UppercaseReq p)); ("MinLength", formatInt (MinLength p))].

(** The log files are changed as well, each after its setting. *)
Definition UpdateLoggingSettings (es : nat -> cenv) (p : LoggingSettings) : st S cerror unit :=
  update_each es "Logging" settingCategoryLogging
    [("MaxFileRotations", formatInt (MaxFileRotations p)); ("MaxFileSize", formatInt (MaxFileSize p)); ("MaxFileAge", formatInt (MaxFileAge p))].

(** No password is valid when the settings cannot be read. *)
Definition IsPasswordValid `{RuneClasses} (es : nat -> cenv) (password : string) (s : S) : bool * S :=
  if MaxPasswordBytes <? slen password then (false, s)
  else
    match GetPasswordSettings es s with
    | (Err _, s) => (false, s)
    | (Ok ps, s) => (password_valid ps password, s)
    end.

End Settings.
