(* ===== verification/SettingsSpec.v ===== *)
(** * Settings: what is read back, and which passwords can be valid *)

From Stdlib Require Import ZArith Lia Ascii String Strings.Byte.
From stdpp Require Import base option list gmap strings.
From S2P Require Import Prelude Text Url Decimal Document Config Settings.
From S2P Require Record.

Open Scope Z_scope.
Open Scope go_scope.

(** ** Reading the settings of passwords from a list *)

Definition matches (category name : string) (s : Setting) : bool := String.eqb (sg_Category s) category && String.eqb (sg_Name s) name.

(** The value of the last setting of a name. *)
Definition last_value (category name : string) (l : list Setting) : option string := sg_Value <$> last (List.filter (matches category name) l).

Lemma matches_iff category name s : matches category name s = true <-> sg_Category s = category /\ sg_Name s = name.
Proof. unfold matches. by rewrite andb_true_iff, !String.eqb_eq. Qed.

Lemma last_value_all category name l v :
  (exists s, s ∈ l /\ sg_Category s = category /\ sg_Name s = name) ->
  (forall s, s ∈ l -> sg_Category s = category -> sg_Name s = name -> sg_Value s = v) -> last_value category name l = Some v.
Proof.
  intros (s & Hs & Hc & Hn) Hall. unfold last_value. assert (s ∈ List.filter (matches category name) l) as Hin.
  { apply list_elem_of_In, filter_In. split; [by apply list_elem_of_In|by apply matches_iff]. }
  destruct (last (List.filter (matches category name) l)) as [x|] eqn:E; [|by apply last_None in E; rewrite E in Hin; apply elem_of_nil in Hin].
  cbn. f_equal. apply last_Some_elem_of in E. apply list_elem_of_In, filter_In in E as [Hx [? ?]%matches_iff]. apply Hall; [by apply list_elem_of_In|done..].
Qed.

(** What the loop over the settings leaves in a field. *)
Definition field_of {A} (parse : string -> option A) (name : string) (l : list Setting) (old new : A) : Prop :=
  match last_value settingCategoryPassword name l with None => new = old | Some v => parse v = Some new end.

Lemma field_cons {A} (parse : string -> option A) name s l (old mid new : A) :
  (if matches settingCategoryPassword name s then parse (sg_Value s) = Some mid else mid = old) ->
  field_of parse name l mid new -> field_of parse name (s :: l) old new.
Proof.
  unfold field_of, last_value. cbn [List.filter]. destruct (matches settingCategoryPassword name s).
  - intros Hs. destruct (List.filter (matches settingCategoryPassword name) l) as [|x r] eqn:E; [cbn; intros ->; done|].
    rewrite last_cons_cons. destruct (last (x :: r)) as [y|] eqn:Ey; [done|]. by apply last_None in Ey.
  - by intros ->.
Qed.

Ltac settle_field En Ep :=
  match goal with |- context [String.eqb (sg_Name ?s) ?n] =>
    destruct (String.eqb_spec (sg_Name s) n) as [En'|En'];
    first [reflexivity | exact Ep | exfalso; apply En'; exact En | exfalso; rewrite En in En'; discriminate En' | congruence]
  end.

Lemma password_steps_fields p l p' :
  password_steps p l = Ok p' ->
  field_of ParseBool "NumberReq" l (NumberReq p) (NumberReq p') /\ field_of ParseBool "SymbolReq" l (SymbolReq p) (SymbolReq p') /\
  field_of ParseBool "LowercaseReq" l (LowercaseReq p) (LowercaseReq p') /\ field_of ParseBool "UppercaseReq" l (UppercaseReq p) (UppercaseReq p') /\
  field_of parseInt "MinLength" l (MinLength p) (MinLength p').
Proof.
  revert p. induction l as [|s l IH]; intros p; cbn [password_steps]; [by intros [= ->]|].
  intros (p1 & Hs & Hl)%bind_ok. destruct (IH _ Hl) as (H1 & H2 & H3 & H4 & H5).
  cut ((if matches settingCategoryPassword "NumberReq" s then ParseBool (sg_Value s) = Some (NumberReq p1) else NumberReq p1 = NumberReq p) /\
       (if matches settingCategoryPassword "SymbolReq" s then ParseBool (sg_Value s) = Some (SymbolReq p1) else SymbolReq p1 = SymbolReq p) /\
       (if matches settingCategoryPassword "LowercaseReq" s then ParseBool (sg_Value s) = Some (LowercaseReq p1) else LowercaseReq p1 = LowercaseReq p) /\
       (if matches settingCategoryPassword "UppercaseReq" s then ParseBool (sg_Value s) = Some (UppercaseReq p1) else UppercaseReq p1 = UppercaseReq p) /\
       (if matches settingCategoryPassword "MinLength" s then parseInt (sg_Value s) = Some (MinLength p1) else MinLength p1 = MinLength p)).
  { intros (F1 & F2 & F3 & F4 & F5). split_and!; eapply field_cons; eassumption. }
  unfold password_step in Hs. unfold matches. destruct (String.eqb (sg_Category s) settingCategoryPassword); cbn [negb andb] in *; [|by injection Hs as <-].
  destruct (String.eqb_spec (sg_Name s) "NumberReq") as [En|N1]; [|destruct (String.eqb_spec (sg_Name s) "SymbolReq") as [En|N2];
      [|destruct (String.eqb_spec (sg_Name s) "LowercaseReq") as [En|N3]; [|destruct (String.eqb_spec (sg_Name s) "UppercaseReq") as [En|N4];
      [|destruct (String.eqb_spec (sg_Name s) "MinLength") as [En|N5]; [|by injection Hs as <-]]]]];
    (destruct (ParseBool (sg_Value s)) as [b|] eqn:Ep || idtac); try (destruct (parseInt (sg_Value s)) as [z|] eqn:Ez);
    try done; injection Hs as <-; try rewrite En; cbn; rewrite ?Ep, ?Ez; done.
Qed.

(** Every setting of a password that is read can be parsed. *)
Definition parses (s : Setting) : Prop :=
  sg_Category s = settingCategoryPassword ->
  (sg_Name s ∈ ["NumberReq"; "SymbolReq"; "LowercaseReq"; "UppercaseReq"] -> is_Some (ParseBool (sg_Value s))) /\
  (sg_Name s = "MinLength" -> is_Some (parseInt (sg_Value s))).

Lemma password_steps_total p l : Forall parses l -> exists p', password_steps p l = Ok p'.
Proof.
  intros Hl. revert p. induction Hl as [|s l Hs _ IH]; intros p; cbn [password_steps]; [by eexists|].
  cut (exists p1, password_step p s = Ok p1); [intros [p1 ->]; apply IH|].
  unfold password_step. destruct (String.eqb_spec (sg_Category s) settingCategoryPassword) as [Hc|]; cbn [negb]; [|by eexists].
  destruct (Hs Hc) as [Hb Hz].
  destruct (String.eqb_spec (sg_Name s) "NumberReq") as [En|N1]; [|destruct (String.eqb_spec (sg_Name s) "SymbolReq") as [En|N2];
      [|destruct (String.eqb_spec (sg_Name s) "LowercaseReq") as [En|N3]; [|destruct (String.eqb_spec (sg_Name s) "UppercaseReq") as [En|N4];
      [|destruct (String.eqb_spec (sg_Name s) "MinLength") as [En|N5]; [destruct (Hz En) as [z ->]; by eexists|by eexists]]]]];
    (destruct Hb as [b ->]; [rewrite En; set_solver|by eexists]).
Qed.

Lemma ParseBool_FormatBool b : ParseBool (FormatBool b) = Some b.
Proof. by destruct b. Qed.

Lemma parseInt_formatInt z : 0 <= z < 2 ^ 31 -> parseInt (formatInt z) = Some z.
Proof.
  intros Hz. unfold parseInt, formatInt. rewrite Atoi_itoa by (unfold maxInt; lia).
  by rewrite (proj2 (Z.leb_le _ _)), (proj2 (Z.ltb_lt _ _)) by lia.
Qed.

(** ** Runes *)

Lemma runes_fuel_length n l : (length (runes_fuel n l) <= length l)%nat.
Proof.
  revert l. induction n as [|n IH]; intros l; [destruct l; cbn; lia|]. destruct l as [|b l]; [done|]. cbn [runes_fuel].
  destruct (decode_rune (b :: l)) as [r w] eqn:E. pose proof (decode_rune_width (b :: l) ltac:(done)) as Hw. rewrite E in Hw. cbn [snd] in Hw.
  specialize (IH (drop w (b :: l))). rewrite length_drop in IH. change (S (length (runes_fuel n (drop w (b :: l)))) <= length (b :: l))%nat. lia.
Qed.

(** No more runes than bytes. *)
Lemma runes_length s : Z.of_nat (length (runes s)) <= slen s.
Proof.
  unfold runes, runes_w. rewrite length_map. pose proof (runes_fuel_length (length (bytes_Z s)) (bytes_Z s)) as Hl.
  unfold slen. rewrite <- length_bytes_Z. apply Nat2Z.inj_le. exact Hl.
Qed.

(** A minimum above the most bytes that are hashed. *)
Lemma long_minimum `{RuneClasses} ps password : MaxPasswordBytes < MinLength ps -> password_valid ps password = false.
Proof.
  intros Hlong. unfold password_valid. destruct (Z.ltb_spec MaxPasswordBytes (slen password)); [done|].
  pose proof (runes_length password). by rewrite (proj2 (Z.ltb_lt _ _)) by lia.
Qed.

(** ** Names of settings in the store *)

Lemma store_name_inj c1 n1 c2 n2 :
  free "." c1 = true -> free "." c2 = true -> GetStoreName c1 n1 = GetStoreName c2 n2 -> c1 = c2 /\ n1 = n2.
Proof.
  intros H1 H2 E. pose proof (proj2 (cut_free _ _ H1) n1) as E1. pose proof (proj2 (cut_free _ _ H2) n2) as E2.
  unfold GetStoreName in E. change ("." +:+ n1) with (String "."%char n1) in E. change ("." +:+ n2) with (String "."%char n2) in E.
  rewrite E in E1. rewrite E1 in E2. by injection E2 as <- <-.
Qed.

Lemma split_one c s n : split_on c s = [n] -> n = s.
Proof.
  revert n. induction s as [|a s IH]; intros n; cbn [split_on]; [by intros [= <-]|].
  destruct (Record.split_on_nonempty c s) as (p & ps & E). rewrite E in IH |- *. destruct (Ascii.eqb a c); [done|]. intros [= <- ->]. by rewrite (IH p).
Qed.

(** ** The store *)

Section Spec.
Context {S : Type} `{Unicode, Laws : StoreLaws S}.
Context (decode_setting : Config -> res string Setting) (encode_setting : Setting -> spec).
Context (decode_encode : forall s c, cf_Spec c = Some (encode_setting s) -> decode_setting (kept c) = Ok s).
Context (setting_fold : canonicalKind "setting" = settingKind).
Implicit Types (s : S) (e : cenv) (es : nat -> cenv).

Notation GetSetting := (GetSetting decode_setting).
Notation Update := (Update decode_setting encode_setting).
Notation List := (List decode_setting encode_setting).
Notation set_missing := (set_missing decode_setting encode_setting).
Notation setting_config := (setting_config encode_setting).

(** The setting of a name as it is stored. *)
Definition stored s (category name : string) (x : Setting) : Prop :=
  exists c, view s settingKind (GetStoreName category name) = Some c /\ decode_setting c = Ok x.

(** Every stored setting decodes to one of the name it is stored under, and no
    category has a dot. *)
Definition settings_ok s : Prop :=
  forall name c, view s settingKind name = Some c -> exists x, decode_setting c = Ok x /\ store_name x = name /\ free "." (sg_Category x) = true.

Lemma stored_name s category name x : settings_ok s -> free "." category = true -> stored s category name x -> sg_Category x = category /\ sg_Name x = name.
Proof.
  intros Hok Hf (c & Hc & Hx). destruct (Hok _ _ Hc) as (y & Hy & Hn & Hfy). rewrite Hx in Hy. injection Hy as <-.
  by apply store_name_inj in Hn.
Qed.

Lemma stored_fun s category name x y : stored s category name x -> stored s category name y -> x = y.
Proof. intros (c & Hc & Hx) (d & Hd & Hy). rewrite Hc in Hd. injection Hd as <-. rewrite Hx in Hy. by injection Hy. Qed.

Lemma same_stored s s' : (forall n, view s' settingKind n = view s settingKind n) ->
  (settings_ok s -> settings_ok s') /\ forall category name x, stored s' category name x <-> stored s category name x.
Proof.
  intros Hv. split; [intros Hok name c; rewrite Hv; apply Hok|]. intros category name x. unfold stored. by setoid_rewrite Hv.
Qed.

Lemma setting_storable : storable (blank settingKind "x").
Proof. apply store_kinds. unfold settingKind. cbn. set_solver. Qed.

Lemma NewConfig_setting name c : NewConfig ("setting/" +:+ name) = Ok c -> c = blank settingKind name.
Proof.
  unfold NewConfig. change ("setting/" +:+ name) with ("setting" +:+ String "/"%char name).
  rewrite (proj2 (split_free "/"%char "setting" eq_refl)). rewrite setting_fold. destruct (split_on "/"%char name) as [|n [|]] eqn:E; try done.
  intros [= <-]. by rewrite (split_one _ _ _ E).
Qed.

Lemma GetSetting_ok e category name s r s' :
  store_valid s -> GetSetting e category name s = (r, s') ->
  store_valid s' /\ (forall k n, view s' k n = view s k n) /\ (forall x, r = Ok x -> stored s category name x) /\
  (NewConfig ("setting/" +:+ GetStoreName category name) = Ok (blank settingKind (GetStoreName category name)) -> healthy e ->
   forall x, stored s category name x -> r = Ok x).
Proof.
  intros Hs. unfold Settings.GetSetting, st_bind, st_wrap, st_lift. destruct (NewConfig _) as [c|err] eqn:Ec; cbn [res_map_err]; [|by intros [= <- <-]].
  rewrite (NewConfig_setting _ _ Ec). destruct (store_Get e _ s) as [r1 s1] eqn:Eg.
  apply store_get_ok in Eg as (Hs1 & Hv1 & Hr); [|done|apply setting_storable].
  destruct r1 as [c1|err]; cbn [res_map_err]; intros [= <- <-]; (split; [done|]); (split; [done|]).
  - unfold decode_one. split.
    + intros x. destruct (decode_setting c1) as [y|] eqn:Ed; [|done]. intros [= <-]. by exists c1.
    + intros _ _ x (d & Hd & Hx). rewrite Hr in Hd. injection Hd as <-. by rewrite Hx.
  - split; [done|]. intros _ Hh x (d & Hd & _). by rewrite (proj2 Hr Hh) in Hd.
Qed.

(** What a change of one setting does to the others. *)
Definition others_same s s' (category name : string) : Prop :=
  forall n, n <> GetStoreName category name -> view s' settingKind n = view s settingKind n.

Lemma update_stored e c x old category name s r s' :
  store_valid s -> settings_ok s -> free "." category = true -> stored s category name old ->
  cf_Kind c = settingKind -> cf_Name c = GetStoreName category name -> cf_Spec c = Some (encode_setting x) -> sg_Category x = category -> sg_Name x = name ->
  store_Update e c s = (r, s') ->
  store_valid s' /\ settings_ok s' /\
  match r with Ok _ => stored s' category name x /\ others_same s s' category name | Err _ => forall k n, view s' k n = view s k n end.
Proof.
  intros Hs Hok Hf (d & Hd & _) Hk Hn Hsp Hc Hx E.
  destruct (store_view_names _ _ _ _ Hs Hd) as (Hkd & Hnd & Hst).
  assert (storable c) as Hstc by (eapply (store_storable d); congruence).
  apply store_update_ok in E as [Hs' Hr]; [|done..]. split; [done|]. destruct r as [c'|err].
  - destruct Hr as (-> & _ & Hv).
    assert (decode_setting (kept (updated_at (c_now e) c)) = Ok x) as Hx' by (by apply decode_encode).
    assert (others_same s s' category name) as Hother.
    { intros n Hne. rewrite Hv. unfold view_set. rewrite decide_False; [done|]. intros [_ ->]. by apply Hne. }
    assert (view s' settingKind (GetStoreName category name) = Some (kept (updated_at (c_now e) c))) as Hnew.
    { rewrite Hv. unfold view_set. by rewrite decide_True. }
    split; [|split; [by eexists|done]]. intros n c' Hc'. destruct (decide (n = GetStoreName category name)) as [->|Hne].
    + rewrite Hnew in Hc'. injection Hc' as <-. exists x. split; [done|]. unfold store_name. by rewrite Hc, Hx.
    + rewrite Hother in Hc' by done. by apply Hok.
  - split; [|apply Hr]. eapply same_stored; [|done]. intros n. apply Hr.
Qed.

Lemma with_value_same x : with_value x (sg_Value x) = x.
Proof. by destruct x. Qed.

Lemma Update_ok es category name value s b s' :
  store_valid s -> settings_ok s -> free "." category = true -> Update es category name value s = (Ok b, s') ->
  store_valid s' /\ settings_ok s' /\ others_same s s' category name /\
  exists old, stored s category name old /\ stored s' category name (with_value old value).
Proof.
  intros Hs Hok Hf. unfold Settings.Update, st_bind, st_wrap, st_lift. destruct (GetSetting _ _ _ s) as [r1 s1] eqn:Eg.
  apply GetSetting_ok in Eg as (Hs1 & Hv1 & Hr & _); [|done]. destruct (same_stored _ _ (Hv1 settingKind)) as [Hok1 Hst1].
  destruct r1 as [old|]; cbn [res_map_err]; [|done]. specialize (Hr old eq_refl). destruct (stored_name _ _ _ _ Hok Hf Hr) as [Hc Hn].
  destruct (String.eqb_spec (sg_Value old) value) as [<-|Hne].
  - intros [= <- <-]. split; [done|]. split; [by apply Hok1|]. split; [by intros n _|]. exists old. rewrite with_value_same. split; [done|]. by apply Hst1.
  - destruct (store_Update _ _ s1) as [r2 s2] eqn:Eu.
    apply (update_stored _ _ (with_value old value) old category name) in Eu as (Hs2 & Hok2 & Hr2); try done; [|by apply Hok1|by apply Hst1].
    destruct r2 as [c'|]; cbn [res_map_err]; [|done]. intros [= <- <-]. split; [done|]. split; [done|]. destruct Hr2 as [Hnew Hother].
    split; [intros n Hn'; rewrite Hother by done; apply Hv1|]. by exists old.
Qed.

Lemma update_each_ok label category l es s s' :
  store_valid s -> settings_ok s -> free "." category = true -> NoDup (map fst l) ->
  update_each decode_setting encode_setting es label category l s = (Ok tt, s') ->
  store_valid s' /\ settings_ok s' /\ (forall n, ~ (exists name, name ∈ map fst l /\ n = GetStoreName category name) -> view s' settingKind n = view s settingKind n) /\
  forall name value, (name, value) ∈ l -> exists x, stored s' category name x /\ sg_Value x = value.
Proof.
  revert es s. induction l as [|[name value] l IH]; intros es s Hs Hok Hf Hnd; cbn [update_each].
  - intros [= <-]. split; [done|]. split; [done|]. split; [done|]. set_solver.
  - unfold st_bind, st_wrap. destruct (Update _ _ _ _ s) as [r1 s1] eqn:Eu. destruct r1 as [b|]; cbn [res_map_err]; [|done].
    apply Update_ok in Eu as (Hs1 & Hok1 & Ho1 & old & _ & Hnew); [|done..]. intros E. cbn [map fst] in Hnd. apply NoDup_cons in Hnd as [Hni Hnd].
    apply IH in E as (Hs2 & Hok2 & Ho2 & Hl2); [|done..]. split; [done|]. split; [done|]. split.
    + intros n Hn. rewrite Ho2; [apply Ho1|].
      * intros ->. apply Hn. exists name. split; [by left|done].
      * intros (m & Hm & ->). apply Hn. exists m. split; [by right|done].
    + intros m v [[= -> ->]|Hin]%elem_of_cons; [|by apply Hl2]. exists (with_value old value). split; [|done].
      destruct Hnew as (c & Hc & Hx). exists c. split; [|done]. rewrite Ho2; [done|]. intros (m & Hm & [_ ->]%store_name_inj); done.
Qed.

(** ** Lists *)

Lemma decode_settings_ok configs l :
  decode_settings decode_setting configs = Ok l -> forall x, x ∈ l <-> exists c, c ∈ configs /\ decode_setting c = Ok x.
Proof.
  revert l. induction configs as [|c configs IH]; intros l; cbn [decode_settings]; [intros [= <-]; set_solver|].
  intros (x & Hx & Hl)%bind_ok. apply bind_ok in Hl as (rest & Hrest & [= <-]). unfold decode_one in Hx. destruct (decode_setting c) as [x'|] eqn:Ed; [|done].
  injection Hx as ->. intros y. rewrite elem_of_cons, (IH _ Hrest). split.
  - intros [->|(d & Hd & Hy)]; [exists c; split; [by left|done]|exists d; split; [by right|done]].
  - intros (d & [->|Hd]%elem_of_cons & Hy); [left; congruence|right; by exists d].
Qed.

Lemma decode_settings_total configs : (forall c, c ∈ configs -> exists x, decode_setting c = Ok x) -> exists l, decode_settings decode_setting configs = Ok l.
Proof.
  induction configs as [|c configs IH]; intros Hall; cbn [decode_settings]; [by eexists|]. unfold decode_one.
  destruct (Hall c) as [x ->]; [by left|]. destruct IH as [l ->]; [intros d Hd; apply Hall; by right|]. by eexists.
Qed.

(** The settings that are added are those that are missing. *)
Definition was_missing (existing : list Setting) (x : Setting) : Prop :=
  exists d, d ∈ DefaultSettings /\ existsAlready (sg_Name d) (sg_Category d) existing = false /\ sg_Category x = sg_Category d /\ sg_Name x = sg_Name d.

Lemma default_category d : d ∈ DefaultSettings -> free "." (sg_Category d) = true.
Proof. unfold DefaultSettings. intros Hd. repeat (apply elem_of_cons in Hd as [->|Hd]; [reflexivity|]). by apply elem_of_nil in Hd. Qed.

Context (default_storable : forall d, d ∈ DefaultSettings -> storable (setting_config d)).

Lemma create_stored e d s r s' :
  d ∈ DefaultSettings -> store_valid s -> settings_ok s -> store_Create e (setting_config d) s = (r, s') ->
  store_valid s' /\ settings_ok s' /\
  (forall n, n <> store_name d -> view s' settingKind n = view s settingKind n) /\
  match r with Ok _ => healthy e -> view s settingKind (store_name d) = None | Err _ => forall k n, view s' k n = view s k n end.
Proof.
  intros Hd Hs Hok E. apply store_create_ok in E as (Hs' & _ & Hr); [|done|by apply default_storable]. split; [done|]. destruct r as [c'|err].
  - destruct Hr as (-> & Hnone & Hv).
    assert (forall n, n <> store_name d -> view s' settingKind n = view s settingKind n) as Hother.
    { intros n Hne. rewrite Hv. unfold view_set. rewrite decide_False; [done|]. intros [_ ->]. by apply Hne. }
    split; [|split; [done|intros He; apply Hnone, (proj2 He)]]. intros n c Hc. destruct (decide (n = store_name d)) as [->|Hne]; [|rewrite Hother in Hc by done; by apply Hok].
    rewrite Hv in Hc. unfold view_set in Hc. rewrite decide_True in Hc by done. injection Hc as <-. exists d.
    split; [by apply decode_encode|]. split; [done|by apply default_category].
  - split; [|split; [done|apply Hr]]. eapply same_stored; [|done]. intros n. apply Hr.
Qed.

Lemma set_missing_ok defaults es existing s r s' :
  (forall d, d ∈ defaults -> d ∈ DefaultSettings) -> store_valid s -> settings_ok s -> set_missing es defaults existing s = (r, s') ->
  store_valid s' /\ settings_ok s' /\ forall added, r = Ok added -> Forall (was_missing existing) added.
Proof.
  revert es s r s'. induction defaults as [|d defaults IH]; intros es s r s' Hd Hs Hok; cbn [Settings.set_missing].
  - intros [= <- <-]. split; [done|]. split; [done|]. by intros added [= <-].
  - assert (forall d, d ∈ defaults -> d ∈ DefaultSettings) as Hd' by (intros; apply Hd; by right).
    destruct (existsAlready _ _ existing) eqn:Ex; [by apply IH|]. destruct (store_Create _ _ s) as [r1 s1] eqn:Ec.
    apply create_stored in Ec as (Hs1 & Hok1 & _ & _); [|apply Hd; by left|done..]. destruct r1 as [c1|err].
    + unfold st_bind. destruct (set_missing _ _ _ s1) as [r2 s2] eqn:Em. apply IH in Em as (Hs2 & Hok2 & Hm2); [|done..].
      destruct r2 as [rest|]; intros [= <- <-]; (split; [done|]); (split; [done|]); [|done].
      intros added [= <-]. constructor; [|by apply Hm2]. exists d. split; [apply Hd; by left|done].
    + destruct (is_exist err); [|by intros [= <- <-]]. unfold st_bind. destruct (GetSetting _ _ _ s1) as [r2 s2] eqn:Eg.
      apply GetSetting_ok in Eg as (Hs2 & Hv2 & Hg & _); [|done]. destruct (same_stored _ _ (Hv2 settingKind)) as [Hok2 _].
      destruct r2 as [x|]; [|intros [= <- <-]; split; [done|]; split; [by apply Hok2|done]].
      destruct (set_missing _ _ _ s2) as [r3 s3] eqn:Em. apply IH in Em as (Hs3 & Hok3 & Hm3); [|done|done|by apply Hok2].
      destruct r3 as [rest|]; intros [= <- <-]; (split; [done|]); (split; [done|]); [|done].
      intros added [= <-]. constructor; [|by apply Hm3]. exists d. split; [apply Hd; by left|]. split; [done|].
      apply (stored_name s1 _ _ _ Hok1); [apply default_category, Hd; by left|by apply Hg].
Qed.

(** What is listed: what is stored, then what was missing. *)
Lemma List_ok es s r s' :
  store_valid s -> settings_ok s -> List es s = (r, s') ->
  store_valid s' /\ settings_ok s' /\
  (forall l, r = Ok l -> exists l0 added, l = l0 ++ added /\ Forall (was_missing l0) added /\
     forall x, x ∈ l0 <-> exists name c, view s settingKind name = Some c /\ decode_setting c = Ok x) /\
  ((forall n, healthy (es n)) -> (forall d, d ∈ DefaultSettings -> exists x, stored s (sg_Category d) (sg_Name d) x) -> exists l, r = Ok l).
Proof.
  intros Hs Hok. unfold Settings.List, setMissingDefaults, st_bind, st_wrap, st_lift. destruct (store_List _ _ s) as [r1 s1] eqn:El.
  apply store_list_ok in El as (Hs1 & Hv1 & Hr1); [|done|apply Forall_singleton, setting_storable]. destruct (same_stored _ _ (Hv1 settingKind)) as [Hok1 _].
  destruct r1 as [configs|err]; cbn [res_map_err]; [|intros [= <- <-]; split; [done|]; split; [by apply Hok1|]; split; [done|]; intros Hh; by apply Hr1 in Hh].
  assert (forall c, c ∈ configs <-> exists name, view s settingKind name = Some c) as Hin.
  { intros c. rewrite Hr1. split; [intros (k & n & Hk & Hc); apply list_elem_of_singleton in Hk as ->; by exists n|].
    intros [n Hc]. exists settingKind, n. split; [by left|done]. }
  destruct (decode_settings_total configs) as [l0 Hl0]. { intros c [n Hc]%Hin. destruct (Hok _ _ Hc) as (x & Hx & _). by exists x. }
  rewrite Hl0. pose proof (decode_settings_ok _ _ Hl0) as Hin0.
  assert (forall x, x ∈ l0 <-> exists name c, view s settingKind name = Some c /\ decode_setting c = Ok x) as Hin1.
  { intros x. rewrite Hin0. split; [intros (c & [n Hc]%Hin & Hx); by exists n, c|intros (n & c & Hc & Hx); exists c; split; [apply Hin; by exists n|done]]. }
  cbn [res_map_err]. destruct (Nat.ltb_spec (length l0) (length DefaultSettings)) as [Hlt|Hge].
  - destruct (set_missing _ _ _ s1) as [r2 s2] eqn:Em. apply set_missing_ok in Em as (Hs2 & Hok2 & Hm2); [|done|done|by apply Hok1].
    intros E. assert (s' = s2 /\ (forall l, r = Ok l -> exists added, r2 = Ok added /\ l = l0 ++ added)) as [-> Hr].
    { destruct r2; injection E as <- <-; (split; [done|]); [|done]. intros l [= <-]. by eexists. }
    split; [done|]. split; [done|]. split.
    + intros l Hl. destruct (Hr l Hl) as (added & -> & ->). exists l0, added. split; [done|]. split; [by apply Hm2|done].
    + intros _ Hall. exfalso. apply Nat.lt_nge in Hlt. apply Hlt.
      rewrite <- (length_map store_name DefaultSettings), <- (length_map store_name l0). apply submseteq_length, NoDup_submseteq; [apply NoDup_ListNoDup; repeat constructor; cbn; intuition discriminate|].
      intros n. rewrite !list_elem_of_In, !in_map_iff. intros (d & <- & Hd%list_elem_of_In). destruct (Hall d Hd) as (x & Hx).
      destruct (stored_name _ _ _ _ Hok (default_category d Hd) Hx) as [Hc Hn]. exists x. split; [by unfold store_name; rewrite Hc, Hn|].
      apply list_elem_of_In, Hin1. destruct Hx as (c & Hc' & Hx). by eexists _, c.
  - intros [= <- <-]. split; [done|]. split; [by apply Hok1|]. split; [|intros; by eexists]. intros l [= <-]. exists l0, []. by rewrite app_nil_r.
Qed.

(** ** Settings of passwords *)

(** What is stored as the value of a setting is what the last of the list has. *)
Lemma listed_value s l0 added category name x :
  settings_ok s -> free "." category = true -> (forall y, y ∈ l0 <-> exists n c, view s settingKind n = Some c /\ decode_setting c = Ok y) ->
  Forall (was_missing l0) added -> stored s category name x ->
  forall y, y ∈ l0 ++ added -> sg_Category y = category -> sg_Name y = name -> y ∈ l0 /\ y = x.
Proof.
  intros Hok Hf Hin Hadd Hx y Hy Hc Hn.
  assert (forall z, z ∈ l0 -> sg_Category z = category -> sg_Name z = name -> z = x) as Hsame.
  { intros z Hz Hcz Hnz. apply Hin in Hz as (n & c & Hv & Hd). destruct (Hok _ _ Hv) as (z' & Hz' & Hsn & _). rewrite Hd in Hz'. injection Hz' as <-.
    apply (stored_fun s category name); [|done]. exists c. split; [|done]. rewrite <- Hsn in Hv. unfold store_name in Hv. by rewrite Hcz, Hnz in Hv. }
  apply elem_of_app in Hy as [Hy|Hy]; [split; [done|by apply Hsame]|]. exfalso.
  apply (proj1 (Forall_forall _ _) Hadd) in Hy as (d & _ & Hex & Hdc & Hdn). rewrite <- Hdc, <- Hdn, Hc, Hn in Hex.
  destruct (stored_name _ _ _ _ Hok Hf Hx) as [Hxc Hxn]. destruct Hx as (c & Hv & Hd).
  assert (existsAlready name category l0 = true) as Ht; [|by rewrite Ht in Hex].
  apply existsb_exists. exists x. split; [apply list_elem_of_In, Hin; by eexists _, c|]. by rewrite Hxc, Hxn, !String.eqb_refl.
Qed.

(** What the stored value of one setting makes of a list. *)
Lemma field_listed {A} (parse : string -> option A) s l0 added name x (old new : A) :
  settings_ok s -> (forall y, y ∈ l0 <-> exists n c, view s settingKind n = Some c /\ decode_setting c = Ok y) ->
  Forall (was_missing l0) added -> stored s settingCategoryPassword name x ->
  field_of parse name (l0 ++ added) old new -> parse (sg_Value x) = Some new.
Proof.
  intros Hok Hin Hadd Hx. unfold field_of. pose proof (stored_name s settingCategoryPassword name x Hok eq_refl Hx) as [Hc Hn].
  rewrite (last_value_all _ _ _ (sg_Value x)); [done| |].
  - exists x. split; [|done]. apply elem_of_app. left. apply Hin. destruct Hx as (c & Hv & Hd). by eexists _, c.
  - intros y Hy Hyc Hyn. by destruct (listed_value s l0 added settingCategoryPassword name x Hok eq_refl Hin Hadd Hx y Hy Hyc Hyn) as [_ ->].
Qed.

Lemma password_eta p q :
  NumberReq p = NumberReq q -> SymbolReq p = SymbolReq q -> LowercaseReq p = LowercaseReq q -> UppercaseReq p = UppercaseReq q -> MinLength p = MinLength q -> p = q.
Proof. destruct p, q. cbn. congruence. Qed.

(** C16: the password settings that an administrator saves are the ones that
    passwords are checked against from then on: an update that succeeds has a
    minimum length of 8 to 32, every later read gives exactly these settings,
    and, when all defaults are stored, a read from a store that works
    succeeds. *)
Theorem password_settings_saved es p s s1 :
  store_valid s -> settings_ok s -> UpdatePasswordSettings decode_setting encode_setting es p s = (Ok tt, s1) ->
  store_valid s1 /\ settings_ok s1 /\ MinPasswordMinLen <= MinLength p <= MaxPasswordMinLen /\
  forall es' r s2, GetPasswordSettings decode_setting encode_setting es' s1 = (r, s2) ->
    (forall q, r = Ok q -> q = p) /\
    ((forall n, healthy (es' n)) -> (forall d, d ∈ DefaultSettings -> exists x, stored s1 (sg_Category d) (sg_Name d) x) -> r = Ok p).
Proof.
  intros Hs Hok. unfold UpdatePasswordSettings. destruct (_ || _) eqn:Eb; [done|]. apply orb_false_iff in Eb as [Hmax%Z.ltb_ge Hmin%Z.ltb_ge]. intros E.
  apply update_each_ok in E as (Hs1 & Hok1 & _ & Hl); [|done|done|done|apply NoDup_ListNoDup; repeat constructor; cbn; intuition discriminate].
  destruct (Hl "NumberReq" (FormatBool (NumberReq p))) as (x1 & Hx1 & Hv1); [set_solver|]. destruct (Hl "SymbolReq" (FormatBool (SymbolReq p))) as (x2 & Hx2 & Hv2); [set_solver|].
  destruct (Hl "LowercaseReq" (FormatBool (LowercaseReq p))) as (x3 & Hx3 & Hv3); [set_solver|]. destruct (Hl "UppercaseReq" (FormatBool (UppercaseReq p))) as (x4 & Hx4 & Hv4); [set_solver|].
  destruct (Hl "MinLength" (formatInt (MinLength p))) as (x5 & Hx5 & Hv5); [set_solver|]. clear Hl.
  split; [done|]. split; [done|]. split; [by split|]. intros es' r s2. unfold GetPasswordSettings, st_bind, st_lift.
  destruct (List es' s1) as [rl s3] eqn:El. apply List_ok in El as (_ & _ & Hlist & Htot); [|done..].
  assert (0 <= MinLength p < 2 ^ 31) as Hrange by (unfold MinPasswordMinLen, MaxPasswordMinLen in *; lia).
  assert (forall l q, rl = Ok l -> password_steps no_password_settings l = Ok q -> q = p) as Hq.
  { intros l q Hrl Hq. destruct (Hlist l Hrl) as (l0 & added & -> & Hadd & Hin). apply password_steps_fields in Hq as (F1 & F2 & F3 & F4 & F5).
    apply (field_listed _ s1 l0 added "NumberReq" x1) in F1; [|done..]. apply (field_listed _ s1 l0 added "SymbolReq" x2) in F2; [|done..].
    apply (field_listed _ s1 l0 added "LowercaseReq" x3) in F3; [|done..]. apply (field_listed _ s1 l0 added "UppercaseReq" x4) in F4; [|done..].
    apply (field_listed _ s1 l0 added "MinLength" x5) in F5; [|done..].
    rewrite Hv1, ParseBool_FormatBool in F1. rewrite Hv2, ParseBool_FormatBool in F2. rewrite Hv3, ParseBool_FormatBool in F3.
    rewrite Hv4, ParseBool_FormatBool in F4. rewrite Hv5, parseInt_formatInt in F5 by done.
    apply password_eta; congruence. }
  assert (forall l, rl = Ok l -> exists q, password_steps no_password_settings l = Ok q) as Hsteps.
  { intros l Hrl. apply password_steps_total, Forall_forall. intros y Hy Hc. destruct (Hlist l Hrl) as (l0 & added & -> & Hadd & Hin).
    pose proof (fun name x Hx Hn => proj2 (listed_value s1 l0 added settingCategoryPassword name x Hok1 eq_refl Hin Hadd Hx y Hy Hc Hn)) as Hval.
    split.
    - intros Hn. repeat (apply elem_of_cons in Hn as [Hn|Hn]); [rewrite (Hval _ _ Hx1 Hn), Hv1|rewrite (Hval _ _ Hx2 Hn), Hv2|rewrite (Hval _ _ Hx3 Hn), Hv3|
        rewrite (Hval _ _ Hx4 Hn), Hv4|by apply elem_of_nil in Hn]; rewrite ParseBool_FormatBool; by eexists.
    - intros Hn. rewrite (Hval _ _ Hx5 Hn), Hv5, parseInt_formatInt by done. by eexists. }
  unfold GetPasswordSettingsFromList. destruct rl as [l|err]; intros [= <- _].
  - split; [intros q Eq; by apply (Hq l)|]. intros _ _. destruct (Hsteps l eq_refl) as [q Eq]. rewrite Eq. f_equal. by apply (Hq l).
  - split; [done|]. intros Hh Hd. by destruct (Htot Hh Hd) as [l ?].
Qed.

(** Nothing bounds the minimum length that `phenix settings db edit`
    stores: with one above 72 no password is valid from then on, since longer
    ones are refused for what bcrypt can hash. *)
Theorem min_length_locks_out `{RuneClasses} float_ok es value z s s1 :
  store_valid s -> settings_ok s -> UpdateWithVerification decode_setting encode_setting float_ok es settingCategoryPassword "MinLength" value s = (Ok tt, s1) ->
  parseInt value = Some z -> MaxPasswordBytes < z ->
  forall es' password, fst (IsPasswordValid decode_setting encode_setting es' password s1) = false.
Proof.
  intros Hs Hok E Hz Hlong es' password.
  assert (store_valid s1 /\ settings_ok s1 /\ exists x, stored s1 settingCategoryPassword "MinLength" x /\ sg_Value x = value) as (Hs1 & Hok1 & x & Hx & Hv).
  { unfold UpdateWithVerification, st_bind, st_wrap, st_lift in E. destruct (GetSetting _ _ _ s) as [r1 s2] eqn:Eg.
    apply GetSetting_ok in Eg as (Hs2 & Hv2 & Hr & _); [|done]. destruct (same_stored _ _ (Hv2 settingKind)) as [Hok2 Hst2].
    destruct r1 as [old|]; cbn [res_map_err] in E; [|done]. specialize (Hr old eq_refl). destruct (stored_name s settingCategoryPassword "MinLength" _ Hok eq_refl Hr) as [Hc Hn].
    destruct (String.eqb_spec (sg_Value old) value) as [He|Hne].
    - injection E as <-. split; [done|]. split; [by apply Hok2|]. exists old. split; [by apply Hst2|done].
    - destruct (verify _ _ _); cbn [res_map_err] in E; [|done]. destruct (store_Update _ _ s2) as [r3 s3] eqn:Eu.
      apply (update_stored _ _ (with_value old value) old settingCategoryPassword "MinLength") in Eu as (Hs3 & Hok3 & Hr3); try done; [|by apply Hok2|by apply Hst2].
      destruct r3; cbn [res_map_err] in E; [|done]. injection E as <-. split; [done|]. split; [done|]. exists (with_value old value). split; [apply Hr3|done]. }
  unfold IsPasswordValid, GetPasswordSettings, st_bind, st_lift. destruct (_ <? _); [done|]. destruct (List es' s1) as [rl s3] eqn:El.
  apply List_ok in El as (_ & _ & Hlist & _); [|done..]. destruct rl as [l|]; [|done].
  destruct (GetPasswordSettingsFromList l) as [ps|] eqn:Ep; [|done]. cbn [fst]. apply long_minimum.
  destruct (Hlist l eq_refl) as (l0 & added & -> & Hadd & Hin). apply password_steps_fields in Ep as (_ & _ & _ & _ & F).
  apply (field_listed _ s1 l0 added "MinLength" x) in F; [|done..]. rewrite Hv, Hz in F. by injection F as <-.
Qed.

(** C?: [SetDefaults] does not fill in what is missing: at the first default
    that is stored already it fails, and the defaults after that one are left
    out, whatever of them is missing. *)
Theorem SetDefaults_stops es before d after s r s' :
  DefaultSettings = before ++ d :: after -> store_valid s -> settings_ok s -> (forall n, healthy (es n)) ->
  (exists x, stored s (sg_Category d) (sg_Name d) x) -> SetDefaults encode_setting es s = (r, s') ->
  (exists err, r = Err err) /\ store_valid s' /\ settings_ok s' /\
  forall n, n ∉ map store_name before -> view s' settingKind n = view s settingKind n.
Proof.
  unfold SetDefaults. intros Hsplit. assert (forall x, x ∈ before -> x ∈ DefaultSettings) as Hb by (rewrite Hsplit; set_solver).
  assert (d ∈ DefaultSettings) as Hd by (rewrite Hsplit; set_solver).
  assert (store_name d ∉ map store_name before) as Hnot.
  { assert (NoDup (map store_name DefaultSettings)) as Hnd by (apply NoDup_ListNoDup; repeat constructor; cbn; intuition discriminate).
    rewrite Hsplit, map_app in Hnd. apply NoDup_app in Hnd as (_ & Hnd & _). intros Hin. apply (Hnd _ Hin). cbn. by left. }
  rewrite Hsplit. clear Hsplit. revert es s. induction before as [|b before IH]; intros es s Hs Hok Hh (x & Hx); cbn [app set_defaults]; unfold st_bind, st_wrap.
  - destruct (store_Create _ _ s) as [r1 s1] eqn:Ec. apply create_stored in Ec as (Hs1 & Hok1 & Ho & Hr); [|done..]. destruct Hx as (c & Hc & _).
    destruct r1 as [c'|err]; cbn [res_map_err]; [specialize (Hr (Hh 0%nat)); unfold store_name in Hr; by rewrite Hr in Hc|]. intros [= <- <-]. split; [by eexists|]. split; [done|]. split; [done|]. intros n _. apply Hr.
  - destruct (store_Create _ _ s) as [r1 s1] eqn:Ec. apply create_stored in Ec as (Hs1 & Hok1 & Ho & Hr); [|apply Hb; by left|done..].
    destruct r1 as [c'|err]; cbn [res_map_err].
    + intros E. apply IH in E as (Herr & Hs2 & Hok2 & Hv); [|intros y Hy; apply Hb; by right|cbn in Hnot; set_solver|done|done|intros n; apply Hh|].
      * split; [done|]. split; [done|]. split; [done|]. intros n Hn. cbn in Hn. apply not_elem_of_cons in Hn as [Hn1 Hn2]. rewrite Hv by done. by apply Ho.
      * destruct Hx as (c & Hc & Hx). exists x, c. split; [|done]. rewrite Ho; [done|]. cbn in Hnot. apply not_elem_of_cons in Hnot as [? _]. done.
    + intros [= <- <-]. split; [by eexists|]. split; [done|]. split; [done|]. intros n _. apply Hr.
Qed.

End Spec.
