(* ===== verification/Subnet.v ===== *)
(** * Subnets and gateways (validate.go)

    [ParseSubnet] and [IsSubnetHost] over what they use of Go's [net/netip]:
    the reading of IPv4 addresses and the prefix operations. An IPv4 address
    is its 32-bit number; an IPv6 address reads as none, as everything the
    package does with one is to refuse it. *)

From Stdlib Require Import ZArith Lia Ascii String Strings.Byte.
From stdpp Require Import base option list gmap strings sorting.
From S2P Require Import Prelude Text Decimal.

Open Scope Z_scope.
Open Scope go_scope.

Definition c_dot : Z := 46.
Definition c_colon : Z := 58.
Definition c_percent : Z := 37.
Definition c_slash : Z := 47.

(** ** [netip.ParseAddr] *)

(** The loop of [parseIPv4Fields]: the byte before, the value and the number
    of digits of the octet, and the octets read. *)
Fixpoint v4_fields (prev : option Z) (val : Z) (digLen : nat) (fields : list Z) (s : list Z) : option (list Z) :=
  match s with
  | [] => if (length fields <? 3)%nat then None else Some (fields ++ [val])
  | b :: s' =>
      if is_digit b then
        if (digLen =? 1)%nat && (val =? 0) then None
        else
          let val := val * 10 + (b - 48) in
          if 255 <? val then None else v4_fields (Some b) val (S digLen) fields s'
      else if b =? c_dot then
        if match prev with None => true | Some p => p =? c_dot end || match s' with [] => true | _ => false end
        then None
        else if (length fields =? 3)%nat then None
        else v4_fields (Some b) 0 0 (fields ++ [val]) s'
      else None
  end.

Definition octets_value (fields : list Z) : Z := foldl (fun acc o => acc * 256 + o) 0 fields.

(** The first of the bytes that tell an address's family. *)
Definition family_byte (l : list Z) : option Z :=
  List.find (fun b => (b =? c_dot) || (b =? c_colon) || (b =? c_percent)) l.

(** [netip.ParseAddr], then [Is4]. *)
Definition parse_addr4 (s : string) : option Z :=
  let l := bytes_Z s in
  match family_byte l with
  | Some b => if b =? c_dot then octets_value <$> v4_fields None 0 0 [] l else None
  | None => None
  end.

(** ** [netip.Prefix] *)

Record Prefix : Type := { prefix_addr : Z; prefix_bits : Z }.

Definition zero_prefix : Prefix := {| prefix_addr := 0; prefix_bits := -1 |}.

Definition Masked (p : Prefix) : Prefix :=
  {| prefix_addr := Z.land (prefix_addr p) (Z.lnot (Z.ones (32 - prefix_bits p))); prefix_bits := prefix_bits p |}.

Definition prefix_eqb (p q : Prefix) : bool :=
  (prefix_addr p =? prefix_addr q) && (prefix_bits p =? prefix_bits q).

Definition Contains (p : Prefix) (addr : Z) : bool :=
  Z.shiftr (Z.lxor (prefix_addr p) addr) (32 - prefix_bits p) =? 0.

(** ** The package's own *)

(** [strings.Cut(text, "/")]. *)
Fixpoint cut_slash (s : string) : string * string * bool :=
  match s with
  | EmptyString => ("", "", false)
  | String a s' =>
      if ascii_Z a =? c_slash then ("", s', true)
      else let '(x, y, found) := cut_slash s' in (String a x, y, found)
  end.

Definition ParseSubnet (text : string) : Prefix * bool :=
  let '(address, bits, found) := cut_slash text in
  if negb found then (zero_prefix, false)
  else
    match parse_addr4 address with
    | None => (zero_prefix, false)
    | Some addr =>
        let '(length, ok) := Atoi bits in
        if negb ok || negb (String.eqb (itoa length) bits) || (length <? 0) || (32 <? length)
        then (zero_prefix, false)
        else
          let prefix := {| prefix_addr := addr; prefix_bits := length |} in
          (prefix, prefix_eqb (Masked prefix) prefix)
    end.

(** [ipv4Value] is an IPv4 address as a number. *)
Definition ipv4Value (addr : Z) : Z := addr.

Definition wrapu32 (z : Z) : Z := z mod 2 ^ 32.

Definition IsSubnetHost (subnet : Prefix) (addr : Z) : bool :=
  if negb (Contains subnet addr) then false
  else
    let hostBits := 32 - prefix_bits subnet in
    if hostBits <=? 1 then true
    else
      let first := ipv4Value (prefix_addr subnet) in
      let value := ipv4Value addr in
      negb (value =? first) &&
      negb (value =? Z.lor first (wrapu32 (wrapu32 (Z.shiftl 1 hostBits) - 1))).

(** ** The text of an address and of a subnet *)

Definition octet (a : Z) (i : Z) : Z := a / 256 ^ i mod 256.

Definition addr_text (a : Z) : string :=
  join "." [itoa (octet a 3); itoa (octet a 2); itoa (octet a 1); itoa (octet a 0)].

Definition subnet_text (a n : Z) : string := addr_text a +:+ "/" +:+ itoa n.

Example subnet_1 : ParseSubnet "10.1.0.0/24" = ({| prefix_addr := 167837696; prefix_bits := 24 |}, true).
Proof. vm_compute. reflexivity. Qed.

Example subnet_2 : snd (ParseSubnet "10.1.0.1/24") = false.
Proof. vm_compute. reflexivity. Qed.

(** ** Reading octets *)

Definition octet_digits (ds : list Z) : bool :=
  match ds with
  | [] => false
  | b :: ds' => negb ((b =? 48) && match ds' with [] => false | _ => true end) && (digits_value ds <=? 255)
  end.

Lemma digits_value_cons_le b ds pre :
  all_digits (b :: ds) -> all_digits pre -> digits_value (pre ++ [b]) <= digits_value (pre ++ b :: ds).
Proof.
  intros Hd Hp. apply Forall_cons in Hd as [Hb Hd].
  induction ds as [|c ds IH] using rev_ind; [done|].
  apply all_digits_snoc in Hd as [Hd Hc]. specialize (IH Hd).
  rewrite app_comm_cons, app_assoc, (digits_value_snoc (pre ++ b :: ds)).
  pose proof (digits_value_bounds (pre ++ [b]) ltac:(by apply all_digits_snoc)). lia.
Qed.

(** The digits of an octet, read after some of them. *)
Lemma v4_digits ds pre prev fields r :
  all_digits ds -> all_digits pre -> is_digit (hd 0 r) = false ->
  (pre = [] \/ octet_digits pre = true) ->
  v4_fields prev (digits_value pre) (length pre) fields (ds ++ r) =
    if (match ds with [] => true | _ => false end) || octet_digits (pre ++ ds) then
      v4_fields (match ds with [] => prev | _ => Some (List.last ds 0) end)
        (digits_value (pre ++ ds)) (length (pre ++ ds)) fields r
    else None.
Proof.
  revert pre prev. induction ds as [|b ds IH]; intros pre prev Hd Hp Hr Ho.
  - simpl. by rewrite app_nil_r.
  - pose proof Hd as Hd'. apply Forall_cons in Hd' as [Hb Hds]. cbn [app v4_fields orb].
    rewrite (proj2 (is_digit_iff b)) by done.
    destruct ((length pre =? 1)%nat && (digits_value pre =? 0)) eqn:Hz.
    { apply andb_true_iff in Hz as [Hl%Nat.eqb_eq Hv%Z.eqb_eq]. destruct pre as [|p [|]]; [done| |done].
      unfold digits_value in Hv. simpl in Hv. replace p with 48 by lia. done. }
    rewrite <- digits_value_snoc. destruct (255 <? digits_value (pre ++ [b])) eqn:H255.
    { apply Z.ltb_lt in H255. pose proof (digits_value_cons_le b ds pre Hd Hp).
      unfold octet_digits. destruct (pre ++ b :: ds) eqn:E; [done|]. rewrite <- E in *.
      rewrite (proj2 (Z.leb_gt _ 255)) by lia. by rewrite andb_false_r. }
    replace (S (length pre)) with (length (pre ++ [b])) by (rewrite length_app; simpl; lia).
    assert (octet_digits (pre ++ [b]) = true) as Hob.
    { apply Z.ltb_ge in H255. destruct pre as [|p pre]; simpl; [rewrite andb_false_r; simpl; by apply Z.leb_le|].
      destruct Ho as [|Ho]; [done|]. simpl in Ho. cbn [app] in H255.
      apply andb_true_iff in Ho as [Ho1 Ho2]. apply andb_true_iff. split; [|by apply Z.leb_le].
      destruct (p =? 48) eqn:Hp48; [|done]. destruct pre; [|done]. simpl in Hz. apply Z.eqb_eq in Hp48.
      unfold digits_value in Hz. simpl in Hz. lia. }
    rewrite IH; [|done|by apply all_digits_snoc|done|by right].
    rewrite <- app_assoc. cbn [app]. destruct ds as [|c ds]; [|done].
    cbn [app orb]. by rewrite Hob.
Qed.

(** One octet and what may follow it. *)
Lemma v4_field prev fields l :
  (prev = None \/ prev = Some c_dot) ->
  l <> [] ->
  v4_fields prev 0 0 fields l =
    let '(ds, r) := span_digits l in
    if octet_digits ds then
      match r with
      | [] => if (length fields <? 3)%nat then None else Some (fields ++ [digits_value ds])
      | b :: r' =>
          if (b =? c_dot) && negb (match r' with [] => true | _ => false end) && negb (length fields =? 3)%nat
          then v4_fields (Some c_dot) 0 0 (fields ++ [digits_value ds]) r' else None
      end
    else None.
Proof.
  intros Hp Hl. destruct (span_digits_spec l) as (Hs & Hd & Hr).
  destruct (span_digits l) as [ds r]. simpl in *. rewrite Hs at 1.
  pose proof (v4_digits ds [] prev fields r Hd ltac:(constructor) Hr ltac:(by left)) as H4.
  unfold digits_value in H4 at 1. simpl in H4. rewrite H4. clear H4.
  destruct ds as [|b ds].
  - simpl. destruct r as [|c r]; [done|]. simpl in Hr |- *. rewrite Hr.
    destruct (c =? c_dot); [|done]. by destruct Hp as [-> | ->].
  - cbn [orb]. destruct (octet_digits (b :: ds)) eqn:Ho; [|done].
    destruct r as [|c r]; [done|]. cbn [v4_fields]. simpl in Hr. rewrite Hr.
    destruct (c =? c_dot) eqn:Hc; [|done]. apply Z.eqb_eq in Hc as ->. cbn [andb].
    assert (List.last (b :: ds) 0 =? c_dot = false) as ->.
    { assert (In (List.last (b :: ds) 0) (b :: ds)) as Hin.
      { destruct (@exists_last _ (b :: ds)) as (i & x & ->); [done|]. rewrite last_last. apply in_app_iff. simpl. auto. }
      unfold all_digits in Hd. rewrite Forall_forall in Hd. specialize (Hd _ (proj2 (list_elem_of_In _ _) Hin)).
      apply Z.eqb_neq. unfold c_dot. lia. }
    cbn [orb]. by destruct r, (length fields =? 3)%nat.
Qed.

(** ** Addresses *)

Definition is_octet (o : Z) : Prop := 0 <= o < 256.

Definition dotted (os : list Z) : list Z := bytes_Z (join "." (map itoa os)).

Lemma octet_digits_iff ds :
  all_digits ds -> octet_digits ds = true <-> exists o, is_octet o /\ ds = bytes_Z (itoa o).
Proof.
  intros Hd. split.
  - intros Ho. assert (canonical ds /\ digits_value ds <= 255) as [Hc Hv].
    { destruct ds as [|b ds]; [done|]. simpl in Ho. rewrite andb_true_iff, Z.leb_le in Ho.
      destruct Ho as [Hz Hv]. split; [|done]. split; [done|]. split; [done|]. simpl. intros ->.
      by destruct ds. }
    exists (digits_value ds). pose proof (digits_value_bounds ds Hd). split; [unfold is_octet; lia|].
    apply canonical_itoa; [done|lia].
  - intros (o & Ho & ->). unfold is_octet in Ho. destruct (itoa_canonical o) as [(Hne & _ & Hz) Hv]; [lia|].
    unfold octet_digits. rewrite Hv. destruct (bytes_Z (itoa o)) as [|b ds]; [done|].
    apply andb_true_iff. split; [|lia]. destruct (b =? 48) eqn:E; [|done].
    apply Z.eqb_eq in E. specialize (Hz E). by destruct ds.
Qed.

Lemma itoa_digits o : is_octet o -> all_digits (bytes_Z (itoa o)) /\ octet_digits (bytes_Z (itoa o)) = true.
Proof.
  intros Ho. destruct (itoa_canonical o) as [(_ & Hd & _) _]; [unfold is_octet in Ho; lia|].
  split; [done|]. apply octet_digits_iff; eauto.
Qed.

Lemma dotted_cons o os : os <> [] -> dotted (o :: os) = bytes_Z (itoa o) ++ c_dot :: dotted os.
Proof.
  intros Hn. unfold dotted. destruct os as [|o' os]; [done|].
  change (join "." (map itoa (o :: o' :: os))) with (itoa o +:+ "." +:+ join "." (map itoa (o' :: os))).
  by rewrite !bytes_Z_app.
Qed.

Lemma dotted_nonempty os : Forall is_octet os -> os <> [] -> dotted os <> [].
Proof.
  intros Ho Hn. destruct os as [|o os]; [done|]. apply Forall_cons in Ho as [Ho _].
  destruct (itoa_canonical o) as [(Hne & _) _]; [unfold is_octet in Ho; lia|].
  destruct (decide (os = [])) as [->|]; [done|]. rewrite dotted_cons by done. by destruct (bytes_Z (itoa o)).
Qed.

(** The octets still to read are exactly the text, dot by dot. *)
Lemma v4_fields_iff k prev fields l fs :
  (prev = None \/ prev = Some c_dot) -> l <> [] -> (length fields + S k = 4)%nat ->
  v4_fields prev 0 0 fields l = Some fs <->
  exists os, length os = S k /\ Forall is_octet os /\ l = dotted os /\ fs = fields ++ os.
Proof.
  revert prev fields l. induction k as [|k IH]; intros prev fields l Hp Hl Hk; rewrite v4_field by done; split.
  - destruct (span_digits_spec l) as (Hs & Hd & _). destruct (span_digits l) as [ds r]. simpl in *.
    destruct (octet_digits ds) eqn:Ho; [|done]. apply octet_digits_iff in Ho as (o & Ho & ->); [|done].
    destruct r as [|c r].
    + rewrite (proj2 (Nat.ltb_ge _ _)) by lia. intros [= <-]. exists [o].
      rewrite (proj2 (itoa_canonical o ltac:(unfold is_octet in Ho; lia))), app_nil_r in *. eauto.
    + rewrite (proj2 (Nat.eqb_eq _ _)) by lia. by rewrite andb_false_r.
  - intros ([|o [|]] & Hos & Ho & -> & ->); [done| |done]. apply Forall_cons in Ho as [Ho _].
    destruct (itoa_digits o Ho) as [Hd Hod]. unfold dotted. cbn [map join].
    rewrite <- (app_nil_r (bytes_Z (itoa o))), span_digits_app by done. rewrite Hod.
    rewrite (proj2 (Nat.ltb_ge _ _)) by lia.
    by rewrite (proj2 (itoa_canonical o ltac:(unfold is_octet in Ho; lia))).
  - destruct (span_digits_spec l) as (Hs & Hd & _). destruct (span_digits l) as [ds r]. simpl in *.
    destruct (octet_digits ds) eqn:Ho; [|done]. apply octet_digits_iff in Ho as (o & Ho & ->); [|done].
    rewrite (proj2 (itoa_canonical o ltac:(unfold is_octet in Ho; lia))).
    destruct r as [|c r]; [by rewrite (proj2 (Nat.ltb_lt _ _)) by lia|].
    destruct (c =? c_dot) eqn:Hc; [|done]. apply Z.eqb_eq in Hc as ->. cbn [andb].
    destruct (decide (r = [])) as [->|Hr]; [done|]. destruct (_ && _); [|done].
    intros (os & Hos & Hoo & -> & ->)%IH; [|by right|done|rewrite length_app; simpl; lia].
    exists (o :: os). rewrite <- app_assoc, dotted_cons by (by destruct os). simpl. auto.
  - intros ([|o os] & Hos & Ho & -> & ->); [done|]. apply Forall_cons in Ho as [Ho Hoo].
    assert (os <> []) as Hn by (by destruct os). destruct (itoa_digits o Ho) as [Hd Hod].
    rewrite dotted_cons, span_digits_app by done. rewrite Hod, Z.eqb_refl.
    pose proof (dotted_nonempty os Hoo Hn) as Hdn.
    rewrite (proj2 (Nat.eqb_neq _ _)) by lia. rewrite (proj2 (itoa_canonical o ltac:(unfold is_octet in Ho; lia))).
    destruct (dotted os) as [|x y] eqn:E; [done|]. cbn [andb negb]. rewrite <- E.
    apply IH; [by right|by rewrite E|rewrite length_app; simpl; lia|]. exists os. rewrite <- app_assoc. simpl in *. auto.
Qed.

Lemma family_dotted os :
  Forall is_octet os -> (2 <= length os)%nat -> family_byte (dotted os) = Some c_dot.
Proof.
  intros Ho Hl. destruct os as [|o [|o' os]]; [simpl in *; lia..|]. apply Forall_cons in Ho as [Ho _].
  rewrite dotted_cons by done. destruct (itoa_digits o Ho) as [Hd _]. unfold family_byte.
  induction Hd as [|b l Hb _ IH]; [done|]. cbn [app List.find]. unfold c_dot, c_colon, c_percent in *.
  rewrite !(proj2 (Z.eqb_neq _ _)) by lia. apply IH.
Qed.

Lemma octets_of a : 0 <= a < 2 ^ 32 ->
  octets_value [octet a 3; octet a 2; octet a 1; octet a 0] = a /\
  Forall is_octet [octet a 3; octet a 2; octet a 1; octet a 0].
Proof.
  intros Ha. unfold octets_value, octet, is_octet. simpl.
  change (256 ^ 3) with 16777216. change (256 ^ 2) with 65536. change (256 ^ 1) with 256. change (256 ^ 0) with 1.
  change (2 ^ 32) with 4294967296 in Ha. split; [zlia|]. repeat constructor; zlia.
Qed.

Lemma octets_value_inv os :
  length os = 4%nat -> Forall is_octet os ->
  0 <= octets_value os < 2 ^ 32 /\
  os = [octet (octets_value os) 3; octet (octets_value os) 2; octet (octets_value os) 1; octet (octets_value os) 0].
Proof.
  intros Hl Ho. do 4 (destruct os as [|? os]; [done|]). destruct os; [|done].
  rewrite !Forall_cons in Ho. unfold is_octet in Ho. destruct_and!. unfold octets_value, octet. simpl.
  change (256 ^ 3) with 16777216. change (256 ^ 2) with 65536. change (256 ^ 1) with 256. change (256 ^ 0) with 1.
  change (2 ^ 32) with 4294967296. split; [lia|]. repeat f_equal; zlia.
Qed.

(** An IPv4 address reads exactly from its dotted text. *)
Lemma parse_addr4_iff s a : parse_addr4 s = Some a <-> 0 <= a < 2 ^ 32 /\ s = addr_text a.
Proof.
  unfold parse_addr4. split.
  - destruct (family_byte _) as [b|] eqn:Hf; [|done]. destruct (b =? c_dot); [|done].
    destruct (v4_fields _ _ _ _ _) as [fs|] eqn:Hv; [|done]. intros [= <-].
    apply (v4_fields_iff 3) in Hv; [|by left|by destruct (bytes_Z s)|done].
    destruct Hv as (os & Hl & Ho & Hs & ->). destruct (octets_value_inv os Hl Ho) as [Hr Heq].
    split; [done|]. apply bytes_Z_inj. rewrite Hs. unfold dotted, addr_text. by rewrite Heq at 1.
  - intros [Ha ->]. destruct (octets_of a Ha) as [Hv Ho].
    change (bytes_Z (addr_text a)) with (dotted [octet a 3; octet a 2; octet a 1; octet a 0]).
    rewrite family_dotted by (done || simpl; lia). cbn [Z.eqb Pos.eqb c_dot].
    set (os := [octet a 3; octet a 2; octet a 1; octet a 0]) in *.
    assert (v4_fields None 0 0 [] (dotted os) = Some os) as ->; [|simpl; by rewrite Hv].
    apply (v4_fields_iff 3); [by left|by apply dotted_nonempty|done|]. by exists os.
Qed.

(** ** Subnets *)

Lemma cut_slash_spec s x y : cut_slash s = (x, y, true) -> s = x +:+ "/" +:+ y.
Proof.
  revert x y. induction s as [|a s IH]; intros x y; simpl; [done|].
  destruct (ascii_Z a =? c_slash) eqn:E.
  - intros [= <- <-]. apply Z.eqb_eq in E. f_equal. unfold ascii_Z, c_slash in E.
    rewrite <- (ascii_N_embedding a). by replace (N_of_ascii a) with 47%N by lia.
  - destruct (cut_slash s) as [[x' y'] f]. intros [= <- <- ->]. rewrite string_app_cons. f_equal. by apply IH.
Qed.

Lemma cut_slash_app x y :
  Forall (fun b => b <> c_slash) (bytes_Z x) -> cut_slash (x +:+ "/" +:+ y) = (x, y, true).
Proof.
  induction x as [|a x IH]; [done|]. rewrite bytes_Z_cons. intros [Ha Hx]%Forall_cons.
  rewrite string_app_cons. cbn [cut_slash]. by rewrite (proj2 (Z.eqb_neq _ _)), IH.
Qed.

Lemma dotted_no_slash os : Forall is_octet os -> Forall (fun b => b <> c_slash) (dotted os).
Proof.
  assert (forall o, is_octet o -> Forall (fun b => b <> c_slash) (bytes_Z (itoa o))) as Hb.
  { intros o Ho. destruct (itoa_digits o Ho) as [Hd _]. eapply Forall_impl; [exact Hd|]. unfold c_slash. simpl. lia. }
  induction os as [|o os IH]; [constructor|]. intros [Ho Hos]%Forall_cons.
  destruct (decide (os = [])) as [->|Hn]; [by apply Hb|]. rewrite dotted_cons by done.
  apply Forall_app. split; [by apply Hb|]. constructor; [done|by apply IH].
Qed.

Lemma masked_iff a n :
  0 <= n <= 32 -> prefix_eqb (Masked {| prefix_addr := a; prefix_bits := n |}) {| prefix_addr := a; prefix_bits := n |} = true <->
  a mod 2 ^ (32 - n) = 0.
Proof.
  intros Hn. unfold prefix_eqb, Masked. cbn [prefix_addr prefix_bits].
  rewrite Z.eqb_refl, andb_true_r, Z.eqb_eq, <- Z.ldiff_land, Z.ldiff_ones_r by lia.
  rewrite Z.shiftr_div_pow2, Z.shiftl_mul_pow2 by lia.
  pose proof (Z.div_mod a (2 ^ (32 - n)) ltac:(lia)). lia.
Qed.

(** [ParseSubnet] accepts exactly the texts of subnets: the dotted
    address, a slash and the length that name a network of which the host
    bits are zero. It gives back the address and the length. *)
Theorem ParseSubnet_iff text p :
  ParseSubnet text = (p, true) <->
  exists a n, 0 <= a < 2 ^ 32 /\ 0 <= n <= 32 /\ a mod 2 ^ (32 - n) = 0 /\
    p = {| prefix_addr := a; prefix_bits := n |} /\ text = subnet_text a n.
Proof.
  unfold ParseSubnet. split.
  - destruct (cut_slash text) as [[x y] f] eqn:Hc. destruct f; [|done]. cbn [negb].
    destruct (parse_addr4 x) as [a|] eqn:Ha; [|done]. apply parse_addr4_iff in Ha as [Ha ->].
    destruct (Atoi y) as [n ok] eqn:Hn. destruct ok; [|done]. cbn [negb orb].
    destruct (String.eqb_spec (itoa n) y) as [<-|]; [|done]. cbn [negb orb].
    destruct (_ || _) eqn:Hr; [done|]. apply orb_false_iff in Hr as [H0 H32].
    apply Z.ltb_ge in H0, H32. intros [= <- Hm]. exists a, n.
    split; [done|]. split; [done|]. split; [by apply masked_iff|]. split; [done|]. by apply cut_slash_spec.
  - intros (a & n & Ha & Hn & Hm & -> & ->). unfold subnet_text. rewrite cut_slash_app.
    2:{ change (bytes_Z (addr_text a)) with (dotted [octet a 3; octet a 2; octet a 1; octet a 0]).
        by apply dotted_no_slash, octets_of. }
    cbn [negb]. rewrite (proj2 (parse_addr4_iff (addr_text a) a)) by done.
    rewrite Atoi_itoa by (unfold maxInt; lia). rewrite String.eqb_refl. cbn [negb orb].
    rewrite !(proj2 (Z.ltb_ge _ _)) by lia. cbn [orb]. f_equal. by apply masked_iff.
Qed.

Lemma contains_iff a n x :
  0 <= n <= 32 -> Contains {| prefix_addr := a; prefix_bits := n |} x = true <->
  a / 2 ^ (32 - n) = x / 2 ^ (32 - n).
Proof.
  intros Hn. unfold Contains. cbn [prefix_addr prefix_bits].
  rewrite Z.eqb_eq, Z.shiftr_lxor, Z.lxor_eq_0_iff, !Z.shiftr_div_pow2 by lia. done.
Qed.

(** The last address of a subnet. *)
Lemma broadcast_value a h :
  2 <= h <= 32 -> a mod 2 ^ h = 0 ->
  Z.lor a (wrapu32 (wrapu32 (Z.shiftl 1 h) - 1)) = a + 2 ^ h - 1.
Proof.
  intros Hh Ha. assert (wrapu32 (wrapu32 (Z.shiftl 1 h) - 1) = Z.ones h) as ->.
  { rewrite Z.shiftl_1_l, Z.ones_equiv. unfold wrapu32. destruct (decide (h = 32)) as [->|]; [done|].
    assert (2 ^ h < 2 ^ 32) by (apply Z.pow_lt_mono_r; lia). assert (0 < 2 ^ h) by lia.
    rewrite (Z.mod_small (2 ^ h)), Z.mod_small by lia. lia. }
  pose proof (Z.add_lor_land a (Z.ones h)) as Hs. rewrite Z.land_ones, Ha in Hs by lia.
  rewrite Z.ones_equiv in *. lia.
Qed.

(** [IsSubnetHost] accepts exactly the addresses of the subnet, without
    its first and its last when it has more than two, for every length from 0
    to 32: the 32-bit shift that makes the last address does not overflow. *)
Theorem IsSubnetHost_iff a n x :
  0 <= a < 2 ^ 32 -> 0 <= n <= 32 -> a mod 2 ^ (32 - n) = 0 -> 0 <= x < 2 ^ 32 ->
  IsSubnetHost {| prefix_addr := a; prefix_bits := n |} x = true <->
  a <= x < a + 2 ^ (32 - n) /\ (n <= 30 -> a < x < a + 2 ^ (32 - n) - 1).
Proof.
  intros Ha Hn Hm Hx. unfold IsSubnetHost. cbn [prefix_addr prefix_bits].
  assert (Contains {| prefix_addr := a; prefix_bits := n |} x = true <-> a <= x < a + 2 ^ (32 - n)) as Hc.
  { rewrite contains_iff by done. pose proof (Z.div_mod a (2 ^ (32 - n)) ltac:(lia)).
    pose proof (Z.div_mod x (2 ^ (32 - n)) ltac:(lia)). pose proof (Z.mod_pos_bound x (2 ^ (32 - n)) ltac:(lia)).
    set (q := 2 ^ (32 - n)) in *. split; [intros Hq; rewrite <- Hq in *; lia|].
    intros. assert (a / q = x / q); [|done]. nia. }
  destruct (Contains _ x); cbn [negb].
  2:{ split; [done|]. intros [Hr _]. by apply Hc in Hr. }
  destruct Hc as [Hc _]. specialize (Hc eq_refl). destruct (32 - n <=? 1) eqn:Hh.
  - apply Z.leb_le in Hh. split; [intros _; split; [done|lia]|done].
  - apply Z.leb_gt in Hh. unfold ipv4Value. rewrite broadcast_value by (done || lia).
    rewrite andb_true_iff, !negb_true_iff, !Z.eqb_neq. lia.
Qed.

Lemma IsSubnetHost_iff_witness :
  IsSubnetHost {| prefix_addr := 167837696; prefix_bits := 24 |} 167837697 = true /\
  (167837696 <= 167837697 < 167837696 + 2 ^ (32 - 24) /\
   (24 <= 30 -> 167837696 < 167837697 < 167837696 + 2 ^ (32 - 24) - 1)).
Proof.
  split; [vm_compute; reflexivity|].
  apply (IsSubnetHost_iff 167837696 24 167837697); [lia|lia|reflexivity|lia|vm_compute; reflexivity].
Defined.
