(* ===== verification/Checks.v ===== *)
(** * The checks of single fields (validate.go, icons.go, customicons.go)

    Each problem function says why a value is refused, or nothing; each
    validate function gives the issues it adds. A range or a name the code
    checks with one function for several owners is here once, as in the code. *)

From Stdlib Require Import ZArith Lia Ascii String Strings.Byte.
From stdpp Require Import base option list gmap strings sorting.
From S2P Require Import Prelude Text Codes Document.

Open Scope Z_scope.
Open Scope go_scope.

(** [slices.Contains]. *)
Definition contains_str (l : list string) (s : string) : bool := existsb (String.eqb s) l.

Definition index_path (path : string) (i : nat) : string :=
  path +:+ "[" +:+ itoa (Z.of_nat i) +:+ "]".

(** The issue of a problem, when there is one. *)
Definition issue_of (code : Code) (path : string) (problem : option text) : list Issue :=
  match problem with
  | Some message => [NewIssue code path message]
  | None => []
  end.

(** ** Icons of the registry *)

Definition IconServer : string := "server".

Definition iconKeys : list string :=
  ["alpine"; "android"; "apple"; "blackhat"; "bsd"; "cell-tower"; "centos"; "container"; "desktop";
   "distribution"; "external"; "fedora"; "firewall"; "fox"; "hacker"; "human"; "kali"; "laptop";
   "linux"; "lizard"; "minimega"; "ntp"; "opensuse"; "pfsense"; "phenix"; "plc"; "printer";
   "redhat"; "relay"; "robot"; "router"; "rtac"; "rtu"; IconServer; "smartphone"; "switch";
   "terminal"; "transmission"; "ubuntu"; "vlan"; "windows"; "wireshark"; "zeek"].

Definition IsIconKey (key : string) : bool := contains_str iconKeys key.

(** [strings.ContainsAny(key, "/\\:?#")]. *)
Definition external_byte (b : Z) : bool :=
  (b =? 47) || (b =? 92) || (b =? 58) || (b =? 63) || (b =? 35).

Definition iconKeyLooksExternal (key : string) : bool :=
  if existsb external_byte (bytes_Z key) then true
  else has_prefix key "." || contains key "..".

Definition iconKeyProblem (key : string) : option text :=
  if String.eqb key "" || IsIconKey key then None
  else if iconKeyLooksExternal key then
    Some (Sprintf "icon key %q must be one of the built-in keys, not a URL or path" [AStr key])
  else Some (Sprintf "unknown icon key %q (expected one of %s)" [AStr key; AStr (join ", " iconKeys)]).

(** ** Names of custom icons *)

Definition MaxIconNameBytes : Z := 64.

Definition IconNameProblem (name : string) : option text :=
  if String.eqb name "" || (MaxIconNameBytes <? slen name) || negb (configName name) then
    Some (Sprintf ("icon name %q must be 1 to %d letters, digits, " +:+ dq +:+ "_" +:+ dq +:+ ", " +:+ dq +:+ "@"
                   +:+ dq +:+ ", " +:+ dq +:+ "." +:+ dq +:+ " or " +:+ dq +:+ "-" +:+ dq)
            [AStr (truncate name); AInt MaxIconNameBytes])
  else if String.eqb name "." || String.eqb name ".." then
    Some (Sprintf ("icon name %q must not be " +:+ dq +:+ "." +:+ dq +:+ " or " +:+ dq +:+ ".." +:+ dq) [AStr name])
  else None.

(** ** Styles, sizes, colors and layers *)

Definition lineStyles : list string := ["solid"; "dashed"; "dotted"; "dash-dot"].
Definition borderStyles : list string := ["solid"; "dashed"; "dotted"; "double"].
Definition shapeFigures : list string := ["rectangle"; "circle"].
Definition iconSizes : list string := ["small"; "medium"; "large"].

Definition validateIconKey (key path : string) (code : Code) : list Issue :=
  issue_of code path (iconKeyProblem key).

Definition validateIconRef (name path : string) (code : Code) : list Issue :=
  if String.eqb name "" then [] else issue_of code path (IconNameProblem name).

Definition colorProblem (color : string) : option text :=
  if String.eqb color "" || hexColor color then None
  else Some (Sprintf "color %q must be a hex color such as #2f6fbf" [AStr (truncate color)]).

Definition validateColor (color path : string) (code : Code) : list Issue :=
  issue_of code path (colorProblem color).

Definition validateLineStyle (style path : string) (code : Code) : list Issue :=
  if String.eqb style "" || contains_str lineStyles style then []
  else [NewIssue code path (Sprintf "unknown line style %q (expected one of %s)"
          [AStr (truncate style); AStr (join ", " lineStyles)])].

Definition iconSizeProblem (size : string) : option text :=
  if String.eqb size "" || contains_str iconSizes size then None
  else Some (Sprintf "unknown icon size %q (expected one of %s)"
          [AStr (truncate size); AStr (join ", " iconSizes)]).

Definition validateIconSize (size path : string) (code : Code) : list Issue :=
  issue_of code path (iconSizeProblem size).

Definition layerRangeMessage : text := lit "layer must be an integer from 0 to 99".
Definition layerIDRangeMessage : text := lit "layer ID must be an integer from 0 to 99".

Definition isLayerID (id : Z) : bool := (0 <=? id) && (id <=? MaxLayerID).

Definition layerProblem (layer : option Z) : option text :=
  match layer with
  | None => None
  | Some id => if isLayerID id then None else Some layerRangeMessage
  end.

Definition validateLayer (layer : option Z) (path : string) (code : Code) : list Issue :=
  issue_of code path (layerProblem layer).

Definition validateBorderStyle (style path : string) (code : Code) : list Issue :=
  if String.eqb style "" || contains_str borderStyles style then []
  else [NewIssue code path (Sprintf "unknown border style %q (expected one of %s)"
          [AStr (truncate style); AStr (join ", " borderStyles)])].

(** ** When a check adds nothing *)

Definition color_ok (color : string) : Prop := color = "" \/ hexColor color = true.
Definition icon_key_ok (key : string) : Prop := key = "" \/ key ∈ iconKeys.
Definition icon_ok (name : string) : Prop :=
  name = "" \/ (slen name <= MaxIconNameBytes /\ configName name = true /\ name <> "." /\ name <> "..").
Definition icon_size_ok (size : string) : Prop := size = "" \/ size ∈ iconSizes.
Definition line_style_ok (style : string) : Prop := style = "" \/ style ∈ lineStyles.
Definition border_style_ok (style : string) : Prop := style = "" \/ style ∈ borderStyles.
Definition layer_ok (layer : option Z) : Prop :=
  match layer with Some id => 0 <= id <= MaxLayerID | None => True end.

Lemma contains_str_iff l s : contains_str l s = true <-> s ∈ l.
Proof.
  unfold contains_str. rewrite existsb_exists, list_elem_of_In. setoid_rewrite String.eqb_eq.
  split; [by intros (x & Hx & ->)|eauto].
Qed.

Lemma issue_of_nil code path problem : issue_of code path problem = [] <-> problem = None.
Proof. by destruct problem. Qed.

(** The shape of every check of a field that may be empty. *)
Lemma empty_or {A} (s : string) (b : bool) (P : Prop) (x y : A) :
  x <> y -> (b = true <-> P) -> (if String.eqb s "" || b then x else y) = x <-> s = "" \/ P.
Proof.
  intros Hne <-. rewrite <- String.eqb_eq, <- orb_true_iff. by destruct (_ || _).
Qed.

Lemma colorProblem_none color : colorProblem color = None <-> color_ok color.
Proof. by apply empty_or. Qed.

Lemma iconKeyProblem_none key : iconKeyProblem key = None <-> icon_key_ok key.
Proof.
  unfold iconKeyProblem. destruct (iconKeyLooksExternal key);
    (apply empty_or; [done|apply contains_str_iff]).
Qed.

Lemma iconSizeProblem_none size : iconSizeProblem size = None <-> icon_size_ok size.
Proof. apply empty_or; [done|apply contains_str_iff]. Qed.

Lemma layerProblem_none layer : layerProblem layer = None <-> layer_ok layer.
Proof.
  destruct layer as [id|]; [|done]. simpl. unfold isLayerID.
  rewrite <- (Z.leb_le 0), <- (Z.leb_le id), <- andb_true_iff. by destruct (_ && _).
Qed.

Lemma IconNameProblem_none name :
  IconNameProblem name = None <->
  slen name <= MaxIconNameBytes /\ configName name = true /\ name <> "." /\ name <> "..".
Proof.
  unfold IconNameProblem.
  rewrite <- (String.eqb_neq name "."), <- (String.eqb_neq name ".."), <- Z.ltb_ge.
  assert (configName name = true -> String.eqb name "" = false) by (by destruct name).
  destruct (configName name), (_ <? _), (String.eqb name ""), (String.eqb name "."), (String.eqb name "..");
    simpl; naive_solver.
Qed.

Lemma validateColor_nil color path code : validateColor color path code = [] <-> color_ok color.
Proof. unfold validateColor. by rewrite issue_of_nil, colorProblem_none. Qed.

Lemma validateIconKey_nil key path code : validateIconKey key path code = [] <-> icon_key_ok key.
Proof. unfold validateIconKey. by rewrite issue_of_nil, iconKeyProblem_none. Qed.

Lemma validateIconRef_nil name path code : validateIconRef name path code = [] <-> icon_ok name.
Proof.
  unfold validateIconRef, icon_ok. destruct (String.eqb_spec name "") as [->|Hn]; [naive_solver|].
  rewrite issue_of_nil, IconNameProblem_none. naive_solver.
Qed.

Lemma validateIconSize_nil size path code : validateIconSize size path code = [] <-> icon_size_ok size.
Proof. unfold validateIconSize. by rewrite issue_of_nil, iconSizeProblem_none. Qed.

Lemma validateLayer_nil layer path code : validateLayer layer path code = [] <-> layer_ok layer.
Proof. unfold validateLayer. by rewrite issue_of_nil, layerProblem_none. Qed.

Lemma validateLineStyle_nil style path code : validateLineStyle style path code = [] <-> line_style_ok style.
Proof. apply empty_or; [done|apply contains_str_iff]. Qed.

Lemma validateBorderStyle_nil style path code : validateBorderStyle style path code = [] <-> border_style_ok style.
Proof. apply empty_or; [done|apply contains_str_iff]. Qed.

(** ** Loops that add issues and remember what they saw

    [each f] runs [f] on the elements with their indexes: it adds its issues
    and passes a state on. *)

Fixpoint each {A S} (f : nat -> A -> S -> list Issue * S) (i : nat) (l : list A) (s : S) : list Issue * S :=
  match l with
  | [] => ([], s)
  | x :: l' =>
      let '(issues, s1) := f i x s in
      let '(issues', s2) := each f (Datatypes.S i) l' s1 in
      (issues ++ issues', s2)
  end.

(** [if prev, ok := seen[k]; ok { dup(prev) } else { seen[k] = i }]. *)
Definition see {K : Type} `{Countable K} (k : K) (i : nat) (dup : nat -> list Issue) (seen : gmap K nat)
  : list Issue * gmap K nat :=
  match seen !! k with
  | Some prev => (dup prev, seen)
  | None => ([], <[ k := i ]> seen)
  end.

Lemma see_nil {K : Type} `{Countable K} (k : K) i dup (seen : gmap K nat) :
  (forall prev, dup prev <> []) -> fst (see k i dup seen) = [] <-> seen !! k = None.
Proof. intros Hd. unfold see. destruct (seen !! k) as [prev|]; [|done]. split; [by intros ?%Hd|done]. Qed.

Lemma see_state {K : Type} `{Countable K} (k : K) i dup (seen : gmap K nat) :
  (forall prev, dup prev <> []) -> fst (see k i dup seen) = [] -> snd (see k i dup seen) = <[ k := i ]> seen.
Proof. intros Hd. unfold see. destruct (seen !! k) as [prev|]; [|done]. by intros ?%Hd. Qed.

Section Each.
Context {A S : Type}.
Implicit Types (f : nat -> A -> S -> list Issue * S) (l : list A) (s : S).

Lemma each_cons_nil f i x l s :
  fst (each f i (x :: l) s) = [] <->
  fst (f i x s) = [] /\ fst (each f (Datatypes.S i) l (snd (f i x s))) = [].
Proof.
  cbn [each]. destruct (f i x s) as [a s1]. cbn [fst snd]. destruct (each f _ l s1) as [b s2]. simpl.
  apply app_nil.
Qed.

Lemma each_cons_state f i x l s :
  snd (each f i (x :: l) s) = snd (each f (Datatypes.S i) l (snd (f i x s))).
Proof. cbn [each]. destruct (f i x s) as [a s1]. cbn [snd]. by destruct (each f _ l s1). Qed.

(** A loop adds nothing exactly when each element is right in itself and no
    two elements claim the same key. *)
Lemma each_nil {K : Type} f (ok : A -> Prop) (keys : A -> list K) (has : S -> K -> Prop) i l s :
  (forall i x s, fst (f i x s) = [] <-> ok x /\ NoDup (keys x) /\ forall k, k ∈ keys x -> ~ has s k) ->
  (forall i x s k, fst (f i x s) = [] -> has (snd (f i x s)) k <-> has s k \/ k ∈ keys x) ->
  fst (each f i l s) = [] <->
  Forall ok l /\ NoDup (l ≫= keys) /\ forall k, k ∈ l ≫= keys -> ~ has s k.
Proof.
  intros Hf Hs. revert i s. induction l as [|x l IH]; intros i s.
  - simpl. split; [|done]. intros _. split; [done|]. split; [constructor|]. intros k Hk. by apply elem_of_nil in Hk.
  - rewrite each_cons_nil, Forall_cons, IH. cbn [mbind list_bind]. rewrite NoDup_app, Hf. split.
    + intros [(Hx & Hd & Hn) (Hl & Hdl & Hnl)].
      assert (fst (f i x s) = []) as He by by apply Hf.
      split; [done|]. split; [split; [done|]; split; [|done]|].
      * intros k Hk Hkl. apply (Hnl k Hkl). apply Hs; auto.
      * intros k [Hk|Hk]%elem_of_app; [by apply Hn|]. intros Hh. apply (Hnl k Hk). apply Hs; auto.
    + intros [[Hx Hl] [(Hd & Hdis & Hdl) Hn]].
      assert (fst (f i x s) = []) as He.
      { apply Hf. split; [done|]. split; [done|]. intros k Hk. apply Hn, elem_of_app. auto. }
      split; [by apply Hf in He|]. split; [done|]. split; [done|].
      intros k Hk [Hh|Hh]%Hs; [|by apply (Hdis k)|done]. apply (Hn k); [|done]. apply elem_of_app. auto.
Qed.

(** What a loop that added nothing has seen. *)
Lemma each_has {K : Type} f (keys : A -> list K) (has : S -> K -> Prop) i l s k :
  (forall i x s k, fst (f i x s) = [] -> has (snd (f i x s)) k <-> has s k \/ k ∈ keys x) ->
  fst (each f i l s) = [] -> has (snd (each f i l s)) k <-> has s k \/ k ∈ l ≫= keys.
Proof.
  intros Hs. revert i s. induction l as [|x l IH]; intros i s.
  - intros _. simpl. split; [by left|]. by intros [?|?%elem_of_nil].
  - rewrite each_cons_nil, each_cons_state. intros [Hx Hl]. rewrite IH by done. rewrite Hs by done.
    cbn [mbind list_bind]. rewrite elem_of_app. tauto.
Qed.

(** The state a loop that added nothing leaves. *)
Lemma each_state f (upd : nat -> A -> S -> S) i l s :
  (forall i x s, fst (f i x s) = [] -> snd (f i x s) = upd i x s) ->
  fst (each f i l s) = [] -> snd (each f i l s) = snd (foldl (fun p x => (Datatypes.S (fst p), upd (fst p) x (snd p))) (i, s) l).
Proof.
  intros Hf. revert i s. induction l as [|x l IH]; intros i s; [done|].
  rewrite each_cons_nil, each_cons_state. intros [Hx Hl]. rewrite IH by done. simpl. by rewrite Hf.
Qed.

End Each.

(** Two loops run as one: the joint loop adds nothing when neither does. *)
Lemma each_pair {A S T} (f : nat -> A -> S * T -> list Issue * (S * T)) (g : nat -> A -> S -> list Issue * S)
    (h : nat -> A -> T -> list Issue * T) i l s t :
  (forall i x s t, fst (f i x (s, t)) = [] <-> fst (g i x s) = [] /\ fst (h i x t) = []) ->
  (forall i x s t, snd (f i x (s, t)) = (snd (g i x s), snd (h i x t))) ->
  (fst (each f i l (s, t)) = [] <-> fst (each g i l s) = [] /\ fst (each h i l t) = []) /\
  snd (each f i l (s, t)) = (snd (each g i l s), snd (each h i l t)).
Proof.
  intros Hi Hs. revert i s t. induction l as [|x l IH]; intros i s t; [done|].
  rewrite !each_cons_nil, !each_cons_state, Hi, Hs. destruct (IH (Datatypes.S i) (snd (g i x s)) (snd (h i x t))) as [-> ->].
  split; [|done]. tauto.
Qed.

(** The keys of a map in order, as [slices.Sorted(maps.Keys(m))]. *)
Definition sorted_keys {A : Type} (m : gmap string A) : list string :=
  merge_sort String.le (elements (dom m)).

Lemma elem_of_key_list {A : Type} (m : gmap string A) k : k ∈ sorted_keys m <-> is_Some (m !! k).
Proof. unfold sorted_keys. by rewrite merge_sort_Permutation, elem_of_elements, elem_of_dom. Qed.

Lemma concat_nil {A B} (f : A -> list B) l : concat (map f l) = [] <-> Forall (fun x => f x = []) l.
Proof.
  induction l as [|x l IH]; simpl; [by split; [constructor|]|]. rewrite Forall_cons, <- IH. apply app_nil.
Qed.

Lemma bind_option_list {A B} (f : A -> option B) l : (l ≫= fun x => option_list (f x)) = omap f l.
Proof.
  induction l as [|x l IH]; [done|]. cbn [mbind list_bind omap list_omap]. cbn [mbind list_bind] in IH. rewrite IH.
  by destruct (f x).
Qed.

Lemma and_iff_compat (A B C D : Prop) : (A <-> B) -> (C <-> D) -> A /\ C <-> B /\ D.
Proof. tauto. Qed.

Lemma length_key_list {A : Type} (m : gmap string A) : length (sorted_keys m) = size m.
Proof. unfold sorted_keys. rewrite merge_sort_Permutation, <- size_dom. done. Qed.
