(* ===== verification/Matchers.v ===== *)
(** * Node matchers: how a pattern is scanned (layerset.go)

    [unboundedRepeats] and [nestedRepeat] walk the bytes of a regular
    expression. An index into the pattern is the rest of the pattern here. The
    loops take fuel, as many steps as there are bytes, which is enough
    ([unboundedRepeats_loop_fuel], [nestedRepeat_loop_fuel]). *)

From Stdlib Require Import ZArith Lia Ascii String Strings.Byte.
From stdpp Require Import base option list gmap strings sorting.
From S2P Require Import Prelude Text Decimal.

Open Scope Z_scope.
Open Scope go_scope.

Definition b_back : Z := 92.
Definition b_open : Z := 91.
Definition b_close : Z := 93.
Definition b_lparen : Z := 40.
Definition b_rparen : Z := 41.
Definition b_bar : Z := 124.
Definition b_quest : Z := 63.
Definition b_star : Z := 42.
Definition b_plus : Z := 43.
Definition b_caret : Z := 94.
Definition b_lbrace : Z := 123.
Definition b_rbrace : Z := 125.
Definition b_comma : Z := 44.
Definition b_colon : Z := 58.
Definition b_gt : Z := 62.
Definition b_Q : Z := 81.
Definition b_E : Z := 69.
Definition b_x : Z := 120.
Definition b_p : Z := 112.
Definition b_P : Z := 80.

(** [strings.HasPrefix] and [strings.Index] over bytes. *)
Fixpoint starts (p l : list Z) : bool :=
  match p, l with
  | [], _ => true
  | a :: p', b :: l' => (a =? b) && starts p' l'
  | _, [] => false
  end.

Fixpoint index_of (sub l : list Z) : option nat :=
  if starts sub l then Some O
  else match l with
       | [] => None
       | _ :: l' => S <$> index_of sub l'
       end.

(** [strings.IndexAny]. *)
Fixpoint index_any (chars l : list Z) : option nat :=
  match l with
  | [] => None
  | b :: l' => if existsb (Z.eqb b) chars then Some O else S <$> index_any chars l'
  end.

(** [escapeEnd]: what follows the escape whose backslash was read. *)
Definition escapeEnd (rest : list Z) : list Z :=
  if starts [b_Q] rest then
    match index_of [b_back; b_E] rest with
    | Some e => drop (e + 2) rest
    | None => []
    end
  else
    let braced := starts [b_x; b_lbrace] rest || starts [b_p; b_lbrace] rest || starts [b_P; b_lbrace] rest in
    match (if braced then index_of [b_rbrace] rest else None) with
    | Some e => drop (e + 1) rest
    | None =>
        if negb braced && (starts [b_p] rest || starts [b_P] rest) then drop 2 rest else drop 1 rest
    end.

(** The loop of [classEnd]. *)
Fixpoint class_loop (fuel : nat) (l : list Z) : list Z :=
  match fuel, l with
  | _, [] => []
  | O, _ => []
  | S fuel', b :: l' =>
      if b =? b_back then class_loop fuel' (escapeEnd l')
      else if starts [b_open; b_colon] l then
        match index_of [b_colon; b_close] l with
        | Some e => class_loop fuel' (drop (e + 2) l)
        | None => class_loop fuel' l'
        end
      else if b =? b_close then l'
      else class_loop fuel' l'
  end.

(** [classEnd]: what follows the class whose bracket was read. *)
Definition classEnd (l : list Z) : list Z :=
  let l := if starts [b_caret] l then drop 1 l else l in
  let l := if starts [b_close] l then drop 1 l else l in
  class_loop (length l) l.

(** [groupStart]: what follows the start of a group, and the open groups. *)
Definition groupStart (l : list Z) (mixed : list bool) : list Z * list bool :=
  match l with
  | b :: start =>
      if b =? b_quest then
        match index_any [b_colon; b_gt; b_rparen] start with
        | None => ([], mixed)
        | Some e =>
            (drop (e + 1) start, if nth e start 0 =? b_rparen then mixed else false :: mixed)
        end
      else (l, false :: mixed)
  | [] => ([], false :: mixed)
  end.

Record patternRepeat : Type := { rep_length : nat; more : bool; unbounded : bool }.

Definition no_repeat : patternRepeat := {| rep_length := 0; more := false; unbounded := false |}.

(** [matcherRepeat]: the least count, whether there is a comma, and the most
    count of [{n}], [{n,}] or [{n,m}], with its length. *)
Definition matcherRepeat (l : list Z) : option (list Z * bool * list Z * nat) :=
  match l with
  | b :: l' =>
      if b =? b_lbrace then
        let '(n, r) := span_digits l' in
        match n, r with
        | [], _ => None
        | _, c :: r' =>
            if c =? b_rbrace then Some (n, false, [], (2 + length n)%nat)
            else if c =? b_comma then
              let '(m, r'') := span_digits r' in
              match r'' with
              | d :: _ => if d =? b_rbrace then Some (n, true, m, (3 + length n + length m)%nat) else None
              | [] => None
              end
            else None
        | _, [] => None
        end
      else None
  | [] => None
  end.

(** The value [strconv.Atoi] gives for digits, whatever its error. *)
Definition count_of (digits : list Z) : Z := fst (Atoi (Z_string digits)).

(** [repeatAt]: the repeat at the start. *)
Definition repeatAt (l : list Z) : patternRepeat :=
  match l with
  | [] => no_repeat
  | b :: _ =>
      if (b =? b_star) || (b =? b_plus) then {| rep_length := 1; more := true; unbounded := true |}
      else if b =? b_quest then {| rep_length := 1; more := false; unbounded := false |}
      else
        match matcherRepeat l with
        | None => no_repeat
        | Some (n, comma, m, len) =>
            let least := count_of n in
            let most := count_of m in
            let unb := comma && match m with [] => true | _ => false end in
            {| rep_length := len; more := unb || (1 <? Z.max least most); unbounded := unb |}
        end
  end.

(** A [?] after a repeat makes it lazy; the [?] of [(?:] is not a repeat. *)
Definition skip_quest (l : list Z) : list Z := if starts [b_quest] l then drop 1 l else l.

Fixpoint unboundedRepeats_loop (fuel : nat) (count : Z) (l : list Z) : Z :=
  match fuel, l with
  | _, [] => count
  | O, _ => count
  | S fuel', b :: l' =>
      if b =? b_back then unboundedRepeats_loop fuel' count (escapeEnd l')
      else if b =? b_open then unboundedRepeats_loop fuel' count (classEnd l')
      else if b =? b_lparen then unboundedRepeats_loop fuel' count (skip_quest l')
      else
        let repeat := repeatAt l in
        if (rep_length repeat =? 0)%nat then unboundedRepeats_loop fuel' count l'
        else
          unboundedRepeats_loop fuel' (if unbounded repeat then count + 1 else count)
            (skip_quest (drop (rep_length repeat) l))
  end.

Definition unboundedRepeats (pattern : string) : Z :=
  let l := bytes_Z pattern in unboundedRepeats_loop (length l) 0 l.

(** [mixed] holds the open groups, the innermost first and the pattern itself
    last, which no parenthesis closes. *)
Fixpoint nestedRepeat_loop (fuel : nat) (mixed : list bool) (mixedGroup : bool) (l : list Z) : bool :=
  match fuel, l with
  | _, [] => false
  | O, _ => false
  | S fuel', b :: l' =>
      if b =? b_back then nestedRepeat_loop fuel' mixed false (escapeEnd l')
      else if b =? b_open then nestedRepeat_loop fuel' mixed false (classEnd l')
      else if b =? b_lparen then
        let '(r, mixed') := groupStart l' mixed in nestedRepeat_loop fuel' mixed' false r
      else
        match (if b =? b_rparen then mixed else []) with
        | top :: under :: rest => nestedRepeat_loop fuel' ((under || top) :: rest) top l'
        | _ =>
            if b =? b_bar then nestedRepeat_loop fuel' (true :: tail mixed) false l'
            else
              let repeat := repeatAt l in
              if (rep_length repeat =? 0)%nat then nestedRepeat_loop fuel' mixed false l'
              else if mixedGroup && more repeat then true
              else
                nestedRepeat_loop fuel' (true :: tail mixed) false
                  (skip_quest (drop (rep_length repeat) l))
        end
  end.

Definition nestedRepeat (pattern : string) : bool :=
  let l := bytes_Z pattern in nestedRepeat_loop (length l) [false] false l.

Example nested_1 : nestedRepeat "(a+)+" = true.
Proof. vm_compute. reflexivity. Qed.
Example nested_2 : nestedRepeat "(?:a|b){2}c" = true.
Proof. vm_compute. reflexivity. Qed.
Example nested_3 : nestedRepeat "([*+]a\+)+(b|c)?" = false.
Proof. vm_compute. reflexivity. Qed.
Example unbounded_1 : unboundedRepeats "(?:a*?)b{2,}[+]\*c{2,3}" = 2.
Proof. vm_compute. reflexivity. Qed.

(** ** The loops have enough fuel *)

Lemma escapeEnd_length rest : (length (escapeEnd rest) <= length rest)%nat.
Proof.
  unfold escapeEnd. repeat case_match; rewrite ?length_drop; simpl; lia.
Qed.

Lemma class_loop_length n l : (length (class_loop n l) <= length l)%nat.
Proof.
  revert l. induction n as [|n IH]; intros [|b l]; simpl; [lia..|].
  pose proof (escapeEnd_length l).
  repeat case_match; try (etrans; [apply IH|]); rewrite ?length_drop; simpl; try lia.
Qed.

Lemma classEnd_length l : (length (classEnd l) <= length l)%nat.
Proof.
  unfold classEnd. etrans; [apply class_loop_length|].
  repeat case_match; rewrite ?length_drop; lia.
Qed.

Lemma groupStart_length l mixed : (length (fst (groupStart l mixed)) <= length l)%nat.
Proof.
  destruct l as [|b l]; simpl; [lia|]. destruct (b =? b_quest); simpl; [|lia].
  destruct (index_any _ l); simpl; rewrite ?length_drop; lia.
Qed.

Lemma skip_quest_length l : (length (skip_quest l) <= length l)%nat.
Proof. unfold skip_quest. case_match; rewrite ?length_drop; lia. Qed.

(** The rest after a repeat is shorter. *)
Lemma repeat_rest_length b l n :
  (n =? 0)%nat = false -> (length (skip_quest (drop n (b :: l))) <= length l)%nat.
Proof.
  intros Hn%Nat.eqb_neq. etrans; [apply skip_quest_length|]. rewrite length_drop. simpl. lia.
Qed.

Lemma unboundedRepeats_loop_fuel l n m count :
  (length l <= n)%nat -> (length l <= m)%nat ->
  unboundedRepeats_loop n count l = unboundedRepeats_loop m count l.
Proof.
  revert l m count. induction n as [|n IH]; intros [|b l] [|m] count Hn Hm; try done; simpl in Hn, Hm; try lia.
  cbn [unboundedRepeats_loop].
  pose proof (escapeEnd_length l). pose proof (classEnd_length l). pose proof (skip_quest_length l).
  destruct (b =? b_back); [apply IH; lia|]. destruct (b =? b_open); [apply IH; lia|].
  destruct (b =? b_lparen); [apply IH; lia|].
  destruct (rep_length (repeatAt (b :: l)) =? 0)%nat eqn:E; [apply IH; lia|].
  pose proof (repeat_rest_length b l _ E). apply IH; lia.
Qed.

Lemma nestedRepeat_loop_fuel l n m mixed mg :
  (length l <= n)%nat -> (length l <= m)%nat ->
  nestedRepeat_loop n mixed mg l = nestedRepeat_loop m mixed mg l.
Proof.
  revert l m mixed mg. induction n as [|n IH]; intros [|b l] [|m] mixed mg Hn Hm; try done; simpl in Hn, Hm; try lia.
  cbn [nestedRepeat_loop].
  pose proof (escapeEnd_length l). pose proof (classEnd_length l). pose proof (groupStart_length l mixed) as Hg.
  destruct (b =? b_back); [apply IH; lia|]. destruct (b =? b_open); [apply IH; lia|].
  destruct (b =? b_lparen).
  { destruct (groupStart l mixed) as [r mixed']. simpl in Hg. apply IH; lia. }
  assert (forall mixed mg, nestedRepeat_loop n mixed mg l = nestedRepeat_loop m mixed mg l) as Hl
    by (intros; apply IH; lia).
  destruct (rep_length (repeatAt (b :: l)) =? 0)%nat eqn:E.
  - repeat case_match; done.
  - pose proof (repeat_rest_length b l _ E).
    repeat case_match; try done; apply IH; lia.
Qed.

(** ** Patterns as trees

    The regular expressions made of characters, escapes, classes, groups and
    alternatives, with or without a repeat after each, and their text. *)

Inductive repop : Type :=
  | Star
  | Plus
  | Quest
  | Exact (n : Z)
  | AtLeast (n : Z)
  | Between (n m : Z).

Record quant : Type := { op : repop; lazy : bool }.

Inductive group_kind : Type := Capture | NonCapture | Named (name : list Z).

Inductive pat : Type :=
  | Done
  | Bar (rest : pat)
  | Chr (c : Z) (q : option quant) (rest : pat)
  | Esc (c : Z) (q : option quant) (rest : pat)
  | Cls (body : list Z) (q : option quant) (rest : pat)
  | Grp (kind : group_kind) (inner : pat) (q : option quant) (rest : pat).

Definition num (n : Z) : list Z := bytes_Z (itoa n).

Definition op_text (o : repop) : list Z :=
  match o with
  | Star => [b_star]
  | Plus => [b_plus]
  | Quest => [b_quest]
  | Exact n => b_lbrace :: num n ++ [b_rbrace]
  | AtLeast n => b_lbrace :: num n ++ [b_comma; b_rbrace]
  | Between n m => b_lbrace :: num n ++ b_comma :: num m ++ [b_rbrace]
  end.

Definition quant_text (q : option quant) : list Z :=
  match q with
  | None => []
  | Some q => op_text (op q) ++ (if lazy q then [b_quest] else [])
  end.

Definition kind_text (k : group_kind) : list Z :=
  match k with
  | Capture => []
  | NonCapture => [b_quest; b_colon]
  | Named name => [b_quest; b_P; 60] ++ name ++ [b_gt]
  end.

Fixpoint print (p : pat) : list Z :=
  match p with
  | Done => []
  | Bar p => b_bar :: print p
  | Chr c q p => c :: quant_text q ++ print p
  | Esc c q p => b_back :: c :: quant_text q ++ print p
  | Cls body q p => b_open :: body ++ b_close :: quant_text q ++ print p
  | Grp k inner q p => b_lparen :: kind_text k ++ print inner ++ b_rparen :: quant_text q ++ print p
  end.

(** *** What is meant *)

(** The repeat has no largest count, or can repeat more than once. *)
Definition op_unbounded (o : repop) : bool :=
  match o with Star | Plus | AtLeast _ => true | _ => false end.

Definition op_more (o : repop) : bool :=
  match o with
  | Star | Plus | AtLeast _ => true
  | Quest => false
  | Exact n => 1 <? n
  | Between n m => 1 <? Z.max n m
  end.

Definition quant_unbounded (q : option quant) : Z :=
  match q with Some q => if op_unbounded (op q) then 1 else 0 | None => 0 end.

Definition quant_more (q : option quant) : bool :=
  match q with Some q => op_more (op q) | None => false end.

(** How many repeats with no largest count a pattern has. *)
Fixpoint count_unbounded (p : pat) : Z :=
  match p with
  | Done => 0
  | Bar p => count_unbounded p
  | Chr _ q p | Esc _ q p | Cls _ q p => quant_unbounded q + count_unbounded p
  | Grp _ inner q p => count_unbounded inner + quant_unbounded q + count_unbounded p
  end.

(** Whether a pattern has a repeat or an alternative in it. *)
Fixpoint has_mixed (p : pat) : bool :=
  match p with
  | Done => false
  | Bar _ => true
  | Chr _ q p | Esc _ q p | Cls _ q p => bool_decide (is_Some q) || has_mixed p
  | Grp _ inner q p => has_mixed inner || bool_decide (is_Some q) || has_mixed p
  end.

(** Whether a pattern repeats such a group more than once. *)
Fixpoint repeats_mixed (p : pat) : bool :=
  match p with
  | Done => false
  | Bar p | Chr _ _ p | Esc _ _ p | Cls _ _ p => repeats_mixed p
  | Grp _ inner q p => repeats_mixed inner || (has_mixed inner && quant_more q) || repeats_mixed p
  end.

(** *** Well-formed trees *)

Definition is_byte (b : Z) : bool := (0 <=? b) && (b <? 256).

(** A character that stands for itself. *)
Definition plain (c : Z) : bool :=
  is_byte c &&
  negb (existsb (Z.eqb c) [b_back; b_open; b_lparen; b_rparen; b_bar; b_star; b_plus; b_quest; b_lbrace]).

(** A character whose escape is two bytes long. *)
Definition short_escape (c : Z) : bool :=
  is_byte c && negb (existsb (Z.eqb c) [b_Q; b_x; b_p; b_P]).

(** A character of a class that needs no escape there. *)
Definition class_char (c : Z) : bool :=
  is_byte c && negb (existsb (Z.eqb c) [b_back; b_open; b_close; b_caret]).

Definition name_char (c : Z) : bool := is_alnum c || (c =? 95).

(** RE2 reads counts of at most 1000. *)
Definition count_ok (n : Z) : bool := (0 <=? n) && (n <=? 1000).

Definition op_ok (o : repop) : bool :=
  match o with
  | Exact n | AtLeast n => count_ok n
  | Between n m => count_ok n && count_ok m
  | _ => true
  end.

Definition quant_ok (q : option quant) : bool :=
  match q with Some q => op_ok (op q) | None => true end.

Definition kind_ok (k : group_kind) : bool :=
  match k with Named name => forallb name_char name | _ => true end.

Fixpoint wf (p : pat) : bool :=
  match p with
  | Done => true
  | Bar p => wf p
  | Chr c q p => plain c && quant_ok q && wf p
  | Esc c q p => short_escape c && quant_ok q && wf p
  | Cls body q p => negb (bool_decide (body = [])) && forallb class_char body && quant_ok q && wf p
  | Grp k inner q p => kind_ok k && wf inner && quant_ok q && wf p
  end.

(** *** Reading a repeat *)

Lemma num_spec n :
  0 <= n <= 1000 ->
  all_digits (num n) /\ num n <> [] /\ count_of (num n) = n.
Proof.
  intros Hn. unfold num. destruct (itoa_canonical n) as [(Hne & Hd & _) _]; [lia|].
  split; [done|]. split; [done|]. unfold count_of. rewrite Z_string_bytes_Z, Atoi_itoa; [done|unfold maxInt; lia].
Qed.

Lemma matcherRepeat_brace ds r :
  all_digits ds -> ds <> [] -> is_digit (hd 0 r) = false ->
  matcherRepeat (b_lbrace :: ds ++ r) =
    match r with
    | [] => None
    | c :: r' =>
        if c =? b_rbrace then Some (ds, false, [], (2 + length ds)%nat)
        else if c =? b_comma then
          let '(m, r'') := span_digits r' in
          match r'' with
          | d :: _ => if d =? b_rbrace then Some (ds, true, m, (3 + length ds + length m)%nat) else None
          | [] => None
          end
        else None
    end.
Proof.
  intros Hd Hn Hr. unfold matcherRepeat. rewrite Z.eqb_refl, span_digits_app by done.
  by destruct ds.
Qed.

Lemma repeatAt_brace l :
  repeatAt (b_lbrace :: l) =
    match matcherRepeat (b_lbrace :: l) with
    | None => no_repeat
    | Some (n, comma, m, len) =>
        let unb := comma && match m with [] => true | _ => false end in
        {| rep_length := len; more := unb || (1 <? Z.max (count_of n) (count_of m)); unbounded := unb |}
    end.
Proof. done. Qed.

Lemma count_ok_iff n : count_ok n = true <-> 0 <= n <= 1000.
Proof. unfold count_ok. rewrite andb_true_iff. lia. Qed.

(** Each repeat reads as what it is. *)
Lemma repeatAt_op o r :
  op_ok o = true ->
  repeatAt (op_text o ++ r) =
    {| rep_length := length (op_text o); more := op_more o; unbounded := op_unbounded o |}.
Proof.
  destruct o as [| | |n|n|n m]; try done; cbn [op_ok op_text op_more op_unbounded app].
  - intros Hn%count_ok_iff. destruct (num_spec n Hn) as (Hd & Hne & Hc).
    rewrite <- app_assoc, repeatAt_brace, matcherRepeat_brace by done. simpl. rewrite Hc, length_app. simpl.
    f_equal; [lia|]. change (count_of []) with 0. by rewrite Z.max_l by lia.
  - intros Hn%count_ok_iff. destruct (num_spec n Hn) as (Hd & Hne & Hc).
    rewrite <- app_assoc, repeatAt_brace, matcherRepeat_brace by done. simpl. rewrite length_app. simpl.
    f_equal. lia.
  - intros [Hn%count_ok_iff Hm%count_ok_iff]%andb_true_iff.
    destruct (num_spec n Hn) as (Hd & Hne & Hc). destruct (num_spec m Hm) as (Hd' & Hne' & Hc').
    rewrite <- app_assoc, repeatAt_brace, matcherRepeat_brace by done. cbn [app Z.eqb Pos.eqb b_rbrace b_comma].
    rewrite <- app_assoc, span_digits_app by done. cbn [app Z.eqb Pos.eqb b_rbrace].
    rewrite Hc, Hc'. cbn [length]. rewrite !length_app. cbn [length]. rewrite length_app. cbn [length].
    destruct (num m) eqn:E; [done|]. rewrite <- E in *. cbn [andb orb]. f_equal. lia.
Qed.

Lemma op_text_nonempty o : exists b l, op_text o = b :: l /\
  (b =? b_back) = false /\ (b =? b_open) = false /\ (b =? b_lparen) = false /\ (b =? b_rparen) = false /\
  (b =? b_bar) = false.
Proof. by destruct o; repeat eexists. Qed.

Lemma repeatAt_plain c l : plain c = true -> repeatAt (c :: l) = no_repeat.
Proof.
  unfold plain. simpl. rewrite !andb_true_iff, negb_true_iff, !orb_false_iff. intros [_ H].
  unfold repeatAt, matcherRepeat. destruct_and!. by repeat match goal with E : (c =? _) = false |- _ => rewrite E; clear E end.
Qed.

(** *** Steps of the loops without their fuel *)

Definition U (count : Z) (l : list Z) : Z := unboundedRepeats_loop (length l) count l.
Definition N (mixed : list bool) (mg : bool) (l : list Z) : bool := nestedRepeat_loop (length l) mixed mg l.

Lemma U_fuel n count l : (length l <= n)%nat -> unboundedRepeats_loop n count l = U count l.
Proof. intros. by apply unboundedRepeats_loop_fuel. Qed.

Lemma N_fuel n mixed mg l : (length l <= n)%nat -> nestedRepeat_loop n mixed mg l = N mixed mg l.
Proof. intros. by apply nestedRepeat_loop_fuel. Qed.

Ltac unplain H :=
  unfold plain in H; simpl in H; rewrite !andb_true_iff, negb_true_iff, !orb_false_iff in H; destruct_and! H.

Lemma U_plain c l count : plain c = true -> U count (c :: l) = U count l.
Proof.
  intros Hc. pose proof (repeatAt_plain c l Hc) as Hr. unplain Hc.
  unfold U at 1. cbn [length unboundedRepeats_loop]. rewrite Hr.
  repeat match goal with E : (c =? _) = false |- _ => rewrite E; clear E end. done.
Qed.

Lemma N_plain c l mixed mg : plain c = true -> N mixed mg (c :: l) = N mixed false l.
Proof.
  intros Hc. pose proof (repeatAt_plain c l Hc) as Hr. unplain Hc.
  unfold N at 1. cbn [length nestedRepeat_loop]. rewrite Hr.
  repeat match goal with E : (c =? _) = false |- _ => rewrite E; clear E end. done.
Qed.

Lemma escapeEnd_short c l : short_escape c = true -> escapeEnd (c :: l) = l.
Proof.
  unfold short_escape. simpl. rewrite !andb_true_iff, negb_true_iff, !orb_false_iff. intros H. destruct_and! H.
  unfold escapeEnd. cbn [starts]. rewrite !(Z.eqb_sym _ c).
  repeat match goal with E : (c =? _) = false |- _ => rewrite E; clear E end. done.
Qed.

Lemma class_loop_body body n l :
  forallb class_char body = true -> (length body < n)%nat ->
  class_loop n (body ++ b_close :: l) = l.
Proof.
  revert n. induction body as [|c body IH]; intros [|n] Hb Hn; simpl in Hn; try lia; [done|].
  cbn [forallb] in Hb. apply andb_true_iff in Hb as [Hc Hb].
  unfold class_char in Hc. simpl in Hc. rewrite andb_true_iff, negb_true_iff, !orb_false_iff in Hc. destruct_and! Hc.
  cbn [app class_loop starts]. rewrite (Z.eqb_sym b_open c).
  repeat match goal with E : (c =? _) = false |- _ => rewrite E; clear E end. cbn [andb].
  apply IH; [done|lia].
Qed.

Lemma classEnd_body body l :
  body <> [] -> forallb class_char body = true -> classEnd (body ++ b_close :: l) = l.
Proof.
  intros Hn Hb. destruct body as [|c body]; [done|]. pose proof Hb as Hc. cbn [forallb] in Hc.
  unfold class_char in Hc. simpl in Hc. rewrite !andb_true_iff, negb_true_iff, !orb_false_iff in Hc. destruct_and! Hc.
  unfold classEnd. cbn [app starts]. rewrite !(Z.eqb_sym _ c).
  repeat match goal with E : (c =? _) = false |- _ => rewrite E; clear E end. cbn [andb starts].
  rewrite !(Z.eqb_sym _ c).
  repeat match goal with E : (c =? _) = false |- _ => rewrite E; clear E end. cbn [andb].
  change (c :: body ++ b_close :: l) with ((c :: body) ++ b_close :: l).
  apply class_loop_body; [done|]. rewrite length_app. simpl. lia.
Qed.

Lemma skip_quest_other l : (hd 0 l =? b_quest) = false -> skip_quest l = l.
Proof. intros H. destruct l as [|b l]; [done|]. unfold skip_quest. cbn [starts]. simpl in H. by rewrite Z.eqb_sym, H. Qed.

Lemma skip_quest_lazy (lz : bool) l :
  (hd 0 l =? b_quest) = false -> skip_quest ((if lz then [b_quest] else []) ++ l) = l.
Proof. intros. destruct lz; [done|]. by apply skip_quest_other. Qed.

Lemma quant_rest q l :
  (hd 0 l =? b_quest) = false ->
  skip_quest (drop (length (op_text (op q))) (quant_text (Some q) ++ l)) = l.
Proof.
  intros Hl. cbn [quant_text]. rewrite <- app_assoc, drop_app_length. by apply skip_quest_lazy.
Qed.

Lemma U_quant q l count :
  quant_ok q = true -> (hd 0 l =? b_quest) = false ->
  U count (quant_text q ++ l) = U (count + quant_unbounded q) l.
Proof.
  intros Hq Hl. destruct q as [q|]; [|simpl; by rewrite Z.add_0_r].
  pose proof (quant_rest q l Hl) as Hrest. pose proof (repeatAt_op (op q) ((if lazy q then [b_quest] else []) ++ l) Hq) as Hr.
  rewrite app_assoc in Hr. change (op_text (op q) ++ _) with (quant_text (Some q)) in Hr.
  destruct (op_text_nonempty (op q)) as (b & t & Ho & H1 & H2 & H3 & _).
  assert (quant_text (Some q) ++ l = b :: t ++ (if lazy q then [b_quest] else []) ++ l) as Hb.
  { cbn [quant_text]. by rewrite Ho, <- app_assoc. }
  rewrite Hb in *. unfold U at 1. cbn [length unboundedRepeats_loop]. rewrite H1, H2, H3, Hr.
  cbn [rep_length unbounded]. rewrite Ho in *. cbn [length Nat.eqb] in Hrest |- *. rewrite Hrest.
  rewrite U_fuel by (rewrite !length_app; lia). f_equal. simpl. destruct (op_unbounded _); lia.
Qed.

Lemma N_quant q l b st mg :
  quant_ok q = true -> (hd 0 l =? b_quest) = false ->
  N (b :: st) mg (quant_text q ++ l) =
    if mg && quant_more q then true
    else N ((b || bool_decide (is_Some q)) :: st) (if q then false else mg) l.
Proof.
  intros Hq Hl. destruct q as [q|]; [|simpl; by rewrite andb_false_r, orb_false_r].
  pose proof (quant_rest q l Hl) as Hrest. pose proof (repeatAt_op (op q) ((if lazy q then [b_quest] else []) ++ l) Hq) as Hr.
  rewrite app_assoc in Hr. change (op_text (op q) ++ _) with (quant_text (Some q)) in Hr.
  destruct (op_text_nonempty (op q)) as (a & t & Ho & H1 & H2 & H3 & H4 & H5).
  assert (quant_text (Some q) ++ l = a :: t ++ (if lazy q then [b_quest] else []) ++ l) as Hb.
  { cbn [quant_text]. by rewrite Ho, <- app_assoc. }
  rewrite Hb in *. unfold N at 1. cbn [length nestedRepeat_loop]. rewrite H1, H2, H3, H4, H5, Hr.
  cbn [rep_length more]. rewrite Ho in *. cbn [length Nat.eqb quant_more] in Hrest |- *. destruct (mg && op_more (op q)); [done|].
  rewrite Hrest, N_fuel by (rewrite !length_app; lia). cbn [tail]. by rewrite bool_decide_true, orb_true_r.
Qed.

Lemma plain_not_quest c : plain c = true -> (c =? b_quest) = false.
Proof. intros Hc. by unplain Hc. Qed.

(** No pattern starts with a question mark. *)
Lemma print_head p l :
  wf p = true -> (hd 0 l =? b_quest) = false -> (hd 0 (print p ++ l) =? b_quest) = false.
Proof.
  destruct p; simpl; try done. rewrite !andb_true_iff. intros [[Hc _] _] _. by apply plain_not_quest.
Qed.

Lemma name_plain name : forallb name_char name = true -> forallb plain name = true.
Proof.
  rewrite !forallb_forall. intros H c Hc. specialize (H c Hc).
  unfold name_char, is_alnum, is_digit, is_letter, in_range in H.
  unfold plain, is_byte. simpl. unfold b_back, b_open, b_lparen, b_rparen, b_bar, b_star, b_plus, b_quest, b_lbrace.
  lia.
Qed.

Lemma U_plain_list l r count : forallb plain l = true -> U count (l ++ r) = U count r.
Proof.
  induction l as [|c l IH]; [done|]. cbn [forallb app]. intros [Hc Hl]%andb_true_iff.
  by rewrite U_plain, IH.
Qed.

(** The start of a group counts as nothing. *)
Lemma U_group k l count :
  kind_ok k = true -> (hd 0 l =? b_quest) = false ->
  U count (b_lparen :: kind_text k ++ l) = U count l.
Proof.
  intros Hk Hl. unfold U at 1. cbn [length unboundedRepeats_loop Z.eqb Pos.eqb b_back b_open b_lparen].
  rewrite U_fuel by apply skip_quest_length. destruct k as [| |name]; cbn [kind_text app].
  - by rewrite skip_quest_other.
  - change (skip_quest (b_quest :: b_colon :: l)) with (b_colon :: l). by apply U_plain.
  - change (skip_quest (b_quest :: ?x)) with x. rewrite <- app_assoc. cbn [app].
    rewrite !U_plain, U_plain_list by (done || by apply name_plain). by apply U_plain.
Qed.

Lemma index_any_name name l :
  forallb name_char name = true -> index_any [b_colon; b_gt; b_rparen] (name ++ b_gt :: l) = Some (length name).
Proof.
  induction name as [|c name IH]; [done|]. cbn [forallb app index_any length]. intros [Hc Hn]%andb_true_iff.
  rewrite IH by done. assert (existsb (Z.eqb c) [b_colon; b_gt; b_rparen] = false) as ->; [|done].
  unfold name_char, is_alnum, is_digit, is_letter, in_range in Hc. simpl. unfold b_colon, b_gt, b_rparen. lia.
Qed.

Lemma N_group k l mixed mg :
  kind_ok k = true -> (hd 0 l =? b_quest) = false ->
  N mixed mg (b_lparen :: kind_text k ++ l) = N (false :: mixed) false l.
Proof.
  intros Hk Hl. unfold N at 1. cbn [length nestedRepeat_loop Z.eqb Pos.eqb b_back b_open b_lparen].
  assert (groupStart (kind_text k ++ l) mixed = (l, false :: mixed)) as ->.
  { destruct k as [| |name]; cbn [kind_text app groupStart].
    - destruct l as [|b l]; [done|]. simpl in Hl |- *. by rewrite Hl.
    - done.
    - rewrite Z.eqb_refl, <- app_assoc. cbn [app index_any existsb Z.eqb Pos.eqb b_colon b_gt b_rparen b_P orb].
      rewrite (index_any_name name l Hk). cbn [fmap option_fmap option_map].
      rewrite Nat.add_1_r. cbn [drop nth]. rewrite app_nth2, Nat.sub_diag by lia.
      change (drop (S (length name)) (name ++ b_gt :: l)) with (drop (S (length name)) (name ++ [b_gt] ++ l)).
      by rewrite app_assoc, drop_app_length' by (rewrite length_app; simpl; lia). }
  apply N_fuel. rewrite length_app. lia.
Qed.

Lemma U_cls body l count :
  body <> [] -> forallb class_char body = true -> U count (b_open :: body ++ b_close :: l) = U count l.
Proof.
  intros Hn Hb. unfold U at 1. cbn [length unboundedRepeats_loop Z.eqb Pos.eqb b_back b_open].
  rewrite classEnd_body by done. apply U_fuel. rewrite length_app. simpl. lia.
Qed.

Lemma N_cls body l mixed mg :
  body <> [] -> forallb class_char body = true -> N mixed mg (b_open :: body ++ b_close :: l) = N mixed false l.
Proof.
  intros Hn Hb. unfold N at 1. cbn [length nestedRepeat_loop Z.eqb Pos.eqb b_back b_open].
  rewrite classEnd_body by done. apply N_fuel. rewrite length_app. simpl. lia.
Qed.

Lemma U_back l count : U count (b_back :: l) = U count (escapeEnd l).
Proof.
  unfold U at 1. cbn [length unboundedRepeats_loop Z.eqb Pos.eqb b_back].
  apply U_fuel, escapeEnd_length.
Qed.

Lemma N_back l mixed mg : N mixed mg (b_back :: l) = N mixed false (escapeEnd l).
Proof.
  unfold N at 1. cbn [length nestedRepeat_loop Z.eqb Pos.eqb b_back].
  apply N_fuel, escapeEnd_length.
Qed.

Lemma U_esc c l count : short_escape c = true -> U count (b_back :: c :: l) = U count l.
Proof. intros Hc. by rewrite U_back, escapeEnd_short. Qed.

Lemma N_esc c l mixed mg : short_escape c = true -> N mixed mg (b_back :: c :: l) = N mixed false l.
Proof. intros Hc. by rewrite N_back, escapeEnd_short. Qed.

(** Counting passes through a pattern. *)
Lemma U_print p count l :
  wf p = true -> (hd 0 l =? b_quest) = false -> U count (print p ++ l) = U (count + count_unbounded p) l.
Proof.
  revert count l. induction p as [|p IH|c q p IH|c q p IH|body q p IH|k inner IHi q p IH]; intros count l;
    cbn [wf print count_unbounded app]; rewrite ?andb_true_iff.
  - intros _ _. by rewrite Z.add_0_r.
  - intros Hw Hl. by rewrite <- IH.
  - intros [[Hc Hq] Hw] Hl. rewrite U_plain, <- app_assoc, U_quant, IH by (done || by apply print_head).
    f_equal. lia.
  - intros [[Hc Hq] Hw] Hl. rewrite U_esc, <- app_assoc, U_quant, IH by (done || by apply print_head).
    f_equal. lia.
  - intros [[[Hn Hb] Hq] Hw] Hl. apply negb_true_iff, bool_decide_eq_false in Hn.
    rewrite <- app_assoc. cbn [app].
    rewrite U_cls, <- app_assoc, U_quant, IH by (done || by apply print_head). f_equal. lia.
  - intros [[[Hk Hi] Hq] Hw] Hl. rewrite <- app_assoc, U_group by (done || by rewrite <- app_assoc; apply print_head).
    rewrite <- app_assoc, IHi by done. cbn [app].
    assert (forall n l, U n (b_rparen :: l) = U n l) as -> by done.
    rewrite <- app_assoc, U_quant, IH by (done || by apply print_head). f_equal. lia.
Qed.

(** Whether what was read last is a group with a repeat or alternative. *)
Fixpoint last_mixed (mg : bool) (p : pat) : bool :=
  match p with
  | Done => mg
  | Bar p | Chr _ _ p | Esc _ _ p | Cls _ _ p => last_mixed false p
  | Grp _ inner q p => last_mixed (if q then false else has_mixed inner) p
  end.

Lemma N_quant_single q p l b st :
  quant_ok q = true -> (hd 0 (print p ++ l) =? b_quest) = false ->
  N (b :: st) false (quant_text q ++ print p ++ l) = N ((b || bool_decide (is_Some q)) :: st) false (print p ++ l).
Proof. intros Hq Hl. rewrite N_quant by done. cbn [andb]. by destruct q. Qed.

(** Looking for a nested repeat passes through a pattern. *)
Lemma N_print p b st mg l :
  wf p = true -> (hd 0 l =? b_quest) = false ->
  N (b :: st) mg (print p ++ l) =
    if repeats_mixed p then true else N ((b || has_mixed p) :: st) (last_mixed mg p) l.
Proof.
  revert b st mg l. induction p as [|p IH|c q p IH|c q p IH|body q p IH|k inner IHi q p IH]; intros b st mg l;
    cbn [wf print repeats_mixed has_mixed last_mixed app]; rewrite ?andb_true_iff.
  - intros _ _. by rewrite orb_false_r.
  - intros Hw Hl.
    assert (forall m l, N (b :: st) m (b_bar :: l) = N (true :: st) false l) as -> by done.
    rewrite IH by done. by rewrite orb_true_r.
  - intros [[Hc Hq] Hw] Hl.
    rewrite N_plain, <- app_assoc, N_quant_single, IH by (done || by apply print_head). by rewrite orb_assoc.
  - intros [[Hc Hq] Hw] Hl.
    rewrite N_esc, <- app_assoc, N_quant_single, IH by (done || by apply print_head). by rewrite orb_assoc.
  - intros [[[Hn Hb] Hq] Hw] Hl. apply negb_true_iff, bool_decide_eq_false in Hn.
    rewrite <- app_assoc. cbn [app].
    rewrite N_cls, <- app_assoc, N_quant_single, IH by (done || by apply print_head). by rewrite orb_assoc.
  - intros [[[Hk Hi] Hq] Hw] Hl.
    rewrite <- app_assoc, N_group by (done || by rewrite <- app_assoc; apply print_head).
    rewrite <- app_assoc, IHi by done. cbn [app orb]. destruct (repeats_mixed inner); [done|]. cbn [orb].
    assert (forall m m' l, N (m :: b :: st) m' (b_rparen :: l) = N ((b || m) :: st) m l) as -> by done.
    rewrite <- app_assoc, N_quant by (done || by apply print_head). destruct (has_mixed inner && quant_more q); [done|].
    cbn [orb]. rewrite IH by done. destruct (repeats_mixed p); [done|].
    by rewrite !orb_assoc.
Qed.

(** The bytes of a tree's text are bytes. *)
Lemma num_bytes n : Forall (fun b => 0 <= b < 256) (num n).
Proof. apply bytes_Z_range. Qed.

Lemma quant_bytes q : Forall (fun b => 0 <= b < 256) (quant_text q).
Proof.
  destruct q as [[o lz]|]; [|constructor]. cbn [quant_text op lazy]. apply Forall_app. split.
  - destruct o; cbn [op_text]; repeat (constructor; [by unfold b_star, b_plus, b_quest, b_lbrace|]); try constructor;
      rewrite ?Forall_app, ?Forall_cons, ?Forall_app, ?Forall_cons; repeat split; try apply num_bytes; try constructor; done.
  - by destruct lz; repeat constructor.
Qed.

Lemma print_bytes p : wf p = true -> Forall (fun b => 0 <= b < 256) (print p).
Proof.
  assert (forall c, is_byte c = true -> 0 <= c < 256) as Hbyte by (unfold is_byte; intros; lia).
  induction p as [|p IH|c q p IH|c q p IH|body q p IH|k inner IHi q p IH];
    cbn [wf print]; rewrite ?andb_true_iff, ?Forall_cons, ?Forall_app, ?Forall_cons, ?Forall_app.
  - done.
  - intros; split; [done|auto].
  - unfold plain. rewrite andb_true_iff. intros [[[Hc _] Hq] Hw]. pose proof (quant_bytes q). auto.
  - unfold short_escape. rewrite andb_true_iff. intros [[[Hc _] Hq] Hw]. pose proof (quant_bytes q). split; [done|auto].
  - intros [[[_ Hb] Hq] Hw]. pose proof (quant_bytes q). split; [done|]. split; [|split; [done|auto]].
    apply forallb_Forall in Hb. eapply Forall_impl; [exact Hb|]. unfold class_char. intros c.
    rewrite andb_true_iff. intros [? _]. auto.
  - intros [[[Hk Hi] Hq] Hw]. pose proof (quant_bytes q).
    assert (Forall (fun b => 0 <= b < 256) (kind_text k)).
    { destruct k as [| |name]; [constructor|by repeat constructor|]. cbn [kind_text kind_ok] in *.
      rewrite !Forall_app. split; [by repeat constructor|]. split; [|by repeat constructor].
      apply name_plain, forallb_Forall in Hk. eapply Forall_impl; [exact Hk|]. unfold plain. intros c.
      rewrite andb_true_iff. intros [? _]. auto. }
    rewrite ?Forall_app, ?Forall_cons, ?Forall_app. split_and!; try done; auto.
Qed.

Definition pattern_text (p : pat) : string := Z_string (print p).

(** On the text of every pattern made of characters, escapes, classes,
    groups, alternatives and repeats, the scan for nested repeats finds one
    exactly when a group that has a repeat or an alternative in it, at any
    depth, is itself repeated more than once. *)
Theorem nestedRepeat_iff p :
  wf p = true -> nestedRepeat (pattern_text p) = repeats_mixed p.
Proof.
  intros Hw. unfold nestedRepeat, pattern_text. rewrite bytes_Z_string by by apply print_bytes.
  change (nestedRepeat_loop _ _ _ _) with (N [false] false (print p)).
  rewrite <- (app_nil_r (print p)), N_print by done. by destruct (repeats_mixed p).
Qed.

(** On the text of the same patterns, the scan counts exactly the repeats
    without a largest count, those in groups too, and none of the stars and
    pluses that are escaped or in a class. *)
Theorem unboundedRepeats_count p :
  wf p = true -> unboundedRepeats (pattern_text p) = count_unbounded p.
Proof.
  intros Hw. unfold unboundedRepeats, pattern_text. rewrite bytes_Z_string by by apply print_bytes.
  change (unboundedRepeats_loop _ _ _) with (U 0 (print p)).
  by rewrite <- (app_nil_r (print p)), U_print by done.
Qed.

Module Sample.

(** [(?:a|[*+])+\*{2,}?]. *)
Definition p : pat :=
  Grp NonCapture (Chr 97 None (Bar (Cls [42; 43] None Done))) (Some {| op := Plus; lazy := false |})
    (Esc 42 (Some {| op := AtLeast 2; lazy := true |}) Done).

Example p_text : pattern_text p = "(?:a|[*+])+\*{2,}?".
Proof. vm_compute. reflexivity. Qed.

Lemma nestedRepeat_iff_witness : nestedRepeat (pattern_text p) = true.
Proof. exact (nestedRepeat_iff p eq_refl). Defined.

Lemma unboundedRepeats_count_witness : unboundedRepeats (pattern_text p) = 2.
Proof. exact (unboundedRepeats_count p eq_refl). Defined.

End Sample.
