(* ===== verification/Layers.v ===== *)
(** * Layers, layer sets and templates (layerset.go, template.go)

    What makes the layers of a diagram, a layer set, the options a document
    keeps of one, and a device template unusable. *)

From Stdlib Require Import ZArith Lia Ascii String Strings.Byte.
From stdpp Require Import base option list gmap strings sorting.
From S2P Require Import Prelude Text Codes Document Checks Matchers.

Open Scope Z_scope.
Open Scope go_scope.

(** What the packages [regexp] and [encoding/json] say: whether a pattern is
    a regular expression of RE2, and the length of the encoding of a device,
    or the error it has instead. *)
Class Libraries := {
  regexp_compiles : string -> bool;
  json_length : TemplateDevice -> res string Z;
}.

Definition MaxLayerMatchers : Z := 16.
Definition MaxMatcherPathBytes : Z := 128.
Definition MaxMatcherPatternBytes : Z := 256.
Definition MaxMatcherRepeats : Z := 3.
Definition MaxLayerSetNameBytes : Z := 128.
Definition MaxLayerSetDescriptionBytes : Z := 1024.
Definition MaxLayerSetIDBytes : Z := 128.

Definition zlen {A} (l : list A) : Z := Z.of_nat (length l).

(** ** Patterns *)

(** [^[A-Za-z0-9_-]+(\.[A-Za-z0-9_-]+)*$]. *)
Definition path_byte (b : Z) : bool := is_alnum b || (b =? 95) || (b =? 45).

Definition matcherPath (s : string) : bool := forallb (all_bytes path_byte) (split_on "." s).

(** [^[A-Za-z0-9_.:-]+$]. *)
Definition set_id_byte (b : Z) : bool :=
  is_alnum b || (b =? 95) || (b =? 46) || (b =? 58) || (b =? 45).

Definition IsLayerSetID (id : string) : bool :=
  negb (String.eqb id "") && (slen id <=? MaxLayerSetIDBytes) && all_bytes set_id_byte id.

Definition matchConflicts : list string := ["lowest"; "highest"].

Definition matchConflictProblem (rule : string) : option text :=
  if String.eqb rule "" || contains_str matchConflicts rule then None
  else Some (Sprintf "unknown match conflict rule %q (expected one of %s)"
               [AStr (truncate rule); AStr (join ", " matchConflicts)]).

Definition joinIssuePath (path key : string) : string :=
  if String.eqb path "" then key else path +:+ "." +:+ key.

Section Layers.
Context `{Libraries}.

(** ** Matchers *)

Definition matcherPatternIssues (pattern path : string) : list Issue :=
  if String.eqb pattern "" then
    [NewIssue CodeLayerMatcherPatternRequired path (lit "a node matcher needs a pattern")]
  else if MaxMatcherPatternBytes <? slen pattern then
    [NewIssue CodeLayerMatcherPatternTooLong path
       (Sprintf "node matcher pattern must be at most %d bytes" [AInt MaxMatcherPatternBytes])]
  else if negb (regexp_compiles pattern) then
    [NewIssue CodeLayerMatcherPatternInvalid path
       (Sprintf "node matcher pattern %q is not a regular expression" [AStr (truncate pattern)])]
  else if nestedRepeat pattern then
    [NewIssue CodeLayerMatcherPatternInvalid path
       (Sprintf ("node matcher pattern %q repeats a group that has a repeat or " +:+ dq +:+ "|" +:+ dq +:+ " in it")
          [AStr (truncate pattern)])]
  else if MaxMatcherRepeats <? unboundedRepeats pattern then
    [NewIssue CodeLayerMatcherPatternInvalid path
       (Sprintf "node matcher pattern %q has more than %d *, + or {n,} repeats"
          [AStr (truncate pattern); AInt MaxMatcherRepeats])]
  else [].

Definition matcher_field_issues (field at_ : string) : list Issue :=
  if MaxMatcherPathBytes <? slen field then
    [NewIssue CodeLayerMatcherPathTooLong at_
       (Sprintf "node matcher field must be at most %d bytes" [AInt MaxMatcherPathBytes])]
  else if negb (matcherPath field) then
    [NewIssue CodeLayerMatcherPathInvalid at_
       (Sprintf ("node matcher field %q must be keys of letters, digits, " +:+ dq +:+ "_" +:+ dq +:+ " or " +:+ dq
                 +:+ "-" +:+ dq +:+ ", joined by " +:+ dq +:+ "." +:+ dq) [AStr (truncate field)])]
  else [].

Definition matcherIssues (matchers : gmap string string) (path : string) : list Issue :=
  (if MaxLayerMatchers <? zlen (sorted_keys matchers) then
     [NewIssue CodeLayerMatchersTooMany path
        (Sprintf "a layer can have at most %d node matchers, not %d"
           [AInt MaxLayerMatchers; AInt (zlen (sorted_keys matchers))])]
   else []) ++
  concat (map (fun field =>
    let at_ := path +:+ "." +:+ field in
    matcher_field_issues field at_ ++ matcherPatternIssues (default "" (matchers !! field)) at_)
    (sorted_keys matchers)).

(** ** Layers *)

Definition layerIssues (layer : Layer) (path : string) : list Issue :=
  (if blank (layer_Label layer) then
     [NewIssue CodeLayerLabelRequired (path +:+ "." +:+ "label") (lit "a layer needs a label")]
   else if MaxLayerLabelBytes <? slen (layer_Label layer) then
     [NewIssue CodeLayerLabelTooLong (path +:+ "." +:+ "label")
        (Sprintf "layer label must be at most %d bytes" [AInt MaxLayerLabelBytes])]
   else if contains_func (layer_Label layer) isControl then
     [NewIssue CodeLayerLabelControl (path +:+ "." +:+ "label")
        (lit "layer label must not contain control characters")]
   else []) ++
  issue_of CodeLayerIconKeyUnknown (path +:+ "." +:+ "iconKey") (iconKeyProblem (layer_IconKey layer)) ++
  (if String.eqb (layer_Icon layer) "" then []
   else issue_of CodeLayerIconInvalid (path +:+ "." +:+ "icon") (IconNameProblem (layer_Icon layer))) ++
  issue_of CodeLayerColorInvalid (path +:+ "." +:+ "color") (colorProblem (layer_Color layer)) ++
  matcherIssues (Matchers layer) (path +:+ "." +:+ "matchers").

(** One layer of the list at [path], and the IDs seen so far. *)
Definition layer_step (path : string) (i : nat) (layer : Layer) (seen : gmap Z nat) : list Issue * gmap Z nat :=
  let at_ := index_path path i in
  let '(issues, seen) :=
    match layer_ID layer with
    | Some id =>
        if isLayerID id then
          see id i (fun prev => [NewIssue CodeLayerIDDuplicate (at_ +:+ "." +:+ "id")
             (Sprintf "duplicate layer ID %d (also %s[%d])" [AInt id; AStr path; AInt (Z.of_nat prev)])]) seen
        else ([NewIssue CodeLayerIDRange (at_ +:+ "." +:+ "id") layerIDRangeMessage], seen)
    | None => ([NewIssue CodeLayerIDRange (at_ +:+ "." +:+ "id") layerIDRangeMessage], seen)
    end in
  (issues ++ layerIssues layer at_, seen).

Definition layerListIssues (layers : list Layer) (path : string) : list Issue :=
  (if MaxLayers <? zlen layers then
     [NewIssue CodeLayerListTooMany path
        (Sprintf "there can be at most %d layers, not %d" [AInt MaxLayers; AInt (zlen layers)])]
   else []) ++
  fst (each (layer_step path) 0 layers ∅).

(** ** Layer sets *)

Definition layerSetVersionMessage : text := lit "layer set version must be an integer of 1 or more".

Definition set_name_issues (name path : string) : list Issue :=
  if MaxLayerSetNameBytes <? slen name then
    [NewIssue CodeLayerSetNameTooLong path
       (Sprintf "layer set name must be at most %d bytes" [AInt MaxLayerSetNameBytes])]
  else if contains_func name isControl then
    [NewIssue CodeLayerSetNameControl path (lit "layer set name must not contain control characters")]
  else [].

(** [LayerSet.Issues]. *)
Definition LayerSet_Issues (s : LayerSet) (path : string) : list Issue :=
  (if blank (ls_Name s) then
     [NewIssue CodeLayerSetNameRequired (joinIssuePath path "name") (lit "a layer set needs a name")]
   else set_name_issues (ls_Name s) (joinIssuePath path "name")) ++
  (if MaxLayerSetDescriptionBytes <? slen (ls_Description s) then
     [NewIssue CodeLayerSetDescriptionTooLong (joinIssuePath path "description")
        (Sprintf "layer set description must be at most %d bytes" [AInt MaxLayerSetDescriptionBytes])]
   else if contains_func (ls_Description s) isControl then
     [NewIssue CodeLayerSetDescriptionControl (joinIssuePath path "description")
        (lit "layer set description must not contain control characters")]
   else []) ++
  issue_of CodeLayerSetIconKeyUnknown (joinIssuePath path "iconKey") (iconKeyProblem (ls_IconKey s)) ++
  (if String.eqb (ls_Icon s) "" then []
   else issue_of CodeLayerSetIconInvalid (joinIssuePath path "icon") (IconNameProblem (ls_Icon s))) ++
  issue_of CodeLayerSetMatchConflictUnknown (joinIssuePath path "matchConflict") (matchConflictProblem (ls_MatchConflict s)) ++
  (if (zlen (ls_Layers s) =? 0) then
     [NewIssue CodeLayerSetLayersEmpty (joinIssuePath path "layers") (lit "a layer set must hold at least one layer")]
   else []) ++
  layerListIssues (ls_Layers s) (joinIssuePath path "layers").

Definition documentLayerSetIssues (options : DocumentLayerSet) : list Issue :=
  set_name_issues (dls_Name options) "layerSet.name" ++
  issue_of CodeLayerSetMatchConflictUnknown "layerSet.matchConflict" (matchConflictProblem (dls_MatchConflict options)) ++
  match dls_Source options with
  | None => []
  | Some source =>
      (if IsLayerSetID (lss_ID source) then []
       else [NewIssue CodeLayerSetSourceIDInvalid "layerSet.source.id"
               (Sprintf ("layer set ID %q must be 1 to %d letters, digits, " +:+ dq +:+ "." +:+ dq +:+ ", " +:+ dq +:+ "_"
                         +:+ dq +:+ ", " +:+ dq +:+ ":" +:+ dq +:+ " or " +:+ dq +:+ "-" +:+ dq)
                  [AStr (truncate (lss_ID source)); AInt MaxLayerSetIDBytes])]) ++
      (if lss_Version source <? 1 then
         [NewIssue CodeLayerSetSourceVersionInvalid "layerSet.source.version" layerSetVersionMessage]
       else [])
  end.

(** ** Templates *)

Definition MaxTemplates : Z := 50.
Definition MaxTemplateNameBytes : Z := 128.
Definition MaxTemplateDescriptionBytes : Z := 1024.
Definition MaxTemplateDeviceBytes : Z := 16384.
Definition MaxTemplateSourceIDBytes : Z := 128.

Definition template_kind_string (k : TemplateSourceKind) : string :=
  match k with
  | TemplateSourceLibrary => "library"
  | TemplateSourceBuiltin => "builtin"
  | TemplateSourcePreloaded => "preloaded"
  | TemplateSourceOther s => s
  end.

(** [^[A-Za-z0-9][A-Za-z0-9._-]{0,127}$]. *)
Definition templateSourceIDPattern (s : string) : bool :=
  match bytes_Z s with
  | b :: l => is_alnum b && forallb (fun b => is_alnum b || (b =? 46) || (b =? 95) || (b =? 45)) l && (length l <=? 127)%nat
  | [] => false
  end.

Context `{Unicode}.

Definition source_issues (s : TemplateSource) (path : string) : list Issue :=
  match ts_Kind s with
  | TemplateSourceOther kind =>
      [NewIssue CodeTemplateSourceKindUnknown (path +:+ ".kind")
         (Sprintf "template source kind %q is not library, builtin or preloaded" [AStr (truncate kind)])]
  | _ => []
  end ++
  (if String.eqb (ts_ID s) "" then
     [NewIssue CodeTemplateSourceIDInvalid (path +:+ ".id") (lit "a template source needs an ID")]
   else if templateSourceIDPattern (ts_ID s) then []
   else [NewIssue CodeTemplateSourceIDInvalid (path +:+ ".id")
           (Sprintf "template source ID %q is not a template ID" [AStr (truncate (ts_ID s))])]) ++
  (if ts_Version s <? 1 then
     [NewIssue CodeTemplateSourceVersionInvalid (path +:+ ".version")
        (Sprintf "template source version must be 1 or more, not %d" [AInt (ts_Version s)])]
   else []) ++
  (if negb (String.eqb (ts_Digest s) "") && negb (IsDigest (ts_Digest s)) then
     [NewIssue CodeTemplateSourceDigestInvalid (path +:+ ".digest")
        (Sprintf "template source digest %q is not sha256 and 64 lowercase hex digits" [AStr (truncate (ts_Digest s))])]
   else []).

Definition template_name_issues (t : Template) (path : string) : list Issue :=
  (if blank (tpl_Name t) then
     [NewIssue CodeTemplateNameRequired (path +:+ ".name") (lit "a template needs a name")]
   else if MaxTemplateNameBytes <? slen (tpl_Name t) then
     [NewIssue CodeTemplateNameTooLong (path +:+ ".name")
        (Sprintf "template name must be at most %d bytes" [AInt MaxTemplateNameBytes])]
   else if contains_func (tpl_Name t) isControl then
     [NewIssue CodeTemplateNameControl (path +:+ ".name") (lit "template name must not contain control characters")]
   else []) ++
  (if MaxTemplateDescriptionBytes <? slen (tpl_Description t) then
     [NewIssue CodeTemplateDescriptionTooLong (path +:+ ".description")
        (Sprintf "template description must be at most %d bytes" [AInt MaxTemplateDescriptionBytes])]
   else if contains_func (tpl_Description t) isControl then
     [NewIssue CodeTemplateDescriptionControl (path +:+ ".description")
        (lit "template description must not contain control characters")]
   else []).

Definition template_spec_issues (device : TemplateDevice) (path : string) : list Issue :=
  match td_Spec device with
  | None => [NewIssue CodeTemplateSpecRequired (path +:+ ".device.spec") (lit "a template device needs a spec")]
  | Some spec =>
      let hostname := specString spec ["general"; "hostname"] in
      if blank hostname then
        [NewIssue CodeTemplateHostnameRequired (path +:+ ".device.spec.general.hostname")
           (lit "a template needs a hostname")]
      else if hasNameSpace hostname then
        [NewIssue CodeTemplateHostnameWhitespace (path +:+ ".device.spec.general.hostname")
           (Sprintf "template hostname %q must not contain whitespace" [AStr (truncate hostname)])]
      else []
  end.

Definition template_size_issues (device : TemplateDevice) (path : string) : list Issue :=
  match json_length device with
  | Err err =>
      [NewIssue CodeTemplateDeviceUnencodable (path +:+ ".device")
         (Sprintf "template device is not encodable: %v" [AStr err])]
  | Ok encoded =>
      if MaxTemplateDeviceBytes <? encoded then
        [NewIssue CodeTemplateDeviceTooLarge (path +:+ ".device")
           (Sprintf "template device must take at most %d bytes as JSON, not %d" [AInt MaxTemplateDeviceBytes; AInt encoded])]
      else []
  end.

(** [Template.Issues]. *)
Definition Template_Issues (t : Template) (path : string) : list Issue :=
  let device := tpl_Device t in
  template_name_issues t path ++
  template_spec_issues device path ++
  issue_of CodeTemplateIconKeyUnknown (path +:+ ".device.iconKey") (iconKeyProblem (td_IconKey device)) ++
  (if String.eqb (td_Icon device) "" then []
   else issue_of CodeTemplateIconInvalid (path +:+ ".device.icon") (IconNameProblem (td_Icon device))) ++
  issue_of CodeTemplateIconSizeUnknown (path +:+ ".device.iconSize") (iconSizeProblem (td_IconSize device)) ++
  issue_of CodeTemplateColorInvalid (path +:+ ".device.outlineColor") (colorProblem (td_OutlineColor device)) ++
  issue_of CodeTemplateColorInvalid (path +:+ ".device.fillColor") (colorProblem (td_FillColor device)) ++
  issue_of CodeTemplateLayerRange (path +:+ ".device.layer") (layerProblem (td_Layer device)) ++
  template_size_issues device path ++
  match tpl_Source t with
  | None => []
  | Some source => source_issues source (path +:+ ".source")
  end.

(** ** What the library starts with *)

Definition builtinTemplate (id name description iconKey : string) (head : spec) (general : spec) (tail : spec) : Template := {|
  tpl_ID := id; tpl_Name := name; tpl_Description := description;
  tpl_Device := {|
    td_IconKey := iconKey; td_Icon := ""; td_IconSize := ""; td_OutlineColor := ""; td_FillColor := "";
    td_HideDescription := false; td_Layer := None;
    td_Spec := Some (head ++ [("general", Obj (general ++ [("hostname", Str id); ("description", Str "")]))] ++ tail
                     ++ [("network", Obj [("interfaces", Arr [])])]) |};
  tpl_Source := None;
|}.

Definition kvmTemplate (id name description iconKey nodeType osType image : string) : Template :=
  builtinTemplate id name description iconKey
    [("type", Str nodeType)] [("vm_type", Str "kvm")]
    [("hardware", Obj [("os_type", Str osType); ("drives", Arr [Obj [("image", Str image)]])])].

Definition BuiltinTemplates : list Template := [
  kvmTemplate "server" "Server" "Generic Linux server" IconServer "VirtualMachine" "linux" "ubuntu.qc2";
  kvmTemplate "workstation" "Workstation" "Operator workstation" "desktop" "VirtualMachine" "windows" "windows10.qc2";
  kvmTemplate "router" "Router" "Layer 3 router" "router" "Router" "minirouter" "minirouter.qc2";
  kvmTemplate "firewall" "Firewall" "Perimeter firewall" "firewall" "Firewall" "vyos" "vyos.qc2";
  builtinTemplate "external" "External device" "Hardware in the loop device" "external"
    [("external", Bool true); ("type", Str "HIL")] [] []
].

Definition purdueLevels : list (string * string * string) := [
  ("L5 Enterprise", IconServer, "#2f6fbf");
  ("L4 Business", "laptop", "#8b5cf6");
  ("L3.5 Industrial DMZ", "firewall", "#b45309");
  ("L3 Operations", "terminal", "#0f766e");
  ("L2 Supervisory control", "desktop", "#15803d");
  ("L1 Basic control", "plc", "#db2777");
  ("L0 Process", "transmission", "#dc2626")
].

Definition purdueLayer (i : nat) (level : string * string * string) : Layer :=
  let '(label, iconKey, color) := level in {|
    layer_ID := Some (zlen purdueLevels - 1 - Z.of_nat i);
    layer_Label := label; layer_IconKey := iconKey; layer_Icon := ""; layer_Color := color; Matchers := ∅;
  |}.

Definition BuiltinLayerSets : list (string * LayerSet) := [
  ("builtin:purdue", {|
    ls_Name := "Purdue Model";
    ls_Description := "The levels of the Purdue model for industrial control systems. A layer ID is an integer, so level 3.5, the industrial DMZ, has ID 4. The levels above it have the next IDs.";
    ls_IconKey := "plc";
    ls_Icon := "";
    ls_MatchConflict := "lowest";
    ls_LayerOutlines := false;
    ls_Layers := zip_with purdueLayer (seq 0 (length purdueLevels)) purdueLevels;
  |})
].

(** [LayerSet.Validate]: nothing, or every issue with paths from the root. *)
Definition LayerSet_Validate (s : LayerSet) : option (list Issue) :=
  match LayerSet_Issues s "" with
  | [] => None
  | issues => Some issues
  end.

(** ** What is accepted *)

Definition text_line_ok (limit : Z) (s : string) : Prop :=
  slen s <= limit /\ Forall (fun r => isControl r = false) (runes s).

Definition pattern_ok (pattern : string) : Prop :=
  pattern <> "" /\ slen pattern <= MaxMatcherPatternBytes /\ regexp_compiles pattern = true /\
  nestedRepeat pattern = false /\ unboundedRepeats pattern <= MaxMatcherRepeats.

Definition matchers_ok (m : gmap string string) : Prop :=
  Z.of_nat (size m) <= MaxLayerMatchers /\
  map_Forall (fun field pattern =>
    slen field <= MaxMatcherPathBytes /\ matcherPath field = true /\ pattern_ok pattern) m.

Definition one_layer_ok (layer : Layer) : Prop :=
  (exists id, layer_ID layer = Some id /\ 0 <= id <= MaxLayerID) /\
  blank (layer_Label layer) = false /\ text_line_ok MaxLayerLabelBytes (layer_Label layer) /\
  icon_key_ok (layer_IconKey layer) /\ icon_ok (layer_Icon layer) /\ color_ok (layer_Color layer) /\
  matchers_ok (Matchers layer).

Definition layer_list_ok (layers : list Layer) : Prop :=
  zlen layers <= MaxLayers /\ Forall one_layer_ok layers /\ NoDup (omap layer_ID layers).

Definition match_conflict_ok (rule : string) : Prop := rule = "" \/ rule ∈ matchConflicts.

Definition layer_set_ok (s : LayerSet) : Prop :=
  blank (ls_Name s) = false /\ text_line_ok MaxLayerSetNameBytes (ls_Name s) /\
  text_line_ok MaxLayerSetDescriptionBytes (ls_Description s) /\
  icon_key_ok (ls_IconKey s) /\ icon_ok (ls_Icon s) /\ match_conflict_ok (ls_MatchConflict s) /\
  ls_Layers s <> [] /\ layer_list_ok (ls_Layers s).

Definition document_layer_set_ok (o : DocumentLayerSet) : Prop :=
  text_line_ok MaxLayerSetNameBytes (dls_Name o) /\ match_conflict_ok (dls_MatchConflict o) /\
  match dls_Source o with
  | Some source => IsLayerSetID (lss_ID source) = true /\ 1 <= lss_Version source
  | None => True
  end.

Definition template_source_ok (s : TemplateSource) : Prop :=
  (forall kind, ts_Kind s <> TemplateSourceOther kind) /\ templateSourceIDPattern (ts_ID s) = true /\
  1 <= ts_Version s /\ (ts_Digest s = "" \/ IsDigest (ts_Digest s) = true).

Definition name_ok (name : string) : Prop := blank name = false /\ hasNameSpace name = false.

Definition template_ok (t : Template) : Prop :=
  blank (tpl_Name t) = false /\ text_line_ok MaxTemplateNameBytes (tpl_Name t) /\
  text_line_ok MaxTemplateDescriptionBytes (tpl_Description t) /\
  (exists spec, td_Spec (tpl_Device t) = Some spec /\ name_ok (specString spec ["general"; "hostname"])) /\
  icon_key_ok (td_IconKey (tpl_Device t)) /\ icon_ok (td_Icon (tpl_Device t)) /\
  icon_size_ok (td_IconSize (tpl_Device t)) /\ color_ok (td_OutlineColor (tpl_Device t)) /\
  color_ok (td_FillColor (tpl_Device t)) /\ layer_ok (td_Layer (tpl_Device t)) /\
  (exists n, json_length (tpl_Device t) = Ok n /\ n <= MaxTemplateDeviceBytes) /\
  match tpl_Source t with Some source => template_source_ok source | None => True end.

Lemma text_line_iff limit s :
  text_line_ok limit s <-> (limit <? slen s) = false /\ contains_func s isControl = false.
Proof. unfold text_line_ok, contains_func. by rewrite Z.ltb_ge, existsb_Forall. Qed.

(** Two texts refused one after the other. *)
Lemma line_nil limit s (a b : Issue) :
  (if limit <? slen s then [a] else if contains_func s isControl then [b] else []) = [] <-> text_line_ok limit s.
Proof. rewrite text_line_iff. destruct (limit <? slen s), (contains_func s isControl); intuition congruence. Qed.

Lemma nonblank_line_nil limit s (a b c : Issue) :
  (if blank s then [a] else if limit <? slen s then [b] else if contains_func s isControl then [c] else []) = [] <->
  blank s = false /\ text_line_ok limit s.
Proof. rewrite <- (line_nil limit s b c). destruct (blank s); intuition congruence. Qed.

Lemma set_name_issues_nil name path : set_name_issues name path = [] <-> text_line_ok MaxLayerSetNameBytes name.
Proof. apply line_nil. Qed.

Lemma icon_field_nil code path name :
  (if String.eqb name "" then [] else issue_of code path (IconNameProblem name)) = [] <-> icon_ok name.
Proof. apply (validateIconRef_nil name path code). Qed.

Lemma matchConflict_nil code path rule :
  issue_of code path (matchConflictProblem rule) = [] <-> match_conflict_ok rule.
Proof. rewrite issue_of_nil. apply empty_or; [done|apply contains_str_iff]. Qed.

Lemma if_nil (b : bool) (a : Issue) : (if b then [a] else []) = [] <-> b = false.
Proof. by destruct b. Qed.

Lemma matcherPatternIssues_nil pattern path : matcherPatternIssues pattern path = [] <-> pattern_ok pattern.
Proof.
  unfold matcherPatternIssues, pattern_ok. rewrite <- (String.eqb_neq pattern ""), <- Z.ltb_ge, <- (Z.ltb_ge MaxMatcherRepeats).
  destruct (String.eqb pattern ""), (MaxMatcherPatternBytes <? _), (regexp_compiles pattern), (nestedRepeat pattern),
    (MaxMatcherRepeats <? _); simpl; intuition congruence.
Qed.

Lemma matcher_field_nil field at_ :
  matcher_field_issues field at_ = [] <-> slen field <= MaxMatcherPathBytes /\ matcherPath field = true.
Proof.
  unfold matcher_field_issues. rewrite <- Z.ltb_ge. destruct (_ <? _), (matcherPath field); simpl; intuition congruence.
Qed.

Lemma matcherIssues_nil m path : matcherIssues m path = [] <-> matchers_ok m.
Proof.
  unfold matcherIssues, matchers_ok. rewrite app_nil, if_nil, concat_nil, Z.ltb_ge, Forall_forall.
  unfold zlen. rewrite length_key_list. apply and_iff_compat_l. split.
  - intros Hf k v Hk. specialize (Hf k). rewrite elem_of_key_list, Hk in Hf.
    specialize (Hf ltac:(by eexists)). cbn [default from_option id] in Hf.
    rewrite app_nil, matcher_field_nil, matcherPatternIssues_nil in Hf. tauto.
  - intros Hf k Hk. apply elem_of_key_list in Hk as [v Hv]. rewrite Hv. cbn [default from_option id].
    rewrite app_nil, matcher_field_nil, matcherPatternIssues_nil. specialize (Hf k v Hv). cbn beta in Hf. tauto.
Qed.

Lemma layerIssues_nil layer path :
  layerIssues layer path = [] <->
  blank (layer_Label layer) = false /\ text_line_ok MaxLayerLabelBytes (layer_Label layer) /\
  icon_key_ok (layer_IconKey layer) /\ icon_ok (layer_Icon layer) /\ color_ok (layer_Color layer) /\
  matchers_ok (Matchers layer).
Proof.
  unfold layerIssues. rewrite !app_nil, nonblank_line_nil, !issue_of_nil, icon_field_nil, iconKeyProblem_none,
    colorProblem_none, matcherIssues_nil. tauto.
Qed.

Lemma isLayerID_iff id : isLayerID id = true <-> 0 <= id <= MaxLayerID.
Proof. unfold isLayerID. rewrite andb_true_iff. lia. Qed.

Lemma layer_step_nil path i layer seen :
  fst (layer_step path i layer seen) = [] <->
  one_layer_ok layer /\ NoDup (option_list (layer_ID layer)) /\
  forall k, k ∈ option_list (layer_ID layer) -> ~ is_Some (seen !! k).
Proof.
  unfold layer_step, one_layer_ok. destruct (layer_ID layer) as [id|]; cbn [option_list].
  2:{ split; [done|]. by intros [[(x & ? & _) _] _]. }
  destruct (isLayerID id) eqn:Hid.
  - apply isLayerID_iff in Hid. set (dup := fun prev : nat => [NewIssue _ _ _]).
    pose proof (see_nil id i dup seen ltac:(done)) as Hsee. destruct (see id i dup seen) as [a s]. cbn [fst] in *.
    rewrite app_nil, Hsee, layerIssues_nil, eq_None_not_Some. split.
    + intros [Hn Hl]. split; [split; [by exists id|done]|]. split; [apply NoDup_singleton|].
      by intros k ->%list_elem_of_singleton.
    + intros [[_ Hl] [_ Hn]]. split; [|done]. by apply Hn, list_elem_of_singleton.
  - split; [done|]. intros [[(x & [= <-] & Hx%isLayerID_iff) _] _]. congruence.
Qed.

Lemma layer_step_state path i layer seen k :
  fst (layer_step path i layer seen) = [] ->
  is_Some (snd (layer_step path i layer seen) !! k) <-> is_Some (seen !! k) \/ k ∈ option_list (layer_ID layer).
Proof.
  unfold layer_step. destruct (layer_ID layer) as [id|]; cbn [option_list]; [|done].
  destruct (isLayerID id) eqn:Hid; [|done]. set (dup := fun prev : nat => [NewIssue _ _ _]).
  pose proof (see_state id i dup seen ltac:(done)) as Hsee. destruct (see id i dup seen) as [a s]. cbn [fst snd] in *.
  intros [Ha _]%app_nil. rewrite Hsee by done. rewrite lookup_insert_is_Some', (list_elem_of_singleton k id). naive_solver.
Qed.

Lemma layer_list_nil layers path : layerListIssues layers path = [] <-> layer_list_ok layers.
Proof.
  unfold layerListIssues, layer_list_ok. rewrite app_nil, if_nil, Z.ltb_ge. apply and_iff_compat_l.
  rewrite (each_nil (layer_step path) one_layer_ok (fun x => option_list (layer_ID x)) (fun s k => is_Some (s !! k))).
  - rewrite bind_option_list. split; [tauto|]. intros [? ?]. split; [done|]. split; [done|].
    intros k _. rewrite lookup_empty. by intros [].
  - intros. apply layer_step_nil.
  - intros. by apply layer_step_state.
Qed.

(** A list of layers is accepted exactly when it has at most 32 layers,
    each with an ID from 0 to 99, a label that is not blank, too long or with
    control characters, known icons and colors and usable matchers, and no ID
    is used twice. *)
Theorem layerListIssues_nil layers path : layerListIssues layers path = [] <-> layer_list_ok layers.
Proof. apply layer_list_nil. Qed.

Lemma LayerSet_Issues_nil s path : LayerSet_Issues s path = [] <-> layer_set_ok s.
Proof.
  unfold LayerSet_Issues, layer_set_ok.
  rewrite !app_nil. unfold set_name_issues. rewrite nonblank_line_nil, line_nil, issue_of_nil, iconKeyProblem_none,
    icon_field_nil, matchConflict_nil, layer_list_nil, if_nil, Z.eqb_neq.
  assert (zlen (ls_Layers s) <> 0 <-> ls_Layers s <> []) as -> by (unfold zlen; destruct (ls_Layers s); simpl; naive_solver lia).
  tauto.
Qed.

Lemma documentLayerSetIssues_nil o : documentLayerSetIssues o = [] <-> document_layer_set_ok o.
Proof.
  unfold documentLayerSetIssues, document_layer_set_ok.
  rewrite !app_nil, set_name_issues_nil, matchConflict_nil. apply and_iff_compat_l, and_iff_compat_l.
  destruct (dls_Source o) as [source|]; [|done]. rewrite app_nil, if_nil, Z.ltb_ge.
  destruct (IsLayerSetID (lss_ID source)); intuition congruence.
Qed.

Lemma source_issues_nil s path : source_issues s path = [] <-> template_source_ok s.
Proof.
  unfold source_issues, template_source_ok. rewrite !app_nil, !if_nil, Z.ltb_ge, andb_false_iff, !negb_false_iff.
  rewrite String.eqb_eq. apply and_iff_compat.
  - destruct (ts_Kind s) as [| | |k]; split; try done. intros Hk. by destruct (Hk k).
  - apply and_iff_compat_r. destruct (String.eqb_spec (ts_ID s) "") as [->|Hid]; [done|].
    by destruct (templateSourceIDPattern (ts_ID s)).
Qed.

Lemma template_spec_nil device path :
  template_spec_issues device path = [] <->
  exists spec, td_Spec device = Some spec /\ name_ok (specString spec ["general"; "hostname"]).
Proof.
  unfold template_spec_issues, name_ok. destruct (td_Spec device) as [spec|]; [|split; [done|by intros (? & [=] & _)]].
  cbn zeta. set (hostname := specString spec ["general"; "hostname"]).
  transitivity (blank hostname = false /\ hasNameSpace hostname = false).
  - destruct (blank hostname), (hasNameSpace hostname); intuition congruence.
  - split; [by exists spec|]. by intros (? & [= <-] & ?).
Qed.

Lemma template_size_nil device path :
  template_size_issues device path = [] <-> exists n, json_length device = Ok n /\ n <= MaxTemplateDeviceBytes.
Proof.
  unfold template_size_issues. destruct (json_length device) as [n|e]; [|split; [done|by intros (? & [=] & _)]].
  rewrite if_nil, Z.ltb_ge. split; [by exists n|by intros (? & [= <-] & ?)].
Qed.

Lemma template_nil t path : Template_Issues t path = [] <-> template_ok t.
Proof.
  unfold Template_Issues, template_ok, template_name_issues.
  rewrite !app_nil, nonblank_line_nil, line_nil, !issue_of_nil, template_spec_nil, template_size_nil, icon_field_nil,
    iconKeyProblem_none, iconSizeProblem_none, !colorProblem_none, layerProblem_none.
  destruct (tpl_Source t) as [source|]; rewrite ?source_issues_nil; tauto.
Qed.

(** A device template is accepted exactly when its name and description
    are lines of text within their bounds, its spec has a hostname without
    white space, its icon, size, colors and layer are ones a device may have,
    its encoding is at most 16 KiB and its source, if any, is well formed. *)
Theorem Template_Issues_nil t path : Template_Issues t path = [] <-> template_ok t.
Proof. apply template_nil. Qed.

(** Everything the server starts with passes its own checks. *)
Lemma BuiltinLayerSets_ok : Forall (fun s => layer_set_ok (snd s)) BuiltinLayerSets.
Proof. apply Forall_singleton, (LayerSet_Issues_nil _ ""). vm_compute. reflexivity. Qed.

End Layers.
