(* ===== verification/Icons.v ===== *)
(** * Custom icons (customicons.go)

    What makes the custom icons of a document acceptable. The walk over the
    chunks of a PNG is here byte for byte; the pixels are the PNG decoder's
    and the inflater's, which are a class. *)

From Stdlib Require Import ZArith Lia Ascii String Strings.Byte.
From stdpp Require Import base option list gmap strings sorting.
From S2P Require Import Prelude Base64 Text Codes Document Checks.

Open Scope Z_scope.
Open Scope go_scope.

Definition MaxIconPixels : Z := 96.
Definition MaxIconBytes : Z := 40960.
Definition MaxDocumentIcons : Z := 50.

(** ["\x89PNG\r\n\x1a\n"]. *)
Definition pngSignature : list byte := [x89; x50; x4e; x47; x0d; x0a; x1a; x0a].

Definition pngChunkLength : nat := 4.
Definition pngChunkType : nat := 4.
Definition pngChunkCRC : nat := 4.
Definition pngChunkOverhead : nat := 12.
Definition pngHeaderBytes : nat := 13.
Definition pngSideBytes : nat := 4.
Definition pngColorTypeAt : nat := 9.

Definition pngGrayscale : Z := 0.
Definition pngTrueColor : Z := 2.
Definition pngIndexed : Z := 3.

Definition pngIHDR : list byte := to_bytes "IHDR".
Definition pngPLTE : list byte := to_bytes "PLTE".
Definition pngTRNS : list byte := to_bytes "tRNS".
Definition pngIDAT : list byte := to_bytes "IDAT".
Definition pngIEND : list byte := to_bytes "IEND".

Definition is_kind (kind name : list byte) : bool := bool_decide (kind = name).

(** The decoder of image/png and the inflater of compress/zlib: why the PNG
    does not decode, and how many bytes follow the pixels or why they do not
    inflate. *)
Class PNG := {
  png_decode : list byte -> option string;
  inflate_rest : list byte -> res string Z;
}.

(** ** Refusals *)

Definition errNotPNG : text := lit "the image is not a PNG".
Definition errCutShort : text := lit "the PNG is not complete".
Definition errUndecodable (err : string) : text := Sprintf "the Builder cannot decode the PNG: %v" [AStr err].
Definition iconSizeError (width height : Z) : text :=
  Sprintf "icon is %d x %d pixels: the limit is %d x %d" [AInt width; AInt height; AInt MaxIconPixels; AInt MaxIconPixels].

Definition iconSide (pixels : Z) : bool := (1 <=? pixels) && (pixels <=? MaxIconPixels).

(** ** Chunks *)

Definition colorTypeUses (colorType : Z) (kind : list byte) : bool :=
  if colorType =? pngIndexed then true
  else if (colorType =? pngGrayscale) || (colorType =? pngTrueColor) then is_kind kind pngTRNS
  else false.

(** The start of the loop of [walkIconChunks]: the type and the data of the
    next chunk, and what follows it. *)
Definition next_chunk (rest : list byte) : res text (list byte * list byte * list byte) :=
  if (length rest <? pngChunkOverhead)%nat then Err errCutShort
  else
    let len := be_Z (take pngChunkLength rest) in
    let kind := take pngChunkType (drop pngChunkLength rest) in
    if Z.of_nat (length rest - pngChunkOverhead) <? len then Err errCutShort
    else
      let n := Z.to_nat len in
      Ok (kind, take n (drop (pngChunkLength + pngChunkType) rest), drop (pngChunkOverhead + n) rest).

(** The loop of [walkIconChunks]. Each chunk takes at least twelve bytes, so
    as many steps as bytes are enough ([walk_chunks_fuel]). *)
Fixpoint walk_chunks (fuel : nat) (first : bool) (width height colorType : Z) (pixels : list byte) (ended : bool)
    (rest : list byte) : res text (Z * Z * list byte) :=
  match rest, fuel with
  | [], _ => if ended then Ok (width, height, pixels) else Err errCutShort
  | _, O => Err errCutShort
  | _, S fuel' =>
      if ended then Err (lit "the PNG has data after its end")
      else
        let? (kind, body, rest) := next_chunk rest in
        if first then
          if negb (is_kind kind pngIHDR) || negb (length body =? pngHeaderBytes)%nat then
            Err (lit "the PNG does not start with its header")
          else
            let wide := be_Z (take 4 body) in
            let high := be_Z (take 4 (drop pngSideBytes body)) in
            if negb (iconSide wide) || negb (iconSide high) then Err (iconSizeError wide high)
            else
              walk_chunks fuel' false wide high (byte_Z (nth pngColorTypeAt body x00)) pixels ended rest
        else if is_kind kind pngIHDR then Err (lit "the PNG has a second header")
        else if is_kind kind pngIEND then
          if negb (length body =? 0)%nat then Err (lit "the PNG does not end as a PNG does")
          else walk_chunks fuel' false width height colorType pixels true rest
        else if is_kind kind pngIDAT then
          walk_chunks fuel' false width height colorType (pixels ++ body) ended rest
        else if negb (is_kind kind pngPLTE) && negb (is_kind kind pngTRNS) then
          Err (Sprintf "the PNG holds a %q chunk: an icon can hold only IHDR, PLTE, tRNS, IDAT and IEND chunks"
                 [AStr (of_bytes kind)])
        else if negb (colorTypeUses colorType kind) then
          Err (Sprintf "the PNG holds a %q chunk, which its color type does not use" [AStr (of_bytes kind)])
        else walk_chunks fuel' false width height colorType pixels ended rest
  end.

Definition walkIconChunks (data : list byte) : res text (Z * Z * list byte) :=
  let rest := drop (length pngSignature) data in
  walk_chunks (length rest) true 0 0 0 [] false rest.

Definition has_signature (data : list byte) : bool :=
  bool_decide (take (length pngSignature) data = pngSignature).

Definition iconChunks (data : list byte) : res text (Z * Z * list byte) :=
  if (length data =? 0)%nat then Err (lit "the image is empty")
  else if MaxIconBytes <? Z.of_nat (length data) then
    Err (Sprintf "the image is %d bytes: the limit is %d" [AInt (Z.of_nat (length data)); AInt MaxIconBytes])
  else if negb (has_signature data) then Err errNotPNG
  else walkIconChunks data.

Definition IconPNGSize (data : list byte) : res text (Z * Z) :=
  let? (w, h, pixels) := iconChunks data in Ok (w, h).

Section Validate.
Context `{PNG}.

Definition checkPixelData (joined : list byte) : res text unit :=
  match inflate_rest joined with
  | Err err => Err (errUndecodable err)
  | Ok rest => if 0 <? rest then Err (lit "the PNG holds data after its pixels") else Ok tt
  end.

Definition ValidateIconPNG (data : list byte) : res text (Z * Z) :=
  let? (width, height, pixels) := iconChunks data in
  let? _ := match png_decode data with Some err => Err (errUndecodable err) | None => Ok tt end in
  let? _ := checkPixelData pixels in
  Ok (width, height).

(** [base64.StdEncoding.EncodedLen]. *)
Definition EncodedLen (n : Z) : Z := (n + 2) / 3 * 4.

Definition is_break (b : Z) : bool := (b =? 13) || (b =? 10).

Definition decodeIconData (data : string) : option (list byte) :=
  if String.eqb data "" || (EncodedLen MaxIconBytes <? slen data) || existsb is_break (bytes_Z data) then None
  else
    match b64_decode (String.list_ascii_of_string data) with
    | None => None
    | Some l =>
        if (length l =? 0)%nat || (MaxIconBytes <? Z.of_nat (length l)) then None else Some (map Z_byte l)
    end.

Definition icon_issues (path key : string) (icon : Icon) : list Issue :=
  issue_of CodeIconNameInvalid path (IconNameProblem key) ++
  match decodeIconData (icon_Data icon) with
  | None =>
      [NewIssue CodeIconDataInvalid path
         (Sprintf "icon %q data must be base64 of at most %d bytes" [AStr (truncate key); AInt MaxIconBytes])]
  | Some data =>
      match ValidateIconPNG data with
      | Ok _ => []
      | Err reason =>
          [NewIssue CodeIconPNGInvalid path
             (Sprintf ("icon %q is not an accepted PNG: " +:+ format reason) (AStr (truncate key) :: args reason))]
      end
  end.

Definition ValidateIcons (icons : gmap string Icon) (path : string) : list Issue :=
  (if MaxDocumentIcons <? Z.of_nat (length (sorted_keys icons)) then
     [NewIssue CodeIconListTooMany path
        (Sprintf "a document can carry at most %d custom icons, not %d"
           [AInt MaxDocumentIcons; AInt (Z.of_nat (length (sorted_keys icons)))])]
   else []) ++
  concat (map (fun key =>
    match icons !! key with Some icon => icon_issues path key icon | None => [] end) (sorted_keys icons)).

End Validate.

(** ** The chunks of an accepted icon *)

Record chunk : Type := { chunk_kind : list byte; chunk_body : list byte; chunk_crc : list byte }.

Definition chunk_bytes (c : chunk) : list byte :=
  Z_be 4 (Z.of_nat (length (chunk_body c))) ++ chunk_kind c ++ chunk_body c ++ chunk_crc c.

Definition chunk_wf (c : chunk) : Prop :=
  length (chunk_kind c) = 4%nat /\ length (chunk_crc c) = 4%nat /\ Z.of_nat (length (chunk_body c)) < 2 ^ 32.

(** A chunk between the header and the end of an icon with the color type. *)
Definition inner_ok (colorType : Z) (c : chunk) : Prop :=
  chunk_wf c /\
  (chunk_kind c = pngIDAT \/
   ((chunk_kind c = pngPLTE \/ chunk_kind c = pngTRNS) /\ colorTypeUses colorType (chunk_kind c) = true)).

Definition header_ok (c : chunk) (width height : Z) : Prop :=
  chunk_wf c /\ chunk_kind c = pngIHDR /\ length (chunk_body c) = pngHeaderBytes /\
  be_Z (take 4 (chunk_body c)) = width /\ be_Z (take 4 (drop 4 (chunk_body c))) = height /\
  1 <= width <= MaxIconPixels /\ 1 <= height <= MaxIconPixels.

Definition end_ok (c : chunk) : Prop := chunk_wf c /\ chunk_kind c = pngIEND /\ chunk_body c = [].

Definition header_color (c : chunk) : Z := byte_Z (nth pngColorTypeAt (chunk_body c) x00).

(** The data of the pixel chunks, joined. *)
Definition pixel_data (cs : list chunk) : list byte :=
  concat (map (fun c => if is_kind (chunk_kind c) pngIDAT then chunk_body c else []) cs).

(** ** Reading a chunk *)

Lemma be_Z_4 (n : nat) : Z.of_nat n < 2 ^ 32 -> be_Z (Z_be 4 (Z.of_nat n)) = Z.of_nat n.
Proof. intros Hn. rewrite be_Z_Z_be, Z.mod_small; [done|]. change (256 ^ Z.of_nat 4) with (2 ^ 32). lia. Qed.

Lemma next_chunk_bytes c rest :
  chunk_wf c -> next_chunk (chunk_bytes c ++ rest) = Ok (chunk_kind c, chunk_body c, rest).
Proof.
  destruct c as [kind body crc]. intros (Hk & Hc & Hb). cbn in Hk, Hc, Hb. unfold next_chunk, chunk_bytes. cbn [chunk_kind chunk_body chunk_crc].
  rewrite <- !app_assoc, !length_app, length_Z_be, Hk, Hc. unfold pngChunkOverhead, pngChunkLength, pngChunkType.
  rewrite (proj2 (Nat.ltb_ge _ _)) by lia.
  rewrite take_app_length' by (by rewrite length_Z_be). rewrite be_Z_4 by done.
  rewrite (proj2 (Z.ltb_ge _ _)) by lia. rewrite Nat2Z.id.
  rewrite (drop_app_length' (Z_be 4 _)) by (by rewrite length_Z_be). rewrite take_app_length' by done.
  f_equal. f_equal; [f_equal|].
  - rewrite app_assoc, drop_app_length' by (rewrite length_app, length_Z_be; lia). by apply take_app_length'.
  - replace (12 + length body)%nat with (length (Z_be 4 (Z.of_nat (length body)) ++ kind ++ body ++ crc))
      by (rewrite !length_app, length_Z_be; lia).
    rewrite <- (drop_app_length (Z_be 4 (Z.of_nat (length body)) ++ kind ++ body ++ crc) rest) at 2.
    by rewrite <- !app_assoc.
Qed.

Lemma next_chunk_inv rest kind body rest' :
  next_chunk rest = Ok (kind, body, rest') ->
  exists crc, let c := {| chunk_kind := kind; chunk_body := body; chunk_crc := crc |} in
    chunk_wf c /\ rest = chunk_bytes c ++ rest'.
Proof.
  unfold next_chunk. unfold pngChunkOverhead, pngChunkLength, pngChunkType.
  destruct (_ <? _)%nat eqn:H12; [done|]. apply Nat.ltb_ge in H12.
  destruct (_ <? _) eqn:Hn; [done|]. apply Z.ltb_ge in Hn. intros [= <- <- <-].
  pose proof (be_Z_range (take 4 rest)) as Hr. rewrite length_take_le in Hr by lia. change (256 ^ Z.of_nat 4) with (2 ^ 32) in Hr.
  set (n := Z.to_nat (be_Z (take 4 rest))) in *.
  change (4 + 4)%nat with 8%nat in *.
  assert (length (take n (drop 8 rest)) = n) as Hbody.
  { rewrite length_take, length_drop. unfold n. lia. }
  exists (take 4 (drop (8 + n) rest)). split.
  - unfold chunk_wf. cbn [chunk_kind chunk_body chunk_crc]. rewrite !length_take, !length_drop. unfold n. lia.
  - unfold chunk_bytes. cbn [chunk_kind chunk_body chunk_crc]. rewrite Hbody.
    replace (Z.of_nat n) with (be_Z (take 4 rest)) by (unfold n; lia).
    assert (length (take 4 rest) = 4%nat) as H4 by (rewrite length_take; lia).
    rewrite <- H4 at 1. rewrite Z_be_be_Z, <- !app_assoc.
    rewrite <- (take_drop 4 rest) at 1. f_equal.
    rewrite <- (take_drop 4 (drop 4 rest)) at 1. f_equal. rewrite drop_drop.
    rewrite <- (take_drop n (drop (4 + 4) rest)) at 1. f_equal. rewrite drop_drop.
    rewrite <- (take_drop 4 (drop (4 + 4 + n) rest)) at 1. rewrite drop_drop. f_equal.
    f_equal. lia.
Qed.

Lemma chunk_bytes_length c : chunk_wf c -> (12 <= length (chunk_bytes c))%nat.
Proof. intros (Hk & Hc & _). unfold chunk_bytes. rewrite !length_app, length_Z_be. lia. Qed.

Definition chunks_bytes (cs : list chunk) : list byte := concat (map chunk_bytes cs).

(** ** The walk *)

(** The fuel is enough: more of it changes nothing. *)
Lemma walk_chunks_fuel n m first w h ct px ended rest :
  (length rest <= n)%nat -> (length rest <= m)%nat ->
  walk_chunks n first w h ct px ended rest = walk_chunks m first w h ct px ended rest.
Proof.
  revert m first w h ct px ended rest.
  induction n as [|n IH]; intros [|m] first w h ct px ended [|b rest] Hn Hm; try done; simpl in Hn, Hm; try lia.
  cbn [walk_chunks]. destruct ended; [done|].
  destruct (next_chunk (b :: rest)) as [[[kind body] rest']|] eqn:Hnext; [|done]. cbn [res_bind].
  apply next_chunk_inv in Hnext as (crc & Hc & Hr). pose proof (chunk_bytes_length _ Hc).
  apply (f_equal length) in Hr. rewrite length_app in Hr. simpl in Hr.
  repeat first [case_match; try done]; apply IH; lia.
Qed.

Lemma is_kind_true kind name : is_kind kind name = true <-> kind = name.
Proof. apply bool_decide_eq_true. Qed.

(** Compares the names of the chunks. *)
Ltac kinds :=
  repeat match goal with
  | |- context [is_kind ?a ?b] => let v := eval vm_compute in (is_kind a b) in change (is_kind a b) with v
  end; cbn [negb andb orb].

(** One step of the loop on a chunk. *)
Lemma walk_step fuel first w h ct px c rest :
  chunk_wf c ->
  walk_chunks (S fuel) first w h ct px false (chunk_bytes c ++ rest) =
    let kind := chunk_kind c in let body := chunk_body c in
    if first then
      if negb (is_kind kind pngIHDR) || negb (length body =? pngHeaderBytes)%nat then
        Err (lit "the PNG does not start with its header")
      else
        let wide := be_Z (take 4 body) in
        let high := be_Z (take 4 (drop pngSideBytes body)) in
        if negb (iconSide wide) || negb (iconSide high) then Err (iconSizeError wide high)
        else walk_chunks fuel false wide high (header_color c) px false rest
    else if is_kind kind pngIHDR then Err (lit "the PNG has a second header")
    else if is_kind kind pngIEND then
      if negb (length body =? 0)%nat then Err (lit "the PNG does not end as a PNG does")
      else walk_chunks fuel false w h ct px true rest
    else if is_kind kind pngIDAT then walk_chunks fuel false w h ct (px ++ body) false rest
    else if negb (is_kind kind pngPLTE) && negb (is_kind kind pngTRNS) then
      Err (Sprintf "the PNG holds a %q chunk: an icon can hold only IHDR, PLTE, tRNS, IDAT and IEND chunks"
             [AStr (of_bytes kind)])
    else if negb (colorTypeUses ct kind) then
      Err (Sprintf "the PNG holds a %q chunk, which its color type does not use" [AStr (of_bytes kind)])
    else walk_chunks fuel false w h ct px false rest.
Proof.
  intros Hc. pose proof (next_chunk_bytes c rest Hc) as Hn. pose proof (chunk_bytes_length c Hc).
  destruct (chunk_bytes c ++ rest) as [|b l] eqn:E.
  { apply (f_equal length) in E. rewrite length_app in E. simpl in E. lia. }
  cbn [walk_chunks]. by rewrite Hn.
Qed.

(** A step that goes on starts with a chunk. *)
Lemma walk_starts fuel first w h ct px rest r :
  walk_chunks fuel first w h ct px false rest = Ok r ->
  exists fuel' c rest', fuel = S fuel' /\ chunk_wf c /\ rest = chunk_bytes c ++ rest'.
Proof.
  destruct rest as [|b l], fuel as [|fuel']; try done. cbn [walk_chunks].
  destruct (next_chunk (b :: l)) as [[[kind body] rest']|] eqn:Hn; [|done]. intros _.
  apply next_chunk_inv in Hn as (crc & Hc & Hr). eexists fuel', _, rest'. split; [done|]. split; [exact Hc|done].
Qed.

Lemma walk_ended fuel w h ct px rest r :
  walk_chunks fuel false w h ct px true rest = Ok r <-> rest = [] /\ r = (w, h, px).
Proof. destruct rest, fuel; cbn; naive_solver. Qed.

Lemma walk_inner_sound fuel w h ct px rest r :
  walk_chunks fuel false w h ct px false rest = Ok r ->
  exists mid fin, Forall (inner_ok ct) mid /\ end_ok fin /\ rest = chunks_bytes (mid ++ [fin]) /\
    r = (w, h, px ++ pixel_data mid).
Proof.
  revert px rest. induction fuel as [|fuel IH]; intros px rest Hw.
  { apply walk_starts in Hw as (? & ? & ? & [=] & _). }
  destruct (walk_starts _ _ _ _ _ _ _ _ Hw) as (? & c & rest' & [= <-] & Hc & ->).
  rewrite walk_step in Hw by done. cbn zeta in Hw.
  destruct (is_kind (chunk_kind c) pngIHDR); [done|].
  destruct (is_kind (chunk_kind c) pngIEND) eqn:Hend.
  { apply is_kind_true in Hend. destruct (length (chunk_body c) =? 0)%nat eqn:Hb; [|done].
    apply Nat.eqb_eq, nil_length_inv in Hb. apply walk_ended in Hw as [-> ->].
    exists [], c. split; [constructor|]. split; [done|].
    unfold chunks_bytes, pixel_data. cbn. by rewrite !app_nil_r. }
  destruct (is_kind (chunk_kind c) pngIDAT) eqn:Hdat.
  { apply IH in Hw as (mid & fin & Hm & Hf & -> & ->). exists (c :: mid), fin.
    split; [constructor; [|done]; split; [done|]; left; by apply is_kind_true|]. split; [done|].
    split; [done|]. unfold pixel_data. cbn [map concat]. by rewrite Hdat, app_assoc. }
  destruct (_ && _) eqn:Hk; [done|]. destruct (colorTypeUses ct (chunk_kind c)) eqn:Hu; [|done].
  apply IH in Hw as (mid & fin & Hm & Hf & -> & ->). exists (c :: mid), fin.
  split; [|split; [done|split; [done|]]].
  - constructor; [|done]. split; [done|]. right. split; [|done].
    apply andb_false_iff in Hk as [Hk|Hk]; apply negb_false_iff, is_kind_true in Hk; auto.
  - unfold pixel_data. cbn [map concat]. by rewrite Hdat.
Qed.

Lemma walk_inner_complete fuel w h ct px mid fin :
  Forall (inner_ok ct) mid -> end_ok fin -> (length (chunks_bytes (mid ++ [fin])) <= fuel)%nat ->
  walk_chunks fuel false w h ct px false (chunks_bytes (mid ++ [fin])) = Ok (w, h, px ++ pixel_data mid).
Proof.
  intros Hm Hf. revert fuel px. induction Hm as [|c mid [Hc Hk] Hm IH]; intros fuel px Hl.
  - destruct Hf as (Hc & Hk & Hb). unfold chunks_bytes in *. cbn [app map concat] in *. rewrite app_nil_r in *.
    pose proof (chunk_bytes_length fin Hc). destruct fuel as [|fuel]; [lia|].
    rewrite <- (app_nil_r (chunk_bytes fin)), walk_step by done. cbn zeta. rewrite Hk, Hb. kinds. cbn [length Nat.eqb].
    unfold pixel_data. cbn. rewrite app_nil_r. by destruct fuel.
  - cbn [app] in *. unfold chunks_bytes in Hl |- *. cbn [map concat] in Hl |- *. fold (chunks_bytes (mid ++ [fin])) in Hl |- *.
    rewrite length_app in Hl. pose proof (chunk_bytes_length c Hc). destruct fuel as [|fuel]; [lia|].
    rewrite walk_step by done. cbn zeta. unfold pixel_data. cbn [map concat]. fold (pixel_data mid).
    destruct Hk as [Hk|[[Hk|Hk] Hu]]; rewrite ?Hu, Hk; kinds.
    + rewrite IH by lia. by rewrite <- app_assoc.
    + by rewrite IH by lia.
    + by rewrite IH by lia.
Qed.

Lemma iconSide_iff n : iconSide n = true <-> 1 <= n <= MaxIconPixels.
Proof. unfold iconSide. rewrite andb_true_iff. lia. Qed.

Lemma walkIconChunks_iff data w h px :
  has_signature data = true ->
  walkIconChunks data = Ok (w, h, px) <->
  exists header mid fin, header_ok header w h /\ Forall (inner_ok (header_color header)) mid /\ end_ok fin /\
    px = pixel_data mid /\ data = pngSignature ++ chunks_bytes (header :: mid ++ [fin]).
Proof.
  intros Hs. unfold has_signature in Hs. apply bool_decide_eq_true in Hs. unfold walkIconChunks. split.
  - intros Hw. destruct (walk_starts _ _ _ _ _ _ _ _ Hw) as (fuel & c & rest & Hl & Hc & Hr).
    rewrite Hl, Hr, walk_step in Hw by done. cbn zeta in Hw.
    destruct (is_kind (chunk_kind c) pngIHDR) eqn:Hk; [|done]. apply is_kind_true in Hk.
    destruct (length (chunk_body c) =? pngHeaderBytes)%nat eqn:Hb; [|done]. apply Nat.eqb_eq in Hb. cbn [negb orb] in Hw.
    destruct (iconSide (be_Z (take 4 (chunk_body c)))) eqn:Hwide; [|done].
    destruct (iconSide (be_Z (take 4 (drop pngSideBytes (chunk_body c))))) eqn:Hhigh; [|done].
    cbn [negb orb] in Hw. apply walk_inner_sound in Hw as (mid & fin & Hm & Hf & -> & [= -> -> ->]).
    apply iconSide_iff in Hwide, Hhigh. exists c, mid, fin. repeat (split; [done|]).
    rewrite <- (take_drop (length pngSignature) data), Hs, Hr. done.
  - intros (c & mid & fin & (Hc & Hk & Hb & Hwide & Hhigh & Hw & Hh) & Hm & Hf & -> & ->).
    rewrite drop_app_length. set (rest := mid ++ [fin]) in *. unfold chunks_bytes. cbn [map concat]. fold (chunks_bytes rest).
    pose proof (chunk_bytes_length c Hc). rewrite length_app.
    destruct (length (chunk_bytes c) + length (chunks_bytes rest))%nat as [|fuel] eqn:Hfuel; [lia|].
    rewrite walk_step by done. cbn zeta. unfold pngSideBytes. rewrite Hk, Hb, Hwide, Hhigh.
    rewrite (proj2 (is_kind_true pngIHDR pngIHDR)), Nat.eqb_refl, !(proj2 (iconSide_iff _)) by done. cbn [negb orb].
    unfold rest in *. rewrite walk_inner_complete by (done || lia). done.
Qed.

(** The chunks of an icon are accepted, without decoding a pixel, exactly
    when the bytes are at most 40 KiB, start with the signature and hold a
    header with sides of 1 to 96 pixels, any number of pixel chunks and of
    palette and transparency chunks the color type uses, and an empty end
    chunk, with nothing before, between or after them. What is returned is the
    size in the header and the data of the pixel chunks, joined. *)
Theorem iconChunks_iff data w h px :
  iconChunks data = Ok (w, h, px) <->
  Z.of_nat (length data) <= MaxIconBytes /\
  exists header mid fin, header_ok header w h /\ Forall (inner_ok (header_color header)) mid /\ end_ok fin /\
    px = pixel_data mid /\ data = pngSignature ++ chunks_bytes (header :: mid ++ [fin]).
Proof.
  unfold iconChunks. split.
  - destruct (length data =? 0)%nat; [done|]. destruct (_ <? _) eqn:Hl; [done|]. apply Z.ltb_ge in Hl.
    destruct (has_signature data) eqn:Hs; [|done]. cbn [negb]. intros Hw. split; [done|].
    by apply walkIconChunks_iff.
  - intros [Hl Hex]. assert (has_signature data = true) as Hs.
    { destruct Hex as (header & mid & fin & _ & _ & _ & _ & ->). unfold has_signature.
      by rewrite take_app_length, bool_decide_true. }
    rewrite (proj2 (Z.ltb_ge _ _)), Hs by done.
    assert (length data <> 0)%nat as Hn by (by destruct data).
    rewrite (proj2 (Nat.eqb_neq _ _)) by done. cbn [negb]. by apply walkIconChunks_iff.
Qed.

(** ** base64 of an icon *)

Lemma bytes_Z_of_bytes l : bytes_Z (of_bytes l) = map byte_Z l.
Proof.
  induction l as [|b l IH]; [done|]. change (of_bytes (b :: l)) with (String (ascii_of_byte b) (of_bytes l)).
  unfold bytes_Z in *. cbn [String.list_ascii_of_string map]. rewrite IH. f_equal.
  unfold ascii_Z, byte_Z. f_equal. by destruct b.
Qed.

Lemma map_byte_Z l : Forall is_byte l -> map byte_Z (map Z_byte l) = l.
Proof.
  induction 1 as [|z l Hz Hl IH]; [done|]. cbn [map]. rewrite IH, byte_Z_Z_byte, Z.mod_small by done. done.
Qed.

Lemma map_Z_byte l : map Z_byte (map byte_Z l) = l.
Proof. induction l as [|b l IH]; [done|]. cbn [map]. by rewrite IH, Z_byte_byte_Z. Qed.

Lemma byte_Z_is_byte l : Forall is_byte (map byte_Z l).
Proof. apply Forall_map, Forall_true. intros b. apply byte_Z_range. Qed.

Lemma triple_ind {A} (P : list A -> Prop) :
  P [] -> (forall a, P [a]) -> (forall a b, P [a; b]) -> (forall a b c l, P l -> P (a :: b :: c :: l)) -> forall l, P l.
Proof. intros H0 H1 H2 H3. fix IH 1. intros [|a [|b [|c l]]]; [done|apply H1|apply H2|apply H3, IH]. Qed.

Lemma b64_length l : Z.of_nat (length (b64 l)) = EncodedLen (Z.of_nat (length l)).
Proof.
  unfold EncodedLen. induction l as [|a|a b|a b c l IH] using triple_ind; [done..|].
  cbn [b64 length]. rewrite !Nat2Z.inj_succ, IH.
  replace (Z.succ (Z.succ (Z.succ (Z.of_nat (length l)))) + 2) with (Z.of_nat (length l) + 2 + 1 * 3) by lia.
  rewrite Z.div_add by lia. lia.
Qed.

(** No character of the encoding breaks a line. *)
Lemma b64_no_break l : Forall is_byte l -> Forall (fun c => is_break (ascii_Z c) = false) (b64 l).
Proof.
  assert (forall i, 0 <= i < 64 -> is_break (ascii_Z (b64_char i)) = false) as Hc.
  { assert (forallb (fun n => negb (is_break (ascii_Z (b64_char (Z.of_nat n))))) (seq 0 64) = true) as Ha
      by (vm_compute; reflexivity).
    intros i Hi. rewrite forallb_forall in Ha. specialize (Ha (Z.to_nat i) ltac:(apply in_seq; lia)).
    rewrite Z2Nat.id in Ha by lia. by apply negb_true_iff in Ha. }
  induction l as [|a|a b|a b c l IH] using triple_ind; intros Hl;
    repeat match goal with H : Forall _ (_ :: _) |- _ => apply Forall_cons in H as [? H] end;
    unfold is_byte in *; cbn [b64]; repeat first [apply Forall_cons; split; [first [apply Hc; zlia|done]|]|constructor].
  by apply IH.
Qed.

Lemma existsb_break data : existsb is_break (bytes_Z data) = false <->
  Forall (fun c => is_break (ascii_Z c) = false) (String.list_ascii_of_string data).
Proof. unfold bytes_Z. by rewrite existsb_Forall, Forall_map. Qed.

Lemma length_list_ascii data : length (String.list_ascii_of_string data) = String.length data.
Proof. induction data; simpl; congruence. Qed.

Lemma EncodedLen_mono m n : m <= n -> EncodedLen m <= EncodedLen n.
Proof. unfold EncodedLen. intros. assert ((m + 2) / 3 <= (n + 2) / 3) by (apply Z.div_le_mono; lia). lia. Qed.

Lemma decode_icon_data data l :
  decodeIconData data = Some l <->
  0 < Z.of_nat (length l) <= MaxIconBytes /\ data = EncodeToString (of_bytes l).
Proof.
  unfold decodeIconData, EncodeToString. split.
  - destruct (_ || _ || _); [done|]. destruct (b64_decode _) as [r|] eqn:Hd; [|done].
    apply b64_decode_inv in Hd as [Hr Hd]. destruct (_ || _) eqn:Hl; [done|]. intros [= <-].
    apply orb_false_iff in Hl as [Hl0%Nat.eqb_neq Hl1%Z.ltb_ge]. rewrite length_map. split; [lia|].
    by rewrite bytes_Z_of_bytes, map_byte_Z, <- Hd, String.string_of_list_ascii_of_string.
  - intros [Hl ->]. rewrite bytes_Z_of_bytes.
    pose proof (byte_Z_is_byte l) as Hb. set (zs := map byte_Z l) in *.
    assert (length zs = length l) as Hlen by (unfold zs; by rewrite length_map).
    set (t := String.string_of_list_ascii (b64 zs)).
    assert (String.list_ascii_of_string t = b64 zs) as Ht by apply String.list_ascii_of_string_of_list_ascii.
    assert (String.eqb t "" = false) as ->.
    { apply String.eqb_neq. intros Ht0. apply (f_equal (fun x => Z.of_nat (length x))) in Ht.
      rewrite Ht0, b64_length, Hlen in Ht. simpl in Ht. unfold EncodedLen in Ht. zlia. }
    rewrite (proj2 (Z.ltb_ge _ _)).
    2:{ unfold slen. rewrite <- length_list_ascii, Ht, b64_length, Hlen. apply EncodedLen_mono. lia. }
    rewrite (proj2 (existsb_break t)) by (rewrite Ht; by apply b64_no_break). cbn [orb].
    rewrite Ht, b64_decode_b64, Hlen by done.
    rewrite (proj2 (Nat.eqb_neq _ _)), (proj2 (Z.ltb_ge _ _)) by lia. cbn [orb]. f_equal. apply map_Z_byte.
Qed.

(** The data of an icon decodes exactly when it is the standard base64
    text of 1 to 40960 bytes, so no image has two texts. *)
Theorem decodeIconData_iff data l :
  decodeIconData data = Some l <->
  0 < Z.of_nat (length l) <= MaxIconBytes /\ data = EncodeToString (of_bytes l).
Proof. apply decode_icon_data. Qed.

(** ** The icons of a document *)

Definition icon_entry_ok `{PNG} (key : string) (icon : Icon) : Prop :=
  IconNameProblem key = None /\
  exists data size, decodeIconData (icon_Data icon) = Some data /\ ValidateIconPNG data = Ok size.

Definition icons_ok `{PNG} (icons : gmap string Icon) : Prop :=
  Z.of_nat (size icons) <= MaxDocumentIcons /\ map_Forall icon_entry_ok icons.

Lemma ValidateIcons_nil `{PNG} icons path : ValidateIcons icons path = [] <-> icons_ok icons.
Proof.
  unfold ValidateIcons, icons_ok. rewrite app_nil, concat_nil, length_key_list. apply and_iff_compat.
  { rewrite <- Z.ltb_ge. by destruct (_ <? _). }
  assert (forall key icon, icon_issues path key icon = [] <-> icon_entry_ok key icon) as Hi.
  { intros key icon. unfold icon_issues, icon_entry_ok. rewrite app_nil, issue_of_nil. apply and_iff_compat_l.
    destruct (decodeIconData _) as [data|]; [|split; [done|by intros (? & ? & [=] & _)]].
    destruct (ValidateIconPNG data) as [sz|reason] eqn:Hv; split; try done; [by exists data, sz|].
    intros (? & ? & [= <-] & ?). congruence. }
  rewrite Forall_forall. split.
  - intros Hf key icon Hk. specialize (Hf key). rewrite elem_of_key_list, Hk in Hf.
    apply Hi, Hf. by exists icon.
  - intros Hf key [icon Hk]%elem_of_key_list. rewrite Hk. by apply Hi, Hf.
Qed.
