(* ===== verification/Validate.v ===== *)
(** * The validation of a document (validate.go)

    Every function of the validator. A method that appends to [v.issues]
    gives the issues it appends; what else it changes of the validator it
    takes and gives back. A pointer to a node is its index in the document
    with the node. *)

From Stdlib Require Import ZArith Lia Ascii String Strings.Byte.
From stdpp Require Import base option list gmap strings sorting.
From S2P Require Import Prelude Text Decimal Subnet Codes Document Checks Matchers Layers Icons.

Open Scope Z_scope.
Open Scope go_scope.

Definition maxVLANAlias : Z := 4094.
Definition MaxNameBytes : Z := 512.
Definition MaxAnnotations : Z := 100.
Definition MaxAnnotationBytes : Z := 262144.
Definition minRoutePoints : Z := 2.

(** ** Times *)

(** The two digits at [i] as a number. *)
Definition two_digits (l : list Z) (i : nat) : Z := digits_value (take 2 (drop i l)).

Definition is_leap (year : Z) : bool :=
  (year mod 4 =? 0) && (negb (year mod 100 =? 0) || (year mod 400 =? 0)).

Definition days_in (month year : Z) : Z :=
  if month =? 2 then (if is_leap year then 29 else 28)
  else if existsb (Z.eqb month) [4; 6; 9; 11] then 30 else 31.

(** [IsTime]: [time.Parse] reads the text and [Format] writes it again, so it
    has exactly the form of the layout and names a time of the calendar. *)
Definition IsTime (value : string) : bool :=
  let l := bytes_Z value in
  let year := digits_value (take 4 l) in
  let month := two_digits l 5 in
  let day := two_digits l 8 in
  (length l =? 20)%nat &&
  forallb (fun i => is_digit (nth i l 0)) [0; 1; 2; 3; 5; 6; 8; 9; 11; 12; 14; 15; 17; 18]%nat &&
  forallb (fun '(i, b) => nth i l 0 =? b) [(4%nat, 45); (7%nat, 45); (10%nat, 84); (13%nat, 58); (16%nat, 58); (19%nat, 90)] &&
  in_range 1 12 month && in_range 1 (days_in month year) day &&
  (two_digits l 11 <? 24) && (two_digits l 14 <? 60) && (two_digits l 17 <? 60).

(** ** Small checks *)

(** [IsConfigName]. *)
Definition IsConfigName (name : string) : bool :=
  negb (String.eqb name "") && (slen name <=? MaxScenarioNameBytes) && configName name.

Definition metadataPath (key : string) : string := "metadata." +:+ key.

(** [validateID]: the issues, and whether there is an identifier at all. *)
Definition validateID (path kindName id : string) (required invalid : Code) : list Issue * bool :=
  if blank id then ([NewIssue required path (Sprintf "a %s needs an ID" [AStr kindName])], false)
  else if negb (IsUUID id) then
    ([NewIssue invalid path (Sprintf "%s ID %q is not a valid UUID" [AStr kindName; AStr id])], true)
  else ([], true).

Definition validateUser (path user : string) : list Issue :=
  if MaxUserBytes <? slen user then
    [NewIssue CodeMetadataUserTooLong path (Sprintf "%s must be at most %d bytes" [AStr path; AInt MaxUserBytes])]
  else if contains_func user isControl then
    [NewIssue CodeMetadataUserControl path (Sprintf "%s must not contain control characters" [AStr path])]
  else [].

Definition validateTime (path value : string) : list Issue :=
  if negb (String.eqb value "") && negb (IsTime value) then
    [NewIssue CodeMetadataTimeInvalid path (Sprintf "%s must be a UTC time in the form YYYY-MM-DDTHH:MM:SSZ" [AStr path])]
  else [].

Definition note_issues (path note : string) : list Issue :=
  if blank note then [NewIssue CodeMetadataNoteBlank path (lit "note must not be blank")]
  else if MaxDiagramNoteBytes <? slen note then
    [NewIssue CodeMetadataNoteTooLong path (Sprintf "note must be at most %d bytes" [AInt MaxDiagramNoteBytes])]
  else if contains_func note isNoteControl then
    [NewIssue CodeMetadataNoteControl path (lit "note must not contain control characters other than newline and tab")]
  else [].

(** The issues of the elements of a list, each at its index of [path]. *)
Definition indexed {A} (f : string -> A -> list Issue) (path : string) (l : list A) : list Issue :=
  concat (imap (fun i x => f (index_path path i) x) l).

Definition validateNotes (notes : list string) : list Issue :=
  (if MaxDiagramNotes <? zlen notes then
     [NewIssue CodeMetadataNotesTooMany (metadataPath "notes")
        (Sprintf "a document can have at most %d notes, not %d" [AInt MaxDiagramNotes; AInt (zlen notes)])]
   else []) ++
  indexed note_issues (metadataPath "notes") notes.

Definition validateMetadata (meta : Metadata) : list Issue :=
  fst (validateID (metadataPath "id") "document" (meta_ID meta) CodeMetadataIDRequired CodeMetadataIDInvalid) ++
  (if MaxNameBytes <? slen (meta_Name meta) then
     [NewIssue CodeMetadataNameTooLong (metadataPath "name")
        (Sprintf "document name must be at most %d bytes" [AInt MaxNameBytes])]
   else if contains_func (meta_Name meta) isControl then
     [NewIssue CodeMetadataNameControl (metadataPath "name") (lit "document name must not contain control characters")]
   else []) ++
  validateUser (metadataPath "createdBy") (CreatedBy meta) ++
  validateTime (metadataPath "createdAt") (CreatedAt meta) ++
  validateUser (metadataPath "updatedBy") (UpdatedBy meta) ++
  validateTime (metadataPath "updatedAt") (UpdatedAt meta) ++
  validateNotes (Notes meta).

(** Whether the list a key of the document names is nil. *)
Definition list_missing (d : Document) (name : string) : bool :=
  if String.eqb name "nodes" then match Nodes d with None => true | _ => false end
  else if String.eqb name "networks" then match Networks d with None => true | _ => false end
  else match Edges d with None => true | _ => false end.

(** [order] is the order in which Go goes through the map of the lists, which
    is any order of the three. *)
Definition validateHeader (order : list string) (d : Document) : list Issue :=
  let view := doc_Viewport d in
  let size := grid_Size (doc_Grid d) in
  (if negb (String.eqb (Schema d) SchemaURI) then
     [NewIssue CodeDocumentSchemaMismatch "schema" (Sprintf "expected %q, got %q" [AStr SchemaURI; AStr (Schema d)])]
   else []) ++
  (if negb (Revision d =? SchemaRevision) then
     [NewIssue CodeDocumentRevisionMismatch "revision"
        (Sprintf "expected %d, got %d" [AInt SchemaRevision; AInt (Revision d)])]
   else []) ++
  validateMetadata (Meta d) ++
  concat (map (fun name =>
    if list_missing d name then
      [NewIssue CodeDocumentListMissing name (Sprintf "%s must be an array" [AStr name])]
    else []) order) ++
  (if negb (finite (view_X view)) || negb (finite (view_Y view)) || negb (finite (Zoom view)) then
     [NewIssue CodeDocumentViewportNotFinite "viewport" (lit "viewport values must be finite numbers")]
   else []) ++
  (if finite (Zoom view) && f_leb (Zoom view) (f_int 0) then
     [NewIssue CodeDocumentZoomNotPositive "viewport.zoom" (lit "zoom must be a positive number")]
   else []) ++
  (if negb (f_eqb size (Trunc size)) || f_ltb size (f_int MinGridSize) || f_ltb (f_int MaxGridSize) size then
     [NewIssue CodeDocumentGridInvalid "grid.size"
        (Sprintf "grid size must be a whole number from %d to %d" [AInt MinGridSize; AInt MaxGridSize])]
   else []) ++
  validateIconSize (doc_IconSize d) "iconSize" CodeDocumentIconSizeUnknown.

(** ** Networks *)

Definition validateNetworkAddressing (network : Network) (path : string) : list Issue :=
  let '(subnet, subnetOK) :=
    if String.eqb (Subnet network) "" then (zero_prefix, false) else ParseSubnet (Subnet network) in
  (if negb (String.eqb (Subnet network) "") && negb subnetOK then
     [NewIssue CodeNetworkSubnetInvalid (path +:+ ".subnet")
        (Sprintf "subnet %q is not an IPv4 network in CIDR form, such as 10.1.0.0/24" [AStr (truncate (Subnet network))])]
   else []) ++
  (if String.eqb (Gateway network) "" then []
   else
     match parse_addr4 (Gateway network) with
     | None =>
         [NewIssue CodeNetworkGatewayInvalid (path +:+ ".gateway")
            (Sprintf "gateway %q is not an IPv4 address" [AStr (truncate (Gateway network))])]
     | Some gateway =>
         if subnetOK && negb (IsSubnetHost subnet gateway) then
           [NewIssue CodeNetworkGatewayOutside (path +:+ ".gateway")
              (Sprintf "gateway %s is not a host address of subnet %s" [AStr (Gateway network); AStr (Subnet network)])]
         else []
     end).

(** A pointer to an element: its index and the element. *)
Notation ref A := (nat * A)%type (only parsing).

Section Validator.
Context `{Unicode, Libraries, PNG}.

(** A new ID is seen and named; a repeated one is an issue. *)
Definition see_id {A : Type} (present : bool) (id : string) (i : nat) (x : A) (dup : nat -> list Issue)
    (s : gmap string nat * gmap string (ref A)) : list Issue * (gmap string nat * gmap string (ref A)) :=
  if present then
    match fst s !! foldKey id with
    | Some prev => (dup prev, s)
    | None => ([], (<[ foldKey id := i ]> (fst s), <[ id := (i, x) ]> (snd s)))
    end
  else ([], s).

(** The IDs, names and aliases seen, and [networksByID]. *)
Definition net_state : Type :=
  gmap string nat * gmap string (ref Network) * (gmap string nat * gmap Z nat).

Definition network_id_step (i : nat) (network : Network) (s : gmap string nat * gmap string (ref Network))
  : list Issue * (gmap string nat * gmap string (ref Network)) :=
  let path := index_path "networks" i in
  let '(issues, present) :=
    validateID (path +:+ ".id") "network" (net_ID network) CodeNetworkIDRequired CodeNetworkIDInvalid in
  let '(dup, s) :=
    see_id present (net_ID network) i network (fun prev =>
      [NewIssue CodeNetworkIDDuplicate (path +:+ ".id")
         (Sprintf "duplicate network ID %q (also networks[%d])" [AStr (net_ID network); AInt (Z.of_nat prev)])]) s in
  (issues ++ dup, s).

Definition network_name_step (i : nat) (network : Network) (seen : gmap string nat) : list Issue * gmap string nat :=
  let path := index_path "networks" i in
  if blank (net_Name network) then
    ([NewIssue CodeNetworkNameRequired (path +:+ ".name") (lit "a network needs a name")], seen)
  else if hasNameSpace (net_Name network) then
    ([NewIssue CodeNetworkNameWhitespace (path +:+ ".name")
        (Sprintf "network name %q must not contain whitespace" [AStr (net_Name network)])], seen)
  else
    see (net_Name network) i (fun prev =>
      [NewIssue CodeNetworkNameDuplicate (path +:+ ".name")
         (Sprintf "conflicting network name %q (also networks[%d])" [AStr (net_Name network); AInt (Z.of_nat prev)])]) seen.

Definition network_alias_step (i : nat) (network : Network) (seen : gmap Z nat) : list Issue * gmap Z nat :=
  let path := index_path "networks" i in
  match Alias network with
  | None => ([], seen)
  | Some alias =>
      if (alias <? 1) || (maxVLANAlias <? alias) then
        ([NewIssue CodeNetworkAliasRange (path +:+ ".alias")
            (Sprintf "VLAN alias %d is out of range (1-%d)" [AInt alias; AInt maxVLANAlias])], seen)
      else
        see alias i (fun prev =>
          [NewIssue CodeNetworkAliasDuplicate (path +:+ ".alias")
             (Sprintf "conflicting VLAN alias %d (also networks[%d])" [AInt alias; AInt (Z.of_nat prev)])]) seen
  end.

Definition network_step (i : nat) (network : Network) (s : net_state) : list Issue * net_state :=
  let '(ids, (names, aliases)) := s in
  let path := index_path "networks" i in
  let '(id_issues, ids) := network_id_step i network ids in
  let '(name_issues, names) := network_name_step i network names in
  let '(alias_issues, aliases) := network_alias_step i network aliases in
  (id_issues ++ name_issues ++
   validateLineStyle (net_LineStyle network) (path +:+ ".lineStyle") CodeNetworkLineStyle ++
   validateNetworkAddressing network path ++ alias_issues,
   (ids, (names, aliases))).

(** [validateNetworks]: the issues, and [networksByID]. *)
Definition validateNetworks (d : Document) : list Issue * gmap string (ref Network) :=
  let '(issues, (_, networksByID, _)) := each network_step 0 (elems (Networks d)) ((∅, ∅), (∅, ∅)) in
  (issues, networksByID).

(** ** Nodes *)

Definition payloads (node : Node) : list (NodeKind * bool) :=
  [(NodeKindDevice, bool_decide (is_Some (node_Device node)));
   (NodeKindSwitch, bool_decide (is_Some (node_Switch node)));
   (NodeKindNote, bool_decide (is_Some (node_Note node)));
   (NodeKindGroup, bool_decide (is_Some (node_Group node)));
   (NodeKindShape, bool_decide (is_Some (node_Shape node)));
   (NodeKindIcon, bool_decide (is_Some (node_Icon node)));
   (NodeKindLine, bool_decide (is_Some (node_Line node)))].

Definition known_kind (k : NodeKind) : bool := match k with NodeKindOther _ => false | _ => true end.

Definition validateNodePayload (node : Node) (path : string) : list Issue :=
  let kind := node_Kind node in
  if negb (known_kind kind) then
    [NewIssue CodeNodeKindUnknown (path +:+ ".kind") (Sprintf "unknown node kind %q" [AStr (kind_string kind)])]
  else
    concat (map (fun '(k, present) =>
      if bool_decide (k = kind) && negb present then
        [NewIssue CodeNodePayloadMissing path
           (Sprintf "node of kind %q has no %q payload" [AStr (kind_string kind); AStr (kind_string kind)])]
      else []) (payloads node)) ++
    concat (map (fun '(k, present) =>
      if present && negb (bool_decide (k = kind)) then
        [NewIssue CodeNodePayloadExtra path
           (Sprintf "node of kind %q must not carry a %q payload" [AStr (kind_string kind); AStr (kind_string k)])]
      else []) (payloads node)) ++
    match kind, node_Device node with
    | NodeKindDevice, Some device =>
        match dev_Spec device with
        | None => [NewIssue CodeDeviceSpecRequired (path +:+ ".device.spec") (lit "a device needs a spec")]
        | Some _ => []
        end
    | _, _ => []
    end.

Definition validateIncludedFrom (d : Document) (name path : string) : list Issue :=
  if String.eqb name "" then []
  else if blank name || hasNameSpace name then
    [NewIssue CodeDeviceIncludedFromInvalid path
       (Sprintf "included topology name %q must not be blank or contain whitespace" [AStr name])]
  else if match doc_Source d with None => true | Some source => (zlen (IncludeTopologies source) =? 0) end then
    [NewIssue CodeDeviceIncludedFromNoSource path
       (Sprintf "device is from included topology %q, but the document includes no topologies" [AStr name])]
  else [].

(** The step of [validateDeviceHandles]: the names seen in the device, and
    [handleOwner]. *)
Definition handle_step (node : ref Node) (path : string) (j : nat) (handle : InterfaceHandle)
    (s : gmap string nat * gmap string (ref Node)) : list Issue * (gmap string nat * gmap string (ref Node)) :=
  let '(seenNames, handleOwner) := s in
  let handlePath := index_path (path +:+ ".device.interfaces") j in
  let '(id_issues, present) :=
    validateID (handlePath +:+ ".id") "connection point" (handle_ID handle) CodeInterfaceIDRequired CodeInterfaceIDInvalid in
  let '(dup, handleOwner) :=
    if present then
      match handleOwner !! foldKey (handle_ID handle) with
      | Some owner =>
          ([NewIssue CodeInterfaceIDDuplicate (handlePath +:+ ".id")
              (Sprintf "duplicate connection point ID %q (node %q also has it)"
                 [AStr (handle_ID handle); AStr (node_ID (snd owner))])], handleOwner)
      | None => ([], <[ foldKey (handle_ID handle) := node ]> handleOwner)
      end
    else ([], handleOwner) in
  let '(name_issues, seenNames) :=
    if blank (handle_Name handle) then
      ([NewIssue CodeInterfaceNameRequired (handlePath +:+ ".name") (lit "an interface needs a name")], seenNames)
    else
      see (foldKey (handle_Name handle)) j (fun prev =>
        [NewIssue CodeInterfaceNameDuplicate (handlePath +:+ ".name")
           (Sprintf "duplicate interface name %q (also interfaces[%d])" [AStr (handle_Name handle); AInt (Z.of_nat prev)])])
        seenNames in
  (id_issues ++ dup ++ name_issues, (seenNames, handleOwner)).

Definition validateDeviceHandles (node : ref Node) (device : Device) (path : string) (handleOwner : gmap string (ref Node))
  : list Issue * gmap string (ref Node) :=
  let '(issues, (_, handleOwner)) := each (handle_step node path) 0 (Interfaces device) (∅, handleOwner) in
  (issues, handleOwner).

(** The hostname of the device at index [i]. *)
Definition hostname_step (path : string) (i : nat) (hostname : string) (seenHostnames : gmap string nat)
  : list Issue * gmap string nat :=
  if blank hostname then
    ([NewIssue CodeNodeHostnameRequired (path +:+ ".device.hostname") (lit "a device needs a hostname")], seenHostnames)
  else if hasNameSpace hostname then
    ([NewIssue CodeNodeHostnameWhitespace (path +:+ ".device.hostname")
        (Sprintf "hostname %q must not contain whitespace" [AStr hostname])], seenHostnames)
  else
    see (foldKey hostname) i (fun prev =>
      [NewIssue CodeNodeHostnameDuplicate (path +:+ ".device.hostname")
         (Sprintf "duplicate hostname %q (also nodes[%d])" [AStr hostname; AInt (Z.of_nat prev)])]) seenHostnames.

Definition device_fields_issues (d : Document) (device : Device) (path : string) : list Issue :=
  validateIconKey (dev_IconKey device) (path +:+ ".device.iconKey") CodeDeviceIconKeyUnknown ++
  validateIconRef (dev_Icon device) (path +:+ ".device.icon") CodeDeviceIconInvalid ++
  validateIconSize (dev_IconSize device) (path +:+ ".device.iconSize") CodeDeviceIconSizeUnknown ++
  validateColor (dev_OutlineColor device) (path +:+ ".device.outlineColor") CodeDeviceColorInvalid ++
  validateColor (dev_FillColor device) (path +:+ ".device.fillColor") CodeDeviceColorInvalid ++
  validateLayer (dev_Layer device) (path +:+ ".device.layer") CodeDeviceLayerRange ++
  validateIncludedFrom d (IncludedFrom device) (path +:+ ".device.includedFrom").

Definition validateDevice (d : Document) (node : ref Node) (device : Device) (path : string) (i : nat)
    (s : gmap string nat * gmap string (ref Node)) : list Issue * (gmap string nat * gmap string (ref Node)) :=
  let '(seenHostnames, handleOwner) := s in
  let '(host_issues, seenHostnames) := hostname_step path i (Hostname device) seenHostnames in
  let '(handle_issues, handleOwner) := validateDeviceHandles node device path handleOwner in
  (host_issues ++ handle_issues ++ device_fields_issues d device path, (seenHostnames, handleOwner)).

Definition validateSwitch (networksByID : gmap string (ref Network)) (hub : Switch) (path : string) : list Issue :=
  (if String.eqb (sw_NetworkID hub) "" then
     [NewIssue CodeSwitchNetworkRequired (path +:+ ".networkId") (lit "switch must reference a network")]
   else
     match networksByID !! sw_NetworkID hub with
     | None => [NewIssue CodeSwitchNetworkUnknown (path +:+ ".networkId") (Sprintf "unknown network %q" [AStr (sw_NetworkID hub)])]
     | Some _ => []
     end) ++
  validateColor (sw_OutlineColor hub) (path +:+ ".outlineColor") CodeSwitchColorInvalid ++
  validateColor (sw_FillColor hub) (path +:+ ".fillColor") CodeSwitchColorInvalid ++
  validateIconSize (sw_IconSize hub) (path +:+ ".iconSize") CodeSwitchIconSizeUnknown ++
  validateLayer (sw_Layer hub) (path +:+ ".layer") CodeSwitchLayerRange.

Definition validateShape (shape : Shape) (path : string) : list Issue :=
  (if contains_str shapeFigures (sh_Shape shape) then []
   else [NewIssue CodeDrawingShapeUnknown (path +:+ ".shape")
           (Sprintf "unknown shape %q (expected one of %s)" [AStr (truncate (sh_Shape shape)); AStr (join ", " shapeFigures)])]) ++
  validateColor (sh_FillColor shape) (path +:+ ".fillColor") CodeDrawingColorInvalid ++
  validateColor (sh_OutlineColor shape) (path +:+ ".outlineColor") CodeDrawingColorInvalid ++
  validateBorderStyle (sh_BorderStyle shape) (path +:+ ".borderStyle") CodeDrawingBorderStyleUnknown.

Definition validateIconNode (icon : IconNode) (path : string) : list Issue :=
  (if Bool.eqb (String.eqb (in_IconKey icon) "") (String.eqb (in_Icon icon) "") then
     [NewIssue CodeDrawingIconAmbiguous path
        (lit "an icon node must name exactly one of a built-in icon and a custom icon")]
   else []) ++
  validateIconKey (in_IconKey icon) (path +:+ ".iconKey") CodeDrawingIconKeyUnknown ++
  validateIconRef (in_Icon icon) (path +:+ ".icon") CodeDrawingIconInvalid.

Definition finite_point (p : Position) : bool := finite (X p) && finite (Y p).

Definition validateLine (line : Line) (path : string) : list Issue :=
  (if zlen (Points line) <? MinLinePoints then
     [NewIssue CodeDrawingPointsTooFew (path +:+ ".points") (Sprintf "a line must have at least %d points" [AInt MinLinePoints])]
   else if MaxLinePoints <? zlen (Points line) then
     [NewIssue CodeDrawingPointsTooMany (path +:+ ".points") (Sprintf "a line must have at most %d points" [AInt MaxLinePoints])]
   else if forallb finite_point (Points line) then []
   else [NewIssue CodeDrawingPointsNotFinite (path +:+ ".points") (lit "line points must be finite numbers")]) ++
  validateColor (line_Color line) (path +:+ ".color") CodeDrawingColorInvalid ++
  validateLineStyle (line_LineStyle line) (path +:+ ".lineStyle") CodeDrawingLineStyleUnknown.

Definition validateGroup (group : Group) (path : string) : list Issue :=
  validateBorderStyle (grp_BorderStyle group) (path +:+ ".group.borderStyle") CodeGroupBorderStyleUnknown ++
  validateIconKey (grp_IconKey group) (path +:+ ".group.iconKey") CodeGroupIconKeyUnknown ++
  validateIconRef (grp_Icon group) (path +:+ ".group.icon") CodeGroupIconInvalid ++
  validateIconSize (grp_IconSize group) (path +:+ ".group.iconSize") CodeGroupIconSizeUnknown.

Definition validateKind (d : Document) (networksByID : gmap string (ref Network)) (i : nat) (node : Node) (path : string)
    (s : gmap string nat * gmap string (ref Node)) : list Issue * (gmap string nat * gmap string (ref Node)) :=
  match node_Kind node with
  | NodeKindDevice =>
      match node_Device node with Some device => validateDevice d (i, node) device path i s | None => ([], s) end
  | NodeKindSwitch =>
      (match node_Switch node with Some hub => validateSwitch networksByID hub (path +:+ ".switch") | None => [] end, s)
  | NodeKindGroup =>
      (match node_Group node with Some group => validateGroup group path | None => [] end, s)
  | NodeKindShape =>
      (match node_Shape node with Some shape => validateShape shape (path +:+ ".shape") | None => [] end, s)
  | NodeKindIcon =>
      (match node_Icon node with Some icon => validateIconNode icon (path +:+ ".icon") | None => [] end, s)
  | NodeKindLine =>
      (match node_Line node with Some line => validateLine line (path +:+ ".line") | None => [] end, s)
  | _ => ([], s)
  end.

Definition size_bad (size : Size) : bool :=
  negb (finite (Width size)) || negb (finite (Height size)) || f_leb (Width size) (f_int 0) || f_leb (Height size) (f_int 0).

Definition node_id_step (i : nat) (node : Node) (s : gmap string nat * gmap string (ref Node))
  : list Issue * (gmap string nat * gmap string (ref Node)) :=
  let path := index_path "nodes" i in
  let '(issues, present) :=
    validateID (path +:+ ".id") "node" (node_ID node) CodeNodeIDRequired CodeNodeIDInvalid in
  let '(dup, s) :=
    see_id present (node_ID node) i node (fun prev =>
      [NewIssue CodeNodeIDDuplicate (path +:+ ".id")
         (Sprintf "duplicate node ID %q (also nodes[%d])" [AStr (node_ID node); AInt (Z.of_nat prev)])]) s in
  (issues ++ dup, s).

Definition node_fields_issues (node : Node) (path : string) : list Issue :=
  (if finite_point (node_Position node) then []
   else [NewIssue CodeNodePositionNotFinite (path +:+ ".position") (lit "position values must be finite numbers")]) ++
  match node_Size node with
  | Some size =>
      if size_bad size then
        [NewIssue CodeNodeSizeInvalid (path +:+ ".size") (lit "size values must be positive finite numbers")]
      else []
  | None => []
  end ++
  validateNodePayload node path.

(** The IDs seen and [nodesByID]; the hostnames seen and [handleOwner]. *)
Definition node_state : Type :=
  gmap string nat * gmap string (ref Node) * (gmap string nat * gmap string (ref Node)).

Definition node_step (d : Document) (networksByID : gmap string (ref Network)) (i : nat) (node : Node) (s : node_state)
  : list Issue * node_state :=
  let '(ids, hosts) := s in
  let path := index_path "nodes" i in
  let '(id_issues, ids) := node_id_step i node ids in
  let '(kind_issues, hosts) := validateKind d networksByID i node path hosts in
  (id_issues ++ node_fields_issues node path ++ kind_issues, (ids, hosts)).

(** [validateNodes]: the issues, and [nodesByID]. *)
Definition validateNodes (d : Document) (networksByID : gmap string (ref Network)) : list Issue * gmap string (ref Node) :=
  let '(issues, (_, nodesByID, _)) := each (node_step d networksByID) 0 (elems (Nodes d)) ((∅, ∅), (∅, ∅)) in
  (issues, nodesByID).

(** ** Parents *)

(** What is known of the chain of parents from a node; a node of which
    nothing is known has no entry ([chainUnknown]). *)
Inductive chainState : Type := chainWalking | chainEnds | chainCycles.

#[local] Instance chain_state_eq_dec : EqDecision chainState.
Proof. solve_decision. Defined.

(** The loop of [parentCycle]: the state the walk ends in, what is known by
    then, and the IDs walked. Each step but the last marks a node no walk
    knew, so one step more than there are nodes is enough
    ([chain_walk_fuel]). *)
Fixpoint chain_walk (fuel : nat) (nodesByID : gmap string (ref Node)) (id : string)
    (states : gmap string chainState) (walk : list string) : chainState * gmap string chainState * list string :=
  match fuel with
  | O => (chainEnds, states, walk)
  | S fuel' =>
      match nodesByID !! id with
      | None => (chainEnds, states, walk)
      | Some (_, node) =>
          match states !! id with
          | Some known =>
              (if decide (known = chainWalking) then chainCycles else known, states, walk)
          | None =>
              let states := <[ id := chainWalking ]> states in
              let walk := walk ++ [id] in
              if String.eqb (ParentID node) "" then (chainEnds, states, walk)
              else chain_walk fuel' nodesByID (ParentID node) states walk
          end
      end
  end.

(** [parentCycle] reports whether the chain of parents from the node with the
    ID leads into a cycle. *)
Definition parentCycle (nodesByID : gmap string (ref Node)) (id : string) (states : gmap string chainState)
  : bool * gmap string chainState :=
  let '(state, states, walk) := chain_walk (S (size nodesByID)) nodesByID id states [] in
  (bool_decide (state = chainCycles), foldl (fun states walked => <[ walked := state ]> states) states walk).

Definition parent_step (nodesByID : gmap string (ref Node)) (i : nat) (node : Node) (states : gmap string chainState)
  : list Issue * gmap string chainState :=
  let path := index_path "nodes" i +:+ ".parentId" in
  if String.eqb (ParentID node) "" then ([], states)
  else if String.eqb (ParentID node) (node_ID node) then
    ([NewIssue CodeNodeParentSelf path (lit "node cannot be its own parent")], states)
  else
    match nodesByID !! ParentID node with
    | None => ([NewIssue CodeNodeParentUnknown path (Sprintf "unknown parent node %q" [AStr (ParentID node)])], states)
    | Some (_, parent) =>
        if negb (bool_decide (node_Kind parent = NodeKindGroup)) then
          ([NewIssue CodeNodeParentNotGroup path (Sprintf "parent node %q is not a group" [AStr (ParentID node)])], states)
        else
          let '(cycle, states) := parentCycle nodesByID (ParentID node) states in
          ((if cycle then
              [NewIssue CodeNodeParentCycle path
                 (Sprintf "groups contain each other in a cycle at node %q" [AStr (node_ID node)])]
            else []), states)
    end.

Definition validateParents (d : Document) (nodesByID : gmap string (ref Node)) : list Issue :=
  fst (each (parent_step nodesByID) 0 (elems (Nodes d)) ∅).

(** ** Edges *)

Definition handleIndex : Type := gmap nat (gmap string InterfaceHandle).

(** The handles of a device by ID: the first with each. *)
Definition index_handles (device : Device) : gmap string InterfaceHandle :=
  foldl (fun byID handle =>
    match byID !! handle_ID handle with
    | Some _ => byID
    | None => <[ handle_ID handle := handle ]> byID
    end) ∅ (Interfaces device).

(** [handleIndex.find]: the handle, and the index with the device in it. *)
Definition handle_find (h : handleIndex) (device : ref Node) (id : string) : option InterfaceHandle * handleIndex :=
  match node_Device (snd device) with
  | None => (None, h)
  | Some dev =>
      match h !! fst device with
      | Some byID => (byID !! id, h)
      | None =>
          let byID := index_handles dev in
          (byID !! id, <[ fst device := byID ]> h)
      end
  end.

(** [edgeEndpoints]: the device, its handle and the switch. *)
Definition edgeEndpoints (source : ref Node) (sourceHandle : string) (target : ref Node) (targetHandle : string)
  : option (ref Node * string * ref Node) :=
  match node_Kind (snd source), node_Kind (snd target) with
  | NodeKindDevice, NodeKindSwitch =>
      if negb (bool_decide (is_Some (node_Device (snd source)))) || String.eqb sourceHandle "" then None
      else Some (source, sourceHandle, target)
  | NodeKindSwitch, NodeKindDevice =>
      if negb (bool_decide (is_Some (node_Device (snd target)))) || String.eqb targetHandle "" then None
      else Some (target, targetHandle, source)
  | _, _ => None
  end.

Definition validateRoute (path : string) (route : option (list Position)) : list Issue :=
  match route with
  | None => []
  | Some points =>
      if zlen points <? minRoutePoints then
        [NewIssue CodeEdgeRouteTooFew path (Sprintf "a route must have at least %d points" [AInt minRoutePoints])]
      else if forallb finite_point points then []
      else [NewIssue CodeEdgeRouteNotFinite path (lit "route points must be finite numbers")]
  end.

Definition validateEdgeNetwork (networksByID : gmap string (ref Network)) (edge : Edge) (path : string)
    (switchNode : Node) (hub : Switch) : list Issue :=
  if String.eqb (edge_NetworkID edge) "" then
    [NewIssue CodeEdgeNetworkRequired (path +:+ ".networkId") (lit "connection must reference a network")]
  else
    match networksByID !! edge_NetworkID edge with
    | None => [NewIssue CodeEdgeNetworkUnknown (path +:+ ".networkId") (Sprintf "unknown network %q" [AStr (edge_NetworkID edge)])]
    | Some _ =>
        if negb (String.eqb (edge_NetworkID edge) (sw_NetworkID hub)) then
          [NewIssue CodeEdgeNetworkMismatch (path +:+ ".networkId")
             (Sprintf "network %q does not match network %q of switch %q"
                [AStr (edge_NetworkID edge); AStr (sw_NetworkID hub); AStr (node_ID switchNode)])]
        else []
    end.

(** The handles connected so far, and the index of the handles. *)
Definition link_state : Type := gmap string nat * handleIndex.

(** What joins the two ends of an edge, once both are nodes. *)
Definition edge_link_step (networksByID : gmap string (ref Network)) (i : nat) (edge : Edge) (source target : ref Node)
    (s : link_state) : list Issue * link_state :=
  let '(connected, handles) := s in
  let path := index_path "edges" i in
  if String.eqb (node_ID (snd source)) (node_ID (snd target)) then
    ([NewIssue CodeEdgeEndpointsSame path (lit "connection endpoints must differ")], s)
  else
    match edgeEndpoints source (SourceHandleID edge) target (TargetHandleID edge) with
    | None => ([NewIssue CodeEdgeEndpointsInvalid path (lit "a connection must join one device interface to one switch")], s)
    | Some (device, deviceHandle, switchNode) =>
        let '(found, handles) := handle_find handles device deviceHandle in
        match found with
        | None =>
            ([NewIssue CodeEdgeHandleUnknown path
                (Sprintf "unknown connection point %q on device node %q" [AStr deviceHandle; AStr (node_ID (snd device))])],
             (connected, handles))
        | Some handle =>
            let '(taken, connected) :=
              see deviceHandle i (fun prev =>
                [NewIssue CodeEdgeInterfaceTaken path
                   (Sprintf "interface %q of device %q already has another connection, edges[%d]"
                      [AStr (handle_Name handle);
                       AStr (match node_Device (snd device) with Some dev => Hostname dev | None => "" end);
                       AInt (Z.of_nat prev)])]) connected in
            (taken ++
             match node_Switch (snd switchNode) with
             | None => []
             | Some hub => validateEdgeNetwork networksByID edge path (snd switchNode) hub
             end, (connected, handles))
        end
    end.

Definition edge_id_step (i : nat) (edge : Edge) (seenIDs : gmap string nat) : list Issue * gmap string nat :=
  let path := index_path "edges" i in
  let '(issues, present) :=
    validateID (path +:+ ".id") "connection" (edge_ID edge) CodeEdgeIDRequired CodeEdgeIDInvalid in
  let '(dup, seenIDs) :=
    if present then
      see (foldKey (edge_ID edge)) i (fun prev =>
        [NewIssue CodeEdgeIDDuplicate (path +:+ ".id")
           (Sprintf "duplicate connection ID %q (also edges[%d])" [AStr (edge_ID edge); AInt (Z.of_nat prev)])]) seenIDs
    else ([], seenIDs) in
  (issues ++ dup, seenIDs).

Definition edge_ends_step (nodesByID : gmap string (ref Node)) (networksByID : gmap string (ref Network))
    (i : nat) (edge : Edge) (s : link_state) : list Issue * link_state :=
  let path := index_path "edges" i in
  let missing id field code :=
    match nodesByID !! id with
    | Some _ => []
    | None => [NewIssue code (path +:+ field) (Sprintf "unknown node %q" [AStr id])]
    end in
  let unknown :=
    missing (SourceNodeID edge) ".sourceNodeId" CodeEdgeSourceUnknown ++
    missing (TargetNodeID edge) ".targetNodeId" CodeEdgeTargetUnknown in
  match nodesByID !! SourceNodeID edge, nodesByID !! TargetNodeID edge with
  | Some source, Some target =>
      let '(issues, s) := edge_link_step networksByID i edge source target s in (unknown ++ issues, s)
  | _, _ => (unknown, s)
  end.

Definition edge_step (nodesByID : gmap string (ref Node)) (networksByID : gmap string (ref Network))
    (i : nat) (edge : Edge) (s : gmap string nat * link_state) : list Issue * (gmap string nat * link_state) :=
  let '(seenIDs, links) := s in
  let path := index_path "edges" i in
  let '(id_issues, seenIDs) := edge_id_step i edge seenIDs in
  let '(end_issues, links) := edge_ends_step nodesByID networksByID i edge links in
  (id_issues ++ validateRoute (path +:+ ".route") (Route edge) ++
   validateLineStyle (edge_LineStyle edge) (path +:+ ".lineStyle") CodeEdgeLineStyleUnknown ++ end_issues,
   (seenIDs, links)).

Definition validateEdges (d : Document) (nodesByID : gmap string (ref Node)) (networksByID : gmap string (ref Network))
  : list Issue :=
  fst (each (edge_step nodesByID networksByID) 0 (elems (Edges d)) (∅, (∅, ∅))).

(** ** Scenarios and the source *)

Definition scenario_step (i : nat) (name : string) (seen : gmap string nat) : list Issue * gmap string nat :=
  let path := index_path "scenarios" i in
  if String.eqb name "" then ([NewIssue CodeScenarioNameRequired path (lit "a scenario needs a name")], seen)
  else if MaxScenarioNameBytes <? slen name then
    ([NewIssue CodeScenarioNameTooLong path (Sprintf "scenario name must be at most %d bytes" [AInt MaxScenarioNameBytes])], seen)
  else if negb (configName name) then
    ([NewIssue CodeScenarioNameInvalid path
        (Sprintf "scenario name %q may use only letters, numbers, underscores, at signs, periods and hyphens"
           [AStr (truncate name)])], seen)
  else
    see (foldKey name) i (fun prev =>
      [NewIssue CodeScenarioNameDuplicate path
         (Sprintf "duplicate scenario %q (also %s[%d])" [AStr name; AStr "scenarios"; AInt (Z.of_nat prev)])]) seen.

Definition validateScenarios (d : Document) : list Issue :=
  (if MaxScenarios <? zlen (Scenarios d) then
     [NewIssue CodeScenarioListTooMany "scenarios"
        (Sprintf "a document can have at most %d scenarios, not %d" [AInt MaxScenarios; AInt (zlen (Scenarios d))])]
   else []) ++
  fst (each scenario_step 0 (Scenarios d) ∅).

Definition include_issues (at_ name : string) : list Issue :=
  if blank name then [NewIssue CodeIncludeNameRequired at_ (lit "an included topology needs a name")]
  else if hasNameSpace name then
    [NewIssue CodeIncludeNameWhitespace at_ (Sprintf "included topology name %q must not contain whitespace" [AStr name])]
  else [].

Definition validateIncludes (path : string) (names : list string) : list Issue := indexed include_issues path names.

(** [annotationBytes]: a sum, whatever the order of the map. *)
Definition annotationBytes (annotations : gmap string string) : Z :=
  foldr (fun kv size => size + (slen (fst kv) + slen (snd kv))) 0 (map_to_list annotations).

Definition annotationKeyProblem (key : string) : option (Code * string) :=
  if blank key then Some (CodeSourceAnnotationKeyBlank, "must not be blank")
  else if MaxNameBytes <? slen key then Some (CodeSourceAnnotationKeyLong, "must be at most 512 bytes")
  else if contains_func key isControl then Some (CodeSourceAnnotationKeyCtrl, "must not contain control characters")
  else None.

Definition validateAnnotations (annotations : gmap string string) : list Issue :=
  let path := "source.annotations" in
  let n := Z.of_nat (size annotations) in
  (if MaxAnnotations <? n then
     [NewIssue CodeSourceAnnotationsTooMany path
        (Sprintf "the source can have at most %d annotations, not %d" [AInt MaxAnnotations; AInt n])]
   else []) ++
  (if MaxAnnotationBytes <? annotationBytes annotations then
     [NewIssue CodeSourceAnnotationsTooLarge path
        (Sprintf "annotations must take at most %d bytes in all, not %d"
           [AInt MaxAnnotationBytes; AInt (annotationBytes annotations)])]
   else []) ++
  concat (map (fun key =>
    match annotationKeyProblem key with
    | Some (code, problem) => [NewIssue code path (Sprintf "annotation key %q %s" [AStr (truncate key); AStr problem])]
    | None => []
    end) (sorted_keys annotations)).

Definition validateSource (d : Document) : list Issue :=
  match doc_Source d with
  | None => []
  | Some source =>
      match src_Kind source with
      | SourceKindOther kind => [NewIssue CodeSourceKindUnknown "source.kind" (Sprintf "unknown source kind %q" [AStr kind])]
      | _ => []
      end ++
      validateIncludes "source.includeTopologies" (IncludeTopologies source) ++
      validateIncludes "source.unresolvedIncludes" (UnresolvedIncludes source) ++
      (if negb (String.eqb (src_Digest source) "") && negb (IsDigest (src_Digest source)) then
         [NewIssue CodeSourceDigestMalformed "source.digest"
            (Sprintf "malformed source digest %q (expected sha256:<64 hex>)" [AStr (src_Digest source)])]
       else []) ++
      validateAnnotations (Annotations source)
  end.

(** ** Layers and templates *)

Definition validateLayers (d : Document) : list Issue :=
  layerListIssues (Layers d) "layers" ++
  match doc_LayerSet d with Some options => documentLayerSetIssues options | None => [] end.

Definition template_step (i : nat) (template : Template) (seenIDs : gmap string nat) : list Issue * gmap string nat :=
  let path := index_path "templates" i in
  let '(issues, present) :=
    validateID (path +:+ ".id") "template" (tpl_ID template) CodeTemplateIDRequired CodeTemplateIDInvalid in
  let '(dup, seenIDs) :=
    if present then
      see (foldKey (tpl_ID template)) i (fun prev =>
        [NewIssue CodeTemplateIDDuplicate (path +:+ ".id")
           (Sprintf "duplicate template ID %q (also %s[%d])" [AStr (tpl_ID template); AStr "templates"; AInt (Z.of_nat prev)])])
        seenIDs
    else ([], seenIDs) in
  (issues ++ dup ++ Template_Issues template path, seenIDs).

Definition validateTemplates (d : Document) : list Issue :=
  (if MaxTemplates <? zlen (Templates d) then
     [NewIssue CodeTemplateListTooMany "templates"
        (Sprintf "a document can have at most %d templates, not %d" [AInt MaxTemplates; AInt (zlen (Templates d))])]
   else []) ++
  fst (each template_step 0 (Templates d) ∅).

(** ** The whole *)

(** [elementPath]: the list and the index the path of an issue starts with. *)
Definition elementPath (path : string) : option (string * Z) :=
  List.find (fun p => has_prefix path (fst p +:+ "[")) [("nodes", 0); ("edges", 0); ("networks", 0)] ≫= fun p =>
    let '(digits, rest) := span_digits (drop (String.length (fst p) + 1) (bytes_Z path)) in
    if negb (bool_decide (digits = [])) && (hd 0 rest =? 93) then
      match Atoi (Z_string digits) with
      | (index, true) => Some (fst p, index)
      | (_, false) => None
      end
    else None.

Definition set_node (i : Issue) (id : string) : Issue := {|
  iss_code := iss_code i; iss_severity := iss_severity i; iss_message := iss_message i; iss_path := iss_path i;
  iss_node := id; iss_edge := iss_edge i; iss_network := iss_network i; iss_field := iss_field i |}.
Definition set_edge (i : Issue) (id : string) : Issue := {|
  iss_code := iss_code i; iss_severity := iss_severity i; iss_message := iss_message i; iss_path := iss_path i;
  iss_node := iss_node i; iss_edge := id; iss_network := iss_network i; iss_field := iss_field i |}.
Definition set_network (i : Issue) (id : string) : Issue := {|
  iss_code := iss_code i; iss_severity := iss_severity i; iss_message := iss_message i; iss_path := iss_path i;
  iss_node := iss_node i; iss_edge := iss_edge i; iss_network := id; iss_field := iss_field i |}.

(** The ID of the element at the index, unless it is blank or the issue
    already names an element. *)
Definition locate {A} (l : list A) (index : Z) (id_of : A -> string) (current : string) : option string :=
  match l !! Z.to_nat index with
  | Some x => if String.eqb current "" && negb (blank (id_of x)) then Some (id_of x) else None
  | None => None
  end.

Definition locateIssue (d : Document) (issue : Issue) : Issue :=
  match elementPath (iss_path issue) with
  | None => issue
  | Some (list_, index) =>
      if String.eqb list_ "nodes" then
        match locate (elems (Nodes d)) index node_ID (iss_node issue) with Some id => set_node issue id | None => issue end
      else if String.eqb list_ "edges" then
        match locate (elems (Edges d)) index edge_ID (iss_edge issue) with Some id => set_edge issue id | None => issue end
      else
        match locate (elems (Networks d)) index net_ID (iss_network issue) with Some id => set_network issue id | None => issue end
  end.

Definition LocateIssues (d : Document) (issues : list Issue) : list Issue := map (locateIssue d) issues.

(** [sort.SliceStable] by path: equal paths keep their order. *)
Fixpoint insert_issue (issue : Issue) (l : list Issue) : list Issue :=
  match l with
  | [] => [issue]
  | x :: l' => if String.leb (iss_path issue) (iss_path x) then issue :: l else x :: insert_issue issue l'
  end.

Definition stable_sort (l : list Issue) : list Issue := foldr insert_issue [] l.

Definition all_issues (order : list string) (d : Document) : list Issue :=
  let '(network_issues, networksByID) := validateNetworks d in
  let '(node_issues, nodesByID) := validateNodes d networksByID in
  validateHeader order d ++
  network_issues ++
  node_issues ++
  validateParents d nodesByID ++
  validateEdges d nodesByID networksByID ++
  validateScenarios d ++
  validateLayers d ++
  validateSource d ++
  validateTemplates d ++
  ValidateIcons (Icons d) "icons".

(** [Document.Validate]: nothing, or the issues of a [ValidationError]. *)
Definition Validate (order : list string) (d : Document) : option (list Issue) :=
  match all_issues order d with
  | [] => None
  | issues => Some (LocateIssues d (stable_sort issues))
  end.

End Validator.
