(* ===== verification/Parents.v ===== *)
(** * The parents of nodes form a forest

    [parentCycle] walks the chain of parents and keeps what it learned of
    every node it passed. Whatever it knew before, as long as that was true,
    its answer and what it keeps are true. *)

From Stdlib Require Import ZArith Lia Ascii String Strings.Byte.
From stdpp Require Import base option list gmap strings sorting.
From S2P Require Import Prelude Text Codes Document Checks Layers Icons Validate.

Open Scope Z_scope.
Open Scope go_scope.

Section Parents.
Context (m : gmap string (ref Node)).

(** The parent of a node, when it has one. *)
Definition next (id : string) : option string :=
  match m !! id with
  | Some (_, node) => if String.eqb (ParentID node) "" then None else Some (ParentID node)
  | None => None
  end.

Fixpoint ancestor (k : nat) (id : string) : option string :=
  match k with
  | O => Some id
  | S k' => match next id with Some p => ancestor k' p | None => None end
  end.

(** The chain of parents comes to an end, or goes on for ever. *)
Definition ends (id : string) : Prop := exists k, ancestor k id = None.
Definition endless (id : string) : Prop := forall k, is_Some (ancestor k id).

Lemma endless_not_ends id : endless id -> ~ ends id.
Proof. intros He [k Hk]. destruct (He k) as [x Hx]. congruence. Qed.

Lemma next_none_ends id : next id = None -> ends id.
Proof. intros Hn. exists 1%nat. simpl. by rewrite Hn. Qed.

Lemma next_ends id p : next id = Some p -> ends p -> ends id.
Proof. intros Hn [k Hk]. exists (S k). simpl. by rewrite Hn. Qed.

Lemma next_endless id p : next id = Some p -> endless p -> endless id.
Proof. intros Hn He [|k]; simpl; [by eexists|]. rewrite Hn. apply He. Qed.

Lemma ancestor_add a b id : ancestor (a + b) id = ancestor a id ≫= ancestor b.
Proof. revert id. induction a as [|a IH]; intros id; [done|]. simpl. destruct (next id); [apply IH|done]. Qed.

(** A node that is its own ancestor has no first ancestor. *)
Lemma loop_endless k id : ancestor (S k) id = Some id -> endless id.
Proof.
  intros Hk n. induction n as [n IH] using lt_wf_ind.
  destruct (decide (n <= S k)%nat) as [Hle|Hgt].
  - replace (S k) with (n + (S k - n))%nat in Hk by lia. rewrite ancestor_add in Hk.
    destruct (ancestor n id); [by eexists|done].
  - replace n with (S k + (n - S k))%nat by lia. rewrite ancestor_add, Hk. simpl. apply IH. lia.
Qed.

(** Each node of a walk is followed by its parent, the last by [id]. *)
Fixpoint linked (walk : list string) (id : string) : Prop :=
  match walk with
  | [] => True
  | w :: rest => next w = Some (hd id rest) /\ linked rest id
  end.

Lemma linked_snoc walk w id : linked walk w -> next w = Some id -> linked (walk ++ [w]) id.
Proof.
  induction walk as [|x walk IH]; intros Hl Hn; [by split|]. destruct Hl as [Hx Hl]. simpl.
  split; [|by apply IH]. rewrite Hx. by destruct walk.
Qed.

(** What is so of the end of a walk, and passes from a parent to its child, is
    so of the whole walk. *)
Lemma linked_forall (P : string -> Prop) walk id :
  (forall x p, next x = Some p -> P p -> P x) -> linked walk id -> P id -> Forall P walk.
Proof.
  intros Hp. induction walk as [|w walk IH]; [constructor|]. intros [Hn Hl] Hid.
  specialize (IH Hl Hid). constructor; [|done]. apply (Hp _ _ Hn). destruct walk; [done|]. by inversion IH.
Qed.

Lemma linked_ancestor walk id x :
  linked (x :: walk) id -> ancestor (S (length walk)) x = Some id.
Proof.
  revert x. induction walk as [|w walk IH]; intros x [Hn Hl]; simpl in *; rewrite Hn; [done|].
  by apply IH in Hl.
Qed.

Lemma linked_app a b id : linked (a ++ b) id -> linked b id.
Proof. induction a as [|x a IH]; [done|]. intros [_ Hl]. auto. Qed.

Lemma linked_in_endless walk id : linked walk id -> id ∈ walk -> endless id.
Proof.
  intros Hl (a & b & ->)%list_elem_of_split. apply linked_app in Hl. by eapply loop_endless, linked_ancestor.
Qed.

(** What a walk may know: the truth, and the nodes it is walking. *)
Definition knows (walk : list string) (states : gmap string chainState) : Prop :=
  forall x s, states !! x = Some s ->
    (s = chainWalking /\ x ∈ walk) \/ (s = chainEnds /\ ends x) \/ (s = chainCycles /\ endless x).

(** What [parentCycle] keeps between its walks is the truth. *)
Definition states_ok (states : gmap string chainState) : Prop := knows [] states.

(** The verdict of a walk on a node. *)
Definition verdict (state : chainState) (x : string) : Prop :=
  (state = chainEnds /\ ends x) \/ (state = chainCycles /\ endless x).

Lemma verdict_linked state walk id : linked walk id -> verdict state id -> Forall (verdict state) walk.
Proof.
  intros Hl. apply linked_forall; [|done]. intros x p Hn [[-> He]|[-> He]]; [left|right]; split; try done.
  - by eapply next_ends.
  - by eapply next_endless.
Qed.

Lemma walk_length walk : NoDup walk -> (forall x, x ∈ walk -> is_Some (m !! x)) -> (length walk <= size m)%nat.
Proof.
  intros Hn Hd. rewrite <- (size_list_to_set (C := gset string) walk), <- size_dom by done. apply subseteq_size.
  intros x Hx%elem_of_list_to_set. by apply elem_of_dom, Hd.
Qed.

Record walking (walk : list string) (id : string) (states : gmap string chainState) : Prop := {
  w_linked : linked walk id;
  w_knows : knows walk states;
  w_marked : forall x, x ∈ walk -> states !! x = Some chainWalking;
  w_nodup : NoDup walk;
  w_nodes : forall x, x ∈ walk -> is_Some (m !! x);
}.

Lemma walking_step walk id states i node :
  walking walk id states -> m !! id = Some (i, node) -> states !! id = None -> ParentID node <> "" ->
  walking (walk ++ [id]) (ParentID node) (<[ id := chainWalking ]> states).
Proof.
  intros [Hl Hk Hm Hd Hn] Hid Hs Hp. split.
  - apply linked_snoc; [done|]. unfold next. rewrite Hid. by apply String.eqb_neq in Hp as ->.
  - intros x s [[<- <-]|[Hne Hx]]%lookup_insert_Some.
    + left. split; [done|]. apply elem_of_app. right. by apply list_elem_of_singleton.
    + apply Hk in Hx as [[-> Hx]|Hx]; [|by right]. left. split; [done|]. apply elem_of_app. by left.
  - intros x [Hx| ->%list_elem_of_singleton]%elem_of_app; [|apply lookup_insert_eq].
    apply Hm in Hx. rewrite lookup_insert_ne; congruence.
  - apply NoDup_app. split; [done|]. split; [|apply NoDup_singleton].
    intros x Hx ->%list_elem_of_singleton. apply Hm in Hx. congruence.
  - intros x [Hx| ->%list_elem_of_singleton]%elem_of_app; [by apply Hn|by eexists].
Qed.

(** A walk comes to a verdict on all it walked, and knows the truth. *)
Lemma chain_walk_spec fuel id states walk :
  walking walk id states -> (size m < fuel + length walk)%nat ->
  let '(state, states', walk') := chain_walk fuel m id states walk in
  Forall (verdict state) walk' /\ knows walk' states' /\ verdict state id.
Proof.
  revert id states walk. induction fuel as [|fuel IH]; intros id states walk Hw Hf.
  { pose proof (walk_length walk (w_nodup _ _ _ Hw) (w_nodes _ _ _ Hw)). lia. }
  cbn [chain_walk]. destruct (m !! id) as [[i node]|] eqn:Hid.
  2:{ assert (verdict chainEnds id) as Hv by (left; split; [done|]; apply next_none_ends; unfold next; by rewrite Hid).
      split; [by eapply verdict_linked, Hv; apply Hw|]. split; [apply Hw|done]. }
  destruct (states !! id) as [known|] eqn:Hs.
  - set (state := if decide (known = chainWalking) then chainCycles else known).
    assert (verdict state id) as Hv.
    { unfold state. destruct (w_knows _ _ _ Hw id known Hs) as [[-> Hin]|[[-> He]|[-> He]]].
      - rewrite decide_True by done. right. split; [done|]. eapply linked_in_endless; [apply Hw|done].
      - rewrite decide_False by done. by left.
      - rewrite decide_False by done. by right. }
    split; [by eapply verdict_linked, Hv; apply Hw|]. split; [apply Hw|done].
  - destruct (String.eqb_spec (ParentID node) "") as [Hp|Hp].
    + assert (verdict chainEnds id) as Hv.
      { left. split; [done|]. apply next_none_ends. unfold next. by rewrite Hid, Hp. }
      split; [apply Forall_app; split; [|by apply Forall_singleton]; by eapply verdict_linked, Hv; apply Hw|].
      split; [|done]. intros x s [[<- <-]|[Hne Hx]]%lookup_insert_Some.
      * left. split; [done|]. apply elem_of_app. right. by apply list_elem_of_singleton.
      * apply (w_knows _ _ _ Hw) in Hx as [[-> Hx]|Hx]; [|by right]. left. split; [done|]. apply elem_of_app. by left.
    + specialize (IH (ParentID node) (<[id:=chainWalking]> states) (walk ++ [id])
        (walking_step _ _ _ _ _ Hw Hid Hs Hp) ltac:(rewrite length_app; simpl; lia)).
      destruct (chain_walk fuel _ _ _ _) as [[state states'] walk']. destruct IH as (Hf' & Hk' & Hv).
      split; [done|]. split; [done|]. assert (next id = Some (ParentID node)) as Hn.
      { unfold next. rewrite Hid. by apply String.eqb_neq in Hp as ->. }
      destruct Hv as [[-> He]|[-> He]]; [left|right]; split; try done; [by eapply next_ends|by eapply next_endless].
Qed.

(** Settling the nodes of a walk. *)
Lemma settle walk state states :
  Forall (verdict state) walk -> knows walk states ->
  states_ok (foldl (fun states walked => <[ walked := state ]> states) states walk).
Proof.
  revert states. induction walk as [|w walk IH]; intros states Hv Hk; [done|].
  apply Forall_cons in Hv as [Hw Hv]. simpl. apply IH; [done|].
  intros x s [[<- <-]|[Hne Hx]]%lookup_insert_Some; [by right|].
  apply Hk in Hx as [[-> Hx]|Hx]; [|by right]. left. split; [done|].
  apply elem_of_cons in Hx as [->|Hx]; done.
Qed.

Lemma parentCycle_ok id states :
  states_ok states ->
  (fst (parentCycle m id states) = true <-> endless id) /\
  (fst (parentCycle m id states) = false <-> ends id) /\
  states_ok (snd (parentCycle m id states)).
Proof.
  intros Hs. unfold parentCycle.
  assert (walking [] id states) as Hw.
  { split; [done|done|..]; try (by intros x Hx%elem_of_nil). constructor. }
  pose proof (chain_walk_spec (S (size m)) id states [] Hw ltac:(simpl; lia)) as Hc.
  destruct (chain_walk _ _ _ _ _) as [[state states'] walk']. destruct Hc as (Hv & Hk & Hid). cbn [fst snd].
  split; [|split; [|by apply settle]]; destruct Hid as [[-> He]|[-> He]]; case_bool_decide; try done.
  - split; [done|]. intros Hn. by apply endless_not_ends in Hn.
  - split; [done|]. by apply endless_not_ends in He.
Qed.

(** Whatever earlier walks found, [parentCycle] reports a cycle exactly
    when the chain of parents never ends, and keeps only what is true of the
    nodes it passed. *)
Theorem parentCycle_spec id states :
  states_ok states ->
  (fst (parentCycle m id states) = true <-> endless id) /\
  (fst (parentCycle m id states) = false <-> ends id) /\
  states_ok (snd (parentCycle m id states)).
Proof. apply parentCycle_ok. Qed.

(** ** All nodes *)

(** The node has no parent, or its parent is another node, a group whose own
    parents come to an end. *)
Definition parent_ok (node : Node) : Prop :=
  ParentID node = "" \/
  (ParentID node <> node_ID node /\
   exists i parent, m !! ParentID node = Some (i, parent) /\ node_Kind parent = NodeKindGroup /\ ends (ParentID node)).

Lemma parent_step_spec i node states :
  states_ok states ->
  (fst (parent_step m i node states) = [] <-> parent_ok node) /\ states_ok (snd (parent_step m i node states)).
Proof.
  intros Hs. unfold parent_step, parent_ok.
  destruct (String.eqb_spec (ParentID node) "") as [Hp|Hp]; [split; [split; [by left|done]|done]|].
  destruct (String.eqb_spec (ParentID node) (node_ID node)) as [Hi|Hi]; [split; [split; [done|]|done]; tauto|].
  destruct (m !! ParentID node) as [[j parent]|] eqn:Hm; cbn [fst snd].
  2:{ split; [|done]. split; [done|]. by intros [?|(_ & ? & ? & [=] & _)]. }
  case_bool_decide as Hk; cbn [negb fst snd].
  2:{ split; [|done]. split; [done|]. intros [?|(_ & ? & ? & [= <- <-] & ? & _)]; done. }
  destruct (parentCycle_ok (ParentID node) states Hs) as (_ & Hf & Hok).
  destruct (parentCycle m (ParentID node) states) as [[] states']; cbn [fst snd] in *; (split; [|done]).
  - split; [done|]. intros [?|(_ & ? & ? & _ & _ & He)]; [done|]. by apply Hf in He.
  - split; [|done]. intros _. right. split; [done|]. exists j, parent. split; [done|]. split; [done|]. by apply Hf.
Qed.

Lemma parents_nil i nodes states :
  states_ok states -> fst (each (parent_step m) i nodes states) = [] <-> Forall parent_ok nodes.
Proof.
  revert i states. induction nodes as [|node nodes IH]; intros i states Hs; [by split|].
  rewrite each_cons_nil, Forall_cons. destruct (parent_step_spec i node states Hs) as [-> Hs'].
  by rewrite IH by done.
Qed.

Lemma states_ok_empty : states_ok ∅.
Proof. intros x s. by rewrite lookup_empty. Qed.

End Parents.

Module Sample.

Definition group (id parent : string) : Node := {|
  node_ID := id; node_Kind := NodeKindGroup; node_Label := ""; node_Position := {| X := f_int 0; Y := f_int 0 |};
  node_Size := None; ParentID := parent; node_Device := None; node_Switch := None; node_Note := None;
  node_Group := None; node_Shape := None; node_Icon := None; node_Line := None |}.

(** Two groups in each other, and one in the first. *)
Definition nodes : gmap string (ref Node) :=
  {[ "a" := (0%nat, group "a" "b"); "b" := (1%nat, group "b" "a"); "c" := (2%nat, group "c" "a") ]}.

Lemma parentCycle_spec_witness :
  fst (parentCycle nodes "c" ∅) = true /\ endless nodes "c" /\ states_ok nodes (snd (parentCycle nodes "c" ∅)).
Proof.
  assert (states_ok nodes ∅) as H by (intros x s; by rewrite lookup_empty).
  pose proof (parentCycle_spec nodes "c" ∅ H) as (Hc & _ & Hk).
  assert (fst (parentCycle nodes "c" ∅) = true) as Ht by (vm_compute; reflexivity).
  split; [exact Ht|]. split; [apply Hc; exact Ht|exact Hk].
Defined.

End Sample.
