(* ===== verification/ValidateSpec.v ===== *)
(** * What a valid document is

    [document_ok] says what a document is, list by list, without the loops
    and the maps of the validator; [Validate_iff] says the validator finds
    nothing to report exactly for those documents. *)

From Stdlib Require Import ZArith Lia Ascii String Strings.Byte.
From stdpp Require Import base option list gmap strings sorting.
From S2P Require Import Prelude Text Decimal Subnet Codes Document Checks Matchers Layers Icons Validate Parents.

Open Scope Z_scope.
Open Scope go_scope.

(** The elements of a list by their IDs, each with its index. *)
Definition index_by {A : Type} (id_of : A -> string) (l : list A) : gmap string (ref A) :=
  list_to_map (imap (fun i x => (id_of x, (i, x))) l).

Section Spec.
Context `{Unicode, Libraries, PNG}.

(** ** The description *)

(** An identifier that is one. *)
Definition id_ok (id : string) : Prop := blank id = false /\ IsUUID id = true.

(** The identifiers of a list, of which no two are equal ignoring case. *)
Definition ids_ok (ids : list string) : Prop := Forall id_ok ids /\ NoDup (foldKey <$> ids).

Definition time_ok (t : string) : Prop := t = "" \/ IsTime t = true.

Definition note_ok (note : string) : Prop :=
  blank note = false /\ slen note <= MaxDiagramNoteBytes /\ Forall (fun r => isNoteControl r = false) (runes note).

Definition metadata_ok (meta : Metadata) : Prop :=
  id_ok (meta_ID meta) /\ text_line_ok MaxNameBytes (meta_Name meta) /\
  text_line_ok MaxUserBytes (CreatedBy meta) /\ time_ok (CreatedAt meta) /\
  text_line_ok MaxUserBytes (UpdatedBy meta) /\ time_ok (UpdatedAt meta) /\
  zlen (Notes meta) <= MaxDiagramNotes /\ Forall note_ok (Notes meta).

Definition whole_in (lo hi : Z) (f : float64) : Prop :=
  f_eqb f (Trunc f) = true /\ f_ltb f (f_int lo) = false /\ f_ltb (f_int hi) f = false.

Definition header_ok (d : Document) : Prop :=
  Schema d = SchemaURI /\ Revision d = SchemaRevision /\ metadata_ok (Meta d) /\
  is_Some (Nodes d) /\ is_Some (Networks d) /\ is_Some (Edges d) /\
  finite (view_X (doc_Viewport d)) = true /\ finite (view_Y (doc_Viewport d)) = true /\
  finite (Zoom (doc_Viewport d)) = true /\ f_leb (Zoom (doc_Viewport d)) (f_int 0) = false /\
  whole_in MinGridSize MaxGridSize (grid_Size (doc_Grid d)) /\ icon_size_ok (doc_IconSize d).

(** The gateway is an address, and a host of the subnet when there is one. *)
Definition addressing_ok (n : Network) : Prop :=
  (Subnet n = "" \/ snd (ParseSubnet (Subnet n)) = true) /\
  (Gateway n = "" \/ exists gateway, parse_addr4 (Gateway n) = Some gateway /\
     forall subnet, ParseSubnet (Subnet n) = (subnet, true) -> IsSubnetHost subnet gateway = true).

Definition network_ok (n : Network) : Prop :=
  name_ok (net_Name n) /\ line_style_ok (net_LineStyle n) /\ addressing_ok n /\
  (forall alias, Alias n = Some alias -> 1 <= alias <= maxVLANAlias).

Definition networks_ok (ns : list Network) : Prop :=
  ids_ok (net_ID <$> ns) /\ Forall network_ok ns /\ NoDup (net_Name <$> ns) /\ NoDup (omap Alias ns).

Definition handle_ok (h : InterfaceHandle) : Prop := id_ok (handle_ID h) /\ blank (handle_Name h) = false.

Definition included_ok (d : Document) (name : string) : Prop :=
  name = "" \/ (name_ok name /\ exists source, doc_Source d = Some source /\ IncludeTopologies source <> []).

Definition device_ok (d : Document) (dev : Device) : Prop :=
  name_ok (Hostname dev) /\ Forall handle_ok (Interfaces dev) /\
  NoDup ((fun h => foldKey (handle_Name h)) <$> Interfaces dev) /\
  icon_key_ok (dev_IconKey dev) /\ icon_ok (dev_Icon dev) /\ icon_size_ok (dev_IconSize dev) /\
  color_ok (dev_OutlineColor dev) /\ color_ok (dev_FillColor dev) /\ layer_ok (dev_Layer dev) /\
  included_ok d (IncludedFrom dev) /\ is_Some (dev_Spec dev).

Definition switch_ok (nets : list Network) (hub : Switch) : Prop :=
  sw_NetworkID hub ∈ net_ID <$> nets /\
  color_ok (sw_OutlineColor hub) /\ color_ok (sw_FillColor hub) /\ icon_size_ok (sw_IconSize hub) /\ layer_ok (sw_Layer hub).

Definition shape_ok (shape : Shape) : Prop :=
  sh_Shape shape ∈ shapeFigures /\ color_ok (sh_FillColor shape) /\ color_ok (sh_OutlineColor shape) /\
  border_style_ok (sh_BorderStyle shape).

Definition icon_node_ok (icon : IconNode) : Prop :=
  ~ (in_IconKey icon = "" <-> in_Icon icon = "") /\ icon_key_ok (in_IconKey icon) /\ icon_ok (in_Icon icon).

Definition point_ok (p : Position) : Prop := finite (X p) = true /\ finite (Y p) = true.

Definition line_ok (line : Line) : Prop :=
  MinLinePoints <= zlen (Points line) <= MaxLinePoints /\ Forall point_ok (Points line) /\
  color_ok (line_Color line) /\ line_style_ok (line_LineStyle line).

Definition group_ok (group : Group) : Prop :=
  border_style_ok (grp_BorderStyle group) /\ icon_key_ok (grp_IconKey group) /\ icon_ok (grp_Icon group) /\
  icon_size_ok (grp_IconSize group).

(** The node has the payload of its kind, which is right, and no other. *)
Definition payload_ok (d : Document) (nets : list Network) (n : Node) : Prop :=
  known_kind (node_Kind n) = true /\
  (forall k present, (k, present) ∈ payloads n -> present = bool_decide (k = node_Kind n)) /\
  match node_Kind n with
  | NodeKindDevice => forall dev, node_Device n = Some dev -> device_ok d dev
  | NodeKindSwitch => forall hub, node_Switch n = Some hub -> switch_ok nets hub
  | NodeKindGroup => forall group, node_Group n = Some group -> group_ok group
  | NodeKindShape => forall shape, node_Shape n = Some shape -> shape_ok shape
  | NodeKindIcon => forall icon, node_Icon n = Some icon -> icon_node_ok icon
  | NodeKindLine => forall line, node_Line n = Some line -> line_ok line
  | _ => True
  end.

Definition size_ok (size : Size) : Prop :=
  finite (Width size) = true /\ finite (Height size) = true /\
  f_leb (Width size) (f_int 0) = false /\ f_leb (Height size) (f_int 0) = false.

Definition node_ok (d : Document) (nets : list Network) (n : Node) : Prop :=
  point_ok (node_Position n) /\ (forall size, node_Size n = Some size -> size_ok size) /\ payload_ok d nets n.

(** The devices of the device nodes, in order. *)
Definition device_of (n : Node) : option Device :=
  if decide (node_Kind n = NodeKindDevice) then node_Device n else None.

Definition devices (ns : list Node) : list Device := omap device_of ns.

Definition nodes_ok (d : Document) (nets : list Network) (ns : list Node) : Prop :=
  ids_ok (node_ID <$> ns) /\ Forall (node_ok d nets) ns /\
  NoDup ((fun dev => foldKey (Hostname dev)) <$> devices ns) /\
  NoDup (devices ns ≫= fun dev => (fun h => foldKey (handle_ID h)) <$> Interfaces dev).

(** An edge between a handle of a device node and a switch node of its
    network. *)
Definition joins (ns : list Node) (e : Edge) (handle : string) : Prop :=
  exists dn dev h sn hub,
    dn ∈ ns /\ node_Kind dn = NodeKindDevice /\ node_Device dn = Some dev /\
    h ∈ Interfaces dev /\ handle_ID h = handle /\ handle <> "" /\
    sn ∈ ns /\ node_Kind sn = NodeKindSwitch /\ node_Switch sn = Some hub /\ edge_NetworkID e = sw_NetworkID hub /\
    ((SourceNodeID e = node_ID dn /\ SourceHandleID e = handle /\ TargetNodeID e = node_ID sn) \/
     (TargetNodeID e = node_ID dn /\ TargetHandleID e = handle /\ SourceNodeID e = node_ID sn)).

Definition route_ok (route : option (list Position)) : Prop :=
  forall points, route = Some points -> minRoutePoints <= zlen points /\ Forall point_ok points.

(** Every edge joins a handle to a switch, and no handle is joined twice. *)
Definition edges_ok (ns : list Node) (es : list Edge) : Prop :=
  ids_ok (edge_ID <$> es) /\
  Forall (fun e => route_ok (Route e) /\ line_style_ok (edge_LineStyle e)) es /\
  exists handles, Forall2 (joins ns) es handles /\ NoDup handles.

Definition scenario_ok (name : string) : Prop :=
  name <> "" /\ slen name <= MaxScenarioNameBytes /\ configName name = true.

Definition scenarios_ok (names : list string) : Prop :=
  zlen names <= MaxScenarios /\ Forall scenario_ok names /\ NoDup (foldKey <$> names).

Definition annotations_ok (annotations : gmap string string) : Prop :=
  Z.of_nat (size annotations) <= MaxAnnotations /\ annotationBytes annotations <= MaxAnnotationBytes /\
  map_Forall (fun key _ => blank key = false /\ text_line_ok MaxNameBytes key) annotations.

Definition source_ok (source : Source) : Prop :=
  (forall kind, src_Kind source <> SourceKindOther kind) /\
  Forall name_ok (IncludeTopologies source) /\ Forall name_ok (UnresolvedIncludes source) /\
  (src_Digest source = "" \/ IsDigest (src_Digest source) = true) /\ annotations_ok (Annotations source).

Definition templates_ok (ts : list Template) : Prop :=
  zlen ts <= MaxTemplates /\ ids_ok (tpl_ID <$> ts) /\ Forall template_ok ts.

Definition document_ok (d : Document) : Prop :=
  let nets := elems (Networks d) in
  let ns := elems (Nodes d) in
  header_ok d /\
  networks_ok nets /\
  nodes_ok d nets ns /\
  Forall (parent_ok (index_by node_ID ns)) ns /\
  edges_ok ns (elems (Edges d)) /\
  scenarios_ok (Scenarios d) /\
  layer_list_ok (Layers d) /\
  (forall o, doc_LayerSet d = Some o -> document_layer_set_ok o) /\
  (forall source, doc_Source d = Some source -> source_ok source) /\
  templates_ok (Templates d) /\
  icons_ok (Icons d).

(** ** Identifiers *)

Lemma validateID_nil path kind id required invalid :
  fst (validateID path kind id required invalid) = [] <-> id_ok id.
Proof. unfold validateID, id_ok. destruct (blank id), (IsUUID id); simpl; intuition congruence. Qed.

Lemma validateID_present path kind id required invalid :
  fst (validateID path kind id required invalid) = [] -> snd (validateID path kind id required invalid) = true.
Proof. unfold validateID. destruct (blank id), (IsUUID id); simpl; intuition congruence. Qed.

(** An ID that is checked and then seen. *)
Definition id_step {A : Type} (id_of : A -> string) (issues : nat -> A -> list Issue * bool)
    (dup : nat -> A -> nat -> list Issue) (i : nat) (x : A) (s : gmap string nat * gmap string (ref A))
  : list Issue * (gmap string nat * gmap string (ref A)) :=
  let '(a, present) := issues i x in
  let '(b, s) := see_id present (id_of x) i x (dup i x) s in (a ++ b, s).

Section IdStep.
Context {A : Type} (id_of : A -> string) (issues : nat -> A -> list Issue * bool) (dup : nat -> A -> nat -> list Issue).
Context (Hissues : forall i x, fst (issues i x) = [] <-> id_ok (id_of x)).
Context (Hpresent : forall i x, fst (issues i x) = [] -> snd (issues i x) = true).
Context (Hdup : forall i x prev, dup i x prev <> []).

Lemma id_step_nil i x s :
  fst (id_step id_of issues dup i x s) = [] <-> id_ok (id_of x) /\ fst s !! foldKey (id_of x) = None.
Proof.
  unfold id_step. pose proof (Hissues i x) as Hi. pose proof (Hpresent i x) as Hp.
  destruct (issues i x) as [a present]. cbn [fst snd] in *. unfold see_id.
  destruct present.
  - destruct (fst s !! foldKey (id_of x)) as [prev|] eqn:Hs; cbn [fst]; rewrite app_nil, Hi; [|tauto].
    split; [by intros [_ ?%Hdup]|by intros [_ ?]].
  - cbn [fst]. rewrite app_nil, Hi. split; [intros [Ha%Hi _]; by apply Hp in Ha|intros [Ha%Hi _]; by apply Hp in Ha].
Qed.

Lemma id_step_state i x s :
  fst (id_step id_of issues dup i x s) = [] ->
  snd (id_step id_of issues dup i x s) = (<[ foldKey (id_of x) := i ]> (fst s), <[ id_of x := (i, x) ]> (snd s)).
Proof.
  intros Hn. apply id_step_nil in Hn as [Hid Hs]. unfold id_step. apply (Hissues i x) in Hid.
  pose proof (Hpresent i x Hid) as Hp. destruct (issues i x) as [a present]. cbn [fst snd] in *. subst present.
  unfold see_id. by rewrite Hs.
Qed.

Lemma ids_nil i l s :
  fst (each (id_step id_of issues dup) i l s) = [] <->
  ids_ok (id_of <$> l) /\ forall k, k ∈ foldKey <$> (id_of <$> l) -> fst s !! k = None.
Proof.
  rewrite (each_nil _ (fun x => id_ok (id_of x)) (fun x => [foldKey (id_of x)]) (fun s k => is_Some (fst s !! k))).
  - unfold ids_ok. rewrite Forall_fmap.
    assert ((l ≫= fun x => [foldKey (id_of x)]) = foldKey <$> (id_of <$> l)) as ->
      by (induction l as [|x l IH]; [done|]; cbn; cbn in IH; by rewrite IH).
    setoid_rewrite <- eq_None_not_Some. tauto.
  - intros j x t. rewrite id_step_nil, eq_None_not_Some. split.
    + intros [? Hn]. split; [done|]. split; [apply NoDup_singleton|]. by intros k ->%list_elem_of_singleton.
    + intros (? & _ & Hn). split; [done|]. by apply Hn, list_elem_of_singleton.
  - intros j x t k Hn. rewrite id_step_state by done. cbn [fst]. rewrite lookup_insert_is_Some', (list_elem_of_singleton k).
    naive_solver.
Qed.

Lemma ids_state i l s :
  fst (each (id_step id_of issues dup) i l s) = [] ->
  (forall x, x ∈ l -> snd s !! id_of x = None) ->
  snd (snd (each (id_step id_of issues dup) i l s)) =
    list_to_map (imap (fun j x => (id_of x, ((i + j)%nat, x))) l) ∪ snd s.
Proof.
  intros Hn. pose proof Hn as Hids. apply ids_nil in Hids as [[_ Hd%NoDup_fmap_1] _].
  revert i s Hn. induction l as [|x l IH]; intros i s Hn Hs; [symmetry; apply (left_id_L ∅ (∪))|].
  apply each_cons_nil in Hn as [Hx Hl]. rewrite each_cons_state. cbn [fmap list_fmap] in Hd. apply NoDup_cons in Hd as [Hnx Hd].
  rewrite id_step_state in Hl |- * by done.
  assert (forall y, y ∈ l -> id_of y <> id_of x) as Hne.
  { intros y Hy He. apply Hnx. rewrite <- He. by apply list_elem_of_fmap_2. }
  rewrite IH; [|done|done|].
  2:{ intros y Hy. cbn [snd]. rewrite lookup_insert_ne by (apply not_eq_sym; by apply Hne). apply Hs. by apply elem_of_cons; right. }
  cbn [snd imap list_to_map foldr fst]. rewrite Nat.add_0_r.
  assert (imap (fun j y => (id_of y, ((S i + j)%nat, y))) l = imap ((fun j y => (id_of y, ((i + j)%nat, y))) ∘ S) l) as ->.
  { apply imap_ext. intros j y _. cbn. by rewrite Nat.add_succ_r. }
  rewrite <- insert_union_r.
  - by rewrite insert_union_l.
  - apply not_elem_of_list_to_map_1. intros Hin.
    apply list_elem_of_fmap in Hin as (p & Heq & Hin). apply elem_of_lookup_imap in Hin as (j & y & -> & Hy).
    apply list_elem_of_lookup_2 in Hy. by apply (Hne y).
Qed.

Lemma ids_index l s0 :
  fst (each (id_step id_of issues dup) 0 l (s0, ∅)) = [] ->
  snd (snd (each (id_step id_of issues dup) 0 l (s0, ∅))) = index_by id_of l.
Proof.
  intros Hn. rewrite ids_state; [apply (right_id_L ∅ (∪))|done|]. intros. apply lookup_empty.
Qed.

End IdStep.

(** ** Loops over one key *)

Lemma bind_singleton {A K : Type} (f : A -> K) l : (l ≫= fun x => [f x]) = f <$> l.
Proof. induction l as [|x l IH]; [done|]. cbn. cbn in IH. by rewrite IH. Qed.

(** A step that checks an element and then sees its key. *)
Lemma key_step_nil {A K : Type} `{Countable K} (ok : A -> Prop) (key : A -> K) (step : nat -> A -> gmap K nat -> list Issue * gmap K nat) l :
  (forall i x s, fst (step i x s) = [] <-> ok x /\ s !! key x = None) ->
  (forall i x s, fst (step i x s) = [] -> snd (step i x s) = <[ key x := i ]> s) ->
  fst (each step 0 l ∅) = [] <-> Forall ok l /\ NoDup (key <$> l).
Proof.
  intros Hn Hs. rewrite (each_nil _ ok (fun x => [key x]) (fun s k => is_Some (s !! k))).
  - rewrite bind_singleton. split; [tauto|]. intros [? ?]. split; [done|]. split; [done|].
    intros k _. rewrite lookup_empty. by intros [].
  - intros i x s. rewrite Hn, eq_None_not_Some. split.
    + intros [? ?]. split; [done|]. split; [apply NoDup_singleton|]. by intros k ->%list_elem_of_singleton.
    + intros (? & _ & Hk). split; [done|]. by apply Hk, list_elem_of_singleton.
  - intros i x s k Hx. rewrite Hs by done. rewrite lookup_insert_is_Some', (list_elem_of_singleton k). naive_solver.
Qed.

(** The same for a key an element may not have. *)
Lemma opt_step_nil {A K : Type} `{Countable K} (ok : A -> Prop) (key : A -> option K) (step : nat -> A -> gmap K nat -> list Issue * gmap K nat) l :
  (forall i x s, fst (step i x s) = [] <-> ok x /\ forall k, key x = Some k -> s !! k = None) ->
  (forall i x s, fst (step i x s) = [] -> snd (step i x s) = match key x with Some k => <[ k := i ]> s | None => s end) ->
  fst (each step 0 l ∅) = [] <-> Forall ok l /\ NoDup (omap key l).
Proof.
  intros Hn Hs. rewrite (each_nil _ ok (fun x => option_list (key x)) (fun s k => is_Some (s !! k))).
  - rewrite bind_option_list. split; [tauto|]. intros [? ?]. split; [done|]. split; [done|].
    intros k _. rewrite lookup_empty. by intros [].
  - intros i x s. rewrite Hn. destruct (key x) as [k|]; cbn [option_list].
    + split.
      * intros [? Hk]. split; [done|]. split; [apply NoDup_singleton|]. intros k' ->%list_elem_of_singleton.
        by rewrite <- eq_None_not_Some; apply Hk.
      * intros (? & _ & Hk). split; [done|]. intros k' [= <-]. by apply eq_None_not_Some, Hk, list_elem_of_singleton.
    + split; [|by intros [? _]]. intros [? _]. split; [done|]. split; [constructor|]. by intros k ?%elem_of_nil.
  - intros i x s k Hx. rewrite Hs by done. destruct (key x) as [k'|]; cbn [option_list].
    + rewrite lookup_insert_is_Some', (list_elem_of_singleton k k'). naive_solver.
    + split; [by left|]. by intros [?|?%elem_of_nil].
Qed.

(** ** Networks *)

Definition net_id_issues (i : nat) (n : Network) : list Issue * bool :=
  validateID (index_path "networks" i +:+ ".id") "network" (net_ID n) CodeNetworkIDRequired CodeNetworkIDInvalid.

Definition net_id_dup (i : nat) (n : Network) (prev : nat) : list Issue :=
  [NewIssue CodeNetworkIDDuplicate (index_path "networks" i +:+ ".id")
     (Sprintf "duplicate network ID %q (also networks[%d])" [AStr (net_ID n); AInt (Z.of_nat prev)])].

Lemma network_id_step_eq i n s : network_id_step i n s = id_step net_ID net_id_issues net_id_dup i n s.
Proof. done. Qed.

Lemma addressing_nil n path : validateNetworkAddressing n path = [] <-> addressing_ok n.
Proof.
  unfold validateNetworkAddressing, addressing_ok.
  assert (snd (ParseSubnet "") = false) as Hempty by (vm_compute; reflexivity).
  destruct (String.eqb_spec (Subnet n) "") as [Hs|Hs].
  - cbn [negb andb app]. assert (forall subnet, ParseSubnet (Subnet n) = (subnet, true) -> False) as Hno.
    { intros subnet He. rewrite Hs in He. by rewrite He in Hempty. }
    destruct (String.eqb_spec (Gateway n) "") as [Hg|Hg]; [split; [by split; left|done]|].
    destruct (parse_addr4 (Gateway n)) as [g|]; (split; [|done || (intros [_ [?|(? & [=] & _)]]; done)]).
    + intros _. split; [by left|]. right. exists g. split; [done|]. by intros ? ?%Hno.
    + done.
  - destruct (ParseSubnet (Subnet n)) as [subnet ok]. cbn [snd negb andb]. destruct ok; cbn [negb].
    2:{ split; [done|]. by intros [[?|?] _]. }
    cbn [app]. destruct (String.eqb_spec (Gateway n) "") as [Hg|Hg]; [split; [split; [by right|by left]|done]|].
    destruct (parse_addr4 (Gateway n)) as [g|]; [|split; [done|]; by intros [_ [?|(? & [=] & _)]]].
    cbn [andb]. destruct (IsSubnetHost subnet g) eqn:Hh; cbn [negb].
    + split; [|done]. intros _. split; [by right|]. right. exists g. split; [done|]. by intros ? [= <-].
    + split; [done|]. intros [_ [?|(? & [= <-] & Hall)]]; [done|]. specialize (Hall _ eq_refl). congruence.
Qed.

Lemma named_nil {A} (name : string) (a b : A) (l : list A) :
  (if blank name then [a] else if hasNameSpace name then [b] else l) = [] <-> name_ok name /\ l = [].
Proof. unfold name_ok. destruct (blank name), (hasNameSpace name); intuition congruence. Qed.

Lemma named_pair_nil {A S : Type} (name : string) (a b : A) (s : S) (r : list A * S) :
  fst (if blank name then ([a], s) else if hasNameSpace name then ([b], s) else r) = [] <-> name_ok name /\ fst r = [].
Proof. unfold name_ok. destruct (blank name), (hasNameSpace name); cbn [fst]; intuition congruence. Qed.

Lemma named_pair_snd {A S : Type} (name : string) (a b : A) (s : S) (r : list A * S) :
  name_ok name -> snd (if blank name then ([a], s) else if hasNameSpace name then ([b], s) else r) = snd r.
Proof. unfold name_ok. by intros [-> ->]. Qed.

Lemma network_name_nil ns :
  fst (each network_name_step 0 ns ∅) = [] <-> Forall (fun n => name_ok (net_Name n)) ns /\ NoDup (net_Name <$> ns).
Proof.
  apply key_step_nil; intros i n s; unfold network_name_step.
  - by rewrite named_pair_nil, see_nil.
  - rewrite named_pair_nil. intros [Hn Hs]. rewrite named_pair_snd by done. by apply see_state.
Qed.

(** The checks of the loop that remember nothing, with the alias. *)
Definition network_rest_step (i : nat) (n : Network) (aliases : gmap Z nat) : list Issue * gmap Z nat :=
  let path := index_path "networks" i in
  let '(alias_issues, aliases) := network_alias_step i n aliases in
  (validateLineStyle (net_LineStyle n) (path +:+ ".lineStyle") CodeNetworkLineStyle ++
   validateNetworkAddressing n path ++ alias_issues, aliases).

Lemma network_rest_nil ns :
  fst (each network_rest_step 0 ns ∅) = [] <->
  Forall (fun n => line_style_ok (net_LineStyle n) /\ addressing_ok n /\
                   forall alias, Alias n = Some alias -> 1 <= alias <= maxVLANAlias) ns /\ NoDup (omap Alias ns).
Proof.
  apply opt_step_nil; intros i n s; unfold network_rest_step, network_alias_step;
    (destruct (Alias n) as [alias|];
     [destruct ((alias <? 1) || (maxVLANAlias <? alias)) eqn:Hr;
      [|set (dup := fun prev : nat => [NewIssue _ _ _]);
        pose proof (see_nil alias i dup s ltac:(done)) as Hsee; pose proof (see_state alias i dup s ltac:(done)) as Hst;
        destruct (see alias i dup s) as [a s']; cbn [fst snd] in *]|]);
    cbn [fst snd]; rewrite !app_nil, validateLineStyle_nil, addressing_nil.
  - apply orb_true_iff in Hr. rewrite !Z.ltb_lt in Hr. split; [by intros (_ & _ & [=])|].
    intros [(_ & _ & Ha) _]. specialize (Ha alias eq_refl). lia.
  - apply orb_false_iff in Hr. rewrite !Z.ltb_ge in Hr. rewrite Hsee. split.
    + intros (? & ? & ?). split; [split; [done|split; [done|]]|]; intros ? [= <-]; done || lia.
    + intros [(? & ? & _) Hs]. split; [done|]. split; [done|]. by apply Hs.
  - split; [|tauto]. intros (? & ? & _). split; [|done]. split; [done|]. by split.
  - by intros (_ & _ & [=]).
  - intros (_ & _ & Ha). by apply Hst.
  - done.
Qed.

Lemma networks_iff d :
  (fst (validateNetworks d) = [] <-> networks_ok (elems (Networks d))) /\
  (fst (validateNetworks d) = [] -> snd (validateNetworks d) = index_by net_ID (elems (Networks d))).
Proof.
  unfold networks_ok. set (ns := elems (Networks d)).
  set (h := fun i n (s : gmap string nat * gmap Z nat) =>
    let '(a, names) := network_name_step i n (fst s) in
    let '(b, aliases) := network_rest_step i n (snd s) in (a ++ b, (names, aliases))).
  destruct (each_pair network_step network_id_step h 0%nat ns (∅, ∅) (∅, ∅)) as [Hnil Hst].
  { intros i n ids [names aliases]. unfold network_step, h, network_rest_step. cbn [fst snd].
    destruct (network_id_step i n ids), (network_name_step i n names), (network_alias_step i n aliases).
    cbn [fst]. rewrite !app_nil. tauto. }
  { intros i n ids [names aliases]. unfold network_step, h, network_rest_step. cbn [fst snd].
    by destruct (network_id_step i n ids), (network_name_step i n names), (network_alias_step i n aliases). }
  destruct (each_pair h network_name_step network_rest_step 0%nat ns ∅ ∅) as [Hnil' _].
  { intros i n names aliases. unfold h. cbn [fst snd].
    destruct (network_name_step i n names), (network_rest_step i n aliases). cbn [fst]. apply app_nil. }
  { intros i n names aliases. unfold h. cbn [fst snd].
    by destruct (network_name_step i n names), (network_rest_step i n aliases). }
  rewrite Hnil', network_name_nil, network_rest_nil in Hnil.
  set (E := each network_step 0 ns ((∅, ∅), (∅, ∅)) : list Issue * net_state).
  change (fst E = [] <-> fst (each network_id_step 0 ns (∅, ∅)) = [] /\
    (Forall (fun n => name_ok (net_Name n)) ns /\ NoDup (net_Name <$> ns)) /\
    Forall (fun n => line_style_ok (net_LineStyle n) /\ addressing_ok n /\
      (forall alias, Alias n = Some alias -> 1 <= alias <= maxVLANAlias)) ns /\ NoDup (omap Alias ns)) in Hnil.
  change (snd E = (snd (each network_id_step 0 ns (∅, ∅)), snd (each h 0 ns (∅, ∅)))) in Hst.
  change (validateNetworks d) with (let '(issues, (_, byID, _)) := E in (issues, byID)).
  destruct E as [issues [[seen byID] rest]]. cbn [fst snd] in *.
  change network_id_step with (id_step net_ID net_id_issues net_id_dup) in *.
  assert (forall i x, fst (net_id_issues i x) = [] <-> id_ok (net_ID x)) as Hi
    by (intros; unfold net_id_issues; apply validateID_nil).
  assert (forall i x, fst (net_id_issues i x) = [] -> snd (net_id_issues i x) = true) as Hp
    by (intros i x; unfold net_id_issues; apply validateID_present).
  split.
  - rewrite Hnil, ids_nil by done. unfold network_ok. rewrite !Forall_and.
    split; [intros [[? _] ?]; tauto|]. intros ?. split; [|tauto]. split; [tauto|]. intros. apply lookup_empty.
  - intros [Hids _]%Hnil. injection Hst as Hst _. apply (f_equal snd) in Hst. cbn [snd] in Hst. rewrite Hst.
    by apply ids_index.
Qed.

(** ** Elements by ID *)

Lemma index_by_Some {A : Type} (id_of : A -> string) l id i x :
  index_by id_of l !! id = Some (i, x) -> l !! i = Some x /\ id_of x = id.
Proof.
  unfold index_by. intros Hl%elem_of_list_to_map_2. apply elem_of_lookup_imap in Hl as (j & y & [= -> -> ->] & Hy). done.
Qed.

Lemma index_by_is_Some {A : Type} (id_of : A -> string) l id :
  is_Some (index_by id_of l !! id) <-> id ∈ id_of <$> l.
Proof.
  assert ((imap (fun i x => (id_of x, (i, x))) l).*1 = id_of <$> l) as Hl.
  { rewrite fmap_imap. generalize 0%nat. unfold compose. simpl.
    assert (forall (l : list A), imap (fun _ x => id_of x) l = id_of <$> l) as Hi.
    { induction l0 as [|y l0 IH]; [done|]. cbn. f_equal. exact IH. }
    intros _. apply Hi. }
  unfold index_by. rewrite <- Hl. split.
  - intros [r Hr]. apply elem_of_list_to_map_2 in Hr. by apply (list_elem_of_fmap_2 fst) in Hr.
  - intros Hin. destruct (list_to_map _ !! id) eqn:E; [by eexists|]. by apply not_elem_of_list_to_map_2 in E.
Qed.

Lemma index_by_lookup {A : Type} (id_of : A -> string) l i x :
  NoDup (id_of <$> l) -> l !! i = Some x -> index_by id_of l !! id_of x = Some (i, x).
Proof.
  intros Hd Hx. destruct (index_by id_of l !! id_of x) as [[j y]|] eqn:E.
  - apply index_by_Some in E as [Hy He]. f_equal. assert (i = j) as ->.
    { eapply NoDup_lookup; [exact Hd| |]; rewrite list_lookup_fmap; [by rewrite Hx|]. rewrite Hy. cbn. by rewrite He. }
    congruence.
  - pose proof (proj2 (index_by_is_Some id_of l (id_of x))) as Hs. rewrite E in Hs.
    destruct Hs; [|done]. apply list_elem_of_fmap_2. by eapply list_elem_of_lookup_2.
Qed.

Lemma ids_ok_NoDup ids : ids_ok ids -> NoDup ids.
Proof. intros [_ Hd]. by apply NoDup_fmap_1 in Hd. Qed.

Lemma ids_ok_nonempty ids : ids_ok ids -> "" ∉ ids.
Proof.
  intros [Hf _] Hin. rewrite Forall_forall in Hf. destruct (Hf _ Hin) as [Hb _]. vm_compute in Hb. done.
Qed.

(** ** Nodes *)

Lemma finite_point_iff p : finite_point p = true <-> point_ok p.
Proof. unfold finite_point, point_ok. apply andb_true_iff. Qed.

Lemma finite_points_iff ps : forallb finite_point ps = true <-> Forall point_ok ps.
Proof. rewrite forallb_Forall. apply Forall_iff. intros p. apply finite_point_iff. Qed.

Lemma if_else_nil (b : bool) (a : Issue) : (if b then [] else [a]) = [] <-> b = true.
Proof. by destruct b. Qed.

Definition payloads_match (n : Node) : Prop :=
  known_kind (node_Kind n) = true /\
  (forall k present, (k, present) ∈ payloads n -> present = bool_decide (k = node_Kind n)).

Lemma payload_nil n path :
  validateNodePayload n path = [] <->
  payloads_match n /\ (forall dev, node_Kind n = NodeKindDevice -> node_Device n = Some dev -> is_Some (dev_Spec dev)).
Proof.
  unfold validateNodePayload, payloads_match. destruct (known_kind (node_Kind n)) eqn:Hk; cbn [negb].
  2:{ split; [done|]. by intros [[? _] _]. }
  rewrite !app_nil, !concat_nil, !Forall_forall.
  assert ((match node_Kind n with
    | NodeKindDevice => match node_Device n with Some device => match dev_Spec device with
        | None => [NewIssue CodeDeviceSpecRequired (path +:+ ".device.spec") (lit "a device needs a spec")] | Some _ => [] end | None => [] end
    | _ => [] end = []) <->
    (forall dev, node_Kind n = NodeKindDevice -> node_Device n = Some dev -> is_Some (dev_Spec dev))) as Hspec.
  { destruct (node_Kind n); try (by split).
    destruct (node_Device n) as [dev|]; [|by split]. destruct (dev_Spec dev) as [sp|] eqn:Hs; split; try done.
    - intros _ ? _ [= <-]. by rewrite Hs.
    - intros Hd. specialize (Hd dev eq_refl eq_refl). rewrite Hs in Hd. by destruct Hd. }
  rewrite <- Hspec. split.
  - intros (Ha & Hb & Hc). split; [|destruct (node_Kind n), (node_Device n); exact Hc]. split; [done|].
    intros k p Hin. specialize (Ha (k, p) Hin). specialize (Hb (k, p) Hin). cbn in Ha, Hb.
    by destruct (bool_decide (k = node_Kind n)), p.
  - intros [[_ Hm] Hc]. split; [|split; [|destruct (node_Kind n), (node_Device n); exact Hc]];
      intros [k p] Hin; rewrite (Hm k p Hin); by destruct (bool_decide _).
Qed.

Lemma fields_nil n path :
  node_fields_issues n path = [] <->
  point_ok (node_Position n) /\ (forall size, node_Size n = Some size -> size_ok size) /\ payloads_match n /\
  (forall dev, node_Kind n = NodeKindDevice -> node_Device n = Some dev -> is_Some (dev_Spec dev)).
Proof.
  unfold node_fields_issues. rewrite !app_nil, if_else_nil, finite_point_iff, payload_nil.
  apply and_iff_compat_l. apply and_iff_compat_r. destruct (node_Size n) as [size|].
  - rewrite if_nil. unfold size_bad, size_ok. rewrite !orb_false_iff, !negb_false_iff. split.
    + intros Hs ? [= <-]. tauto.
    + intros Hs. specialize (Hs size eq_refl). tauto.
  - by split.
Qed.

Lemma included_nil d name path : validateIncludedFrom d name path = [] <-> included_ok d name.
Proof.
  unfold validateIncludedFrom, included_ok. destruct (String.eqb_spec name "") as [->|Hn]; [split; [by left|done]|].
  unfold name_ok. destruct (blank name), (hasNameSpace name); cbn [orb]; try (split; [done|]; by intros [?|[[[=] [=]] _]]).
  destruct (doc_Source d) as [source|]; [|split; [done|]; by intros [?|[_ (? & [=] & _)]]].
  rewrite if_nil, Z.eqb_neq. split.
  - intros Hz. right. split; [done|]. exists source. split; [done|]. intros Hi. by rewrite Hi in Hz.
  - intros [?|[_ (? & [= <-] & Hi)]]; [done|]. unfold zlen. destruct (IncludeTopologies source); [done|]. simpl. lia.
Qed.

Lemma device_fields_nil d dev path :
  device_fields_issues d dev path = [] <->
  icon_key_ok (dev_IconKey dev) /\ icon_ok (dev_Icon dev) /\ icon_size_ok (dev_IconSize dev) /\
  color_ok (dev_OutlineColor dev) /\ color_ok (dev_FillColor dev) /\ layer_ok (dev_Layer dev) /\
  included_ok d (IncludedFrom dev).
Proof.
  unfold device_fields_issues. by rewrite !app_nil, validateIconKey_nil, validateIconRef_nil, validateIconSize_nil,
    !validateColor_nil, validateLayer_nil, included_nil.
Qed.

Lemma switch_nil nets hub path :
  ids_ok (net_ID <$> nets) -> validateSwitch (index_by net_ID nets) hub path = [] <-> switch_ok nets hub.
Proof.
  intros Hids. unfold validateSwitch, switch_ok.
  rewrite !app_nil, !validateColor_nil, validateIconSize_nil, validateLayer_nil. apply and_iff_compat_r.
  destruct (String.eqb_spec (sw_NetworkID hub) "") as [->|Hn].
  - split; [done|]. by intros ?%ids_ok_nonempty.
  - rewrite <- index_by_is_Some. destruct (index_by net_ID nets !! sw_NetworkID hub); naive_solver.
Qed.

Lemma shape_nil shape path : validateShape shape path = [] <-> shape_ok shape.
Proof.
  unfold validateShape, shape_ok. by rewrite !app_nil, if_else_nil, contains_str_iff, !validateColor_nil, validateBorderStyle_nil.
Qed.

Lemma icon_node_nil icon path : validateIconNode icon path = [] <-> icon_node_ok icon.
Proof.
  unfold validateIconNode, icon_node_ok. rewrite !app_nil, if_nil, validateIconKey_nil, validateIconRef_nil.
  apply and_iff_compat_r. rewrite <- (String.eqb_eq (in_IconKey icon)), <- (String.eqb_eq (in_Icon icon)).
  destruct (String.eqb (in_IconKey icon) ""), (String.eqb (in_Icon icon) ""); cbn; naive_solver.
Qed.

Lemma line_nil_iff line path : validateLine line path = [] <-> line_ok line.
Proof.
  unfold validateLine, line_ok. rewrite !app_nil, validateColor_nil, validateLineStyle_nil, <- finite_points_iff.
  destruct (zlen (Points line) <? MinLinePoints) eqn:Hlo; [apply Z.ltb_lt in Hlo; split; [by intros [? _]|lia]|apply Z.ltb_ge in Hlo].
  destruct (MaxLinePoints <? zlen (Points line)) eqn:Hhi; [apply Z.ltb_lt in Hhi; split; [by intros [? _]|lia]|apply Z.ltb_ge in Hhi].
  rewrite if_else_nil. intuition lia.
Qed.

Lemma group_nil group path : validateGroup group path = [] <-> group_ok group.
Proof.
  unfold validateGroup, group_ok. by rewrite !app_nil, validateBorderStyle_nil, validateIconKey_nil, validateIconRef_nil, validateIconSize_nil.
Qed.

(** ** Handles *)

Definition handle_key (h : InterfaceHandle) : string := foldKey (handle_ID h).

Definition handle_name_step (path : string) (j : nat) (h : InterfaceHandle) (seen : gmap string nat)
  : list Issue * gmap string nat :=
  let handlePath := index_path (path +:+ ".device.interfaces") j in
  if blank (handle_Name h) then
    ([NewIssue CodeInterfaceNameRequired (handlePath +:+ ".name") (lit "an interface needs a name")], seen)
  else
    see (foldKey (handle_Name h)) j (fun prev =>
      [NewIssue CodeInterfaceNameDuplicate (handlePath +:+ ".name")
         (Sprintf "duplicate interface name %q (also interfaces[%d])" [AStr (handle_Name h); AInt (Z.of_nat prev)])]) seen.

Definition handle_owner_step (node : ref Node) (path : string) (j : nat) (h : InterfaceHandle)
    (owners : gmap string (ref Node)) : list Issue * gmap string (ref Node) :=
  let handlePath := index_path (path +:+ ".device.interfaces") j in
  let '(id_issues, present) :=
    validateID (handlePath +:+ ".id") "connection point" (handle_ID h) CodeInterfaceIDRequired CodeInterfaceIDInvalid in
  let '(dup, owners) :=
    if present then
      match owners !! foldKey (handle_ID h) with
      | Some owner =>
          ([NewIssue CodeInterfaceIDDuplicate (handlePath +:+ ".id")
              (Sprintf "duplicate connection point ID %q (node %q also has it)" [AStr (handle_ID h); AStr (node_ID (snd owner))])], owners)
      | None => ([], <[ foldKey (handle_ID h) := node ]> owners)
      end
    else ([], owners) in
  (id_issues ++ dup, owners).

Lemma handle_owner_nil node path j h owners :
  fst (handle_owner_step node path j h owners) = [] <-> id_ok (handle_ID h) /\ owners !! handle_key h = None.
Proof.
  unfold handle_owner_step, handle_key. set (p := index_path _ j +:+ ".id").
  pose proof (validateID_nil p "connection point" (handle_ID h) CodeInterfaceIDRequired CodeInterfaceIDInvalid) as Hi.
  pose proof (validateID_present p "connection point" (handle_ID h) CodeInterfaceIDRequired CodeInterfaceIDInvalid) as Hp.
  destruct (validateID _ _ _ _ _) as [a present]. cbn [fst snd] in *. destruct present.
  - destruct (owners !! foldKey (handle_ID h)); cbn [fst]; rewrite app_nil, Hi; intuition congruence.
  - cbn [fst]. rewrite app_nil, Hi. split; intros [Ha%Hi ?]; by apply Hp in Ha.
Qed.

Lemma handle_owner_state node path j h owners :
  fst (handle_owner_step node path j h owners) = [] ->
  snd (handle_owner_step node path j h owners) = <[ handle_key h := node ]> owners.
Proof.
  intros Hn. pose proof Hn as [Hid Ho]%handle_owner_nil. revert Hn. unfold handle_owner_step, handle_key in *.
  set (p := index_path _ j +:+ ".id").
  pose proof (validateID_present p "connection point" (handle_ID h) CodeInterfaceIDRequired CodeInterfaceIDInvalid) as Hp.
  rewrite (validateID_nil p "connection point" (handle_ID h) CodeInterfaceIDRequired CodeInterfaceIDInvalid) in Hp. specialize (Hp Hid).
  destruct (validateID _ _ _ _ _) as [a present]. cbn [fst snd] in *. subst present. by rewrite Ho.
Qed.

Lemma handle_name_nil path hs :
  fst (each (handle_name_step path) 0 hs ∅) = [] <->
  Forall (fun h => blank (handle_Name h) = false) hs /\ NoDup ((fun h => foldKey (handle_Name h)) <$> hs).
Proof.
  apply key_step_nil; intros j h s; unfold handle_name_step; destruct (blank (handle_Name h)); try done.
  - split; [done|]. by intros [[=] _].
  - rewrite see_nil by done. tauto.
  - by apply see_state.
Qed.

(** The handles of one device, after those of others. *)
Lemma device_handles node dev path owners :
  (fst (validateDeviceHandles node dev path owners) = [] <->
   Forall handle_ok (Interfaces dev) /\ NoDup ((fun h => foldKey (handle_Name h)) <$> Interfaces dev) /\
   NoDup (handle_key <$> Interfaces dev) /\ forall k, k ∈ handle_key <$> Interfaces dev -> ~ is_Some (owners !! k)) /\
  (fst (validateDeviceHandles node dev path owners) = [] ->
   forall k, is_Some (snd (validateDeviceHandles node dev path owners) !! k) <->
             is_Some (owners !! k) \/ k ∈ handle_key <$> Interfaces dev).
Proof.
  set (hs := Interfaces dev).
  destruct (each_pair (handle_step node path) (handle_name_step path) (handle_owner_step node path) 0%nat hs ∅ owners) as [Hn Hs].
  { intros j h names os. unfold handle_step, handle_name_step, handle_owner_step.
    destruct (validateID _ _ _ _ _) as [a present].
    destruct (if blank (handle_Name h) then _ else _) as [b names'].
    destruct (if present then _ else _) as [c os']. cbn [fst]. rewrite !app_nil. tauto. }
  { intros j h names os. unfold handle_step, handle_name_step, handle_owner_step.
    destruct (validateID _ _ _ _ _) as [a present].
    destruct (if blank (handle_Name h) then _ else _) as [b names'].
    by destruct (if present then _ else _) as [c os']. }
  assert (fst (each (handle_owner_step node path) 0 hs owners) = [] <->
    Forall (fun h => id_ok (handle_ID h)) hs /\ NoDup (handle_key <$> hs) /\ forall k, k ∈ handle_key <$> hs -> ~ is_Some (owners !! k)) as Ho.
  { rewrite <- bind_singleton.
    apply (each_nil _ (fun h => id_ok (handle_ID h)) (fun h => [handle_key h]) (fun s k => is_Some (s !! k))).
    - intros j h s. rewrite handle_owner_nil, eq_None_not_Some. split.
      + intros [? ?]. split; [done|]. split; [apply NoDup_singleton|]. by intros k ->%list_elem_of_singleton.
      + intros (? & _ & Hk). split; [done|]. by apply Hk, list_elem_of_singleton.
    - intros j h s k Hx. rewrite handle_owner_state by done. rewrite lookup_insert_is_Some', (list_elem_of_singleton k (handle_key h)).
      naive_solver. }
  unfold validateDeviceHandles. fold hs. destruct (each (handle_step node path) 0 hs (∅, owners)) as [issues [names os]] eqn:E.
  cbn [fst snd] in *. rewrite handle_name_nil, Ho in Hn. split.
  - rewrite Hn. unfold handle_ok. rewrite Forall_and. tauto.
  - intros Hi k. pose proof Hi as [_ Ho']%Hn. apply Ho in Ho'. injection Hs as _ ->.
    rewrite (each_has _ (fun h => [handle_key h]) (fun s k => is_Some (s !! k))); [by rewrite bind_singleton| |done].
    intros j h s k' Hx. rewrite handle_owner_state by done. rewrite lookup_insert_is_Some', (list_elem_of_singleton k' (handle_key h)).
    naive_solver.
Qed.

(** ** The loop over the nodes *)

Definition node_id_issues (i : nat) (n : Node) : list Issue * bool :=
  validateID (index_path "nodes" i +:+ ".id") "node" (node_ID n) CodeNodeIDRequired CodeNodeIDInvalid.

Definition node_id_dup (i : nat) (n : Node) (prev : nat) : list Issue :=
  [NewIssue CodeNodeIDDuplicate (index_path "nodes" i +:+ ".id")
     (Sprintf "duplicate node ID %q (also nodes[%d])" [AStr (node_ID n); AInt (Z.of_nat prev)])].

(** What the loop does about hostnames. *)
Definition node_host_step (i : nat) (n : Node) (seen : gmap string nat) : list Issue * gmap string nat :=
  match device_of n with
  | Some dev => hostname_step (index_path "nodes" i) i (Hostname dev) seen
  | None => ([], seen)
  end.

(** What it does about the rest of a node. *)
Definition node_rest_step (d : Document) (nets : gmap string (ref Network)) (i : nat) (n : Node) (owners : gmap string (ref Node))
  : list Issue * gmap string (ref Node) :=
  let path := index_path "nodes" i in
  let '(issues, owners) :=
    match device_of n with
    | Some dev =>
        let '(issues, owners) := validateDeviceHandles (i, n) dev path owners in
        (issues ++ device_fields_issues d dev path, owners)
    | None => (fst (validateKind d nets i n path (∅, ∅)), owners)
    end in
  (node_fields_issues n path ++ issues, owners).

Lemma node_step_split d nets i n ids hosts owners :
  (fst (node_step d nets i n (ids, (hosts, owners))) = [] <->
   fst (node_id_step i n ids) = [] /\ fst (node_host_step i n hosts) = [] /\ fst (node_rest_step d nets i n owners) = []) /\
  snd (node_step d nets i n (ids, (hosts, owners))) =
    (snd (node_id_step i n ids), (snd (node_host_step i n hosts), snd (node_rest_step d nets i n owners))).
Proof.
  unfold node_step, node_host_step, node_rest_step, device_of. destruct (node_id_step i n ids) as [a ids'].
  destruct (decide (node_Kind n = NodeKindDevice)) as [Hk|Hk].
  - unfold validateKind. rewrite Hk. destruct (node_Device n) as [dev|].
    + unfold validateDevice. destruct (hostname_step _ i _ hosts) as [b hosts'].
      destruct (validateDeviceHandles _ _ _ _) as [c owners']. cbn [fst snd]. rewrite !app_nil. tauto.
    + cbn [fst snd]. rewrite !app_nil. tauto.
  - assert (exists issues, forall s, validateKind d nets i n (index_path "nodes" i) s = (issues, s)) as [issues Hs].
    { unfold validateKind. destruct (node_Kind n); try done; by eexists. }
    rewrite !Hs. cbn [fst snd]. rewrite !app_nil. tauto.
Qed.

Lemma node_host_nil ns :
  fst (each node_host_step 0 ns ∅) = [] <->
  Forall (fun n => forall dev, device_of n = Some dev -> name_ok (Hostname dev)) ns /\
  NoDup ((fun dev => foldKey (Hostname dev)) <$> devices ns).
Proof.
  assert ((fun dev => foldKey (Hostname dev)) <$> devices ns = omap (fun n => (fun dev => foldKey (Hostname dev)) <$> device_of n) ns) as ->.
  { unfold devices. induction ns as [|n ns IH]; [done|]. cbn. cbn in IH. destruct (device_of n); cbn; by rewrite IH. }
  apply opt_step_nil; intros i n s; unfold node_host_step; destruct (device_of n) as [dev|]; cbn [fmap option_fmap option_map].
  - unfold hostname_step. rewrite named_pair_nil, see_nil by done. split.
    + intros [? ?]. split; [by intros ? [= <-]|]. by intros ? [= <-].
    + intros [Ha Hb]. split; [by apply Ha|by apply Hb].
  - by split.
  - unfold hostname_step. rewrite named_pair_nil. intros [Ha Hb]. rewrite named_pair_snd by done. by apply see_state.
  - done.
Qed.

(** The kinds whose checks remember nothing. *)
Lemma other_kind_nil d nets n i path :
  ids_ok (net_ID <$> nets) -> device_of n = None ->
  fst (validateKind d (index_by net_ID nets) i n path (∅, ∅)) = [] <->
  match node_Kind n with
  | NodeKindSwitch => forall hub, node_Switch n = Some hub -> switch_ok nets hub
  | NodeKindGroup => forall group, node_Group n = Some group -> group_ok group
  | NodeKindShape => forall shape, node_Shape n = Some shape -> shape_ok shape
  | NodeKindIcon => forall icon, node_Icon n = Some icon -> icon_node_ok icon
  | NodeKindLine => forall line, node_Line n = Some line -> line_ok line
  | _ => True
  end.
Proof.
  intros Hids Hd. unfold validateKind. unfold device_of in Hd.
  assert (forall (A : Type) (o : option A) (P : A -> Prop) (f : A -> list Issue),
    (forall x, f x = [] <-> P x) -> match o with Some x => f x | None => [] end = [] <-> forall x, o = Some x -> P x) as Ho.
  { intros A o P f Hf. destruct o as [x|]; [|by split]. rewrite Hf. split; [by intros ? ? [= <-]|eauto]. }
  destruct (node_Kind n); cbn [fst]; try done.
  - rewrite decide_True in Hd by done. rewrite Hd. done.
  - apply Ho. intros. by apply switch_nil.
  - apply Ho. intros. apply group_nil.
  - apply Ho. intros. apply shape_nil.
  - apply Ho. intros. apply icon_node_nil.
  - apply Ho. intros. apply line_nil_iff.
Qed.

(** What is right about a node apart from its ID and hostname. *)
Definition node_rest_ok (d : Document) (nets : list Network) (n : Node) : Prop :=
  point_ok (node_Position n) /\ (forall size, node_Size n = Some size -> size_ok size) /\ payloads_match n /\
  match node_Kind n with
  | NodeKindDevice => forall dev, node_Device n = Some dev ->
      is_Some (dev_Spec dev) /\ Forall handle_ok (Interfaces dev) /\
      NoDup ((fun h => foldKey (handle_Name h)) <$> Interfaces dev) /\
      icon_key_ok (dev_IconKey dev) /\ icon_ok (dev_Icon dev) /\ icon_size_ok (dev_IconSize dev) /\
      color_ok (dev_OutlineColor dev) /\ color_ok (dev_FillColor dev) /\ layer_ok (dev_Layer dev) /\
      included_ok d (IncludedFrom dev)
  | NodeKindSwitch => forall hub, node_Switch n = Some hub -> switch_ok nets hub
  | NodeKindGroup => forall group, node_Group n = Some group -> group_ok group
  | NodeKindShape => forall shape, node_Shape n = Some shape -> shape_ok shape
  | NodeKindIcon => forall icon, node_Icon n = Some icon -> icon_node_ok icon
  | NodeKindLine => forall line, node_Line n = Some line -> line_ok line
  | _ => True
  end.

(** The keys of the handles of a node. *)
Definition node_handle_keys (n : Node) : list string :=
  match device_of n with Some dev => handle_key <$> Interfaces dev | None => [] end.

Lemma node_rest_step_nil d nets i n owners :
  ids_ok (net_ID <$> nets) ->
  fst (node_rest_step d (index_by net_ID nets) i n owners) = [] <->
  node_rest_ok d nets n /\ NoDup (node_handle_keys n) /\ forall k, k ∈ node_handle_keys n -> ~ is_Some (owners !! k).
Proof.
  intros Hids. unfold node_rest_step, node_rest_ok, node_handle_keys. destruct (device_of n) as [dev|] eqn:Hd.
  - assert (node_Kind n = NodeKindDevice /\ node_Device n = Some dev) as [Hk Hdev].
    { unfold device_of in Hd. case_decide; done. }
    destruct (device_handles (i, n) dev (index_path "nodes" i) owners) as [Hh _].
    destruct (validateDeviceHandles _ _ _ _) as [issues owners']. cbn [fst] in *.
    rewrite !app_nil, fields_nil, Hh, device_fields_nil, Hk. split.
    + intros ((? & ? & ? & Hsp) & (? & ? & ? & ?) & ?). split; [|done]. do 3 (split; [done|]).
      intros dev' Hdev'. assert (dev' = dev) as -> by congruence. specialize (Hsp dev eq_refl Hdev). tauto.
    + intros [(? & ? & ? & Hall) ?]. specialize (Hall dev Hdev). split; [|tauto]. do 3 (split; [tauto|]).
      intros dev' _ Hdev'. assert (dev' = dev) as -> by congruence. tauto.
  - cbn [fst]. rewrite app_nil, fields_nil, other_kind_nil by done.
    assert (NoDup (@nil string) /\ forall k, k ∈ @nil string -> ~ is_Some (owners !! k)) as Hnil.
    { split; [constructor|]. by intros k ?%elem_of_nil. }
    assert (node_Kind n = NodeKindDevice -> node_Device n = None) as Hno.
    { intros Hk. unfold device_of in Hd. by rewrite decide_True in Hd. }
    destruct (node_Kind n) eqn:Hk; try (split; [tauto|]; intros [? _]; split; [|tauto]; split_and!; try tauto; by intros ? [=]).
    rewrite Hno by done. split; [intros [(? & ? & ? & _) _]; split; [|done]; by do 3 (split; [done|])|].
    intros [(? & ? & ? & _) _]. split; [|done]. by do 3 (split; [done|]).
Qed.

Lemma node_rest_step_has d nets i n owners k :
  fst (node_rest_step d nets i n owners) = [] ->
  is_Some (snd (node_rest_step d nets i n owners) !! k) <-> is_Some (owners !! k) \/ k ∈ node_handle_keys n.
Proof.
  unfold node_rest_step, node_handle_keys. destruct (device_of n) as [dev|].
  - destruct (device_handles (i, n) dev (index_path "nodes" i) owners) as [_ Hs].
    destruct (validateDeviceHandles _ _ _ _) as [issues owners']. cbn [fst snd] in *.
    rewrite !app_nil. intros (_ & Hi & _). by apply Hs.
  - cbn [fst snd]. intros _. split; [by left|]. by intros [?|?%elem_of_nil].
Qed.

Lemma node_handle_keys_devices ns :
  (ns ≫= node_handle_keys) = devices ns ≫= fun dev => handle_key <$> Interfaces dev.
Proof.
  unfold devices. induction ns as [|n ns IH]; [done|]. cbn. cbn in IH. unfold node_handle_keys at 1.
  destruct (device_of n) as [dev|]; cbn; by rewrite IH.
Qed.

Lemma node_rest_nil d nets ns :
  ids_ok (net_ID <$> nets) ->
  fst (each (node_rest_step d (index_by net_ID nets)) 0 ns ∅) = [] <->
  Forall (node_rest_ok d nets) ns /\ NoDup (devices ns ≫= fun dev => handle_key <$> Interfaces dev).
Proof.
  intros Hids. rewrite <- node_handle_keys_devices.
  rewrite (each_nil _ (node_rest_ok d nets) node_handle_keys (fun s k => is_Some (s !! k))).
  - split; [tauto|]. intros [? ?]. split; [done|]. split; [done|]. intros k _. rewrite lookup_empty. by intros [].
  - intros. by apply node_rest_step_nil.
  - intros. by apply node_rest_step_has.
Qed.

Lemma node_ok_split d nets n :
  node_ok d nets n <-> (forall dev, device_of n = Some dev -> name_ok (Hostname dev)) /\ node_rest_ok d nets n.
Proof.
  unfold node_ok, payload_ok, node_rest_ok, payloads_match, device_of, device_ok. destruct (node_Kind n) eqn:Hk;
    try (rewrite decide_False by done; split; [|tauto]; intros ?; split; [by intros ? [=]|tauto]).
  rewrite decide_True by done. split.
  - intros (Hp & Hs & Hknown & Hpay & Hdev). split; [intros dev Hd; by apply Hdev|].
    split_and!; try done. intros dev Hd. specialize (Hdev dev Hd). tauto.
  - intros [Hname (Hp & Hs & [Hknown Hpay] & Hdev)]. split_and!; try done. intros dev Hd.
    specialize (Hdev dev Hd). specialize (Hname dev Hd). tauto.
Qed.

Lemma nodes_iff d nets :
  ids_ok (net_ID <$> nets) ->
  (fst (validateNodes d (index_by net_ID nets)) = [] <-> nodes_ok d nets (elems (Nodes d))) /\
  (fst (validateNodes d (index_by net_ID nets)) = [] ->
   snd (validateNodes d (index_by net_ID nets)) = index_by node_ID (elems (Nodes d))).
Proof.
  intros Hids. set (ns := elems (Nodes d)). set (nmap := index_by net_ID nets).
  set (h := fun i n (s : gmap string nat * gmap string (nat * Node)) =>
    let '(a, hosts) := node_host_step i n (fst s) in
    let '(b, owners) := node_rest_step d nmap i n (snd s) in (a ++ b, (hosts, owners))).
  assert (forall i n s, h i n s = (fst (node_host_step i n (fst s)) ++ fst (node_rest_step d nmap i n (snd s)),
    (snd (node_host_step i n (fst s)), snd (node_rest_step d nmap i n (snd s))))) as Hh.
  { intros i n s. unfold h. destruct (node_host_step i n (fst s)). by destruct (node_rest_step d nmap i n (snd s)). }
  destruct (each_pair (node_step d nmap) node_id_step h 0%nat ns (∅, ∅) (∅, ∅)) as [Hnil Hst].
  { intros i n ids [hosts owners]. rewrite Hh. cbn [fst snd]. rewrite app_nil. apply node_step_split. }
  { intros i n ids [hosts owners]. rewrite Hh. apply node_step_split. }
  destruct (each_pair h node_host_step (node_rest_step d nmap) 0%nat ns ∅ ∅) as [Hnil' _].
  { intros i n hosts owners. rewrite Hh. cbn [fst snd]. apply app_nil. }
  { intros i n hosts owners. by rewrite Hh. }
  rewrite Hnil', node_host_nil in Hnil. unfold nmap in Hnil. rewrite node_rest_nil in Hnil by done. fold nmap in Hnil.
  set (E := each (node_step d nmap) 0 ns ((∅, ∅), (∅, ∅)) : list Issue * node_state).
  change (validateNodes d nmap) with (let '(issues, (_, byID, _)) := E in (issues, byID)).
  change (each (node_step d nmap) 0 ns ((∅, ∅), (∅, ∅))) with E in Hnil, Hst.
  destruct E as [issues [[seen byID] rest]]. cbn [fst snd] in *.
  change node_id_step with (id_step node_ID node_id_issues node_id_dup) in *.
  assert (forall i x, fst (node_id_issues i x) = [] <-> id_ok (node_ID x)) as Hi
    by (intros; unfold node_id_issues; apply validateID_nil).
  assert (forall i x, fst (node_id_issues i x) = [] -> snd (node_id_issues i x) = true) as Hp
    by (intros i x; unfold node_id_issues; apply validateID_present).
  split.
  - rewrite Hnil, ids_nil by done. unfold nodes_ok. change (fun h => foldKey (handle_ID h)) with handle_key.
    assert (Forall (node_ok d nets) ns <-> Forall (fun n => forall dev, device_of n = Some dev -> name_ok (Hostname dev)) ns /\
      Forall (node_rest_ok d nets) ns) as -> by (rewrite <- Forall_and; apply Forall_iff; intros; apply node_ok_split).
    split; [intros [[? _] ?]; tauto|]. intros ?. split; [|tauto]. split; [tauto|]. intros. apply lookup_empty.
  - intros [Hn _]%Hnil. injection Hst as Hst _. apply (f_equal snd) in Hst. cbn [snd] in Hst. rewrite Hst.
    by apply ids_index.
Qed.

End Spec.
