(* ===== verification/EdgeSpec.v ===== *)
(** * The connections of a valid document

    [validateEdges] reports nothing exactly when every edge joins its own
    handle of a device to a switch of its network ([edges_iff]). *)

From Stdlib Require Import ZArith Lia Ascii String Strings.Byte.
From stdpp Require Import base option list gmap strings sorting.
From S2P Require Import Prelude Text Decimal Subnet Codes Document Checks Matchers Layers Icons Validate Parents ValidateSpec.

Open Scope Z_scope.
Open Scope go_scope.

Section Edges.
Context `{Unicode, Libraries, PNG}.

(** ** Edges *)

Lemma index_handles_lookup dev id :
  index_handles dev !! id = List.find (fun h => String.eqb (handle_ID h) id) (Interfaces dev).
Proof.
  unfold index_handles. generalize (Interfaces dev) as hs. intros hs.
  assert (forall m : gmap string InterfaceHandle,
    foldl (fun byID handle => match byID !! handle_ID handle with Some _ => byID | None => <[ handle_ID handle := handle ]> byID end) m hs !! id =
    match m !! id with Some h => Some h | None => List.find (fun h => String.eqb (handle_ID h) id) hs end) as Hm.
  { induction hs as [|h hs IH]; intros m; [by simpl; destruct (m !! id)|]. cbn [foldl List.find]. rewrite IH.
    destruct (m !! handle_ID h) as [h'|] eqn:E.
    - destruct (m !! id) eqn:Ei; [done|]. destruct (String.eqb_spec (handle_ID h) id) as [He|]; [subst id; congruence|done].
    - destruct (String.eqb_spec (handle_ID h) id) as [<-|Hne].
      + by rewrite lookup_insert_eq, E.
      + by rewrite lookup_insert_ne. }
  rewrite Hm. by rewrite lookup_empty.
Qed.

(** The index holds the handles of the nodes it has seen. *)
Definition cache_ok (ns : list Node) (h : handleIndex) : Prop :=
  forall i byID, h !! i = Some byID -> exists n dev, ns !! i = Some n /\ node_Device n = Some dev /\ byID = index_handles dev.

Lemma cache_ok_empty ns : cache_ok ns ∅.
Proof. intros i byID Hx. by apply lookup_empty_Some in Hx. Qed.

Lemma handle_find_ok ns h i n id :
  cache_ok ns h -> ns !! i = Some n ->
  fst (handle_find h (i, n) id) = find_handle (node_Device n) id /\ cache_ok ns (snd (handle_find h (i, n) id)).
Proof.
  intros Hc Hn. unfold handle_find. cbn [fst snd]. destruct (node_Device n) as [dev|] eqn:Hd; [|done].
  cbn [find_handle]. rewrite <- index_handles_lookup. destruct (h !! i) as [byID|] eqn:Hi; cbn [fst snd].
  - destruct (Hc i byID Hi) as (n' & dev' & Hn' & Hd' & ->). rewrite Hn in Hn'. injection Hn' as <-.
    rewrite Hd in Hd'. by injection Hd' as <-.
  - split; [done|]. intros j byID [[<- <-]|[Hne Hj]]%lookup_insert_Some; [by exists n, dev|by apply Hc].
Qed.

Lemma find_handle_Some dev id h : find_handle (Some dev) id = Some h -> h ∈ Interfaces dev /\ handle_ID h = id.
Proof. cbn. intros [Hin He%String.eqb_eq]%List.find_some. by apply list_elem_of_In in Hin. Qed.

Lemma find_handle_in dev h : h ∈ Interfaces dev -> is_Some (find_handle (Some dev) (handle_ID h)).
Proof.
  intros Hin%list_elem_of_In. cbn. destruct (List.find _ _) as [h'|] eqn:E; [by eexists|].
  eapply List.find_none in E; [|exact Hin]. by rewrite String.eqb_refl in E.
Qed.

(** Nodes whose IDs are theirs alone, with the payloads of their kinds. *)
Section Links.
Context (d : Document) (nets : list Network) (ns : list Node).
Context (Hnets : ids_ok (net_ID <$> nets)) (Hns : nodes_ok d nets ns).

Local Notation nodes_map := (index_by node_ID ns).
Local Notation nets_map := (index_by net_ID nets).

Lemma nodes_unique n n' : n ∈ ns -> n' ∈ ns -> node_ID n = node_ID n' -> n = n'.
Proof.
  intros [i Hi]%list_elem_of_lookup [j Hj]%list_elem_of_lookup He. pose proof (ids_ok_NoDup _ (proj1 Hns)) as Hd.
  assert (i = j) as ->; [|congruence].
  eapply NoDup_lookup; [exact Hd| |]; rewrite list_lookup_fmap; [by rewrite Hi|]. rewrite Hj. cbn. by rewrite He.
Qed.

Lemma node_payload_ok n : n ∈ ns -> payload_ok d nets n.
Proof. intros Hn. destruct Hns as (_ & Hf & _). rewrite Forall_forall in Hf. by apply Hf. Qed.

Lemma switch_has_hub n : n ∈ ns -> node_Kind n = NodeKindSwitch -> exists hub, node_Switch n = Some hub /\ switch_ok nets hub.
Proof.
  intros Hn Hk. destruct (node_payload_ok n Hn) as (_ & Hp & Hs). rewrite Hk in *.
  specialize (Hp NodeKindSwitch (bool_decide (is_Some (node_Switch n))) ltac:(unfold payloads; rewrite !elem_of_cons; auto)).
  rewrite (bool_decide_true (NodeKindSwitch = NodeKindSwitch)) in Hp by done. apply bool_decide_eq_true in Hp as [hub Hh].
  exists hub. split; [done|]. by apply Hs.
Qed.

Lemma map_lookup i n id : nodes_map !! id = Some (i, n) -> ns !! i = Some n /\ n ∈ ns /\ node_ID n = id.
Proof.
  intros [Hn He]%index_by_Some. split; [done|]. split; [by eapply list_elem_of_lookup_2|done].
Qed.

Lemma map_has n : n ∈ ns -> exists i, ns !! i = Some n /\ nodes_map !! node_ID n = Some (i, n).
Proof.
  intros [i Hi]%list_elem_of_lookup. exists i. split; [done|]. apply index_by_lookup; [|done].
  apply ids_ok_NoDup, Hns.
Qed.

Lemma edge_network_nil e path sn hub :
  switch_ok nets hub -> validateEdgeNetwork nets_map e path sn hub = [] <-> edge_NetworkID e = sw_NetworkID hub.
Proof.
  intros [Hin _]. unfold validateEdgeNetwork. destruct (String.eqb_spec (edge_NetworkID e) "") as [He|He].
  - split; [done|]. rewrite He. intros Heq. rewrite <- Heq in Hin. by destruct (ids_ok_nonempty _ Hnets).
  - destruct (nets_map !! edge_NetworkID e) as [r|] eqn:En.
    + destruct (String.eqb_spec (edge_NetworkID e) (sw_NetworkID hub)); by cbn [negb].
    + split; [done|]. intros Heq. rewrite <- Heq, <- index_by_is_Some, En in Hin. by destruct Hin.
Qed.

(** The handle an edge joins is determined. *)
Lemma joins_unique e h h' : joins ns e h -> joins ns e h' -> h = h'.
Proof.
  intros (dn & dev & x & sn & hub & Hd & Hk & _ & _ & _ & _ & Hs & Hks & _ & _ & He)
    (dn' & dev' & x' & sn' & hub' & Hd' & Hk' & _ & _ & _ & _ & Hs' & Hks' & _ & _ & He').
  destruct He as [(E1 & E2 & E3)|(E1 & E2 & E3)], He' as [(F1 & F2 & F3)|(F1 & F2 & F3)]; try congruence.
  - assert (dn = sn') as -> by (apply nodes_unique; congruence). congruence.
  - assert (dn = sn') as -> by (apply nodes_unique; congruence). congruence.
Qed.

(** The ends of an edge, whichever way round. *)
Definition oriented (e : Edge) (source target device sw : nat * Node) (handle : string) : Prop :=
  (device = source /\ sw = target /\ handle = SourceHandleID e) \/
  (device = target /\ sw = source /\ handle = TargetHandleID e).

Lemma endpoints_iff e source target device handle sw :
  edgeEndpoints source (SourceHandleID e) target (TargetHandleID e) = Some (device, handle, sw) <->
  oriented e source target device sw handle /\
  node_Kind (snd device) = NodeKindDevice /\ is_Some (node_Device (snd device)) /\ handle <> "" /\
  node_Kind (snd sw) = NodeKindSwitch.
Proof.
  unfold edgeEndpoints, oriented. split.
  - destruct (node_Kind (snd source)) eqn:K1, (node_Kind (snd target)) eqn:K2; try done;
      (destruct (_ || _) eqn:Hb; [done|]); intros [= <- <- <-];
      apply orb_false_iff in Hb as [Hd%negb_false_iff%bool_decide_eq_true Hh%String.eqb_neq]; tauto.
  - intros ([(-> & -> & ->)|(-> & -> & ->)] & Hk & Hd & Hh & Hs); rewrite Hk, Hs;
      rewrite bool_decide_true by done; apply String.eqb_neq in Hh; by rewrite Hh.
Qed.

Lemma joins_ends e handle :
  joins ns e handle <->
  exists i1 n1 i2 n2 device sw h hub,
    nodes_map !! SourceNodeID e = Some (i1, n1) /\ nodes_map !! TargetNodeID e = Some (i2, n2) /\
    oriented e (i1, n1) (i2, n2) device sw handle /\
    node_Kind (snd device) = NodeKindDevice /\ find_handle (node_Device (snd device)) handle = Some h /\ handle <> "" /\
    node_Kind (snd sw) = NodeKindSwitch /\ node_Switch (snd sw) = Some hub /\ edge_NetworkID e = sw_NetworkID hub.
Proof.
  split.
  - intros (dn & dev & h & sn & hub & Hd & Hk & Hdev & Hin & <- & Hh & Hs & Hks & Hhub & Hnet & He).
    destruct (find_handle_in dev h Hin) as [h' Hf].
    destruct (map_has dn Hd) as (i & _ & Hi). destruct (map_has sn Hs) as (j & _ & Hj).
    destruct He as [(E1 & E2 & E3)|(E1 & E2 & E3)]; rewrite E1, E3.
    + exists i, dn, j, sn, (i, dn), (j, sn), h', hub. cbn [snd]. rewrite Hdev. split_and!; try done. by left.
    + exists j, sn, i, dn, (i, dn), (j, sn), h', hub. cbn [snd]. rewrite Hdev. split_and!; try done. by right.
  - intros (i1 & n1 & i2 & n2 & device & sw & h & hub & M1 & M2 & Ho & Hk & Hf & Hh & Hs & Hhub & Hnet).
    apply map_lookup in M1 as (_ & N1 & E1). apply map_lookup in M2 as (_ & N2 & E2).
    destruct (node_Device (snd device)) as [dev|] eqn:Hdev; [|done].
    apply find_handle_Some in Hf as [Hin Hid].
    destruct Ho as [(-> & -> & Hsrc)|(-> & -> & Htgt)]; cbn [snd] in *.
    + exists n1, dev, h, n2, hub. split_and!; try done. left. by rewrite E1, E2.
    + exists n2, dev, h, n1, hub. split_and!; try done. right. by rewrite E1, E2.
Qed.

(** The nodes of the two ends are different nodes. *)
Lemma oriented_distinct e i1 n1 i2 n2 device sw handle :
  n1 ∈ ns -> n2 ∈ ns -> oriented e (i1, n1) (i2, n2) device sw handle ->
  node_Kind (snd device) = NodeKindDevice -> node_Kind (snd sw) = NodeKindSwitch ->
  String.eqb (node_ID n1) (node_ID n2) = false.
Proof.
  intros H1' H2' Ho Hk Hs. apply String.eqb_neq. intros He%nodes_unique; [|done..]. subst n2.
  destruct Ho as [(-> & -> & _)|(-> & -> & _)]; cbn [snd] in *; congruence.
Qed.

(** One edge: it adds nothing exactly when it joins a handle that is free. *)
Lemma link_step i e connected cache :
  cache_ok ns cache ->
  (fst (edge_ends_step nodes_map nets_map i e (connected, cache)) = [] <->
   exists handle, joins ns e handle /\ connected !! handle = None) /\
  (forall handle, joins ns e handle -> fst (edge_ends_step nodes_map nets_map i e (connected, cache)) = [] ->
   fst (snd (edge_ends_step nodes_map nets_map i e (connected, cache))) = <[ handle := i ]> connected) /\
  cache_ok ns (snd (snd (edge_ends_step nodes_map nets_map i e (connected, cache)))).
Proof.
  intros Hc. unfold edge_ends_step.
  assert (forall x, nodes_map !! SourceNodeID e = None \/ nodes_map !! TargetNodeID e = None -> ~ joins ns e x) as Hno.
  { intros x Hx (? & ? & ? & ? & ? & ? & ? & ? & M1 & M2 & _)%joins_ends. destruct Hx; congruence. }
  destruct (nodes_map !! SourceNodeID e) as [[i1 n1]|] eqn:M1.
  2:{ cbn [fst snd]. split; [|split; [|done]]; [|by intros ? ?%Hno; auto].
      split; [by destruct (nodes_map !! TargetNodeID e)|]. intros (x & ?%Hno & _); tauto. }
  destruct (nodes_map !! TargetNodeID e) as [[i2 n2]|] eqn:M2.
  2:{ cbn [fst snd app]. split; [|split; [|done]]; [|by intros ? ?%Hno; auto].
      split; [done|]. intros (x & ?%Hno & _); tauto. }
  clear Hno. apply map_lookup in M1 as L1, M2 as L2. destruct L1 as (I1 & N1 & E1), L2 as (I2 & N2 & E2).
  cbn [app]. unfold edge_link_step. cbn [snd].
  assert (forall handle, joins ns e handle -> exists device sw h hub,
    oriented e (i1, n1) (i2, n2) device sw handle /\ String.eqb (node_ID n1) (node_ID n2) = false /\
    edgeEndpoints (i1, n1) (SourceHandleID e) (i2, n2) (TargetHandleID e) = Some (device, handle, sw) /\
    find_handle (node_Device (snd device)) handle = Some h /\ node_Switch (snd sw) = Some hub /\
    edge_NetworkID e = sw_NetworkID hub) as Hj.
  { intros handle (j1 & m1 & j2 & m2 & device & sw & h & hub & M1' & M2' & Ho & Hk & Hf & Hh & Hs & Hhub & Hnet)%joins_ends.
    rewrite M1 in M1'. rewrite M2 in M2'. injection M1' as <- <-. injection M2' as <- <-.
    exists device, sw, h, hub. split; [done|]. split; [by eapply oriented_distinct|]. split; [|done].
    apply endpoints_iff. split_and!; try done. by destruct (node_Device (snd device)). }
  destruct (String.eqb (node_ID n1) (node_ID n2)) eqn:Hid.
  { cbn [fst snd]. split; [split; [done|]|split; [|done]]; [intros (x & Hx & _)|intros x Hx _];
      by destruct (Hj x Hx) as (? & ? & ? & ? & _ & [=] & _). }
  destruct (edgeEndpoints _ _ _ _) as [[[device handle] sw]|] eqn:He.
  2:{ cbn [fst snd]. split; [split; [done|]|split; [|done]]; [intros (x & Hx & _)|intros x Hx _];
      by destruct (Hj x Hx) as (? & ? & ? & ? & _ & _ & [=] & _). }
  pose proof He as (Ho & Hk & Hdev & Hh & Hs)%endpoints_iff.
  assert (ns !! fst device = Some (snd device) /\ snd sw ∈ ns) as [Hdn Hsn].
  { by destruct Ho as [(-> & -> & _)|(-> & -> & _)]. }
  destruct (handle_find_ok ns cache (fst device) (snd device) handle Hc Hdn) as [Hfind Hc'].
  rewrite <- surjective_pairing in Hfind, Hc'. destruct (handle_find cache device handle) as [found cache'].
  cbn [fst snd] in Hfind, Hc'. subst found.
  destruct (find_handle (node_Device (snd device)) handle) as [h|] eqn:Hf.
  2:{ cbn [fst snd]. split; [split; [done|]|split; [|done]]; [intros (x & Hx & _)|intros x Hx _];
      destruct (Hj x Hx) as (? & ? & ? & ? & _ & _ & [= <- <- <-] & Hf' & _); congruence. }
  destruct (switch_has_hub _ Hsn Hs) as (hub & Hhub & Hok). rewrite Hhub.
  set (dup := fun prev : nat => [NewIssue _ _ _]).
  pose proof (see_nil handle i dup connected ltac:(done)) as Hsee. pose proof (see_state handle i dup connected ltac:(done)) as Hst.
  destruct (see handle i dup connected) as [a connected']. cbn [fst snd] in *.
  rewrite app_nil, Hsee, edge_network_nil by done. split; [split|split; [|done]].
  - intros [Hfree Hnet]. exists handle. split; [|done]. apply joins_ends.
    exists i1, n1, i2, n2, device, sw, h, hub. done.
  - intros (x & Hx & Hfree). destruct (Hj x Hx) as (? & ? & ? & hub' & _ & _ & [= <- <- <-] & _ & Hhub' & Hnet).
    split; [done|]. congruence.
  - intros x Hx [Ha _]%app_nil. destruct (Hj x Hx) as (? & ? & ? & ? & _ & _ & [= <- <- <-] & _). by apply Hst.
Qed.

Lemma links_nil i es connected cache :
  cache_ok ns cache ->
  fst (each (edge_ends_step nodes_map nets_map) i es (connected, cache)) = [] <->
  exists handles, Forall2 (joins ns) es handles /\ NoDup handles /\ forall h, h ∈ handles -> connected !! h = None.
Proof.
  revert i connected cache. induction es as [|e es IH]; intros i connected cache Hc.
  - split; [|done]. intros _. exists []. split; [constructor|]. split; [constructor|]. by intros h ?%elem_of_nil.
  - rewrite each_cons_nil. destruct (link_step i e connected cache Hc) as (Hn & Hs & Hc'). split.
    + intros [He Hes]. pose proof He as (h & Hj & Hfree)%Hn. specialize (Hs h Hj He).
      destruct (snd (edge_ends_step _ _ i e _)) as [connected' cache'] eqn:E. cbn [fst snd] in *. subst connected'.
      apply IH in Hes as (hs & Hf & Hd & Hfr); [|done]. exists (h :: hs). split; [by constructor|].
      split; [constructor; [|done]; intros Hin; specialize (Hfr h Hin); by rewrite lookup_insert_eq in Hfr|].
      intros h' [->|Hin]%elem_of_cons; [done|]. specialize (Hfr h' Hin).
      by apply lookup_insert_None in Hfr as [? _].
    + intros (hs & Hf & Hd & Hfr). inversion Hf as [|? h ? hs' Hj Hf' E1 E2]; subst.
      apply NoDup_cons in Hd as [Hnin Hd].
      assert (fst (edge_ends_step nodes_map nets_map i e (connected, cache)) = []) as He.
      { apply Hn. exists h. split; [done|]. apply Hfr, elem_of_cons. by left. }
      split; [done|]. specialize (Hs h Hj He).
      destruct (snd (edge_ends_step _ _ i e _)) as [connected' cache'] eqn:E. cbn [fst snd] in *. subst connected'.
      apply IH; [done|]. exists hs'. split; [done|]. split; [done|]. intros h' Hin.
      apply lookup_insert_None. split; [apply Hfr, elem_of_cons; by right|]. intros <-. done.
Qed.

End Links.

Lemma route_nil path route : validateRoute path route = [] <-> route_ok route.
Proof.
  unfold validateRoute, route_ok. destruct route as [points|]; [|by split].
  assert (minRoutePoints <= zlen points /\ Forall point_ok points <->
    forall ps, Some points = Some ps -> minRoutePoints <= zlen ps /\ Forall point_ok ps) as <-.
  { split; [by intros ? ? [= <-]|auto]. }
  rewrite <- (finite_points_iff points). destruct (zlen points <? minRoutePoints) eqn:Hl.
  - apply Z.ltb_lt in Hl. split; [done|]. intros [? _]. lia.
  - apply Z.ltb_ge in Hl. rewrite if_else_nil. tauto.
Qed.

(** An ID that is checked and then seen by its folded form alone. *)
Lemma plain_id_step_nil (a : list Issue * bool) (id : string) (i : nat) (dup : nat -> list Issue) (seen : gmap string nat) :
  (fst a = [] <-> id_ok id) -> (fst a = [] -> snd a = true) -> (forall prev, dup prev <> []) ->
  let r := let '(issues, present) := a in
           let '(b, seen) := if present then see (foldKey id) i dup seen else ([], seen) in (issues ++ b, seen) in
  (fst r = [] <-> id_ok id /\ seen !! foldKey id = None) /\ (fst r = [] -> snd r = <[ foldKey id := i ]> seen).
Proof.
  intros Ha Hp Hd. destruct a as [issues present]. cbn [fst snd] in *.
  pose proof (see_nil (foldKey id) i dup seen Hd) as Hn. pose proof (see_state (foldKey id) i dup seen Hd) as Hs.
  destruct present.
  - destruct (see _ _ _ _) as [b seen']. cbn [fst snd] in *. rewrite app_nil, Ha, Hn. split; [done|]. intros [_ ?]. by apply Hs, Hn.
  - cbn [fst snd]. rewrite app_nil, Ha. split; [split; intros [Hi%Ha ?]; by apply Hp in Hi|]. intros [Hi%Ha _]. by apply Hp in Hi.
Qed.

Lemma edges_iff d nets ns :
  ids_ok (net_ID <$> nets) -> nodes_ok d nets ns ->
  validateEdges d (index_by node_ID ns) (index_by net_ID nets) = [] <-> edges_ok ns (elems (Edges d)).
Proof.
  intros Hnets Hns. unfold validateEdges, edges_ok. set (es := elems (Edges d)).
  set (g := fun i e (seen : gmap string nat) =>
    let '(a, seen) := edge_id_step i e seen in
    (a ++ validateRoute (index_path "edges" i +:+ ".route") (Route e) ++
     validateLineStyle (edge_LineStyle e) (index_path "edges" i +:+ ".lineStyle") CodeEdgeLineStyleUnknown, seen)).
  destruct (each_pair (edge_step (index_by node_ID ns) (index_by net_ID nets)) g
    (edge_ends_step (index_by node_ID ns) (index_by net_ID nets)) 0%nat es ∅ (∅, ∅)) as [-> _].
  { intros i e seen links. unfold edge_step, g. destruct (edge_id_step i e seen) as [a seen'].
    destruct (edge_ends_step _ _ i e links) as [b links']. cbn [fst]. rewrite !app_nil. tauto. }
  { intros i e seen links. unfold edge_step, g. destruct (edge_id_step i e seen) as [a seen'].
    by destruct (edge_ends_step _ _ i e links) as [b links']. }
  rewrite (links_nil d nets ns Hnets Hns) by apply cache_ok_empty.
  rewrite (key_step_nil (fun e => id_ok (edge_ID e) /\ route_ok (Route e) /\ line_style_ok (edge_LineStyle e))
             (fun e => foldKey (edge_ID e)) g).
  - rewrite Forall_and. unfold ids_ok. rewrite Forall_fmap, <- list_fmap_compose.
    assert ((exists handles, Forall2 (joins ns) es handles /\ NoDup handles /\
              forall h, h ∈ handles -> (∅ : gmap string nat) !! h = None) <->
            exists handles, Forall2 (joins ns) es handles /\ NoDup handles) as ->.
    { split; [intros (hs & ? & ? & _); by exists hs|]. intros (hs & ? & ?). exists hs. split_and!; try done; intros; apply lookup_empty. }
    unfold compose. tauto.
  - intros i e s. unfold g.
    destruct (plain_id_step_nil (validateID (index_path "edges" i +:+ ".id") "connection" (edge_ID e) CodeEdgeIDRequired CodeEdgeIDInvalid)
      (edge_ID e) i (fun prev => [NewIssue CodeEdgeIDDuplicate (index_path "edges" i +:+ ".id")
         (Sprintf "duplicate connection ID %q (also edges[%d])" [AStr (edge_ID e); AInt (Z.of_nat prev)])]) s
      (validateID_nil _ _ _ _ _) (validateID_present _ _ _ _ _) ltac:(done)) as [Hn _].
    change (fst (edge_id_step i e s) = [] <-> id_ok (edge_ID e) /\ s !! foldKey (edge_ID e) = None) in Hn.
    destruct (edge_id_step i e s) as [a s']. cbn [fst] in *. rewrite !app_nil, Hn, route_nil, validateLineStyle_nil. tauto.
  - intros i e s. unfold g.
    destruct (plain_id_step_nil (validateID (index_path "edges" i +:+ ".id") "connection" (edge_ID e) CodeEdgeIDRequired CodeEdgeIDInvalid)
      (edge_ID e) i (fun prev => [NewIssue CodeEdgeIDDuplicate (index_path "edges" i +:+ ".id")
         (Sprintf "duplicate connection ID %q (also edges[%d])" [AStr (edge_ID e); AInt (Z.of_nat prev)])]) s
      (validateID_nil _ _ _ _ _) (validateID_present _ _ _ _ _) ltac:(done)) as [_ Hs].
    change (fst (edge_id_step i e s) = [] -> snd (edge_id_step i e s) = <[ foldKey (edge_ID e) := i ]> s) in Hs.
    destruct (edge_id_step i e s) as [a s']. cbn [fst snd] in *. intros [Ha _]%app_nil. by apply Hs.
Qed.

End Edges.
