(* ===== verification/DocumentSpec.v ===== *)
(** * The whole document

    The parts of [validate.go] that check the header, the scenarios, the
    source, the layers and the templates, and [Validate] itself: it reports
    nothing exactly for the documents of [document_ok]. *)

From Stdlib Require Import ZArith Lia Ascii String Strings.Byte.
From stdpp Require Import base option list gmap strings sorting.
From S2P Require Import Prelude Text Decimal Subnet Codes Document Checks Matchers Layers Icons Validate Parents ValidateSpec EdgeSpec.

Open Scope Z_scope.
Open Scope go_scope.

Section Whole.
Context `{Unicode, Libraries, PNG}.

(** ** The header, the scenarios, the source, the layers, the templates *)

Lemma indexed_nil {A} (f : string -> A -> list Issue) (P : A -> Prop) path l :
  (forall at_ x, f at_ x = [] <-> P x) -> indexed f path l = [] <-> Forall P l.
Proof.
  intros Hf. unfold indexed. rewrite <- (map_id (imap _ l)). rewrite concat_nil, Forall_lookup. split.
  - intros Ha. apply Forall_lookup. intros i x Hx. apply (Hf (index_path path i)). apply (Ha i).
    rewrite list_lookup_imap, Hx. done.
  - intros Ha i r Hr. rewrite list_lookup_imap in Hr. destruct (l !! i) as [x|] eqn:Hx; [|done]. injection Hr as <-.
    apply Hf. rewrite Forall_lookup in Ha. by apply (Ha i).
Qed.

Lemma note_nil path note : note_issues path note = [] <-> note_ok note.
Proof.
  unfold note_issues, note_ok, contains_func. rewrite <- existsb_Forall, <- Z.ltb_ge.
  destruct (blank note), (MaxDiagramNoteBytes <? slen note), (existsb isNoteControl (runes note)); intuition congruence.
Qed.

Lemma user_nil path user : validateUser path user = [] <-> text_line_ok MaxUserBytes user.
Proof. apply line_nil. Qed.

Lemma time_nil path t : validateTime path t = [] <-> time_ok t.
Proof.
  unfold validateTime, time_ok. rewrite if_nil, andb_false_iff, !negb_false_iff, String.eqb_eq. done.
Qed.

Lemma metadata_nil meta : validateMetadata meta = [] <-> metadata_ok meta.
Proof.
  unfold validateMetadata, metadata_ok, validateNotes.
  rewrite !app_nil, validateID_nil, line_nil, !user_nil, !time_nil, if_nil, Z.ltb_ge, (indexed_nil _ note_ok) by apply note_nil.
  tauto.
Qed.

Lemma missing_nil order d :
  order ≡ₚ ["nodes"; "networks"; "edges"] ->
  concat (map (fun name => if list_missing d name then
    [NewIssue CodeDocumentListMissing name (Sprintf "%s must be an array" [AStr name])] else []) order) = [] <->
  is_Some (Nodes d) /\ is_Some (Networks d) /\ is_Some (Edges d).
Proof.
  intros Hp. rewrite concat_nil, Hp, !Forall_cons. rewrite !if_nil. unfold list_missing. simpl.
  destruct (Nodes d), (Networks d), (Edges d); rewrite ?is_Some_alt; split; try done; naive_solver.
Qed.

Lemma header_nil order d :
  order ≡ₚ ["nodes"; "networks"; "edges"] -> validateHeader order d = [] <-> header_ok d.
Proof.
  intros Hp. unfold validateHeader, header_ok, whole_in. cbn zeta.
  rewrite !app_nil, missing_nil by done. rewrite metadata_nil, validateIconSize_nil, !if_nil.
  rewrite !orb_false_iff, !negb_false_iff, String.eqb_eq, Z.eqb_eq, andb_false_iff.
  split; intros; destruct_and?; split_and?; try done; [|by right]. by destruct_or?; [congruence|].
Qed.

Lemma scenarios_nil d : validateScenarios d = [] <-> scenarios_ok (Scenarios d).
Proof.
  unfold validateScenarios, scenarios_ok. rewrite app_nil, if_nil, Z.ltb_ge. apply and_iff_compat_l.
  apply key_step_nil; intros i name s; unfold scenario_step, scenario_ok;
    rewrite <- ?(String.eqb_neq name ""), <- ?Z.ltb_ge;
    destruct (String.eqb name ""), (MaxScenarioNameBytes <? slen name), (configName name); cbn [negb];
    try (by apply see_state); rewrite ?see_nil by done; cbn [fst]; intuition congruence.
Qed.

Lemma include_nil at_ name : include_issues at_ name = [] <-> name_ok name.
Proof. unfold include_issues. rewrite named_nil. tauto. Qed.

Lemma annotation_key_none key :
  annotationKeyProblem key = None <-> blank key = false /\ text_line_ok MaxNameBytes key.
Proof.
  unfold annotationKeyProblem. rewrite text_line_iff.
  destruct (blank key), (MaxNameBytes <? slen key), (contains_func key isControl); intuition congruence.
Qed.

Lemma annotations_nil annotations : validateAnnotations annotations = [] <-> annotations_ok annotations.
Proof.
  unfold validateAnnotations, annotations_ok. cbn zeta. rewrite !app_nil, !if_nil, !Z.ltb_ge, concat_nil, Forall_forall.
  apply and_iff_compat_l, and_iff_compat_l. split.
  - intros Hf k v Hk. specialize (Hf k (proj2 (elem_of_key_list _ _) ltac:(by eexists))).
    apply annotation_key_none. by destruct (annotationKeyProblem k) as [[code problem]|].
  - intros Hf k [v Hk]%elem_of_key_list. specialize (Hf k v Hk). cbn in Hf. apply annotation_key_none in Hf. by rewrite Hf.
Qed.

Lemma source_nil d : validateSource d = [] <-> forall source, doc_Source d = Some source -> source_ok source.
Proof.
  unfold validateSource. destruct (doc_Source d) as [source|]; [|by split].
  assert (source_ok source <-> forall s, Some source = Some s -> source_ok s) as <-.
  { split; [by intros ? ? [= <-]|auto]. }
  unfold source_ok, validateIncludes.
  rewrite !app_nil, !(indexed_nil _ name_ok) by apply include_nil. rewrite annotations_nil, if_nil, andb_false_iff, !negb_false_iff, String.eqb_eq.
  apply and_iff_compat_r. destruct (src_Kind source) as [| | |k]; split; try done. intros Hk. by destruct (Hk k).
Qed.

Lemma layers_nil d :
  validateLayers d = [] <-> layer_list_ok (Layers d) /\ forall o, doc_LayerSet d = Some o -> document_layer_set_ok o.
Proof.
  unfold validateLayers. rewrite app_nil, layer_list_nil. apply and_iff_compat_l.
  destruct (doc_LayerSet d) as [o|]; [|by split]. rewrite documentLayerSetIssues_nil.
  split; [by intros ? ? [= <-]|auto].
Qed.

Lemma templates_nil d : validateTemplates d = [] <-> templates_ok (Templates d).
Proof.
  unfold validateTemplates, templates_ok. rewrite app_nil, if_nil, Z.ltb_ge. apply and_iff_compat_l.
  set (ts := Templates d). set (dup := fun i (t : Template) (prev : nat) =>
    [NewIssue CodeTemplateIDDuplicate (index_path "templates" i +:+ ".id")
       (Sprintf "duplicate template ID %q (also %s[%d])" [AStr (tpl_ID t); AStr "templates"; AInt (Z.of_nat prev)])]).
  assert (forall i t s,
    (fst (template_step i t s) = [] <-> (id_ok (tpl_ID t) /\ template_ok t) /\ s !! foldKey (tpl_ID t) = None) /\
    (fst (template_step i t s) = [] -> snd (template_step i t s) = <[ foldKey (tpl_ID t) := i ]> s)) as Hstep.
  { intros i t s. unfold template_step. cbn zeta.
    destruct (plain_id_step_nil (validateID (index_path "templates" i +:+ ".id") "template" (tpl_ID t) CodeTemplateIDRequired CodeTemplateIDInvalid)
      (tpl_ID t) i (dup i t) s (validateID_nil _ _ _ _ _) (validateID_present _ _ _ _ _) ltac:(done)) as [Hn Hs].
    destruct (validateID _ _ _ _ _) as [a present]. fold (dup i t).
    destruct (if present then _ else _) as [b s']. cbn [fst snd] in *. rewrite app_assoc, app_nil, template_nil, Hn.
    split; [tauto|]. intros [? _]. by apply Hs, Hn. }
  rewrite (key_step_nil (fun t => id_ok (tpl_ID t) /\ template_ok t) (fun t => foldKey (tpl_ID t)) template_step)
    by (intros; by apply Hstep).
  rewrite Forall_and. unfold ids_ok. rewrite Forall_fmap, <- list_fmap_compose. unfold compose. tauto.
Qed.

(** ** The whole document *)

Lemma all_issues_nil order d :
  order ≡ₚ ["nodes"; "networks"; "edges"] -> all_issues order d = [] <-> document_ok d.
Proof.
  intros Hp. unfold all_issues, document_ok. cbn zeta. destruct (networks_iff d) as [Hnets Hmap].
  destruct (validateNetworks d) as [net_issues nmap]. cbn [fst snd] in *.
  assert (forall nmap', nmap' = index_by net_ID (elems (Networks d)) -> net_issues = [] ->
    networks_ok (elems (Networks d)) ->
    (let '(node_issues, nodesByID) := validateNodes d nmap' in
     validateHeader order d ++ net_issues ++ node_issues ++ validateParents d nodesByID ++ validateEdges d nodesByID nmap' ++
     validateScenarios d ++ validateLayers d ++ validateSource d ++ validateTemplates d ++ ValidateIcons (Icons d) "icons" = []) <->
    header_ok d /\ nodes_ok d (elems (Networks d)) (elems (Nodes d)) /\
    Forall (parent_ok (index_by node_ID (elems (Nodes d)))) (elems (Nodes d)) /\ edges_ok (elems (Nodes d)) (elems (Edges d)) /\
    scenarios_ok (Scenarios d) /\ layer_list_ok (Layers d) /\ (forall o, doc_LayerSet d = Some o -> document_layer_set_ok o) /\
    (forall source, doc_Source d = Some source -> source_ok source) /\ templates_ok (Templates d) /\ icons_ok (Icons d)) as Hrest.
  { intros nmap' -> -> [Hids _]. destruct (nodes_iff d (elems (Networks d)) Hids) as [Hnodes Hnmap].
    destruct (validateNodes _ _) as [node_issues byID]. cbn [fst snd] in *.
    rewrite !app_nil, header_nil by done. rewrite Hnodes, scenarios_nil, layers_nil, source_nil, templates_nil, ValidateIcons_nil.
    split.
    - intros (? & _ & Hn & Hpar & Hedg & ?). pose proof Hn as Hb%Hnodes. apply Hnmap in Hb. subst byID.
      apply parents_nil in Hpar; [|apply states_ok_empty]. apply edges_iff in Hedg; [|done..]. tauto.
    - intros (? & Hn & Hpar & Hedg & ?). pose proof Hn as Hb%Hnodes. apply Hnmap in Hb. subst byID.
      split; [done|]. split; [done|]. split; [done|].
      split; [apply parents_nil; [apply states_ok_empty|done]|]. split; [by apply (edges_iff d (elems (Networks d)))|]. tauto. }
  split.
  - intros Hall. assert (net_issues = []) as Hni.
    { destruct (validateNodes d nmap). apply app_nil in Hall as [_ Hall]. by apply app_nil in Hall as [? _]. }
    pose proof Hni as Hok%Hnets. specialize (Hmap Hni).
    destruct (Hrest nmap Hmap Hni Hok) as [Hr _]. destruct (validateNodes d nmap). specialize (Hr Hall). tauto.
  - intros (Hh & Hok & Hr). pose proof Hok as Hni%Hnets. specialize (Hmap Hni).
    destruct (Hrest nmap Hmap Hni Hok) as [_ Hr']. destruct (validateNodes d nmap). apply Hr'. tauto.
Qed.

(** C7: [Document.Validate] finds nothing to report exactly when the document
    is right: its lists are there; IDs, hostnames, names, aliases, handles,
    layers, scenarios and templates are well formed and unique; every node has
    the payload of its kind; every switch has a network of the document; the
    parents are groups and form a forest; every edge joins a handle of a
    device to a switch of the edge's network, and no handle is joined twice;
    and every other field is within its rules. *)
Theorem Validate_iff order d :
  order ≡ₚ ["nodes"; "networks"; "edges"] -> Validate order d = None <-> document_ok d.
Proof.
  intros Hp. rewrite <- (all_issues_nil order d Hp). unfold Validate. by destruct (all_issues order d).
Qed.

(** ** The order of the report *)

Definition path_le (a b : Issue) : Prop := String.le (iss_path a) (iss_path b).

Lemma path_leb a b : String.leb (iss_path a) (iss_path b) = true <-> path_le a b.
Proof. symmetry. apply Is_true_true. Qed.

Lemma path_leb_false a b : String.leb (iss_path a) (iss_path b) = false -> path_le b a /\ ~ path_le a b.
Proof.
  intros Hf. split; [|rewrite <- path_leb; congruence]. apply path_leb.
  destruct (String.leb_total (iss_path a) (iss_path b)); [congruence|done].
Qed.

Lemma path_le_trans a b c : path_le a b -> path_le b c -> path_le a c.
Proof. unfold path_le. apply (transitivity (R := String.le)). Qed.

Lemma path_le_antisym a b : path_le a b -> path_le b a -> iss_path a = iss_path b.
Proof. unfold path_le. apply (anti_symm String.le). Qed.

Lemma insert_issue_comm a b l :
  iss_path a <> iss_path b -> insert_issue a (insert_issue b l) = insert_issue b (insert_issue a l).
Proof.
  intros Hne. assert (forall x, insert_issue x [] = [x]) as Hnil by done.
  assert (~ (path_le a b /\ path_le b a)) as Hab by (intros [? ?]; by apply Hne, path_le_antisym).
  induction l as [|x l IH]; cbn [insert_issue].
  - destruct (String.leb (iss_path a) (iss_path b)) eqn:E1, (String.leb (iss_path b) (iss_path a)) eqn:E2;
      rewrite ?path_leb in *; try done; [tauto|]. apply path_leb_false in E1, E2. tauto.
  - destruct (String.leb (iss_path a) (iss_path x)) eqn:Ea, (String.leb (iss_path b) (iss_path x)) eqn:Eb;
      cbn [insert_issue];
      destruct (String.leb (iss_path a) (iss_path b)) eqn:E1, (String.leb (iss_path b) (iss_path a)) eqn:E2;
      rewrite ?Ea, ?Eb, ?IH; try done;
      rewrite ?path_leb in *;
      repeat match goal with E : String.leb _ _ = false |- _ => apply path_leb_false in E as [? ?] end;
      exfalso; eauto using path_le_trans.
Qed.

Lemma insert_issue_perm a l : insert_issue a l ≡ₚ a :: l.
Proof.
  induction l as [|x l IH]; [done|]. cbn [insert_issue]. destruct (String.leb _ _); [done|].
  rewrite IH. apply Permutation_swap.
Qed.

Lemma insert_issue_sorted a l : StronglySorted path_le l -> StronglySorted path_le (insert_issue a l).
Proof.
  induction 1 as [|x l Hs IH Hx]; cbn [insert_issue]; [repeat constructor|].
  destruct (String.leb _ _) eqn:E.
  - apply path_leb in E. constructor; [by constructor|]. constructor; [done|].
    eapply Forall_impl; [exact Hx|]. intros y. by apply path_le_trans.
  - apply path_leb_false in E as [E _]. constructor; [done|]. rewrite insert_issue_perm. by constructor.
Qed.

Lemma stable_sort_perm l : stable_sort l ≡ₚ l.
Proof. induction l as [|x l IH]; [done|]. cbn. by rewrite insert_issue_perm, IH. Qed.

Lemma stable_sort_sorted l : StronglySorted path_le (stable_sort l).
Proof. induction l as [|x l IH]; cbn; [constructor|by apply insert_issue_sorted]. Qed.

Lemma foldr_insert_perm acc l1 l2 :
  NoDup (iss_path <$> l1) -> l1 ≡ₚ l2 -> foldr insert_issue acc l1 = foldr insert_issue acc l2.
Proof.
  intros Hd Hp. apply (foldr_permutation eq insert_issue acc l1 l2); [|exact Hp].
  intros i a j b l Hij Ha Hb. apply insert_issue_comm. intros Heq. apply Hij.
  eapply (NoDup_lookup _ _ _ (iss_path a)); [done|by rewrite list_lookup_fmap, Ha|by rewrite list_lookup_fmap, Hb, Heq].
Qed.

(** What [validateHeader] says of the lists that are missing. *)
Definition missing_issues (d : Document) (order : list string) : list Issue :=
  concat (map (fun name => if list_missing d name then
    [NewIssue CodeDocumentListMissing name (Sprintf "%s must be an array" [AStr name])] else []) order).

Lemma missing_paths d order : iss_path <$> missing_issues d order = filter (fun name => list_missing d name = true) order.
Proof.
  induction order as [|name order IH]; [done|]. unfold missing_issues in *. cbn [map concat].
  rewrite fmap_app, IH. destruct (list_missing d name) eqn:E.
  - by rewrite filter_cons_True.
  - rewrite filter_cons_False by congruence. done.
Qed.

Lemma missing_perm d order order' : order ≡ₚ order' -> missing_issues d order ≡ₚ missing_issues d order'.
Proof. unfold missing_issues. by intros ->. Qed.

Lemma sort_middle l m m' r :
  NoDup (iss_path <$> m) -> m ≡ₚ m' -> stable_sort (l ++ m ++ r) = stable_sort (l ++ m' ++ r).
Proof. intros Hd Hp. unfold stable_sort. rewrite !foldr_app. by rewrite (foldr_insert_perm _ m m'). Qed.

Lemma app_middle {A} (a b c x r : list A) : a ++ b ++ c ++ x ++ r = (a ++ b ++ c) ++ x ++ r.
Proof. by rewrite <- !app_assoc. Qed.

Lemma header_order d : exists l r, forall order, validateHeader order d = l ++ missing_issues d order ++ r.
Proof. unfold validateHeader, missing_issues. cbn zeta. eexists _, _. intros order. apply app_middle. Qed.

Lemma all_issues_order d : exists l r, forall order, all_issues order d = l ++ missing_issues d order ++ r.
Proof.
  destruct (header_order d) as (l & r & Hh). unfold all_issues.
  destruct (validateNetworks d) as [ni nm]. destruct (validateNodes d nm) as [di dm].
  match goal with |- context [validateHeader _ d ++ ?rest] => exists l, (r ++ rest) end.
  intros order. by rewrite Hh, <- !app_assoc.
Qed.

(** The map over which [validateHeader] reports the missing lists makes no
    difference: whatever order Go visits it in, [Validate] returns the same
    issues in the same order; and what it returns is every issue found, sorted
    by path, with the element each one is about filled in. *)
Theorem Validate_deterministic order d :
  order ≡ₚ ["nodes"; "networks"; "edges"] ->
  Validate order d = Validate ["nodes"; "networks"; "edges"] d /\
  (forall issues, Validate order d = Some issues ->
   exists sorted, sorted ≡ₚ all_issues order d /\ StronglySorted path_le sorted /\ issues = LocateIssues d sorted).
Proof.
  intros Hp. split.
  - unfold Validate. destruct (all_issues_order d) as (l & r & Hl).
    assert (stable_sort (all_issues order d) = stable_sort (all_issues ["nodes"; "networks"; "edges"] d)) as Heq.
    { rewrite !Hl. apply sort_middle; [|by apply missing_perm]. rewrite missing_paths. apply NoDup_filter. rewrite Hp.
      by apply (bool_decide_unpack (NoDup ["nodes"; "networks"; "edges"])). }
    pose proof (stable_sort_perm (all_issues order d)) as P1.
    pose proof (stable_sort_perm (all_issues ["nodes"; "networks"; "edges"] d)) as P2. rewrite Heq in P1.
    destruct (all_issues order d), (all_issues ["nodes"; "networks"; "edges"] d); try done; [| |by rewrite Heq].
    + apply Permutation_nil_r in P1. rewrite P1 in P2. by apply Permutation_nil_cons in P2.
    + apply Permutation_nil_r in P2. rewrite P2 in P1. by apply Permutation_nil_cons in P1.
  - unfold Validate. intros issues. destruct (all_issues order d) as [|i l] eqn:E; [done|]. intros [= <-].
    exists (stable_sort (i :: l)). split; [apply stable_sort_perm|]. split; [apply stable_sort_sorted|done].
Qed.

End Whole.

(** ** Two documents *)

Module SampleDocument.

#[local] Instance unicode : Unicode := {| to_lower_rune := fun r => r; same_fold := Z.eqb |}.
#[local] Instance libraries : Libraries := {| regexp_compiles := fun _ => true; json_length := fun _ => Ok 2 |}.
#[local] Instance png : PNG := {| png_decode := fun _ => Some "not an image"; inflate_rest := fun _ => Ok 0 |}.

Definition id (c : string) : string := "00000000-0000-5000-8000-00000000000" +:+ c.

Definition origin : Position := {| X := f_int 0; Y := f_int 0 |}.

Definition host : Node := {|
  node_ID := id "1"; node_Kind := NodeKindDevice; node_Label := ""; node_Position := origin; node_Size := None;
  ParentID := "";
  node_Device := Some {|
    Hostname := "rtu-1"; dev_IconKey := ""; dev_Icon := ""; dev_IconSize := ""; dev_OutlineColor := "";
    dev_FillColor := ""; dev_HideDescription := false; dev_Layer := None; dev_Spec := Some [];
    Interfaces := [{| handle_ID := id "2"; handle_Name := "eth0"; handle_Index := 0 |}]; IncludedFrom := "" |};
  node_Switch := None; node_Note := None; node_Group := None; node_Shape := None; node_Icon := None; node_Line := None |}.

Definition hub : Node := {|
  node_ID := id "3"; node_Kind := NodeKindSwitch; node_Label := ""; node_Position := origin; node_Size := None;
  ParentID := ""; node_Device := None;
  node_Switch := Some {|
    sw_NetworkID := id "4"; sw_OutlineColor := ""; sw_FillColor := ""; sw_IconSize := ""; sw_Layer := None |};
  node_Note := None; node_Group := None; node_Shape := None; node_Icon := None; node_Line := None |}.

Definition network : Network := {|
  net_ID := id "4"; net_Name := "CONTROL"; Alias := Some 100; net_Description := ""; net_Color := "";
  net_LineStyle := ""; Subnet := "10.0.0.0/24"; Gateway := "10.0.0.1" |}.

Definition cable (c : string) : Edge := {|
  edge_ID := id c; SourceNodeID := id "1"; SourceHandleID := id "2"; TargetNodeID := id "3"; TargetHandleID := "";
  edge_NetworkID := id "4"; edge_Label := ""; edge_Color := ""; edge_LineStyle := ""; Route := None |}.

Definition document (edges : list Edge) : Document := {|
  Schema := SchemaURI; Revision := SchemaRevision;
  Meta := {| meta_ID := id "5"; meta_Name := "plant"; meta_Description := ""; CreatedBy := ""; CreatedAt := "";
             UpdatedBy := ""; UpdatedAt := ""; Notes := [] |};
  Nodes := Some [host; hub]; Networks := Some [network]; Edges := Some edges;
  doc_Viewport := {| view_X := f_int 0; view_Y := f_int 0; Zoom := f_int 1 |};
  doc_Grid := {| Enabled := true; grid_Size := f_int 16 |};
  Scenarios := []; doc_Source := None; Layout := ""; doc_IconSize := ""; Templates := []; Layers := [];
  doc_LayerSet := None; Icons := ∅ |}.

Definition order : list string := ["edges"; "nodes"; "networks"].

Lemma order_ok : order ≡ₚ ["nodes"; "networks"; "edges"].
Proof. unfold order. solve_Permutation. Qed.

(** One cable from the interface of the device to the switch is right. *)
Lemma Validate_iff_witness :
  Validate order (document [cable "6"]) = None /\ document_ok (document [cable "6"]) /\
  ~ document_ok (document [cable "6"; cable "7"]).
Proof.
  assert (Validate order (document [cable "6"]) = None) as Hone by (vm_compute; reflexivity).
  split; [exact Hone|]. split; [apply (Validate_iff order _ order_ok); exact Hone|].
  intros Htwo. apply (Validate_iff order _ order_ok) in Htwo. vm_compute in Htwo. discriminate.
Defined.

(** A document without its lists is told so in the order of their names. *)
Definition bare : Document := {|
  Schema := SchemaURI; Revision := SchemaRevision; Meta := Meta (document []);
  Nodes := None; Networks := None; Edges := None; doc_Viewport := doc_Viewport (document []);
  doc_Grid := doc_Grid (document []); Scenarios := []; doc_Source := None; Layout := ""; doc_IconSize := "";
  Templates := []; Layers := []; doc_LayerSet := None; Icons := ∅ |}.

Lemma Validate_deterministic_witness :
  Validate order bare = Validate ["nodes"; "networks"; "edges"] bare /\
  map iss_path <$> Validate order bare = Some ["edges"; "networks"; "nodes"].
Proof.
  split; [apply (Validate_deterministic order bare order_ok)|vm_compute; reflexivity].
Defined.

End SampleDocument.
