(* ===== verification/Topology.v ===== *)
(** * types/builder/topology.go: what a document publishes as

    The projection of a document onto a topology spec, and the checks that a
    publish makes of it: VLANs, addresses that are shared, and hostnames. *)

From Stdlib Require Import ZArith Lia Ascii String Strings.Byte.
From stdpp Require Import base option list gmap strings.
From S2P Require Import Prelude Text Printf Hostname Codes Document Specs Subnet Checks Layers Icons Validate.

Open Scope Z_scope.
Open Scope go_scope.

Definition keyNodes : string := "nodes".
Definition keyIncludes : string := "includeTopologies".
Definition TopologyAPIVersion : string := "phenix.sandia.gov/v1".
Definition DefaultTopologyName : string := "topology".

(** The topology name proposed for a document: each run of characters that a
    config name cannot hold is one hyphen, and none is left at the ends. *)
Fixpoint hyphened (in_run : bool) (l : list Z) : list Z :=
  match l with
  | [] => []
  | b :: l => if name_byte b then b :: hyphened false l else if in_run then hyphened true l else dash :: hyphened true l
  end.

Definition TopologyName (name : string) : string :=
  let proposed := Z_string (trim_bytes (fun b => b =? dash) (hyphened false (bytes_Z name))) in
  if String.eqb proposed "" then DefaultTopologyName else proposed.

(** [Topology]: the spec, the aliases of the networks, and the warnings. *)
Record Topology : Type := { top_Spec : spec; VLANAliases : gmap string Z; top_Warnings : list Issue }.

(** [specNode]: where a node of the spec comes from. *)
Record specNode : Type := { sn_index : Z; sn_id : string }.

(** What [ToTopology] fails with. *)
Inductive terror : Type :=
  | TInvalid (issues : list Issue)
  | TSpec (hostname : string) (e : spec_error)
  | TGeneral (hostname : string).

(** The problems of a check of a publish, and their issues. *)
Record blocker : Type := { Problems : list text; blk_issues : list Issue }.

(** An issue about a place of the document. *)
Definition placed (issue : Issue) (path node field : string) : Issue := {|
  iss_code := iss_code issue; iss_severity := iss_severity issue; iss_message := iss_message issue; iss_path := path; iss_node := node;
  iss_edge := iss_edge issue; iss_network := iss_network issue; iss_field := field |}.

Definition with_field (issue : Issue) (field : string) : Issue := placed issue (iss_path issue) (iss_node issue) field.
Definition at_path (issue : Issue) (path node : string) : Issue := placed issue path node (iss_field issue).

Definition projectedDevice (node : Node) : bool :=
  bool_decide (node_Kind node = NodeKindDevice) &&
  match node_Device node with Some device => String.eqb (IncludedFrom device) "" | None => false end.

Fixpoint projected_from (i : Z) (nodes : list Node) : list specNode :=
  match nodes with
  | [] => []
  | node :: nodes => (if projectedDevice node then [{| sn_index := i; sn_id := node_ID node |}] else []) ++ projected_from (i + 1) nodes
  end.

Definition projectedNodes (d : Document) : list specNode := projected_from 0 (elems (Nodes d)).

(** [problemIssues]: the located issues, or one of the code for each problem. *)
Definition problemIssues (code : Code) (problems : list text) (located : list Issue) : list Issue :=
  if (length located =? length problems)%nat then located else map (NewIssue code "") problems.

(** [locate], at a position among the nodes of the spec. *)
Definition locate (issue : Issue) (nodes : list specNode) (index : nat) (below : string) : Issue :=
  match nodes !! index with
  | None => issue
  | Some n => at_path issue ("nodes[" +:+ itoa (sn_index n) +:+ "]." +:+ below) (sn_id n)
  end.

(** ** Connections *)

(** A map that a loop fills: the last entry of a key is the one. *)
Definition fill {A V : Type} (entry : A -> option (string * V)) (l : list A) : gmap string V :=
  foldl (fun m a => match entry a with Some (key, value) => <[ key := value ]> m | None => m end) ∅ l.

Definition switch_entry (d : Document) (node : Node) : option (string * option Network) :=
  match node_Kind node, node_Switch node with
  | NodeKindSwitch, Some hub => Some (node_ID node, NetworkByID d (sw_NetworkID hub))
  | _, _ => None
  end.

Definition switchNetworks (d : Document) : gmap string (option Network) := fill (switch_entry d) (elems (Nodes d)).

(** The edge's device handle and its network, when it joins a device to a
    switch with a network; the places of the nodes do not matter here. *)
Definition edge_network (d : Document) (edge : Edge) : option (string * Network) :=
  match NodeByID d (SourceNodeID edge), NodeByID d (TargetNodeID edge) with
  | Some source, Some target =>
      match edgeEndpoints (0%nat, source) (SourceHandleID edge) (0%nat, target) (TargetHandleID edge) with
      | Some (_, handle, switchNode) =>
          match switchNetworks d !! node_ID (snd switchNode) with
          | Some (Some network) => Some (handle, network)
          | _ => None
          end
      | None => None
      end
  | _, _ => None
  end.

(** [handleNetworks]: the network of each connected handle. *)
Definition handleNetworks (d : Document) : gmap string Network := fill (edge_network d) (elems (Edges d)).

Definition deviceIssue (code : Code) (node : Node) (index : Z) (path : string) (message : text) : Issue :=
  at_path (NewIssue code "" message) ("nodes[" +:+ itoa index +:+ "]." +:+ path) (node_ID node).

Section Topology.
Context `{Unicode}.

(** [findInterfaceIndex]: an exact name first, else one that differs by case;
    [fallback] is what the search has so far. *)
Fixpoint find_interface (ifaces : list any) (name : string) (k : nat) (fallback : option nat) : option nat :=
  match ifaces with
  | [] => fallback
  | Obj fields :: ifaces =>
      let ifaceName := field_string fields "name" in
      if String.eqb ifaceName name then Some k
      else
        find_interface ifaces name (S k)
          (match fallback with
           | None => if String.eqb (foldKey ifaceName) (foldKey name) then Some k else None
           | Some _ => fallback
           end)
  | _ :: ifaces => find_interface ifaces name (S k) fallback
  end.

Definition findInterfaceIndex (ifaces : list any) (name : string) : option nat := find_interface ifaces name 0 None.

(** [iface["vlan"] = name] of the interface at an index. *)
Definition set_vlan (vlan : string) (iface : any) : any :=
  match iface with Obj fields => Obj (set_field fields "vlan" (Str vlan)) | _ => iface end.

(** One connection point of [connectInterfaces]. *)
Definition connect_step (node : Node) (device : Device) (index : Z) (networks : gmap string Network) (position : nat)
    (handle : InterfaceHandle) (ifaces : list any) : list any * list Issue :=
  match networks !! handle_ID handle with
  | None => (ifaces, [])
  | Some network =>
      match findInterfaceIndex ifaces (handle_Name handle) with
      | None =>
          (ifaces, [deviceIssue CodeInterfaceNameUnmatched node index ("device.interfaces[" +:+ itoa (Z.of_nat position) +:+ "].name")
             (Sprintf ("device %q connects to network %q through interface %q, " +:+
                       "but the node spec has no such interface. Publishing drops the connection")
                [AStr (Hostname device); AStr (net_Name network); AStr (handle_Name handle)])])
      | Some k => (alter (set_vlan (net_Name network)) k ifaces, [])
      end
  end.

Fixpoint connect_all (node : Node) (device : Device) (index : Z) (networks : gmap string Network) (position : nat)
    (handles : list InterfaceHandle) (ifaces : list any) : list any * list Issue :=
  match handles with
  | [] => (ifaces, [])
  | handle :: handles =>
      let '(ifaces, warnings) := connect_step node device index networks position handle ifaces in
      let '(ifaces, more) := connect_all node device index networks (S position) handles ifaces in
      (ifaces, warnings ++ more)
  end.

(** [connectInterfaces]: the spec with the VLANs of its connections. *)
Definition connectInterfaces (node : Node) (device : Device) (index : Z) (s : spec) (networks : gmap string Network) : spec * list Issue :=
  let '(ifaces, warnings) := connect_all node device index networks 0 (Interfaces device) (specNodeInterfaces s) in
  (with_interfaces s ifaces, warnings).

Definition deviceSpec (node : Node) (device : Device) (index : Z) (networks : gmap string Network) : res terror (spec * list Issue) :=
  let? s := res_map_err (TSpec (Hostname device)) (normalizeSpecMap (Obj (default [] (dev_Spec device)))) in
  let s := default [] s in
  let existing := specString s ["general"; "hostname"] in
  let mismatch :=
    if negb (String.eqb existing "") && negb (String.eqb existing (Hostname device)) then
      [deviceIssue CodeDeviceHostnameMismatch node index "device.spec.general.hostname"
         (Sprintf "device %q carries a node spec with hostname %q. The topology uses the device hostname"
            [AStr (Hostname device); AStr existing])]
    else [] in
  match specSetString s (Hostname device) ["general"; "hostname"] with
  | None => Err (TGeneral (Hostname device))
  | Some s =>
      let '(s, warnings) := connectInterfaces node device index s networks in
      Ok (s, mismatch ++ warnings)
  end.

(** The nodes of the spec and the warnings about them. *)
Fixpoint device_specs (i : Z) (nodes : list Node) (networks : gmap string Network) : res terror (list spec * list Issue) :=
  match nodes with
  | [] => Ok ([], [])
  | node :: nodes =>
      match node_Device node with
      | Some device =>
          if projectedDevice node then
            let? (s, warnings) := deviceSpec node device i networks in
            let? (specs, more) := device_specs (i + 1) nodes networks in
            Ok (s :: specs, warnings ++ more)
          else device_specs (i + 1) nodes networks
      | None => device_specs (i + 1) nodes networks
      end
  end.

Definition aliases_of (networks : list Network) : gmap string Z :=
  fill (fun network => alias ← Alias network; Some (net_Name network, alias)) networks.

Context `{Libraries, PNG} (order : list string).

Definition ToTopology (d : Document) : res terror Topology :=
  match Validate order d with
  | Some issues => Err (TInvalid issues)
  | None =>
      let? (specs, warnings) := device_specs 0 (elems (Nodes d)) (handleNetworks d) in
      let includes := match doc_Source d with Some source => IncludeTopologies source | None => [] end in
      Ok {| top_Spec := [(keyNodes, Arr (map Obj specs))] ++ (if bool_decide (includes = []) then [] else [(keyIncludes, Arr (map Str includes))]);
            VLANAliases := aliases_of (elems (Networks d)); top_Warnings := warnings |}
  end.

End Topology.
