(* ===== verification/TopologySpec.v ===== *)
(** * What a document publishes as

    Every connected interface gets the VLAN of its network and nothing else of
    a node changes but its hostname; and when a projection fails. *)

From Stdlib Require Import ZArith Lia Ascii String Strings.Byte.
From stdpp Require Import base option list gmap strings.
From S2P Require Import Prelude Text Printf Codes Document Specs Subnet Checks Layers Icons Validate Parents ValidateSpec EdgeSpec DocumentSpec Topology.

Open Scope Z_scope.
Open Scope go_scope.

(** ** Fields *)

Lemma field_set_eq fields key value : field (set_field fields key value) key = Some value.
Proof.
  induction fields as [|[k v] fields IH]; cbn; [by rewrite String.eqb_refl|].
  destruct (String.eqb k key) eqn:E; cbn; rewrite E; [done|apply IH].
Qed.

Lemma field_set_ne fields key key' value : key' <> key -> field (set_field fields key value) key' = field fields key'.
Proof.
  intros Hne. induction fields as [|[k v] fields IH]; cbn.
  - by rewrite (proj2 (String.eqb_neq key key')).
  - destruct (String.eqb_spec k key) as [->|]; cbn; [by rewrite (proj2 (String.eqb_neq key key'))|]. by rewrite IH.
Qed.

(** A field that is set to what it is, is as it was. *)
Lemma set_field_same fields key value : field fields key = Some value -> set_field fields key value = fields.
Proof.
  induction fields as [|[k v] fields IH]; cbn; [done|]. destruct (String.eqb k key); [by intros [= ->]|]. intros Hf. by rewrite IH.
Qed.

Lemma field_string_set_ne fields key key' value : key' <> key -> field_string (set_field fields key value) key' = field_string fields key'.
Proof. intros Hne. unfold field_string. by rewrite field_set_ne. Qed.

(** ** Normal form *)

Lemma map_res_ok {E A B} (f : A -> res E B) l l' : map_res f l = Ok l' <-> Forall2 (fun a b => f a = Ok b) l l'.
Proof.
  revert l'. induction l as [|a l IH]; intros l'; cbn.
  - split; [by intros [= <-]; constructor|by inversion 1].
  - rewrite bind_ok. split.
    + intros (b & Hb & Hr). apply bind_ok in Hr as (rest & Hr & [= <-]). constructor; [done|by apply IH].
    + inversion 1 as [|? b ? rest Hb Hr]; subst. exists b. split; [done|]. apply bind_ok. exists rest. split; [by apply IH|done].
Qed.

Lemma map_res_id {E A} (f : A -> res E A) l : Forall (fun a => f a = Ok a) l -> map_res f l = Ok l.
Proof. intros Hl. apply map_res_ok. induction Hl; by constructor. Qed.

(** What [normalizeSpec] gives: no maps of other keys, and no float that is a
    whole number an int may be. *)
Inductive normal : any -> Prop :=
  | normal_null : normal Null
  | normal_bool b : normal (Bool b)
  | normal_int n : normal (Int n)
  | normal_num f : f_eqb f (Trunc f) && negb (f_is_inf f) && f_leb (f_abs f) (f_int MaxInt32) = false -> normal (Num f)
  | normal_str s : normal (Str s)
  | normal_arr l : Forall normal l -> normal (Arr l)
  | normal_obj fields : Forall (fun f => normal (snd f)) fields -> normal (Obj fields).

Definition normal_map (s : spec) : Prop := Forall (fun f => normal (snd f)) s.

Lemma normalize_gives v w : normalizeSpec v = Ok w -> normal w.
Proof.
  revert w. induction v as [| | |f| |l IH|fields IH|fields IH] using any_parts; intros w; cbn [normalizeSpec]; try (intros [= <-]; constructor).
  - destruct (_ && _) eqn:E; intros [= <-]; by constructor.
  - intros (out & Ho%map_res_ok & [= <-])%bind_ok. constructor. clear -IH Ho. induction Ho; [constructor|]. inversion IH; subst. constructor; auto.
  - intros (out & Ho%map_res_ok & [= <-])%bind_ok. constructor. clear -IH Ho. induction Ho as [|[k v] b ? ? Hb]; [constructor|]. inversion IH; subst.
    constructor; [|auto]. apply bind_ok in Hb as (x & Hx & [= <-]). cbn in *. auto.
  - intros (out & Ho%map_res_ok & [= <-])%bind_ok. constructor. clear -IH Ho. induction Ho as [|[k v] b ? ? Hb]; [constructor|]. inversion IH; subst.
    constructor; [|auto]. destruct k; try done. apply bind_ok in Hb as (x & Hx & [= <-]). cbn in *. auto.
Qed.

Lemma normalize_normal v : normal v -> normalizeSpec v = Ok v.
Proof.
  induction v as [| | |f| |l IH|fields IH|fields IH] using any_parts; inversion 1 as [| | |f' Hf| |l' Hl|fs Hfs]; subst; cbn [normalizeSpec]; try done.
  - by rewrite Hf.
  - rewrite map_res_id; [done|]. clear -IH Hl. induction Hl; [constructor|]. inversion IH; subst. constructor; auto.
  - rewrite map_res_id; [done|]. clear -IH Hfs. induction Hfs as [|[k v] ? Hv]; [constructor|]. inversion IH; subst. constructor; [|auto].
    cbn in *. by rewrite (H1 Hv).
Qed.

Lemma normalize_map_ok v s : normalizeSpecMap v = Ok (Some s) -> normal_map s /\ normalizeSpecMap (Obj s) = Ok (Some s).
Proof.
  unfold normalizeSpecMap. intros (w & Hw & Hs)%bind_ok. pose proof (normalize_gives _ _ Hw) as Hn. destruct w; try done. injection Hs as ->.
  split; [by inversion Hn|]. by rewrite (normalize_normal _ Hn).
Qed.

(** What a value of YAML or JSON is in one form: a float that is a whole number
    of 32 bits is that number, the keys of maps are strings, and nothing else
    changes. *)
Definition whole (f : float64) (n : Z) : Prop := f_eqb f (f_int n) = true /\ Z.abs n < 2 ^ 31.

Inductive plain : any -> any -> Prop :=
  | plain_null : plain Null Null
  | plain_bool b : plain (Bool b) (Bool b)
  | plain_int n : plain (Int n) (Int n)
  | plain_str s : plain (Str s) (Str s)
  | plain_whole f n : whole f n -> plain (Num f) (Int n)
  | plain_num f : (forall n, ~ whole f n) -> plain (Num f) (Num f)
  | plain_arr l l' : Forall2 plain l l' -> plain (Arr l) (Arr l')
  | plain_obj l l' : Forall2 (fun f f' => fst f' = fst f /\ plain (snd f) (snd f')) l l' -> plain (Obj l) (Obj l')
  | plain_map l l' : Forall2 (fun f f' => fst f = Str (fst f') /\ plain (snd f) (snd f')) l l' -> plain (AnyMap l) (Obj l').

Lemma whole_iff f n :
  whole f n <-> f_eqb f (Trunc f) && negb (f_is_inf f) && f_leb (f_abs f) (f_int MaxInt32) = true /\ f_to_int f = n.
Proof.
  unfold whole, f_leb. destruct f as [| |m e]; cbn [f_eqb Trunc f_is_inf f_abs f_ltb f_int f_to_int negb].
  { by split; intros [? _]. }
  { split; [by intros [? _]|]. intros [E _]. by destruct negative. }
  unfold MaxInt32. destruct (Z.ltb_spec e 0) as [He|He]; cbn [f_eqb f_ltb align].
  - rewrite (Z.min_l e 0), Z.sub_diag, Z.pow_0_r, Z.sub_0_l, !Z.mul_1_r by lia. pose proof (Z.pow_pos_nonneg 2 (- e) ltac:(lia) ltac:(lia)) as Hp. set (p := 2 ^ (- e)) in *.
    rewrite !andb_true_iff, orb_true_iff, Z.ltb_lt, !Z.eqb_eq. cbn [negb]. split.
    + intros [-> Hn]. rewrite Z.quot_mul by lia. rewrite Z.abs_mul, (Z.abs_eq p) by lia. split; [|done]. split; [by split|]. nia.
    + intros [[[Hm _] Hle] <-]. split; [done|]. rewrite Hm, Z.abs_mul, (Z.abs_eq p) in Hle by lia. nia.
  - rewrite (Z.min_r e 0), ?Z.min_id, ?Z.sub_0_r, ?Z.sub_diag, ?Z.pow_0_r, ?Z.mul_1_r by lia.
    pose proof (Z.pow_pos_nonneg 2 e ltac:(lia) ltac:(lia)) as Hp. set (p := 2 ^ e) in *.
    rewrite !andb_true_iff, orb_true_iff, Z.ltb_lt, !Z.eqb_eq. cbn [negb]. split.
    + intros [<- Hn]. rewrite Z.abs_mul, (Z.abs_eq p) in Hn by lia. split; [|done]. split; [by split|]. lia.
    + intros [[_ Hle] <-]. split; [done|]. rewrite Z.abs_mul, (Z.abs_eq p) by lia. lia.
Qed.

Lemma Forall2_iff_l {A B} (P Q : A -> B -> Prop) l l' : Forall (fun a => forall b, P a b <-> Q a b) l -> Forall2 P l l' <-> Forall2 Q l l'.
Proof.
  intros Hl. revert l'. induction Hl as [|a l Ha _ IH]; intros l'; [split; inversion 1; constructor|].
  split; inversion 1; subst; constructor; by (apply Ha || apply IH).
Qed.

Lemma normalize_plain v w : normalizeSpec v = Ok w <-> plain v w.
Proof.
  revert w. induction v as [|b|n|f|s|l IH|fields IH|fields IH] using any_parts; intros w; cbn [normalizeSpec].
  - split; [intros [= <-]; constructor|by inversion 1].
  - split; [intros [= <-]; constructor|by inversion 1].
  - split; [intros [= <-]; constructor|by inversion 1].
  - destruct (_ && _) eqn:E.
    + assert (whole f (f_to_int f)) as Hw by (apply whole_iff; by split). split; [intros [= <-]; by constructor|].
      inversion 1 as [| | | |? n Hn|? Hno| | |]; subst; [apply whole_iff in Hn as [_ <-]; done|by destruct (Hno _ Hw)].
    + assert (forall n, ~ whole f n) as Hno by (intros n [Hw _]%whole_iff; congruence). split; [intros [= <-]; by constructor|].
      inversion 1 as [| | | |? n Hn| | | |]; subst; [by destruct (Hno n)|done].
  - split; [intros [= <-]; constructor|by inversion 1].
  - rewrite bind_ok. setoid_rewrite map_res_ok. setoid_rewrite (Forall2_iff_l _ plain l _ IH). split.
    + intros (out & Ho & [= <-]). by constructor.
    + inversion 1; subst. by eexists.
  - rewrite bind_ok. setoid_rewrite map_res_ok.
    setoid_rewrite (Forall2_iff_l _ (fun f f' => fst f' = fst f /\ plain (snd f) (snd f')) fields).
    + split; [intros (out & Ho & [= <-]); by constructor|]. inversion 1; subst. by eexists.
    + eapply Forall_impl; [exact IH|]. intros [k v] Hv [k' v']. rewrite bind_ok. cbn [fst snd] in *. setoid_rewrite Hv. naive_solver.
  - rewrite bind_ok. setoid_rewrite map_res_ok.
    setoid_rewrite (Forall2_iff_l _ (fun f f' => fst f = Str (fst f') /\ plain (snd f) (snd f')) fields).
    + split; [intros (out & Ho & [= <-]); by constructor|]. inversion 1; subst. by eexists.
    + eapply Forall_impl; [exact IH|]. intros [k v] Hv [k' v']. cbn [fst snd] in *. destruct k; try (split; [done|by intros [[=] _]]).
      rewrite bind_ok. setoid_rewrite Hv. naive_solver.
Qed.

Lemma normalize_map_plain (l b : spec) : normalizeSpecMap (Obj l) = Ok (Some b) <-> plain (Obj l) (Obj b).
Proof.
  unfold normalizeSpecMap. rewrite bind_ok. setoid_rewrite normalize_plain. split.
  - intros (w & Hw & Hm). destruct w; try done. by injection Hm as ->.
  - intros Hp. by exists (Obj b).
Qed.

(** ** Interfaces *)

Definition iface_key (iface : any) : option string := match iface with Obj fields => Some (field_string fields "name") | _ => None end.

Lemma set_vlan_key vlan iface : iface_key (set_vlan vlan iface) = iface_key iface.
Proof. destruct iface; try done. cbn. by rewrite field_string_set_ne. Qed.

Section Interfaces.
Context `{Unicode}.

(** The search looks at names alone. *)
Lemma find_interface_keys ifaces ifaces' name k fallback :
  iface_key <$> ifaces = iface_key <$> ifaces' -> find_interface ifaces name k fallback = find_interface ifaces' name k fallback.
Proof.
  revert ifaces' k fallback. induction ifaces as [|i ifaces IH]; intros [|i' ifaces'] k fallback; try done. cbn [fmap list_fmap]. intros [= Hi Hr].
  destruct i, i'; try done; cbn [find_interface] in *; try (by apply IH). cbn in Hi. injection Hi as Hi. rewrite Hi. destruct (String.eqb _ _); [done|]. by apply IH.
Qed.

(** What it finds has the name, but perhaps for case. *)
Lemma find_interface_some ifaces name k fallback i :
  find_interface ifaces name k fallback = Some i ->
  fallback = Some i \/ exists fields, (k <= i)%nat /\ ifaces !! (i - k)%nat = Some (Obj fields) /\ foldKey (field_string fields "name") = foldKey name.
Proof.
  revert k fallback. induction ifaces as [|iface ifaces IH]; intros k fallback; cbn [find_interface]; [by left|].
  assert (forall fb, find_interface ifaces name (S k) fb = Some i -> (fb = Some i -> fallback = Some i \/
    exists fields, i = k /\ iface = Obj fields /\ foldKey (field_string fields "name") = foldKey name) ->
    fallback = Some i \/ exists fields, (k <= i)%nat /\ (iface :: ifaces) !! (i - k)%nat = Some (Obj fields) /\ foldKey (field_string fields "name") = foldKey name) as Hrest.
  { intros fb Hf Hfb. destruct (IH (S k) fb Hf) as [He|(fields & Hle & Hl & Hn)].
    - destruct (Hfb He) as [?|(fields & -> & -> & Hn)]; [by left|]. right. exists fields. split; [lia|]. by rewrite Nat.sub_diag.
    - right. exists fields. split; [lia|]. by replace (i - k)%nat with (S (i - S k)) by lia. }
  destruct iface as [| | | | | |fields|]; try (intros Hf; apply (Hrest fallback Hf); by left).
  destruct (String.eqb_spec (field_string fields "name") name) as [He|Hne].
  - intros [= ->]. right. exists fields. rewrite Nat.sub_diag. cbn. split; [lia|]. by rewrite He.
  - intros Hf. apply (Hrest _ Hf). destruct fallback as [j|]; [by left|]. destruct (String.eqb_spec (foldKey (field_string fields "name")) (foldKey name)); [|done].
    intros [= ->]. right. by exists fields.
Qed.

Lemma findInterfaceIndex_some ifaces name i :
  findInterfaceIndex ifaces name = Some i -> exists fields, ifaces !! i = Some (Obj fields) /\ foldKey (field_string fields "name") = foldKey name.
Proof. intros [?|(fields & _ & Hl & Hn)]%find_interface_some; [done|]. exists fields. by rewrite Nat.sub_0_r in Hl. Qed.

(** The first interface of a name is found by it. *)
Lemma findInterfaceIndex_first ifaces name i fields :
  ifaces !! i = Some (Obj fields) -> field_string fields "name" = name ->
  (forall j fields', (j < i)%nat -> ifaces !! j = Some (Obj fields') -> foldKey (field_string fields' "name") <> foldKey name) ->
  findInterfaceIndex ifaces name = Some i.
Proof.
  intros Hi Hn Hfirst. unfold findInterfaceIndex. change i with (0 + i)%nat. assert (None = @None nat) as Hfb by done. revert Hfb. generalize (@None nat) at 1 3 as fb.
  generalize 0%nat as k. revert i Hi Hfirst. induction ifaces as [|iface ifaces IH]; intros i Hi Hfirst k fb ->; [done|]. destruct i as [|i].
  - injection Hi as ->. cbn [find_interface]. rewrite Hn, String.eqb_refl. by rewrite Nat.add_0_r.
  - assert (find_interface ifaces name (S k) None = Some (k + S i)%nat) as Hrest.
    { replace (k + S i)%nat with (S k + i)%nat by lia. apply (IH i Hi); [|done]. intros j f Hj Hf. apply (Hfirst (S j) f); [lia|done]. }
    destruct iface as [| | | | | |f|]; try exact Hrest. cbn [find_interface]. pose proof (Hfirst 0%nat f ltac:(lia) eq_refl) as Hne.
    destruct (String.eqb_spec (field_string f "name") name) as [He|_]; [by rewrite He in Hne|].
    by rewrite (proj2 (String.eqb_neq (foldKey (field_string f "name")) (foldKey name)) Hne).
Qed.

(** The interface that a name is that of: the first with exactly that name, and
    where there is none, the first whose name differs in case only. *)
Definition first_at {A} (P : A -> Prop) (l : list A) (k : nat) : Prop :=
  (exists a, l !! k = Some a /\ P a) /\ forall j a, (j < k)%nat -> l !! j = Some a -> ~ P a.

Definition called (P : string -> Prop) (iface : any) : Prop := exists fields, iface = Obj fields /\ P (field_string fields "name").

Definition interface_of (ifaces : list any) (name : string) (k : nat) : Prop :=
  first_at (called (fun n => n = name)) ifaces k \/
  (Forall (fun iface => ~ called (fun n => n = name) iface) ifaces /\ first_at (called (fun n => foldKey n = foldKey name)) ifaces k).

Lemma first_at_fun {A} (P : A -> Prop) l j k : first_at P l j -> first_at P l k -> j = k.
Proof.
  intros [(a & Ha & Pa) Hj] [(b & Hb & Pb) Hk]. destruct (Nat.lt_trichotomy j k) as [Hlt|[?|Hlt]]; [|done|].
  - by destruct (Hk j a Hlt Ha).
  - by destruct (Hj k b Hlt Hb).
Qed.

Lemma interface_of_fun ifaces name j k : interface_of ifaces name j -> interface_of ifaces name k -> j = k.
Proof.
  assert (forall i, first_at (called (fun n => n = name)) ifaces i -> Forall (fun iface => ~ called (fun n => n = name) iface) ifaces -> False) as Hno.
  { intros i [(a & Ha & Pa) _] Hall. rewrite Forall_lookup in Hall. by apply (Hall i a). }
  intros [Hj|[Hj1 Hj2]] [Hk|[Hk1 Hk2]]; [by eapply first_at_fun|by destruct (Hno j)|by destruct (Hno k)|by eapply first_at_fun].
Qed.

(** The search, from an index on, with what it has before. *)
Lemma find_interface_of before ifaces name fallback :
  Forall (fun iface => ~ called (fun n => n = name) iface) before ->
  match fallback with
  | Some k => first_at (called (fun n => foldKey n = foldKey name)) (before ++ ifaces) k
  | None => Forall (fun iface => ~ called (fun n => foldKey n = foldKey name) iface) before
  end ->
  match find_interface ifaces name (length before) fallback with
  | Some k => interface_of (before ++ ifaces) name k
  | None => Forall (fun iface => ~ called (fun n => foldKey n = foldKey name) iface) (before ++ ifaces)
  end.
Proof.
  revert before fallback. induction ifaces as [|iface ifaces IH]; intros before fallback Hb Hf; cbn [find_interface].
  - rewrite app_nil_r in *. destruct fallback; [by right|done].
  - assert ((before ++ [iface]) ++ ifaces = before ++ iface :: ifaces) as Happ by (by rewrite <- app_assoc).
    assert (length (before ++ [iface]) = S (length before)) as Hlen by (rewrite length_app; cbn; lia).
    assert (forall P, ~ called P iface -> Forall (fun iface => ~ called P iface) before -> Forall (fun iface => ~ called P iface) (before ++ [iface])) as Hsnoc.
    { intros P Hi Hall. apply Forall_app. split; [done|]. by constructor. }
    assert (forall P, called P iface -> Forall (fun iface => ~ called P iface) before -> first_at (called P) (before ++ iface :: ifaces) (length before)) as Hhere.
    { intros P Hi Hall. split; [exists iface; split; [by apply list_lookup_middle|done]|]. intros j a Hj Ha. rewrite lookup_app_l in Ha by done. by eapply (Forall_lookup_1 _ _ _ _ Hall). }
    assert (~ called (fun n => foldKey n = foldKey name) iface -> match find_interface ifaces name (S (length before)) fallback with
      | Some k => interface_of (before ++ iface :: ifaces) name k
      | None => Forall (fun iface => ~ called (fun n => foldKey n = foldKey name) iface) (before ++ iface :: ifaces) end) as Hskip.
    { intros Hno. rewrite <- Hlen, <- Happ. apply IH.
      - apply Hsnoc; [|done]. intros (fields & -> & Hn). apply Hno. exists fields. by rewrite Hn.
      - destruct fallback; [by rewrite Happ|by apply Hsnoc]. }
    destruct iface as [| | | | | |fields|]; try (apply Hskip; by intros (? & ? & _)).
    destruct (String.eqb_spec (field_string fields "name") name) as [He|Hne].
    + left. apply Hhere; [by exists fields|done].
    + rewrite <- Hlen, <- Happ. apply IH; [apply Hsnoc; [|done]; by intros (? & [= <-] & ?)|]. destruct fallback as [k|]; [by rewrite Happ|].
      destruct (String.eqb_spec (foldKey (field_string fields "name")) (foldKey name)) as [Hfe|Hfe].
      * rewrite Happ. apply Hhere; [by exists fields|done].
      * apply Hsnoc; [|done]. by intros (? & [= <-] & ?).
Qed.

Lemma findInterfaceIndex_iff ifaces name k : findInterfaceIndex ifaces name = Some k <-> interface_of ifaces name k.
Proof.
  pose proof (find_interface_of [] ifaces name None ltac:(constructor) ltac:(constructor)) as Hfind. cbn [app length] in Hfind. unfold findInterfaceIndex. split.
  - intros E. by rewrite E in Hfind.
  - intros Hk. destruct (find_interface ifaces name 0 None) as [j|]; [f_equal; by eapply interface_of_fun|]. exfalso. rewrite Forall_lookup in Hfind.
    destruct Hk as [[(a & Ha & fields & -> & <-) _]|[_ [(a & Ha & Pa) _]]]; [|by apply (Hfind k a)]. apply (Hfind k _ Ha). by exists fields.
Qed.

(** ** Connections of a device *)

(** What becomes of the interface at an index: the VLAN of the network that a
    connection point of its name has. *)
Definition vlan_at (networks : gmap string Network) (ifaces : list any) (k : nat) (handles : list InterfaceHandle) (network : option Network) : Prop :=
  match network with
  | Some n => exists h, h ∈ handles /\ networks !! handle_ID h = Some n /\ findInterfaceIndex ifaces (handle_Name h) = Some k
  | None => forall h n, h ∈ handles -> networks !! handle_ID h = Some n -> findInterfaceIndex ifaces (handle_Name h) <> Some k
  end.

Definition with_vlan (network : option Network) (iface : any) : any :=
  match network with Some n => set_vlan (net_Name n) iface | None => iface end.

Lemma alter_keys vlan (k : nat) (ifaces : list any) : iface_key <$> alter (set_vlan vlan) k ifaces = iface_key <$> ifaces.
Proof.
  apply list_eq. intros j. rewrite !list_lookup_fmap. destruct (decide (k = j)) as [->|Hne].
  - rewrite list_lookup_alter_eq. destruct (ifaces !! j) as [i|]; [|done]. cbn. by rewrite set_vlan_key.
  - by rewrite list_lookup_alter_ne.
Qed.

Lemma set_vlan_twice a b iface : set_vlan a (set_vlan b iface) = set_vlan a iface.
Proof.
  destruct iface as [| | | | | |fields|]; try done. cbn. f_equal. induction fields as [|[k v] fields IH]; cbn; [done|].
  destruct (String.eqb k "vlan") eqn:E; cbn; rewrite E; [done|by rewrite IH].
Qed.

Lemma connect_all_spec node device index networks position handles ifaces ifaces' warnings :
  connect_all node device index networks position handles ifaces = (ifaces', warnings) ->
  length ifaces' = length ifaces /\ iface_key <$> ifaces' = iface_key <$> ifaces /\
  forall k, exists network, vlan_at networks ifaces k handles network /\ ifaces' !! k = with_vlan network <$> ifaces !! k.
Proof.
  revert position ifaces ifaces' warnings. induction handles as [|h handles IH]; intros position ifaces ifaces' warnings; cbn [connect_all].
  - intros [= <- _]. split; [done|]. split; [done|]. intros k. exists None. split; [by intros h n ?%elem_of_nil|]. by destruct (ifaces !! k).
  - destruct (connect_step _ _ _ _ _ h ifaces) as [ifaces1 w1] eqn:E1. destruct (connect_all _ _ _ _ _ handles ifaces1) as [ifaces2 w2] eqn:E2.
    intros [= <- _]. apply IH in E2 as (Hl & Hk & Hall). unfold connect_step in E1.
    destruct (networks !! handle_ID h) as [n|] eqn:En; [destruct (findInterfaceIndex ifaces (handle_Name h)) as [i|] eqn:Ei|]; injection E1 as <- <-.
    + rewrite alter_keys in Hk. rewrite length_alter in Hl. split; [done|]. split; [done|]. intros k. destruct (Hall k) as (network & Hv & Hk2).
      assert (forall name, findInterfaceIndex (alter (set_vlan (net_Name n)) i ifaces) name = findInterfaceIndex ifaces name) as Hsame
        by (intros name; apply find_interface_keys, alter_keys).
      destruct network as [n'|].
      * exists (Some n'). split; [destruct Hv as (h' & Hin & Hn' & Hf); exists h'; rewrite Hsame in Hf; split; [by right|done]|]. rewrite Hk2.
        destruct (decide (i = k)) as [->|Hne]; [|by rewrite list_lookup_alter_ne]. rewrite list_lookup_alter_eq. destruct (ifaces !! k); [|done]. cbn. by rewrite set_vlan_twice.
      * destruct (decide (i = k)) as [->|Hne].
        -- exists (Some n). split; [exists h; split; [by left|done]|]. rewrite Hk2, list_lookup_alter_eq. by destruct (ifaces !! k).
        -- exists None. split; [|by rewrite Hk2, list_lookup_alter_ne]. intros h' n' [->|Hin]%elem_of_cons Hn'; [rewrite Ei; congruence|]. rewrite <- Hsame. by eapply Hv.
    + split; [done|]. split; [done|]. intros k. destruct (Hall k) as (network & Hv & Hk2). exists network. split; [|done].
      destruct network as [n'|]; [destruct Hv as (h' & Hin & ?); exists h'; split; [by right|done]|].
      intros h' n' [->|Hin]%elem_of_cons Hn'; [by rewrite Ei|by eapply Hv].
    + split; [done|]. split; [done|]. intros k. destruct (Hall k) as (network & Hv & Hk2). exists network. split; [|done].
      destruct network as [n'|]; [destruct Hv as (h' & Hin & ?); exists h'; split; [by right|done]|].
      intros h' n' [->|Hin]%elem_of_cons Hn'; [congruence|by eapply Hv].
Qed.

End Interfaces.

(** ** Maps that loops fill *)

Section Fill.
Context {A V : Type} (entry : A -> option (string * V)).

Lemma fill_snoc l a : fill entry (l ++ [a]) = match entry a with Some (key, value) => <[ key := value ]> (fill entry l) | None => fill entry l end.
Proof. unfold fill. by rewrite foldl_app. Qed.

Lemma fill_some l key value : fill entry l !! key = Some value -> exists a, a ∈ l /\ entry a = Some (key, value).
Proof.
  induction l as [|a l IH] using rev_ind; [done|]. rewrite fill_snoc. destruct (entry a) as [[k v]|] eqn:E.
  - intros [[<- <-]|[_ Hl]]%lookup_insert_Some; [exists a; split; [apply elem_of_app; right; by left|done]|].
    destruct (IH Hl) as (b & Hb & ?). exists b. split; [apply elem_of_app; by left|done].
  - intros Hl. destruct (IH Hl) as (b & Hb & ?). exists b. split; [apply elem_of_app; by left|done].
Qed.

(** Where the entries of a key agree, the map has them. *)
Lemma fill_has l a key value :
  a ∈ l -> entry a = Some (key, value) -> (forall b value', b ∈ l -> entry b = Some (key, value') -> value' = value) ->
  fill entry l !! key = Some value.
Proof.
  induction l as [|b l IH] using rev_ind; [by intros ?%elem_of_nil|]. intros Ha He Hu. rewrite fill_snoc.
  assert (a ∈ l -> fill entry l !! key = Some value) as Hl.
  { intros Hin. apply IH; [done..|]. intros c v' Hc. apply Hu. apply elem_of_app. by left. }
  destruct (entry b) as [[k v]|] eqn:Eb.
  - destruct (decide (k = key)) as [->|Hne].
    + rewrite lookup_insert_eq. f_equal. apply (Hu b); [apply elem_of_app; right; by left|done].
    + rewrite lookup_insert_ne by done. apply elem_of_app in Ha as [Ha|Ha]; [auto|]. apply (list_elem_of_singleton a b) in Ha as ->. congruence.
  - apply elem_of_app in Ha as [Ha|Ha]; [auto|]. apply (list_elem_of_singleton a b) in Ha as ->. congruence.
Qed.

End Fill.

Lemma find_unique {A} (key : A -> string) l a :
  a ∈ l -> (forall b, b ∈ l -> key b = key a -> b = a) -> List.find (fun b => String.eqb (key b) (key a)) l = Some a.
Proof.
  intros Hin Hu. destruct (List.find _ l) as [b|] eqn:E.
  - apply List.find_some in E as [Hb He%String.eqb_eq]. f_equal. apply Hu; [by apply list_elem_of_In|done].
  - eapply List.find_none in E; [|by apply list_elem_of_In]. cbn in E. by rewrite String.eqb_refl in E.
Qed.

Section Valid.
Context `{Unicode, Libraries, PNG} (d : Document) (Hok : document_ok d).

Local Notation ns := (elems (Nodes d)).
Local Notation nets := (elems (Networks d)).

Lemma valid_nodes : nodes_ok d nets ns.
Proof. by destruct Hok as (_ & _ & ? & _). Qed.

Lemma valid_networks : networks_ok nets.
Proof. by destruct Hok as (_ & ? & _). Qed.

Lemma valid_edges : edges_ok ns (elems (Edges d)).
Proof. by destruct Hok as (_ & _ & _ & _ & ? & _). Qed.

Lemma NodeByID_valid n : n ∈ ns -> NodeByID d (node_ID n) = Some n.
Proof.
  intros Hn. unfold NodeByID. apply (find_unique node_ID); [done|]. intros b Hb He. apply (nodes_unique d nets ns); [exact valid_nodes|done..].
Qed.

Lemma NetworkByID_valid id : id ∈ net_ID <$> nets -> exists n, NetworkByID d id = Some n /\ n ∈ nets /\ net_ID n = id.
Proof.
  intros (n & -> & Hn)%list_elem_of_fmap. unfold NetworkByID. destruct (List.find _ _) as [m|] eqn:E.
  - apply List.find_some in E as [? He%String.eqb_eq]. exists m. by rewrite list_elem_of_In.
  - eapply List.find_none in E; [|by apply list_elem_of_In]. by rewrite String.eqb_refl in E.
Qed.

Lemma switch_network sn hub :
  sn ∈ ns -> node_Kind sn = NodeKindSwitch -> node_Switch sn = Some hub -> switchNetworks d !! node_ID sn = Some (NetworkByID d (sw_NetworkID hub)).
Proof.
  intros Hs Hk Hh. unfold switchNetworks. apply (fill_has _ _ sn); [done|unfold switch_entry; by rewrite Hk, Hh|].
  intros b v Hb. unfold switch_entry. destruct (node_Kind b) eqn:Kb, (node_Switch b) as [hb|] eqn:Eb; try done. intros [= He <-].
  apply (nodes_unique d nets ns valid_nodes) in He as ->; [|done..]. congruence.
Qed.

(** An edge that joins a handle to a switch gives the handle its network. *)
Lemma edge_network_joins e handle :
  joins ns e handle -> exists n, edge_network d e = Some (handle, n) /\ NetworkByID d (edge_NetworkID e) = Some n /\ n ∈ nets /\ net_ID n = edge_NetworkID e.
Proof.
  intros (dn & dev & h & sn & hub & Hdn & Hkd & Hdev & Hin & Hid & Hne & Hsn & Hks & Hhub & Hnet & Hends).
  destruct (switch_has_hub d nets ns valid_nodes sn Hsn Hks) as (hub' & Hhub' & Hsw & _). assert (hub' = hub) as -> by congruence.
  destruct (NetworkByID_valid _ Hsw) as (n & Hn & Hnin & Hnid). exists n. rewrite Hnet. split; [|done]. unfold edge_network.
  assert (exists s t, NodeByID d (SourceNodeID e) = Some s /\ NodeByID d (TargetNodeID e) = Some t /\
    edgeEndpoints (0%nat, s) (SourceHandleID e) (0%nat, t) (TargetHandleID e) = Some ((0%nat, dn), handle, (0%nat, sn))) as (s & t & -> & -> & ->).
  { destruct Hends as [(E1 & E2 & E3)|(E1 & E2 & E3)]; rewrite E1, E3, !NodeByID_valid by done; [exists dn, sn|exists sn, dn]; split_and!; try done;
      apply endpoints_iff; cbn [snd]; rewrite Hdev, Hkd, Hks; (split; [|split_and!; try done; by eexists]); [left|right]; by rewrite E2. }
  cbn [snd]. rewrite (switch_network sn hub) by done. by rewrite Hn.
Qed.

Lemma edge_joins e : e ∈ elems (Edges d) -> exists handle, joins ns e handle.
Proof.
  intros [i Hi]%list_elem_of_lookup. destruct valid_edges as (_ & _ & handles & Hf & _).
  destruct (Forall2_lookup_l _ _ _ _ _ Hf Hi) as (h & _ & Hj). by exists h.
Qed.

(** No handle is joined twice. *)
Lemma joins_once e e' handle : e ∈ elems (Edges d) -> e' ∈ elems (Edges d) -> joins ns e handle -> joins ns e' handle -> e = e'.
Proof.
  intros [i Hi]%list_elem_of_lookup [j Hj]%list_elem_of_lookup K1 K2. destruct valid_edges as (_ & _ & handles & Hf & Hd).
  destruct (Forall2_lookup_l _ _ _ _ _ Hf Hi) as (h & Hh & J1). destruct (Forall2_lookup_l _ _ _ _ _ Hf Hj) as (h' & Hh' & J2).
  rewrite (joins_unique d nets ns valid_nodes e h handle J1 K1) in Hh. rewrite (joins_unique d nets ns valid_nodes e' h' handle J2 K2) in Hh'.
  rewrite (NoDup_lookup _ _ _ _ Hd Hh Hh') in Hi. congruence.
Qed.

Lemma networks_unique n n' : n ∈ nets -> n' ∈ nets -> net_ID n = net_ID n' -> n = n'.
Proof.
  intros [i Hi]%list_elem_of_lookup [j Hj]%list_elem_of_lookup He. pose proof (ids_ok_NoDup _ (proj1 valid_networks)) as Hd.
  assert (i = j) as ->; [|congruence].
  eapply NoDup_lookup; [exact Hd| |]; rewrite list_lookup_fmap; [by rewrite Hi|]. rewrite Hj. cbn. by rewrite He.
Qed.

(** [handleNetworks] is the connections of the document. *)
Lemma handleNetworks_iff handle n :
  handleNetworks d !! handle = Some n <->
  exists e, e ∈ elems (Edges d) /\ joins ns e handle /\ n ∈ nets /\ net_ID n = edge_NetworkID e.
Proof.
  split.
  - intros (e & He & Hn)%fill_some. destruct (edge_joins e He) as (h & Hj). destruct (edge_network_joins e h Hj) as (n' & Hn' & _ & ? & ?).
    rewrite Hn in Hn'. injection Hn' as -> ->. by exists e.
  - intros (e & He & Hj & Hn & Hid). destruct (edge_network_joins e handle Hj) as (n' & Hn' & _ & Hin' & Hid').
    assert (n' = n) as -> by (apply networks_unique; congruence). apply (fill_has _ _ e); [done|done|]. intros e' v He' Hv.
    destruct (edge_joins e' He') as (h' & Hj'). destruct (edge_network_joins e' h' Hj') as (m & Hm & _). rewrite Hv in Hm. injection Hm as <- <-.
    assert (e' = e) as -> by (eapply joins_once; eassumption). congruence.
Qed.

(** ** The projection *)

Definition object (s : spec) (key : string) : spec := match field s key with Some (Obj fields) => fields | _ => [] end.

(** What a spec needs so that a host name can be set in it. *)
Definition nameable (s : spec) : Prop := match field s "general" with None | Some Null | Some (Obj _) => True | _ => False end.

Lemma set_hostname s name :
  nameable s <-> exists s', specSetString s name ["general"; "hostname"] = Some s'.
Proof.
  unfold nameable. cbn [specSetString]. destruct (field s "general") as [[]|]; cbn; split; try done; try (intros _; by eexists); by intros [? ?].
Qed.

Lemma set_general_fields s name g :
  object s "general" = g ->
  let s' := set_field s "general" (Obj (set_field g "hostname" (Str name))) in
  specString s' ["general"; "hostname"] = name /\
  (forall key, key <> "general" -> field s' key = field s key) /\
  (forall key, key <> "hostname" -> field (object s' "general") key = field (object s "general") key).
Proof.
  intros <- s'. unfold s', specString, spec_path. rewrite field_set_eq, field_set_eq. split; [done|]. split; intros key Hk.
  - by rewrite field_set_ne.
  - unfold object at 1. by rewrite field_set_eq, field_set_ne.
Qed.

Lemma set_hostname_fields s name s' :
  specSetString s name ["general"; "hostname"] = Some s' ->
  specString s' ["general"; "hostname"] = name /\
  (forall key, key <> "general" -> field s' key = field s key) /\
  (forall key, key <> "hostname" -> field (object s' "general") key = field (object s "general") key).
Proof.
  cbn [specSetString]. destruct (field s "general") as [[| | | | | |g|]|] eqn:E; try done; intros [= <-].
  - apply (set_general_fields s name []). unfold object. by rewrite E.
  - apply (set_general_fields s name g). unfold object. by rewrite E.
  - apply (set_general_fields s name []). unfold object. by rewrite E.
Qed.

Lemma set_hostname_field s name s' :
  specSetString s name ["general"; "hostname"] = Some s' -> field (object s' "general") "hostname" = Some (Str name).
Proof.
  cbn [specSetString]. destruct (field s "general") as [[| | | | | |g|]|] eqn:E; try done; intros [= <-]; unfold object; by rewrite !field_set_eq.
Qed.

Lemma hostname_read s name : field (object s "general") "hostname" = Some (Str name) -> specString s ["general"; "hostname"] = name.
Proof. unfold object, specString, spec_path. destruct (field s "general") as [[]|]; cbn; intros E; try done. by rewrite E. Qed.

Lemma specNodeInterfaces_general s name s' :
  specSetString s name ["general"; "hostname"] = Some s' -> specNodeInterfaces s' = specNodeInterfaces s.
Proof. intros (_ & Hf & _)%set_hostname_fields. unfold specNodeInterfaces. by rewrite Hf. Qed.

(** Interfaces can be replaced where there are any. *)
Lemma with_interfaces_spec s ifaces :
  (specNodeInterfaces s = [] -> ifaces = []) ->
  specNodeInterfaces (with_interfaces s ifaces) = ifaces /\
  (forall key, key <> "network" -> field (with_interfaces s ifaces) key = field s key) /\
  (forall key, key <> "interfaces" -> field (object (with_interfaces s ifaces) "network") key = field (object s "network") key).
Proof.
  unfold specNodeInterfaces, with_interfaces, object, field_list. intros Hi.
  destruct (field s "network") as [[| | | | | |network|]|] eqn:E; rewrite ?E; try (by rewrite Hi).
  destruct (field network "interfaces") as [[| | | | |l| |]|] eqn:En; rewrite ?E, ?En; try (by rewrite Hi).
  rewrite !field_set_eq. split; [done|]. split; intros key Hk; by rewrite field_set_ne.
Qed.

Lemma with_interfaces_same s : with_interfaces s (specNodeInterfaces s) = s.
Proof.
  unfold specNodeInterfaces, with_interfaces, field_list. destruct (field s "network") as [[| | | | | |network|]|] eqn:E; try done.
  destruct (field network "interfaces") as [[| | | | |l| |]|] eqn:En; try done. rewrite (set_field_same network) by done. by rewrite set_field_same.
Qed.

(** The interfaces of a spec. *)
Definition spec_interfaces (s : spec) : list any := match field (object s "network") "interfaces" with Some (Arr l) => l | _ => [] end.

Lemma spec_interfaces_eq s : specNodeInterfaces s = spec_interfaces s.
Proof. unfold specNodeInterfaces, spec_interfaces, object, field_list. by destruct (field s "network") as [[]|]. Qed.

(** The interface, in the VLAN. *)
Definition in_vlan (vlan : string) (iface iface' : any) : Prop :=
  exists fields fields', iface = Obj fields /\ iface' = Obj fields' /\ field fields' "vlan" = Some (Str vlan) /\
    forall key, key <> "vlan" -> field fields' key = field fields key.

(** What of a device is published: its spec in one form, with its host name,
    and with the VLAN of its network in each interface that is connected. *)
Definition published_as (dev : Device) (s : spec) : Prop :=
  exists b, plain (Obj (default [] (dev_Spec dev))) (Obj b) /\
    field (object s "general") "hostname" = Some (Str (Hostname dev)) /\
    (forall key, key <> "general" -> key <> "network" -> field s key = field b key) /\
    (forall key, key <> "hostname" -> field (object s "general") key = field (object b "general") key) /\
    (forall key, key <> "interfaces" -> field (object s "network") key = field (object b "network") key) /\
    length (spec_interfaces s) = length (spec_interfaces b) /\
    forall k iface, spec_interfaces b !! k = Some iface -> exists iface', spec_interfaces s !! k = Some iface' /\
      ((exists e h n, e ∈ elems (Edges d) /\ h ∈ Interfaces dev /\ joins ns e (handle_ID h) /\ n ∈ nets /\ net_ID n = edge_NetworkID e /\
          interface_of (spec_interfaces b) (handle_Name h) k /\ in_vlan (net_Name n) iface iface') \/
       ((forall e h, e ∈ elems (Edges d) -> h ∈ Interfaces dev -> joins ns e (handle_ID h) -> ~ interface_of (spec_interfaces b) (handle_Name h) k) /\
        iface' = iface)).

Lemma deviceSpec_published node dev index s warnings :
  deviceSpec node dev index (handleNetworks d) = Ok (s, warnings) -> published_as dev s.
Proof.
  unfold deviceSpec. intros (b & Hb%res_map_err_ok & Hs)%bind_ok.
  assert (exists b', b = Some b') as [b' ->].
  { unfold normalizeSpecMap in Hb. apply bind_ok in Hb as (w & Hw & Hm). cbn [normalizeSpec] in Hw. apply bind_ok in Hw as (out & _ & [= <-]). injection Hm as <-. by eexists. }
  cbn [default from_option id] in Hs. destruct (specSetString b' _ _) as [s0|] eqn:Es; [|done].
  destruct (connectInterfaces _ _ _ _ _) as [s1 w] eqn:Ec. injection Hs as <- _. unfold connectInterfaces in Ec.
  rewrite (specNodeInterfaces_general _ _ _ Es) in Ec. destruct (connect_all _ _ _ _ _ _ _) as [ifaces w'] eqn:Ea. injection Ec as <- _.
  apply connect_all_spec in Ea as (Hl & _ & Hk). apply set_hostname_field in Es as Hn. apply set_hostname_fields in Es as Hf. destruct Hf as (_ & Hf & Hg).
  destruct (with_interfaces_spec s0 ifaces) as (Hi & Hw & Hnet).
  { rewrite (specNodeInterfaces_general _ _ _ Es). intros He. rewrite He in Hl. by destruct ifaces. }
  exists b'. split; [by apply normalize_map_plain|]. rewrite <- !spec_interfaces_eq. split_and!.
  - unfold object. rewrite Hw by done. exact Hn.
  - intros key ? ?. by rewrite Hw, Hf.
  - intros key ?. unfold object. rewrite Hw by done. by apply Hg.
  - intros key ?. rewrite Hnet by done. unfold object. by rewrite Hf.
  - by rewrite Hi.
  - rewrite Hi. intros k iface Hk'. destruct (Hk k) as (network & Hv & Hat). rewrite Hk' in Hat. destruct network as [n|]; cbn in Hat.
    + eexists. split; [exact Hat|]. left. destruct Hv as (h & Hin & (e & He & Hj & Hnin & Hnid)%handleNetworks_iff & Hfind). exists e, h, n.
      destruct (findInterfaceIndex_some _ _ _ Hfind) as (fields & Hl' & _). assert (iface = Obj fields) as -> by congruence. apply findInterfaceIndex_iff in Hfind.
      split_and!; [done..|]. exists fields, (set_field fields "vlan" (Str (net_Name n))). split_and!; [done|done|by rewrite field_set_eq|]. intros key ?. by rewrite field_set_ne.
    + exists iface. split; [done|]. right. split; [|done]. intros e h He Hin Hj Hfind%findInterfaceIndex_iff. destruct (edge_network_joins e _ Hj) as (n & _ & _ & Hnin & Hnid).
      apply (Hv h n); [done| |done]. apply handleNetworks_iff. by exists e.
Qed.

Definition projected (node : Node) : option Device := if projectedDevice node then node_Device node else None.

(** The device of a node that the document starts itself. *)
Definition own_device (node : Node) : option Device :=
  match node_Kind node, node_Device node with
  | NodeKindDevice, Some dev => if decide (IncludedFrom dev = "") then Some dev else None
  | _, _ => None
  end.

Lemma projected_own node : projected node = own_device node.
Proof.
  unfold projected, own_device, projectedDevice. destruct (node_Kind node); cbn; try by destruct (node_Device node).
  destruct (node_Device node) as [dev|]; [|done]. destruct (String.eqb_spec (IncludedFrom dev) ""); by case_decide.
Qed.

Lemma device_specs_ok i nodes networks specs warnings :
  device_specs i nodes networks = Ok (specs, warnings) ->
  Forall2 (fun dev s => exists node index w, node_Device node = Some dev /\ deviceSpec node dev index networks = Ok (s, w)) (omap projected nodes) specs.
Proof.
  revert i specs warnings. induction nodes as [|node nodes IH]; intros i specs warnings; cbn [device_specs omap list_omap].
  - intros [= <- _]. constructor.
  - unfold projected at 1. destruct (node_Device node) as [dev|] eqn:Ed.
    + destruct (projectedDevice node); [|apply IH]. intros ([s w] & Hs & Hr)%bind_ok. apply bind_ok in Hr as ([specs' more] & Hr & [= <- _]).
      constructor; [by exists node, i, w|]. by eapply IH.
    + destruct (projectedDevice node); apply IH.
Qed.

Lemma device_specs_total i nodes networks :
  (exists specs, device_specs i nodes networks = Ok specs) <->
  Forall (fun dev => exists b, normalizeSpecMap (Obj (default [] (dev_Spec dev))) = Ok (Some b) /\ nameable b) (omap projected nodes).
Proof.
  revert i. induction nodes as [|node nodes IH]; intros i; cbn [device_specs omap list_omap]; [split; [constructor|by eexists]|].
  unfold projected at 1. destruct (node_Device node) as [dev|] eqn:Ed; [|by destruct (projectedDevice node)].
  destruct (projectedDevice node); [|done]. rewrite Forall_cons, <- (IH (i + 1)). clear IH.
  assert ((exists s w, deviceSpec node dev i networks = Ok (s, w)) <-> exists b, normalizeSpecMap (Obj (default [] (dev_Spec dev))) = Ok (Some b) /\ nameable b) as <-.
  { unfold deviceSpec. destruct (normalizeSpecMap _) as [b|] eqn:Eb; cbn [res_bind res_map_err]; [|split; [by intros (? & ? & ?)|by intros (? & ? & _)]].
    assert (exists b', b = Some b') as [b' ->].
    { unfold normalizeSpecMap in Eb. apply bind_ok in Eb as (w & Hw & Hm). cbn [normalizeSpec] in Hw. apply bind_ok in Hw as (out & _ & [= <-]). injection Hm as <-. by eexists. }
    cbn [default from_option id]. split.
    - intros (s & w & Hs). exists b'. split; [done|]. apply (set_hostname _ (Hostname dev)). destruct (specSetString _ _ _); [by eexists|done].
    - intros (b & [= <-] & Hn). apply (set_hostname _ (Hostname dev)) in Hn as [s ->]. destruct (connectInterfaces _ _ _ _ _). by eexists _, _. }
  split.
  - intros [specs Hs]. apply bind_ok in Hs as ([s w] & Hs & Hr). apply bind_ok in Hr as (r & Hr & _). split; [by exists s, w|by exists r].
  - intros [(s & w & ->) [[r more] ->]]. cbn. by eexists.
Qed.

End Valid.

Section Projection.
Context `{Unicode, Libraries, PNG}.

Lemma aliases_iff d name alias :
  document_ok d -> aliases_of (elems (Networks d)) !! name = Some alias <->
  exists n, n ∈ elems (Networks d) /\ net_Name n = name /\ Alias n = Some alias.
Proof.
  intros Hok. unfold aliases_of. split.
  - intros (n & Hn & Ha)%fill_some. exists n. destruct (Alias n); [|done]. by injection Ha as <- <-.
  - intros (n & Hn & <- & Ha). apply (fill_has _ _ n); [done|by rewrite Ha|]. intros m v Hm. destruct (Alias m) as [a|] eqn:Em; [|done]. intros [= He <-].
    destruct (valid_networks d Hok) as (_ & _ & Hd & _). apply list_elem_of_lookup in Hn as [i Hi]. apply list_elem_of_lookup in Hm as [j Hj].
    assert (i = j) as ->; [|congruence]. eapply NoDup_lookup; [exact Hd| |]; rewrite list_lookup_fmap; [by rewrite Hi|]. rewrite Hj. cbn. by rewrite He.
Qed.

(** C29: what a document publishes as. For a valid document the projection
    succeeds exactly when the host name of every device that is not included
    can be set in its spec. Then the nodes are those devices, in order, each
    with its spec, its host name, and in every interface that an edge joins to
    a switch the VLAN of that switch's network; no other interface and no
    other field changes. The includes are those of the source, and the aliases
    those of the networks. *)
Theorem ToTopology_spec order d :
  order ≡ₚ ["nodes"; "networks"; "edges"] -> Validate order d = None ->
  ((exists t, ToTopology order d = Ok t) <->
   Forall (fun dev => exists b, plain (Obj (default [] (dev_Spec dev))) (Obj b) /\ nameable b) (omap own_device (elems (Nodes d)))) /\
  forall t, ToTopology order d = Ok t ->
    (exists specs, field (top_Spec t) "nodes" = Some (Arr (map Obj specs)) /\ Forall2 (published_as d) (omap own_device (elems (Nodes d))) specs) /\
    field_list (top_Spec t) "includeTopologies" = map Str (match doc_Source d with Some source => IncludeTopologies source | None => [] end) /\
    forall name alias, VLANAliases t !! name = Some alias <->
      exists n, n ∈ elems (Networks d) /\ net_Name n = name /\ Alias n = Some alias.
Proof.
  intros Hp Hv. assert (document_ok d) as Hok by (rewrite <- (all_issues_nil order d Hp); unfold Validate in Hv; by destruct (all_issues order d)).
  assert (omap own_device (elems (Nodes d)) = omap projected (elems (Nodes d))) as Hown.
  { generalize (elems (Nodes d)) as l. induction l as [|n l IH]; [done|]. cbn [omap list_omap]. by rewrite IH, projected_own. }
  rewrite Hown. unfold ToTopology. rewrite Hv. split.
  - setoid_rewrite <- normalize_map_plain. rewrite <- (device_specs_total 0 _ (handleNetworks d)). split.
    + intros [t (r & Hr & _)%bind_ok]. by exists r.
    + intros [[specs w] ->]. by eexists.
  - intros t ([specs w] & Hs & [= <-])%bind_ok. cbn [top_Spec VLANAliases]. split; [|split].
    + exists specs. split; [done|]. apply device_specs_ok in Hs. eapply Forall2_impl; [exact Hs|].
      intros dev s (node & index & w' & _ & Hd). by eapply deviceSpec_published.
    + destruct (match doc_Source d with Some source => IncludeTopologies source | None => [] end) eqn:E; [done|]. by rewrite bool_decide_eq_false_2.
    + intros name alias. by apply aliases_iff.
Qed.

End Projection.
