(* ===== verification/PublishChecks.v ===== *)
(** * types/builder/topology.go: the checks of a publish

    What a publish asks of a projected topology that a draft need not have: a
    VLAN for every interface that phenix starts, addresses of its own on a
    network, and host names that phenix takes when it creates an experiment.
    An address is compared by its text, so [netip.ParseAddr] and [Addr.String]
    are written out for IPv6 too. *)

From Stdlib Require Import ZArith Lia Ascii String Strings.Byte.
From stdpp Require Import base option list gmap strings.
From S2P Require Import Prelude Text Printf Hostname Codes Document Specs Subnet Checks Layers Icons Validate Parents ValidateSpec EdgeSpec DocumentSpec Topology TopologySpec.

Open Scope Z_scope.
Open Scope go_scope.

Definition specHostname : string := "spec.general.hostname".
Definition specAddressKey : string := "address".
Definition hostnamePath : string := "device.hostname".

(** A text with verbs. *)
Definition problem (format : string) (args : list arg) : text := Sprintf format args.

(** ** [net/netip] beyond IPv4 *)

(** An address without a zone: the number of an IPv4 address, or the sixteen
    bytes of an IPv6 address. *)
Inductive Addr : Type :=
  | V4 (a : Z)
  | V6 (bytes : list Z).

(** The hexadecimal digits that a text begins with, and the rest. *)
Fixpoint take_hex (l : list Z) : list Z * list Z :=
  match l with
  | [] => ([], [])
  | b :: rest => match hex_value b with Some v => let '(ds, rest) := take_hex rest in (v :: ds, rest) | None => ([], l) end
  end.

(** The loop of [parseIPv6]: the bytes read, where the ellipsis is, and what is
    left. One step of fuel for each two bytes that there is room for. *)
Fixpoint v6_groups (fuel : nat) (bytes : list Z) (ellipsis : option nat) (s : list Z) : option (list Z * option nat * list Z) :=
  match fuel with
  | O => Some (bytes, ellipsis, s)
  | S fuel =>
      let '(digits, rest) := take_hex s in
      if (4 <? length digits)%nat || (length digits =? 0)%nat then None
      else if bool_decide (head rest = Some c_dot) then
        if bool_decide (ellipsis = None) && negb (length bytes =? 12)%nat then None
        else if (16 <? length bytes + 4)%nat then None
        else fields ← v4_fields None 0 0 [] s; Some (bytes ++ fields, ellipsis, [])
      else
        let acc := foldl (fun acc v => acc * 16 + v) 0 digits in
        let bytes := bytes ++ [acc / 256; acc mod 256] in
        match rest with
        | [] => Some (bytes, ellipsis, [])
        | c :: s =>
            if negb (c =? c_colon) || bool_decide (s = []) then None
            else if bool_decide (head s = Some c_colon) then
              if bool_decide (ellipsis <> None) then None
              else match tl s with [] => Some (bytes, Some (length bytes), []) | s => v6_groups fuel bytes (Some (length bytes)) s end
            else v6_groups fuel bytes ellipsis s
        end
  end.

(** The bytes with the ellipsis spelled out. *)
Definition v6_close (r : list Z * option nat * list Z) : option (list Z) :=
  let '(bytes, ellipsis, rest) := r in
  if negb (bool_decide (rest = [])) then None
  else
    match ellipsis with
    | None => if (length bytes =? 16)%nat then Some bytes else None
    | Some e => if (length bytes <? 16)%nat then Some (take e bytes ++ replicate (16 - length bytes) 0 ++ drop e bytes) else None
    end.

Definition parse_v6 (s : list Z) : option (list Z) :=
  match s with
  | a :: b :: rest =>
      if (a =? c_colon) && (b =? c_colon) then
        if bool_decide (rest = []) then Some (replicate 16 0) else v6_groups 8 [] (Some 0%nat) rest ≫= v6_close
      else v6_groups 8 [] None s ≫= v6_close
  | _ => v6_groups 8 [] None s ≫= v6_close
  end.

(** The text before the first percent sign, and the zone after it. *)
Fixpoint cut_zone (l : list Z) : list Z * option (list Z) :=
  match l with
  | [] => ([], None)
  | b :: rest => if b =? c_percent then ([], Some rest) else let '(s, zone) := cut_zone rest in (b :: s, zone)
  end.

(** [netip.ParseAddr], without the zone. *)
Definition ParseAddr (s : string) : option Addr :=
  let l := bytes_Z s in
  match family_byte l with
  | Some b =>
      if b =? c_dot then V4 <$> parse_addr4 s
      else if b =? c_colon then
        let '(text, zone) := cut_zone l in if bool_decide (zone = Some []) then None else V6 <$> parse_v6 text
      else None
  | None => None
  end.

(** [Addr.Unmap]. *)
Definition Unmap (a : Addr) : Addr :=
  match a with
  | V6 bytes => if bool_decide (take 12 bytes = replicate 10 0 ++ [255; 255]) then V4 (octets_value (drop 12 bytes)) else a
  | V4 _ => a
  end.

(** ** [Addr.String] *)

Fixpoint hex_text (fuel : nat) (z : Z) : list Z :=
  match fuel with
  | O => []
  | S fuel => (if z <? 16 then [] else hex_text fuel (z / 16)) ++ [hex_digit (z mod 16)]
  end.

Fixpoint v6_words (bytes : list Z) : list Z :=
  match bytes with hi :: lo :: bytes => (hi * 256 + lo) :: v6_words bytes | _ => [] end.

Fixpoint zeros (l : list Z) : nat := match l with 0 :: l => S (zeros l) | _ => 0%nat end.

(** The first of the longest runs of zeros that are longer than one word, as
    its start and its end. *)
Fixpoint longest_zeros (i : nat) (l : list Z) (best : nat * nat) : nat * nat :=
  match l with
  | [] => best
  | w :: rest =>
      let n := zeros l in
      longest_zeros (S i) rest (if (2 <=? n)%nat && (snd best - fst best <? n)%nat then (i, i + n)%nat else best)
  end.

Fixpoint v6_text (i : nat) (run : nat * nat) (l : list Z) : list Z :=
  match l with
  | [] => []
  | w :: rest =>
      if (i =? fst run)%nat && (fst run <? snd run)%nat then [c_colon; c_colon] ++ v6_text (S i) run rest
      else if (fst run <? i)%nat && (i <? snd run)%nat then v6_text (S i) run rest
      else (if (0 <? i)%nat && negb ((fst run <? snd run)%nat && (i =? snd run)%nat) then [c_colon] else []) ++ hex_text 4 w ++ v6_text (S i) run rest
  end.

Definition Addr_String (a : Addr) : string :=
  match a with
  | V4 a => addr_text a
  | V6 bytes => let words := v6_words bytes in Z_string (v6_text 0 (longest_zeros 0 words (0, 0)%nat) words)
  end.

(** ** The addresses of an interface *)

Definition specMACKey : string := "mac".
Definition defaultBridgeName : string := "phenix".

(** [strings.Trim] of ASCII white space. *)
Definition trimASCIISpace (text : string) : string := trim_set (fun b => (b =? 32) || ((9 <=? b) && (b <=? 13))) text.

(** [interfaceMAC]: the six bytes, whatever separates them. *)
Definition interfaceMAC (iface : spec) : option (list Z) :=
  let text := bytes_Z (trimASCIISpace (field_string iface specMACKey)) in
  mac ← hex_decode (List.filter (fun b => negb ((b =? c_colon) || (b =? 45) || (b =? c_dot))) text);
  if (length mac =? 6)%nat then Some mac else None.

(** [net.HardwareAddr.String]. *)
Definition mac_text (mac : list Z) : string := join ":" (map (fun b => Z_string [hex_digit (b / 16); hex_digit (b mod 16)]) mac).

(** [interfaceNetwork]: the bridge, none for the default, and the VLAN. *)
Definition interfaceNetwork (iface : spec) : string * string :=
  let bridge := field_string iface "bridge" in
  (if String.eqb bridge defaultBridgeName then "" else bridge, TrimSpace (field_string iface "vlan")).

(** ** VLANs *)

(** [specInterfaceVLAN]: one that is no object counts as named. *)
Definition specInterfaceVLAN (iface : any) : bool :=
  match iface with
  | Obj fields =>
      match field fields "vlan" with
      | None | Some Null => false
      | Some (Str vlan) => negb (blank vlan)
      | Some _ => true
      end
  | _ => true
  end.

(** Whether phenix starts the node: it is an object and not external. *)
Definition started_spec (entry : any) : option spec :=
  match entry with Obj node => if field_set node "external" then None else Some node | _ => None end.

Definition fill_vlan (iface : any) : any :=
  match iface with Obj fields => if field_set fields "vlan" then iface else Obj (set_field fields "vlan" (Str "")) | _ => iface end.

Definition fill_node (entry : any) : any :=
  match started_spec entry with Some node => Obj (with_interfaces node (map fill_vlan (specNodeInterfaces node))) | None => entry end.

Definition fillAbsentVLANs (s : spec) : spec :=
  match field s keyNodes with Some (Arr entries) => set_field s keyNodes (Arr (map fill_node entries)) | _ => s end.

Section Checks.
Context `{Unicode, Printable}.

(** [interfaceLabels]: each interface by its quoted name, or by its position
    when it has none or shares it. *)
Definition interface_label (names : list string) (index : nat) (name : string) : string :=
  if blank name then sprintf "#%d" [AInt (Z.of_nat index + 1)]
  else if (1 <? length (List.filter (String.eqb name) names))%nat then sprintf "%q (#%d)" [AStr name; AInt (Z.of_nat index + 1)]
  else Quote name.

Definition interfaceLabels (ifaces : list any) : list string :=
  let names := map interfaceName ifaces in imap (interface_label names) names.

Definition label_of (ifaces : list any) (index : nat) : string := default "" (interfaceLabels ifaces !! index).

(** The problem of an interface without a VLAN, and its issue. *)
Definition vlan_problem (nodes : list specNode) (position : nat) (node : spec) (index : nat) (iface : any) : option (text * Issue) :=
  if specInterfaceVLAN iface then None
  else
    let message := problem "interface %s of device %q has no VLAN: connect it to a network, or type a VLAN for it"
      [AStr (label_of (specNodeInterfaces node) index); AStr (specString node ["general"; "hostname"])] in
    let index := itoa (Z.of_nat index) in
    Some (message, locate (with_field (NewIssue CodeInterfaceVLANMissing "" message) ("spec.network.interfaces." +:+ index +:+ ".vlan")) nodes position
      ("device.spec.network.interfaces[" +:+ index +:+ "]")).

Definition vlan_problems (nodes : list specNode) (position : nat) (entry : any) : list (text * Issue) :=
  match started_spec entry with
  | Some node => omap (fun x => x) (imap (vlan_problem nodes position node) (specNodeInterfaces node))
  | None => []
  end.

(** A check that finds nothing is passed. *)
Definition blocker_of (found : list (text * Issue)) : option blocker :=
  match found with [] => None | _ => Some {| Problems := map fst found; blk_issues := map snd found |} end.

Definition checkInterfaceVLANs (s : spec) (nodes : list specNode) : option blocker :=
  blocker_of (concat (imap (vlan_problems nodes) (field_list s keyNodes))).

(** ** Host names *)

(** [utf8.RuneCountInString]. *)
Definition isShortHostname (hostname : string) : bool := (length (runes hostname) =? 1)%nat.

Definition hostnameCode (hostname : string) (refused : bool) : Code :=
  if refused && isShortHostname hostname then CodeNodeHostnameShort
  else if refused && String.eqb hostname minimegaWildcardVM then CodeNodeHostnameReserved
  else if refused && isDigits hostname then CodeNodeHostnameNumeric
  else if refused then CodeNodeHostnameWindows
  else if EqualFold hostname minimegaWildcardVM then CodeNodeHostnameReservedCase
  else CodeNodeHostnamePhenix.

Definition checkHostname (hostname osType : string) : res text (option text) :=
  if isShortHostname hostname then
    Err (problem ("hostname '%s' is 1 character long: phenix requires hostnames of at least 2 characters, " +:+ "as VyOS, Vyatta and Windows do")
      [AStr hostname])
  else CheckHostname hostname osType.

(** [startedNodes]: the position, the host name and the os_type of each node
    that phenix starts. *)
Definition started_node (position : nat) (entry : any) : option (nat * string * string) :=
  (fun node => (position, specString node ["general"; "hostname"], specString node ["hardware"; "os_type"])) <$> started_spec entry.

Definition startedNodes (s : spec) : list (nat * string * string) :=
  omap (fun x => x) (imap started_node (field_list s keyNodes)).

Definition hostname_issue (nodes : list specNode) (position : nat) (hostname : string) (refused : bool) (message : text) : text * Issue :=
  (message, locate (with_field (NewIssue (hostnameCode hostname refused) "" message) specHostname) nodes position hostnamePath).

Definition hostname_problem (nodes : list specNode) (n : nat * string * string) : option (text * Issue) :=
  let '(position, hostname, osType) := n in
  match checkHostname hostname osType with Err message => Some (hostname_issue nodes position hostname true message) | Ok _ => None end.

Definition hostname_warning (nodes : list specNode) (n : nat * string * string) : option (text * Issue) :=
  let '(position, hostname, osType) := n in
  match checkHostname hostname osType with Ok (Some message) => Some (hostname_issue nodes position hostname false message) | _ => None end.

Definition refused_hostname (n : nat * string * string) : bool :=
  let '(_, hostname, osType) := n in match checkHostname hostname osType with Err _ => true | Ok _ => false end.

(** [checkHostnames]: the problems, whether one is a single character, and the
    warnings about what is accepted. *)
Definition checkHostnames (s : spec) (nodes : list specNode) : option blocker * bool * list Issue :=
  let started := startedNodes s in
  let warnings := map snd (omap (hostname_warning nodes) started) in
  match blocker_of (omap (hostname_problem nodes) started) with
  | None => (None, false, warnings)
  | Some b => (Some b, existsb (fun n => refused_hostname n && isShortHostname (snd (fst n))) started, warnings)
  end.

(** ** Addresses that are shared *)

(** [interfaceIP]: the address an interface uses, as it is compared. *)
Definition interfaceIP (iface : spec) : option Addr :=
  let proto := ToLower (trimASCIISpace (field_string iface "proto")) in
  if String.eqb proto "dhcp" || String.eqb proto "manual" then None
  else let '(text, _, _) := cut_slash (field_string iface specAddressKey) in Unmap <$> ParseAddr (trimASCIISpace text).

Definition networkPhrase (bridge vlan : string) : string :=
  if String.eqb vlan "" then
    if String.eqb bridge "" then " without a VLAN" else sprintf " on bridge %q without a VLAN" [AStr bridge]
  else if String.eqb bridge "" then sprintf " on VLAN %q" [AStr vlan] else sprintf " on VLAN %q of bridge %q" [AStr vlan; AStr bridge].

(** [addressKey], [addressUse], [addressUsers]. *)
Record addressKey : Type := { ak_kind : string; ak_address : string; ak_bridge : string; ak_vlan : string }.

#[export] Instance addressKey_eq_dec : EqDecision addressKey.
Proof. solve_decision. Defined.

Record addressUse : Type := {
  use_key : addressKey; use_address : string; use_user : string; use_included : bool; use_code : Code;
  use_path : string; use_node : string; use_field : string;
}.

Record addressUsers : Type := { us_address : string; us_users : list string; us_own : nat; us_issue : Issue }.

(** The use of an address of a kind. *)
Definition address_use (i : Z) (node : Node) (device : Device) (labels : list string) (index : nat) (iface : spec)
    (kind address name : string) (code : Code) (key : string) : addressUse :=
  let '(bridge, vlan) := interfaceNetwork iface in
  {| use_key := {| ak_kind := kind; ak_address := address; ak_bridge := bridge; ak_vlan := vlan |};
     use_address := name +:+ " " +:+ address +:+ networkPhrase bridge vlan;
     use_user := sprintf "interface %s of device %q" [AStr (default "" (labels !! index)); AStr (Hostname device)];
     use_included := negb (String.eqb (IncludedFrom device) ""); use_code := code;
     use_path := "nodes[" +:+ itoa i +:+ "].device.spec.network.interfaces[" +:+ itoa (Z.of_nat index) +:+ "]." +:+ key;
     use_node := node_ID node; use_field := "spec.network.interfaces." +:+ itoa (Z.of_nat index) +:+ "." +:+ key |}.

Definition iface_uses (i : Z) (node : Node) (device : Device) (labels : list string) (external : bool) (index : nat) (entry : any) : list addressUse :=
  match entry with
  | Obj iface =>
      match interfaceIP iface with
      | Some addr => [address_use i node device labels index iface "ip" (Addr_String addr) "IP address" CodeInterfaceIPShared specAddressKey]
      | None => []
      end ++
      match interfaceMAC iface with
      | Some mac => if external then [] else [address_use i node device labels index iface "mac" (mac_text mac) "MAC address" CodeInterfaceMACShared specMACKey]
      | None => []
      end
  | _ => []
  end.

Definition node_uses (networks : gmap string Network) (i : nat) (node : Node) : list addressUse :=
  match node_Kind node, node_Device node with
  | NodeKindDevice, Some device =>
      match normalizeSpecMap (Obj (default [] (dev_Spec device))) with
      | Err _ => []
      | Ok s =>
          let '(s, _) := connectInterfaces node device (Z.of_nat i) (default [] s) networks in
          let ifaces := specNodeInterfaces s in
          concat (imap (iface_uses (Z.of_nat i) node device (interfaceLabels ifaces) (field_set s "external")) ifaces)
      end
  | _, _ => []
  end.

Definition eachAddressUse (d : Document) : list addressUse := concat (imap (node_uses (handleNetworks d)) (elems (Nodes d))).

(** The users of one more use. *)
Definition with_user (u : addressUse) (e : addressUsers) : addressUsers := {|
  us_address := us_address e; us_users := us_users e ++ [use_user u];
  us_own := if use_included u then us_own e else S (us_own e);
  us_issue := if use_included u || negb (us_own e =? 0)%nat then us_issue e else placed (us_issue e) (use_path u) (use_node u) (use_field u) |}.

Definition new_users (u : addressUse) : addressUsers := {|
  us_address := use_address u; us_users := []; us_own := 0; us_issue := NewIssue (use_code u) "" (lit "") |}.

Fixpoint use_step (shared : list (addressKey * addressUsers)) (u : addressUse) : list (addressKey * addressUsers) :=
  match shared with
  | [] => [(use_key u, with_user u (new_users u))]
  | (key, e) :: rest => if decide (key = use_key u) then (key, with_user u e) :: rest else (key, e) :: use_step rest u
  end.

Definition users_phrase (users : list string) : string :=
  match users with
  | first :: second :: more =>
      match length more with
      | 0%nat => first +:+ " and " +:+ second
      | 1%nat => first +:+ ", " +:+ second +:+ " and 1 more interface"
      | n => sprintf "%s, %s and %d more interfaces" [AStr first; AStr second; AInt (Z.of_nat n)]
      end
  | _ => ""
  end.

Definition with_message (issue : Issue) (message : text) : Issue := {|
  iss_code := iss_code issue; iss_severity := iss_severity issue; iss_message := message; iss_path := iss_path issue; iss_node := iss_node issue;
  iss_edge := iss_edge issue; iss_network := iss_network issue; iss_field := iss_field issue |}.

Definition shared_problem (e : addressUsers) : option (text * Issue) :=
  if (length (us_users e) <? 2)%nat || (us_own e =? 0)%nat then None
  else
    let message := problem "%s is used by %s" [AStr (us_address e); AStr (users_phrase (us_users e))] in
    Some (message, with_message (us_issue e) message).

Definition checkInterfaceAddresses (d : Document) : option blocker :=
  blocker_of (omap (fun p => shared_problem (snd p)) (foldl use_step [] (eachAddressUse d))).

End Checks.

(** ** What the checks pass *)

Lemma filter_at {A} (P : A -> Prop) `{!forall x, Decision (P x)} (l : list A) i a :
  l !! i = Some a -> P a -> length (filter P l) = S (length (filter P (take i l)) + length (filter P (drop (S i) l))).
Proof.
  intros Hi Ha. rewrite <- (take_drop_middle l i a Hi) at 1. rewrite filter_app, filter_cons_True, length_app by done. cbn. lia.
Qed.

(** Two places of a list satisfy a predicate when its filter has two items. *)
Lemma filter_two {A} (P : A -> Prop) `{!forall x, Decision (P x)} (l : list A) i j a b :
  l !! i = Some a -> l !! j = Some b -> i <> j -> P a -> P b -> (2 <= length (filter P l))%nat.
Proof.
  intros Hi Hj Hij Ha Hb. rewrite (filter_at P l i a) by done. assert (b ∈ take i l \/ b ∈ drop (S i) l) as Hin.
  { destruct (decide (j < i)%nat) as [Hlt|].
    - left. apply list_elem_of_lookup. exists j. by rewrite lookup_take_lt.
    - right. apply list_elem_of_lookup. exists (j - S i)%nat. rewrite lookup_drop. rewrite <- Hj. f_equal. lia. }
  assert (forall k : list A, b ∈ k -> (0 < length (filter P k))%nat) as Hpos.
  { intros k Hk. destruct (filter P k) eqn:E; [|cbn; lia]. assert (b ∈ filter P k) as Hbk by (by apply list_elem_of_filter). rewrite E in Hbk. by apply elem_of_nil in Hbk. }
  destruct Hin as [Hin%Hpos|Hin%Hpos]; lia.
Qed.

Lemma filter_other {A} (P : A -> Prop) `{!forall x, Decision (P x)} (l : list A) i a :
  l !! i = Some a -> P a -> (2 <= length (filter P l))%nat -> exists j b, l !! j = Some b /\ i <> j /\ P b.
Proof.
  intros Hi Ha Hl. rewrite (filter_at P l i a Hi Ha) in Hl.
  assert (forall k : list A, (0 < length (filter P k))%nat -> exists j b, k !! j = Some b /\ P b) as Hpos.
  { intros k Hk. destruct (filter P k) as [|b f] eqn:E; [cbn in Hk; lia|]. assert (b ∈ filter P k) as Hb by (rewrite E; by left).
    apply list_elem_of_filter in Hb as [Hb Hin]. apply list_elem_of_lookup in Hin as [j Hj]. by exists j, b. }
  destruct (decide (0 < length (filter P (take i l)))%nat) as [H0|].
  - destruct (Hpos _ H0) as (j & b & Hj & Hb). apply lookup_take_Some in Hj as [Hj Hlt]. exists j, b. split; [done|]. split; [lia|done].
  - destruct (Hpos (drop (S i) l)) as (j & b & Hj & Hb); [lia|]. rewrite lookup_drop in Hj. exists (S i + j)%nat, b. split; [done|]. split; [lia|done].
Qed.

(** What is kept of the uses so far: each key once, with its users. *)
Record shared_ok (uses : list addressUse) (shared : list (addressKey * addressUsers)) : Prop := {
  sh_keys : NoDup shared.*1;
  sh_all : forall u, u ∈ uses -> use_key u ∈ shared.*1;
  sh_users : forall key e, (key, e) ∈ shared -> length (us_users e) = length (filter (fun u => use_key u = key) uses);
  sh_own : forall key e, (key, e) ∈ shared -> us_own e = 0%nat <-> forall u, u ∈ uses -> use_key u = key -> use_included u = true;
}.

Lemma use_step_keys shared u : (use_step shared u).*1 = if decide (use_key u ∈ shared.*1) then shared.*1 else shared.*1 ++ [use_key u].
Proof.
  induction shared as [|[key e] rest IH]; cbn [use_step]; [by destruct (decide _) as [[]%elem_of_nil|]|]. destruct (decide (key = use_key u)) as [->|Hne]; cbn [fmap list_fmap fst].
  - rewrite decide_True; [done|by left].
  - rewrite IH. destruct (decide (use_key u ∈ rest.*1)) as [Hin|Hin]; [rewrite decide_True; [done|by right]|].
    rewrite decide_False; [done|]. intros [He|?]%elem_of_cons; [by apply Hne|done].
Qed.

Lemma use_step_elem shared u key e :
  NoDup shared.*1 -> (key, e) ∈ use_step shared u ->
  key <> use_key u /\ (key, e) ∈ shared \/
  key = use_key u /\ ((exists e0, (key, e0) ∈ shared /\ e = with_user u e0) \/ key ∉ shared.*1 /\ e = with_user u (new_users u)).
Proof.
  induction shared as [|[k0 e0] rest IH]; cbn [use_step]; intros Hnd Hin.
  - apply list_elem_of_singleton in Hin. injection Hin as -> ->. right. split; [done|]. right. split; [by intros ?%elem_of_nil|done].
  - cbn in Hnd. apply NoDup_cons in Hnd as [Hk Hnd]. destruct (decide (k0 = use_key u)) as [->|Hne].
    + apply elem_of_cons in Hin as [[= -> ->]|Hin]; [right; split; [done|]; left; exists e0; split; [by left|done]|].
      left. split; [|by right]. intros ->. apply Hk. by apply (list_elem_of_fmap_2 fst) in Hin.
    + apply elem_of_cons in Hin as [[= -> ->]|Hin]; [left; split; [done|by left]|]. destruct (IH Hnd Hin) as [[? ?]|[-> [(e1 & ? & ?)|[Hno ?]]]].
      * left. split; [done|by right].
      * right. split; [done|]. left. exists e1. split; [by right|done].
      * right. split; [done|]. right. split; [|done]. cbn. intros [?|?]%elem_of_cons; [by apply Hne|done].
Qed.

Lemma shared_step uses shared u : shared_ok uses shared -> shared_ok (uses ++ [u]) (use_step shared u).
Proof.
  intros [Hnd Hall Hus Hown]. assert (forall key, key ∉ shared.*1 -> filter (fun u => use_key u = key) uses = []) as Hnone.
  { intros key Hkey. apply elem_of_nil_inv. intros w [Hw Hin]%list_elem_of_filter. apply Hkey. rewrite <- Hw. by apply Hall. }
  split.
  - rewrite use_step_keys. destruct (decide _) as [|Hno]; [done|]. apply NoDup_app. split; [done|]. split; [|apply NoDup_singleton]. intros k Hk Hu. apply list_elem_of_singleton in Hu as ->. done.
  - intros w Hw. rewrite use_step_keys. apply elem_of_app in Hw as [Hw%Hall|Hw]; [|apply list_elem_of_singleton in Hw as ->].
    + destruct (decide _); [done|]. apply elem_of_app. by left.
    + destruct (decide _); [done|]. apply elem_of_app. right. by left.
  - intros key e Hin. rewrite filter_app, length_app. apply use_step_elem in Hin as [[Hne Hin]|[-> [(e0 & Hin & ->)|[Hno ->]]]]; [| | |done].
    + rewrite (filter_cons_False _ u []) by congruence. rewrite (Hus key e Hin). cbn. lia.
    + rewrite (filter_cons_True _ u []) by done. cbn. rewrite length_app, (Hus _ e0 Hin). done.
    + rewrite (filter_cons_True _ u []) by done. rewrite (Hnone _ Hno). done.
  - intros key e Hin. setoid_rewrite elem_of_app. setoid_rewrite list_elem_of_singleton. apply use_step_elem in Hin as [[Hne Hin]|[-> [(e0 & Hin & ->)|[Hno ->]]]]; [| | |done].
    + rewrite (Hown key e Hin). naive_solver.
    + specialize (Hown _ _ Hin). cbn. destruct (use_included u) eqn:Ei; [naive_solver|]. split; [done|]. intros Hu. specialize (Hu u ltac:(by right) eq_refl). congruence.
    + cbn. destruct (use_included u) eqn:Ei; split; try done.
      * intros _ w [Hw| ->] Hk; [|done]. assert (w ∈ filter (fun u0 => use_key u0 = use_key u) uses) as Hf by (by apply list_elem_of_filter). rewrite (Hnone _ Hno) in Hf. by apply elem_of_nil in Hf.
      * intros Hu. specialize (Hu u ltac:(by right) eq_refl). congruence.
Qed.

Lemma shared_all uses : shared_ok uses (foldl use_step [] uses).
Proof.
  induction uses as [|u uses IH] using rev_ind; [split; [constructor|by intros u ?%elem_of_nil|by intros k e ?%elem_of_nil|by intros k e ?%elem_of_nil]|].
  rewrite foldl_app. by apply shared_step.
Qed.

Lemma blocker_of_none found : blocker_of found = None <-> found = [].
Proof. by destruct found. Qed.

Lemma omap_nil {A B} (f : A -> option B) l : omap f l = [] <-> forall a, a ∈ l -> f a = None.
Proof.
  induction l as [|a l IH]; [split; [by intros _ a ?%elem_of_nil|done]|]. cbn. destruct (f a) as [b|] eqn:E.
  - split; [done|]. intros Hf. specialize (Hf a ltac:(by left)). congruence.
  - rewrite IH. split; [intros Hf b [->|Hb]%elem_of_cons; [done|by apply Hf]|intros Hf b Hb; apply Hf; by right].
Qed.

Lemma elem_of_imap_omap {A B} (f : nat -> A -> option B) l : omap (fun x => x) (imap f l) = [] <-> forall i a, l !! i = Some a -> f i a = None.
Proof.
  rewrite omap_nil. split.
  - intros Hf i a Hi. apply Hf. apply elem_of_lookup_imap. by exists i, a.
  - intros Hf o Ho. apply elem_of_lookup_imap in Ho as (i & a & -> & Hi). by apply Hf.
Qed.

(** ** What a publish asks, of the spec and of the document

    The nodes that phenix starts, the VLANs, the host names and the addresses,
    each as the fields that a reader of the spec sees, without the functions
    that read them. *)

Definition unset (s : spec) (key : string) : Prop := field s key = None \/ field s key = Some Null.

(** The text of a field: none where there is none, or where it is no text. *)
Definition text_at (s : spec) (key text : string) : Prop :=
  field s key = Some (Str text) \/ text = "" /\ forall t, field s key <> Some (Str t).

(** A node of a topology spec, and one that phenix starts. *)
Definition has_node (s node : spec) : Prop := exists l, field s "nodes" = Some (Arr l) /\ Obj node ∈ l.
Definition starts (s node : spec) : Prop := has_node s node /\ unset node "external".

(** The interface names its VLAN: with text that is not blank, or with what the
    schema refuses. *)
Definition names_vlan (iface : spec) : Prop :=
  exists v, field iface "vlan" = Some v /\ v <> Null /\ forall text, v = Str text -> TrimSpace text <> "".

Definition vlans_named (s : spec) : Prop :=
  forall node iface, starts s node -> Obj iface ∈ spec_interfaces node -> names_vlan iface.

(** A host name that an experiment can be made with, on a node of an os_type. *)
Definition name_taken `{Unicode} (hostname osType : string) : Prop :=
  length (runes hostname) <> 1%nat /\ hostname <> "all" /\
  ~ (hostname <> "" /\ Forall (fun b => 48 <= b <= 57) (bytes_Z hostname)) /\
  ~ (EqualFold hostname "phenix" = true /\ EqualFold osType "windows" = true).

Definition hostnames_taken `{Unicode} (s : spec) : Prop :=
  forall node hostname osType, starts s node -> text_at (object node "general") "hostname" hostname ->
    text_at (object node "hardware") "os_type" osType -> name_taken hostname osType.

(** The network that an edge joins a connection point to. *)
Definition connection (d : Document) (h : InterfaceHandle) (n : Network) : Prop :=
  exists e, e ∈ elems (Edges d) /\ joins (elems (Nodes d)) e (handle_ID h) /\ n ∈ elems (Networks d) /\ net_ID n = edge_NetworkID e.

(** The VLAN with which an interface of a device is published: that of the
    network that a connection point of its name has, or else its own. *)
Definition on_vlan `{Unicode} (d : Document) (dev : Device) (ifaces : list any) (k : nat) (iface : spec) (vlan : string) : Prop :=
  (exists h n, h ∈ Interfaces dev /\ connection d h n /\ interface_of ifaces (handle_Name h) k /\ vlan = net_Name n) \/
  (forall h n, h ∈ Interfaces dev -> connection d h n -> ~ interface_of ifaces (handle_Name h) k) /\ text_at iface "vlan" vlan.

(** The bridge of an interface: none and [phenix] are the default one. *)
Definition on_bridge (iface : spec) (bridge : string) : Prop :=
  exists text, text_at iface "bridge" text /\ (text = "phenix" /\ bridge = "" \/ text <> "phenix" /\ bridge = text).

(** The IP address that an interface uses: none with DHCP, and none that it is
    to be given by hand; and the MAC address. *)
Definition has_ip `{Unicode} (iface : spec) (address : string) : Prop :=
  exists proto text addr, text_at iface "proto" proto /\ ToLower (trimASCIISpace proto) ∉ ["dhcp"; "manual"] /\
    text_at iface "address" text /\ ParseAddr (trimASCIISpace (fst (fst (cut_slash text)))) = Some addr /\ address = Addr_String (Unmap addr).

Definition has_mac (iface : spec) (address : string) : Prop :=
  exists text mac, text_at iface "mac" text /\ length mac = 6%nat /\
    hex_decode (List.filter (fun b => negb ((b =? c_colon) || (b =? 45) || (b =? c_dot))) (bytes_Z (trimASCIISpace text))) = Some mac /\ address = mac_text mac.

(** The interface [k] of the device of the node [i] uses an address on a
    network. *)
Definition uses `{Unicode} (d : Document) (i : nat) (dev : Device) (k : nat) (kind address bridge vlan : string) : Prop :=
  exists node b iface v, elems (Nodes d) !! i = Some node /\ node_Kind node = NodeKindDevice /\ node_Device node = Some dev /\
    plain (Obj (default [] (dev_Spec dev))) (Obj b) /\ spec_interfaces b !! k = Some (Obj iface) /\
    on_bridge iface bridge /\ on_vlan d dev (spec_interfaces b) k iface v /\ vlan = TrimSpace v /\
    (kind = "ip" /\ has_ip iface address \/ kind = "mac" /\ unset b "external" /\ has_mac iface address).

(** No address is used twice on a network, but by included devices alone. *)
Definition addresses_apart `{Unicode} (d : Document) : Prop :=
  forall i dev k j dev' l kind address bridge vlan,
    uses d i dev k kind address bridge vlan -> uses d j dev' l kind address bridge vlan -> (i, k) <> (j, l) -> IncludedFrom dev <> "".

(** *** Fields *)

Lemma text_at_iff s key text : text_at s key text <-> field_string s key = text.
Proof. unfold text_at, field_string. destruct (field s key) as [[]|]; naive_solver. Qed.

Lemma unset_iff s key : unset s key <-> field_set s key = false.
Proof. unfold unset, field_set. destruct (field s key) as [[]|]; naive_solver. Qed.

Lemma specString_object s outer key : specString s [outer; key] = field_string (object s outer) key.
Proof. unfold specString, field_string, object. cbn [spec_path]. destruct (field s outer) as [[]|]; try done. cbn. by destruct (field fields key). Qed.

Lemma has_node_iff s node : has_node s node <-> Obj node ∈ field_list s keyNodes.
Proof.
  unfold has_node, field_list, keyNodes. destruct (field s "nodes") as [[]|]; try (split; [by intros (? & ? & _)|by intros ?%elem_of_nil]).
  split; [intros (l' & [= <-] & ?); done|by eexists].
Qed.

Lemma starts_iff s node : starts s node <-> exists entry, entry ∈ field_list s keyNodes /\ started_spec entry = Some node.
Proof.
  unfold starts. rewrite has_node_iff, unset_iff. split.
  - intros [Hn He]. exists (Obj node). split; [done|]. cbn. by rewrite He.
  - intros (entry & Hin & Hs). destruct entry; try done. cbn in Hs. destruct (field_set fields "external") eqn:E; [done|]. injection Hs as ->. done.
Qed.

Lemma started_iff s hostname osType :
  (exists position, (position, hostname, osType) ∈ startedNodes s) <->
  exists node, starts s node /\ text_at (object node "general") "hostname" hostname /\ text_at (object node "hardware") "os_type" osType.
Proof.
  setoid_rewrite text_at_iff. setoid_rewrite <- specString_object. setoid_rewrite starts_iff. unfold startedNodes. split.
  - intros [p (o & Ho & ->)%list_elem_of_omap]. apply elem_of_lookup_imap in Ho as (i & entry & He & Hi). unfold started_node in He.
    destruct (started_spec entry) as [node|] eqn:Es; [|done]. injection He as -> -> ->. exists node. split; [|done]. exists entry. split; [by eapply list_elem_of_lookup_2|done].
  - intros (node & (entry & Hin & Hs) & <- & <-). apply list_elem_of_lookup in Hin as [i Hi]. exists i. apply list_elem_of_omap.
    eexists. split; [apply elem_of_lookup_imap; exists i, entry; split; [reflexivity|done]|]. unfold started_node. by rewrite Hs.
Qed.

Lemma names_vlan_iff iface : specInterfaceVLAN (Obj iface) = true <-> names_vlan iface.
Proof.
  unfold names_vlan, specInterfaceVLAN, blank. destruct (field iface "vlan") as [v|]; [|split; [done|by intros (? & ? & _)]].
  destruct v as [| | | |text| | |]; try (split; [intros _; eexists; split; [done|]; split; [done|by intros]|done]).
  - split; [done|]. intros (? & [= <-] & ? & _). done.
  - destruct (String.eqb_spec (TrimSpace text) "") as [He|Hne]; split; try done.
    + intros (? & [= <-] & _ & Ht). by destruct (Ht text).
    + intros _. eexists. split; [done|]. split; [done|]. by intros ? [= <-].
Qed.

(** *** Host names *)

Lemma trim_left_all f l : trim_left_bytes f l = [] <-> Forall (fun b => f b = true) l.
Proof.
  induction l as [|b l IH]; cbn; [split; [constructor|done]|]. rewrite Forall_cons. destruct (f b) eqn:E; [rewrite IH; naive_solver|].
  split; [done|]. by intros [? _].
Qed.

Lemma trim_left_in f l : Forall (fun b => f b = true) (trim_left_bytes f l) -> trim_left_bytes f l = [].
Proof. induction l as [|b l IH]; cbn; [done|]. destruct (f b) eqn:E; [done|]. intros [Hb _]%Forall_cons. congruence. Qed.

Lemma Z_string_nil l : Z_string l = "" <-> l = [].
Proof. by destruct l. Qed.

Lemma trim_bytes_nil f l : trim_bytes f l = [] <-> Forall (fun b => f b = true) l.
Proof.
  unfold trim_bytes. split.
  - intros He. apply (f_equal (@rev Z)) in He. rewrite rev_involutive in He. cbn in He. apply trim_left_all in He. apply trim_left_all, trim_left_in.
    rewrite Forall_forall in He |- *. intros b Hb. apply He. by rewrite list_elem_of_In, <- in_rev, <- list_elem_of_In.
  - intros Ha. by rewrite (proj2 (trim_left_all _ _) Ha).
Qed.

Lemma digits_iff s : isDigits s = true <-> s <> "" /\ Forall (fun b => 48 <= b <= 57) (bytes_Z s).
Proof.
  unfold isDigits, trim_set. rewrite andb_true_iff, negb_true_iff, String.eqb_neq, String.eqb_eq, Z_string_nil, trim_bytes_nil.
  assert (forall b, is_digit b = true <-> 48 <= b <= 57) as Hd by (intros b; unfold is_digit, in_range; lia). by setoid_rewrite Hd.
Qed.

Section Names.
Context `{Unicode}.

Lemma equal_fold_length l l' : equal_fold l l' = true -> length l = length l'.
Proof. revert l'. induction l as [|r l IH]; intros [|r' l']; cbn; try done. intros [_ Hl]%andb_true_iff. f_equal. by apply IH. Qed.

Lemma name_taken_iff hostname osType : name_taken hostname osType <-> exists w, checkHostname hostname osType = Ok w.
Proof.
  unfold name_taken, checkHostname, isShortHostname, CheckHostname, checkHostnameKeywords. rewrite <- digits_iff.
  destruct (Nat.eqb_spec (length (runes hostname)) 1) as [|Hl]; [split; [by intros [? _]|by intros [? ?]]|].
  change minimegaWildcardVM with "all". change phenixHostname with "phenix". destruct (String.eqb_spec hostname "all") as [|Ha]; [split; [by intros (_ & ? & _)|by intros [? ?]]|].
  destruct (isDigits hostname); [split; [by intros (_ & _ & [] & _)|by intros [? ?]]|].
  destruct (EqualFold hostname "all") eqn:Ea.
  - split; [intros _; by eexists|]. intros _. split; [done|]. split; [done|]. split; [done|]. intros [Hp _]. unfold EqualFold in Ea, Hp.
    apply equal_fold_length in Ea, Hp. rewrite Ea in Hp. done.
  - destruct (EqualFold hostname "phenix"); [destruct (EqualFold osType "windows")|]; cbn [andb]; split; try (intros _; by eexists);
      try (by intros [? ?]); try (intros (_ & _ & _ & Hw); by destruct Hw); intros _; (split; [done|]); (split; [done|]); (split; [done|]); by intros [? ?].
Qed.

End Names.

(** *** Uses of addresses *)

(** The items that a list of lists has, each with where it comes from. *)
Lemma tags_concat {A B T} (f : nat -> A -> list B) (Q : nat -> A -> T -> B -> Prop) l :
  (forall i a, l !! i = Some a -> exists tl : list (T * B), map snd tl = f i a /\ NoDup (map fst tl) /\ forall t b, (t, b) ∈ tl <-> Q i a t b) ->
  exists tl : list (nat * T * B), map snd tl = concat (imap f l) /\ NoDup (map fst tl) /\ forall i t b, (i, t, b) ∈ tl <-> exists a, l !! i = Some a /\ Q i a t b.
Proof.
  induction l as [|a l IH] using rev_ind; intros Hf.
  - exists []. split; [done|]. split; [constructor|]. intros i t b. split; [by intros ?%elem_of_nil|by intros (? & ? & _)].
  - destruct IH as (tl & Hm & Hd & Hin); [intros i b Hi; apply Hf; by rewrite lookup_app_l by (by eapply lookup_lt_Some)|].
    destruct (Hf (length l) a) as (tl' & Hm' & Hd' & Hin'); [by rewrite list_lookup_middle|].
    exists (tl ++ map (fun p => (length l, fst p, snd p)) tl'). rewrite imap_app, concat_app. cbn. rewrite Nat.add_0_r, app_nil_r, map_app, map_map. cbn. split; [by rewrite Hm, <- Hm'|]. split.
    + rewrite map_app, map_map. cbn. apply NoDup_app. split; [done|]. split.
      * intros p ([[i t] b] & -> & Hi)%list_elem_of_fmap ([t' b'] & He & _)%list_elem_of_fmap. cbn in He. injection He as -> _. apply Hin in Hi as (x & Hx & _).
        apply lookup_lt_Some in Hx. lia.
      * rewrite <- (map_map fst (fun t => (length l, t))). apply NoDup_fmap_2; [|done]. by intros ? ? [= ->].
    + intros i t b. rewrite elem_of_app, Hin. split.
      * intros [(x & Hx & Hq)|([t' b'] & [= -> -> ->] & Hi)%list_elem_of_fmap].
        -- exists x. split; [|done]. by rewrite lookup_app_l by (by eapply lookup_lt_Some).
        -- exists a. split; [by rewrite list_lookup_middle|]. by apply Hin'.
      * intros (x & Hx & Hq). destruct (decide (i = length l)) as [->|Hne].
        -- right. rewrite list_lookup_middle in Hx by done. injection Hx as <-. apply Hin' in Hq. apply list_elem_of_fmap. by exists (t, b).
        -- left. exists x. split; [|done]. apply lookup_app_Some in Hx as [Hx|[Hle Hx]]; [done|]. apply lookup_lt_Some in Hx. cbn in Hx. lia.
Qed.

Lemma has_ip_iff `{Unicode} iface address : has_ip iface address <-> exists addr, interfaceIP iface = Some addr /\ address = Addr_String addr.
Proof.
  unfold has_ip, interfaceIP. setoid_rewrite text_at_iff. change specAddressKey with "address". split.
  - intros (proto & text & addr & Hp & Hno & <- & Ha & ->). rewrite Hp. exists (Unmap addr). split; [|done].
    destruct (String.eqb_spec (ToLower (trimASCIISpace proto)) "dhcp") as [He|_]; [destruct Hno; rewrite He; by left|].
    destruct (String.eqb_spec (ToLower (trimASCIISpace proto)) "manual") as [He|_]; [destruct Hno; rewrite He; right; by left|]. cbn [orb].
    destruct (cut_slash _) as [[before after] found]. cbn [fst] in Ha. by rewrite Ha.
  - intros (addr & Ha & ->). exists (field_string iface "proto"), (field_string iface "address").
    destruct (String.eqb_spec (ToLower (trimASCIISpace (field_string iface "proto"))) "dhcp") as [|Hd]; [done|].
    destruct (String.eqb_spec (ToLower (trimASCIISpace (field_string iface "proto"))) "manual") as [|Hm]; [done|]. cbn [orb] in Ha.
    destruct (cut_slash _) as [[before after] found]. apply fmap_Some in Ha as (addr' & Ha & ->). exists addr'. split; [done|]. split; [|done].
    by intros [?|[?|[]%elem_of_nil]%elem_of_cons]%elem_of_cons.
Qed.

Lemma has_mac_iff iface address : has_mac iface address <-> exists mac, interfaceMAC iface = Some mac /\ address = mac_text mac.
Proof.
  unfold has_mac, interfaceMAC. setoid_rewrite text_at_iff. change specMACKey with "mac". split.
  - intros (text & mac & -> & Hl & Hd & ->). exists mac. split; [|done]. rewrite Hd. cbn. by rewrite Hl.
  - intros (mac & Hm & ->). apply bind_Some in Hm as (mac' & Hd & Hm). destruct (Nat.eqb_spec (length mac') 6) as [Hl|]; [|done]. injection Hm as ->. by eexists _, mac.
Qed.

Lemma on_bridge_iff iface bridge : on_bridge iface bridge <-> fst (interfaceNetwork iface) = bridge.
Proof.
  unfold on_bridge, interfaceNetwork. setoid_rewrite text_at_iff. change defaultBridgeName with "phenix". cbn [fst].
  destruct (String.eqb_spec (field_string iface "bridge") "phenix"); naive_solver.
Qed.

(** What of an interface the address is read from is not its VLAN. *)
Lemma interface_reads `{Unicode} iface iface' :
  (forall key, key <> "vlan" -> field iface' key = field iface key) ->
  interfaceIP iface' = interfaceIP iface /\ interfaceMAC iface' = interfaceMAC iface /\ fst (interfaceNetwork iface') = fst (interfaceNetwork iface).
Proof.
  intros Hf. assert (forall key, key <> "vlan" -> field_string iface' key = field_string iface key) as Hs by (intros key Hk; unfold field_string; by rewrite Hf).
  unfold interfaceIP, interfaceMAC, interfaceNetwork. cbn [fst]. by rewrite !Hs.
Qed.

Section Uses.
Context `{Unicode, Printable, Libraries, PNG} (d : Document) (Hok : document_ok d).

Lemma connection_iff h n : connection d h n <-> handleNetworks d !! handle_ID h = Some n.
Proof. by rewrite handleNetworks_iff. Qed.

(** No two connection points of a device are at one interface. *)
Lemma one_connection dev ifaces h h' k :
  dev ∈ devices (elems (Nodes d)) -> h ∈ Interfaces dev -> h' ∈ Interfaces dev ->
  interface_of ifaces (handle_Name h) k -> interface_of ifaces (handle_Name h') k -> h = h'.
Proof.
  intros Hdev Hh Hh' Hk Hk'. apply findInterfaceIndex_iff, findInterfaceIndex_some in Hk as (f & Hf & Hn), Hk' as (f' & Hf' & Hn').
  assert (f' = f) as -> by congruence. rewrite Hn in Hn'. apply list_elem_of_omap in Hdev as (node & Hnode & Hdev).
  pose proof (valid_nodes d Hok) as (_ & Hall & _). rewrite Forall_forall in Hall. destruct (Hall node Hnode) as (_ & _ & Hp). unfold device_of in Hdev. case_decide as Hkind; [|done].
  assert (device_ok d dev) as (_ & _ & Hd & _). { unfold payload_ok in Hp. rewrite Hkind, Hdev in Hp. by apply Hp. }
  apply list_elem_of_lookup in Hh as [i Hi], Hh' as [j Hj]. assert (i = j) as ->; [|congruence].
  eapply NoDup_lookup; [exact Hd| |]; rewrite list_lookup_fmap; [by rewrite Hi|]. rewrite Hj. cbn. by rewrite Hn'.
Qed.

(** An interface after its connections. *)
Lemma published_iface node dev index ifaces ifaces' warnings k :
  dev ∈ devices (elems (Nodes d)) -> connect_all node dev index (handleNetworks d) 0 (Interfaces dev) ifaces = (ifaces', warnings) ->
  match ifaces !! k with
  | Some (Obj iface) => exists iface', ifaces' !! k = Some (Obj iface') /\ (forall key, key <> "vlan" -> field iface' key = field iface key) /\
      forall v, on_vlan d dev ifaces k iface v <-> field_string iface' "vlan" = v
  | other => ifaces' !! k = other
  end.
Proof.
  intros Hdev (_ & _ & Hall)%connect_all_spec. destruct (Hall k) as (network & Hv & Hk). destruct (ifaces !! k) as [entry|] eqn:Ek; [|by destruct network].
  destruct network as [n|]; cbn [with_vlan fmap option_fmap option_map] in Hk.
  - destruct Hv as (h & Hh & Hn & Hf). rewrite <- connection_iff in Hn. apply findInterfaceIndex_iff in Hf. destruct entry as [| | | | | |iface|]; try done.
    exists (set_field iface "vlan" (Str (net_Name n))). split; [done|]. split; [intros key ?; by rewrite field_set_ne|]. intros v.
    unfold field_string. rewrite field_set_eq. split.
    + intros [(h' & n' & Hh' & Hn' & Hf' & ->)|[Hno _]]; [|by destruct (Hno h n)]. rewrite (one_connection dev ifaces h h' k) in Hn by done.
      rewrite connection_iff in Hn, Hn'. congruence.
    + intros <-. left. by exists h, n.
  - destruct entry as [| | | | | |iface|]; try done. exists iface. split; [done|]. split; [done|]. intros v. rewrite <- text_at_iff. split.
    + intros [(h & n & Hh & Hn%connection_iff & Hf%findInterfaceIndex_iff & _)|[_ Hv']]; [by destruct (Hv h n)|done].
    + intros Hv'. right. split; [|done]. intros h n Hh Hn%connection_iff Hf%findInterfaceIndex_iff. by apply (Hv h n).
Qed.

Definition use_of (i : nat) (node : Node) (dev : Device) (labels : list string) (external : bool) (k : nat) (entry : any) (kind : string) (u : addressUse) : Prop :=
  exists iface, entry = Obj iface /\
    (kind = "ip" /\ (exists addr, interfaceIP iface = Some addr /\
       u = address_use (Z.of_nat i) node dev labels k iface "ip" (Addr_String addr) "IP address" CodeInterfaceIPShared specAddressKey) \/
     kind = "mac" /\ external = false /\ exists mac, interfaceMAC iface = Some mac /\
       u = address_use (Z.of_nat i) node dev labels k iface "mac" (mac_text mac) "MAC address" CodeInterfaceMACShared specMACKey).

Lemma iface_tags i node dev labels external k entry :
  exists tl : list (string * addressUse), map snd tl = iface_uses (Z.of_nat i) node dev labels external k entry /\ NoDup (map fst tl) /\
    forall kind u, (kind, u) ∈ tl <-> use_of i node dev labels external k entry kind u.
Proof.
  destruct entry as [| | | | | |iface|]; try (exists []; split; [done|]; split; [constructor|]; intros; split; [by intros ?%elem_of_nil|by intros (? & ? & _)]).
  set (ip addr := address_use (Z.of_nat i) node dev labels k iface "ip" (Addr_String addr) "IP address" CodeInterfaceIPShared specAddressKey).
  set (mac m := address_use (Z.of_nat i) node dev labels k iface "mac" (mac_text m) "MAC address" CodeInterfaceMACShared specMACKey).
  exists (option_list (pair "ip" <$> (ip <$> interfaceIP iface)) ++ option_list (pair "mac" <$> (if external then None else mac <$> interfaceMAC iface))). cbn [iface_uses].
  split; [by destruct (interfaceIP iface), (interfaceMAC iface), external|].
  split; [destruct (interfaceIP iface), (interfaceMAC iface), external; cbn; repeat constructor; set_solver|]. intros kind u. rewrite elem_of_app. unfold use_of.
  destruct (interfaceIP iface) as [a|] eqn:Ea, (interfaceMAC iface) as [m|] eqn:Em, external; cbn [fmap option_fmap option_map option_list]; rewrite ?list_elem_of_singleton; set_solver.
Qed.

(** The uses of a node: those of the interfaces of its device, as its
    connections leave them. *)
Definition node_use (i : nat) (node : Node) (tag : nat * string) (u : addressUse) : Prop :=
  exists dev b ifaces warnings entry, node_Kind node = NodeKindDevice /\ node_Device node = Some dev /\
    plain (Obj (default [] (dev_Spec dev))) (Obj b) /\
    connect_all node dev (Z.of_nat i) (handleNetworks d) 0 (Interfaces dev) (spec_interfaces b) = (ifaces, warnings) /\
    ifaces !! fst tag = Some entry /\ use_of i node dev (interfaceLabels ifaces) (field_set b "external") (fst tag) entry (snd tag) u.

Lemma node_tags i node :
  exists tl : list (nat * string * addressUse), map snd tl = node_uses (handleNetworks d) i node /\ NoDup (map fst tl) /\
    forall tag u, (tag, u) ∈ tl <-> node_use i node tag u.
Proof.
  assert ((forall tag u, ~ node_use i node tag u) -> node_uses (handleNetworks d) i node = [] ->
    exists tl : list (nat * string * addressUse), map snd tl = node_uses (handleNetworks d) i node /\ NoDup (map fst tl) /\ forall tag u, (tag, u) ∈ tl <-> node_use i node tag u) as Hnone.
  { intros Hno ->. exists []. split; [done|]. split; [constructor|]. intros tag u. split; [by intros ?%elem_of_nil|by intros ?%Hno]. }
  unfold node_uses in *. destruct (node_Kind node) eqn:Ek, (node_Device node) as [dev|] eqn:Ed;
    try (apply Hnone; [intros tag u (dev' & ? & ? & ? & ? & ? & ? & _); congruence|done]).
  destruct (normalizeSpecMap _) as [b|] eqn:Eb.
  2: { apply Hnone; [|done]. intros tag u (dev' & b & ? & ? & ? & _ & Hd & Hp & _). assert (dev' = dev) as -> by congruence. apply normalize_map_plain in Hp. congruence. }
  assert (exists b', b = Some b') as [b' ->].
  { unfold normalizeSpecMap in Eb. apply bind_ok in Eb as (w & Hw & Hm). cbn [normalizeSpec] in Hw. apply bind_ok in Hw as (out & _ & [= <-]). injection Hm as <-. by eexists. }
  cbn [default from_option id]. unfold connectInterfaces. rewrite spec_interfaces_eq. destruct (connect_all _ _ _ _ _ _ _) as [ifaces w] eqn:Ea.
  pose proof (connect_all_spec _ _ _ _ _ _ _ _ _ Ea) as (Hl & _). destruct (with_interfaces_spec b' ifaces) as (Hi & Hf & _).
  { rewrite spec_interfaces_eq. intros Hnil. rewrite Hnil in Hl. by destruct ifaces. }
  cbv zeta. rewrite Hi. assert (field_set (with_interfaces b' ifaces) "external" = field_set b' "external") as -> by (unfold field_set; by rewrite Hf).
  destruct (tags_concat (iface_uses (Z.of_nat i) node dev (interfaceLabels ifaces) (field_set b' "external"))
    (fun k entry kind u => use_of i node dev (interfaceLabels ifaces) (field_set b' "external") k entry kind u) ifaces) as (tl & Hm & Hd & Hin); [intros k entry _; apply iface_tags|].
  exists tl. split; [done|]. split; [done|]. intros [k kind] u. rewrite Hin. apply normalize_map_plain in Eb. split.
  - intros (entry & He & Hu). by exists dev, b', ifaces, w, entry.
  - intros (dev' & b & ifaces2 & w' & entry & _ & Hd' & Hp & Ha & He & Hu). assert (dev' = dev) as -> by congruence. apply normalize_map_plain in Hp, Eb. assert (b = b') as -> by congruence.
    rewrite Ea in Ha. injection Ha as <- <-. by exists entry.
Qed.

Lemma node_uses_iff i node dev k kind address bridge vlan :
  elems (Nodes d) !! i = Some node -> node_Kind node = NodeKindDevice -> node_Device node = Some dev ->
  uses d i dev k kind address bridge vlan <->
  exists u, node_use i node (k, kind) u /\ use_key u = {| ak_kind := kind; ak_address := address; ak_bridge := bridge; ak_vlan := vlan |} /\
    use_included u = negb (String.eqb (IncludedFrom dev) "").
Proof.
  intros Hi Hk Hd. assert (dev ∈ devices (elems (Nodes d))) as Hdev.
  { apply list_elem_of_omap. exists node. split; [by eapply list_elem_of_lookup_2|]. unfold device_of. by rewrite decide_True. }
  assert (forall iface kind address name code key labels, interfaceNetwork iface = (bridge, vlan) ->
    use_key (address_use (Z.of_nat i) node dev labels k iface kind address name code key) = {| ak_kind := kind; ak_address := address; ak_bridge := bridge; ak_vlan := vlan |} /\
    use_included (address_use (Z.of_nat i) node dev labels k iface kind address name code key) = negb (String.eqb (IncludedFrom dev) "")) as Huse.
  { intros iface kind' address' name code key labels En. unfold address_use. by rewrite En. }
  split.
  - intros (node' & b & iface & v & Hi' & _ & Hd' & Hp & Hb & Hbr & Hv & -> & Hu). assert (node' = node) as -> by congruence. clear Hi' Hd'.
    destruct (connect_all node dev (Z.of_nat i) (handleNetworks d) 0 (Interfaces dev) (spec_interfaces b)) as [ifaces w] eqn:Ea.
    pose proof (published_iface node dev _ _ _ _ k Hdev Ea) as Hpub. rewrite Hb in Hpub. destruct Hpub as (iface' & Hi' & Hf & Hvl). apply Hvl in Hv.
    destruct (interface_reads iface iface' Hf) as (Hip & Hmac & Hnet). apply on_bridge_iff in Hbr.
    assert (interfaceNetwork iface' = (bridge, TrimSpace v)) as En by (rewrite (surjective_pairing (interfaceNetwork iface')), Hnet, Hbr; unfold interfaceNetwork; cbn [snd]; by rewrite Hv).
    destruct Hu as [[-> (addr & Hat & ->)%has_ip_iff]|(-> & Hun%unset_iff & (mac & Hm & ->)%has_mac_iff)].
    + eexists. split; [|by apply (Huse iface')]. exists dev, b, ifaces, w, (Obj iface'). split_and!; try done. exists iface'. split; [done|]. left. split; [done|]. exists addr. by rewrite Hip.
    + eexists. split; [|by apply (Huse iface')]. exists dev, b, ifaces, w, (Obj iface'). split_and!; try done. exists iface'. split; [done|]. right. split; [done|]. split; [done|]. exists mac. by rewrite Hmac.
  - intros (u & (dev' & b & ifaces & w & entry & _ & Hd' & Hp & Ea & He & iface' & -> & Hu) & Hkey & _). assert (dev' = dev) as -> by congruence. cbn [fst snd] in *.
    pose proof (published_iface node dev _ _ _ _ k Hdev Ea) as Hpub. destruct (spec_interfaces b !! k) as [entry|] eqn:Hb; [|congruence].
    destruct entry as [| | | | | |iface|]; try congruence. destruct Hpub as (iface2 & Hi2 & Hf & Hvl). assert (iface2 = iface') as -> by congruence.
    destruct (interface_reads iface iface' Hf) as (Hip & Hmac & Hnet).
    assert (fst (interfaceNetwork iface') = bridge /\ snd (interfaceNetwork iface') = vlan /\
      (kind = "ip" /\ has_ip iface address \/ kind = "mac" /\ unset b "external" /\ has_mac iface address)) as (Hbr & Hvlan & Hc).
    { destruct Hu as [(-> & addr & Ha & ->)|(-> & Hx & mac & Hm & ->)]; unfold address_use in Hkey; destruct (interfaceNetwork iface') as [br vl]; injection Hkey as <- <- <-; (split; [done|]); (split; [done|]).
      - left. split; [done|]. apply has_ip_iff. exists addr. by rewrite <- Hip.
      - right. split; [done|]. split; [by apply unset_iff|]. apply has_mac_iff. exists mac. by rewrite <- Hmac. }
    exists node, b, iface, (field_string iface' "vlan"). split_and!; try done; [apply on_bridge_iff; congruence|by apply Hvl].
Qed.

(** The uses of the document, each once. *)
Lemma use_tags :
  exists tl : list (nat * (nat * string) * addressUse), map snd tl = eachAddressUse d /\ NoDup (map fst tl) /\
    forall i tag u, (i, tag, u) ∈ tl <-> exists node, elems (Nodes d) !! i = Some node /\ node_use i node tag u.
Proof. apply (tags_concat (node_uses (handleNetworks d)) node_use). intros i node _. apply node_tags. Qed.

Lemma use_reads i node dev k kind u :
  node_Device node = Some dev -> node_use i node (k, kind) u ->
  node_Kind node = NodeKindDevice /\ ak_kind (use_key u) = kind /\ use_included u = negb (String.eqb (IncludedFrom dev) "").
Proof.
  intros Hd (dev' & b & ifaces & w & entry & Hk & Hd' & _ & _ & _ & iface & _ & Hu). assert (dev' = dev) as -> by congruence. split; [done|]. cbn [snd] in Hu.
  unfold address_use in Hu. destruct (interfaceNetwork iface). by destruct Hu as [(-> & ? & _ & ->)|(-> & _ & ? & _ & ->)].
Qed.

Lemma apart_iff :
  addresses_apart d <->
  forall i j u w, eachAddressUse d !! i = Some u -> eachAddressUse d !! j = Some w -> i <> j -> use_key u = use_key w -> use_included u = true.
Proof.
  destruct use_tags as (tl & Hm & Hd & Hin). change (map fst tl) with (tl.*1) in Hd. change (map snd tl) with (tl.*2) in Hm. rewrite <- Hm. split.
  - intros Hap p q u w Hp Hq Hpq Hkey. rewrite !list_lookup_fmap in Hp, Hq.
    destruct (tl !! p) as [[[i [k kind]] u']|] eqn:Ep; [|done]. injection Hp as ->. destruct (tl !! q) as [[[j [l kind']] w']|] eqn:Eq; [|done]. injection Hq as ->.
    pose proof (proj1 (Hin _ _ _) (list_elem_of_lookup_2 _ _ _ Ep)) as (node & Hn & Hu). pose proof (proj1 (Hin _ _ _) (list_elem_of_lookup_2 _ _ _ Eq)) as (node' & Hn' & Hw).
    pose proof Hu as (dev & _ & _ & _ & _ & _ & Hdv & _). pose proof Hw as (dev' & _ & _ & _ & _ & _ & Hdv' & _).
    destruct (use_reads i node dev k kind u Hdv Hu) as (Hk & Hku & Hinc), (use_reads j node' dev' l kind' w Hdv' Hw) as (Hk' & Hkw & Hinc').
    assert (kind' = kind) as -> by congruence. assert ((i, k) <> (j, l)) as Hne.
    { intros [= -> ->]. apply Hpq. eapply (NoDup_lookup _ _ _ _ Hd); rewrite list_lookup_fmap; [by rewrite Ep|by rewrite Eq]. }
    destruct (use_key u) as [kd address bridge vlan] eqn:Eu. cbn in Hku. subst kd. rewrite Hinc. apply negb_true_iff, String.eqb_neq.
    apply (Hap i dev k j dev' l kind address bridge vlan); [|by (eapply node_uses_iff; [done..|exists w])|done]. by (eapply node_uses_iff; [done..|exists u]).
  - intros Hap i dev k j dev' l kind address bridge vlan U1 U2 Hne.
    assert (forall i dev k, uses d i dev k kind address bridge vlan -> exists p u, tl !! p = Some ((i, (k, kind)), u) /\
      use_key u = {| ak_kind := kind; ak_address := address; ak_bridge := bridge; ak_vlan := vlan |} /\ use_included u = negb (String.eqb (IncludedFrom dev) "")) as Hat.
    { intros i0 dev0 k0 U. pose proof U as (nd & b & iface & v & Hi & Hk & Hdv & _). destruct (proj1 (node_uses_iff i0 nd dev0 k0 kind address bridge vlan Hi Hk Hdv) U) as (u & Hu & Hkey & Hinc).
      assert ((i0, (k0, kind), u) ∈ tl) as [p Hp]%list_elem_of_lookup by (apply Hin; by exists nd). by exists p, u. }
    destruct (Hat i dev k U1) as (p & u & Hp & Hu & Hinc), (Hat j dev' l U2) as (q & w & Hq & Hw & _).
    apply String.eqb_neq, negb_true_iff. rewrite <- Hinc. apply (Hap p q u w).
    + rewrite list_lookup_fmap. by rewrite Hp.
    + rewrite list_lookup_fmap. by rewrite Hq.
    + intros ->. apply Hne. congruence.
    + congruence.
Qed.

End Uses.

Section Passed.
Context `{Unicode, Printable}.

Lemma addresses_pass d :
  checkInterfaceAddresses d = None <->
  forall i j u w, eachAddressUse d !! i = Some u -> eachAddressUse d !! j = Some w -> i <> j -> use_key u = use_key w -> use_included u = true.
Proof.
  unfold checkInterfaceAddresses. rewrite blocker_of_none, omap_nil. set (uses := eachAddressUse d). destruct (shared_all uses) as [Hnd Hall Hus Hown]. split.
  - intros Hp i j u w Hi Hj Hij Hk. assert (u ∈ uses) as Hu by (by apply list_elem_of_lookup_2 in Hi).
    pose proof (Hall u Hu) as Hin. apply list_elem_of_fmap in Hin as ([key e] & Hkey & Hin). cbn in Hkey. specialize (Hp _ Hin). unfold shared_problem in Hp. cbn [snd] in Hp.
    destruct (Nat.ltb_spec (length (us_users e)) 2) as [Hlt|].
    + rewrite (Hus key e Hin) in Hlt. pose proof (filter_two (fun u => use_key u = key) uses i j u w Hi Hj Hij Hkey ltac:(congruence)). lia.
    + cbn [orb] in Hp. destruct (Nat.eqb_spec (us_own e) 0) as [Ho|]; [|done]. by apply (proj1 (Hown key e Hin) Ho u Hu).
  - intros Hp [key e] Hin. unfold shared_problem. cbn [snd]. destruct (Nat.ltb_spec (length (us_users e)) 2) as [|Hge]; [done|]. cbn [orb].
    rewrite (proj2 (Nat.eqb_eq (us_own e) 0)); [done|]. apply (Hown key e Hin). intros u Hu Hk. apply list_elem_of_lookup in Hu as [i Hi].
    rewrite (Hus key e Hin) in Hge. destruct (filter_other (fun u => use_key u = key) uses i u Hi Hk Hge) as (j & w & Hj & Hij & Hw).
    apply (Hp i j u w); [done..|congruence].
Qed.

Lemma vlans_pass s nodes : checkInterfaceVLANs s nodes = None <-> vlans_named s.
Proof.
  unfold checkInterfaceVLANs, vlans_named. rewrite blocker_of_none, <- (map_id (imap _ _)), concat_nil, Forall_forall. setoid_rewrite starts_iff. setoid_rewrite <- spec_interfaces_eq.
  assert (forall position node index iface, vlan_problem nodes position node index iface = None <-> specInterfaceVLAN iface = true) as Hone
    by (intros; unfold vlan_problem; by destruct (specInterfaceVLAN iface)).
  split.
  - intros Hp node iface (entry & Hin & Hn) Hi. apply names_vlan_iff. apply list_elem_of_lookup in Hin as [p Hp']. specialize (Hp (vlan_problems nodes p entry)).
    assert (vlan_problems nodes p entry = []) as Hnil by (apply Hp, elem_of_lookup_imap; by exists p, entry). unfold vlan_problems in Hnil. rewrite Hn in Hnil.
    apply list_elem_of_lookup in Hi as [k Hk]. pose proof (proj1 (elem_of_imap_omap _ _) Hnil k _ Hk) as Hv. by apply Hone in Hv.
  - intros Hp l Hl. apply elem_of_lookup_imap in Hl as (p & entry & -> & He). unfold vlan_problems. destruct (started_spec entry) as [node|] eqn:Hn; [|done].
    apply elem_of_imap_omap. intros k iface Hk. apply Hone. destruct iface as [| | | | | |fields|]; try done. apply names_vlan_iff. apply list_elem_of_lookup_2 in He, Hk.
    apply (Hp node); [by exists entry|done].
Qed.

Lemma hostnames_pass s nodes : fst (fst (checkHostnames s nodes)) = None <-> hostnames_taken s.
Proof.
  unfold checkHostnames. transitivity (blocker_of (omap (hostname_problem nodes) (startedNodes s)) = None); [by destruct (blocker_of _)|].
  rewrite blocker_of_none, omap_nil.
  assert (forall p h o, hostname_problem nodes (p, h, o) = None <-> name_taken h o) as Hone.
  { intros p h o. rewrite name_taken_iff. unfold hostname_problem. destruct (checkHostname h o) as [w|]; [|naive_solver]. split; [intros _; by exists w|done]. }
  unfold hostnames_taken. split.
  - intros Hp node h o Hn Hh Ho. destruct (proj2 (started_iff s h o)) as [p Hin]; [by exists node|]. apply (Hone p). by apply Hp.
  - intros Hp [[p h] o] Hin. apply Hone. destruct (proj1 (started_iff s h o)) as (node & Hn & Hh & Ho); [by exists p|]. by eapply Hp.
Qed.

End Passed.

Section Publishable.
Context `{Unicode, Printable, Libraries, PNG} (order : list string).

(** C33: the checks of a publish pass exactly when they should. An interface
    of a node that phenix starts, one that is no [external] node, has to name
    its VLAN. An address must not be used twice on one network, the VLAN that
    the interface is published with and its bridge, unless both uses are by
    included devices; DHCP, interfaces set up by hand and the MAC addresses of
    external devices do not count. The host name of a node that phenix starts
    must not be of one character, [all], of digits alone, or [phenix] in any
    case on a Windows node. *)
Theorem publish_checks_iff d s nodes :
  order ≡ₚ ["nodes"; "networks"; "edges"] -> Validate order d = None ->
  (checkInterfaceVLANs s nodes = None <-> vlans_named s) /\
  (checkInterfaceAddresses d = None <-> addresses_apart d) /\
  (fst (fst (checkHostnames s nodes)) = None <-> hostnames_taken s).
Proof.
  intros Hp Hv. assert (document_ok d) as Hok by (rewrite <- (all_issues_nil order d Hp); unfold Validate in Hv; by destruct (all_issues order d)).
  split; [apply vlans_pass|]. split; [|apply hostnames_pass]. by rewrite addresses_pass, apart_iff.
Qed.

End Publishable.
