(* ===== verification/Warnings.v ===== *)
(** * types/builder/warnings.go: what phenix does not do as it is drawn

    The warnings about a valid document: firewall rulesets that nothing
    applies, addresses outside their subnet, gateways that nobody has, and
    subnets that overlap. The sweep over the subnets is shown to find exactly
    those that overlap another. *)

From Stdlib Require Import ZArith Lia Ascii String Strings.Byte.
From stdpp Require Import base option list gmap strings sorting.
From S2P Require Import Prelude Text Printf Hostname Codes Document Specs Subnet Checks Layers Icons Validate Topology PublishChecks.

Open Scope Z_scope.
Open Scope go_scope.

Definition ipv4Bits : Z := 32.

(** [rulesetKeys]: the keys, with the traffic each is about. *)
Definition rulesetKeys : list (string * string) := [("ruleset_in", "inbound"); ("ruleset_out", "outbound")].

(** [ownDevice]: the document starts and configures it. *)
Definition ownDevice (node : Node) : bool :=
  bool_decide (node_Kind node = NodeKindDevice) &&
  match node_Device node with
  | Some device => String.eqb (IncludedFrom device) "" && negb (field_set (default [] (dev_Spec device)) "external")
  | None => false
  end.

Definition node_spec (node : Node) : spec := default [] (node_Device node ≫= dev_Spec).
Definition node_hostname (node : Node) : string := match node_Device node with Some device => Hostname device | None => "" end.

(** An issue about a field of a device, at a path. *)
Definition field_issue (code : Code) (node : Node) (index : Z) (path field : string) (message : text) : Issue :=
  with_field (deviceIssue code node index path message) field.

Definition iface_path (index : nat) (key : string) : string := "device.spec.network.interfaces[" +:+ itoa (Z.of_nat index) +:+ "]." +:+ key.
Definition iface_field (index : nat) (key : string) : string := "spec.network.interfaces." +:+ itoa (Z.of_nat index) +:+ "." +:+ key.

(** ** Rulesets *)

Record rulesetRef : Type := { ref_index : nat; ref_key : string; ref_direction : string; ref_name : string }.

(** [specRulesets]: the names, and whether there is any ruleset. *)
Definition spec_ruleset_list (s : spec) : list any :=
  match field s "network" with Some (Obj network) => field_list network "rulesets" | _ => [] end.

Definition ruleset_name (entry : any) : option string :=
  match entry with Obj ruleset => match field ruleset "name" with Some (Str name) => Some name | _ => None end | _ => None end.

Definition specRulesets (s : spec) : gset string * bool :=
  let rulesets := spec_ruleset_list s in (list_to_set (omap ruleset_name rulesets), negb (bool_decide (rulesets = []))).

Definition iface_refs (index : nat) (entry : any) : list rulesetRef :=
  match entry with
  | Obj iface =>
      omap (fun use =>
        let name := field_string iface (fst use) in
        if String.eqb name "" then None
        else Some {| ref_index := index; ref_key := fst use; ref_direction := snd use; ref_name := name |}) rulesetKeys
  | _ => []
  end.

Definition rulesetRefs (ifaces : list any) : list rulesetRef := concat (imap iface_refs ifaces).

Section Warnings.
Context `{Unicode, Printable}.

Definition isRoutingType (deviceType : string) : bool := EqualFold deviceType "router" || EqualFold deviceType "firewall".

Definition rulesetsIgnored (node : Node) (index : Z) (deviceType : string) : Issue :=
  let kind := if String.eqb deviceType "" then "The device has no type" else sprintf "The type of the device is %q" [AStr deviceType] in
  field_issue CodeDeviceRulesetsIgnored node index "device.spec.type" "spec.type"
    (problem "device %q has firewall rulesets, but phenix applies them only to a device of type Router or Firewall. %s"
       [AStr (node_hostname node); AStr kind]).

Definition unknown_ruleset (node : Node) (index : Z) (ref : rulesetRef) : Issue :=
  field_issue CodeInterfaceRulesetUnknown node index (iface_path (ref_index ref) (ref_key ref)) (iface_field (ref_index ref) (ref_key ref))
    (problem ("interface %s of %q names ruleset %q for %s traffic, but the device has no ruleset of that name. " +:+
              "Thus phenix applies no %s firewall to the interface")
       [AStr (label_of (specNodeInterfaces (node_spec node)) (ref_index ref)); AStr (node_hostname node); AStr (ref_name ref);
        AStr (ref_direction ref); AStr (ref_direction ref)]).

Definition ruleset_warnings (index : nat) (node : Node) : list Issue :=
  if negb (ownDevice node) then []
  else
    let s := node_spec node in
    let '(names, defined) := specRulesets s in
    let refs := rulesetRefs (specNodeInterfaces s) in
    let deviceType := field_string s "type" in
    if negb (isRoutingType deviceType) then
      if defined || negb (bool_decide (refs = [])) then [rulesetsIgnored node (Z.of_nat index) deviceType] else []
    else map (unknown_ruleset node (Z.of_nat index)) (filter (fun ref => ref_name ref ∉ names) refs).

Definition rulesetWarnings (d : Document) : list Issue := concat (imap ruleset_warnings (elems (Nodes d))).

(** ** Addresses *)

Record networkMember : Type := { nm_node : nat; nm_index : nat; nm_iface : spec }.

(** A map that keeps the first entry of a key. *)
Definition fill_first {V : Type} (l : list (string * V)) : gmap string V :=
  foldl (fun m e => match m !! fst e with Some _ => m | None => <[ fst e := snd e ]> m end) ∅ l.

Definition connected_handles (d : Document) : gmap string string :=
  foldl (fun m e =>
    foldl (fun m handle => if String.eqb handle "" then m else <[ handle := edge_NetworkID e ]> m) m [SourceHandleID e; TargetHandleID e])
    ∅ (elems (Edges d)).

Definition names_exact (d : Document) : gmap string string := fill_first (map (fun n => (net_Name n, net_ID n)) (elems (Networks d))).
Definition names_folded (d : Document) : gmap string string := fill_first (map (fun n => (ToLower (net_Name n), net_ID n)) (elems (Networks d))).

(** [memberNetwork]: by the connection of its handle, else by its VLAN. *)
Definition memberNetwork (handles : list InterfaceHandle) (iface : spec) (connected exact folded : gmap string string) : string :=
  let by_handle :=
    match field iface "name" with
    | Some (Str name) => List.find (fun h => String.eqb (handle_Name h) name) handles ≫= (fun h => connected !! handle_ID h)
    | _ => None
    end in
  match by_handle with
  | Some id => id
  | None =>
      let vlan := TrimSpace (field_string iface "vlan") in
      if String.eqb vlan "" then ""
      else match exact !! vlan with Some id => id | None => default "" (folded !! ToLower vlan) end
  end.

(** [networkMembers]: each interface with the network it is on. *)
Definition iface_member (d : Document) (position : nat) (handles : list InterfaceHandle) (index : nat) (entry : any) : option (string * networkMember) :=
  match entry with
  | Obj iface =>
      let id := memberNetwork handles iface (connected_handles d) (names_exact d) (names_folded d) in
      if String.eqb id "" then None else Some (id, {| nm_node := position; nm_index := index; nm_iface := iface |})
  | _ => None
  end.

Definition node_members (d : Document) (position : nat) (node : Node) : list (string * networkMember) :=
  match node_Kind node, node_Device node with
  | NodeKindDevice, Some device => omap (fun x => x) (imap (iface_member d position (Interfaces device)) (specNodeInterfaces (default [] (dev_Spec device))))
  | _, _ => []
  end.

Definition networkMembers (d : Document) (id : string) : list networkMember :=
  omap (fun m => if String.eqb (fst m) id then Some (snd m) else None) (concat (imap (node_members d) (elems (Nodes d)))).

(** [hostIPv4]: the address an interface has as its own. *)
Definition hostIPv4 (iface : spec) : option Z :=
  let proto := ToLower (trimASCIISpace (field_string iface "proto")) in
  if String.eqb proto "dhcp" || String.eqb proto "manual" then None
  else let '(text, _, _) := cut_slash (field_string iface specAddressKey) in parse_addr4 (trimASCIISpace text).

Definition outside_member (d : Document) (net : Network) (subnet : Prefix) (member : networkMember) : option Issue :=
  match elems (Nodes d) !! nm_node member with
  | Some node =>
      if negb (match node_Device node with Some device => String.eqb (IncludedFrom device) "" | None => true end) then None
      else
        match hostIPv4 (nm_iface member) with
        | Some addr =>
            if IsSubnetHost subnet addr then None
            else
              Some (field_issue CodeInterfaceIPOutside node (Z.of_nat (nm_node member))
                (iface_path (nm_index member) specAddressKey) (iface_field (nm_index member) specAddressKey)
                (problem "IP address %s of interface %s of %q is not a host address of subnet %s of network %q"
                   [AStr (addr_text addr); AStr (label_of (specNodeInterfaces (node_spec node)) (nm_index member)); AStr (node_hostname node);
                    AStr (Subnet net); AStr (net_Name net)]))
        | None => None
        end
  | None => None
  end.

Definition outsideSubnet (d : Document) (net : Network) (subnet : Prefix) : list Issue :=
  omap (outside_member d net subnet) (networkMembers d (net_ID net)).

Definition network_issue (code : Code) (index : nat) (key : string) (net : Network) (message : text) : Issue :=
  let issue := NewIssue code ("networks[" +:+ itoa (Z.of_nat index) +:+ "]." +:+ key) message in
  {| iss_code := iss_code issue; iss_severity := iss_severity issue; iss_message := iss_message issue; iss_path := iss_path issue;
     iss_node := iss_node issue; iss_edge := iss_edge issue; iss_network := net_ID net; iss_field := iss_field issue |}.

(** The gateway, when the warning is asked about it: an IPv4 address that the
    subnet, if any, can have. *)
Definition asked_gateway (net : Network) (subnet : Prefix) (subnetOK : bool) : option Z :=
  match parse_addr4 (Gateway net) with
  | Some gateway =>
      if negb (String.eqb (Subnet net) "") && (negb subnetOK || negb (IsSubnetHost subnet gateway)) then None else Some gateway
  | None => None
  end.

Definition unownedGateway (net : Network) (index : nat) (subnet : Prefix) (subnetOK : bool) (members : list networkMember) : option Issue :=
  match asked_gateway net subnet subnetOK with
  | Some gateway =>
      if existsb (fun m => bool_decide (hostIPv4 (nm_iface m) = Some gateway)) members then None
      else
        Some (network_issue CodeNetworkGatewayUnowned index "gateway" net
          (problem ("no interface on network %q has its gateway address %s. Give that address to a router interface on the network, " +:+
                    "or change the gateway") [AStr (net_Name net); AStr (Gateway net)]))
  | None => None
  end.

(** ** Subnets that overlap *)

(** [subnetRange]: the addresses of the subnet of a network, from its first to
    the one after its last. *)
Record subnetRange : Type := { rg_index : nat; rg_base : Z; rg_end : Z; rg_text : string }.

Definition range_of (index : nat) (net : Network) : option subnetRange :=
  let '(subnet, ok) := ParseSubnet (Subnet net) in
  if ok then
    let base := ipv4Value (prefix_addr subnet) in
    Some {| rg_index := index; rg_base := base; rg_end := base + Z.shiftl 1 (ipv4Bits - prefix_bits subnet); rg_text := Subnet net |}
  else None.

Definition ranges (d : Document) : list subnetRange := omap (fun x => x) (imap range_of (elems (Networks d))).

(** By the first address, the largest first, then by the network. *)
Definition range_leb (a b : subnetRange) : bool :=
  if rg_base a =? rg_base b then
    if rg_end a =? rg_end b then (rg_index a <=? rg_index b)%nat else rg_end b <? rg_end a
  else rg_base a <? rg_base b.

(** The holders that end before the range are done with. *)
Fixpoint drop_ended (base : Z) (holders : list subnetRange) : list subnetRange :=
  match holders with
  | [] => []
  | holder :: rest => if rg_end holder <=? base then drop_ended base rest else holders
  end.

(** The other range: the last holder, or the next one if it begins inside. *)
Definition other_range (current : subnetRange) (holders rest : list subnetRange) : option subnetRange :=
  match holders, rest with
  | holder :: _, _ => Some holder
  | [], next :: _ => if rg_base next <? rg_end current then Some next else None
  | [], [] => None
  end.

(** The sweep: each range that overlaps, with one that it overlaps; the last
    holder is first. *)
Fixpoint sweep (holders : list subnetRange) (l : list subnetRange) : list (subnetRange * subnetRange) :=
  match l with
  | [] => []
  | current :: rest =>
      let holders := drop_ended (rg_base current) holders in
      (match other_range current holders rest with Some other => [(current, other)] | None => [] end) ++ sweep (current :: holders) rest
  end.

Definition network_at (d : Document) (index : nat) : option Network := elems (Networks d) !! index.

Definition overlap_issue (index : nat) (text : string) (net : Network) (other_text : string) (other : Network) : Issue :=
  network_issue CodeNetworkSubnetOverlap index "subnet" net
    (problem ("subnet %s of network %q overlaps subnet %s of network %q. Thus a router cannot route between them. " +:+
              "Ignore this warning for networks that never connect, such as isolated enclaves that reuse a subnet on purpose")
       [AStr text; AStr (net_Name net); AStr other_text; AStr (net_Name other)]).

Definition subnetOverlap (d : Document) (p : subnetRange * subnetRange) : option Issue :=
  net ← network_at d (rg_index (fst p)); other ← network_at d (rg_index (snd p));
  Some (overlap_issue (rg_index (fst p)) (rg_text (fst p)) net (rg_text (snd p)) other).

Definition overlappingSubnets (d : Document) : list Issue := omap (subnetOverlap d) (sweep [] (sort_by range_leb (ranges d))).

Definition network_warnings (d : Document) (index : nat) (net : Network) : list Issue :=
  let '(subnet, subnetOK) := ParseSubnet (Subnet net) in
  (if subnetOK then outsideSubnet d net subnet else []) ++
  option_list (unownedGateway net index subnet subnetOK (networkMembers d (net_ID net))).

Definition addressingWarnings (d : Document) : list Issue := concat (imap (network_warnings d) (elems (Networks d))) ++ overlappingSubnets d.

End Warnings.

(** ** The sweep is exact *)

Definition meets (a b : subnetRange) : Prop := exists x, rg_base a <= x < rg_end a /\ rg_base b <= x < rg_end b.

(** A range of addresses that a subnet can have. *)
Definition aligned (r : subnetRange) : Prop := exists h, 0 <= h /\ rg_end r = rg_base r + 2 ^ h /\ rg_base r mod 2 ^ h = 0.

Lemma aligned_nonempty r : aligned r -> rg_base r < rg_end r.
Proof. intros (h & Hh & -> & _). pose proof (Z.pow_pos_nonneg 2 h). lia. Qed.

Lemma range_leb_iff a b :
  range_leb a b = true <-> rg_base a < rg_base b \/ rg_base a = rg_base b /\ (rg_end b < rg_end a \/ rg_end a = rg_end b /\ (rg_index a <= rg_index b)%nat).
Proof.
  unfold range_leb. destruct (Z.eqb_spec (rg_base a) (rg_base b)); [|rewrite Z.ltb_lt; intuition lia].
  destruct (Z.eqb_spec (rg_end a) (rg_end b)); [rewrite Nat.leb_le; intuition lia|rewrite Z.ltb_lt; intuition lia].
Qed.

Lemma multiple_step m a b : 0 < m -> a mod m = 0 -> b mod m = 0 -> a < b -> a + m <= b.
Proof.
  intros Hm Ha Hb Hlt. apply Z.mod_divide in Ha as [p ->]; [|lia]. apply Z.mod_divide in Hb as [q ->]; [|lia].
  assert (p < q) by nia. nia.
Qed.

(** Of two subnets that meet, the first in the order holds the other. *)
Lemma aligned_nested a b : aligned a -> aligned b -> range_leb a b = true -> rg_base b < rg_end a -> rg_end b <= rg_end a.
Proof.
  intros (h & Hh & Ea & Ma) (k & Hk & Eb & Mb) Hle%range_leb_iff Hlt. pose proof (Z.pow_pos_nonneg 2 h). pose proof (Z.pow_pos_nonneg 2 k).
  destruct (Z.le_gt_cases k h) as [Hkh|Hkh].
  - assert (rg_end a mod 2 ^ k = 0) as Me.
    { replace h with (k + (h - k)) in Ea, Ma by lia. rewrite Z.pow_add_r in Ea, Ma by lia. set (m := 2 ^ k) in *. set (w := 2 ^ (h - k)) in *.
      assert (0 < w) by (apply Z.pow_pos_nonneg; lia). apply Z.mod_divide in Ma as [q Hq]; [|nia]. apply Z.mod_divide; [lia|].
      exists ((q + 1) * w). rewrite Ea, Hq. ring. }
    rewrite Eb. apply multiple_step; [lia|done..].
  - assert (rg_base b mod 2 ^ h = 0) as Mb'.
    { replace k with (h + (k - h)) in Mb by lia. rewrite Z.pow_add_r in Mb by lia. set (m := 2 ^ h) in *. set (w := 2 ^ (k - h)) in *.
      assert (0 < w) by (apply Z.pow_pos_nonneg; lia). apply Z.mod_divide in Mb as [q Hq]; [|nia]. apply Z.mod_divide; [lia|]. exists (q * w). rewrite Hq. ring. }
    destruct (Z.eq_dec (rg_base a) (rg_base b)); [intuition lia|]. pose proof (multiple_step (2 ^ h) (rg_base a) (rg_base b)). intuition lia.
Qed.

(** What is left of the holders: those that reach past the address. *)
Lemma drop_ended_spec base holders :
  StronglySorted (fun a b => rg_end a <= rg_end b) holders ->
  StronglySorted (fun a b => rg_end a <= rg_end b) (drop_ended base holders) /\
  (forall h, h ∈ drop_ended base holders <-> h ∈ holders /\ base < rg_end h).
Proof.
  induction 1 as [|a l Hl IH Ha]; cbn [drop_ended]; [split; [constructor|set_solver]|].
  destruct (Z.leb_spec (rg_end a) base).
  - split; [apply IH|]. intros h. rewrite (proj2 IH h), elem_of_cons. split; [by intros [? ?]; split; [right|]|]. intros [[->|?] ?]; [lia|done].
  - split; [by constructor|]. intros h. split; [|by intros [? ?]]. intros Hh. split; [done|]. apply elem_of_cons in Hh as [->|Hh]; [done|].
    rewrite Forall_forall in Ha. specialize (Ha h Hh). lia.
Qed.

(** The holders beside the ranges to come. *)
Record sweeping (holders l : list subnetRange) : Prop := {
  sw_aligned : Forall aligned (holders ++ l);
  sw_sorted : StronglySorted (fun a b => range_leb a b = true) l;
  sw_before : forall h r, h ∈ holders -> r ∈ l -> range_leb h r = true;
  sw_nested : StronglySorted (fun a b => rg_end a <= rg_end b) holders;
  sw_indices : NoDup (map rg_index (holders ++ l));
}.

Lemma sweeping_step holders current rest :
  sweeping holders (current :: rest) -> sweeping (current :: drop_ended (rg_base current) holders) rest.
Proof.
  intros [Ha Hs Hb Hn Hi]. destruct (drop_ended_spec (rg_base current) holders Hn) as [Hn' Hin]. apply StronglySorted_inv in Hs as [Hs Hc].
  rewrite Forall_forall in Ha, Hc. assert (forall h, h ∈ drop_ended (rg_base current) holders -> h ∈ holders) as Hsub by (intros h ?%Hin; tauto).
  split.
  - apply Forall_forall. intros r Hr. apply Ha. cbn in Hr. apply elem_of_cons in Hr as [->|Hr]; [apply elem_of_app; right; by left|].
    apply elem_of_app in Hr as [Hr%Hsub|Hr]; apply elem_of_app; [by left|right; by right].
  - done.
  - intros h r Hh Hr. apply elem_of_cons in Hh as [->|Hh%Hsub]; [by apply Hc|apply Hb; [done|by right]].
  - constructor; [done|]. apply Forall_forall. intros h [Hh Hlt]%Hin. apply aligned_nested; [apply Ha; apply elem_of_app; by left| |apply Hb; [done|by left]|done].
    apply Ha. apply elem_of_app. right. by left.
  - assert (sublist (drop_ended (rg_base current) holders) holders) as Hsl.
    { clear. induction holders as [|h holders IH]; cbn; [constructor|]. destruct (_ <=? _); [by apply sublist_cons|done]. }
    change ((current :: drop_ended (rg_base current) holders) ++ rest) with ([current] ++ drop_ended (rg_base current) holders ++ rest).
    rewrite (Permutation_app_swap_app [current]). eapply sublist_NoDup; [exact Hi|].
    apply fmap_sublist. by apply sublist_app.
Qed.

Lemma meets_base a b : rg_base a <= rg_base b -> rg_base b < rg_end a -> rg_base b < rg_end b -> meets b a.
Proof. intros. exists (rg_base b). lia. Qed.

Lemma distinct_index (l k : list subnetRange) a b : NoDup (map rg_index (l ++ k)) -> a ∈ l -> b ∈ k -> rg_index a <> rg_index b.
Proof.
  rewrite map_app. intros (_ & Hd & _)%NoDup_app Ha Hb He. apply (Hd (rg_index a)); [by apply list_elem_of_fmap_2|]. rewrite He. by apply list_elem_of_fmap_2.
Qed.

Lemma sweep_sound holders l : sweeping holders l ->
  sublist (map fst (sweep holders l)) l /\
  (forall r o, (r, o) ∈ sweep holders l -> r ∈ l /\ o ∈ holders ++ l /\ rg_index r <> rg_index o /\ meets r o).
Proof.
  revert holders. induction l as [|current rest IH]; intros holders Hsw; [split; [constructor|by intros r o ?%elem_of_nil]|].
  pose proof (sweeping_step _ _ _ Hsw) as Hsw'. destruct (IH _ Hsw') as [Hsub Hpairs]. destruct Hsw as [Ha Hs Hb Hn Hi].
  destruct (drop_ended_spec (rg_base current) holders Hn) as [_ Hin]. cbn [sweep]. rewrite Forall_forall in Ha.
  assert (aligned current) as Hac by (apply Ha, elem_of_app; right; by left). apply aligned_nonempty in Hac. apply StronglySorted_inv in Hs as [_ Hc]. rewrite Forall_forall in Hc.
  split.
  - rewrite map_app. destruct (other_range _ _ _); cbn; [by constructor|by apply sublist_cons].
  - intros r o [Hp|Hp]%elem_of_app.
    2:{ destruct (Hpairs r o Hp) as (Hr & Ho & Hne & Hm). split; [by right|]. split; [|done]. apply elem_of_app.
        cbn in Ho. apply elem_of_cons in Ho as [->|Ho]; [right; by left|]. apply elem_of_app in Ho as [[Ho _]%Hin|Ho]; [by left|right; by right]. }
    unfold other_range in Hp. destruct (drop_ended (rg_base current) holders) as [|h H'] eqn:Ed.
    + destruct rest as [|next rest]; [by apply elem_of_nil in Hp|]. destruct (Z.ltb_spec (rg_base next) (rg_end current)); [|by apply elem_of_nil in Hp].
      apply list_elem_of_singleton in Hp. injection Hp as -> ->. split; [by left|]. split; [apply elem_of_app; right; right; by left|].
      specialize (Hc next ltac:(by left)). apply range_leb_iff in Hc. split.
      * apply (distinct_index [current] (next :: rest)); [|by left|by left]. rewrite map_app in Hi. by apply NoDup_app in Hi as (_ & _ & Hi).
      * assert (aligned next) as Han%aligned_nonempty by (apply Ha, elem_of_app; right; right; by left). exists (rg_base next). lia.
    + apply list_elem_of_singleton in Hp. injection Hp as -> ->. assert (h ∈ holders /\ rg_base current < rg_end h) as [Hh Hlt] by (apply Hin; by left).
      split; [by left|]. split; [apply elem_of_app; by left|]. split.
      * apply not_eq_sym. apply (distinct_index holders (current :: rest)); [done..|by left].
      * specialize (Hb h current Hh ltac:(by left)). apply range_leb_iff in Hb. apply meets_base; lia.
Qed.

Lemma sweep_complete holders l : sweeping holders l ->
  forall r o, r ∈ l -> o ∈ holders ++ l -> rg_index r <> rg_index o -> meets r o -> r ∈ map fst (sweep holders l).
Proof.
  revert holders. induction l as [|current rest IH]; intros holders Hsw r o Hr Ho Hne Hm; [by apply elem_of_nil in Hr|].
  pose proof (sweeping_step _ _ _ Hsw) as Hsw'. destruct Hsw as [Ha Hs Hb Hn Hi]. destruct (drop_ended_spec (rg_base current) holders Hn) as [_ Hin].
  apply StronglySorted_inv in Hs as [Hs' Hc]. rewrite Forall_forall in Hc. cbn [sweep]. rewrite map_app. apply elem_of_app.
  destruct Hm as (x & Hxr & Hxo). apply elem_of_cons in Hr as [->|Hr].
  - left. unfold other_range. destruct (drop_ended (rg_base current) holders) as [|h H'] eqn:Ed; [|by left].
    apply elem_of_app in Ho as [Ho|Ho].
    + assert (o ∈ []) as []%elem_of_nil. apply Hin. split; [done|lia].
    + apply elem_of_cons in Ho as [->|Ho]; [done|]. destruct rest as [|next rest]; [by apply elem_of_nil in Ho|].
      assert (rg_base next <= rg_base o) as Hno.
      { apply elem_of_cons in Ho as [->|Ho]; [done|]. apply StronglySorted_inv in Hs' as [_ Hs']. rewrite Forall_forall in Hs'.
        specialize (Hs' o Ho). apply range_leb_iff in Hs'. lia. }
      rewrite (proj2 (Z.ltb_lt _ _)) by lia. by left.
  - right. apply (IH _ Hsw' r o); [done| |done|by exists x]. specialize (Hc r Hr). apply range_leb_iff in Hc.
    apply elem_of_app in Ho as [Ho|Ho].
    + cbn. right. apply elem_of_app. left. apply Hin. split; [done|lia].
    + apply elem_of_cons in Ho as [->|Ho]; [by left|]. cbn. right. apply elem_of_app. by right.
Qed.

(** ** The subnets of a document *)

(** The subnets of two networks have an address in common. *)
Definition subnets_meet (a b : Network) : Prop :=
  exists p q x, ParseSubnet (Subnet a) = (p, true) /\ ParseSubnet (Subnet b) = (q, true) /\ Contains p x = true /\ Contains q x = true.

Lemma contains_range a n x : 0 <= n <= 32 -> a mod 2 ^ (32 - n) = 0 -> Contains {| prefix_addr := a; prefix_bits := n |} x = true <-> a <= x < a + 2 ^ (32 - n).
Proof.
  intros Hn Hm. rewrite contains_iff by done. assert (0 < 2 ^ (32 - n)) as Hq by (apply Z.pow_pos_nonneg; lia). set (q := 2 ^ (32 - n)) in *.
  pose proof (Z.div_mod a q). pose proof (Z.div_mod x q). pose proof (Z.mod_pos_bound x q). split; [intros He; rewrite <- He in *; lia|].
  intros. assert (a / q = x / q); [|done]. nia.
Qed.

Lemma range_of_spec i net r :
  range_of i net = Some r <->
  exists p, ParseSubnet (Subnet net) = (p, true) /\ rg_index r = i /\ rg_text r = Subnet net /\ aligned r /\ (forall x, Contains p x = true <-> rg_base r <= x < rg_end r) /\
    rg_base r = prefix_addr p /\ rg_end r = prefix_addr p + Z.shiftl 1 (ipv4Bits - prefix_bits p).
Proof.
  unfold range_of. destruct (ParseSubnet (Subnet net)) as [p ok] eqn:Hp. destruct ok; [|split; [done|intros (? & [=] & ?)]].
  apply ParseSubnet_iff in Hp as (a & n & Ha & Hn & Hm & -> & Ht). cbn [prefix_addr prefix_bits]. unfold ipv4Value, ipv4Bits. rewrite Z.shiftl_1_l. split.
  - intros [= <-]. eexists. split; [done|]. cbn. split; [done|]. split; [done|]. split; [exists (32 - n); split; [lia|done]|]. split; [|by cbn; rewrite ?Z.shiftl_1_l]. intros x. by apply contains_range.
  - intros (q & [= <-] & <- & <- & _ & _ & Hb & He). cbn in Hb, He. rewrite Z.shiftl_1_l in He. rewrite <- Hb in He |- *. rewrite <- He. by destruct r.
Qed.

Lemma elem_of_ranges d r : r ∈ ranges d <-> exists net, network_at d (rg_index r) = Some net /\ range_of (rg_index r) net = Some r.
Proof.
  unfold ranges, network_at. rewrite list_elem_of_omap. split.
  - intros (o & Ho & ->). apply elem_of_lookup_imap in Ho as (i & net & Heq & Hi). exists net. pose proof Heq as Hr. symmetry in Hr. apply range_of_spec in Hr as (? & _ & -> & _). done.
  - intros (net & Hi & Hr). exists (Some r). split; [|done]. apply elem_of_lookup_imap. eauto.
Qed.

Lemma indexed_sublist (f : nat -> Network -> option subnetRange) k l :
  (forall i n r, f i n = Some r -> rg_index r = (k + i)%nat) -> sublist (map rg_index (omap (fun x => x) (imap f l))) (seq k (length l)).
Proof.
  revert f k. induction l as [|n l IH]; intros f k Hf; [constructor|]. rewrite imap_cons. cbn [length seq].
  assert (sublist (map rg_index (omap (fun x => x) (imap (f ∘ S) l))) (seq (S k) (length l))) as Hs by (apply IH; intros i n' r Hr; rewrite (Hf _ _ _ Hr); lia).
  cbn [omap list_omap]. destruct (f 0%nat n) as [r|] eqn:E; [|by apply sublist_cons]. cbn [map]. rewrite (Hf _ _ _ E), Nat.add_0_r. by constructor.
Qed.

Lemma sweeping_ranges d : sweeping [] (sort_by range_leb (ranges d)).
Proof.
  split; [| |by intros h r ?%elem_of_nil|constructor|].
  - cbn. rewrite sort_by_perm. apply Forall_forall. intros r (net & _ & Hr)%elem_of_ranges. by apply range_of_spec in Hr as (_ & _ & _ & _ & ? & _).
  - apply sort_by_sorted; [intros a b|intros a b c]; rewrite !range_leb_iff; lia.
  - cbn. rewrite (fmap_Permutation rg_index _ _ (sort_by_perm range_leb (ranges d))). eapply sublist_NoDup; [apply (NoDup_seq 0)|]. apply indexed_sublist.
    intros i n r (? & _ & -> & _)%range_of_spec. done.
Qed.

Lemma omap_total {A B} (f : A -> option B) (R : B -> A -> Prop) l :
  (forall a, a ∈ l -> exists b, f a = Some b /\ R b a) -> Forall2 R (omap f l) l.
Proof.
  induction l as [|a l IH]; intros Hl; [constructor|]. destruct (Hl a ltac:(by left)) as (b & Hb & Hr). cbn. rewrite Hb. constructor; [done|].
  apply IH. intros a' Ha'. apply Hl. by right.
Qed.

(** C34: a document is warned about the subnets of exactly those networks that
    have an address in common with the subnet of another network: one warning
    for each, which names one that it does overlap. *)
Theorem overlappingSubnets_exact d :
  exists pairs : list (nat * nat),
    Forall2 (fun issue p => exists net other,
      network_at d p.1 = Some net /\ network_at d p.2 = Some other /\ p.1 <> p.2 /\ subnets_meet net other /\
      issue = overlap_issue p.1 (Subnet net) net (Subnet other) other) (overlappingSubnets d) pairs /\
    NoDup pairs.*1 /\
    (forall i j net other, network_at d i = Some net -> network_at d j = Some other -> i <> j -> subnets_meet net other -> i ∈ pairs.*1).
Proof.
  pose proof (sweeping_ranges d) as Hsw. destruct (sweep_sound _ _ Hsw) as [Hsub Hs]. pose proof (sweep_complete _ _ Hsw) as Hc.
  unfold overlappingSubnets. set (l := sweep [] _) in *. exists ((fun p => (rg_index p.1, rg_index p.2)) <$> l). rewrite <- list_fmap_compose.
  assert (forall p, p ∈ l -> exists issue, subnetOverlap d p = Some issue /\ exists net other,
    network_at d (rg_index p.1) = Some net /\ network_at d (rg_index p.2) = Some other /\ rg_index p.1 <> rg_index p.2 /\ subnets_meet net other /\
    issue = overlap_issue (rg_index p.1) (Subnet net) net (Subnet other) other) as Hl.
  { intros [r o] Hp. destruct (Hs r o Hp) as (Hr & Ho & Hne & x & Hxr & Hxo). cbn in Ho. rewrite sort_by_perm in Hr, Ho.
    apply elem_of_ranges in Hr as (net & Hnet & Hr). apply elem_of_ranges in Ho as (other & Hother & Ho).
    apply range_of_spec in Hr as (p & Hp1 & _ & Ht & _ & Hcp & _). apply range_of_spec in Ho as (q & Hq1 & _ & Ht' & _ & Hcq & _).
    unfold subnetOverlap. cbn. rewrite Hnet, Hother. cbn. eexists. split; [done|]. exists net, other. rewrite Ht, Ht'. split_and!; try done.
    exists p, q, x. rewrite Hcp, Hcq. done. }
  split; [|split].
  - apply Forall2_fmap_r. apply omap_total. exact Hl.
  - change (NoDup ((rg_index ∘ fst) <$> l)). rewrite list_fmap_compose. eapply sublist_NoDup; [|apply fmap_sublist, Hsub].
    destruct Hsw as [_ _ _ _ Hi]. exact Hi.
  - intros i j net other Hi Hj Hij (p & q & x & Hp & Hq & Hxp & Hxq).
    assert (exists r, range_of i net = Some r /\ rg_base r <= x < rg_end r) as (r & Hr & Hxr).
    { unfold range_of. rewrite Hp. eexists. split; [done|]. apply ParseSubnet_iff in Hp as (a & n & _ & Hn & Hm & -> & _). apply contains_range in Hxp; [|done..].
      cbn. unfold ipv4Value, ipv4Bits. by rewrite Z.shiftl_1_l. }
    assert (exists o, range_of j other = Some o /\ rg_base o <= x < rg_end o) as (o & Ho & Hxo).
    { unfold range_of. rewrite Hq. eexists. split; [done|]. apply ParseSubnet_iff in Hq as (a & n & _ & Hn & Hm & -> & _). apply contains_range in Hxq; [|done..].
      cbn. unfold ipv4Value, ipv4Bits. by rewrite Z.shiftl_1_l. }
    pose proof Hr as (_ & _ & Hri & _)%range_of_spec. pose proof Ho as (_ & _ & Hoi & _)%range_of_spec.
    change (i ∈ (rg_index ∘ fst) <$> l). rewrite list_fmap_compose, <- Hri. apply list_elem_of_fmap_2.
    apply (Hc r o); cbn; rewrite ?sort_by_perm.
    + apply elem_of_ranges. exists net. by rewrite Hri.
    + apply elem_of_ranges. exists other. by rewrite Hoi.
    + by rewrite Hri, Hoi.
    + by exists x.
Qed.
