(* ===== verification/Publish.v ===== *)
(** * Publishing a document as a topology

    types/builder/devicewarnings.go: the settings of devices that phenix's apps
    do not apply as they are drawn, and those with which an experiment does not
    start. With them, topology.go decides whether a document is published: the
    projection, the checks in their order, and the errors and exports made of
    them. A topology that is published has host names that phenix takes. *)

From Stdlib Require Import ZArith Lia Ascii String Strings.Byte.
From stdpp Require Import base option list gmap strings.
From S2P Require Import Config Prelude Text Printf Decimal Hostname Codes Document Specs Subnet Checks Layers Icons Validate.
From S2P Require Import Parents ValidateSpec EdgeSpec DocumentSpec Topology TopologySpec PublishChecks Warnings.

Open Scope Z_scope.
Open Scope go_scope.

Definition labelNTPServer : string := "ntp-server".
Definition annotationDefaultApps : string := "phenix/default-apps".
Definition annotationAutotunnel : string := "phenix/startup-autotunnel".
Definition annotationEnableSSH : string := "vrouter/enable-ssh".

Definition osTypeLinux : string := "linux".
Definition osTypeMinirouter : string := "minirouter".
Definition protoOSPF : string := "ospf".
Definition vlanMgmt : string := "mgmt".
Definition serialType : string := "serial".
Definition maxTunnelPort : Z := 65535.
Definition tunnelVNC : string := "VNC".
Definition vyattaOSTypes : list string := ["vyatta"; "vyos"; osTypeLinux].
Definition routerOSTypes : list string := ["vyatta"; "vyos"; osTypeMinirouter].
Definition startupOSTypes : list string := [osTypeLinux; "rhel"; "centos"; "windows"].

Definition contains (l : list string) (s : string) : bool := existsb (String.eqb s) l.

(** ** Reading a spec *)

(** [specMap]: nothing is an empty object. *)
Fixpoint specMap (s : spec) (keys : list string) : spec :=
  match keys with
  | [] => s
  | key :: keys => specMap (match field s key with Some (Obj fields) => fields | _ => [] end) keys
  end.

(** [specList], at the key of an object of the spec. *)
Definition specList (s : spec) (keys : list string) (key : string) : list any := field_list (specMap s keys) key.

Definition defaultAppsOn (s : spec) : bool :=
  match field (specMap s ["annotations"]) annotationDefaultApps with Some (Bool enabled) => enabled | _ => true end.

Definition doNotBoot (s : spec) : bool :=
  match field (specMap s ["general"]) "do_not_boot" with Some (Bool true) => true | _ => false end.

Definition isZero (value : option any) : bool :=
  match value with Some (Int n) => n =? 0 | Some (Num f) => f_eqb f (f_int 0) | _ => false end.

(** The field of an interface that is an object, and its text. *)
Definition iface_text (key : string) (iface : any) : string := match iface with Obj fields => field_string fields key | _ => "" end.
Definition interfaceAddress (iface : any) : string := iface_text specAddressKey iface.

(** The path of a field of a device: a number is an index. *)
Definition field_part (part : string) : string := if snd (Atoi part) then "[" +:+ part +:+ "]" else "." +:+ part.
Definition field_path (field : string) : string := "device" +:+ String.concat "" (map field_part (split_on "."%char field)).

Definition fieldIssue (code : Code) (node : Node) (index : Z) (field : string) (message : text) : Issue :=
  with_field (deviceIssue code node index (field_path field) message) field.

(** ** [net.ParseIP] and [net.ParseCIDR] *)

(** An address in either form; a zone is none. *)
Definition ParseIP (s : string) : option Addr := if existsb (fun b => b =? c_percent) (bytes_Z s) then None else ParseAddr s.

(** [To4]. *)
Definition To4 (a : Addr) : option Z := match Unmap a with V4 a => Some a | V6 _ => None end.

(** [dtoi] of a whole text, below its bound of 0xFFFFFF. *)
Fixpoint dtoi (acc : Z) (l : list Z) : option Z :=
  match l with
  | [] => Some acc
  | b :: l => if is_digit b then let acc := acc * 10 + (b - 48) in if 16777215 <=? acc then None else dtoi acc l else None
  end.

(** The network of an IPv4 prefix, for [Contains]. *)
Definition ParseCIDR4 (s : string) : option Prefix :=
  let '(address, mask, found) := cut_slash s in
  if negb found || String.eqb mask "" then None
  else
    match ParseIP address, dtoi 0 (bytes_Z mask) with
    | Some (V4 a), Some n => if n <=? 32 then Some {| prefix_addr := a; prefix_bits := n |} else None
    | _, _ => None
    end.

Section Devices.
Context `{Unicode, Printable}.

Definition osPhrase (osType : string) : string :=
  if String.eqb osType "" then "The device has no os_type" else sprintf "The os_type of the device is %q" [AStr osType].

Definition interfacesPhrase (labels : list string) : string :=
  match labels with [label] => "interface " +:+ label | _ => "interfaces " +:+ join ", " labels end.

(** [interfaceByName]: the first of the name, in any case. *)
Fixpoint interfaceByName_from (k : nat) (ifaces : list any) (name : string) : option nat :=
  match ifaces with
  | [] => None
  | Obj fields :: ifaces => if EqualFold (field_string fields "name") name then Some k else interfaceByName_from (S k) ifaces name
  | _ :: ifaces => interfaceByName_from (S k) ifaces name
  end.

Definition interfaceByName (ifaces : list any) (name : string) : option nat := interfaceByName_from 0 ifaces name.

Definition address_at (ifaces : list any) (k : nat) : string := match ifaces !! k with Some iface => interfaceAddress iface | None => "" end.

(** ** The set-up of a device *)

(** The labels of the interfaces that are serial, and of those with an address
    of their own. *)
Definition iface_serial (iface : any) : bool := String.eqb (iface_text "type" iface) serialType.

Definition iface_static (iface : any) : bool :=
  match iface with
  | Obj _ => negb (iface_serial iface) && contains ["static"; protoOSPF] (ToLower (iface_text "proto" iface))
  | _ => false
  end.

Definition labels_where (p : any -> bool) (ifaces : list any) : list string :=
  omap (fun x => x) (imap (fun k iface => if p iface then Some (label_of ifaces k) else None) ifaces).

Definition os_warning (node : Node) (s : spec) : option (Code * text) :=
  let hostname := node_hostname node in
  let deviceType := specString s ["type"] in
  let osType := specString s ["hardware"; "os_type"] in
  let lower := ToLower osType in
  let routing := isRoutingType deviceType in
  let static := labels_where iface_static (specNodeInterfaces s) in
  if routing && String.eqb lower osTypeLinux then
    Some (CodeDeviceRouterOSUnsupported,
      problem ("device %q is a %s with os_type %q. phenix configures this os_type as vyatta, " +:+ "but phenix deprecated it for routers. " +:+
               "Set hardware.os_type to vyatta, vyos or minirouter") [AStr hostname; AStr deviceType; AStr osType])
  else if routing && negb (contains routerOSTypes lower) then
    Some (CodeDeviceRouterOSUnsupported,
      problem ("device %q is a %s, but phenix configures a router only when its os_type is vyatta, vyos or minirouter. " +:+
               "%s. Thus phenix does not configure its routing or firewall. " +:+ "Set hardware.os_type to vyatta, vyos or minirouter")
        [AStr hostname; AStr deviceType; AStr (osPhrase osType)])
  else if negb routing && negb (String.eqb osType "") && negb (contains startupOSTypes lower) && negb (bool_decide (static = [])) then
    Some (CodeDeviceInterfacesUnset,
      problem ("device %q has os_type %q, for which phenix writes no interface configuration. Thus phenix gives its " +:+
               "static %s no address. Set hardware.os_type to linux, rhel, centos or windows, " +:+ "or set the addresses in its image")
        [AStr hostname; AStr osType; AStr (interfacesPhrase static)])
  else None.

Definition serial_warning (node : Node) (s : spec) : option (Code * text) :=
  let osType := specString s ["hardware"; "os_type"] in
  let serial := labels_where iface_serial (specNodeInterfaces s) in
  if negb (String.eqb osType osTypeLinux) && negb (bool_decide (serial = [])) then
    Some (CodeDeviceSerialUnset,
      problem ("device %q has serial %s, but phenix configures serial interfaces only on a device whose os_type is " +:+
               "exactly %q. %s. Set hardware.os_type to linux") [AStr (node_hostname node); AStr (interfacesPhrase serial); AStr osTypeLinux; AStr (osPhrase osType)])
  else None.

Definition injectionsWarning (node : Node) (index : Z) : option Issue :=
  let s := node_spec node in
  let injections := specList s [] "injections" in let deletions := specList s [] "deletions" in
  if (bool_decide (injections = []) && bool_decide (deletions = [])) || doNotBoot s then None
  else
    let files := if bool_decide (deletions = []) then "file injections" else if bool_decide (injections = []) then "file deletions" else "file injections and deletions" in
    match field (specMap s ["general"]) "snapshot" with
    | Some (Bool false) =>
        Some (fieldIssue CodeDeviceInjectionsUnapplied node index "spec.general.snapshot"
          (problem ("device %q has %s, but its general.snapshot is false. Thus phenix neither injects nor deletes its files. " +:+
                    "Set general.snapshot to true") [AStr (node_hostname node); AStr files]))
    | _ =>
        match specList s ["hardware"] "drives" with
        | [] => None
        | drive :: _ =>
            if negb (isZero (match drive with Obj fields => field fields "inject_partition" | _ => None end)) then None
            else
              Some (fieldIssue CodeDeviceInjectionsUnapplied node index "spec.hardware.drives.0.inject_partition"
                (problem ("device %q has %s, but the inject_partition of its first drive is 0. Thus phenix neither injects nor deletes " +:+
                          "its files. Set hardware.drives[0].inject_partition to the partition that holds the file system")
                   [AStr (node_hostname node); AStr files]))
        end
    end.

Definition deviceSetupWarnings (node : Node) (index : Z) : list Issue :=
  let s := node_spec node in
  (if defaultAppsOn s then
     map (fun '(code, message) => fieldIssue code node index "spec.hardware.os_type" message) (option_list (os_warning node s) ++ option_list (serial_warning node s))
   else []) ++ option_list (injectionsWarning node index).

(** ** Routers and OSPF *)

(** [routerOf]: the interfaces and the os_type of a router that phenix
    configures. *)
Definition routerOf (node : Node) : option (list any * string) :=
  let s := node_spec node in
  if negb (isRoutingType (specString s ["type"])) || negb (defaultAppsOn s) then None
  else Some (specNodeInterfaces s, ToLower (specString s ["hardware"; "os_type"])).

Fixpoint find_index {A} (p : A -> bool) (k : nat) (l : list A) : option nat :=
  match l with [] => None | a :: l => if p a then Some k else find_index p (S k) l end.

Definition ospfError (node : Node) (index : Z) : option Issue :=
  match routerOf node with
  | Some (ifaces, osType) =>
      if negb (contains vyattaOSTypes osType) || field_set (specMap (node_spec node) ["network"]) protoOSPF then None
      else
        k ← find_index (fun iface => String.eqb (iface_text "proto" iface) protoOSPF) 0 ifaces;
        Some (fieldIssue CodeDeviceOSPFMissing node index ("spec.network.interfaces." +:+ itoa (Z.of_nat k) +:+ ".proto")
          (problem ("interface %s of %q has proto ospf, but the device has no network.ospf. Thus phenix cannot write its " +:+
                    "router configuration. Thus the experiment fails to start. Add network.ospf to the device, " +:+
                    "or set the proto of the interface to static") [AStr (label_of ifaces k); AStr (node_hostname node)]))
  | None => None
  end.

(** [areaNetwork]: an IPv4 network of an area, with its place. *)
Record areaNetwork : Type := { an_area : nat; an_index : nat; an_text : string; an_network : Prefix }.

Definition area_network (a n : nat) (entry : any) : option areaNetwork :=
  let text := iface_text "network" entry in
  network ← ParseCIDR4 text; Some {| an_area := a; an_index := n; an_text := text; an_network := network |}.

Definition area_list (a : nat) (area : any) : list areaNetwork :=
  omap (fun x => x) (imap (area_network a) (match area with Obj fields => field_list fields "area_networks" | _ => [] end)).

Definition areaNetworks (ospf : spec) : list areaNetwork := concat (imap area_list (field_list ospf "areas")).

Definition outside_issue (node : Node) (index : Z) (k : nat) (message : text) : Issue :=
  fieldIssue CodeInterfaceOSPFOutside node index ("spec.network.interfaces." +:+ itoa (Z.of_nat k) +:+ ".address") message.

(** The address of an interface, when it is an IPv4 one. *)
Definition address4 (ifaces : list any) (k : nat) : option Z := ParseIP (address_at ifaces k) ≫= To4.

Definition held_by (addr : Z) (n : areaNetwork) : bool := Contains (an_network n) addr.

Definition unheld_issue (node : Node) (index : Z) (ifaces : list any) (networks : list areaNetwork) (k : nat) : option Issue :=
  addr ← address4 ifaces k;
  if existsb (held_by addr) networks then None
  else
    Some (outside_issue node index k
      (problem ("IP address %s of interface %s of %q is in no area network of its network.ospf. Thus the interface " +:+
                "is in no OSPF area. Add an area network that holds the address")
         [AStr (addr_text addr); AStr (label_of ifaces k); AStr (node_hostname node)])).

Definition unused_issue (node : Node) (index : Z) (addrs : list Z) (n : areaNetwork) : option Issue :=
  if existsb (fun addr => held_by addr n) addrs then None
  else
    Some (fieldIssue CodeDeviceOSPFNetworkUnused node index
      ("spec.network.ospf.areas." +:+ itoa (Z.of_nat (an_area n)) +:+ ".area_networks." +:+ itoa (Z.of_nat (an_index n)) +:+ ".network")
      (problem ("OSPF area network %s of %q holds the address of no interface with proto ospf. Thus minirouter does " +:+ "not advertise the area network. Give an ospf interface of the device an address in the area network, " +:+
                "or remove the area network")
         [AStr (an_text n); AStr (node_hostname node)])).

Definition ospfWarnings (node : Node) (index : Z) : list Issue :=
  match routerOf node with
  | Some (ifaces, osType) =>
      if negb (String.eqb osType osTypeMinirouter) || doNotBoot (node_spec node) then []
      else
        let indexes := omap (fun x => x) (imap (fun k iface => if EqualFold (iface_text "proto" iface) protoOSPF then Some k else None) ifaces) in
        if negb (field_set (specMap (node_spec node) ["network"]) protoOSPF) then
          map (fun k => outside_issue node index k
            (problem ("interface %s of %q has proto ospf, but the device has no network.ospf. Thus the interface is in no " +:+
                      "OSPF area. Add network.ospf with an area network that holds the address of the interface")
               [AStr (label_of ifaces k); AStr (node_hostname node)])) indexes
        else if bool_decide (indexes = []) then
          [fieldIssue CodeDeviceOSPFUnused node index "spec.network.ospf"
            (problem ("device %q has network.ospf, but none of its interfaces has proto ospf. Thus minirouter runs OSPF on no " +:+
                      "interface. Set the proto of the interfaces that must run OSPF to ospf, or remove network.ospf") [AStr (node_hostname node)])]
        else
          let networks := areaNetworks (specMap (node_spec node) ["network"; protoOSPF]) in
          omap (unheld_issue node index ifaces networks) indexes ++ omap (unused_issue node index (omap (address4 ifaces) indexes)) networks
  | None => []
  end.

(** ** Annotations *)

(** [enableSSHProblem]. *)
Definition enableSSHProblem (node : Node) (value : any) : option text :=
  let hostname := node_hostname node in
  let fix_text := "Set the annotation to an IP address or to the name of an interface of the device" in
  match value with
  | Str text =>
      if bool_decide (is_Some (ParseIP text)) then None
      else
        let ifaces := specNodeInterfaces (node_spec node) in
        match interfaceByName ifaces text with
        | None =>
            Some (problem ("the vrouter/enable-ssh annotation of %q is %q, which is neither an IP address nor the " +:+
                           "name of an interface of the device. Thus phenix does not enable SSH. %s") [AStr hostname; AStr text; AStr fix_text])
        | Some k =>
            if String.eqb (address_at ifaces k) "" then
              Some (problem ("the vrouter/enable-ssh annotation of %q names interface %s, which has no IP address. " +:+
                             "Thus phenix does not enable SSH. Give the interface an address, or name another interface")
                      [AStr hostname; AStr (label_of ifaces k)])
            else None
        end
  | _ => Some (problem "the vrouter/enable-ssh annotation of %q is not text. Thus phenix does not enable SSH. %s" [AStr hostname; AStr fix_text])
  end.

(** [validTunnel]. *)
Definition tunnel_port (part : string) : bool :=
  let l := bytes_Z part in
  forallb is_digit l && (1 <=? length l)%nat && (length l <=? 5)%nat && (let '(number, ok) := Atoi part in ok && (1 <=? number) && (number <=? maxTunnelPort)).

Definition tunnel_vnc (part : string) : bool := EqualFold part tunnelVNC.

Definition validTunnel (text : string) : bool :=
  match split_on ":"%char text with
  | [port] => tunnel_port port
  | [port; dport] => tunnel_port port && (tunnel_port dport || tunnel_vnc dport)
  | [port; host; dport] => tunnel_port port && (tunnel_vnc dport || (negb (String.eqb host "") && tunnel_port dport))
  | _ => false
  end.

Definition tunnel_forms : string := Quote "port" +:+ ", " +:+ Quote "port:dport" +:+ " or " +:+ Quote "port:host:dport".

Definition entry_problem (hostname : string) (n : nat) (entry : any) : option text :=
  let text := match entry with Str text => text | _ => "" end in
  if validTunnel text then None
  else
    Some (problem ("entry %d of the phenix/startup-autotunnel annotation of %q is %s, which is not %s. " +:+ "Thus phenix does not open that tunnel")
      [AInt (Z.of_nat n + 1); AStr hostname; AStr (match entry with Null => "null" | _ => Quote text end); AStr tunnel_forms]).

Definition not_text (entry : any) : bool := match entry with Str _ | Null => false | _ => true end.

Definition autotunnelProblems (hostname : string) (value : any) : list text :=
  match value with
  | Null => []
  | Arr entries =>
      match find_index not_text 0 entries with
      | Some n =>
          [problem ("entry %d of the phenix/startup-autotunnel annotation of %q is not text. Thus phenix opens none of its " +:+
                    "tunnels. Write each tunnel as %s") [AInt (Z.of_nat n + 1); AStr hostname; AStr tunnel_forms]]
      | None => omap (fun x => x) (imap (entry_problem hostname) entries)
      end
  | _ =>
      [problem ("the phenix/startup-autotunnel annotation of %q is not a list. Thus phenix opens none of its tunnels. " +:+
                "Set the annotation to a list of texts such as %s, %s or %s") [AStr hostname; AStr (Quote "8080"); AStr (Quote "2222:22"); AStr (Quote "9090:10.0.0.5:80")]]
  end.

Definition annotationWarnings (node : Node) (index : Z) : list Issue :=
  let annotations := specMap (node_spec node) ["annotations"] in
  let warn code key message := fieldIssue code node index ("spec.annotations." +:+ key) message in
  (match field annotations annotationEnableSSH, routerOf node with
   | Some value, Some (_, osType) =>
       if contains vyattaOSTypes osType then map (warn CodeDeviceEnableSSHInvalid annotationEnableSSH) (option_list (enableSSHProblem node value)) else []
   | _, _ => []
   end) ++
  (match field annotations annotationAutotunnel with
   | Some value => map (warn CodeDeviceAutotunnelInvalid annotationAutotunnel) (autotunnelProblems (node_hostname node) value)
   | None => []
   end) ++
  (match field annotations annotationDefaultApps with
   | None | Some (Bool _) => []
   | Some _ =>
       [warn CodeDeviceDefaultAppsInvalid annotationDefaultApps
         (problem ("the phenix/default-apps annotation of %q is not true or false. Thus phenix runs its default apps on " +:+
                   "the device. To disable them, set the annotation to false, not the text %s") [AStr (node_hostname node); AStr (Quote "false")])]
   end).

(** ** NTP *)

Record ntpServer : Type := { ntp_node : Node; ntp_index : nat; ntp_value : any }.

Definition ntp_server (index : nat) (node : Node) : option ntpServer :=
  if projectedDevice node then
    value ← field (specMap (node_spec node) ["labels"]) labelNTPServer; Some {| ntp_node := node; ntp_index := index; ntp_value := value |}
  else None.

Definition ntp_servers (d : Document) : list ntpServer := omap (fun x => x) (imap ntp_server (elems (Nodes d))).

Definition hasVyattaRouter (d : Document) : bool :=
  existsb (fun node => ownDevice node && match routerOf node with Some (_, osType) => contains vyattaOSTypes osType | None => false end) (elems (Nodes d)).

(** [publishedVLANs]. *)
Definition publish_vlan (networks : gmap string Network) (ifaces : list any) (vlans : list string) (handle : InterfaceHandle) : list string :=
  match networks !! handle_ID handle with
  | Some network => match findInterfaceIndex ifaces (handle_Name handle) with Some k => <[ k := net_Name network ]> vlans | None => vlans end
  | None => vlans
  end.

Definition publishedVLANs (d : Document) (node : Node) : list string :=
  let ifaces := specNodeInterfaces (node_spec node) in
  foldl (publish_vlan (handleNetworks d) ifaces) (map interfaceVLAN ifaces) (match node_Device node with Some device => Interfaces device | None => [] end).

Definition ntp_field : string := "spec.labels." +:+ labelNTPServer.

Definition ntp_error (first : ntpServer) : list Issue :=
  let node := ntp_node first in
  let ifaces := specNodeInterfaces (node_spec node) in
  match ntp_value first with
  | Str name =>
      match interfaceByName ifaces name with
      | None =>
          [fieldIssue CodeDeviceNTPServerInvalid node (Z.of_nat (ntp_index first)) ntp_field
            (problem ("the ntp-server label of %q is %q, which names no interface of the device. Thus the experiment fails to " +:+
                      "start. Set the label to the name of an interface with an IP address") [AStr (node_hostname node); AStr name])]
      | Some k =>
          if String.eqb (address_at ifaces k) "" then
            [fieldIssue CodeDeviceNTPServerInvalid node (Z.of_nat (ntp_index first)) ntp_field
              (problem ("the ntp-server label of %q names interface %s, which has no IP address. Thus the experiment fails to " +:+
                        "start. Give the interface an address, or name another interface") [AStr (node_hostname node); AStr (label_of ifaces k)])]
          else []
      end
  | _ => []
  end.

Definition ntp_warnings (d : Document) (first : ntpServer) (others : list ntpServer) : list Issue :=
  let hostname := node_hostname (ntp_node first) in
  map (fun other => fieldIssue CodeDeviceNTPServerIgnored (ntp_node other) (Z.of_nat (ntp_index other)) ntp_field
    (problem "device %q has the ntp-server label, but phenix uses only the first device with it, %q" [AStr (node_hostname (ntp_node other)); AStr hostname])) others ++
  (if hasVyattaRouter d && negb (existsb (fun vlan => EqualFold vlan vlanMgmt) (publishedVLANs d (ntp_node first))) then
     [fieldIssue CodeDeviceNTPServerNoMgmt (ntp_node first) (Z.of_nat (ntp_index first)) ntp_field
       (problem ("routers take their NTP server address from an interface of %q on VLAN mgmt, but the device has no such " +:+
                 "interface. Thus phenix gives the routers no NTP server, unless an ntp app of the scenario names one. " +:+
                 "Connect an interface of %q to " +:+ "a network named mgmt") [AStr hostname; AStr hostname])]
   else []).

Definition ntpIssues (d : Document) : list Issue * list Issue :=
  match ntp_servers d with
  | [] => ([], [])
  | first :: others => (ntp_error first, ntp_warnings d first others)
  end.

(** ** All of them *)

Definition drivesError (node : Node) (index : Z) : option Issue :=
  match field (specMap (node_spec node) ["hardware"]) "drives" with
  | None | Some Null | Some (Arr []) =>
      Some (fieldIssue CodeDeviceDrivesNone node index "spec.hardware.drives"
        (problem "device %q has no drive, which phenix needs to start it. Add a drive to hardware.drives" [AStr (node_hostname node)]))
  | Some _ => None
  end.

Definition node_setup_errors (index : nat) (node : Node) : list Issue :=
  if ownDevice node then option_list (drivesError node (Z.of_nat index)) ++ option_list (ospfError node (Z.of_nat index)) else [].

Definition setup_issues (d : Document) : list Issue := concat (imap node_setup_errors (elems (Nodes d))) ++ fst (ntpIssues d).

Definition setupErrors (d : Document) : option blocker :=
  match setup_issues d with [] => None | issues => Some {| Problems := IssueMessages issues; blk_issues := issues |} end.

Definition node_warnings (index : nat) (node : Node) : list Issue :=
  if ownDevice node then
    deviceSetupWarnings node (Z.of_nat index) ++ ospfWarnings node (Z.of_nat index) ++ annotationWarnings node (Z.of_nat index)
  else [].

Definition deviceWarnings (d : Document) : list Issue := concat (imap node_warnings (elems (Nodes d))) ++ snd (ntpIssues d).

Definition DesignWarnings (d : Document) : list Issue := rulesetWarnings d ++ addressingWarnings d ++ deviceWarnings d.

End Devices.

(** ** Publishing *)

(** The checks that only publishing makes, in their order. *)
Inductive publish_blocker : Type :=
  | InterfaceVLANError (b : blocker)
  | InterfaceAddressError (b : blocker)
  | NodeHostnameError (b : blocker)
  | DeviceSetupError (b : blocker).

Inductive perror : Type :=
  | PProjection (e : terror)
  | PConfig (e : cerror)
  | PBlocked (b : publish_blocker)
  | PSchema (what : string).

Record topologyProjection : Type := {
  tp_config : Config; tp_topology : Topology; tp_warnings : list Issue; tp_blockers : list publish_blocker;
  tp_shortHostnames : option publish_blocker; tp_noDrives : option publish_blocker; tp_schema : option string;
}.

Record TopologyExport : Type := { ex_Config : Config; ex_Warnings : list Issue; ex_PublishBlockers : list publish_blocker }.

Section Publish.
Context `{Unicode, Printable, Libraries, PNG} (order : list string) (ValidateConfigSpec : Config -> option string).

(** [topologyConfig]. *)
Definition topologyConfig (name : string) (s : spec) : res perror Config :=
  let? c := res_map_err PConfig (NewConfig ("topology/" +:+ name)) in
  Ok {| cf_Version := TopologyAPIVersion; cf_Kind := cf_Kind c; cf_Metadata := cf_Metadata c; cf_Spec := Some s; cf_Status := cf_Status c |}.

Definition with_top_spec (t : Topology) (s : spec) : Topology := {| top_Spec := s; VLANAliases := VLANAliases t; top_Warnings := top_Warnings t |}.

(** [projectTopology]: the config and the topology have one spec. *)
Definition projectTopology (d : Document) (name : string) : res perror topologyProjection :=
  let? topology := res_map_err PProjection (ToTopology order d) in
  let nodes := projectedNodes d in
  let s := fillAbsentVLANs (top_Spec topology) in
  let? config := topologyConfig name s in
  let '(hostnames, short, hostnameWarnings) := checkHostnames s nodes in
  let setup := setupErrors d in
  Ok {|
    tp_config := config; tp_topology := with_top_spec topology s;
    tp_warnings := top_Warnings topology ++ hostnameWarnings ++ DesignWarnings d;
    tp_blockers :=
      option_list (InterfaceVLANError <$> checkInterfaceVLANs s nodes) ++ option_list (InterfaceAddressError <$> checkInterfaceAddresses d) ++
      option_list (NodeHostnameError <$> hostnames) ++ option_list (DeviceSetupError <$> setup);
    tp_shortHostnames := if short then NodeHostnameError <$> hostnames else None;
    tp_noDrives :=
      b ← setup; if existsb (fun i => bool_decide (iss_code i = CodeDeviceDrivesNone)) (blk_issues b) then Some (DeviceSetupError b) else None;
    tp_schema := ValidateConfigSpec config |}.

(** What comes with an error is the warnings, when there are any. *)
Definition PublishTopology (d : Document) (name : string) : res perror (Config * Topology) * list Issue :=
  match projectTopology d name with
  | Err e => (Err e, [])
  | Ok p =>
      (match tp_blockers p, tp_schema p with
       | b :: _, _ => Err (PBlocked b)
       | [], Some what => Err (PSchema what)
       | [], None => Ok (tp_config p, tp_topology p)
       end, tp_warnings p)
  end.

Definition ExportTopologyConfig (d : Document) (name : string) : res perror TopologyExport :=
  let? p := projectTopology d name in
  match tp_schema p with
  | Some what =>
      match tp_shortHostnames p, tp_noDrives p with
      | Some b, _ => Err (PBlocked b)
      | None, Some b => Err (PBlocked b)
      | None, None => Err (PSchema what)
      end
  | None => Ok {| ex_Config := tp_config p; ex_Warnings := tp_warnings p; ex_PublishBlockers := tp_blockers p |}
  end.

Definition PublishBlockers (d : Document) (name : string) : res perror (list publish_blocker) :=
  let? p := projectTopology d name in Ok (tp_blockers p).

(** [ToTopologyConfig]. *)
Definition ToTopologyConfig (d : Document) (name : string) : res perror (Config * list Issue) :=
  let? topology := res_map_err PProjection (ToTopology order d) in
  let? config := topologyConfig name (top_Spec topology) in Ok (config, top_Warnings topology).

End Publish.

(** ** What is published can be experimented with *)

(** Filling an interface leaves the host name. *)
Lemma fill_node_object node : exists node', fill_node (Obj node) = Obj node' /\ field node' "general" = field node "general".
Proof.
  unfold fill_node, started_spec. destruct (field_set node "external"); [by exists node|]. eexists. split; [done|].
  destruct (with_interfaces_spec node (map fill_vlan (specNodeInterfaces node))) as (_ & Hf & _); [by intros ->|]. by apply Hf.
Qed.

Lemma omap_sublist {A B} (f g : A -> option B) l : (forall a b, f a = Some b -> g a = Some b) -> sublist (omap f l) (omap g l).
Proof.
  intros Hfg. induction l as [|a l IH]; [constructor|]. cbn. destruct (f a) as [b|] eqn:E; [rewrite (Hfg _ _ E); by constructor|].
  destruct (g a); [by apply sublist_cons|done].
Qed.

Section Published.
Context `{Unicode, Printable, Libraries, PNG} (order : list string) (ValidateConfigSpec : Config -> option string).

(** The nodes of a spec have the host names of the devices, in order. *)
Definition named_as (devs : list Device) (s : spec) : Prop :=
  exists nodes, field s "nodes" = Some (Arr (map Obj nodes)) /\
    Forall2 (fun dev node => field (object node "general") "hostname" = Some (Str (Hostname dev))) devs nodes.

Lemma own_devices (l : list Node) : omap own_device l = omap projected l.
Proof. induction l as [|n l IH]; [done|]. cbn [omap list_omap]. by rewrite IH, projected_own. Qed.

Lemma projection_names d t :
  order ≡ₚ ["nodes"; "networks"; "edges"] -> ToTopology order d = Ok t ->
  document_ok d /\ named_as (omap own_device (elems (Nodes d))) (fillAbsentVLANs (top_Spec t)).
Proof.
  intros Hp Ht. unfold ToTopology in Ht. destruct (Validate order d) as [|] eqn:Hv; [done|].
  assert (document_ok d) as Hok by (rewrite <- (all_issues_nil order d Hp); unfold Validate in Hv; by destruct (all_issues order d)). split; [done|].
  apply bind_ok in Ht as ([specs w] & Hs & [= <-]). apply device_specs_ok in Hs. cbn [top_Spec]. rewrite own_devices.
  assert (exists nodes, map fill_node (map Obj specs) = map Obj nodes /\
    Forall2 (fun dev node => field (object node "general") "hostname" = Some (Str (Hostname dev))) (omap projected (elems (Nodes d))) nodes) as (nodes & Hn & Hf).
  2: { exists nodes. split; [|done]. rewrite <- Hn. done. }
  clear -Hs Hok. induction Hs as [|dev s devs specs (node & index & w & _ & Hd) _ (nodes & IHn & IHf)]; [exists []; split; [done|constructor]|].
  apply (deviceSpec_published d Hok) in Hd as (b & _ & Hn & _). destruct (fill_node_object s) as (s' & Hs' & Hg). exists (s' :: nodes). cbn [map]. rewrite Hs', IHn. split; [done|].
  constructor; [|done]. unfold object in *. by rewrite Hg.
Qed.

Lemma own_names_distinct d : document_ok d -> NoDup ((fun dev => foldKey (Hostname dev)) <$> omap own_device (elems (Nodes d))).
Proof.
  intros Hok. destruct Hok as (_ & _ & (_ & _ & Hnd & _) & _). eapply sublist_NoDup; [exact Hnd|]. apply fmap_sublist.
  apply omap_sublist. intros n dev. unfold own_device, device_of. destruct (node_Kind n); try done. rewrite decide_True by done. destruct (node_Device n); [|done]. by case_decide.
Qed.

Lemma option_list_nil {A} (o : option A) : option_list o = [] -> o = None.
Proof. by destruct o. Qed.

(** *** The set-up of the devices *)

(** A device that phenix starts: the document's own, and no [external] one. *)
Definition set_up (d : Document) (s : spec) : Prop :=
  exists node dev, node ∈ elems (Nodes d) /\ own_device node = Some dev /\ s = default [] (dev_Spec dev) /\ unset s "external".

Definition has_drive (s : spec) : Prop :=
  exists v, field (object s "hardware") "drives" = Some v /\ v <> Null /\ v <> Arr [].

(** A router or firewall that phenix configures with the template for vyatta,
    and that has OSPF on an interface, has OSPF settings. *)
Definition routes (s : spec) : Prop :=
  exists type, text_at s "type" type /\ (EqualFold type "router" = true \/ EqualFold type "firewall" = true).

Definition ospf_set (s : spec) : Prop :=
  forall osType iface, routes s -> field (object s "annotations") "phenix/default-apps" <> Some (Bool false) ->
    text_at (object s "hardware") "os_type" osType -> ToLower osType ∈ ["vyatta"; "vyos"; "linux"] ->
    Obj iface ∈ spec_interfaces s -> field iface "proto" = Some (Str "ospf") -> ~ unset (object s "network") "ospf".

(** The label with which a device is the NTP server of the experiment, on the
    interface that it names; the first device with one is. *)
Definition ntp_label (node : Node) (s : spec) (value : any) : Prop :=
  exists dev, own_device node = Some dev /\ s = default [] (dev_Spec dev) /\ field (object s "labels") "ntp-server" = Some value.

Definition ntp_set (d : Document) : Prop :=
  forall i node s name, first_at (fun node => exists s value, ntp_label node s value) (elems (Nodes d)) i -> elems (Nodes d) !! i = Some node ->
    ntp_label node s (Str name) ->
    exists k iface address, first_at (called (fun n => EqualFold n name = true)) (spec_interfaces s) k /\
      spec_interfaces s !! k = Some (Obj iface) /\ field iface "address" = Some (Str address) /\ address <> "".

Lemma own_started node :
  ownDevice node = true <-> exists dev, own_device node = Some dev /\ node_spec node = default [] (dev_Spec dev) /\ unset (node_spec node) "external".
Proof.
  setoid_rewrite unset_iff. unfold ownDevice, own_device, node_spec. destruct (node_Kind node); cbn; destruct (node_Device node) as [dev|]; try (split; [done|by intros (? & ? & _)]).
  rewrite bool_decide_eq_true_2 by done. cbn [andb mbind option_bind]. rewrite andb_true_iff, negb_true_iff, String.eqb_eq. destruct (decide (IncludedFrom dev = "")); naive_solver.
Qed.

Lemma drives_iff node index : drivesError node index = None <-> has_drive (node_spec node).
Proof.
  unfold drivesError, has_drive. change (specMap (node_spec node) ["hardware"]) with (object (node_spec node) "hardware").
  destruct (field (object (node_spec node) "hardware") "drives") as [v|]; [|split; [done|by intros (? & ? & _)]].
  destruct v as [| | | | |[|item l]| |]; try (split; [intros _; eexists; split; [done|]; split; done|done]); split; try done; by intros (? & [= <-] & ? & ?).
Qed.

Lemma find_index_none {A} (p : A -> bool) k l : find_index p k l = None <-> forall a, a ∈ l -> p a = false.
Proof.
  revert k. induction l as [|a l IH]; intros k; cbn; [split; [by intros _ a ?%elem_of_nil|done]|]. destruct (p a) eqn:E; [split; [done|]|].
  - intros Hp. specialize (Hp a ltac:(by left)). congruence.
  - rewrite IH. setoid_rewrite elem_of_cons. naive_solver.
Qed.

Lemma routes_iff s : isRoutingType (specString s ["type"]) = true <-> routes s.
Proof.
  unfold routes, isRoutingType. setoid_rewrite text_at_iff. assert (specString s ["type"] = field_string s "type") as ->.
  { unfold specString, field_string. cbn [spec_path]. by destruct (field s "type"). }
  rewrite orb_true_iff. naive_solver.
Qed.

Lemma contains_elem l s : contains l s = true <-> s ∈ l.
Proof. unfold contains. rewrite existsb_exists. setoid_rewrite String.eqb_eq. setoid_rewrite <- list_elem_of_In. naive_solver. Qed.

Lemma ospf_iff node index : ospfError node index = None <-> ospf_set (node_spec node).
Proof.
  unfold ospfError, routerOf, ospf_set. cbv zeta. set (s := node_spec node). setoid_rewrite text_at_iff. setoid_rewrite unset_iff. setoid_rewrite <- routes_iff.
  change (specMap s ["network"]) with (object s "network"). rewrite specString_object, spec_interfaces_eq. change protoOSPF with "ospf". change vyattaOSTypes with ["vyatta"; "vyos"; "linux"].
  assert (defaultAppsOn s = false <-> field (object s "annotations") "phenix/default-apps" = Some (Bool false)) as Hon.
  { unfold defaultAppsOn. change (specMap s ["annotations"]) with (object s "annotations"). change annotationDefaultApps with "phenix/default-apps".
    destruct (field (object s "annotations") "phenix/default-apps") as [[| [] | | | | | |]|]; naive_solver. }
  destruct (isRoutingType (specString s ["type"])); cbn [negb orb]; [|naive_solver]. destruct (defaultAppsOn s); cbn [negb]; [|naive_solver].
  destruct (contains _ _) eqn:Ec; cbn [negb orb]; [apply contains_elem in Ec|].
  2: { split; [|done]. intros _ osType iface _ _ <- Hos%contains_elem. congruence. }
  destruct (field_set (object s "network") "ospf"); [naive_solver|].
  assert (forall A B (o : option A) (g : A -> B), (k ← o; Some (g k)) = None <-> o = None) as Hbind by (intros A B [|] g; done). rewrite Hbind, find_index_none. split.
  - intros Hno osType iface _ _ _ _ Hin Hproto _. specialize (Hno _ Hin). cbn in Hno. unfold field_string in Hno. by rewrite Hproto in Hno.
  - intros Hno entry Hin. apply String.eqb_neq. intros He. unfold iface_text in He. destruct entry as [| | | | | |iface|]; try done. unfold field_string in He.
    destruct (field iface "proto") as [[]|] eqn:Ep; try done. subst. eapply (Hno _ iface); try done. intros Hoff%Hon. done.
Qed.

Lemma interfaceByName_first ifaces name :
  match interfaceByName ifaces name with
  | Some k => first_at (called (fun n => EqualFold n name = true)) ifaces k
  | None => Forall (fun iface => ~ called (fun n => EqualFold n name = true) iface) ifaces
  end.
Proof.
  unfold interfaceByName. assert (forall from k before, length before = k -> Forall (fun iface => ~ called (fun n => EqualFold n name = true) iface) before ->
    match interfaceByName_from k from name with
    | Some k => first_at (called (fun n => EqualFold n name = true)) (before ++ from) k
    | None => Forall (fun iface => ~ called (fun n => EqualFold n name = true) iface) (before ++ from) end) as Hgen; [|by apply (Hgen ifaces 0%nat [])].
  induction from as [|iface from IH]; intros k before <- Hb; cbn [interfaceByName_from]; [by rewrite app_nil_r|].
  assert (~ called (fun n => EqualFold n name = true) iface ->
    match interfaceByName_from (S (length before)) from name with
    | Some k => first_at (called (fun n => EqualFold n name = true)) (before ++ iface :: from) k
    | None => Forall (fun iface => ~ called (fun n => EqualFold n name = true) iface) (before ++ iface :: from) end) as Hskip.
  { intros Hno. rewrite (cons_middle iface), app_assoc. apply IH; [rewrite length_app; cbn; lia|]. apply Forall_app. split; [done|]. by constructor. }
  destruct iface as [| | | | | |fields|]; try (apply Hskip; by intros (? & ? & _)). destruct (EqualFold _ name) eqn:E.
  - split; [exists (Obj fields); split; [by apply list_lookup_middle|by exists fields]|]. intros j a Hj Ha. rewrite lookup_app_l in Ha by done. by eapply (Forall_lookup_1 _ _ _ _ Hb).
  - apply Hskip. intros (f & [= <-] & He). congruence.
Qed.

Lemma ntp_server_iff index node :
  match ntp_server index node with
  | Some server => ntp_node server = node /\ ntp_index server = index /\ ntp_label node (node_spec node) (ntp_value server)
  | None => ~ exists s value, ntp_label node s value
  end.
Proof.
  unfold ntp_server, ntp_label. pose proof (projected_own node) as Hown. unfold projected in Hown. destruct (projectedDevice node) eqn:Ep.
  - assert (forall dev, own_device node = Some dev -> node_spec node = default [] (dev_Spec dev)) as Hs by (intros dev Hd; unfold node_spec; by rewrite Hown, Hd).
    assert (is_Some (node_Device node)) as [dev Hdev].
    { unfold projectedDevice in Ep. destruct (node_Device node); [by eexists|]. by rewrite andb_false_r in Ep. }
    rewrite Hdev in Hown. symmetry in Hown. change (specMap (node_spec node) ["labels"]) with (object (node_spec node) "labels"). change labelNTPServer with "ntp-server".
    destruct (field (object (node_spec node) "labels") "ntp-server") as [value|] eqn:E; cbn [mbind option_bind].
    + split; [done|]. split; [done|]. cbn. exists dev. split; [done|]. split; [by apply Hs|done].
    + intros (s & value & dev' & Hd & -> & Hf). rewrite <- (Hs dev' Hd) in Hf. congruence.
  - intros (s & value & dev & Hd & _). congruence.
Qed.

Lemma ntp_first d :
  match ntp_servers d with
  | first :: _ => first_at (fun node => exists s value, ntp_label node s value) (elems (Nodes d)) (ntp_index first) /\
      elems (Nodes d) !! ntp_index first = Some (ntp_node first) /\ ntp_label (ntp_node first) (node_spec (ntp_node first)) (ntp_value first)
  | [] => Forall (fun node => ~ exists s value, ntp_label node s value) (elems (Nodes d))
  end.
Proof.
  unfold ntp_servers. generalize (elems (Nodes d)) as l. intros l.
  induction l as [|node l IH] using rev_ind; [constructor|]. rewrite imap_app, omap_app. cbn [imap omap list_omap]. rewrite Nat.add_0_r.
  destruct (omap _ (imap ntp_server l)) as [|first rest]; cbn [app].
  - pose proof (ntp_server_iff (length l) node) as Hn. destruct (ntp_server (length l) node) as [server|].
    + destruct Hn as (Hn & Hi & Hl). rewrite Hi, Hn. rewrite list_lookup_middle by done. split; [|done]. split.
      * exists node. rewrite list_lookup_middle by done. split; [done|]. by eexists _, _.
      * intros j a Hj Ha. rewrite lookup_app_l in Ha by done. by eapply (Forall_lookup_1 _ _ _ _ IH).
    + apply Forall_app. split; [done|]. by constructor.
  - destruct IH as ([_ Hb] & Hi & Hl). assert (ntp_index first < length l)%nat as Hlt by (by eapply lookup_lt_Some). rewrite lookup_app_l by done. split; [|done]. split.
    + exists (ntp_node first). rewrite lookup_app_l by done. split; [done|]. by eexists _, _.
    + intros j a Hj Ha. rewrite lookup_app_l in Ha by lia. by apply (Hb j).
Qed.

Lemma ntp_iff d : fst (ntpIssues d) = [] <-> ntp_set d.
Proof.
  unfold ntpIssues, ntp_set. pose proof (ntp_first d) as Hfirst. destruct (ntp_servers d) as [|first rest].
  - split; [|done]. intros _ i node s name [(node' & Hi & Hl) _]. rewrite Forall_lookup in Hfirst. by destruct (Hfirst i node' Hi).
  - destruct Hfirst as (Hat & Hi & Hl). assert (forall i node s name, first_at (fun node => exists s value, ntp_label node s value) (elems (Nodes d)) i -> elems (Nodes d) !! i = Some node ->
      ntp_label node s (Str name) -> node = ntp_node first /\ s = node_spec (ntp_node first) /\ ntp_value first = Str name) as Huniq.
    { intros i node s name Hf Hi' Hl'. assert (i = ntp_index first) as -> by (by eapply first_at_fun). assert (node = ntp_node first) as -> by congruence.
      destruct Hl as (dev & Hd & Hs & Hv), Hl' as (dev' & Hd' & Hs' & Hv'). assert (dev' = dev) as -> by congruence. split; [done|]. rewrite Hs' in Hv' |- *. rewrite Hs in Hv |- *. split; [done|]. congruence. }
    cbn [fst]. unfold ntp_error. pose proof (fun name => interfaceByName_first (specNodeInterfaces (node_spec (ntp_node first))) name) as Hby. rewrite spec_interfaces_eq in Hby |- *. split.
    + intros He i node s name Hf Hi' Hl'. destruct (Huniq i node s name Hf Hi' Hl') as (_ & -> & Hv). rewrite Hv in He. specialize (Hby name).
      destruct (interfaceByName _ name) as [k|]; [|done]. pose proof Hby as [(entry & Hk & fields & -> & _) _]. unfold address_at in He. rewrite Hk in He. cbn in He.
      destruct (String.eqb_spec (field_string fields specAddressKey) "") as [|Hne]; [done|]. exists k, fields, (field_string fields specAddressKey). split; [done|]. split; [done|]. split; [|done].
      unfold field_string in *. change specAddressKey with "address" in *. by destruct (field fields "address") as [[]|].
    + intros Hset. destruct (ntp_value first) as [| | | |name| | |] eqn:Hv; try done. destruct (Hset _ _ _ name Hat Hi Hl) as (k & iface & address & Hk & Hlk & Ha & Hne).
      specialize (Hby name). destruct (interfaceByName _ name) as [k'|].
      * assert (k' = k) as -> by (by eapply first_at_fun). unfold address_at. rewrite Hlk. cbn. unfold field_string. change specAddressKey with "address". rewrite Ha. by destruct (String.eqb_spec address "").
      * destruct Hk as [(entry & Hk & Hc) _]. rewrite Forall_lookup in Hby. by destruct (Hby k entry Hk).
Qed.

Lemma setup_iff d : setupErrors d = None <-> (forall s, set_up d s -> has_drive s /\ ospf_set s) /\ ntp_set d.
Proof.
  transitivity (setup_issues d = []); [unfold setupErrors; by destruct (setup_issues d)|]. unfold setup_issues. rewrite app_nil, ntp_iff. f_equiv.
  rewrite <- (map_id (imap _ _)), concat_nil, Forall_forall. split.
  - intros Hno s (node & dev & Hin & Hown & -> & Hun). apply list_elem_of_lookup in Hin as [i Hi]. assert (node_spec node = default [] (dev_Spec dev)) as Hs.
    { pose proof (projected_own node) as Hp. unfold projected in Hp. destruct (projectedDevice node); [|congruence]. unfold node_spec. by rewrite Hp, Hown. }
    rewrite <- Hs in Hun |- *. assert (node_setup_errors i node = []) as Hnil by (apply Hno, elem_of_lookup_imap; by exists i, node). unfold node_setup_errors in Hnil.
    rewrite (proj2 (own_started node)) in Hnil by (by exists dev). apply app_nil in Hnil as [Hd%option_list_nil Ho%option_list_nil]. split; [by eapply drives_iff|by eapply ospf_iff].
  - intros Hall l Hl. apply elem_of_lookup_imap in Hl as (i & node & -> & Hi). unfold node_setup_errors. destruct (ownDevice node) eqn:Eo; [|done].
    apply own_started in Eo as (dev & Hown & Hs & Hun). destruct (Hall (node_spec node)) as [Hd Ho]; [exists node, dev; split; [by eapply list_elem_of_lookup_2|done]|].
    apply (drives_iff node (Z.of_nat i)) in Hd as ->. by apply (ospf_iff node (Z.of_nat i)) in Ho as ->.
Qed.

(** C32: a document that is published as a topology gives one that experiments
    can be made of. The config and the topology have one spec, which the schema
    takes; its nodes have the host names of the devices that are not included,
    in order, and no two of these are the same in any case. The name of each
    node that phenix starts is one that an experiment can be made with, each of
    its interfaces has a VLAN, and no address is used twice on a network but by
    included devices. Each device that phenix starts has a drive; a router
    that is configured as vyatta and has OSPF on an interface has OSPF
    settings; and the first device that is labelled as the NTP server is so on
    an interface that it has, with an address. *)
Theorem PublishTopology_ready d name c t ws :
  order ≡ₚ ["nodes"; "networks"; "edges"] -> PublishTopology order ValidateConfigSpec d name = (Ok (c, t), ws) ->
  cf_Spec c = Some (top_Spec t) /\ ValidateConfigSpec c = None /\
  named_as (omap own_device (elems (Nodes d))) (top_Spec t) /\ NoDup ((fun dev => foldKey (Hostname dev)) <$> omap own_device (elems (Nodes d))) /\
  hostnames_taken (top_Spec t) /\ vlans_named (top_Spec t) /\ addresses_apart d /\
  (forall s, set_up d s -> has_drive s /\ ospf_set s) /\ ntp_set d.
Proof.
  intros Hp Hpub. unfold PublishTopology in Hpub. destruct (projectTopology order ValidateConfigSpec d name) as [p|] eqn:Hproj; [|done].
  destruct (tp_blockers p) eqn:Hb; [|done]. destruct (tp_schema p) eqn:Hschema; [done|]. injection Hpub as <- <- _.
  unfold projectTopology in Hproj. apply bind_ok in Hproj as (t0 & Ht%res_map_err_ok & Hproj). cbv zeta in Hproj. apply bind_ok in Hproj as (config & Hc & Hproj).
  destruct (checkHostnames (fillAbsentVLANs (top_Spec t0)) (projectedNodes d)) as [[hostnames short] warnings] eqn:Eh. injection Hproj as <-. cbn in Hb, Hschema |- *.
  apply app_nil in Hb as [Hv Hb]. apply app_nil in Hb as [Ha Hb]. apply app_nil in Hb as [Hh Hs].
  apply option_list_nil, fmap_None in Hv, Ha, Hh, Hs. destruct (projection_names d t0 Hp Ht) as [Hok Hnames].
  unfold topologyConfig in Hc. apply bind_ok in Hc as (c0 & _ & [= <-]). split; [done|]. split; [done|]. split; [done|]. split; [by apply own_names_distinct|].
  split; [apply (hostnames_pass _ (projectedNodes d)); by rewrite Eh|]. split; [by eapply vlans_pass|]. split; [by apply apart_iff, addresses_pass|by apply setup_iff].
Qed.

End Published.
