(* ===== verification/Drafts.v ===== *)
(** * api/builder: drafts, their errors and their rules

    The data of [types.go], the limits of [limits.go], the typed errors of
    [errors.go] and the checks of [validate.go] on requests and on what is
    read back from the store. A time is its nanoseconds; a text of an error
    is kept unformatted. *)

From Stdlib Require Import ZArith Lia Ascii String Strings.Byte.
From stdpp Require Import base option list gmap strings.
From S2P Require Import Prelude Record RecordSpec Text Codes Document Layers Icons Validate.

Open Scope Z_scope.
Open Scope go_scope.

(** ** Limits *)

Definition compressionSlackBytes : Z := 1048576.
Definition MaxDocumentBytes : Z := 5242880.
Definition MaxDraftHistoryBytes : Z := 52428800.
Definition MaxSnapshots : Z := 50.
Definition MaxCompressedBytes : Z := MaxDocumentBytes + compressionSlackBytes.
Definition MaxDrafts : Z := 2000.
Definition MaxIDLength : Z := 128.
Definition MaxOwnerLength : Z := MaxUserBytes.
Definition MaxTitleLength : Z := MaxNameBytes.
Definition MaxSourceTokenLength : Z := 512.
Definition MaxSourceFileLength : Z := 255.
Definition MaxSummaryLength : Z := 1024.
Definition MaxTargetLength : Z := 256.
Definition MaxKindLength : Z := 64.
Definition MaxMetadataBytes : Z := 524288.

Definition NamespaceDrafts : string := "builder.drafts".
Definition NamespaceContent : string := "builder.content".
Definition NamespacePublished : string := "builder.published".

Definition kindDraft : string := "draft".
Definition kindSnapshot : string := "snapshot".
Definition kindPublished : string := "published document".

(** ** Errors *)

(** Why a document was refused: what encoding/json says, the issues of a
    [ValidationError], or that it has no canonical form. *)
Inductive doc_error : Type :=
  | Undecodable (what : string)
  | InvalidDocument (issues : list Issue)
  | Unencodable (what : string).

(** The typed errors; [SRaw] is an error of the record store, [SOther] one of
    a library, and [SWrap] either, wrapped with [%w]. [SInvalidStore] is the
    [ValidationError] whose reason is the text of a store error. *)
Inductive serror : Type :=
  | SNotFound (kind id : string)
  | SConflict (kind id : string) (expected actual : Z) (reason : text)
  | STooLarge (what : string) (size limit : Z)
  | SDraftLimit (limit : Z)
  | SCorrupt (kind id : string) (reason : text)
  | SInvalid (field : string) (reason : text) (because : option doc_error)
  | SInvalidStore (field : string) (e : serror)
  | SRaw (e : error)
  | SOther (what : string)
  | SWrap (context : text) (e : serror)
  | SPanic (what : string).

Definition newNotFoundError (kind id : string) : serror := SNotFound kind id.
Definition newValidationError (field : string) (reason : text) : serror := SInvalid field reason None.
Definition newValidationCause (field : string) (reason : text) (e : doc_error) : serror := SInvalid field reason (Some e).
Definition newCorruptError (kind id : string) (reason : text) : serror := SCorrupt kind id reason.
Definition newTooLargeError (what : string) (size limit : Z) : serror := STooLarge what size limit.

(** [errors.Is] of the store's sentinels, and [errors.As] of its conflict. *)
Fixpoint raw_error (e : serror) : option error :=
  match e with
  | SRaw e => Some e
  | SWrap _ e => raw_error e
  | _ => None
  end.

Definition is_store (e : serror) (s : sentinel) : bool :=
  match raw_error e with Some e => errors_Is e s | None => false end.

(** The error of this package that the error wraps, for [errors.Is] of its
    sentinels. *)
Fixpoint is_typed (e : serror) : bool :=
  match e with
  | SNotFound _ _ | SConflict _ _ _ _ _ | STooLarge _ _ _ | SDraftLimit _ | SCorrupt _ _ _ | SInvalid _ _ _
  | SInvalidStore _ _ => true
  | SWrap _ e => is_typed e
  | SRaw _ | SOther _ | SPanic _ => false
  end.

Fixpoint is_corrupt (e : serror) : bool :=
  match e with SCorrupt _ _ _ => true | SWrap _ e => is_corrupt e | _ => false end.
Fixpoint is_conflict (e : serror) : bool :=
  match e with SConflict _ _ _ _ _ => true | SWrap _ e => is_conflict e | _ => false end.
Fixpoint is_not_found (e : serror) : bool :=
  match e with SNotFound _ _ => true | SWrap _ e => is_not_found e | _ => false end.

Definition storeError (kind id : string) (expected : Z) (e : serror) : serror :=
  if is_store e ErrRecordNotExist then newNotFoundError kind id
  else if is_store e ErrRecordExist then SConflict kind id expected 0 (lit "already exists")
  else if is_store e ErrRecordConflict then
    match cause <$> raw_error e with
    | Some (RecordConflictError _ _ expected' actual) => SConflict kind id expected' actual (lit "")
    | _ => SConflict kind id expected 0 (lit "")
    end
  else if is_store e ErrInvalidRecordNamespace || is_store e ErrInvalidRecordKey then SInvalidStore kind e
  else SWrap (Sprintf "%s %q: %w" [AStr kind; AStr id]) e.

Definition txnError (kind id : string) (expected : Z) (e : serror) : serror :=
  if is_typed e then e else storeError kind id expected e.

(** ** Data *)

Definition PublishModeTopology : string := "topology".
Definition PublishModeTopologyExperiment : string := "topology-experiment".
Definition PublishMode_Valid (m : string) : bool :=
  String.eqb m PublishModeTopology || String.eqb m PublishModeTopologyExperiment.

Definition TopologyActionCreate : string := "create".
Definition TopologyActionUpdate : string := "update".
Definition TopologyAction_Valid (a : string) : bool :=
  String.eqb a TopologyActionCreate || String.eqb a TopologyActionUpdate.

Record SnapshotManifest : Type := {
  man_ID : string;
  man_Digest : string;
  man_Size : Z;
  man_CompressedSize : Z;
  man_CreatedAt : Z;
  man_CreatedBy : string;
  man_Summary : string;
  man_OpID : string;
}.

Record PublicationState : Type := {
  ps_Mode : string;
  ps_TopologyTarget : string;
  ps_TopologyAction : string;
  ps_ExperimentTarget : string;
  ps_ScenarioTarget : string;
  ps_SnapshotID : string;
  ps_Digest : string;
  ps_Revision : Z;
  ps_DocumentID : string;
  ps_PublishedAt : Z;
  ps_PublishedBy : string;
}.

Record ForkedPublication : Type := {
  fp_DocumentID : string;
  fp_TopologyTarget : string;
  fp_ExperimentTarget : string;
}.

Record DraftMetadata : Type := {
  dm_ID : string;
  dm_CreatedBy : string;
  dm_Title : string;
  dm_SourceToken : string;
  dm_SourceFile : string;
  dm_Created : Z;
  dm_Updated : Z;
  dm_LastModifiedBy : string;
  History : list SnapshotManifest;
  Cursor : Z;
  Publication : option PublicationState;
  Forked : option ForkedPublication;
  DocumentCreatedBy : string;
  DocumentCreatedAt : string;
  dm_Revision : Z;
  Stamp : option Provenance;
}.

#[export] Instance SnapshotManifest_eq_dec : EqDecision SnapshotManifest.
Proof. solve_decision. Defined.

(** The updates of a [Clone]: values are copied, so a clone is the value. *)
Definition with_history (d : DraftMetadata) (history : list SnapshotManifest) (cursor : Z) : DraftMetadata := {|
  dm_ID := dm_ID d; dm_CreatedBy := dm_CreatedBy d; dm_Title := dm_Title d; dm_SourceToken := dm_SourceToken d;
  dm_SourceFile := dm_SourceFile d; dm_Created := dm_Created d; dm_Updated := dm_Updated d;
  dm_LastModifiedBy := dm_LastModifiedBy d; History := history; Cursor := cursor; Publication := Publication d;
  Forked := Forked d; DocumentCreatedBy := DocumentCreatedBy d; DocumentCreatedAt := DocumentCreatedAt d;
  dm_Revision := dm_Revision d; Stamp := Stamp d |}.

Definition with_title (d : DraftMetadata) (title : string) (stamp : option Provenance) : DraftMetadata := {|
  dm_ID := dm_ID d; dm_CreatedBy := dm_CreatedBy d; dm_Title := title; dm_SourceToken := dm_SourceToken d;
  dm_SourceFile := dm_SourceFile d; dm_Created := dm_Created d; dm_Updated := dm_Updated d;
  dm_LastModifiedBy := dm_LastModifiedBy d; History := History d; Cursor := Cursor d; Publication := Publication d;
  Forked := Forked d; DocumentCreatedBy := DocumentCreatedBy d; DocumentCreatedAt := DocumentCreatedAt d;
  dm_Revision := dm_Revision d; Stamp := stamp |}.

Definition with_publication (d : DraftMetadata) (p : PublicationState) : DraftMetadata := {|
  dm_ID := dm_ID d; dm_CreatedBy := dm_CreatedBy d; dm_Title := dm_Title d; dm_SourceToken := dm_SourceToken d;
  dm_SourceFile := dm_SourceFile d; dm_Created := dm_Created d; dm_Updated := dm_Updated d;
  dm_LastModifiedBy := dm_LastModifiedBy d; History := History d; Cursor := Cursor d; Publication := Some p;
  Forked := Forked d; DocumentCreatedBy := DocumentCreatedBy d; DocumentCreatedAt := DocumentCreatedAt d;
  dm_Revision := dm_Revision d; Stamp := Stamp d |}.

Definition with_revision (d : DraftMetadata) (revision : Z) : DraftMetadata := {|
  dm_ID := dm_ID d; dm_CreatedBy := dm_CreatedBy d; dm_Title := dm_Title d; dm_SourceToken := dm_SourceToken d;
  dm_SourceFile := dm_SourceFile d; dm_Created := dm_Created d; dm_Updated := dm_Updated d;
  dm_LastModifiedBy := dm_LastModifiedBy d; History := History d; Cursor := Cursor d; Publication := Publication d;
  Forked := Forked d; DocumentCreatedBy := DocumentCreatedBy d; DocumentCreatedAt := DocumentCreatedAt d;
  dm_Revision := revision; Stamp := Stamp d |}.

(** [stampDraft]. *)
Definition stampDraft (d : DraftMetadata) (actor : string) (now : Z) : DraftMetadata := {|
  dm_ID := dm_ID d; dm_CreatedBy := dm_CreatedBy d; dm_Title := dm_Title d; dm_SourceToken := dm_SourceToken d;
  dm_SourceFile := dm_SourceFile d; dm_Created := dm_Created d; dm_Updated := now;
  dm_LastModifiedBy := actor; History := History d; Cursor := Cursor d; Publication := Publication d;
  Forked := Forked d; DocumentCreatedBy := DocumentCreatedBy d; DocumentCreatedAt := DocumentCreatedAt d;
  dm_Revision := dm_Revision d; Stamp := Stamp d |}.

(** [d.History[i]] for a Go [int]. *)
Definition history_at (d : DraftMetadata) (i : Z) : option SnapshotManifest :=
  if i <? 0 then None else History d !! Z.to_nat i.

Definition Current (d : DraftMetadata) : option SnapshotManifest :=
  if (Cursor d <? 0) || (zlen (History d) <=? Cursor d) then None else history_at d (Cursor d).

Definition Snapshot_of (d : DraftMetadata) (id : string) : option SnapshotManifest :=
  List.find (fun m => String.eqb (man_ID m) id) (History d).

(** [HistoryBytes], in [int64]. *)
Definition HistoryBytes (d : DraftMetadata) : Z :=
  foldl (fun total m => add64 total (man_Size m)) 0 (History d).

Definition Dirty (d : DraftMetadata) : bool :=
  match Current d, Publication d with
  | Some current, Some p =>
      negb (String.eqb (ps_SnapshotID p) (man_ID current)) || negb (String.eqb (ps_Digest p) (man_Digest current))
  | _, _ => true
  end.

Definition CanUndo (d : DraftMetadata) : bool := 0 <? Cursor d.
Definition CanRedo (d : DraftMetadata) : bool := Cursor d <? zlen (History d) - 1.
Definition PublishedUnchanged (d : DraftMetadata) : bool := negb (Dirty d) && negb (CanRedo d).

(** ** Requests *)

Record CreateDraftRequest : Type := {
  cr_Actor : string;
  cr_Title : string;
  cr_SourceToken : string;
  cr_SourceFile : string;
  cr_Forked : option ForkedPublication;
  (** The digest of the origin. *)
  cr_Origin : option string;
  cr_Document : list byte;
  cr_Summary : string;
}.

Record AppendSnapshotRequest : Type := {
  ar_DraftID : string;
  ar_Actor : string;
  ar_ExpectedRevision : Z;
  ar_Document : list byte;
  ar_Summary : string;
  ar_OpID : string;
}.

Record MoveCursorRequest : Type := {
  mr_DraftID : string;
  mr_Actor : string;
  mr_ExpectedRevision : Z;
  mr_Index : Z;
  mr_SnapshotID : string;
}.

Record DeleteSnapshotRequest : Type := {
  dr_DraftID : string;
  dr_Actor : string;
  dr_ExpectedRevision : Z;
  dr_SnapshotID : string;
}.

Record MarkPublishedRequest : Type := {
  pr_DraftID : string;
  pr_Actor : string;
  pr_ExpectedRevision : Z;
  pr_SnapshotID : string;
  pr_Mode : string;
  pr_TopologyTarget : string;
  pr_TopologyAction : string;
  pr_ExperimentTarget : string;
  pr_ScenarioTarget : string;
  pr_DocumentID : string;
}.

(** ** Checks of texts and identifiers *)

Definition guard (ok : bool) (e : serror) : res serror unit := if ok then Ok tt else Err e.

(** [^[A-Za-z0-9][A-Za-z0-9._-]{0,127}$]. *)
Definition id_byte (b : Z) : bool := is_alnum b || (b =? 46) || (b =? 95) || (b =? 45).

Definition ValidID (id : string) : bool :=
  match bytes_Z id with
  | [] => false
  | b :: l => is_alnum b && forallb id_byte l && (length l <=? 127)%nat
  end.

Definition validateID (field id : string) : res serror unit :=
  guard (ValidID id)
    (newValidationError field (Sprintf "must be 1-%d characters of letters, digits, '.', '-', or '_'" [AInt MaxIDLength])).

Definition validateOptionalID (field id : string) : res serror unit :=
  if String.eqb id "" then Ok tt else validateID field id.

Definition validateText (field value : string) (maxLength : Z) (required : bool) : res serror unit :=
  if String.eqb value "" && required then Err (newValidationError field (lit "must not be empty"))
  else if String.eqb value "" then Ok tt
  else if maxLength <? slen value then
    Err (newValidationError field (Sprintf "must be at most %d bytes" [AInt maxLength]))
  else if negb (valid_utf8 value) then Err (newValidationError field (lit "must be valid UTF-8"))
  else if existsb (fun r => (r <? 32) || (r =? 127)) (runes value) then
    Err (newValidationError field (lit "must not contain control characters"))
  else Ok tt.

(** [strings.ContainsAny(name, `/\`)], both of them ASCII. *)
Definition has_slash (name : string) : bool := existsb (fun b => (b =? 47) || (b =? 92)) (bytes_Z name).

Definition ValidateSourceFile (name : string) : res serror unit :=
  let? _ := validateText "sourceFile" name MaxSourceFileLength false in
  if has_slash name then Err (newValidationError "sourceFile" (lit "must be a file name, without / or \"))
  else if String.eqb name "." || String.eqb name ".." then
    Err (newValidationError "sourceFile" (lit "must be a file name, not . or .."))
  else Ok tt.

Section Checks.
Context `{Unicode}.

Definition validateManifestShape (kind id : string) (m : SnapshotManifest) : res serror unit :=
  if (man_CompressedSize m <=? 0) || (MaxCompressedBytes <? man_CompressedSize m) then
    Err (newCorruptError kind id (Sprintf "manifest declares a compressed size of %d" [AInt (man_CompressedSize m)]))
  else if (man_Size m <? 0) || (MaxDocumentBytes <? man_Size m) then
    Err (newCorruptError kind id (Sprintf "manifest declares a size of %d" [AInt (man_Size m)]))
  else if String.eqb (man_Digest m) "" then Err (newCorruptError kind id (lit "manifest has no document digest"))
  else if negb (IsDigest (man_Digest m)) then
    Err (newCorruptError kind id (Sprintf "manifest document digest %q is not a sha256 digest" [AStr (man_Digest m)]))
  else Ok tt.

Definition ok {E A} (r : res E A) : bool := match r with Ok _ => true | Err _ => false end.

(** [validatePublicationState]. *)
Definition validatePublicationState (key : string) (meta : DraftMetadata) : res serror unit :=
  match Publication meta with
  | None => Ok tt
  | Some state =>
      let corrupt what := newCorruptError kindDraft key what in
      let? _ := guard (PublishMode_Valid (ps_Mode state))
        (corrupt (Sprintf "publication has unknown mode %q" [AStr (ps_Mode state)])) in
      let? _ := guard (TopologyAction_Valid (ps_TopologyAction state))
        (corrupt (Sprintf "publication has unknown topology action %q" [AStr (ps_TopologyAction state)])) in
      let? _ := guard (ok (validateText "topologyTarget" (ps_TopologyTarget state) MaxTargetLength true))
        (corrupt (lit "publication has no usable topology target")) in
      let? _ := guard (ok (validateText "experimentTarget" (ps_ExperimentTarget state) MaxTargetLength false))
        (corrupt (lit "publication has an unusable experiment target")) in
      let? _ := guard (ok (validateText "scenarioTarget" (ps_ScenarioTarget state) MaxTargetLength false))
        (corrupt (lit "publication has an unusable scenario target")) in
      let? _ := guard (ok (validateText "publishedBy" (ps_PublishedBy state) MaxOwnerLength true))
        (corrupt (lit "publication has no usable actor")) in
      let? _ := guard (negb (String.eqb (ps_Mode state) PublishModeTopology &&
                             (negb (String.eqb (ps_ExperimentTarget state) "") || negb (String.eqb (ps_ScenarioTarget state) ""))))
        (corrupt (lit "a topology publication cannot name experiment or scenario targets")) in
      let? _ := guard (negb (String.eqb (ps_Mode state) PublishModeTopologyExperiment &&
                             String.eqb (ps_ExperimentTarget state) ""))
        (corrupt (lit "an experiment publication has no experiment target")) in
      let? _ := guard (ValidID (ps_SnapshotID state)) (corrupt (lit "publication names an invalid snapshot")) in
      let? _ := guard (IsDigest (ps_Digest state)) (corrupt (lit "publication digest is not a sha256 digest")) in
      let? _ := guard (String.eqb (ps_DocumentID state) "" || ValidID (ps_DocumentID state))
        (corrupt (lit "publication names an invalid published document")) in
      match Snapshot_of meta (ps_SnapshotID state) with
      | Some published =>
          guard (String.eqb (man_Digest published) (ps_Digest state))
            (corrupt (Sprintf "publication digest does not match snapshot %q" [AStr (ps_SnapshotID state)]))
      | None => Ok tt
      end
  end.

(** The loop over the manifests, with the identifiers seen. *)
Fixpoint check_manifests (key : string) (i : Z) (seen : gset string) (l : list SnapshotManifest) : res serror unit :=
  match l with
  | [] => Ok tt
  | manifest :: l' =>
      let? _ := guard (ValidID (man_ID manifest))
        (newCorruptError kindDraft key (Sprintf "snapshot %d has an invalid identifier" [AInt i])) in
      let? _ := guard (bool_decide (man_ID manifest ∉ seen))
        (newCorruptError kindDraft key (Sprintf "snapshot %q appears more than once" [AStr (man_ID manifest)])) in
      let? _ := validateManifestShape kindDraft key manifest in
      check_manifests key (i + 1) ({[ man_ID manifest ]} ∪ seen) l'
  end.

Definition validateDraftMetadata (key : string) (meta : DraftMetadata) : res serror unit :=
  let corrupt what := newCorruptError kindDraft key what in
  let? _ := guard (String.eqb (dm_ID meta) key) (corrupt (Sprintf "metadata claims to be draft %q" [AStr (dm_ID meta)])) in
  let? _ := guard (ValidID (dm_ID meta)) (corrupt (lit "draft ID is not a valid identifier")) in
  let? _ := guard (ok (validateText "createdBy" (dm_CreatedBy meta) MaxOwnerLength true))
    (corrupt (lit "metadata has no creator")) in
  let? _ := guard (ok (validateText "title" (dm_Title meta) MaxTitleLength false))
    (corrupt (lit "title is not a usable draft title")) in
  let? _ := guard (negb (zlen (History meta) =? 0)) (corrupt (lit "history is empty")) in
  let? _ := guard (zlen (History meta) <=? MaxSnapshots)
    (corrupt (Sprintf "history holds %d snapshots, more than %d" [AInt (zlen (History meta)); AInt MaxSnapshots])) in
  let? _ := guard ((0 <=? Cursor meta) && (Cursor meta <? zlen (History meta)))
    (corrupt (Sprintf "cursor %d is outside its history" [AInt (Cursor meta)])) in
  let? _ := guard (ok (ValidateSourceFile (dm_SourceFile meta))) (corrupt (lit "source file is not a usable file name")) in
  let? _ := guard (ok (validateText "documentCreatedBy" (DocumentCreatedBy meta) MaxOwnerLength false))
    (corrupt (lit "document creator is not a usable user")) in
  let? _ := guard (String.eqb (DocumentCreatedAt meta) "" || IsTime (DocumentCreatedAt meta))
    (corrupt (lit "document creation time is not a time a document may hold")) in
  let? _ := check_manifests key 0 ∅ (History meta) in
  let? _ := guard (HistoryBytes meta <=? MaxDraftHistoryBytes)
    (corrupt (Sprintf "history holds %d bytes, more than %d" [AInt (HistoryBytes meta); AInt MaxDraftHistoryBytes])) in
  validatePublicationState key meta.

(** ** Checks of requests *)

Definition validateCreateRequest (req : CreateDraftRequest) : res serror unit :=
  let? _ := validateText "actor" (cr_Actor req) MaxOwnerLength true in
  let? _ := validateText "title" (cr_Title req) MaxTitleLength false in
  let? _ := validateText "sourceToken" (cr_SourceToken req) MaxSourceTokenLength false in
  let? _ := validateText "summary" (cr_Summary req) MaxSummaryLength false in
  let? _ := match cr_Origin req with
            | Some digest => guard (IsDigest digest) (newValidationError "origin" (lit "digest is not a sha256 digest"))
            | None => Ok tt
            end in
  ValidateSourceFile (cr_SourceFile req).

Definition validateAppendRequest (req : AppendSnapshotRequest) : res serror unit :=
  let? _ := validateText "actor" (ar_Actor req) MaxOwnerLength true in
  let? _ := validateOptionalID "opId" (ar_OpID req) in
  validateText "summary" (ar_Summary req) MaxSummaryLength false.

Definition validatePublishTargets (req : MarkPublishedRequest) : res serror unit :=
  if negb (PublishMode_Valid (pr_Mode req)) then
    Err (newValidationError "mode" (Sprintf "unknown publish mode %q" [AStr (pr_Mode req)]))
  else if negb (TopologyAction_Valid (pr_TopologyAction req)) then
    Err (newValidationError "topologyAction" (Sprintf "unknown topology action %q" [AStr (pr_TopologyAction req)]))
  else if String.eqb (pr_Mode req) PublishModeTopologyExperiment && String.eqb (pr_ExperimentTarget req) "" then
    Err (newValidationError "experimentTarget" (lit "must not be empty when you publish a topology and an experiment"))
  else if String.eqb (pr_Mode req) PublishModeTopology && negb (String.eqb (pr_ExperimentTarget req) "") then
    Err (newValidationError "experimentTarget" (lit "must be empty when you publish only a topology"))
  else if String.eqb (pr_Mode req) PublishModeTopology && negb (String.eqb (pr_ScenarioTarget req) "") then
    Err (newValidationError "scenarioTarget" (lit "must be empty when you publish only a topology"))
  else Ok tt.

Definition validatePublishRequest (req : MarkPublishedRequest) : res serror unit :=
  let? _ := validateText "actor" (pr_Actor req) MaxOwnerLength true in
  let? _ := validateID "snapshotID" (pr_SnapshotID req) in
  let? _ := validateOptionalID "documentID" (pr_DocumentID req) in
  let? _ := validateText "topologyTarget" (pr_TopologyTarget req) MaxTargetLength true in
  let? _ := validateText "experimentTarget" (pr_ExperimentTarget req) MaxTargetLength false in
  let? _ := validateText "scenarioTarget" (pr_ScenarioTarget req) MaxTargetLength false in
  validatePublishTargets req.

(** ** Histories *)

(** [removeSnapshot]; an index out of range is a panic. *)
Definition removeSnapshot (meta : DraftMetadata) (index : nat) : option (SnapshotManifest * DraftMetadata) :=
  match History meta !! index with
  | Some removed =>
      Some (removed,
        with_history meta (base.delete index (History meta))
          (if Z.of_nat index <? Cursor meta then Cursor meta - 1 else Cursor meta))
  | None => None
  end.

(** The loop of [pruneHistory]. Each turn moves the cursor one down, so as
    many turns as the cursor is high are enough ([DraftSpec.prune_loop_terminates]). *)
Fixpoint prune_loop (fuel : nat) (meta : DraftMetadata) (total : Z) : option (list SnapshotManifest * DraftMetadata) :=
  if ((MaxSnapshots <? zlen (History meta)) || (MaxDraftHistoryBytes <? total)) && (0 <? Cursor meta) then
    match fuel with
    | O => None
    | S fuel =>
        match removeSnapshot meta 0 with
        | Some (oldest, meta) =>
            match prune_loop fuel meta (sub64 total (man_Size oldest)) with
            | Some (dropped, meta) => Some (oldest :: dropped, meta)
            | None => None
            end
        | None => None
        end
    end
  else Some ([], meta).

Definition pruneHistory (meta : DraftMetadata) : option (list SnapshotManifest * DraftMetadata) :=
  prune_loop (Z.to_nat (Cursor meta)) meta (HistoryBytes meta).

Definition resolveCursor (meta : DraftMetadata) (req : MoveCursorRequest) : res serror Z :=
  if negb (String.eqb (mr_SnapshotID req) "") then
    match list_find (fun m => man_ID m = mr_SnapshotID req) (History meta) with
    | Some (i, _) => Ok (Z.of_nat i)
    | None => Err (newNotFoundError kindSnapshot (mr_SnapshotID req))
    end
  else if (mr_Index req <? 0) || (zlen (History meta) <=? mr_Index req) then
    Err (newValidationError "index" (Sprintf "must be between 0 and %d" [AInt (zlen (History meta) - 1)]))
  else Ok (mr_Index req).

Definition checkRevision (draftID : string) (expected actual : Z) : res serror unit :=
  if (expected =? AnyRevision) || (expected =? actual) then Ok tt
  else Err (SConflict kindDraft draftID expected actual (lit "")).

Definition isPublishRetry (meta : DraftMetadata) (req : MarkPublishedRequest) : bool :=
  match Publication meta, Current meta with
  | Some state, Some current =>
      String.eqb (man_ID current) (pr_SnapshotID req) &&
      (String.eqb (ps_Mode state) (pr_Mode req) && String.eqb (ps_TopologyTarget state) (pr_TopologyTarget req) &&
       String.eqb (ps_TopologyAction state) (pr_TopologyAction req) &&
       String.eqb (ps_ExperimentTarget state) (pr_ExperimentTarget req) &&
       String.eqb (ps_ScenarioTarget state) (pr_ScenarioTarget req) &&
       String.eqb (ps_SnapshotID state) (pr_SnapshotID req) && String.eqb (ps_Digest state) (man_Digest current) &&
       String.eqb (ps_DocumentID state) (pr_DocumentID req)) &&
      ((pr_ExpectedRevision req =? AnyRevision) || (pr_ExpectedRevision req =? dm_Revision meta) ||
       (pr_ExpectedRevision req =? ps_Revision state))
  | _, _ => false
  end.

(** [documentTitle]. *)
Definition documentTitle (doc : Document) (fallback : string) : res serror string :=
  let title := if String.eqb (meta_Name (Meta doc)) "" then fallback else meta_Name (Meta doc) in
  let? _ := validateText "title" title MaxTitleLength false in Ok title.

End Checks.
