(* ===== verification/Content.v ===== *)
(** * api/builder/content.go: the documents in the store

    Every snapshot of a draft and every published document is one compressed
    record. gzip and SHA-256 are classes; reading checks the sizes and the
    digest, so it returns the document that was written or says it is
    corrupt. *)

From Stdlib Require Import ZArith Lia Ascii String Strings.Byte.
From stdpp Require Import base option list gmap strings.
From S2P Require Import Prelude Record RecordSpec Text Codes Document Layers Icons Validate Drafts.

Open Scope Z_scope.
Open Scope go_scope.

(** [gunzip] is a gzip reader: none when the header is not one; else what it
    reads, the error it ends with, if any, and the error of [Close]. *)
Class Compression := {
  gzip : list byte -> res string (list byte);
  gunzip : list byte -> option (list byte * option string * option string);
  Sum256 : list byte -> list byte;
}.

(** What is written is read again, and compressed data is not empty. A digest
    is 32 bytes. *)
Class CompressionLaws `{Compression} : Prop := {
  gunzip_gzip data z : gzip data = Ok z -> gunzip z = Some (data, None, None) /\ z <> [];
  length_Sum256 data : length (Sum256 data) = 32%nat;
}.

(** ** Digests *)

(** [hex.EncodeToString]. *)
Definition hex_digit (d : Z) : Z := if d <? 10 then 48 + d else 87 + d.

Definition hex_encode (l : list byte) : list Z :=
  l ≫= fun b => [hex_digit (byte_Z b / 16); hex_digit (byte_Z b mod 16)].

Section Content.
Context `{Unicode, Compression}.

Definition digestOf (data : list byte) : string := digestPrefix +:+ Z_string (hex_encode (Sum256 data)).

(** ** Keys *)

Definition scopeDrafts : string := "drafts".
Definition scopePublished : string := "published".

Definition draftContentPrefix (draftID : string) : string := scopeDrafts +:+ "/" +:+ draftID +:+ "/".
Definition snapshotKey (draftID snapshotID : string) : string := draftContentPrefix draftID +:+ snapshotID.
Definition publishedKey (documentID : string) : string := scopePublished +:+ "/" +:+ documentID.

(** [contentDraftOf]. *)
Definition contentDraftOf (key : string) : option string :=
  match split_on "/" key with
  | [scope; draft; snapshot] =>
      if String.eqb scope scopeDrafts && negb (String.eqb draft "") && negb (String.eqb snapshot "") then Some draft else None
  | [scope; document] => if String.eqb scope scopePublished && negb (String.eqb document "") then Some "" else None
  | _ => None
  end.

(** ** Payloads *)

Record payload : Type := { load_digest : string; load_size : Z; load_compressed : list byte }.

Definition blen (l : list byte) : Z := Z.of_nat (length l).

Definition buildPayload (data : list byte) : res serror payload :=
  if MaxDocumentBytes <? blen data then Err (newTooLargeError "document" (blen data) MaxDocumentBytes)
  else
    match gzip data with
    | Err what => Err (SWrap (lit "compressing document: %w") (SOther what))
    | Ok z =>
        if MaxCompressedBytes <? blen z then Err (newTooLargeError "compressed document" (blen z) MaxCompressedBytes)
        else Ok {| load_digest := digestOf data; load_size := blen data; load_compressed := z |}
    end.

(** An operation of the store in a transaction of the service. *)
Definition tx_call {A} (m : st Spec.state error A) : st Spec.state serror A :=
  fun s => let '(r, s') := m s in (res_map_err SRaw r, s').

(** [putContent]: create the record, or replace the one that is there. *)
Definition putContent (time : string -> string -> Z) (key : string) (load : payload) : st Spec.state serror unit := fun s =>
  let now := time NamespaceContent key in
  let value := Some (load_compressed load) in
  let '(r, s') :=
    match tx_call (Spec.create now NamespaceContent key value) s with
    | (Err e, s') =>
        if is_store e ErrRecordExist then tx_call (Spec.update now NamespaceContent key value AnyRevision) s'
        else (Err e, s')
    | r => r
    end in
  match r with
  | Err e => (Err (SWrap (Sprintf "writing content %s: %w" [AStr key]) e), s')
  | Ok _ => (Ok tt, s')
  end.

Definition dropContent (key : string) : st Spec.state serror unit := fun s =>
  match tx_call (Spec.delete NamespaceContent key AnyRevision) s with
  | (Err e, s') =>
      if is_store e ErrRecordNotExist then (Ok tt, s')
      else (Err (SWrap (Sprintf "deleting content %s: %w" [AStr key]) e), s')
  | r => r
  end.

(** [decompress]: the reader is limited to one byte past the size, so its
    error counts only when it comes before that. *)
Definition decompress (kind id : string) (compressed : list byte) (size : Z) : res serror (list byte) :=
  let corrupt what := newCorruptError kind id what in
  if MaxDocumentBytes <? size then Err (corrupt (Sprintf "declared size %d exceeds the document limit" [AInt size]))
  else
    match gunzip compressed with
    | None => Err (corrupt (lit "payload is not valid gzip data"))
    | Some (data, read_error, close_error) =>
        let limit := size + 1 in
        match (if limit <=? blen data then None else read_error) with
        | Some what => Err (corrupt (Sprintf "phenix cannot decompress the payload: %s" [AStr what]))
        | None =>
            let data := take (Z.to_nat limit) data in
            if negb (blen data =? size) then
              Err (corrupt (Sprintf "decompressed payload is %d bytes, expected %d" [AInt (blen data); AInt size]))
            else
              match close_error with
              | Some what => Err (corrupt (Sprintf "phenix cannot decompress the payload: %s" [AStr what]))
              | None => Ok data
              end
        end
    end.

(** [readPayload]: it reads the store, or a transaction. *)
Definition readPayload (s : Spec.state) (kind id key : string) (manifest : SnapshotManifest) : res serror (list byte) :=
  let? _ := validateManifestShape kind id manifest in
  match fst (tx_call (Spec.get NamespaceContent key) s) with
  | Err e =>
      if is_store e ErrRecordNotExist then Err (newCorruptError kind id (lit "content is missing"))
      else Err (SWrap (Sprintf "reading content %s: %w" [AStr key]) e)
  | Ok record =>
      let value := bytes_of (Value record) in
      if negb (blen value =? man_CompressedSize manifest) then
        Err (newCorruptError kind id
          (Sprintf "compressed payload is %d bytes, expected %d" [AInt (blen value); AInt (man_CompressedSize manifest)]))
      else
        let? data := decompress kind id value (man_Size manifest) in
        if negb (String.eqb (digestOf data) (man_Digest manifest)) then
          Err (newCorruptError kind id
            (Sprintf "document digest is %s, expected %s" [AStr (digestOf data); AStr (man_Digest manifest)]))
        else Ok data
  end.

End Content.
