(* ===== verification/Generate.v ===== *)
(** * types/builder/generate.go: documents from topologies and experiments

    A topology or an experiment as a document: its nodes and those of the
    topologies it includes as devices, a network and a switch for each VLAN, and
    warnings about what a document does not hold. Reading a config, [encoding/json]
    and the error text of a Go value are arguments. *)

From Stdlib Require Import ZArith Lia Ascii String Strings.Byte.
From stdpp Require Import base option list gmap strings.
From S2P Require Import Config Prelude Text Printf Codes Document Specs Subnet Checks Layers Icons Validate Content Topology PublishChecks.
From S2P Require Experiment.

Open Scope Z_scope.
Open Scope go_scope.

(** ** types/builder/residue.go: what phenix adds to the nodes of an experiment

    The shape of a node spec, by the keys that phenix stores, and what is taken
    out of the nodes of an experiment before they become devices. *)

Definition bridgeSetInTopoKey : string := "bridge_set_in_topo".
Definition v1_bridge : string := "phenix".

(** Which values of a field phenix reads as no value. *)
Inductive fieldKind : Type := fieldScalar | fieldPointer | fieldList | fieldMap | fieldObject | fieldObjects.

(** The structs of a node spec. *)
Inductive structType : Type :=
  | TNode | TGeneral | THardware | TDrive | TInjection | TDeletion | TDelay | TC2Delay | TNetwork | TInterface | TRoute | TOSPF | TArea | TAreaNetwork
  | TRuleset | TRule | TAddrPort | TNAT.

#[export] Instance structType_eq_dec : EqDecision structType.
Proof. solve_decision. Defined.

Inductive structShape : Type :=
  | Struct (typ : structType) (fields : list shapeField)
with shapeField : Type :=
  | Field (name : string) (kind : fieldKind) (shape : option structShape) (def : option any).

Definition shape_type (s : structShape) : structType := let '(Struct t _) := s in t.
Definition shape_fields (s : structShape) : list shapeField := let '(Struct _ l) := s in l.
Definition field_name (f : shapeField) : string := let '(Field n _ _ _) := f in n.

(** [s.fields[key]]. *)
Definition shape_field (s : structShape) (key : string) : option shapeField := List.find (fun f => String.eqb (field_name f) key) (shape_fields s).

(** ** nodeShape

    What [shapeOf] finds in the structs of types/version/v1, with the defaults
    that [Init] gives an empty node. *)
Definition scalar (name : string) : shapeField := Field name fieldScalar None None.
Definition scalar_of (name : string) (def : any) : shapeField := Field name fieldScalar None (Some def).
Definition pointer (name : string) : shapeField := Field name fieldPointer None None.
Definition pointer_of (name : string) (def : any) : shapeField := Field name fieldPointer None (Some def).
Definition scalars (name : string) : shapeField := Field name fieldList None None.
Definition map_of (name : string) : shapeField := Field name fieldMap None None.
Definition object_of (name : string) (s : structShape) : shapeField := Field name fieldObject (Some s) None.
Definition objects_of (name : string) (s : structShape) : shapeField := Field name fieldObjects (Some s) None.

Definition generalShape : structShape := Struct TGeneral
  [scalar "hostname"; scalar "description"; scalar_of "vm_type" (Str "kvm"); pointer_of "snapshot" (Bool true); pointer_of "do_not_boot" (Bool false)].

Definition driveShape : structShape := Struct TDrive [scalar "image"; scalar "interface"; scalar "cache_mode"; pointer "inject_partition"].

Definition hardwareShape : structShape := Struct THardware
  [scalar_of "cpu" (Str "Broadwell"); scalar_of "vcpus" (Int 1); scalar_of "memory" (Int 512); scalar_of "os_type" (Str "linux"); objects_of "drives" driveShape].

Definition injectionShape : structShape := Struct TInjection [scalar "src"; scalar "dst"; scalar "description"; scalar "permissions"].
Definition deletionShape : structShape := Struct TDeletion [scalar "path"; scalar "description"].
Definition delayShape : structShape := Struct TDelay
  [scalar "timer"; scalar "user"; objects_of "c2" (Struct TC2Delay [scalar "hostname"; scalar "useUUID"])].

Definition interfaceShape : structShape := Struct TInterface
  [scalar "name"; scalar "type"; scalar "proto"; scalar "udp_port"; scalar "baud_rate"; scalar "device"; scalar "vlan"; scalar "bridge"; scalar "autostart";
   scalar "mac"; scalar "driver"; scalar "mtu"; scalar "address"; scalar "mask"; scalar "gateway"; scalars "dns"; scalar "qinq"; scalar "ruleset_in";
   scalar "ruleset_out"; pointer bridgeSetInTopoKey].

Definition ospfShape : structShape := Struct TOSPF
  [scalar "router_id";
   objects_of "areas" (Struct TArea [pointer "area_id"; objects_of "area_networks" (Struct TAreaNetwork [scalar "network"])]);
   pointer "dead_interval"; pointer "hello_interval"; pointer "retransmission_interval"].

Definition addrPortShape : structShape := Struct TAddrPort [scalar "address"; scalar "port"].

Definition rulesetShape : structShape := Struct TRuleset
  [scalar "name"; scalar "description"; scalar "default";
   objects_of "rules" (Struct TRule [scalar "id"; scalar "description"; scalar "action"; scalar "protocol"; object_of "source" addrPortShape;
     object_of "destination" addrPortShape; scalar "stateful"])].

Definition networkShape : structShape := Struct TNetwork
  [objects_of "interfaces" interfaceShape; objects_of "routes" (Struct TRoute [scalar "destination"; scalar "next"; pointer "cost"]);
   object_of "ospf" ospfShape; objects_of "rulesets" rulesetShape; objects_of "nat" (Struct TNAT [scalars "in"; scalar "out"])].

Definition nodeShape : structShape := Struct TNode
  [map_of "annotations"; map_of "labels"; scalar "type"; object_of "general" generalShape; object_of "hardware" hardwareShape;
   object_of "network" networkShape; objects_of "injections" injectionShape; objects_of "deletions" deletionShape; map_of "advanced";
   map_of "overrides"; object_of "delay" delayShape; scalars "commands"; pointer "external"].

(** ** strip *)

Section Strip.
Context `{Unicode}.

(** [item == f.def], and comparing with the zero values. *)
Definition any_eqb (a b : any) : bool :=
  match a, b with
  | Bool x, Bool y => Bool.eqb x y
  | Int x, Int y => x =? y
  | Str x, Str y => String.eqb x y
  | _, _ => false
  end.

Definition unset (f : shapeField) (item : any) (defaults : bool) : bool :=
  let '(Field _ kind _ def) := f in
  match item with Null => true | _ => false end ||
  (defaults && match def with Some d => any_eqb item d | None => false end) ||
  match kind with
  | fieldScalar => any_eqb item (Str "") || any_eqb item (Int 0) || any_eqb item (Bool false)
  | fieldList | fieldObjects => match item with Arr [] => true | _ => false end
  | fieldMap => match item with Obj [] => true | _ => false end
  | fieldPointer | fieldObject => false
  end.

(** [structShape.required], of a field of an object. *)
Definition required (s : structShape) (key : string) (value : spec) : bool :=
  match shape_type s with
  | THardware => String.eqb key "os_type"
  | TNetwork => String.eqb key "interfaces"
  | TInterface =>
      if String.eqb key "mask" then negb (String.eqb (field_string value "address") "")
      else if String.eqb key "udp_port" then EqualFold (specString value ["type"]) "serial"
      else String.eqb key "vlan"
  | TOSPF => String.eqb key "areas"
  | TArea => String.eqb key "area_networks"
  | TRuleset => String.eqb key "rules"
  | TRule => String.eqb key "id"
  | _ => false
  end.

(** [structShape.strip]; a value that is no object stays. Only keys that are
    not asked for by [required] go while the loop runs, so the object is as
    it was for it. *)
Fixpoint strip (s : structShape) (defaults : bool) (value : any) : any :=
  match value with
  | Obj fields =>
      Obj ((fix go (l : spec) : spec :=
        match l with
        | [] => []
        | (key, item) :: l =>
            match shape_field s key with
            | None => (key, item) :: go l
            | Some f =>
                let '(Field _ kind shape _) := f in
                let item' :=
                  match kind, shape with
                  | fieldObject, Some inner => strip inner defaults item
                  | fieldObjects, Some inner => match item with Arr entries => Arr (map (strip inner defaults) entries) | _ => item end
                  | _, _ => item
                  end in
                if unset f item' defaults && negb (required s key fields) then go l else (key, item') :: go l
            end
        end) fields)
  | _ => value
  end.

(** ** Bridges *)

Definition drop_bridge (defaultBridge : string) (iface : any) : any :=
  match iface with
  | Obj fields =>
      let setInTopo := field fields bridgeSetInTopoKey in
      let fields := delete_field fields bridgeSetInTopoKey in
      match setInTopo with
      | Some (Bool false) =>
          let bridge := field_string fields "bridge" in
          if String.eqb bridge defaultBridge || String.eqb bridge v1_bridge then Obj (delete_field fields "bridge") else Obj fields
      | _ => Obj fields
      end
  | _ => iface
  end.

Definition dropBridgeDefaults (node : spec) (defaultBridge : string) : spec := with_interfaces node (map (drop_bridge defaultBridge) (specNodeInterfaces node)).

Definition drop_node (defaultBridge : string) (entry : any) : any :=
  match entry with
  | Obj node =>
      let node := dropBridgeDefaults node defaultBridge in
      strip nodeShape (negb (field_set node "external")) (Obj node)
  | _ => entry
  end.

(** [dropExperimentResidue]. *)
Definition dropExperimentResidue (topology : spec) (defaultBridge : string) : spec :=
  let defaultBridge := if String.eqb defaultBridge "" then v1_bridge else defaultBridge in
  match field topology "nodes" with
  | Some (Arr nodes) => set_field topology "nodes" (Arr (map (drop_node defaultBridge) nodes))
  | _ => topology
  end.

End Strip.

(** ** generate.go *)

Definition layoutColumns : Z := 6.
Definition layoutSpacingX : Z := 320.
Definition layoutSpacingY : Z := 240.
Definition layoutSwitchOffset : Z := 160.
Definition maxIncludeResolutions : nat := 100.
Definition maxListedIncludes : nat := 8.
Definition maxListedAnnotations : nat := 5.
Definition kindTopology : string := "Topology".
Definition kindExperiment : string := "Experiment".
Definition builderAnnotationPrefix : string := "builder-".
Definition LegacyXMLAnnotation : string := "builder-xml".
Definition PhenixBase : string := "/phenix".

(** ** Data *)

(** Why an included topology cannot be used: a config that cannot be read, or
    that is none, or no topology, or of another version, or with a spec that is
    no object; and [ErrTooManyIncludes]. *)
Inductive include_error : Type :=
  | Unloaded (what : string)
  | NoConfig
  | NotTopology (kind : string)
  | BadVersion (kind version : string)
  | BadSpec (kind : string) (e : spec_error)
  | ErrTooManyIncludes.

Record IncludeError : Type := { ie_Name : string; ie_Err : include_error }.

Record includedTopology : Type := { it_name : string; it_spec : spec }.

(** What resolving includes keeps. *)
Record resolution : Type := {
  rs_warnings : list string; rs_count : nat; rs_includedBy : gmap string (list string); rs_includeOrder : list string; rs_unreadable : list IncludeError;
}.

Definition no_resolution : resolution := {|
  rs_warnings := []; rs_count := 0; rs_includedBy := ∅; rs_includeOrder := []; rs_unreadable := [] |}.

(** The accumulators of a [generator]. *)
Record generator : Type := {
  g_warnings : list string;
  g_devices : list Node;
  g_networks : gmap string Network;
  g_folded : gmap string string;
  g_edges : list Edge;
  g_members : gmap string Z;
  g_hostnames : gmap string string;
  g_included : gmap string Z;
}.

Definition new_generator : generator := {|
  g_warnings := []; g_devices := []; g_networks := ∅; g_folded := ∅; g_edges := []; g_members := ∅; g_hostnames := ∅; g_included := ∅ |}.

Definition warn_all (ws : list string) (g : generator) : generator := {|
  g_warnings := g_warnings g ++ ws; g_devices := g_devices g; g_networks := g_networks g; g_folded := g_folded g; g_edges := g_edges g;
  g_members := g_members g; g_hostnames := g_hostnames g; g_included := g_included g |}.

Definition with_networks (networks : gmap string Network) (folded : gmap string string) (g : generator) : generator := {|
  g_warnings := g_warnings g; g_devices := g_devices g; g_networks := networks; g_folded := folded; g_edges := g_edges g;
  g_members := g_members g; g_hostnames := g_hostnames g; g_included := g_included g |}.

(** What generating fails with; [GFuel] stands for a recursion that was cut
    off, which none is. *)
Inductive gerror : Type :=
  | ErrUnsupportedKind (kind : string)
  | ErrUnsupportedVersion (kind version : string)
  | ErrCombineExperiment
  | GSpec (what : string) (e : spec_error)
  | GScenario (name what : string)
  | GDigest (what : string)
  | GInvalid (issues : list Issue)
  | GFuel.

(** ** Texts *)

Definition pluralOf (n : Z) (one many : string) : string := if n =? 1 then one else many.

(** [listOf]: "a", "a and b", or "a, b and c". *)
Definition listOf (items : list string) : string :=
  match items with
  | [] => ""
  | [item] => item
  | _ => join ", " (removelast items) +:+ " and " +:+ List.last items ""
  end.

(** ** Names and specs *)

Definition validIncludeName (name : string) : bool := negb (blank name) && negb (hasNameSpace name).

Definition includeEntries (s : spec) : list any := field_list s keyIncludes.

Definition valid_include (value : any) : option string :=
  match value with Str name => if validIncludeName name then Some name else None | _ => None end.

Definition includeNames (s : spec) : list string := omap valid_include (includeEntries s).

Definition spec_nodes (s : spec) : list any := field_list s keyNodes.

Definition entry_hostname (entry : any) : string := match entry with Obj node => specString node ["general"; "hostname"] | _ => "" end.

Definition specHostnames (s : spec) : list string :=
  List.filter (fun hostname => negb (blank hostname)) (map entry_hostname (spec_nodes s)).

Definition toInt (value : any) : option Z := match value with Int n => Some n | Num f => Some (f_to_int f) | _ => None end.

(** The keys of a map, sorted, each once. *)
Definition sorted_fields (fields : spec) : list string := sort_by String.leb (remove_dups (map fst fields)).

Definition IsBuilderAnnotation (key : string) : bool := has_prefix key builderAnnotationPrefix.

(** [digestValue]. *)
Fixpoint str_keys (fields : list (any * any)) : option (list (string * any)) :=
  match fields with
  | [] => Some []
  | (Str key, value) :: fields => rest ← str_keys fields; Some ((key, value) :: rest)
  | _ => None
  end.

Fixpoint digestValue (value : any) : any :=
  match value with
  | Obj fields => Obj (map (fun '(key, v) => (key, digestValue v)) fields)
  | AnyMap fields =>
      match str_keys fields with
      | None => value
      | Some _ => Obj (map (fun '(key, v) => (match key with Str k => k | _ => "" end, digestValue v)) fields)
      end
  | Arr l => Arr (map digestValue l)
  | _ => value
  end.

(** A message without verbs. *)
Definition lit_string (s : string) : string := s.

Section Generate.
Context `{Unicode, Printable, UUIDs, Libraries, PNG, Compression} (order : list string).

(** [json.Marshal]; what %v shows of an error about a value; and the loader,
    when there is one: an error, or a config that may be nil. *)
Context (marshal : any -> res string (list byte)) (show_error : spec_error -> string).
Context (load : option (string -> res string (option Config))).

Definition countOf (n : Z) (noun : string) : string := sprintf "%d %s" [AInt n; AStr (pluralOf n noun (noun +:+ "s"))].

Definition canonical_kind (kind : string) : option string :=
  if EqualFold kind kindTopology then Some kindTopology else if EqualFold kind kindExperiment then Some kindExperiment else None.

(** The spec of a config of the kind. *)
Definition read_spec (c : Config) (kind : string) : res spec_error spec :=
  let? s := normalizeSpecMap (Obj (default [] (cf_Spec c))) in Ok (default [] s).

Definition specForConfig (c : Config) (kind : string) : res gerror spec :=
  if negb (String.eqb (config_APIVersion c) (StoredVersion kind)) then Err (ErrUnsupportedVersion kind (config_APIVersion c))
  else res_map_err (GSpec (sprintf "reading %s spec" [AStr kind])) (read_spec c kind).

Definition include_text (e : include_error) : string :=
  match e with
  | Unloaded what => what
  | NoConfig => "the loader returned no topology"
  | NotTopology kind => sprintf "%s is not a topology" [AStr kind]
  | BadVersion kind version => sprintf "unsupported config version for builder document: %s %s" [AStr kind; AStr version]
  | BadSpec kind e => sprintf "reading %s spec: %s" [AStr kind; AStr (show_error e)]
  | ErrTooManyIncludes => sprintf "more than %d included topologies" [AInt (Z.of_nat maxIncludeResolutions)]
  end.

Definition loadIncluded (loader : string -> res string (option Config)) (name : string) : res include_error spec :=
  match loader name with
  | Err what => Err (Unloaded what)
  | Ok None => Err NoConfig
  | Ok (Some c) =>
      if negb (bool_decide (canonical_kind (cf_Kind c) = Some kindTopology)) then Err (NotTopology (cf_Kind c))
      else if negb (String.eqb (config_APIVersion c) (StoredVersion kindTopology)) then Err (BadVersion kindTopology (config_APIVersion c))
      else res_map_err (BadSpec kindTopology) (read_spec c kindTopology)
  end.

(** ** Resolving includes *)

Definition rs_warn (w : string) (r : resolution) : resolution := {|
  rs_warnings := rs_warnings r ++ [w]; rs_count := rs_count r; rs_includedBy := rs_includedBy r; rs_includeOrder := rs_includeOrder r;
  rs_unreadable := rs_unreadable r |}.

Definition rs_again (name : string) (parents : list string) (r : resolution) : resolution := {|
  rs_warnings := rs_warnings r; rs_count := rs_count r; rs_includedBy := <[ name := parents ]> (rs_includedBy r); rs_includeOrder := rs_includeOrder r;
  rs_unreadable := rs_unreadable r |}.

Definition rs_reach (name parent : string) (r : resolution) : resolution := {|
  rs_warnings := rs_warnings r; rs_count := S (rs_count r); rs_includedBy := <[ name := [parent] ]> (rs_includedBy r);
  rs_includeOrder := rs_includeOrder r ++ [name]; rs_unreadable := rs_unreadable r |}.

Definition rs_fail (name : string) (e : include_error) (r : resolution) : resolution := {|
  rs_warnings := rs_warnings r; rs_count := rs_count r; rs_includedBy := rs_includedBy r; rs_includeOrder := rs_includeOrder r;
  rs_unreadable := rs_unreadable r ++ [{| ie_Name := name; ie_Err := e |}] |}.

Definition cycle_warning (name : string) : string :=
  sprintf ("included topology %q includes itself through a cycle, which phenix rejects. " +:+ "The Builder skipped the repeated include") [AStr name].

(** The loop over the names, given how the includes of one are resolved.
    Nothing when a recursion was cut off. *)
Fixpoint resolve_names (loader : string -> res string (option Config))
    (below : list string -> string -> gset string -> resolution -> option (list includedTopology * resolution))
    (parent : string) (visited : gset string) (names : list string) (r : resolution) : option (list includedTopology * resolution) :=
  match names with
  | [] => Some ([], r)
  | name :: names =>
      let next := resolve_names loader below parent visited names in
      if bool_decide (name ∈ visited) then next (rs_warn (cycle_warning name) r)
      else
        match rs_includedBy r !! name with
        | Some parents => next (rs_again name (parents ++ [parent]) r)
        | None =>
            if (maxIncludeResolutions <=? rs_count r)%nat then Some ([], rs_fail name ErrTooManyIncludes r)
            else
              let r := rs_reach name parent r in
              match loadIncluded loader name with
              | Err e => next (rs_fail name e r)
              | Ok s =>
                  '(nested, r) ← (match includeNames s with [] => Some ([], r) | names' => below names' name ({[ name ]} ∪ visited) r end);
                  '(rest, r) ← next r;
                  Some ({| it_name := name; it_spec := s |} :: nested ++ rest, r)
              end
        end
  end.

Fixpoint resolveIncludes (loader : string -> res string (option Config)) (fuel : nat) (names : list string) (parent : string) (visited : gset string)
    (r : resolution) : option (list includedTopology * resolution) :=
  match fuel with
  | O => None
  | S fuel => resolve_names loader (resolveIncludes loader fuel) parent visited names r
  end.

(** [includers]: each parent once, in order, with how often it is there. *)
Definition includers (parents : list string) : string :=
  let parents := map (fun p => if String.eqb p "" then "the experiment's topology" else p) parents in
  let seen := rev (remove_dups (rev parents)) in
  listOf (map (fun p =>
    match length (List.filter (String.eqb p) parents) with
    | 1%nat => p
    | 2%nat => p +:+ " twice"
    | n => sprintf "%s %d times" [AStr p; AInt (Z.of_nat n)]
    end) seen).

Definition again_warning (r : resolution) (name : string) : list string :=
  match rs_includedBy r !! name with
  | Some (p :: q :: parents) =>
      [sprintf ("included topology %q occurs more than once (through %s). " +:+
                "phenix rejects the duplicate hostnames that this causes. Thus the diagram shows its nodes only once")
         [AStr name; AStr (includers (p :: q :: parents))]]
  | _ => []
  end.

(** [resolveAll] of a generation, which resolves once; 101 steps of fuel are
    enough for 100 reads. *)
Definition resolveAll (loader : string -> res string (option Config)) (includes : list string) (root : string) : option (list includedTopology * resolution) :=
  let visited : gset string := if String.eqb root "" then ∅ else {[ root ]} in
  '(resolved, r) ← resolveIncludes loader (S maxIncludeResolutions) includes root visited no_resolution;
  Some (resolved, {| rs_warnings := rs_warnings r ++ concat (map (again_warning r) (rs_includeOrder r)); rs_count := rs_count r;
                     rs_includedBy := rs_includedBy r; rs_includeOrder := rs_includeOrder r; rs_unreadable := rs_unreadable r |}).

(** [unresolvedIncludes]: the names that are met, in order, and not among the
    resolved ones; [seen] is what the walk has met. *)
Fixpoint walk_includes (specs : gmap string spec) (fuel : nat) (names : list string) (seen : gset string) : option (list string * gset string) :=
  match fuel with
  | O => None
  | S fuel =>
      match names with
      | [] => Some ([], seen)
      | name :: names =>
          if bool_decide (name ∈ seen) then walk_includes specs fuel names seen
          else
            let seen := {[ name ]} ∪ seen in
            match specs !! name with
            | None => '(rest, seen) ← walk_includes specs fuel names seen; Some (name :: rest, seen)
            | Some s => walk_includes specs fuel (includeNames s ++ names) seen
            end
      end
  end.

Definition unresolvedIncludes (includes : list string) (root : string) (resolved : list includedTopology) : list string :=
  let specs : gmap string spec := foldl (fun m t => <[ it_name t := it_spec t ]> m) ∅ resolved in
  let fuel := S (length includes + sum_list (map (fun t => length (includeNames (it_spec t))) resolved)) in
  match walk_includes specs fuel includes {[ root ]} with Some (names, _) => names | None => [] end.

(** ** Networks and connections *)

(** [generator.network]: the generator has the network of the name. *)
Definition network (name : string) (g : generator) : generator :=
  match g_networks g !! name with
  | Some _ => g
  | None =>
      let key := foldKey name in
      let '(ws, folded) :=
        match g_folded g !! key with
        | Some other =>
            ([sprintf ("VLAN %q differs only by case from VLAN %q. minimega treats them as different VLANs. " +:+ "Thus they are separate networks")
                [AStr name; AStr other]], g_folded g)
        | None => ([], <[ key := name ]> (g_folded g))
        end in
      with_networks (<[ name := {| net_ID := NetworkID name; net_Name := name; Alias := None; net_Description := ""; net_Color := "";
                                   net_LineStyle := ""; Subnet := ""; Gateway := "" |} ]> (g_networks g)) folded (warn_all ws g)
  end.

Definition device_edge (nodeID : string) (handle : InterfaceHandle) (vlan : string) : Edge := {|
  edge_ID := EdgeID nodeID (handle_ID handle) (SwitchNodeID vlan) ""; SourceNodeID := nodeID; SourceHandleID := handle_ID handle;
  TargetNodeID := SwitchNodeID vlan; TargetHandleID := ""; edge_NetworkID := NetworkID vlan; edge_Label := ""; edge_Color := ""; edge_LineStyle := "";
  Route := None |}.

(** [connect], to the network of a name. *)
Definition connect (nodeID : string) (handle : InterfaceHandle) (vlan : string) (g : generator) : generator := {|
  g_warnings := g_warnings g; g_devices := g_devices g; g_networks := g_networks g; g_folded := g_folded g;
  g_edges := g_edges g ++ [device_edge nodeID handle vlan];
  g_members := <[ NetworkID vlan := default 0 (g_members g !! NetworkID vlan) + 1 ]> (g_members g);
  g_hostnames := g_hostnames g; g_included := g_included g |}.

(** ** Devices *)

Definition interface_handle (hostname name : string) (index : Z) : InterfaceHandle := {|
  handle_ID := InterfaceHandleID hostname name index; handle_Name := name; handle_Index := index |}.

(** One interface of a node: the connection point it gives, if any. *)
Definition iface_step (hostname : string) (index : Z) (iface : any) (seen : gset string) (g : generator) : option InterfaceHandle * gset string * generator :=
  let name := interfaceName iface in
  if blank name then
    (None, seen, warn_all [sprintf "interface at index %d of node %q has no name. The Builder keeps it, but you cannot connect it" [AInt index; AStr hostname]] g)
  else if bool_decide (foldKey name ∈ seen) then
    (None, seen, warn_all [sprintf "node %q declares interface %q more than once. You can connect only the first one" [AStr hostname; AStr name]] g)
  else
    let handle := interface_handle hostname name index in
    let seen := {[ foldKey name ]} ∪ seen in
    let vlan := interfaceVLAN iface in
    if blank vlan then (Some handle, seen, g)
    else if hasNameSpace vlan then
      (Some handle, seen, warn_all [sprintf
         "VLAN %q of interface %q of node %q contains whitespace. The Builder keeps the interface, but does not connect it"
         [AStr vlan; AStr name; AStr hostname]] g)
    else (Some handle, seen, connect (DeviceNodeID hostname) handle vlan (network vlan g)).

Fixpoint iface_steps (hostname : string) (index : Z) (ifaces : list any) (seen : gset string) (g : generator) : list InterfaceHandle * generator :=
  match ifaces with
  | [] => ([], g)
  | iface :: ifaces =>
      let '(handle, seen, g) := iface_step hostname index iface seen g in
      let '(handles, g) := iface_steps hostname (index + 1) ifaces seen g in
      (option_list handle ++ handles, g)
  end.

(** [iconKeyForOS], [iconKeyForSpec]. *)
Definition iconKeyForOS (s : spec) : string :=
  if String.eqb (foldKey (specString s ["general"; "vm_type"])) "container" then "container"
  else
    let osType := foldKey (specString s ["hardware"; "os_type"]) in
    if String.eqb osType "" then ""
    else if contains_str ["centos"; "linux"; "windows"] osType then osType
    else if String.eqb osType "rhel" then "redhat"
    else if contains_str ["minirouter"; "vyatta"; "vyos"] osType then "router"
    else IconServer.

Definition iconKeyForSpec (s : spec) : string :=
  if match field s "external" with Some (Bool b) => b | _ => false end then "external"
  else
    let key := foldKey (field_string s "type") in
    if contains_str ["router"; "firewall"; "printer"; "switch"; "container"; IconServer; "desktop"] key then key
    else if contains_str ["virtualmachine"; ""] key then iconKeyForOS s
    else if IsIconKey key then key
    else iconKeyForOS s.

Definition no_position : Position := {| X := f_int 0; Y := f_int 0 |}.

Definition device_node (hostname : string) (s : spec) (includedFrom : string) (handles : list InterfaceHandle) : Node := {|
  node_ID := DeviceNodeID hostname; node_Kind := NodeKindDevice; node_Label := hostname; node_Position := no_position; node_Size := None; ParentID := "";
  node_Device := Some {|
    Hostname := hostname; dev_IconKey := iconKeyForSpec s; dev_Icon := ""; dev_IconSize := ""; dev_OutlineColor := ""; dev_FillColor := "";
    dev_HideDescription := false; dev_Layer := None; dev_Spec := Some s; Interfaces := handles; IncludedFrom := includedFrom |};
  node_Switch := None; node_Note := None; node_Group := None; node_Shape := None; node_Icon := None; node_Line := None |}.

Definition add_device (node : Node) (hostname includedFrom : string) (g : generator) : generator := {|
  g_warnings := g_warnings g; g_devices := g_devices g ++ [node]; g_networks := g_networks g; g_folded := g_folded g; g_edges := g_edges g;
  g_members := g_members g; g_hostnames := <[ foldKey hostname := includedFrom ]> (g_hostnames g);
  g_included := if String.eqb includedFrom "" then g_included g else <[ includedFrom := default 0 (g_included g !! includedFrom) + 1 ]> (g_included g) |}.

Definition addDevice (hostname : string) (s : spec) (includedFrom : string) (g : generator) : generator :=
  let '(handles, g) := iface_steps hostname 0 (specNodeInterfaces s) ∅ g in
  add_device (device_node hostname s includedFrom handles) hostname includedFrom g.

(** ** Nodes *)

Definition where_node (from : string) (i : Z) : string :=
  if String.eqb from "" then sprintf "topology node at index %d" [AInt i]
  else sprintf "node at index %d of included topology %q" [AInt i; AStr from].

(** [warnHostnameClash]. *)
Definition clash_warning (from hostname owner outcome : string) : string :=
  let definedBy := if String.eqb owner "" then "the topology itself" else sprintf "included topology %q" [AStr owner] in
  let message :=
    sprintf ("included topology %q defines node %q, which duplicates a hostname in %s. " +:+ "phenix rejects duplicate hostnames. Rename one of the two nodes")
      [AStr from; AStr hostname; AStr definedBy] in
  if String.eqb outcome "" then message else message +:+ ". " +:+ outcome.

(** One node of a topology; [seen] has the indexes of the host names of it. *)
Definition node_step (from : string) (owners : option (gmap string string)) (i : Z) (entry : any) (seen : gmap string Z) (g : generator) :
    gmap string Z * generator :=
  match entry with
  | Obj node =>
      let hostname := specString node ["general"; "hostname"] in
      let key := foldKey hostname in
      if blank hostname then (seen, warn_all [where_node from i +:+ " has no hostname. The Builder skipped it"] g)
      else
        match seen !! key with
        | Some prev =>
            (seen, warn_all [sprintf "%s duplicates the hostname of the node at index %d (%q). The Builder skipped it"
                               [AStr (where_node from i); AInt prev; AStr hostname]] g)
        | None =>
            let seen := <[ key := i ]> seen in
            match g_hostnames g !! key with
            | Some owner => (seen, warn_all [clash_warning from hostname owner "The diagram does not show the included node"] g)
            | None =>
                let includedFrom := match owners with Some owners => default "" (owners !! key) | None => from end in
                (seen, addDevice hostname node includedFrom g)
            end
        end
  | _ => (seen, warn_all [where_node from i +:+ " is not an object. The Builder skipped it"] g)
  end.

Fixpoint node_steps (from : string) (owners : option (gmap string string)) (i : Z) (entries : list any) (seen : gmap string Z) (g : generator) : generator :=
  match entries with
  | [] => g
  | entry :: entries =>
      let '(seen, g) := node_step from owners i entry seen g in
      node_steps from owners (i + 1) entries seen g
  end.

Definition importNodes (s : spec) (from : string) (owners : option (gmap string string)) (g : generator) : generator :=
  node_steps from owners 0 (spec_nodes s) ∅ g.

(** ** Includes of a topology *)

(** [recordIncludes]: the warnings about entries that are no names. *)
Fixpoint include_warnings (i : Z) (entries : list any) : list string :=
  match entries with
  | [] => []
  | entry :: entries =>
      match valid_include entry with
      | Some _ => []
      | None => [sprintf "included topology at index %d has an invalid name. The Builder skipped it" [AInt i]]
      end ++ include_warnings (i + 1) entries
  end.

(** [includedCounts]. *)
Fixpoint included_parts (g : generator) (seen : gset string) (resolved : list includedTopology) : Z * list string :=
  match resolved with
  | [] => (0, [])
  | t :: resolved =>
      if bool_decide (it_name t ∈ seen) then included_parts g seen resolved
      else
        let count := default 0 (g_included g !! it_name t) in
        let '(total, parts) := included_parts g ({[ it_name t ]} ∪ seen) resolved in
        (count + total, sprintf "%s (%s)" [AStr (it_name t); AStr (countOf count "node")] :: parts)
  end.

Definition includedCounts (g : generator) (resolved : list includedTopology) : Z * list string := included_parts g ∅ resolved.

Definition topologies_word (parts : list string) : string := pluralOf (zlen parts) "topology" "topologies".

Definition warnIncluded (lead noun : string) (resolved : list includedTopology) (g : generator) : generator :=
  if bool_decide (resolved = []) then g
  else
    let '(total, parts) := includedCounts g resolved in
    warn_all [sprintf ("%s included %s %s. The diagram shows them read only. Edit them in their own topology. " +:+
                       "Publishing keeps includeTopologies and does not copy them.")
                [AStr (sprintf lead [AStr (countOf total noun)]); AStr (topologies_word parts); AStr (listOf parts)]] g.

Definition warnCombined (resolved : list includedTopology) (g : generator) : generator :=
  if bool_decide (resolved = []) then g
  else
    let '(total, parts) := includedCounts g resolved in
    warn_all [sprintf ("The Builder copied %s from included %s %s. They are ordinary nodes of this diagram now: " +:+
                       "changes here do not reach %s, and later changes there do not reach this diagram.")
                [AStr (countOf total "node"); AStr (topologies_word parts); AStr (listOf parts);
                 AStr (pluralOf (zlen parts) "that topology" "those topologies")]] g.

Definition warnNotCombined (names : list string) (g : generator) : generator :=
  match names with
  | [] => g
  | [name] =>
      warn_all [sprintf "The Builder did not combine included topology %s. It stays in includeTopologies, and publishing keeps the reference." [AStr name]] g
  | _ =>
      let listed :=
        if (maxListedIncludes <? length names)%nat then
          take maxListedIncludes names ++ [sprintf "%d more" [AInt (zlen names - Z.of_nat maxListedIncludes)]]
        else names in
      warn_all [sprintf "The Builder did not combine included topologies %s. They stay in includeTopologies, and publishing keeps the references."
                  [AStr (listOf listed)]] g
  end.

Definition unreadable_warning (problem : IncludeError) : string :=
  match ie_Err problem with
  | ErrTooManyIncludes =>
      sprintf ("the Builder resolved only the first %d included topologies. " +:+ "The diagram does not show the nodes of %q and later includes")
        [AInt (Z.of_nat maxIncludeResolutions); AStr (ie_Name problem)]
  | e => sprintf "the Builder could not read included topology %q: %s. The diagram does not show its nodes" [AStr (ie_Name problem); AStr (include_text e)]
  end.

(** [importIncludes]: what stays unresolved, too. *)
Definition importIncludes (combine : bool) (includes : list string) (root : string) (g : generator) : option (list string * generator) :=
  if bool_decide (includes = []) then Some ([], g)
  else
    match load with
    | None =>
        let unresolved := unresolvedIncludes includes root [] in
        let g := warn_all [sprintf ("topology includes %d other topologies that the Builder did not resolve. " +:+
                                    "The diagram does not show their nodes, but publishing keeps the references") [AInt (zlen includes)]] g in
        Some (unresolved, if combine then warnNotCombined unresolved g else g)
    | Some loader =>
        '(resolved, r) ← resolveAll loader includes root;
        let unresolved := unresolvedIncludes includes root resolved in
        let g := warn_all (rs_warnings r ++ map unreadable_warning (rs_unreadable r)) g in
        let g := foldl (fun g t => importNodes (it_spec t) (it_name t) None g) g resolved in
        Some (unresolved, if combine then warnNotCombined unresolved (warnCombined resolved g) else warnIncluded "The Builder added %s from" "node" resolved g)
    end.

(** ** Includes of an experiment *)

(** [rootHostnames]: the host names, when the topology can be read, and the
    warning when it cannot. *)
Definition rootHostnames (loader : string -> res string (option Config)) (root : string) : option (gset string) * list string :=
  if String.eqb root "" then
    (None, [lit_string ("the experiment does not name the topology that it was created from. " +:+
                        "Thus the Builder matches its nodes to included topologies only by hostname")])
  else
    match loadIncluded loader root with
    | Err e =>
        (None, [sprintf ("the Builder could not read topology %q, which the experiment was created from: %s. " +:+
                         "Thus the Builder matches the experiment nodes to included topologies only by hostname") [AStr root; AStr (include_text e)]])
    | Ok s => (Some (list_to_set (map foldKey (specHostnames s))), [])
    end.

Definition own_has (own : option (gset string)) (key : string) : bool := match own with Some own => bool_decide (key ∈ own) | None => false end.

(** The owner of one host name of an included topology. *)
Definition owner_step (own : option (gset string)) (name : string) (s : gmap string string * list string) (hostname : string) : gmap string string * list string :=
  let key := foldKey hostname in
  if own_has own key then (fst s, snd s ++ [clash_warning name hostname "" ""])
  else
    match fst s !! key with
    | Some owner => (fst s, if String.eqb owner name then snd s else snd s ++ [clash_warning name hostname owner ""])
    | None => (<[ key := name ]> (fst s), snd s)
    end.

Definition owners_of (own : option (gset string)) (resolved : list includedTopology) : gmap string string * list string :=
  foldl (fun s t => foldl (owner_step own (it_name t)) s (specHostnames (it_spec t))) (∅, []) resolved.

(** [markUnreadable]: the owners with the nodes that nothing readable defines,
    and how many those are. *)
Definition mark_step (own : gset string) (first : string) (s : gmap string string * Z) (hostname : string) : gmap string string * Z :=
  let key := foldKey hostname in
  match fst s !! key with
  | None => if bool_decide (key ∈ own) then s else (<[ key := first ]> (fst s), snd s + 1)
  | Some _ => s
  end.

Definition mark_warning (own : option (gset string)) (root first : string) (marked : Z) (problem : IncludeError) : string :=
  let reason := sprintf "the Builder could not read included topology %q: %s" [AStr (ie_Name problem); AStr (include_text (ie_Err problem))] in
  match own with
  | None =>
      sprintf ("%s. Without the topology that the experiment was created from, the Builder cannot distinguish " +:+
               "its nodes in the experiment from the topology's own nodes. Thus the diagram shows them " +:+
               "as the topology's own nodes, and publishing the topology copies them into it") [AStr reason]
  | Some _ =>
      if negb (String.eqb (ie_Name problem) first) then
        sprintf ("%s. The Builder cannot distinguish its nodes in the experiment from those of included topology %q, " +:+
                 "which the Builder also could not read. Thus the Builder marks them as included from %q") [AStr reason; AStr first; AStr first]
      else if marked =? 0 then
        sprintf ("%s. Topology %q and its readable included topologies define every experiment node. " +:+
                 "Thus the Builder marks no node as included from it") [AStr reason; AStr root]
      else
        sprintf ("%s. The Builder marks the experiment's %s that neither topology %q nor a readable included topology " +:+
                 "defines as included from it. The diagram shows each such node read only, " +:+
                 "and publishing does not copy it into the topology") [AStr reason; AStr (countOf marked "node"); AStr root]
  end.

Fixpoint reported_once (seen : gset string) (problems : list IncludeError) : list IncludeError :=
  match problems with
  | [] => []
  | p :: problems => if bool_decide (ie_Name p ∈ seen) then reported_once seen problems else p :: reported_once ({[ ie_Name p ]} ∪ seen) problems
  end.

Definition markUnreadable (s : spec) (root : string) (own : option (gset string)) (owners : gmap string string) (problems : list IncludeError) :
    gmap string string * list string :=
  match problems with
  | [] => (owners, [])
  | problem :: _ =>
      let first := ie_Name problem in
      let '(owners, marked) := match own with Some own => foldl (mark_step own first) (owners, 0) (specHostnames s) | None => (owners, 0) end in
      (owners, map (mark_warning own root first marked) (reported_once ∅ problems))
  end.

(** [experimentIncludes]: the owners, what was resolved, and the warnings. *)
Definition experimentIncludes (s : spec) (includes : list string) (root : string) : option (option (gmap string string) * list includedTopology * list string) :=
  if bool_decide (includes = []) then Some (None, [], [])
  else
    match load with
    | None =>
        Some (None, [], [sprintf ("the experiment's topology includes %d other topologies that the Builder did not resolve. " +:+
                                  "The diagram shows the nodes that they added as the topology's own nodes") [AInt (zlen includes)]])
    | Some loader =>
        let '(own, w1) := rootHostnames loader root in
        '(resolved, r) ← resolveAll loader includes root;
        let '(owners, w2) := owners_of own resolved in
        let '(owners, w3) := markUnreadable s root own owners (rs_unreadable r) in
        Some (Some owners, resolved, w1 ++ rs_warnings r ++ w2 ++ w3)
    end.

(** [importTopology]: the names that are included, and those not resolved. *)
Definition importTopology (combine experiment : bool) (s : spec) (name : string) (g : generator) : option (list string * list string * generator) :=
  let includes := includeNames s in
  let g := warn_all (include_warnings 0 (includeEntries s)) g in
  if experiment then
    '(owners, resolved, ws) ← experimentIncludes s includes name;
    let g := importNodes s "" owners (warn_all ws g) in
    Some (includes, [], warnIncluded "The Builder marked %s as included from" "experiment node" resolved g)
  else
    '(unresolved, g) ← importIncludes combine includes name (importNodes s "" None g);
    Some (includes, unresolved, g).

(** ** What else an experiment has *)

(** One alias of [importVLANs]. *)
Definition set_alias (alias : Z) (net : Network) : Network := {|
  net_ID := net_ID net; net_Name := net_Name net; Alias := Some alias; net_Description := net_Description net; net_Color := net_Color net;
  net_LineStyle := net_LineStyle net; Subnet := Subnet net; Gateway := Gateway net |}.

Definition alias_step (aliases : spec) (g : generator) (name : string) : generator :=
  if String.eqb name "" then g
  else if blank name || hasNameSpace name then warn_all [sprintf "VLAN alias name %q is invalid. The Builder dropped it" [AStr name]] g
  else
    match field aliases name ≫= toInt with
    | None => warn_all [sprintf "VLAN alias for %q is not an integer. The Builder dropped it" [AStr name]] g
    | Some alias =>
        if alias =? 0 then g
        else if (alias <? 1) || (maxVLANAlias <? alias) then
          warn_all [sprintf "VLAN alias %d for %q is out of range (1-%d). The Builder dropped it" [AInt alias; AStr name; AInt maxVLANAlias]] g
        else
          let g := network name g in
          with_networks (alter (set_alias alias) name (g_networks g)) (g_folded g) g
    end.

Definition range_warning (vlans : spec) (key what : string) : list string :=
  match field vlans key ≫= toInt with
  | Some n => if n =? 0 then [] else [sprintf ("the builder document does not hold the " +:+ what +:+ " (%d) of the experiment VLAN range") [AInt n]]
  | None => []
  end.

Definition importVLANs (value : any) (g : generator) : generator :=
  match normalizeSpecMap value with
  | Ok (Some vlans) =>
      let g := warn_all (range_warning vlans "min" "minimum" ++ range_warning vlans "max" "maximum") g in
      match field vlans "aliases" with
      | Some (Obj aliases) => foldl (alias_step aliases) g (sorted_fields aliases)
      | _ => g
      end
  | _ => g
  end.

(** [importScenario]: the scenarios of the document. *)
Definition importScenario (resolve : option (string -> res string bool)) (value : any) (name : string) (g : generator) : res gerror (list string * generator) :=
  let? content := res_map_err (GSpec "reading experiment scenario") (normalizeSpecMap value) in
  let missing := Ok ([], warn_all [sprintf "the experiment's scenario %q is not a stored Scenario config. The Builder did not attach it" [AStr (truncate name)]] g) in
  if String.eqb name "" then
    match content with
    | Some (_ :: _) => Ok ([], warn_all ["the experiment's scenario is not a stored Scenario config. The Builder did not attach it"] g)
    | _ => Ok ([], g)
    end
  else
    match resolve with
    | Some resolve =>
        if IsConfigName name then
          match resolve name with
          | Err what => Err (GScenario name what)
          | Ok true => Ok ([name], g)
          | Ok false => missing
          end
        else missing
    | None => missing
    end.

(** [importAnnotations]: one key, in order: what is kept, the size of it, and
    the keys that are dropped. *)
Definition annotation_step (annotations : gmap string string) (s : gmap string string * Z * list string) (key : string) : gmap string string * Z * list string :=
  let '(kept, bytes, dropped) := s in
  if IsBuilderAnnotation key then s
  else
    let value := default "" (annotations !! key) in
    if match annotationKeyProblem key with Some _ => true | None => false end || (Z.of_nat (size kept) =? MaxAnnotations) ||
       (MaxAnnotationBytes <? bytes + slen key + slen value)
    then (kept, bytes, dropped ++ [Quote (truncate key)])
    else (<[ key := value ]> kept, bytes + (slen key + slen value), dropped).

Definition maxAnnotationKiB : Z := MaxAnnotationBytes / 1024.

Definition annotations_kept (annotations : gmap string string) : gmap string string * Z * list string :=
  foldl (annotation_step annotations) (∅, 0, []) (sort_by String.leb (map fst (map_to_list annotations))).

Definition importAnnotations (annotations : gmap string string) (g : generator) : gmap string string * generator :=
  let '(kept, _, dropped) := annotations_kept annotations in
  (kept,
   if bool_decide (dropped = []) then g
   else
     let listed :=
       if (maxListedAnnotations <? length dropped)%nat then
         take maxListedAnnotations dropped ++ [sprintf "%d more" [AInt (zlen dropped - Z.of_nat maxListedAnnotations)]]
       else dropped in
     warn_all [sprintf ("The Builder did not keep %s %s of the source config. A builder document keeps at most %d annotations " +:+
                        "of %d KiB in all. Each key is not blank, is at most %d bytes long, and has no control characters")
                 [AStr (pluralOf (zlen dropped) "annotation" "annotations"); AStr (listOf listed); AInt MaxAnnotations; AInt maxAnnotationKiB;
                  AInt MaxNameBytes]] g).

Definition experimentBaseDir (s : spec) (name : string) : string :=
  let dir := field_string s "baseDir" in if String.eqb dir "" then PhenixBase +:+ "/experiments/" +:+ name else dir.

(** [dropAppInjections]. *)
Definition app_injection (dir : string) (injection : any) : bool :=
  let src := match injection with Obj fields => field_string fields "src" | _ => "" end in
  Experiment.IsAbs src && has_prefix (Experiment.Clean src) (dir +:+ "/").

Definition drop_injections (dir : string) (entry : any) : any :=
  match entry with
  | Obj node =>
      match field node "injections" with
      | Some (Arr injections) =>
          let kept := List.filter (fun i => negb (app_injection dir i)) injections in
          if (length kept =? length injections)%nat then entry
          else if (length kept =? 0)%nat then Obj (delete_field node "injections")
          else Obj (set_field node "injections" (Arr kept))
      | _ => entry
      end
  | _ => entry
  end.

Definition dropAppInjections (topology : spec) (baseDir : string) : spec :=
  let dir := Experiment.Clean baseDir in
  if negb (Experiment.IsAbs dir) || String.eqb dir "/" then topology
  else
    match field topology keyNodes with
    | Some (Arr nodes) => set_field topology keyNodes (Arr (map (drop_injections dir) nodes))
    | _ => topology
    end.

(** [warnUnrepresentedExperimentFields]. *)
Definition represented (s : spec) (key : string) : bool :=
  match field s key with
  | None | Some Null => true
  | Some (Str v) => String.eqb v ""
  | Some (Bool b) => negb b
  | Some (Obj fields) => bool_decide (length fields = 0%nat)
  | _ => false
  end.

Definition warnUnrepresented (s : spec) (g : generator) : generator :=
  let present := List.filter (fun key => negb (represented s key)) ["baseDir"; "defaultBridge"; "deployMode"; "schedules"; "useGREMesh"] in
  if bool_decide (present = []) then g
  else warn_all [sprintf "the builder document does not hold these experiment fields: %s" [AStr (join ", " present)]] g.

(** ** Layout *)

(** [networkBefore], or the same. *)
Definition network_leb (a b : Network) : bool :=
  let x := foldKey (net_Name a) in let y := foldKey (net_Name b) in
  if String.eqb x y then String.leb (net_Name a) (net_Name b) else String.leb x y.

Definition sorted_networks (g : generator) : list Network := sort_by network_leb (map snd (map_to_list (g_networks g))).

Definition switch_node (net : Network) : Node := {|
  node_ID := SwitchNodeID (net_Name net); node_Kind := NodeKindSwitch; node_Label := net_Name net; node_Position := no_position; node_Size := None;
  ParentID := ""; node_Device := None;
  node_Switch := Some {| sw_NetworkID := net_ID net; sw_OutlineColor := ""; sw_FillColor := ""; sw_IconSize := ""; sw_Layer := None |};
  node_Note := None; node_Group := None; node_Shape := None; node_Icon := None; node_Line := None |}.

Definition has_members (g : generator) (net : Network) : bool := negb (default 0 (g_members g !! net_ID net) =? 0).

Definition includedFrom_of (n : Node) : string := match node_Device n with Some d => IncludedFrom d | None => "" end.

(** [groupIncludedDevices]: the rank of each include, by its first device. *)
Fixpoint ranks (rank : gmap string Z) (devices : list Node) : gmap string Z :=
  match devices with
  | [] => rank
  | n :: devices =>
      ranks (match rank !! includedFrom_of n with Some _ => rank | None => <[ includedFrom_of n := Z.of_nat (size rank) ]> rank end) devices
  end.

Definition groupIncludedDevices (devices : list Node) : list Node :=
  let rank := ranks {[ "" := 0 ]} devices in
  let rank_of n := default 0 (rank !! includedFrom_of n) in
  sort_by (fun a b => rank_of a <=? rank_of b) devices.

Definition at_position (n : Node) (x y : Z) : Node := {|
  node_ID := node_ID n; node_Kind := node_Kind n; node_Label := node_Label n; node_Position := {| X := f_int x; Y := f_int y |};
  node_Size := node_Size n; ParentID := ParentID n; node_Device := node_Device n; node_Switch := node_Switch n; node_Note := node_Note n;
  node_Group := node_Group n; node_Shape := node_Shape n; node_Icon := node_Icon n; node_Line := node_Line n |}.

Definition layout (nodes : list Node) (originY : Z) : list Node :=
  imap (fun i n => at_position n ((Z.of_nat i mod layoutColumns) * layoutSpacingX) (originY + (Z.of_nat i / layoutColumns) * layoutSpacingY)) nodes.

(** [layoutDevices]: the devices in their places and the number of rows;
    [previous] is where the device before comes from. *)
Fixpoint layout_rows (row column : Z) (previous : option string) (nodes : list Node) : list Node * Z :=
  match nodes with
  | [] => ([], match previous with Some _ => row + 1 | None => 0 end)
  | n :: nodes =>
      let from := includedFrom_of n in
      let '(row, column) :=
        match previous with
        | Some previous => if (column =? layoutColumns) || negb (String.eqb from previous) then (row + 1, 0) else (row, column)
        | None => (row, column)
        end in
      let '(rest, rows) := layout_rows row (column + 1) (Some from) nodes in
      (at_position n (column * layoutSpacingX) (row * layoutSpacingY) :: rest, rows)
  end.

Definition layoutDevices (nodes : list Node) : list Node * Z := layout_rows 0 0 None nodes.

(** [finish]: the nodes, networks and edges of the document. *)
Definition finish (g : generator) (source : Source) (scenarios : list string) (d : Document) : Document :=
  let networks := sorted_networks g in
  let switches := map switch_node (List.filter (has_members g) networks) in
  let '(devices, rows) := layoutDevices (groupIncludedDevices (g_devices g)) in
  {| Schema := Schema d; Revision := Revision d; Meta := Meta d;
     Nodes := Some (devices ++ layout switches (rows * layoutSpacingY + layoutSwitchOffset));
     Networks := Some networks; Edges := Some (sort_by (fun a b => String.leb (edge_ID a) (edge_ID b)) (g_edges g));
     doc_Viewport := doc_Viewport d; doc_Grid := doc_Grid d; Scenarios := scenarios; doc_Source := Some source; Layout := Layout d;
     doc_IconSize := doc_IconSize d; Templates := Templates d; Layers := Layers d; doc_LayerSet := doc_LayerSet d; Icons := Icons d |}.

(** ** detach.go *)

Definition own_device (n : Node) : Node := {|
  node_ID := node_ID n; node_Kind := node_Kind n; node_Label := node_Label n; node_Position := node_Position n; node_Size := node_Size n;
  ParentID := ParentID n;
  node_Device := option_map (fun dev => {|
    Hostname := Hostname dev; dev_IconKey := dev_IconKey dev; dev_Icon := dev_Icon dev; dev_IconSize := dev_IconSize dev;
    dev_OutlineColor := dev_OutlineColor dev; dev_FillColor := dev_FillColor dev; dev_HideDescription := dev_HideDescription dev;
    dev_Layer := dev_Layer dev; dev_Spec := dev_Spec dev; Interfaces := Interfaces dev; IncludedFrom := "" |}) (node_Device n);
  node_Switch := node_Switch n; node_Note := node_Note n; node_Group := node_Group n; node_Shape := node_Shape n; node_Icon := node_Icon n;
  node_Line := node_Line n |}.

Definition with_includes (s : Source) (includes unresolved : list string) : Source := {|
  src_Kind := src_Kind s; src_Name := src_Name s; APIVersion := APIVersion s; src_Topology := src_Topology s; ImportedAt := ImportedAt s;
  src_Digest := src_Digest s; src_UpdatedAt := src_UpdatedAt s; IncludeTopologies := includes; UnresolvedIncludes := unresolved;
  Annotations := Annotations s; Warnings := Warnings s |}.

Definition CombineIncludes (d : Document) : Document := {|
  Schema := Schema d; Revision := Revision d; Meta := Meta d; Nodes := map own_device <$> Nodes d; Networks := Networks d; Edges := Edges d;
  doc_Viewport := doc_Viewport d; doc_Grid := doc_Grid d; Scenarios := Scenarios d;
  doc_Source := option_map (fun s => with_includes s (UnresolvedIncludes s) []) (doc_Source d); Layout := Layout d;
  doc_IconSize := doc_IconSize d; Templates := Templates d; Layers := Layers d; doc_LayerSet := doc_LayerSet d; Icons := Icons d |}.

(** ** FromConfig *)

(** [HasLegacyDiagram], [ImportDigest]. *)
Definition HasLegacyDiagram (c : Config) : bool :=
  bool_decide (canonical_kind (cf_Kind c) = Some kindTopology) && HasAnnotation c LegacyXMLAnnotation.

Definition sourceDigestInput (c : Config) : spec :=
  [("apiVersion", Str (cf_Version c)); ("kind", Str (cf_Kind c)); ("name", Str (cf_Name c)); ("spec", digestValue (Obj (default [] (cf_Spec c))))].

Definition annotation (c : Config) (key : string) : string := default "" (md_Annotations (cf_Metadata c) ≫= (fun a => a !! key)).

Definition ImportDigest (c : Config) : res string string :=
  let input := sourceDigestInput c in
  let input := if HasLegacyDiagram c then set_field input LegacyXMLAnnotation (Str (annotation c LegacyXMLAnnotation)) else input in
  let? data := marshal (Obj input) in Ok (digestOf data).

Definition FromConfig (combine : bool) (resolve : option (string -> res string bool)) (c : Config) : res gerror (Document * list string) :=
  match canonical_kind (cf_Kind c) with
  | None => Err (ErrUnsupportedKind (cf_Kind c))
  | Some kind =>
      let experiment := String.eqb kind kindExperiment in
      let? s := specForConfig c kind in
      if combine && experiment then Err ErrCombineExperiment
      else
        let topo := annotation c "topology" in
        let? (includes, unresolved, scenarios, g) :=
          if experiment then
            let? topology := res_map_err (GSpec "reading experiment topology") (normalizeSpecMap (default Null (field s "topology"))) in
            let topology := dropAppInjections (default [] topology) (experimentBaseDir s (cf_Name c)) in
            let topology := dropExperimentResidue topology (field_string s "defaultBridge") in
            match importTopology combine true topology topo new_generator with
            | None => Err GFuel
            | Some (includes, unresolved, g) =>
                let g := importVLANs (default Null (field s "vlans")) g in
                let? (scenarios, g) := importScenario resolve (default Null (field s "scenario")) (annotation c "scenario") g in
                Ok (includes, unresolved, scenarios, warnUnrepresented s g)
            end
          else
            match importTopology combine false s (cf_Name c) new_generator with
            | None => Err GFuel
            | Some (includes, unresolved, g) => Ok (includes, unresolved, [], g)
            end in
        let '(kept, g) := importAnnotations (default ∅ (md_Annotations (cf_Metadata c))) g in
        let? digest := res_map_err GDigest (ImportDigest c) in
        let source := {|
          src_Kind := if experiment then SourceKindExperiment else SourceKindTopology; src_Name := cf_Name c; APIVersion := cf_Version c;
          src_Topology := if experiment then topo else ""; ImportedAt := ""; src_Digest := digest; src_UpdatedAt := md_Updated (cf_Metadata c);
          IncludeTopologies := includes; UnresolvedIncludes := unresolved; Annotations := kept; Warnings := g_warnings g |} in
        let d := finish g source scenarios (NewDocument (cf_Name c)) in
        let d := if combine then CombineIncludes d else d in
        match Validate order d with
        | Some issues => Err (GInvalid issues)
        | None => Ok (d, g_warnings g)
        end
  end.

(** ** What an include stops *)

(** [HostnameClash], [RefusedHostname], [IncludeReport]. *)
Record HostnameClash : Type := { hc_Include : string; hc_Hostname : string }.
Record RefusedHostname : Type := { rh_Include : string; rh_Reason : text }.
Record IncludeReport : Type := { rep_Unreadable : list IncludeError; rep_Clashes : list HostnameClash; rep_Refused : list RefusedHostname }.

Definition clashes_of (own : gset string) (t : includedTopology) : list HostnameClash :=
  map (Build_HostnameClash (it_name t)) (filter (fun hostname => foldKey hostname ∈ own) (specHostnames (it_spec t))).

Definition refused_of (t : includedTopology) : list RefusedHostname :=
  omap (fun n => match checkHostname (snd (fst n)) (snd n) with Err reason => Some (Build_RefusedHostname (it_name t) reason) | Ok _ => None end)
    (startedNodes (it_spec t)).

Definition CheckIncludes (loader : string -> res string (option Config)) (name : string) (s : spec) : res gerror IncludeReport :=
  let? normalized := res_map_err (GSpec "reading topology spec") (normalizeSpecMap (Obj s)) in
  let normalized := default [] normalized in
  match resolveAll loader (includeNames normalized) name with
  | None => Err GFuel
  | Some (resolved, r) =>
      let own : gset string := list_to_set (map foldKey (specHostnames normalized)) in
      Ok {| rep_Unreadable := rs_unreadable r; rep_Clashes := concat (map (clashes_of own) resolved); rep_Refused := concat (map refused_of resolved) |}
  end.

(** [IncludeCount]. *)
Definition IncludeCount (c : Config) : Z :=
  if negb (bool_decide (canonical_kind (cf_Kind c) = Some kindTopology)) then 0
  else if negb (String.eqb (config_APIVersion c) (StoredVersion kindTopology)) then 0
  else zlen (includeNames (default [] (cf_Spec c))).

(** ** Copies of a document (detach.go) *)

Definition CopiedFromPrefix : string := "Copied from ".

Definition manual_source (s : Source) : Source := {|
  src_Kind := SourceKindManual; src_Name := ""; APIVersion := ""; src_Topology := ""; ImportedAt := ImportedAt s; src_Digest := ""; src_UpdatedAt := "";
  IncludeTopologies := IncludeTopologies s; UnresolvedIncludes := UnresolvedIncludes s; Annotations := ∅; Warnings := Warnings s |}.

Definition with_meta (d : Document) (m : Metadata) (source : option Source) : Document := {|
  Schema := Schema d; Revision := Revision d; Meta := m; Nodes := Nodes d; Networks := Networks d; Edges := Edges d; doc_Viewport := doc_Viewport d;
  doc_Grid := doc_Grid d; Scenarios := Scenarios d; doc_Source := source; Layout := Layout d; doc_IconSize := doc_IconSize d; Templates := Templates d;
  Layers := Layers d; doc_LayerSet := doc_LayerSet d; Icons := Icons d |}.

Definition Detach (d : Document) (name : string) : Document :=
  let m := Meta d in
  with_meta d {| meta_ID := DocumentID name; meta_Name := name; meta_Description := meta_Description m; CreatedBy := CreatedBy m; CreatedAt := CreatedAt m;
                 UpdatedBy := UpdatedBy m; UpdatedAt := UpdatedAt m; Notes := Notes m |} (option_map manual_source (doc_Source d)).

Definition NoteCopiedFrom (d : Document) (name : string) : Document * bool :=
  let note := CopiedFromPrefix +:+ name in let m := Meta d in
  if blank name || (MaxDiagramNotes <=? zlen (Notes m)) || (MaxDiagramNoteBytes <? slen note) || contains_func note isNoteControl || bool_decide (note ∈ Notes m)
  then (d, false)
  else
    (with_meta d {| meta_ID := meta_ID m; meta_Name := meta_Name m; meta_Description := meta_Description m; CreatedBy := CreatedBy m; CreatedAt := CreatedAt m;
                    UpdatedBy := UpdatedBy m; UpdatedAt := UpdatedAt m; Notes := Notes m ++ [note] |} (doc_Source d), true).

End Generate.
