(* ===== verification/GenerateSpec.v ===== *)
(** * Documents from topologies: bounds and round trips

    However topologies include each other, resolving them ends after at most
    100 reads; and a topology that is imported and published again is the one
    it was. *)

From Stdlib Require Import ZArith Lia Ascii String Strings.Byte.
From stdpp Require Import base option list gmap strings.
From S2P Require Import Config Prelude Text Printf Hostname Codes Document Specs Subnet Checks Layers Icons Validate Content Topology PublishChecks.
From S2P Require Import Parents ValidateSpec EdgeSpec DocumentSpec TopologySpec Generate.

Open Scope Z_scope.
Open Scope go_scope.

(** ** Resolving includes *)

Section Resolve.
Context `{Unicode, Printable} (show_error : spec_error -> string) (loader : string -> res string (option Config)).

Notation resolveIncludes := (resolveIncludes loader).

(** What is read is counted, and nothing is read twice. *)
Definition reads_ok (r : resolution) : Prop :=
  (rs_count r <= maxIncludeResolutions)%nat /\ length (rs_includeOrder r) = rs_count r /\ NoDup (rs_includeOrder r) /\
  forall name, is_Some (rs_includedBy r !! name) <-> name ∈ rs_includeOrder r.

(** What a resolution went on to: the names it read, among them those it
    resolved, in order. *)
Definition went_on (r r' : resolution) (visited : gset string) (resolved : list includedTopology) : Prop :=
  exists new, rs_includeOrder r' = rs_includeOrder r ++ new /\ sublist (map it_name resolved) new /\
    (forall name, name ∈ new -> name ∉ visited) /\
    Forall (fun t => loadIncluded loader (it_name t) = Ok (it_spec t)) resolved.

Lemma went_on_none r r' visited : rs_includeOrder r' = rs_includeOrder r -> went_on r r' visited [].
Proof. intros E. exists []. rewrite app_nil_r. split; [done|]. split; [constructor|]. split; [set_solver|constructor]. Qed.

Lemma went_on_trans r1 r2 r3 v1 v2 l1 l2 : v2 ⊆ v1 -> went_on r1 r2 v1 l1 -> went_on r2 r3 v2 l2 -> went_on r1 r3 v2 (l1 ++ l2).
Proof.
  intros Hv (n1 & E1 & S1 & V1 & F1) (n2 & E2 & S2 & V2 & F2). exists (n1 ++ n2). rewrite E2, E1, app_assoc. split; [done|].
  split; [rewrite map_app; by apply sublist_app|]. split; [|by apply Forall_app]. intros name [Hn|Hn]%elem_of_app; [specialize (V1 _ Hn); set_solver|by apply V2].
Qed.

Lemma reads_again name parents r : is_Some (rs_includedBy r !! name) -> reads_ok r -> reads_ok (rs_again name parents r).
Proof.
  intros Hin (Hc & Hl & Hnd & Hd). split; [done|]. split; [done|]. split; [done|]. intros n. cbn. rewrite lookup_insert_is_Some', Hd.
  split; [intros [<-|?]; [by apply Hd|done]|by right].
Qed.

Lemma reads_reach name parent r : rs_includedBy r !! name = None -> (rs_count r < maxIncludeResolutions)%nat -> reads_ok r -> reads_ok (rs_reach name parent r).
Proof.
  intros Hno Hlt (Hc & Hl & Hnd & Hd). split; [cbn; lia|]. split; [cbn; rewrite length_app; cbn; lia|]. split.
  - cbn. apply NoDup_app. split; [done|]. split; [|apply NoDup_singleton]. intros n Hn ->%list_elem_of_singleton. apply Hd in Hn as [? Hn]. congruence.
  - intros n. cbn. rewrite lookup_insert_is_Some', elem_of_app, list_elem_of_singleton, Hd. naive_solver.
Qed.

Lemma resolve_total fuel names parent visited r :
  reads_ok r -> (maxIncludeResolutions < fuel + rs_count r)%nat ->
  exists resolved r', resolveIncludes fuel names parent visited r = Some (resolved, r') /\
    reads_ok r' /\ (rs_count r <= rs_count r')%nat /\ went_on r r' visited resolved.
Proof.
  revert names parent visited r. induction fuel as [|fuel IHf]; intros names parent visited r Hr Hfuel; [destruct Hr; lia|]. cbn [Generate.resolveIncludes].
  revert r Hr Hfuel. induction names as [|name names IHn]; intros r Hr Hfuel; cbn [resolve_names].
  - exists [], r. split; [done|]. split; [done|]. split; [lia|by apply went_on_none].
  - case_bool_decide as Hvis.
    { destruct (IHn (rs_warn (cycle_warning name) r)) as (resolved & r' & E & Hr' & Hc & Hw); [done|done|]. exists resolved, r'. done. }
    destruct (rs_includedBy r !! name) as [parents|] eqn:Eb.
    { destruct (IHn (rs_again name (parents ++ [parent]) r)) as (resolved & r' & E & Hr' & Hc & Hw); [apply reads_again; [by eexists|done]|done|].
      exists resolved, r'. done. }
    destruct (Nat.leb_spec maxIncludeResolutions (rs_count r)) as [Hmax|Hlt].
    { exists [], (rs_fail name ErrTooManyIncludes r). split; [done|]. split; [done|]. split; [cbn; lia|]. by apply went_on_none. }
    pose proof (reads_reach name parent r Eb Hlt Hr) as Hr1.
    assert (went_on r (rs_reach name parent r) visited []) as Hw1.
    { exists [name]. split; [done|]. split; [constructor; constructor|]. split; [by intros n ->%list_elem_of_singleton|constructor]. }
    destruct (loadIncluded loader name) as [s|e] eqn:El.
    + set (r1 := rs_reach name parent r) in *.
      assert (exists nested r2, (match includeNames s with [] => Some ([], r1) | names' => resolveIncludes fuel names' name ({[ name ]} ∪ visited) r1 end) = Some (nested, r2) /\
        reads_ok r2 /\ (rs_count r1 <= rs_count r2)%nat /\ went_on r1 r2 ({[ name ]} ∪ visited) nested) as (nested & r2 & E2 & Hr2 & Hc2 & Hw2).
      { destruct (includeNames s) as [|n0 ns]; [exists [], r1; split; [done|]; split; [done|]; split; [lia|by apply went_on_none]|].
        apply IHf; [done|cbn; lia]. }
      rewrite E2. cbn [mbind option_bind]. destruct (IHn r2 Hr2) as (resolved & r3 & E3 & Hr3 & Hc3 & Hw3); [cbn in Hc2; lia|]. rewrite E3. cbn.
      exists ({| it_name := name; it_spec := s |} :: nested ++ resolved), r3. split; [done|]. split; [done|]. split; [cbn in Hc2; lia|].
      pose proof (went_on_trans r1 r2 r3 ({[ name ]} ∪ visited) visited nested resolved ltac:(set_solver) Hw2 Hw3) as (new & En & Sn & Vn & Fn).
      exists (name :: new). split; [rewrite En; cbn; by rewrite <- app_assoc|]. split; [cbn; by constructor|]. split; [|by constructor].
      intros n [->|Hn]%elem_of_cons; [done|by apply Vn].
    + destruct (IHn (rs_fail name e (rs_reach name parent r))) as (resolved & r' & E & Hr' & Hc & Hw); [done|cbn; lia|].
      exists resolved, r'. split; [done|]. split; [done|]. split; [cbn in Hc; lia|].
      by apply (went_on_trans r (rs_reach name parent r) r' visited visited [] resolved).
Qed.

(** What a topology includes, directly or not, without the topology itself. *)
Inductive reached (includes : list string) (root : string) : string -> Prop :=
  | reached_first name : name ∈ includes -> (root <> "" -> name <> root) -> reached includes root name
  | reached_next name s next : reached includes root name -> loadIncluded loader name = Ok s -> next ∈ includeNames s ->
      (root <> "" -> next <> root) -> reached includes root next.

(** A resolution without a failure resolved all it read, and everything that
    the names and the resolved topologies include is read or was above them. *)
Definition closed (names : list string) (visited : gset string) (r r' : resolution) (resolved : list includedTopology) : Prop :=
  rs_includeOrder r' = rs_includeOrder r ++ map it_name resolved /\
  (forall n, n ∈ names -> n ∈ visited \/ n ∈ rs_includeOrder r') /\
  (forall t n, t ∈ resolved -> n ∈ includeNames (it_spec t) -> n ∈ visited \/ n ∈ rs_includeOrder r').

Lemma resolve_closed fuel names parent visited r resolved r' :
  reads_ok r -> resolveIncludes fuel names parent visited r = Some (resolved, r') ->
  reads_ok r' /\ (exists more, rs_unreadable r' = rs_unreadable r ++ more) /\ (rs_unreadable r' = [] -> closed names visited r r' resolved).
Proof.
  revert names parent visited r resolved r'. induction fuel as [|fuel IHf]; intros names parent visited r resolved r' Hr E; [done|]. cbn [Generate.resolveIncludes] in E.
  revert r resolved r' Hr E. induction names as [|name names IHn]; intros r resolved r' Hr E; cbn [resolve_names] in E.
  - injection E as <- <-. split; [done|]. split; [exists []; by rewrite app_nil_r|]. intros _. split; [by rewrite app_nil_r|]. split; [set_solver|]. by intros t n ?%elem_of_nil.
  - case_bool_decide as Hvis.
    { apply IHn in E as (Hr' & Hm & Hcl); [|done]. split; [done|]. split; [done|]. intros (Ho & Hn & Ht)%Hcl. split; [done|]. split; [|done].
      intros n [->|Hin]%elem_of_cons; [by left|by apply Hn]. }
    destruct (rs_includedBy r !! name) as [parents|] eqn:Eb.
    { assert (is_Some (rs_includedBy r !! name)) as Hsome by (by eexists). apply IHn in E as (Hr' & Hm & Hcl); [|by apply reads_again]. split; [done|]. split; [done|].
      intros (Ho & Hn & Ht)%Hcl. split; [done|]. split; [|done]. intros n [->|Hin]%elem_of_cons; [|by apply Hn]. right. rewrite Ho. apply elem_of_app. left.
      by apply (proj2 (proj2 (proj2 Hr))). }
    destruct (Nat.leb_spec maxIncludeResolutions (rs_count r)) as [Hmax|Hlt].
    { injection E as <- <-. split; [done|]. split; [by eexists|]. cbn. intros ?%app_nil. naive_solver. }
    pose proof (reads_reach name parent r Eb Hlt Hr) as Hr1. set (r1 := rs_reach name parent r) in *.
    destruct (loadIncluded loader name) as [s|e] eqn:El.
    + destruct (match includeNames s with [] => _ | _ => _ end) as [[nested r2]|] eqn:E2; [|done]. cbn in E.
      destruct (resolve_names _ _ _ _ _ r2) as [[rest r3]|] eqn:E3; [|done]. cbn in E. injection E as <- <-.
      assert (reads_ok r2 /\ (exists more, rs_unreadable r2 = rs_unreadable r1 ++ more) /\
        (rs_unreadable r2 = [] -> closed (includeNames s) ({[ name ]} ∪ visited) r1 r2 nested)) as (Hr2 & [m2 Hm2] & Hcl2).
      { destruct (includeNames s) as [|n0 ns]; [|by apply (IHf _ _ _ _ _ _ Hr1 E2)]. injection E2 as <- <-. split; [done|]. split; [exists []; by rewrite app_nil_r|].
        intros _. split; [by rewrite app_nil_r|]. split; [set_solver|]. by intros t n ?%elem_of_nil. }
      destruct (IHn r2 rest r3 Hr2 E3) as (Hr3 & [m3 Hm3] & Hcl3). split; [done|]. split; [exists (m2 ++ m3); rewrite Hm3, Hm2; by rewrite <- app_assoc|].
      intros Hno. destruct (Hcl3 Hno) as (Ho3 & Hn3 & Ht3). rewrite Hm3 in Hno. apply app_nil in Hno as [Hno _]. destruct (Hcl2 Hno) as (Ho2 & Hn2 & Ht2).
      assert (name ∈ rs_includeOrder r3) as Hname by (rewrite Ho3, Ho2; cbn; rewrite !elem_of_app; left; left; right; by left).
      assert (forall n, n ∈ {[ name ]} ∪ visited \/ n ∈ rs_includeOrder r2 -> n ∈ visited \/ n ∈ rs_includeOrder r3) as Hup.
      { intros n [[->%elem_of_singleton|?]%elem_of_union|?]; [by right|by left|]. right. rewrite Ho3. apply elem_of_app. by left. }
      split; [rewrite Ho3, Ho2; cbn; by rewrite map_app, <- !app_assoc|]. split.
      * intros n [->|Hin]%elem_of_cons; [by right|by apply Hn3].
      * intros t n [->|[Ht|Ht]%elem_of_app]%elem_of_cons Hin; [apply Hup; by apply Hn2|apply Hup; by apply (Ht2 t)|by apply (Ht3 t)].
    + apply IHn in E as (Hr' & [more Hm] & _); [|done]. split; [done|]. cbn in Hm. split; [eexists; rewrite Hm, <- app_assoc; done|]. intros Hno.
      rewrite Hm in Hno. by destruct (rs_unreadable r).
Qed.

(** Only what can be reached is resolved. *)
Lemma resolve_reached includes root fuel names parent visited r resolved r' :
  (root <> "" -> root ∈ visited) ->
  (forall n, n ∈ names -> n ∈ includes \/ exists m s, reached includes root m /\ loadIncluded loader m = Ok s /\ n ∈ includeNames s) ->
  resolveIncludes fuel names parent visited r = Some (resolved, r') -> Forall (fun t => reached includes root (it_name t)) resolved.
Proof.
  revert names parent visited r resolved r'. induction fuel as [|fuel IHf]; intros names parent visited r resolved r' Hv Hn E; [done|]. cbn [Generate.resolveIncludes] in E.
  revert r resolved r' Hn E. induction names as [|name names IHn]; intros r resolved r' Hn E; cbn [resolve_names] in E; [injection E as <- _; constructor|].
  assert (forall n, n ∈ names -> n ∈ includes \/ exists m s, reached includes root m /\ loadIncluded loader m = Ok s /\ n ∈ includeNames s) as Hn' by (intros; apply Hn; by right).
  case_bool_decide as Hvis; [by apply IHn in E|]. destruct (rs_includedBy r !! name) as [parents|]; [by apply IHn in E|].
  destruct (_ <=? _)%nat; [injection E as <- _; constructor|]. destruct (loadIncluded loader name) as [s|e] eqn:El; [|by apply IHn in E].
  destruct (match includeNames s with [] => _ | _ => _ end) as [[nested r2]|] eqn:E2; [|done]. cbn in E.
  destruct (resolve_names _ _ _ _ _ r2) as [[rest r3]|] eqn:E3; [|done]. cbn in E. injection E as <- _.
  assert (reached includes root name) as Hreached.
  { assert (root <> "" -> name <> root) as Hne by (intros Hroot ->; by apply Hvis, Hv). destruct (Hn name ltac:(by left)) as [Hin|(m & sm & Hm & Hl & Hin)];
      [by apply reached_first|by apply (reached_next _ _ m sm)]. }
  constructor; [done|]. apply Forall_app. split; [|by apply (IHn r2 rest r3)].
  destruct (includeNames s) as [|n0 ns] eqn:Es; [injection E2 as <- _; constructor|]. apply (IHf _ _ _ _ _ _) in E2; [done|set_solver|].
  intros n Hin. right. exists name, s. by rewrite Es.
Qed.

Definition above (root : string) : gset string := if String.eqb root "" then ∅ else {[ root ]}.

Lemma elem_of_above root n : n ∈ above root <-> n = root /\ root <> "".
Proof. unfold above. destruct (String.eqb_spec root ""); set_solver. Qed.

Lemma reads_none : reads_ok no_resolution.
Proof.
  split; [cbn [rs_count no_resolution]; lia|]. split; [done|]. split; [constructor|]. intros n. cbn. rewrite lookup_empty. split; [by intros []|by intros ?%elem_of_nil].
Qed.

Lemma resolveAll_run includes root resolved r :
  resolveAll loader includes root = Some (resolved, r) ->
  exists r0, resolveIncludes (S maxIncludeResolutions) includes root (above root) no_resolution = Some (resolved, r0) /\
    rs_includeOrder r = rs_includeOrder r0 /\ rs_unreadable r = rs_unreadable r0.
Proof.
  unfold resolveAll. fold (above root). destruct (resolveIncludes _ _ _ _ _) as [[l r0]|]; [|done]. cbn. intros [= <- <-]. by exists r0.
Qed.

Lemma resolveAll_bounded includes root :
  exists resolved r, resolveAll loader includes root = Some (resolved, r) /\
    (length (rs_includeOrder r) <= maxIncludeResolutions)%nat /\ NoDup (rs_includeOrder r) /\
    sublist (map it_name resolved) (rs_includeOrder r) /\ (root <> "" -> root ∉ rs_includeOrder r) /\
    Forall (fun t => loadIncluded loader (it_name t) = Ok (it_spec t)) resolved.
Proof.
  unfold resolveAll. fold (above root). destruct (resolve_total (S maxIncludeResolutions) includes root (above root) no_resolution reads_none)
    as (resolved & r & E & (Hc & Hl & Hnd & _) & _ & new & En & Hs & Hv & Hf); [cbn [rs_count no_resolution]; lia|].
  rewrite E. cbn. cbn in En. eexists _, _. split; [done|]. cbn. split; [lia|]. split; [done|]. split; [by rewrite En|]. split; [|done].
  intros Hr. rewrite En. intros Hin. by apply (Hv _ Hin), elem_of_above.
Qed.

(** When all could be read, what is resolved is what is included. *)
Lemma resolveAll_complete includes root resolved r :
  resolveAll loader includes root = Some (resolved, r) -> rs_unreadable r = [] ->
  forall name, name ∈ map it_name resolved <-> reached includes root name.
Proof.
  destruct (resolveAll_bounded includes root) as (resolved' & r' & E' & _ & _ & _ & _ & Hf). intros E Hu. rewrite E in E'. injection E' as <- <-.
  apply resolveAll_run in E as (r0 & E & _ & Hu0). rewrite Hu0 in Hu. destruct (resolve_closed _ _ _ _ _ _ _ reads_none E) as (_ & _ & Hcl).
  apply Hcl in Hu as (Ho & Hn & Ht). cbn in Ho. rewrite Ho in Hn, Ht. rewrite Forall_forall in Hf. intros name. split.
  - intros (t & -> & Hin)%list_elem_of_fmap. eapply (Forall_forall (fun t => reached includes root (it_name t))); [|exact Hin].
    apply (resolve_reached includes root) in E; [done|intros; by apply elem_of_above|by left].
  - induction 1 as [n Hin Hne|n s next _ IH Hload Hin Hne]; [destruct (Hn n Hin) as [[-> Hr]%elem_of_above|]; [by destruct (Hne Hr)|done]|].
    apply list_elem_of_fmap in IH as (t & -> & Hint). specialize (Hf t Hint). cbv beta in Hf. rewrite Hf in Hload. injection Hload as <-.
    destruct (Ht t next Hint Hin) as [[-> Hr]%elem_of_above|]; [by destruct (Hne Hr)|done].
Qed.

(** C31: resolving the topologies that a topology includes always ends: after at
    most 100 reads, no name is read twice, and what is resolved are readable
    topologies, each once and never the topology itself, with the spec that was
    read of it. When nothing was unreadable, it is exactly what the topology
    includes, directly or through others. *)
Theorem resolveAll_spec includes root :
  exists resolved r, resolveAll loader includes root = Some (resolved, r) /\
    (length (rs_includeOrder r) <= maxIncludeResolutions)%nat /\ NoDup (rs_includeOrder r) /\
    sublist (map it_name resolved) (rs_includeOrder r) /\ (root <> "" -> root ∉ rs_includeOrder r) /\
    Forall (fun t => loadIncluded loader (it_name t) = Ok (it_spec t)) resolved /\
    (rs_unreadable r = [] -> forall name, name ∈ map it_name resolved <-> reached includes root name).
Proof.
  destruct (resolveAll_bounded includes root) as (resolved & r & E & Hl & Hnd & Hs & Hr & Hf). exists resolved, r. split_and!; try done.
  by apply (resolveAll_complete includes root).
Qed.

End Resolve.

(** ** Devices *)

(** The nodes of a topology that become devices: objects with a host name that
    no node has so far. *)
Fixpoint importable `{Unicode} (seen : gset string) (entries : list any) : list spec :=
  match entries with
  | [] => []
  | Obj node :: entries =>
      let hostname := specString node ["general"; "hostname"] in
      if blank hostname || bool_decide (foldKey hostname ∈ seen) then importable seen entries
      else node :: importable ({[ foldKey hostname ]} ∪ seen) entries
  | _ :: entries => importable seen entries
  end.

Section Devices.
Context `{Unicode, Printable, UUIDs}.

(** The interface of a connection point: the first of its name. *)
Definition interface_of (ifaces : list any) (h : InterfaceHandle) (iface : any) : Prop :=
  exists k, handle_Index h = Z.of_nat k /\ ifaces !! k = Some iface /\ interfaceName iface = handle_Name h /\ blank (handle_Name h) = false /\
    forall j other, (j < k)%nat -> ifaces !! j = Some other -> interfaceName other <> handle_Name h.

(** An edge of a device with these interfaces and connection points. *)
Definition edge_of (nodeID : string) (ifaces : list any) (handles : list InterfaceHandle) (networks : gmap string Network) (e : Edge) : Prop :=
  exists h iface, h ∈ handles /\ interface_of ifaces h iface /\ e = device_edge nodeID h (interfaceVLAN iface) /\ blank (interfaceVLAN iface) = false /\
    is_Some (networks !! interfaceVLAN iface).

(** Networks are kept under their names, with the IDs of those, and no alias. *)
Definition networks_named (networks : gmap string Network) : Prop :=
  forall name net, networks !! name = Some net -> net_Name net = name /\ net_ID net = NetworkID name /\ Alias net = None.

(** More networks. *)
Definition more_networks (networks networks' : gmap string Network) : Prop := forall name, is_Some (networks !! name) -> is_Some (networks' !! name).

Lemma edge_of_more nodeID ifaces handles networks networks' e :
  more_networks networks networks' -> edge_of nodeID ifaces handles networks e -> edge_of nodeID ifaces handles networks' e.
Proof. intros Hm (h & iface & ? & ? & ? & ? & Hs). exists h, iface. split_and!; try done. by apply Hm. Qed.

Lemma network_spec name g :
  let g' := network name g in
  (networks_named (g_networks g) -> networks_named (g_networks g')) /\ more_networks (g_networks g) (g_networks g') /\ is_Some (g_networks g' !! name) /\
  g_devices g' = g_devices g /\ g_hostnames g' = g_hostnames g /\ g_included g' = g_included g /\ g_edges g' = g_edges g.
Proof.
  unfold network. destruct (g_networks g !! name) as [net|] eqn:E; [cbv zeta; split; [done|]; split; [by intros ? ?|]; by rewrite E|].
  assert (forall (ws : list string) (folded : gmap string string) net, net_Name net = name -> net_ID net = NetworkID name -> Alias net = None ->
    let g' := with_networks (<[ name := net ]> (g_networks g)) folded (warn_all ws g) in
    (networks_named (g_networks g) -> networks_named (g_networks g')) /\ more_networks (g_networks g) (g_networks g') /\ is_Some (g_networks g' !! name) /\
    g_devices g' = g_devices g /\ g_hostnames g' = g_hostnames g /\ g_included g' = g_included g /\ g_edges g' = g_edges g) as Hset.
  { intros ws folded net Hn Hid Ha. cbn. split.
    - intros Hnets n m [[<- <-]|[_ Hm]]%lookup_insert_Some; [done|by apply Hnets].
    - split; [intros n Hs; apply lookup_insert_is_Some'; by right|]. split; [apply lookup_insert_is_Some'; by left|done]. }
  destruct (g_folded g !! foldKey name); by apply Hset.
Qed.

Lemma iface_steps_spec hostname pre ifaces (seen : gset string) g handles g' :
  (forall i, i ∈ pre -> blank (interfaceName i) = false -> foldKey (interfaceName i) ∈ seen) ->
  iface_steps hostname (Z.of_nat (length pre)) ifaces seen g = (handles, g') ->
  Forall (fun h => exists iface, interface_of (pre ++ ifaces) h iface) handles /\
  g_devices g' = g_devices g /\ g_hostnames g' = g_hostnames g /\ g_included g' = g_included g /\
  (networks_named (g_networks g) -> networks_named (g_networks g')) /\ more_networks (g_networks g) (g_networks g') /\
  exists new, g_edges g' = g_edges g ++ new /\ Forall (edge_of (DeviceNodeID hostname) (pre ++ ifaces) handles (g_networks g')) new.
Proof.
  revert pre seen g handles g'. induction ifaces as [|iface ifaces IH]; intros pre seen g handles g' Hseen; cbn [iface_steps].
  { intros [= <- <-]. split; [constructor|]. do 3 (split; [done|]). split; [done|]. split; [by intros ? ?|]. exists []. by rewrite app_nil_r. }
  destruct (iface_step _ _ iface seen g) as [[handle seen1] g1] eqn:E1. destruct (iface_steps _ _ ifaces seen1 g1) as [handles2 g2] eqn:E2. intros [= <- <-].
  replace (Z.of_nat (length pre) + 1) with (Z.of_nat (length (pre ++ [iface]))) in E2 by (rewrite length_app; cbn; lia).
  assert ((forall i, i ∈ pre ++ [iface] -> blank (interfaceName i) = false -> foldKey (interfaceName i) ∈ seen1) /\
    (forall h, handle = Some h -> interface_of (pre ++ iface :: ifaces) h iface) /\
    g_devices g1 = g_devices g /\ g_hostnames g1 = g_hostnames g /\ g_included g1 = g_included g /\
    (networks_named (g_networks g) -> networks_named (g_networks g1)) /\ more_networks (g_networks g) (g_networks g1) /\
    exists new, g_edges g1 = g_edges g ++ new /\ Forall (edge_of (DeviceNodeID hostname) (pre ++ iface :: ifaces) (option_list handle) (g_networks g1)) new)
    as (Hseen1 & Hh & Hd1 & Hn1 & Hi1 & Hk1 & Hm1 & new1 & He1 & Hf1).
  { unfold iface_step in E1. destruct (blank (interfaceName iface)) eqn:Eb.
    { injection E1 as <- <- <-. split; [|split; [done|]; do 3 (split; [done|]); split; [done|]; split; [by intros ? ?|]; exists []; by rewrite app_nil_r].
      intros i [Hi| ->%list_elem_of_singleton]%elem_of_app; [by apply Hseen|congruence]. }
    case_bool_decide as Hin.
    { injection E1 as <- <- <-. split; [|split; [done|]; do 3 (split; [done|]); split; [done|]; split; [by intros ? ?|]; exists []; by rewrite app_nil_r].
      intros i [Hi| ->%list_elem_of_singleton]%elem_of_app; [by apply Hseen|done]. }
    assert (interface_of (pre ++ iface :: ifaces) (interface_handle hostname (interfaceName iface) (Z.of_nat (length pre))) iface) as Hof.
    { exists (length pre). split; [done|]. split; [by rewrite lookup_app_r, Nat.sub_diag by lia|]. split; [done|]. split; [done|].
      intros j other Hj Hl He. rewrite lookup_app_l in Hl by done. apply Hin. cbn in He. rewrite <- He. apply Hseen; [by apply list_elem_of_lookup_2 in Hl|]. by rewrite He. }
    assert (forall i, i ∈ pre ++ [iface] -> blank (interfaceName i) = false -> foldKey (interfaceName i) ∈ ({[ foldKey (interfaceName iface) ]} ∪ seen)) as Hseen1.
    { intros i [Hi| ->%list_elem_of_singleton]%elem_of_app Hbi; [specialize (Hseen _ Hi Hbi)|]; set_solver. }
    destruct (blank (interfaceVLAN iface)) eqn:Ev.
    { injection E1 as <- <- <-. split; [done|]. split; [by intros h [= <-]|]. do 3 (split; [done|]). split; [done|]. split; [by intros ? ?|]. exists []. by rewrite app_nil_r. }
    destruct (hasNameSpace (interfaceVLAN iface)).
    { injection E1 as <- <- <-. split; [done|]. split; [by intros h [= <-]|]. do 3 (split; [done|]). split; [done|]. split; [by intros ? ?|]. exists []. by rewrite app_nil_r. }
    injection E1 as <- <- <-. destruct (network_spec (interfaceVLAN iface) g) as (Ha & Hb & Hc & Hd & He & Hf & Hg).
    split; [done|]. split; [by intros h [= <-]|]. split; [exact Hd|]. split; [exact He|]. split; [exact Hf|]. split; [exact Ha|]. split; [exact Hb|].
    eexists. split; [cbn; by rewrite Hg|]. constructor; [|constructor]. eexists _, iface. split; [by left|]. split; [exact Hof|]. done. }
  apply IH in E2 as (Hh2 & Hd2 & Hn2 & Hi2 & Hk2 & Hm2 & new2 & He2 & Hf2); [|done].
  rewrite <- app_assoc in Hh2, Hf2. cbn [app] in Hh2, Hf2. split.
  { apply Forall_app. split; [|done]. destruct handle as [h|]; constructor; [|constructor]. exists iface. by apply Hh. }
  split; [congruence|]. split; [congruence|]. split; [congruence|]. split; [auto|]. split; [intros n Hn; by apply Hm2, Hm1|].
  exists (new1 ++ new2). split; [rewrite He2, He1; by rewrite app_assoc|]. apply Forall_app. split.
  - eapply Forall_impl; [exact Hf1|]. intros e (h & i & Hin & ? & ? & ? & Hs). exists h, i. split_and!; try done; [apply elem_of_app; by left|by apply Hm2].
  - eapply Forall_impl; [exact Hf2|]. intros e (h & i & Hin & Hrest). exists h, i. split; [apply elem_of_app; by right|done].
Qed.

Lemma seen_insert (k : string) (A B : gset string) : k ∈ B -> A ∪ B = ({[ k ]} ∪ A) ∪ B.
Proof. set_solver. Qed.

Lemma seen_both (k : string) (A B : gset string) : {[ k ]} ∪ (A ∪ B) = ({[ k ]} ∪ A) ∪ ({[ k ]} ∪ B).
Proof. set_solver. Qed.

(** A device of a node of a topology. *)
Definition made (n : Node) (hostname : string) (s : spec) (handles : list InterfaceHandle) : Prop :=
  exists from, n = device_node hostname s from handles /\ hostname = specString s ["general"; "hostname"] /\ blank hostname = false /\
    Forall (fun h => exists iface, interface_of (specNodeInterfaces s) h iface) handles.

Definition spec_of (n : Node) : option spec := node_Device n ≫= dev_Spec.
Definition hostname_of (n : Node) : string := match node_Device n with Some dev => Hostname dev | None => "" end.

(** What a generator keeps. *)
Definition generator_ok (g : generator) : Prop :=
  networks_named (g_networks g) /\
  Forall (fun n => exists hostname s handles, made n hostname s handles) (g_devices g) /\
  Forall (fun e => exists n hostname s handles, n ∈ g_devices g /\ made n hostname s handles /\
    edge_of (DeviceNodeID hostname) (specNodeInterfaces s) handles (g_networks g) e) (g_edges g) /\
  dom (g_hostnames g) = list_to_set ((fun n => foldKey (hostname_of n)) <$> g_devices g).

Lemma generator_ok_new : generator_ok new_generator.
Proof. split; [by intros ? ? ?|]. split; [constructor|]. split; [constructor|]. by cbn. Qed.

Lemma generator_ok_warn ws g : generator_ok (warn_all ws g) <-> generator_ok g.
Proof. done. Qed.

Lemma addDevice_spec hostname s from g :
  generator_ok g -> hostname = specString s ["general"; "hostname"] -> blank hostname = false ->
  let g' := addDevice hostname s from g in
  generator_ok g' /\ (exists handles, g_devices g' = g_devices g ++ [device_node hostname s from handles]) /\
  dom (g_hostnames g') = {[ foldKey hostname ]} ∪ dom (g_hostnames g).
Proof.
  intros (Hnets & Hdev & Hedges & Hdom) Hn Hb. unfold addDevice. destruct (iface_steps hostname 0 (specNodeInterfaces s) ∅ g) as [handles g1] eqn:E.
  apply (iface_steps_spec hostname []) in E as (Hh & Hd1 & Hn1 & _ & Hk1 & Hm1 & new & He1 & Hf1); [|by intros i ?%elem_of_nil]. cbn [app] in Hh, Hf1.
  assert (made (device_node hostname s from handles) hostname s handles) as Hmade by (exists from; done).
  split; [|split; [exists handles; cbn; by rewrite Hd1|cbn; rewrite dom_insert_L, Hn1; done]].
  split; [by apply Hk1|]. cbn [g_devices add_device g_edges g_networks g_hostnames]. rewrite Hd1, He1, Hn1. split; [|split].
  - apply Forall_app. split; [done|]. constructor; [by eexists _, _, _|constructor].
  - apply Forall_app. split.
    + eapply Forall_impl; [exact Hedges|]. intros e (n & h & s' & hs & Hin & Hm & He). exists n, h, s', hs. split; [apply elem_of_app; by left|].
      split; [done|]. by eapply edge_of_more.
    + eapply Forall_impl; [exact Hf1|]. intros e He. exists (device_node hostname s from handles), hostname, s, handles. split; [apply elem_of_app; right; by left|done].
  - rewrite dom_insert_L, fmap_app, list_to_set_app_L, <- Hdom.
    change (list_to_set ((fun n => foldKey (hostname_of n)) <$> [device_node hostname s from handles])) with ({[ foldKey hostname ]} ∪ ∅ : gset string).
    generalize (foldKey hostname), (dom (g_hostnames g)). clear. set_solver.
Qed.

Lemma node_steps_spec from owners i entries (seen : gmap string Z) g :
  generator_ok g ->
  let g' := node_steps from owners i entries seen g in
  generator_ok g' /\ exists nodes, g_devices g' = g_devices g ++ nodes /\
    spec_of <$> nodes = Some <$> importable (dom seen ∪ dom (g_hostnames g)) entries /\
    (owners = None -> Forall (fun n => includedFrom_of n = from) nodes).
Proof.
  revert i seen g. induction entries as [|entry entries IH]; intros i seen g Hg; cbn [node_steps].
  { split; [done|]. exists []. by rewrite app_nil_r. }
  destruct (node_step from owners i entry seen g) as [seen1 g1] eqn:E.
  assert (generator_ok g1 /\ exists nodes, g_devices g1 = g_devices g ++ nodes /\
    Some <$> importable (dom seen ∪ dom (g_hostnames g)) (entry :: entries) = (spec_of <$> nodes) ++ (Some <$> importable (dom seen1 ∪ dom (g_hostnames g1)) entries) /\
    (owners = None -> Forall (fun n => includedFrom_of n = from) nodes)) as (Hg1 & nodes1 & Hd1 & Hi1 & Ho1).
  { unfold node_step in E. destruct entry as [| | | | | |node|]; try (injection E as <- <-; split; [done|]; exists []; by rewrite app_nil_r).
    cbn [importable]. destruct (blank (specString node ["general"; "hostname"])) eqn:Eb; [injection E as <- <-; split; [done|]; exists []; by rewrite app_nil_r|].
    cbn [orb]. set (key := foldKey (specString node ["general"; "hostname"])) in *. destruct (seen !! key) as [prev|] eqn:Es.
    { injection E as <- <-. split; [done|]. exists []. rewrite app_nil_r, bool_decide_eq_true_2; [done|]. apply elem_of_union. left. by apply elem_of_dom_2 in Es. }
    destruct (g_hostnames g !! key) as [owner|] eqn:Eo.
    { injection E as <- <-. split; [done|]. exists []. rewrite app_nil_r, bool_decide_eq_true_2; [|apply elem_of_union; right; by apply elem_of_dom_2 in Eo].
      split; [done|]. split; [|done]. cbn [fmap list_fmap app]. f_equal. f_equal. rewrite dom_insert_L. apply seen_insert. by apply elem_of_dom_2 in Eo. }
    injection E as <- <-. rewrite bool_decide_eq_false_2; [|apply not_elem_of_union; split; by apply not_elem_of_dom].
    edestruct (addDevice_spec (specString node ["general"; "hostname"]) node) as (Hok & (handles & Hd) & Hdom); [exact Hg|done|done|].
    split; [exact Hok|]. eexists. split; [exact Hd|]. rewrite Hdom. split.
    - cbn [fmap list_fmap app]. cbn [spec_of device_node node_Device mbind option_bind dev_Spec]. f_equal. f_equal. f_equal. rewrite dom_insert_L. apply seen_both.
    - intros ->. repeat constructor. }
  specialize (IH (i + 1) seen1 g1 Hg1) as (Hg2 & nodes2 & Hd2 & Hi2 & Ho2). split; [exact Hg2|]. exists (nodes1 ++ nodes2).
  split; [rewrite Hd2, Hd1; by rewrite app_assoc|]. split; [by rewrite Hi1, fmap_app, Hi2|]. intros Hn. apply Forall_app. auto.
Qed.

Lemma importNodes_spec s from owners g :
  generator_ok g ->
  let g' := importNodes s from owners g in
  generator_ok g' /\ exists nodes, g_devices g' = g_devices g ++ nodes /\
    spec_of <$> nodes = Some <$> importable (dom (g_hostnames g)) (spec_nodes s) /\
    (owners = None -> Forall (fun n => includedFrom_of n = from) nodes).
Proof.
  intros Hg. destruct (node_steps_spec from owners 0 (spec_nodes s) ∅ g Hg) as (Hok & nodes & Hd & Hi & Ho).
  split; [exact Hok|]. exists nodes. split; [exact Hd|]. split; [|exact Ho]. rewrite Hi, dom_empty_L. by rewrite (left_id_L ∅ (∪)).
Qed.

End Devices.

(** ** Publishing a device *)

Section Publish.
Context `{Unicode}.

Lemma field_string_some fields key v : field_string fields key = v -> v <> "" -> field fields key = Some (Str v).
Proof. unfold field_string. destruct (field fields key) as [[]|]; by intros <-. Qed.

Lemma find_interface_exact ifaces name k iface start fallback :
  ifaces !! k = Some iface -> interfaceName iface = name -> name <> "" ->
  (forall j other, (j < k)%nat -> ifaces !! j = Some other -> interfaceName other <> name) ->
  find_interface ifaces name start fallback = Some (start + k)%nat.
Proof.
  intros Hk Hn Hne. revert k start fallback Hk. induction ifaces as [|i ifaces IH]; intros k start fallback Hk Hfirst; [done|].
  destruct k as [|k].
  - injection Hk as ->. unfold interfaceName in Hn. destruct iface; try by rewrite <- Hn in Hne. cbn [find_interface]. rewrite Hn, String.eqb_refl. f_equal. lia.
  - assert (forall fb, find_interface ifaces name (S start) fb = Some (start + S k)%nat) as Hrest.
    { intros fb. replace (start + S k)%nat with (S start + k)%nat by lia. apply IH; [done|]. intros j other Hj Ho. apply (Hfirst (S j) other); [lia|done]. }
    cbn [find_interface]. destruct i as [| | | | | |fields|]; try apply Hrest. pose proof (Hfirst 0%nat (Obj fields) ltac:(lia) eq_refl) as Hno.
    cbn in Hno. rewrite (proj2 (String.eqb_neq _ _) Hno). apply Hrest.
Qed.

Lemma set_vlan_same v iface : interfaceVLAN iface = v -> v <> "" -> set_vlan v iface = iface.
Proof.
  unfold interfaceVLAN, set_vlan. destruct iface; try done. intros Hv Hne. by rewrite (set_field_same _ _ _ (field_string_some _ _ _ Hv Hne)).
Qed.

Lemma specSetString_same s hostname :
  specString s ["general"; "hostname"] = hostname -> hostname <> "" -> specSetString s hostname ["general"; "hostname"] = Some s.
Proof.
  unfold specString, spec_path. cbn [specSetString]. destruct (field s "general") as [[| | | | | |g|]|] eqn:Eg; intros Hh Hne; try (by rewrite <- Hh in Hne).
  destruct (field g "hostname") as [[]|] eqn:Eh; try (by rewrite <- Hh in Hne). rewrite Hh in Eh. cbn. rewrite (set_field_same _ _ _ Eh). by rewrite (set_field_same _ _ _ Eg).
Qed.

Lemma blank_empty s : blank s = false -> s <> "".
Proof. by intros Hb ->. Qed.

Lemma deviceSpec_same node dev s index networks :
  dev_Spec dev = Some s -> normal_map s -> specString s ["general"; "hostname"] = Hostname dev -> Hostname dev <> "" ->
  (forall h n, h ∈ Interfaces dev -> networks !! handle_ID h = Some n ->
     exists iface, interface_of (specNodeInterfaces s) h iface /\ interfaceVLAN iface = net_Name n /\ net_Name n <> "") ->
  deviceSpec node dev index networks = Ok (s, []).
Proof.
  intros Hs Hn Hh Hne Hnet. unfold deviceSpec. rewrite Hs. cbn [default from_option id].
  assert (normalizeSpecMap (Obj s) = Ok (Some s)) as ->.
  { unfold normalizeSpecMap. rewrite normalize_normal; [done|]. by constructor. }
  cbn [res_map_err res_bind default from_option id]. rewrite Hh, (specSetString_same _ _ Hh Hne), String.eqb_refl. cbn [negb]. rewrite andb_false_r.
  unfold connectInterfaces.
  assert (forall position, connect_all node dev index networks position (Interfaces dev) (specNodeInterfaces s) = (specNodeInterfaces s, [])) as ->;
    [|by rewrite with_interfaces_same].
  revert Hnet. induction (Interfaces dev) as [|h handles IH]; intros Hnet position; [done|]. cbn [connect_all].
  assert (connect_step node dev index networks position h (specNodeInterfaces s) = (specNodeInterfaces s, [])) as ->;
    [|rewrite IH; [done|intros h' n Hin; apply Hnet; by right]].
  unfold connect_step. destruct (networks !! handle_ID h) as [n|] eqn:En; [|done].
  destruct (Hnet h n ltac:(by left) En) as (iface & (k & _ & Hk & Hname & Hb & Hfirst) & Hv & Hvne).
  unfold findInterfaceIndex. rewrite (find_interface_exact _ _ k iface); [|done|done|by apply blank_empty|done]. f_equal.
  apply list_eq. intros j. destruct (decide (k = j)) as [<-|Hj]; [|by rewrite list_lookup_alter_ne].
  rewrite list_lookup_alter_eq. cbn [Nat.add]. rewrite Hk. cbn. by rewrite set_vlan_same.
Qed.

Lemma device_specs_same nodes index networks :
  (forall n dev i, n ∈ nodes -> projected n = Some dev -> exists s, dev_Spec dev = Some s /\ deviceSpec n dev i networks = Ok (s, [])) ->
  device_specs index nodes networks = Ok (omap (fun n => projected n ≫= dev_Spec) nodes, []).
Proof.
  revert index. induction nodes as [|n nodes IH]; intros index Hall; [done|]. cbn [device_specs omap list_omap].
  specialize (IH (index + 1) ltac:(intros m dev i Hm; apply Hall; by right)). unfold projected at 1.
  destruct (node_Device n) as [dev|] eqn:Ed; [|rewrite IH; by destruct (projectedDevice n)].
  destruct (projectedDevice n) eqn:Ep; [|by rewrite IH].
  destruct (Hall n dev index ltac:(by left)) as (s & Hs & E); [unfold projected; by rewrite Ep|]. rewrite E, IH. cbn. by rewrite Hs.
Qed.

End Publish.

(** ** The whole *)

Section Whole.
Context `{Unicode, Printable, UUIDs, Libraries, PNG, Compression} (order : list string).
Context (marshal : any -> res string (list byte)) (show_error : spec_error -> string).
Context (load : option (string -> res string (option Config))).

Notation FromConfig := (FromConfig order marshal show_error load).
Notation importTopology := (importTopology show_error load).

Lemma resolve_valid loader fuel names parent visited r resolved r' :
  Forall (fun n => validIncludeName n = true) names -> resolveIncludes loader fuel names parent visited r = Some (resolved, r') ->
  Forall (fun t => validIncludeName (it_name t) = true) resolved.
Proof.
  revert names parent visited r resolved r'. induction fuel as [|fuel IHf]; intros names parent visited r resolved r' Hn; [done|]. cbn [resolveIncludes].
  revert r resolved r'. induction Hn as [|name names Hname Hn IHn]; intros r resolved r'; cbn [resolve_names]; [by intros [= <- _]|].
  case_bool_decide; [apply IHn|]. destruct (rs_includedBy r !! name); [apply IHn|]. destruct (_ <=? _)%nat; [by intros [= <- _]|].
  destruct (loadIncluded loader name) as [s|e]; [|apply IHn]. destruct (match includeNames s with [] => _ | _ => _ end) as [[nested r2]|] eqn:E2; [|done]. cbn [mbind option_bind].
  destruct (resolve_names _ _ _ _ names r2) as [[rest r3]|] eqn:E3; [|done]. cbn. intros [= <- _]. constructor; [done|]. apply Forall_app. split; [|by eapply IHn].
  destruct (includeNames s) as [|n0 ns] eqn:Es; [by injection E2 as <- _|]. apply (IHf _ _ _ _ _ _) in E2; [done|]. rewrite <- Es. unfold includeNames.
  apply Forall_forall. intros n (v & _ & Hv)%list_elem_of_omap. unfold valid_include in Hv. destruct v; try done. destruct (validIncludeName s0) eqn:Ev; [|done]. by injection Hv as <-.
Qed.

Lemma includeNames_valid s : Forall (fun n => validIncludeName n = true) (includeNames s).
Proof.
  apply Forall_forall. intros n (v & _ & Hv)%list_elem_of_omap. unfold valid_include in Hv. destruct v as [| | | |s0| | |]; try done.
  destruct (validIncludeName s0) eqn:Ev; [|done]. by injection Hv as <-.
Qed.

Lemma valid_nonempty name : validIncludeName name = true -> name <> "".
Proof. by intros Hv ->. Qed.

(** Included devices are marked as such. *)
Lemma import_all_spec resolved g :
  generator_ok g -> Forall (fun t => validIncludeName (it_name t) = true) resolved ->
  let g' := foldl (fun g t => importNodes (it_spec t) (it_name t) None g) g resolved in
  generator_ok g' /\ exists nodes, g_devices g' = g_devices g ++ nodes /\ Forall (fun n => includedFrom_of n <> "") nodes.
Proof.
  intros Hg Hv. revert g Hg. induction Hv as [|t resolved Ht Hv IH]; intros g Hg; cbn [foldl]; [split; [done|]; exists []; by rewrite app_nil_r|].
  destruct (importNodes_spec (it_spec t) (it_name t) None g Hg) as (Hg1 & nodes & Hd & _ & Hf). destruct (IH _ Hg1) as (Hg2 & nodes2 & Hd2 & Hf2).
  split; [done|]. exists (nodes ++ nodes2). split; [rewrite Hd2, Hd; by rewrite app_assoc|]. apply Forall_app. split; [|done].
  eapply Forall_impl; [by apply Hf|]. intros n ->. by apply valid_nonempty.
Qed.

Lemma warnIncluded_all lead noun resolved g : exists ws, warnIncluded lead noun resolved g = warn_all ws g.
Proof. unfold warnIncluded. case_bool_decide; [exists []; unfold warn_all; rewrite app_nil_r; by destruct g|]. destruct (includedCounts g resolved). by eexists. Qed.

Lemma importTopology_total combine experiment s name g : exists r, importTopology combine experiment s name g = Some r.
Proof.
  assert (forall loader includes root, exists r, resolveAll loader includes root = Some r) as Hres.
  { intros loader includes root. destruct (resolve_total loader (S maxIncludeResolutions) includes root (if String.eqb root "" then ∅ else {[ root ]}) no_resolution)
      as (resolved & r & E & _).
    - split; [cbn [rs_count no_resolution]; lia|]. split; [done|]. split; [constructor|]. intros n. cbn. rewrite lookup_empty. split; [by intros []|by intros ?%elem_of_nil].
    - cbn [rs_count no_resolution]. lia.
    - unfold resolveAll. rewrite E. by eexists. }
  unfold Generate.importTopology. destruct experiment.
  - unfold experimentIncludes. case_bool_decide; [by eexists|]. destruct load as [loader|]; [|by eexists]. destruct (rootHostnames show_error loader name) as [own w1].
    destruct (Hres loader (includeNames s) name) as [[resolved r] ->]. cbn. destruct (owners_of own resolved). destruct (markUnreadable _ _ _ _ _). by eexists.
  - unfold importIncludes. case_bool_decide; [by eexists|]. destruct load as [loader|]; [|by eexists].
    destruct (Hres loader (includeNames s) name) as [[resolved r] ->]. by eexists.
Qed.

Lemma importTopology_own s name includes unresolved g :
  importTopology false false s name new_generator = Some (includes, unresolved, g) ->
  includes = includeNames s /\ generator_ok g /\ exists own more, g_devices g = own ++ more /\
    spec_of <$> own = Some <$> importable ∅ (spec_nodes s) /\ Forall (fun n => includedFrom_of n = "") own /\ Forall (fun n => includedFrom_of n <> "") more.
Proof.
  unfold Generate.importTopology. set (g0 := warn_all _ new_generator). assert (generator_ok g0) as Hg0 by apply generator_ok_new.
  destruct (importNodes_spec s "" None g0 Hg0) as (Hg1 & own & Hd1 & Hi1 & Hf1). specialize (Hf1 eq_refl). cbn [g_devices g0 warn_all new_generator app] in Hd1.
  change (dom (g_hostnames g0)) with (dom (∅ : gmap string string)) in Hi1. rewrite dom_empty_L in Hi1.
  set (g1 := importNodes s "" None g0) in *. unfold importIncludes. case_bool_decide.
  { intros [= <- _ <-]. split; [done|]. split; [done|]. exists own, []. by rewrite app_nil_r. }
  destruct load as [loader|].
  - destruct (resolveAll loader (includeNames s) name) as [[resolved r]|] eqn:Er; [|done]. cbn [mbind option_bind]. intros [= <- _ <-]. split; [done|].
    assert (Forall (fun t => validIncludeName (it_name t) = true) resolved) as Hv.
    { unfold resolveAll in Er. destruct (resolveIncludes loader _ _ _ _ _) as [[resolved' r']|] eqn:E; [|done]. cbn [mbind option_bind] in Er. injection Er as <- _.
      eapply resolve_valid; [apply includeNames_valid|exact E]. }
    destruct (import_all_spec resolved (warn_all (rs_warnings r ++ map (unreadable_warning show_error) (rs_unreadable r)) g1) Hg1 Hv) as (Hg2 & more & Hd2 & Hf2).
    destruct (warnIncluded_all "The Builder added %s from" "node" resolved (foldl (fun g t => importNodes (it_spec t) (it_name t) None g)
      (warn_all (rs_warnings r ++ map (unreadable_warning show_error) (rs_unreadable r)) g1) resolved)) as [ws ->].
    split; [done|]. exists own, more. split; [|done]. cbn [g_devices warn_all]. rewrite Hd2. cbn [g_devices warn_all]. by rewrite Hd1.
  - cbn. intros [= <- _ <-]. split; [done|]. split; [done|]. exists own, []. by rewrite app_nil_r.
Qed.

(** ** The document *)

Definition moved (m n : Node) : Prop := exists x y, n = at_position m x y.

Lemma layout_rows_moved row column previous nodes : Forall2 moved nodes (fst (layout_rows row column previous nodes)).
Proof.
  revert row column previous. induction nodes as [|m nodes IH]; intros row column previous; cbn [layout_rows]; [constructor|].
  destruct (match previous with Some _ => _ | None => _ end) as [row' column']. specialize (IH row' (column' + 1) (Some (includedFrom_of m))).
  destruct (layout_rows row' (column' + 1) _ nodes) as [rest rows]. constructor; [by eexists _, _|done].
Qed.

Lemma layout_moved nodes y : Forall2 moved nodes (layout nodes y).
Proof.
  apply Forall2_same_length_lookup. unfold layout. rewrite length_imap. split; [done|]. intros i m n Hm Hn. rewrite list_lookup_imap, Hm in Hn. injection Hn as <-. by eexists _, _.
Qed.

Lemma moved_omap {A} (f : Node -> option A) nodes nodes' :
  (forall n x y, f (at_position n x y) = f n) -> Forall2 moved nodes nodes' -> omap f nodes' = omap f nodes.
Proof. intros Hf. induction 1 as [|m n nodes nodes' (x & y & ->) _ IH]; [done|]. cbn. by rewrite Hf, IH. Qed.

Lemma omap_filter {A B} (P : A -> bool) (f : A -> option B) l : (forall a, P a = false -> f a = None) -> omap f (List.filter P l) = omap f l.
Proof. intros Hf. induction l as [|a l IH]; [done|]. cbn. destruct (P a) eqn:E; cbn; rewrite IH; [done|]. by rewrite Hf. Qed.

(** The rank of the topology's own devices comes first. *)
Lemma ranks_own (rank : gmap string Z) devices :
  rank !! "" = Some 0 -> (forall from k, rank !! from = Some k -> 0 <= k) ->
  ranks rank devices !! "" = Some 0 /\ forall from k, ranks rank devices !! from = Some k -> 0 <= k.
Proof.
  revert rank. induction devices as [|n devices IH]; intros rank Hz Hk; cbn [ranks]; [done|]. apply IH.
  - destruct (rank !! includedFrom_of n) eqn:E; [done|]. rewrite lookup_insert_ne; [done|]. intros E'. congruence.
  - intros from k. destruct (rank !! includedFrom_of n); [apply Hk|]. intros [[_ <-]|[_ ?]]%lookup_insert_Some; [lia|by eapply Hk].
Qed.

Definition own_node (n : Node) : bool := String.eqb (includedFrom_of n) "".

Lemma group_own devices : List.filter own_node (groupIncludedDevices devices) = List.filter own_node devices.
Proof.
  unfold groupIncludedDevices. apply sort_by_filter. intros a b Ha%String.eqb_eq. destruct (ranks_own {[ "" := 0 ]} devices) as [Hz Hk].
  - by rewrite lookup_singleton_eq.
  - intros from k [_ <-]%lookup_singleton_Some. done.
  - rewrite Ha, Hz. cbn. apply Z.leb_le. destruct (ranks _ devices !! includedFrom_of b) as [k|] eqn:E; [by apply (Hk _ _ E)|done].
Qed.

(** The parts of the document that is generated. *)
Lemma finish_parts g source scenarios d0 :
  let d := finish g source scenarios d0 in
  doc_Source d = Some source /\ elems (Edges d) ≡ₚ g_edges g /\ (forall n, n ∈ elems (Networks d) <-> exists name, g_networks g !! name = Some n) /\
  exists devices switches, elems (Nodes d) = devices ++ switches /\ Forall2 moved (groupIncludedDevices (g_devices g)) devices /\
    Forall (fun n => node_Kind n = NodeKindSwitch) switches.
Proof.
  unfold finish. pose proof (layout_rows_moved 0 0 None (groupIncludedDevices (g_devices g))) as Hm. unfold layoutDevices.
  destruct (layout_rows 0 0 None _) as [devices rows]. cbn [fst] in Hm. cbn [doc_Source Edges Networks Nodes elems default from_option id].
  split; [done|]. split; [apply sort_by_perm|]. split.
  - intros n. unfold sorted_networks. rewrite sort_by_perm, list_elem_of_In, in_map_iff. split.
    + intros ([name m] & <- & Hin%list_elem_of_In%elem_of_map_to_list). by exists name.
    + intros [name Hn]. exists (name, n). split; [done|]. by apply list_elem_of_In, elem_of_map_to_list.
  - eexists devices, _. split; [done|]. split; [done|]. apply Forall_forall. intros n Hn.
    pose proof (layout_moved (map switch_node (List.filter (has_members g) (sorted_networks g))) (rows * layoutSpacingY + layoutSwitchOffset)) as Hl.
    apply list_elem_of_lookup in Hn as [i Hi]. destruct (Forall2_lookup_r _ _ _ _ _ Hl Hi) as (m & Hk & x & y & ->).
    apply list_elem_of_lookup_2, list_elem_of_In, in_map_iff in Hk as (net & <- & _). done.
Qed.

Lemma NoDup_bind_inv {A B} (f : A -> list B) l a b x : NoDup (l ≫= f) -> a ∈ l -> b ∈ l -> x ∈ f a -> x ∈ f b -> a = b /\ NoDup (f a).
Proof.
  induction l as [|c l IH]; intros Hd Ha Hb Hxa Hxb; [by apply elem_of_nil in Ha|]. cbn in Hd. apply NoDup_app in Hd as (Hc & Hdis & Hl).
  apply elem_of_cons in Ha as [->|Ha], Hb as [->|Hb]; [done| | |by apply IH]; exfalso; [apply (Hdis x Hxa)|apply (Hdis x Hxb)]; apply list_elem_of_bind; eauto.
Qed.

(** A connection point belongs to one device. *)
Lemma handle_unique d (Hok : document_ok d) n n' dev dev' h h' :
  n ∈ elems (Nodes d) -> n' ∈ elems (Nodes d) -> node_Kind n = NodeKindDevice -> node_Kind n' = NodeKindDevice ->
  node_Device n = Some dev -> node_Device n' = Some dev' -> h ∈ Interfaces dev -> h' ∈ Interfaces dev' -> handle_ID h = handle_ID h' -> dev = dev' /\ h = h'.
Proof.
  intros Hn Hn' Hk Hk' Hd Hd' Hh Hh' He. destruct (valid_nodes d Hok) as (_ & _ & _ & Hnd).
  assert (forall m dm, m ∈ elems (Nodes d) -> node_Kind m = NodeKindDevice -> node_Device m = Some dm -> dm ∈ devices (elems (Nodes d))) as Hdev.
  { intros m dm Hm Hkm Hdm. apply list_elem_of_omap. exists m. split; [done|]. unfold device_of. by rewrite decide_True. }
  destruct (NoDup_bind_inv _ _ dev dev' (foldKey (handle_ID h)) Hnd) as [-> Hnd'].
  - by apply (Hdev n).
  - by apply (Hdev n').
  - apply list_elem_of_fmap. by exists h.
  - apply list_elem_of_fmap. exists h'. by rewrite <- He.
  - split; [done|]. apply list_elem_of_lookup in Hh as [i Hi]. apply list_elem_of_lookup in Hh' as [j Hj].
    assert (i = j) as ->; [|congruence]. eapply NoDup_lookup; [exact Hnd'| |]; rewrite list_lookup_fmap; [by rewrite Hi|]. rewrite Hj. cbn. by rewrite He.
Qed.

Lemma network_of_handle g source scenarios d0 d n s hostname from handles h net :
  d = finish g source scenarios d0 -> generator_ok g -> document_ok d ->
  n ∈ elems (Nodes d) -> moved (device_node hostname s from handles) n -> h ∈ handles -> handleNetworks d !! handle_ID h = Some net ->
  exists iface, interface_of (specNodeInterfaces s) h iface /\ interfaceVLAN iface = net_Name net /\ net_Name net <> "".
Proof.
  intros Hd (Hnets & Hdev & Hedges & _) Hok Hn (nx & ny & ->) Hh Hnet.
  apply (handleNetworks_iff d Hok) in Hnet as (e & He & Hj & Hin & Hid). pose proof (finish_parts g source scenarios d0) as Hparts. cbv zeta in Hparts. rewrite <- Hd in Hparts.
  destruct Hparts as (_ & Hpe & Hpn & devices & switches & Hns & Hmv & Hsw). rewrite Hpe in He. rewrite Forall_forall in Hedges.
  destruct (Hedges e He) as (m' & hostname' & s' & handles' & Hm' & (from' & -> & _) & h' & iface & Hh' & Hi & -> & Hb & [net0 Hnet0]).
  assert (handle_ID h' = handle_ID h) as Hids.
  { destruct Hj as (dn & dv & hh & sn & hub & _ & _ & _ & _ & _ & Hne & _ & _ & _ & _ & [(_ & Hs & _)|(_ & Ht & _)]); [exact Hs|by rewrite <- Ht in Hne]. }
  assert (exists n', n' ∈ elems (Nodes d) /\ moved (device_node hostname' s' from' handles') n') as (n' & Hn' & x & y & ->).
  { assert (device_node hostname' s' from' handles' ∈ groupIncludedDevices (g_devices g)) as Hg by (unfold groupIncludedDevices; by rewrite sort_by_perm).
    apply list_elem_of_lookup in Hg as [i Hi']. destruct (Forall2_lookup_l _ _ _ _ _ Hmv Hi') as (n' & Hn' & Hm). exists n'. split; [|done].
    rewrite Hns. apply elem_of_app. left. by apply list_elem_of_lookup_2 in Hn'. }
  destruct (handle_unique d Hok _ _ _ _ h h' Hn Hn' eq_refl eq_refl eq_refl eq_refl Hh Hh' (eq_sym Hids)) as [Heq <-]. injection Heq as _ _ Hspec _ _. subst s'.
  destruct (Hnets _ _ Hnet0) as (Hname & Hnid & _). assert (net = net0) as <-.
  { apply (networks_unique d Hok); [done|apply Hpn; by eexists|]. rewrite Hid, Hnid. done. }
  exists iface. split; [done|]. split; [done|]. rewrite Hname. by apply blank_empty.
Qed.

(** The specs of the devices that are published. *)
Lemma published_specs g source scenarios d0 own more :
  generator_ok g -> g_devices g = own ++ more -> Forall (fun n => includedFrom_of n = "") own -> Forall (fun n => includedFrom_of n <> "") more ->
  map Some (omap (fun n => projected n ≫= dev_Spec) (elems (Nodes (finish g source scenarios d0)))) = spec_of <$> own.
Proof.
  intros (_ & Hdev & _) Hd Ho Hm. destruct (finish_parts g source scenarios d0) as (_ & _ & _ & devices & switches & -> & Hmv & Hsw).
  set (f := fun n => projected n ≫= dev_Spec).
  assert (forall n x y, f (at_position n x y) = f n) as Hpos by done.
  assert (omap f switches = []) as Hs.
  { clear -Hsw. induction Hsw as [|n switches Hn _ IH]; [done|]. cbn. rewrite IH. unfold f, projected, projectedDevice. by rewrite Hn. }
  rewrite omap_app, Hs, app_nil_r, (moved_omap f _ _ Hpos Hmv).
  assert (forall n, own_node n = false -> f n = None) as Hown.
  { intros n Hn. unfold f, projected, projectedDevice. unfold own_node, includedFrom_of in Hn. destruct (node_Device n); [|by rewrite andb_false_r]. by rewrite Hn, andb_false_r. }
  rewrite <- (omap_filter own_node f _ Hown), group_own, (omap_filter own_node f _ Hown), Hd, omap_app.
  rewrite Hd in Hdev. apply Forall_app in Hdev as [Hdo Hdm].
  assert (omap f more = []) as ->.
  { clear -Hm Hown. induction Hm as [|n more Hn _ IH]; [done|]. cbn. rewrite IH, (Hown n); [done|]. by apply String.eqb_neq. }
  rewrite app_nil_r. clear -Hdo Ho. induction own as [|n own IH]; [done|]. inversion Hdo as [|? ? (hostname & s & handles & from & -> & _) Hdo']; subst.
  inversion Ho as [|? ? Hf Ho']; subst. cbn in Hf. subst from.
  assert (f (device_node hostname s "" handles) = Some s) as Hf1 by done. cbn [omap list_omap]. rewrite Hf1. cbn [map fmap list_fmap]. by rewrite (IH Hdo' Ho').
Qed.

Lemma map_some_inj {A} (l l' : list A) : map Some l = Some <$> l' -> l = l'.
Proof. revert l'. induction l as [|a l IH]; intros [|b l']; try done. cbn. intros [= -> E]. by rewrite (IH l'). Qed.

Lemma importable_in seen entries s : s ∈ importable seen entries -> Obj s ∈ entries.
Proof.
  revert seen. induction entries as [|entry entries IH]; intros seen; cbn [importable]; [by intros ?%elem_of_nil|].
  destruct entry as [| | | | | |node|]; try (intros Hs; right; by eapply IH). destruct (_ || _); [intros Hs; right; by eapply IH|].
  intros [->|Hs]%elem_of_cons; [left|right; by eapply IH].
Qed.

Lemma normal_nodes s node : normal_map s -> Obj node ∈ spec_nodes s -> normal_map node.
Proof.
  unfold spec_nodes, field_list. intros Hn. destruct (field s keyNodes) as [[| | | | |l| |]|] eqn:E; try by intros ?%elem_of_nil. intros Hin.
  assert (normal (Arr l)) as Hl.
  { clear Hin. induction Hn as [|[k v] s Hv _ IH]; [done|]. cbn in E. destruct (String.eqb k keyNodes); [by injection E as ->|by apply IH]. }
  inversion Hl as [| | | | |? Hall|]; subst. rewrite Forall_forall in Hall. specialize (Hall _ Hin). by inversion Hall.
Qed.

Lemma no_aliases d : Forall (fun n => Alias n = None) (elems (Networks d)) -> aliases_of (elems (Networks d)) = ∅.
Proof.
  unfold aliases_of, fill. generalize (∅ : gmap string Z). induction (elems (Networks d)) as [|n nets IH]; intros m Hn; [done|].
  inversion Hn as [|? ? Ha Hrest]; subst. cbn [foldl]. rewrite Ha. by apply IH.
Qed.

(** All nodes are imported when each is an object with a host name of its own. *)
Lemma importable_all entries seen :
  Forall (fun e => blank (entry_hostname e) = false) entries -> NoDup ((fun e => foldKey (entry_hostname e)) <$> entries) ->
  (forall e, e ∈ entries -> foldKey (entry_hostname e) ∉ seen) -> map Obj (importable seen entries) = entries.
Proof.
  revert seen. induction entries as [|entry entries IH]; intros seen Hb Hd Hs; [done|]. inversion Hb as [|? ? Hbe Hbr]; subst. cbn [fmap list_fmap] in Hd.
  apply NoDup_cons in Hd as [Hde Hdr]. destruct entry as [| | | | | |node|]; try (by vm_compute in Hbe). cbn [importable]. cbn [entry_hostname] in *. rewrite Hbe.
  rewrite bool_decide_eq_false_2; [|apply (Hs (Obj node)); by left]. cbn [orb map]. f_equal. apply IH; [done..|]. intros e He [Heq%elem_of_singleton|Hin]%elem_of_union.
  - apply Hde. apply list_elem_of_fmap. by exists e.
  - by apply (Hs e); [right|].
Qed.

(** C8: a topology that is imported and published again is the one it was: the
    nodes of the published spec are those of the topology that are objects with
    a host name of their own, each exactly as it was, in their order, and all
    of them if all are such; the includes are the ones it had, no alias is set
    and nothing is warned about. *)
Theorem import_publish resolve c d ws s :
  order ≡ₚ ["nodes"; "networks"; "edges"] -> canonical_kind (cf_Kind c) = Some kindTopology -> specForConfig c kindTopology = Ok s ->
  FromConfig false resolve c = Ok (d, ws) ->
  ToTopology order d = Ok {|
    top_Spec := [(keyNodes, Arr (map Obj (importable ∅ (spec_nodes s))))] ++
      (if bool_decide (includeNames s = []) then [] else [(keyIncludes, Arr (map Str (includeNames s)))]);
    VLANAliases := ∅; top_Warnings := [] |} /\
  (Forall (fun e => blank (entry_hostname e) = false) (spec_nodes s) -> NoDup ((fun e => foldKey (entry_hostname e)) <$> spec_nodes s) ->
   map Obj (importable ∅ (spec_nodes s)) = spec_nodes s).
Proof.
  intros Hp Hk Hspec Hfrom. split; [|intros Hb Hd; apply importable_all; [done..|set_solver]].
  unfold Generate.FromConfig in Hfrom. rewrite Hk in Hfrom. change (String.eqb kindTopology kindExperiment) with false in Hfrom. cbv iota zeta in Hfrom.
  rewrite Hspec in Hfrom. cbn [res_bind] in Hfrom.
  destruct (importTopology false false s (cf_Name c) new_generator) as [[[includes unresolved] g]|] eqn:Ei; [|done]. cbn [res_bind andb] in Hfrom.
  apply importTopology_own in Ei as (-> & Hg & own & more & Hd & Ho & Hfo & Hfm).
  destruct (importAnnotations _ g) as [kept g'] eqn:Ea.
  assert (exists w, g' = warn_all w g) as [w ->].
  { unfold importAnnotations in Ea. destruct (annotations_kept _) as [[kept' ?] dropped]. case_bool_decide; injection Ea as _ <-; [|by eexists].
    exists []. unfold warn_all. rewrite app_nil_r. by destruct g. }
  apply bind_ok in Hfrom as (digest & _ & Hfrom). cbv zeta in Hfrom.
  set (source := Build_Source _ _ _ _ _ _ _ _ _ _ _) in Hfrom. set (d' := finish _ _ _ _) in Hfrom. destruct (Validate order d') as [|] eqn:Hv; [done|]. injection Hfrom as <- _.
  assert (document_ok d') as Hok by (rewrite <- (all_issues_nil order d' Hp); unfold Validate in Hv; by destruct (all_issues order d')).
  assert (generator_ok (warn_all w g)) as Hg' by exact Hg.
  assert (normal_map s) as Hns.
  { unfold specForConfig, read_spec in Hspec. destruct (negb _); [done|]. apply res_map_err_ok, bind_ok in Hspec as ([s'|] & Hs & [= <-]); [|constructor].
    by apply normalize_map_ok in Hs as [? _]. }
  pose proof (published_specs (warn_all w g) source [] (NewDocument (cf_Name c)) own more Hg' Hd Hfo Hfm) as Hps. fold d' in Hps. rewrite Ho in Hps. apply map_some_inj in Hps.
  destruct (finish_parts (warn_all w g) source [] (NewDocument (cf_Name c))) as (Hsrc & _ & Hnets & devices & switches & Hnodes & Hmv & Hsw). fold d' in Hsrc, Hnets, Hnodes.
  unfold ToTopology. rewrite Hv, Hsrc. rewrite (device_specs_same (elems (Nodes d')) 0 (handleNetworks d')).
  - cbn [res_bind]. rewrite Hps. rewrite (no_aliases d'); [done|]. apply Forall_forall. intros n [name Hn]%Hnets. by apply (proj1 Hg name n).
  - intros n dev i Hn Hdev. pose proof Hn as Hn'. rewrite Hnodes in Hn. apply elem_of_app in Hn as [Hn|Hn].
    2: { rewrite Forall_forall in Hsw. unfold projected, projectedDevice in Hdev. by rewrite (Hsw n Hn) in Hdev. }
    apply list_elem_of_lookup in Hn as [k Hi]. destruct (Forall2_lookup_r _ _ _ _ _ Hmv Hi) as (m & Hm & Hmoved).
    apply list_elem_of_lookup_2 in Hm. unfold groupIncludedDevices in Hm. rewrite sort_by_perm in Hm.
    destruct Hg as (Hg1 & Hg2 & Hg3). rewrite Forall_forall in Hg2. destruct (Hg2 m Hm) as (hostname & s' & handles & from & -> & Hh & Hb & Hhs).
    pose proof Hmoved as (x & y & ->). cbn in Hdev. unfold projected in Hdev. destruct (projectedDevice _) eqn:Epd in Hdev; [|done]. cbn in Hdev. injection Hdev as <-.
    exists s'. split; [done|]. apply deviceSpec_same; [done| | |by apply blank_empty|].
    + apply (normal_nodes s); [done|]. apply (importable_in ∅). rewrite <- Hps. apply list_elem_of_omap. eexists. split; [exact Hn'|]. unfold projected. by rewrite Epd.
    + done.
    + intros h net Hin Hnet. cbn in Hin. by apply (network_of_handle (warn_all w g) source [] (NewDocument (cf_Name c)) d' (at_position (device_node hostname s' from handles) x y) s' hostname from handles h net).
Qed.

End Whole.

(** ** What the check of includes lets through *)

(** A node of a topology, external or not, has a host name. *)
Definition has_hostname (t : spec) (hostname : string) : Prop :=
  exists node, has_node t node /\ field (object node "general") "hostname" = Some (Str hostname) /\ TrimSpace hostname <> "".

Lemma has_hostname_iff t hostname : hostname ∈ specHostnames t <-> has_hostname t hostname.
Proof.
  unfold has_hostname, specHostnames, spec_nodes. rewrite list_elem_of_In, filter_In, <- list_elem_of_In, negb_true_iff. unfold blank. rewrite String.eqb_neq.
  setoid_rewrite has_node_iff. split.
  - intros [(entry & -> & Hin)%list_elem_of_fmap Hb]. destruct entry as [| | | | | |node|]; try done. exists node. split; [done|]. split; [|done].
    cbn [entry_hostname] in *. rewrite specString_object in *. unfold field_string in *. by destruct (field (object node "general") "hostname") as [[]|].
  - intros (node & Hin & Hh%hostname_read & Hb). split; [|done]. apply list_elem_of_fmap. by exists (Obj node).
Qed.

(** A topology names another one to include: with text that is not blank and
    has no white space. *)
Definition includes (t : spec) (name : string) : Prop :=
  exists l, field t "includeTopologies" = Some (Arr l) /\ Str name ∈ l /\ TrimSpace name <> "" /\ hasNameSpace name = false.

Lemma includes_iff t name : name ∈ includeNames t <-> includes t name.
Proof.
  unfold includeNames, includeEntries, includes, field_list. change keyIncludes with "includeTopologies".
  assert (forall l : list any, name ∈ omap valid_include l <-> Str name ∈ l /\ TrimSpace name <> "" /\ hasNameSpace name = false) as Hl.
  { intros l. rewrite list_elem_of_omap. unfold valid_include, validIncludeName, blank. split.
    - intros (v & Hv & Hn). destruct v as [| | | |text| | |]; try done. destruct (_ && _) eqn:E; [|done]. injection Hn as <-.
      apply andb_true_iff in E as [Hb%negb_true_iff%String.eqb_neq Hs%negb_true_iff]. done.
    - intros (Hv & Hb & Hs). exists (Str name). split; [done|]. rewrite Hs, (proj2 (String.eqb_neq _ _) Hb). done. }
  destruct (field t "includeTopologies") as [[]|]; try (split; [by intros ?%elem_of_nil|by intros (? & ? & _)]). rewrite Hl. naive_solver.
Qed.

Section Included.
Context `{Unicode, Printable} (loader : string -> res string (option Config)).

(** The loader has a topology of the name, of the version of this release,
    whose spec reads as [t]. *)
Definition reads (name : string) (t : spec) : Prop :=
  exists c, loader name = Ok (Some c) /\ canonical_kind (cf_Kind c) = Some kindTopology /\ config_APIVersion c = StoredVersion kindTopology /\
    plain (Obj (default [] (cf_Spec c))) (Obj t).

(** What a topology includes, directly or through others that read; itself is
    left out. *)
Inductive includes_all (own : spec) (root : string) : string -> Prop :=
  | includes_first name : includes own name -> (root <> "" -> name <> root) -> includes_all own root name
  | includes_next name t next : includes_all own root name -> reads name t -> includes t next -> (root <> "" -> next <> root) -> includes_all own root next.

Lemma reads_iff name t : loadIncluded loader name = Ok t <-> reads name t.
Proof.
  unfold loadIncluded, reads, read_spec. destruct (loader name) as [[c|]|]; [|split; [done|by intros (? & ? & _)]..].
  transitivity (canonical_kind (cf_Kind c) = Some kindTopology /\ config_APIVersion c = StoredVersion kindTopology /\ plain (Obj (default [] (cf_Spec c))) (Obj t)); [|naive_solver].
  case_bool_decide as Hk; cbn [negb]; [|naive_solver]. destruct (String.eqb_spec (config_APIVersion c) (StoredVersion kindTopology)); cbn [negb]; [|naive_solver].
  rewrite <- normalize_map_plain. destruct (normalizeSpecMap _) as [b|] eqn:Eb; cbn; [|naive_solver].
  unfold normalizeSpecMap in Eb. apply bind_ok in Eb as (w & Hw & Hm). cbn [normalizeSpec] in Hw. apply bind_ok in Hw as (out & _ & [= <-]). injection Hm as <-.
  cbn. naive_solver.
Qed.

Lemma includes_all_reached own root name : includes_all own root name -> reached loader (includeNames own) root name.
Proof.
  induction 1 as [name Hn Hr|name t next _ IH Ht Hn Hr]; [apply reached_first; [by apply includes_iff|done]|].
  eapply reached_next; [exact IH|by apply reads_iff|by apply includes_iff|done].
Qed.

(** C35: a topology of which a check of its includes finds nothing wrong can have
    them: each topology that it includes, directly or through others, reads, no
    node in one has the host name of a node of its own in any case, and the
    host name of each node that phenix would start is one that an experiment
    can be made with: none of one character, [all], of digits alone, or
    [phenix] on a Windows node. *)
Theorem CheckIncludes_clear name s report :
  CheckIncludes loader name s = Ok report -> rep_Unreadable report = [] -> rep_Clashes report = [] -> rep_Refused report = [] ->
  exists own, plain (Obj s) (Obj own) /\
  forall included, includes_all own name included ->
    exists t, reads included t /\
      (forall hostname mine, has_hostname t hostname -> has_hostname own mine -> foldKey hostname <> foldKey mine) /\
      hostnames_taken t.
Proof.
  unfold CheckIncludes. intros Hr Hu Hc Hf. apply bind_ok in Hr as (n & Hn%res_map_err_ok & Hr).
  destruct n as [own|]; [|by unfold normalizeSpecMap in Hn; cbn [normalizeSpec] in Hn; destruct (map_res _ s)]. exists own. split; [by apply normalize_map_plain|]. change (default [] (Some own)) with own in Hr.
  destruct (resolveAll_bounded loader (includeNames own) name) as (resolved & r & E & _ & _ & _ & _ & Hload). rewrite E in Hr. injection Hr as <-. cbn in Hu, Hc, Hf.
  intros included Hin%includes_all_reached. apply (resolveAll_complete loader _ _ _ _ E Hu) in Hin as (t & -> & Ht)%list_elem_of_fmap. rewrite Forall_forall in Hload.
  exists (it_spec t). split; [by apply reads_iff, Hload|]. split.
  - intros hostname mine Hh%has_hostname_iff Hm%has_hostname_iff He. apply concat_nil in Hc. rewrite Forall_forall in Hc. assert (clashes_of (list_to_set (map foldKey (specHostnames own))) t = []) as Hnil by (by apply Hc).
    assert (hostname ∈ []) as []%elem_of_nil. apply map_eq_nil in Hnil. rewrite <- Hnil. apply list_elem_of_filter. split; [|done].
    rewrite He. apply elem_of_list_to_set. by apply list_elem_of_fmap_2.
  - intros node hostname osType Hst Hh Ho. apply name_taken_iff. destruct (checkHostname hostname osType) as [w|reason] eqn:Ek; [by exists w|].
    destruct (proj2 (started_iff (it_spec t) hostname osType)) as [position Hs]; [by exists node|].
    apply concat_nil in Hf. rewrite Forall_forall in Hf. assert (refused_of t = []) as Hnil by (by apply Hf).
    assert ({| rh_Include := it_name t; rh_Reason := reason |} ∈ []) as []%elem_of_nil. rewrite <- Hnil.
    apply list_elem_of_omap. exists (position, hostname, osType). split; [done|]. cbn. by rewrite Ek.
Qed.

End Included.
