(* ===== verification/DraftService.v ===== *)
(** * api/builder/service.go: the draft service

    The service over the abstract record store of [RecordSpec]: every method
    is a function of the state of the store. What a call meets from outside is
    an [env]: its context, the clock, the identifiers, the times the store
    gives its writes, whether its transaction commits, and [between], what
    everybody else does to the store between its read and its write. *)

From Stdlib Require Import ZArith Lia Ascii String Strings.Byte.
From stdpp Require Import base option list gmap strings.
From S2P Require Import Prelude Record RecordSpec Text Codes Document Checks Layers Icons Validate Drafts Content.

Open Scope Z_scope.
Open Scope go_scope.

(** encoding/json of documents and of draft records. [unmarshal_draft] is the
    strict decoder: its error is what it says, or nothing for trailing
    content. [raw_fields], [raw_text] and [raw_time] read a damaged record
    field by field. *)
Class ServiceJSON := {
  encode_document : Document -> res string (list byte);
  decode_document : list byte -> res doc_error Document;
  marshal_draft : DraftMetadata -> res string (list byte);
  unmarshal_draft : list byte -> res (option string) DraftMetadata;
  raw_fields : list byte -> option (gmap string (list byte));
  raw_text : option (list byte) -> option string;
  raw_time : option (list byte) -> option Z;
  FormatTime : Z -> string;
}.

Record env : Type := {
  (** [ctx.Err()] at the n-th check of the call. *)
  ctx_err : nat -> option string;
  clock : Z;
  (** The n-th identifier the call asks for. *)
  new_id : nat -> res string string;
  (** The time the store reads when it writes the record of a name. *)
  store_time : string -> string -> Z;
  (** The error of the commit of a transaction, or of a single write. *)
  commit : option error;
  between : Spec.state -> Spec.state;
}.

Record DamagedDraft : Type := {
  dd_ID : string;
  dd_CreatedBy : string;
  dd_Title : string;
  dd_Updated : option Z;
  dd_Revision : Z;
}.

Record Snapshot : Type := { sn_Manifest : SnapshotManifest; sn_Data : list byte; sn_Document : Document }.

(** The order in which [Validate] meets the map of lists makes no difference. *)
Definition list_order : list string := ["nodes"; "networks"; "edges"].

Section Service.
Context `{Unicode, Libraries, PNG, Compression, ServiceJSON}.

(** ** Documents *)

Definition Parse (data : list byte) : res doc_error Document :=
  let? doc := decode_document data in
  match Validate list_order doc with
  | None => Ok doc
  | Some issues => Err (InvalidDocument issues)
  end.

Definition parseDocument (data : list byte) : res serror Document :=
  if blen data =? 0 then Err (newValidationError "document" (lit "must not be empty"))
  else if MaxDocumentBytes <? blen data then Err (newTooLargeError "document" (blen data) MaxDocumentBytes)
  else
    match Parse data with
    | Err e => Err (newValidationCause "document" (lit "is not a valid builder document") e)
    | Ok doc => Ok doc
    end.

Definition encodeDocument (doc : Document) : res serror (list byte) :=
  match encode_document doc with
  | Err what => Err (newValidationCause "document" (lit "phenix cannot encode it in canonical form") (Unencodable what))
  | Ok canonical =>
      if MaxDocumentBytes <? blen canonical then Err (newTooLargeError "document" (blen canonical) MaxDocumentBytes)
      else Ok canonical
  end.

Definition parseStored (kind id : string) (data : list byte) : res serror Document :=
  match Parse data with
  | Err _ => Err (newCorruptError kind id (lit "stored document is not a valid builder document"))
  | Ok doc => Ok doc
  end.

(** ** Draft records *)

Definition encodeDraft (meta : DraftMetadata) : res serror (list byte) :=
  match marshal_draft meta with
  | Err what => Err (SWrap (Sprintf "encoding draft %s: %w" [AStr (dm_ID meta)]) (SOther what))
  | Ok value =>
      if MaxMetadataBytes <? blen value then Err (newTooLargeError "draft metadata" (blen value) MaxMetadataBytes)
      else Ok value
  end.

(** [decodeMetadata] of a draft. *)
Definition decodeMetadata (kind : string) {A} (r : res (option string) A) : res text A :=
  match r with
  | Ok a => Ok a
  | Err None => Err (Sprintf "%s metadata carries trailing content" [AStr kind])
  | Err (Some what) => Err (Sprintf "%s metadata is not valid JSON: %s" [AStr kind; AStr what])
  end.

Definition decodeDraft (record : record) : res serror DraftMetadata :=
  match decodeMetadata kindDraft (unmarshal_draft (bytes_of (Value record))) with
  | Err reason => Err (newCorruptError kindDraft (Key record) reason)
  | Ok meta =>
      let? _ := validateDraftMetadata (Key record) meta in
      Ok (with_revision meta (Record.Revision record))
  end.

Definition readDamagedDraft (record : record) : DamagedDraft :=
  match raw_fields (bytes_of (Value record)) with
  | None => {| dd_ID := Key record; dd_CreatedBy := ""; dd_Title := ""; dd_Updated := None; dd_Revision := Record.Revision record |}
  | Some fields =>
      let text key limit required :=
        match raw_text (fields !! key) with
        | Some value => if ok (validateText key value limit required) then value else ""
        | None => ""
        end in
      {| dd_ID := Key record; dd_CreatedBy := text "createdBy" MaxOwnerLength true;
         dd_Title := text "title" MaxTitleLength false; dd_Updated := raw_time (fields !! "updated");
         dd_Revision := Record.Revision record |}
  end.

(** ** The environment *)

Definition check_ctx (e : env) (n : nat) (context : text) : res serror unit :=
  match ctx_err e n with
  | Some what => Err (SWrap context (SOther what))
  | None => Ok tt
  end.

Definition newID (e : env) (n : nat) : res serror string :=
  match new_id e n with
  | Ok id => Ok id
  | Err what => Err (SOther what)
  end.

Definition draftID (e : env) (n : nat) : res serror string :=
  let? id := newID e n in
  let? _ := validateID "draftID" id in
  Ok id.

(** [RecordStore.RecordTxn]: all of it or nothing. *)
Definition RecordTxn {A} (e : env) (f : st Spec.state serror A) : st Spec.state serror A := fun s =>
  match f s with
  | (Ok a, s') => match commit e with None => (Ok a, s') | Some err => (Err (SRaw err), s) end
  | (Err err, _) => (Err err, s)
  end.

Definition map_err {A} (f : serror -> serror) (m : st Spec.state serror A) : st Spec.state serror A :=
  fun s => let '(r, s') := m s in (res_map_err f r, s').

(** ** Reading *)

Definition getRecord (s : Spec.state) (namespace key : string) : res serror record :=
  fst (tx_call (Spec.get namespace key) s).

Definition GetDraft_at (e : env) (n : nat) (s : Spec.state) (id : string) : res serror DraftMetadata :=
  let? _ := check_ctx e n (Sprintf "getting draft %s: %w" [AStr id]) in
  let? _ := validateID "draftID" id in
  let? record := res_map_err (storeError kindDraft id AnyRevision) (getRecord s NamespaceDrafts id) in
  decodeDraft record.

Definition GetDraft (e : env) (s : Spec.state) (id : string) : res serror DraftMetadata := GetDraft_at e 0 s id.

(** [time.Time{}] in nanoseconds from the epoch. *)
Definition zero_time : Z := -62135596800000000000.

(** The identifier, the creator and the revision; the rest is empty. *)
Definition GetDamagedDraft (e : env) (s : Spec.state) (id : string) : res serror DraftMetadata :=
  let? _ := check_ctx e 0 (Sprintf "getting draft %s: %w" [AStr id]) in
  let? _ := validateID "draftID" id in
  let? record := res_map_err (storeError kindDraft id AnyRevision) (getRecord s NamespaceDrafts id) in
  let damaged := readDamagedDraft record in
  Ok {| dm_ID := id; dm_CreatedBy := dd_CreatedBy damaged; dm_Title := ""; dm_SourceToken := ""; dm_SourceFile := "";
        dm_Created := zero_time; dm_Updated := zero_time; dm_LastModifiedBy := ""; History := []; Cursor := 0; Publication := None;
        Forked := None; DocumentCreatedBy := ""; DocumentCreatedAt := ""; dm_Revision := Record.Revision record; Stamp := None |}.

(** The drafts that decode, and what is read of the others, in key order. *)
Definition ListDraftsWithDamaged (e : env) (s : Spec.state) : res serror (list DraftMetadata * list DamagedDraft) :=
  let? _ := check_ctx e 0 (lit "listing drafts: %w") in
  let? records := res_map_err (fun err => SWrap (lit "listing drafts: %w") (SRaw err)) (Spec.list_records NamespaceDrafts "" s) in
  Ok (omap (fun record => match decodeDraft record with Ok meta => Some meta | Err _ => None end) records,
      omap (fun record => match decodeDraft record with Ok _ => None | Err _ => Some (readDamagedDraft record) end) records).

Definition listDrafts (e : env) (s : Spec.state) : res serror (list DraftMetadata * list string) :=
  let? (drafts, damaged) := ListDraftsWithDamaged e s in
  Ok (drafts, map dd_ID damaged).

Definition snapshot (s : Spec.state) (id : string) (manifest : SnapshotManifest) : res serror Snapshot :=
  let? data := readPayload s kindSnapshot (man_ID manifest) (snapshotKey id (man_ID manifest)) manifest in
  let? parsed := parseStored kindSnapshot (man_ID manifest) data in
  Ok {| sn_Manifest := manifest; sn_Data := data; sn_Document := parsed |}.

(** The content is read after the metadata, so from a later store. *)
Definition GetCurrentDocument (e : env) (s : Spec.state) (id : string) : res serror Snapshot :=
  let? meta := GetDraft e s id in
  match Current meta with
  | None => Err (newCorruptError kindDraft id (lit "history is empty"))
  | Some current => snapshot (between e s) id current
  end.

Definition GetSnapshot (e : env) (s : Spec.state) (id snapshotID : string) : res serror Snapshot :=
  let? meta := GetDraft e s id in
  match Snapshot_of meta snapshotID with
  | None => Err (newNotFoundError kindSnapshot snapshotID)
  | Some manifest => snapshot (between e s) id manifest
  end.

(** ** Writing *)

(** [manifest]. *)
Definition manifest_of (e : env) (n : nat) (load : payload) (actor summary : string) (now : Z) (opID : string)
  : res serror SnapshotManifest :=
  let? id := newID e n in
  let? _ := validateID "snapshotID" id in
  Ok {| man_ID := id; man_Digest := load_digest load; man_Size := load_size load;
        man_CompressedSize := blen (load_compressed load); man_CreatedAt := now; man_CreatedBy := actor;
        man_Summary := summary; man_OpID := opID |}.

Definition checkDraftLimit (s : Spec.state) : res serror unit :=
  let? keys := res_map_err (fun err => SWrap (lit "counting drafts: %w") (SRaw err)) (Spec.list_keys NamespaceDrafts "" s) in
  if MaxDrafts <=? zlen keys then Err (SDraftLimit MaxDrafts) else Ok tt.

(** [firstDocument]: the bytes, and the document as it stamped it. *)
Definition firstDocument (doc : Document) (req : CreateDraftRequest) (now : Z) : res serror (list byte * Document) :=
  let stamped :=
    let stamp := provenance doc in
    SetProvenance doc {|
      prov_CreatedBy := if String.eqb (prov_CreatedBy stamp) "" then cr_Actor req else prov_CreatedBy stamp;
      prov_CreatedAt := if String.eqb (prov_CreatedAt stamp) "" then FormatTime now else prov_CreatedAt stamp;
      prov_UpdatedBy := cr_Actor req;
      prov_UpdatedAt := FormatTime now |} in
  match cr_Origin req, encodeDocument doc with
  | Some digest, Ok canonical =>
      if String.eqb (digestOf canonical) digest then Ok (canonical, doc)
      else let? canonical := encodeDocument stamped in Ok (canonical, stamped)
  | _, _ => let? canonical := encodeDocument stamped in Ok (canonical, stamped)
  end.

(** What [CreateDraft] does before its transaction. *)
Definition create_plan (e : env) (req : CreateDraftRequest) (s : Spec.state)
  : res serror (DraftMetadata * payload * SnapshotManifest * list byte) :=
  let? _ := check_ctx e 0 (lit "creating draft: %w") in
  let? _ := validateCreateRequest req in
  let? _ := checkDraftLimit s in
  let? id := draftID e 0 in
  let? doc := parseDocument (cr_Document req) in
  let now := clock e in
  let? (canonical, doc) := firstDocument doc req now in
  let? title := documentTitle doc (cr_Title req) in
  let? load := buildPayload canonical in
  let? manifest := manifest_of e 1 load (cr_Actor req) (cr_Summary req) now "" in
  let stamp := provenance doc in
  let meta := {|
    dm_ID := id; dm_CreatedBy := cr_Actor req; dm_Title := title; dm_SourceToken := cr_SourceToken req;
    dm_SourceFile := cr_SourceFile req; dm_Created := now; dm_Updated := now; dm_LastModifiedBy := cr_Actor req;
    History := [manifest]; Cursor := 0; Publication := None; Forked := cr_Forked req;
    DocumentCreatedBy := prov_CreatedBy stamp; DocumentCreatedAt := prov_CreatedAt stamp;
    dm_Revision := AnyRevision; Stamp := Some stamp |} in
  let? value := encodeDraft meta in
  Ok (meta, load, manifest, value).

Definition CreateDraft (e : env) (req : CreateDraftRequest) : st Spec.state serror DraftMetadata := fun s =>
  match create_plan e req s with
  | Err err => (Err err, between e s)
  | Ok (meta, load, manifest, value) =>
      map_err (txnError kindDraft (dm_ID meta) AnyRevision)
        (RecordTxn e (
           let! _ := putContent (store_time e) (snapshotKey (dm_ID meta) (man_ID manifest)) load in
           let! record := map_err (storeError kindDraft (dm_ID meta) AnyRevision)
             (tx_call (Spec.create (store_time e NamespaceDrafts (dm_ID meta)) NamespaceDrafts (dm_ID meta) (Some value))) in
           st_ret (with_revision meta (Record.Revision record)))) (between e s)
  end.

(** [writeDraft]. *)
Definition writeDraft (e : env) (updated : DraftMetadata) (value : list byte) (expected : Z)
  : st Spec.state serror DraftMetadata :=
  let! record := map_err (storeError kindDraft (dm_ID updated) expected)
    (RecordTxn e (tx_call (Spec.update (store_time e NamespaceDrafts (dm_ID updated)) NamespaceDrafts (dm_ID updated) (Some value) expected))) in
  st_ret (with_revision updated (Record.Revision record)).

Definition writeDraftTxn (e : env) (updated : DraftMetadata) (value : list byte) (expected : Z)
    (also : st Spec.state serror unit) : st Spec.state serror DraftMetadata :=
  map_err (txnError kindDraft (dm_ID updated) expected)
    (RecordTxn e (
       let! _ := also in
       let! record := map_err (storeError kindDraft (dm_ID updated) expected)
         (tx_call (Spec.update (store_time e NamespaceDrafts (dm_ID updated)) NamespaceDrafts (dm_ID updated) (Some value) expected)) in
       st_ret (with_revision updated (Record.Revision record)))).

Fixpoint dropSnapshots (id : string) (dropped : list SnapshotManifest) : st Spec.state serror unit :=
  match dropped with
  | [] => st_ret tt
  | manifest :: dropped =>
      let! _ := dropContent (snapshotKey id (man_ID manifest)) in dropSnapshots id dropped
  end.

(** [stampedSnapshot]. *)
Definition stampedSnapshot (e : env) (doc : Document) (stamp : Provenance) (summary : string) (now : Z) (opID : string)
  : res serror (payload * SnapshotManifest) :=
  let? canonical := encodeDocument (SetProvenance doc stamp) in
  let? load := buildPayload canonical in
  let? manifest := manifest_of e 0 load (prov_UpdatedBy stamp) summary now opID in
  Ok (load, manifest).

(** What [AppendSnapshot] does before its transaction: the record to write and
    the revision it read, the content to add and the snapshots to drop. *)
Definition append_plan (e : env) (req : AppendSnapshotRequest) (s : Spec.state)
  : res serror (DraftMetadata * list byte * Z * payload * SnapshotManifest * list SnapshotManifest) :=
  let? _ := check_ctx e 0 (lit "appending snapshot: %w") in
  let? _ := validateAppendRequest req in
  let? doc := parseDocument (ar_Document req) in
  let? meta := GetDraft_at e 1 s (ar_DraftID req) in
  let? _ := checkRevision (ar_DraftID req) (ar_ExpectedRevision req) (dm_Revision meta) in
  let? title := documentTitle doc (dm_Title meta) in
  let now := clock e in
  let stamp := {| prov_CreatedBy := DocumentCreatedBy meta; prov_CreatedAt := DocumentCreatedAt meta;
                  prov_UpdatedBy := ar_Actor req; prov_UpdatedAt := FormatTime now |} in
  let? (load, manifest) := stampedSnapshot e doc stamp (ar_Summary req) now (ar_OpID req) in
  let kept := Z.to_nat (Cursor meta + 1) in
  let truncated := drop kept (History meta) in
  let history := take kept (History meta) ++ [manifest] in
  let updated := with_history meta history (zlen history - 1) in
  let updated := with_title (stampDraft updated (ar_Actor req) now) title (Some stamp) in
  match pruneHistory updated with
  | None => Err (SPanic "index out of range")
  | Some (pruned, updated) =>
      if MaxDraftHistoryBytes <? HistoryBytes updated then
        Err (newTooLargeError "draft history" (HistoryBytes updated) MaxDraftHistoryBytes)
      else
        let? value := encodeDraft updated in
        Ok (updated, value, dm_Revision meta, load, manifest, truncated ++ pruned)
  end.

Definition AppendSnapshot (e : env) (req : AppendSnapshotRequest) : st Spec.state serror DraftMetadata := fun s =>
  match append_plan e req s with
  | Err err => (Err err, between e s)
  | Ok (updated, value, revision, load, manifest, dropped) =>
      writeDraftTxn e updated value revision (
        let! _ := putContent (store_time e) (snapshotKey (ar_DraftID req) (man_ID manifest)) load in
        dropSnapshots (ar_DraftID req) dropped) (between e s)
  end.

Definition move_plan (e : env) (req : MoveCursorRequest) (s : Spec.state)
  : res serror (DraftMetadata * list byte * Z) :=
  let? _ := check_ctx e 0 (lit "moving cursor: %w") in
  let? _ := validateText "actor" (mr_Actor req) MaxOwnerLength true in
  let? meta := GetDraft_at e 1 s (mr_DraftID req) in
  let? _ := checkRevision (mr_DraftID req) (mr_ExpectedRevision req) (dm_Revision meta) in
  let? index := resolveCursor meta req in
  let updated := stampDraft (with_history meta (History meta) index) (mr_Actor req) (clock e) in
  let? value := encodeDraft updated in
  Ok (updated, value, dm_Revision meta).

Definition MoveCursor (e : env) (req : MoveCursorRequest) : st Spec.state serror DraftMetadata := fun s =>
  match move_plan e req s with
  | Err err => (Err err, between e s)
  | Ok (updated, value, revision) => writeDraft e updated value revision (between e s)
  end.

Definition delete_snapshot_plan (e : env) (req : DeleteSnapshotRequest) (s : Spec.state)
  : res serror (DraftMetadata * list byte * Z * SnapshotManifest) :=
  let? _ := check_ctx e 0 (lit "deleting snapshot: %w") in
  let? _ := validateText "actor" (dr_Actor req) MaxOwnerLength true in
  let? meta := GetDraft_at e 1 s (dr_DraftID req) in
  let? _ := checkRevision (dr_DraftID req) (dr_ExpectedRevision req) (dm_Revision meta) in
  match list_find (fun m => man_ID m = dr_SnapshotID req) (History meta) with
  | None => Err (newNotFoundError kindSnapshot (dr_SnapshotID req))
  | Some (index, _) =>
      if Z.of_nat index =? Cursor meta then
        Err (SConflict kindDraft (dr_DraftID req) (dr_ExpectedRevision req) (dm_Revision meta)
               (Sprintf "snapshot %q is the current snapshot" [AStr (dr_SnapshotID req)]))
      else
        match removeSnapshot meta index with
        | None => Err (SPanic "index out of range")
        | Some (removed, updated) =>
            let updated := stampDraft updated (dr_Actor req) (clock e) in
            let? value := encodeDraft updated in
            Ok (updated, value, dm_Revision meta, removed)
        end
  end.

Definition DeleteSnapshot (e : env) (req : DeleteSnapshotRequest) : st Spec.state serror DraftMetadata := fun s =>
  match delete_snapshot_plan e req s with
  | Err err => (Err err, between e s)
  | Ok (updated, value, revision, removed) =>
      writeDraftTxn e updated value revision (dropSnapshots (dr_DraftID req) [removed]) (between e s)
  end.

(** [MarkPublished] returns the draft itself for a repeat, or writes. *)
Definition publish_plan (e : env) (req : MarkPublishedRequest) (s : Spec.state)
  : res serror (DraftMetadata + DraftMetadata * list byte * Z) :=
  let? _ := check_ctx e 0 (lit "marking draft published: %w") in
  let? _ := validatePublishRequest req in
  let? meta := GetDraft_at e 1 s (pr_DraftID req) in
  if isPublishRetry meta req then Ok (inl meta)
  else
    let? _ := checkRevision (pr_DraftID req) (pr_ExpectedRevision req) (dm_Revision meta) in
    match Current meta with
    | None => Err (newCorruptError kindDraft (pr_DraftID req) (lit "history is empty"))
    | Some current =>
        if negb (String.eqb (man_ID current) (pr_SnapshotID req)) then
          Err (SConflict kindDraft (pr_DraftID req) (pr_ExpectedRevision req) (dm_Revision meta)
                 (Sprintf "snapshot %q is not the current snapshot %q" [AStr (pr_SnapshotID req); AStr (man_ID current)]))
        else
          let updated := with_publication (stampDraft meta (pr_Actor req) (clock e)) {|
            ps_Mode := pr_Mode req; ps_TopologyTarget := pr_TopologyTarget req;
            ps_TopologyAction := pr_TopologyAction req; ps_ExperimentTarget := pr_ExperimentTarget req;
            ps_ScenarioTarget := pr_ScenarioTarget req; ps_SnapshotID := man_ID current;
            ps_Digest := man_Digest current; ps_Revision := dm_Revision meta;
            ps_DocumentID := pr_DocumentID req; ps_PublishedAt := clock e; ps_PublishedBy := pr_Actor req |} in
          let? value := encodeDraft updated in
          Ok (inr (updated, value, dm_Revision meta))
    end.

Definition MarkPublished (e : env) (req : MarkPublishedRequest) : st Spec.state serror DraftMetadata := fun s =>
  match publish_plan e req s with
  | Err err => (Err err, between e s)
  | Ok (inl meta) => (Ok meta, between e s)
  | Ok (inr (updated, value, revision)) => writeDraft e updated value revision (between e s)
  end.

(** [deleteDraftTx]. *)
Definition deleteDraftTx (id : string) (expected : Z) : st Spec.state serror unit :=
  let! _ := map_err (storeError kindDraft id expected) (tx_call (Spec.delete NamespaceDrafts id expected)) in
  let! _ := map_err (SWrap (Sprintf "deleting the content of draft %s: %w" [AStr id]))
    (tx_call (Spec.delete_prefix NamespaceContent (draftContentPrefix id))) in
  st_ret tt.

Definition DeleteDraft (e : env) (id actor : string) (expected : Z) : st Spec.state serror unit := fun s =>
  match (let? _ := check_ctx e 0 (Sprintf "deleting draft %s: %w" [AStr id]) in
         let? _ := validateText "actor" actor MaxOwnerLength true in
         validateID "draftID" id) with
  | Err err => (Err err, between e s)
  | Ok _ => map_err (txnError kindDraft id expected) (RecordTxn e (deleteDraftTx id expected)) (between e s)
  end.

End Service.
