(* ===== verification/DraftSpec.v ===== *)
(** * What the draft service promises

    [draft_ok] says when the metadata of a draft is accepted when it is read
    back; [holds] says when a snapshot of its history is in the store, whole.
    The lemmas here are about the parts of the service; the theorems about its
    calls are in the files that follow. *)

From Stdlib Require Import ZArith Lia Ascii String Strings.Byte.
From stdpp Require Import base option list gmap strings sorting.
From S2P Require Import Prelude Record RecordSpec Text Codes Document Checks Layers Icons Validate Drafts Content DraftService.

Open Scope Z_scope.
Open Scope go_scope.

Lemma guard_ok b e : guard b e = Ok tt <-> b = true.
Proof. by destruct b. Qed.

(** ** Identifiers and keys *)

Lemma ValidID_bytes id : ValidID id = true -> Forall (fun b => id_byte b = true) (bytes_Z id) /\ id <> "".
Proof.
  unfold ValidID. destruct (bytes_Z id) as [|b l] eqn:E; [done|]. rewrite !andb_true_iff. intros [[Hb Hl] _].
  split; [|by intros ->]. constructor; [unfold id_byte; by rewrite Hb|]. by apply forallb_Forall.
Qed.

Lemma id_byte_not_slash b : id_byte b = true -> b <> 47.
Proof. unfold id_byte, is_alnum, is_digit, is_letter, in_range. lia. Qed.

Lemma ascii_Z_slash : ascii_Z "/"%char = 47.
Proof. reflexivity. Qed.

(** What comes before the first slash is determined. *)
Lemma slash_inj a b x y :
  Forall (fun b => id_byte b = true) (bytes_Z a) -> Forall (fun b => id_byte b = true) (bytes_Z b) ->
  a +:+ String "/" x = b +:+ String "/" y -> a = b /\ x = y.
Proof.
  revert b. induction a as [|c a IH]; intros [|c' b] Ha Hb; rewrite ?string_app_cons.
  - intros [= ->]. done.
  - intros [= <- _]. apply Forall_cons in Hb as [Hc _]. by apply id_byte_not_slash in Hc.
  - intros [= -> _]. apply Forall_cons in Ha as [Hc _]. by apply id_byte_not_slash in Hc.
  - intros [= -> He]. apply Forall_cons in Ha as [_ Ha]. apply Forall_cons in Hb as [_ Hb].
    destruct (IH b Ha Hb He) as [<- <-]. by split.
Qed.

Lemma snapshotKey_alt d x : snapshotKey d x = "drafts/" +:+ (d +:+ String "/" x).
Proof. unfold snapshotKey, draftContentPrefix, scopeDrafts. by rewrite !string_app_assoc. Qed.

Lemma prefix_alt d : draftContentPrefix d = "drafts/" +:+ (d +:+ String "/" "").
Proof. reflexivity. Qed.

Lemma snapshotKey_inj d d' x x' :
  ValidID d = true -> ValidID d' = true -> snapshotKey d x = snapshotKey d' x' -> d = d' /\ x = x'.
Proof.
  intros [Hd _]%ValidID_bytes [Hd' _]%ValidID_bytes. rewrite !snapshotKey_alt. cbn. intros [= He].
  by apply slash_inj.
Qed.

(** The content of one draft has the prefix of no other. *)
Lemma snapshotKey_prefix d d' x :
  ValidID d = true -> ValidID d' = true ->
  has_prefix (snapshotKey d x) (draftContentPrefix d') = true <-> d = d'.
Proof.
  intros [Hd _]%ValidID_bytes [Hd' _]%ValidID_bytes. rewrite has_prefix_spec, snapshotKey_alt. split.
  - intros [r He]. rewrite prefix_alt, !string_app_assoc in He. injection He as He. by apply slash_inj in He as [-> _].
  - intros ->. exists x. by rewrite prefix_alt, !string_app_assoc.
Qed.

Lemma publishedKey_not_draft p d x : publishedKey p <> snapshotKey d x.
Proof. rewrite snapshotKey_alt. unfold publishedKey, scopePublished. cbn. by intros [=]. Qed.

Lemma publishedKey_prefix p d : has_prefix (publishedKey p) (draftContentPrefix d) = false.
Proof. done. Qed.

Lemma publishedKey_inj p q : publishedKey p = publishedKey q -> p = q.
Proof. unfold publishedKey, scopePublished. cbn. by intros [=]. Qed.

(** ** Texts *)

(** A text of at most [limit] bytes without control characters. *)
Definition text_ok (limit : Z) (required : bool) (s : string) : Prop :=
  (s = "" /\ required = false) \/
  (s <> "" /\ slen s <= limit /\ valid_utf8 s = true /\ Forall (fun r => isControl r = false) (runes s)).

Lemma validateText_ok field s limit required : validateText field s limit required = Ok tt <-> text_ok limit required s.
Proof.
  unfold validateText, text_ok. rewrite <- existsb_Forall. change (fun r => (r <? 32) || (r =? 127)) with isControl.
  destruct (String.eqb_spec s "") as [->|Hs]; cbn [andb].
  - destruct required; split; try done; [intros [[_ ?]|[? _]]; done|by left].
  - destruct (Z.ltb_spec limit (slen s)); [split; [done|intros [[? _]|(_ & ? & _)]; [done|lia]]|].
    destruct (valid_utf8 s); cbn [negb]; [|split; [done|intros [[? _]|(_ & _ & ? & _)]; done]].
    destruct (existsb isControl (runes s)); split; try done; [intros [[? _]|(_ & _ & _ & ?)]; done|by right].
Qed.

Lemma validateText_ok' field s limit required : ok (validateText field s limit required) = true <-> text_ok limit required s.
Proof. rewrite <- (validateText_ok field). destruct (validateText _ _ _ _) as [[]|]; by split. Qed.

Lemma text_ok_utf8 limit required s : text_ok limit required s -> valid_utf8 s = true.
Proof. by intros [[-> _]|(_ & _ & ? & _)]. Qed.

(** ASCII is valid UTF-8. *)
Lemma ascii_utf8 s : Forall (fun b => b < 128) (bytes_Z s) -> valid_utf8 s = true.
Proof.
  unfold valid_utf8. generalize (bytes_Z s). clear s. intros l Hl. apply forallb_Forall. induction Hl as [|b l Hb Hl IH]; [done|].
  rewrite runes_w_cons. rewrite (decode_rune_ascii b l Hb). cbn. constructor; [|done].
  unfold RuneError. destruct (Z.eqb_spec b 65533); [lia|done].
Qed.

Lemma ValidID_utf8 id : ValidID id = true -> valid_utf8 id = true.
Proof.
  intros [Hb _]%ValidID_bytes. apply ascii_utf8. eapply Forall_impl; [exact Hb|]. intros b.
  cbv beta. unfold id_byte, is_alnum, is_digit, is_letter, in_range. lia.
Qed.

(** An identifier is a key of the store. *)
Lemma split_on_id id : Forall (fun b => id_byte b = true) (bytes_Z id) -> split_on "/" id = [id].
Proof.
  induction id as [|a id IH]; [done|]. intros [Ha Hid]%Forall_cons. cbn [split_on]. rewrite (IH Hid).
  destruct (Ascii.eqb_spec a "/") as [->|]; [|done]. by apply id_byte_not_slash in Ha.
Qed.

Lemma id_key ns id :
  ValidateRecordNamespace ns = Ok tt -> ValidID id = true -> validateRecordNamespaceAndKey ns id = Ok tt.
Proof.
  intros Hns Hid. pose proof (ValidID_bytes id Hid) as [Hb Hne]. pose proof (ValidID_utf8 id Hid) as Hu.
  unfold validateRecordNamespaceAndKey. rewrite Hns. cbn [res_bind].
  apply valid_key_checks; [done|]. rewrite (split_on_id id Hb).
  assert (slen id <= 128) as Hlen.
  { unfold ValidID in Hid. unfold slen. rewrite <- length_bytes_Z. destruct (bytes_Z id); [done|].
    rewrite !andb_true_iff in Hid. destruct Hid as [_ ?%Nat.leb_le]. cbn. lia. }
  split_and!; [lia|done| | |].
  - assert (forallb id_byte (runes id) = true) as Hr%forallb_Forall.
    { rewrite runes_ascii_only; [by apply forallb_Forall|]. unfold id_byte, is_alnum, is_digit, is_letter, in_range. lia. }
    eapply Forall_impl; [exact Hr|]. intros r. unfold id_byte, Record.isControl, is_alnum, is_digit, is_letter, in_range. cbv beta. lia.
  - cbn [forallb]. unfold nonempty. by rewrite (proj2 (String.eqb_neq id "") Hne).
  - cbn. rewrite orb_false_r. apply relative_segment_false. split; intros ->; done.
Qed.

(** ** Draft metadata *)

Section Metadata.
Context `{Unicode}.

Definition manifest_ok (m : SnapshotManifest) : Prop :=
  ValidID (man_ID m) = true /\ 0 < man_CompressedSize m <= MaxCompressedBytes /\
  0 <= man_Size m <= MaxDocumentBytes /\ IsDigest (man_Digest m) = true.

(** The last publication: its targets are those of its mode, and it has the
    digest of the snapshot it names while the draft holds it. *)
Definition publication_ok (history : list SnapshotManifest) (p : PublicationState) : Prop :=
  PublishMode_Valid (ps_Mode p) = true /\ TopologyAction_Valid (ps_TopologyAction p) = true /\
  text_ok MaxTargetLength true (ps_TopologyTarget p) /\ text_ok MaxTargetLength false (ps_ExperimentTarget p) /\
  text_ok MaxTargetLength false (ps_ScenarioTarget p) /\ text_ok MaxOwnerLength true (ps_PublishedBy p) /\
  (ps_Mode p = PublishModeTopology -> ps_ExperimentTarget p = "" /\ ps_ScenarioTarget p = "") /\
  (ps_Mode p = PublishModeTopologyExperiment -> ps_ExperimentTarget p <> "") /\
  ValidID (ps_SnapshotID p) = true /\ IsDigest (ps_Digest p) = true /\
  (ps_DocumentID p = "" \/ ValidID (ps_DocumentID p) = true) /\
  forall m, m ∈ history -> man_ID m = ps_SnapshotID p -> man_Digest m = ps_Digest p.

Definition draft_ok (key : string) (meta : DraftMetadata) : Prop :=
  dm_ID meta = key /\ ValidID key = true /\
  text_ok MaxOwnerLength true (dm_CreatedBy meta) /\ text_ok MaxTitleLength false (dm_Title meta) /\
  1 <= zlen (History meta) <= MaxSnapshots /\ 0 <= Cursor meta < zlen (History meta) /\
  ValidateSourceFile (dm_SourceFile meta) = Ok tt /\
  text_ok MaxOwnerLength false (DocumentCreatedBy meta) /\
  (DocumentCreatedAt meta = "" \/ IsTime (DocumentCreatedAt meta) = true) /\
  Forall manifest_ok (History meta) /\ NoDup (man_ID <$> History meta) /\
  HistoryBytes meta <= MaxDraftHistoryBytes /\
  (forall p, Publication meta = Some p -> publication_ok (History meta) p).

Lemma manifest_shape kind id m :
  ValidID (man_ID m) = true -> validateManifestShape kind id m = Ok tt <-> manifest_ok m.
Proof.
  intros Hid. unfold validateManifestShape, manifest_ok. rewrite Hid.
  destruct (Z.leb_spec (man_CompressedSize m) 0), (Z.ltb_spec MaxCompressedBytes (man_CompressedSize m)),
    (Z.ltb_spec (man_Size m) 0), (Z.ltb_spec MaxDocumentBytes (man_Size m)); cbn [orb]; try (split; [done|intros (_ & ? & ? & _); lia]).
  destruct (String.eqb_spec (man_Digest m) "") as [->|?]; [split; [done|intros (_ & _ & _ & ?); done]|].
  destruct (IsDigest (man_Digest m)); cbn [negb]; (split; [|done || (intros (_ & _ & _ & ?); done)]); [|done].
  intros _. split_and!; done || lia.
Qed.

Lemma check_manifests_ok key i seen l :
  check_manifests key i seen l = Ok tt <->
  Forall manifest_ok l /\ NoDup (man_ID <$> l) /\ forall m, m ∈ l -> man_ID m ∉ seen.
Proof.
  revert i seen. induction l as [|m l IH]; intros i seen; cbn [check_manifests fmap list_fmap].
  - split; [|done]. intros _. split_and!; [constructor|constructor|by intros m ?%elem_of_nil].
  - rewrite !bind_unit, !guard_ok, bool_decide_eq_true, Forall_cons, NoDup_cons, IH. split.
    + intros (Hid & Hns & Hs & Hl & Hd & Hf). apply manifest_shape in Hs; [|done].
      split; [done|]. split; [split; [|done]|].
      * intros (x & Hx & Hin)%list_elem_of_fmap. apply (Hf x Hin). set_solver.
      * intros x [->|Hin]%elem_of_cons; [done|]. specialize (Hf x Hin). set_solver.
    + intros ((Hm & Hl) & (Hn & Hd) & Hf). split; [apply Hm|]. split; [apply Hf, elem_of_cons; by left|].
      split; [apply manifest_shape; [apply Hm|done]|]. split; [done|]. split; [done|]. intros x Hin.
      apply not_elem_of_union. split; [|apply Hf, elem_of_cons; by right]. intros He%elem_of_singleton. apply Hn.
      rewrite <- He. by apply list_elem_of_fmap_2.
Qed.

Lemma find_id_Some l id m :
  List.find (fun m => String.eqb (man_ID m) id) l = Some m -> m ∈ l /\ man_ID m = id.
Proof. intros [Hin He%String.eqb_eq]%List.find_some. split; [by apply list_elem_of_In|done]. Qed.

Lemma find_id_unique l id m :
  NoDup (man_ID <$> l) -> m ∈ l -> man_ID m = id -> List.find (fun m => String.eqb (man_ID m) id) l = Some m.
Proof.
  intros Hd Hin <-. induction l as [|x l IH]; [by apply elem_of_nil in Hin|]. cbn in *. apply NoDup_cons in Hd as [Hx Hd].
  destruct (String.eqb_spec (man_ID x) (man_ID m)) as [He|Hne].
  - apply elem_of_cons in Hin as [->|Hin]; [done|]. exfalso. apply Hx. rewrite He. by apply list_elem_of_fmap_2.
  - apply elem_of_cons in Hin as [->|Hin]; [done|]. by apply IH.
Qed.

Lemma implb_iff (b c : bool) : negb (b && c) = true <-> (b = true -> c = false).
Proof. destruct b, c; naive_solver. Qed.

Lemma publication_state_ok key meta :
  NoDup (man_ID <$> History meta) ->
  validatePublicationState key meta = Ok tt <-> forall p, Publication meta = Some p -> publication_ok (History meta) p.
Proof.
  intros Hd. unfold validatePublicationState. destruct (Publication meta) as [p|]; [|by split].
  assert (forall Q : PublicationState -> Prop, (forall p', Some p = Some p' -> Q p') <-> Q p) as -> by naive_solver.
  unfold publication_ok, Snapshot_of. cbn zeta.
  rewrite !bind_unit, !guard_ok, !validateText_ok'.
  rewrite !implb_iff. rewrite !orb_false_iff, !orb_true_iff, !negb_false_iff, !String.eqb_eq, String.eqb_neq.
  assert ((match List.find (fun m => String.eqb (man_ID m) (ps_SnapshotID p)) (History meta) with
    | Some published => guard (String.eqb (man_Digest published) (ps_Digest p))
        (newCorruptError kindDraft key (Sprintf "publication digest does not match snapshot %q" [AStr (ps_SnapshotID p)]))
    | None => Ok tt
    end = Ok tt) <-> forall m, m ∈ History meta -> man_ID m = ps_SnapshotID p -> man_Digest m = ps_Digest p) as Hlast.
  { destruct (List.find _ _) as [m|] eqn:Ef.
    - rewrite guard_ok, String.eqb_eq. apply find_id_Some in Ef as [Hin He]. split; [|auto]. intros Hm m' Hin' He'.
      assert (Some m = Some m') as [= <-]; [|done].
      rewrite <- (find_id_unique _ (ps_SnapshotID p) m Hd Hin He). by apply find_id_unique.
    - split; [|done]. intros _ m Hin He. by rewrite (find_id_unique _ _ m Hd Hin He) in Ef. }
  split.
  - intros (? & ? & ? & ? & ? & ? & ? & ? & ? & ? & ? & Hl).
    pose proof (proj1 Hlast Hl). split_and!; done.
  - intros (? & ? & ? & ? & ? & ? & ? & ? & ? & ? & ? & Hl). pose proof (proj2 Hlast Hl). split_and!; done.
Qed.

Lemma draft_metadata_ok key meta : validateDraftMetadata key meta = Ok tt <-> draft_ok key meta.
Proof.
  unfold validateDraftMetadata, draft_ok. cbn zeta.
  rewrite !bind_unit, !guard_ok, !validateText_ok'.
  rewrite check_manifests_ok.
  rewrite !String.eqb_eq, negb_true_iff, Z.eqb_neq, andb_true_iff, orb_true_iff, !Z.leb_le, Z.ltb_lt.
  assert (ok (ValidateSourceFile (dm_SourceFile meta)) = true <-> ValidateSourceFile (dm_SourceFile meta) = Ok tt) as ->.
  { by destruct (ValidateSourceFile _) as [[]|]. }
  rewrite String.eqb_eq. assert (0 <= zlen (History meta)) by (unfold zlen; lia). split.
  - intros (<- & ? & ? & ? & ? & ? & ? & ? & ? & ? & (? & ? & _) & ? & Hp).
    pose proof (proj1 (publication_state_ok _ _ ltac:(done)) Hp). split_and!; done || lia.
  - intros (<- & ? & ? & ? & ? & ? & ? & ? & ? & ? & ? & ? & Hp).
    split_and!; try (done || lia); try (intros m _; apply not_elem_of_empty). by apply publication_state_ok.
Qed.

End Metadata.

(** ** Histories *)

Section Histories.
Context `{Unicode}.

Definition sum_sizes (l : list SnapshotManifest) : Z := foldr (fun m n => man_Size m + n) 0 l.

Lemma sum_sizes_nonneg l : Forall manifest_ok l -> 0 <= sum_sizes l <= zlen l * MaxDocumentBytes.
Proof.
  unfold zlen, sum_sizes. induction 1 as [|m l (_ & _ & Hs & _) _ IH]; cbn; [done|].
  unfold MaxDocumentBytes in *. lia.
Qed.

Lemma sum_sizes_app l l' : sum_sizes (l ++ l') = sum_sizes l + sum_sizes l'.
Proof. unfold sum_sizes. induction l as [|m l IH]; cbn; [done|]. rewrite IH. lia. Qed.

Lemma history_bytes_from l t :
  Forall manifest_ok l -> 0 <= t -> t + zlen l * MaxDocumentBytes < 2 ^ 62 ->
  foldl (fun total m => add64 total (man_Size m)) t l = t + sum_sizes l.
Proof.
  intros Hl. revert t. induction Hl as [|m l (_ & _ & Hs & _) Hl IH]; intros t Ht Hb; cbn [foldl sum_sizes foldr]; [lia|].
  assert (zlen (m :: l) = zlen l + 1) as Hz by (unfold zlen; cbn [length]; lia). rewrite Hz in Hb.
  unfold MaxDocumentBytes in *. assert (0 <= zlen l) by (unfold zlen; lia).
  assert (add64 t (man_Size m) = t + man_Size m) as -> by (apply wrap64_id; unfold int64; lia).
  rewrite IH by lia. unfold sum_sizes. lia.
Qed.

Lemma HistoryBytes_sum d : Forall manifest_ok (History d) -> zlen (History d) <= MaxSnapshots + 1 -> HistoryBytes d = sum_sizes (History d).
Proof.
  intros Hl Hn. unfold HistoryBytes. rewrite history_bytes_from; [lia|done|lia|].
  unfold MaxSnapshots, MaxDocumentBytes in *. assert (0 <= zlen (History d)) by (unfold zlen; lia). lia.
Qed.

(** More snapshots or more bytes than a draft keeps. *)
Definition over (l : list SnapshotManifest) : Prop :=
  MaxSnapshots < zlen l \/ MaxDraftHistoryBytes < sum_sizes l.

#[export] Instance over_dec l : Decision (over l).
Proof. unfold over. apply _. Defined.

Lemma with_history_twice d l c l' c' : with_history (with_history d l c) l' c' = with_history d l' c'.
Proof. done. Qed.

Lemma with_history_same d : with_history d (History d) (Cursor d) = d.
Proof. by destruct d. Qed.

(** The loop drops the shortest beginning of the history that leaves it within
    the limits, and never the snapshot of the cursor. *)
Lemma prune_loop_spec fuel d total :
  Forall manifest_ok (History d) -> zlen (History d) <= MaxSnapshots + 1 -> total = sum_sizes (History d) ->
  0 <= Cursor d < zlen (History d) -> (Z.to_nat (Cursor d) <= fuel)%nat ->
  exists k, (k <= Z.to_nat (Cursor d))%nat /\
    prune_loop fuel d total = Some (take k (History d), with_history d (drop k (History d)) (Cursor d - Z.of_nat k)) /\
    (forall j, (j < k)%nat -> over (drop j (History d))) /\
    (over (drop k (History d)) -> Z.of_nat k = Cursor d).
Proof.
  revert d total. induction fuel as [|fuel IH]; intros d total Hok Hn -> Hc Hf.
  - exists 0%nat. assert (Cursor d = 0) as Hc0 by lia. cbn [prune_loop]. rewrite Hc0, andb_false_r. cbn [take drop].
    split; [lia|]. split; [|split; [lia|done]]. change (Z.of_nat 0) with 0. rewrite Z.sub_0_r. by destruct d; cbn in *; subst.
  - cbn [prune_loop].
    destruct (((MaxSnapshots <? zlen (History d)) || (MaxDraftHistoryBytes <? sum_sizes (History d))) && (0 <? Cursor d)) eqn:E.
    + apply andb_true_iff in E as [Hover Hpos%Z.ltb_lt]. rewrite orb_true_iff, !Z.ltb_lt in Hover. fold (over (History d)) in Hover.
      unfold removeSnapshot. destruct (History d) as [|m l] eqn:Hh; [unfold zlen in Hc; cbn in Hc; lia|].
      cbn [lookup list_lookup base.delete list_delete]. change (Z.of_nat 0) with 0. rewrite (proj2 (Z.ltb_lt 0 (Cursor d)) Hpos).
      apply Forall_cons in Hok as [Hm Hl].
      assert (zlen (m :: l) = zlen l + 1) as Hz by (unfold zlen; cbn [length]; lia). rewrite Hz in *.
      assert (0 <= zlen l) by (unfold zlen; lia).
      pose proof (sum_sizes_nonneg l Hl) as Hs. destruct Hm as (_ & _ & Hms & _).
      assert (sub64 (sum_sizes (m :: l)) (man_Size m) = sum_sizes l) as ->.
      { unfold sub64, sum_sizes. cbn [foldr]. fold (sum_sizes l).
        replace (man_Size m + sum_sizes l - man_Size m) with (sum_sizes l) by lia. apply wrap64_id.
        unfold int64, MaxSnapshots, MaxDocumentBytes in *. lia. }
      destruct (IH (with_history d l (Cursor d - 1)) (sum_sizes l)) as (k & Hk & Heq & Hj & Hend); cbn [History Cursor with_history] in *;
        [done|lia|done|lia|lia|].
      exists (S k). rewrite Heq. split; [lia|]. split; [|split].
      * rewrite with_history_twice. cbn [take drop]. do 2 f_equal. f_equal. lia.
      * intros [|j] Hlt; [done|]. cbn [drop]. apply Hj. lia.
      * cbn [drop]. intros Ho%Hend. lia.
    + exists 0%nat. cbn [take drop]. split; [lia|]. split; [by rewrite Z.sub_0_r, with_history_same|]. split; [lia|].
      intros Ho. apply andb_false_iff in E as [E|E]; [|apply Z.ltb_ge in E; lia].
      apply orb_false_iff in E as [?%Z.ltb_ge ?%Z.ltb_ge]. rewrite drop_0 in Ho. destruct Ho; lia.
Qed.

(** The turns given are enough. *)
Lemma pruneHistory_spec d :
  Forall manifest_ok (History d) -> zlen (History d) <= MaxSnapshots + 1 -> 0 <= Cursor d < zlen (History d) ->
  exists k, (k <= Z.to_nat (Cursor d))%nat /\
    pruneHistory d = Some (take k (History d), with_history d (drop k (History d)) (Cursor d - Z.of_nat k)) /\
    (forall j, (j < k)%nat -> over (drop j (History d))) /\
    (over (drop k (History d)) -> Z.of_nat k = Cursor d).
Proof.
  intros Hok Hn Hc. unfold pruneHistory. apply prune_loop_spec; try done. by apply HistoryBytes_sum.
Qed.

(** C40: The pruning loop terminates, on any history, well formed or not, and for
    any total, overflowed or not: as many turns as the cursor is high are
    enough, more turns give the same, no turn reads past the history, and what
    is dropped is a beginning of the history that ends before the cursor, which
    stays on its snapshot. *)
Theorem prune_loop_terminates fuel d total :
  Cursor d < zlen (History d) -> (Z.to_nat (Cursor d) <= fuel)%nat ->
  exists k, (k <= Z.to_nat (Cursor d))%nat /\
    prune_loop fuel d total = Some (take k (History d), with_history d (drop k (History d)) (Cursor d - Z.of_nat k)) /\
    prune_loop fuel d total = prune_loop (Z.to_nat (Cursor d)) d total /\
    drop k (History d) !! Z.to_nat (Cursor d - Z.of_nat k) = History d !! Z.to_nat (Cursor d).
Proof.
  assert (forall k, (k <= Z.to_nat (Cursor d))%nat -> drop k (History d) !! Z.to_nat (Cursor d - Z.of_nat k) = History d !! Z.to_nat (Cursor d)) as Hlook.
  { intros k Hk. rewrite lookup_drop. f_equal. lia. }
  intros Hc Hf. assert (exists k, (k <= Z.to_nat (Cursor d))%nat /\ forall fuel, (Z.to_nat (Cursor d) <= fuel)%nat ->
    prune_loop fuel d total = Some (take k (History d), with_history d (drop k (History d)) (Cursor d - Z.of_nat k))) as (k & Hk & Heq).
  { clear Hlook Hf fuel. remember (Z.to_nat (Cursor d)) as n eqn:En. revert d total En Hc. induction n as [|n IH]; intros d total En Hc.
    - exists 0%nat. split; [lia|]. intros fuel _. assert ((0 <? Cursor d) = false) as Hlt by (apply Z.ltb_ge; lia).
      destruct fuel; cbn [prune_loop]; rewrite Hlt, andb_false_r, Z.sub_0_r, drop_0; by rewrite with_history_same.
    - destruct (History d) as [|m l] eqn:Hh; [unfold zlen in Hc; cbn in Hc; lia|].
      assert (zlen (m :: l) = zlen l + 1) as Hz by (unfold zlen; cbn [length]; lia).
      destruct (IH (with_history d l (Cursor d - 1)) (sub64 total (man_Size m))) as (k & Hk & Heq);
        [cbn [Cursor with_history]; lia|cbn [Cursor History with_history]; lia|].
      destruct (((MaxSnapshots <? zlen (History d)) || (MaxDraftHistoryBytes <? total)) && (0 <? Cursor d)) eqn:E.
      + exists (S k). split; [lia|]. intros [|fuel] Hf; [lia|]. cbn [prune_loop]. rewrite E. unfold removeSnapshot. rewrite Hh.
        cbn [lookup list_lookup base.delete list_delete]. change (Z.of_nat 0) with 0. rewrite (proj2 (Z.ltb_lt 0 (Cursor d))) by lia.
        rewrite (Heq fuel ltac:(lia)). rewrite with_history_twice. cbn [take drop History Cursor with_history]. do 2 f_equal. f_equal. lia.
      + exists 0%nat. split; [lia|]. intros fuel _. destruct fuel; cbn [prune_loop]; rewrite E, Z.sub_0_r, drop_0, <- Hh; by rewrite with_history_same. }
  exists k. split_and!; [done|by apply Heq|by rewrite !Heq|by apply Hlook].
Qed.

End Histories.

(** ** Codecs *)

(** The texts of a draft record. *)
Definition manifest_texts (m : SnapshotManifest) : list string :=
  [man_ID m; man_Digest m; man_CreatedBy m; man_Summary m; man_OpID m].

Definition publication_texts (p : PublicationState) : list string :=
  [ps_Mode p; ps_TopologyTarget p; ps_TopologyAction p; ps_ExperimentTarget p; ps_ScenarioTarget p;
   ps_SnapshotID p; ps_Digest p; ps_DocumentID p; ps_PublishedBy p].

Definition forked_texts (f : ForkedPublication) : list string :=
  [fp_DocumentID f; fp_TopologyTarget f; fp_ExperimentTarget f].

Definition draft_texts (d : DraftMetadata) : list string :=
  [dm_ID d; dm_CreatedBy d; dm_Title d; dm_SourceToken d; dm_SourceFile d; dm_LastModifiedBy d;
   DocumentCreatedBy d; DocumentCreatedAt d] ++
  (History d ≫= manifest_texts) ++ (option_list (Publication d) ≫= publication_texts) ++ (option_list (Forked d) ≫= forked_texts).

Definition utf8 (l : list string) : Prop := Forall (fun s => valid_utf8 s = true) l.

Definition stamp_texts (p : Provenance) : list string :=
  [prov_CreatedBy p; prov_CreatedAt p; prov_UpdatedBy p; prov_UpdatedAt p].

(** What of a draft is stored: not its revision, nor the stamp of a call. *)
Definition persisted (d : DraftMetadata) : DraftMetadata := with_title (with_revision d 0) (dm_Title d) None.

(** What the service relies on of encoding/json and [time.Format]: strings of
    valid UTF-8 come back as they were, and decoding gives only such strings;
    a document that was decoded and is stamped, when it is valid and encodes,
    decodes to a valid document with the stamp; a time is formatted as one. *)
Class ServiceLaws `{Unicode, Libraries, PNG, Compression, ServiceJSON} : Prop := {
  unmarshal_marshal d v : marshal_draft d = Ok v -> utf8 (draft_texts d) -> unmarshal_draft v = Ok (persisted d);
  unmarshal_texts v d : unmarshal_draft v = Ok d -> utf8 (draft_texts d) /\ persisted d = d;
  decode_texts data doc : decode_document data = Ok doc -> utf8 (stamp_texts (provenance doc));
  decode_encode data0 doc0 p data :
    decode_document data0 = Ok doc0 -> utf8 (stamp_texts p) ->
    Validate list_order (SetProvenance doc0 p) = None -> encode_document (SetProvenance doc0 p) = Ok data ->
    exists doc, decode_document data = Ok doc /\ Validate list_order doc = None /\ Meta doc = Meta (SetProvenance doc0 p);
  FormatTime_ok t : int64 t -> IsTime (FormatTime t) = true;
}.

Section Codecs.
Context `{ServiceLaws}.

Lemma draft_ok_persisted key d : draft_ok key (persisted d) <-> draft_ok key d.
Proof. done. Qed.

(** The record of a draft that is right reads back as the draft. *)
Lemma decode_written d v (r : record) :
  encodeDraft d = Ok v -> bytes_of (Value r) = v -> utf8 (draft_texts d) -> draft_ok (Key r) d ->
  decodeDraft r = Ok (with_revision (persisted d) (Record.Revision r)).
Proof.
  unfold encodeDraft, decodeDraft. intros He Hv Ht Hd.
  destruct (marshal_draft d) as [v'|] eqn:Em; [|done]. destruct (_ <? _); [done|]. injection He as He. subst v'. rewrite Hv.
  rewrite (unmarshal_marshal d v Em Ht). cbn [decodeMetadata].
  assert (validateDraftMetadata (Key r) (persisted d) = Ok tt) as ->; [|done].
  by apply draft_metadata_ok, draft_ok_persisted.
Qed.

Lemma decode_draft_inv (r : record) d :
  decodeDraft r = Ok d ->
  draft_ok (Key r) d /\ dm_Revision d = Record.Revision r /\ Stamp d = None /\ utf8 (draft_texts d).
Proof.
  unfold decodeDraft. destruct (unmarshal_draft _) as [m|[]] eqn:E; cbn [decodeMetadata]; [|done..].
  rewrite bind_unit. intros [Hm%draft_metadata_ok [= <-]]. destruct (unmarshal_texts _ _ E) as [Ht Hp].
  split; [done|]. split; [done|]. split; [|done]. rewrite <- Hp. done.
Qed.

End Codecs.

(** ** Content *)

Section ContentLemmas.
Context `{Unicode} `{CompressionLaws}.

Lemma hex_digit_lower d : 0 <= d < 16 -> is_hex_lower (hex_digit d) = true.
Proof. unfold is_hex_lower, is_digit, in_range, hex_digit. destruct (Z.ltb_spec d 10); lia. Qed.

Lemma hex_encode_lower l : Forall (fun b => is_hex_lower b = true) (hex_encode l) /\ length (hex_encode l) = (2 * length l)%nat.
Proof.
  induction l as [|b l [IH IHl]]; [by split|]. unfold hex_encode in *. cbn [mbind list_bind]. rewrite length_app, IHl. cbn [length]. split; [|lia].
  pose proof (byte_Z_range b). apply Forall_app. split; [|done].
  repeat constructor; apply hex_digit_lower; [|zlia]. split; [zlia|]. apply Z.div_lt_upper_bound; lia.
Qed.

Lemma substring_all s : String.substring 0 (String.length s) s = s.
Proof. induction s as [|c s IH]; [done|]. cbn. by rewrite IH. Qed.

Lemma hex_value_lower b : is_hex_lower b = true -> is_Some (hex_value b) /\ ascii_lower b = b /\ 0 <= b < 128.
Proof.
  unfold is_hex_lower, hex_value, is_digit, ascii_lower, in_range. intros Hb.
  assert ((65 <=? b) && (b <=? 90) = false) as -> by lia.
  destruct ((48 <=? b) && (b <=? 57)) eqn:E1; [split; [eauto|lia]|].
  destruct ((97 <=? b) && (b <=? 102)) eqn:E2; [split; [eauto|lia]|]. by cbn in Hb.
Qed.

Lemma hex_decode_lower l n :
  Forall (fun b => is_hex_lower b = true) l -> length l = (2 * n)%nat -> is_Some (hex_decode l).
Proof.
  revert l. induction n as [|n IH]; intros l Hl Hn.
  - destruct l; [|cbn in Hn; lia]. by eexists.
  - destruct l as [|a [|b l]]; cbn in Hn; [lia..|]. rewrite !Forall_cons in Hl. destruct Hl as (Ha & Hb & Hl).
    destruct (hex_value_lower a Ha) as ([x Hx] & _), (hex_value_lower b Hb) as ([y Hy] & _).
    destruct (IH l Hl ltac:(lia)) as [r Hr]. cbn. rewrite Hx, Hy, Hr. by eexists.
Qed.

(** A digest the service makes is one it accepts. *)
Lemma IsDigest_digestOf data : IsDigest (digestOf data) = true.
Proof.
  unfold IsDigest, digestOf. set (l := hex_encode (Sum256 data)).
  destruct (hex_encode_lower (Sum256 data)) as [Hl Hn]. fold l in Hl, Hn. rewrite length_Sum256 in Hn.
  assert (Forall (fun b => 0 <= b < 256) l) as Hr.
  { eapply Forall_impl; [exact Hl|]. intros b (_ & _ & ?)%hex_value_lower. cbv beta. lia. }
  rewrite (proj2 (has_prefix_spec _ _)) by (by eexists). cbn zeta.
  assert (String.substring 7 (String.length (digestPrefix +:+ Z_string l) - 7) (digestPrefix +:+ Z_string l) = Z_string l) as ->.
  { change (String.substring 0 (String.length (Z_string l) - 0) (Z_string l) = Z_string l).
    rewrite Nat.sub_0_r. apply substring_all. }
  assert (String.length (Z_string l) = 64%nat) as Hlen.
  { rewrite <- length_bytes_Z, bytes_Z_string by done. lia. }
  rewrite Hlen. cbn [Nat.eqb digestHexLength negb orb].
  assert (ToLower (Z_string l) = Z_string l) as ->.
  { unfold ToLower, is_ascii. rewrite bytes_Z_string by done.
    assert (forallb (fun b => b <? 128) l = true) as ->.
    { apply forallb_Forall. eapply Forall_impl; [exact Hl|]. intros b (_ & _ & ?)%hex_value_lower. cbv beta. lia. }
    f_equal. rewrite <- (map_id l) at 2. apply map_ext_in. intros b Hin%list_elem_of_In.
    rewrite Forall_forall in Hl. by apply hex_value_lower, Hl. }
  rewrite String.eqb_refl. cbn [negb orb]. apply bool_decide_eq_true. rewrite bytes_Z_string by done.
  by apply (hex_decode_lower l 32).
Qed.

(** ** Reading what was written *)

(** Reading the content depends on its record alone. *)
Lemma readPayload_ext s s' kind id key m :
  Spec.recs s' !! (NamespaceContent, key) = Spec.recs s !! (NamespaceContent, key) ->
  readPayload s' kind id key m = readPayload s kind id key m.
Proof.
  intros Hr. unfold readPayload, tx_call, Spec.get, Spec.lookup. rewrite Hr. done.
Qed.

(** What is read has the digest and the size of the manifest. *)
Lemma readPayload_inv s kind id key m data :
  readPayload s kind id key m = Ok data -> digestOf data = man_Digest m /\ blen data = man_Size m.
Proof.
  unfold readPayload. rewrite bind_unit. intros [_ Hr]. destruct (fst _) as [r|e]; [|by destruct (is_store _ _)].
  cbn zeta in Hr. destruct (negb _) in Hr; [done|]. apply bind_ok in Hr as (x & Hx & Hr).
  destruct (String.eqb_spec (digestOf x) (man_Digest m)) as [He|]; [|done]. injection Hr as ->. split; [done|].
  unfold decompress in Hx. destruct (_ <? _) in Hx; [done|]. destruct (gunzip _) as [[[raw read_error] close_error]|]; [|done]. cbn zeta in Hx.
  destruct (if _ <=? _ then None else _) in Hx; [done|].
  destruct (Z.eqb_spec (blen (take (Z.to_nat (man_Size m + 1)) raw)) (man_Size m)) as [Hs|]; [|done]. cbn [negb] in Hx.
  destruct close_error; [done|]. by injection Hx as <-.
Qed.

(** The content that [buildPayload] made is read back whole. *)
Lemma readPayload_built s kind id key m data load r :
  buildPayload data = Ok load -> validateRecordNamespaceAndKey NamespaceContent key = Ok tt ->
  Spec.recs s !! (NamespaceContent, key) = Some r -> Value r = Some (load_compressed load) ->
  ValidID (man_ID m) = true ->
  man_Digest m = load_digest load -> man_Size m = load_size load -> man_CompressedSize m = blen (load_compressed load) ->
  readPayload s kind id key m = Ok data /\ manifest_ok m.
Proof.
  unfold buildPayload. intros Hb Hkey Hr Hv Hid Hdig Hsize Hcomp.
  destruct (Z.ltb_spec MaxDocumentBytes (blen data)) as [|Hmax]; [done|].
  destruct (gzip data) as [z|] eqn:Ez; [|done]. destruct (Z.ltb_spec MaxCompressedBytes (blen z)) as [|Hz]; [done|].
  injection Hb as <-. cbn in *. destruct (gunzip_gzip data z Ez) as [Hg Hne].
  assert (0 < blen z) as Hpos by (unfold blen; destruct z; cbn; [done|lia]).
  assert (0 <= blen data) as Hnn by (unfold blen; lia).
  assert (manifest_ok m) as Hm.
  { unfold manifest_ok. rewrite Hdig, Hsize, Hcomp, IsDigest_digestOf. split_and!; done || lia. }
  split; [|done]. unfold readPayload, tx_call, Spec.get, Spec.lookup. rewrite (proj2 (manifest_shape kind id m Hid) Hm).
  cbn [res_bind]. rewrite Hkey. cbn [res_bind]. rewrite Hr. cbn [fst res_map_err]. rewrite Hv. change (bytes_of (Some z)) with z.
  rewrite Hcomp, Z.eqb_refl. cbn [negb]. unfold decompress. rewrite Hsize.
  rewrite (proj2 (Z.ltb_ge MaxDocumentBytes (blen data)) Hmax), Hg.
  rewrite (proj2 (Z.leb_gt (blen data + 1) (blen data)) ltac:(lia)). cbn match.
  assert (take (Z.to_nat (blen data + 1)) data = data) as -> by (apply take_ge; unfold blen; lia).
  rewrite Z.eqb_refl. cbn [negb res_bind]. by rewrite Hdig, String.eqb_refl.
Qed.

End ContentLemmas.
