(* ===== verification/DraftStore.v ===== *)
(** * What a transaction of the service does to the store

    The effects of the pieces of a transaction: what it writes, what it drops,
    and what it leaves alone. A transaction on one draft touches the record of
    that draft and the content under its prefix ([own]), nothing else. *)

From Stdlib Require Import ZArith Lia Ascii String Strings.Byte.
From stdpp Require Import base option list gmap strings sorting.
From S2P Require Import Prelude Record RecordSpec Text Codes Document Checks Layers Icons Validate Drafts Content DraftService DraftSpec.

Open Scope Z_scope.
Open Scope go_scope.

(** ** Steps that keep the store in order *)

Definition steady {A} (m : st Spec.state serror A) : Prop :=
  forall s, Spec.wf s -> Spec.wf (snd (m s)) /\ later s (snd (m s)).

Lemma steady_ret {A} (a : A) : steady (st_ret a).
Proof. intros s Hs. by split. Qed.

Lemma steady_bind {A B} (m : st Spec.state serror A) (k : A -> st Spec.state serror B) :
  steady m -> (forall a, steady (k a)) -> steady (let! a := m in k a).
Proof.
  intros Hm Hk s Hs. unfold st_bind. destruct (Hm s Hs) as [Hw Hl]. destruct (m s) as [[a|e] s']; [|done].
  destruct (Hk a s' Hw) as [Hw' Hl']. split; [done|]. by etransitivity.
Qed.

Lemma steady_map_err {A} f (m : st Spec.state serror A) : steady m -> steady (map_err f m).
Proof. intros Hm s Hs. unfold map_err. specialize (Hm s Hs). by destruct (m s). Qed.

Lemma tx_call_snd {A} (m : st Spec.state error A) s : snd (tx_call m s) = snd (m s).
Proof. unfold tx_call. by destruct (m s). Qed.

(** Each operation of the store is a step of [RecordSpec]. *)
Lemma steady_op {A} (m : st Spec.state error A) o :
  (forall s, snd (m s) = snd (Spec.run o s)) -> steady (tx_call m).
Proof. intros Ho s Hs. rewrite tx_call_snd, Ho. by apply run_wf_later. Qed.

Lemma steady_create now ns k v : steady (tx_call (Spec.create now ns k v)).
Proof. apply (steady_op _ (CreateRecord now ns k v)). intros s. symmetry. apply st_ret_snd. Qed.

Lemma steady_update now ns k v x : steady (tx_call (Spec.update now ns k v x)).
Proof. apply (steady_op _ (UpdateRecord now ns k v x)). intros s. symmetry. apply st_ret_snd. Qed.

Lemma steady_delete ns k x : steady (tx_call (Spec.delete ns k x)).
Proof. apply (steady_op _ (DeleteRecord ns k x)). intros s. symmetry. apply (st_ret_snd (Spec.delete ns k x) (fun _ => ADone)). Qed.

Lemma steady_delete_prefix ns p : steady (tx_call (Spec.delete_prefix ns p)).
Proof. apply (steady_op _ (DeleteRecordPrefix ns p)). intros s. symmetry. apply st_ret_snd. Qed.

Lemma steady_putContent time key load : steady (putContent time key load).
Proof.
  intros s Hs. unfold putContent.
  destruct (steady_create (time NamespaceContent key) NamespaceContent key (Some (load_compressed load)) s Hs) as [Hw Hl].
  destruct (tx_call (Spec.create _ _ _ _) s) as [[r|e] s']; [done|]. cbn [snd] in *.
  destruct (is_store e ErrRecordExist); [|done].
  destruct (steady_update (time NamespaceContent key) NamespaceContent key (Some (load_compressed load)) AnyRevision s' Hw) as [Hw' Hl'].
  destruct (tx_call _ s') as [[r|e'] s'']; (split; [done|by etransitivity]).
Qed.

Lemma steady_dropContent key : steady (dropContent key).
Proof.
  intros s Hs. unfold dropContent. pose proof (steady_delete NamespaceContent key AnyRevision s Hs) as Hd.
  destruct (tx_call _ s) as [[r|e] s']; [done|]. by destruct (is_store e ErrRecordNotExist).
Qed.

Lemma steady_dropSnapshots id dropped : steady (dropSnapshots id dropped).
Proof.
  induction dropped as [|m l IH]; [apply steady_ret|]. apply steady_bind; [apply steady_dropContent|done].
Qed.

Create HintDb service.
#[export] Hint Resolve steady_ret steady_bind steady_map_err steady_create steady_update steady_delete
  steady_delete_prefix steady_putContent steady_dropContent steady_dropSnapshots : service.

Lemma steady_txn {A} e (f : st Spec.state serror A) : steady f -> steady (RecordTxn e f).
Proof.
  intros Hf s Hs. unfold RecordTxn. specialize (Hf s Hs). destruct (f s) as [[a|err] s']; [|by split].
  destruct (commit e); [by split|done].
Qed.

#[export] Hint Resolve steady_txn : service.

(** ** Effects *)

Lemma create_inv now ns k v s r s' :
  Spec.create now ns k v s = (Ok r, s') ->
  validateRecordNamespaceAndKey ns k = Ok tt /\ Spec.recs s !! (ns, k) = None /\
  Namespace r = ns /\ Key r = k /\ Value r = Some (bytes_of v) /\ Record.Revision r = Spec.rev s + 1 /\ Updated r = now /\
  s' = Spec.write r s.
Proof.
  unfold Spec.create. destruct (validateRecordNamespaceAndKey ns k) as [[]|]; [|done].
  destruct (Spec.recs s !! (ns, k)) eqn:E; [done|]. intros [= <- <-]. done.
Qed.

Lemma update_inv now ns k v x s r s' :
  Spec.update now ns k v x s = (Ok r, s') ->
  exists old, validateRecordNamespaceAndKey ns k = Ok tt /\ Spec.recs s !! (ns, k) = Some old /\
  (x = AnyRevision \/ x = Record.Revision old) /\
  Namespace r = ns /\ Key r = k /\ Value r = Some (bytes_of v) /\ Record.Revision r = Spec.rev s + 1 /\
  Created r = Created old /\ Updated r = now /\ s' = Spec.write r s.
Proof.
  unfold Spec.update, Spec.lookup, checkRecordRevision. destruct (validateRecordNamespaceAndKey ns k) as [[]|]; [|done].
  cbn [res_bind]. destruct (Spec.recs s !! (ns, k)) as [old|] eqn:E; [|done]. cbn [res_bind].
  destruct ((x =? AnyRevision) || (x =? Record.Revision old)) eqn:Ex; [|done]. intros [= <- <-]. exists old.
  apply orb_true_iff in Ex. rewrite !Z.eqb_eq in Ex. done.
Qed.

Lemma tx_call_ok {A} (m : st Spec.state error A) s a s' : tx_call m s = (Ok a, s') <-> m s = (Ok a, s').
Proof. unfold tx_call. destruct (m s) as [[x|e] s1]; cbn; naive_solver. Qed.

Lemma map_err_ok {A} f (m : st Spec.state serror A) s a s' : map_err f m s = (Ok a, s') <-> m s = (Ok a, s').
Proof. unfold map_err. destruct (m s) as [[x|e] s1]; cbn; naive_solver. Qed.

Lemma st_bind_ok {S E A B} (m : st S E A) (k : A -> st S E B) s b s' :
  (let! a := m in k a) s = (Ok b, s') <-> exists a s1, m s = (Ok a, s1) /\ k a s1 = (Ok b, s').
Proof. unfold st_bind. destruct (m s) as [[x|e] s1]; naive_solver. Qed.

Lemma txn_ok {A} e (f : st Spec.state serror A) s a s' :
  RecordTxn e f s = (Ok a, s') <-> f s = (Ok a, s') /\ commit e = None.
Proof. unfold RecordTxn. destruct (f s) as [[x|err] s1]; [destruct (commit e)|]; naive_solver. Qed.

(** A transaction that fails changes nothing. *)
Lemma txn_err {A} e (f : st Spec.state serror A) s err s' : RecordTxn e f s = (Err err, s') -> s' = s.
Proof. unfold RecordTxn. destruct (f s) as [[x|?] s1]; [destruct (commit e)|]; naive_solver. Qed.

(** [putContent] leaves the record of the key with the compressed document. *)
Lemma putContent_inv time key load s s' :
  putContent time key load s = (Ok tt, s') ->
  validateRecordNamespaceAndKey NamespaceContent key = Ok tt /\
  exists r, Spec.recs s' = <[ (NamespaceContent, key) := r ]> (Spec.recs s) /\ Value r = Some (load_compressed load) /\
    Updated r = time NamespaceContent key /\ Record.Revision r = Spec.rev s + 1.
Proof.
  unfold putContent. destruct (tx_call (Spec.create _ _ _ _) s) as [[r|e] s1] eqn:E1.
  - apply tx_call_ok, create_inv in E1 as (Hk & _ & Hns & Hkey & Hv & ? & Hu & ->). intros [= <-]. split; [done|].
    exists r. cbn. by rewrite Hns, Hkey.
  - destruct (is_store e ErrRecordExist) eqn:Ex; [|done].
    assert (s1 = s) as ->.
    { unfold tx_call, Spec.create in E1. destruct (validateRecordNamespaceAndKey _ _); [|by simplify_eq/=].
      destruct (Spec.recs s !! _); by simplify_eq/=. }
    destruct (tx_call (Spec.update _ _ _ _ _) s) as [[r|e'] s2] eqn:E2; [|done].
    apply tx_call_ok, update_inv in E2 as (old & Hk & _ & _ & Hns & Hkey & Hv & ? & _ & Hu & ->). intros [= <-].
    split; [done|]. exists r. cbn. by rewrite Hns, Hkey.
Qed.

Lemma dropContent_inv key s s' :
  dropContent key s = (Ok tt, s') -> Spec.recs s' = base.delete (NamespaceContent, key) (Spec.recs s).
Proof.
  unfold dropContent, tx_call, Spec.delete, Spec.lookup.
  destruct (validateRecordNamespaceAndKey _ _) as [[]|e] eqn:Ev; cbn [res_bind].
  - destruct (Spec.recs s !! (NamespaceContent, key)) as [old|] eqn:E; cbn [res_bind].
    + unfold checkRecordRevision, AnyRevision. cbn. intros [= <-]. done.
    + cbn [res_map_err]. destruct (is_store _ _); [|done]. intros [= <-]. by rewrite delete_id.
  - cbn [res_map_err]. assert (is_store (SRaw e) ErrRecordNotExist = false) as ->; [|done].
    unfold validateRecordNamespaceAndKey in Ev. destruct (ValidateRecordNamespace NamespaceContent) as [[]|e'] eqn:En; [|done].
    cbn [res_bind] in Ev. unfold ValidateRecordKey, validateRecordKeyOrPrefix in Ev. destruct key; [by simplify_eq/=|].
    repeat case_match; by simplify_eq/=.
Qed.

(** Dropping snapshots removes their content and nothing else. *)
Lemma dropSnapshots_inv id dropped s s' :
  dropSnapshots id dropped s = (Ok tt, s') ->
  forall ns k, Spec.recs s' !! (ns, k) =
    if decide (ns = NamespaceContent /\ k ∈ ((fun m => snapshotKey id (man_ID m)) <$> dropped)) then None else Spec.recs s !! (ns, k).
Proof.
  revert s. induction dropped as [|m l IH]; intros s; cbn [dropSnapshots].
  - intros [= <-] ns k. rewrite decide_False; [done|]. by intros [_ ?%elem_of_nil].
  - rewrite st_bind_ok. intros ([] & s1 & Hd%dropContent_inv & Hl) ns k. rewrite (IH s1 Hl ns k), Hd. cbn [fmap list_fmap].
    destruct (decide (ns = NamespaceContent /\ k ∈ _)) as [[-> Hin]|Hn].
    + rewrite decide_True; [done|]. split; [done|]. apply elem_of_cons. by right.
    + destruct (decide ((ns, k) = (NamespaceContent, snapshotKey id (man_ID m)))) as [[= -> ->]|Hne].
      * rewrite lookup_delete_eq, decide_True; [done|]. split; [done|]. apply elem_of_cons. by left.
      * rewrite lookup_delete_ne by done. rewrite decide_False; [done|]. intros [-> [->|Hin]%elem_of_cons]; [done|]. by apply Hn.
Qed.

Lemma map_txn_err {A} e g (f : st Spec.state serror A) s err s' : map_err g (RecordTxn e f) s = (Err err, s') -> s' = s.
Proof.
  unfold map_err. destruct (RecordTxn e f s) as [r s1] eqn:E. intros Hr. injection Hr as Hr <-.
  destruct r; [done|]. by eapply txn_err.
Qed.
