(* ===== verification/DraftWrites.v ===== *)
(** * The invariant of the draft service

    [drafts_whole]: every snapshot of every draft that reads back is in the
    store, with its digest, and is a valid document. What a write of a draft
    does when it succeeds ([draft_write_ok]): whatever other calls did in between,
    it replaces the draft that was read, and the record reads back. *)

From Stdlib Require Import ZArith Lia Ascii String Strings.Byte.
From stdpp Require Import base option list gmap strings sorting.
From S2P Require Import Prelude Record RecordSpec Text Codes Document Checks Layers Icons Validate Parents ValidateSpec EdgeSpec DocumentSpec.
From S2P Require Import Drafts Content DraftService DraftSpec DraftStore.

Open Scope Z_scope.
Open Scope go_scope.

Section Theorems.
Context `{ServiceLaws} `{!CompressionLaws}.

(** ** Stamping a document *)

Lemma text_line_of_text_ok limit required t : text_ok limit required t -> text_line_ok limit t \/ t = "".
Proof. intros [[-> _]|(_ & Hl & _ & Hr)]; [by right|by left]. Qed.

Lemma text_line_empty limit : 0 <= limit -> text_line_ok limit "".
Proof. intros Hl. split; [done|constructor]. Qed.

Lemma user_of_text_ok required t : text_ok MaxOwnerLength required t -> text_line_ok MaxUserBytes t.
Proof. intros [?| ->]%text_line_of_text_ok; [done|by apply text_line_empty]. Qed.

Definition stamp_ok (p : Provenance) : Prop :=
  text_line_ok MaxUserBytes (prov_CreatedBy p) /\ time_ok (prov_CreatedAt p) /\
  text_line_ok MaxUserBytes (prov_UpdatedBy p) /\ time_ok (prov_UpdatedAt p).

Lemma order_perm : list_order ≡ₚ ["nodes"; "networks"; "edges"].
Proof. done. Qed.

Lemma validate_none d : Validate list_order d = None <-> document_ok d.
Proof. rewrite <- (all_issues_nil list_order d order_perm). unfold Validate. by destruct (all_issues list_order d). Qed.

(** Stamping a valid document with a good stamp leaves it valid. *)
Lemma stamped_valid d p :
  Validate list_order d = None -> stamp_ok p -> Validate list_order (SetProvenance d p) = None.
Proof.
  rewrite !validate_none. intros (Hh & Hrest) (U1 & U2 & U3 & U4). split; [|exact Hrest].
  destruct Hh as (? & ? & Hm & Hh). split; [done|]. split; [done|]. split; [|exact Hh].
  destruct Hm as (? & ? & _ & _ & _ & _ & ? & ?). unfold metadata_ok. cbn. tauto.
Qed.

(** A valid document is stamped well. *)
Lemma valid_stamp d : Validate list_order d = None -> stamp_ok (provenance d).
Proof. rewrite validate_none. intros ((_ & _ & Hm & _) & _). by destruct Hm as (_ & _ & ? & ? & ? & ? & _). Qed.

(** ** The invariant *)

(** The snapshot is in the store, whole, and is a valid document. *)
Definition holds (s : Spec.state) (id : string) (m : SnapshotManifest) : Prop :=
  exists data doc, readPayload s kindSnapshot (man_ID m) (snapshotKey id (man_ID m)) m = Ok data /\ Parse data = Ok doc.

(** The draft as it is stored. *)
Definition draft_at (s : Spec.state) (id : string) (d : DraftMetadata) : Prop :=
  exists r, Spec.recs s !! (NamespaceDrafts, id) = Some r /\ decodeDraft r = Ok d.

Definition drafts_whole (s : Spec.state) : Prop :=
  forall id d, draft_at s id d -> Forall (holds s id) (History d).

(** What a call on the draft may touch. *)
Definition own (id ns k : string) : Prop :=
  (ns = NamespaceDrafts /\ k = id) \/ (ns = NamespaceContent /\ has_prefix k (draftContentPrefix id) = true).

Definition only (id : string) (s s' : Spec.state) : Prop :=
  forall ns k, ~ own id ns k -> Spec.recs s' !! (ns, k) = Spec.recs s !! (ns, k).

#[export] Instance only_preorder id : PreOrder (only id).
Proof.
  split; [by intros s ns k|]. intros s1 s2 s3 O1 O2 ns k Hn. by rewrite O2, O1.
Qed.

Lemma holds_ext s s' id m :
  Spec.recs s' !! (NamespaceContent, snapshotKey id (man_ID m)) = Spec.recs s !! (NamespaceContent, snapshotKey id (man_ID m)) ->
  holds s id m -> holds s' id m.
Proof. intros He (data & doc & Hr & Hp). exists data, doc. by rewrite (readPayload_ext s s' _ _ _ _ He). Qed.

Lemma draft_at_valid s id d : Spec.wf s -> draft_at s id d -> ValidID id = true /\ draft_ok id d /\ utf8 (draft_texts d).
Proof.
  intros (_ & Hw & _) (r & Hr & Hd). apply Hw in Hr as (_ & <- & _). apply decode_draft_inv in Hd as (Hok & _ & _ & Ht).
  split; [apply Hok|done].
Qed.

Lemma draft_at_unique s id d d' : draft_at s id d -> draft_at s id d' -> d = d'.
Proof. intros (r & Hr & Hd) (r' & Hr' & Hd'). congruence. Qed.

(** A call on one draft leaves the others as they were. *)
Lemma whole_update id s s' :
  ValidID id = true -> Spec.wf s' -> only id s s' -> drafts_whole s ->
  (forall d, draft_at s' id d -> Forall (holds s' id) (History d)) -> drafts_whole s'.
Proof.
  intros Hid Hw Ho Hs Hd id' d Hat. destruct (decide (id' = id)) as [->|Hne]; [by apply Hd|].
  destruct (draft_at_valid s' id' d Hw Hat) as (Hid' & _). destruct Hat as (r & Hr & Hdec).
  assert (draft_at s id' d) as Hat.
  { exists r. split; [|done]. rewrite <- Ho; [done|]. by intros [[_ ?]|[? _]]. }
  eapply Forall_impl; [exact (Hs id' d Hat)|]. intros m. apply holds_ext, Ho.
  intros [[? _]|[_ Hp]]; [done|]. by apply snapshotKey_prefix in Hp.
Qed.

(** The content under the key was written after [s]. *)
Definition newer (s s' : Spec.state) (key : string) : Prop :=
  exists r, Spec.recs s' !! (NamespaceContent, key) = Some r /\ Spec.rev s < Record.Revision r.

(** What a call may rely on: the store it reads is in order, and so is the one
    it writes to, which comes after it. Every interleaving gives that
    ([DraftTrace]). *)
Definition in_order (e : env) (s : Spec.state) : Prop :=
  Spec.wf s /\ Spec.wf (between e s) /\ later s (between e s) /\ drafts_whole (between e s).

(** ** The reads *)

Lemma GetDraft_inv e n s id d : GetDraft_at e n s id = Ok d -> draft_at s id d /\ ValidID id = true.
Proof.
  unfold GetDraft_at. rewrite !bind_unit. intros (_ & Hid%guard_ok & Hr). split; [|done].
  unfold getRecord, tx_call, Spec.get, Spec.lookup in Hr.
  destruct (validateRecordNamespaceAndKey NamespaceDrafts id) as [[]|]; cbn in Hr; [|done].
  destruct (Spec.recs s !! (NamespaceDrafts, id)) as [r|] eqn:E; cbn in Hr; [|done]. by exists r.
Qed.

(** The record at the revision that was read is the record that was read. *)
Lemma same_draft s s1 id d r1 :
  Spec.wf s -> later s s1 -> draft_at s id d -> Spec.recs s1 !! (NamespaceDrafts, id) = Some r1 ->
  (dm_Revision d = AnyRevision \/ dm_Revision d = Record.Revision r1) -> draft_at s1 id d.
Proof.
  intros Hw Hl (r & Hr & Hd) Hr1 Hrev. pose proof (decode_draft_inv _ _ Hd) as (_ & Heq & _).
  assert (0 < Record.Revision r) as Hpos by (destruct Hw as (_ & Hw & _); by apply Hw in Hr as (_ & _ & [? _] & _)).
  unfold AnyRevision in Hrev. destruct Hrev as [?|Hrev]; [lia|].
  destruct (revision_names_write s s1 _ _ r r1 Hw Hl Hr Hr1) as [_ <-]; [congruence|]. by exists r.
Qed.

(** ** The write *)

(** What [writeDraft] and [writeDraftTxn] do when they succeed. *)
Definition writes (s1 s2 : Spec.state) (updated m' : DraftMetadata) (value : list byte) (expected : Z)
    (also : st Spec.state serror unit) : Prop :=
  exists s1' old r, also s1 = (Ok tt, s1') /\ Spec.recs s1' !! (NamespaceDrafts, dm_ID updated) = Some old /\
    (expected = AnyRevision \/ expected = Record.Revision old) /\
    Namespace r = NamespaceDrafts /\ Key r = dm_ID updated /\ Value r = Some value /\
    Record.Revision r = Spec.rev s1' + 1 /\ m' = with_revision updated (Record.Revision r) /\ s2 = Spec.write r s1'.

Lemma writeDraftTxn_inv e updated value expected also s1 m' s2 :
  writeDraftTxn e updated value expected also s1 = (Ok m', s2) -> writes s1 s2 updated m' value expected also.
Proof.
  unfold writeDraftTxn. rewrite map_err_ok, txn_ok, st_bind_ok.
  intros (([] & s1' & Ha & Hu) & _). apply st_bind_ok in Hu as (r & s3 & Hu%map_err_ok%tx_call_ok & [= <- <-]).
  apply update_inv in Hu as (old & _ & Hold & Hx & Hns & Hk & Hv & Hrev & _ & _ & ->). by exists s1', old, r.
Qed.

Lemma writeDraft_inv e updated value expected s1 m' s2 :
  writeDraft e updated value expected s1 = (Ok m', s2) -> writes s1 s2 updated m' value expected (st_ret tt).
Proof.
  unfold writeDraft. rewrite st_bind_ok. intros (r & s3 & Hu & [= <- <-]).
  apply map_err_ok, txn_ok in Hu as [Hu%tx_call_ok _].
  apply update_inv in Hu as (old & _ & Hold & Hx & Hns & Hk & Hv & Hrev & _ & _ & ->). by exists s1, old, r.
Qed.

Lemma writeDraft_err e updated value expected s1 err s2 :
  writeDraft e updated value expected s1 = (Err err, s2) -> s2 = s1.
Proof.
  unfold writeDraft, st_bind. destruct (map_err _ _ s1) as [[r|e'] s3] eqn:E; [done|]. intros [= _ <-]. by eapply map_txn_err.
Qed.

(** The draft of a write that succeeded is the one that was read, nobody else
    changed it, and it reads back as it was written; if what the transaction
    does besides keeps the snapshots of the new history, all drafts stay
    whole. *)
Lemma draft_write_ok s s1 s2 d updated m' value also :
  Spec.wf s -> later s s1 -> Spec.wf s1 -> drafts_whole s1 -> steady also ->
  draft_at s (dm_ID updated) d -> draft_ok (dm_ID updated) updated -> utf8 (draft_texts updated) -> encodeDraft updated = Ok value ->
  writes s1 s2 updated m' value (dm_Revision d) also ->
  (forall s1', also s1 = (Ok tt, s1') ->
     (forall k, Spec.recs s1' !! (NamespaceDrafts, k) = Spec.recs s1 !! (NamespaceDrafts, k)) /\
     only (dm_ID updated) s1 s1' /\
     (Forall (holds s1 (dm_ID updated)) (History d) -> Forall (holds s1' (dm_ID updated)) (History updated))) ->
  draft_at s1 (dm_ID updated) d /\
  draft_at s2 (dm_ID updated) (with_revision (persisted updated) (dm_Revision m')) /\
  (exists rev, m' = with_revision updated rev /\ Spec.rev s1 < rev) /\ drafts_whole s2 /\ only (dm_ID updated) s1 s2 /\
  (forall s1' k, also s1 = (Ok tt, s1') -> Spec.recs s2 !! (NamespaceContent, k) = Spec.recs s1' !! (NamespaceContent, k)).
Proof.
  intros Hw Hl Hw1 Hwhole Hsteady Hread Hok Ht Henc Hwr Halso.
  destruct Hwr as (s1' & old & r & Ha & Hold & Hx & Hns & Hk & Hv & Hrev & -> & ->).
  destruct (Halso s1' Ha) as (Hdr & Honly & Hholds). rewrite Hdr in Hold.
  pose proof (same_draft s s1 _ d old Hw Hl Hread Hold Hx) as Hsame.
  assert (decodeDraft r = Ok (with_revision (persisted updated) (Record.Revision r))) as Hdec.
  { apply (decode_written updated value); [done|by rewrite Hv|done|by rewrite Hk]. }
  assert (forall k, Spec.recs (Spec.write r s1') !! (NamespaceContent, k) = Spec.recs s1' !! (NamespaceContent, k)) as Hcont.
  { intros k. cbn. rewrite Hns. apply lookup_insert_ne. by intros [=]. }
  assert (draft_at (Spec.write r s1') (dm_ID updated) (with_revision (persisted updated) (Record.Revision r))) as Hat.
  { exists r. split; [|done]. cbn. by rewrite Hns, Hk, lookup_insert_eq. }
  split; [done|]. split; [done|].
  split; [eexists; split; [done|]; destruct (Hsteady s1 Hw1) as [_ [Hle _]]; rewrite Ha in Hle; cbn in Hle; lia|].
  assert (only (dm_ID updated) s1 (Spec.write r s1')) as Hall.
  { etransitivity; [exact Honly|]. intros ns k Hn. cbn. apply lookup_insert_ne. rewrite Hns, Hk. intros [= <- <-]. apply Hn. by left. }
  split; [|split; [done|intros s3 k Ha'; rewrite Ha in Ha'; by simplify_eq]].
  apply (whole_update (dm_ID updated) s1); [apply Hok| |done|done|].
  - destruct (Hsteady s1 Hw1) as [Hw' _]. rewrite Ha in Hw'. cbn in Hw'. destruct r as [ns k v rev c u]. cbn in *. subst.
    by apply (wf_write s1' NamespaceDrafts (dm_ID updated) (Some value) c u).
  - intros d' Hat'. rewrite (draft_at_unique _ _ _ _ Hat' Hat). cbn.
    eapply Forall_impl; [apply Hholds, (Hwhole _ d Hsame)|]. intros m. apply holds_ext, Hcont.
Qed.

(** ** The parts of a call *)

Lemma manifest_of_inv e n load actor summary now op m :
  manifest_of e n load actor summary now op = Ok m ->
  new_id e n = Ok (man_ID m) /\ ValidID (man_ID m) = true /\ man_Digest m = load_digest load /\ man_Size m = load_size load /\
  man_CompressedSize m = blen (load_compressed load) /\ man_CreatedBy m = actor /\ man_Summary m = summary /\ man_OpID m = op.
Proof.
  unfold manifest_of, newID. destruct (new_id e n) as [id|]; [|done]. cbn [res_bind]. rewrite bind_unit.
  by intros [Hid%guard_ok [= <-]].
Qed.

Lemma parseDocument_inv data doc : parseDocument data = Ok doc -> Parse data = Ok doc.
Proof.
  unfold parseDocument. destruct (_ =? _); [done|]. destruct (_ <? _); [done|]. by destruct (Parse data) as [?|?]; intros [= <-].
Qed.

Lemma Parse_inv data doc : Parse data = Ok doc -> decode_document data = Ok doc /\ Validate list_order doc = None.
Proof.
  unfold Parse. rewrite bind_ok. intros (d & Hd & Hv). by destruct (Validate list_order d) eqn:E; simplify_eq.
Qed.

Lemma documentTitle_inv doc fallback title : documentTitle doc fallback = Ok title ->
  text_ok MaxTitleLength false title /\ title = if String.eqb (meta_Name (Meta doc)) "" then fallback else meta_Name (Meta doc).
Proof. unfold documentTitle. cbn zeta. rewrite bind_unit, validateText_ok. by intros [? [= <-]]. Qed.

Lemma encodeDocument_inv doc data : encodeDocument doc = Ok data -> encode_document doc = Ok data /\ blen data <= MaxDocumentBytes.
Proof.
  unfold encodeDocument. destruct (encode_document doc) as [c|]; [|done].
  destruct (Z.ltb_spec MaxDocumentBytes (blen c)); [done|]. by intros [= <-].
Qed.

Lemma SetProvenance_id doc : SetProvenance doc (provenance doc) = doc.
Proof. by destruct doc as [? ? [] ?]. Qed.

(** A document that is stamped well is stored as a valid one with the stamp. *)
Lemma stored_stamped data doc p canonical :
  decode_document data = Ok doc -> Validate list_order doc = None -> stamp_ok p -> utf8 (stamp_texts p) ->
  encode_document (SetProvenance doc p) = Ok canonical ->
  exists stored, Parse canonical = Ok stored /\ Meta stored = Meta (SetProvenance doc p).
Proof.
  intros Hdec Hval Hp Hu Hc. destruct (decode_encode data doc p canonical Hdec Hu (stamped_valid _ _ Hval Hp) Hc) as (stored & Hds & Hvs & Hms).
  exists stored. unfold Parse. rewrite Hds. cbn [res_bind]. by rewrite Hvs.
Qed.

(** ** UTF-8 *)

Lemma digest_utf8 d : IsDigest d = true -> valid_utf8 d = true.
Proof.
  unfold IsDigest. destruct (has_prefix d digestPrefix) eqn:Ep; [|done]. cbn zeta.
  apply has_prefix_spec in Ep as [r ->].
  assert (String.substring 7 (String.length (digestPrefix +:+ r) - 7) (digestPrefix +:+ r) = r) as ->.
  { change (String.substring 0 (String.length r - 0) r = r). rewrite Nat.sub_0_r. apply substring_all. }
  destruct (_ || _); [done|]. intros Hh%bool_decide_eq_true%hex_decode_some. destruct Hh as [_ Hh%forallb_Forall].
  apply ascii_utf8. rewrite bytes_Z_app. apply Forall_app. split; [by apply (bool_decide_unpack _)|].
  eapply Forall_impl; [exact Hh|]. intros b. cbv beta. unfold is_hex, is_digit, in_range. lia.
Qed.

Lemma utf8_app l l' : utf8 (l ++ l') <-> utf8 l /\ utf8 l'.
Proof. unfold utf8. by rewrite Forall_app. Qed.

Lemma utf8_cons x l : utf8 (x :: l) <-> valid_utf8 x = true /\ utf8 l.
Proof. unfold utf8. by rewrite Forall_cons. Qed.

Lemma utf8_bind {A} (f : A -> list string) l : utf8 (l ≫= f) <-> Forall (fun x => utf8 (f x)) l.
Proof.
  unfold utf8. induction l as [|x l IH]; cbn; [done|]. by rewrite Forall_app, Forall_cons, IH.
Qed.

(** The texts of a draft, group by group. *)
Lemma utf8_draft d :
  utf8 (draft_texts d) <->
  utf8 [dm_ID d; dm_CreatedBy d; dm_Title d; dm_SourceToken d; dm_SourceFile d; dm_LastModifiedBy d; DocumentCreatedBy d; DocumentCreatedAt d] /\
  Forall (fun m => utf8 (manifest_texts m)) (History d) /\
  Forall (fun p => utf8 (publication_texts p)) (option_list (Publication d)) /\
  Forall (fun f => utf8 (forked_texts f)) (option_list (Forked d)).
Proof. unfold draft_texts. rewrite !utf8_app, !utf8_bind. tauto. Qed.

Lemma utf8_manifest m :
  manifest_ok m -> utf8 [man_CreatedBy m; man_Summary m; man_OpID m] -> utf8 (manifest_texts m).
Proof.
  intros (Hid & _ & _ & Hd). unfold manifest_texts. rewrite !utf8_cons. intros (? & ? & ? & _).
  split_and!; try done; [by apply ValidID_utf8|by apply digest_utf8|constructor].
Qed.

(** What a call writes as the last author of a draft is valid UTF-8. *)
Lemma utf8_stamped d actor now : utf8 (draft_texts d) -> valid_utf8 actor = true -> utf8 (draft_texts (stampDraft d actor now)).
Proof. rewrite !utf8_draft. cbn. rewrite !utf8_cons. tauto. Qed.

Lemma utf8_rehistoried d history cursor :
  utf8 (draft_texts d) -> Forall (fun m => utf8 (manifest_texts m)) history -> utf8 (draft_texts (with_history d history cursor)).
Proof. rewrite !utf8_draft. cbn. tauto. Qed.

Lemma is_time_utf8 t : time_ok t -> valid_utf8 t = true.
Proof.
  intros [->|Ht]; [done|]. unfold IsTime in Ht. rewrite !andb_true_iff in Ht.
  destruct Ht as [[[[[[[Hl Hd] Hp] _] _] _] _] _]. apply Nat.eqb_eq in Hl. apply ascii_utf8.
  set (l := bytes_Z t) in *. clearbody l. cbn [forallb] in Hd, Hp. rewrite !andb_true_iff in Hd, Hp.
  unfold is_digit, in_range in Hd. do 20 (destruct l as [|? l]; [done|]). destruct l; [|done]. cbn [nth] in *. repeat constructor; lia.
Qed.

Lemma optional_id_utf8 field id : validateOptionalID field id = Ok tt -> valid_utf8 id = true.
Proof.
  unfold validateOptionalID. destruct (String.eqb_spec id "") as [->|]; [done|]. intros Hv%guard_ok. by apply ValidID_utf8.
Qed.

End Theorems.
