(* ===== verification/DraftAppend.v ===== *)
(** * Saving a document

    [AppendSnapshot]: what a save that succeeds leaves in the store. *)

From Stdlib Require Import ZArith Lia Ascii String Strings.Byte.
From stdpp Require Import base option list gmap strings sorting.
From S2P Require Import Prelude Record RecordSpec Text Codes Document Checks Layers Icons Validate Parents ValidateSpec EdgeSpec DocumentSpec.
From S2P Require Import Drafts Content DraftService DraftSpec DraftStore DraftWrites.

Open Scope Z_scope.
Open Scope go_scope.

Section Append.
Context `{ServiceLaws} `{!CompressionLaws}.

(** ** Saving a document *)

Definition append_stamp (e : env) (req : AppendSnapshotRequest) (d : DraftMetadata) : Provenance := {|
  prov_CreatedBy := DocumentCreatedBy d; prov_CreatedAt := DocumentCreatedAt d;
  prov_UpdatedBy := ar_Actor req; prov_UpdatedAt := FormatTime (clock e) |}.

(** The history up to the cursor and the new snapshot: the redo branch goes. *)
Definition extended (d : DraftMetadata) (m : SnapshotManifest) : list SnapshotManifest :=
  take (Z.to_nat (Cursor d + 1)) (History d) ++ [m].

Definition append_draft (e : env) (req : AppendSnapshotRequest) (d : DraftMetadata) (title : string) (m : SnapshotManifest) : DraftMetadata :=
  with_title (stampDraft (with_history d (extended d m) (zlen (extended d m) - 1)) (ar_Actor req) (clock e))
    title (Some (append_stamp e req d)).

Lemma zlen_app {A} (l l' : list A) : zlen (l ++ l') = zlen l + zlen l'.
Proof. unfold zlen. rewrite length_app. lia. Qed.

Lemma length_extended d m key :
  draft_ok key d -> length (extended d m) = S (Z.to_nat (Cursor d + 1)) /\ zlen (extended d m) <= MaxSnapshots + 1.
Proof.
  intros (_ & _ & _ & _ & Hn & Hc & _). unfold extended, zlen in *. rewrite length_app, length_take. cbn [length].
  split; lia.
Qed.

Lemma manifests_extended d m key : draft_ok key d -> manifest_ok m -> Forall manifest_ok (extended d m).
Proof.
  intros (_ & _ & _ & _ & _ & _ & _ & _ & _ & Hm & _) Hok. unfold extended. apply Forall_app. split; [by apply Forall_take|by constructor].
Qed.

Lemma append_plan_inv e req s updated value revision load m dropped :
  append_plan e req s = Ok (updated, value, revision, load, m, dropped) ->
  exists d doc title canonical pruned,
    validateAppendRequest req = Ok tt /\ Parse (ar_Document req) = Ok doc /\
    draft_at s (ar_DraftID req) d /\ ValidID (ar_DraftID req) = true /\ revision = dm_Revision d /\
    documentTitle doc (dm_Title d) = Ok title /\
    encodeDocument (SetProvenance doc (append_stamp e req d)) = Ok canonical /\ buildPayload canonical = Ok load /\
    manifest_of e 0 load (ar_Actor req) (ar_Summary req) (clock e) (ar_OpID req) = Ok m /\
    pruneHistory (append_draft e req d title m) = Some (pruned, updated) /\
    dropped = drop (Z.to_nat (Cursor d + 1)) (History d) ++ pruned /\
    HistoryBytes updated <= MaxDraftHistoryBytes /\ encodeDraft updated = Ok value.
Proof.
  unfold append_plan, stampedSnapshot. rewrite !bind_unit. intros (_ & Hreq & Hp).
  apply bind_ok in Hp as (doc & Hdoc%parseDocument_inv & Hp). apply bind_ok in Hp as (d & Hd%GetDraft_inv & Hp).
  apply bind_unit in Hp as [_ Hp]. apply bind_ok in Hp as (title & Ht & Hp). cbn zeta in Hp.
  apply bind_ok in Hp as ([load' m'] & Hst & Hp).
  apply bind_ok in Hst as (canonical & Hc & Hst). apply bind_ok in Hst as (load'' & Hl & Hst).
  apply bind_ok in Hst as (m'' & Hm & [= -> ->]). change (prov_UpdatedBy _) with (ar_Actor req) in Hm.
  destruct (pruneHistory _) as [[pruned updated']|] eqn:Epr; [|done].
  destruct (Z.ltb_spec MaxDraftHistoryBytes (HistoryBytes updated')); [done|].
  apply bind_ok in Hp as (value' & Henc & [= <- <- <- <- <- <-]).
  exists d, doc, title, canonical, pruned. destruct Hd. done.
Qed.

(** An identifier that no snapshot of the draft has, nor its publication. *)
Definition fresh (id : string) (d : DraftMetadata) : Prop :=
  id ∉ man_ID <$> History d /\ forall p, Publication d = Some p -> ps_SnapshotID p <> id.

Lemma fresh_extended d m key :
  draft_ok key d -> fresh (man_ID m) d -> NoDup (man_ID <$> (History d ++ [m])).
Proof.
  intros (_ & _ & _ & _ & _ & _ & _ & _ & _ & _ & Hd & _) [Hf _]. rewrite fmap_app. apply NoDup_app.
  split; [done|]. split; [|apply NoDup_singleton]. intros x Hx Hin. apply Hf. cbn in Hin.
  apply (list_elem_of_singleton x (man_ID m)) in Hin as ->. done.
Qed.

(** What is appended reads back: the draft stays right, whatever is pruned. *)
Lemma appended_ok e req d title m load key data k :
  int64 (clock e) -> draft_ok key d -> utf8 (draft_texts d) -> text_ok MaxTitleLength false title ->
  validateAppendRequest req = Ok tt -> buildPayload data = Ok load ->
  manifest_of e 0 load (ar_Actor req) (ar_Summary req) (clock e) (ar_OpID req) = Ok m -> manifest_ok m -> fresh (man_ID m) d ->
  (k <= Z.to_nat (Cursor d + 1))%nat ->
  let updated := with_history (append_draft e req d title m) (drop k (extended d m)) (zlen (extended d m) - 1 - Z.of_nat k) in
  zlen (drop k (extended d m)) <= MaxSnapshots -> HistoryBytes updated <= MaxDraftHistoryBytes ->
  draft_ok key updated /\ utf8 (draft_texts updated).
Proof.
  intros Hclock Hok Ht Htitle Hreq Hload Hm Hmok Hfresh Hk updated Hn Hbytes.
  unfold validateAppendRequest in Hreq. rewrite !bind_unit, !validateText_ok in Hreq. destruct Hreq as (Hactor & Hop & Hsum).
  apply optional_id_utf8 in Hop.
  apply manifest_of_inv in Hm as (_ & Hid & _ & _ & _ & Hcb & Hsm & Hopm).
  destruct (length_extended d m key Hok) as [Hlen _].
  pose proof (fresh_extended d m key Hok Hfresh) as Hnd. destruct Hfresh as [Hfresh Hpub].
  assert (Forall manifest_ok (drop k (extended d m))) as Hall by (apply Forall_drop, (manifests_extended d m key); done).
  assert (forall x, x ∈ drop k (extended d m) -> x ∈ History d \/ x = m) as Hin.
  { intros x [i Hi]%list_elem_of_lookup. rewrite lookup_drop in Hi. apply list_elem_of_lookup_2 in Hi.
    unfold extended in Hi. apply elem_of_app in Hi as [Hi|Hi]; [left|right; by apply (list_elem_of_singleton x m)].
    apply elem_of_take in Hi as (j & Hj & _). by eapply list_elem_of_lookup_2. }
  assert (NoDup (man_ID <$> drop k (extended d m))) as Hnd'.
  { assert (sublist (drop k (extended d m)) (History d ++ [m])) as Hsub.
    { etransitivity; [apply sublist_drop|]. unfold extended. apply sublist_app; [apply sublist_take|done]. }
    apply (sublist_NoDup _ (man_ID <$> (History d ++ [m]))); [done|]. by apply (fmap_sublist man_ID). }
  destruct Hok as (Hkey & Hvid & Hcr & Hti & Hhn & Hc & Hsf & Hdcb & Hdca & Hms & _ & _ & Hp). split.
  - unfold draft_ok. subst updated. cbn. split_and!; try done.
    + unfold zlen. rewrite length_drop, Hlen. lia.
    + unfold zlen. rewrite Hlen. lia.
    + unfold zlen. rewrite length_drop, Hlen. lia.
    + intros p Hpp. specialize (Hp p Hpp). unfold publication_ok in *.
      destruct Hp as (? & ? & ? & ? & ? & ? & ? & ? & ? & ? & ? & Hl). split_and!; try done.
      intros x [Hx| ->]%Hin He; [by apply Hl|]. by destruct (Hpub p Hpp).
  - subst updated. apply utf8_rehistoried.
    + unfold append_draft. rewrite utf8_draft in *. cbn in *. rewrite !utf8_cons in *. apply text_ok_utf8 in Hactor, Htitle.
      destruct Ht as (? & ? & ?). split_and!; try tauto. apply Forall_app. split; [by apply Forall_take|constructor; [|done]].
      apply utf8_manifest; [done|]. rewrite !utf8_cons, Hcb, Hsm, Hopm. split_and!; [done|by eapply text_ok_utf8|done|constructor].
    + apply Forall_forall. intros x [Hx| ->]%Hin; [by apply utf8_draft in Ht as (_ & Ht & _); apply (proj1 (Forall_forall _ _) Ht)|].
      apply utf8_manifest; [done|]. rewrite !utf8_cons, Hcb, Hsm, Hopm. split_and!; [by eapply text_ok_utf8..|done|constructor].
Qed.

(** What a plan of [AppendSnapshot] writes is right. *)
Lemma append_plan_ok e req s updated value revision load m dropped :
  Spec.wf s -> int64 (clock e) ->
  (forall d, draft_at s (ar_DraftID req) d -> forall id, new_id e 0 = Ok id -> fresh id d) ->
  append_plan e req s = Ok (updated, value, revision, load, m, dropped) ->
  exists d doc title canonical k,
    updated = with_history (append_draft e req d title m) (drop k (extended d m)) (zlen (extended d m) - 1 - Z.of_nat k) /\
    draft_at s (ar_DraftID req) d /\ Parse (ar_Document req) = Ok doc /\ revision = dm_Revision d /\
    dm_ID updated = ar_DraftID req /\ draft_ok (ar_DraftID req) updated /\ utf8 (draft_texts updated) /\ encodeDraft updated = Ok value /\
    encode_document (SetProvenance doc (append_stamp e req d)) = Ok canonical /\ buildPayload canonical = Ok load /\
    manifest_of e 0 load (ar_Actor req) (ar_Summary req) (clock e) (ar_OpID req) = Ok m /\ fresh (man_ID m) d /\
    (k <= Z.to_nat (Cursor d + 1))%nat /\ (0 < Z.to_nat (Cursor d + 1))%nat /\
    History updated = drop k (extended d m) /\ Cursor updated = zlen (History updated) - 1 /\
    dropped = drop (Z.to_nat (Cursor d + 1)) (History d) ++ take k (extended d m) /\
    (forall j, (j < k)%nat -> over (drop j (extended d m))) /\ ~ over (History updated).
Proof.
  intros Hw Hclock Hfresh Hplan.
  apply append_plan_inv in Hplan as (d & doc & title & canonical & pruned & Hreq & Hdoc & Hat & Hid & -> & Htitle & Hc & Hload & Hm & Hpr & -> & Hbytes & Henc).
  destruct (draft_at_valid s _ d Hw Hat) as (_ & Hok & Htexts).
  apply encodeDocument_inv in Hc as [Hc _]. apply documentTitle_inv in Htitle as [Htitle _].
  pose proof (manifest_of_inv _ _ _ _ _ _ _ _ Hm) as (Hnew & Hmid & Hdig & Hsz & Hcz & _).
  assert (manifest_ok m) as Hmok.
  { set (key := snapshotKey "a" "b"). set (r := mkRecord NamespaceContent key (Some (load_compressed load)) 1 0 0).
    apply (readPayload_built (Spec.mkState 1 {[ (NamespaceContent, key) := r ]}) kindSnapshot "a" key m canonical load r); done. }
  pose proof (Hfresh d Hat _ Hnew) as Hf.
  destruct (length_extended d m _ Hok) as [Hlen Hz].
  assert (0 <= Cursor d < zlen (History d)) as Hcur by apply Hok.
  destruct (pruneHistory_spec (append_draft e req d title m)) as (k & Hk & Hpr' & Hover & Hend).
  - by apply (manifests_extended d m (ar_DraftID req)).
  - done.
  - cbn. unfold zlen. rewrite Hlen. lia.
  - rewrite Hpr in Hpr'. injection Hpr' as -> ->. cbn [append_draft with_title stampDraft with_history History Cursor] in *.
    assert (k <= Z.to_nat (Cursor d + 1))%nat as Hk' by (unfold zlen in Hk; rewrite Hlen in Hk; lia).
    assert (zlen (drop k (extended d m)) = zlen (extended d m) - Z.of_nat k) as Hzd by (unfold zlen; rewrite length_drop, Hlen; lia).
    assert (Forall manifest_ok (drop k (extended d m))) as Hall by (apply Forall_drop, (manifests_extended d m (ar_DraftID req)); done).
    assert (~ over (drop k (extended d m))) as Hno.
    { intros Ho. pose proof (Hend Ho) as He. destruct Ho as [Ho|Ho]; [unfold MaxSnapshots in *; lia|].
      rewrite HistoryBytes_sum in Hbytes; cbn [History with_history] in *; [lia|done|lia]. }
    destruct (appended_ok e req d title m load (ar_DraftID req) canonical k) as [Hdok Hut]; try done.
    { unfold over in Hno. lia. }
    exists d, doc, title, canonical, k. split_and!; try done; [apply Hok|lia|]. lia.
Qed.

Lemma keys_of_drop_take d m k x :
  NoDup (man_ID <$> (History d ++ [m])) -> (k <= Z.to_nat (Cursor d + 1))%nat -> (Z.to_nat (Cursor d + 1) <= length (History d))%nat ->
  x ∈ drop k (extended d m) ->
  man_ID x ∉ man_ID <$> (drop (Z.to_nat (Cursor d + 1)) (History d) ++ take k (extended d m)).
Proof.
  intros Hd Hk Hc Hx. set (c := Z.to_nat (Cursor d + 1)) in *.
  assert (History d ++ [m] ≡ₚ (drop c (History d) ++ take k (extended d m)) ++ drop k (extended d m)) as Hp.
  { rewrite <- app_assoc, take_drop. unfold extended. fold c. rewrite app_assoc, (Permutation_app_comm (drop c _)), take_drop. done. }
  rewrite Hp, fmap_app in Hd. apply NoDup_app in Hd as (_ & Hd & _). intros Hin. apply (Hd _ Hin). by apply list_elem_of_fmap_2.
Qed.

Lemma key_in_dropped id x (l : list SnapshotManifest) :
  ValidID id = true -> snapshotKey id x ∈ ((fun m => snapshotKey id (man_ID m)) <$> l) -> x ∈ man_ID <$> l.
Proof.
  intros Hid (y & He & Hy)%list_elem_of_fmap. apply snapshotKey_inj in He as [_ ->]; [|done..]. by apply list_elem_of_fmap_2.
Qed.

Lemma last_current updated d m key k :
  draft_ok key d -> (k <= Z.to_nat (Cursor d + 1))%nat -> History updated = drop k (extended d m) ->
  Cursor updated = zlen (History updated) - 1 -> Current updated = Some m /\ m ∈ History updated.
Proof.
  intros Hok Hk Hh Hc. destruct (length_extended d m key Hok) as [Hlen _].
  assert (zlen (History updated) = Z.of_nat (S (Z.to_nat (Cursor d + 1)) - k)) as Hz by (rewrite Hh; unfold zlen; by rewrite length_drop, Hlen).
  assert (History updated !! Z.to_nat (Cursor updated) = Some m) as Hl.
  { rewrite Hh, lookup_drop, Hc, Hz. unfold extended.
    assert (length (take (Z.to_nat (Cursor d + 1)) (History d)) = Z.to_nat (Cursor d + 1)) as Ht.
    { unfold extended in Hlen. rewrite length_app in Hlen. cbn [length] in Hlen. lia. }
    rewrite lookup_app_r by lia. replace (_ - _)%nat with 0%nat by lia. done. }
  split; [|by eapply list_elem_of_lookup_2]. unfold Current, history_at.
  destruct (Z.ltb_spec (Cursor updated) 0); [lia|]. destruct (Z.leb_spec (zlen (History updated)) (Cursor updated)); [lia|]. exact Hl.
Qed.

(** What the transaction of a save does to the content. *)
Lemma append_content time id d m load k canonical stored s1 s1' :
  ValidID id = true -> draft_ok id d -> fresh (man_ID m) d -> (k <= Z.to_nat (Cursor d + 1))%nat ->
  ValidID (man_ID m) = true -> man_Digest m = load_digest load -> man_Size m = load_size load ->
  man_CompressedSize m = blen (load_compressed load) ->
  buildPayload canonical = Ok load -> Parse canonical = Ok stored ->
  (let! _ := putContent time (snapshotKey id (man_ID m)) load in
   dropSnapshots id (drop (Z.to_nat (Cursor d + 1)) (History d) ++ take k (extended d m))) s1 = (Ok tt, s1') ->
  (forall key, Spec.recs s1' !! (NamespaceDrafts, key) = Spec.recs s1 !! (NamespaceDrafts, key)) /\ only id s1 s1' /\
  (Forall (holds s1 id) (History d) -> Forall (holds s1' id) (drop k (extended d m))) /\
  (m ∈ drop k (extended d m) -> forall kind i, readPayload s1' kind i (snapshotKey id (man_ID m)) m = Ok canonical) /\
  (forall x, x ∈ drop (Z.to_nat (Cursor d + 1)) (History d) ++ take k (extended d m) ->
     Spec.recs s1' !! (NamespaceContent, snapshotKey id (man_ID x)) = None) /\
  (m ∈ drop k (extended d m) -> newer s1 s1' (snapshotKey id (man_ID m))).
Proof.
  intros Hid Hok Hf Hk Hmid Hdig Hsz Hcz Hload Hps Hrun. set (gone := drop _ (History d) ++ take k (extended d m)) in *.
  apply st_bind_ok in Hrun as ([] & s2 & Hput & Hdrop). apply putContent_inv in Hput as (Hkey & r & Hr & Hv & _ & Hrev).
  pose proof (dropSnapshots_inv _ _ _ _ Hdrop) as Hd.
  pose proof (fresh_extended d m id Hok Hf) as Hnd.
  assert (Z.to_nat (Cursor d + 1) <= length (History d))%nat as Hclen.
  { destruct Hok as (_ & _ & _ & _ & _ & Hcc & _). unfold zlen in Hcc. lia. }
  assert (forall x, x ∈ drop k (extended d m) ->
    Spec.recs s1' !! (NamespaceContent, snapshotKey id (man_ID x)) = Spec.recs s2 !! (NamespaceContent, snapshotKey id (man_ID x))) as Hkept.
  { intros x Hx. rewrite Hd, decide_False; [done|]. intros [_ Hin%key_in_dropped]; [|done]. by eapply keys_of_drop_take. }
  assert (m ∈ drop k (extended d m) -> forall kind i, readPayload s1' kind i (snapshotKey id (man_ID m)) m = Ok canonical) as Hnew.
  { intros Hin kind i. apply (readPayload_built s1' kind i _ m canonical load r); try done.
    rewrite Hkept by done. rewrite Hr. apply lookup_insert_eq. }
  split_and!; [| | |exact Hnew| |].
  - intros key. rewrite Hd, decide_False by (by intros [? _]). rewrite Hr. by apply lookup_insert_ne; intros [=].
  - intros ns key Hn. rewrite Hd, decide_False.
    + rewrite Hr. apply lookup_insert_ne. intros [= <- <-]. apply Hn. right. split; [done|]. by apply snapshotKey_prefix.
    + intros [-> (x & -> & _)%list_elem_of_fmap]. apply Hn. right. split; [done|]. by apply snapshotKey_prefix.
  - intros Hold. apply Forall_forall. intros x Hx. destruct (decide (x = m)) as [->|Hne].
    + exists canonical, stored. split; [by apply Hnew|done].
    + assert (x ∈ History d) as Hin.
      { assert (x ∈ extended d m) as He by (apply list_elem_of_lookup in Hx as [i Hi]; rewrite lookup_drop in Hi; by eapply list_elem_of_lookup_2).
        unfold extended in He. apply elem_of_app in He as [He|He]; [|by apply (list_elem_of_singleton x m) in He].
        apply elem_of_take in He as (j & Hj & _). by eapply list_elem_of_lookup_2. }
      rewrite Forall_forall in Hold. specialize (Hold x Hin). revert Hold. apply holds_ext. rewrite Hkept by done. rewrite Hr.
      apply lookup_insert_ne. intros Heq%(f_equal snd). cbn [snd] in Heq. destruct Hf as [Hf _]. apply Hf.
      apply snapshotKey_inj in Heq as [_ ->]; [|done..]. by apply list_elem_of_fmap_2.
  - intros x Hx. rewrite Hd, decide_True; [done|]. split; [done|]. apply list_elem_of_fmap. by exists x.
  - intros Hin. exists r. rewrite Hkept by done. rewrite Hr. split; [apply lookup_insert_eq|lia].
Qed.

(** The document that is saved, as it is stored, is valid and has the stamp. *)
Lemma append_stored e req d doc canonical :
  draft_ok (ar_DraftID req) d -> int64 (clock e) -> validateAppendRequest req = Ok tt -> Parse (ar_Document req) = Ok doc ->
  encode_document (SetProvenance doc (append_stamp e req d)) = Ok canonical ->
  exists stored, Parse canonical = Ok stored /\ Meta stored = Meta (SetProvenance doc (append_stamp e req d)).
Proof.
  intros Hok Hclock Hreq [Hdec Hval]%Parse_inv Hc.
  destruct Hok as (_ & _ & _ & _ & _ & _ & _ & Hdcb & Hdca & _).
  unfold validateAppendRequest in Hreq. rewrite !bind_unit, validateText_ok in Hreq. destruct Hreq as (Hactor & _).
  apply (stored_stamped (ar_Document req)); try done.
  - split; [by eapply user_of_text_ok|]. split; [done|]. split; [by eapply user_of_text_ok|right; by apply FormatTime_ok].
  - unfold stamp_texts. cbn. rewrite !utf8_cons.
    split_and!; [by eapply text_ok_utf8|by apply is_time_utf8|by eapply text_ok_utf8|apply is_time_utf8; right; by apply FormatTime_ok|constructor].
Qed.

(** What a save needs of its environment: a time the machine can hold and an
    identifier that no snapshot has. *)
Definition append_env (e : env) (req : AppendSnapshotRequest) (s : Spec.state) : Prop :=
  int64 (clock e) /\ forall d, draft_at s (ar_DraftID req) d -> forall id, new_id e 0 = Ok id -> fresh id d.

(** A save that succeeds, step by step. *)
Lemma append_run e req s m' s' :
  Spec.wf s -> Spec.wf (between e s) -> later s (between e s) -> drafts_whole (between e s) -> append_env e req s ->
  AppendSnapshot e req s = (Ok m', s') ->
  exists d doc title canonical stored load m k rev,
    Spec.rev (between e s) < rev /\ only (ar_DraftID req) (between e s) s' /\
    m' = with_revision (with_history (append_draft e req d title m) (drop k (extended d m)) (zlen (drop k (extended d m)) - 1)) rev /\
    Parse (ar_Document req) = Ok doc /\ draft_at s (ar_DraftID req) d /\ draft_at (between e s) (ar_DraftID req) d /\
    draft_ok (ar_DraftID req) d /\ fresh (man_ID m) d /\ (k <= Z.to_nat (Cursor d + 1))%nat /\
    (forall j, (j < k)%nat -> over (drop j (extended d m))) /\ ~ over (drop k (extended d m)) /\
    manifest_of e 0 load (ar_Actor req) (ar_Summary req) (clock e) (ar_OpID req) = Ok m /\
    encode_document (SetProvenance doc (append_stamp e req d)) = Ok canonical /\
    Parse canonical = Ok stored /\ Meta stored = Meta (SetProvenance doc (append_stamp e req d)) /\
    draft_at s' (ar_DraftID req) (with_revision (persisted m') rev) /\ drafts_whole s' /\
    readPayload s' kindSnapshot (man_ID m) (snapshotKey (ar_DraftID req) (man_ID m)) m = Ok canonical /\
    (forall x, x ∈ drop (Z.to_nat (Cursor d + 1)) (History d) ++ take k (extended d m) ->
      Spec.recs s' !! (NamespaceContent, snapshotKey (ar_DraftID req) (man_ID x)) = None) /\
    newer (between e s) s' (snapshotKey (ar_DraftID req) (man_ID m)).
Proof.
  intros Hw Hw1 Hl Hwhole [Hclock Hfresh] Hrun. unfold AppendSnapshot in Hrun.
  destruct (append_plan e req s) as [[[[[[updated value] revision] load] m] dropped]|] eqn:Hplan; [|done].
  pose proof (append_plan_inv _ _ _ _ _ _ _ _ _ Hplan) as (_ & _ & _ & _ & _ & Hreq & _).
  destruct (append_plan_ok e req s updated value revision load m dropped Hw Hclock Hfresh Hplan)
    as (d & doc & title & canonical & k & Heq & Hat & Hdoc & -> & Hid & Hok & Ht & Henc & Hc & Hload & Hm & Hf & Hk & _ & Hh & Hcur & -> & Hover & Hno).
  apply writeDraftTxn_inv in Hrun. set (id := ar_DraftID req) in *.
  pose proof (manifest_of_inv _ _ _ _ _ _ _ _ Hm) as (_ & Hmid & Hdig & Hsz & Hcz & _).
  destruct (draft_at_valid s _ d Hw Hat) as (Hvid & Hdok & _).
  destruct (append_stored e req d doc canonical Hdok Hclock Hreq Hdoc Hc) as (stored & Hps & Hmeta).
  assert (forall s1', (let! _ := putContent (store_time e) (snapshotKey id (man_ID m)) load in
      dropSnapshots id (drop (Z.to_nat (Cursor d + 1)) (History d) ++ take k (extended d m))) (between e s) = (Ok tt, s1') -> _) as Hcontent
    by (intros s1'; exact (append_content (store_time e) id d m load k canonical stored (between e s) s1' Hvid Hdok Hf Hk Hmid Hdig Hsz Hcz Hload Hps)).
  rewrite <- Hid in Hat, Hok.
  destruct (fun Hst => draft_write_ok s (between e s) s' d updated m' value _ Hw Hl Hw1 Hwhole Hst Hat Hok Ht Henc Hrun)
    as (Hsame & Hback & (rev & -> & Hnewrev) & Hall & Honly & Hcont); [by auto with service| |].
  { intros s1' Ha. rewrite Hid. destruct (Hcontent s1' Ha) as (A1 & A2 & A3 & _). split; [done|]. split; [done|]. by rewrite Hh. }
  rewrite Hid in *. destruct Hrun as (s1' & old & r & Ha & _).
  destruct (Hcontent s1' Ha) as (_ & _ & _ & Hnew & Hgone & Hnewer).
  destruct (last_current updated d m id k Hdok Hk Hh Hcur) as [_ Hin]. rewrite Hh in Hin.
  assert (updated = with_history (append_draft e req d title m) (drop k (extended d m)) (zlen (drop k (extended d m)) - 1)) as Heq'.
  { rewrite Hh in Hcur. rewrite <- Hcur, Heq. done. }
  exists d, doc, title, canonical, stored, load, m, k, rev. split_and!; try done.
  - by rewrite <- Heq'.
  - by rewrite <- Hh.
  - rewrite (readPayload_ext s1' s'); [by apply Hnew|by apply Hcont].
  - intros x Hx. rewrite (Hcont s1' _ Ha). by apply Hgone.
  - destruct (Hnewer Hin) as (r' & Hr' & Hlt). exists r'. by rewrite (Hcont s1' _ Ha).
Qed.

(** C5: Saving a document. Whatever other calls do between the read and the
    write, when [AppendSnapshot] succeeds nobody had changed the draft it
    read; the history is the old one up to the cursor and the new snapshot,
    less the fewest of the oldest snapshots that bring it within the limits;
    the cursor is on the new snapshot, the draft is dirty, and reading the
    snapshot gives the canonical bytes of the document stamped with the actor
    and the time; the draft reads back; the content of what was dropped is
    gone; no other record is touched, and every snapshot of every draft can
    still be read. *)
Theorem AppendSnapshot_spec e req s m' s' :
  in_order e s -> append_env e req s ->
  AppendSnapshot e req s = (Ok m', s') ->
  exists d doc canonical m k,
    Parse (ar_Document req) = Ok doc /\
    draft_at s (ar_DraftID req) d /\ draft_at (between e s) (ar_DraftID req) d /\
    History m' = drop k (extended d m) /\ ~ over (History m') /\ (forall j, (j < k)%nat -> over (drop j (extended d m))) /\
    Current m' = Some m /\ man_CreatedBy m = ar_Actor req /\ man_OpID m = ar_OpID req /\ Dirty m' = true /\
    encode_document (SetProvenance doc (append_stamp e req d)) = Ok canonical /\
    draft_at s' (ar_DraftID req) (with_revision (persisted m') (dm_Revision m')) /\
    (exists stored, snapshot s' (ar_DraftID req) m = Ok {| sn_Manifest := m; sn_Data := canonical; sn_Document := stored |} /\
       Meta stored = Meta (SetProvenance doc (append_stamp e req d))) /\
    (forall x, x ∈ drop (Z.to_nat (Cursor d + 1)) (History d) ++ take k (extended d m) ->
       Spec.recs s' !! (NamespaceContent, snapshotKey (ar_DraftID req) (man_ID x)) = None) /\
    only (ar_DraftID req) (between e s) s' /\ drafts_whole s'.
Proof.
  intros (Hw & Hw1 & Hl & Hwhole) He Hrun.
  destruct (append_run e req s m' s' Hw Hw1 Hl Hwhole He Hrun)
    as (d & doc & title & canonical & stored & load & m & k & rev & _ & Honly & -> & Hdoc & Hat & Hat1 & Hok & Hf & Hk & Hover & Hno & Hm & Hc & Hps & Hmeta & Hback & Hall & Hread & Hgone & _).
  apply manifest_of_inv in Hm as (_ & _ & _ & _ & _ & Hcb & _ & Hop).
  match goal with |- context [Current ?u = _] => destruct (last_current u d m (ar_DraftID req) k Hok Hk eq_refl eq_refl) as [Hcur _] end.
  exists d, doc, canonical, m, k. split_and!; try done.
  - unfold Dirty. rewrite Hcur. cbn. destruct Hf as [_ Hf]. destruct (Publication d) as [p|]; [|done].
    by rewrite (proj2 (String.eqb_neq _ _) (Hf p eq_refl)).
  - exists stored. split; [|done]. unfold snapshot. rewrite Hread. cbn [res_bind]. unfold parseStored. by rewrite Hps.
Qed.

End Append.
