(* ===== verification/DraftCalls.v ===== *)
(** * Undo and redo, deleting a snapshot, deleting a draft

    What [MoveCursor], [DeleteSnapshot] and [DeleteDraft] leave in the store
    when they succeed, and when [MoveCursor] does. *)

From Stdlib Require Import ZArith Lia Ascii String Strings.Byte.
From stdpp Require Import base option list gmap strings sorting.
From S2P Require Import Prelude Record RecordSpec Text Codes Document Checks Layers Icons Validate Parents ValidateSpec EdgeSpec DocumentSpec.
From S2P Require Import Drafts Content DraftService DraftSpec DraftStore DraftWrites.

Open Scope Z_scope.
Open Scope go_scope.

Section Calls.
Context `{ServiceLaws} `{!CompressionLaws}.

Lemma checkRevision_ok id expected actual : checkRevision id expected actual = Ok tt <-> expected = AnyRevision \/ expected = actual.
Proof. unfold checkRevision. rewrite <- !Z.eqb_eq, <- orb_true_iff. by destruct (_ || _). Qed.

Lemma Current_lookup d : 0 <= Cursor d < zlen (History d) -> Current d = History d !! Z.to_nat (Cursor d).
Proof.
  intros [Hl Hr]. unfold Current, history_at. rewrite (proj2 (Z.ltb_ge (Cursor d) 0) Hl), (proj2 (Z.leb_gt _ _) Hr). done.
Qed.

Lemma Current_in d m : Current d = Some m -> m ∈ History d.
Proof.
  unfold Current, history_at. destruct (_ || _); [done|]. destruct (_ <? _); [done|]. by apply list_elem_of_lookup_2.
Qed.

(** A write of the record alone, with the same history. *)
Lemma write_record e s s2 d updated m' value :
  Spec.wf s -> later s (between e s) -> Spec.wf (between e s) -> drafts_whole (between e s) ->
  draft_at s (dm_ID updated) d -> draft_ok (dm_ID updated) updated -> utf8 (draft_texts updated) -> encodeDraft updated = Ok value ->
  History updated = History d ->
  writeDraft e updated value (dm_Revision d) (between e s) = (Ok m', s2) ->
  draft_at (between e s) (dm_ID updated) d /\
  draft_at s2 (dm_ID updated) (with_revision (persisted updated) (dm_Revision m')) /\
  (exists rev, m' = with_revision updated rev /\ Spec.rev (between e s) < rev) /\ drafts_whole s2 /\ only (dm_ID updated) (between e s) s2 /\
  (forall k, Spec.recs s2 !! (NamespaceContent, k) = Spec.recs (between e s) !! (NamespaceContent, k)).
Proof.
  intros Hw Hl Hw1 Hwhole Hat Hok Ht Henc Hh Hrun%writeDraft_inv.
  destruct (draft_write_ok s (between e s) s2 d updated m' value _ Hw Hl Hw1 Hwhole (steady_ret tt) Hat Hok Ht Henc Hrun) as (A & B & C & D & E & F).
  { intros s1' [= <-]. rewrite Hh. split; [done|]. by split. }
  split_and!; try done. intros k. by apply F.
Qed.

(** A draft that is there is got. *)
Lemma GetDraft_there e n s id d :
  ctx_err e n = None -> Spec.wf s -> draft_at s id d -> GetDraft_at e n s id = Ok d.
Proof.
  intros Hctx Hw Hat. destruct (draft_at_valid s id d Hw Hat) as (Hvid & _). destruct Hat as (r & Hr & Hdec).
  unfold GetDraft_at, check_ctx, validateID, getRecord, tx_call, Spec.get, Spec.lookup.
  by rewrite Hctx, Hvid, (id_key NamespaceDrafts id eq_refl Hvid), Hr.
Qed.

(** ** Undo and redo *)

Lemma resolveCursor_inv d req i :
  resolveCursor d req = Ok i ->
  0 <= i < zlen (History d) /\
  (if String.eqb (mr_SnapshotID req) "" then i = mr_Index req
   else exists m, History d !! Z.to_nat i = Some m /\ man_ID m = mr_SnapshotID req).
Proof.
  unfold resolveCursor. destruct (String.eqb_spec (mr_SnapshotID req) "") as [He|Hne]; cbn [negb].
  - destruct (Z.ltb_spec (mr_Index req) 0), (Z.leb_spec (zlen (History d)) (mr_Index req)); cbn [orb]; try done. by intros [= <-].
  - destruct (list_find _ (History d)) as [[j m]|] eqn:E; [|done]. intros [= <-].
    apply list_find_Some in E as (Hj & Hm & _). apply lookup_lt_Some in Hj as Hlt. unfold zlen. split; [lia|].
    exists m. by rewrite Nat2Z.id.
Qed.

Definition moved (e : env) (req : MoveCursorRequest) (d : DraftMetadata) (i : Z) : DraftMetadata :=
  stampDraft (with_history d (History d) i) (mr_Actor req) (clock e).

Lemma move_plan_inv e req s updated value revision :
  move_plan e req s = Ok (updated, value, revision) <->
  ctx_err e 0 = None /\ text_ok MaxOwnerLength true (mr_Actor req) /\
  exists d i, GetDraft_at e 1 s (mr_DraftID req) = Ok d /\ revision = dm_Revision d /\
    (mr_ExpectedRevision req = AnyRevision \/ mr_ExpectedRevision req = dm_Revision d) /\
    resolveCursor d req = Ok i /\ updated = moved e req d i /\ encodeDraft updated = Ok value.
Proof.
  unfold move_plan. rewrite !bind_unit, validateText_ok. unfold check_ctx. destruct (ctx_err e 0) as [what|]; [by split; intros (? & _)|].
  split.
  - intros (_ & Ha & Hp). split; [done|]. split; [done|]. apply bind_ok in Hp as (d & Hd & Hp).
    apply bind_unit in Hp as [Hrev%checkRevision_ok Hp]. apply bind_ok in Hp as (i & Hi & Hp). cbn zeta in Hp.
    apply bind_ok in Hp as (v & Hv & [= <- <- <-]). by exists d, i.
  - intros (_ & Ha & d & i & Hd & -> & Hrev & Hi & -> & Hv). split; [done|]. split; [done|]. rewrite Hd. cbn [res_bind].
    rewrite (proj2 (checkRevision_ok _ _ _) Hrev). cbn [res_bind]. rewrite Hi. cbn [res_bind]. fold (moved e req d i). by rewrite Hv.
Qed.

Lemma moved_ok e req d i key :
  draft_ok key d -> utf8 (draft_texts d) -> 0 <= i < zlen (History d) -> text_ok MaxOwnerLength true (mr_Actor req) ->
  draft_ok key (moved e req d i) /\ utf8 (draft_texts (moved e req d i)).
Proof.
  intros (? & ? & ? & ? & ? & ? & ? & ? & ? & ? & ? & ? & ?) Ht Hi Ha%text_ok_utf8. split; [by unfold draft_ok|].
  apply utf8_stamped; [|done]. apply utf8_rehistoried; [done|]. by apply utf8_draft in Ht as (_ & ? & _).
Qed.

Lemma move_run e req s m' s' :
  Spec.wf s -> Spec.wf (between e s) -> later s (between e s) -> drafts_whole (between e s) ->
  MoveCursor e req s = (Ok m', s') ->
  exists d i rev, Spec.rev (between e s) < rev /\ only (mr_DraftID req) (between e s) s' /\ draft_at s (mr_DraftID req) d /\ draft_at (between e s) (mr_DraftID req) d /\
    resolveCursor d req = Ok i /\ m' = with_revision (moved e req d i) rev /\
    draft_at s' (mr_DraftID req) (with_revision (persisted m') rev) /\ drafts_whole s' /\
    (forall k, Spec.recs s' !! (NamespaceContent, k) = Spec.recs (between e s) !! (NamespaceContent, k)).
Proof.
  intros Hw Hw1 Hl Hwhole Hrun. unfold MoveCursor in Hrun.
  destruct (move_plan e req s) as [[[updated value] revision]|] eqn:Hplan; [|done].
  apply move_plan_inv in Hplan as (_ & Ha & d & i & [Hat Hid]%GetDraft_inv & -> & _ & Hi & -> & Henc).
  destruct (draft_at_valid s _ d Hw Hat) as (_ & Hok & Ht). destruct (resolveCursor_inv d req i Hi) as [Hr _].
  destruct (moved_ok e req d i _ Hok Ht Hr Ha) as [Hok' Ht']. assert (dm_ID (moved e req d i) = mr_DraftID req) as Hdm by apply Hok.
  rewrite <- Hdm in Hat, Hok'.
  destruct (write_record e s s' d _ m' value Hw Hl Hw1 Hwhole Hat Hok' Ht' Henc eq_refl Hrun) as (A & B & (rev & -> & Hnewrev) & C & Honly & D).
  rewrite Hdm in *. by exists d, i, rev.
Qed.

(** Undo and redo. When [MoveCursor] succeeds, nobody had changed the
    draft it read; the cursor is where the request says, by index or by
    snapshot, and that snapshot is the current one; the history and the
    publication are as they were and no content is touched, so moving back
    gives the same current snapshot with the same bytes; the draft reads
    back. *)
Theorem MoveCursor_spec e req s m' s' :
  in_order e s ->
  MoveCursor e req s = (Ok m', s') ->
  exists d m, draft_at s (mr_DraftID req) d /\ draft_at (between e s) (mr_DraftID req) d /\
    History m' = History d /\ Publication m' = Publication d /\
    Current m' = Some m /\ History d !! Z.to_nat (Cursor m') = Some m /\
    (if String.eqb (mr_SnapshotID req) "" then Cursor m' = mr_Index req else man_ID m = mr_SnapshotID req) /\
    draft_at s' (mr_DraftID req) (with_revision (persisted m') (dm_Revision m')) /\
    (forall x, snapshot s' (mr_DraftID req) x = snapshot (between e s) (mr_DraftID req) x) /\
    only (mr_DraftID req) (between e s) s' /\ drafts_whole s'.
Proof.
  intros (Hw & Hw1 & Hl & Hwhole) Hrun.
  destruct (move_run e req s m' s' Hw Hw1 Hl Hwhole Hrun) as (d & i & rev & _ & Honly & Hat & Hat1 & Hi & -> & Hback & Hall & Hcont).
  apply resolveCursor_inv in Hi as [Hi Hreq].
  destruct (lookup_lt_is_Some_2 (History d) (Z.to_nat i)) as [m Hm]; [unfold zlen in Hi; lia|].
  exists d, m. split_and!; try done.
  - rewrite Current_lookup; [exact Hm|exact Hi].
  - destruct (String.eqb (mr_SnapshotID req) ""); [done|]. destruct Hreq as (m' & Hm' & <-). congruence.
  - intros x. unfold snapshot. by rewrite (readPayload_ext (between e s) s').
Qed.

(** When nothing stands in the way of a move, it is made: the request is
    right, the draft is there at the revision it expects, the record encodes,
    the caller is still there, nobody else writes the draft and the store
    commits. *)
Theorem MoveCursor_succeeds e req s d i value :
  ctx_err e 0 = None -> ctx_err e 1 = None -> commit e = None ->
  text_ok MaxOwnerLength true (mr_Actor req) -> Spec.wf s -> draft_at s (mr_DraftID req) d ->
  (mr_ExpectedRevision req = AnyRevision \/ mr_ExpectedRevision req = dm_Revision d) ->
  resolveCursor d req = Ok i -> encodeDraft (moved e req d i) = Ok value ->
  Spec.recs (between e s) !! (NamespaceDrafts, mr_DraftID req) = Spec.recs s !! (NamespaceDrafts, mr_DraftID req) ->
  exists m' s', MoveCursor e req s = (Ok m', s') /\ Cursor m' = i /\ History m' = History d /\
    dm_Revision m' = Spec.rev (between e s) + 1.
Proof.
  intros Hctx0 Hctx1 Hcommit Ha Hw Hat Hrev Hi Henc Hsame.
  destruct (draft_at_valid s _ d Hw Hat) as (Hvid & Hok & _). pose proof (GetDraft_there e 1 s _ d Hctx1 Hw Hat) as Hget.
  destruct Hat as (r & Hr & Hdec). pose proof (decode_draft_inv _ _ Hdec) as (_ & Heq & _).
  unfold MoveCursor. rewrite (proj2 (move_plan_inv e req s (moved e req d i) value (dm_Revision d))) by (split_and!; try done; by exists d, i).
  unfold writeDraft, st_bind, map_err, RecordTxn, tx_call, Spec.update, Spec.lookup, checkRecordRevision.
  change (dm_ID (moved e req d i)) with (dm_ID d). rewrite (proj1 Hok), (id_key NamespaceDrafts _ eq_refl Hvid). cbn [res_bind]. rewrite Hsame, Hr. cbn [res_bind].
  rewrite Heq, Z.eqb_refl, orb_true_r, Hcommit. cbn. by eexists _, _.
Qed.

(** ** Deleting a snapshot *)

Definition without (e : env) (req : DeleteSnapshotRequest) (d : DraftMetadata) (index : nat) : DraftMetadata :=
  stampDraft (with_history d (base.delete index (History d))
    (if Z.of_nat index <? Cursor d then Cursor d - 1 else Cursor d)) (dr_Actor req) (clock e).

Lemma delete_snapshot_plan_inv e req s updated value revision removed :
  delete_snapshot_plan e req s = Ok (updated, value, revision, removed) ->
  text_ok MaxOwnerLength true (dr_Actor req) /\
  exists d index, draft_at s (dr_DraftID req) d /\ revision = dm_Revision d /\
    History d !! index = Some removed /\ man_ID removed = dr_SnapshotID req /\ Z.of_nat index <> Cursor d /\
    updated = without e req d index /\ encodeDraft updated = Ok value.
Proof.
  unfold delete_snapshot_plan. rewrite !bind_unit, validateText_ok. intros (_ & Ha & Hp). split; [done|].
  apply bind_ok in Hp as (d & [Hat _]%GetDraft_inv & Hp). apply bind_unit in Hp as [_ Hp].
  destruct (list_find _ (History d)) as [[index m]|] eqn:E; [|done]. apply list_find_Some in E as (Hm & Hid & _).
  destruct (Z.eqb_spec (Z.of_nat index) (Cursor d)) as [|Hne]; [done|]. unfold removeSnapshot in Hp. rewrite Hm in Hp. cbn zeta in Hp.
  apply bind_ok in Hp as (v & Hv & [= <- <- <- <-]). by exists d, index.
Qed.

Lemma foldr_delete_sizes (l : list SnapshotManifest) i m :
  l !! i = Some m -> sum_sizes (base.delete i l) = sum_sizes l - man_Size m.
Proof.
  intros Hi. rewrite delete_take_drop. rewrite <- (take_drop_middle l i m Hi) at 3. rewrite !sum_sizes_app. cbn [sum_sizes foldr].
  fold (sum_sizes (drop (S i) l)). lia.
Qed.

Lemma elem_of_delete (l : list SnapshotManifest) i x : x ∈ base.delete i l -> x ∈ l.
Proof. intros Hx. eapply elem_of_sublist; [exact Hx|]. apply sublist_delete. Qed.

Lemma without_ok e req d index removed key :
  draft_ok key d -> utf8 (draft_texts d) -> text_ok MaxOwnerLength true (dr_Actor req) ->
  History d !! index = Some removed -> Z.of_nat index <> Cursor d ->
  draft_ok key (without e req d index) /\ utf8 (draft_texts (without e req d index)) /\
  Current (without e req d index) = Current d /\ Forall (fun m => man_ID m <> man_ID removed) (base.delete index (History d)).
Proof.
  intros Hok Ht Ha%text_ok_utf8 Hi Hne. pose proof Hok as (Hkey & Hvid & Hcr & Hti & Hhn & Hc & Hsf & Hdcb & Hdca & Hms & Hnd & Hb & Hp).
  apply lookup_lt_Some in Hi as Hlt.
  assert (zlen (base.delete index (History d)) = zlen (History d) - 1) as Hlen by (unfold zlen; rewrite length_delete by done; lia).
  assert (1 <= zlen (History d) - 1) as Hmin by (unfold zlen in *; lia).
  assert (0 <= (if Z.of_nat index <? Cursor d then Cursor d - 1 else Cursor d) < zlen (History d) - 1) as Hcur.
  { unfold zlen in *. destruct (Z.ltb_spec (Z.of_nat index) (Cursor d)); lia. }
  assert (Forall manifest_ok (base.delete index (History d))) as Hms' by by apply Forall_delete.
  split_and!.
  - unfold draft_ok. cbn. split_and!; try done; try lia.
    + eapply sublist_NoDup; [exact Hnd|]. apply fmap_sublist, sublist_delete.
    + change (HistoryBytes (without e req d index) <= MaxDraftHistoryBytes).
      rewrite HistoryBytes_sum in Hb by (done || lia). rewrite HistoryBytes_sum by (done || (cbn; lia)).
      cbn [History with_history without stampDraft].
      rewrite (foldr_delete_sizes _ _ _ Hi). rewrite Forall_lookup in Hms. pose proof (Hms _ _ Hi) as (_ & _ & ? & _). lia.
    + intros p Hpp. specialize (Hp p Hpp). unfold publication_ok in *. destruct Hp as (? & ? & ? & ? & ? & ? & ? & ? & ? & ? & ? & Hl).
      split_and!; try done. intros x Hx%elem_of_delete. by apply Hl.
  - apply utf8_stamped; [|done]. apply utf8_rehistoried; [done|]. apply utf8_draft in Ht. by apply Forall_delete, Ht.
  - rewrite !Current_lookup; [|done|cbn; lia]. cbn [Cursor History without stampDraft with_history].
    destruct (Z.ltb_spec (Z.of_nat index) (Cursor d)).
    + rewrite list_lookup_delete_ge by lia. f_equal. lia.
    + rewrite list_lookup_delete_lt by lia. done.
  - rewrite delete_take_drop. rewrite <- (take_drop_middle _ index removed Hi), fmap_app in Hnd. apply NoDup_app in Hnd as (_ & Hn1 & Hn2).
    cbn in Hn2. apply NoDup_cons in Hn2 as [Hn2 _]. apply Forall_app. split; apply Forall_forall; intros x Hx He.
    + apply (Hn1 (man_ID x)); [by apply list_elem_of_fmap_2|]. rewrite He. cbn. apply elem_of_cons. by left.
    + apply Hn2. rewrite <- He. by apply list_elem_of_fmap_2.
Qed.

Lemma delete_snapshot_run e req s m' s' :
  Spec.wf s -> Spec.wf (between e s) -> later s (between e s) -> drafts_whole (between e s) ->
  DeleteSnapshot e req s = (Ok m', s') ->
  exists d index removed rev, Spec.rev (between e s) < rev /\ only (dr_DraftID req) (between e s) s' /\ draft_at s (dr_DraftID req) d /\ draft_at (between e s) (dr_DraftID req) d /\
    History d !! index = Some removed /\ man_ID removed = dr_SnapshotID req /\ Z.of_nat index <> Cursor d /\
    m' = with_revision (without e req d index) rev /\
    Current m' = Current d /\ Forall (fun m => man_ID m <> man_ID removed) (base.delete index (History d)) /\
    draft_at s' (dr_DraftID req) (with_revision (persisted m') rev) /\ drafts_whole s' /\
    forall k, Spec.recs s' !! (NamespaceContent, k) =
      if decide (k = snapshotKey (dr_DraftID req) (dr_SnapshotID req)) then None else Spec.recs (between e s) !! (NamespaceContent, k).
Proof.
  intros Hw Hw1 Hl Hwhole Hrun. unfold DeleteSnapshot in Hrun. set (id := dr_DraftID req) in *.
  destruct (delete_snapshot_plan e req s) as [[[[updated value] revision] removed]|] eqn:Hplan; [|done].
  apply delete_snapshot_plan_inv in Hplan as (Ha & d & index & Hat & -> & Hi & Hri & Hne & -> & Henc). fold id in Hat.
  destruct (draft_at_valid s _ d Hw Hat) as (Hvid & Hok & Ht).
  destruct (without_ok e req d index removed _ Hok Ht Ha Hi Hne) as (Hok' & Ht' & Hcur & Hrest).
  assert (dm_ID (without e req d index) = id) as Hdm by apply Hok. rewrite <- Hdm in Hat, Hok'.
  apply writeDraftTxn_inv in Hrun.
  assert (forall s1', dropSnapshots id [removed] (between e s) = (Ok tt, s1') ->
    forall ns k, Spec.recs s1' !! (ns, k) = if decide (ns = NamespaceContent /\ k = snapshotKey id (dr_SnapshotID req)) then None
      else Spec.recs (between e s) !! (ns, k)) as Hdrop.
  { intros s1' Ha' ns k. rewrite (dropSnapshots_inv _ _ _ _ Ha' ns k). cbn [fmap list_fmap]. rewrite Hri.
    apply decide_ext. by rewrite list_elem_of_singleton. }
  destruct (draft_write_ok s (between e s) s' d _ m' value _ Hw Hl Hw1 Hwhole ltac:(by apply steady_dropSnapshots) Hat Hok' Ht' Henc Hrun)
    as (Hsame & Hback & (rev & -> & Hnewrev) & Hall & Honly & Hcont).
  { intros s1' Hs1. rewrite Hdm. pose proof (Hdrop s1' Hs1) as Hd. split_and!.
    - intros k. by rewrite Hd, decide_False by (by intros [? _]).
    - intros ns k Hn. rewrite Hd, decide_False; [done|]. intros [-> ->]. apply Hn. right. split; [done|]. by apply snapshotKey_prefix.
    - intros Hall. cbn. apply Forall_forall. intros x Hx.
      apply (holds_ext (between e s)); [|by eapply (proj1 (Forall_forall _ _) Hall), elem_of_delete].
      rewrite Hd, decide_False; [done|]. intros [_ Hk]. apply snapshotKey_inj in Hk as [_ Hk]; [|done..].
      apply (proj1 (Forall_forall _ _) Hrest x Hx). by rewrite Hri. }
  rewrite Hdm in *. exists d, index, removed, rev. split_and!; try done.
  intros k. destruct Hrun as (s1' & old & r & Ha' & _). rewrite (Hcont s1' k Ha'), (Hdrop s1' Ha'). apply decide_ext. naive_solver.
Qed.

(** Deleting a snapshot. When [DeleteSnapshot] succeeds, nobody had
    changed the draft it read; exactly the named snapshot is gone from its
    history, and it was not the current one: the current snapshot is the same
    as before, wherever its place is now; the content of the snapshot is gone
    and no other content is touched; the draft reads back. *)
Theorem DeleteSnapshot_spec e req s m' s' :
  in_order e s ->
  DeleteSnapshot e req s = (Ok m', s') ->
  exists d index, draft_at s (dr_DraftID req) d /\ draft_at (between e s) (dr_DraftID req) d /\
    History m' = base.delete index (History d) /\ length (History d) = S (length (History m')) /\
    Snapshot_of d (dr_SnapshotID req) = History d !! index /\ Snapshot_of m' (dr_SnapshotID req) = None /\
    Current m' = Current d /\ (forall m, Current d = Some m -> man_ID m <> dr_SnapshotID req) /\
    draft_at s' (dr_DraftID req) (with_revision (persisted m') (dm_Revision m')) /\
    (forall k, Spec.recs s' !! (NamespaceContent, k) =
      if decide (k = snapshotKey (dr_DraftID req) (dr_SnapshotID req)) then None else Spec.recs (between e s) !! (NamespaceContent, k)) /\
    drafts_whole s'.
Proof.
  intros (Hw & Hw1 & Hl & Hwhole) Hrun.
  destruct (delete_snapshot_run e req s m' s' Hw Hw1 Hl Hwhole Hrun)
    as (d & index & removed & rev & _ & _ & Hat & Hat1 & Hi & Hid & Hne & -> & Hcur & Hrest & Hback & Hall & Hcont).
  destruct (draft_at_valid s _ d Hw Hat) as (_ & Hok & _).
  exists d, index. split_and!; try done.
  - cbn. apply lookup_lt_Some in Hi. rewrite length_delete by (by apply lookup_lt_is_Some). lia.
  - rewrite Hi. apply find_id_unique; [apply Hok|by eapply list_elem_of_lookup_2|done].
  - cbn. unfold Snapshot_of. cbn. destruct (List.find _ _) as [x|] eqn:E; [|done]. apply find_id_Some in E as [Hx He].
    exfalso. apply (proj1 (Forall_forall _ _) Hrest x Hx). congruence.
  - intros m Hm He. rewrite <- Hcur in Hm. apply Current_in in Hm. apply (proj1 (Forall_forall _ _) Hrest m Hm). congruence.
Qed.

(** ** Deleting a draft *)

Lemma delete_inv ns k x s s' :
  Spec.delete ns k x s = (Ok tt, s') ->
  exists old, Spec.recs s !! (ns, k) = Some old /\ (x = AnyRevision \/ x = Record.Revision old) /\
    s' = Spec.mkState (Spec.rev s) (base.delete (ns, k) (Spec.recs s)).
Proof.
  unfold Spec.delete, Spec.lookup, checkRecordRevision. destruct (validateRecordNamespaceAndKey ns k) as [[]|]; [|done].
  cbn [res_bind]. destruct (Spec.recs s !! (ns, k)) as [old|]; [|done]. cbn [res_bind].
  destruct ((x =? AnyRevision) || (x =? Record.Revision old)) eqn:Ex; [|done]. intros [= <-]. exists old.
  apply orb_true_iff in Ex. rewrite !Z.eqb_eq in Ex. done.
Qed.

Lemma delete_run e id actor expected s s' :
  DeleteDraft e id actor expected s = (Ok tt, s') ->
  ValidID id = true /\ (exists old, Spec.recs (between e s) !! (NamespaceDrafts, id) = Some old /\
    (expected = AnyRevision \/ expected = Record.Revision old)) /\
  Spec.rev s' = Spec.rev (between e s) /\
  forall ns k, Spec.recs s' !! (ns, k) =
    if decide ((ns = NamespaceDrafts /\ k = id) \/ (ns = NamespaceContent /\ has_prefix k (draftContentPrefix id) = true)) then None
    else Spec.recs (between e s) !! (ns, k).
Proof.
  unfold DeleteDraft. destruct (let? _ := _ in _) as [[]|] eqn:Hc; [|done]. rewrite !bind_unit in Hc. destruct Hc as (_ & _ & Hid%guard_ok).
  rewrite map_err_ok, txn_ok. intros [Hrun _]. unfold deleteDraftTx in Hrun.
  apply st_bind_ok in Hrun as ([] & s1 & Hd%map_err_ok%tx_call_ok & Hrun). apply delete_inv in Hd as (old & Hold & Hx & ->).
  apply st_bind_ok in Hrun as (n & s2 & Hp%map_err_ok%tx_call_ok & [= <-]).
  unfold Spec.delete_prefix in Hp. destruct (let? _ := _ in _) as [[]|]; [|done]. injection Hp as _ <-.
  split; [done|]. split; [by exists old|]. split; [done|]. intros ns k. cbn [Spec.recs].
  destruct (decide (_ \/ _)) as [Hor|Hn].
  - apply map_lookup_filter_None. destruct Hor as [[-> ->]|Hor]; [left; apply lookup_delete_eq|]. right. intros r _ Hno. by apply Hno.
  - destruct (Spec.recs (between e s) !! (ns, k)) as [r|] eqn:E.
    + apply map_lookup_filter_Some. split; [rewrite lookup_delete_ne; [done|]|]; [|naive_solver]. intros [= <- <-]. apply Hn. by left.
    + apply map_lookup_filter_None. left. apply lookup_delete_None. by right.
Qed.

(** Deleting a draft. When [DeleteDraft] succeeds, the record was there at
    the revision expected; the record and every content under the draft are
    gone, whatever the record said its history was; every other record of the
    store is as it was, so the other drafts and their snapshots read the
    same. *)
Theorem DeleteDraft_spec e id actor expected s s' :
  DeleteDraft e id actor expected s = (Ok tt, s') ->
  (exists old, Spec.recs (between e s) !! (NamespaceDrafts, id) = Some old /\ (expected = AnyRevision \/ expected = Record.Revision old)) /\
  (forall d, ~ draft_at s' id d) /\
  (forall x, Spec.recs s' !! (NamespaceContent, snapshotKey id x) = None) /\
  (forall ns k, ns <> NamespaceDrafts -> ns <> NamespaceContent -> Spec.recs s' !! (ns, k) = Spec.recs (between e s) !! (ns, k)) /\
  (forall k, Spec.recs s' !! (NamespaceContent, publishedKey k) = Spec.recs (between e s) !! (NamespaceContent, publishedKey k)) /\
  (forall id' d, id' <> id -> ValidID id' = true ->
     (draft_at s' id' d <-> draft_at (between e s) id' d) /\ forall m, snapshot s' id' m = snapshot (between e s) id' m).
Proof.
  intros (Hid & Hold & _ & Hrun)%delete_run. split; [done|]. split_and!.
  - intros d (r & Hr & _). rewrite Hrun, decide_True in Hr by tauto. done.
  - intros x. rewrite Hrun, decide_True; [done|]. right. split; [done|]. by apply snapshotKey_prefix.
  - intros ns k Hns Hnc. rewrite Hrun, decide_False; [done|]. tauto.
  - intros k. rewrite Hrun, decide_False; [done|]. by intros [[? _]|[_ ?]].
  - intros id' d Hne Hid'. split.
    + unfold draft_at. rewrite Hrun, decide_False; [done|]. by intros [[_ ?]|[? _]].
    + intros m. unfold snapshot. rewrite (readPayload_ext (between e s) s'); [done|]. rewrite Hrun, decide_False; [done|].
      intros [[? _]|[_ Hp]]; [done|]. by apply snapshotKey_prefix in Hp.
Qed.

Lemma delete_whole e id actor expected s s' :
  drafts_whole (between e s) -> Spec.wf (between e s) ->
  DeleteDraft e id actor expected s = (Ok tt, s') -> drafts_whole s'.
Proof.
  intros Hwhole Hw (Hid & _ & _ & Hrun)%delete_run. intros id' d Hat. destruct (decide (id' = id)) as [->|Hne].
  - destruct Hat as (r & Hr & _). rewrite Hrun, decide_True in Hr by tauto. done.
  - assert (draft_at (between e s) id' d) as Hat1.
    { destruct Hat as (r & Hr & Hd). exists r. rewrite Hrun, decide_False in Hr by (by intros [[_ ?]|[? _]]). done. }
    destruct (draft_at_valid _ _ _ Hw Hat1) as [Hid' _]. eapply Forall_impl; [exact (Hwhole id' d Hat1)|]. intros m. apply holds_ext.
    rewrite Hrun, decide_False; [done|]. intros [[? _]|[_ Hp]]; [done|]. by apply snapshotKey_prefix in Hp.
Qed.

End Calls.
