(* ===== verification/DraftPublish.v ===== *)
(** * Marking a draft published

    What [MarkPublished] leaves in the store when it succeeds, and that a repeated [MarkPublished] writes nothing. *)

From Stdlib Require Import ZArith Lia Ascii String Strings.Byte.
From stdpp Require Import base option list gmap strings sorting.
From S2P Require Import Prelude Record RecordSpec Text Codes Document Checks Layers Icons Validate Parents ValidateSpec EdgeSpec DocumentSpec.
From S2P Require Import Drafts Content DraftService DraftSpec DraftStore DraftWrites DraftCalls.

Open Scope Z_scope.
Open Scope go_scope.

Section Publish.
Context `{ServiceLaws} `{!CompressionLaws}.

(** ** Marking a draft published *)

Definition publication (e : env) (req : MarkPublishedRequest) (d : DraftMetadata) (current : SnapshotManifest) : PublicationState := {|
  ps_Mode := pr_Mode req; ps_TopologyTarget := pr_TopologyTarget req; ps_TopologyAction := pr_TopologyAction req;
  ps_ExperimentTarget := pr_ExperimentTarget req; ps_ScenarioTarget := pr_ScenarioTarget req; ps_SnapshotID := man_ID current;
  ps_Digest := man_Digest current; ps_Revision := dm_Revision d; ps_DocumentID := pr_DocumentID req;
  ps_PublishedAt := clock e; ps_PublishedBy := pr_Actor req |}.

Definition published (e : env) (req : MarkPublishedRequest) (d : DraftMetadata) (current : SnapshotManifest) : DraftMetadata :=
  with_publication (stampDraft d (pr_Actor req) (clock e)) (publication e req d current).

Lemma publish_plan_inv e req s r :
  publish_plan e req s = Ok r ->
  validatePublishRequest req = Ok tt /\ exists d, draft_at s (pr_DraftID req) d /\
    ((isPublishRetry d req = true /\ r = inl d) \/
     (exists current value, isPublishRetry d req = false /\ Current d = Some current /\ man_ID current = pr_SnapshotID req /\
        (pr_ExpectedRevision req = AnyRevision \/ pr_ExpectedRevision req = dm_Revision d) /\
        encodeDraft (published e req d current) = Ok value /\ r = inr (published e req d current, value, dm_Revision d))).
Proof.
  unfold publish_plan. rewrite !bind_unit. intros (_ & Hreq & Hp). split; [done|]. apply bind_ok in Hp as (d & [Hat _]%GetDraft_inv & Hp).
  exists d. split; [done|]. destruct (isPublishRetry d req) eqn:Er; [left; by injection Hp as <-|right].
  apply bind_unit in Hp as [Hrev%checkRevision_ok Hp]. destruct (Current d) as [current|] eqn:Ec; [|done].
  destruct (String.eqb_spec (man_ID current) (pr_SnapshotID req)) as [He|]; [|done]. cbn [negb] in Hp. cbn zeta in Hp.
  apply bind_ok in Hp as (value & Hv & [= <-]). by exists current, value.
Qed.

Lemma targets_ok req : validatePublishTargets req = Ok tt ->
  PublishMode_Valid (pr_Mode req) = true /\ TopologyAction_Valid (pr_TopologyAction req) = true /\
  (pr_Mode req = PublishModeTopology -> pr_ExperimentTarget req = "" /\ pr_ScenarioTarget req = "") /\
  (pr_Mode req = PublishModeTopologyExperiment -> pr_ExperimentTarget req <> "").
Proof.
  unfold validatePublishTargets. destruct (PublishMode_Valid _); [|done]. destruct (TopologyAction_Valid _); [|done]. cbn [negb].
  destruct (String.eqb_spec (pr_Mode req) PublishModeTopologyExperiment), (String.eqb_spec (pr_Mode req) PublishModeTopology),
    (String.eqb_spec (pr_ExperimentTarget req) ""), (String.eqb_spec (pr_ScenarioTarget req) ""); cbn [andb negb]; try done; naive_solver.
Qed.

Lemma mode_utf8 m : PublishMode_Valid m = true -> valid_utf8 m = true.
Proof. unfold PublishMode_Valid. rewrite orb_true_iff, !String.eqb_eq. by intros [->| ->]. Qed.

Lemma action_utf8 a : TopologyAction_Valid a = true -> valid_utf8 a = true.
Proof. unfold TopologyAction_Valid. rewrite orb_true_iff, !String.eqb_eq. by intros [->| ->]. Qed.

Lemma published_ok e req d current key :
  draft_ok key d -> utf8 (draft_texts d) -> validatePublishRequest req = Ok tt -> Current d = Some current ->
  draft_ok key (published e req d current) /\ utf8 (draft_texts (published e req d current)).
Proof.
  intros Hok Ht Hreq Hc%Current_in.
  unfold validatePublishRequest in Hreq. rewrite !bind_unit, !validateText_ok in Hreq.
  destruct Hreq as (Ha & _ & Hdoc & Ht1 & Ht2 & Ht3 & Htargets%targets_ok). destruct Htargets as (Hm & Hact & Htop & Hexp).
  destruct Hok as (? & ? & ? & ? & ? & ? & ? & ? & ? & Hms & Hnd & ? & _).
  pose proof (proj1 (Forall_forall _ _) Hms current Hc) as (Hid & _ & _ & Hdig).
  assert (pr_DocumentID req = "" \/ ValidID (pr_DocumentID req) = true) as Hdoc'.
  { unfold validateOptionalID in Hdoc. destruct (String.eqb_spec (pr_DocumentID req) ""); [by left|right; by apply guard_ok in Hdoc]. }
  split.
  - unfold draft_ok. cbn. split_and!; try (done || tauto). intros p [= <-]. unfold publication_ok. cbn. split_and!; try done.
    intros m Hin He. pose proof (find_id_unique _ _ m Hnd Hin He) as F1. pose proof (find_id_unique _ _ current Hnd Hc eq_refl) as F2. congruence.
  - apply (utf8_stamped d (pr_Actor req) (clock e)) in Ht; [|by eapply text_ok_utf8]. rewrite utf8_draft in *. cbn in *.
    destruct Ht as (T1 & T2 & _ & T4). split_and!; [exact T1|exact T2| |exact T4]. constructor; [|constructor]. unfold publication_texts. cbn. rewrite !utf8_cons.
    split_and!; [by apply mode_utf8|by eapply text_ok_utf8|by apply action_utf8|by eapply text_ok_utf8|by eapply text_ok_utf8
      |by apply ValidID_utf8|by apply digest_utf8| |by eapply text_ok_utf8|constructor].
    destruct Hdoc' as [->|?]; [done|by apply ValidID_utf8].
Qed.

(** The publication is of the request, and of the snapshot it names. *)
Definition publishes (req : MarkPublishedRequest) (d : DraftMetadata) : Prop :=
  exists current p, Current d = Some current /\ Publication d = Some p /\ man_ID current = pr_SnapshotID req /\
    ps_SnapshotID p = man_ID current /\ ps_Digest p = man_Digest current /\ ps_Mode p = pr_Mode req /\
    ps_TopologyTarget p = pr_TopologyTarget req /\ ps_TopologyAction p = pr_TopologyAction req /\
    ps_ExperimentTarget p = pr_ExperimentTarget req /\ ps_ScenarioTarget p = pr_ScenarioTarget req /\
    ps_DocumentID p = pr_DocumentID req /\
    (pr_ExpectedRevision req = AnyRevision \/ pr_ExpectedRevision req = dm_Revision d \/ pr_ExpectedRevision req = ps_Revision p).

Lemma isPublishRetry_iff d req : isPublishRetry d req = true <-> publishes req d.
Proof.
  unfold isPublishRetry, publishes. split.
  - destruct (Publication d) as [p|]; [|done]. destruct (Current d) as [current|]; [|done].
    rewrite !andb_true_iff, !orb_true_iff, !Z.eqb_eq, !String.eqb_eq. intros ((He & Hp) & Hr). exists current, p.
    destruct Hp as (((((((? & ?) & ?) & ?) & ?) & ?) & ?) & ?). split_and!; try done; [congruence|tauto].
  - intros (current & p & -> & -> & ? & ? & ? & ? & ? & ? & ? & ? & ? & ?).
    rewrite !andb_true_iff, !orb_true_iff, !Z.eqb_eq, !String.eqb_eq. split_and!; try done; [congruence|tauto].
Qed.

Lemma publishes_clean req d : publishes req d -> Dirty d = false.
Proof.
  intros (current & p & Hc & Hp & _ & Hs & Hd & _). unfold Dirty. by rewrite Hc, Hp, Hs, Hd, !String.eqb_refl.
Qed.

Lemma publish_run e req s m' s' :
  Spec.wf s -> Spec.wf (between e s) -> later s (between e s) -> drafts_whole (between e s) ->
  MarkPublished e req s = (Ok m', s') ->
  drafts_whole s' /\ exists d, draft_at s (pr_DraftID req) d /\
    ((publishes req d /\ m' = d /\ s' = between e s) \/
     (exists current rev, only (pr_DraftID req) (between e s) s' /\ Current d = Some current /\ man_ID current = pr_SnapshotID req /\
        (pr_ExpectedRevision req = AnyRevision \/ pr_ExpectedRevision req = dm_Revision d) /\
        draft_at (between e s) (pr_DraftID req) d /\ m' = with_revision (published e req d current) rev /\
        draft_at s' (pr_DraftID req) (with_revision (persisted m') rev) /\
        forall k, Spec.recs s' !! (NamespaceContent, k) = Spec.recs (between e s) !! (NamespaceContent, k))).
Proof.
  intros Hw Hw1 Hl Hwhole Hrun. unfold MarkPublished in Hrun. destruct (publish_plan e req s) as [r|] eqn:Hplan; [|done].
  apply publish_plan_inv in Hplan as (Hreq & d & Hat & [[Hretry%isPublishRetry_iff ->]|(current & value & _ & Hc & Hid & Hrev & Henc & ->)]).
  - injection Hrun as <- <-. split; [done|]. exists d. split; [done|]. by left.
  - destruct (draft_at_valid s _ d Hw Hat) as (_ & Hok & Ht). destruct (published_ok e req d current _ Hok Ht Hreq Hc) as [Hok' Ht'].
    assert (dm_ID (published e req d current) = pr_DraftID req) as Hdm by apply Hok. rewrite <- Hdm in Hat, Hok'.
    destruct (write_record e s s' d _ m' value Hw Hl Hw1 Hwhole Hat Hok' Ht' Henc eq_refl Hrun) as (A & B & (rev & -> & Hnewrev) & C & Honly & D).
    rewrite Hdm in *. split; [done|]. exists d. split; [done|]. right. by exists current, rev.
Qed.

(** Publishing. When [MarkPublished] succeeds, the named snapshot is the
    current one of the draft, the publication the draft has is the one of the
    request, with the digest of that snapshot, and the draft is not dirty; the
    history and the cursor are as they were. Either the draft had that
    publication and nothing was written, or nobody had changed the draft, it
    reads back with it and no content was touched. *)
Theorem MarkPublished_spec e req s m' s' :
  in_order e s ->
  MarkPublished e req s = (Ok m', s') ->
  exists d, draft_at s (pr_DraftID req) d /\ publishes req m' /\ Dirty m' = false /\
    History m' = History d /\ Cursor m' = Cursor d /\ drafts_whole s' /\
    ((publishes req d /\ m' = d /\ s' = between e s) \/
     (draft_at (between e s) (pr_DraftID req) d /\
      draft_at s' (pr_DraftID req) (with_revision (persisted m') (dm_Revision m')) /\
      forall x, snapshot s' (pr_DraftID req) x = snapshot (between e s) (pr_DraftID req) x)).
Proof.
  intros (Hw & Hw1 & Hl & Hwhole) Hrun.
  destruct (publish_run e req s m' s' Hw Hw1 Hl Hwhole Hrun) as (Hall & d & Hat & [(Hp & -> & ->)|Hwrite]).
  - exists d. split_and!; try done; [by eapply publishes_clean|]. by left.
  - destruct Hwrite as (current & rev & Honly & Hc & Hid & Hrev & Hat1 & -> & Hback & Hcont). exists d.
    assert (publishes req (with_revision (published e req d current) rev)) as Hp.
    { exists current, (publication e req d current). split_and!; try done. cbn. tauto. }
    split_and!; try done; [by eapply publishes_clean|]. right. split_and!; try done.
    intros x. unfold snapshot. by rewrite (readPayload_ext (between e s) s').
Qed.

(** Publishing again. After [MarkPublished] succeeded and the draft is
    still what it returned, the same request, with the revision it expected
    then, is answered with that draft and writes nothing: a caller that did
    not see the answer may ask again. *)
Theorem MarkPublished_idempotent e e' req s m' s' :
  in_order e s ->
  MarkPublished e req s = (Ok m', s') ->
  ctx_err e' 0 = None -> ctx_err e' 1 = None -> Spec.wf s' ->
  draft_at s' (pr_DraftID req) (with_revision (persisted m') (dm_Revision m')) ->
  MarkPublished e' req s' = (Ok (with_revision (persisted m') (dm_Revision m')), between e' s').
Proof.
  intros (Hw & Hw1 & Hl & Hwhole) Hrun Hc0 Hc1 Hw' Hat'.
  assert (validatePublishRequest req = Ok tt) as Hreq.
  { unfold MarkPublished in Hrun. destruct (publish_plan e req s) eqn:Hp; [|done]. by apply publish_plan_inv in Hp as [? _]. }
  assert (publishes req (with_revision (persisted m') (dm_Revision m'))) as Hp%isPublishRetry_iff.
  { destruct (publish_run e req s m' s' Hw Hw1 Hl Hwhole Hrun) as (_ & d & _ & [(Hp & -> & _)|Hwrite]); [done|].
    destruct Hwrite as (current & rev & Honly & Hc & Hid & Hrev & _ & -> & _).
    exists current, (publication e req d current). split_and!; try done. cbn. tauto. }
  unfold MarkPublished, publish_plan, check_ctx. rewrite Hc0. cbn [res_bind]. rewrite Hreq. cbn [res_bind].
  rewrite (GetDraft_there e' 1 s' _ _ Hc1 Hw' Hat'). cbn [res_bind]. by rewrite Hp.
Qed.

End Publish.
