(* ===== verification/DraftCreate.v ===== *)
(** * Creating a draft

    What [CreateDraft] leaves in the store when it succeeds. *)

From Stdlib Require Import ZArith Lia Ascii String Strings.Byte.
From stdpp Require Import base option list gmap strings sorting.
From S2P Require Import Prelude Record RecordSpec Text Codes Document Checks Layers Icons Validate Parents ValidateSpec EdgeSpec DocumentSpec.
From S2P Require Import Drafts Content DraftService DraftSpec DraftStore DraftWrites.

Open Scope Z_scope.
Open Scope go_scope.

Section Create.
Context `{ServiceLaws} `{!CompressionLaws}.

(** The stamp a new draft gives its document: who made it and when stay. *)
Definition first_stamp (e : env) (req : CreateDraftRequest) (doc : Document) : Provenance := {|
  prov_CreatedBy := if String.eqb (CreatedBy (Meta doc)) "" then cr_Actor req else CreatedBy (Meta doc);
  prov_CreatedAt := if String.eqb (CreatedAt (Meta doc)) "" then FormatTime (clock e) else CreatedAt (Meta doc);
  prov_UpdatedBy := cr_Actor req;
  prov_UpdatedAt := FormatTime (clock e) |}.

(** The document kept is the one of the request, stamped, unless its canonical
    bytes are the ones the request says it comes from. *)
Lemma firstDocument_inv e req doc canonical doc' :
  firstDocument doc req (clock e) = Ok (canonical, doc') ->
  encode_document doc' = Ok canonical /\
  exists p, doc' = SetProvenance doc p /\
    (p = first_stamp e req doc \/ (p = provenance doc /\ cr_Origin req = Some (digestOf canonical))).
Proof.
  unfold firstDocument. fold (first_stamp e req doc). cbn zeta.
  assert (forall r, (let? c := encodeDocument (SetProvenance doc (first_stamp e req doc)) in Ok (c, SetProvenance doc (first_stamp e req doc))) = r ->
    r = Ok (canonical, doc') -> encode_document doc' = Ok canonical /\
    exists p, doc' = SetProvenance doc p /\
      (p = first_stamp e req doc \/ (p = provenance doc /\ cr_Origin req = Some (digestOf canonical)))) as Hst.
  { intros r <- (c & [Hc _]%encodeDocument_inv & [= <- <-])%bind_ok. split; [done|]. eexists. split; [done|]. by left. }
  change (provenance _) with (provenance doc).
  destruct (cr_Origin req) as [digest|]; [|intros Hr; by eapply Hst].
  destruct (encodeDocument doc) as [c|] eqn:Ec; [|intros Hr; by eapply Hst].
  destruct (String.eqb_spec (digestOf c) digest) as [<-|]; [|intros Hr; by eapply Hst].
  intros [= <- <-]. apply encodeDocument_inv in Ec as [Ec _]. split; [done|]. exists (provenance doc).
  rewrite SetProvenance_id. split; [done|]. by right.
Qed.

Lemma owner_of_user t : text_line_ok MaxUserBytes t -> valid_utf8 t = true -> text_ok MaxOwnerLength false t.
Proof. intros [Hl Hr] Hu. destruct (decide (t = "")) as [->|]; [by left|by right]. Qed.

Lemma first_stamp_ok e req data doc p :
  int64 (clock e) -> text_ok MaxOwnerLength true (cr_Actor req) -> Parse data = Ok doc ->
  p = first_stamp e req doc \/ p = provenance doc -> stamp_ok p /\ utf8 (stamp_texts p).
Proof.
  intros Hclock Ha [Hdec Hval]%Parse_inv Hp. pose proof (valid_stamp doc Hval) as Hs. pose proof (decode_texts _ _ Hdec) as Hu.
  assert (time_ok (FormatTime (clock e))) as Htime by (right; by apply FormatTime_ok).
  destruct Hp as [->| ->]; [|done]. unfold stamp_ok, stamp_texts in *. cbn in *. rewrite !utf8_cons in *.
  destruct Hs as (S1 & S2 & _), Hu as (U1 & U2 & _).
  pose proof (user_of_text_ok _ _ Ha) as Ha1. pose proof (text_ok_utf8 _ _ _ Ha) as Ha2. pose proof (is_time_utf8 _ Htime) as Ht2.
  destruct (String.eqb (CreatedBy (Meta doc)) ""), (String.eqb (CreatedAt (Meta doc)) ""); (split; split_and!; done || constructor).
Qed.

(** ** The plan *)

Definition created (e : env) (req : CreateDraftRequest) (id title : string) (m : SnapshotManifest) (stamp : Provenance) : DraftMetadata := {|
  dm_ID := id; dm_CreatedBy := cr_Actor req; dm_Title := title; dm_SourceToken := cr_SourceToken req;
  dm_SourceFile := cr_SourceFile req; dm_Created := clock e; dm_Updated := clock e; dm_LastModifiedBy := cr_Actor req;
  History := [m]; Cursor := 0; Publication := None; Forked := cr_Forked req;
  DocumentCreatedBy := prov_CreatedBy stamp; DocumentCreatedAt := prov_CreatedAt stamp;
  dm_Revision := AnyRevision; Stamp := Some stamp |}.

Definition stored_drafts (s : Spec.state) : Z := zlen (Spec.sorted_keys s NamespaceDrafts "").

Lemma create_plan_inv e req s meta load m value :
  create_plan e req s = Ok (meta, load, m, value) ->
  exists doc p canonical title id,
    validateCreateRequest req = Ok tt /\ stored_drafts s < MaxDrafts /\ new_id e 0 = Ok id /\ ValidID id = true /\
    Parse (cr_Document req) = Ok doc /\ (p = first_stamp e req doc \/ (p = provenance doc /\ cr_Origin req = Some (digestOf canonical))) /\
    encode_document (SetProvenance doc p) = Ok canonical /\ text_ok MaxTitleLength false title /\
    title = (if String.eqb (meta_Name (Meta doc)) "" then cr_Title req else meta_Name (Meta doc)) /\
    buildPayload canonical = Ok load /\ manifest_of e 1 load (cr_Actor req) (cr_Summary req) (clock e) "" = Ok m /\
    meta = created e req id title m p /\ encodeDraft meta = Ok value.
Proof.
  unfold create_plan, checkDraftLimit, draftID, newID. rewrite !bind_unit. intros (_ & Hreq & Hlim & Hp).
  apply bind_ok in Hlim as (keys & Hkeys & Hlim). unfold Spec.list_keys in Hkeys.
  destruct (validateRecordNamespaceAndPrefix NamespaceDrafts "") as [[]|]; [|done]. cbn in Hkeys. injection Hkeys as <-.
  destruct (Z.leb_spec MaxDrafts (zlen (Spec.sorted_keys s NamespaceDrafts ""))); [done|].
  apply bind_ok in Hp as (id & Hid & Hp). apply bind_ok in Hid as (id' & Hnew & [Hvid%guard_ok [= ->]]%bind_unit).
  destruct (new_id e 0) as [id''|] eqn:Hn; [|done]. injection Hnew as ->.
  apply bind_ok in Hp as (doc & Hdoc%parseDocument_inv & Hp). cbn zeta in Hp.
  apply bind_ok in Hp as ([canonical doc'] & Hf & Hp). apply firstDocument_inv in Hf as (Hc & p & -> & Hp').
  apply bind_ok in Hp as (title & Ht & Hp). apply documentTitle_inv in Ht as [Ht Heq].
  apply bind_ok in Hp as (load' & Hl & Hp). apply bind_ok in Hp as (m' & Hm & Hp). cbn zeta in Hp.
  apply bind_ok in Hp as (v & Hv & [= <- <- <- <-]).
  exists doc, p, canonical, title, id. split_and!; try done. by destruct p.
Qed.

Lemma created_ok e req id title m p load canonical :
  validateCreateRequest req = Ok tt -> utf8 (option_list (cr_Forked req) ≫= forked_texts) -> ValidID id = true -> stamp_ok p -> utf8 (stamp_texts p) ->
  text_ok MaxTitleLength false title -> manifest_ok m ->
  manifest_of e 1 load (cr_Actor req) (cr_Summary req) (clock e) "" = Ok m -> buildPayload canonical = Ok load ->
  draft_ok id (created e req id title m p) /\ utf8 (draft_texts (created e req id title m p)).
Proof.
  intros Hreq Hfork Hid Hs Hu Ht Hm (_ & _ & _ & Hsz & _ & Hcb & Hsm & Hop)%manifest_of_inv Hload.
  unfold validateCreateRequest in Hreq. rewrite !bind_unit, !validateText_ok in Hreq. destruct Hreq as (Ha & _ & Htok & Hsum & _ & Hfile).
  pose proof Hfile as Hf. unfold ValidateSourceFile in Hf. rewrite bind_unit, validateText_ok in Hf. destruct Hf as [Hf _].
  destruct Hs as (S1 & S2 & _). unfold stamp_texts in Hu. rewrite !utf8_cons in Hu. destruct Hu as (U1 & U2 & _). split.
  - unfold draft_ok. split_and!; try done.
    + by apply owner_of_user.
    + by constructor.
    + apply NoDup_singleton.
    + rewrite HistoryBytes_sum; [|by constructor|done]. cbn. destruct Hm as (_ & _ & ? & _).
      unfold MaxDraftHistoryBytes, MaxDocumentBytes in *. lia.
  - apply utf8_draft. cbn. rewrite utf8_bind in Hfork. rewrite !utf8_cons.
    split_and!; try done; try (by eapply text_ok_utf8); try constructor.
    + by apply ValidID_utf8.
    + apply utf8_manifest; [done|]. rewrite !utf8_cons, Hcb, Hsm, Hop. split_and!; [by eapply text_ok_utf8..|done|constructor].
    + constructor.
Qed.

(** ** The transaction *)

(** What a new draft needs of its environment and of the request: a time the
    machine can hold, and a fork whose names are valid UTF-8. *)
Definition create_env (e : env) (req : CreateDraftRequest) : Prop :=
  int64 (clock e) /\ utf8 (option_list (cr_Forked req) ≫= forked_texts).

Lemma create_run e req s m' s' :
  Spec.wf (between e s) -> drafts_whole (between e s) -> create_env e req ->
  CreateDraft e req s = (Ok m', s') ->
  exists doc p canonical stored title id m rev,
    stored_drafts s < MaxDrafts /\ new_id e 0 = Ok id /\ ValidID id = true /\ new_id e 1 = Ok (man_ID m) /\ man_CreatedBy m = cr_Actor req /\
    Parse (cr_Document req) = Ok doc /\ (p = first_stamp e req doc \/ (p = provenance doc /\ cr_Origin req = Some (digestOf canonical))) /\
    encode_document (SetProvenance doc p) = Ok canonical /\ Parse canonical = Ok stored /\ Meta stored = Meta (SetProvenance doc p) /\
    title = (if String.eqb (meta_Name (Meta doc)) "" then cr_Title req else meta_Name (Meta doc)) /\
    m' = with_revision (created e req id title m p) rev /\ Spec.recs (between e s) !! (NamespaceDrafts, id) = None /\
    draft_at s' id (with_revision (persisted m') rev) /\ drafts_whole s' /\ only id (between e s) s' /\
    readPayload s' kindSnapshot (man_ID m) (snapshotKey id (man_ID m)) m = Ok canonical /\
    newer (between e s) s' (snapshotKey id (man_ID m)).
Proof.
  intros Hw1 Hwhole [Hclock Hfork] Hrun. unfold CreateDraft in Hrun.
  destruct (create_plan e req s) as [[[[meta load] m] value]|] eqn:Hplan; [|done].
  apply create_plan_inv in Hplan as (doc & p & canonical & title & id & Hreq & Hlim & Hnew & Hid & Hdoc & Hp & Hc & Ht & Heq & Hload & Hm & -> & Henc).
  assert (text_ok MaxOwnerLength true (cr_Actor req)) as Ha.
  { unfold validateCreateRequest in Hreq. rewrite !bind_unit, validateText_ok in Hreq. apply Hreq. }
  destruct (first_stamp_ok e req _ doc p Hclock Ha Hdoc ltac:(tauto)) as [Hs Hu].
  destruct (Parse_inv _ _ Hdoc) as [Hdec Hval]. destruct (stored_stamped _ doc p canonical Hdec Hval Hs Hu Hc) as (stored & Hps & Hmeta).
  pose proof (manifest_of_inv _ _ _ _ _ _ _ _ Hm) as (Hnewm & Hmid & Hdig & Hsz & Hcz & Hcb & _).
  apply map_err_ok, txn_ok in Hrun as [Hrun _]. change (dm_ID (created e req id title m p)) with id in Hrun.
  assert (Spec.wf s') as Hw'.
  { assert (steady (let! _ := putContent (store_time e) (snapshotKey id (man_ID m)) load in
      let! record := map_err (storeError kindDraft id AnyRevision) (tx_call (Spec.create (store_time e NamespaceDrafts id) NamespaceDrafts id (Some value))) in
      st_ret (with_revision (created e req id title m p) (Record.Revision record)))) as Hst by auto with service.
    destruct (Hst _ Hw1) as [Hw' _]. by rewrite Hrun in Hw'. }
  apply st_bind_ok in Hrun as ([] & s1 & (Hkey & rc & Hrc & Hvc & _ & Hrev)%putContent_inv & Hrun).
  apply st_bind_ok in Hrun as (r & s2 & Hcr%map_err_ok%tx_call_ok & [= <- <-]).
  apply create_inv in Hcr as (_ & Hnone & Hns & Hk & Hv & _ & _ & ->).
  assert (Spec.recs (between e s) !! (NamespaceDrafts, id) = None) as Hnone' by by (rewrite Hrc, lookup_insert_ne in Hnone by (intros [=])).
  assert (only id (between e s) (Spec.write r s1)) as Honly.
  { intros ns k Hn. cbn. rewrite Hns, Hk, Hrc, !lookup_insert_ne; [done| |].
    - intros [= <- <-]. apply Hn. right. split; [done|]. by apply snapshotKey_prefix.
    - intros [= <- <-]. apply Hn. by left. }
  destruct (readPayload_built (Spec.write r s1) kindSnapshot (man_ID m) (snapshotKey id (man_ID m)) m canonical load rc) as [Hread Hmok]; try done.
  { cbn. rewrite Hns, lookup_insert_ne by (intros [=]). rewrite Hrc. apply lookup_insert_eq. }
  destruct (created_ok e req id title m p load canonical Hreq Hfork Hid Hs Hu Ht Hmok Hm Hload) as [Hok Hut].
  assert (draft_at (Spec.write r s1) id (with_revision (persisted (created e req id title m p)) (Record.Revision r))) as Hat.
  { exists r. split; [cbn; by rewrite Hns, Hk, lookup_insert_eq|]. apply (decode_written _ value); [done|by rewrite Hv|done|by rewrite Hk]. }
  exists doc, p, canonical, stored, title, id, m, (Record.Revision r). split_and!; try done.
  - apply (whole_update id (between e s)); try done. intros d Hd. rewrite (draft_at_unique _ _ _ _ Hd Hat). cbn.
    constructor; [|done]. by exists canonical, stored.
  - exists rc. cbn. rewrite Hns, lookup_insert_ne by (intros [=]). rewrite Hrc. split; [apply lookup_insert_eq|lia].
Qed.

(** Creating a draft. When [CreateDraft] succeeds, there were fewer drafts
    than the limit and none of that name; the draft holds one snapshot, the
    current one, and is dirty; reading it gives the canonical bytes of the
    document of the request, stamped with the actor and the time, or exactly
    the bytes of the origin when that is what it is; its title is the name of
    the document; the draft reads back, and no other record is touched. *)
Theorem CreateDraft_spec e req s m' s' :
  Spec.wf (between e s) -> drafts_whole (between e s) -> create_env e req ->
  CreateDraft e req s = (Ok m', s') ->
  exists doc p canonical m,
    stored_drafts s < MaxDrafts /\ Spec.recs (between e s) !! (NamespaceDrafts, dm_ID m') = None /\
    Parse (cr_Document req) = Ok doc /\ encode_document (SetProvenance doc p) = Ok canonical /\
    (p = first_stamp e req doc \/ (p = provenance doc /\ cr_Origin req = Some (digestOf canonical))) /\
    History m' = [m] /\ Current m' = Some m /\ Dirty m' = true /\ CanUndo m' = false /\ CanRedo m' = false /\
    dm_CreatedBy m' = cr_Actor req /\
    dm_Title m' = (if String.eqb (meta_Name (Meta doc)) "" then cr_Title req else meta_Name (Meta doc)) /\
    draft_at s' (dm_ID m') (with_revision (persisted m') (dm_Revision m')) /\
    (exists stored, snapshot s' (dm_ID m') m = Ok {| sn_Manifest := m; sn_Data := canonical; sn_Document := stored |} /\
       Meta stored = Meta (SetProvenance doc p)) /\
    only (dm_ID m') (between e s) s' /\ drafts_whole s'.
Proof.
  intros Hw1 Hwhole He Hrun.
  destruct (create_run e req s m' s' Hw1 Hwhole He Hrun)
    as (doc & p & canonical & stored & title & id & m & rev & Hlim & _ & _ & _ & _ & Hdoc & Hp & Hc & Hps & Hmeta & Heq & -> & Hnone & Hback & Hall & Honly & Hread & _).
  exists doc, p, canonical, m. split_and!; try done. exists stored. split; [|done].
  unfold snapshot. cbn. rewrite Hread. cbn [res_bind]. unfold parseStored. by rewrite Hps.
Qed.

End Create.
