(* ===== verification/DraftTrace.v ===== *)
(** * Interleavings of the draft service

    The calls of the service and of others on one store, in any order, each
    reading at some moment and writing at a later one. *)

From Stdlib Require Import ZArith Lia Ascii String Strings.Byte.
From stdpp Require Import base option list gmap strings sorting.
From S2P Require Import Prelude Record RecordSpec Text Codes Document Checks Layers Icons Validate Parents ValidateSpec EdgeSpec DocumentSpec.
From S2P Require Import Drafts Content DraftService DraftSpec DraftStore DraftWrites DraftAppend DraftCalls DraftPublish DraftCreate.

Open Scope Z_scope.
Open Scope go_scope.

(** The calls that write. *)
Inductive call : Type :=
  | CreateCall (req : CreateDraftRequest)
  | AppendCall (req : AppendSnapshotRequest)
  | MoveCall (req : MoveCursorRequest)
  | DeleteSnapshotCall (req : DeleteSnapshotRequest)
  | PublishCall (req : MarkPublishedRequest)
  | DeleteCall (id actor : string) (expected : Z).

Section Trace.
Context `{ServiceLaws} `{!CompressionLaws}.

Definition answer {A B} (f : A -> B) (r : res serror A * Spec.state) : res serror B * Spec.state :=
  (res_bind r.1 (fun a => Ok (f a)), r.2).

Lemma answer_ok {A B} (f : A -> B) r b s : answer f r = (Ok b, s) -> exists a, r = (Ok a, s) /\ b = f a.
Proof. destruct r as [[a|] ?]; cbn; [|done]. intros [= <- <-]. by exists a. Qed.

Lemma answer_err {A B} (f : A -> B) r err s : answer f r = (Err err, s) -> r = (Err err, s).
Proof. destruct r as [[a|] ?]; cbn; [done|]. by intros [= <- <-]. Qed.

Definition perform (e : env) (c : call) (s : Spec.state) : res serror (option DraftMetadata) * Spec.state :=
  match c with
  | CreateCall req => answer Some (CreateDraft e req s)
  | AppendCall req => answer Some (AppendSnapshot e req s)
  | MoveCall req => answer Some (MoveCursor e req s)
  | DeleteSnapshotCall req => answer Some (DeleteSnapshot e req s)
  | PublishCall req => answer Some (MarkPublished e req s)
  | DeleteCall id actor expected => answer (fun _ => None) (DeleteDraft e id actor expected s)
  end.

(** What a call needs of its environment. *)
Definition good (e : env) (c : call) (s : Spec.state) : Prop :=
  match c with
  | CreateCall req => create_env e req
  | AppendCall req => append_env e req s
  | _ => True
  end.

(** What others do to the store: they leave the drafts and the content of
    their snapshots alone. *)
Definition elsewhere (s s' : Spec.state) : Prop :=
  Spec.wf s' /\ later s s' /\
  (forall id, Spec.recs s' !! (NamespaceDrafts, id) = Spec.recs s !! (NamespaceDrafts, id)) /\
  forall id d m, draft_at s id d -> m ∈ History d ->
    Spec.recs s' !! (NamespaceContent, snapshotKey id (man_ID m)) = Spec.recs s !! (NamespaceContent, snapshotKey id (man_ID m)).

(** The states of the store, the newest first. A call reads one of them, and
    writes to the newest. *)
Inductive run : list Spec.state -> Prop :=
  | run_start : run [Spec.empty]
  | run_call e c read now past :
      run (now :: past) -> read ∈ now :: past -> between e read = now -> good e c read ->
      run (snd (perform e c read) :: now :: past)
  | run_other now past next : run (now :: past) -> elsewhere now next -> run (next :: now :: past).

(** ** Each call *)

(** Every write is in order. *)
Lemma perform_steady e c s :
  Spec.wf (between e s) -> Spec.wf (snd (perform e c s)) /\ later (between e s) (snd (perform e c s)).
Proof.
  intros Hw.
  assert (forall A (m : st Spec.state serror A), steady m ->
    Spec.wf (snd (m (between e s))) /\ later (between e s) (snd (m (between e s)))) as Hst by (intros A m Hm; by apply Hm).
  unfold perform. destruct c; cbn [answer snd].
  - unfold CreateDraft. destruct (create_plan _ _ _) as [[[[? ?] ?] ?]|]; [apply Hst; by auto 10 with service|by split].
  - unfold AppendSnapshot. destruct (append_plan _ _ _) as [[[[[[? ?] ?] ?] ?] ?]|]; [apply Hst; unfold writeDraftTxn; by auto 10 with service|by split].
  - unfold MoveCursor. destruct (move_plan _ _ _) as [[[? ?] ?]|]; [apply Hst; unfold writeDraft; by auto 10 with service|by split].
  - unfold DeleteSnapshot. destruct (delete_snapshot_plan _ _ _) as [[[[? ?] ?] ?]|]; [apply Hst; unfold writeDraftTxn; by auto 10 with service|by split].
  - unfold MarkPublished. destruct (publish_plan _ _ _) as [[?|[[? ?] ?]]|]; [by split|apply Hst; unfold writeDraft; by auto 10 with service|by split].
  - unfold DeleteDraft. destruct (let? _ := _ in _) as [[]|]; [apply Hst; unfold deleteDraftTx; by auto 10 with service|by split].
Qed.

Lemma perform_err e c s err s' : perform e c s = (Err err, s') -> s' = between e s.
Proof.
  unfold perform. destruct c; intros Hr%answer_err; revert Hr.
  - unfold CreateDraft. destruct (create_plan _ _ _) as [[[[? ?] ?] ?]|]; [apply map_txn_err|by intros [= _ <-]].
  - unfold AppendSnapshot. destruct (append_plan _ _ _) as [[[[[[? ?] ?] ?] ?] ?]|]; [apply map_txn_err|by intros [= _ <-]].
  - unfold MoveCursor. destruct (move_plan _ _ _) as [[[? ?] ?]|]; [apply writeDraft_err|by intros [= _ <-]].
  - unfold DeleteSnapshot. destruct (delete_snapshot_plan _ _ _) as [[[[? ?] ?] ?]|]; [apply map_txn_err|by intros [= _ <-]].
  - unfold MarkPublished. destruct (publish_plan _ _ _) as [[?|[[? ?] ?]]|]; [done|apply writeDraft_err|by intros [= _ <-]].
  - unfold DeleteDraft. destruct (let? _ := _ in _) as [[]|]; [apply map_txn_err|by intros [= _ <-]].
Qed.

(** ** The invariant, call by call *)

(** No record of a draft is damaged. *)
Definition drafts_read (s : Spec.state) : Prop :=
  forall id r, Spec.recs s !! (NamespaceDrafts, id) = Some r -> exists d, draft_at s id d.

Lemma read_update id s s' d : only id s s' -> draft_at s' id d -> drafts_read s -> drafts_read s'.
Proof.
  intros Ho Hd Hs id' r Hr. destruct (decide (id' = id)) as [->|Hne]; [by exists d|].
  assert (Spec.recs s' !! (NamespaceDrafts, id') = Spec.recs s !! (NamespaceDrafts, id')) as He by (apply Ho; intros [[_ ?]|[? _]]; done).
  rewrite He in Hr. destruct (Hs id' r Hr) as (d' & r' & Hr' & Hd'). exists d', r'. by rewrite He.
Qed.

Definition sound (s : Spec.state) : Prop := drafts_whole s /\ drafts_read s.

Lemma perform_sound e c s :
  Spec.wf s -> Spec.wf (between e s) -> later s (between e s) -> sound (between e s) -> good e c s -> sound (snd (perform e c s)).
Proof.
  intros Hw Hw1 Hl [Hwhole Hread] Hgood.
  destruct (perform e c s) as [[o|err] s'] eqn:Hp; [|by rewrite (perform_err e c s err s' Hp)]. cbn [snd].
  unfold perform in Hp. destruct c; apply answer_ok in Hp as (a & Hp & _).
  - apply create_run in Hp as (? & ? & ? & ? & ? & id & ? & rev & _ & _ & _ & _ & _ & _ & _ & _ & _ & _ & _ & _ & _ & Hat & ? & ? & _); try done.
    split; [done|]. by eapply read_update.
  - apply append_run in Hp as (? & ? & ? & ? & ? & ? & ? & ? & ? & _ & ? & _ & _ & _ & _ & _ & _ & _ & _ & _ & _ & _ & _ & _ & Hat & ? & _); try done.
    split; [done|]. by eapply read_update.
  - apply move_run in Hp as (? & ? & ? & _ & ? & _ & _ & _ & _ & Hat & ? & _); try done. split; [done|]. by eapply read_update.
  - apply delete_snapshot_run in Hp as (? & ? & ? & ? & _ & ? & _ & _ & _ & _ & _ & _ & _ & _ & Hat & ? & _); try done.
    split; [done|]. by eapply read_update.
  - apply publish_run in Hp as (? & ? & _ & [(_ & _ & ->)|(? & ? & ? & _ & _ & _ & _ & _ & Hat & _)]); try done.
    split; [done|]. by eapply read_update.
  - destruct a. split; [by eapply delete_whole|]. apply delete_run in Hp as (_ & _ & _ & Hrun). intros id' r Hr.
    rewrite Hrun in Hr. destruct (decide _) as [|Hn]; [done|]. destruct (Hread id' r Hr) as (d & r' & Hr' & Hd). exists d, r'.
    by rewrite Hrun, decide_False.
Qed.

(** A call that fails leaves the store as it found it. Whatever it fails
    on, before its transaction or inside it, or because the store does not
    commit, what is in the store afterwards is what others put there. *)
Theorem failed_call_changes_nothing e c s err : fst (perform e c s) = Err err -> snd (perform e c s) = between e s.
Proof. intros Hp. destruct (perform e c s) as [r s'] eqn:E. cbn in *. subst. by eapply perform_err. Qed.

(** ** Every interleaving *)

Lemma elsewhere_sound s s' : sound s -> elsewhere s s' -> sound s'.
Proof.
  intros [Hwhole Hread] (_ & _ & Hd & Hc). split.
  - intros id d (r & Hr & Hdec). rewrite Hd in Hr.
    assert (draft_at s id d) as Hat by by exists r. apply Forall_forall. intros m Hm.
    apply (holds_ext s); [by apply (Hc id d)|]. by apply (proj1 (Forall_forall _ _) (Hwhole id d Hat)).
  - intros id r Hr. rewrite Hd in Hr. destruct (Hread id r Hr) as (d & r' & Hr' & Hdec). exists d, r'. by rewrite Hd.
Qed.

Lemma sound_empty : sound Spec.empty.
Proof. split; [intros id d (r & Hr & _)|intros id r Hr]; cbn in Hr; by rewrite lookup_empty in Hr. Qed.

Definition ordered (now : Spec.state) (past : list Spec.state) : Prop :=
  Spec.wf now /\ sound now /\ Forall (fun s => Spec.wf s /\ later s now) past.

Lemma ordered_next now past next :
  ordered now past -> Spec.wf next -> later now next -> sound next -> ordered next (now :: past).
Proof.
  intros (Hw & Hs & Hp) Hw' Hl Hs'. split; [done|]. split; [done|]. constructor; [done|].
  eapply Forall_impl; [exact Hp|]. intros s [? ?]. split; [done|]. by etransitivity.
Qed.

Lemma run_ordered states : run states -> exists now past, states = now :: past /\ ordered now past.
Proof.
  induction 1 as [|e c read now past _ (? & ? & [= <- <-] & Ho) Hread Hbetween Hgood|now past next _ (? & ? & [= <- <-] & Ho) He].
  - exists Spec.empty, []. split; [done|]. split; [exact wf_empty|]. split; [exact sound_empty|constructor].
  - eexists _, _. split; [done|]. pose proof Ho as (Hw & Hs & Hp).
    assert (Spec.wf read /\ later read now) as [Hwr Hlr].
    { apply elem_of_cons in Hread as [->|Hin]; [by split|]. by apply (proj1 (Forall_forall _ _) Hp). }
    rewrite <- Hbetween in Hw, Hs, Hlr. destruct (perform_steady e c read Hw) as [Hw' Hl'].
    apply ordered_next; try done; [by rewrite <- Hbetween|]. by apply perform_sound.
  - eexists _, _. split; [done|]. apply ordered_next; [done|apply He..|]. eapply elsewhere_sound; [apply Ho|done].
Qed.

Lemma run_head now past : run (now :: past) -> ordered now past.
Proof. by intros (? & ? & [= <- <-] & Ho)%run_ordered. Qed.

(** C2: The invariant of the service, over every interleaving of its calls and
    of others. The store is in order, its revisions only go forward, and every
    snapshot of every draft that reads back is in the store whole: it has the
    size and the digest its manifest says and it is a valid document. *)
Theorem run_invariant now past :
  run (now :: past) -> Spec.wf now /\ Forall (fun s => later s now) past /\
    forall id d m, draft_at now id d -> m ∈ History d ->
      exists data doc, readPayload now kindSnapshot (man_ID m) (snapshotKey id (man_ID m)) m = Ok data /\
        Parse data = Ok doc /\ digestOf data = man_Digest m /\ blen data = man_Size m.
Proof.
  intros (Hw & [Hwhole _] & Hp)%run_head. split_and!; [done| |].
  - eapply Forall_impl; [exact Hp|]. by intros s [_ ?].
  - intros id d m Hat Hm. destruct (proj1 (Forall_forall _ _) (Hwhole id d Hat) m Hm) as (data & doc & Hr & Hparse).
    exists data, doc. split_and!; try done; by apply readPayload_inv in Hr as [? ?].
Qed.

(** C21: The service writes no record it cannot read. Over every interleaving,
    each record of a draft decodes and is well formed: its identifier is its
    key, its history has 1 to 50 snapshots with identifiers of their own and
    at most the bytes allowed, the cursor is on one of them, the last
    publication has the digest of its snapshot; so no draft is listed as
    damaged. *)
Theorem drafts_well_formed e now past :
  run (now :: past) ->
  (forall id r, Spec.recs now !! (NamespaceDrafts, id) = Some r ->
     exists d, decodeDraft r = Ok d /\ draft_ok id d /\ dm_Revision d = Record.Revision r) /\
  forall drafts damaged, ListDraftsWithDamaged e now = Ok (drafts, damaged) ->
    damaged = [] /\ length drafts = length (Spec.sorted_keys now NamespaceDrafts "").
Proof.
  intros (Hw & [_ Hread] & _)%run_head.
  assert (forall id r, Spec.recs now !! (NamespaceDrafts, id) = Some r ->
    exists d, decodeDraft r = Ok d /\ draft_ok id d /\ dm_Revision d = Record.Revision r) as Hall.
  { intros id r Hr. destruct (Hread id r Hr) as (d & r' & Hr' & Hd). rewrite Hr in Hr'. injection Hr' as <-. exists d. split; [done|].
    pose proof (decode_draft_inv _ _ Hd) as (Hok & ? & _). destruct Hw as (_ & Hw & _). apply Hw in Hr as (_ & <- & _). done. }
  split; [done|]. intros drafts damaged Hl. unfold ListDraftsWithDamaged in Hl. rewrite bind_unit in Hl. destruct Hl as [_ Hl].
  unfold Spec.list_records in Hl. destruct (validateRecordNamespaceAndPrefix NamespaceDrafts "") as [[]|]; [|done].
  cbn in Hl. injection Hl as <- <-.
  assert (forall k, k ∈ Spec.sorted_keys now NamespaceDrafts "" -> exists r d, Spec.recs now !! (NamespaceDrafts, k) = Some r /\ decodeDraft r = Ok d) as Hk.
  { intros k Hk%elem_of_sorted_keys. destruct Hk as [[r Hr] _]. destruct (Hall k r Hr) as (d & Hd & _). by exists r, d. }
  induction (Spec.sorted_keys now NamespaceDrafts "") as [|k l IH]; [done|].
  destruct (Hk k) as (r & d & Hr & Hd); [apply elem_of_cons; by left|]. destruct IH as [IH1 IH2]; [intros k' Hin; apply Hk, elem_of_cons; by right|].
  cbn. rewrite Hr. cbn. rewrite Hd. cbn. split; [done|]. by rewrite IH2.
Qed.

(** C39: A draft can always be opened. Whatever calls were made on the store, a
    draft that reads back has a current snapshot, and the service gives its
    document, while nobody deletes it. *)
Theorem draft_opens e now past id d :
  run (now :: past) -> draft_at now id d -> ctx_err e 0 = None -> between e now = now ->
  exists current data doc, Current d = Some current /\
    GetCurrentDocument e now id = Ok {| sn_Manifest := current; sn_Data := data; sn_Document := doc |} /\
    Parse data = Ok doc.
Proof.
  intros (Hw & [Hwhole _] & _)%run_head Hat Hctx Hb.
  destruct (draft_at_valid now id d Hw Hat) as (_ & Hok & _).
  assert (0 <= Cursor d < zlen (History d)) as Hc by apply Hok.
  destruct (lookup_lt_is_Some_2 (History d) (Z.to_nat (Cursor d))) as [m Hm]; [unfold zlen in Hc; lia|].
  destruct (proj1 (Forall_forall _ _) (Hwhole id d Hat) m ltac:(by eapply list_elem_of_lookup_2)) as (data & doc & Hr & Hparse).
  exists m, data, doc. rewrite <- (Current_lookup d Hc) in Hm. split_and!; try done.
  unfold GetCurrentDocument, GetDraft. rewrite (GetDraft_there e 0 now id d Hctx Hw Hat). cbn [res_bind]. rewrite Hm, Hb.
  unfold snapshot. rewrite Hr. cbn [res_bind]. unfold parseStored. by rewrite Hparse.
Qed.

(** ** No lost update *)

(** The calls that change the history or the cursor of a draft. *)
Definition edits (c : call) : option string :=
  match c with
  | AppendCall req => Some (ar_DraftID req)
  | MoveCall req => Some (mr_DraftID req)
  | DeleteSnapshotCall req => Some (dr_DraftID req)
  | _ => None
  end.

Lemma edit_run e c s id o s' :
  in_order e s -> good e c s -> edits c = Some id -> perform e c s = (Ok o, s') ->
  exists d d', draft_at s id d /\ draft_at (between e s) id d /\ draft_at s' id d' /\ Spec.rev (between e s) < dm_Revision d'.
Proof.
  intros (Hw & Hw1 & Hl & Hwhole) Hgood Hid Hp. unfold perform in Hp.
  destruct c; try done; injection Hid as <-; apply answer_ok in Hp as (a & Hp & _).
  - apply append_run in Hp as (d & ? & ? & ? & ? & ? & ? & ? & rev & ? & _ & _ & _ & ? & ? & _ & _ & _ & _ & _ & _ & _ & _ & _ & ? & _); try done.
    by eexists d, _.
  - apply move_run in Hp as (d & ? & rev & ? & _ & ? & ? & _ & _ & ? & _); try done. by eexists d, _.
  - apply delete_snapshot_run in Hp as (d & ? & ? & rev & ? & _ & ? & ? & _ & _ & _ & _ & _ & _ & ? & _); try done. by eexists d, _.
Qed.

(** C3: No update is lost. Of two calls that read a draft at the same moment
    to save it, to move its cursor or to delete a snapshot, at most one
    succeeds: once the first did, the second fails and changes nothing,
    whatever revision its caller expected. *)
Theorem no_lost_update e1 c1 e2 c2 s id o1 s1 :
  in_order e1 s -> in_order e2 s -> good e1 c1 s -> good e2 c2 s -> edits c1 = Some id -> edits c2 = Some id ->
  perform e1 c1 s = (Ok o1, s1) -> later s1 (between e2 s) ->
  exists err, perform e2 c2 s = (Err err, between e2 s).
Proof.
  intros Ho1 Ho2 Hg1 Hg2 He1 He2 Hp1 Hl. destruct (perform e2 c2 s) as [[o2|err] s2] eqn:Hp2.
  - exfalso. destruct (edit_run e1 c1 s id o1 s1 Ho1 Hg1 He1 Hp1) as (d & d1 & Hat & _ & (r1 & Hr1 & Hd1) & Hrev).
    destruct (edit_run e2 c2 s id o2 s2 Ho2 Hg2 He2 Hp2) as (d' & _ & (r & Hr & Hd) & (r' & Hr' & Hd') & _ & _).
    pose proof (decode_draft_inv _ _ Hd) as (_ & Er & _). pose proof (decode_draft_inv _ _ Hd') as (_ & Er' & _).
    pose proof (decode_draft_inv _ _ Hd1) as (_ & Er1 & _).
    destruct Ho1 as ((_ & Hw & _) & Hw1 & [Hle _] & _), Hl as [Hle1 Hl].
    pose proof (Hw _ _ _ Hr) as (_ & _ & Hb & _).
    pose proof (perform_steady e1 c1 s) as Hst. rewrite Hp1 in Hst. cbn in Hst.
    destruct Hst as (_ & Hle2 & _); [done|].
    assert (Spec.recs s1 !! (NamespaceDrafts, id) = Some r') as Hsame by (apply Hl; [done|lia]).
    rewrite Hr1 in Hsame. injection Hsame as ->. lia.
  - exists err. by rewrite (perform_err e2 c2 s err s2 Hp2).
Qed.

End Trace.
