(* ===== verification/Published.v ===== *)
(** * api/builder/published.go and cleanup.go: published documents

    The documents that configs were published from, their references, and the
    cleanups. A call that goes to the store more than once takes an [env] per
    access: what others do before it and how its write ends. *)

From Stdlib Require Import ZArith Lia Ascii String Strings.Byte.
From stdpp Require Import base option list gmap strings.
From S2P Require Import Prelude Record RecordSpec Text Codes Document Checks Layers Icons Validate Drafts Content DraftService.

Open Scope Z_scope.
Open Scope go_scope.

(** ** Data *)

Record PublishedDocument : Type := {
  pd_ID : string;
  pd_Digest : string;
  pd_Size : Z;
  pd_CompressedSize : Z;
  pd_Target : string;
  pd_Kind : string;
  pd_DraftID : string;
  pd_SnapshotID : string;
  pd_CreatedAt : Z;
  pd_CreatedBy : string;
  pd_Schema : string;
  pd_Revision : Z;
  published_at : Z;
}.

Record DocumentReference : Type := { ref_Digest : string; ref_ID : string; ref_Path : string }.

Record PutPublishedDocumentRequest : Type := {
  put_Target : string;
  put_Kind : string;
  put_Actor : string;
  put_Document : list byte;
  put_DraftID : string;
  put_SnapshotID : string;
}.

Record DamagedDocument : Type := { dmg_ID : string; dmg_Kind : string; dmg_Target : string; dmg_Revision : Z }.

Record DeletedConfig : Type := { dc_Kind : string; dc_Name : string; dc_DocumentID : string; dc_Updated : Z }.

Record LiveDocument : Type := { live_Target : string; live_ID : string }.

#[export] Instance LiveDocument_eq_dec : EqDecision LiveDocument.
Proof. solve_decision. Defined.

(** Errors gathered by a cleanup, per operation. *)
Record CleanupError : Type := { ce_Op : text; ce_Errors : list serror }.

Definition newCleanupError (op : string) (errs : list serror) : option CleanupError :=
  match errs with [] => None | _ => Some {| ce_Op := lit op; ce_Errors := errs |} end.

(** encoding/json of published documents and of references. [raw_published]
    is the kind and the target of a damaged record, read leniently;
    [reference_fields] is the strict decoder of an object of texts, nil for
    null, whose error is none for trailing content. *)
Class PublishedJSON := {
  marshal_published : PublishedDocument -> res string (list byte);
  unmarshal_published : list byte -> res (option string) PublishedDocument;
  raw_published : list byte -> option (string * string);
  marshal_reference : DocumentReference -> res string string;
  reference_fields : string -> res (option string) (option (gmap string (option string)));
}.

Definition MaxDocumentPathLength : Z := 1024.
Definition DocumentAnnotation : string := "builder-doc".
Definition publishedIDSeparator : string := String (ascii_of_nat 31) "".

(** [time.Hour] in nanoseconds. *)
Definition OrphanGracePeriod : Z := 3600000000000.

(** [time.Time.Sub]: a difference that does not fit is the nearest one. *)
Definition Sub (t u : Z) : Z := Z.max (- 2 ^ 63) (Z.min (2 ^ 63 - 1) (t - u)).

(** [Truncate(time.Second)]. *)
Definition truncate_second (t : Z) : Z := t - t mod 1000000000.

(** ** Names of configs (store/types.go) *)

(** The keys of the map [StoredVersion], in some order. *)
Definition StoredVersion_kinds : list string :=
  ["Topology"; "Scenario"; "Experiment"; "Image"; "User"; "Role"; "Node"; "Ruleset"; "Setting"].

Section Configs.
Context `{Unicode}.

Definition canonicalKind (kind : string) : string :=
  default "" (List.find (fun k => EqualFold k kind) StoredVersion_kinds).

Definition ConfigFullName (name : list string) : string :=
  match name with
  | [full] =>
      match split_on "/" full with
      | [kind; name] => if String.eqb (canonicalKind kind) "" then "" else canonicalKind kind +:+ "/" +:+ name
      | _ => ""
      end
  | [kind; name] => if String.eqb (canonicalKind kind) "" then "" else canonicalKind kind +:+ "/" +:+ name
  | _ => ""
  end.

End Configs.

(** ** Paths

    [path.Clean] of an absolute path: the pieces between slashes, less the
    empty ones and ".", where ".." takes the piece before it. *)
Definition clean_step (acc : list string) (piece : string) : list string :=
  if String.eqb piece "" || String.eqb piece "." then acc
  else if String.eqb piece ".." then tail acc
  else piece :: acc.

Definition Clean_rooted (value : string) : string :=
  match rev (foldl clean_step [] (split_on "/" value)) with
  | [] => "/"
  | pieces => foldl (fun acc p => acc +:+ "/" +:+ p) "" pieces
  end.

(** [path.Ext]: from the last dot of the last piece. *)
Fixpoint last_dot (s : string) : option string :=
  match s with
  | EmptyString => None
  | String a s' =>
      match last_dot s' with
      | Some e => Some e
      | None => if Ascii.eqb a "." then Some s else None
      end
  end.

Definition Ext (value : string) : string := default "" (last (split_on "/" value) ≫= last_dot).

Definition documentPathExtensions : list string := [".json"; ".yaml"; ".yml"].

Definition quoted (s : string) : string := dq +:+ s +:+ dq.

Definition ValidateDocumentPath (value : string) : res serror unit :=
  let field := DocumentAnnotation +:+ ".path" in
  let? _ := validateText field value MaxDocumentPathLength true in
  if negb (has_prefix value "/") then Err (newValidationError field (lit "must be an absolute path"))
  else if negb (String.eqb (Clean_rooted value) value) then
    Err (newValidationError field (lit ("must be a clean path, with no " +:+ quoted "." +:+ ", " +:+ quoted ".." +:+ ", " +:+ quoted "//" +:+ " or trailing " +:+ quoted "/")))
  else if negb (existsb (String.eqb (Ext value)) documentPathExtensions) then
    Err (newValidationError field (lit "must end in .json, .yaml or .yml"))
  else Ok tt.

Section References.
Context `{Unicode}.

Definition validateReference (ref : DocumentReference) : res serror unit :=
  if String.eqb (ref_Digest ref) "" && String.eqb (ref_ID ref) "" && String.eqb (ref_Path ref) "" then
    Err (newValidationError DocumentAnnotation (lit "must name a digest, an id or a path"))
  else if negb (String.eqb (ref_Digest ref) "") && negb (IsDigest (ref_Digest ref)) then
    Err (newValidationError DocumentAnnotation (lit "digest is not a sha256 digest"))
  else if negb (String.eqb (ref_ID ref) "") && negb (ok (validateID "id" (ref_ID ref))) then
    Err (newValidationError DocumentAnnotation (lit "id is not a valid document identifier"))
  else if negb (String.eqb (ref_Path ref) "") then ValidateDocumentPath (ref_Path ref)
  else Ok tt.

End References.

Section Published.
Context `{Unicode, Libraries, PNG, Compression, ServiceJSON, PublishedJSON}.

(** ** Documents *)

Definition canonicalDocument (data : list byte) : res serror (list byte * Document) :=
  let? doc := parseDocument data in
  let? canonical := encodeDocument doc in
  Ok (canonical, doc).

Definition EncodeDocument (doc : option Document) : res serror (list byte) :=
  match doc with
  | None => Err (newValidationError "document" (lit "must not be nil"))
  | Some doc =>
      match Validate list_order doc with
      | Some issues => Err (newValidationCause "document" (lit "is not a valid builder document") (InvalidDocument issues))
      | None =>
          match encode_document doc with
          | Err what => Err (SWrap (lit "encoding builder document: %w") (SOther what))
          | Ok data =>
              if MaxDocumentBytes <? blen data then Err (newTooLargeError "document" (blen data) MaxDocumentBytes)
              else Ok data
          end
      end
  end.

Definition ParseDocument (data : list byte) : res serror Document :=
  let? (_, doc) := canonicalDocument data in Ok doc.

Definition PublishedDocumentID (target digest : string) : string :=
  Z_string (hex_encode (Sum256 (String.list_byte_of_string (target +:+ publishedIDSeparator +:+ digest)))).

(** ** References *)

Definition EncodeReference (r : DocumentReference) : res serror string :=
  match marshal_reference r with
  | Err what => Err (SWrap (lit "encoding builder document reference: %w") (SOther what))
  | Ok data => Ok data
  end.

(** One turn of the loop over the sub-keys. *)
Definition reference_step (fields : gmap string (option string)) (r : res serror DocumentReference) (key : string)
  : res serror DocumentReference :=
  let? ref := r in
  let? set :=
    if String.eqb key "digest" then Ok (fun t => {| ref_Digest := t; ref_ID := ref_ID ref; ref_Path := ref_Path ref |})
    else if String.eqb key "id" then Ok (fun t => {| ref_Digest := ref_Digest ref; ref_ID := t; ref_Path := ref_Path ref |})
    else if String.eqb key "path" then Ok (fun t => {| ref_Digest := ref_Digest ref; ref_ID := ref_ID ref; ref_Path := t |})
    else Err (newValidationError DocumentAnnotation
                (Sprintf "has the unknown sub-key %q: its sub-keys are digest, id and path" [AStr key])) in
  match fields !! key with
  | Some (Some (String a t)) => Ok (set (String a t))
  | _ => Err (newValidationError DocumentAnnotation (Sprintf "%s must be text that is not empty" [AStr key]))
  end.

Definition DecodeReference (value : string) : res serror DocumentReference :=
  match reference_fields value with
  | Err None => Err (newValidationError DocumentAnnotation (lit "carries trailing content"))
  | Err (Some what) =>
      Err (newValidationCause DocumentAnnotation (lit "is not a valid builder document reference") (Undecodable what))
  | Ok None => Err (newValidationError DocumentAnnotation (lit "must be a map of digest, id and path"))
  | Ok (Some fields) =>
      let? ref := foldl (reference_step fields) (Ok {| ref_Digest := ""; ref_ID := ""; ref_Path := "" |}) (sorted_keys fields) in
      let? _ := validateReference ref in Ok ref
  end.

Definition StoredID (r : DocumentReference) (topology : string) : string :=
  if negb (String.eqb (ref_ID r) "") then ref_ID r
  else if negb (String.eqb (ref_Digest r) "") then PublishedDocumentID topology (ref_Digest r)
  else "".

Definition Names (r : DocumentReference) (doc : option PublishedDocument) : bool :=
  match doc with
  | None => false
  | Some doc =>
      String.eqb (StoredID r (pd_Target doc)) (pd_ID doc) &&
      (String.eqb (ref_Digest r) "" || String.eqb (ref_Digest r) (pd_Digest doc))
  end.

Definition Publishes (r : DocumentReference) (topology digest : string) : bool :=
  String.eqb (StoredID r topology) (PublishedDocumentID topology digest) &&
  (String.eqb (ref_Digest r) "" || String.eqb (ref_Digest r) digest).

(** ** Records *)

(** [PublishedDocument.manifest]. *)
Definition published_manifest (p : PublishedDocument) : SnapshotManifest := {|
  man_ID := pd_ID p; man_Digest := pd_Digest p; man_Size := pd_Size p; man_CompressedSize := pd_CompressedSize p;
  man_CreatedAt := pd_CreatedAt p; man_CreatedBy := pd_CreatedBy p; man_Summary := ""; man_OpID := "" |}.

(** [PublishedDocument.stored], and what [decodePublished] takes of the record. *)
Definition stored (p : PublishedDocument) (r : record) : PublishedDocument := {|
  pd_ID := pd_ID p; pd_Digest := pd_Digest p; pd_Size := pd_Size p; pd_CompressedSize := pd_CompressedSize p;
  pd_Target := pd_Target p; pd_Kind := pd_Kind p; pd_DraftID := pd_DraftID p; pd_SnapshotID := pd_SnapshotID p;
  pd_CreatedAt := pd_CreatedAt p; pd_CreatedBy := pd_CreatedBy p; pd_Schema := pd_Schema p;
  pd_Revision := Record.Revision r; published_at := Updated r |}.

Definition lastPublished (p : PublishedDocument) : Z :=
  if pd_CreatedAt p <? published_at p then published_at p else pd_CreatedAt p.

Definition validatePublishedMetadata (key : string) (doc : PublishedDocument) : res serror unit :=
  let corrupt what := newCorruptError kindPublished key what in
  let? _ := guard (String.eqb (pd_ID doc) key) (corrupt (Sprintf "metadata claims to be document %q" [AStr (pd_ID doc)])) in
  let? _ := guard (ok (validateID "documentID" (pd_ID doc))) (corrupt (lit "document ID is not a valid identifier")) in
  let? _ := guard (negb (String.eqb (pd_Target doc) "")) (corrupt (lit "metadata has no target")) in
  let? _ := guard (negb (String.eqb (pd_Kind doc) "")) (corrupt (lit "metadata has no kind")) in
  let? _ := guard (String.eqb (pd_ID doc) (PublishedDocumentID (pd_Target doc) (pd_Digest doc)))
    (corrupt (lit "document ID does not match its target and digest")) in
  let? _ := guard (ok (validateOptionalID "draftID" (pd_DraftID doc))) (corrupt (lit "metadata names an invalid draft")) in
  let? _ := guard (ok (validateOptionalID "snapshotID" (pd_SnapshotID doc))) (corrupt (lit "metadata names an invalid snapshot")) in
  let? _ := guard (String.eqb (pd_Schema doc) "" || String.eqb (pd_Schema doc) SchemaURI)
    (corrupt (Sprintf "schema %q is not %q" [AStr (pd_Schema doc); AStr SchemaURI])) in
  validateManifestShape kindPublished key (published_manifest doc).

Definition encodePublished (doc : PublishedDocument) : res serror (list byte) :=
  match marshal_published doc with
  | Err what => Err (SWrap (Sprintf "encoding published document %s: %w" [AStr (pd_ID doc)]) (SOther what))
  | Ok value =>
      if MaxMetadataBytes <? blen value then
        Err (newTooLargeError "published document metadata" (blen value) MaxMetadataBytes)
      else Ok value
  end.

Definition decodePublished (record : record) : res serror PublishedDocument :=
  match decodeMetadata kindPublished (unmarshal_published (bytes_of (Value record))) with
  | Err reason => Err (newCorruptError kindPublished (Key record) reason)
  | Ok doc => let? _ := validatePublishedMetadata (Key record) doc in Ok (stored doc record)
  end.

(** ** Publishing *)

Definition validatePutRequest (req : PutPublishedDocumentRequest) : res serror unit :=
  let? _ := validateText "target" (put_Target req) MaxTargetLength true in
  let? _ := validateText "kind" (put_Kind req) MaxKindLength true in
  let? _ := validateText "actor" (put_Actor req) MaxOwnerLength true in
  let? _ := validateOptionalID "draftID" (put_DraftID req) in
  validateOptionalID "snapshotID" (put_SnapshotID req).

(** An operation of a published record in a transaction, its error translated. *)
Definition pub_call {A} (id : string) (expected : Z) (m : st Spec.state error A) : st Spec.state serror A :=
  map_err (storeError kindPublished id expected) (tx_call m).

(** [putPublished]. *)
Definition putPublished (e : env) (doc : PublishedDocument) (value : list byte) (load : payload)
  : st Spec.state serror PublishedDocument := fun s =>
  let time := store_time e NamespacePublished (pd_ID doc) in
  match tx_call (Spec.get NamespacePublished (pd_ID doc)) s with
  | (Err err, s) =>
      if is_store err ErrRecordNotExist then
        (let! _ := putContent (store_time e) (publishedKey (pd_ID doc)) load in
         let! record := pub_call (pd_ID doc) AnyRevision (Spec.create time NamespacePublished (pd_ID doc) (Some value)) in
         st_ret (stored doc record)) s
      else (Err (storeError kindPublished (pd_ID doc) AnyRevision err), s)
  | (Ok record, s) =>
      match decodePublished record with
      | Err err => (Err err, s)
      | Ok existing =>
          match readPayload s kindPublished (pd_ID existing) (publishedKey (pd_ID existing)) (published_manifest existing) with
          | Ok _ =>
              (let! again := pub_call (pd_ID doc) (Record.Revision record)
                 (Spec.update time NamespacePublished (pd_ID doc) (Value record) (Record.Revision record)) in
               st_ret (stored existing again)) s
          | Err err =>
              if is_corrupt err then
                (let! _ := putContent (store_time e) (publishedKey (pd_ID doc)) load in
                 let! replaced := pub_call (pd_ID doc) (Record.Revision record)
                   (Spec.update time NamespacePublished (pd_ID doc) (Some value) (Record.Revision record)) in
                 st_ret (stored doc replaced)) s
              else (Err err, s)
          end
      end
  end.

(** What [PutPublishedDocument] does before its transaction. *)
Definition put_plan (e : env) (req : PutPublishedDocumentRequest) : res serror (PublishedDocument * list byte * payload) :=
  let? _ := check_ctx e 0 (lit "putting published document: %w") in
  let? _ := validatePutRequest req in
  let? (canonical, parsed) := canonicalDocument (put_Document req) in
  let? load := buildPayload canonical in
  let doc := {|
    pd_ID := PublishedDocumentID (put_Target req) (load_digest load); pd_Digest := load_digest load; pd_Size := load_size load;
    pd_CompressedSize := blen (load_compressed load); pd_Target := put_Target req; pd_Kind := put_Kind req;
    pd_DraftID := put_DraftID req; pd_SnapshotID := put_SnapshotID req; pd_CreatedAt := clock e;
    pd_CreatedBy := put_Actor req; pd_Schema := Schema parsed; pd_Revision := AnyRevision; published_at := zero_time |} in
  let? value := encodePublished doc in
  Ok (doc, value, load).

Definition PutPublishedDocument (e : env) (req : PutPublishedDocumentRequest) : st Spec.state serror PublishedDocument := fun s =>
  match put_plan e req with
  | Err err => (Err err, between e s)
  | Ok (doc, value, load) =>
      map_err (txnError kindPublished (pd_ID doc) AnyRevision) (RecordTxn e (putPublished e doc value load)) (between e s)
  end.

(** ** Reading *)

Definition GetPublishedDocument (e : env) (s : Spec.state) (documentID : string) : res serror PublishedDocument :=
  let? _ := check_ctx e 0 (Sprintf "getting published document %s: %w" [AStr documentID]) in
  let? _ := validateID "documentID" documentID in
  let? record := res_map_err (storeError kindPublished documentID AnyRevision) (getRecord s NamespacePublished documentID) in
  decodePublished record.

(** The content is read after the metadata, so from a later store. *)
Definition GetPublishedDocumentData (e : env) (s : Spec.state) (documentID : string)
  : res serror (PublishedDocument * list byte) :=
  let? doc := GetPublishedDocument e s documentID in
  let? data := readPayload (between e s) kindPublished (pd_ID doc) (publishedKey (pd_ID doc)) (published_manifest doc) in
  let? _ := parseStored kindPublished (pd_ID doc) data in
  Ok (doc, data).

(** The documents that decode, the keys of the others and why. *)
Definition listReadablePublished (e : env) (s : Spec.state)
  : res serror (list PublishedDocument * list string * list serror) :=
  let? _ := check_ctx e 0 (lit "listing published documents: %w") in
  let? records := res_map_err (fun err => SWrap (lit "listing published documents: %w") (SRaw err))
                    (Spec.list_records NamespacePublished "" s) in
  Ok (omap (fun r => match decodePublished r with Ok doc => Some doc | Err _ => None end) records,
      omap (fun r => match decodePublished r with Ok _ => None | Err _ => Some (Key r) end) records,
      omap (fun r => match decodePublished r with Ok _ => None | Err err => Some err end) records).

Definition ListPublishedDocuments (e : env) (s : Spec.state) : res serror (list PublishedDocument) :=
  let? (docs, _, _) := listReadablePublished e s in Ok docs.

Definition checkDamaged (record : record) : res serror unit :=
  match decodePublished record with
  | Ok _ => Err (newValidationError "documentID" (lit "the published document is not damaged"))
  | Err _ => Ok tt
  end.

Definition GetDamagedDocument (e : env) (s : Spec.state) (documentID : string) : res serror DamagedDocument :=
  let? _ := check_ctx e 0 (Sprintf "getting published document %s: %w" [AStr documentID]) in
  let? _ := validateID "documentID" documentID in
  let? record := res_map_err (storeError kindPublished documentID AnyRevision) (getRecord s NamespacePublished documentID) in
  let? _ := checkDamaged record in
  let '(kind, target) :=
    match raw_published (bytes_of (Value record)) with
    | Some (kind, target) =>
        if ok (validateText "target" target MaxTargetLength true) && ok (validateText "kind" kind MaxKindLength true)
        then (kind, target) else ("", "")
    | None => ("", "")
    end in
  Ok {| dmg_ID := documentID; dmg_Kind := kind; dmg_Target := target; dmg_Revision := Record.Revision record |}.

(** ** Deleting *)

Definition DeleteDamagedDocument (e : env) (documentID : string) (revision : Z) : st Spec.state serror unit := fun s =>
  match (let? _ := check_ctx e 0 (Sprintf "deleting published document %s: %w" [AStr documentID]) in
         validateID "documentID" documentID) with
  | Err err => (Err err, between e s)
  | Ok _ =>
      map_err (txnError kindPublished documentID revision) (RecordTxn e (
        let! record := pub_call documentID revision (Spec.get NamespacePublished documentID) in
        let! _ := st_lift (if Record.Revision record =? revision then Ok tt
                           else Err (SConflict kindPublished documentID revision (Record.Revision record) (lit ""))) in
        let! _ := st_lift (checkDamaged record) in
        let! _ := pub_call documentID revision (Spec.delete NamespacePublished documentID revision) in
        dropContent (publishedKey documentID))) (between e s)
  end.

Definition deletePublished (e : env) (documentID : string) (revision : Z) : st Spec.state serror unit := fun s =>
  map_err (txnError kindPublished documentID revision) (RecordTxn e (
    let! _ := pub_call documentID revision (Spec.delete NamespacePublished documentID revision) in
    dropContent (publishedKey documentID))) (between e s).

(** Whether the document was removed, and the error that is reported. *)
Definition deleteListed (e : env) (doc : PublishedDocument) (s : Spec.state) : bool * option serror * Spec.state :=
  match deletePublished e (pd_ID doc) (pd_Revision doc) s with
  | (Ok _, s) => (true, None, s)
  | (Err err, s) => if is_conflict err || is_not_found err then (false, None, s) else (false, Some err, s)
  end.

(** The loop of [deleteDocuments]; the first document is number [n]. *)
Fixpoint delete_documents (es : nat -> env) (n : nat) (docs : list PublishedDocument) (remove : PublishedDocument -> bool)
    (s : Spec.state) : Z * list serror * Spec.state :=
  match docs with
  | [] => (0, [], s)
  | doc :: docs =>
      if negb (remove doc) then delete_documents es (S n) docs remove s
      else
        let '(deleted, err, s) := deleteListed (es n) doc s in
        let '(removed, errs, s) := delete_documents es (S n) docs remove s in
        ((if deleted then removed + 1 else removed), option_list err ++ errs, s)
  end.

Definition deleteDocuments (es : nat -> env) (n : nat) (operation : string) (docs : list PublishedDocument)
    (remove : PublishedDocument -> bool) (s : Spec.state) : Z * option CleanupError * Spec.state :=
  let '(removed, errs, s) := delete_documents es n docs remove s in
  (removed, newCleanupError operation errs, s).

(** A call that lists the documents first: its listing is access 0, and what
    it answers when the listing fails is the error. *)
Definition deleteDocumentsWhere (es : nat -> env) (operation : string) (remove : PublishedDocument -> bool) (s : Spec.state)
  : res serror (Z * option CleanupError) * Spec.state :=
  let s := between (es 0%nat) s in
  match ListPublishedDocuments (es 0%nat) s with
  | Err err => (Err err, s)
  | Ok docs => let '(removed, err, s) := deleteDocuments es 1 operation docs remove s in (Ok (removed, err), s)
  end.

Definition DeleteSupersededDocuments (es : nat -> env) (target keepID : string) (s : Spec.state)
  : res serror (Z * option CleanupError) * Spec.state :=
  match (let? _ := validateText "target" target MaxTargetLength true in validateOptionalID "keepID" keepID) with
  | Err err => (Err err, s)
  | Ok _ =>
      deleteDocumentsWhere es "deleting superseded documents" (fun doc =>
        String.eqb (pd_Target doc) target && negb (String.eqb (pd_ID doc) keepID) &&
        (OrphanGracePeriod <=? Sub (clock (es 0%nat)) (lastPublished doc))) s
  end.

Definition DeleteTargetDocuments (es : nat -> env) (target : string) (s : Spec.state)
  : res serror (Z * option CleanupError) * Spec.state :=
  match validateText "target" target MaxTargetLength true with
  | Err err => (Err err, s)
  | Ok _ => deleteDocumentsWhere es "deleting target documents" (fun doc => String.eqb (pd_Target doc) target) s
  end.

(** When the document the config named was stored: the last of the listing
    that counts. *)
Definition named_time (deleted : DeletedConfig) (config : string) (docs : list PublishedDocument) : Z :=
  foldl (fun named doc =>
    if (dc_Updated deleted =? zero_time) || negb (String.eqb (pd_ID doc) (dc_DocumentID deleted)) ||
       negb (String.eqb (ConfigFullName [pd_Kind doc; pd_Target doc]) config) then named
    else if lastPublished doc <? truncate_second (dc_Updated deleted) + 1000000000 then lastPublished doc else named)
    zero_time docs.

(** Which documents of the listing go with the config. *)
Definition goes_with (now : Z) (deleted : DeletedConfig) (config : string) (docs : list PublishedDocument)
    (doc : PublishedDocument) : bool :=
  let named := named_time deleted config docs in
  let published := lastPublished doc in
  String.eqb (ConfigFullName [pd_Kind doc; pd_Target doc]) config &&
  ((published <? truncate_second (dc_Updated deleted)) ||
   (negb (named =? zero_time) && (published <=? named)) ||
   (OrphanGracePeriod <=? Sub now published)).

Definition DeleteConfigDocuments (es : nat -> env) (deleted : DeletedConfig) (s : Spec.state)
  : res serror (Z * option CleanupError) * Spec.state :=
  let config := ConfigFullName [dc_Kind deleted; dc_Name deleted] in
  match (let? _ := validateText "name" (dc_Name deleted) MaxTargetLength true in
         let? _ := validateOptionalID "documentID" (dc_DocumentID deleted) in
         guard (negb (String.eqb config "")) (newValidationError "kind" (lit "must be a config kind"))) with
  | Err err => (Err err, s)
  | Ok _ =>
      let s := between (es 0%nat) s in
      match ListPublishedDocuments (es 0%nat) s with
      | Err err => (Err err, s)
      | Ok docs =>
          let '(removed, err, s) :=
            deleteDocuments es 1 "deleting documents of a deleted config" docs
              (goes_with (clock (es 0%nat)) deleted config docs) s in
          (Ok (removed, err), s)
      end
  end.

(** ** Cleaning up (cleanup.go) *)

Definition orphan (now : Z) (referenced : list LiveDocument) (doc : PublishedDocument) : bool :=
  negb (bool_decide ({| live_Target := pd_Target doc; live_ID := pd_ID doc |} ∈ referenced)) &&
  (OrphanGracePeriod <=? Sub now (lastPublished doc)).

(** The answer joins the errors of the records that do not decode and those
    of the deletions. *)
Definition CleanupOrphanedDocuments (es : nat -> env) (referenced : list LiveDocument) (dryRun : bool) (s : Spec.state)
  : res serror (Z * list CleanupError) * Spec.state :=
  let operation := "cleaning up orphaned documents" in
  let s := between (es 0%nat) s in
  match listReadablePublished (es 0%nat) s with
  | Err err => (Err err, s)
  | Ok (docs, _, unreadable) =>
      let orphan := orphan (clock (es 0%nat)) referenced in
      if negb dryRun then
        let '(removed, err, s) := deleteDocuments es 1 operation docs orphan s in
        (Ok (removed, option_list (newCleanupError operation unreadable) ++ option_list err), s)
      else (Ok (zlen (filter orphan docs), option_list (newCleanupError operation unreadable)), s)
  end.

(** The keys of the content that something names. *)
Definition live_keys (drafts : list DraftMetadata) (docs : list PublishedDocument) (damaged : list string) : list string :=
  (drafts ≫= fun d => (fun m => snapshotKey (dm_ID d) (man_ID m)) <$> History d) ++
  ((fun doc => publishedKey (pd_ID doc)) <$> docs) ++ (publishedKey <$> damaged).

(** The loop of [CleanupOrphanedContent]: a key is read at access [n] and its
    record deleted at the next. *)
Fixpoint clean_keys (es : nat -> env) (n : nat) (now : Z) (dryRun : bool) (live unreadable : list string) (keys : list string)
    (s : Spec.state) : Z * list serror * Spec.state :=
  match keys with
  | [] => (0, [], s)
  | key :: keys =>
      match contentDraftOf key with
      | None =>
          let '(removed, errs, s) := clean_keys es (S (S n)) now dryRun live unreadable keys s in
          (removed, newCorruptError "content" key (lit "key is not shaped like a content key") :: errs, s)
      | Some draftID =>
          if bool_decide (key ∈ live) || (negb (String.eqb draftID "") && bool_decide (draftID ∈ unreadable)) then
            clean_keys es (S (S n)) now dryRun live unreadable keys s
          else
            let s := between (es n) s in
            match getRecord s NamespaceContent key with
            | Err err =>
                let '(removed, errs, s) := clean_keys es (S (S n)) now dryRun live unreadable keys s in
                (removed, if is_store err ErrRecordNotExist then errs
                          else SWrap (Sprintf "reading content %s: %w" [AStr key]) err :: errs, s)
            | Ok record =>
                if Sub now (Updated record) <? OrphanGracePeriod then
                  clean_keys es (S (S n)) now dryRun live unreadable keys s
                else if dryRun then
                  let '(removed, errs, s) := clean_keys es (S (S n)) now dryRun live unreadable keys s in
                  (removed + 1, errs, s)
                else
                  let '(r, s) := RecordTxn (es (S n)) (tx_call (Spec.delete NamespaceContent key (Record.Revision record)))
                                   (between (es (S n)) s) in
                  let '(removed, errs, s) := clean_keys es (S (S n)) now dryRun live unreadable keys s in
                  match r with
                  | Ok _ => (removed + 1, errs, s)
                  | Err err =>
                      (removed, if is_store err ErrRecordNotExist || is_store err ErrRecordConflict then errs
                                else SWrap (Sprintf "deleting content %s: %w" [AStr key]) err :: errs, s)
                  end
            end
      end
  end.

(** The drafts are listed at access 0, the documents at 1 and the keys at 2. *)
Definition CleanupOrphanedContent (es : nat -> env) (dryRun : bool) (s : Spec.state)
  : res serror (Z * option CleanupError) * Spec.state :=
  let s := between (es 0%nat) s in
  match listDrafts (es 0%nat) s with
  | Err err => (Err err, s)
  | Ok (drafts, unreadable) =>
      let s := between (es 1%nat) s in
      match listReadablePublished (es 1%nat) s with
      | Err err => (Err err, s)
      | Ok (docs, damaged, _) =>
          let s := between (es 2%nat) s in
          match Spec.list_keys NamespaceContent "" s with
          | Err err => (Err (SWrap (lit "listing content keys: %w") (SRaw err)), s)
          | Ok keys =>
              let '(removed, errs, s) :=
                clean_keys es 3 (clock (es 2%nat)) dryRun (live_keys drafts docs damaged) unreadable keys s in
              (Ok (removed, newCleanupError "cleaning up orphaned content" errs), s)
          end
      end
  end.

(** [PublicationState.live]. *)
Definition live (p : PublicationState) : LiveDocument := {| live_Target := ps_TopologyTarget p; live_ID := ps_DocumentID p |}.

(** The loop of [DeletePublishedDrafts]. A draft that is published and
    unchanged has a publication. *)
Fixpoint delete_drafts (es : nat -> env) (n : nat) (actor : string) (referenced : list LiveDocument) (dryRun : bool)
    (drafts : list DraftMetadata) (s : Spec.state) : list string * list serror * Spec.state :=
  match drafts with
  | [] => ([], [], s)
  | draft :: drafts =>
      if negb (PublishedUnchanged draft) ||
         negb (match Publication draft with Some p => bool_decide (live p ∈ referenced) | None => false end) then
        delete_drafts es (S n) actor referenced dryRun drafts s
      else if dryRun then
        let '(removed, errs, s) := delete_drafts es (S n) actor referenced dryRun drafts s in
        (dm_ID draft :: removed, errs, s)
      else
        let '(r, s) := DeleteDraft (es n) (dm_ID draft) actor (dm_Revision draft) s in
        let '(removed, errs, s) := delete_drafts es (S n) actor referenced dryRun drafts s in
        match r with
        | Ok _ => (dm_ID draft :: removed, errs, s)
        | Err err => (removed, if is_conflict err || is_not_found err then errs else err :: errs, s)
        end
  end.

Definition DeletePublishedDrafts (es : nat -> env) (actor : string) (referenced : list LiveDocument) (dryRun : bool) (s : Spec.state)
  : res serror (list string * option CleanupError) * Spec.state :=
  match validateText "actor" actor MaxOwnerLength true with
  | Err err => (Err err, s)
  | Ok _ =>
      let s := between (es 0%nat) s in
      match ListDraftsWithDamaged (es 0%nat) s with
      | Err err => (Err err, s)
      | Ok (drafts, _) =>
          let '(removed, errs, s) := delete_drafts es 1 actor referenced dryRun drafts s in
          (Ok (removed, newCleanupError "deleting published, unchanged drafts" errs), s)
      end
  end.

End Published.
