(* ===== verification/PublishedSpec.v ===== *)
(** * What publishing promises

    A published document is right when its identifier is the one its target
    and its content give, and whole when its content is in the store, intact.
    What a call that publishes or deletes leaves in the store. *)

From Stdlib Require Import ZArith Lia Ascii String Strings.Byte.
From stdpp Require Import base option list gmap strings sorting.
From S2P Require Import Prelude Record RecordSpec Text Codes Document Checks Layers Icons Validate Parents ValidateSpec EdgeSpec DocumentSpec.
From S2P Require Import Drafts Content DraftService Published DraftSpec DraftStore DraftWrites.

Open Scope Z_scope.
Open Scope go_scope.

(** The texts of a published record, and what of it is stored. *)
Definition published_texts (p : PublishedDocument) : list string :=
  [pd_ID p; pd_Digest p; pd_Target p; pd_Kind p; pd_DraftID p; pd_SnapshotID p; pd_CreatedBy p; pd_Schema p].

Definition unread (p : PublishedDocument) : PublishedDocument := {|
  pd_ID := pd_ID p; pd_Digest := pd_Digest p; pd_Size := pd_Size p; pd_CompressedSize := pd_CompressedSize p;
  pd_Target := pd_Target p; pd_Kind := pd_Kind p; pd_DraftID := pd_DraftID p; pd_SnapshotID := pd_SnapshotID p;
  pd_CreatedAt := pd_CreatedAt p; pd_CreatedBy := pd_CreatedBy p; pd_Schema := pd_Schema p; pd_Revision := 0;
  published_at := zero_time |}.

(** What is relied on of encoding/json: a record of valid UTF-8 comes back. *)
Class PublishedLaws `{PublishedJSON} : Prop := {
  unmarshal_marshal_published p v :
    marshal_published p = Ok v -> utf8 (published_texts p) -> unmarshal_published v = Ok (unread p);
}.

Section PublishedSpec.
Context `{ServiceLaws} `{!CompressionLaws} `{PublishedLaws}.

Lemma published_id target digest : ValidID (PublishedDocumentID target digest) = true.
Proof.
  unfold PublishedDocumentID. set (data := String.list_byte_of_string _). destruct (hex_encode_lower (Sum256 data)) as [Hl Hn].
  rewrite length_Sum256 in Hn. unfold ValidID. set (l := hex_encode (Sum256 data)) in *.
  rewrite bytes_Z_string by (eapply Forall_impl; [exact Hl|]; intros b (_ & _ & ?)%hex_value_lower; cbv beta; lia).
  destruct l as [|b l]; [done|]. apply Forall_cons in Hl as [Hb Hl]. rewrite !andb_true_iff. split_and!.
  - revert Hb. unfold is_hex_lower, is_alnum, is_digit, is_letter, in_range. lia.
  - apply forallb_Forall. eapply Forall_impl; [exact Hl|]. intros x. unfold is_hex_lower, id_byte, is_alnum, is_digit, is_letter, in_range. cbv beta. lia.
  - apply Nat.leb_le. cbn in Hn. lia.
Qed.

(** A published record that is right, under its key. *)
Definition published_ok (key : string) (p : PublishedDocument) : Prop :=
  pd_ID p = key /\ ValidID key = true /\ pd_Target p <> "" /\ pd_Kind p <> "" /\
  key = PublishedDocumentID (pd_Target p) (pd_Digest p) /\
  (pd_DraftID p = "" \/ ValidID (pd_DraftID p) = true) /\ (pd_SnapshotID p = "" \/ ValidID (pd_SnapshotID p) = true) /\
  (pd_Schema p = "" \/ pd_Schema p = SchemaURI) /\ manifest_ok (published_manifest p).

Lemma optional_id_ok field id : ok (validateOptionalID field id) = true <-> id = "" \/ ValidID id = true.
Proof.
  unfold validateOptionalID. destruct (String.eqb_spec id "") as [->|Hne]; [split; [by left|done]|].
  unfold validateID. destruct (ValidID id); cbn; naive_solver.
Qed.

Lemma published_metadata_ok key p : validatePublishedMetadata key p = Ok tt <-> published_ok key p.
Proof.
  unfold validatePublishedMetadata, published_ok. cbn zeta. rewrite !bind_unit, !guard_ok, !optional_id_ok, orb_true_iff, !negb_true_iff.
  rewrite !String.eqb_eq, !String.eqb_neq.
  assert (ok (validateID "documentID" (pd_ID p)) = ValidID (pd_ID p)) as -> by by (unfold validateID; destruct (ValidID (pd_ID p))).
  split.
  - intros (<- & Hid & ? & ? & ? & ? & ? & ? & Hm%manifest_shape); done.
  - intros (<- & Hid & ? & ? & ? & ? & ? & ? & Hm). split_and!; try done. by apply manifest_shape.
Qed.

(** ** The invariant *)

Definition published_in (s : Spec.state) (id : string) (p : PublishedDocument) : Prop :=
  exists r, Spec.recs s !! (NamespacePublished, id) = Some r /\ decodePublished r = Ok p.

(** The content of the document is in the store, whole, and is valid. *)
Definition published_holds (s : Spec.state) (p : PublishedDocument) : Prop :=
  exists data doc, readPayload s kindPublished (pd_ID p) (publishedKey (pd_ID p)) (published_manifest p) = Ok data /\ Parse data = Ok doc.

Definition published_whole (s : Spec.state) : Prop := forall id p, published_in s id p -> published_holds s p.

Definition published_read (s : Spec.state) : Prop :=
  forall id r, Spec.recs s !! (NamespacePublished, id) = Some r -> exists p, published_in s id p.

(** What a call on a published document may touch. *)
Definition of_document (id ns k : string) : Prop :=
  (ns = NamespacePublished /\ k = id) \/ (ns = NamespaceContent /\ k = publishedKey id).

Definition only_document (id : string) (s s' : Spec.state) : Prop :=
  forall ns k, ~ of_document id ns k -> Spec.recs s' !! (ns, k) = Spec.recs s !! (ns, k).

Lemma published_holds_ext s s' p :
  Spec.recs s' !! (NamespaceContent, publishedKey (pd_ID p)) = Spec.recs s !! (NamespaceContent, publishedKey (pd_ID p)) ->
  published_holds s p -> published_holds s' p.
Proof. intros He (data & doc & Hr & Hp). exists data, doc. by rewrite (readPayload_ext s s' _ _ _ _ He). Qed.

Lemma decode_published_inv (r : record) p :
  decodePublished r = Ok p -> published_ok (Key r) p /\ pd_Revision p = Record.Revision r /\ published_at p = Updated r.
Proof.
  unfold decodePublished. destruct (unmarshal_published _) as [q|[]]; cbn [decodeMetadata]; [|done..].
  rewrite bind_unit. by intros [Hm%published_metadata_ok [= <-]].
Qed.

Lemma published_in_ok s id p : Spec.wf s -> published_in s id p -> published_ok id p.
Proof. intros (_ & Hw & _) (r & Hr & Hd). apply Hw in Hr as (_ & <- & _). by apply decode_published_inv in Hd as [? _]. Qed.

Lemma published_in_unique s id p p' : published_in s id p -> published_in s id p' -> p = p'.
Proof. intros (r & Hr & Hd) (r' & Hr' & Hd'). congruence. Qed.

(** A call on one document leaves the others as they were. *)
Lemma published_update id s s' :
  Spec.wf s' -> only_document id s s' -> published_whole s /\ published_read s ->
  (forall r, Spec.recs s' !! (NamespacePublished, id) = Some r -> exists p, published_in s' id p /\ published_holds s' p) ->
  published_whole s' /\ published_read s'.
Proof.
  intros Hw Ho [Hs Hr] Hid.
  assert (forall id', id' <> id -> Spec.recs s' !! (NamespacePublished, id') = Spec.recs s !! (NamespacePublished, id')) as Hrec.
  { intros id' Hne. apply Ho. by intros [[_ ?]|[? _]]. }
  split.
  - intros id' p Hp. destruct (decide (id' = id)) as [->|Hne].
    + destruct Hp as (r & Hrr & Hd). destruct (Hid r Hrr) as (p' & Hp' & Hh). by rewrite (published_in_unique s' id p p' ltac:(by exists r) Hp').
    + pose proof (published_in_ok s' id' p Hw Hp) as (Hk & _). destruct Hp as (r & Hrr & Hd). rewrite (Hrec id' Hne) in Hrr.
      apply (published_holds_ext s); [|apply (Hs id'); by exists r]. apply Ho. rewrite Hk.
      intros [[? _]|[_ He%publishedKey_inj]]; [done|]. by subst.
  - intros id' r Hrr. destruct (decide (id' = id)) as [->|Hne]; [by destruct (Hid r Hrr) as (p & ? & _); exists p|].
    rewrite (Hrec id' Hne) in Hrr. destruct (Hr id' r Hrr) as (p & r' & Hr' & Hd). exists p, r'. by rewrite (Hrec id' Hne).
Qed.

(** ** Publishing *)

Lemma canonicalDocument_inv data canonical doc :
  canonicalDocument data = Ok (canonical, doc) ->
  Parse data = Ok doc /\ encode_document doc = Ok canonical /\ Schema doc = SchemaURI /\ exists stored, Parse canonical = Ok stored.
Proof.
  unfold canonicalDocument. rewrite bind_ok. intros (d & Hd%parseDocument_inv & Hc). apply bind_ok in Hc as (c & [Hc _]%encodeDocument_inv & [= <- <-]).
  split; [done|]. split; [done|]. apply Parse_inv in Hd as [Hdec Hval]. split.
  - by apply validate_none in Hval as ((? & _) & _).
  - rewrite <- (SetProvenance_id d) in Hc. apply (stored_stamped data d (provenance d)) in Hc as (stored & Hs & _); try done.
    + by exists stored.
    + by apply valid_stamp.
    + by eapply decode_texts.
Qed.

Lemma put_plan_inv e req doc value load :
  put_plan e req = Ok (doc, value, load) ->
  exists canonical parsed stored,
    validatePutRequest req = Ok tt /\ Parse (put_Document req) = Ok parsed /\ encode_document parsed = Ok canonical /\
    Parse canonical = Ok stored /\ Schema parsed = SchemaURI /\ buildPayload canonical = Ok load /\ load_digest load = digestOf canonical /\
    doc = {| pd_ID := PublishedDocumentID (put_Target req) (load_digest load); pd_Digest := load_digest load; pd_Size := load_size load;
      pd_CompressedSize := blen (load_compressed load); pd_Target := put_Target req; pd_Kind := put_Kind req;
      pd_DraftID := put_DraftID req; pd_SnapshotID := put_SnapshotID req; pd_CreatedAt := clock e; pd_CreatedBy := put_Actor req;
      pd_Schema := SchemaURI; pd_Revision := AnyRevision; published_at := zero_time |} /\
    encodePublished doc = Ok value.
Proof.
  unfold put_plan. rewrite !bind_unit. intros (_ & Hreq & Hp). apply bind_ok in Hp as ([canonical parsed] & Hc & Hp).
  apply canonicalDocument_inv in Hc as (Hparse & Henc & Hschema & stored & Hstored).
  apply bind_ok in Hp as (load' & Hl & Hp). cbn zeta in Hp. apply bind_ok in Hp as (value' & Hv & [= <- <- <-]).
  exists canonical, parsed, stored. rewrite Hschema in *. split_and!; try done.
  unfold buildPayload in Hl. destruct (_ <? _) in Hl; [done|]. destruct (gzip canonical); [|done]. destruct (_ <? _) in Hl; [done|]. by injection Hl as <-.
Qed.

(** What a new document would be is right. *)
Lemma new_document_ok e req doc value load canonical :
  put_plan e req = Ok (doc, value, load) -> buildPayload canonical = Ok load ->
  published_ok (pd_ID doc) doc /\ utf8 (published_texts doc) /\ encodePublished doc = Ok value.
Proof.
  intros Hp Hload. apply put_plan_inv in Hp as (canonical' & parsed & stored & Hreq & _ & _ & _ & _ & Hload' & _ & -> & Henc).
  unfold validatePutRequest in Hreq. rewrite !bind_unit, !validateText_ok in Hreq. destruct Hreq as (Ht & Hk & Ha & Hd & Hs).
  set (id := PublishedDocumentID (put_Target req) (load_digest load)).
  assert (ValidID id = true) as Hid by apply published_id. cbn [pd_ID].
  assert (manifest_ok (published_manifest {| pd_ID := id; pd_Digest := load_digest load; pd_Size := load_size load;
      pd_CompressedSize := blen (load_compressed load); pd_Target := put_Target req; pd_Kind := put_Kind req;
      pd_DraftID := put_DraftID req; pd_SnapshotID := put_SnapshotID req; pd_CreatedAt := clock e; pd_CreatedBy := put_Actor req;
      pd_Schema := SchemaURI; pd_Revision := AnyRevision; published_at := zero_time |})) as Hm.
  { set (key := publishedKey "a"). set (r := mkRecord NamespaceContent key (Some (load_compressed load)) 1 0 0).
    apply (readPayload_built (Spec.mkState 1 {[ (NamespaceContent, key) := r ]}) kindPublished "a" key _ canonical' load r); done. }
  assert (put_Target req <> "" /\ put_Kind req <> "") as [Hnt Hnk].
  { split; [destruct Ht as [[_ ?]|[? _]]|destruct Hk as [[_ ?]|[? _]]]; done. }
  split; [|split; [|done]].
  - unfold published_ok. cbn. split_and!; try done; [apply (optional_id_ok "draftID"); by rewrite Hd|apply (optional_id_ok "snapshotID"); by rewrite Hs|by right].
  - unfold published_texts. cbn. rewrite !utf8_cons. apply optional_id_utf8 in Hd, Hs. apply text_ok_utf8 in Ht, Hk, Ha.
    split_and!; try done; [by apply ValidID_utf8|apply digest_utf8, Hm|constructor].
Qed.

Lemma pub_call_ok {A} id x (m : st Spec.state error A) s a s' : pub_call id x m s = (Ok a, s') <-> m s = (Ok a, s').
Proof. unfold pub_call. by rewrite map_err_ok, tx_call_ok. Qed.

Lemma steady_get ns k : steady (tx_call (Spec.get ns k)).
Proof. apply (steady_op _ (GetRecord ns k)). intros s. symmetry. apply st_ret_snd. Qed.

Lemma steady_lift {A} (r : res serror A) : steady (st_lift r).
Proof. intros s Hs. by split. Qed.

Lemma steady_pub_call {A} id x (m : st Spec.state error A) : steady (tx_call m) -> steady (pub_call id x m).
Proof. apply steady_map_err. Qed.

#[local] Hint Resolve steady_get steady_lift steady_pub_call : service.

Lemma steady_putPublished e doc value load : steady (putPublished e doc value load).
Proof.
  intros s Hs. unfold putPublished.
  assert (forall A (m : st Spec.state serror A), steady m -> Spec.wf (snd (m s)) /\ later s (snd (m s))) as Hst by (intros A m Hm; by apply Hm).
  assert (tx_call (Spec.get NamespacePublished (pd_ID doc)) s = (fst (tx_call (Spec.get NamespacePublished (pd_ID doc)) s), s)) as -> by done.
  destruct (fst _) as [record|err].
  - destruct (decodePublished record) as [existing|]; [|by split].
    destruct (readPayload s _ _ _ _) as [?|err]; [apply Hst; auto 10 with service|].
    destruct (is_corrupt err); [apply Hst; auto 10 with service|by split].
  - destruct (is_store err ErrRecordNotExist); [apply Hst; auto 10 with service|by split].
Qed.

(** What [putPublished] does when it succeeds: a fresh record and a fresh
    content, or the record written again over content that is intact. *)
Lemma putPublished_inv e doc value load s m s' :
  putPublished e doc value load s = (Ok m, s') ->
  exists r, Key r = pd_ID doc /\ Updated r = store_time e NamespacePublished (pd_ID doc) /\
  ((exists rc, Spec.recs s' = <[ (NamespacePublished, pd_ID doc) := r ]> (<[ (NamespaceContent, publishedKey (pd_ID doc)) := rc ]> (Spec.recs s)) /\
      validateRecordNamespaceAndKey NamespaceContent (publishedKey (pd_ID doc)) = Ok tt /\
      Value rc = Some (load_compressed load) /\ Spec.rev s < Record.Revision rc /\
      Updated rc = store_time e NamespaceContent (publishedKey (pd_ID doc)) /\ Value r = Some value /\ m = stored doc r) \/
   (exists old existing data, Spec.recs s !! (NamespacePublished, pd_ID doc) = Some old /\ decodePublished old = Ok existing /\
      readPayload s kindPublished (pd_ID existing) (publishedKey (pd_ID existing)) (published_manifest existing) = Ok data /\
      Spec.recs s' = <[ (NamespacePublished, pd_ID doc) := r ]> (Spec.recs s) /\
      Value r = Some (bytes_of (Value old)) /\ m = stored existing r)).
Proof.
  unfold putPublished, tx_call at 1, Spec.get at 1, Spec.lookup. destruct (validateRecordNamespaceAndKey NamespacePublished (pd_ID doc)) as [[]|err] eqn:Ekey; cbn [res_bind res_map_err].
  - destruct (Spec.recs s !! (NamespacePublished, pd_ID doc)) as [old|] eqn:Hold; cbn [res_map_err].
    + destruct (decodePublished old) as [existing|] eqn:Hdec; [|done].
      destruct (readPayload s _ _ _ _) as [data|err] eqn:Hread.
      * rewrite st_bind_ok. intros (r & s1 & Hu%pub_call_ok & [= <- <-]).
        apply update_inv in Hu as (? & _ & _ & _ & Hns & Hk & Hv & _ & _ & Hup & ->). exists r. split; [done|]. split; [done|].
        right. exists old, existing, data. cbn. by rewrite Hns, Hk.
      * destruct (is_corrupt err); [|done]. rewrite st_bind_ok. intros ([] & s1 & (Hkey & rc & Hrc & Hvc & Huc & Hrev)%putContent_inv & Hu).
        apply st_bind_ok in Hu as (r & s2 & Hu%pub_call_ok & [= <- <-]).
        apply update_inv in Hu as (? & _ & _ & _ & Hns & Hk & Hv & _ & _ & Hup & ->). exists r. split; [done|]. split; [done|].
        left. exists rc. cbn. rewrite Hns, Hk, Hrc. split_and!; done || lia.
    + assert (is_store (SRaw (NewRecordNotExistError NamespacePublished (pd_ID doc))) ErrRecordNotExist = true) as -> by done.
      rewrite st_bind_ok. intros ([] & s1 & (Hkey & rc & Hrc & Hvc & Huc & Hrev)%putContent_inv & Hu).
      apply st_bind_ok in Hu as (r & s2 & Hu%pub_call_ok & [= <- <-]).
      apply create_inv in Hu as (_ & _ & Hns & Hk & Hv & _ & Hup & ->). exists r. split; [done|]. split; [done|].
      left. exists rc. cbn. rewrite Hns, Hk, Hrc. split_and!; done || lia.
  - destruct (is_store _ _) eqn:Hs; [|done]. rewrite st_bind_ok. intros ([] & s1 & _ & Hu).
    apply st_bind_ok in Hu as (r & s2 & Hu%pub_call_ok & [= <- <-]). apply create_inv in Hu as (Hbad & _).
    congruence.
Qed.

(** The record of a document that is right reads back. *)
Lemma decode_published_written doc value (r : record) :
  encodePublished doc = Ok value -> utf8 (published_texts doc) -> published_ok (Key r) doc -> Value r = Some value ->
  decodePublished r = Ok (stored doc r).
Proof.
  unfold encodePublished, decodePublished. intros He Ht Hok Hv. destruct (marshal_published doc) as [v|] eqn:Em; [|done].
  destruct (_ <? _); [done|]. injection He as ->. rewrite Hv. change (bytes_of (Some value)) with value.
  rewrite (unmarshal_marshal_published doc value Em Ht). cbn [decodeMetadata].
  assert (validatePublishedMetadata (Key r) (unread doc) = Ok tt) as ->; [|done]. by apply published_metadata_ok.
Qed.

Definition put_id (req : PutPublishedDocumentRequest) (canonical : list byte) : string :=
  PublishedDocumentID (put_Target req) (digestOf canonical).

(** The call wrote the content. *)
Definition written (e : env) (s s' : Spec.state) (key : string) : Prop :=
  exists r, Spec.recs s' !! (NamespaceContent, key) = Some r /\ Spec.rev s < Record.Revision r /\ Updated r = store_time e NamespaceContent key.

Lemma put_run e req s m s' :
  Spec.wf (between e s) -> published_whole (between e s) /\ published_read (between e s) ->
  PutPublishedDocument e req s = (Ok m, s') ->
  exists canonical parsed,
    Parse (put_Document req) = Ok parsed /\ encode_document parsed = Ok canonical /\
    only_document (put_id req canonical) (between e s) s' /\ published_in s' (put_id req canonical) m /\
    published_at m = store_time e NamespacePublished (put_id req canonical) /\ (published_whole s' /\ published_read s') /\
    ((readPayload s' kindPublished (pd_ID m) (publishedKey (pd_ID m)) (published_manifest m) = Ok canonical /\
      written e (between e s) s' (publishedKey (put_id req canonical))) \/
     (exists existing, published_in (between e s) (put_id req canonical) existing /\ published_manifest m = published_manifest existing /\
      Spec.recs s' !! (NamespaceContent, publishedKey (put_id req canonical)) =
        Spec.recs (between e s) !! (NamespaceContent, publishedKey (put_id req canonical)))).
Proof.
  intros Hw Hpub Hrun. unfold PutPublishedDocument in Hrun. destruct (put_plan e req) as [[[doc value] load]|] eqn:Hplan; [|done].
  pose proof (put_plan_inv _ _ _ _ _ Hplan) as (canonical & parsed & stored_doc & _ & Hparse & Henc & Hstored & _ & Hload & Hdig & Hdoc & Hval).
  destruct (new_document_ok e req doc value load canonical Hplan Hload) as (Hok & Ht & _).
  apply map_err_ok, txn_ok in Hrun as [Hrun _].
  assert (Spec.wf s') as Hw' by (pose proof (steady_putPublished e doc value load (between e s) Hw) as Hst; rewrite Hrun in Hst; apply Hst).
  assert (pd_ID doc = put_id req canonical) as Hid by (rewrite Hdoc; unfold put_id; cbn [pd_ID]; f_equal; done).
  apply putPublished_inv in Hrun as (r & Hkr & Hup & Hcase). rewrite Hid in *.
  exists canonical, parsed. split; [done|]. split; [done|].
  destruct Hcase as [(rc & Hrecs & Hkey & Hvc & Hrev & Huc & Hv & ->)|(old & existing & data & Hold & Hdec & Hread & Hrecs & Hv & ->)].
  - assert (decodePublished r = Ok (stored doc r)) as Hdr by (apply (decode_published_written doc value); [done|done|by rewrite Hkr|done]).
    assert (only_document (put_id req canonical) (between e s) s') as Honly.
    { intros ns k Hn. rewrite Hrecs, !lookup_insert_ne; [done| |]; intros [= <- <-]; apply Hn; [by right|by left]. }
    assert (Spec.recs s' !! (NamespaceContent, publishedKey (put_id req canonical)) = Some rc) as Hc.
    { rewrite Hrecs, lookup_insert_ne by (intros [=]). apply lookup_insert_eq. }
    assert (readPayload s' kindPublished (pd_ID (stored doc r)) (publishedKey (pd_ID (stored doc r))) (published_manifest (stored doc r)) = Ok canonical) as Hrd.
    { change (pd_ID (stored doc r)) with (pd_ID doc). rewrite Hid.
      apply (readPayload_built s' _ _ _ _ canonical load rc); try done; cbn; rewrite ?Hdoc; try done. apply published_id. }
    assert (published_in s' (put_id req canonical) (stored doc r)) as Hin by (exists r; split; [rewrite Hrecs; apply lookup_insert_eq|done]).
    do 3 (split; [done|]). split.
    + apply (published_update (put_id req canonical) (between e s)); try done. intros r' Hr'. exists (stored doc r). split; [done|].
      exists canonical, stored_doc. done.
    + left. split; [done|]. by exists rc.
  - assert (only_document (put_id req canonical) (between e s) s') as Honly.
    { intros ns k Hn. rewrite Hrecs, lookup_insert_ne; [done|]. intros [= <- <-]; apply Hn; by left. }
    assert (published_in (between e s) (put_id req canonical) existing) as Hex by by exists old.
    pose proof (published_in_ok _ _ _ Hw Hex) as Hexok. pose proof (proj1 Hexok) as Hexid.
    assert (decodePublished r = Ok (stored existing r)) as Hdr.
    { unfold decodePublished in Hdec |- *. rewrite Hv. change (bytes_of (Some (bytes_of (Value old)))) with (bytes_of (Value old)).
      destruct (unmarshal_published _) as [q|[]]; cbn [decodeMetadata] in *; [|done..].
      apply bind_unit in Hdec as [Hm [= <-]]. assert (Key old = Key r) as <-; [|by rewrite Hm].
      rewrite Hkr. destruct Hw as (_ & Hw & _). by apply Hw in Hold as (_ & ? & _). }
    assert (published_in s' (put_id req canonical) (stored existing r)) as Hin by (exists r; split; [rewrite Hrecs; apply lookup_insert_eq|done]).
    assert (Spec.recs s' !! (NamespaceContent, publishedKey (put_id req canonical)) =
      Spec.recs (between e s) !! (NamespaceContent, publishedKey (put_id req canonical))) as Hsame by (rewrite Hrecs; apply lookup_insert_ne; intros [=]).
    do 3 (split; [done|]). split.
    + apply (published_update (put_id req canonical) (between e s)); try done. intros r' Hr'. exists (stored existing r). split; [done|].
      apply (published_holds_ext (between e s)); [cbn; by rewrite Hexid|]. apply (proj1 Hpub _ _ Hex).
    + right. by exists existing.
Qed.

(** A document that is there is got. *)
Lemma published_there e s id p :
  ctx_err e 0 = None -> Spec.wf s -> published_in s id p -> GetPublishedDocument e s id = Ok p.
Proof.
  intros Hctx Hw Hin. pose proof (published_in_ok s id p Hw Hin) as (_ & Hvid & _). destruct Hin as (r & Hr & Hdec).
  unfold GetPublishedDocument, check_ctx, validateID, getRecord, tx_call, Spec.get, Spec.lookup.
  by rewrite Hctx, Hvid, (id_key NamespacePublished id eq_refl Hvid), Hr.
Qed.

(** C23: Publishing a document. When [PutPublishedDocument] succeeds, the
    document is under the identifier that its target and the digest of its
    canonical bytes give, and it reads back: either it is stored afresh with
    exactly those bytes, or an intact document of that identifier was there
    and its content is not touched. Either way its time of publication is the
    time of this call, so the grace period of the cleanups starts again; no
    other record is touched and every published document stays readable. *)
Theorem PutPublishedDocument_spec e e' req s m s' :
  Spec.wf (between e s) -> published_whole (between e s) /\ published_read (between e s) ->
  PutPublishedDocument e req s = (Ok m, s') -> ctx_err e' 0 = None -> between e' s' = s' ->
  exists canonical parsed data,
    Parse (put_Document req) = Ok parsed /\ encode_document parsed = Ok canonical /\
    pd_ID m = PublishedDocumentID (put_Target req) (digestOf canonical) /\
    pd_ID m = PublishedDocumentID (pd_Target m) (pd_Digest m) /\
    GetPublishedDocumentData e' s' (pd_ID m) = Ok (m, data) /\ digestOf data = pd_Digest m /\
    (data = canonical \/ exists existing, published_in (between e s) (pd_ID m) existing /\
       Spec.recs s' !! (NamespaceContent, publishedKey (pd_ID m)) = Spec.recs (between e s) !! (NamespaceContent, publishedKey (pd_ID m))) /\
    published_at m = store_time e NamespacePublished (pd_ID m) /\
    only_document (pd_ID m) (between e s) s' /\ published_whole s' /\ published_read s'.
Proof.
  intros Hw Hpub Hrun Hctx Hb.
  destruct (put_run e req s m s' Hw Hpub Hrun) as (canonical & parsed & Hparse & Henc & Honly & Hin & Hat & [Hwhole Hread] & Hcase).
  assert (Spec.wf s') as Hw'.
  { unfold PutPublishedDocument in Hrun. destruct (put_plan e req) as [[[doc value] load]|]; [|done].
    apply map_err_ok, txn_ok in Hrun as [Hrun _]. pose proof (steady_putPublished e doc value load (between e s) Hw) as Hst.
    rewrite Hrun in Hst. apply Hst. }
  pose proof (published_in_ok _ _ _ Hw' Hin) as (Hid & Hvid & _ & _ & Hder & _).
  destruct (Hwhole _ _ Hin) as (data & doc & Hdata & Hpdoc). exists canonical, parsed, data. rewrite Hid in *. split_and!; try done.
  - unfold GetPublishedDocumentData. rewrite (published_there e' s' _ m Hctx Hw' Hin). cbn [res_bind].
    rewrite Hb, Hid, Hdata. cbn [res_bind]. unfold parseStored. by rewrite Hpdoc.
  - by apply readPayload_inv in Hdata as [? _].
  - destruct Hcase as [[Hc _]|(existing & Hex & _ & Hsame)]; [left; congruence|right; by exists existing].
Qed.

End PublishedSpec.
