(* ===== verification/CleanupSpec.v ===== *)
(** * What the cleanups promise

    Content that a draft or a published document names is never removed,
    whatever other calls do meanwhile; what nothing names and is old enough is
    removed when nobody interferes. *)

From Stdlib Require Import ZArith Lia Ascii String Strings.Byte.
From stdpp Require Import base option list gmap strings sorting.
From S2P Require Import Prelude Record RecordSpec Text Codes Document Checks Layers Icons Validate Parents ValidateSpec EdgeSpec DocumentSpec.
From S2P Require Import Drafts Content DraftService Published DraftSpec DraftStore DraftWrites DraftAppend DraftCalls DraftPublish DraftCreate DraftTrace PublishedSpec.

Open Scope Z_scope.
Open Scope go_scope.

Section Cleanup.
Context `{ServiceLaws} `{!CompressionLaws} `{PublishedLaws}.

(** ** Content in use *)

(** A snapshot of a draft or a published document has the content. *)
Definition named (s : Spec.state) (key : string) : Prop :=
  (exists id d m, draft_at s id d /\ m ∈ History d /\ key = snapshotKey id (man_ID m)) \/
  (exists id p, published_in s id p /\ key = publishedKey id).

(** Every draft and every published document reads back, with its content. *)
Definition intact (s : Spec.state) : Prop := sound s /\ published_whole s /\ published_read s.

(** What others may do between two accesses: the store goes forward and stays
    intact, and content that comes into use is content they wrote. *)
Definition others (s s' : Spec.state) : Prop :=
  Spec.wf s' /\ later s s' /\ intact s' /\ forall key, named s' key -> named s key \/ newer s s' key.

Lemma readPayload_there s kind id key m data :
  readPayload s kind id key m = Ok data -> is_Some (Spec.recs s !! (NamespaceContent, key)).
Proof.
  unfold readPayload. rewrite bind_unit. intros [_ Hr]. unfold tx_call, Spec.get, Spec.lookup in Hr.
  destruct (validateRecordNamespaceAndKey NamespaceContent key) as [[]|]; cbn in Hr; [|by destruct (errors_Is _ _)].
  destruct (Spec.recs s !! (NamespaceContent, key)) as [r|]; [by exists r|]. done.
Qed.

Lemma named_content s key : Spec.wf s -> intact s -> named s key -> is_Some (Spec.recs s !! (NamespaceContent, key)).
Proof.
  intros Hw ([Hd _] & Hp & _) [(id & d & m & Hat & Hm & ->)|(id & p & Hin & ->)].
  - destruct (proj1 (Forall_forall _ _) (Hd id d Hat) m Hm) as (data & doc & Hr & _). by eapply readPayload_there.
  - pose proof (published_in_ok s id p Hw Hin) as (<- & _). destruct (Hp _ _ Hin) as (data & doc & Hr & _). by eapply readPayload_there.
Qed.

(** Content written after [s] that is still in use is still newer. *)
Lemma newer_later s s1 s2 key :
  newer s s1 key -> later s s1 -> later s1 s2 -> is_Some (Spec.recs s2 !! (NamespaceContent, key)) -> newer s s2 key.
Proof.
  intros (r & Hr & Hlt) [Hle _] [Hle' Hl] [r2 Hr2]. exists r2. split; [done|].
  destruct (Z.le_gt_cases (Record.Revision r2) (Spec.rev s1)) as [Hold|]; [|lia].
  apply (Hl _ _ Hr2) in Hold. assert (r2 = r) as -> by congruence. done.
Qed.

#[export] Instance others_transitive : Transitive others.
Proof.
  intros s1 s2 s3 (Hw2 & L12 & I2 & N12) (Hw3 & L23 & I3 & N23). split_and!; [done|by etransitivity|done|].
  intros key Hn. destruct (N23 key Hn) as [Hn2|(r & Hr & Hlt)]; [destruct (N12 key Hn2) as [|Hnew]; [by left|right]|right].
  - eapply newer_later; [exact Hnew|done..|]. by apply named_content.
  - exists r. split; [done|]. destruct L12. lia.
Qed.

Lemma others_refl s : Spec.wf s -> intact s -> others s s.
Proof. intros. split_and!; try done. intros; by left. Qed.

(** ** The loop *)

(** What is left of the store is in use or was written since the listing. *)
Definition guarded (s0 : Spec.state) (live : list string) (s : Spec.state) : Prop :=
  Spec.wf s /\ intact s /\ later s0 s /\ forall key, named s key -> key ∈ live \/ newer s0 s key.

Lemma guarded_others s0 live s s' : guarded s0 live s -> others s s' -> guarded s0 live s'.
Proof.
  intros (Hw & Hi & Hl & Hn) (Hw' & Hl' & Hi' & Hn'). split_and!; [done..|by etransitivity|]. intros key Hk.
  destruct (Hn' key Hk) as [Hk'|(r & Hr & Hlt)].
  - destruct (Hn key Hk') as [|Hnew]; [by left|right]. eapply newer_later; [exact Hnew|done..|by apply named_content].
  - right. exists r. split; [done|]. destruct Hl. lia.
Qed.

(** Removing content that nothing names. *)
Lemma named_drop s key k :
  named (Spec.mkState (Spec.rev s) (base.delete (NamespaceContent, key) (Spec.recs s))) k <-> named s k.
Proof.
  unfold named, draft_at, published_in. cbn [Spec.recs].
  assert (forall id, base.delete (NamespaceContent, key) (Spec.recs s) !! (NamespaceDrafts, id) = Spec.recs s !! (NamespaceDrafts, id)) as Hd
    by (intros id; by apply lookup_delete_ne; intros [=]).
  assert (forall id, base.delete (NamespaceContent, key) (Spec.recs s) !! (NamespacePublished, id) = Spec.recs s !! (NamespacePublished, id)) as Hp
    by (intros id; by apply lookup_delete_ne; intros [=]).
  setoid_rewrite Hd. setoid_rewrite Hp. done.
Qed.

Lemma guarded_drop s0 live s key :
  guarded s0 live s -> ~ named s key ->
  guarded s0 live (Spec.mkState (Spec.rev s) (base.delete (NamespaceContent, key) (Spec.recs s))).
Proof.
  intros (Hw & ([Hd Hdr] & Hp & Hpr) & Hl & Hn) Hno. set (s' := Spec.mkState _ _).
  assert (base.delete (NamespaceContent, key) (Spec.recs s) ⊆ Spec.recs s) as Hsub by apply delete_subseteq.
  assert (Spec.wf s') as Hw' by by apply wf_drop.
  assert (forall k, named s k -> Spec.recs s' !! (NamespaceContent, k) = Spec.recs s !! (NamespaceContent, k)) as Hk.
  { intros k Hk. cbn. apply lookup_delete_ne. intros Heq%(f_equal snd). cbn [snd] in Heq. by subst. }
  assert (forall id d, draft_at s' id d <-> draft_at s id d) as Hat.
  { intros id d. unfold draft_at, s'. cbn [Spec.recs]. by rewrite lookup_delete_ne by (intros [=]). }
  assert (forall id p, published_in s' id p <-> published_in s id p) as Hin.
  { intros id p. unfold published_in, s'. cbn [Spec.recs]. by rewrite lookup_delete_ne by (intros [=]). }
  split_and!; [done|split; [split|split]|etransitivity; [exact Hl|by apply later_drop]|].
  - intros id d Hx%Hat. apply Forall_forall. intros m Hm. apply (holds_ext s).
    + apply Hk. left. by exists id, d, m.
    + by apply (proj1 (Forall_forall _ _) (Hd id d Hx)).
  - intros id r Hr. unfold s' in Hr. cbn [Spec.recs] in Hr. rewrite lookup_delete_ne in Hr by (intros [=]).
    destruct (Hdr id r Hr) as (d & Hx). exists d. by apply Hat.
  - intros id p Hx%Hin. pose proof (published_in_ok s id p Hw Hx) as (Hid & _). apply (published_holds_ext s); [|by eapply Hp].
    apply Hk. right. exists id, p. by rewrite Hid.
  - intros id r Hr. unfold s' in Hr. cbn [Spec.recs] in Hr. rewrite lookup_delete_ne in Hr by (intros [=]).
    destruct (Hpr id r Hr) as (p & Hx). exists p. by apply Hin.
  - intros k Hx%named_drop. destruct (Hn k Hx) as [|(r & Hr & Hlt)]; [by left|right]. exists r. split; [|done]. by rewrite Hk.
Qed.

(** Content written after the listing is within the grace period. *)
Definition recent (rev now : Z) (s : Spec.state) : Prop :=
  forall key r, Spec.recs s !! (NamespaceContent, key) = Some r -> rev < Record.Revision r -> Sub now (Updated r) < OrphanGracePeriod.

(** What others do between the accesses of a call that listed at [s0]. *)
Definition fair (es : nat -> env) (s0 : Spec.state) (now : Z) : Prop :=
  (forall n s, Spec.wf s -> intact s -> others s (between (es (S n)) s)) /\
  (forall n s, Spec.wf s -> intact s -> recent (Spec.rev s0) now s -> recent (Spec.rev s0) now (between (es (S n)) s)).

Lemma getRecord_ok s ns k r : getRecord s ns k = Ok r -> Spec.recs s !! (ns, k) = Some r.
Proof.
  unfold getRecord, tx_call, Spec.get, Spec.lookup. destruct (validateRecordNamespaceAndKey ns k) as [[]|]; cbn; [|done].
  destruct (Spec.recs s !! (ns, k)) as [?|]; cbn; [by intros [= ->]|done].
Qed.

Lemma clean_keys_safe es n s0 now dryRun live unreadable keys s removed errs s' :
  fair es s0 now -> guarded s0 live s -> recent (Spec.rev s0) now s ->
  clean_keys es (S n) now dryRun live unreadable keys s = (removed, errs, s') -> guarded s0 live s'.
Proof.
  intros [Hothers Hrecent] Hg Hr. revert n s removed errs Hg Hr.
  induction keys as [|key keys IH]; intros n s removed errs Hg Hr Hrun; cbn [clean_keys] in Hrun; [by injection Hrun as _ _ <-|].
  destruct (contentDraftOf key) as [draft|].
  2: { destruct (clean_keys _ _ _ _ _ _ keys s) as [[rm er] s1] eqn:E. injection Hrun as _ _ <-. by eapply IH. }
  destruct (bool_decide (key ∈ live)) eqn:Elive; cbn [orb] in Hrun; [by eapply IH|].
  apply bool_decide_eq_false in Elive. destruct (_ && _); [by eapply IH|].
  set (s1 := between (es (S n)) s) in *.
  assert (guarded s0 live s1) as Hg1 by (eapply guarded_others; [exact Hg|]; destruct Hg as (? & ? & _); by apply Hothers).
  assert (recent (Spec.rev s0) now s1) as Hr1 by (destruct Hg as (? & ? & _); by apply Hrecent).
  destruct (getRecord s1 NamespaceContent key) as [record|err] eqn:Eget.
  2: { destruct (clean_keys _ _ _ _ _ _ keys s1) as [[rm er] s2] eqn:E. injection Hrun as _ _ <-. by eapply IH. }
  destruct (Z.ltb_spec (Sub now (Updated record)) OrphanGracePeriod) as [|Hold]; [by eapply IH|].
  destruct dryRun.
  { destruct (clean_keys _ _ _ _ _ _ keys s1) as [[rm er] s2] eqn:E. injection Hrun as _ _ <-. by eapply IH. }
  set (s2 := between (es (S (S n))) s1) in *.
  assert (guarded s0 live s2) as Hg2 by (eapply guarded_others; [exact Hg1|]; destruct Hg1 as (? & ? & _); by apply Hothers).
  assert (recent (Spec.rev s0) now s2) as Hr2 by (destruct Hg1 as (? & ? & _); by apply Hrecent).
  destruct (RecordTxn (es (S (S n))) (tx_call (Spec.delete NamespaceContent key (Record.Revision record))) s2) as [r s3] eqn:Et.
  destruct (clean_keys _ _ _ _ _ _ keys s3) as [[rm er] s4] eqn:E.
  assert (guarded s0 live s3 /\ recent (Spec.rev s0) now s3) as [Hg3 Hr3].
  { destruct r as [[]|err]; [|by rewrite (txn_err _ _ _ _ _ Et)].
    apply txn_ok in Et as [Hd%tx_call_ok _]. apply delete_inv in Hd as (old & Hold2 & Hx & ->).
    apply getRecord_ok in Eget.
    assert (old = record) as ->.
    { assert (0 < Record.Revision record) as Hpos by (destruct Hg1 as ((_ & Hw1 & _) & _); by apply Hw1 in Eget as (_ & _ & [? _] & _)).
      unfold AnyRevision in Hx. destruct Hx as [?|Hx]; [lia|].
      assert (later s1 s2) as Hl12 by (destruct Hg1 as (? & ? & _); by apply Hothers).
      destruct Hg1 as (Hw1 & _). by destruct (revision_names_write s1 s2 _ _ record old Hw1 Hl12 Eget Hold2) as [_ ->]. }
    split.
    - apply guarded_drop; [done|]. intros Hn. destruct Hg2 as (_ & _ & _ & Hn2). destruct (Hn2 key Hn) as [?|(r & Hr' & Hlt)]; [done|].
      assert (r = record) as -> by congruence. specialize (Hr2 key record Hold2 Hlt). lia.
    - intros k r Hk. cbn in Hk. apply lookup_delete_Some in Hk as [_ Hk]. exact (Hr2 k r Hk). }
  assert (s4 = s') as -> by (destruct r; by injection Hrun as _ _ <-). by eapply IH.
Qed.

(** ** The listings *)

Lemma list_records_there s ns k r records :
  Spec.list_records ns "" s = Ok records -> Spec.recs s !! (ns, k) = Some r -> r ∈ records.
Proof.
  unfold Spec.list_records. destruct (validateRecordNamespaceAndPrefix ns "") as [[]|]; [|done]. cbn [res_bind]. intros [= <-] Hr.
  apply list_elem_of_omap. exists k. split; [|done]. apply elem_of_sorted_keys. split; [by exists r|by destruct k].
Qed.

Lemma listed_draft e s drafts unreadable id d :
  listDrafts e s = Ok (drafts, unreadable) -> draft_at s id d -> d ∈ drafts.
Proof.
  unfold listDrafts, ListDraftsWithDamaged. rewrite bind_ok. intros ([ds damaged] & Hl & [= <- <-]) (r & Hr & Hd).
  rewrite bind_unit in Hl. destruct Hl as [_ Hl]. apply bind_ok in Hl as (records & Hrec%res_map_err_ok & [= <- <-]).
  apply list_elem_of_omap. exists r. split; [by eapply list_records_there|]. by rewrite Hd.
Qed.

Lemma listed_published e s docs damaged errs id p :
  listReadablePublished e s = Ok (docs, damaged, errs) -> published_in s id p -> p ∈ docs.
Proof.
  unfold listReadablePublished. rewrite bind_unit. intros [_ Hl] (r & Hr & Hd).
  apply bind_ok in Hl as (records & Hrec%res_map_err_ok & [= <- <- <-]).
  apply list_elem_of_omap. exists r. split; [by eapply list_records_there|]. by rewrite Hd.
Qed.

(** C4: The cleanup of content is safe against everybody else. Let other calls
    go on between any two of its accesses to the store, as long as they keep
    the store intact, bring into use only content they write, and write it
    within the grace period of the cleanup's clock. Then however it ends,
    every draft and every published document still reads back with all of its
    content: nothing that came into use meanwhile is removed. *)
Theorem CleanupOrphanedContent_safe es dryRun s r s' :
  Spec.wf (between (es 0%nat) s) -> intact (between (es 0%nat) s) -> fair es (between (es 0%nat) s) (clock (es 2%nat)) ->
  CleanupOrphanedContent es dryRun s = (r, s') ->
  Spec.wf s' /\ intact s' /\ later (between (es 0%nat) s) s'.
Proof.
  unfold CleanupOrphanedContent. cbv zeta. set (s0 := between (es 0%nat) s). intros Hw Hi Hfair Hrun.
  assert (recent (Spec.rev s0) (clock (es 2%nat)) s0) as Hr0.
  { intros key rc Hrc Hlt. destruct Hw as (_ & Hw & _). apply Hw in Hrc as (_ & _ & [_ ?] & _). lia. }
  destruct (listDrafts (es 0%nat) s0) as [[drafts unreadable]|err] eqn:Ed; [|by injection Hrun as _ <-].
  pose proof Hfair as [Ho Hrec]. set (s1 := between (es 1%nat) s0) in *.
  assert (others s0 s1) as H01 by by apply (Ho 0%nat). pose proof H01 as (Hw1 & Hl1 & Hi1 & Hn1).
  destruct (listReadablePublished (es 1%nat) s1) as [[[docs damaged] errs1]|err] eqn:Ep; [|by injection Hrun as _ <-].
  set (s2 := between (es 2%nat) s1) in *.
  assert (others s1 s2) as H12 by by apply (Ho 1%nat).
  assert (guarded s0 (live_keys drafts docs damaged) s1) as Hg1.
  { split_and!; try done. intros key Hk. unfold live_keys. rewrite !elem_of_app. destruct Hk as [(id & d & m & Hat & Hm & ->)|(id & p & Hin & ->)].
    - destruct (Hn1 (snapshotKey id (man_ID m))) as [Hnamed|]; [left; by exists id, d, m| |by right].
      destruct Hnamed as [(id' & d' & m' & Hat' & Hm' & Heq)|(id' & p & _ & Heq)]; [|by symmetry in Heq; apply publishedKey_not_draft in Heq].
      left; left. rewrite Heq. apply list_elem_of_bind. exists d'. split; [|by eapply listed_draft].
      destruct (draft_at_valid s0 id' d' Hw Hat') as (_ & (Hid & _) & _). rewrite Hid. apply list_elem_of_fmap. by exists m'.
    - left; right; left. pose proof (published_in_ok s1 id p Hw1 Hin) as (<- & _).
      apply list_elem_of_fmap. exists p. split; [done|]. by eapply listed_published. }
  assert (guarded s0 (live_keys drafts docs damaged) s2) as Hg2 by by eapply guarded_others.
  assert (recent (Spec.rev s0) (clock (es 2%nat)) s2) as Hr2 by (apply (Hrec 1%nat), (Hrec 0%nat); done).
  destruct (Spec.list_keys NamespaceContent "" s2) as [keys|err].
  - destruct (clean_keys _ _ _ _ _ _ keys s2) as [[rm er] s3] eqn:E. injection Hrun as _ <-.
    eapply clean_keys_safe in E; [|done..]. by destruct E as (? & ? & ? & _).
  - injection Hrun as _ <-. by destruct Hg2 as (? & ? & ? & _).
Qed.

End Cleanup.

(** ** Every call is one a cleanup allows for

    What the calls on drafts and on published documents do keeps the store
    intact and brings into use only content they write, so the cleanups can
    run beside them. *)


Section Allowed.
Context `{ServiceLaws} `{!CompressionLaws} `{PublishedLaws}.

#[local] Instance of_document_dec id ns k : Decision (of_document id ns k).
Proof. unfold of_document. solve_decision. Defined.

(** ** Calls on a draft *)

(** A change of one draft whose snapshots were there or are new. *)
Lemma draft_others id s s' :
  ValidID id = true -> intact s -> Spec.wf s' -> later s s' -> sound s' -> only id s s' ->
  (forall d m, draft_at s' id d -> m ∈ History d -> named s (snapshotKey id (man_ID m)) \/ newer s s' (snapshotKey id (man_ID m))) ->
  others s s'.
Proof.
  intros Hid (_ & Hp & Hpr) Hw Hl Hs Ho Hnew.
  assert (forall k, Spec.recs s' !! (NamespacePublished, k) = Spec.recs s !! (NamespacePublished, k)) as Hrec
    by (intros k; apply Ho; by intros [[? _]|[? _]]).
  assert (forall k p, published_in s' k p <-> published_in s k p) as Hin by (intros k p; unfold published_in; by rewrite Hrec).
  split_and!; [done..| |].
  - split; [done|]. split.
    + intros k p Hx%Hin. apply (published_holds_ext s); [|by eapply Hp]. apply Ho. intros [[? _]|[_ Hk]]; [done|].
      by rewrite publishedKey_prefix in Hk.
    + intros k r Hr. rewrite Hrec in Hr. destruct (Hpr k r Hr) as (p & Hx). exists p. by apply Hin.
  - intros key [(id' & d & m & Hat & Hm & ->)|(k & p & Hx%Hin & ->)].
    + destruct (decide (id' = id)) as [->|Hne]; [by eapply Hnew|]. left. left. exists id', d, m. split; [|done].
      destruct Hat as (r & Hr & Hd). exists r. split; [|done]. rewrite <- Ho; [done|]. by intros [[_ ?]|[? _]].
    + left. right. by exists k, p.
Qed.

(** What a call on a draft may assume. *)
Lemma perform_others e c s :
  Spec.wf s -> Spec.wf (between e s) -> later s (between e s) -> intact (between e s) -> good e c s ->
  others (between e s) (snd (perform e c s)).
Proof.
  intros Hw Hw1 Hl Hi Hgood. pose proof Hi as ([Hwhole Hread] & _).
  pose proof (perform_sound e c s Hw Hw1 Hl (conj Hwhole Hread) Hgood) as Hsound.
  pose proof (perform_steady e c s Hw1) as [Hw' Hl'].
  destruct (perform e c s) as [[o|err] s'] eqn:Hp; [|rewrite (perform_err e c s err s' Hp); by apply others_refl]. cbn [snd] in *.
  assert (forall id d d' rev, draft_at (between e s) id d -> draft_at s' id (with_revision (persisted d') rev) ->
    (forall m, m ∈ History d' -> m ∈ History d \/ newer (between e s) s' (snapshotKey id (man_ID m))) -> only id (between e s) s' ->
    others (between e s) s') as Hone.
  { intros id d d' rev Hat Hat' Hm Ho. destruct (draft_at_valid _ _ _ Hw1 Hat) as [Hid _]. apply (draft_others id); try done.
    intros d2 m Hat2 Hin. rewrite (draft_at_unique _ _ _ _ Hat2 Hat') in Hin. destruct (Hm m Hin) as [|]; [left; left|by right].
    by exists id, d, m. }
  unfold perform in Hp. destruct c; apply answer_ok in Hp as (a & Hp & _).
  - apply create_run in Hp as (doc & p & canonical & stored & title & id & m & rev & _ & _ & Hid & _ & _ & _ & _ & _ & _ & _ & _ & -> & _ & Hat & _ & Ho & _ & Hnew); try done.
    apply (draft_others id); try done. intros d2 m2 Hat2 Hin. rewrite (draft_at_unique _ _ _ _ Hat2 Hat) in Hin. cbn in Hin.
    apply (list_elem_of_singleton m2 m) in Hin as ->. by right.
  - apply append_run in Hp as (d & doc & title & canonical & stored & load & m & k & rev & _ & Ho & -> & _ & _ & Hat & _ & _ & _ & _ & _ & _ & _ & _ & _ & Hat' & _ & _ & _ & Hnew); try done.
    eapply Hone; [exact Hat|exact Hat'| |exact Ho]. cbn [History with_revision with_history]. intros x Hx.
    apply list_elem_of_lookup in Hx as [i Hx]. rewrite lookup_drop in Hx. apply list_elem_of_lookup_2 in Hx.
    unfold extended in Hx. apply elem_of_app in Hx as [Hx|Hx]; [left; by eapply elem_of_take in Hx as (j & Hx%list_elem_of_lookup_2 & _)|].
    apply (list_elem_of_singleton x m) in Hx as ->. by right.
  - apply move_run in Hp as (d & i & rev & _ & Ho & _ & Hat & _ & -> & Hat' & _ & _); try done.
    eapply Hone; [exact Hat|exact Hat'| |exact Ho]. intros x Hx. by left.
  - apply delete_snapshot_run in Hp as (d & index & removed & rev & _ & Ho & _ & Hat & _ & _ & _ & -> & _ & _ & Hat' & _ & _); try done.
    eapply Hone; [exact Hat|exact Hat'| |exact Ho]. intros x Hx. left. cbn in Hx. by eapply elem_of_delete.
  - apply publish_run in Hp as (_ & d & _ & [(_ & _ & ->)|(current & rev & Ho & _ & _ & _ & Hat & -> & Hat' & _)]); try done; [by apply others_refl|].
    eapply Hone; [exact Hat|exact Hat'| |exact Ho]. intros x Hx. by left.
  - destruct a. apply delete_run in Hp as (Hid & _ & _ & Hrun). apply (draft_others id); try done.
    + intros ns k Hn. rewrite Hrun. by rewrite decide_False.
    + intros d m (r & Hr & _). rewrite Hrun, decide_True in Hr by tauto. done.
Qed.

(** ** Calls on a published document *)

Lemma document_others id s s' :
  intact s -> Spec.wf s' -> later s s' -> only_document id s s' -> published_whole s' /\ published_read s' ->
  (forall p, published_in s' id p -> named s (publishedKey id) \/ newer s s' (publishedKey id)) ->
  others s s'.
Proof.
  intros (Hs & _) Hw Hl Ho Hp Hnew.
  assert (forall k, Spec.recs s' !! (NamespaceDrafts, k) = Spec.recs s !! (NamespaceDrafts, k)) as Hrec
    by (intros k; apply Ho; by intros [[? _]|[? _]]).
  split_and!; [done..| |].
  - split; [|done]. apply (elsewhere_sound s); [done|]. split_and!; [done..|]. intros id' d m _ _. apply Ho.
    intros [[? _]|[_ Heq]]; [done|]. symmetry in Heq. by apply publishedKey_not_draft in Heq.
  - intros key [(id' & d & m & (r & Hr & Hd) & Hm & ->)|(id' & p & Hin & ->)].
    + left. left. exists id', d, m. split; [|done]. exists r. by rewrite <- Hrec.
    + destruct (decide (id' = id)) as [->|Hne]; [by eapply Hnew|]. left. right. exists id', p. split; [|done].
      destruct Hin as (r & Hr & Hd). exists r. split; [|done]. rewrite <- Ho; [done|]. by intros [[_ ?]|[? _]].
Qed.

Lemma put_others e req s :
  Spec.wf (between e s) -> intact (between e s) -> others (between e s) (snd (PutPublishedDocument e req s)).
Proof.
  intros Hw Hi. pose proof Hi as (_ & Hpub). destruct (PutPublishedDocument e req s) as [[m|err] s'] eqn:Hrun; cbn [snd].
  - destruct (put_run e req s m s' Hw Hpub Hrun) as (canonical & parsed & _ & _ & Ho & Hin & _ & Hp & Hcase).
    assert (Spec.wf s' /\ later (between e s) s') as [Hw' Hl'].
    { unfold PutPublishedDocument in Hrun. destruct (put_plan e req) as [[[doc value] load]|]; [|done].
      apply map_err_ok, txn_ok in Hrun as [Hrun _]. pose proof (steady_putPublished e doc value load (between e s) Hw) as Hst.
      by rewrite Hrun in Hst. }
    apply (document_others (put_id req canonical)); try done. intros p Hx.
    destruct Hcase as [[_ (r & Hr & Hlt & _)]|(existing & Hex & _ & _)]; [right; by exists r|left; right; by eexists _, _].
  - assert (s' = between e s) as ->; [|by apply others_refl].
    unfold PutPublishedDocument in Hrun. destruct (put_plan e req) as [[[doc value] load]|]; [by eapply map_txn_err|by injection Hrun as _ <-].
Qed.

(** A document published within the grace period of a cleanup is recent to it. *)
Lemma put_recent e req s rev now :
  Spec.wf (between e s) -> intact (between e s) -> (forall key, Sub now (store_time e NamespaceContent key) < OrphanGracePeriod) ->
  recent rev now (between e s) -> recent rev now (snd (PutPublishedDocument e req s)).
Proof.
  intros Hw (_ & Hpub) Htime Hr. destruct (PutPublishedDocument e req s) as [[m|err] s'] eqn:Hrun; cbn [snd].
  - destruct (put_run e req s m s' Hw Hpub Hrun) as (canonical & parsed & _ & _ & Ho & _ & _ & _ & Hcase). intros key r Hkey Hlt.
    destruct (decide (key = publishedKey (put_id req canonical))) as [->|Hne].
    + destruct Hcase as [[_ (r' & Hr' & _ & Hu)]|(_ & _ & _ & Hsame)]; [assert (r = r') as -> by congruence; rewrite Hu; apply Htime|].
      rewrite Hsame in Hkey. exact (Hr _ r Hkey Hlt).
    + rewrite Ho in Hkey by (by intros [[? _]|[_ ?]]). exact (Hr key r Hkey Hlt).
  - unfold PutPublishedDocument in Hrun. destruct (put_plan e req) as [[[doc value] load]|].
    + by apply map_txn_err in Hrun as ->.
    + by injection Hrun as _ <-.
Qed.

(** Removing a document at the revision it was listed at. *)
Lemma deletePublished_run e id revision s s' :
  deletePublished e id revision s = (Ok tt, s') ->
  (exists old, Spec.recs (between e s) !! (NamespacePublished, id) = Some old /\ (revision = AnyRevision \/ revision = Record.Revision old)) /\
  forall ns k, Spec.recs s' !! (ns, k) =
    if decide (of_document id ns k) then None else Spec.recs (between e s) !! (ns, k).
Proof.
  unfold deletePublished. rewrite map_err_ok, txn_ok, st_bind_ok. intros (([] & s1 & Hd%pub_call_ok & Hc) & _).
  apply delete_inv in Hd as (old & Hold & Hx & ->). split; [by exists old|]. intros ns k. rewrite (dropContent_inv _ _ _ Hc). cbn [Spec.recs].
  destruct (decide _) as [[[-> ->]|[-> ->]]|Hn].
  - rewrite lookup_delete_ne by (intros [=]). apply lookup_delete_eq.
  - apply lookup_delete_eq.
  - rewrite !lookup_delete_ne; [done|..]; intros [= <- <-]; apply Hn; [by left|by right].
Qed.

Lemma steady_deletePublished e id revision s :
  Spec.wf (between e s) -> Spec.wf (snd (deletePublished e id revision s)) /\ later (between e s) (snd (deletePublished e id revision s)).
Proof.
  assert (forall A (m : st Spec.state serror A), steady m ->
    Spec.wf (between e s) -> Spec.wf (snd (m (between e s))) /\ later (between e s) (snd (m (between e s)))) as Hst by (intros A m Hm Hw; by apply Hm).
  apply Hst. unfold pub_call. auto 10 with service.
Qed.

Lemma delete_others e id revision s :
  Spec.wf (between e s) -> intact (between e s) -> others (between e s) (snd (deletePublished e id revision s)).
Proof.
  intros Hw Hi. pose proof (steady_deletePublished e id revision s Hw) as [Hw' Hl'].
  destruct (deletePublished e id revision s) as [[[]|err] s'] eqn:Hrun; cbn [snd] in *.
  - apply deletePublished_run in Hrun as [_ Hrun].
    assert (Spec.recs s' !! (NamespacePublished, id) = None) as Hnone by (rewrite Hrun; apply decide_True; by left).
    assert (only_document id (between e s) s') as Ho by (intros ns k Hn; rewrite Hrun; by apply decide_False).
    apply (document_others id); try done.
    + apply (published_update id (between e s)); try done; [apply Hi|]. intros r Hr. congruence.
    + intros p (r & Hr & _). congruence.
  - apply map_txn_err in Hrun as ->. by apply others_refl.
Qed.

(** ** Every call *)

(** The calls of the service that write, cleanups apart. *)
Inductive service_call : Type :=
  | OnDraft (c : call)
  | Publishing (req : PutPublishedDocumentRequest)
  | Removing (id : string) (revision : Z).

Definition performs (e : env) (c : service_call) (s : Spec.state) : Spec.state :=
  match c with
  | OnDraft c => snd (perform e c s)
  | Publishing req => snd (PutPublishedDocument e req s)
  | Removing id revision => snd (deletePublished e id revision s)
  end.

Definition ready (e : env) (c : service_call) (s : Spec.state) : Prop :=
  match c with OnDraft c => good e c s | _ => True end.

(** Every writing call of the service is one a cleanup allows for, whether
    it succeeds or fails: from a store in which every draft and every published
    document reads back it leaves such a store, its revisions only go forward,
    and the content a draft or a document has afterwards and had not before is
    content the call wrote. *)
Theorem service_calls_allowed e c s :
  Spec.wf s -> Spec.wf (between e s) -> later s (between e s) -> intact (between e s) -> ready e c s ->
  Spec.wf (performs e c s) /\ later (between e s) (performs e c s) /\ intact (performs e c s) /\
  forall key, named (performs e c s) key -> named (between e s) key \/ newer (between e s) (performs e c s) key.
Proof.
  intros Hw Hw1 Hl Hi Hr. destruct c as [c|req|id revision].
  - exact (perform_others e c s Hw Hw1 Hl Hi Hr).
  - exact (put_others e req s Hw1 Hi).
  - exact (delete_others e id revision s Hw1 Hi).
Qed.

End Allowed.
