(* ===== verification/CleanupExact.v ===== *)
(** * What a cleanup of content removes

    When nobody else is at the store, exactly the content that nothing names
    and that is old enough; the dry run counts the same records. *)

From Stdlib Require Import ZArith Lia Ascii String Strings.Byte.
From stdpp Require Import base option list gmap strings sorting.
From S2P Require Import Prelude Record RecordSpec Text Url Codes Document Checks Layers Icons Validate Parents ValidateSpec EdgeSpec DocumentSpec.
From S2P Require Import Drafts Content DraftService Published DraftSpec DraftStore DraftWrites DraftAppend DraftCalls DraftPublish DraftCreate DraftTrace PublishedSpec CleanupSpec.

Open Scope Z_scope.
Open Scope go_scope.

Section Exact.
Context `{ServiceLaws} `{!CompressionLaws} `{PublishedLaws}.

(** Nobody else is at the store, and it commits. *)
Definition quiet (es : nat -> env) : Prop := forall n, commit (es n) = None /\ forall s, between (es n) s = s.

(** ** The loop *)

(** The loop removes the content of the key. *)
Definition doomed (now : Z) (live unreadable : list string) (s : Spec.state) (key : string) : bool :=
  match contentDraftOf key, Spec.recs s !! (NamespaceContent, key) with
  | Some draft, Some r =>
      negb (bool_decide (key ∈ live)) && negb (negb (String.eqb draft "") && bool_decide (draft ∈ unreadable)) &&
      (OrphanGracePeriod <=? Sub now (Updated r))
  | _, _ => false
  end.

Definition malformed (key : string) : bool := negb (bool_decide (is_Some (contentDraftOf key))).

Definition sweep (keys : list string) (s : Spec.state) : Spec.state :=
  Spec.mkState (Spec.rev s) (foldl (fun m key => base.delete (NamespaceContent, key) m) (Spec.recs s) keys).

Lemma content_ne (k key : string) : k <> key -> (NamespaceContent, key) <> (NamespaceContent, k).
Proof. by intros Hne [= ->]. Qed.

Lemma sweep_nil s : sweep [] s = s.
Proof. by destruct s. Qed.

Lemma sweep_lookup keys s ns k :
  Spec.recs (sweep keys s) !! (ns, k) = if decide (ns = NamespaceContent /\ k ∈ keys) then None else Spec.recs s !! (ns, k).
Proof. exact (foldl_delete_lookup NamespaceContent keys (Spec.recs s) (ns, k)). Qed.

Lemma sweep_size keys s :
  NoDup keys -> Forall (fun k => is_Some (Spec.recs s !! (NamespaceContent, k))) keys ->
  zlen keys = Z.of_nat (size (Spec.recs s)) - Z.of_nat (size (Spec.recs (sweep keys s))).
Proof.
  unfold sweep. cbn [Spec.recs]. generalize (Spec.recs s). induction keys as [|key keys IH]; intros m Hd Hf; cbn [foldl].
  - unfold zlen. cbn. lia.
  - apply NoDup_cons in Hd as [Hk Hd]. apply Forall_cons in Hf as [[r Hr] Hf].
    assert (Z.of_nat (size m) = Z.of_nat (size (base.delete (NamespaceContent, key) m)) + 1) as Hs.
    { rewrite map_size_delete_Some by by exists r. assert (size m <> 0%nat); [|lia]. intros Hz%map_size_empty_inv. subst. done. }
    rewrite Hs. specialize (IH (base.delete (NamespaceContent, key) m) Hd). unfold zlen in *. cbn [length].
    assert (Forall (fun k => is_Some (base.delete (NamespaceContent, key) m !! (NamespaceContent, k))) keys) as Hf'.
    { apply Forall_forall. intros k Hin. rewrite lookup_delete_ne by (apply content_ne; congruence). by apply (proj1 (Forall_forall _ _) Hf). }
    specialize (IH Hf'). lia.
Qed.

(** Removing one key leaves the fate of the others. *)
Lemma doomed_delete now live unreadable s key k :
  k <> key -> doomed now live unreadable (Spec.mkState (Spec.rev s) (base.delete (NamespaceContent, key) (Spec.recs s))) k =
  doomed now live unreadable s k.
Proof. intros Hne. unfold doomed. cbn [Spec.recs]. by rewrite lookup_delete_ne by (apply content_ne; congruence). Qed.

Lemma getRecord_there s ns k r :
  validateRecordNamespaceAndKey ns k = Ok tt -> Spec.recs s !! (ns, k) = Some r -> getRecord s ns k = Ok r.
Proof. intros Hv Hr. unfold getRecord, tx_call, Spec.get, Spec.lookup. by rewrite Hv, Hr. Qed.

Lemma delete_there s ns k r :
  validateRecordNamespaceAndKey ns k = Ok tt -> Spec.recs s !! (ns, k) = Some r ->
  Spec.delete ns k (Record.Revision r) s = (Ok tt, Spec.mkState (Spec.rev s) (base.delete (ns, k) (Spec.recs s))).
Proof.
  intros Hv Hr. unfold Spec.delete, Spec.lookup, checkRecordRevision. rewrite Hv. cbn [res_bind]. rewrite Hr. cbn [res_bind].
  by rewrite Z.eqb_refl, orb_true_r.
Qed.

Lemma clean_keys_exact es now (dryRun : bool) live unreadable keys :
  quiet es -> forall n s,
  NoDup keys -> Forall (fun k => validateRecordNamespaceAndKey NamespaceContent k = Ok tt /\ is_Some (Spec.recs s !! (NamespaceContent, k))) keys ->
  clean_keys es n now dryRun live unreadable keys s =
    (zlen (List.filter (doomed now live unreadable s) keys),
     map (fun key => newCorruptError "content" key (lit "key is not shaped like a content key")) (List.filter malformed keys),
     if dryRun then s else sweep (List.filter (doomed now live unreadable s) keys) s).
Proof.
  intros Hq. induction keys as [|key keys IH]; intros n s Hd Hf; cbn [clean_keys List.filter map].
  { destruct dryRun; by rewrite ?sweep_nil. }
  apply NoDup_cons in Hd as [Hnotin Hd]. apply Forall_cons in Hf as [[Hv [r Hr]] Hf].
  assert (doomed now live unreadable s key = match contentDraftOf key with Some draft =>
    negb (bool_decide (key ∈ live)) && negb (negb (String.eqb draft "") && bool_decide (draft ∈ unreadable)) &&
      (OrphanGracePeriod <=? Sub now (Updated r)) | None => false end) as -> by (unfold doomed; by rewrite Hr).
  unfold malformed at 1. destruct (contentDraftOf key) as [draft|].
  2: { rewrite bool_decide_eq_false_2 by (by intros [? ?]). cbn [negb List.filter map]. by rewrite (IH _ _ Hd Hf). }
  rewrite (bool_decide_eq_true_2 (is_Some (Some draft))) by done. cbn [negb].
  destruct (bool_decide (key ∈ live)); cbn [orb negb andb]; [by rewrite (IH _ _ Hd Hf)|].
  destruct (_ && bool_decide (draft ∈ unreadable)); cbn [negb andb]; [by rewrite (IH _ _ Hd Hf)|].
  rewrite (proj2 (Hq n)), (getRecord_there s _ _ r Hv Hr), Z.leb_antisym.
  destruct (Sub now (Updated r) <? OrphanGracePeriod); cbn [negb]; [by rewrite (IH _ _ Hd Hf)|].
  assert (forall (l : list string) x, zlen (x :: l) = zlen l + 1) as Hz by (intros; unfold zlen; cbn [length]; lia).
  destruct dryRun; [by rewrite (IH _ _ Hd Hf), Hz|].
  unfold RecordTxn, tx_call. rewrite (proj2 (Hq (S n))), (delete_there s _ _ r Hv Hr). cbn [res_map_err]. rewrite (proj1 (Hq (S n))).
  set (s1 := Spec.mkState _ _).
  assert (List.filter (doomed now live unreadable s1) keys = List.filter (doomed now live unreadable s) keys) as He.
  { apply filter_ext_in. intros k Hk. apply doomed_delete. intros ->. by apply Hnotin, list_elem_of_In. }
  rewrite (IH _ s1 Hd).
  - rewrite He, Hz. unfold sweep. done.
  - apply Forall_forall. intros k Hk. destruct (proj1 (Forall_forall _ _) Hf k Hk) as [? Hs]. split; [done|].
    cbn. rewrite lookup_delete_ne by (apply content_ne; congruence). done.
Qed.

(** ** What is removed *)

(** The keys of content, as texts: the draft and the snapshot, or the document,
    each a name of one segment. *)
Definition segment (s : string) : Prop := s <> "" /\ free "/" s = true.
Definition draft_content (key draft : string) : Prop :=
  exists snapshot, key = "drafts/" +:+ draft +:+ "/" +:+ snapshot /\ segment draft /\ segment snapshot.
Definition document_content (key : string) : Prop := exists document, key = "published/" +:+ document /\ segment document.

Lemma split_on_cons s p ps :
  split_on "/" s = p :: ps <-> free "/" p = true /\ (ps = [] /\ s = p \/ exists t, s = p +:+ "/" +:+ t /\ split_on "/" t = ps).
Proof.
  split.
  - revert p ps. induction s as [|a s IH]; intros p ps; cbn [split_on]; [intros [= <- <-]; split; [done|by left]|].
    destruct (Ascii.eqb_spec a "/") as [->|Hne].
    + intros [= <- <-]. split; [done|]. right. by exists s.
    + destruct (split_on_nonempty "/" s) as (q & qs & Es). rewrite Es. intros [= <- <-]. destruct (IH _ _ Es) as [Hf Hs]. split.
      * apply free_cons. split; [by destruct (Ascii.eqb_spec a "/")|done].
      * destruct Hs as [[-> ->]|(t & -> & <-)]; [by left|right; exists t; by rewrite string_app_cons].
  - intros [Hf [[-> ->]|(t & -> & <-)]]; [by apply split_free|]. apply (proj2 (split_free "/" p Hf) t).
Qed.

Lemma split_on_one s p : split_on "/" s = [p] <-> free "/" p = true /\ s = p.
Proof.
  rewrite split_on_cons. split; [|by intros [? ->]; split; [|left]]. intros [Hf [[_ ->]|(t & _ & Ht)]]; [done|].
  by destruct (split_on_nonempty "/" t) as (? & ? & E); rewrite E in Ht.
Qed.

(** What the keys of content split into. *)
Lemma contentDraftOf_spec key draft :
  contentDraftOf key = Some draft <-> draft_content key draft \/ draft = "" /\ document_content key.
Proof.
  assert (forall s, negb (String.eqb s "") = true <-> s <> "") as Hne by (intros s; rewrite negb_true_iff; apply String.eqb_neq).
  unfold contentDraftOf, draft_content, document_content, segment. split.
  - destruct (split_on "/" key) as [|x [|y [|z [|]]]] eqn:E; try done; apply split_on_cons in E as [_ [[? _]|(t & -> & E)]]; try done.
    + apply split_on_one in E as [Hy ->]. destruct (String.eqb_spec x scopePublished) as [->|]; [|done]. destruct (negb (String.eqb y "")) eqn:Ey; [|done].
      intros [= <-]. right. split; [done|]. exists y. rewrite <- Hne. done.
    + apply split_on_cons in E as [Hy [[? _]|(t' & -> & E)]]; [done|]. apply split_on_one in E as [Hz ->].
      destruct (String.eqb_spec x scopeDrafts) as [->|]; [|done]. destruct (negb (String.eqb y "")) eqn:Ey; [|done]. destruct (negb (String.eqb z "")) eqn:Ez; [|done].
      intros [= <-]. left. exists z. rewrite <- !Hne. done.
  - intros [(z & -> & [Hy%Hne Hy'] & Hz%Hne & Hz')|(-> & y & -> & Hy%Hne & Hy')].
    + assert (split_on "/" ("drafts/" +:+ draft +:+ "/" +:+ z) = ["drafts"; draft; z]) as ->; [|by rewrite Hy, Hz].
      apply split_on_cons. split; [done|]. right. eexists. split; [reflexivity|]. apply split_on_cons. split; [done|]. right. eexists. split; [reflexivity|]. by apply split_on_one.
    + assert (split_on "/" ("published/" +:+ y) = ["published"; y]) as ->; [|by rewrite Hy].
      apply split_on_cons. split; [done|]. right. eexists. split; [reflexivity|]. by apply split_on_one.
Qed.

(** A draft or a published document has the content, or one whose record does
    not decode may have it. *)
Definition kept (s : Spec.state) (key : string) : Prop :=
  named s key \/
  (exists id r, Spec.recs s !! (NamespaceDrafts, id) = Some r /\ ok (decodeDraft r) = false /\ draft_content key id) \/
  (exists id r, Spec.recs s !! (NamespacePublished, id) = Some r /\ ok (decodePublished r) = false /\ key = publishedKey id).

(** Content that a cleanup at the time removes. *)
Definition garbage (now : Z) (s : Spec.state) (key : string) (r : record) : Prop :=
  ((exists draft, draft_content key draft) \/ document_content key) /\ ~ kept s key /\ OrphanGracePeriod <= Sub now (Updated r).

Lemma elem_of_list_records s ns records r :
  Spec.wf s -> Spec.list_records ns "" s = Ok records -> r ∈ records <-> Spec.recs s !! (ns, Key r) = Some r.
Proof.
  intros Hw Hl. split; [|by eapply list_records_there]. unfold Spec.list_records in Hl.
  destruct (validateRecordNamespaceAndPrefix ns "") as [[]|]; [|done]. cbn [res_bind] in Hl. injection Hl as <-.
  intros (k & _ & Hr)%list_elem_of_omap. destruct Hw as (_ & Hw & _). pose proof (Hw _ _ _ Hr) as (_ & <- & _). done.
Qed.

Lemma list_drafts_inv e s drafts unreadable :
  Spec.wf s -> listDrafts e s = Ok (drafts, unreadable) ->
  (forall d, d ∈ drafts <-> exists id, draft_at s id d) /\
  (forall id, id ∈ unreadable <-> exists r, Spec.recs s !! (NamespaceDrafts, id) = Some r /\ ok (decodeDraft r) = false).
Proof.
  intros Hw Hl. pose proof (fun id d => listed_draft e s drafts unreadable id d Hl) as Hthere.
  unfold listDrafts, ListDraftsWithDamaged in Hl. apply bind_ok in Hl as ([ds damaged] & Hl & [= <- <-]).
  rewrite bind_unit in Hl. destruct Hl as [_ Hl]. apply bind_ok in Hl as (records & Hrec%res_map_err_ok & [= <- <-]). split.
  - intros d. split; [|by intros [id ?]; eapply Hthere]. intros (r & Hr & Hd)%list_elem_of_omap. exists (Key r), r.
    split; [by eapply elem_of_list_records|]. by destruct (decodeDraft r); simplify_eq.
  - intros id. rewrite list_elem_of_fmap. setoid_rewrite list_elem_of_omap. split.
    + intros (dd & -> & r & Hr & Hd). exists r. destruct (decodeDraft r) eqn:E; [done|]. injection Hd as <-. split; [|done].
      assert (dd_ID (readDamagedDraft r) = Key r) as -> by by (unfold readDamagedDraft; destruct (raw_fields _)). by eapply elem_of_list_records.
    + intros (r & Hr & Hd). exists (readDamagedDraft r). assert (dd_ID (readDamagedDraft r) = Key r) as -> by by (unfold readDamagedDraft; destruct (raw_fields _)).
      split; [symmetry; destruct Hw as (_ & Hw & _); by apply Hw in Hr as (_ & ? & _)|].
      exists r. split; [by eapply list_records_there|]. by destruct (decodeDraft r).
Qed.

Lemma list_published_inv e s docs damaged errs :
  Spec.wf s -> listReadablePublished e s = Ok (docs, damaged, errs) ->
  (forall p, p ∈ docs <-> exists id, published_in s id p) /\
  (forall id, id ∈ damaged <-> exists r, Spec.recs s !! (NamespacePublished, id) = Some r /\ ok (decodePublished r) = false).
Proof.
  intros Hw Hl. pose proof (fun id p => listed_published e s docs damaged errs id p Hl) as Hthere.
  unfold listReadablePublished in Hl. rewrite bind_unit in Hl. destruct Hl as [_ Hl].
  apply bind_ok in Hl as (records & Hrec%res_map_err_ok & [= <- <- <-]). split.
  - intros p. split; [|by intros [id ?]; eapply Hthere]. intros (r & Hr & Hd)%list_elem_of_omap. exists (Key r), r.
    split; [by eapply elem_of_list_records|]. by destruct (decodePublished r); simplify_eq.
  - intros id. rewrite list_elem_of_omap. split.
    + intros (r & Hr & Hd). exists r. destruct (decodePublished r) eqn:E; [done|]. injection Hd as <-. split; [|done]. by eapply elem_of_list_records.
    + intros (r & Hr & Hd). exists r. split; [by eapply list_records_there|]. destruct (decodePublished r); [done|].
      destruct Hw as (_ & Hw & _). by apply Hw in Hr as (_ & -> & _).
Qed.

(** The loop spares exactly the content that is kept. *)
Lemma spared_kept e e' s drafts unreadable docs damaged errs key draft :
  Spec.wf s -> listDrafts e s = Ok (drafts, unreadable) -> listReadablePublished e' s = Ok (docs, damaged, errs) ->
  contentDraftOf key = Some draft ->
  (key ∈ live_keys drafts docs damaged \/ draft <> "" /\ draft ∈ unreadable) <-> kept s key.
Proof.
  intros Hw Hd Hp Hkey. destruct (list_drafts_inv e s drafts unreadable Hw Hd) as [Hd1 Hd2].
  destruct (list_published_inv e' s docs damaged errs Hw Hp) as [Hp1 Hp2].
  assert (forall id, draft_content key id <-> id <> "" /\ draft = id) as Hdc.
  { intros id. split.
    - intros Hdc. assert (contentDraftOf key = Some id) as Hid by (apply contentDraftOf_spec; by left). split; [|congruence]. by destruct Hdc as (? & _ & [? _] & _).
    - intros [Hne <-]. apply contentDraftOf_spec in Hkey as [?|[? _]]; done. }
  unfold live_keys, kept, named. setoid_rewrite Hdc. rewrite !elem_of_app, list_elem_of_bind, !list_elem_of_fmap, Hd2. split.
  - intros [[(d & (m & -> & Hm)%list_elem_of_fmap & Hin)|[(p & -> & Hin)|(id & -> & Hin)]]|[Hne (r & Hr & Hbad)]].
    + apply Hd1 in Hin as [id Hat]. destruct (draft_at_valid s id d Hw Hat) as (_ & (<- & _) & _). left; left. by eexists _, _, _.
    + apply Hp1 in Hin as [id Hin]. left; right. pose proof (published_in_ok s id p Hw Hin) as (<- & _). by eexists _, _.
    + apply Hp2 in Hin as (r & Hr & Hbad). right; right. by exists id, r.
    + right; left. by exists draft, r.
  - intros [[(id & d & m & Hat & Hm & ->)|(id & p & Hin & ->)]|[(id & r & Hr & Hbad & Hne & ->)|(id & r & Hr & Hbad & ->)]].
    + left; left. exists d. rewrite Hd1. split; [|by exists id]. destruct (draft_at_valid s id d Hw Hat) as (_ & (<- & _) & _).
      apply list_elem_of_fmap. by exists m.
    + left; right; left. exists p. rewrite Hp1. pose proof (published_in_ok s id p Hw Hin) as (<- & _). split; [done|by eexists].
    + right. split; [done|]. by exists r.
    + left; right; right. exists id. rewrite Hp2. split; [done|]. by exists r.
Qed.

(** C24: Exactly the garbage goes. With nobody else at the store, a cleanup that
    lists everything removes the content whose key is that of a snapshot,
    "drafts/<draft>/<snapshot>", or of a document, "published/<document>", that
    no draft and no published document names, that no record which fails to
    decode may have, and that is as old as the grace period; nothing else of
    the store changes. It reports how many records it removed, and the dry run
    reports the same number and the same errors and changes nothing. *)
Theorem CleanupOrphanedContent_exact es s removed err s' :
  quiet es -> Spec.wf s ->
  (forall k r, Spec.recs s !! (NamespaceContent, k) = Some r -> validateRecordNamespaceAndKey NamespaceContent k = Ok tt) ->
  CleanupOrphanedContent es false s = (Ok (removed, err), s') ->
  (forall ns k r, Spec.recs s' !! (ns, k) = Some r <->
     Spec.recs s !! (ns, k) = Some r /\ ~ (ns = NamespaceContent /\ garbage (clock (es 2%nat)) s k r)) /\
  removed = Z.of_nat (size (Spec.recs s)) - Z.of_nat (size (Spec.recs s')) /\
  CleanupOrphanedContent es true s = (Ok (removed, err), s).
Proof.
  intros Hq Hw Hvalid. unfold CleanupOrphanedContent. cbv zeta. rewrite !(proj2 (Hq _)).
  destruct (listDrafts (es 0%nat) s) as [[drafts unreadable]|] eqn:Ed; [|done].
  destruct (listReadablePublished (es 1%nat) s) as [[[docs damaged] errs]|] eqn:Ep; [|done].
  destruct (Spec.list_keys NamespaceContent "" s) as [keys|] eqn:Ek; [|done].
  unfold Spec.list_keys in Ek. destruct (validateRecordNamespaceAndPrefix NamespaceContent "") as [[]|]; [|done]. cbn [res_bind] in Ek. injection Ek as <-.
  set (keys := Spec.sorted_keys s NamespaceContent "").
  assert (Forall (fun k => is_Some (Spec.recs s !! (NamespaceContent, k))) keys) as Hthere.
  { apply Forall_forall. by intros k [? _]%elem_of_sorted_keys. }
  assert (NoDup keys) as Hnd by (unfold keys, Spec.sorted_keys; rewrite merge_sort_Permutation; apply NoDup_elements).
  set (live := live_keys drafts docs damaged). set (now := clock (es 2%nat)).
  assert (Forall (fun k => validateRecordNamespaceAndKey NamespaceContent k = Ok tt /\ is_Some (Spec.recs s !! (NamespaceContent, k))) keys) as Hf.
  { eapply Forall_impl; [exact Hthere|]. intros k [r Hr]. split; [by eapply Hvalid|by exists r]. }
  rewrite (clean_keys_exact es now false live unreadable keys Hq 3 s Hnd Hf), (clean_keys_exact es now true live unreadable keys Hq 3 s Hnd Hf).
  set (gone := List.filter (doomed now live unreadable s) keys). intros [= <- <- <-].
  assert (forall k, k ∈ gone <-> exists r, Spec.recs s !! (NamespaceContent, k) = Some r /\ garbage now s k r) as Hgone.
  { intros k. unfold gone. rewrite list_elem_of_In, filter_In, <- list_elem_of_In. unfold keys. rewrite elem_of_sorted_keys. unfold doomed, garbage.
    split.
    - intros [[[r Hr] _] Hdoom]. rewrite Hr in Hdoom. destruct (contentDraftOf k) as [draft|] eqn:Ec; [|done].
      exists r. split; [done|]. split; [apply contentDraftOf_spec in Ec as [?|[_ ?]]; [left; by exists draft|by right]|]. apply andb_true_iff in Hdoom as [[Hl Hu]%andb_true_iff Hold%Z.leb_le].
      apply negb_true_iff, bool_decide_eq_false in Hl. split; [|done].
      rewrite <- (spared_kept _ _ s drafts unreadable docs damaged errs k draft Hw Ed Ep Ec). intros [?|[Hne Hin]]; [done|].
      rewrite (proj2 (String.eqb_neq _ _) Hne), (bool_decide_eq_true_2 _ Hin) in Hu. done.
    - intros (r & Hr & Hshape & Hk & Hold). assert (exists draft, contentDraftOf k = Some draft) as [draft Ec].
      { destruct Hshape as [[draft Hs]|Hs]; eexists; apply contentDraftOf_spec; [by left|by right]. }
      split; [split; [by exists r|by destruct k]|]. rewrite Hr, Ec.
      rewrite <- (spared_kept _ _ s drafts unreadable docs damaged errs k draft Hw Ed Ep Ec) in Hk.
      rewrite bool_decide_eq_false_2 by tauto. rewrite (proj2 (Z.leb_le _ _) Hold). cbn [negb andb].
      destruct (String.eqb_spec draft "") as [|Hne]; [done|]. rewrite bool_decide_eq_false_2 by tauto. done. }
  split_and!; [| |done].
  - intros ns k r. rewrite sweep_lookup. destruct (decide _) as [[-> Hin]|Hn].
    + split; [done|]. intros [Hr Hno]. destruct Hno. split; [done|]. apply Hgone in Hin as (r' & Hr' & Hg). by assert (r' = r) as -> by congruence.
    + split; [|by intros []]. intros Hr. split; [done|]. intros [-> Hg]. apply Hn. split; [done|]. apply Hgone. by exists r.
  - apply sweep_size; [by apply NoDup_ListNoDup, List.NoDup_filter, NoDup_ListNoDup|]. apply Forall_forall. intros k Hk. apply Hgone in Hk as (r & Hr & _). by exists r.
Qed.

End Exact.
