(* ===== verification/LayerSets.v ===== *)
(** * api/builder/layersets.go: the layer set library

    The layer sets every user shares, each a record, and the choice of a
    default. A change reads a record and writes it against the revision it
    read, and starts again when another write was first. Each access to the
    store has an [env] of its own, which says what others do before it. *)

From Stdlib Require Import ZArith Lia Ascii String Strings.Byte.
From stdpp Require Import base option list gmap strings sorting.
From S2P Require Import Prelude Record RecordSpec Text Codes Document Checks Layers Icons Validate Drafts Content DraftService.

Open Scope Z_scope.
Open Scope go_scope.

(** ** Data *)

Definition NamespaceLayerSets : string := "builder.layersets".
Definition MaxLayerSets : Z := 200.
Definition maxLibraryAttempts : nat := 5.
Definition maxShownIDBytes : nat := 80.
Definition kindLayerSet : string := "layer set".
Definition kindLayerSetDefault : string := "default layer set".
Definition layerSetKeyPrefix : string := "set/".
Definition layerSetDefaultKey : string := "default".

(** [LibraryLayerSet], with the set it embeds. *)
Record LibraryLayerSet : Type := {
  lib_Set : LayerSet;
  lib_ID : string;
  lib_Version : Z;
  lib_Created : Z;
  lib_Updated : Z;
  lib_CreatedBy : string;
  lib_UpdatedBy : string;
  lib_Revision : Z;
}.

Definition with_lib_revision (s : LibraryLayerSet) (revision : Z) : LibraryLayerSet := {|
  lib_Set := lib_Set s; lib_ID := lib_ID s; lib_Version := lib_Version s; lib_Created := lib_Created s;
  lib_Updated := lib_Updated s; lib_CreatedBy := lib_CreatedBy s; lib_UpdatedBy := lib_UpdatedBy s; lib_Revision := revision |}.

Record LayerSetDefault : Type := { def_ID : string; def_ETag : string }.

(** The errors of the shared libraries, those of the package with them.
    [LChanged] is [errDefaultChanged]; [LLibrary] and [LIssue] are
    [LibraryError], the reason as text or as an issue. *)
Inductive lerror : Type :=
  | LService (e : serror)
  | LStale (id etag : string)
  | LSetLimit (limit : Z)
  | LForbidden (context : text)
  | LBusy (context : text)
  | LChanged
  | LLibrary (reason : text) (limit : bool)
  | LIssue (issue : Issue).

Definition lift_service {A} (r : res serror A) : res lerror A := res_map_err LService r.

(** [errors.Is] of [ErrNotFound] and of [ErrConflict]. *)
Definition lib_not_found (e : lerror) : bool := match e with LService e => is_not_found e | _ => false end.
Definition lib_conflict (e : lerror) : bool :=
  match e with LService e => is_conflict e | LStale _ _ => true | _ => false end.

(** encoding/json of layer sets, of their records and of the choice. *)
Class LayerSetJSON := {
  marshal_layer_set : LayerSet -> res string (list byte);
  marshal_library_set : LibraryLayerSet -> res string (list byte);
  unmarshal_library_set : list byte -> res (option string) LibraryLayerSet;
  marshal_default : string -> res string (list byte);
  unmarshal_default : list byte -> res (option string) string;
}.

Definition RevisionETag (rev : Z) : string := dq +:+ itoa rev +:+ dq.

Definition shownID (id : string) : string :=
  if (String.length id <=? maxShownIDBytes)%nat then id
  else Z_string (take (rune_cut (bytes_Z id) maxShownIDBytes) (bytes_Z id)) +:+ "...".

Section LayerSets.
Context `{Unicode, Libraries, LayerSetJSON}.

Definition LibraryLayerSet_ETag (s : LibraryLayerSet) : string := RevisionETag (lib_Version s).

Definition builtinLayerSet (id : string) : option LibraryLayerSet :=
  match List.find (fun set => String.eqb (fst set) id) BuiltinLayerSets with
  | Some (id, set) => Some {| lib_Set := set; lib_ID := id; lib_Version := 1; lib_Created := zero_time;
      lib_Updated := zero_time; lib_CreatedBy := ""; lib_UpdatedBy := ""; lib_Revision := 0 |}
  | None => None
  end.

Definition Builtin (s : LibraryLayerSet) : bool := bool_decide (is_Some (builtinLayerSet (lib_ID s))).

Definition layerSetKey (id : string) : string := layerSetKeyPrefix +:+ id.

(** ** Records *)

Definition decodeLayerSet (record : record) : res serror LibraryLayerSet :=
  let corrupt what := Err (newCorruptError kindLayerSet (Key record) what) in
  match decodeMetadata kindLayerSet (unmarshal_library_set (bytes_of (Value record))) with
  | Err reason => corrupt reason
  | Ok set =>
      if negb (String.eqb (layerSetKey (lib_ID set)) (Key record)) || negb (ValidID (lib_ID set)) then
        corrupt (lit "the record names another layer set")
      else if lib_Version set <? 1 then corrupt (Sprintf "the layer set has version %d" [AInt (lib_Version set)])
      else if negb (ok (validateText "createdBy" (lib_CreatedBy set) MaxOwnerLength false)) ||
              negb (ok (validateText "updatedBy" (lib_UpdatedBy set) MaxOwnerLength false)) then
        corrupt (lit "the layer set names an unusable user")
      else if negb (bool_decide (LayerSet_Validate (lib_Set set) = None)) then corrupt (lit "the layer set is not valid")
      else Ok (with_lib_revision set (Record.Revision record))
  end.

(** [checkLayerSet]. Its loop makes an empty list of matchers nil; here the
    two are one. *)
Definition checkLayerSet (content : LayerSet) : res serror unit :=
  match LayerSet_Validate content with
  | None => Ok tt
  | Some issues => Err (newValidationCause kindLayerSet (lit "is not a valid layer set") (InvalidDocument issues))
  end.

Definition sameLayerSet (a b : LayerSet) : bool :=
  match marshal_layer_set a, marshal_layer_set b with
  | Ok first, Ok second => bool_decide (first = second)
  | _, _ => false
  end.

(** One write of a record. *)
Definition write_record (e : env) (namespace key : string) (value : list byte) (revision : Z) : st Spec.state serror record :=
  RecordTxn e (tx_call (
    if revision =? 0 then Spec.create (store_time e namespace key) namespace key (Some value)
    else Spec.update (store_time e namespace key) namespace key (Some value) revision)).

(** [writeLayerSet]: what others do comes before the write. *)
Definition writeLayerSet (e : env) (set : LibraryLayerSet) (revision : Z) : st Spec.state lerror Z := fun s =>
  match marshal_library_set set with
  | Err what => (Err (LService (SWrap (Sprintf "encoding %s %s: %w" [AStr kindLayerSet; AStr (lib_ID set)]) (SOther what))), s)
  | Ok value =>
      if MaxMetadataBytes <? blen value then (Err (LService (newTooLargeError kindLayerSet (blen value) MaxMetadataBytes)), s)
      else
        match write_record e NamespaceLayerSets (layerSetKey (lib_ID set)) value revision (between e s) with
        | (Ok record, s) => (Ok (Record.Revision record), s)
        | (Err err, s) => (Err (LService (storeError kindLayerSet (lib_ID set) revision err)), s)
        end
  end.

(** ** Reading *)

Definition set_before (a b : LibraryLayerSet) : Prop :=
  let key s := (ToLower (ls_Name (lib_Set s)), ls_Name (lib_Set s), lib_ID s) in
  match String.compare (key a).1.1 (key b).1.1 with
  | Lt => True
  | Gt => False
  | Eq => match String.compare (key a).1.2 (key b).1.2 with
          | Lt => True
          | Gt => False
          | Eq => String.compare (key a).2 (key b).2 <> Gt
          end
  end.

#[export] Instance set_before_dec a b : Decision (set_before a b).
Proof. unfold set_before. repeat case_match; apply _. Defined.

Definition ListLayerSets (e : env) (s : Spec.state) : res serror (list LibraryLayerSet * Z) :=
  let? _ := check_ctx e 0 (lit "listing layer sets: %w") in
  let? records := res_map_err (fun err => SWrap (lit "listing layer sets: %w") (SRaw err))
                    (Spec.list_records NamespaceLayerSets layerSetKeyPrefix s) in
  let stored := omap (fun r => match decodeLayerSet r with Ok set => Some set | Err _ => None end) records in
  Ok (omap (fun set => builtinLayerSet (fst set)) BuiltinLayerSets ++ merge_sort set_before stored, zlen records - zlen stored).

Definition GetLayerSet (e : env) (s : Spec.state) (id : string) : res serror LibraryLayerSet :=
  let? _ := check_ctx e 0 (lit "reading a layer set: %w") in
  match builtinLayerSet id with
  | Some set => Ok set
  | None =>
      if negb (ValidID id) then Err (newNotFoundError kindLayerSet (shownID id))
      else
        let? record := res_map_err (storeError kindLayerSet id AnyRevision) (getRecord s NamespaceLayerSets (layerSetKey id)) in
        decodeLayerSet record
  end.

(** ** Changing *)

(** The keys are counted at access 0 and the record is written at access 1. *)
Definition CreateLayerSet (es : nat -> env) (actor : string) (content : LayerSet) (s : Spec.state)
  : res lerror LibraryLayerSet * Spec.state :=
  let e := es 0%nat in
  match (let? _ := check_ctx e 0 (lit "adding a layer set: %w") in
         let? _ := validateText "actor" actor MaxOwnerLength true in
         checkLayerSet content) with
  | Err err => (Err (LService err), s)
  | Ok _ =>
      let s := between e s in
      match Spec.list_keys NamespaceLayerSets layerSetKeyPrefix s with
      | Err err => (Err (LService (SWrap (lit "counting layer sets: %w") (SRaw err))), s)
      | Ok keys =>
          if MaxLayerSets <=? zlen keys then (Err (LSetLimit MaxLayerSets), s)
          else
            match new_id e 0 with
            | Err what => (Err (LService (SWrap (lit "adding a layer set: %w") (SOther what))), s)
            | Ok id =>
                if negb (ValidID id) || bool_decide (is_Some (builtinLayerSet id)) then
                  (Err (LService (SWrap (Sprintf "adding a layer set: the new identifier %q is not usable" [AStr id]) (SOther ""))), s)
                else
                  let set := {| lib_Set := content; lib_ID := id; lib_Version := 1; lib_Created := clock e; lib_Updated := clock e;
                                lib_CreatedBy := actor; lib_UpdatedBy := actor; lib_Revision := 0 |} in
                  match writeLayerSet (es 1%nat) set 0 s with
                  | (Ok revision, s) => (Ok (with_lib_revision set revision), s)
                  | (Err err, s) => (Err err, s)
                  end
            end
      end
  end.

(** The set an update writes. *)
Definition updated_set (current : LibraryLayerSet) (content : LayerSet) (now : Z) (actor : string) : LibraryLayerSet := {|
  lib_Set := content; lib_ID := lib_ID current; lib_Version := add64 (lib_Version current) 1; lib_Created := lib_Created current;
  lib_Updated := now; lib_CreatedBy := lib_CreatedBy current; lib_UpdatedBy := actor; lib_Revision := lib_Revision current |}.

(** The loop of [UpdateLayerSet]: an attempt reads at access [n] and writes
    at the next. *)
Fixpoint update_layer_set (attempts n : nat) (es : nat -> env) (actor id etag : string) (content : LayerSet) (s : Spec.state)
  : res lerror LibraryLayerSet * Spec.state :=
  match attempts with
  | O => (Err (LBusy (Sprintf "changing %s %s: %w" [AStr kindLayerSet; AStr id])), s)
  | S attempts =>
      let s := between (es n) s in
      match GetLayerSet (es n) s id with
      | Err err => (Err (LService err), s)
      | Ok current =>
          if negb (String.eqb (LibraryLayerSet_ETag current) etag) then (Err (LStale id (LibraryLayerSet_ETag current)), s)
          else if sameLayerSet (lib_Set current) content then (Ok current, s)
          else
            let set := updated_set current content (clock (es n)) actor in
            match writeLayerSet (es (S n)) set (lib_Revision current) s with
            | (Ok revision, s) => (Ok (with_lib_revision set revision), s)
            | (Err err, s) =>
                if lib_conflict err then update_layer_set attempts (S (S n)) es actor id etag content s else (Err err, s)
            end
      end
  end.

Definition UpdateLayerSet (es : nat -> env) (actor id etag : string) (content : LayerSet) (s : Spec.state)
  : res lerror LibraryLayerSet * Spec.state :=
  match lift_service (check_ctx (es 0%nat) 1 (lit "changing a layer set: %w")) with
  | Err err => (Err err, s)
  | Ok _ =>
      if bool_decide (is_Some (builtinLayerSet id)) then
        (Err (LForbidden (Sprintf "changing built-in %s %s: %w" [AStr kindLayerSet; AStr id])), s)
      else
        match (let? _ := validateText "actor" actor MaxOwnerLength true in checkLayerSet content) with
        | Err err => (Err (LService err), s)
        | Ok _ => update_layer_set maxLibraryAttempts 0 es actor id etag content s
        end
  end.

Fixpoint delete_layer_set (attempts n : nat) (es : nat -> env) (id etag : string) (s : Spec.state) : res lerror unit * Spec.state :=
  match attempts with
  | O => (Err (LBusy (Sprintf "deleting %s %s: %w" [AStr kindLayerSet; AStr id])), s)
  | S attempts =>
      let key := layerSetKey id in
      let s := between (es n) s in
      match getRecord s NamespaceLayerSets key with
      | Err err => (Err (LService (storeError kindLayerSet id AnyRevision err)), s)
      | Ok record =>
          let current := match decodeLayerSet record with
                         | Ok set => LibraryLayerSet_ETag set
                         | Err _ => RevisionETag (Record.Revision record) end in
          if negb (String.eqb current etag) then (Err (LStale id current), s)
          else
            match RecordTxn (es (S n)) (tx_call (Spec.delete NamespaceLayerSets key (Record.Revision record))) (between (es (S n)) s) with
            | (Ok _, s) => (Ok tt, s)
            | (Err err, s) =>
                if is_store err ErrRecordConflict then delete_layer_set attempts (S (S n)) es id etag s
                else (Err (LService (storeError kindLayerSet id (Record.Revision record) err)), s)
            end
      end
  end.

Definition DeleteLayerSet (es : nat -> env) (id etag : string) (s : Spec.state) : res lerror unit * Spec.state :=
  match lift_service (check_ctx (es 0%nat) 0 (lit "deleting a layer set: %w")) with
  | Err err => (Err err, s)
  | Ok _ =>
      if bool_decide (is_Some (builtinLayerSet id)) then
        (Err (LForbidden (Sprintf "deleting built-in %s %s: %w" [AStr kindLayerSet; AStr id])), s)
      else if negb (ValidID id) then (Err (LService (newNotFoundError kindLayerSet (shownID id))), s)
      else delete_layer_set maxLibraryAttempts 0 es id etag s
  end.

(** ** The default *)

(** The record is read first and the set it names after, from a later store. *)
Definition DefaultLayerSet (e : env) (s : Spec.state) : res serror LayerSetDefault :=
  let? _ := check_ctx e 1 (lit "reading the default layer set: %w") in
  match getRecord s NamespaceLayerSets layerSetDefaultKey with
  | Err err =>
      if is_store err ErrRecordNotExist then Ok {| def_ID := ""; def_ETag := RevisionETag 0 |}
      else Err (storeError kindLayerSetDefault layerSetDefaultKey AnyRevision err)
  | Ok record =>
      let none := {| def_ID := ""; def_ETag := RevisionETag (Record.Revision record) |} in
      match decodeMetadata kindLayerSetDefault (unmarshal_default (bytes_of (Value record))) with
      | Err _ => Ok none
      | Ok choice =>
          match GetLayerSet e (between e s) choice with
          | Err err => if is_not_found err || is_corrupt err then Ok none else Err err
          | Ok _ => Ok {| def_ID := choice; def_ETag := def_ETag none |}
          end
      end
  end.

(** The zero [store.Record]. *)
Definition no_record : record := mkRecord "" "" None 0 0 0.

(** The end of [writeDefaultLayerSet], with its write. *)
Definition write_default (e : env) (id : string) (revision : Z) (write : st Spec.state serror record) (s : Spec.state)
  : res lerror LayerSetDefault * Spec.state :=
  match write (between e s) with
  | (Ok written, s) => (Ok {| def_ID := id; def_ETag := RevisionETag (Record.Revision written) |}, s)
  | (Err err, s) =>
      (Err (if is_store err ErrRecordConflict || is_store err ErrRecordExist || is_store err ErrRecordNotExist then LChanged
            else LService (storeError kindLayerSetDefault layerSetDefaultKey revision err)), s)
  end.

(** [writeDefaultLayerSet]: the record is read at access [n] and written at
    the next. A record that is not there has revision 0. *)
Definition writeDefaultLayerSet (n : nat) (es : nat -> env) (id etag : string) (value : option (list byte)) (s : Spec.state)
  : res lerror LayerSetDefault * Spec.state :=
  let s := between (es n) s in
  match getRecord s NamespaceLayerSets layerSetDefaultKey with
  | Err err =>
      if negb (is_store err ErrRecordNotExist) then
        (Err (LService (storeError kindLayerSetDefault layerSetDefaultKey AnyRevision err)), s)
      else if negb (String.eqb (RevisionETag 0) etag) then (Err (LStale layerSetDefaultKey (RevisionETag 0)), s)
      else
        match value with
        | None => (Ok {| def_ID := ""; def_ETag := etag |}, s)
        | Some value => write_default (es (S n)) id 0 (write_record (es (S n)) NamespaceLayerSets layerSetDefaultKey value 0) s
        end
  | Ok record =>
      let revision := Record.Revision record in
      if negb (String.eqb (RevisionETag revision) etag) then (Err (LStale layerSetDefaultKey (RevisionETag revision)), s)
      else
        match value with
        | None => write_default (es (S n)) id revision
            (let! _ := RecordTxn (es (S n)) (tx_call (Spec.delete NamespaceLayerSets layerSetDefaultKey revision)) in
             st_ret no_record) s
        | Some value => write_default (es (S n)) id revision (write_record (es (S n)) NamespaceLayerSets layerSetDefaultKey value revision) s
        end
  end.

Fixpoint set_default (attempts n : nat) (es : nat -> env) (id etag : string) (value : option (list byte)) (s : Spec.state)
  : res lerror LayerSetDefault * Spec.state :=
  match attempts with
  | O => (Err (LBusy (lit "choosing the default layer set: %w")), s)
  | S attempts =>
      match writeDefaultLayerSet n es id etag value s with
      | (Err LChanged, s) => set_default attempts (S (S n)) es id etag value s
      | r => r
      end
  end.

(** The set is looked up at access 0. *)
Definition SetDefaultLayerSet (es : nat -> env) (id etag : string) (s : Spec.state) : res lerror LayerSetDefault * Spec.state :=
  match lift_service (check_ctx (es 0%nat) 1 (lit "choosing the default layer set: %w")) with
  | Err err => (Err err, s)
  | Ok _ =>
      if String.eqb id "" then set_default maxLibraryAttempts 1 es id etag None s
      else
        let s := between (es 0%nat) s in
        match (let? _ := GetLayerSet (es 0%nat) s id in
               res_map_err (fun what => SWrap (lit "encoding the default layer set: %w") (SOther what)) (marshal_default id)) with
        | Err err => (Err (LService err), s)
        | Ok value => set_default maxLibraryAttempts 1 es id etag (Some value) s
        end
  end.

End LayerSets.
