(* ===== verification/LayerSetSpec.v ===== *)
(** * What the layer set library promises

    A change replaces the content its entity tag names, however many attempts
    it takes, and a version of a set names one content for ever. *)

From Stdlib Require Import ZArith Lia Ascii String Strings.Byte.
From stdpp Require Import base option list gmap strings sorting.
From S2P Require Import Prelude Record RecordSpec Text Decimal Codes Document Checks Layers Icons Validate Drafts Content DraftService.
From S2P Require Import DraftSpec DraftStore DraftWrites DraftCalls LayerSets.

Open Scope Z_scope.
Open Scope go_scope.

(** The texts of a layer set and of its record. *)
Definition layer_texts (l : Layer) : list string :=
  [layer_Label l; layer_IconKey l; layer_Icon l; layer_Color l] ++ (map_to_list (Matchers l) ≫= fun '(field, pattern) => [field; pattern]).

Definition layer_set_texts (s : LayerSet) : list string :=
  [ls_Name s; ls_Description s; ls_IconKey s; ls_Icon s; ls_MatchConflict s] ++ (ls_Layers s ≫= layer_texts).

Definition lib_texts (s : LibraryLayerSet) : list string :=
  layer_set_texts (lib_Set s) ++ [lib_ID s; lib_CreatedBy s; lib_UpdatedBy s].

(** What is relied on of encoding/json: a record of valid UTF-8 comes back,
    and decoding gives valid UTF-8 and numbers that fit. *)
Class LayerSetLaws `{LayerSetJSON} : Prop := {
  unmarshal_marshal_set s v :
    marshal_library_set s = Ok v -> utf8 (lib_texts s) -> unmarshal_library_set v = Ok (with_lib_revision s 0);
  unmarshal_set_texts v s : unmarshal_library_set v = Ok s -> utf8 (lib_texts s) /\ int64 (lib_Version s);
}.

(** The store after the first [k + 1] accesses, had the call written nothing. *)
Fixpoint after (es : nat -> env) (k : nat) (s : Spec.state) : Spec.state :=
  match k with
  | O => between (es O) s
  | S k => between (es (S k)) (after es k s)
  end.

(** Others keep the store in order and its revisions going forward. *)
Definition orderly (es : nat -> env) : Prop :=
  forall n s, Spec.wf s -> Spec.wf (between (es n) s) /\ later s (between (es n) s).

Lemma orderly_after es k s : orderly es -> Spec.wf s -> Spec.wf (after es k s) /\ later s (after es k s).
Proof.
  intros Ho Hw. induction k as [|k [IHw IHl]]; cbn [after]; [by apply Ho|]. destruct (Ho (S k) _ IHw) as [? ?].
  split; [done|]. by etransitivity.
Qed.

Section LayerSetSpec.
Context `{Unicode, Libraries, LayerSetLaws}.

Definition set_at (s : Spec.state) (id : string) (set : LibraryLayerSet) : Prop :=
  exists r, Spec.recs s !! (NamespaceLayerSets, layerSetKey id) = Some r /\ decodeLayerSet r = Ok set.

(** What is accepted of a record under the key. *)
Definition lib_set_ok (key : string) (set : LibraryLayerSet) : Prop :=
  layerSetKey (lib_ID set) = key /\ ValidID (lib_ID set) = true /\ 1 <= lib_Version set /\
  text_ok MaxOwnerLength false (lib_CreatedBy set) /\ text_ok MaxOwnerLength false (lib_UpdatedBy set) /\
  LayerSet_Validate (lib_Set set) = None.

Lemma layerSetKey_inj a b : layerSetKey a = layerSetKey b -> a = b.
Proof. unfold layerSetKey, layerSetKeyPrefix. cbn. by intros [=]. Qed.

Lemma decode_set_inv (r : record) set :
  decodeLayerSet r = Ok set -> lib_set_ok (Key r) set /\ lib_Revision set = Record.Revision r /\ utf8 (lib_texts set) /\ int64 (lib_Version set).
Proof.
  unfold decodeLayerSet. destruct (unmarshal_library_set _) as [q|[]] eqn:Eu; cbn [decodeMetadata]; [|done..]. apply unmarshal_set_texts in Eu.
  destruct (String.eqb_spec (layerSetKey (lib_ID q)) (Key r)) as [Hk|]; [|done]. destruct (ValidID (lib_ID q)) eqn:Hid; [|done]. cbn [negb orb].
  destruct (Z.ltb_spec (lib_Version q) 1); [done|].
  destruct (ok (validateText "createdBy" _ _ _)) eqn:Hc; [|done]. destruct (ok (validateText "updatedBy" _ _ _)) eqn:Hup; [|done]. cbn [negb orb].
  destruct (bool_decide (LayerSet_Validate (lib_Set q) = None)) eqn:Hv; [|done]. intros [= <-].
  apply bool_decide_eq_true in Hv. split; [|done]. unfold lib_set_ok. cbn. split_and!; try done.
  - apply (validateText_ok "createdBy"). by destruct (validateText "createdBy" _ _ _) as [[]|].
  - apply (validateText_ok "updatedBy"). by destruct (validateText "updatedBy" _ _ _) as [[]|].
Qed.

Lemma decode_set_written set value (r : record) :
  marshal_library_set set = Ok value -> utf8 (lib_texts set) -> lib_set_ok (Key r) set -> Value r = Some value ->
  decodeLayerSet r = Ok (with_lib_revision set (Record.Revision r)).
Proof.
  intros Hm Ht (Hk & Hid & Hv & Hc & Hup & Hval) Hr. unfold decodeLayerSet. rewrite Hr. change (bytes_of (Some value)) with value.
  rewrite (unmarshal_marshal_set set value Hm Ht). cbn [decodeMetadata lib_ID lib_Version lib_CreatedBy lib_UpdatedBy lib_Set with_lib_revision].
  rewrite Hk, String.eqb_refl, Hid. cbn [negb orb]. destruct (Z.ltb_spec (lib_Version set) 1); [lia|].
  apply (validateText_ok "createdBy") in Hc. apply (validateText_ok "updatedBy") in Hup. rewrite Hc, Hup. cbn [ok negb orb].
  by rewrite bool_decide_eq_true_2.
Qed.

Lemma set_at_unique s id a b : set_at s id a -> set_at s id b -> a = b.
Proof. intros (r & Hr & Hd) (r' & Hr' & Hd'). congruence. Qed.

Lemma set_at_ok s id set : Spec.wf s -> set_at s id set -> lib_set_ok (layerSetKey id) set /\ lib_ID set = id /\ utf8 (lib_texts set).
Proof.
  intros (_ & Hw & _) (r & Hr & Hd). apply Hw in Hr as (_ & Hk & _). apply decode_set_inv in Hd as (Hok & _ & Ht & _). rewrite Hk in Hok.
  split; [done|]. split; [|done]. destruct Hok as (He & _). by apply layerSetKey_inj.
Qed.

Lemma set_at_int64 s id set : set_at s id set -> int64 (lib_Version set).
Proof. by intros (r & _ & (_ & _ & _ & ?)%decode_set_inv). Qed.

(** An entity tag is that of one version. *)
Lemma RevisionETag_inj v w : 0 <= v -> int64 v -> 0 <= w -> int64 w -> RevisionETag v = RevisionETag w -> v = w.
Proof.
  unfold int64, RevisionETag. intros ? ? ? ? He. apply itoa_inj; [lia|lia|].
  apply (f_equal bytes_Z) in He. rewrite !bytes_Z_app in He. by apply app_inv_head, app_inv_tail, bytes_Z_inj in He.
Qed.

(** ** One write *)

Lemma write_record_inv e ns key value revision s r s' :
  write_record e ns key value revision s = (Ok r, s') ->
  Namespace r = ns /\ Key r = key /\ Value r = Some value /\ Record.Revision r = Spec.rev s + 1 /\ s' = Spec.write r s /\
  ((revision = 0 /\ Spec.recs s !! (ns, key) = None) \/
   (revision <> 0 /\ exists old, Spec.recs s !! (ns, key) = Some old /\ Record.Revision old = revision)).
Proof.
  unfold write_record. rewrite txn_ok. intros [Hrun%tx_call_ok _]. destruct (Z.eqb_spec revision 0) as [->|Hne].
  - apply create_inv in Hrun as (_ & Hnone & ? & ? & ? & ? & _ & ->). split_and!; try done. by left.
  - apply update_inv in Hrun as (old & _ & Hold & Hx & ? & ? & ? & ? & _ & _ & ->). split_and!; try done. right. split; [done|].
    exists old. split; [done|]. unfold AnyRevision in Hx. destruct Hx as [?|?]; [done|by symmetry].
Qed.

Lemma writeLayerSet_inv e set revision s rev s' :
  writeLayerSet e set revision s = (Ok rev, s') ->
  exists value r, marshal_library_set set = Ok value /\ Namespace r = NamespaceLayerSets /\ Key r = layerSetKey (lib_ID set) /\
    Value r = Some value /\ Record.Revision r = rev /\ s' = Spec.write r (between e s) /\
    ((revision = 0 /\ Spec.recs (between e s) !! (NamespaceLayerSets, layerSetKey (lib_ID set)) = None) \/
     (revision <> 0 /\ exists old, Spec.recs (between e s) !! (NamespaceLayerSets, layerSetKey (lib_ID set)) = Some old /\
        Record.Revision old = revision)).
Proof.
  unfold writeLayerSet. destruct (marshal_library_set set) as [value|] eqn:Em; [|done]. destruct (_ <? _); [done|].
  destruct (write_record _ _ _ _ _ _) as [[r|err] s1] eqn:Ew; [|done]. intros [= <- <-].
  apply write_record_inv in Ew as (? & ? & ? & ? & ? & ?). by exists value, r.
Qed.

(** A write that lost to another changes nothing. *)
Lemma writeLayerSet_conflict e set revision s err s' :
  writeLayerSet e set revision s = (Err err, s') -> lib_conflict err = true -> s' = between e s.
Proof.
  unfold writeLayerSet. destruct (marshal_library_set set) as [value|]; [|by intros [= <- _]]. destruct (_ <? _); [by intros [= <- _]|].
  destruct (write_record _ _ _ _ _ _) as [[r|err'] s1] eqn:Ew; [done|]. intros [= _ <-] _. by eapply txn_err.
Qed.

Lemma GetLayerSet_inv e s id set : GetLayerSet e s id = Ok set -> builtinLayerSet id = None -> set_at s id set.
Proof.
  unfold GetLayerSet. rewrite bind_unit. intros [_ Hg] Hb. rewrite Hb in Hg. destruct (negb _); [done|].
  unfold getRecord, tx_call, Spec.get, Spec.lookup in Hg. destruct (validateRecordNamespaceAndKey _ _) as [[]|]; [|done].
  cbn [res_bind res_map_err] in Hg. destruct (Spec.recs s !! _) as [r|] eqn:Hr; [|done]. by exists r.
Qed.

(** ** The changes of the library *)

(** The store but for the record of the key. *)
Definition only_key (key : string) (s s' : Spec.state) : Prop :=
  forall p, p <> (NamespaceLayerSets, key) -> Spec.recs s' !! p = Spec.recs s !! p.

(** What one write of a call does to the sets. *)
Inductive change (s s' : Spec.state) : Prop :=
  | Added id set : Spec.recs s !! (NamespaceLayerSets, layerSetKey id) = None -> set_at s' id set -> lib_Version set = 1 ->
      only_key (layerSetKey id) s s' -> change s s'
  | Replaced id set set' : set_at s id set -> set_at s' id set' -> lib_Version set' = lib_Version set + 1 ->
      only_key (layerSetKey id) s s' -> change s s'
  | Removed id : Spec.recs s' !! (NamespaceLayerSets, layerSetKey id) = None -> only_key (layerSetKey id) s s' -> change s s'.

(** What the loop of an update does: each attempt that lost wrote nothing. *)
Lemma update_layer_set_run attempts n es actor id etag content s0 s set' s' :
  between (es n) s = after es n s0 ->
  update_layer_set attempts n es actor id etag content s = (Ok set', s') ->
  exists j current, (n <= j < n + 2 * attempts)%nat /\ GetLayerSet (es j) (after es j s0) id = Ok current /\ LibraryLayerSet_ETag current = etag /\
    ((sameLayerSet (lib_Set current) content = true /\ set' = current /\ s' = after es j s0) \/
     (sameLayerSet (lib_Set current) content = false /\ exists rev,
        writeLayerSet (es (S j)) (updated_set current content (clock (es j)) actor) (lib_Revision current) (after es j s0) = (Ok rev, s') /\
        set' = with_lib_revision (updated_set current content (clock (es j)) actor) rev)) /\
    forall es', (forall i, (i <= if sameLayerSet (lib_Set current) content then j else S j)%nat -> es' i = es i) ->
      update_layer_set attempts n es' actor id etag content s = (Ok set', s').
Proof.
  revert n s. induction attempts as [|attempts IH]; intros n s Hs; cbn [update_layer_set]; [done|]. rewrite Hs.
  destruct (GetLayerSet (es n) (after es n s0) id) as [current|] eqn:Hg; [|done].
  destruct (String.eqb_spec (LibraryLayerSet_ETag current) etag) as [He|]; [|done]. cbn [negb].
  destruct (sameLayerSet (lib_Set current) content) eqn:Hsame.
  - intros [= <- <-]. exists n, current. split; [lia|]. split; [done|]. split; [done|]. rewrite Hsame. split; [by left|].
    intros es' Hes. by rewrite (Hes n), Hs, Hg, He, String.eqb_refl, Hsame by lia.
  - destruct (writeLayerSet _ _ _ _) as [[rev|err] s1] eqn:Hw.
    + intros [= <- <-]. exists n, current. split; [lia|]. split; [done|]. split; [done|]. rewrite Hsame. split; [right; split; [done|]; by exists rev|].
      intros es' Hes. rewrite (Hes n), Hs, Hg, He, String.eqb_refl, Hsame by lia. cbn [negb]. by rewrite (Hes (S n)), Hw by lia.
    + destruct (lib_conflict err) eqn:Hc; [|done]. pose proof (writeLayerSet_conflict _ _ _ _ _ _ Hw Hc) as ->.
      intros Hrun. destruct (IH (S (S n)) _ ltac:(reflexivity) Hrun) as (j & c & Hj & Hgc & Hec & Hcase & Hlocal). exists j, c. split; [lia|].
      split; [done|]. split; [done|]. split; [done|]. intros es' Hes.
      assert (forall i, (i <= j)%nat -> es' i = es i) as Hle by (intros i Hi; apply Hes; destruct (sameLayerSet (lib_Set c) content); lia).
      rewrite (Hle n), Hs, Hg, He, String.eqb_refl, Hsame by lia. cbn [negb]. rewrite (Hle (S n)), Hw, Hc by lia. by apply Hlocal.
Qed.

(** An update that wrote, at its last access. *)
Lemma update_wrote es actor id content s0 j current rev s' :
  orderly es -> Spec.wf s0 -> builtinLayerSet id = None -> text_ok MaxOwnerLength true actor -> LayerSet_Validate content = None ->
  lib_Version current < 2 ^ 63 - 1 -> utf8 (layer_set_texts content) -> set_at (after es j s0) id current ->
  writeLayerSet (es (S j)) (updated_set current content (clock (es j)) actor) (lib_Revision current) (after es j s0) = (Ok rev, s') ->
  set_at (after es (S j) s0) id current /\
  set_at s' id (with_lib_revision (updated_set current content (clock (es j)) actor) rev) /\
  lib_Version (updated_set current content (clock (es j)) actor) = lib_Version current + 1 /\
  only_key (layerSetKey id) (after es (S j) s0) s'.
Proof.
  intros Ho Hw Hbn Ha Hval Hmax Ht Hg Hwr. destruct (orderly_after es j s0 Ho Hw) as [Hwj _].
  destruct (Ho (S j) _ Hwj) as [Hwk Hlk]. pose proof (set_at_ok _ _ _ Hwj Hg) as ((_ & Hid & Hver & Hcb & _ & _) & Hlid & Htx).
  apply writeLayerSet_inv in Hwr as (value & r & Hm & Hns & Hk & Hv & <- & -> & Hcase).
  cbn [lib_ID updated_set] in Hk, Hcase. rewrite Hlid in Hk, Hcase. pose proof Hg as (r0 & Hr0 & Hd0).
  pose proof (decode_set_inv _ _ Hd0) as (_ & Hrev0 & _).
  assert (0 < Record.Revision r0) as Hpos by (destruct Hwj as (_ & Hwj & _); by apply Hwj in Hr0 as (_ & _ & [? _] & _)).
  destruct Hcase as [[Hz _]|(_ & old & Hold & Hrold)]; [lia|].
  destruct (revision_names_write _ _ _ _ r0 old Hwj Hlk Hr0 Hold ltac:(congruence)) as [_ <-].
  assert (lib_Version (updated_set current content (clock (es j)) actor) = lib_Version current + 1) as Hver'
    by (cbn; unfold add64; apply wrap64_id; unfold int64; lia).
  split; [by exists r0|]. split; [|split; [done|intros p Hp; cbn; rewrite Hns, Hk; by apply lookup_insert_ne]].
  exists r. split; [cbn; rewrite Hns, Hk; apply lookup_insert_eq|]. apply (decode_set_written _ value); [done| | |done].
  - change (utf8 (layer_set_texts content ++ [lib_ID current; lib_CreatedBy current; actor])). apply utf8_app. split; [done|].
    unfold lib_texts in Htx. apply utf8_app in Htx as [_ Htx]. rewrite !utf8_cons in Htx |- *. apply text_ok_utf8 in Ha. tauto.
  - rewrite Hk. unfold lib_set_ok. rewrite Hver'. cbn [lib_ID lib_CreatedBy lib_UpdatedBy lib_Set updated_set]. rewrite <- Hlid.
    do 2 (split; [done|]). split; [lia|]. split; [done|]. split; [|done]. destruct Ha as [[-> ?]|Ha]; [by left|by right].
Qed.

Lemma UpdateLayerSet_run es actor id etag content s set' s' :
  UpdateLayerSet es actor id etag content s = (Ok set', s') ->
  builtinLayerSet id = None /\ text_ok MaxOwnerLength true actor /\ LayerSet_Validate content = None /\
  update_layer_set maxLibraryAttempts 0 es actor id etag content s = (Ok set', s').
Proof.
  unfold UpdateLayerSet. destruct (lift_service _) as [?|]; [|done].
  destruct (bool_decide (is_Some (builtinLayerSet id))) eqn:Hb; [done|]. apply bool_decide_eq_false in Hb.
  destruct (let? _ := _ in _) as [[]|] eqn:Hcheck; [|done]. rewrite bind_unit, validateText_ok in Hcheck. destruct Hcheck as [Ha Hc].
  intros Hrun. split_and!; try done; [destruct (builtinLayerSet id); [destruct Hb; by eexists|done]|].
  unfold checkLayerSet in Hc. by destruct (LayerSet_Validate content).
Qed.

(** C28: Changing a layer set. When [UpdateLayerSet] succeeds, then at the
    moment of its last access the set had the version the entity tag names,
    however many times other writes were first, and attempts that lost wrote
    nothing. Either it had that content already and the store is as others
    left it, or exactly its record changed: the set reads back with the new
    content, the next version, the actor and the time of the change, made by
    the same user at the same time as before. *)
Theorem UpdateLayerSet_spec es actor id etag content s set' s' :
  orderly es -> Spec.wf s -> (forall v, int64 v -> RevisionETag v = etag -> v < 2 ^ 63 - 1) -> utf8 (layer_set_texts content) ->
  UpdateLayerSet es actor id etag content s = (Ok set', s') ->
  exists k current, (k <= 10)%nat /\ set_at (after es k s) id current /\ LibraryLayerSet_ETag current = etag /\
    ((exists v, marshal_layer_set (lib_Set current) = Ok v /\ marshal_layer_set content = Ok v /\ set' = current /\ s' = after es k s) \/
     (set_at s' id set' /\ only_key (layerSetKey id) (after es k s) s' /\ lib_Set set' = content /\
      lib_Version set' = lib_Version current + 1 /\ lib_UpdatedBy set' = actor /\ (exists n, lib_Updated set' = clock (es n)) /\
      lib_CreatedBy set' = lib_CreatedBy current /\ lib_Created set' = lib_Created current)).
Proof.
  intros Ho Hw Hbound Ht (Hbn & Ha & Hval & Hrun)%UpdateLayerSet_run. apply (update_layer_set_run _ _ _ _ _ _ _ s) in Hrun; [|done].
  destruct Hrun as (j & current & Hj & Hg & He & Hcase & _). unfold maxLibraryAttempts in Hj. apply GetLayerSet_inv in Hg; [|done].
  destruct Hcase as [(Hsame & -> & ->)|(_ & rev & Hwr & ->)].
  - exists j, current. split; [lia|]. split; [done|]. split; [done|]. left.
    unfold sameLayerSet in Hsame. destruct (marshal_layer_set (lib_Set current)) as [v|]; [|done].
    destruct (marshal_layer_set content) as [v'|]; [|done]. apply bool_decide_eq_true in Hsame as ->. by exists v'.
  - destruct (update_wrote es actor id content s j current rev s' Ho Hw Hbn Ha Hval (Hbound _ (set_at_int64 _ _ _ Hg) He) Ht Hg Hwr) as (Hat & Hat' & Hv & Hk).
    exists (S j), current. split; [lia|]. split; [done|]. split; [done|]. right. split_and!; try done. by exists j.
Qed.

(** ** Versions *)

(** The calls that change the sets. *)
Inductive library_call : Type :=
  | CreateSet (actor : string) (content : LayerSet)
  | UpdateSet (actor id etag : string) (content : LayerSet)
  | DeleteSet (id etag : string).

Definition perform_library (es : nat -> env) (c : library_call) (s : Spec.state) : bool * Spec.state :=
  match c with
  | CreateSet actor content => let '(r, s) := CreateLayerSet es actor content s in (ok r, s)
  | UpdateSet actor id etag content => let '(r, s) := UpdateLayerSet es actor id etag content s in (ok r, s)
  | DeleteSet id etag => let '(r, s) := DeleteLayerSet es id etag s in (ok r, s)
  end.

Definition sound_call (c : library_call) : Prop :=
  match c with
  | CreateSet _ content => utf8 (layer_set_texts content)
  | UpdateSet _ _ etag content => utf8 (layer_set_texts content) /\ forall v, int64 v -> RevisionETag v = etag -> v < 2 ^ 63 - 1
  | DeleteSet _ _ => True
  end.

(** What a call finds up to access [k] decides how it goes; [k] is its last
    access when no earlier one does. *)
Definition decided (es : nat -> env) (c : library_call) (s : Spec.state) (k : nat) : Prop :=
  forall es', (forall j, (j <= k)%nat -> es' j = es j) -> perform_library es' c s = perform_library es c s.

Definition last_access (es : nat -> env) (c : library_call) (s : Spec.state) (k : nat) : Prop :=
  decided es c s k /\ forall j, (j < k)%nat -> ~ decided es c s j.

(** The identifier that a call draws for a new set. *)
Definition draws (es : nat -> env) (c : library_call) (id : string) : Prop :=
  match c with CreateSet _ _ => new_id (es 0%nat) 0 = Ok id | _ => False end.

(** A set that is new is that of the identifier that was drawn. *)
Definition news (es : nat -> env) (c : library_call) (s s' : Spec.state) : Prop :=
  forall id, Spec.recs s !! (NamespaceLayerSets, layerSetKey id) = None -> is_Some (Spec.recs s' !! (NamespaceLayerSets, layerSetKey id)) -> draws es c id.

Lemma only_key_news es c key s s' : only_key key s s' ->
  (forall id, layerSetKey id = key -> Spec.recs s !! (NamespaceLayerSets, layerSetKey id) = None -> is_Some (Spec.recs s' !! (NamespaceLayerSets, layerSetKey id)) -> draws es c id) ->
  news es c s s'.
Proof.
  intros Ho Hk id Hnone Hsome. destruct (decide (layerSetKey id = key)) as [He|Hne]; [by apply Hk|].
  rewrite (Ho (NamespaceLayerSets, layerSetKey id)) in Hsome by (intros [= ?]; done). rewrite Hnone in Hsome. by destruct Hsome.
Qed.

Lemma wf_writeLayerSet e set revision s rev s' : Spec.wf (between e s) -> writeLayerSet e set revision s = (Ok rev, s') -> Spec.wf s'.
Proof.
  intros Hw. unfold writeLayerSet. destruct (marshal_library_set set) as [value|]; [|done]. destruct (_ <? _); [done|].
  destruct (write_record _ _ _ _ _ _) as [[r|err] s1] eqn:Ew; [|done]. intros [= _ <-]. revert Ew. unfold write_record.
  intros Ew. match type of Ew with RecordTxn _ ?f _ = _ => assert (steady (RecordTxn e f)) as Hst end.
  { apply steady_txn. destruct (revision =? 0); [apply steady_create|apply steady_update]. }
  destruct (Hst (between e s) Hw) as [Hw' _]. by rewrite Ew in Hw'.
Qed.

Lemma create_moves es actor content s set s' :
  orderly es -> Spec.wf s -> utf8 (layer_set_texts content) -> CreateLayerSet es actor content s = (Ok set, s') ->
  change (after es 1 s) s' /\ news es (CreateSet actor content) (after es 1 s) s' /\ Spec.wf s'.
Proof.
  intros Ho Hw Ht. unfold CreateLayerSet. destruct (let? _ := _ in _) as [[]|] eqn:Hcheck; [|done].
  rewrite !bind_unit, validateText_ok in Hcheck. destruct Hcheck as (_ & Ha & Hc).
  destruct (Spec.list_keys _ _ _) as [keys|]; [|done]. destruct (_ <=? _); [done|]. destruct (new_id (es 0%nat) 0) as [id|] eqn:Hnew; [|done].
  destruct (ValidID id) eqn:Hid; [|done]. cbn [negb orb]. destruct (bool_decide _); [done|]. set (new := {| lib_Set := content |}).
  destruct (writeLayerSet _ _ _ _) as [[rev|] s1] eqn:Hwr; [|done]. intros [= _ <-].
  assert (Spec.wf s1) as Hw1 by (eapply wf_writeLayerSet; [|exact Hwr]; exact (proj1 (orderly_after es 1 s Ho Hw))).
  apply writeLayerSet_inv in Hwr as (value & r & Hm & Hns & Hk & Hv & <- & -> & [[_ Hnone]|[[] _]]); [|done].
  assert (only_key (layerSetKey id) (after es 1 s) (Spec.write r (between (es 1%nat) (between (es 0%nat) s)))) as Hk1
    by (intros p Hp; cbn; rewrite Hns, Hk; by apply lookup_insert_ne).
  split; [|split; [|done]].
  2: { eapply only_key_news; [exact Hk1|]. intros id' ->%layerSetKey_inj _ _. exact Hnew. }
  apply (Added _ _ id (with_lib_revision new (Record.Revision r))); [done| |done|done].
  exists r. split; [cbn; rewrite Hns, Hk; apply lookup_insert_eq|]. apply (decode_set_written new value); [done| | |done].
  - change (utf8 (layer_set_texts content ++ [id; actor; actor])). apply utf8_app. split; [done|]. apply text_ok_utf8 in Ha.
    rewrite !utf8_cons. split_and!; try done; [by apply ValidID_utf8|constructor].
  - rewrite Hk. unfold lib_set_ok. cbn. unfold checkLayerSet in Hc. destruct (LayerSet_Validate content); [done|].
    split_and!; try done; (destruct Ha as [[-> ?]|Ha]; [by left|by right]).
Qed.

Lemma delete_moves attempts n es id etag s0 s s' :
  orderly es -> Spec.wf s0 -> between (es n) s = after es n s0 -> delete_layer_set attempts n es id etag s = (Ok tt, s') -> exists k,
    change (after es k s0) s' /\ news es (DeleteSet id etag) (after es k s0) s' /\ Spec.wf s' /\
    forall es', (forall i, (i <= k)%nat -> es' i = es i) -> delete_layer_set attempts n es' id etag s = (Ok tt, s').
Proof.
  intros Ho Hw.
  enough (forall attempts n s, between (es n) s = after es n s0 -> delete_layer_set attempts n es id etag s = (Ok tt, s') -> exists k, (S n <= k)%nat /\
    change (after es k s0) s' /\ news es (DeleteSet id etag) (after es k s0) s' /\ Spec.wf s' /\
    forall es', (forall i, (i <= k)%nat -> es' i = es i) -> delete_layer_set attempts n es' id etag s = (Ok tt, s')) as Hall.
  { intros Hs Hrun. destruct (Hall attempts n s Hs Hrun) as (k & _ & Hrest). by exists k. }
  clear attempts n s. intros attempts. induction attempts as [|attempts IH]; intros n s Hs; cbn [delete_layer_set]; [done|]. rewrite Hs.
  destruct (getRecord _ _ _) as [record|] eqn:Eg; [|done]. destruct (negb _) eqn:Etag; [done|].
  destruct (RecordTxn _ _ _) as [[[]|err] s1] eqn:Et.
  - intros [= <-]. exists (S n). split; [lia|].
    assert (Spec.wf s1) as Hw1.
    { destruct (steady_txn (es (S n)) _ (steady_delete NamespaceLayerSets (layerSetKey id) (Record.Revision record)) (between (es (S n)) (after es n s0))) as [Hw1 _];
        [exact (proj1 (orderly_after es (S n) s0 Ho Hw))|]. by rewrite Et in Hw1. }
    split_and!; [..|exact Hw1|].
    + pose proof Et as Et'. apply txn_ok in Et' as [Hd%tx_call_ok _]. apply delete_inv in Hd as (old & _ & _ & ->).
      apply (Removed _ _ id); [apply lookup_delete_eq|]. intros p Hp. by apply lookup_delete_ne.
    + pose proof Et as Et'. apply txn_ok in Et' as [Hd%tx_call_ok _]. apply delete_inv in Hd as (old & _ & _ & ->).
      apply (only_key_news _ _ (layerSetKey id)); [intros p Hp; by apply lookup_delete_ne|]. intros id' -> _ [r Hr]. cbn in Hr. by rewrite lookup_delete_eq in Hr.
    + intros es' Hes. rewrite (Hes n), Hs, Eg, Etag by lia. by rewrite (Hes (S n)), Et by lia.
  - destruct (is_store err ErrRecordConflict) eqn:Ec; [|done]. pose proof Et as Et'. apply txn_err in Et' as ->. intros Hrun.
    destruct (IH (S (S n)) _ ltac:(reflexivity) Hrun) as (k & Hk & Hch & Hnews & Hw' & Hlocal). exists k. split; [lia|]. split_and!; [done..|].
    intros es' Hes. rewrite (Hes n), Hs, Eg, Etag by lia. rewrite (Hes (S n)), Et, Ec by lia. by apply Hlocal.
Qed.

(** What a call of the library does, and by when. *)
Lemma library_call_moves es c s s' :
  orderly es -> Spec.wf s -> sound_call c -> perform_library es c s = (true, s') ->
  exists k, decided es c s k /\ (s' = after es k s \/ change (after es k s) s' /\ news es c (after es k s) s' /\ Spec.wf s').
Proof.
  intros Ho Hw Hc. unfold decided. destruct c as [actor content|actor id etag content|id etag]; cbn [perform_library sound_call] in *.
  - destruct (CreateLayerSet _ _ _ _) as [[set|] s1] eqn:Hrun; [|done]. intros [= <-]. exists 1%nat. split.
    + intros es' Hes. assert (CreateLayerSet es' actor content s = (Ok set, s1)) as ->; [|done].
      rewrite <- Hrun. unfold CreateLayerSet. by rewrite (Hes 0%nat), (Hes 1%nat) by lia.
    + right. by eapply create_moves.
  - destruct (UpdateLayerSet _ _ _ _ _ _) as [[set|] s1] eqn:Hrun; [|done]. intros [= <-]. destruct Hc as [Ht Hbound]. pose proof Hrun as Hcall.
    apply UpdateLayerSet_run in Hrun as (Hbn & Ha & Hval & Hrun). pose proof Hrun as Hrun'. apply (update_layer_set_run _ _ _ _ _ _ _ s) in Hrun; [|done].
    destruct Hrun as (j & current & Hj & Hg & He & Hcase & Hlocal). apply GetLayerSet_inv in Hg; [|done].
    assert (forall es' : nat -> env, es' 0%nat = es 0%nat -> update_layer_set maxLibraryAttempts 0 es' actor id etag content s = (Ok set, s1) ->
      UpdateLayerSet es' actor id etag content s = (Ok set, s1)) as Hup.
    { intros es' Hfirst Hloop. unfold UpdateLayerSet in Hcall |- *. rewrite Hfirst. destruct (lift_service _); [|done].
      destruct (bool_decide _); [done|]. by destruct (let? _ := _ in _) as [[]|]. }
    destruct Hcase as [(Hsame & _ & ->)|(Hsame & rev & Hwr & ->)]; rewrite Hsame in Hlocal.
    + exists j. split; [|by left]. intros es' Hes. by rewrite Hup; [|apply Hes; lia|apply Hlocal].
    + exists (S j). split; [intros es' Hes; by rewrite Hup; [|apply Hes; lia|apply Hlocal]|]. right.
      destruct (update_wrote es actor id content s j current rev s1 Ho Hw Hbn Ha Hval (Hbound _ (set_at_int64 _ _ _ Hg) He) Ht Hg Hwr) as (Hat & Hat' & Hv & Hk).
      split; [by eapply Replaced|]. split; [|eapply wf_writeLayerSet; [|exact Hwr]; exact (proj1 (orderly_after es (S j) s Ho Hw))].
      eapply only_key_news; [exact Hk|]. intros id' -> Hnone. destruct Hat as (r & Hr & _). congruence.
  - destruct (DeleteLayerSet _ _ _ _) as [[[]|] s1] eqn:Hrun; [|done]. intros [= <-]. pose proof Hrun as Hcall. unfold DeleteLayerSet in Hrun.
    destruct (lift_service _) eqn:Hctx; [|done]. destruct (bool_decide _) eqn:Hbn; [done|]. destruct (negb _) eqn:Hid; [done|].
    apply (delete_moves _ _ _ _ _ s) in Hrun as (k & Hch & Hnews & Hw' & Hlocal); [|done..]. exists k. split; [|by right].
    intros es' Hes. unfold DeleteLayerSet. by rewrite (Hes 0%nat), Hctx, Hbn, Hid, Hlocal by (lia || done).
Qed.

(** What the calls of the library do. A call that succeeds left the store
    as others did, or at its last access added one set at version 1 under a
    key that was free, or replaced one with the next version, or removed one,
    and touched nothing else. *)
Theorem library_calls_change es c s s' :
  orderly es -> Spec.wf s -> sound_call c -> perform_library es c s = (true, s') ->
  exists k, s' = after es k s \/ change (after es k s) s'.
Proof. intros Ho Hw Hc Hrun. destruct (library_call_moves es c s s' Ho Hw Hc Hrun) as (k & _ & [->|[? _]]); exists k; [by left|by right]. Qed.

(** The states of the store, the newest first. A call that succeeds started in
    one of them, finds one of them at each of its accesses, and the newest one
    at its last, whose write comes next; the identifier it draws is one that
    no set ever had. Others leave the sets alone. A call that fails wrote
    nothing. *)
Inductive library_run : list Spec.state -> Prop :=
  | library_start : library_run [Spec.empty]
  | library_step es c k start now past next :
      library_run (now :: past) -> start ∈ now :: past -> orderly es -> sound_call c ->
      perform_library es c start = (true, next) -> last_access es c start k ->
      (forall j, (j < k)%nat -> after es j start ∈ now :: past) -> after es k start = now ->
      (forall id t, draws es c id -> t ∈ now :: past -> Spec.recs t !! (NamespaceLayerSets, layerSetKey id) = None) ->
      library_run (next :: now :: past)
  | library_other now past next :
      library_run (now :: past) -> Spec.wf next ->
      (forall id, Spec.recs next !! (NamespaceLayerSets, layerSetKey id) = Spec.recs now !! (NamespaceLayerSets, layerSetKey id)) ->
      library_run (next :: now :: past).

(** Nobody acts after access [k]. *)
Definition until (k : nat) (es : nat -> env) : nat -> env := fun j =>
  if decide (j <= k)%nat then es j
  else {| ctx_err := ctx_err (es j); clock := clock (es j); new_id := new_id (es j); store_time := store_time (es j); commit := commit (es j); between := fun s => s |}.

Lemma until_before k es j : (j <= k)%nat -> until k es j = es j.
Proof. intros Hj. unfold until. by rewrite decide_True. Qed.

Lemma until_orderly k es : orderly es -> orderly (until k es).
Proof. intros Ho n s Hw. unfold until. case_decide; [by apply Ho|by split]. Qed.

Lemma after_until k es j s : after (until k es) j s = after es (Nat.min j k) s.
Proof.
  induction j as [|j IH]; cbn [after]; [by rewrite until_before by lia|]. rewrite IH. destruct (decide (S j <= k)%nat) as [Hle|Hgt].
  - rewrite until_before by done. rewrite (Nat.min_l j), (Nat.min_l (S j)) by lia. done.
  - unfold until at 1. rewrite decide_False by done. cbn [between]. rewrite (Nat.min_r j), (Nat.min_r (S j)) by lia. done.
Qed.

(** What a step of a run does to the newest state. *)
Lemma step_moves es c k start now next :
  Spec.wf start -> orderly es -> sound_call c -> perform_library es c start = (true, next) -> last_access es c start k -> after es k start = now ->
  next = now \/ change now next /\ news es c now next /\ Spec.wf next.
Proof.
  intros Hw Ho Hc Hrun [Hdec Hmin] Hnow. assert (perform_library (until k es) c start = (true, next)) as Hrun' by (by rewrite Hdec by apply until_before).
  destruct (library_call_moves (until k es) c start next (until_orderly k es Ho) Hw Hc Hrun') as (j & Hj & Hcase).
  assert (k <= j)%nat as Hle.
  { destruct (decide (k <= j)%nat); [done|]. exfalso. apply (Hmin j); [lia|]. intros es' Hes. rewrite Hrun, <- Hrun'. apply Hj. intros i Hi. rewrite Hes by done. by rewrite until_before by lia. }
  rewrite after_until, Nat.min_r, Hnow in Hcase by done. destruct Hcase as [->|(Hch & Hnews & Hw')]; [by left|]. right. split; [done|]. split; [|done].
  intros id Hnone Hsome. specialize (Hnews id Hnone Hsome). unfold draws in *. destruct c; [|done..]. by rewrite until_before in Hnews by lia.
Qed.

Lemma run_wf states : library_run states -> Forall Spec.wf states.
Proof.
  induction 1 as [|es c k start now past next Hrun IH Hin Ho Hc Hp Hl _ Hnow _|now past next Hrun IH Hw Hsame].
  - constructor; [|constructor]. apply wf_empty.
  - constructor; [|done]. rewrite Forall_forall in IH. assert (Spec.wf now) by (apply IH; left).
    destruct (step_moves es c k start now next (IH _ Hin) Ho Hc Hp Hl Hnow) as [->|(_ & _ & ?)]; done.
  - by constructor.
Qed.

(** From an earlier state a set is as it was, has a later version, or is gone. *)
Definition ages (s s' : Spec.state) : Prop :=
  forall id a, set_at s id a ->
    Spec.recs s' !! (NamespaceLayerSets, layerSetKey id) = None \/
    exists b, set_at s' id b /\ (a = b \/ lib_Version a < lib_Version b).

Lemma only_set_at key s s' id a : only_key key s s' -> layerSetKey id <> key -> set_at s' id a <-> set_at s id a.
Proof.
  intros Ho Hne. unfold set_at. rewrite (Ho (NamespaceLayerSets, layerSetKey id)); [done|]. intros Heq%(f_equal snd). by cbn in Heq.
Qed.

Lemma change_ages s s' : change s s' -> ages s s'.
Proof.
  intros Hc id a Ha. assert (forall key, only_key key s s' -> layerSetKey id <> key -> exists b, set_at s' id b /\ (a = b \/ lib_Version a < lib_Version b)) as Hoth.
  { intros key Ho Hne. exists a. split; [|by left]. by apply (only_set_at key s s'). }
  destruct Hc as [id' set Hnone Hat _ Ho|id' set set' Hat Hat' Hv Ho|id' Hnone Ho];
    (destruct (decide (layerSetKey id = layerSetKey id')) as [Heq|Hne]; [|right; by eapply Hoth]).
  - destruct Ha as (r & Hr & _). congruence.
  - right. apply layerSetKey_inj in Heq as ->. exists set'. split; [done|]. right. rewrite (set_at_unique _ _ _ _ Ha Hat). lia.
  - left. by rewrite Heq.
Qed.

Lemma run_ages now past : library_run (now :: past) -> Forall (fun t => ages t now) past.
Proof.
  intros Hrun. remember (now :: past) as states eqn:E. revert now past E.
  induction Hrun as [|es op k start now past next Hrun IH Hin Ho Hsound Hp Hlast _ Hafter Hfree|now past next Hrun IH _ Hsame]; intros ? ? [= <- <-]; [constructor| |].
  - specialize (IH now past eq_refl). pose proof (proj1 (Forall_forall _ _) (run_wf _ Hrun) start Hin) as Hws.
    destruct (step_moves es op k start now next Hws Ho Hsound Hp Hlast Hafter) as [->|(Hc & Hnews & _)].
    { constructor; [|done]. intros id a Ha. right. exists a. split; [done|by left]. }
    assert (forall id t, Spec.recs now !! (NamespaceLayerSets, layerSetKey id) = None -> is_Some (Spec.recs next !! (NamespaceLayerSets, layerSetKey id)) ->
      t ∈ now :: past -> Spec.recs t !! (NamespaceLayerSets, layerSetKey id) = None) as Hfresh by (intros id t Hn Hs; by apply Hfree, Hnews).
    pose proof (change_ages _ _ Hc) as Hnow. constructor; [done|]. apply Forall_forall. intros t Ht id a Ha.
    destruct (Spec.recs next !! (NamespaceLayerSets, layerSetKey id)) as [r|] eqn:Hnext; [|by left].
    destruct (proj1 (Forall_forall _ _) IH t Ht id a Ha) as [Hgone|(b & Hb & Hab)].
    + assert (Spec.recs t !! (NamespaceLayerSets, layerSetKey id) = None) as Hnone
        by (apply (Hfresh id t Hgone); [by eexists|apply elem_of_cons; by right]). destruct Ha as (r' & Hr' & _). congruence.
    + destruct (Hnow id b Hb) as [|(c & Hcat & Hbc)]; [congruence|]. right. exists c. split; [done|].
      destruct Hab as [->|?]; [done|]. right. destruct Hbc as [->|?]; lia.
  - specialize (IH now past eq_refl).
    assert (forall id a, set_at next id a <-> set_at now id a) as Hat by (intros id a; unfold set_at; by rewrite Hsame).
    constructor; [intros id a Ha; right; exists a; split; [by apply Hat|by left]|]. eapply Forall_impl; [exact IH|].
    intros t Ht id a Ha. destruct (Ht id a Ha) as [Hgone|(b & Hb & Hab)]; [left; by rewrite Hsame|right; exists b; split; [by apply Hat|done]].
Qed.

Lemma run_versions states id a b t1 t2 :
  library_run states -> t1 ∈ states -> t2 ∈ states -> set_at t1 id a -> set_at t2 id b -> lib_Version a = lib_Version b -> a = b.
Proof.
  intros Hrun. assert (forall now past, library_run (now :: past) -> forall t x y, t ∈ now :: past -> set_at t id x -> set_at now id y ->
    lib_Version x = lib_Version y -> x = y) as Hhead.
  { intros now past Hr t x y [->|Ht]%elem_of_cons Hx Hy Hv; [by eapply set_at_unique|].
    apply run_ages in Hr. destruct (proj1 (Forall_forall _ _) Hr t Ht id x Hx) as [Hn|(z & Hz & Hxz)].
    - destruct Hy as (r & Hr' & _). congruence.
    - rewrite (set_at_unique _ _ _ _ Hz Hy) in Hxz. destruct Hxz as [?|?]; [done|lia]. }
  induction Hrun as [|es c k start now past next Hrun IH Hin Ho Hsound Hp Hlast Hseen Hafter Hfree|now past next Hrun IH Hwf Hs]; intros Hm1 Hm2 Ha Hb Hv.
  - apply (list_elem_of_singleton t1 Spec.empty) in Hm1 as ->. apply (list_elem_of_singleton t2 Spec.empty) in Hm2 as ->. by eapply set_at_unique.
  - assert (library_run (next :: now :: past)) as Hall by by eapply library_step.
    apply elem_of_cons in Hm1 as Hin1. apply elem_of_cons in Hm2 as Hin2. destruct Hin1 as [->|Hin1]; [symmetry; by eapply (Hhead next _ Hall t2)|].
    destruct Hin2 as [->|Hin2]; [by eapply (Hhead next _ Hall t1)|]. by apply IH.
  - assert (library_run (next :: now :: past)) as Hall by by apply library_other.
    apply elem_of_cons in Hm1 as Hin1. apply elem_of_cons in Hm2 as Hin2. destruct Hin1 as [->|Hin1]; [symmetry; by eapply (Hhead next _ Hall t2)|].
    destruct Hin2 as [->|Hin2]; [by eapply (Hhead next _ Hall t1)|]. by apply IH.
Qed.

(** C26: An entity tag names one content for ever. Over every interleaving of
    calls that create, update and delete layer sets, in which no identifier is
    drawn twice, two sets
    read at any two moments under one identifier with one version are the same
    set, with the same content, author and times. *)
Theorem version_names_content states id a b t1 t2 :
  library_run states -> t1 ∈ states -> t2 ∈ states -> set_at t1 id a -> set_at t2 id b ->
  LibraryLayerSet_ETag a = LibraryLayerSet_ETag b -> lib_Set a = lib_Set b /\ a = b.
Proof.
  intros Hrun Hm1 Hm2 Ha Hb He. assert (a = b) as ->; [|done]. apply (run_versions states id a b t1 t2); try done.
  destruct Ha as (r & _ & ((_ & _ & ? & _) & _ & _ & ?)%decode_set_inv), Hb as (r' & _ & ((_ & _ & ? & _) & _ & _ & ?)%decode_set_inv).
  by apply RevisionETag_inj; [lia| |lia| |].
Qed.

End LayerSetSpec.
