(* ===== verification/TemplateLibrary.v ===== *)
(** * api/builder/templates.go: the template library

    The device templates and the collections every user shares, one record. A
    change is a function of the library; it runs on what is stored, and again
    when another write was first. *)

From Stdlib Require Import ZArith Lia Ascii String Strings.Byte.
From stdpp Require Import base option list gmap strings.
From S2P Require Import Prelude Record RecordSpec Text Codes Document Checks Layers Icons Validate Drafts Content DraftService LayerSets.

Open Scope Z_scope.
Open Scope go_scope.

(** ** Data *)

Definition NamespaceTemplates : string := "builder.templates".
Definition LibraryKey : string := "library".
Definition kindLibrary : string := "template library".
Definition kindTemplate : string := "template".
Definition kindCollection : string := "collection".
Definition MaxLibraryTemplates : Z := 200.
Definition MaxLibraryCollections : Z := 50.
Definition MaxCollectionTemplates : Z := 200.

(** [LibraryTemplate], with the template it embeds. *)
Record LibraryTemplate : Type := {
  lt_Template : Template;
  lt_Version : Z;
  lt_Created : Z;
  lt_Updated : Z;
  lt_CreatedBy : string;
  lt_UpdatedBy : string;
}.

Record TemplateCollection : Type := {
  tc_ID : string;
  tc_Name : string;
  tc_Description : string;
  tc_TemplateIDs : list string;
  tc_Version : Z;
  tc_Created : Z;
  tc_Updated : Z;
  tc_CreatedBy : string;
  tc_UpdatedBy : string;
}.

Record CollectionContent : Type := { cc_Name : string; cc_Description : string; cc_TemplateIDs : list string }.

(** A nil list and an empty one are one here; [normalize] makes them one. *)
Record TemplateLibrary : Type := {
  tl_Templates : list LibraryTemplate;
  tl_Collections : list TemplateCollection;
  tl_Updated : Z;
  tl_UpdatedBy : string;
  tl_Revision : Z;
}.

Definition with_lists (l : TemplateLibrary) (templates : list LibraryTemplate) (collections : list TemplateCollection) : TemplateLibrary := {|
  tl_Templates := templates; tl_Collections := collections; tl_Updated := tl_Updated l; tl_UpdatedBy := tl_UpdatedBy l; tl_Revision := tl_Revision l |}.

Definition with_update (l : TemplateLibrary) (updated : Z) (by_ : string) : TemplateLibrary := {|
  tl_Templates := tl_Templates l; tl_Collections := tl_Collections l; tl_Updated := updated; tl_UpdatedBy := by_; tl_Revision := tl_Revision l |}.

Definition with_tl_revision (l : TemplateLibrary) (revision : Z) : TemplateLibrary := {|
  tl_Templates := tl_Templates l; tl_Collections := tl_Collections l; tl_Updated := tl_Updated l; tl_UpdatedBy := tl_UpdatedBy l; tl_Revision := revision |}.

(** encoding/json of the library and of a template's device. *)
Class TemplateJSON := {
  marshal_device : TemplateDevice -> res string (list byte);
  marshal_library : TemplateLibrary -> res string (list byte);
  unmarshal_library : list byte -> res (option string) TemplateLibrary;
}.

Definition newLibraryErrorf (reason : text) : lerror := LLibrary reason false.
Definition newLibraryLimitErrorf (reason : text) : lerror := LLibrary reason true.

Definition Template_of (l : TemplateLibrary) (id : string) : option LibraryTemplate :=
  List.find (fun t => String.eqb (tpl_ID (lt_Template t)) id) (tl_Templates l).

Definition Collection_of (l : TemplateLibrary) (id : string) : option TemplateCollection :=
  List.find (fun c => String.eqb (tc_ID c) id) (tl_Collections l).

Definition LibraryTemplate_ETag (t : LibraryTemplate) : string := RevisionETag (lt_Version t).
Definition TemplateCollection_ETag (c : TemplateCollection) : string := RevisionETag (tc_Version c).

(** The first element that the test holds for is changed. *)
Fixpoint change_first {A} (f : A -> bool) (g : A -> A) (l : list A) : list A :=
  match l with
  | [] => []
  | a :: l => if f a then g a :: l else a :: change_first f g l
  end.

Section Templates.
Context `{Unicode, Libraries}.

(** ** Changes of a library

    [newID] gives the identifiers asked for, in order. *)

Definition checkTemplate (template : Template) (path : string) : res lerror unit :=
  match Template_Issues template path with
  | [] => Ok tt
  | issue :: _ => Err (LIssue issue)
  end.

Definition textProblem (value : string) (limit : Z) : option text :=
  match validateText "text" value limit false with
  | Err (SInvalid _ reason _) => Some reason
  | _ => None
  end.

(** The loop of [AddTemplates] from template number [i]. *)
Fixpoint add_templates (l : TemplateLibrary) (newID : nat -> res string string) (i : nat) (templates : list Template) (ids : list string)
  : res lerror (list string * list LibraryTemplate) :=
  match templates with
  | [] => Ok (ids, [])
  | template :: templates =>
      let? _ := checkTemplate template (index_path "templates" i) in
      let? id := res_map_err (fun what => LService (SOther what)) (newID i) in
      if negb (ValidID id) || bool_decide (is_Some (Template_of l id)) || bool_decide (id ∈ ids) then
        Err (LService (SWrap (Sprintf "adding a template: the new identifier %q is not usable" [AStr id]) (SOther "")))
      else
        let? (ids, added) := add_templates l newID (S i) templates (ids ++ [id]) in
        Ok (ids, {| lt_Template := {| tpl_ID := id; tpl_Name := tpl_Name template; tpl_Description := tpl_Description template;
                                      tpl_Device := tpl_Device template; tpl_Source := None |};
                    lt_Version := 0; lt_Created := zero_time; lt_Updated := zero_time; lt_CreatedBy := ""; lt_UpdatedBy := "" |} :: added)
  end.

Definition AddTemplates (l : TemplateLibrary) (templates : list Template) (newID : nat -> res string string)
  : res lerror (list string * TemplateLibrary) :=
  if MaxLibraryTemplates <? zlen (tl_Templates l) + zlen templates then
    Err (newLibraryLimitErrorf (Sprintf "a library holds at most %d templates" [AInt MaxLibraryTemplates]))
  else
    let? (ids, added) := add_templates l newID 0 templates [] in
    Ok (ids, with_lists l (tl_Templates l ++ added) (tl_Collections l)).

Definition replace_content (content : Template) (t : LibraryTemplate) : LibraryTemplate := {|
  lt_Template := {| tpl_ID := tpl_ID (lt_Template t); tpl_Name := tpl_Name content; tpl_Description := tpl_Description content;
                    tpl_Device := tpl_Device content; tpl_Source := tpl_Source (lt_Template t) |};
  lt_Version := lt_Version t; lt_Created := lt_Created t; lt_Updated := lt_Updated t; lt_CreatedBy := lt_CreatedBy t; lt_UpdatedBy := lt_UpdatedBy t |}.

Definition ReplaceTemplate (l : TemplateLibrary) (id : string) (content : Template) : res lerror TemplateLibrary :=
  match Template_of l id with
  | None => Err (LService (newNotFoundError kindTemplate id))
  | Some _ =>
      let? _ := checkTemplate content kindTemplate in
      Ok (with_lists l (change_first (fun t => String.eqb (tpl_ID (lt_Template t)) id) (replace_content content) (tl_Templates l)) (tl_Collections l))
  end.

Definition with_template_ids (c : TemplateCollection) (ids : list string) : TemplateCollection := {|
  tc_ID := tc_ID c; tc_Name := tc_Name c; tc_Description := tc_Description c; tc_TemplateIDs := ids; tc_Version := tc_Version c;
  tc_Created := tc_Created c; tc_Updated := tc_Updated c; tc_CreatedBy := tc_CreatedBy c; tc_UpdatedBy := tc_UpdatedBy c |}.

(** [TemplateLibrary.Delete]: the library, and how many of each it removed. *)
Definition Delete (l : TemplateLibrary) (templateIDs collectionIDs : list string) : Z * Z * TemplateLibrary :=
  let templates := List.filter (fun t => negb (bool_decide (tpl_ID (lt_Template t) ∈ templateIDs))) (tl_Templates l) in
  let collections := List.filter (fun c => negb (bool_decide (tc_ID c ∈ collectionIDs))) (tl_Collections l) in
  let collections := map (fun c => with_template_ids c (List.filter (fun id => negb (bool_decide (id ∈ templateIDs))) (tc_TemplateIDs c))) collections in
  (zlen (tl_Templates l) - zlen templates, zlen (tl_Collections l) - zlen collections, with_lists l templates collections).

(** The loop of [checkCollection] over the templates it names. *)
Fixpoint check_names (l : TemplateLibrary) (before ids : list string) : res lerror unit :=
  match ids with
  | [] => Ok tt
  | id :: ids =>
      if negb (bool_decide (is_Some (Template_of l id))) then
        Err (newLibraryErrorf (Sprintf "collection names template %q, which this library does not hold" [AStr (shownID id)]))
      else if bool_decide (id ∈ before) then
        Err (newLibraryErrorf (Sprintf "collection names template %q more than once" [AStr (shownID id)]))
      else check_names l (before ++ [id]) ids
  end.

Definition checkCollection (l : TemplateLibrary) (content : CollectionContent) : res lerror unit :=
  if blank (cc_Name content) then Err (newLibraryErrorf (lit "a collection needs a name"))
  else
    match textProblem (cc_Name content) MaxTemplateNameBytes with
    | Some reason => Err (newLibraryErrorf (Sprintf ("collection name " +:+ format reason) (args reason)))
    | None =>
        match textProblem (cc_Description content) MaxTemplateDescriptionBytes with
        | Some reason => Err (newLibraryErrorf (Sprintf ("collection description " +:+ format reason) (args reason)))
        | None =>
            if MaxCollectionTemplates <? zlen (cc_TemplateIDs content) then
              Err (newLibraryLimitErrorf (Sprintf "a collection holds at most %d templates" [AInt MaxCollectionTemplates]))
            else check_names l [] (cc_TemplateIDs content)
        end
    end.

Definition AddCollection (l : TemplateLibrary) (content : CollectionContent) (newID : res string string)
  : res lerror (string * TemplateLibrary) :=
  if MaxLibraryCollections <=? zlen (tl_Collections l) then
    Err (newLibraryLimitErrorf (Sprintf "a library holds at most %d collections" [AInt MaxLibraryCollections]))
  else
    let? _ := checkCollection l content in
    let? id := res_map_err (fun what => LService (SOther what)) newID in
    if negb (ValidID id) || bool_decide (is_Some (Collection_of l id)) then
      Err (LService (SWrap (Sprintf "adding a collection: the new identifier %q is not usable" [AStr id]) (SOther "")))
    else
      Ok (id, with_lists l (tl_Templates l) (tl_Collections l ++ [{| tc_ID := id; tc_Name := cc_Name content;
        tc_Description := cc_Description content; tc_TemplateIDs := cc_TemplateIDs content; tc_Version := 0; tc_Created := zero_time;
        tc_Updated := zero_time; tc_CreatedBy := ""; tc_UpdatedBy := "" |}])).

Definition replace_collection (content : CollectionContent) (c : TemplateCollection) : TemplateCollection := {|
  tc_ID := tc_ID c; tc_Name := cc_Name content; tc_Description := cc_Description content; tc_TemplateIDs := cc_TemplateIDs content;
  tc_Version := tc_Version c; tc_Created := tc_Created c; tc_Updated := tc_Updated c; tc_CreatedBy := tc_CreatedBy c; tc_UpdatedBy := tc_UpdatedBy c |}.

Definition ReplaceCollection (l : TemplateLibrary) (id : string) (content : CollectionContent) : res lerror TemplateLibrary :=
  match Collection_of l id with
  | None => Err (LService (newNotFoundError kindCollection id))
  | Some _ =>
      let? _ := checkCollection l content in
      Ok (with_lists l (tl_Templates l) (change_first (fun c => String.eqb (tc_ID c) id) (replace_collection content) (tl_Collections l)))
  end.

(** ** What is stored *)

Definition user_bad (value : string) : bool := negb (ok (validateText "user" value MaxOwnerLength false)).

(** The loop of [libraryTemplatesProblem]. *)
Fixpoint templates_problem (i : nat) (seen : gset string) (templates : list LibraryTemplate) : option text :=
  match templates with
  | [] => None
  | t :: templates =>
      let id := tpl_ID (lt_Template t) in
      let n := [AInt (Z.of_nat i)] in
      if negb (ValidID id) then Some (Sprintf "template %d has an invalid identifier" n)
      else if bool_decide (id ∈ seen) then Some (Sprintf "template %d repeats an identifier" n)
      else if lt_Version t <? 1 then Some (Sprintf "template %d has version %d" (n ++ [AInt (lt_Version t)]))
      else if negb (bool_decide (Template_Issues (lt_Template t) kindTemplate = [])) then Some (Sprintf "template %d is not a valid template" n)
      else if bool_decide (is_Some (tpl_Source (lt_Template t))) then Some (Sprintf "template %d names a source" n)
      else if user_bad (lt_CreatedBy t) || user_bad (lt_UpdatedBy t) then Some (Sprintf "template %d names an unusable user" n)
      else templates_problem (S i) ({[ id ]} ∪ seen) templates
  end.

Definition libraryTemplatesProblem (library : TemplateLibrary) : option text := templates_problem 0 ∅ (tl_Templates library).

(** A template that is named has to be there, and once. *)
Fixpoint names_ok (l : TemplateLibrary) (before ids : list string) : bool :=
  match ids with
  | [] => true
  | id :: ids => bool_decide (is_Some (Template_of l id)) && negb (bool_decide (id ∈ before)) && names_ok l (before ++ [id]) ids
  end.

Fixpoint collections_problem (l : TemplateLibrary) (i : nat) (seen : gset string) (collections : list TemplateCollection) : option text :=
  match collections with
  | [] => None
  | c :: collections =>
      let n := [AInt (Z.of_nat i)] in
      if negb (ValidID (tc_ID c)) then Some (Sprintf "collection %d has an invalid identifier" n)
      else if bool_decide (tc_ID c ∈ seen) then Some (Sprintf "collection %d repeats an identifier" n)
      else if tc_Version c <? 1 then Some (Sprintf "collection %d has version %d" (n ++ [AInt (tc_Version c)]))
      else if blank (tc_Name c) || bool_decide (is_Some (textProblem (tc_Name c) MaxTemplateNameBytes)) then
        Some (Sprintf "collection %d has no usable name" n)
      else if bool_decide (is_Some (textProblem (tc_Description c) MaxTemplateDescriptionBytes)) then
        Some (Sprintf "collection %d has an unusable description" n)
      else if MaxCollectionTemplates <? zlen (tc_TemplateIDs c) then
        Some (Sprintf "collection %d names %d templates, more than %d" (n ++ [AInt (zlen (tc_TemplateIDs c)); AInt MaxCollectionTemplates]))
      else if user_bad (tc_CreatedBy c) || user_bad (tc_UpdatedBy c) then Some (Sprintf "collection %d names an unusable user" n)
      else if negb (names_ok l [] (tc_TemplateIDs c)) then
        Some (Sprintf "collection %d names a template the library does not hold, or one twice" n)
      else collections_problem l (S i) ({[ tc_ID c ]} ∪ seen) collections
  end.

Definition libraryCollectionsProblem (library : TemplateLibrary) : option text :=
  collections_problem library 0 ∅ (tl_Collections library).

Definition libraryProblem (library : TemplateLibrary) : option text :=
  if user_bad (tl_UpdatedBy library) then Some (lit "the library has an unusable actor")
  else if MaxLibraryTemplates <? zlen (tl_Templates library) then
    Some (Sprintf "the library holds %d templates, more than %d" [AInt (zlen (tl_Templates library)); AInt MaxLibraryTemplates])
  else if MaxLibraryCollections <? zlen (tl_Collections library) then
    Some (Sprintf "the library holds %d collections, more than %d" [AInt (zlen (tl_Collections library)); AInt MaxLibraryCollections])
  else
    match libraryTemplatesProblem library with
    | Some problem => Some problem
    | None => libraryCollectionsProblem library
    end.

Context `{TemplateJSON}.

(** ** Versions *)

Definition sameTemplate (a b : Template) : bool :=
  if negb (String.eqb (tpl_Name a) (tpl_Name b)) || negb (String.eqb (tpl_Description a) (tpl_Description b)) then false
  else
    match marshal_device (tpl_Device a), marshal_device (tpl_Device b) with
    | Ok first, Ok second => bool_decide (first = second)
    | _, _ => false
    end.

Definition stamp_template (before : TemplateLibrary) (now : Z) (actor : string) (t : LibraryTemplate) : LibraryTemplate :=
  match Template_of before (tpl_ID (lt_Template t)) with
  | None => {| lt_Template := lt_Template t; lt_Version := 1; lt_Created := now; lt_Updated := now; lt_CreatedBy := actor; lt_UpdatedBy := actor |}
  | Some previous =>
      if negb (sameTemplate (lt_Template t) (lt_Template previous)) then
        {| lt_Template := lt_Template t; lt_Version := add64 (lt_Version previous) 1; lt_Created := lt_Created previous; lt_Updated := now;
           lt_CreatedBy := lt_CreatedBy previous; lt_UpdatedBy := actor |}
      else
        {| lt_Template := lt_Template t; lt_Version := lt_Version previous; lt_Created := lt_Created previous; lt_Updated := lt_Updated previous;
           lt_CreatedBy := lt_CreatedBy previous; lt_UpdatedBy := lt_UpdatedBy previous |}
  end.

Definition stamped_collection (c : TemplateCollection) (version created updated : Z) (created_by updated_by : string) : TemplateCollection := {|
  tc_ID := tc_ID c; tc_Name := tc_Name c; tc_Description := tc_Description c; tc_TemplateIDs := tc_TemplateIDs c; tc_Version := version;
  tc_Created := created; tc_Updated := updated; tc_CreatedBy := created_by; tc_UpdatedBy := updated_by |}.

Definition stamp_collection (before : TemplateLibrary) (now : Z) (actor : string) (c : TemplateCollection) : TemplateCollection :=
  match Collection_of before (tc_ID c) with
  | None => stamped_collection c 1 now now actor actor
  | Some previous =>
      if negb (String.eqb (tc_Name c) (tc_Name previous)) || negb (String.eqb (tc_Description c) (tc_Description previous)) ||
         negb (bool_decide (tc_TemplateIDs c = tc_TemplateIDs previous)) then
        stamped_collection c (add64 (tc_Version previous) 1) (tc_Created previous) now (tc_CreatedBy previous) actor
      else stamped_collection c (tc_Version previous) (tc_Created previous) (tc_Updated previous) (tc_CreatedBy previous) (tc_UpdatedBy previous)
  end.

(** [TemplateLibrary.stamp]. *)
Definition stamp (l before : TemplateLibrary) (now : Z) (actor : string) : TemplateLibrary :=
  with_lists l (map (stamp_template before now actor) (tl_Templates l)) (map (stamp_collection before now actor) (tl_Collections l)).

(** ** The record *)

Definition emptyLibrary : TemplateLibrary := {|
  tl_Templates := []; tl_Collections := []; tl_Updated := zero_time; tl_UpdatedBy := ""; tl_Revision := 0 |}.

Definition encodeLibrary (library : TemplateLibrary) : res lerror (list byte) :=
  res_map_err (fun what => LService (SWrap (lit "encoding the template library: %w") (SOther what))) (marshal_library library).

Definition decodeLibrary (record : record) : res serror TemplateLibrary :=
  match decodeMetadata kindLibrary (unmarshal_library (bytes_of (Value record))) with
  | Err reason => Err (newCorruptError kindLibrary (Key record) reason)
  | Ok library =>
      match libraryProblem library with
      | Some problem => Err (newCorruptError kindLibrary (Key record) problem)
      | None => Ok (with_tl_revision library (Record.Revision record))
      end
  end.

Definition storedLibrary (s : Spec.state) : res serror TemplateLibrary :=
  let? record := res_map_err (storeError kindLibrary LibraryKey AnyRevision) (getRecord s NamespaceTemplates LibraryKey) in
  decodeLibrary record.

Definition GetLibrary (e : env) (s : Spec.state) : res serror TemplateLibrary :=
  let? _ := check_ctx e 0 (lit "getting the template library: %w") in
  match storedLibrary s with
  | Err err => if is_not_found err then Ok emptyLibrary else Err err
  | r => r
  end.

(** [libraryForUpdate]: the library as it is stored; both copies are it. *)
Definition libraryForUpdate (s : Spec.state) : res serror TemplateLibrary :=
  match getRecord s NamespaceTemplates LibraryKey with
  | Err err => if is_store err ErrRecordNotExist then Ok emptyLibrary else Err (storeError kindLibrary LibraryKey AnyRevision err)
  | Ok record => decodeLibrary record
  end.

(** [settleLibrary]: nothing to write, or the library and its encoding. *)
Definition settleLibrary (now : Z) (before library : TemplateLibrary) (actor : string) : res lerror (option (list byte * TemplateLibrary)) :=
  let library := stamp library before now actor in
  match libraryProblem library with
  | Some problem => Err (newLibraryErrorf problem)
  | None =>
      let library := with_update library (tl_Updated before) (tl_UpdatedBy before) in
      let? was := encodeLibrary before in
      let? value := encodeLibrary library in
      if bool_decide (value = was) then Ok None
      else
        let library := with_update library now actor in
        let? value := encodeLibrary library in
        if MaxMetadataBytes <? blen value then
          Err (newLibraryLimitErrorf (Sprintf "a library takes at most %d bytes, and this one would take %d" [AInt MaxMetadataBytes; AInt (blen value)]))
        else Ok (Some (value, library))
  end.

Definition writeLibrary (e : env) (value : list byte) (revision : Z) : st Spec.state lerror Z := fun s =>
  match write_record e NamespaceTemplates LibraryKey value revision (between e s) with
  | (Ok record, s) => (Ok (Record.Revision record), s)
  | (Err err, s) => (Err (LService (storeError kindLibrary LibraryKey revision err)), s)
  end.

(** The loop of [UpdateLibrary]: an attempt reads at access [n], runs the
    change, and writes at the next access. *)
Fixpoint update_library (attempts n : nat) (es : nat -> env) (actor : string) (change : nat -> TemplateLibrary -> res lerror TemplateLibrary)
    (s : Spec.state) : res lerror TemplateLibrary * Spec.state :=
  match attempts with
  | O => (Err (LBusy (lit "updating the template library: %w")), s)
  | S attempts =>
      let s := between (es n) s in
      match (let? before := lift_service (libraryForUpdate s) in
             let? library := change n before in
             let? settled := settleLibrary (clock (es n)) before library actor in
             Ok (before, settled)) with
      | Err err => (Err err, s)
      | Ok (before, None) => (Ok before, s)
      | Ok (before, Some (value, library)) =>
          match writeLibrary (es (S n)) value (tl_Revision before) s with
          | (Ok revision, s) => (Ok (with_tl_revision library revision), s)
          | (Err err, s) =>
              if lib_conflict err || lib_not_found err then update_library attempts (S (S n)) es actor change s else (Err err, s)
          end
      end
  end.

Definition UpdateLibrary (es : nat -> env) (actor : string) (change : nat -> TemplateLibrary -> res lerror TemplateLibrary) (s : Spec.state)
  : res lerror TemplateLibrary * Spec.state :=
  match (let? _ := check_ctx (es 0%nat) 0 (lit "updating the template library: %w") in validateText "actor" actor MaxOwnerLength true) with
  | Err err => (Err (LService err), s)
  | Ok _ => update_library maxLibraryAttempts 0 es actor change s
  end.

End Templates.
