(* ===== verification/TemplateSpec.v ===== *)
(** * What the template library promises

    What makes a library one that is stored, that every change of it stays
    one, and that an update applies its change to the library it replaces. *)

From Stdlib Require Import ZArith Lia Ascii String Strings.Byte.
From stdpp Require Import base option list gmap strings relations.
From S2P Require Import Prelude Record RecordSpec Text Codes Document Checks Layers Icons Validate Drafts Content DraftService.
From S2P Require Import DraftSpec DraftStore DraftWrites LayerSets LayerSetSpec TemplateLibrary.

Open Scope Z_scope.
Open Scope go_scope.

Definition template_ids (l : TemplateLibrary) : list string := (fun t => tpl_ID (lt_Template t)) <$> tl_Templates l.
Definition collection_ids (l : TemplateLibrary) : list string := tc_ID <$> tl_Collections l.

Definition template_texts (t : LibraryTemplate) : list string :=
  [tpl_ID (lt_Template t); tpl_Name (lt_Template t); tpl_Description (lt_Template t); lt_CreatedBy t; lt_UpdatedBy t].

Definition collection_texts (c : TemplateCollection) : list string :=
  [tc_ID c; tc_Name c; tc_Description c; tc_CreatedBy c; tc_UpdatedBy c] ++ tc_TemplateIDs c.

(** What is relied on of encoding/json: a library of valid UTF-8, with
    versions that fit and devices that come back from their own encoding,
    comes back; and decoding gives such a library. *)
Class TemplateLaws `{TemplateJSON} := {
  device_value : TemplateDevice -> Prop;
  values_ok (l : TemplateLibrary) : Prop :=
    utf8 (tl_UpdatedBy l :: (tl_Templates l ≫= template_texts) ++ (tl_Collections l ≫= collection_texts)) /\
    Forall (fun t => device_value (tpl_Device (lt_Template t))) (tl_Templates l);
  versions_fit (l : TemplateLibrary) : Prop :=
    Forall (fun t => int64 (lt_Version t)) (tl_Templates l) /\ Forall (fun c => int64 (tc_Version c)) (tl_Collections l);
  unmarshal_marshal_library l v :
    marshal_library l = Ok v -> values_ok l -> versions_fit l -> Forall (fun t => tpl_Source (lt_Template t) = None) (tl_Templates l) ->
    unmarshal_library v = Ok (with_tl_revision l 0);
  unmarshal_library_values v l : unmarshal_library v = Ok l -> values_ok l /\ versions_fit l;
}.

Section TemplateSpec.
Context `{Unicode, Libraries}.

(** ** A library that is stored *)

(** What a template is, stamped or not. *)
Definition entry_ok (t : LibraryTemplate) : Prop :=
  ValidID (tpl_ID (lt_Template t)) = true /\ template_ok (lt_Template t) /\ tpl_Source (lt_Template t) = None.

Definition names_held (l : TemplateLibrary) (ids : list string) : Prop :=
  NoDup ids /\ Forall (fun id => id ∈ template_ids l) ids.

Definition group_ok (l : TemplateLibrary) (c : TemplateCollection) : Prop :=
  ValidID (tc_ID c) = true /\ blank (tc_Name c) = false /\ textProblem (tc_Name c) MaxTemplateNameBytes = None /\
  textProblem (tc_Description c) MaxTemplateDescriptionBytes = None /\ zlen (tc_TemplateIDs c) <= MaxCollectionTemplates /\
  names_held l (tc_TemplateIDs c).

(** The library, but for versions and users. *)
Definition shape_ok (l : TemplateLibrary) : Prop :=
  text_ok MaxOwnerLength false (tl_UpdatedBy l) /\ zlen (tl_Templates l) <= MaxLibraryTemplates /\ zlen (tl_Collections l) <= MaxLibraryCollections /\
  NoDup (template_ids l) /\ Forall entry_ok (tl_Templates l) /\ NoDup (collection_ids l) /\ Forall (group_ok l) (tl_Collections l).

Definition versioned (version : Z) (created_by updated_by : string) : Prop :=
  1 <= version /\ text_ok MaxOwnerLength false created_by /\ text_ok MaxOwnerLength false updated_by.

Definition library_ok (l : TemplateLibrary) : Prop :=
  shape_ok l /\ Forall (fun t => versioned (lt_Version t) (lt_CreatedBy t) (lt_UpdatedBy t)) (tl_Templates l) /\
  Forall (fun c => versioned (tc_Version c) (tc_CreatedBy c) (tc_UpdatedBy c)) (tl_Collections l).

Lemma user_bad_false value : user_bad value = false <-> text_ok MaxOwnerLength false value.
Proof. unfold user_bad. by rewrite negb_false_iff, (validateText_ok' "user"). Qed.

Lemma Template_of_some l id : is_Some (Template_of l id) <-> id ∈ template_ids l.
Proof.
  unfold Template_of, template_ids. induction (tl_Templates l) as [|t ts IH]; cbn [List.find fmap list_fmap].
  - split; [by intros [? ?]|by intros ?%elem_of_nil].
  - rewrite elem_of_cons. destruct (String.eqb_spec (tpl_ID (lt_Template t)) id) as [->|Hne]; [split; [by left|by eexists]|].
    rewrite IH. split; [by right|by intros [->|?]].
Qed.

Lemma Collection_of_some l id : is_Some (Collection_of l id) <-> id ∈ collection_ids l.
Proof.
  unfold Collection_of, collection_ids. induction (tl_Collections l) as [|c cs IH]; cbn [List.find fmap list_fmap].
  - split; [by intros [? ?]|by intros ?%elem_of_nil].
  - rewrite elem_of_cons. destruct (String.eqb_spec (tc_ID c) id) as [->|Hne]; [split; [by left|by eexists]|].
    rewrite IH. split; [by right|by intros [->|?]].
Qed.

Lemma templates_problem_none i seen ts :
  templates_problem i seen ts = None <->
  Forall (fun t => entry_ok t /\ versioned (lt_Version t) (lt_CreatedBy t) (lt_UpdatedBy t)) ts /\
  NoDup ((fun t => tpl_ID (lt_Template t)) <$> ts) /\ Forall (fun t => tpl_ID (lt_Template t) ∉ seen) ts.
Proof.
  revert i seen. induction ts as [|t ts IH]; intros i seen; cbn [templates_problem fmap list_fmap]; [split; [intros _; split_and!; constructor|done]|].
  rewrite !Forall_cons, NoDup_cons. unfold entry_ok at 1, versioned at 1. rewrite <- !user_bad_false, <- (template_nil _ kindTemplate).
  destruct (ValidID _); cbn [negb]; [|naive_solver]. destruct (bool_decide_reflect (tpl_ID (lt_Template t) ∈ seen)); [naive_solver|].
  destruct (Z.ltb_spec (lt_Version t) 1); [split; [done|lia]|]. destruct (bool_decide_reflect (Template_Issues (lt_Template t) kindTemplate = [])); cbn [negb]; [|naive_solver].
  destruct (bool_decide_reflect (is_Some (tpl_Source (lt_Template t)))) as [[? Hs]|Hs]; [rewrite Hs; naive_solver|].
  destruct (user_bad (lt_CreatedBy t)), (user_bad (lt_UpdatedBy t)); cbn [orb]; [naive_solver..|].
  assert (tpl_Source (lt_Template t) = None) as Hnone by (destruct (tpl_Source (lt_Template t)); [destruct Hs; by eexists|done]).
  rewrite IH. split.
  - intros (Hf & Hd & Hn). split_and!; try done; [intros (t' & He & Hin)%list_elem_of_fmap; rewrite Forall_forall in Hn; specialize (Hn t' Hin); set_solver|].
    eapply Forall_impl; [exact Hn|]. set_solver.
  - intros ((_ & Hf) & (Hid & Hd) & _ & Hn). split_and!; try done. apply Forall_forall. intros t' Hin. rewrite Forall_forall in Hn. specialize (Hn t' Hin).
    assert (tpl_ID (lt_Template t') <> tpl_ID (lt_Template t)); [|set_solver]. intros He. apply Hid. rewrite <- He. by apply (list_elem_of_fmap_2 (fun t => tpl_ID (lt_Template t))).
Qed.

Lemma names_ok_iff l before ids :
  names_ok l before ids = true <-> Forall (fun id => id ∈ template_ids l /\ id ∉ before) ids /\ NoDup ids.
Proof.
  revert before. induction ids as [|id ids IH]; intros before; cbn [names_ok]; [split; [intros _; split; constructor|done]|].
  rewrite !andb_true_iff, negb_true_iff, bool_decide_eq_true, bool_decide_eq_false, IH, Template_of_some, Forall_cons, NoDup_cons. split.
  - intros [[? ?] [Hf Hd]]. split_and!; try done.
    + eapply Forall_impl; [exact Hf|]. intros x [? Hx]. split; [done|]. intros ?. apply Hx, elem_of_app. by left.
    + intros Hin. rewrite Forall_forall in Hf. destruct (Hf id Hin) as [_ Hx]. apply Hx, elem_of_app. right. by apply list_elem_of_singleton.
  - intros [[[? ?] Hf] [Hid Hd]]. split_and!; try done. apply Forall_forall. intros x Hx. rewrite Forall_forall in Hf. destruct (Hf x Hx) as [? ?].
    split; [done|]. rewrite elem_of_app. intros [?|He]; [done|]. apply (list_elem_of_singleton x id) in He as ->. done.
Qed.

Lemma names_held_iff l ids : names_ok l [] ids = true <-> names_held l ids.
Proof.
  rewrite names_ok_iff. unfold names_held. split.
  - intros [Hf Hd]. split; [done|]. eapply Forall_impl; [exact Hf|]. by intros id [? _].
  - intros [Hd Hf]. split; [|done]. eapply Forall_impl; [exact Hf|]. intros id ?. split; [done|apply not_elem_of_nil].
Qed.

Lemma collections_problem_none l i seen cs :
  collections_problem l i seen cs = None <->
  Forall (fun c => group_ok l c /\ versioned (tc_Version c) (tc_CreatedBy c) (tc_UpdatedBy c)) cs /\
  NoDup (tc_ID <$> cs) /\ Forall (fun c => tc_ID c ∉ seen) cs.
Proof.
  revert i seen. induction cs as [|c cs IH]; intros i seen; cbn [collections_problem fmap list_fmap]; [split; [intros _; split_and!; constructor|done]|].
  rewrite !Forall_cons, NoDup_cons. unfold group_ok at 1, versioned at 1. rewrite <- !user_bad_false, <- names_held_iff.
  destruct (ValidID _); cbn [negb]; [|naive_solver]. destruct (bool_decide_reflect (tc_ID c ∈ seen)); [naive_solver|].
  destruct (Z.ltb_spec (tc_Version c) 1); [split; [done|lia]|]. destruct (blank (tc_Name c)); cbn [orb]; [naive_solver|].
  destruct (textProblem (tc_Name c) _); [rewrite bool_decide_eq_true_2 by (by eexists); naive_solver|]. rewrite bool_decide_eq_false_2 by (by intros [? ?]).
  destruct (textProblem (tc_Description c) _); [rewrite bool_decide_eq_true_2 by (by eexists); naive_solver|]. rewrite bool_decide_eq_false_2 by (by intros [? ?]).
  destruct (Z.ltb_spec MaxCollectionTemplates (zlen (tc_TemplateIDs c))); [split; [done|lia]|].
  destruct (user_bad (tc_CreatedBy c)), (user_bad (tc_UpdatedBy c)); cbn [orb]; [naive_solver..|].
  destruct (names_ok l [] (tc_TemplateIDs c)); cbn [negb]; [|naive_solver].
  rewrite IH. split.
  - intros (Hf & Hd & Hn). split_and!; try done; [intros (c' & He & Hin)%list_elem_of_fmap; rewrite Forall_forall in Hn; specialize (Hn c' Hin); set_solver|].
    eapply Forall_impl; [exact Hn|]. set_solver.
  - intros ((_ & Hf) & (Hid & Hd) & _ & Hn). split_and!; try done. apply Forall_forall. intros c' Hin. rewrite Forall_forall in Hn. specialize (Hn c' Hin).
    assert (tc_ID c' <> tc_ID c); [|set_solver]. intros He. apply Hid. rewrite <- He. by apply (list_elem_of_fmap_2 tc_ID).
Qed.

(** The checks of a record accept exactly these libraries. *)
Lemma libraryProblem_none l : libraryProblem l = None <-> library_ok l.
Proof.
  unfold libraryProblem, library_ok, shape_ok, libraryTemplatesProblem, libraryCollectionsProblem. rewrite <- user_bad_false.
  destruct (user_bad (tl_UpdatedBy l)); [naive_solver|]. destruct (Z.ltb_spec MaxLibraryTemplates (zlen (tl_Templates l))); [split; [done|lia]|].
  destruct (Z.ltb_spec MaxLibraryCollections (zlen (tl_Collections l))); [split; [done|lia]|].
  pose proof (templates_problem_none 0 ∅ (tl_Templates l)) as Ht. pose proof (collections_problem_none l 0 ∅ (tl_Collections l)) as Hc.
  rewrite Forall_and in Ht. rewrite Forall_and in Hc. fold (template_ids l) in Ht. fold (collection_ids l) in Hc.
  assert (Forall (fun t => tpl_ID (lt_Template t) ∉ (∅ : gset string)) (tl_Templates l)) by (apply Forall_forall; set_solver).
  assert (Forall (fun c => tc_ID c ∉ (∅ : gset string)) (tl_Collections l)) by (apply Forall_forall; set_solver).
  destruct (templates_problem 0 ∅ (tl_Templates l)); [split; [done|intuition]|]. rewrite Hc. destruct Ht as [Ht _]. specialize (Ht eq_refl). tauto.
Qed.

(** ** Changes keep the shape *)

Lemma fmap_same_id {A B} (h : A -> B) g l : (forall a, h (g a) = h a) -> h <$> map g l = h <$> l.
Proof. intros Hg. induction l as [|a l IH]; cbn; [done|]. by rewrite Hg, IH. Qed.

Lemma fmap_change_first {A B} (h : A -> B) f g l : (forall a, h (g a) = h a) -> h <$> change_first f g l = h <$> l.
Proof. intros Hg. induction l as [|a l IH]; [done|]. cbn. destruct (f a); cbn; [by rewrite Hg|by rewrite IH]. Qed.

Lemma Forall_change_first {A} (P : A -> Prop) f g l : Forall P l -> (forall a, P a -> P (g a)) -> Forall P (change_first f g l).
Proof. intros Hl Hg. induction Hl as [|a l Ha Hl IH]; cbn; [constructor|]. destruct (f a); constructor; auto. Qed.

Lemma zlen_change_first {A} f (g : A -> A) l : zlen (change_first f g l) = zlen l.
Proof. unfold zlen. f_equal. induction l as [|a l IH]; [done|]. cbn. destruct (f a); cbn; [done|by rewrite IH]. Qed.

Lemma group_ok_names l l' c : template_ids l ⊆ template_ids l' -> group_ok l c -> group_ok l' c.
Proof.
  intros Hs (? & ? & ? & ? & ? & Hd & Hf). do 5 (split; [done|]). split; [done|]. eapply Forall_impl; [exact Hf|]. intros id. apply Hs.
Qed.

Lemma checkTemplate_ok t path : checkTemplate t path = Ok tt -> template_ok t.
Proof. unfold checkTemplate. intros Hc. apply (template_nil _ path). by destruct (Template_Issues t path). Qed.

Lemma add_templates_inv l newID i ts ids ids' added :
  add_templates l newID i ts ids = Ok (ids', added) ->
  ids' = ids ++ ((fun t => tpl_ID (lt_Template t)) <$> added) /\ length added = length ts /\ Forall entry_ok added /\
  Forall (fun t => tpl_ID (lt_Template t) ∉ template_ids l) added /\ (NoDup ids -> NoDup ids').
Proof.
  revert i ids ids' added. induction ts as [|t ts IH]; intros i ids ids' added; cbn [add_templates].
  - intros [= <- <-]. rewrite app_nil_r. split_and!; by try constructor.
  - rewrite bind_unit. intros [Ht%checkTemplate_ok Hrest]. apply bind_ok in Hrest as (id & _ & Hrest).
    destruct (ValidID id) eqn:Hid; [|done]. cbn [negb orb] in Hrest.
    destruct (bool_decide_reflect (is_Some (Template_of l id))) as [|Hnone]; [done|]. destruct (bool_decide_reflect (id ∈ ids)) as [|Hnew]; [done|].
    cbn [orb] in Hrest. apply bind_ok in Hrest as ([ids2 added2] & Hadd & [= <- <-]). apply IH in Hadd as (-> & Hlen & Hok & Hl & Hd).
    rewrite Template_of_some in Hnone. split_and!.
    + cbn. by rewrite <- app_assoc.
    + cbn. by rewrite Hlen.
    + constructor; [|done]. split; [done|]. split; [|done]. destruct Ht as (? & ? & ? & ? & ? & ? & ? & ? & ? & ? & ? & _). by split_and!.
    + by constructor.
    + intros Hids. apply Hd. apply NoDup_app. split_and!; [done| |apply NoDup_singleton]. intros x Hx Hin. by apply (list_elem_of_singleton x id) in Hin as ->.
Qed.

Lemma checkCollection_ok l content :
  checkCollection l content = Ok tt ->
  blank (cc_Name content) = false /\ textProblem (cc_Name content) MaxTemplateNameBytes = None /\
  textProblem (cc_Description content) MaxTemplateDescriptionBytes = None /\ zlen (cc_TemplateIDs content) <= MaxCollectionTemplates /\
  names_held l (cc_TemplateIDs content).
Proof.
  unfold checkCollection. destruct (blank _); [done|]. destruct (textProblem (cc_Name content) _); [done|]. destruct (textProblem (cc_Description content) _); [done|].
  destruct (Z.ltb_spec MaxCollectionTemplates (zlen (cc_TemplateIDs content))); [done|]. intros Hc. do 4 (split; [done|]).
  rewrite <- names_held_iff. revert Hc. generalize (@nil string). induction (cc_TemplateIDs content) as [|id ids IH]; intros before; [done|]. cbn [check_names names_ok].
  destruct (bool_decide _); cbn [negb andb]; [|done]. destruct (bool_decide (id ∈ before)); cbn [negb andb]; [done|]. apply IH. unfold zlen in *. cbn [length] in *. lia.
Qed.

(** The changes the package offers, those that were accepted. *)
Inductive edit (l l' : TemplateLibrary) : Prop :=
  | Adds templates newID ids : AddTemplates l templates newID = Ok (ids, l') -> edit l l'
  | Replaces id content : ReplaceTemplate l id content = Ok l' -> edit l l'
  | Deletes templateIDs collectionIDs : l' = (Delete l templateIDs collectionIDs).2 -> edit l l'
  | Groups content newID id : AddCollection l content newID = Ok (id, l') -> edit l l'
  | Regroups id content : ReplaceCollection l id content = Ok l' -> edit l l'.

Lemma zlen_filter {A} (f : A -> bool) l : zlen (List.filter f l) <= zlen l.
Proof. unfold zlen. pose proof (List.filter_length_le f l). lia. Qed.

Lemma AddTemplates_shape l l' templates newID ids : shape_ok l -> AddTemplates l templates newID = Ok (ids, l') -> shape_ok l'.
Proof.
  intros (Hu & Hn & Hm & Hd & He & Hcd & Hc) Hadd.
  unfold AddTemplates in Hadd. destruct (Z.ltb_spec MaxLibraryTemplates (zlen (tl_Templates l) + zlen templates)); [done|].
  apply bind_ok in Hadd as ([ids2 added] & Ha & [= <- <-]). apply add_templates_inv in Ha as (-> & Hlen & Hok & Hnew & Hnd).
  specialize (Hnd (NoDup_nil_2)). cbn [app] in Hnd. unfold shape_ok. cbn [tl_UpdatedBy tl_Templates tl_Collections with_lists].
  assert (template_ids (with_lists l (tl_Templates l ++ added) (tl_Collections l)) = template_ids l ++ ((fun t => tpl_ID (lt_Template t)) <$> added)) as Hids
    by (unfold template_ids; cbn; by rewrite fmap_app).
  split_and!; try done.
  + unfold zlen in *. rewrite length_app, Hlen. lia.
  + rewrite Hids. apply NoDup_app. split_and!; [done| |done]. intros id Hin (t & -> & Ht)%list_elem_of_fmap.
    by apply (proj1 (Forall_forall _ _) Hnew t Ht).
  + by apply Forall_app.
  + eapply Forall_impl; [exact Hc|]. intros c. apply group_ok_names. rewrite Hids. set_solver.
Qed.

Lemma ReplaceTemplate_shape l l' id content : shape_ok l -> ReplaceTemplate l id content = Ok l' -> shape_ok l'.
Proof.
  intros (Hu & Hn & Hm & Hd & He & Hcd & Hc) Hrep.
  unfold ReplaceTemplate in Hrep. destruct (Template_of l id); [|done]. rewrite bind_unit in Hrep. destruct Hrep as [Ht%checkTemplate_ok [= <-]].
  unfold shape_ok. cbn [tl_UpdatedBy tl_Templates tl_Collections with_lists]. rewrite zlen_change_first.
  assert (forall f, template_ids (with_lists l (change_first f (replace_content content) (tl_Templates l)) (tl_Collections l)) = template_ids l) as Hids
    by (intros f; unfold template_ids; cbn; by apply fmap_change_first).
  split_and!; try done; [by rewrite Hids| |].
  + apply Forall_change_first; [done|]. intros t (Hid & _ & Hs). split; [done|]. split; [|done].
    destruct Ht as (? & ? & ? & ? & ? & ? & ? & ? & ? & ? & ? & _). unfold template_ok. cbn. rewrite Hs. by split_and!.
  + eapply Forall_impl; [exact Hc|]. intros c. apply group_ok_names. by rewrite Hids.
Qed.

Lemma Delete_shape l l' tids cids : shape_ok l -> l' = (Delete l tids cids).2 -> shape_ok l'.
Proof.
  intros (Hu & Hn & Hm & Hd & He & Hcd & Hc) ->.
  unfold Delete, shape_ok. cbn [snd tl_UpdatedBy tl_Templates tl_Collections with_lists].
  pose proof (zlen_filter (fun t => negb (bool_decide (tpl_ID (lt_Template t) ∈ tids))) (tl_Templates l)).
  pose proof (zlen_filter (fun c => negb (bool_decide (tc_ID c ∈ cids))) (tl_Collections l)).
  split_and!; try done; [lia|unfold zlen in *; rewrite length_map; lia|by apply NoDup_filter_fmap|by apply Forall_filter_b| |].
  + unfold collection_ids. cbn [tl_Collections with_lists]. rewrite fmap_same_id by done. by apply (NoDup_filter_fmap tc_ID).
  + rewrite map_fmap. apply Forall_fmap. apply Forall_filter_b. eapply Forall_impl; [exact Hc|].
    intros c (? & ? & ? & ? & ? & Hnd & Hf). unfold compose. do 4 (split; [done|]). cbn.
    pose proof (zlen_filter (fun id => negb (bool_decide (id ∈ tids))) (tc_TemplateIDs c)). split; [lia|]. split.
    * pose proof (NoDup_filter_fmap id (fun id => negb (bool_decide (id ∈ tids))) (tc_TemplateIDs c)) as Hx. rewrite !list_fmap_id in Hx. by apply Hx.
    * apply Forall_forall. intros id [Hin Hno]%list_elem_of_In%filter_In. apply list_elem_of_In in Hin. rewrite Forall_forall in Hf. specialize (Hf id Hin).
      apply list_elem_of_fmap in Hf as (t & -> & Ht). unfold template_ids. cbn. apply (list_elem_of_fmap_2 (fun t => tpl_ID (lt_Template t))).
      apply list_elem_of_In, filter_In. split; [by apply list_elem_of_In|done].
Qed.

Lemma AddCollection_shape l l' content newID id : shape_ok l -> AddCollection l content newID = Ok (id, l') -> shape_ok l'.
Proof.
  intros (Hu & Hn & Hm & Hd & He & Hcd & Hc) Hadd.
  unfold AddCollection in Hadd. destruct (Z.leb_spec MaxLibraryCollections (zlen (tl_Collections l))); [done|]. rewrite bind_unit in Hadd.
  destruct Hadd as [Hcheck%checkCollection_ok Hadd]. apply bind_ok in Hadd as (new & _ & Hadd). destruct (ValidID new) eqn:Hid; [|done]. cbn [negb orb] in Hadd.
  destruct (bool_decide_reflect (is_Some (Collection_of l new))) as [|Hnone]; [done|]. injection Hadd as _ <-. rewrite Collection_of_some in Hnone.
  unfold shape_ok. cbn [tl_UpdatedBy tl_Templates tl_Collections with_lists]. split_and!; try done.
  + unfold zlen in *. rewrite length_app. cbn [length]. lia.
  + unfold collection_ids. cbn. rewrite fmap_app. apply NoDup_app. split_and!; [done| |apply NoDup_singleton].
    intros x Hx Hin. by apply (list_elem_of_singleton x new) in Hin as ->.
  + apply Forall_app. split; [|constructor; [|constructor]]; [eapply Forall_impl; [exact Hc|]; intros c; by apply group_ok_names|].
    destruct Hcheck as (? & ? & ? & ? & ?). by split_and!.
Qed.

Lemma ReplaceCollection_shape l l' id content : shape_ok l -> ReplaceCollection l id content = Ok l' -> shape_ok l'.
Proof.
  intros (Hu & Hn & Hm & Hd & He & Hcd & Hc) Hrep.
  unfold ReplaceCollection in Hrep. destruct (Collection_of l id); [|done]. rewrite bind_unit in Hrep. destruct Hrep as [Hcheck%checkCollection_ok [= <-]].
  unfold shape_ok. cbn [tl_UpdatedBy tl_Templates tl_Collections with_lists]. rewrite zlen_change_first. split_and!; try done.
  + unfold collection_ids. cbn. by rewrite fmap_change_first.
  + apply Forall_change_first; [eapply Forall_impl; [exact Hc|]; intros c; by apply group_ok_names|].
    intros c (Hid & _). destruct Hcheck as (? & ? & ? & ? & ?). by split_and!.
Qed.

Lemma edit_shape l l' : shape_ok l -> edit l l' -> shape_ok l'.
Proof.
  intros Hl [templates newID ids He|id content He|tids cids He|content newID id He|id content He];
    eauto using AddTemplates_shape, ReplaceTemplate_shape, Delete_shape, AddCollection_shape, ReplaceCollection_shape.
Qed.

(** ** Stamping *)

Context `{TemplateJSON}.

Lemma stamp_ids l before now actor : template_ids (stamp l before now actor) = template_ids l /\ collection_ids (stamp l before now actor) = collection_ids l.
Proof.
  unfold template_ids, collection_ids, stamp. cbn [tl_Templates tl_Collections with_lists]. split; apply fmap_same_id.
  - intros t. unfold stamp_template. destruct (Template_of before _); [|done]. by destruct (sameTemplate _ _).
  - intros c. unfold stamp_collection. destruct (Collection_of before _); [|done]. by destruct (_ || _).
Qed.

Lemma Template_of_in l id t : Template_of l id = Some t -> t ∈ tl_Templates l /\ tpl_ID (lt_Template t) = id.
Proof. unfold Template_of. intros [? He]%List.find_some. apply String.eqb_eq in He. by rewrite list_elem_of_In. Qed.

Lemma Collection_of_in l id c : Collection_of l id = Some c -> c ∈ tl_Collections l /\ tc_ID c = id.
Proof. unfold Collection_of. intros [? He]%List.find_some. apply String.eqb_eq in He. by rewrite list_elem_of_In. Qed.

Lemma text_ok_any limit s : text_ok limit true s -> text_ok limit false s.
Proof. intros [[-> _]|?]; [by left|by right]. Qed.

(** A stamped entry keeps what it is, and its version is a good one. *)
Lemma stamp_template_ok before now actor t :
  library_ok before -> Forall (fun t => lt_Version t < 2 ^ 63 - 1) (tl_Templates before) -> text_ok MaxOwnerLength true actor ->
  let t' := stamp_template before now actor t in
  lt_Template t' = lt_Template t /\ versioned (lt_Version t') (lt_CreatedBy t') (lt_UpdatedBy t').
Proof.
  intros (_ & Hv & _) Hmax Ha%text_ok_any. unfold stamp_template. destruct (Template_of before _) as [p|] eqn:Ep; [|split; [done|split; [cbn; lia|done]]].
  apply Template_of_in in Ep as [Hp _]. rewrite Forall_forall in Hv, Hmax. specialize (Hv p Hp). specialize (Hmax p Hp). destruct Hv as (? & ? & ?).
  destruct (negb _); cbn; (split; [done|]); unfold versioned; [|done]. unfold add64. rewrite wrap64_id by (unfold int64; lia). split; [lia|done].
Qed.

Lemma stamp_collection_ok before now actor c :
  library_ok before -> Forall (fun c => tc_Version c < 2 ^ 63 - 1) (tl_Collections before) -> text_ok MaxOwnerLength true actor ->
  let c' := stamp_collection before now actor c in
  (forall l, group_ok l c -> group_ok l c') /\ versioned (tc_Version c') (tc_CreatedBy c') (tc_UpdatedBy c').
Proof.
  intros (_ & _ & Hv) Hmax Ha%text_ok_any. unfold stamp_collection. destruct (Collection_of before _) as [p|] eqn:Ep; [|split; [done|split; [cbn; lia|done]]].
  apply Collection_of_in in Ep as [Hp _]. rewrite Forall_forall in Hv, Hmax. specialize (Hv p Hp). specialize (Hmax p Hp). destruct Hv as (? & ? & ?).
  destruct (_ || _); cbn; (split; [done|]); unfold versioned; [|done]. unfold add64. rewrite wrap64_id by (unfold int64; lia). split; [lia|done].
Qed.

(** Every change of the package keeps the library one that is stored. From
    a library the checks accept, with versions below the last 64-bit one, any
    sequence of accepted changes (templates added and replaced, templates and
    collections deleted, collections added and replaced) followed by the stamp
    of a valid actor gives a library the checks accept: limits, unique
    identifiers, valid templates, and collections that name only templates it
    holds, each once. *)
Theorem edits_keep_library before l now actor :
  libraryProblem before = None ->
  Forall (fun t => lt_Version t < 2 ^ 63 - 1) (tl_Templates before) -> Forall (fun c => tc_Version c < 2 ^ 63 - 1) (tl_Collections before) ->
  validateText "actor" actor MaxOwnerLength true = Ok tt -> rtc edit before l -> libraryProblem (stamp l before now actor) = None.
Proof.
  rewrite !libraryProblem_none, validateText_ok. intros Hb Hmt Hmc Ha Hedits.
  assert (shape_ok l) as (Hu & Hn & Hm & Hd & He & Hcd & Hc).
  { destruct Hb as (Hb & _). clear -Hb Hedits. induction Hedits; eauto using edit_shape. }
  pose proof (stamp_ids l before now actor) as [Hids Hcids]. unfold library_ok, shape_ok. rewrite Hids, Hcids.
  cbn [tl_UpdatedBy tl_Templates tl_Collections with_lists stamp]. split_and!; try done.
  - unfold zlen in *. by rewrite length_map.
  - unfold zlen in *. by rewrite length_map.
  - rewrite map_fmap. apply Forall_fmap. eapply Forall_impl; [exact He|]. intros t Ht. unfold compose, entry_ok.
    by rewrite (proj1 (stamp_template_ok before now actor t Hb Hmt Ha)).
  - rewrite map_fmap. apply Forall_fmap. eapply Forall_impl; [exact Hc|]. intros c Hg. unfold compose.
    apply (proj1 (stamp_collection_ok before now actor c Hb Hmc Ha)). revert Hg. apply group_ok_names.
    unfold stamp in Hids. rewrite (map_fmap (stamp_collection before now actor)) in Hids. intros x Hx. rewrite <- Hids in Hx. exact Hx.
  - rewrite map_fmap. apply Forall_fmap, Forall_true. intros t. exact (proj2 (stamp_template_ok before now actor t Hb Hmt Ha)).
  - rewrite map_fmap. apply Forall_fmap, Forall_true. intros c. exact (proj2 (stamp_collection_ok before now actor c Hb Hmc Ha)).
Qed.

(** ** Updates *)

Context `{!TemplateLaws}.

(** The library is the one stored, and the record of the key is what changed. *)
Definition only_library (s s' : Spec.state) : Prop :=
  forall p, p <> (NamespaceTemplates, LibraryKey) -> Spec.recs s' !! p = Spec.recs s !! p.

Lemma decodeLibrary_inv (r : record) l :
  decodeLibrary r = Ok l -> library_ok l /\ values_ok l /\ versions_fit l /\ tl_Revision l = Record.Revision r.
Proof.
  unfold decodeLibrary. destruct (unmarshal_library _) as [q|[]] eqn:Eu; cbn [decodeMetadata]; [|done..]. apply unmarshal_library_values in Eu as [? ?].
  destruct (libraryProblem q) eqn:Hp; [done|]. apply libraryProblem_none in Hp. intros [= <-]. by split_and!.
Qed.

Lemma libraryForUpdate_inv s before :
  libraryForUpdate s = Ok before ->
  library_ok before /\ values_ok before /\ versions_fit before /\
  ((Spec.recs s !! (NamespaceTemplates, LibraryKey) = None /\ before = emptyLibrary) \/
   (exists r, Spec.recs s !! (NamespaceTemplates, LibraryKey) = Some r /\ decodeLibrary r = Ok before /\ tl_Revision before = Record.Revision r)).
Proof.
  unfold libraryForUpdate, getRecord, tx_call, Spec.get, Spec.lookup. cbn [validateRecordNamespaceAndKey].
  destruct (Spec.recs s !! _) as [r|] eqn:Hr; cbn [fst is_store].
  - intros Hd. pose proof (decodeLibrary_inv _ _ Hd) as (? & ? & ? & ?). split_and!; try done. right. by exists r.
  - intros [= <-]. split; [by apply libraryProblem_none|]. split; [split; [repeat constructor|constructor]|]. split; [by split|]. by left.
Qed.

Lemma values_iff l :
  values_ok l <-> valid_utf8 (tl_UpdatedBy l) = true /\ Forall (fun t => utf8 (template_texts t)) (tl_Templates l) /\
    Forall (fun c => utf8 (collection_texts c)) (tl_Collections l) /\ Forall (fun t => device_value (tpl_Device (lt_Template t))) (tl_Templates l).
Proof. unfold values_ok. rewrite utf8_cons, utf8_app, !utf8_bind. tauto. Qed.

(** A stamp takes its texts from the entry, from the one before, and from the
    actor, and its version fits. *)
Lemma stamp_template_values before now actor t :
  values_ok before -> versions_fit before -> utf8 (template_texts t) -> valid_utf8 actor = true ->
  let t' := stamp_template before now actor t in
  lt_Template t' = lt_Template t /\ utf8 (template_texts t') /\ int64 (lt_Version t').
Proof.
  intros Hb [Hv _] Ht Ha. apply values_iff in Hb as (_ & Hb & _). unfold stamp_template, template_texts in *. rewrite !utf8_cons in Ht.
  destruct (Template_of before _) as [p|] eqn:Ep.
  - apply Template_of_in in Ep as [Hp _]. rewrite Forall_forall in Hv, Hb. specialize (Hv p Hp). specialize (Hb p Hp). rewrite !utf8_cons in Hb.
    destruct (negb _); cbn; (split; [done|]); rewrite !utf8_cons; (split; [tauto|]); [apply wrap64_range|done].
  - cbn. split; [done|]. rewrite !utf8_cons. split; [tauto|unfold int64; lia].
Qed.

Lemma stamp_collection_values before now actor c :
  values_ok before -> versions_fit before -> utf8 (collection_texts c) -> valid_utf8 actor = true ->
  utf8 (collection_texts (stamp_collection before now actor c)) /\ int64 (tc_Version (stamp_collection before now actor c)).
Proof.
  intros Hb [_ Hv] Ht Ha. apply values_iff in Hb as (_ & _ & Hb & _). unfold stamp_collection, collection_texts in *. rewrite utf8_app, !utf8_cons in Ht.
  destruct (Collection_of before _) as [p|] eqn:Ep.
  - apply Collection_of_in in Ep as [Hp _]. rewrite Forall_forall in Hv, Hb. specialize (Hv p Hp). specialize (Hb p Hp). rewrite utf8_app, !utf8_cons in Hb.
    destruct (_ || _); cbn [tc_ID tc_Name tc_Description tc_CreatedBy tc_UpdatedBy tc_TemplateIDs tc_Version stamped_collection];
      rewrite utf8_app, !utf8_cons; (split; [tauto|]); [apply wrap64_range|done].
  - cbn [tc_ID tc_Name tc_Description tc_CreatedBy tc_UpdatedBy tc_TemplateIDs tc_Version stamped_collection].
    rewrite utf8_app, !utf8_cons. split; [tauto|unfold int64; lia].
Qed.

Lemma stamp_values before l now actor :
  values_ok before -> versions_fit before -> values_ok l -> valid_utf8 actor = true ->
  values_ok (stamp l before now actor) /\ versions_fit (stamp l before now actor).
Proof.
  intros Hb Hf Hl Ha. apply values_iff in Hl as (Hu & Ht & Hc & Hd). unfold versions_fit. rewrite values_iff.
  cbn [tl_UpdatedBy tl_Templates tl_Collections with_lists stamp]. rewrite !map_fmap, !Forall_fmap. split_and!; try done.
  - eapply Forall_impl; [exact Ht|]. intros t Hx. apply (stamp_template_values before now actor t Hb Hf Hx Ha).
  - eapply Forall_impl; [exact Hc|]. intros c Hx. apply (stamp_collection_values before now actor c Hb Hf Hx Ha).
  - eapply Forall_impl; [exact (proj2 (Forall_and _ _) (conj Ht Hd))|]. intros t [Hx ?]. unfold compose.
    by rewrite (proj1 (stamp_template_values before now actor t Hb Hf Hx Ha)).
  - eapply Forall_impl; [exact Ht|]. intros t Hx. apply (stamp_template_values before now actor t Hb Hf Hx Ha).
  - eapply Forall_impl; [exact Hc|]. intros c Hx. apply (stamp_collection_values before now actor c Hb Hf Hx Ha).
Qed.

Lemma settle_inv now before library actor settled :
  settleLibrary now before library actor = Ok settled ->
  library_ok (stamp library before now actor) /\
  match settled with
  | None => exists v, marshal_library before = Ok v /\
      marshal_library (with_update (stamp library before now actor) (tl_Updated before) (tl_UpdatedBy before)) = Ok v
  | Some (value, l) => l = with_update (stamp library before now actor) now actor /\ marshal_library l = Ok value
  end.
Proof.
  unfold settleLibrary, encodeLibrary. destruct (libraryProblem _) eqn:Hp; [done|]. apply libraryProblem_none in Hp. intros Hs. split; [done|].
  apply bind_ok in Hs as (was & Hwas%res_map_err_ok & Hs). apply bind_ok in Hs as (value & Hv%res_map_err_ok & Hs).
  destruct (bool_decide_reflect (value = was)) as [->|]; [injection Hs as <-; by exists was|].
  apply bind_ok in Hs as (value' & Hv'%res_map_err_ok & Hs). destruct (_ <? _); [done|]. by injection Hs as <-.
Qed.

(** The library as an update writes it reads back. *)
Lemma decode_library_written before library now actor value (r : record) :
  values_ok before -> versions_fit before -> values_ok library -> text_ok MaxOwnerLength true actor ->
  library_ok (stamp library before now actor) -> marshal_library (with_update (stamp library before now actor) now actor) = Ok value ->
  Value r = Some value -> decodeLibrary r = Ok (with_tl_revision (with_update (stamp library before now actor) now actor) (Record.Revision r)).
Proof.
  intros Hb Hf Hl Ha Hok Hm Hr. pose proof (text_ok_utf8 _ _ _ Ha) as Hu. destruct (stamp_values before library now actor Hb Hf Hl Hu) as [Hsv Hsf].
  unfold decodeLibrary. rewrite Hr. change (bytes_of (Some value)) with value.
  rewrite (unmarshal_marshal_library _ value Hm); [|apply values_iff in Hsv as (_ & ?); by apply values_iff|done|
    destruct Hok as ((_ & _ & _ & _ & He & _) & _); eapply Forall_impl; [exact He|]; by intros t (_ & _ & ?)].
  cbn [decodeMetadata]. assert (libraryProblem (with_tl_revision (with_update (stamp library before now actor) now actor) 0) = None) as ->; [|done].
  apply libraryProblem_none. destruct Hok as ((_ & Hok) & Hvs). split; [split; [by apply text_ok_any|exact Hok]|exact Hvs].
Qed.

Lemma writeLibrary_inv e value revision s rev s' :
  writeLibrary e value revision s = (Ok rev, s') ->
  exists r, Namespace r = NamespaceTemplates /\ Key r = LibraryKey /\ Value r = Some value /\ Record.Revision r = rev /\ s' = Spec.write r (between e s) /\
    ((revision = 0 /\ Spec.recs (between e s) !! (NamespaceTemplates, LibraryKey) = None) \/
     (revision <> 0 /\ exists old, Spec.recs (between e s) !! (NamespaceTemplates, LibraryKey) = Some old /\ Record.Revision old = revision)).
Proof.
  unfold writeLibrary. destruct (write_record _ _ _ _ _ _) as [[r|err] s1] eqn:Ew; [|done]. intros [= <- <-].
  apply write_record_inv in Ew as (? & ? & ? & ? & ? & ?). by exists r.
Qed.

Lemma writeLibrary_err e value revision s err s' : writeLibrary e value revision s = (Err err, s') -> s' = between e s.
Proof.
  unfold writeLibrary. destruct (write_record _ _ _ _ _ _) as [[r|err'] s1] eqn:Ew; [done|]. intros [= _ <-]. by eapply txn_err.
Qed.

(** What the loop of an update does: each attempt that lost wrote nothing. *)
Lemma update_library_run attempts n es actor change s0 s l s' :
  between (es n) s = after es n s0 ->
  update_library attempts n es actor change s = (Ok l, s') ->
  exists j before library settled, (n <= j < n + 2 * attempts)%nat /\ libraryForUpdate (after es j s0) = Ok before /\ change j before = Ok library /\
    settleLibrary (clock (es j)) before library actor = Ok settled /\
    match settled with
    | None => l = before /\ s' = after es j s0
    | Some (value, written) => exists rev, writeLibrary (es (S j)) value (tl_Revision before) (after es j s0) = (Ok rev, s') /\ l = with_tl_revision written rev
    end.
Proof.
  revert n s. induction attempts as [|attempts IH]; intros n s Hs; cbn [update_library]; [done|]. rewrite Hs.
  destruct (libraryForUpdate (after es n s0)) as [before|] eqn:Hb; [|done]. cbn [lift_service res_map_err res_bind].
  destruct (change n before) as [library|] eqn:Hc; [|done]. cbn [res_bind].
  destruct (settleLibrary _ before library actor) as [[[value written]|]|] eqn:Hset; cbn [res_bind]; [| |done].
  - destruct (writeLibrary _ _ _ _) as [[rev|err] s1] eqn:Hw.
    + intros [= <- <-]. exists n, before, library, (Some (value, written)). split; [lia|]. do 3 (split; [done|]). by exists rev.
    + destruct (_ || _); [|done]. apply writeLibrary_err in Hw as ->. intros Hrun.
      destruct (IH (S (S n)) _ ltac:(reflexivity) Hrun) as (j & b & lb & st & Hj & Hrest). exists j, b, lb, st. split; [lia|done].
  - intros [= <- <-]. exists n, before, library, None. split; [lia|]. by do 3 (split; [done|]).
Qed.

(** A write against the revision that was read replaces what was read. *)
Lemma library_wrote es actor s0 j before library value rev s' :
  orderly es -> Spec.wf s0 -> text_ok MaxOwnerLength true actor -> values_ok library ->
  libraryForUpdate (after es j s0) = Ok before -> library_ok (stamp library before (clock (es j)) actor) ->
  let l := with_update (stamp library before (clock (es j)) actor) (clock (es j)) actor in
  marshal_library l = Ok value -> writeLibrary (es (S j)) value (tl_Revision before) (after es j s0) = (Ok rev, s') ->
  libraryForUpdate (after es (S j) s0) = Ok before /\ libraryForUpdate s' = Ok (with_tl_revision l rev) /\ only_library (after es (S j) s0) s'.
Proof.
  intros Ho Hw Ha Hl Hb Hok l Hm Hwr. destruct (orderly_after es j s0 Ho Hw) as [Hwj _]. destruct (Ho (S j) _ Hwj) as [Hwk Hlk].
  destruct (libraryForUpdate_inv _ _ Hb) as (_ & Hbv & Hbf & Hcase). apply writeLibrary_inv in Hwr as (r & Hns & Hk & Hv & <- & -> & Hat).
  assert (only_library (after es (S j) s0) (Spec.write r (after es (S j) s0))) as Honly
    by (intros p Hp; cbn; rewrite Hns, Hk; by apply lookup_insert_ne).
  assert (libraryForUpdate (Spec.write r (after es (S j) s0)) = Ok (with_tl_revision l (Record.Revision r))) as Hread.
  { unfold libraryForUpdate, getRecord, tx_call, Spec.get, Spec.lookup, Spec.write. cbn [validateRecordNamespaceAndKey Spec.recs].
    rewrite Hns, Hk. change (res_bind (Ok tt) ?k) with (k tt). rewrite lookup_insert_eq. cbn [fst].
    by apply (decode_library_written before library (clock (es j)) actor value). }
  split; [|done]. cbn [after]. destruct Hcase as [[Hnone ->]|(r0 & Hr0 & Hd0 & Hrev0)].
  - destruct Hat as [[_ Hat]|[[] _]]; [|done]. unfold libraryForUpdate, getRecord, tx_call, Spec.get, Spec.lookup.
    cbn [validateRecordNamespaceAndKey]. by rewrite Hat.
  - assert (0 < Record.Revision r0) as Hpos by (destruct Hwj as (_ & Hwj' & _); by apply Hwj' in Hr0 as (_ & _ & [? _] & _)).
    destruct Hat as [[Hz _]|(_ & old & Hold & Hrold)]; [lia|].
    destruct (revision_names_write _ _ _ _ r0 old Hwj Hlk Hr0 Hold ltac:(congruence)) as [_ <-].
    unfold libraryForUpdate, getRecord, tx_call, Spec.get, Spec.lookup. cbn [validateRecordNamespaceAndKey]. by rewrite Hold.
Qed.

(** *** What a version says *)

(** Two templates that are the same, and two collections: they say the same,
    and the devices have one encoding. *)
Definition same_template (a b : Template) : Prop :=
  tpl_Name a = tpl_Name b /\ tpl_Description a = tpl_Description b /\
  exists v, marshal_device (tpl_Device a) = Ok v /\ marshal_device (tpl_Device b) = Ok v.

Definition same_collection (a b : TemplateCollection) : Prop :=
  tc_Name a = tc_Name b /\ tc_Description a = tc_Description b /\ tc_TemplateIDs a = tc_TemplateIDs b.

(** An entry of the new library as it is stored: a new one is version 1 of the
    actor's, one that differs from that of its identifier before is the next
    version, made by whom it was and changed by the actor now, and one that is
    the same keeps its version, its times and its users. *)
Record history : Type := { h_version : Z; h_created : Z; h_updated : Z; h_created_by : string; h_updated_by : string }.

Definition template_history (t : LibraryTemplate) : history :=
  {| h_version := lt_Version t; h_created := lt_Created t; h_updated := lt_Updated t; h_created_by := lt_CreatedBy t; h_updated_by := lt_UpdatedBy t |}.

Definition collection_history (c : TemplateCollection) : history :=
  {| h_version := tc_Version c; h_created := tc_Created c; h_updated := tc_Updated c; h_created_by := tc_CreatedBy c; h_updated_by := tc_UpdatedBy c |}.

Definition first_version (now : Z) (actor : string) (h : history) : Prop :=
  h = {| h_version := 1; h_created := now; h_updated := now; h_created_by := actor; h_updated_by := actor |}.

Definition next_version (now : Z) (actor : string) (p h : history) : Prop :=
  h = {| h_version := wrap64 (h_version p + 1); h_created := h_created p; h_updated := now; h_created_by := h_created_by p; h_updated_by := actor |}.

Definition template_stored (before : TemplateLibrary) (now : Z) (actor : string) (t t' : LibraryTemplate) : Prop :=
  lt_Template t' = lt_Template t /\
  (tpl_ID (lt_Template t) ∉ template_ids before /\ first_version now actor (template_history t') \/
   exists p, p ∈ tl_Templates before /\ tpl_ID (lt_Template p) = tpl_ID (lt_Template t) /\
     (same_template (lt_Template t) (lt_Template p) -> template_history t' = template_history p) /\
     (~ same_template (lt_Template t) (lt_Template p) -> next_version now actor (template_history p) (template_history t'))).

Definition collection_stored (before : TemplateLibrary) (now : Z) (actor : string) (c c' : TemplateCollection) : Prop :=
  (tc_ID c' = tc_ID c /\ same_collection c' c) /\
  (tc_ID c ∉ collection_ids before /\ first_version now actor (collection_history c') \/
   exists p, p ∈ tl_Collections before /\ tc_ID p = tc_ID c /\
     (same_collection c p -> collection_history c' = collection_history p) /\
     (~ same_collection c p -> next_version now actor (collection_history p) (collection_history c'))).

(** The library [l], stamped over the one before, has these entries. *)
Definition stored_over (before : TemplateLibrary) (now : Z) (actor : string) (l : TemplateLibrary)
    (templates : list LibraryTemplate) (collections : list TemplateCollection) : Prop :=
  Forall2 (template_stored before now actor) (tl_Templates l) templates /\ Forall2 (collection_stored before now actor) (tl_Collections l) collections.

Lemma sameTemplate_true a b : sameTemplate a b = true <-> same_template a b.
Proof.
  unfold sameTemplate, same_template. destruct (String.eqb_spec (tpl_Name a) (tpl_Name b)); cbn [negb orb]; [|naive_solver].
  destruct (String.eqb_spec (tpl_Description a) (tpl_Description b)); cbn [negb]; [|naive_solver].
  destruct (marshal_device (tpl_Device a)) as [va|]; [|naive_solver]. destruct (marshal_device (tpl_Device b)) as [vb|]; [|naive_solver].
  rewrite bool_decide_eq_true. naive_solver.
Qed.

Lemma stamp_template_stored before now actor t : template_stored before now actor t (stamp_template before now actor t).
Proof.
  unfold template_stored, stamp_template. destruct (Template_of before _) as [p|] eqn:Ep.
  - pose proof (sameTemplate_true (lt_Template t) (lt_Template p)) as Hs. apply Template_of_in in Ep as [Hin Hid].
    destruct (sameTemplate _ _); cbn [negb]; (split; [done|]); right; exists p; (split; [done|]); (split; [done|]);
      split; intros Hsame; try done; exfalso; naive_solver.
  - split; [done|]. left. split; [|done]. rewrite <- Template_of_some, Ep. by intros [? ?].
Qed.

Lemma stamp_collection_stored before now actor c : collection_stored before now actor c (stamp_collection before now actor c).
Proof.
  unfold collection_stored, stamp_collection, same_collection. destruct (Collection_of before _) as [p|] eqn:Ep.
  - apply Collection_of_in in Ep as [Hin Hid].
    destruct (String.eqb_spec (tc_Name c) (tc_Name p)); cbn [negb orb]; [destruct (String.eqb_spec (tc_Description c) (tc_Description p)); cbn [negb orb];
      [destruct (bool_decide_reflect (tc_TemplateIDs c = tc_TemplateIDs p)); cbn [negb]|]|];
      (split; [done|]); right; exists p; (split; [done|]); (split; [done|]); (split; [naive_solver|]); intros Hsame; try done; exfalso; naive_solver.
  - split; [done|]. left. split; [|done]. rewrite <- Collection_of_some, Ep. by intros [? ?].
Qed.

Lemma stamp_stored before now actor l :
  stored_over before now actor l (map (stamp_template before now actor) (tl_Templates l)) (map (stamp_collection before now actor) (tl_Collections l)).
Proof.
  split; rewrite map_fmap; apply Forall2_fmap_r, Forall_Forall2_diag, Forall_true; intros ?; [apply stamp_template_stored|apply stamp_collection_stored].
Qed.

(** C25: Changing the template library. When [UpdateLibrary] succeeds, the
    change was applied to the library that was stored at the moment of its last
    access, however many times other writes were first; attempts that lost
    wrote nothing. Either the change left the encoding of the library as it
    was, and the store is as others left it; or exactly the library's record
    changed, and it reads back as what the change made, under the actor's name
    and within the checks of the library: a new entry has version 1, one that
    changed has the next version, by the actor and now, and one that did not
    change keeps its version, its times and its users. *)
Theorem UpdateLibrary_spec es actor change s l s' :
  orderly es -> Spec.wf s -> (forall n a b, change n a = Ok b -> values_ok a -> values_ok b) ->
  UpdateLibrary es actor change s = (Ok l, s') ->
  exists k before library n, (k <= 10)%nat /\ libraryForUpdate (after es k s) = Ok before /\ change n before = Ok library /\
    ((l = before /\ s' = after es k s /\ exists v templates collections, marshal_library before = Ok v /\
        stored_over before (clock (es n)) actor library templates collections /\
        marshal_library (with_update (with_lists library templates collections) (tl_Updated before) (tl_UpdatedBy before)) = Ok v) \/
     (libraryForUpdate s' = Ok l /\ only_library (after es k s) s' /\ tl_UpdatedBy l = actor /\ tl_Updated l = clock (es n) /\ libraryProblem l = None /\
      stored_over before (clock (es n)) actor library (tl_Templates l) (tl_Collections l))).
Proof.
  intros Ho Hw Hval. unfold UpdateLibrary. destruct (let? _ := _ in _) as [[]|] eqn:Hcheck; [|done].
  rewrite bind_unit, validateText_ok in Hcheck. destruct Hcheck as [_ Ha]. intros Hrun.
  apply (update_library_run _ _ _ _ _ s) in Hrun; [|done]. destruct Hrun as (j & before & library & settled & Hj & Hb & Hc & Hset & Hend).
  unfold maxLibraryAttempts in Hj. destruct (settle_inv _ _ _ _ _ Hset) as [Hok Hs]. destruct settled as [[value written]|].
  - destruct Hs as [-> Hm]. destruct Hend as (rev & Hwr & ->). destruct (libraryForUpdate_inv _ _ Hb) as (_ & Hbv & _ & _).
    destruct (library_wrote es actor s j before library value rev s' Ho Hw Ha (Hval _ _ _ Hc Hbv) Hb Hok Hm Hwr) as (Hat & Hread & Honly).
    exists (S j), before, library, j. split; [lia|]. split; [done|]. split; [done|]. right. split_and!; try done; [|apply stamp_stored].
    apply libraryProblem_none. by apply (libraryForUpdate_inv _ _ Hread).
  - destruct Hs as (v & Hm & Hm'). destruct Hend as [-> ->]. exists j, before, library, j. split; [lia|]. split; [done|]. split; [done|]. left.
    split_and!; try done. exists v. do 2 eexists. split; [done|]. split; [apply stamp_stored|exact Hm'].
Qed.

End TemplateSpec.
