(* ===== verification/DraftSample.v ===== *)
(** * A run of the draft service

    Concrete codecs that keep the laws the service relies on, and one draft
    through its life, evaluated: created, saved, undone, published, saved
    again, a snapshot deleted, the draft deleted. Every theorem about the
    service is applied to a step of it. *)

From Stdlib Require Import ZArith Lia Ascii String Strings.Byte.
From stdpp Require Import base option list gmap strings countable sorting.
From S2P Require Import Prelude Record RecordSpec Text Codes Document Checks Layers Icons Validate Parents ValidateSpec EdgeSpec DocumentSpec.
From S2P Require Import Drafts Content DraftService DraftSpec DraftStore DraftWrites DraftAppend DraftCalls DraftPublish DraftCreate DraftTrace.

Open Scope Z_scope.
Open Scope go_scope.

Module SampleDrafts.

(** ** Codecs *)

(** A number as its binary digits, a byte each. *)
Fixpoint digits (p : positive) : list byte :=
  match p with
  | xH => []
  | xO p => x00 :: digits p
  | xI p => x01 :: digits p
  end.

Fixpoint of_digits (l : list byte) : positive :=
  match l with
  | [] => xH
  | x00 :: l => xO (of_digits l)
  | _ :: l => xI (of_digits l)
  end.

Lemma of_digits_digits p : of_digits (digits p) = p.
Proof. induction p as [p IH|p IH|]; cbn; by rewrite ?IH. Qed.

Definition pack {A} `{Countable A} (a : A) : list byte := digits (encode a).
Definition unpack {A} `{Countable A} (l : list byte) : option A := decode (of_digits l).

Lemma unpack_pack {A} `{Countable A} (a : A) : unpack (pack a) = Some a.
Proof. unfold unpack, pack. by rewrite of_digits_digits, countable.decode_encode. Qed.

Definition flat_manifest (m : SnapshotManifest) : list string * list Z :=
  ([man_ID m; man_Digest m; man_CreatedBy m; man_Summary m; man_OpID m], [man_Size m; man_CompressedSize m; man_CreatedAt m]).

Definition flat_publication (p : PublicationState) : list string * list Z :=
  ([ps_Mode p; ps_TopologyTarget p; ps_TopologyAction p; ps_ExperimentTarget p; ps_ScenarioTarget p; ps_SnapshotID p;
    ps_Digest p; ps_DocumentID p; ps_PublishedBy p], [ps_Revision p; ps_PublishedAt p]).

Definition flat_forked (f : ForkedPublication) : list string := [fp_DocumentID f; fp_TopologyTarget f; fp_ExperimentTarget f].

Definition flat : Type :=
  list string * list Z * list (list string * list Z) * option (list string * list Z) * option (list string).

Definition flat_draft (d : DraftMetadata) : flat :=
  ([dm_ID d; dm_CreatedBy d; dm_Title d; dm_SourceToken d; dm_SourceFile d; dm_LastModifiedBy d; DocumentCreatedBy d; DocumentCreatedAt d],
   [dm_Created d; dm_Updated d; Cursor d], flat_manifest <$> History d, flat_publication <$> Publication d, flat_forked <$> Forked d).

Definition raise_manifest (f : list string * list Z) : option SnapshotManifest :=
  match f with
  | ([id; digest; by_; summary; op], [size; compressed; at_]) => Some {| man_ID := id; man_Digest := digest; man_Size := size;
      man_CompressedSize := compressed; man_CreatedAt := at_; man_CreatedBy := by_; man_Summary := summary; man_OpID := op |}
  | _ => None
  end.

Definition raise_publication (f : list string * list Z) : option PublicationState :=
  match f with
  | ([mode; topology; action; experiment; scenario; snapshot; digest; document; by_], [revision; at_]) =>
      Some {| ps_Mode := mode; ps_TopologyTarget := topology; ps_TopologyAction := action; ps_ExperimentTarget := experiment;
        ps_ScenarioTarget := scenario; ps_SnapshotID := snapshot; ps_Digest := digest; ps_Revision := revision;
        ps_DocumentID := document; ps_PublishedAt := at_; ps_PublishedBy := by_ |}
  | _ => None
  end.

Definition raise_forked (f : list string) : option ForkedPublication :=
  match f with
  | [document; topology; experiment] => Some {| fp_DocumentID := document; fp_TopologyTarget := topology; fp_ExperimentTarget := experiment |}
  | _ => None
  end.

(** A part that may be absent, and is read when it is there. *)
Definition raise_option {A B} (f : A -> option B) (o : option A) : option (option B) :=
  match o with None => Some None | Some a => Some <$> f a end.

Definition raise_draft (f : flat) : option DraftMetadata :=
  match f with
  | ([id; by_; title; token; file; modified; document_by; document_at], [created_at; updated_at; cursor], history, publication, forked) =>
      history ← mapM raise_manifest history; publication ← raise_option raise_publication publication;
      forked ← raise_option raise_forked forked;
      Some {| dm_ID := id; dm_CreatedBy := by_; dm_Title := title; dm_SourceToken := token; dm_SourceFile := file;
        dm_Created := created_at; dm_Updated := updated_at; dm_LastModifiedBy := modified; History := history; Cursor := cursor;
        Publication := publication; Forked := forked; DocumentCreatedBy := document_by; DocumentCreatedAt := document_at;
        dm_Revision := 0; Stamp := None |}
  | _ => None
  end.

Lemma raise_flat d : raise_draft (flat_draft d) = Some (persisted d).
Proof.
  unfold flat_draft, raise_draft.
  assert (mapM raise_manifest (flat_manifest <$> History d) = Some (History d)) as ->.
  { induction (History d) as [|m l IH]; [done|]. cbn. rewrite IH. by destruct m. }
  cbn. assert (raise_option raise_publication (flat_publication <$> Publication d) = Some (Publication d)) as -> by by destruct (Publication d) as [[]|].
  cbn. assert (raise_option raise_forked (flat_forked <$> Forked d) = Some (Forked d)) as -> by by destruct (Forked d) as [[]|].
  by destruct d.
Qed.

Lemma raise_persisted f d : raise_draft f = Some d -> persisted d = d.
Proof. unfold raise_draft. repeat case_match; try done. intros (? & _ & (? & _ & (? & _ & [= <-])%bind_Some)%bind_Some)%bind_Some. done. Qed.

#[export] Instance utf8_dec l : Decision (utf8 l).
Proof. unfold utf8. apply _. Defined.

(** A document is told apart by its stamp alone. *)
Definition stamp_of (l : list string) : option Provenance :=
  match l with
  | [created_by; created_at; updated_by; updated_at] => Some {| prov_CreatedBy := created_by; prov_CreatedAt := created_at;
      prov_UpdatedBy := updated_by; prov_UpdatedAt := updated_at |}
  | _ => None
  end.

Import SampleDocument.
#[local] Existing Instances unicode libraries png.

Definition plant : Document := document [cable "6"].

#[export] Instance compression : Compression := {|
  gzip := fun data => Ok (x01 :: data);
  gunzip := fun z => match z with x01 :: data => Some (data, None, None) | _ => None end;
  Sum256 := fun data => take 32 (data ++ replicate 32 x00) |}.

#[export] Instance compression_laws : CompressionLaws.
Proof.
  split.
  - intros data z [= <-]. done.
  - intros data. change (length (take 32 (data ++ replicate 32 x00)) = 32%nat). rewrite length_take, length_app, length_replicate. lia.
Qed.

#[export] Instance json : ServiceJSON := {|
  encode_document := fun doc => Ok (pack (stamp_texts (provenance doc)));
  decode_document := fun data =>
    match unpack data ≫= stamp_of with
    | Some p => if decide (utf8 (stamp_texts p)) then Ok (SetProvenance plant p) else Err (Undecodable "not UTF-8")
    | None => Err (Undecodable "not a document")
    end;
  marshal_draft := fun d => Ok (pack (flat_draft d));
  unmarshal_draft := fun v =>
    match unpack v ≫= raise_draft with
    | Some d => if decide (utf8 (draft_texts d)) then Ok d else Err (Some "not UTF-8")
    | None => Err (Some "not a draft")
    end;
  raw_fields := fun _ => None; raw_text := fun _ => None; raw_time := fun _ => None;
  FormatTime := fun _ => "2024-05-06T07:08:09Z" |}.

Lemma stamp_of_texts p : stamp_of (stamp_texts p) = Some p.
Proof. by destruct p. Qed.

#[export] Instance service_laws : @ServiceLaws unicode libraries png compression json.
Proof.
  split.
  - intros d v [= <-] Ht. cbn [unmarshal_draft json]. rewrite unpack_pack. cbn [mbind option_bind]. rewrite raise_flat.
    by rewrite decide_True.
  - intros v d. cbn [unmarshal_draft json]. destruct (unpack v) as [f|]; [|done]. cbn [mbind option_bind].
    destruct (raise_draft f) as [d'|] eqn:E; [|done]. destruct (decide _) as [Hu|]; [|done]. intros [= ->]. split; [done|].
    by eapply raise_persisted.
  - intros data doc. cbn [decode_document json]. destruct (unpack data ≫= stamp_of) as [p|]; [|done].
    destruct (decide _) as [Hu|]; [|done]. by intros [= <-].
  - intros data0 doc0 p data Hdec Hu Hval [= <-]. cbn [decode_document json] in *. destruct (unpack data0 ≫= stamp_of) as [q|]; [|done].
    destruct (decide (utf8 (stamp_texts q))); [|done]. injection Hdec as <-. assert (provenance (SetProvenance (SetProvenance plant q) p) = p) as -> by by destruct p.
    rewrite unpack_pack. cbn [mbind option_bind]. rewrite stamp_of_texts, decide_True by done. by eexists.
  - intros t _. vm_compute. reflexivity.
Qed.

(** ** The run *)

Definition now0 : Z := 1714979289000000000.

(** An environment in which others do nothing and everything goes well; the
    identifiers asked for are [d1] and the one given. *)
Definition calm (snapshot : string) : env := {|
  ctx_err := fun _ => None; clock := now0; store_time := fun _ _ => now0; commit := None; between := fun s => s;
  new_id := fun n => match n with O => Ok snapshot | _ => Ok "s1" end |}.

Definition stamped (by_ : string) : list byte := pack [by_; "2024-01-01T00:00:00Z"; ""; ""].

Definition create_request : CreateDraftRequest := {|
  cr_Actor := "ana"; cr_Title := "draft"; cr_SourceToken := ""; cr_SourceFile := "plant.yml"; cr_Forked := None;
  cr_Origin := None; cr_Document := stamped "ana"; cr_Summary := "first" |}.

Definition append_request : AppendSnapshotRequest := {|
  ar_DraftID := "d1"; ar_Actor := "ben"; ar_ExpectedRevision := 2; ar_Document := stamped "eve"; ar_Summary := "second"; ar_OpID := "op1" |}.

Definition move_request : MoveCursorRequest := {|
  mr_DraftID := "d1"; mr_Actor := "ben"; mr_ExpectedRevision := AnyRevision; mr_Index := 0; mr_SnapshotID := "" |}.

Definition publish_request : MarkPublishedRequest := {|
  pr_DraftID := "d1"; pr_Actor := "ben"; pr_ExpectedRevision := 5; pr_SnapshotID := "s1"; pr_Mode := PublishModeTopology;
  pr_TopologyTarget := "plant"; pr_TopologyAction := TopologyActionCreate; pr_ExperimentTarget := ""; pr_ScenarioTarget := "";
  pr_DocumentID := "" |}.

Definition delete_request : DeleteSnapshotRequest := {|
  dr_DraftID := "d1"; dr_Actor := "ana"; dr_ExpectedRevision := 4; dr_SnapshotID := "s1" |}.

(** The states. *)
Definition s1 : Spec.state := snd (CreateDraft (calm "d1") create_request Spec.empty).
Definition s2 : Spec.state := snd (AppendSnapshot (calm "s2") append_request s1).
Definition s3 : Spec.state := snd (MoveCursor (calm "") move_request s2).
Definition s4 : Spec.state := snd (MarkPublished (calm "") publish_request s3).
Definition trimmed : Spec.state := snd (DeleteSnapshot (calm "") delete_request s2).
Definition emptied : Spec.state := snd (DeleteDraft (calm "") "d1" "ana" AnyRevision s2).

Definition succeeds {A} (r : res serror A * Spec.state) : bool := ok (fst r).

Lemma succeeds_ok {A} (r : res serror A * Spec.state) s : succeeds r = true -> s = snd r -> exists a, r = (Ok a, s).
Proof. destruct r as [[a|] s']; [|done]. intros _ ->. by exists a. Qed.

Lemma create_runs : exists m, CreateDraft (calm "d1") create_request Spec.empty = (Ok m, s1).
Proof. apply succeeds_ok; [vm_compute; reflexivity|reflexivity]. Qed.

Lemma append_runs : exists m, AppendSnapshot (calm "s2") append_request s1 = (Ok m, s2).
Proof. apply succeeds_ok; [vm_compute; reflexivity|reflexivity]. Qed.

Lemma move_runs : exists m, MoveCursor (calm "") move_request s2 = (Ok m, s3).
Proof. apply succeeds_ok; [vm_compute; reflexivity|reflexivity]. Qed.

Lemma publish_runs : exists m, MarkPublished (calm "") publish_request s3 = (Ok m, s4).
Proof. apply succeeds_ok; [vm_compute; reflexivity|reflexivity]. Qed.

Lemma trim_runs : exists m, DeleteSnapshot (calm "") delete_request s2 = (Ok m, trimmed).
Proof. apply succeeds_ok; [vm_compute; reflexivity|reflexivity]. Qed.

Lemma empty_runs : exists u, DeleteDraft (calm "") "d1" "ana" AnyRevision s2 = (Ok u, emptied).
Proof. apply succeeds_ok; [vm_compute; reflexivity|reflexivity]. Qed.

Lemma clock_ok : int64 now0.
Proof. unfold int64, now0. lia. Qed.

(** One more call, on the newest state. *)
Lemma run_next e c now past next :
  run (now :: past) -> between e now = now -> good e c now -> next = snd (perform e c now) -> run (next :: now :: past).
Proof. intros Hr Hb Hg ->. apply (run_call e c now now past); [done|by apply elem_of_cons; left|done..]. Qed.

Lemma perform_snd e c s : snd (perform e c s) =
  match c with
  | CreateCall req => snd (CreateDraft e req s)
  | AppendCall req => snd (AppendSnapshot e req s)
  | MoveCall req => snd (MoveCursor e req s)
  | DeleteSnapshotCall req => snd (DeleteSnapshot e req s)
  | PublishCall req => snd (MarkPublished e req s)
  | DeleteCall id actor expected => snd (DeleteDraft e id actor expected s)
  end.
Proof. by destruct c. Qed.

Lemma create_good : create_env (calm "d1") create_request.
Proof. split; [exact clock_ok|constructor]. Qed.

Lemma run1 : run [s1; Spec.empty].
Proof.
  apply (run_next (calm "d1") (CreateCall create_request)); [apply run_start|reflexivity|exact create_good|rewrite perform_snd; reflexivity].
Qed.

(** What the store holds, and that calm calls are in order on it. *)
Lemma run_in_order now past snapshot : run (now :: past) -> in_order (calm snapshot) now.
Proof. intros (Hw & [Hwhole _] & _)%run_head. by split_and!. Qed.

Definition clear_of (id : string) (d : DraftMetadata) : bool :=
  forallb (fun m => negb (String.eqb (man_ID m) id)) (History d) && bool_decide (Publication d = None).

Lemma clear_fresh id d : clear_of id d = true -> fresh id d.
Proof.
  unfold clear_of. rewrite andb_true_iff, bool_decide_eq_true. intros [Hh%forallb_Forall Hp]. split; [|by rewrite Hp].
  intros (m & -> & Hm)%list_elem_of_fmap. rewrite Forall_forall in Hh. specialize (Hh m Hm). by rewrite String.eqb_refl in Hh.
Qed.

Lemma append_good : append_env (calm "s2") append_request s1.
Proof.
  split; [exact clock_ok|]. intros d Hat id [= <-]. apply clear_fresh. destruct (run_in_order _ _ "" run1) as (Hw & _).
  assert (match GetDraft (calm "") s1 "d1" with Ok d => clear_of "s2" d | _ => false end = true) as Hc by (vm_compute; reflexivity).
  unfold GetDraft in Hc. by rewrite (GetDraft_there (calm "") 0 s1 "d1" d eq_refl Hw Hat) in Hc.
Qed.

Lemma run2 : run [s2; s1; Spec.empty].
Proof.
  apply (run_next (calm "s2") (AppendCall append_request)); [exact run1|reflexivity|exact append_good|rewrite perform_snd; reflexivity].
Qed.

Lemma run3 : run [s3; s2; s1; Spec.empty].
Proof.
  apply (run_next (calm "") (MoveCall move_request)); [exact run2|reflexivity|done|rewrite perform_snd; reflexivity].
Qed.

Lemma run4 : run [s4; s3; s2; s1; Spec.empty].
Proof.
  apply (run_next (calm "") (PublishCall publish_request)); [exact run3|reflexivity|done|rewrite perform_snd; reflexivity].
Qed.

(** ** The theorems on the run *)

(** Three snapshots, the cursor on the last, and a total that takes one drop. *)
Definition part (id : string) : SnapshotManifest := {| man_ID := id; man_Digest := ""; man_Size := 1000; man_CompressedSize := 10;
  man_CreatedAt := 0; man_CreatedBy := "ana"; man_Summary := ""; man_OpID := "" |}.

Definition long_draft : DraftMetadata := {| dm_ID := "d1"; dm_CreatedBy := "ana"; dm_Title := ""; dm_SourceToken := ""; dm_SourceFile := "";
  dm_Created := 0; dm_Updated := 0; dm_LastModifiedBy := ""; History := [part "a"; part "b"; part "c"]; Cursor := 2;
  Publication := None; Forked := None; DocumentCreatedBy := ""; DocumentCreatedAt := ""; dm_Revision := 0; Stamp := None |}.

Lemma prune_loop_terminates_witness :
  prune_loop 7 long_draft (MaxDraftHistoryBytes + 500) = prune_loop 2 long_draft (MaxDraftHistoryBytes + 500) /\
  prune_loop 2 long_draft (MaxDraftHistoryBytes + 500) = Some ([part "a"], with_history long_draft [part "b"; part "c"] 1).
Proof.
  destruct (prune_loop_terminates 7 long_draft (MaxDraftHistoryBytes + 500)) as (k & _ & _ & He & _); [reflexivity|cbn; lia|].
  split; [exact He|reflexivity].
Defined.

Lemma CreateDraft_spec_witness :
  exists m', CreateDraft (calm "d1") create_request Spec.empty = (Ok m', s1) /\ Dirty m' = true /\ drafts_whole s1.
Proof.
  destruct create_runs as [m' Hm]. exists m'. split; [exact Hm|].
  destruct (CreateDraft_spec (calm "d1") create_request Spec.empty m' s1 wf_empty (proj1 sound_empty)) as
    (_ & _ & _ & _ & _ & _ & _ & _ & _ & _ & _ & Hd & _ & _ & _ & _ & _ & _ & _ & Hall); [split; [exact clock_ok|constructor]|exact Hm|].
  split; [exact Hd|exact Hall].
Defined.

Lemma AppendSnapshot_spec_witness :
  exists m', AppendSnapshot (calm "s2") append_request s1 = (Ok m', s2) /\ Dirty m' = true /\ drafts_whole s2.
Proof.
  destruct append_runs as [m' Hm]. exists m'. split; [exact Hm|].
  destruct (AppendSnapshot_spec (calm "s2") append_request s1 m' s2 (run_in_order _ _ _ run1) append_good Hm) as
    (_ & _ & _ & _ & _ & _ & _ & _ & _ & _ & _ & _ & _ & _ & Hd & _ & _ & _ & _ & _ & Hall).
  split; [exact Hd|exact Hall].
Defined.

(** Moving back to the first snapshot. *)
Lemma MoveCursor_spec_witness :
  exists m', MoveCursor (calm "") move_request s2 = (Ok m', s3) /\ Cursor m' = 0 /\ drafts_whole s3.
Proof.
  destruct move_runs as [m' Hm]. exists m'. split; [exact Hm|].
  destruct (MoveCursor_spec (calm "") move_request s2 m' s3 (run_in_order _ _ _ run2) Hm) as
    (d & m & _ & _ & _ & _ & _ & _ & Hc & _ & _ & _ & Hall).
  split; [exact Hc|exact Hall].
Defined.

Lemma MarkPublished_spec_witness :
  exists m', MarkPublished (calm "") publish_request s3 = (Ok m', s4) /\ Dirty m' = false /\ drafts_whole s4.
Proof.
  destruct publish_runs as [m' Hm]. exists m'. split; [exact Hm|].
  destruct (MarkPublished_spec (calm "") publish_request s3 m' s4 (run_in_order _ _ _ run3) Hm) as (_ & _ & _ & Hd & _ & _ & Hall & _).
  split; [exact Hd|exact Hall].
Defined.

(** The answer was lost, and the request is made again at the revision it was
    made at first. *)
Lemma MarkPublished_idempotent_witness :
  exists d, MarkPublished (calm "") publish_request s4 = (Ok d, s4) /\ Dirty d = false.
Proof.
  destruct publish_runs as [m' Hm]. exists (with_revision (persisted m') (dm_Revision m')).
  pose proof (run_in_order _ _ "" run3) as (Hw & Hw1 & Hl & Hwhole). pose proof (run_in_order _ _ "" run4) as (Hw4 & _).
  destruct (publish_run (calm "") publish_request s3 m' s4 Hw Hw1 Hl Hwhole Hm) as (_ & d & _ & [(_ & _ & He)|Hwrite]).
  - exfalso. assert (Spec.rev s4 = Spec.rev s3) as Hrev by (rewrite He; reflexivity). vm_compute in Hrev. discriminate.
  - destruct Hwrite as (current & rev & _ & Hc & Hid & _ & _ & Heq & Hat & _). split.
    + apply (MarkPublished_idempotent (calm "") (calm "") publish_request s3 m' s4 (run_in_order _ _ _ run3) Hm eq_refl eq_refl Hw4).
      rewrite Heq in Hat |- *. exact Hat.
    + rewrite Heq. unfold Dirty. change (Current (with_revision _ _)) with (Current d). rewrite Hc. cbn. by rewrite !String.eqb_refl.
Defined.

Lemma DeleteSnapshot_spec_witness :
  exists m', DeleteSnapshot (calm "") delete_request s2 = (Ok m', trimmed) /\ Snapshot_of m' "s1" = None /\ drafts_whole trimmed.
Proof.
  destruct trim_runs as [m' Hm]. exists m'. split; [exact Hm|].
  destruct (DeleteSnapshot_spec (calm "") delete_request s2 m' trimmed (run_in_order _ _ _ run2) Hm) as
    (_ & _ & _ & _ & _ & _ & _ & Hnone & _ & _ & _ & _ & Hall).
  split; [exact Hnone|exact Hall].
Defined.

Lemma DeleteDraft_spec_witness :
  DeleteDraft (calm "") "d1" "ana" AnyRevision s2 = (Ok tt, emptied) /\ forall d, ~ draft_at emptied "d1" d.
Proof.
  destruct empty_runs as [[] Hm]. split; [exact Hm|].
  destruct (DeleteDraft_spec (calm "") "d1" "ana" AnyRevision s2 emptied Hm) as (_ & Hnone & _). exact Hnone.
Defined.

(** The cursor moves when nothing stands in its way. *)
Lemma MoveCursor_succeeds_witness :
  exists m' s', MoveCursor (calm "") move_request s2 = (Ok m', s') /\ Cursor m' = 0.
Proof.
  destruct move_runs as [m Hm]. pose proof (run_in_order _ _ "" run2) as (Hw & _). unfold MoveCursor in Hm.
  destruct (move_plan (calm "") move_request s2) as [[[updated value] revision]|] eqn:Hp; [|done].
  apply move_plan_inv in Hp as (_ & Ha & d & i & Hget%GetDraft_inv & _ & Hrev & Hi & -> & Henc). destruct Hget as [Hat _].
  destruct (MoveCursor_succeeds (calm "") move_request s2 d i value eq_refl eq_refl eq_refl Ha Hw Hat Hrev Hi Henc eq_refl)
    as (m' & s' & Hok & Hc & _). exists m', s'. split; [exact Hok|]. rewrite Hc. by apply resolveCursor_inv in Hi as [_ Hi].
Defined.

(** Of two saves of the first state, the second fails. *)
Definition late : env := {|
  ctx_err := fun _ => None; clock := now0; store_time := fun _ _ => now0; commit := None; between := fun _ => s2;
  new_id := fun _ => Ok "s2" |}.

Lemma no_lost_update_witness : exists err, perform late (AppendCall append_request) s1 = (Err err, s2).
Proof.
  destruct append_runs as [m Hm]. destruct (run_head _ _ run2) as (Hw2 & [Hwhole2 _] & Hpast).
  apply Forall_cons in Hpast as [[Hw1 Hl] _].
  apply (no_lost_update (calm "s2") (AppendCall append_request) late (AppendCall append_request) s1 "d1" (Some m) s2).
  - exact (run_in_order _ _ _ run1).
  - exact (conj Hw1 (conj Hw2 (conj Hl Hwhole2))).
  - exact append_good.
  - exact append_good.
  - reflexivity.
  - reflexivity.
  - unfold perform. rewrite Hm. reflexivity.
  - exact (reflexivity (R := later) s2).
Defined.

Lemma failed_call_changes_nothing_witness :
  snd (perform (calm "") (DeleteCall "d1" "" AnyRevision) s2) = s2.
Proof.
  assert (ok (fst (perform (calm "") (DeleteCall "d1" "" AnyRevision) s2)) = false) as Hbad by (vm_compute; reflexivity).
  destruct (fst (perform (calm "") (DeleteCall "d1" "" AnyRevision) s2)) as [o|err] eqn:E; [discriminate|].
  exact (failed_call_changes_nothing (calm "") (DeleteCall "d1" "" AnyRevision) s2 err E).
Defined.

Lemma run_invariant_witness : Spec.wf s4 /\ later s1 s4.
Proof.
  destruct (run_invariant s4 [s3; s2; s1; Spec.empty] run4) as (Hw & Hl & _). split; [exact Hw|].
  apply Forall_cons in Hl as [_ [_ [Hl _]%Forall_cons]%Forall_cons]. exact Hl.
Defined.

Lemma drafts_well_formed_witness :
  exists r d, Spec.recs s4 !! (NamespaceDrafts, "d1") = Some r /\ decodeDraft r = Ok d /\ draft_ok "d1" d.
Proof.
  destruct (drafts_well_formed (calm "") s4 [s3; s2; s1; Spec.empty] run4) as [Hall _].
  destruct (Spec.recs s4 !! (NamespaceDrafts, "d1")) as [r|] eqn:E.
  - destruct (Hall "d1" r E) as (d & Hd & Hok & _). exists r, d. exact (conj eq_refl (conj Hd Hok)).
  - assert (bool_decide (is_Some (Spec.recs s4 !! (NamespaceDrafts, "d1"))) = true) as Hsome by (vm_compute; reflexivity).
    apply bool_decide_eq_true in Hsome. rewrite E in Hsome. destruct Hsome as [? Hsome]. discriminate.
Defined.

Lemma draft_opens_witness : exists d current data doc,
  draft_at s4 "d1" d /\ Current d = Some current /\
  GetCurrentDocument (calm "") s4 "d1" = Ok {| sn_Manifest := current; sn_Data := data; sn_Document := doc |}.
Proof.
  destruct (GetDraft (calm "") s4 "d1") as [d|] eqn:E.
  - apply GetDraft_inv in E as [Hat _].
    destruct (draft_opens (calm "") s4 [s3; s2; s1; Spec.empty] "d1" d run4 Hat eq_refl eq_refl) as (current & data & doc & Hc & Ho & _).
    exists d, current, data, doc. exact (conj Hat (conj Hc Ho)).
  - assert (ok (GetDraft (calm "") s4 "d1") = true) as Hok by (vm_compute; reflexivity). rewrite E in Hok. discriminate.
Defined.

End SampleDrafts.
