(* ===== verification/IconLibrary.v ===== *)
(** * api/builder/icons.go: the icon library

    The icons every user shares. Each name of an icon, the one it has and those
    it had, owns a record: an icon, or an alias that points at another name.
    Each access to the store has an [env] of its own, which says what others do
    before it. A rename moves an icon, and no name of it is lost. *)

From Stdlib Require Import ZArith Lia Ascii String Strings.Byte.
From stdpp Require Import base option list gmap strings sorting.
From S2P Require Import Prelude Record RecordSpec Base64 Text Codes Document Checks Layers Icons Validate Drafts Content DraftService LayerSets.

Open Scope Z_scope.
Open Scope go_scope.

(** ** Data *)

Definition NamespaceIcons : string := "builder.icons".
Definition MaxIconUploadBytes : Z := 65536.
Definition MaxIcons : Z := 2000.
Definition kindIcon : string := "icon".
Definition iconKeyPrefix : string := "name/".
Definition iconRecordKind : string := "icon".
Definition aliasRecordKind : string := "alias".
Definition maxIconAliases : nat := 16.
Definition ServerIconOwner : string := "".

Record LibraryIcon : Type := {
  ic_Kind : string; ic_Name : string; ic_ID : string; ic_Owner : string; ic_Width : Z; ic_Height : Z; ic_Bytes : Z;
  ic_Created : Z; ic_Updated : Z; ic_CreatedBy : string; ic_UpdatedBy : string; ic_Aliases : list string; ic_Data : string; ic_Revision : Z;
}.

Record iconAlias : Type := { al_Kind : string; al_Name : string; al_Target : string }.

(** What a record holds. *)
Inductive held : Type :=
  | HIcon (icon : LibraryIcon)
  | HAlias (alias : iconAlias).

(** The errors of the library, those of the package with them. [IInvalid] is a
    [ValidationError] with the error of package png that caused it. *)
Inductive icon_error : Type :=
  | IService (e : serror)
  | IconNameTakenError (name icon owner : string)
  | IconStaleError (name etag : string)
  | IForbidden (context : text)
  | IInvalid (field : string) (reason cause : text).

(** encoding/json of the records, and image/png: the size in the header of an
    image, and its pixels encoded again. *)
Class IconJSON := {
  unmarshal_kind : list byte -> res string string;
  marshal_icon : LibraryIcon -> res string (list byte);
  unmarshal_icon : list byte -> res (option string) LibraryIcon;
  marshal_alias : iconAlias -> res string (list byte);
  unmarshal_alias : list byte -> res (option string) iconAlias;
  DecodeConfig : list byte -> res string (Z * Z);
  NormalizeIconPNG : list byte -> res string (list byte);
}.

Definition with_icon_revision (i : LibraryIcon) (revision : Z) : LibraryIcon := {|
  ic_Kind := ic_Kind i; ic_Name := ic_Name i; ic_ID := ic_ID i; ic_Owner := ic_Owner i; ic_Width := ic_Width i; ic_Height := ic_Height i;
  ic_Bytes := ic_Bytes i; ic_Created := ic_Created i; ic_Updated := ic_Updated i; ic_CreatedBy := ic_CreatedBy i; ic_UpdatedBy := ic_UpdatedBy i;
  ic_Aliases := ic_Aliases i; ic_Data := ic_Data i; ic_Revision := revision |}.

(** The icon with the size and the base64 of its PNG. *)
Definition with_image (i : LibraryIcon) (width height : Z) (data : list byte) (revision : Z) : LibraryIcon := {|
  ic_Kind := ic_Kind i; ic_Name := ic_Name i; ic_ID := ic_ID i; ic_Owner := ic_Owner i; ic_Width := width; ic_Height := height;
  ic_Bytes := Z.of_nat (length data); ic_Created := ic_Created i; ic_Updated := ic_Updated i; ic_CreatedBy := ic_CreatedBy i; ic_UpdatedBy := ic_UpdatedBy i;
  ic_Aliases := ic_Aliases i; ic_Data := EncodeToString (of_bytes data); ic_Revision := revision |}.

Definition retargeted (a : iconAlias) (target : string) : iconAlias := {| al_Kind := al_Kind a; al_Name := al_Name a; al_Target := target |}.

Definition LibraryIcon_ETag (i : LibraryIcon) : string := RevisionETag (ic_Revision i).

Definition MayChangeIcon (i : LibraryIcon) : bool := negb (String.eqb (ic_Owner i) ServerIconOwner).

Definition iconOwnerText (owner : string) : string := if String.eqb owner ServerIconOwner then "the server" else owner.

(** [base64.StdEncoding.Strict().DecodeString], which skips line breaks. *)
Definition decode_base64 (s : string) : option (list byte) :=
  map Z_byte <$> b64_decode (List.filter (fun c => negb (is_break (ascii_Z c))) (String.list_ascii_of_string s)).

Section Icons.
Context `{Unicode, Compression, PNG, IconJSON}.

Definition IconID (data : list byte) : string := digestOf data.

Definition iconKey (name : string) : string := iconKeyPrefix +:+ ToLower name.

(** [IconNameProblem] is not empty. *)
Definition bad_name (name : string) : bool := bool_decide (IconNameProblem name <> None).

(** [strings.TrimPrefix] of a text whose format begins with the prefix. *)
Definition trim_format (prefix : string) (t : text) : text :=
  if has_prefix (format t) prefix then
    Sprintf (String.substring (String.length prefix) (String.length (format t) - String.length prefix) (format t)) (args t)
  else t.

Definition iconNameError (name : string) : res serror unit :=
  match IconNameProblem name with
  | None => Ok tt
  | Some reason => Err (newValidationError "icon name" (trim_format "icon name " reason))
  end.

(** ** Reading records *)

Fixpoint aliases_problem (seen : gset string) (aliases : list string) : bool :=
  match aliases with
  | [] => false
  | alias :: aliases => bad_name alias || bool_decide (ToLower alias ∈ seen) || aliases_problem ({[ ToLower alias ]} ∪ seen) aliases
  end.

Definition aliasesProblem (name : string) (aliases : list string) : bool := aliases_problem {[ ToLower name ]} aliases.

Definition readIcon (size : list byte -> res text (Z * Z)) (r : record) : res serror LibraryIcon :=
  let corrupt what := Err (newCorruptError kindIcon (Key r) what) in
  match decodeMetadata kindIcon (unmarshal_icon (bytes_of (Value r))) with
  | Err reason => corrupt reason
  | Ok icon =>
      if bad_name (ic_Name icon) || negb (String.eqb (iconKey (ic_Name icon)) (Key r)) then corrupt (lit "the record names another icon")
      else if negb (String.eqb (ic_Owner icon) ServerIconOwner) && negb (ok (validateText "owner" (ic_Owner icon) MaxOwnerLength true)) then
        corrupt (lit "the record names no usable owner")
      else if negb (ok (validateText "createdBy" (ic_CreatedBy icon) MaxOwnerLength false)) ||
              negb (ok (validateText "updatedBy" (ic_UpdatedBy icon) MaxOwnerLength false)) then
        corrupt (lit "the record names an unusable user")
      else if negb (IsDigest (ic_ID icon)) then corrupt (lit "the record has no image ID")
      else if aliasesProblem (ic_Name icon) (ic_Aliases icon) then corrupt (lit "the aliases are not names an icon may have")
      else
        match decode_base64 (ic_Data icon) with
        | None => corrupt (lit "the image is not base64")
        | Some data =>
            match size data with
            | Err _ => corrupt (lit "the image is not an accepted PNG")
            | Ok (width, height) =>
                if negb (String.eqb (IconID data) (ic_ID icon)) then corrupt (lit "the image does not match its ID")
                else Ok (with_image icon width height data (Record.Revision r))
            end
        end
  end.

Definition readAlias (r : record) : res serror iconAlias :=
  let corrupt what := Err (newCorruptError kindIcon (Key r) what) in
  match decodeMetadata kindIcon (unmarshal_alias (bytes_of (Value r))) with
  | Err reason => corrupt reason
  | Ok alias =>
      if bad_name (al_Name alias) || negb (String.eqb (iconKey (al_Name alias)) (Key r)) then corrupt (lit "the alias names another icon")
      else if bad_name (al_Target alias) || negb (String.eqb (al_Target alias) (ToLower (al_Target alias))) ||
              String.eqb (iconKeyPrefix +:+ al_Target alias) (Key r) then
        corrupt (lit "the alias points at no other name")
      else Ok alias
  end.

Definition readIconRecordWith (size : list byte -> res text (Z * Z)) (r : record) : res serror held :=
  match unmarshal_kind (bytes_of (Value r)) with
  | Err _ => Err (newCorruptError kindIcon (Key r) (lit "the record is not valid JSON"))
  | Ok kind =>
      if String.eqb kind iconRecordKind then let? icon := readIcon size r in Ok (HIcon icon)
      else if String.eqb kind aliasRecordKind then let? alias := readAlias r in Ok (HAlias alias)
      else Err (newCorruptError kindIcon (Key r) (lit "the record is neither an icon nor an alias"))
  end.

Definition readIconRecord : record -> res serror held := readIconRecordWith ValidateIconPNG.

Definition encodeIconRecord (icon : LibraryIcon) : res serror (list byte) :=
  match marshal_icon icon with
  | Err what => Err (SWrap (Sprintf "encoding icon %s: %w" [AStr (ic_Name icon)]) (SOther what))
  | Ok value => if MaxMetadataBytes <? blen value then Err (newTooLargeError "icon metadata" (blen value) MaxMetadataBytes) else Ok value
  end.

(** ** Resolving a name *)

(** The loop of [resolveIcon]: a hop reads at access [n]. *)
Fixpoint resolve_icon (hops n : nat) (es : nat -> env) (name key : string) (s : Spec.state) : res serror LibraryIcon * Spec.state :=
  match hops with
  | O => (Err (newNotFoundError kindIcon name), s)
  | S hops =>
      let s := between (es n) s in
      match getRecord s NamespaceIcons key with
      | Err err => (Err (storeError kindIcon name AnyRevision err), s)
      | Ok record =>
          match readIconRecord record with
          | Err err => (Err err, s)
          | Ok (HIcon icon) => (Ok icon, s)
          | Ok (HAlias alias) => resolve_icon hops (S n) es name (iconKeyPrefix +:+ al_Target alias) s
          end
      end
  end.

(** The accesses a resolution may take. *)
Definition hops : nat := S maxIconAliases.

Definition resolveIcon (n : nat) (es : nat -> env) (name : string) (s : Spec.state) : res serror LibraryIcon * Spec.state :=
  if bad_name name then (Err (newNotFoundError kindIcon name), s) else resolve_icon hops n es name (iconKey name) s.

Definition GetIcon (es : nat -> env) (name : string) (s : Spec.state) : res serror LibraryIcon * Spec.state :=
  match check_ctx (es 0%nat) 0 (lit "reading an icon: %w") with
  | Err err => (Err err, s)
  | Ok _ => resolveIcon 0 es name s
  end.

(** By name in lower case, then as it is written. *)
Definition icon_leb (a b : LibraryIcon) : bool :=
  match String.compare (ToLower (ic_Name a)) (ToLower (ic_Name b)) with
  | Lt => true
  | Gt => false
  | Eq => match String.compare (ic_Name a) (ic_Name b) with Gt => false | _ => true end
  end.

Definition ListIcons (e : env) (check : nat) (s : Spec.state) : res serror (list LibraryIcon) :=
  let? _ := check_ctx e check (lit "listing icons: %w") in
  let? records := res_map_err (fun err => SWrap (lit "listing icons: %w") (SRaw err)) (Spec.list_records NamespaceIcons iconKeyPrefix s) in
  Ok (sort_by icon_leb (omap (fun r => match readIconRecordWith IconPNGSize r with Ok (HIcon icon) => Some icon | _ => None end) records)).

(** ** Adding *)

Definition iconPNG (upload : list byte) : res icon_error (list byte * Z * Z) :=
  let not_png cause := Err (IInvalid kindIcon (lit "is not a PNG image") cause) in
  match ValidateIconPNG upload with
  | Ok (width, height) => Ok (upload, width, height)
  | Err _ =>
      match DecodeConfig upload with
      | Err what => not_png (lit what)
      | Ok (width, height) =>
          if (MaxIconPixels <? width) || (MaxIconPixels <? height) then
            Err (IService (newValidationError kindIcon
              (Sprintf "is %d x %d pixels: the limit is %d x %d" [AInt width; AInt height; AInt MaxIconPixels; AInt MaxIconPixels])))
          else
            match NormalizeIconPNG upload with
            | Err what => not_png (lit what)
            | Ok data => match ValidateIconPNG data with Err what => not_png what | Ok (width, height) => Ok (data, width, height) end
            end
      end
  end.

Definition iconUpload (name : string) (upload : list byte) : res icon_error (list byte * Z * Z) :=
  let? _ := res_map_err IService (iconNameError name) in
  if MaxIconUploadBytes <? Z.of_nat (length upload) then Err (IService (newTooLargeError kindIcon (Z.of_nat (length upload)) MaxIconUploadBytes))
  else iconPNG upload.

(** [iconOfName]: nothing when the name is free. *)
Definition iconOfName (n : nat) (es : nat -> env) (name id : string) (s : Spec.state) : res icon_error (option LibraryIcon) * Spec.state :=
  match resolveIcon n es name s with
  | (Err err, s) => if is_not_found err then (Ok None, s) else (Err (IService err), s)
  | (Ok existing, s) =>
      if negb (String.eqb (ic_ID existing) id) then (Err (IconNameTakenError name (ic_Name existing) (ic_Owner existing)), s)
      else (Ok (Some existing), s)
  end.

(** [addIconOverAlias], from access [n]. *)
Definition addIconOverAlias (n : nat) (es : nat -> env) (name id : string) (icon : LibraryIcon) (value : list byte) (s : Spec.state)
  : res icon_error (LibraryIcon * bool) * Spec.state :=
  match iconOfName n es name id s with
  | (Err err, s) => (Err err, s)
  | (Ok (Some existing), s) => (Ok (existing, false), s)
  | (Ok None, s) =>
      let s := between (es (n + hops)%nat) s in
      match getRecord s NamespaceIcons (iconKey name) with
      | Err err => (Err (IService (storeError kindIcon name AnyRevision err)), s)
      | Ok record =>
          match readIconRecord record with
          | Ok (HAlias _) =>
              match write_record (es (n + hops + 1)%nat) NamespaceIcons (iconKey name) value (Record.Revision record) (between (es (n + hops + 1)%nat) s) with
              | (Err err, s) => (Err (IService (storeError kindIcon name (Record.Revision record) err)), s)
              | (Ok updated, s) => (Ok (with_icon_revision icon (Record.Revision updated), true), s)
              end
          | _ => (Err (IService (SConflict kindIcon name AnyRevision (Record.Revision record) (lit "another icon just took the name"))), s)
          end
      end
  end.

Definition new_icon (now : Z) (owner name : string) (data : list byte) (width height : Z) : LibraryIcon := {|
  ic_Kind := iconRecordKind; ic_Name := name; ic_ID := IconID data; ic_Owner := owner; ic_Width := width; ic_Height := height;
  ic_Bytes := Z.of_nat (length data); ic_Created := now; ic_Updated := now; ic_CreatedBy := owner; ic_UpdatedBy := owner; ic_Aliases := [];
  ic_Data := EncodeToString (of_bytes data); ic_Revision := 0 |}.

(** [createIcon], from access [n]. *)
Definition createIcon (n : nat) (es : nat -> env) (owner name : string) (data : list byte) (width height : Z) (s : Spec.state)
  : res icon_error (LibraryIcon * bool) * Spec.state :=
  let icon := new_icon (clock (es n)) owner name data width height in
  match encodeIconRecord icon with
  | Err err => (Err (IService err), s)
  | Ok value =>
      match write_record (es n) NamespaceIcons (iconKey name) value 0 (between (es n) s) with
      | (Ok record, s) => (Ok (with_icon_revision icon (Record.Revision record), true), s)
      | (Err err, s) =>
          if is_store err ErrRecordExist then addIconOverAlias (S n) es name (IconID data) icon value s
          else (Err (IService (storeError kindIcon name AnyRevision err)), s)
      end
  end.

Definition AddIcon (es : nat -> env) (owner name : string) (upload : list byte) (s : Spec.state) : res icon_error (LibraryIcon * bool) * Spec.state :=
  match (let? _ := res_map_err IService (check_ctx (es 0%nat) 0 (lit "adding an icon: %w")) in
         let? _ := res_map_err IService (validateText "owner" owner MaxOwnerLength true) in
         iconUpload name upload) with
  | Err err => (Err err, s)
  | Ok (data, width, height) =>
      match iconOfName 0 es name (IconID data) s with
      | (Err err, s) => (Err err, s)
      | (Ok (Some existing), s) => (Ok (existing, false), s)
      | (Ok None, s) =>
          let s := between (es hops) s in
          match ListIcons (es hops) 1 s with
          | Err err => (Err (IService err), s)
          | Ok icons =>
              if MaxIcons <=? zlen icons then
                (Err (IService (newValidationError "icon library" (Sprintf "is full: it holds at most %d icons" [AInt MaxIcons]))), s)
              else createIcon (S hops) es owner name data width height s
          end
      end
  end.

(** ** Renaming *)

Definition withoutName (names : list string) (name : string) : list string := List.filter (fun other => negb (EqualFold other name)) names.

Definition renamed_icon (icon : LibraryIcon) (newName caller : string) (now : Z) (aliases : list string) : LibraryIcon := {|
  ic_Kind := ic_Kind icon; ic_Name := newName; ic_ID := ic_ID icon; ic_Owner := ic_Owner icon; ic_Width := ic_Width icon; ic_Height := ic_Height icon;
  ic_Bytes := ic_Bytes icon; ic_Created := ic_Created icon; ic_Updated := now; ic_CreatedBy := ic_CreatedBy icon; ic_UpdatedBy := caller;
  ic_Aliases := aliases; ic_Data := ic_Data icon; ic_Revision := ic_Revision icon |}.

Definition writeRenamedIcon (n : nat) (es : nat -> env) (icon renamed : LibraryIcon) (s : Spec.state) : res icon_error LibraryIcon * Spec.state :=
  match encodeIconRecord renamed with
  | Err err => (Err (IService err), s)
  | Ok value =>
      match write_record (es n) NamespaceIcons (iconKey (ic_Name icon)) value (ic_Revision icon) (between (es n) s) with
      | (Err err, s) => (Err (IService (storeError kindIcon (ic_Name icon) (ic_Revision icon) err)), s)
      | (Ok record, s) => (Ok (with_icon_revision renamed (Record.Revision record)), s)
      end
  end.

(** [reclaimableRecord], from access [n]. *)
Definition reclaimableRecord (n : nat) (es : nat -> env) (icon renamed : LibraryIcon) (s : Spec.state) : res icon_error (option record) * Spec.state :=
  let s := between (es n) s in
  match getRecord s NamespaceIcons (iconKey (ic_Name renamed)) with
  | Err err => (if is_store err ErrRecordNotExist then Ok None else Err (IService (storeError kindIcon (ic_Name renamed) AnyRevision err)), s)
  | Ok taken =>
      let decide_on (other : option LibraryIcon) s :=
        match other with
        | Some other =>
            if negb (String.eqb (iconKey (ic_Name other)) (iconKey (ic_Name icon))) then
              (Err (IconNameTakenError (ic_Name renamed) (ic_Name other) (ic_Owner other)), s)
            else (Ok (Some taken), s)
        | None => (Ok (Some taken), s)
        end in
      match readIconRecord taken with
      | Err err => (Err (IService err), s)
      | Ok (HIcon other) => decide_on (Some other) s
      | Ok (HAlias _) =>
          match resolveIcon (S n) es (ic_Name renamed) s with
          | (Ok other, s) => decide_on (Some other) s
          | (Err err, s) => if is_not_found err then decide_on None s else (Err (IService err), s)
          end
      end
  end.

(** [retargetAliases]: what fails is left as it is. *)
Definition retarget (time : string -> string -> Z) (target name : string) (s : Spec.state) : Spec.state :=
  let key := iconKey name in
  match tx_call (Spec.get NamespaceIcons key) s with
  | (Err _, s) => s
  | (Ok record, s) =>
      match readIconRecord record with
      | Ok (HAlias alias) =>
          if String.eqb (al_Target alias) target then s
          else
            match marshal_alias (retargeted alias target) with
            | Ok value => snd (tx_call (Spec.update (time NamespaceIcons key) NamespaceIcons key (Some value) (Record.Revision record)) s)
            | Err _ => s
            end
      | _ => s
      end
  end.

Definition retargetAliases (time : string -> string -> Z) (renamed : LibraryIcon) (s : Spec.state) : Spec.state :=
  foldl (fun s name => retarget time (ToLower (ic_Name renamed)) name s) s (ic_Aliases renamed).

(** The transaction of [moveIcon]. *)
Definition move_txn (time : string -> string -> Z) (icon renamed : LibraryIcon) (value alias : list byte) (taken : option record)
  : st Spec.state serror Z :=
  let newKey := iconKey (ic_Name renamed) in
  let oldKey := iconKey (ic_Name icon) in
  let! written := map_err (storeError kindIcon (ic_Name renamed) AnyRevision) (tx_call (
    match taken with
    | None => Spec.create (time NamespaceIcons newKey) NamespaceIcons newKey (Some value)
    | Some taken => Spec.update (time NamespaceIcons newKey) NamespaceIcons newKey (Some value) (Record.Revision taken)
    end)) in
  let! _ := map_err (storeError kindIcon (ic_Name icon) (ic_Revision icon))
    (tx_call (Spec.update (time NamespaceIcons oldKey) NamespaceIcons oldKey (Some alias) (ic_Revision icon))) in
  fun s => (Ok (Record.Revision written), retargetAliases time renamed s).

(** [moveIcon], from access [n]. *)
Definition moveIcon (n : nat) (es : nat -> env) (icon renamed : LibraryIcon) (s : Spec.state) : res icon_error LibraryIcon * Spec.state :=
  match (let? value := encodeIconRecord renamed in
         let? alias := res_map_err (fun what => SWrap (Sprintf "encoding the alias %s: %w" [AStr (ic_Name icon)]) (SOther what))
           (marshal_alias {| al_Kind := aliasRecordKind; al_Name := ic_Name icon; al_Target := ToLower (ic_Name renamed) |}) in
         Ok (value, alias)) with
  | Err err => (Err (IService err), s)
  | Ok (value, alias) =>
      match reclaimableRecord n es icon renamed s with
      | (Err err, s) => (Err err, s)
      | (Ok taken, s) =>
          let e := es (n + S hops)%nat in
          match RecordTxn e (move_txn (store_time e) icon renamed value alias taken) (between e s) with
          | (Ok revision, s) => (Ok (with_icon_revision renamed revision), s)
          | (Err err, s) => (Err (IService (txnError kindIcon (ic_Name icon) (ic_Revision icon) err)), s)
          end
      end
  end.

Definition RenameIcon (es : nat -> env) (caller name newName : string) (s : Spec.state) : res icon_error LibraryIcon * Spec.state :=
  match (let? _ := check_ctx (es 0%nat) 0 (lit "renaming an icon: %w") in validateText "owner" caller MaxOwnerLength true) with
  | Err err => (Err (IService err), s)
  | Ok _ =>
      match resolveIcon 0 es name s with
      | (Err err, s) => (Err (IService err), s)
      | (Ok icon, s) =>
          if negb (MayChangeIcon icon) then
            (Err (IForbidden (Sprintf "renaming icon %q of %s: %w" [AStr (ic_Name icon); AStr (iconOwnerText (ic_Owner icon))])), s)
          else
            match iconNameError newName with
            | Err err => (Err (IService err), s)
            | Ok _ =>
                if String.eqb newName (ic_Name icon) then (Ok icon, s)
                else
                  let now := clock (es hops) in
                  if EqualFold newName (ic_Name icon) then
                    writeRenamedIcon hops es icon (renamed_icon icon newName caller now (ic_Aliases icon)) s
                  else
                    let aliases := withoutName (ic_Aliases icon) newName ++ [ic_Name icon] in
                    if Z.of_nat maxIconAliases <? zlen aliases then
                      (Err (IService (newValidationError ("icon " +:+ ic_Name icon)
                        (Sprintf ("already has %d old names, the most an icon keeps. Upload the image under the new name instead. " +:+
                                  "Deleting the icon also deletes its old names. Diagrams that use these names then stop showing the icon")
                           [AInt (zlen (ic_Aliases icon))]))), s)
                    else moveIcon hops es icon (renamed_icon icon newName caller now aliases) s
            end
      end
  end.

(** ** Deleting *)

(** What the records point at, by key. *)
Definition alias_targets (records : list record) : gmap string string :=
  foldl (fun m r => match readIconRecord r with Ok (HAlias alias) => <[ Key r := iconKeyPrefix +:+ al_Target alias ]> m | _ => m end) ∅ records.

Definition icon_keys (records : list record) : gset string :=
  foldl (fun m r => match readIconRecord r with Ok (HIcon _) => {[ Key r ]} ∪ m | _ => m end) ∅ records.

Definition is_alias (r : record) : bool := match readIconRecord r with Ok (HAlias _) => true | _ => false end.

(** Where the chain of a key ends, followed as far as resolution does. *)
Fixpoint chain_end (fuel : nat) (targets : gmap string string) (key : string) : string :=
  match fuel with
  | O => key
  | S fuel => match targets !! key with Some next => chain_end fuel targets next | None => key end
  end.

Definition aliasesOf (records : list record) (icon : LibraryIcon) : list record :=
  let targets := alias_targets records in let icons := icon_keys records in
  let listed : gset string := list_to_set (map iconKey (ic_Aliases icon)) in
  filter (fun r =>
    chain_end hops targets (Key r) = iconKey (ic_Name icon) \/ Key r ∈ listed /\ chain_end hops targets (Key r) ∉ icons)
    (List.filter is_alias records).

(** The alias goes unless it changed since it was listed. *)
Definition delete_alias (r : record) : st Spec.state serror unit := fun s =>
  match tx_call (Spec.get NamespaceIcons (Key r)) s with
  | (Err err, s) =>
      if is_store err ErrRecordNotExist then (Ok tt, s) else (Err (storeError kindIcon (Key r) (Record.Revision r) err), s)
  | (Ok current, s) =>
      if negb (Record.Revision current =? Record.Revision r) then (Ok tt, s)
      else map_err (storeError kindIcon (Key r) (Record.Revision r)) (tx_call (Spec.delete NamespaceIcons (Key r) (Record.Revision r))) s
  end.

Fixpoint delete_aliases (l : list record) : st Spec.state serror unit :=
  match l with [] => st_ret tt | r :: l => let! _ := delete_alias r in delete_aliases l end.

(** [errChanged] of [DeleteIcon]. *)
Definition errChanged : serror := SOther "the icon changed".
Definition is_changed (e : serror) : bool := match e with SOther what => String.eqb what "the icon changed" | _ => false end.

Definition delete_txn (icon : LibraryIcon) (aliases : list record) : st Spec.state serror unit :=
  let! _ := map_err (fun err => if is_store err ErrRecordConflict then errChanged else storeError kindIcon (ic_Name icon) (ic_Revision icon) err)
    (tx_call (Spec.delete NamespaceIcons (iconKey (ic_Name icon)) (ic_Revision icon))) in
  delete_aliases aliases.

(** [staleIcon] and [deleteUnreadableIcon], from access [n]. *)
Definition staleIcon (n : nat) (es : nat -> env) (name : string) (s : Spec.state) : icon_error * Spec.state :=
  match resolveIcon n es name s with
  | (Err err, s) => (IService err, s)
  | (Ok icon, s) => (IconStaleError (ic_Name icon) (LibraryIcon_ETag icon), s)
  end.

Definition deleteUnreadableIcon (n : nat) (es : nat -> env) (name etag : string) (resolveErr : serror) (s : Spec.state) : res icon_error unit * Spec.state :=
  let s := between (es n) s in
  match getRecord s NamespaceIcons (iconKey name) with
  | Err err => (Err (IService (storeError kindIcon name AnyRevision err)), s)
  | Ok record =>
      match readIconRecord record with
      | Ok _ => (Err (IService resolveErr), s)
      | Err _ =>
          let current := RevisionETag (Record.Revision record) in
          if negb (String.eqb current etag) then (Err (IconStaleError name current), s)
          else
            let e := es (S n) in
            match RecordTxn e (tx_call (Spec.delete NamespaceIcons (Key record) (Record.Revision record))) (between e s) with
            | (Ok _, s) => (Ok tt, s)
            | (Err err, s) => (Err (IService (storeError kindIcon name (Record.Revision record) err)), s)
            end
      end
  end.

Definition DeleteIcon (es : nat -> env) (caller name etag : string) (s : Spec.state) : res icon_error unit * Spec.state :=
  match (let? _ := check_ctx (es 0%nat) 0 (lit "deleting an icon: %w") in validateText "owner" caller MaxOwnerLength true) with
  | Err err => (Err (IService err), s)
  | Ok _ =>
      match resolveIcon 0 es name s with
      | (Err err, s) => if is_corrupt err then deleteUnreadableIcon hops es name etag err s else (Err (IService err), s)
      | (Ok icon, s) =>
          if negb (MayChangeIcon icon) then
            (Err (IForbidden (Sprintf "deleting icon %q of %s: %w" [AStr (ic_Name icon); AStr (iconOwnerText (ic_Owner icon))])), s)
          else if negb (String.eqb (LibraryIcon_ETag icon) etag) then (Err (IconStaleError (ic_Name icon) (LibraryIcon_ETag icon)), s)
          else
            let s := between (es hops) s in
            match Spec.list_records NamespaceIcons iconKeyPrefix s with
            | Err err => (Err (IService (SWrap (lit "listing icons: %w") (SRaw err))), s)
            | Ok records =>
                let e := es (S hops) in
                match RecordTxn e (delete_txn icon (aliasesOf records icon)) (between e s) with
                | (Ok _, s) => (Ok tt, s)
                | (Err err, s) =>
                    if is_changed err then let '(err, s) := staleIcon (S (S hops)) es (ic_Name icon) s in (Err err, s)
                    else (Err (IService (txnError kindIcon (ic_Name icon) (ic_Revision icon) err)), s)
                end
            end
      end
  end.

End Icons.
