(* ===== verification/IconSpec.v ===== *)
(** * What the icon library promises

    A rename moves an icon under its new name in one step and every name it
    had still leads to it. *)

From Stdlib Require Import ZArith Lia Ascii String Strings.Byte.
From stdpp Require Import base option list gmap strings sorting.
From S2P Require Import Prelude Record RecordSpec Base64 Text Codes Document Checks Layers Icons Validate Drafts Content DraftService LayerSets.
From S2P Require Import DraftSpec DraftStore DraftWrites DraftCalls LayerSetSpec IconLibrary.

Open Scope Z_scope.
Open Scope go_scope.

(** ** Names *)

Section Names.
Context `{Unicode}.

Lemma name_byte_range b : name_byte b = true -> 0 <= b < 128 /\ b <> 47 /\ Record.isControl b = false.
Proof. unfold name_byte, Record.isControl, is_alnum, is_digit, is_letter, Prelude.in_range. intros Hb. split_and!; lia. Qed.

Lemma ascii_lower_name b : name_byte b = true -> name_byte (ascii_lower b) = true.
Proof. unfold name_byte, ascii_lower, is_alnum, is_digit, is_letter, Prelude.in_range. intros Hb. destruct ((65 <=? b) && (b <=? 90)) eqn:E; lia. Qed.

Lemma ascii_lower_idem b : ascii_lower (ascii_lower b) = ascii_lower b.
Proof.
  unfold ascii_lower. destruct ((65 <=? b) && (b <=? 90)) eqn:E; [|by rewrite E].
  assert ((65 <=? b + 32) && (b + 32 <=? 90) = false) as -> by lia. done.
Qed.

Lemma good_name name :
  bad_name name = false <->
  name <> "" /\ Forall (fun b => name_byte b = true) (bytes_Z name) /\ slen name <= MaxIconNameBytes /\ name <> "." /\ name <> "..".
Proof.
  transitivity (IconNameProblem name = None).
  { unfold bad_name. rewrite bool_decide_eq_false. destruct (IconNameProblem name); [split; [by intros []|done]|by split; [|intros _ []]]. }
  rewrite IconNameProblem_none. unfold configName, all_bytes. rewrite andb_true_iff, negb_true_iff, String.eqb_neq, forallb_Forall. tauto.
Qed.

Lemma name_bytes name : bad_name name = false -> Forall (fun b => name_byte b = true) (bytes_Z name).
Proof. by intros (_ & ? & _)%good_name. Qed.

Lemma good_utf8 name : bad_name name = false -> valid_utf8 name = true.
Proof. intros Hb%name_bytes. apply ascii_utf8. eapply Forall_impl; [exact Hb|]. intros b Hx%name_byte_range. cbv beta. lia. Qed.

Lemma lower_bytes name : bad_name name = false -> bytes_Z (ToLower name) = map ascii_lower (bytes_Z name).
Proof.
  intros Hb%name_bytes. unfold ToLower, is_ascii. rewrite (proj2 (forallb_Forall _ _)).
  - apply bytes_Z_string, Forall_map. eapply Forall_impl; [exact Hb|]. intros b Hn%ascii_lower_name%name_byte_range. cbv beta. lia.
  - eapply Forall_impl; [exact Hb|]. intros b Hn%name_byte_range. cbv beta. lia.
Qed.

Lemma lower_lower name : bad_name name = false -> ToLower (ToLower name) = ToLower name.
Proof.
  intros Hn. apply bytes_Z_inj. unfold ToLower at 1, is_ascii. pose proof (lower_bytes name Hn) as Hl. apply name_bytes in Hn.
  rewrite Hl. assert (Forall (fun b => name_byte b = true) (map ascii_lower (bytes_Z name))) as Hf.
  { apply Forall_map. eapply Forall_impl; [exact Hn|]. intros b. apply ascii_lower_name. }
  rewrite (proj2 (forallb_Forall _ _)) by (eapply Forall_impl; [exact Hf|]; intros b Hx%name_byte_range; cbv beta; lia).
  rewrite map_map, (map_ext _ _ ascii_lower_idem), bytes_Z_string; [done|].
  eapply Forall_impl; [exact Hf|]. intros b Hx%name_byte_range. cbv beta. lia.
Qed.

Lemma ascii_lower_dot b : ascii_lower b = 46 -> b = 46.
Proof. unfold ascii_lower. destruct (_ && _) eqn:E; lia. Qed.

Lemma good_lower name : bad_name name = false -> bad_name (ToLower name) = false.
Proof.
  intros Hn. pose proof (lower_bytes name Hn) as Hl. apply good_name in Hn as (Hne & Hb & Hs & H1 & H2). apply good_name.
  assert (forall l, bytes_Z l = map ascii_lower (bytes_Z name) -> Forall (fun b => b = 46) (bytes_Z l) -> l = name) as Hdots.
  { intros l He Hd. apply bytes_Z_inj. rewrite He in Hd |- *. apply Forall_map in Hd. clear -Hd. induction Hd as [|b l ->%ascii_lower_dot Hd IH]; [done|].
    cbn [map]. by rewrite IH. }
  unfold slen in *. rewrite <- length_bytes_Z in Hs |- *. rewrite Hl, length_map. split_and!; [| |done| |].
  - intros He. rewrite He in Hl. apply Hne, bytes_Z_inj. by destruct (bytes_Z name).
  - apply Forall_map. eapply Forall_impl; [exact Hb|]. intros b. apply ascii_lower_name.
  - intros He. apply H1. rewrite <- He. symmetry. apply Hdots; [done|]. rewrite He. by repeat constructor.
  - intros He. apply H2. rewrite <- He. symmetry. apply Hdots; [done|]. rewrite He. by repeat constructor.
Qed.

Lemma runes_name name : bad_name name = false -> runes name = bytes_Z name.
Proof.
  intros Hb%name_bytes. unfold runes. induction Hb as [|b l Hb%name_byte_range Hl IH]; [done|].
  rewrite runes_w_cons, decode_rune_ascii by lia. cbn [fst snd fmap list_fmap map drop]. by rewrite drop_0, IH.
Qed.

(** Names are equal when case is ignored exactly when they share a key. *)
Lemma fold_lower a b : bad_name a = false -> bad_name b = false -> EqualFold a b = true <-> ToLower a = ToLower b.
Proof.
  intros Ha Hb. transitivity (bytes_Z (ToLower a) = bytes_Z (ToLower b)); [|split; [apply bytes_Z_inj|by intros ->]].
  rewrite !lower_bytes by done. unfold EqualFold. rewrite !runes_name by done.
  apply name_bytes in Ha, Hb. revert Ha Hb. generalize (bytes_Z a), (bytes_Z b). clear a b.
  induction l as [|x l IH]; intros [|y l'] Ha Hb; [done..|]. apply Forall_cons in Ha as [Hx%name_byte_range Ha], Hb as [Hy%name_byte_range Hb].
  cbn [equal_fold map]. rewrite andb_true_iff, IH by done. assert ((x <? 128) && (y <? 128) = true) as -> by lia.
  rewrite orb_true_iff, !Z.eqb_eq. naive_solver congruence.
Qed.

Lemma iconKey_inj a b : iconKey a = iconKey b -> ToLower a = ToLower b.
Proof. unfold iconKey, iconKeyPrefix. cbn. by intros [=]. Qed.

Lemma iconKey_lower name : bad_name name = false -> iconKeyPrefix +:+ ToLower name = iconKey name /\ iconKey (ToLower name) = iconKey name.
Proof. intros Hn. unfold iconKey. by rewrite lower_lower. Qed.

Lemma split_on_name name : Forall (fun b => name_byte b = true) (bytes_Z name) -> split_on "/" name = [name].
Proof.
  induction name as [|a name IH]; [done|]. intros [Ha Hn]%Forall_cons. cbn [split_on]. rewrite (IH Hn).
  destruct (Ascii.eqb_spec a "/") as [->|]; [|done]. by apply name_byte_range in Ha as (_ & ? & _).
Qed.

Lemma split_on_key name : Forall (fun b => name_byte b = true) (bytes_Z name) -> split_on "/" ("name/" +:+ name) = ["name"; name].
Proof. intros Hn. rewrite !string_app_cons. change ("" +:+ name) with name. cbn [split_on]. rewrite (split_on_name name Hn). reflexivity. Qed.

(** A name has a key of the store. *)
Lemma icon_key_valid name : bad_name name = false -> validateRecordNamespaceAndKey NamespaceIcons (iconKey name) = Ok tt.
Proof.
  intros Hn%good_lower. unfold validateRecordNamespaceAndKey. change (ValidateRecordNamespace NamespaceIcons) with (@Ok error unit tt). cbn [res_bind].
  apply good_name in Hn as (Hne & Hb & Hs & H1 & H2). unfold iconKey, iconKeyPrefix. set (low := ToLower name) in *.
  assert (bytes_Z ("name/" +:+ low) = [110; 97; 109; 101; 47] ++ bytes_Z low) as Hbytes by done.
  assert (Forall (fun b => b < 128 /\ Record.isControl b = false) (bytes_Z ("name/" +:+ low))) as Hall.
  { rewrite Hbytes. apply Forall_app. split; [by apply (bool_decide_unpack _)|]. eapply Forall_impl; [exact Hb|]. intros b (? & _ & ?)%name_byte_range. split; [lia|done]. }
  apply valid_key_checks; [done|]. split_and!.
  - unfold slen in *. rewrite <- length_bytes_Z, Hbytes, length_app, length_bytes_Z. cbn. unfold MaxIconNameBytes in Hs. lia.
  - apply ascii_utf8. eapply Forall_impl; [exact Hall|]. intros b Hx. apply Hx.
  - unfold runes. clear -Hall. induction Hall as [|b l [Hb Hc] Hl IH]; [constructor|]. rewrite runes_w_cons, decode_rune_ascii by lia. cbn [fst snd fmap list_fmap map drop]. rewrite drop_0.
    constructor; [exact Hc|exact IH].
  - rewrite (split_on_key low Hb). cbn. unfold nonempty.
    by rewrite (proj2 (String.eqb_neq low "") Hne).
  - rewrite (split_on_key low Hb). cbn. rewrite orb_false_r.
    by apply relative_segment_false.
Qed.

End Names.

(** ** Records *)

(** What is relied on of encoding/json: the texts of a record that decodes
    are valid UTF-8, a record of valid UTF-8 comes back, the kind that is read
    first is the one of the record, and three strings always encode. *)
Definition icon_texts (i : LibraryIcon) : list string :=
  [ic_Kind i; ic_Name i; ic_ID i; ic_Owner i; ic_CreatedBy i; ic_UpdatedBy i; ic_Data i] ++ ic_Aliases i.

Definition alias_texts (a : iconAlias) : list string := [al_Kind a; al_Name a; al_Target a].

Class IconLaws `{IconJSON} : Prop := {
  unmarshal_marshal_icon i v : marshal_icon i = Ok v -> utf8 (icon_texts i) -> unmarshal_icon v = Ok (with_icon_revision i 0);
  unmarshal_icon_texts v i : unmarshal_icon v = Ok i -> utf8 (icon_texts i);
  marshal_alias_ok a : exists v, marshal_alias a = Ok v;
  unmarshal_marshal_alias a v : marshal_alias a = Ok v -> utf8 (alias_texts a) -> unmarshal_alias v = Ok a;
  unmarshal_alias_texts v a : unmarshal_alias v = Ok a -> utf8 (alias_texts a);
  kind_of_icon v i : unmarshal_icon v = Ok i -> unmarshal_kind v = Ok (ic_Kind i);
  kind_of_alias v a : unmarshal_alias v = Ok a -> unmarshal_kind v = Ok (al_Kind a);
}.

Section Records.
Context `{Unicode, Compression, PNG, IconLaws}.

(** What is accepted of an icon under a key. *)
Definition icon_ok (key : string) (i : LibraryIcon) : Prop :=
  ic_Kind i = iconRecordKind /\ bad_name (ic_Name i) = false /\ iconKey (ic_Name i) = key /\
  (ic_Owner i = ServerIconOwner \/ text_ok MaxOwnerLength true (ic_Owner i)) /\
  text_ok MaxOwnerLength false (ic_CreatedBy i) /\ text_ok MaxOwnerLength false (ic_UpdatedBy i) /\
  IsDigest (ic_ID i) = true /\ aliasesProblem (ic_Name i) (ic_Aliases i) = false /\
  exists data, ic_Data i = EncodeToString (of_bytes data) /\ ValidateIconPNG data = Ok (ic_Width i, ic_Height i) /\
    ic_Bytes i = Z.of_nat (length data) /\ IconID data = ic_ID i.

Definition alias_ok (key : string) (a : iconAlias) : Prop :=
  al_Kind a = aliasRecordKind /\ bad_name (al_Name a) = false /\ iconKey (al_Name a) = key /\
  bad_name (al_Target a) = false /\ al_Target a = ToLower (al_Target a) /\ iconKeyPrefix +:+ al_Target a <> key.

Lemma decode_base64_encode data : decode_base64 (EncodeToString (of_bytes data)) = Some data.
Proof.
  unfold decode_base64, EncodeToString. rewrite String.list_ascii_of_string_of_list_ascii, bytes_Z_of_bytes.
  assert (List.filter (fun c => negb (is_break (ascii_Z c))) (b64 (map byte_Z data)) = b64 (map byte_Z data)) as ->.
  { pose proof (b64_no_break _ (byte_Z_is_byte data)) as Hb. induction Hb as [|c l Hc Hl IH]; [done|]. cbn [List.filter]. by rewrite Hc, IH. }
  rewrite b64_decode_b64 by apply byte_Z_is_byte. cbn. by rewrite map_Z_byte.
Qed.

Lemma text_ok_weaken limit s : text_ok limit true s -> text_ok limit false s.
Proof. intros [[_ [=]]|Ht]. by right. Qed.

Lemma readIcon_inv r i :
  readIcon ValidateIconPNG r = Ok i -> unmarshal_kind (bytes_of (Value r)) = Ok iconRecordKind ->
  icon_ok (Key r) i /\ ic_Revision i = Record.Revision r.
Proof.
  unfold readIcon. destruct (unmarshal_icon _) as [q|[]] eqn:Eu; cbn [decodeMetadata]; [|done..]. intros Hr Hk.
  rewrite (kind_of_icon _ _ Eu) in Hk. injection Hk as Hk.
  destruct (bad_name (ic_Name q)) eqn:Hn; [done|]. destruct (String.eqb_spec (iconKey (ic_Name q)) (Key r)) as [He|]; [|done]. cbn [negb orb] in Hr.
  destruct (negb (String.eqb (ic_Owner q) ServerIconOwner) && _) eqn:Ho; [done|].
  destruct (ok (validateText "createdBy" _ _ _)) eqn:Hc; [|done]. destruct (ok (validateText "updatedBy" _ _ _)) eqn:Hup; [|done]. cbn [negb orb] in Hr.
  destruct (IsDigest (ic_ID q)) eqn:Hd; [|done]. destruct (aliasesProblem _ _) eqn:Ha; [done|]. cbn [negb] in Hr.
  destruct (decode_base64 _) as [data|]; [|done]. destruct (ValidateIconPNG data) as [[width height]|] eqn:Hp; [|done].
  destruct (String.eqb_spec (IconID data) (ic_ID q)) as [Hid|]; [|done]. injection Hr as <-.
  apply validateText_ok' in Hc, Hup. split; [|done]. unfold icon_ok. cbn. split_and!; try done; [|by exists data].
  apply andb_false_iff in Ho. rewrite !negb_false_iff, String.eqb_eq, validateText_ok' in Ho. tauto.
Qed.

Lemma readIcon_texts r i : readIcon ValidateIconPNG r = Ok i -> utf8 ([ic_Kind i; ic_Name i; ic_ID i; ic_Owner i; ic_CreatedBy i; ic_UpdatedBy i] ++ ic_Aliases i).
Proof.
  unfold readIcon. destruct (unmarshal_icon _) as [q|[]] eqn:Eu; cbn [decodeMetadata]; [|done..]. apply unmarshal_icon_texts in Eu.
  repeat case_match; try done. intros [= <-]. unfold icon_texts in Eu. cbn [ic_Kind ic_Name ic_ID ic_Owner ic_CreatedBy ic_UpdatedBy ic_Aliases with_image].
  assert (utf8 []) by constructor. rewrite utf8_app, !utf8_cons in Eu |- *. tauto.
Qed.

Lemma encode_utf8 data : valid_utf8 (EncodeToString data) = true.
Proof.
  apply ascii_utf8. unfold EncodeToString, bytes_Z. rewrite String.list_ascii_of_string_of_list_ascii. apply Forall_map.
  change (Forall (fun c => ascii_Z c < 128) (b64 (bytes_Z data))).
  pose proof (bytes_Z_byte data) as Hb. revert Hb. generalize (bytes_Z data). clear.
  assert (forall i, 0 <= i < 64 -> ascii_Z (b64_char i) < 128) as Hc.
  { assert (forallb (fun n => ascii_Z (b64_char (Z.of_nat n)) <? 128) (seq 0 64) = true) as Ha by (vm_compute; reflexivity).
    intros i Hi. rewrite forallb_forall in Ha. specialize (Ha (Z.to_nat i) ltac:(apply in_seq; lia)). rewrite Z2Nat.id in Ha by lia. lia. }
  induction l as [|a|a b|a b c l IH] using triple_ind; intros Hl;
    repeat match goal with H : Forall _ (_ :: _) |- _ => apply Forall_cons in H as [? H] end;
    unfold is_byte in *; cbn [b64]; repeat first [apply Forall_cons; split; [first [apply Hc; zlia|reflexivity]|]|constructor].
  by apply IH.
Qed.

Lemma readIconRecord_icon r i :
  readIconRecord r = Ok (HIcon i) -> icon_ok (Key r) i /\ ic_Revision i = Record.Revision r /\ utf8 (icon_texts i).
Proof.
  unfold readIconRecord, readIconRecordWith. destruct (unmarshal_kind _) as [kind|] eqn:Ek; [|done].
  destruct (String.eqb_spec kind iconRecordKind) as [->|].
  - destruct (readIcon _ r) as [j|] eqn:Er; [|done]. intros [= <-]. pose proof (readIcon_inv _ _ Er Ek) as [Hok Hrev]. split; [done|]. split; [done|].
    apply readIcon_texts in Er. pose proof Hok as (_ & _ & _ & _ & _ & _ & _ & _ & data & Hd & _). unfold icon_texts.
    assert (utf8 []) by constructor. rewrite utf8_app, !utf8_cons in Er |- *. rewrite utf8_cons, Hd, encode_utf8. tauto.
  - destruct (String.eqb kind aliasRecordKind); [|done]. by destruct (readAlias r).
Qed.

Lemma readIconRecord_alias r a : readIconRecord r = Ok (HAlias a) -> alias_ok (Key r) a /\ utf8 (alias_texts a).
Proof.
  unfold readIconRecord, readIconRecordWith. destruct (unmarshal_kind _) as [kind|] eqn:Ek; [|done].
  destruct (String.eqb_spec kind iconRecordKind) as [->|]; [by destruct (readIcon _ r)|].
  destruct (String.eqb_spec kind aliasRecordKind) as [->|]; [|done]. unfold readAlias.
  destruct (unmarshal_alias _) as [q|[]] eqn:Eu; cbn [decodeMetadata]; [|done..].
  destruct (bad_name (al_Name q)) eqn:Hn; [done|]. destruct (String.eqb_spec (iconKey (al_Name q)) (Key r)) as [He|]; [|done]. cbn [negb orb].
  destruct (bad_name (al_Target q)) eqn:Ht; [done|]. destruct (String.eqb_spec (al_Target q) (ToLower (al_Target q))) as [Hlow|]; [|done].
  destruct (String.eqb_spec (iconKeyPrefix +:+ al_Target q) (Key r)); [done|]. cbn [negb orb res_bind]. intros [= <-].
  split; [|by eapply unmarshal_alias_texts]. rewrite (kind_of_alias _ _ Eu) in Ek. injection Ek as Ek. done.
Qed.

(** A record that was written as it should be reads back. *)
Lemma read_written_icon (r : record) i v :
  marshal_icon i = Ok v -> utf8 (icon_texts i) -> icon_ok (Key r) i -> Value r = Some v ->
  readIconRecord r = Ok (HIcon (with_icon_revision i (Record.Revision r))).
Proof.
  intros Hm Ht (Hk & Hn & Hkey & Ho & Hc & Hup & Hd & Ha & data & Hdata & Hp & Hb & Hid) Hv.
  pose proof (unmarshal_marshal_icon _ _ Hm Ht) as Hu. pose proof (kind_of_icon _ _ Hu) as Hkind. cbn [ic_Kind with_icon_revision] in Hkind.
  unfold readIconRecord, readIconRecordWith, readIcon. rewrite Hv. change (bytes_of (Some v)) with v. rewrite Hkind, Hk, Hu. cbn [String.eqb decodeMetadata].
  change (String.eqb iconRecordKind iconRecordKind) with true. cbn [ic_Name ic_Owner ic_CreatedBy ic_UpdatedBy ic_ID ic_Aliases ic_Data with_icon_revision].
  rewrite Hn, Hkey, String.eqb_refl. cbn [negb orb].
  assert (negb (String.eqb (ic_Owner i) ServerIconOwner) && negb (ok (validateText "owner" (ic_Owner i) MaxOwnerLength true)) = false) as ->.
  { apply andb_false_iff. rewrite !negb_false_iff, String.eqb_eq, validateText_ok'. exact Ho. }
  apply (validateText_ok' "createdBy") in Hc. apply (validateText_ok' "updatedBy") in Hup. rewrite Hc, Hup, Hd, Ha. cbn [negb orb].
  rewrite Hdata, decode_base64_encode, Hp, Hid, String.eqb_refl. cbn [negb res_bind]. do 2 f_equal.
  destruct i. unfold with_image, with_icon_revision. cbn in *. by rewrite <- Hdata, Hb.
Qed.

Lemma read_written_alias (r : record) a v :
  marshal_alias a = Ok v -> utf8 (alias_texts a) -> alias_ok (Key r) a -> Value r = Some v -> readIconRecord r = Ok (HAlias a).
Proof.
  intros Hm Ht (Hk & Hn & Hkey & Htg & Hlow & Hne) Hv. pose proof (unmarshal_marshal_alias _ _ Hm Ht) as Hu.
  pose proof (kind_of_alias _ _ Hu) as Hkind.
  unfold readIconRecord, readIconRecordWith, readAlias. rewrite Hv. change (bytes_of (Some v)) with v. rewrite Hkind, Hk, Hu. cbn [decodeMetadata].
  change (String.eqb aliasRecordKind iconRecordKind) with false. change (String.eqb aliasRecordKind aliasRecordKind) with true. cbv iota.
  rewrite Hn, Hkey, String.eqb_refl, Htg, <- Hlow, String.eqb_refl, (proj2 (String.eqb_neq _ _) Hne). done.
Qed.

End Records.

(** ** Resolving *)

(** The stores a call may see: what is there, and what others make of it. *)
Inductive reached (es : nat -> env) (s : Spec.state) : Spec.state -> Prop :=
  | reached_here : reached es s s
  | reached_next n t : reached es s t -> reached es s (between (es n) t).

Lemma reached_trans es s t u : reached es s t -> reached es t u -> reached es s u.
Proof. intros Hs Ht. induction Ht; [done|by constructor]. Qed.

Lemma reached_orderly es s t : orderly es -> Spec.wf s -> reached es s t -> Spec.wf t /\ later s t.
Proof.
  intros Ho Hw Hr. induction Hr as [|n t Hr [IHw IHl]]; [done|]. destruct (Ho n t IHw). split; [done|]. by etransitivity.
Qed.

Lemma later_reached es s t : orderly es -> Spec.wf s -> reached es s t -> later s t.
Proof. intros. by eapply reached_orderly. Qed.

Section Resolving.
Context `{Unicode, Compression, PNG, IconLaws}.

Definition icon_at (s : Spec.state) (i : LibraryIcon) : Prop :=
  exists r, Spec.recs s !! (NamespaceIcons, iconKey (ic_Name i)) = Some r /\ readIconRecord r = Ok (HIcon i).

Definition alias_at (s : Spec.state) (key : string) (a : iconAlias) : Prop :=
  exists r, Spec.recs s !! (NamespaceIcons, key) = Some r /\ readIconRecord r = Ok (HAlias a).

#[export] Instance alias_at_dec s key : Decision (exists a, alias_at s key a).
Proof.
  unfold alias_at. destruct (Spec.recs s !! (NamespaceIcons, key)) as [r|]; [|right; by intros (? & ? & ? & _)].
  destruct (readIconRecord r) as [[i|a]|] eqn:Er; [right; intros (? & ? & [= ->] & ?); congruence|left; by exists a, r|].
  right. intros (? & ? & [= ->] & ?). congruence.
Defined.

(** A name leads to the icon, in a store that others leave alone. *)
Definition names (s : Spec.state) (name : string) (i : LibraryIcon) : Prop :=
  forall n es, (forall k t, between (es k) t = t) -> resolveIcon n es name s = (Ok i, s).

Lemma icon_at_ok s i : Spec.wf s -> icon_at s i -> icon_ok (iconKey (ic_Name i)) i /\ utf8 (icon_texts i).
Proof.
  intros (_ & Hw & _) (r & Hr & Hi). apply readIconRecord_icon in Hi as (Hok & _ & Ht). split; [|done].
  apply Hw in Hr as (_ & <- & _). done.
Qed.

Lemma alias_at_ok s key a : Spec.wf s -> alias_at s key a -> alias_ok key a /\ utf8 (alias_texts a).
Proof. intros (_ & Hw & _) (r & Hr & Ha). apply readIconRecord_alias in Ha as [Hok Ht]. apply Hw in Hr as (_ & <- & _). done. Qed.

Lemma getRecord_at s name r :
  bad_name name = false -> getRecord s NamespaceIcons (iconKey name) = Ok r <-> Spec.recs s !! (NamespaceIcons, iconKey name) = Some r.
Proof.
  intros Hn%icon_key_valid. unfold getRecord, tx_call, Spec.get, Spec.lookup. rewrite Hn. cbn [res_bind].
  destruct (Spec.recs s !! _); cbn; naive_solver.
Qed.

Lemma getRecord_inv s ns key r : getRecord s ns key = Ok r -> Spec.recs s !! (ns, key) = Some r.
Proof.
  unfold getRecord, tx_call, Spec.get, Spec.lookup. destruct (validateRecordNamespaceAndKey _ _) as [[]|]; [|done]. cbn [res_bind].
  destruct (Spec.recs s !! _); cbn; naive_solver.
Qed.

Lemma tx_get ns key s : tx_call (Spec.get ns key) s = (getRecord s ns key, s).
Proof. reflexivity. Qed.

Lemma resolve_icon_run fuel n es name key s :
  reached es s (snd (resolve_icon fuel n es name key s)) /\
  (forall i, orderly es -> Spec.wf s -> fst (resolve_icon fuel n es name key s) = Ok i -> icon_at (snd (resolve_icon fuel n es name key s)) i).
Proof.
  revert n key s. induction fuel as [|fuel IH]; intros n key s; cbn [resolve_icon]; [by split; [constructor|]|].
  assert (reached es s (between (es n) s)) as Hb by (do 2 constructor).
  destruct (getRecord _ _ _) as [r|] eqn:Eg; [|by split].
  destruct (readIconRecord r) as [[i|a]|] eqn:Er; cbn [fst snd]; [|destruct (IH (S n) (iconKeyPrefix +:+ al_Target a) (between (es n) s)) as [IHr IHi]|by split].
  - split; [done|]. intros j Ho Hw [= <-]. apply getRecord_inv in Eg. exists r. split; [|done].
    apply readIconRecord_icon in Er as ((_ & _ & -> & _) & _). destruct (Ho n s Hw) as [(_ & Hk & _) _]. by destruct (Hk _ _ _ Eg) as (_ & -> & _).
  - split; [by eapply reached_trans|]. intros i Ho Hw. apply IHi; [done|]. by apply Ho.
Qed.

Lemma resolveIcon_run n es name s r t :
  resolveIcon n es name s = (r, t) -> reached es s t /\ forall i, orderly es -> Spec.wf s -> r = Ok i -> icon_at t i.
Proof.
  unfold resolveIcon. destruct (bad_name name); [intros [= <- <-]; split; [constructor|done]|].
  intros Hr. destruct (resolve_icon_run hops n es name (iconKey name) s) as [Hreach Hi]. rewrite Hr in *. done.
Qed.

(** Where a key leads: to the icon that its record holds, or where the target of
    the alias that it holds leads. Each record is read from the store as others
    left it until the access that reads it; [t] is the store at the last one. *)
Inductive leads (es : nat -> env) (n : nat) (s : Spec.state) (key : string) (i : LibraryIcon) (t : Spec.state) : Prop :=
  | leads_icon r :
      t = between (es n) s -> Spec.recs t !! (NamespaceIcons, key) = Some r -> readIconRecord r = Ok (HIcon i) -> leads es n s key i t
  | leads_alias a :
      alias_at (between (es n) s) key a -> leads es (S n) (between (es n) s) ("name/" +:+ al_Target a) i t -> leads es n s key i t.

Lemma resolve_icon_leads fuel n es name key s i t : resolve_icon fuel n es name key s = (Ok i, t) -> leads es n s key i t.
Proof.
  revert n key s. induction fuel as [|fuel IH]; intros n key s; cbn [resolve_icon]; [done|].
  destruct (getRecord _ _ _) as [r|] eqn:Eg; [|done]. apply getRecord_inv in Eg.
  destruct (readIconRecord r) as [[j|a]|] eqn:Er; [| |done].
  - intros [= <- <-]. by eapply leads_icon.
  - intros Hrun. apply (leads_alias _ _ _ _ _ _ a); [by exists r|]. by apply IH.
Qed.

Lemma resolveIcon_leads n es name s i t : resolveIcon n es name s = (Ok i, t) -> bad_name name = false /\ leads es n s (iconKey name) i t.
Proof. unfold resolveIcon. destruct (bad_name name); [done|]. intros Hr. split; [done|]. by eapply resolve_icon_leads. Qed.

Lemma names_icon s i name : bad_name name = false -> iconKey name = iconKey (ic_Name i) -> icon_at s i -> names s name i.
Proof.
  intros Hn Hk (r & Hr & Hi) n es Hq. unfold resolveIcon. rewrite Hn. unfold hops. cbn [resolve_icon]. rewrite Hq.
  rewrite <- Hk in Hr. apply getRecord_at in Hr; [|done]. by rewrite Hr, Hi.
Qed.

Lemma names_alias s i name a :
  Spec.wf s -> bad_name name = false -> alias_at s (iconKey name) a -> al_Target a = ToLower (ic_Name i) -> icon_at s i -> names s name i.
Proof.
  intros Hw Hn (r & Hr & Ha) Ht Hi n es Hq. pose proof (icon_at_ok _ _ Hw Hi) as [(_ & Hni & _) _]. destruct Hi as (r' & Hr' & Hi).
  unfold resolveIcon. rewrite Hn. unfold hops, maxIconAliases. cbn [resolve_icon]. rewrite !Hq.
  apply getRecord_at in Hr; [|done]. rewrite Hr, Ha, Ht. rewrite (proj1 (iconKey_lower _ Hni)).
  apply getRecord_at in Hr'; [|done]. by rewrite Hr', Hi.
Qed.

End Resolving.

(** ** Moving an icon *)

Section Renaming.
Context `{Unicode, Compression, PNG, IconLaws}.

Lemma alias_retargeted key a target :
  alias_ok key a -> utf8 (alias_texts a) -> bad_name target = false -> target = ToLower target -> iconKeyPrefix +:+ target <> key ->
  alias_ok key (retargeted a target) /\ utf8 (alias_texts (retargeted a target)).
Proof.
  intros (Hk & Hn & Hkey & _) Ht Hg Hlow Hne. split; [done|]. unfold alias_texts in *. cbn. rewrite !utf8_cons in Ht |- *.
  rewrite (good_utf8 target Hg). assert (utf8 []) by constructor. tauto.
Qed.

(** One alias: it comes to point at the target, and nothing else changes. *)
Lemma retarget_spec time target name s :
  Spec.wf s -> bad_name target = false -> target = ToLower target -> iconKeyPrefix +:+ target <> iconKey name ->
  let s' := retarget time target name s in
  Spec.wf s' /\
  (forall a, bad_name name = false -> alias_at s (iconKey name) a -> alias_at s' (iconKey name) (retargeted a target)) /\
  (forall p, (p = (NamespaceIcons, iconKey name) -> forall a, ~ alias_at s (iconKey name) a) -> Spec.recs s' !! p = Spec.recs s !! p).
Proof.
  intros Hw Hg Hlow Hne. cbv zeta. unfold retarget. rewrite tx_get.
  destruct (getRecord s NamespaceIcons (iconKey name)) as [r|err] eqn:Eg.
  2: { split; [done|]. split; [|done]. intros a Hn (r & Hr & _). exfalso. apply getRecord_at in Hr; [|done]. congruence. }
  pose proof (getRecord_inv _ _ _ _ Eg) as Hr.
  assert (forall a, alias_at s (iconKey name) a -> readIconRecord r = Ok (HAlias a)) as Hall by (intros a (r' & Hr' & Ha); congruence).
  destruct (readIconRecord r) as [[i|a]|] eqn:Er; [split; [done|]; split; [by intros a _ ?%Hall|done]| |split; [done|]; split; [by intros a _ ?%Hall|done]].
  assert (alias_at s (iconKey name) a) as Hat by (by exists r). destruct (alias_at_ok _ _ _ Hw Hat) as [Hok Ht].
  destruct (String.eqb_spec (al_Target a) target) as [Heq|Hdiff].
  { split; [done|]. split; [|done]. intros a' _ Ha'. pose proof (Hall _ Ha') as [= ->]. unfold retargeted. rewrite <- Heq. by destruct a'. }
  destruct (marshal_alias_ok (retargeted a target)) as [v Hv]. rewrite Hv.
  destruct (steady_update (time NamespaceIcons (iconKey name)) NamespaceIcons (iconKey name) (Some v) (Record.Revision r) s Hw) as [Hw' _].
  destruct (tx_call _ s) as [[w|err] s2] eqn:Eu; cbn [snd] in *; split; try done.
  - apply tx_call_ok, update_inv in Eu as (old & _ & Hold & _ & Hns & Hkey & Hval & _ & _ & _ & ->). cbn [Spec.recs Spec.write]. rewrite Hns, Hkey.
    split; [|intros p Hp; destruct (decide (p = (NamespaceIcons, iconKey name))) as [->|Hpn]; [by destruct (Hp eq_refl a)|by apply lookup_insert_ne]].
    intros a' _ Ha'. pose proof (Hall _ Ha') as [= ->]. exists w. cbn [Spec.recs Spec.write]. rewrite Hns, Hkey. split; [apply lookup_insert_eq|].
    destruct (alias_retargeted _ _ _ Hok Ht Hg Hlow Hne) as [Hok' Ht']. apply (read_written_alias _ _ v); [done|done|by rewrite Hkey|done].
  - exfalso. unfold tx_call, Spec.update, Spec.lookup, checkRecordRevision in Eu. unfold getRecord, tx_call, Spec.get in Eg.
    destruct (validateRecordNamespaceAndKey _ _) as [[]|]; [|done]. cbn [res_bind] in Eu. rewrite Hr in Eu. cbn [res_bind] in Eu.
    rewrite Z.eqb_refl, orb_true_r in Eu. done.
Qed.

Lemma retarget_all time target aliases s :
  Spec.wf s -> bad_name target = false -> target = ToLower target ->
  Forall (fun x => bad_name x = false /\ iconKeyPrefix +:+ target <> iconKey x) aliases ->
  let s' := foldl (fun s name => retarget time target name s) s aliases in
  Spec.wf s' /\
  (forall key a, key ∈ (iconKey <$> aliases) -> alias_at s key a -> alias_at s' key (retargeted a target)) /\
  (forall p, (forall key a, p = (NamespaceIcons, key) -> key ∈ (iconKey <$> aliases) -> ~ alias_at s key a) -> Spec.recs s' !! p = Spec.recs s !! p).
Proof.
  intros Hw Hg Hlow Hl. revert s Hw. induction Hl as [|x l [Hx Hne] Hl IH]; intros s Hw; cbn [foldl]; [split; [done|]; split; [by intros ? ? ?%elem_of_nil|done]|].
  destruct (retarget_spec time target x s Hw Hg Hlow Hne) as (Hw1 & Ha1 & Hr1). set (s1 := retarget time target x s) in *.
  destruct (IH s1 Hw1) as (Hw' & Ha' & Hr'). set (s' := foldl _ s1 l) in *.
  assert (forall key a, alias_at s key a -> alias_at s1 key (if decide (key = iconKey x) then retargeted a target else a)) as Hstep.
  { intros key a Ha. case_decide as Hd; [subst key; by apply Ha1|]. destruct Ha as (r & Hr & Ha). exists r. split; [|done].
    rewrite Hr1; [done|]. by intros [= ?]. }
  assert (forall key a, alias_at s1 key a -> exists b, alias_at s key b) as Hback.
  { intros key a (r & Hr & Ha). destruct (decide (exists b, alias_at s key b)) as [?|Hno]; [done|]. exists a, r. split; [|done].
    rewrite <- Hr1; [done|]. intros [= ->] b Hb. by apply Hno; exists b. }
  split; [done|]. split.
  - intros key a Hin Ha. pose proof (Hstep key a Ha) as Hs1. destruct (decide (key ∈ (iconKey <$> l))) as [Hl'|Hl'].
    + pose proof (Ha' _ _ Hl' Hs1) as Hfin. by case_decide.
    + apply elem_of_cons in Hin as [->|?]; [|done]. rewrite decide_True in Hs1 by done. destruct Hs1 as (r & Hr & Hal). exists r. split; [|done].
      rewrite Hr'; [done|]. intros key b [= <-] ?. done.
  - intros p Hp. rewrite Hr', Hr1; [done| |].
    + intros -> a. apply (Hp _ a eq_refl). apply elem_of_cons. by left.
    + intros key a -> Hin (b & Hb)%Hback. by apply (Hp key b eq_refl); [apply elem_of_cons; right|].
Qed.

(** *** The names of a renamed icon *)

Lemma aliases_problem_false seen l :
  aliases_problem seen l = false <->
  Forall (fun x => bad_name x = false) l /\ NoDup (ToLower <$> l) /\ forall x, x ∈ l -> ToLower x ∉ seen.
Proof.
  revert seen. induction l as [|x l IH]; intros seen; cbn [aliases_problem fmap list_fmap].
  - split; [|done]. intros _. split_and!; [constructor|constructor|by intros x ?%elem_of_nil].
  - rewrite !orb_false_iff, bool_decide_eq_false, IH, Forall_cons, NoDup_cons. split.
    + intros ((Hx & Hs) & Hf & Hd & Hall). split_and!; try done.
      * intros (y & He & Hy)%list_elem_of_fmap. apply (Hall y Hy). rewrite <- He. set_solver.
      * intros y [->|Hy]%elem_of_cons; [done|]. specialize (Hall y Hy). set_solver.
    + intros ((Hx & Hf) & (Hn & Hd) & Hall). split_and!; try done; [apply Hall, elem_of_cons; by left|]. intros y Hy [He%elem_of_singleton|Hin]%elem_of_union.
      * apply Hn. rewrite <- He. by apply list_elem_of_fmap_2.
      * apply (Hall y); [apply elem_of_cons; by right|done].
Qed.

Lemma in_withoutName names name x : x ∈ withoutName names name <-> x ∈ names /\ EqualFold x name = false.
Proof. unfold withoutName. rewrite !list_elem_of_In, filter_In, negb_true_iff. done. Qed.

(** The names of the icon under its new name are all right. *)
Lemma renamed_aliases name aliases newName :
  bad_name name = false -> bad_name newName = false -> aliasesProblem name aliases = false -> EqualFold newName name = false ->
  aliasesProblem newName (withoutName aliases newName ++ [name]) = false /\
  Forall (fun x => bad_name x = false /\ iconKeyPrefix +:+ ToLower newName <> iconKey x) (withoutName aliases newName ++ [name]).
Proof.
  intros Hn Hnew (Hf & Hd & Hall)%aliases_problem_false Hfold. rewrite Forall_forall in Hf.
  assert (ToLower name <> ToLower newName) as Hne.
  { intros He. symmetry in He. apply fold_lower in He; [congruence|done..]. }
  assert (forall x, x ∈ withoutName aliases newName -> bad_name x = false /\ ToLower x <> ToLower newName /\ ToLower x <> ToLower name) as Hkept.
  { intros x [Hin Hx]%in_withoutName. pose proof (Hf x Hin) as Hg. split; [done|]. split; [intros He; apply fold_lower in He; [congruence|done..]|].
    specialize (Hall x Hin). set_solver. }
  split.
  - apply aliases_problem_false. split_and!.
    + apply Forall_app. split; [|by constructor]. apply Forall_forall. intros x Hx%Hkept. apply Hx.
    + rewrite fmap_app, NoDup_app. cbn. split_and!; [|intros y (x & -> & Hx%Hkept)%list_elem_of_fmap He%list_elem_of_singleton; tauto|apply NoDup_singleton].
      clear -Hd. unfold withoutName. induction aliases as [|x l IH]; cbn in *; [constructor|]. apply NoDup_cons in Hd as [Hx Hd].
      destruct (negb _); [|by apply IH]. cbn. apply NoDup_cons. split; [|by apply IH]. intros (y & He & Hy)%list_elem_of_fmap. apply Hx.
      rewrite He. apply list_elem_of_fmap_2. apply list_elem_of_In, filter_In in Hy as [Hy _]. by apply list_elem_of_In.
    + intros x [Hx%Hkept| ->%list_elem_of_singleton]%elem_of_app; [|set_solver]. destruct Hx as (_ & ? & _). set_solver.
  - apply Forall_forall. intros x [Hx%Hkept| ->%list_elem_of_singleton]%elem_of_app.
    + destruct Hx as (? & ? & _). split; [done|]. intros He%iconKey_inj. congruence.
    + split; [done|]. by intros He%iconKey_inj.
Qed.

Lemma iconNameError_ok name : iconNameError name = Ok tt -> bad_name name = false.
Proof. unfold iconNameError, bad_name. rewrite bool_decide_eq_false. destruct (IconNameProblem name); [done|]. by intros _ []. Qed.

Lemma encodeIconRecord_ok i v : encodeIconRecord i = Ok v -> marshal_icon i = Ok v.
Proof. unfold encodeIconRecord. destruct (marshal_icon i) as [x|]; [|done]. destruct (MaxMetadataBytes <? blen x); [done|by intros [= ->]]. Qed.

(** The icon under a name it may have, with names it may have. *)
Lemma renamed_ok icon newName caller now aliases :
  icon_ok (iconKey (ic_Name icon)) icon -> utf8 (icon_texts icon) -> bad_name newName = false -> text_ok MaxOwnerLength true caller ->
  aliasesProblem newName aliases = false -> Forall (fun x => bad_name x = false) aliases ->
  icon_ok (iconKey newName) (renamed_icon icon newName caller now aliases) /\ utf8 (icon_texts (renamed_icon icon newName caller now aliases)).
Proof.
  intros (Hk & _ & _ & Ho & Hc & _ & Hd & _ & Hdata) Ht Hn Hcaller Hal Hg. split.
  - unfold icon_ok. cbn. split_and!; try done. by apply text_ok_weaken.
  - unfold icon_texts in *. cbn. rewrite utf8_app, !utf8_cons in Ht. change (utf8 ([ic_Kind icon; newName; ic_ID icon; ic_Owner icon; ic_CreatedBy icon; caller; ic_Data icon] ++ aliases)).
    rewrite utf8_app, !utf8_cons, (good_utf8 _ Hn), (text_ok_utf8 _ _ _ Hcaller). split; [tauto|].
    eapply Forall_impl; [exact Hg|]. intros x. apply good_utf8.
Qed.

(** The record the name has now is the one that was read. *)
Lemma icon_still s t icon r :
  Spec.wf s -> later s t -> icon_at s icon -> Spec.recs t !! (NamespaceIcons, iconKey (ic_Name icon)) = Some r -> ic_Revision icon = Record.Revision r ->
  icon_at t icon.
Proof.
  intros Hw Hl (r0 & Hr0 & Hi) Hr Hrev. exists r. split; [done|]. apply readIconRecord_icon in Hi as Hi2. destruct Hi2 as (_ & Hrev0 & _).
  destruct (revision_names_write s t _ _ r0 r Hw Hl Hr0 Hr ltac:(congruence)) as [_ <-]. done.
Qed.

Lemma icon_revision_pos s icon : Spec.wf s -> icon_at s icon -> ic_Revision icon <> 0.
Proof.
  intros (_ & Hw & _) (r & Hr & (_ & Hrev & _)%readIconRecord_icon). apply Hw in Hr as (_ & _ & ? & _). lia.
Qed.

Lemma reclaimable_reached n es icon renamed s r t : reclaimableRecord n es icon renamed s = (r, t) -> reached es s t.
Proof.
  unfold reclaimableRecord. set (s1 := between (es n) s). assert (reached es s s1) as Hr1 by (do 2 constructor).
  destruct (getRecord _ _ _) as [taken|err]; [|by intros [= _ <-]].
  destruct (readIconRecord taken) as [[other|a]|]; [destruct (negb _); by intros [= _ <-]| |by intros [= _ <-]].
  destruct (resolveIcon (S n) es (ic_Name renamed) s1) as [res s2] eqn:Er. apply resolveIcon_run in Er as [Er _].
  assert (reached es s s2) as Hr2 by (by eapply reached_trans).
  destruct res as [other|err]; [destruct (negb _)|destruct (is_not_found err)]; by intros [= _ <-].
Qed.

(** *** The move *)

Lemma move_txn_spec time icon renamed value alias taken s revision s' :
  Spec.wf s -> iconKey (ic_Name renamed) <> iconKey (ic_Name icon) -> ic_Revision icon <> 0 ->
  move_txn time icon renamed value alias taken s = (Ok revision, s') ->
  exists old w wa, Spec.recs s !! (NamespaceIcons, iconKey (ic_Name icon)) = Some old /\ ic_Revision icon = Record.Revision old /\
    Record.Revision w = revision /\ Key w = iconKey (ic_Name renamed) /\ Value w = Some value /\
    Key wa = iconKey (ic_Name icon) /\ Value wa = Some alias /\
    let moved := Spec.write wa (Spec.write w s) in
    Spec.wf moved /\ s' = retargetAliases time renamed moved /\
    Spec.recs moved = <[ (NamespaceIcons, iconKey (ic_Name icon)) := wa ]> (<[ (NamespaceIcons, iconKey (ic_Name renamed)) := w ]> (Spec.recs s)).
Proof.
  intros Hw Hne Hpos. unfold move_txn. cbv zeta. rewrite st_bind_ok. intros (w & s1 & Hwr & Hrest). rewrite st_bind_ok in Hrest. destruct Hrest as (wa & s2 & Hal & Hfin).
  apply map_err_ok in Hwr, Hal.
  assert (Spec.wf s1 /\ s1 = Spec.write w s /\ Namespace w = NamespaceIcons /\ Key w = iconKey (ic_Name renamed) /\ Value w = Some value) as (Hw1 & -> & Hns & Hk & Hv).
  { destruct taken as [old|].
    - pose proof (steady_update (time NamespaceIcons (iconKey (ic_Name renamed))) NamespaceIcons (iconKey (ic_Name renamed)) (Some value) (Record.Revision old) s Hw) as [Hs _].
      rewrite Hwr in Hs. apply tx_call_ok, update_inv in Hwr as (? & _ & _ & _ & ? & ? & ? & _ & _ & _ & ->). done.
    - pose proof (steady_create (time NamespaceIcons (iconKey (ic_Name renamed))) NamespaceIcons (iconKey (ic_Name renamed)) (Some value) s Hw) as [Hs _].
      rewrite Hwr in Hs. apply tx_call_ok, create_inv in Hwr as (_ & _ & ? & ? & ? & _ & _ & ->). done. }
  pose proof (steady_update (time NamespaceIcons (iconKey (ic_Name icon))) NamespaceIcons (iconKey (ic_Name icon)) (Some alias) (ic_Revision icon) _ Hw1) as [Hw2 _].
  rewrite Hal in Hw2. apply tx_call_ok, update_inv in Hal as (old & _ & Hold & Hx & Hns' & Hk' & Hv' & _ & _ & _ & ->). injection Hfin as <- <-.
  cbn [Spec.recs Spec.write] in Hold. rewrite Hns, Hk, lookup_insert_ne in Hold by congruence.
  exists old, w, wa. split; [done|]. split; [unfold AnyRevision in Hx; destruct Hx; [done|done]|]. split_and!; try done.
  cbn. by rewrite Hns, Hk, Hns', Hk'.
Qed.

(** What a move leaves: the icon under its new name, the old name an alias of
    it, its other aliases at its new name, and nothing else touched. *)
Lemma moveIcon_spec n es icon newName caller now s icon' s' :
  orderly es -> Spec.wf s -> icon_at s icon -> bad_name newName = false -> text_ok MaxOwnerLength true caller -> EqualFold newName (ic_Name icon) = false ->
  let aliases := withoutName (ic_Aliases icon) newName ++ [ic_Name icon] in
  moveIcon n es icon (renamed_icon icon newName caller now aliases) s = (Ok icon', s') ->
  exists t, reached es s t /\ icon_at t icon /\ icon_at s' icon' /\ Spec.wf s' /\
    (exists revision, icon' = with_icon_revision (renamed_icon icon newName caller now aliases) revision) /\
    (exists a, alias_at s' (iconKey (ic_Name icon)) a /\ al_Target a = ToLower newName) /\
    (forall x a, x ∈ aliases -> alias_at t (iconKey x) a -> exists b, alias_at s' (iconKey x) b /\ al_Target b = ToLower newName) /\
    (forall p, p <> (NamespaceIcons, iconKey newName) -> p <> (NamespaceIcons, iconKey (ic_Name icon)) ->
       (forall x a, x ∈ aliases -> p = (NamespaceIcons, iconKey x) -> ~ alias_at t (iconKey x) a) -> Spec.recs s' !! p = Spec.recs t !! p).
Proof.
  intros Ho Hw Hat Hn Hc Hfold aliases. set (renamed := renamed_icon icon newName caller now aliases). unfold moveIcon.
  destruct (encodeIconRecord renamed) as [value|] eqn:Ev; [|done]. apply encodeIconRecord_ok in Ev. cbn [res_bind].
  set (a0 := {| al_Kind := aliasRecordKind; al_Name := ic_Name icon; al_Target := ToLower newName |}).
  change (marshal_alias _) with (marshal_alias a0).
  destruct (marshal_alias a0) as [alias|] eqn:Ea; [|done]. cbn [res_bind res_map_err].
  destruct (reclaimableRecord n es icon renamed s) as [[taken|] s1] eqn:Er; [|done]. apply reclaimable_reached in Er.
  set (e := es (n + S hops)%nat). set (t := between e s1).
  destruct (RecordTxn e _ t) as [[revision|] s2] eqn:Et; [|done]. intros [= <- <-].
  assert (reached es s t) as Hreach by (by constructor). destruct (reached_orderly es s t Ho Hw Hreach) as [Hwt Hlt].
  destruct (icon_at_ok s icon Hw Hat) as [Hok Ht]. pose proof Hok as (_ & Hni & _ & _ & _ & _ & _ & Hal & _).
  destruct (renamed_aliases (ic_Name icon) (ic_Aliases icon) newName Hni Hn Hal Hfold) as [Hal' Hgood]. fold aliases in Hal', Hgood.
  destruct (renamed_ok icon newName caller now aliases Hok Ht Hn Hc Hal' ltac:(eapply Forall_impl; [exact Hgood|]; intros x Hx; apply Hx)) as [Hok' Ht'].
  fold renamed in Hok', Ht'.
  assert (iconKey newName <> iconKey (ic_Name icon)) as Hkeys.
  { intros He%iconKey_inj. apply fold_lower in He; [congruence|done..]. }
  apply txn_ok in Et as [Et _]. apply move_txn_spec in Et as (old & w & wa & Hold & Hrev & <- & Hk & Hv & Hka & Hva & Hwm & -> & Hrecs); [|done|done|by apply (icon_revision_pos s)].
  cbv zeta in Hwm, Hrecs. set (moved := Spec.write wa (Spec.write w t)) in *. change (ic_Name renamed) with newName in *.
  destruct (retarget_all (store_time e) (ToLower newName) aliases moved Hwm (good_lower _ Hn) (eq_sym (lower_lower _ Hn)) Hgood) as (Hwf & Hpoint & Hrest).
  change (retargetAliases (store_time e) renamed moved) with (foldl (fun s name => retarget (store_time e) (ToLower newName) name s) moved aliases).
  set (fin := foldl _ moved aliases) in *.
  assert (alias_at moved (iconKey (ic_Name icon)) a0) as Hmoved.
  { exists wa. rewrite Hrecs. split; [apply lookup_insert_eq|]. apply (read_written_alias _ _ alias); [done| |rewrite Hka|done].
    - unfold alias_texts. cbn. rewrite !utf8_cons, (good_utf8 _ Hni), (good_utf8 _ (good_lower _ Hn)). split_and!; try done. constructor.
    - unfold alias_ok. cbn. split_and!; try done; [by apply good_lower|by rewrite lower_lower]. }
  assert (forall x a, x ∈ aliases -> alias_at moved (iconKey x) a -> alias_at fin (iconKey x) (retargeted a (ToLower newName))) as Hpoint'.
  { intros x a Hx Ha. apply Hpoint; [by apply list_elem_of_fmap_2|done]. }
  assert (forall key a, key <> iconKey newName -> key <> iconKey (ic_Name icon) -> alias_at t key a <-> alias_at moved key a) as Hsame.
  { intros key a Hne1 Hne2. unfold alias_at. rewrite Hrecs, !lookup_insert_ne by congruence. done. }
  assert (ic_Name icon ∈ aliases) as Hin by (apply elem_of_app; right; by apply list_elem_of_singleton).
  assert (forall x, x ∈ aliases -> iconKey x <> iconKey newName) as Hnew.
  { intros x Hx. apply (proj1 (Forall_forall _ _) Hgood) in Hx as [_ Hx]. rewrite (proj1 (iconKey_lower _ Hn)) in Hx. congruence. }
  exists t. split; [done|]. split; [by apply (icon_still s t icon old)|].
  split; [|split; [done|split; [by eexists|]]].
  - exists w. cbn [ic_Name with_icon_revision]. change (ic_Name renamed) with newName. rewrite Hrest.
    + rewrite Hrecs, lookup_insert_ne, lookup_insert_eq by congruence. split; [done|]. apply (read_written_icon _ _ value); [done|done|by rewrite Hk|done].
    + intros key a [= <-] (x & Hx & Hin')%list_elem_of_fmap. by destruct (Hnew x Hin').
  - split; [exists (retargeted a0 (ToLower newName)); split; [by apply Hpoint'|done]|]. split.
    + intros x a Hx Ha. destruct (decide (iconKey x = iconKey (ic_Name icon))) as [He|He].
      * exists (retargeted a0 (ToLower newName)). split; [|done]. rewrite He. by apply Hpoint'.
      * exists (retargeted a (ToLower newName)). split; [|done]. apply Hpoint'; [done|]. apply Hsame; [by apply Hnew|done|done].
    + intros p Hp1 Hp2 Hp. rewrite Hrest; [by rewrite Hrecs, !lookup_insert_ne|]. intros key a -> (x & -> & Hx)%list_elem_of_fmap Ha.
      apply (Hp x a Hx eq_refl), Hsame; [by apply Hnew|congruence|done].
Qed.

(** *** Renaming *)

(** What a rename leaves as it was. *)
Definition renamed_to (caller : string) (icon icon' : LibraryIcon) : Prop :=
  ic_ID icon' = ic_ID icon /\ ic_Data icon' = ic_Data icon /\ ic_Owner icon' = ic_Owner icon /\
  ic_Created icon' = ic_Created icon /\ ic_CreatedBy icon' = ic_CreatedBy icon /\ ic_UpdatedBy icon' = caller.

Lemma writeRenamedIcon_spec n es icon newName caller now s icon' s' :
  orderly es -> Spec.wf s -> icon_at s icon -> bad_name newName = false -> text_ok MaxOwnerLength true caller ->
  EqualFold newName (ic_Name icon) = true ->
  writeRenamedIcon n es icon (renamed_icon icon newName caller now (ic_Aliases icon)) s = (Ok icon', s') ->
  exists t, reached es s t /\ icon_at t icon /\ icon_at s' icon' /\ Spec.wf s' /\
    (exists revision, icon' = with_icon_revision (renamed_icon icon newName caller now (ic_Aliases icon)) revision) /\
    (forall p, p <> (NamespaceIcons, iconKey newName) -> Spec.recs s' !! p = Spec.recs t !! p).
Proof.
  intros Ho Hw Hat Hn Hc Hfold. set (renamed := renamed_icon icon newName caller now (ic_Aliases icon)). unfold writeRenamedIcon.
  destruct (encodeIconRecord renamed) as [value|] eqn:Ev; [|done]. apply encodeIconRecord_ok in Ev. set (t := between (es n) s).
  destruct (LayerSets.write_record _ _ _ _ _ t) as [[w|] s1] eqn:Ew; [|done]. intros [= <- <-].
  assert (reached es s t) as Hreach by (do 2 constructor). destruct (reached_orderly es s t Ho Hw Hreach) as [Hwt Hlt].
  destruct (icon_at_ok s icon Hw Hat) as [Hok Ht]. pose proof Hok as (_ & Hni & _ & _ & _ & _ & _ & Hal & _).
  apply fold_lower in Hfold; [|done..]. assert (iconKey newName = iconKey (ic_Name icon)) as Hkeys by (unfold iconKey; by rewrite Hfold).
  assert (aliasesProblem newName (ic_Aliases icon) = false) as Hal' by (unfold aliasesProblem in *; by rewrite Hfold).
  destruct (renamed_ok icon newName caller now (ic_Aliases icon) Hok Ht Hn Hc Hal') as [Hok' Ht']; [by apply aliases_problem_false in Hal as [? _]|].
  pose proof (icon_revision_pos s icon Hw Hat) as Hpos.
  assert (Spec.wf s1) as Hw1.
  { unfold LayerSets.write_record in Ew. rewrite (proj2 (Z.eqb_neq _ _) Hpos) in Ew. pose proof (steady_txn (es n) _ (steady_update (store_time (es n) NamespaceIcons (iconKey (ic_Name icon)))
      NamespaceIcons (iconKey (ic_Name icon)) (Some value) (ic_Revision icon)) t Hwt) as [Hs _]. by rewrite Ew in Hs. }
  apply write_record_inv in Ew as (Hns & Hk & Hv & _ & -> & [[? _]|(_ & old & Hold & Hrev)]); [done|].
  exists t. split; [done|]. split; [by apply (icon_still s t icon old)|]. split; [|split; [done|split; [by eexists|]]].
  - exists w. cbn [ic_Name with_icon_revision Spec.recs Spec.write]. change (ic_Name renamed) with newName. rewrite Hns, Hk, <- Hkeys. split; [apply lookup_insert_eq|].
    apply (read_written_icon _ _ value); [done|done|by rewrite Hk, <- Hkeys|done].
  - intros p Hp. cbn [Spec.recs Spec.write]. rewrite Hns, Hk, <- Hkeys. by apply lookup_insert_ne.
Qed.

(** C27: Renaming an icon. When [RenameIcon] succeeds, the given name, without
    regard to case, led to an icon through the aliases there were; a user
    uploaded it, and it was still there when the call wrote. The new
    name then leads to the renamed icon, which has the image, the owner and
    the creation it had. Either it had that name already and nothing changed;
    or the name differs in case only, and just the record of the icon changed;
    or the name moved: the old name leads to the renamed icon too, and so does
    every earlier name the icon lists that was an alias, whatever it pointed
    at; at most sixteen old names are kept, and no record changed but those
    of the two names and of these aliases. *)
Theorem RenameIcon_spec es caller name newName s icon' s' :
  orderly es -> Spec.wf s -> RenameIcon es caller name newName s = (Ok icon', s') ->
  exists icon u t, bad_name name = false /\ leads es 0 s (iconKey name) icon u /\ reached es u t /\ icon_at t icon /\ ic_Owner icon <> ServerIconOwner /\
    ic_Name icon' = newName /\ Spec.wf s' /\ names s' newName icon' /\
    ((newName = ic_Name icon /\ icon' = icon /\ s' = t) \/
     (newName <> ic_Name icon /\ iconKey newName = iconKey (ic_Name icon) /\ renamed_to caller icon icon' /\ ic_Aliases icon' = ic_Aliases icon /\
      forall p, p <> (NamespaceIcons, iconKey newName) -> Spec.recs s' !! p = Spec.recs t !! p) \/
     (iconKey newName <> iconKey (ic_Name icon) /\ renamed_to caller icon icon' /\
      ic_Aliases icon' = withoutName (ic_Aliases icon) newName ++ [ic_Name icon] /\ (length (ic_Aliases icon') <= maxIconAliases)%nat /\
      names s' (ic_Name icon) icon' /\
      (forall x a, x ∈ ic_Aliases icon -> alias_at t (iconKey x) a -> names s' x icon') /\
      forall p, p <> (NamespaceIcons, iconKey newName) -> p <> (NamespaceIcons, iconKey (ic_Name icon)) ->
        (forall x a, x ∈ ic_Aliases icon -> p = (NamespaceIcons, iconKey x) -> ~ alias_at t (iconKey x) a) -> Spec.recs s' !! p = Spec.recs t !! p)).
Proof.
  intros Ho Hw. unfold RenameIcon. destruct (let? _ := _ in _) as [[]|] eqn:Hcheck; [|done]. rewrite bind_unit, validateText_ok in Hcheck. destruct Hcheck as [_ Hc].
  destruct (resolveIcon 0 es name s) as [[icon|] s1] eqn:Er; [|done]. pose proof (resolveIcon_leads _ _ _ _ _ _ Er) as [Hgood0 Hled]. apply resolveIcon_run in Er as [Hreach Hat]. specialize (Hat icon Ho Hw eq_refl).
  destruct (reached_orderly es s s1 Ho Hw Hreach) as [Hw1 _]. destruct (icon_at_ok s1 icon Hw1 Hat) as [(_ & Hni & _ & _ & _ & _ & _ & Hal & _) _].
  destruct (MayChangeIcon icon) eqn:Hmay; [|done]. assert (ic_Owner icon <> ServerIconOwner) as Hown.
  { unfold MayChangeIcon in Hmay. apply negb_true_iff, String.eqb_neq in Hmay. done. }
  cbn [negb]. destruct (iconNameError newName) as [[]|] eqn:Hn; [|done]. apply iconNameError_ok in Hn.
  destruct (String.eqb_spec newName (ic_Name icon)) as [->|Hne].
  { intros [= <- <-]. exists icon, s1, s1. split_and!; try done; [by constructor|by apply names_icon|by left]. }
  destruct (EqualFold newName (ic_Name icon)) eqn:Hfold.
  { intros Hrun. apply writeRenamedIcon_spec in Hrun as (t & Ht & Hi & Hi' & Hw' & [revision ->] & Hrest); try done.
    exists icon, s1, t. split_and!; try done; [by apply names_icon|]. right; left. split; [done|].
    apply fold_lower in Hfold; [|done..]. unfold iconKey. rewrite Hfold. split_and!; try done. intros p Hp. apply Hrest. unfold iconKey. by rewrite Hfold. }
  destruct (Z.ltb_spec (Z.of_nat maxIconAliases) (zlen (withoutName (ic_Aliases icon) newName ++ [ic_Name icon]))) as [|Hmax]; [done|]. intros Hrun.
  apply moveIcon_spec in Hrun as (t & Ht & Hi & Hi' & Hw' & [revision ->] & (a0 & Ha0 & Hta0) & Hnames & Hrest); try done.
  exists icon, s1, t. split_and!; try done; [by apply names_icon|]. right; right.
  split; [intros He%iconKey_inj; apply fold_lower in He; [congruence|done..]|]. split; [done|]. split; [done|]. split; [unfold zlen in Hmax; cbn [ic_Aliases with_icon_revision renamed_icon]; lia|].
  assert (forall x, x ∈ ic_Aliases icon -> bad_name x = false) as Hgood.
  { apply aliases_problem_false in Hal as [Hal _]. by apply Forall_forall. }
  split; [by apply (names_alias _ _ _ a0)|]. split.
  - intros x a Hx Ha. destruct (EqualFold x newName) eqn:He.
    + apply fold_lower in He; [|by auto|done]. apply names_icon; [by auto| |done]. unfold iconKey. cbn. by rewrite He.
    + destruct (Hnames x a) as (b & Hb & Htb); [apply elem_of_app; left; by apply in_withoutName|done|]. apply (names_alias _ _ _ b); [done|by auto|done|done|done].
  - intros p Hp1 Hp2 Hp. apply Hrest; [done|done|]. intros x a [[Hx _]%in_withoutName| ->%list_elem_of_singleton]%elem_of_app; [by apply Hp|]. intros ->. done.
Qed.

End Renaming.
