(* ===== verification/ServiceSample.v ===== *)
(** * The services of the builder, evaluated

    First a store with a draft, a published document and content that nothing
    names, and the cleanup of that content, alone and while somebody
    publishes; then the libraries of layer sets, templates and icons. *)

From Stdlib Require Import ZArith Lia Ascii String Strings.Byte.
From stdpp Require Import base option list gmap strings countable sorting.
From S2P Require Import Prelude Record RecordSpec Text Codes Document Checks Layers Icons Validate Parents ValidateSpec EdgeSpec DocumentSpec.
From S2P Require Import Drafts Content DraftService Published DraftSpec DraftStore DraftWrites DraftAppend DraftCalls DraftPublish DraftCreate DraftTrace.
From S2P Require Import PublishedSpec CleanupSpec CleanupExact DraftSample.

Open Scope Z_scope.
Open Scope go_scope.

Module SamplePublished.
Import SampleDocument SampleDrafts.
#[local] Existing Instances unicode libraries png.

Definition raise_published (f : list string * list Z) : option PublishedDocument :=
  match f with
  | ([id; digest; target; kind; draft; snapshot; by_; schema], [size; compressed; at_]) =>
      Some {| pd_ID := id; pd_Digest := digest; pd_Size := size; pd_CompressedSize := compressed; pd_Target := target;
        pd_Kind := kind; pd_DraftID := draft; pd_SnapshotID := snapshot; pd_CreatedAt := at_; pd_CreatedBy := by_;
        pd_Schema := schema; pd_Revision := 0; published_at := zero_time |}
  | _ => None
  end.

#[export] Instance published_json : PublishedJSON := {|
  marshal_published := fun p => Ok (pack (published_texts p, [pd_Size p; pd_CompressedSize p; pd_CreatedAt p]));
  unmarshal_published := fun v =>
    match unpack v ≫= raise_published with Some p => Ok p | None => Err (Some "not a published document") end;
  raw_published := fun _ => None;
  marshal_reference := fun _ => Ok "{}";
  reference_fields := fun _ => Ok (Some ∅) |}.

#[export] Instance published_laws : PublishedLaws.
Proof.
  split. intros p v [= <-] _. cbn [unmarshal_published published_json]. rewrite unpack_pack. by destruct p.
Qed.

(** ** The store *)

Definition put_request : PutPublishedDocumentRequest := {|
  put_Target := "plant"; put_Kind := "Topology"; put_Actor := "ben"; put_Document := stamped "ana"; put_DraftID := "d1";
  put_SnapshotID := "" |}.

Definition second_request : PutPublishedDocumentRequest := {|
  put_Target := "site"; put_Kind := "Topology"; put_Actor := "eve"; put_Document := stamped "ana"; put_DraftID := "";
  put_SnapshotID := "" |}.

(** Content of a draft that is not there, written long ago. *)
Definition o1 : Spec.state := snd (Spec.create 0 NamespaceContent "drafts/gone/x" (Some [x01]) Spec.empty).
Definition o2 : Spec.state := snd (CreateDraft (calm "d1") create_request o1).
Definition o3 : Spec.state := snd (PutPublishedDocument (calm "") put_request o2).

Lemma wf_o1 : Spec.wf o1.
Proof. apply (run_wf_later (CreateRecord 0 NamespaceContent "drafts/gone/x" (Some [x01])) Spec.empty wf_empty). Qed.

Lemma o1_alt : o1 = Spec.write (mkRecord NamespaceContent "drafts/gone/x" (Some [x01]) 1 0 0) Spec.empty.
Proof. vm_compute. reflexivity. Qed.

Lemma intact_o1 : intact o1.
Proof.
  assert (forall id, Spec.recs o1 !! (NamespaceDrafts, id) = None) as Hd by (intros id; rewrite o1_alt; cbn [Spec.recs Spec.write Namespace Key]; by rewrite lookup_insert_ne by (intros [=])).
  assert (forall id, Spec.recs o1 !! (NamespacePublished, id) = None) as Hp by (intros id; rewrite o1_alt; cbn [Spec.recs Spec.write Namespace Key]; by rewrite lookup_insert_ne by (intros [=])).
  split; [split|split].
  - intros id d (r & Hr & _). by rewrite Hd in Hr.
  - intros id r Hr. by rewrite Hd in Hr.
  - intros id p (r & Hr & _). by rewrite Hp in Hr.
  - intros id r Hr. by rewrite Hp in Hr.
Qed.

Lemma others_o2 : others o1 o2.
Proof.
  exact (perform_others (calm "d1") (CreateCall create_request) o1 wf_o1 wf_o1 (PreOrder_Reflexive _) intact_o1 create_good).
Qed.

Lemma others_o3 : others o2 o3.
Proof. destruct others_o2 as (Hw & _ & Hi & _). exact (put_others (calm "") put_request o2 Hw Hi). Qed.

Lemma put_runs : exists m, PutPublishedDocument (calm "") put_request o2 = (Ok m, o3).
Proof. apply succeeds_ok; [vm_compute; reflexivity|reflexivity]. Qed.

Lemma PutPublishedDocument_spec_witness :
  exists m, PutPublishedDocument (calm "") put_request o2 = (Ok m, o3) /\ published_at m = now0 /\ published_whole o3.
Proof.
  destruct put_runs as [m Hm]. exists m. split; [exact Hm|]. destruct others_o2 as (Hw & _ & (_ & Hp) & _).
  destruct (PutPublishedDocument_spec (calm "") (calm "") put_request o2 m o3 Hw Hp Hm eq_refl eq_refl)
    as (_ & _ & _ & _ & _ & _ & _ & _ & _ & _ & Hat & _ & Hwhole & _). split; [exact Hat|exact Hwhole].
Defined.

(** A draft created beside old content: the content of its snapshot is new. *)
Lemma service_calls_allowed_witness :
  performs (calm "d1") (OnDraft (CreateCall create_request)) o1 = o2 /\ intact o2 /\
  forall key, named o2 key -> named o1 key \/ newer o1 o2 key.
Proof.
  destruct (service_calls_allowed (calm "d1") (OnDraft (CreateCall create_request)) o1 wf_o1 wf_o1 (PreOrder_Reflexive _) intact_o1 create_good)
    as (_ & _ & Hi & Hn).
  split; [exact (perform_snd (calm "d1") (CreateCall create_request) o1)|]. split; [exact Hi|exact Hn].
Defined.

(** ** The cleanup *)

Definition alone : nat -> env := fun _ => calm "".

(** Somebody publishes before every access but the first. *)
Definition busy : nat -> env := fun n =>
  match n with
  | O => calm ""
  | _ => {| ctx_err := fun _ => None; clock := now0; store_time := fun _ _ => now0; commit := None; new_id := fun _ => Ok "s1";
            between := fun s => snd (PutPublishedDocument (calm "") second_request s) |}
  end.

Lemma busy_fair : fair busy o3 (clock (busy 2%nat)).
Proof.
  split.
  - intros n s Hw Hi. exact (put_others (calm "") second_request s Hw Hi).
  - intros n s Hw Hi Hr. apply (put_recent (calm "") second_request s _ _ Hw Hi); [|exact Hr]. intros key. by vm_compute.
Qed.

Definition cleaned : Spec.state := snd (CleanupOrphanedContent busy false o3).

(** The content of the draft that is gone goes; the document that was there
    and the one published meanwhile stay. *)
Lemma CleanupOrphanedContent_safe_witness :
  intact cleaned /\ fst (CleanupOrphanedContent busy false o3) = Ok (1, None) /\
  Spec.recs cleaned !! (NamespaceContent, "drafts/gone/x") = None.
Proof.
  destruct others_o3 as (Hw & _ & Hi & _).
  destruct (CleanupOrphanedContent_safe busy false o3 (fst (CleanupOrphanedContent busy false o3)) cleaned Hw Hi busy_fair (surjective_pairing _))
    as (_ & Hi' & _).
  split; [exact Hi'|]. split; [vm_compute; reflexivity|vm_compute; reflexivity].
Defined.

Definition swept : Spec.state := snd (CleanupOrphanedContent alone false o3).

Lemma o3_names k r :
  Spec.recs o3 !! (NamespaceContent, k) = Some r -> validateRecordNamespaceAndKey NamespaceContent k = Ok tt.
Proof.
  assert (forallb (fun p => ok (validateRecordNamespaceAndKey (fst (fst p)) (snd (fst p)))) (map_to_list (Spec.recs o3)) = true) as Hall
    by (vm_compute; reflexivity).
  intros Hr%elem_of_map_to_list. rewrite forallb_forall in Hall. apply list_elem_of_In, Hall in Hr. cbn [fst snd] in Hr.
  by destruct (validateRecordNamespaceAndKey NamespaceContent k) as [[]|].
Qed.

Lemma CleanupOrphanedContent_exact_witness :
  fst (CleanupOrphanedContent alone false o3) = Ok (1, None) /\ CleanupOrphanedContent alone true o3 = (Ok (1, None), o3).
Proof.
  assert (fst (CleanupOrphanedContent alone false o3) = Ok (1, None)) as Hr by (vm_compute; reflexivity). split; [exact Hr|].
  destruct others_o3 as (Hw & _).
  assert (CleanupOrphanedContent alone false o3 = (Ok (1, None), swept)) as Hrun by (rewrite <- Hr; apply surjective_pairing).
  destruct (CleanupOrphanedContent_exact alone o3 1 None swept (fun n => conj eq_refl (fun s => eq_refl)) Hw o3_names Hrun) as (_ & _ & Hd).
  exact Hd.
Defined.

End SamplePublished.

(** ** The layer set library, evaluated

    A set added, changed and deleted, and a second one added beside it. *)

From stdpp Require Import base option list gmap strings countable sorting.
From S2P Require Import Prelude Record RecordSpec Text Codes Document Checks Layers Icons Validate DocumentSpec Drafts Content DraftService.
From S2P Require Import DraftSpec DraftStore LayerSets LayerSetSpec DraftSample.

Module SampleLayerSets.
Import SampleDocument SampleDrafts.
#[local] Existing Instances unicode libraries.

Definition flat_layer (l : Layer) : option Z * list string * list (string * string) :=
  (layer_ID l, [layer_Label l; layer_IconKey l; layer_Icon l; layer_Color l], map_to_list (Matchers l)).

Definition raise_layer (f : option Z * list string * list (string * string)) : option Layer :=
  match f with
  | (id, [label; iconKey; icon; color], matchers) => Some {| layer_ID := id; layer_Label := label; layer_IconKey := iconKey;
      layer_Icon := icon; layer_Color := color; Matchers := list_to_map matchers |}
  | _ => None
  end.

Definition flat_set (s : LayerSet) : list string * bool * list (option Z * list string * list (string * string)) :=
  ([ls_Name s; ls_Description s; ls_IconKey s; ls_Icon s; ls_MatchConflict s], ls_LayerOutlines s, flat_layer <$> ls_Layers s).

Definition raise_set (f : list string * bool * list (option Z * list string * list (string * string))) : option LayerSet :=
  match f with
  | ([name; description; iconKey; icon; conflict], outlines, layers) =>
      layers ← mapM raise_layer layers;
      Some {| ls_Name := name; ls_Description := description; ls_IconKey := iconKey; ls_Icon := icon; ls_MatchConflict := conflict;
        ls_LayerOutlines := outlines; ls_Layers := layers |}
  | _ => None
  end.

Lemma raise_flat_set s : raise_set (flat_set s) = Some s.
Proof.
  unfold raise_set, flat_set. assert (mapM raise_layer (flat_layer <$> ls_Layers s) = Some (ls_Layers s)) as ->; [|by destruct s].
  induction (ls_Layers s) as [|l layers IH]; [done|]. cbn. rewrite list_to_map_to_list. cbn. rewrite IH. by destruct l.
Qed.

#[export] Instance layer_set_json : LayerSetJSON := {|
  marshal_layer_set := fun s => Ok (pack (flat_set s));
  marshal_library_set := fun s => if decide (int64 (lib_Version s)) then
    Ok (pack (flat_set (lib_Set s), [lib_ID s; lib_CreatedBy s; lib_UpdatedBy s], [lib_Version s; lib_Created s; lib_Updated s])) else Err "";
  unmarshal_library_set := fun v =>
    match unpack v with
    | Some (set, [id; created_by; updated_by], [version; created; updated]) =>
        match raise_set set with
        | Some set =>
            let s := {| lib_Set := set; lib_ID := id; lib_Version := version; lib_Created := created; lib_Updated := updated;
                        lib_CreatedBy := created_by; lib_UpdatedBy := updated_by; lib_Revision := 0 |} in
            if decide (utf8 (lib_texts s) /\ int64 version) then Ok s else Err (Some "not UTF-8")
        | None => Err (Some "not a layer set")
        end
    | _ => Err (Some "not a layer set")
    end;
  marshal_default := fun id => Ok (pack id);
  unmarshal_default := fun v => match unpack v with Some id => Ok id | None => Err (Some "not a choice") end |}.

#[export] Instance layer_set_laws : LayerSetLaws.
Proof.
  split.
  - intros s v. cbn [marshal_library_set layer_set_json]. destruct (decide (int64 (lib_Version s))) as [Hv|]; [|done]. intros [= <-] Ht.
    cbn [unmarshal_library_set layer_set_json]. rewrite unpack_pack, raise_flat_set. by rewrite decide_True.
  - intros v s. cbn [unmarshal_library_set layer_set_json]. repeat case_match; try done. by intros [= <-].
Qed.

Definition zones (name : string) : LayerSet := {|
  ls_Name := name; ls_Description := ""; ls_IconKey := ""; ls_Icon := ""; ls_MatchConflict := ""; ls_LayerOutlines := false;
  ls_Layers := [{| layer_ID := Some 1; layer_Label := "Field"; layer_IconKey := ""; layer_Icon := ""; layer_Color := ""; Matchers := ∅ |}] |}.

(** Every access of a call in a calm environment. *)
Definition calmly (id : string) : nat -> env := fun _ => calm id.

Lemma calmly_orderly id : orderly (calmly id).
Proof. by intros n s Hw. Qed.

Lemma calmly_after id k s : after (calmly id) k s = s.
Proof. by induction k. Qed.

Definition l1 : Spec.state := snd (CreateLayerSet (calmly "x1") "ana" (zones "Zones") Spec.empty).
Definition l2 : Spec.state := snd (UpdateLayerSet (calmly "") "ben" "x1" (RevisionETag 1) (zones "Areas") l1).
Definition l1' : Spec.state := snd (CreateLayerSet (calmly "x2") "eve" (zones "Areas") l1).

Lemma library_ok {E A} (r : res E A * Spec.state) s : match fst r with Ok _ => true | Err _ => false end = true -> s = snd r -> exists a, r = (Ok a, s).
Proof. destruct r as [[a|] s']; [|done]. intros _ ->. by exists a. Qed.

Lemma zones_utf8 name : valid_utf8 name = true -> utf8 (layer_set_texts (zones name)).
Proof. intros Hn. unfold layer_set_texts. cbn. repeat (constructor; [done|]). constructor. Qed.

Lemma first_tag v : int64 v -> RevisionETag v = RevisionETag 1 -> v < 2 ^ 63 - 1.
Proof.
  intros Hv He. destruct (Z.lt_ge_cases v 0) as [|Hn]; [lia|]. assert (v = 1) as ->; [|lia].
  by apply RevisionETag_inj.
Qed.

Lemma wf_l1 : Spec.wf l1.
Proof.
  assert (exists r, l1 = Spec.write (mkRecord NamespaceLayerSets (layerSetKey "x1") (Some (bytes_of (Value r))) 1 now0 now0) Spec.empty) as [r ->]
    by (exists (default no_record (Spec.recs l1 !! (NamespaceLayerSets, layerSetKey "x1"))); vm_compute; reflexivity).
  exact (wf_write Spec.empty NamespaceLayerSets (layerSetKey "x1") (Value r) now0 now0 wf_empty).
Qed.

Lemma UpdateLayerSet_spec_witness :
  exists set, UpdateLayerSet (calmly "") "ben" "x1" (RevisionETag 1) (zones "Areas") l1 = (Ok set, l2) /\
    lib_Version set = 2 /\ only_key (layerSetKey "x1") l1 l2.
Proof.
  destruct (library_ok (UpdateLayerSet (calmly "") "ben" "x1" (RevisionETag 1) (zones "Areas") l1) l2) as [set Hrun];
    [vm_compute; reflexivity|reflexivity|].
  exists set. split; [exact Hrun|].
  destruct (UpdateLayerSet_spec (calmly "") "ben" "x1" (RevisionETag 1) (zones "Areas") l1 set l2 (calmly_orderly "") wf_l1 first_tag
    (zones_utf8 "Areas" eq_refl) Hrun) as (k & current & _ & Hat & He & Hcase). rewrite calmly_after in Hat, Hcase.
  assert (lib_Version current = 1) as Hv.
  { apply RevisionETag_inj; [|exact (set_at_int64 _ _ _ Hat)|lia|unfold int64; lia|exact He].
    destruct Hat as (r & _ & ((_ & _ & ? & _) & _)%decode_set_inv). lia. }
  destruct Hcase as [(v & _ & _ & _ & Hl)|(_ & Ho & _ & Hv' & _)]; [|split; [rewrite Hv', Hv; reflexivity|exact Ho]].
  assert (Spec.rev l2 <> Spec.rev l1) as Hne by (vm_compute; discriminate). destruct (Hne (f_equal Spec.rev Hl)).
Defined.

Lemma library_calls_change_witness :
  exists k, l2 = after (calmly "") k l1 \/ change (after (calmly "") k l1) l2.
Proof.
  apply (library_calls_change (calmly "") (UpdateSet "ben" "x1" (RevisionETag 1) (zones "Areas")) l1 l2 (calmly_orderly "") wf_l1);
    [split; [by apply zones_utf8|exact first_tag]|vm_compute; reflexivity].
Defined.

Lemma got_set s :
  match GetLayerSet (calm "") s "x1" with Ok set => lib_Version set =? 1 | Err _ => false end = true ->
  exists set, set_at s "x1" set /\ LibraryLayerSet_ETag set = RevisionETag 1.
Proof.
  destruct (GetLayerSet (calm "") s "x1") as [set|] eqn:Hg; [|intros Hf; discriminate Hf]. intros Hv%Z.eqb_eq.
  exists set. split; [exact (GetLayerSet_inv _ _ _ _ Hg eq_refl)|]. unfold LibraryLayerSet_ETag. by rewrite Hv.
Qed.

(** A store that commits the first time only. *)
Definition breaking (id : string) : nat -> env := fun n =>
  match n with
  | O => calm id
  | S _ => {| ctx_err := fun _ => None; clock := now0; new_id := fun _ => Ok id; store_time := fun _ _ => now0;
              commit := Some (OpaqueError "no space left on device"); between := fun s => s |}
  end.

(** A set is written at the second access of its call. *)
Lemma create_last id actor content s :
  perform_library (calmly id) (CreateSet actor content) s <> perform_library (breaking id) (CreateSet actor content) s ->
  last_access (calmly id) (CreateSet actor content) s 1.
Proof.
  intros Hne. split.
  - intros es Hes. unfold perform_library, CreateLayerSet. by rewrite (Hes 0%nat), (Hes 1%nat) by lia.
  - intros j Hj Hdec. apply Hne. symmetry. apply Hdec. intros i Hi. assert (i = 0%nat) as -> by lia. reflexivity.
Qed.

Lemma add_set id actor content next now past :
  library_run (now :: past) -> utf8 (layer_set_texts content) ->
  perform_library (calmly id) (CreateSet actor content) now = (true, next) -> fst (perform_library (breaking id) (CreateSet actor content) now) = false ->
  Forall (fun t => Spec.recs t !! (NamespaceLayerSets, layerSetKey id) = None) (now :: past) -> library_run (next :: now :: past).
Proof.
  intros Hrun Ht Hp Hb Hfree.
  apply (library_step (calmly id) (CreateSet actor content) 1 now now past next Hrun); [by left|apply calmly_orderly|exact Ht|exact Hp| | |apply calmly_after|].
  - apply create_last. rewrite Hp. intros E. rewrite <- E in Hb. discriminate Hb.
  - intros j _. rewrite calmly_after. by left.
  - intros id' t [= <-] Hin. by apply (proj1 (Forall_forall _ _) Hfree).
Qed.

(** The set is the same before and after another is added. *)
Lemma version_names_content_witness :
  exists a b, set_at l1 "x1" a /\ set_at l1' "x1" b /\ lib_Set a = lib_Set b.
Proof.
  assert (library_run [l1; Spec.empty]) as Hrun1.
  { apply (add_set "x1" "ana" (zones "Zones")); [apply library_start|by apply zones_utf8|vm_compute; reflexivity|vm_compute; reflexivity|].
    constructor; [apply lookup_empty|constructor]. }
  assert (library_run [l1'; l1; Spec.empty]) as Hrun2.
  { apply (add_set "x2" "eve" (zones "Areas")); [exact Hrun1|by apply zones_utf8|vm_compute; reflexivity|vm_compute; reflexivity|].
    constructor; [vm_compute; reflexivity|]. constructor; [apply lookup_empty|constructor]. }
  destruct (got_set l1 eq_refl) as (a & Ha & Htag). destruct (got_set l1' eq_refl) as (b & Hb & Htag').
  exists a, b. split; [exact Ha|]. split; [exact Hb|].
  apply (version_names_content [l1'; l1; Spec.empty] "x1" a b l1 l1' Hrun2); [|apply elem_of_cons; by left|exact Ha|exact Hb|congruence].
  apply elem_of_cons; right; apply elem_of_cons; by left.
Defined.

End SampleLayerSets.

(** ** The template library, evaluated

    A device template added to an empty library, and a collection that names
    it. *)

From stdpp Require Import base option list gmap strings countable relations.
From S2P Require Import Prelude Record RecordSpec Text Codes Document Checks Layers Icons Validate DocumentSpec Drafts Content DraftService.
From S2P Require Import DraftSpec DraftStore DraftWrites LayerSets LayerSetSpec TemplateLibrary TemplateSpec DraftSample.

Module SampleTemplates.
Import SampleDocument SampleDrafts SampleLayerSets.
#[local] Existing Instances unicode libraries.

(** Devices whose spec is a host name come back from their encoding. *)
Definition host_spec (hostname : string) : spec := [("general", Obj [("hostname", Str hostname)])].

Definition hostname_of (d : TemplateDevice) : string := specString (default [] (td_Spec d)) ["general"; "hostname"].

Definition flat_device (d : TemplateDevice) : list string * bool * option Z :=
  ([td_IconKey d; td_Icon d; td_IconSize d; td_OutlineColor d; td_FillColor d; hostname_of d], td_HideDescription d, td_Layer d).

Definition raise_device (f : list string * bool * option Z) : option TemplateDevice :=
  match f with
  | ([iconKey; icon; size; outline; fill; hostname], hide, layer) => Some {| td_IconKey := iconKey; td_Icon := icon; td_IconSize := size;
      td_OutlineColor := outline; td_FillColor := fill; td_HideDescription := hide; td_Layer := layer; td_Spec := Some (host_spec hostname) |}
  | _ => None
  end.

Definition host_device (d : TemplateDevice) : Prop := td_Spec d = Some (host_spec (hostname_of d)).

Lemma raise_flat_device d : host_device d -> raise_device (flat_device d) = Some d.
Proof. unfold host_device. intros Hd. destruct d. cbn in *. by rewrite Hd. Qed.

Lemma raised_device f d : raise_device f = Some d -> host_device d.
Proof. unfold raise_device. repeat case_match; try done. by intros [= <-]. Qed.

Definition flat_entry : Type := list string * (list string * bool * option Z) * list Z.

Definition flat_template (t : LibraryTemplate) : flat_entry :=
  (template_texts t, flat_device (tpl_Device (lt_Template t)), [lt_Version t; lt_Created t; lt_Updated t]).

Definition raise_template (f : flat_entry) : option LibraryTemplate :=
  match f with
  | ([id; name; description; created_by; updated_by], device, [version; created; updated]) =>
      device ← raise_device device;
      Some {| lt_Template := {| tpl_ID := id; tpl_Name := name; tpl_Description := description; tpl_Device := device; tpl_Source := None |};
        lt_Version := version; lt_Created := created; lt_Updated := updated; lt_CreatedBy := created_by; lt_UpdatedBy := updated_by |}
  | _ => None
  end.

Definition flat_collection (c : TemplateCollection) : list string * list string * list Z :=
  ([tc_ID c; tc_Name c; tc_Description c; tc_CreatedBy c; tc_UpdatedBy c], tc_TemplateIDs c, [tc_Version c; tc_Created c; tc_Updated c]).

Definition raise_collection (f : list string * list string * list Z) : option TemplateCollection :=
  match f with
  | ([id; name; description; created_by; updated_by], ids, [version; created; updated]) => Some {| tc_ID := id; tc_Name := name;
      tc_Description := description; tc_TemplateIDs := ids; tc_Version := version; tc_Created := created; tc_Updated := updated;
      tc_CreatedBy := created_by; tc_UpdatedBy := updated_by |}
  | _ => None
  end.

Definition flat_library (l : TemplateLibrary) : list flat_entry * list (list string * list string * list Z) * (string * Z) :=
  (flat_template <$> tl_Templates l, flat_collection <$> tl_Collections l, (tl_UpdatedBy l, tl_Updated l)).

Definition raise_library (f : list flat_entry * list (list string * list string * list Z) * (string * Z)) : option TemplateLibrary :=
  let '(templates, collections, (updated_by, updated)) := f in
  templates ← mapM raise_template templates;
  collections ← mapM raise_collection collections;
  Some {| tl_Templates := templates; tl_Collections := collections; tl_Updated := updated; tl_UpdatedBy := updated_by; tl_Revision := 0 |}.

Lemma mapM_flat {A B} (flat : A -> B) (raise : B -> option A) l :
  Forall (fun a => raise (flat a) = Some a) l -> mapM raise (flat <$> l) = Some l.
Proof. induction 1 as [|a l Ha Hl IH]; [done|]. cbn. rewrite Ha. cbn. by rewrite IH. Qed.

Lemma raise_flat_library l :
  Forall (fun t => host_device (tpl_Device (lt_Template t))) (tl_Templates l) -> Forall (fun t => tpl_Source (lt_Template t) = None) (tl_Templates l) ->
  raise_library (flat_library l) = Some (with_tl_revision l 0).
Proof.
  intros Hd Hs. unfold raise_library, flat_library. rewrite (mapM_flat flat_template), (mapM_flat flat_collection); [by destruct l| |].
  - apply Forall_true. by intros [].
  - apply Forall_forall. intros t Ht. rewrite Forall_forall in Hd, Hs. specialize (Hd t Ht). specialize (Hs t Ht).
    unfold flat_template, template_texts, raise_template. rewrite raise_flat_device by done. destruct t as [[] ? ? ? ? ?]. cbn in *. by subst.
Qed.

Lemma raised_library f l : raise_library f = Some l -> Forall (fun t => host_device (tpl_Device (lt_Template t))) (tl_Templates l).
Proof.
  destruct f as [[ts cs] [? ?]]. unfold raise_library. destruct (mapM raise_template ts) as [ts'|] eqn:Ht; [|done].
  destruct (mapM raise_collection cs) as [cs'|]; [|done]. intros [= <-]. cbn. apply mapM_Some in Ht.
  induction Ht as [|f t ts ts' Hf Hfs IH]; [constructor|]. constructor; [|done]. unfold raise_template in Hf. repeat case_match; try done.
  destruct (raise_device _) as [d|] eqn:Hd; [|done]. injection Hf as <-. by eapply raised_device.
Qed.

#[export] Instance template_json : TemplateJSON := {|
  marshal_device := fun d => Ok (pack (flat_device d));
  marshal_library := fun l => Ok (pack (flat_library l));
  unmarshal_library := fun v =>
    match unpack v ≫= raise_library with
    | Some l =>
        if decide (utf8 (tl_UpdatedBy l :: (tl_Templates l ≫= template_texts) ++ (tl_Collections l ≫= collection_texts)) /\
                   Forall (fun t => int64 (lt_Version t)) (tl_Templates l) /\ Forall (fun c => int64 (tc_Version c)) (tl_Collections l))
        then Ok l else Err (Some "not UTF-8")
    | None => Err (Some "not a library")
    end |}.

#[export] Instance template_laws : TemplateLaws.
Proof.
  refine {| device_value := host_device |}.
  - intros l v [= <-] [Ht Hd] Hf Hs. cbn [unmarshal_library template_json]. rewrite unpack_pack. cbn [mbind option_bind].
    rewrite raise_flat_library by done. by rewrite decide_True.
  - intros v l. cbn [unmarshal_library template_json]. destruct (unpack v) as [f|]; [|done]. cbn [mbind option_bind].
    destruct (raise_library f) as [q|] eqn:Hq; [|done]. destruct (decide _) as [[? ?]|]; [|done]. intros [= <-]. split; [|done].
    split; [done|]. by eapply raised_library.
Defined.

(** A router that may be placed, and a collection of it. *)
Definition router : Template := {| tpl_ID := ""; tpl_Name := "Router"; tpl_Description := "";
  tpl_Device := {| td_IconKey := ""; td_Icon := ""; td_IconSize := ""; td_OutlineColor := ""; td_FillColor := ""; td_HideDescription := false;
                   td_Layer := None; td_Spec := Some (host_spec "rtr") |}; tpl_Source := None |}.

Definition routers : CollectionContent := {| cc_Name := "Routers"; cc_Description := ""; cc_TemplateIDs := ["t1"] |}.

Definition add_router (_ : nat) (l : TemplateLibrary) : res lerror TemplateLibrary :=
  let? (_, l) := AddTemplates l [router] (fun _ => Ok "t1") in Ok l.

Definition first_library : TemplateLibrary :=
  match add_router 0 emptyLibrary with Ok l => l | Err _ => emptyLibrary end.

Definition grouped_library : TemplateLibrary :=
  match AddCollection first_library routers (Ok "c1") with Ok (_, l) => l | Err _ => emptyLibrary end.

Lemma edits_keep_library_witness : libraryProblem (stamp grouped_library emptyLibrary now0 "ana") = None.
Proof.
  apply (edits_keep_library emptyLibrary grouped_library now0 "ana"); [vm_compute; reflexivity|constructor|constructor|vm_compute; reflexivity|].
  apply (rtc_l _ _ first_library); [|apply (rtc_l _ _ grouped_library); [|apply rtc_refl]].
  - apply (Adds _ _ [router] (fun _ => Ok "t1") ["t1"]). vm_compute. reflexivity.
  - apply (Groups _ _ routers (Ok "c1") "c1"). vm_compute. reflexivity.
Defined.

Lemma add_router_values n a b : add_router n a = Ok b -> values_ok a -> values_ok b.
Proof.
  unfold add_router, AddTemplates. destruct (_ <? _); [done|]. cbn [add_templates].
  destruct (checkTemplate router _) as [[]|]; [|done]. cbn [res_bind res_map_err]. destruct (_ || _); [done|]. intros [= <-] Hv.
  apply values_iff in Hv as (? & ? & ? & ?). apply values_iff. cbn [tl_UpdatedBy tl_Templates tl_Collections with_lists]. rewrite !Forall_app, !Forall_singleton.
  split; [done|]. split; [split; [done|repeat constructor]|]. split; [done|]. split; [done|reflexivity].
Qed.

Definition t1 : Spec.state := snd (UpdateLibrary (calmly "") "ana" add_router Spec.empty).

Lemma UpdateLibrary_spec_witness :
  exists l, UpdateLibrary (calmly "") "ana" add_router Spec.empty = (Ok l, t1) /\ libraryForUpdate t1 = Ok l /\ tl_UpdatedBy l = "ana".
Proof.
  destruct (library_ok (UpdateLibrary (calmly "") "ana" add_router Spec.empty) t1) as [l Hrun]; [vm_compute; reflexivity|reflexivity|].
  exists l. split; [exact Hrun|].
  destruct (UpdateLibrary_spec (calmly "") "ana" add_router Spec.empty l t1 (calmly_orderly "") wf_empty add_router_values Hrun)
    as (k & before & library & n & _ & _ & _ & [(_ & Hl & _)|(Hread & _ & Hby & _)]); [rewrite calmly_after in Hl|split; [exact Hread|exact Hby]].
  assert (Spec.rev t1 <> Spec.rev Spec.empty) as Hne by (vm_compute; discriminate). destruct (Hne (f_equal Spec.rev Hl)).
Defined.

End SampleTemplates.

(** ** The icon library, evaluated

    An icon added to an empty library and renamed twice, the second time by
    the first of its names. *)

From stdpp Require Import base option list gmap strings countable relations.
From S2P Require Import Prelude Record RecordSpec Text Codes Document Checks Layers Icons Validate DocumentSpec Drafts Content DraftService.
From S2P Require Import DraftSpec DraftStore DraftWrites LayerSets LayerSetSpec IconLibrary IconSpec DraftSample.
Module SampleIcons.
Import SampleDocument SampleDrafts SampleLayerSets.

#[local] Existing Instance unicode.
#[local] Instance drawn : PNG := {| png_decode := fun _ => None; inflate_rest := fun _ => Ok 0 |}.

Definition raise_icon (f : list string * list Z) : option LibraryIcon :=
  match f with
  | (kind :: name :: id :: owner :: created_by :: updated_by :: data :: aliases, [width; height; bytes; created; updated]) =>
      Some {| ic_Kind := kind; ic_Name := name; ic_ID := id; ic_Owner := owner; ic_Width := width; ic_Height := height; ic_Bytes := bytes;
        ic_Created := created; ic_Updated := updated; ic_CreatedBy := created_by; ic_UpdatedBy := updated_by; ic_Aliases := aliases;
        ic_Data := data; ic_Revision := 0 |}
  | _ => None
  end.

Definition raise_alias (f : list string * list Z) : option iconAlias :=
  match f with ([kind; name; target], []) => Some {| al_Kind := kind; al_Name := name; al_Target := target |} | _ => None end.

Lemma raise_icon_texts i : raise_icon (icon_texts i, [ic_Width i; ic_Height i; ic_Bytes i; ic_Created i; ic_Updated i]) = Some (with_icon_revision i 0).
Proof. by destruct i. Qed.

Lemma raise_alias_texts a : raise_alias (alias_texts a, []) = Some a.
Proof. by destruct a. Qed.

#[export] Instance icon_json : IconJSON := {|
  unmarshal_kind := fun v => match unpack v : option (list string * list Z) with Some (kind :: _, _) => Ok kind | _ => Err "not a record" end;
  marshal_icon := fun i => Ok (pack (icon_texts i, [ic_Width i; ic_Height i; ic_Bytes i; ic_Created i; ic_Updated i]));
  unmarshal_icon := fun v =>
    match unpack v ≫= raise_icon with
    | Some i => if decide (utf8 (icon_texts i)) then Ok i else Err (Some "not UTF-8")
    | None => Err (Some "not an icon")
    end;
  marshal_alias := fun a => Ok (pack (alias_texts a, [] : list Z));
  unmarshal_alias := fun v =>
    match unpack v ≫= raise_alias with
    | Some a => if decide (utf8 (alias_texts a)) then Ok a else Err (Some "not UTF-8")
    | None => Err (Some "not an alias")
    end;
  DecodeConfig := fun _ => Err "not a PNG";
  NormalizeIconPNG := fun _ => Err "not a PNG" |}.

#[export] Instance icon_laws : IconLaws.
Proof.
  split.
  - intros i v. cbn [marshal_icon unmarshal_icon icon_json]. intros [= <-] Ht. rewrite unpack_pack. cbn [mbind option_bind]. rewrite raise_icon_texts.
    by rewrite decide_True by exact Ht.
  - intros v i. cbn [unmarshal_icon icon_json]. repeat case_match; try done. by intros [= <-].
  - intros a. by eexists.
  - intros a v. cbn [marshal_alias unmarshal_alias icon_json]. intros [= <-] Ht. rewrite unpack_pack. cbn [mbind option_bind]. rewrite raise_alias_texts.
    by rewrite decide_True by exact Ht.
  - intros v a. cbn [unmarshal_alias icon_json]. repeat case_match; try done. by intros [= <-].
  - intros v i. cbn [unmarshal_icon unmarshal_kind icon_json]. destruct (unpack v) as [[texts numbers]|]; [|done]. cbn [mbind option_bind]. unfold raise_icon.
    repeat case_match; try done; simplify_eq. by intros [= <-].
  - intros v a. cbn [unmarshal_alias unmarshal_kind icon_json]. destruct (unpack v) as [[texts numbers]|]; [|done]. cbn [mbind option_bind]. unfold raise_alias.
    repeat case_match; try done; simplify_eq. by intros [= <-].
Qed.

(** A chunk, with a checksum that is not looked at. *)
Definition chunk (kind : list byte) (body : list byte) : list byte :=
  [x00; x00; x00; Z_byte (Z.of_nat (length body))] ++ kind ++ body ++ [x00; x00; x00; x00].

Definition dot : list byte :=
  pngSignature ++ chunk pngIHDR [x00; x00; x00; x01; x00; x00; x00; x01; x08; x02; x00; x00; x00] ++ chunk pngIDAT [x07] ++ chunk pngIEND [].

Definition i1 : Spec.state := snd (AddIcon (calmly "") "ana" "plc" dot Spec.empty).
Definition i2 : Spec.state := snd (RenameIcon (calmly "") "ana" "plc" "RTU" i1).
Definition renaming : res icon_error LibraryIcon * Spec.state := RenameIcon (calmly "") "ben" "PLC" "hmi" i2.
Definition i3 : Spec.state := snd renaming.
Definition hmi : LibraryIcon := match fst renaming with Ok i => i | Err _ => new_icon 0 "" "" [] 0 0 end.

Definition value_at (s : Spec.state) (name : string) : option (list byte) :=
  Spec.recs s !! (NamespaceIcons, iconKey name) ≫= Value.

Lemma wf_i2 : Spec.wf i2.
Proof.
  pose proof (wf_write _ NamespaceIcons (iconKey "plc") (value_at i1 "plc") now0 now0 wf_empty) as H1.
  pose proof (wf_write _ NamespaceIcons (iconKey "RTU") (value_at i2 "RTU") now0 now0 H1) as H2.
  pose proof (wf_write _ NamespaceIcons (iconKey "plc") (value_at i2 "plc") now0 now0 H2) as H3.
  assert (i2 = Spec.write (mkRecord NamespaceIcons (iconKey "plc") (Some (bytes_of (value_at i2 "plc"))) 3 now0 now0)
    (Spec.write (mkRecord NamespaceIcons (iconKey "RTU") (Some (bytes_of (value_at i2 "RTU"))) 2 now0 now0)
      (Spec.write (mkRecord NamespaceIcons (iconKey "plc") (Some (bytes_of (value_at i1 "plc"))) 1 now0 now0) Spec.empty))) as -> by (vm_compute; reflexivity).
  exact H3.
Qed.

Lemma calmly_reached id s t : reached (calmly id) s t -> t = s.
Proof. by induction 1. Qed.

Lemma calmly_leads id n s key i t : leads (calmly id) n s key i t -> t = s.
Proof. induction 1; [assumption|assumption]. Qed.

Lemma RenameIcon_spec_witness :
  RenameIcon (calmly "") "ben" "PLC" "hmi" i2 = (Ok hmi, i3) /\ names i3 "plc" hmi /\ names i3 "RTU" hmi /\ names i3 "hmi" hmi.
Proof.
  assert (RenameIcon (calmly "") "ben" "PLC" "hmi" i2 = (Ok hmi, i3)) as Hrun by (vm_compute; reflexivity). split; [exact Hrun|].
  destruct (RenameIcon_spec (calmly "") "ben" "PLC" "hmi" i2 hmi i3 (calmly_orderly "") wf_i2 Hrun)
    as (icon & u & t & _ & ->%calmly_leads & Ht%calmly_reached & Hi & _ & _ & _ & Hnew & Hcase). subst t.
  destruct Hcase as [(_ & _ & Hs)|[(_ & Hk & _)|(_ & _ & Hal & _ & Hold & Hnames & _)]].
  - apply (f_equal Spec.rev) in Hs. vm_compute in Hs. discriminate Hs.
  - destruct Hi as (r & Hr & _). rewrite <- Hk in Hr. vm_compute in Hr. discriminate Hr.
  - change (ic_Aliases hmi) with (["plc"] ++ ["RTU"]) in Hal. apply app_inj_tail in Hal as [Hal He]. rewrite <- He in Hold.
    assert ("plc" ∈ ic_Aliases icon) as Hin.
    { apply (in_withoutName _ "hmi"). rewrite <- Hal. by apply list_elem_of_singleton. }
    split; [|split; [exact Hold|exact Hnew]].
    apply (Hnames "plc" {| al_Kind := "alias"; al_Name := "plc"; al_Target := "rtu" |} Hin).
    exists (default no_record (Spec.recs i2 !! (NamespaceIcons, iconKey "plc"))). split; vm_compute; reflexivity.
Defined.

End SampleIcons.
