(* ===== verification/TopologySample.v ===== *)
(** * Topologies and experiments, evaluated

    A document with one wired device as the topology it publishes as, and an
    experiment of two hosts through its life. *)

From Stdlib Require Import ZArith Lia Ascii String Strings.Byte.
From stdpp Require Import base option list gmap strings.
From S2P Require Import Prelude Text Printf Hostname Codes Document Specs Subnet Checks Layers Icons Validate DocumentSpec.
From S2P Require V1 Experiment V1Spec.
From S2P Require Import Topology TopologySpec.

Open Scope Z_scope.
Open Scope go_scope.

Module SampleTopology.
Import SampleDocument.
#[local] Existing Instances unicode libraries png.

(** The interface of the sample's device, as YAML decodes it. *)
Definition eth0 : any := Obj [("name", Str "eth0"); ("mtu", Num (f_int 1500))].

(** Its spec: without a host name, and with one interface. *)
Definition wired_spec : spec := [("type", Str "VirtualMachine"); ("network", Obj [("interfaces", Arr [eth0])])].

Definition wire (wired_spec : spec) (node : Node) : Node :=
  match node_Device node with
  | Some device =>
      {| node_ID := node_ID node; node_Kind := node_Kind node; node_Label := node_Label node; node_Position := node_Position node;
         node_Size := node_Size node; ParentID := ParentID node;
         node_Device := Some {|
           Hostname := Hostname device; dev_IconKey := dev_IconKey device; dev_Icon := dev_Icon device; dev_IconSize := dev_IconSize device;
           dev_OutlineColor := dev_OutlineColor device; dev_FillColor := dev_FillColor device; dev_HideDescription := dev_HideDescription device;
           dev_Layer := dev_Layer device; dev_Spec := Some wired_spec; Interfaces := Interfaces device; IncludedFrom := "" |};
         node_Switch := node_Switch node; node_Note := node_Note node; node_Group := node_Group node; node_Shape := node_Shape node;
         node_Icon := node_Icon node; node_Line := node_Line node |}
  | None => node
  end.

Definition wired_as (s : spec) : Document :=
  let d := document [cable "6"] in
  {| Schema := Schema d; Revision := Revision d; Meta := Meta d; Nodes := map (wire s) <$> Nodes d; Networks := Networks d; Edges := Edges d;
     doc_Viewport := doc_Viewport d; doc_Grid := doc_Grid d; Scenarios := Scenarios d; doc_Source := doc_Source d; Layout := Layout d;
     doc_IconSize := doc_IconSize d; Templates := Templates d; Layers := Layers d; doc_LayerSet := doc_LayerSet d; Icons := Icons d |}.

Definition wired : Document := wired_as wired_spec.

(** The topology: a number that YAML reads as a float is an int, and the
    interface is in the VLAN of its network. *)
Definition published : spec :=
  [("type", Str "VirtualMachine");
   ("network", Obj [("interfaces", Arr [Obj [("name", Str "eth0"); ("mtu", Int 1500); ("vlan", Str "CONTROL")]])]);
   ("general", Obj [("hostname", Str "rtu-1")])].

Lemma ToTopology_spec_witness :
  Validate order wired = None /\
  ToTopology order wired =
    Ok {| top_Spec := [("nodes", Arr [Obj published])]; VLANAliases := {[ "CONTROL" := 100 ]}; top_Warnings := [] |} /\
  Forall2 (published_as wired) (omap own_device (elems (Nodes wired))) [published].
Proof.
  assert (Validate order wired = None) as Hv by (vm_compute; reflexivity). split; [exact Hv|].
  assert (ToTopology order wired =
    Ok {| top_Spec := [("nodes", Arr [Obj published])]; VLANAliases := {[ "CONTROL" := 100 ]}; top_Warnings := [] |}) as Ht by (vm_compute; reflexivity).
  split; [exact Ht|]. destruct (ToTopology_spec order wired order_ok Hv) as [_ Hs]. destruct (Hs _ Ht) as ((specs & Hn & Hp) & _).
  injection Hn as Hn. assert (specs = [published]) as ->; [|exact Hp]. destruct specs as [|s [|? ?]]; try discriminate. injection Hn as Hn; by rewrite Hn.
Defined.

End SampleTopology.

(** ** An experiment *)

Module SampleExperiment.
Import V1 Experiment V1Spec.
#[local] Existing Instance SampleDocument.unicode.

Definition port (name vlan bridge : string) : Interface := set_bridge (new_interface "ethernet" name vlan) bridge None.

Definition lan (ports : list Interface) : Network := set_interfaces no_network (Some <$> ports).

(** A host with hardware as the topology leaves it. *)
Definition host (name : string) (ports : list Interface) : Node unit :=
  with_network (AddHardware (new_node "VirtualMachine" name) "" 0 0) (Some (lan ports)).

Definition plant : TopologySpec unit := {|
  ts_IncludeTopologies := [];
  ts_Nodes := [Some (host "HMI" [port "eth0" "CONTROL" ""; port "eth1" "MGMT" "mgmt"]); Some (host "rtu-1" [port "eth0" "CONTROL" "phenix"])] |}.

(** Two defaults one after the other: the bridge that was named stays. *)
Lemma bridges_follow_witness :
  exists l, SetDefaults_all (["phenix"] ++ ["plant"]) (lan [port "eth0" "CONTROL" ""; port "eth1" "MGMT" "mgmt"]) =
    Some (set_interfaces (lan [port "eth0" "CONTROL" ""; port "eth1" "MGMT" "mgmt"]) (Some <$> l)) /\
    map if_Bridge l = ["plant"; "mgmt"].
Proof.
  destruct (bridges_follow ["phenix"] "plant" (lan [port "eth0" "CONTROL" ""; port "eth1" "MGMT" "mgmt"])
    [port "eth0" "CONTROL" ""; port "eth1" "MGMT" "mgmt"] eq_refl) as (l & Hl & Hb).
  { repeat constructor. }
  exists l. split; [exact Hl|]. apply Forall2_cons_inv_l in Hb as (i & k & [Hi _] & Hk & ->).
  apply Forall2_cons_inv_l in Hk as (j & k' & [Hj _] & Hk & ->). apply Forall2_nil_inv_l in Hk as ->. cbn. rewrite Hi, Hj. reflexivity.
Defined.

Definition firewall (ids : list Z) : Ruleset := {| rs_Name := "in"; rs_Description := ""; rs_Default := "drop"; rs_Rules := new_rule <$> ids |}.

Lemma UnshiftRule_spec_witness :
  Forall (fun r => 0 < ru_ID r < 2 ^ 63) (rs_Rules (firewall [8; 20])) /\
  UnshiftRule (firewall [8; 20]) = (Some (new_rule 1), firewall [1; 8; 20]) /\
  UnshiftRule (firewall [1; 8]) = (None, firewall [1; 8]).
Proof.
  assert (Forall (fun r => 0 < ru_ID r < 2 ^ 63) (rs_Rules (firewall [8; 20]))) as Hr by (repeat constructor; cbn; lia).
  split; [exact Hr|]. destruct (UnshiftRule_spec (firewall [8; 20]) Hr) as [[Hn _]|(r & Hr' & _)]; [discriminate|].
  split; [|reflexivity]. rewrite Hr'. injection Hr' as <-. reflexivity.
Defined.

(** The names are the same when case is ignored, so this is an error; the
    defaults are set all the same. *)
Definition clash : TopologySpec unit := {| ts_IncludeTopologies := []; ts_Nodes := [Some (host "HMI" []); Some (host "hmi" [])] |}.

Lemma TopologyInit_spec_witness :
  (exists t, Init "phenix" plant = Some ([], t)) /\
  (exists t, Init "phenix" clash = Some ([Sprintf "duplicate node hostname %q" [AStr "hmi"]], t)) /\
  ~ NoDup ((fun n => ToLower (name_of n)) <$> [host "HMI" []; host "hmi" []]) /\
  Init "phenix" {| ts_IncludeTopologies := []; ts_Nodes := [Some (host "HMI" []); None] |} = None.
Proof.
  split; [eexists; vm_compute; reflexivity|].
  assert (exists t, Init "phenix" clash = Some ([Sprintf "duplicate node hostname %q" [AStr "hmi"]], t)) as [t Ht] by (eexists; vm_compute; reflexivity).
  split; [exists t; exact Ht|]. destruct (TopologyInit_spec "phenix" clash) as [_ Hs]. destruct (Hs _ _ Ht) as (nodes & nodes' & Hn & _ & _ & Hnil).
  split; [|vm_compute; reflexivity]. intros Hd. assert (nodes = [host "HMI" []; host "hmi" []]) as -> by (apply (there_fun (ts_Nodes clash)); [exact Hn|reflexivity]).
  assert (Forall (fun n => validate n = Ok tt) [host "HMI" []; host "hmi" []]) as Hval by (repeat constructor; vm_compute; reflexivity).
  pose proof (proj2 Hnil (conj Hd Hval)) as Hbad. discriminate.
Defined.

Lemma TopologyInit_idempotent_witness :
  exists t, Init "plant" plant = Some ([], t) /\ t <> plant /\ Init "plant" t = Some ([], t).
Proof.
  assert (exists t, Init "plant" plant = Some ([], t)) as [t Ht] by (eexists; vm_compute; reflexivity).
  exists t. split; [exact Ht|]. split; [|apply (TopologyInit_idempotent _ _ _ _ Ht)].
  intros ->. vm_compute in Ht. discriminate.
Defined.

Definition experiment : ExperimentSpec unit := {|
  ExperimentName := "plant"; BaseDir := ""; DefaultBridge := ""; es_Topology := Some plant; es_Scenario := None;
  es_VLANs := Some {| vl_Aliases := Some {[ "CONTROL" := 100 ]}; vl_Min := 0; vl_Max := 0 |}; es_Schedules := None;
  DeployMode := ""; UseGREMesh := false |}.

Definition started : ExperimentSpec unit :=
  match ExperimentSpec_Init "/phenix" (Some "/root") experiment with Some (_, e) => e | None => experiment end.

Lemma started_ok : ExperimentSpec_Init "/phenix" (Some "/root") experiment = Some ([], started).
Proof. vm_compute. reflexivity. Qed.

Lemma ExperimentInit_spec_witness :
  aliases started !! "CONTROL" = Some 100 /\ aliases started !! "MGMT" = Some 0 /\ BaseDir started = "/phenix/experiments/plant" /\
  ExperimentSpec_Init "/phenix" (Some "/root") started = Some ([], started).
Proof.
  destruct (ExperimentInit_spec "/phenix" (Some "/root") experiment started eq_refl started_ok) as [Ha Hid].
  split; [apply (Ha "CONTROL" 100); left; reflexivity|]. split; [|split; [vm_compute; reflexivity|exact Hid]].
  apply (Ha "MGMT" 0). right. split; [reflexivity|]. split; [reflexivity|]. exists plant. split; [reflexivity|].
  exists (host "HMI" [port "eth0" "CONTROL" ""; port "eth1" "MGMT" "mgmt"]), (lan [port "eth0" "CONTROL" ""; port "eth1" "MGMT" "mgmt"]), (port "eth1" "MGMT" "mgmt").
  split; [left|]. split; [reflexivity|]. split; [right; left|reflexivity].
Defined.

Lemma experiment_covers : covers ["MGMT"; "CONTROL"] experiment.
Proof.
  intros name [id Hn]. unfold aliases in Hn. cbn in Hn. apply lookup_singleton_Some in Hn as [<- _]. right. left.
Qed.

(** Before the experiment is initialised a range that holds the alias is taken,
    and one that does not is refused. *)
Lemma SetVLANRange_spec_witness :
  fst (SetVLANRange ["MGMT"; "CONTROL"] 100 200 false experiment) = Ok tt /\
  snd (SetVLANRange ["MGMT"; "CONTROL"] 101 200 false experiment) = experiment.
Proof.
  split; [vm_compute; reflexivity|].
  assert (es_VLANs experiment <> None) as Hv by discriminate.
  pose proof (SetVLANRange_spec ["MGMT"; "CONTROL"] 101 200 false experiment experiment_covers Hv) as Hs.
  destruct (SetVLANRange ["MGMT"; "CONTROL"] 101 200 false experiment) as [r e] eqn:E. destruct Hs as (_ & _ & Hs & _). cbn. apply Hs.
  intros ->. vm_compute in E. discriminate.
Defined.

Lemma started_covers : covers ["CONTROL"; "MGMT"] started.
Proof.
  assert (aliases started = {[ "CONTROL" := 100; "MGMT" := 0 ]}) as Ha by (vm_compute; reflexivity).
  intros name [id Hn]. rewrite Ha in Hn. apply lookup_insert_Some in Hn as [[<- _]|[_ Hn]]; [left|].
  apply lookup_singleton_Some in Hn as [<- _]. right. left.
Qed.

Lemma unassigned_vlan_blocks_range_witness :
  exists what, SetVLANRange ["CONTROL"; "MGMT"] 100 200 true started = (Err (VFail what), started).
Proof.
  apply (unassigned_vlan_blocks_range "/phenix" (Some "/root") experiment started plant "MGMT"); [exact started_ok|reflexivity| |reflexivity|lia|exact started_covers].
  exists (host "HMI" [port "eth0" "CONTROL" ""; port "eth1" "MGMT" "mgmt"]), (lan [port "eth0" "CONTROL" ""; port "eth1" "MGMT" "mgmt"]), (port "eth1" "MGMT" "mgmt").
  split; [left|]. split; [reflexivity|]. split; [right; left|reflexivity].
Defined.

End SampleExperiment.

(** ** A topology imported and published again

    A topology of two hosts on one network, with a node that has no host name,
    an include and an interface on a network of its own: what is imported from
    it and what is published from that, evaluated. *)

From stdpp Require Import base option list gmap strings.
From S2P Require Import Config Prelude Text Printf Codes Document Specs Subnet Checks Layers Icons Validate Content Topology.
From S2P Require Import DocumentSpec TopologySpec DraftSample PublishChecks Warnings Publish Generate GenerateSpec.

Module SampleGenerate.
Import SampleDocument.
#[local] Existing Instances unicode libraries png SampleDrafts.compression.
#[local] Instance printable : Printable := {| is_print := fun r => 32 <=? r |}.

(** A name as the first eight digits of its identifier. *)
Definition hash (s : string) : Z := fold_left (fun h c => (h * 31 + Z.of_nat (nat_of_ascii c)) mod 4294967296) (String.list_ascii_of_string s) 7.

Definition hex_text (z : Z) : string :=
  String.string_of_list_ascii (map (fun d => ascii_of_nat (Z.to_nat d)) (hex_digits 8 z)).

#[local] Instance uuids : UUIDs := {|
  uuid_NewV5 := fun namespace name => hex_text (hash (namespace +:+ name)) +:+ "-0000-5000-8000-000000000000";
  NamespaceURL := "6ba7b811-9dad-11d1-80b4-00c04fd430c8" |}.

Definition interface (name vlan : string) : any := Obj [("name", Str name); ("type", Str "ethernet"); ("vlan", Str vlan); ("mtu", Int 1500)].

Definition host (hostname : string) (ifaces : list any) : any :=
  Obj [("type", Str "VirtualMachine"); ("general", Obj [("hostname", Str hostname)]); ("network", Obj [("interfaces", Arr ifaces)])].

Definition rtu : any := host "rtu-1" [interface "eth0" "CONTROL"; interface "eth1" "MGMT"].
Definition hmi : any := host "hmi" [interface "eth0" "CONTROL"].

Definition plant : Config := {|
  cf_Version := "phenix.sandia.gov/v1"; cf_Kind := "Topology";
  cf_Metadata := {| md_Name := "plant"; md_Created := ""; md_Updated := ""; md_Annotations := None |};
  cf_Spec := Some [("nodes", Arr [rtu; host " " []; hmi; host "RTU-1" []]); ("includeTopologies", Arr [Str "site"])];
  cf_Status := None |}.

Definition marshal (_ : any) : res string (list byte) := Ok [].
Definition show_error (_ : spec_error) : string := "".

Definition outcome : res gerror (Document * list string) := FromConfig order marshal show_error None false None plant.

Definition result : Document * list string := default (document [], []) (match outcome with Ok r => Some r | Err _ => None end).

(** The two hosts are imported; the node without a name and the one whose name
    is taken are warned about, and the include is kept. *)
Definition published : Topology := {|
  top_Spec := [("nodes", Arr [rtu; hmi]); ("includeTopologies", Arr [Str "site"])]; VLANAliases := ∅; top_Warnings := [] |}.

Lemma import_publish_witness :
  outcome = Ok result /\ length result.2 = 3%nat /\ ToTopology order result.1 = Ok published.
Proof.
  assert (FromConfig order marshal show_error None false None plant = Ok (result.1, result.2)) as Ho by (vm_compute; reflexivity).
  split; [vm_compute; reflexivity|]. split; [vm_compute; reflexivity|].
  assert (specForConfig plant kindTopology = Ok (default [] (cf_Spec plant))) as Hs by (vm_compute; reflexivity).
  assert (canonical_kind (cf_Kind plant) = Some kindTopology) as Hk by (vm_compute; reflexivity).
  generalize dependent result. intros [d ws] Ho. cbn [fst snd] in *.
  destruct (import_publish order marshal show_error None None plant d ws _ order_ok Hk Hs Ho) as [Ht _].
  rewrite Ht. vm_compute. reflexivity.
Defined.

(** The topologies [site], which includes another one and the topology itself,
    and [far]. *)
Definition topology (name : string) (nodes : list any) (includes : list string) : Config := {|
  cf_Version := "phenix.sandia.gov/v1"; cf_Kind := "Topology";
  cf_Metadata := {| md_Name := name; md_Created := ""; md_Updated := ""; md_Annotations := None |};
  cf_Spec := Some [("nodes", Arr nodes); ("includeTopologies", Arr (map Str includes))]; cf_Status := None |}.

Definition loader (name : string) : res string (option Config) :=
  if String.eqb name "site" then Ok (Some (topology "site" [host "web" []] ["far"; "plant"]))
  else if String.eqb name "far" then Ok (Some (topology "far" [host "historian" []] [])) else Err "not found".

Definition own_spec : spec := [("nodes", Arr [rtu; hmi]); ("includeTopologies", Arr [Str "site"])].

Lemma CheckIncludes_clear_witness :
  CheckIncludes loader "plant" own_spec = Ok {| rep_Unreadable := []; rep_Clashes := []; rep_Refused := [] |} /\
  exists t, reads loader "far" t /\ has_hostname t "historian" /\ hostnames_taken t.
Proof.
  assert (CheckIncludes loader "plant" own_spec = Ok {| rep_Unreadable := []; rep_Clashes := []; rep_Refused := [] |}) as Hr by (vm_compute; reflexivity).
  split; [exact Hr|]. destruct (CheckIncludes_clear loader "plant" own_spec _ Hr eq_refl eq_refl eq_refl) as (own & Hn & Hall).
  apply normalize_map_plain in Hn. assert (own = own_spec) as -> by (vm_compute in Hn; by injection Hn as <-).
  assert (loadIncluded loader "site" = Ok [("nodes", Arr [host "web" []]); ("includeTopologies", Arr [Str "far"; Str "plant"])]) as Hsite by (vm_compute; reflexivity).
  assert (includes_all loader own_spec "plant" "far") as Hfar.
  { eapply (includes_next _ _ _ "site" _ "far"); [apply includes_first; [|done]|apply reads_iff; exact Hsite| |done]; apply includes_iff; vm_compute; left. }
  destruct (Hall "far" Hfar) as (t & Ht & _ & Hnames). exists t. split; [exact Ht|]. split; [|exact Hnames].
  apply reads_iff in Ht. vm_compute in Ht. injection Ht as <-. apply has_hostname_iff. vm_compute. left.
Defined.

(** A device with a drive is published; the check of the schema takes any
    config. *)
Definition drive : any := Obj [("image", Str "bennu.qc2"); ("inject_partition", Int 1)].

Definition bootable : Document :=
  SampleTopology.wired_as (SampleTopology.wired_spec ++ [("hardware", Obj [("os_type", Str "linux"); ("drives", Arr [drive])])]).

Definition any_config (_ : Config) : option string := None.

Definition outcome_of (r : res perror (Config * Topology) * list Issue) : Config * Topology :=
  match fst r with Ok p => p | Err _ => (plant, published) end.

Definition bootable_result : Config * Topology := outcome_of (PublishTopology order any_config bootable "plant").

Lemma PublishTopology_ready_witness :
  exists ws, PublishTopology order any_config bootable "plant" = (Ok (bootable_result.1, bootable_result.2), ws) /\
    length (omap TopologySpec.own_device (elems (Nodes bootable))) = 1%nat /\ named_as (omap TopologySpec.own_device (elems (Nodes bootable))) (top_Spec bootable_result.2) /\
    forall s, set_up bootable s -> has_drive s.
Proof.
  assert (exists ws, PublishTopology order any_config bootable "plant" = (Ok (bootable_result.1, bootable_result.2), ws)) as [ws Hp]
    by (eexists; vm_compute; reflexivity).
  exists ws. split; [exact Hp|]. destruct (PublishTopology_ready order any_config bootable "plant" _ _ ws order_ok Hp) as (_ & _ & Hn & _ & _ & _ & _ & Hs & _).
  split; [vm_compute; reflexivity|]. split; [exact Hn|]. intros s Hset. by apply Hs.
Defined.

(** Two interfaces of one device on one VLAN, one of them through a connection,
    with one address: it may not be published. A node named by one digit is
    refused, and so is an interface whose VLAN is blank. *)
Definition port (name vlan address : string) : any := Obj [("name", Str name); ("vlan", Str vlan); ("address", Str address)].

Definition shared : Document :=
  SampleTopology.wired_as [("network", Obj [("interfaces", Arr [port "eth0" "" "10.0.0.5/24"; port "eth1" " CONTROL" "::ffff:10.0.0.5"])])].

Definition unfit : spec := [("nodes", Arr [host "7" [interface "eth0" " "]])].

Lemma publish_checks_iff_witness :
  Validate order shared = None /\ ~ addresses_apart shared /\ ~ vlans_named unfit /\ ~ hostnames_taken unfit /\ Validate order bootable = None /\ addresses_apart bootable.
Proof.
  assert (Validate order shared = None) as Hv by (vm_compute; reflexivity). assert (Validate order bootable = None) as Hb by (vm_compute; reflexivity).
  destruct (publish_checks_iff order shared unfit [] order_ok Hv) as (Hs & Ha & Hn). destruct (publish_checks_iff order bootable unfit [] order_ok Hb) as (_ & Hab & _).
  split; [exact Hv|]. split; [intros Hx%Ha; vm_compute in Hx; discriminate|]. split; [intros Hx%Hs; vm_compute in Hx; discriminate|].
  split; [intros Hx%Hn; vm_compute in Hx; discriminate|]. split; [exact Hb|]. apply Hab. vm_compute. reflexivity.
Defined.

End SampleGenerate.
