(* ===== verification/ConfigSample.v ===== *)
(** * Configs, evaluated

    A JSON codec for configs that keeps its laws, a database in memory, and
    configs that are created, updated, renamed and deleted in it; scenarios
    that take settings from others, topologies that include others, and
    experiments that keep their bridges apart. *)

From Stdlib Require Import ZArith Lia Ascii String Strings.Byte.
From stdpp Require Import base option list gmap strings countable.
From S2P Require Import Prelude Text Hostname V1 Document DocumentSpec Bolt DraftSample.
From S2P Require Import Config ConfigStore ConfigStoreSpec Configs ConfigsSpec.
From S2P Require BoltRecord ConfigRecords Scenario Includes Experiment Experiments ExperimentsSpec.

Open Scope Z_scope.
Open Scope go_scope.

Module SampleConfigs.
Import SampleDrafts.
#[export] Existing Instance SampleDocument.unicode.

(** ** A codec: the names, the times and the texts of a spec *)

Definition text_of (entry : string * any) : option (string * string) := match entry with (k, Str b) => Some (k, b) | _ => None end.
Definition texts_in (c : Config) : option (list (string * string)) := option_map (fun s : list (string * any) => omap text_of s) (cf_Spec c).
Definition texts_spec (l : list (string * string)) : spec := map (fun '(k, b) => (k, Str b)) l.

Definition bridge_in (c : Config) : option string :=
  s ← cf_Spec c;
  match snd <$> List.find (fun '(k, _) => String.eqb k "defaultBridge") s with Some (Str b) => Some b | _ => None end.

Definition spec_with (b : string) : spec := [("defaultBridge", Str b)].

Definition flat_config (c : Config) : list string * option (list (string * string)) :=
  ([cf_Version c; cf_Kind c; cf_Name c; md_Created (cf_Metadata c); md_Updated (cf_Metadata c)], texts_in c).

Definition raise_config (f : list string * option (list (string * string))) : option Config :=
  match f with
  | ([v; k; n; created; updated], b) =>
      Some {| cf_Version := v; cf_Kind := k; cf_Metadata := {| md_Name := n; md_Created := created; md_Updated := updated; md_Annotations := None |};
              cf_Spec := texts_spec <$> b; cf_Status := None |}
  | _ => None
  end.

Definition form (c : Config) : Config := {|
  cf_Version := cf_Version c; cf_Kind := cf_Kind c;
  cf_Metadata := {| md_Name := cf_Name c; md_Created := md_Created (cf_Metadata c); md_Updated := md_Updated (cf_Metadata c); md_Annotations := None |};
  cf_Spec := texts_spec <$> texts_in c; cf_Status := None |}.

#[export] Instance json : ConfigJSON := {
  StoredJSON c := Ok (pack (flat_config c));
  Unmarshal v _ := match unpack v ≫= raise_config with Some c => Ok c | None => Err "bad JSON" end;
  stored_form := form }.

#[export] Instance json_laws : ConfigJSONLaws.
Proof.
  split; [|done]. intros c v kind name [= <-] _ _. cbn [Unmarshal json]. rewrite unpack_pack. done.
Qed.

(** ** A database *)

Definition empty_db : MemBolt.t := ∅.

Lemma empty_valid : store_valid empty_db.
Proof. split; [done|]. split; [|done]. intros kind name _. vm_compute. done. Qed.

Lemma empty_view kind name : view empty_db kind name = None.
Proof. cbn. unfold db_view. by case_bool_decide. Qed.


Definition env (now : string) : cenv := {| c_open := None; c_commit := fun _ => None; c_now := now |}.
Definition envs (n : nat) : cenv := env "2024-02-02".

Lemma env_healthy now : healthy (env now).
Proof. done. Qed.

Definition no_hooks (kind : string) : list (@hook MemBolt.t) := [].

#[export] Instance no_hook_laws : HookLaws no_hooks.
Proof. split. intros kind h stage c s r s' Hh. by apply elem_of_nil in Hh. Qed.

Definition no_problem (c : Config) : option string := None.

Definition topology (name : string) : Config := blank "Topology" name.

Lemma storable_names kind name : bool_decide (kind = "phenix" \/ kind = "phenix_records") = false ->
  String.eqb kind "" || String.eqb name "" = false -> (slen kind <=? MaxKeySize) && (slen name <=? MaxKeySize) && valid_utf8 kind && valid_utf8 name = true ->
  storable (blank kind name).
Proof.
  intros Hr%bool_decide_eq_false He Hok. apply orb_false_iff in He as [?%String.eqb_neq ?%String.eqb_neq].
  apply andb_true_iff in Hok as [[[?%Z.leb_le ?%Z.leb_le]%andb_true_iff ?]%andb_true_iff ?]. done.
Qed.

Definition created (name : string) : createOptions := {| o_config := Some (topology name); o_file := None; o_data := None; o_validate := true |}.

Notation create := (Create no_hooks no_problem).
Notation update := (Update no_hooks no_problem envs).

(** A state after one more topology. *)
Definition after (name : string) (s : MemBolt.t) : MemBolt.t := snd (create (env "2024-01-01") (created name) s).

Lemma after_valid name s : storable (topology name) -> store_valid s -> store_valid (after name s).
Proof.
  intros Hn Hs. unfold after. destruct (create (env "2024-01-01") (created name) s) as [r s'] eqn:E.
  by apply (create_cases no_hooks no_problem _ _ (topology name)) in E as [? _].
Qed.

Definition two : MemBolt.t := after "field" (after "plant" empty_db).

Lemma two_valid : store_valid two.
Proof. apply after_valid; [by apply storable_names|]. apply after_valid; [by apply storable_names|apply empty_valid]. Qed.

(** Created once, then it is there. *)
Lemma Create_spec_witness :
  store_valid (after "plant" empty_db) /\ view (after "plant" empty_db) "Topology" "plant" = Some (with_times (topology "plant") "2024-01-01" "2024-01-01") /\
  fst (create (env "2024-01-02") (created "plant") (after "plant" empty_db)) = Err (CWrapped (lit "storing config") ErrExist).
Proof.
  destruct (create (env "2024-01-01") (created "plant") empty_db) as [r s'] eqn:E.
  assert (s' = after "plant" empty_db) as Hs by (unfold after; rewrite E; reflexivity).
  assert (r = Ok (with_times (topology "plant") "2024-01-01" "2024-01-01")) as -> by (apply (f_equal fst) in E; vm_compute in E; rewrite <- E; reflexivity).
  assert (storable (topology "plant")) as Hn by (apply storable_names; reflexivity).
  destruct (Create_spec no_hooks no_problem (env "2024-01-01") (created "plant") (topology "plant") empty_db _ s' eq_refl empty_valid Hn E) as (Hval & _ & _ & _ & _ & _ & Hv).
  rewrite <- Hs. split; [exact Hval|]. split; [rewrite Hv; reflexivity|]. rewrite Hs. vm_compute. reflexivity.
Defined.

(** Renamed: the config that had the old name is gone. *)
Lemma Update_spec_witness :
  exists s', update "Topology/plant" (topology "pump") two = (Ok tt, s') /\ store_valid s' /\
  view s' "Topology" "plant" = None /\
  view s' "Topology" "pump" = Some (with_times (topology "pump") "2024-01-01" "2024-02-02") /\
  view s' "Topology" "field" = view two "Topology" "field".
Proof.
  destruct (update "Topology/plant" (topology "pump") two) as [r s'] eqn:E.
  assert (r = Ok tt) as -> by (apply (f_equal fst) in E; vm_compute in E; rewrite <- E; reflexivity).
  assert (storable (topology "pump")) as Hn by (apply storable_names; reflexivity).
  destruct (Update_spec no_hooks no_problem envs "Topology/plant" (topology "pump") two (Ok tt) s' two_valid Hn E) as [Hval _].
  exists s'. split; [reflexivity|]. split; [exact Hval|]. apply (f_equal snd) in E. cbn [snd] in E. rewrite <- E. split; [|split]; vm_compute; reflexivity.
Defined.

(** "Renamed" to a name that is taken: the old one stays. *)
Lemma rename_onto_existing_witness :
  exists s', update "Topology/plant" (topology "field") two = (Ok tt, s') /\
  view s' "Topology" "plant" = view two "Topology" "plant" /\
  view s' "Topology" "field" = Some (with_times (topology "field") "2024-01-01" "2024-02-02").
Proof.
  destruct (update "Topology/plant" (topology "field") two) as [r s'] eqn:E.
  assert (r = Ok tt) as -> by (apply (f_equal fst) in E; vm_compute in E; rewrite <- E; reflexivity).
  assert (storable (topology "field")) as Hn by (apply storable_names; reflexivity).
  assert (is_Some (view two "Topology" "field")) as Hf by (vm_compute; eexists; reflexivity).
  destruct (rename_onto_existing no_hooks no_problem envs "Topology/plant" "Topology" "plant" (topology "field") two s' two_valid Hn
    ltac:(vm_compute; reflexivity) ltac:(discriminate) Hf E) as [Hsame _].
  exists s'. split; [reflexivity|]. split; [exact Hsame|]. apply (f_equal snd) in E. cbn [snd] in E. rewrite <- E. vm_compute. reflexivity.
Defined.

Lemma Delete_spec_witness :
  exists s', Delete no_hooks envs "Topology/plant" two = (Ok tt, s') /\ store_valid s' /\
  view s' "Topology" "plant" = None /\ is_Some (view s' "Topology" "field") /\
  (let s2 := snd (Delete no_hooks envs "all" s') in view s2 "Topology" "field" = None).
Proof.
  destruct (Delete no_hooks envs "Topology/plant" two) as [r s'] eqn:E.
  assert (r = Ok tt) as -> by (apply (f_equal fst) in E; vm_compute in E; rewrite <- E; reflexivity).
  destruct (Delete_spec no_hooks envs "Topology/plant" two (Ok tt) s' two_valid E) as [Hval _].
  exists s'. split; [reflexivity|]. split; [exact Hval|].
  assert (s' = snd (Delete no_hooks envs "Topology/plant" two)) as Hs by (rewrite E; reflexivity).
  split; [rewrite Hs; vm_compute; reflexivity|]. split; [rewrite Hs; vm_compute; eexists; reflexivity|].
  cbv zeta. destruct (Delete no_hooks envs "all" s') as [r2 s2] eqn:E2.
  destruct (Delete_spec no_hooks envs "all" s' r2 s2 Hval E2) as (_ & _ & Hall).
  apply (proj2 (Hall eq_refl)); [intros n; apply env_healthy|left].
Defined.

End SampleConfigs.

(** ** The file of configs and records *)

Module SampleConfigFile.
Import SampleDrafts SampleConfigs ConfigStore ConfigRecords.

(** A record beside the configs. *)
Definition file_env : BoltRecord.env := {| BoltRecord.open_error := None; BoltRecord.commit_error := None |}.
Definition with_record : MemBolt.t := snd (BoltRecord.CreateRecord file_env 5 "drafts" "a" (Some [x01]) empty_db).

Lemma record_entries : MemBolt.entries with_record [] = {[ BoltRecord.boltRecordsBucket := None ]}.
Proof. vm_compute. reflexivity. Qed.

Lemma record_no_kind kind : ~ reserved kind -> MemBolt.bucket with_record [kind] = false.
Proof.
  intros Hk. unfold MemBolt.bucket. rewrite record_entries, lookup_singleton_ne; [done|]. intros <-. apply Hk. by right.
Qed.

Lemma record_valid : store_valid with_record.
Proof.
  split; [|split].
  - intros k. cbn [bolt_get MemBolt.bolt]. unfold MemBolt.get. rewrite record_entries. destruct (MemBolt.bucket with_record []); [|done].
    destruct (decide (BoltRecord.boltRecordsBucket = k)) as [<-|Hne]; [by rewrite lookup_singleton_eq|by rewrite lookup_singleton_ne].
  - intros kind name Hk. change (MemBolt.bucket with_record [kind] && match MemBolt.entries with_record [kind] !! name with Some None => true | _ => false end = false).
    by rewrite record_no_kind.
  - intros kind name v Hk. cbn [bolt_get MemBolt.bolt]. unfold MemBolt.get. by rewrite record_no_kind.
Qed.

Lemma config_calls_keep_records_witness :
  exists rec, BoltRecord.GetRecord file_env "drafts" "a" with_record = Ok rec /\
    BoltRecord.GetRecord file_env "drafts" "a" (run_call (env "2024-02-02") CallCreate (topology "a") with_record) = Ok rec /\
    is_Some (view (run_call (env "2024-02-02") CallCreate (topology "a") with_record) "Topology" "a").
Proof.
  eexists. split; [vm_compute; reflexivity|]. split; [|vm_compute; eexists; reflexivity].
  assert (config_ok "Topology" "a") as Hn by (apply (storable_names "Topology" "a"); reflexivity).
  rewrite (config_calls_keep_records (env "2024-02-02") CallCreate (topology "a") with_record file_env "drafts" "a" record_valid Hn).
  vm_compute. reflexivity.
Defined.

(** The lookup fails, and the topology of another day is gone. *)
Definition flaky : cenv := {| c_open := None; c_commit := fun n => match n with O => Some "disk full" | Datatypes.S _ => None end; c_now := "2024-03-03" |}.

Lemma create_overwrites_after_failed_lookup_witness :
  view two "Topology" "plant" = Some (with_times (topology "plant") "2024-01-01" "2024-01-01") /\
  exists t', Create flaky (topology "plant") two = (Ok (with_times (topology "plant") "2024-03-03" "2024-03-03"), t') /\
    view t' "Topology" "plant" = Some (with_times (topology "plant") "2024-03-03" "2024-03-03").
Proof.
  split; [vm_compute; reflexivity|].
  assert (config_ok "Topology" "plant") as Hn by (apply (storable_names "Topology" "plant"); reflexivity).
  exact (create_overwrites_after_failed_lookup flaky (topology "plant") (pack (flat_config (with_times (topology "plant") "2024-03-03" "2024-03-03"))) two "disk full"
    two_valid Hn eq_refl ltac:(apply Z.leb_le; vm_compute; reflexivity) eq_refl eq_refl (fun _ => eq_refl)).
Defined.

End SampleConfigFile.

(** ** Scenarios and topologies that take from others *)

Module SampleIncludes.
Import SampleConfigs V1 Scenario Includes.

Lemma scenario_topologies_witness :
  ({[ "topology" := "plant, field" ]} : gmap string string) !! "topology" = Some "plant, field" /\
  CheckScenarioTopology "load" (Some {[ "topology" := "plant, field" ]}) "field" = Ok tt.
Proof.
  split; [reflexivity|].
  apply (proj1 (scenario_topologies "load" {[ "topology" := "plant, field" ]} "plant, field" "field" (lookup_singleton_eq _ _))). vm_compute. reflexivity.
Defined.

Definition named_nodes (hosts : list string) : list (option (V1.Node unit)) := (fun name => Some (V1.new_node "VirtualMachine" name)) <$> hosts.

(** A plant that includes a field, which includes a plant or not. *)
Definition decode_topologies (field_includes : list string) (c : Config) : res string (TopologySpec unit) :=
  if String.eqb (cf_Name c) "plant" then Ok {| ts_IncludeTopologies := ["field"]; ts_Nodes := named_nodes ["hmi"] |}
  else Ok {| ts_IncludeTopologies := field_includes; ts_Nodes := named_nodes ["rtu-1"; "rtu-2"] |}.

Definition load_topology (name : string) : res cerror Config :=
  if String.eqb name "plant" || String.eqb name "field" then Ok (topology name) else Err ErrNotExist.

Definition names : gset string := {[ "plant"; "field" ]}.

Lemma loads_names source c : load_topology source = Ok c -> cf_Name c ∈ names.
Proof.
  unfold load_topology, names. destruct (String.eqb_spec source "plant") as [->|]; [intros [= <-]; cbn; set_solver|].
  destruct (String.eqb_spec source "field") as [->|]; [intros [= <-]; cbn; set_solver|done].
Qed.

Lemma plant_fuel : (size names < 3)%nat.
Proof. vm_compute. lia. Qed.

(** With three steps of fuel the includes end, in the nodes of both or in the
    error that a topology includes itself. *)
Lemma decode_topology_witness :
  resolves (decode_topologies []) load_topology ∅ (topology "plant") (named_nodes ["hmi"; "rtu-1"; "rtu-2"]) /\
  (forall nodes, ~ resolves (decode_topologies ["plant"]) load_topology ∅ (topology "plant") nodes) /\
  DecodeTopologyFromConfig (decode_topologies ["plant"]) load_topology 3 (topology "plant") = Err (IIncluded "field" (IIncluded "plant" (ICyclic "plant"))).
Proof.
  assert (cf_Name (topology "plant") ∈ names) as Hp by (unfold names; cbn; set_solver).
  assert (DecodeTopologyFromConfig (decode_topologies ["plant"]) load_topology 3 (topology "plant") = Err (IIncluded "field" (IIncluded "plant" (ICyclic "plant")))) as E
    by (vm_compute; reflexivity).
  split; [|split; [|exact E]].
  - apply (proj2 (decode_topology (decode_topologies []) load_topology names 3 (topology "plant") loads_names Hp plant_fuel)).
    eexists. split; [vm_compute; reflexivity|reflexivity].
  - intros nodes Hr. apply (proj2 (decode_topology (decode_topologies ["plant"]) load_topology names 3 (topology "plant") loads_names Hp plant_fuel)) in Hr.
    destruct Hr as (t & Ht & _). rewrite E in Ht. discriminate.
Defined.

Lemma plant_resolves : resolves (decode_topologies []) load_topology ∅ (topology "plant") (named_nodes ["hmi"; "rtu-1"; "rtu-2"]).
Proof.
  assert (cf_Name (topology "plant") ∈ names) as Hp by (unfold names; cbn; set_solver).
  apply (decode_sound (decode_topologies []) load_topology 3 (topology "plant") ∅
    {| ts_IncludeTopologies := ["field"]; ts_Nodes := named_nodes ["hmi"; "rtu-1"; "rtu-2"] |}). vm_compute. reflexivity.
Qed.

Lemma resolved_names_distinct_witness :
  exists more, named (drop 1 (named_nodes ["hmi"; "rtu-1"; "rtu-2"])) more /\ NoDup ("hmi" :: more).
Proof.
  assert (own (decode_topologies []) (topology "plant") {| ts_IncludeTopologies := ["field"]; ts_Nodes := named_nodes ["hmi"] |}) as Ho by (split; [|split]; vm_compute; reflexivity).
  destruct (resolved_names_distinct (decode_topologies []) load_topology ∅ (topology "plant") _ _ ["hmi"] plant_resolves Ho) as (more & Hm & _ & Hd).
  - repeat constructor.
  - apply NoDup_singleton.
  - exists more. split; [exact Hm|exact Hd].
Defined.

End SampleIncludes.

(** ** Experiments and their bridges *)

Module SampleBridges.
Import SampleDrafts SampleConfigs V1 Experiment Experiments ExperimentsSpec.

Definition spec_of (bridge : string) : ExperimentSpec unit := {|
  ExperimentName := ""; BaseDir := ""; DefaultBridge := bridge; es_Topology := None; es_Scenario := None; es_VLANs := None;
  es_Schedules := None; DeployMode := ""; UseGREMesh := false |}.

Definition stopped : ExperimentStatus unit := {|
  StartTime := ""; st_Schedules := None; st_Apps := None; st_VLANs := None; st_Frequency := None; st_Running := None; st_Cleanup := None |}.

Definition decode_experiment (c : Config) : res string (ExperimentSpec unit * ExperimentStatus unit) := Ok (spec_of (default "" (bridge_in c)), stopped).
Definition encode_experiment (s : ExperimentSpec unit) : spec := spec_with (DefaultBridge s).

#[local] Instance codec : ExperimentCodec (S := MemBolt.t) decode_experiment encode_experiment.
Proof. split; [|done]. intros c spec0 status spec created updated [= _ <-]. by eexists. Qed.

(** Apps that leave the experiment alone, and one that gives it a bridge. *)
Definition apps : Type := Experiments.Experiment unit -> res string (ExperimentSpec unit).
Definition configure_none : apps := fun exp => Ok (ex_Spec exp).
Definition configure_bridge (bridge : string) : apps := fun exp => Ok (SetDefaultBridge (ex_Spec exp) bridge).

Definition the_hooks (configure : apps) : string -> list (@hook MemBolt.t) :=
  registered decode_experiment encode_experiment false false "/phenix" (Some "/root") configure no_hooks (env "2024-01-01").

Definition experiment (name bridge : string) : Config := with_spec (blank "Experiment" name) (Some (spec_with bridge)).
Definition creating (name bridge : string) : createOptions :=
  {| o_config := Some (experiment name bridge); o_file := None; o_data := None; o_validate := true |}.

Definition create_with (configure : apps) (name bridge : string) := Configs.Create (the_hooks configure) no_problem (env "2024-01-01") (creating name bridge).
Definition create_experiment := create_with configure_none.
Definition update_experiment (old name bridge : string) := Configs.Update (the_hooks configure_none) no_problem envs ("Experiment/" +:+ old) (experiment name bridge).

Notation readable := (readable decode_experiment).
Notation apart := (bridges_apart decode_experiment).

Definition one_experiment : MemBolt.t := snd (create_experiment "a" "br-a" empty_db).

Lemma empty_readable : readable empty_db.
Proof. intros n c. by rewrite empty_view. Qed.

Lemma empty_apart : apart empty_db.
Proof. intros n m c d b. by rewrite empty_view. Qed.

Lemma experiment_storable name bridge : storable (blank "Experiment" name) -> storable (experiment name bridge).
Proof. done. Qed.

(** The first experiment takes a bridge, which the second cannot have. Its
    bridge is free, so the bridges are apart. *)
Lemma bridges_stay_apart_witness :
  readable one_experiment /\ apart one_experiment /\
  fst (create_experiment "b" "br-a" one_experiment) =
    Err (CWrapped (lit "calling config hook") (CError (Sprintf "experiment %s already using default bridge %s" [AStr "a"; AStr "br-a"]))) /\
  (let s := snd (create_experiment "b" "br-b" one_experiment) in view s "Experiment" "b" <> None).
Proof.
  destruct (create_experiment "a" "br-a" empty_db) as [r s'] eqn:E.
  assert (s' = one_experiment) as Hs by (unfold one_experiment; rewrite E; reflexivity).
  assert (exists c, r = Ok c) as [c ->] by (apply (f_equal fst) in E; vm_compute in E; rewrite <- E; eexists; reflexivity).
  assert (storable (experiment "a" "br-a")) as Hn by (apply experiment_storable, storable_names; reflexivity).
  destruct (proj1 (bridges_stay_apart decode_experiment encode_experiment false false "/phenix" (Some "/root") configure_none no_problem no_hooks (env "2024-01-01")
    empty_db s' (experiment "a" "br-a") (creating "a" "br-a") c envs "Experiment/a" (Ok tt)
    (fun _ => env_healthy _) (env_healthy _) empty_valid Hn eq_refl empty_readable empty_apart eq_refl) E) as (Hr & b & exp & spec & _ & _ & _ & _ & _ & Ha).
  rewrite <- Hs. split; [exact Hr|]. split; [apply Ha; right; intros n d; rewrite empty_view; discriminate|]. rewrite Hs. split; [vm_compute; reflexivity|]. vm_compute. discriminate.
Defined.

Lemma one_spec :
  store_valid one_experiment /\ (forall n, n <> "a" -> view one_experiment "Experiment" n = None) /\
  exists d, view one_experiment "Experiment" "a" = Some d /\ ExperimentsSpec.bridge_of decode_experiment d = Some "br-a".
Proof.
  split_and!; [| |vm_compute; eexists; split; reflexivity]; destruct (create_experiment "a" "br-a" empty_db) as [r s'] eqn:E;
    (assert (s' = one_experiment) as Hs by (unfold one_experiment; rewrite E; reflexivity)); rewrite <- Hs;
    (assert (exists c, r = Ok c) as [c ->] by (apply (f_equal fst) in E; vm_compute in E; rewrite <- E; eexists; reflexivity));
    apply (create_cases (the_hooks configure_none) no_problem _ _ (experiment "a" "br-a")) in E as (Hval & _ & _ & _ & _ & _ & Hv);
    [exact Hval|reflexivity|apply empty_valid|by apply experiment_storable, storable_names| |reflexivity|apply empty_valid|by apply experiment_storable, storable_names].
  intros n Hn. rewrite Hv. unfold view_set. rewrite decide_False; [apply empty_view|]. by intros [_ ?].
Qed.

Lemma one_readable : readable one_experiment.
Proof.
  intros n c Hc. destruct one_spec as (_ & Hother & d & Hd & Hb). destruct (decide (n = "a")) as [->|Hne]; [|by rewrite (Hother n Hne) in Hc].
  rewrite Hd in Hc. injection Hc as <-. by rewrite Hb.
Qed.

(** An app gives the second experiment the bridge of the first: the hook, which
    looked for it before, lets it through. *)
Lemma app_shares_bridge :
  let s := snd (create_with (configure_bridge "br-a") "b" "br-b" one_experiment) in
  exists c d, view s "Experiment" "a" = Some c /\ view s "Experiment" "b" = Some d /\
    ExperimentsSpec.bridge_of decode_experiment c = Some "br-a" /\ ExperimentsSpec.bridge_of decode_experiment d = Some "br-a".
Proof. vm_compute. do 2 eexists. split_and!; reflexivity. Qed.

(** Its own bridge is in the way of another name. *)
Lemma rename_keeps_out_witness :
  exists s', snd (update_experiment "a" "c" "br-a" one_experiment) = s' /\
    view s' "Experiment" "a" = view one_experiment "Experiment" "a" /\ view s' "Experiment" "c" = None.
Proof.
  destruct (update_experiment "a" "c" "br-a" one_experiment) as [r s'] eqn:E. exists s'. split; [reflexivity|].
  destruct one_spec as (Hval & Hother & d & Hd & Hb).
  assert (storable (experiment "c" "br-a")) as Hn by (apply experiment_storable, storable_names; reflexivity).
  assert (NewConfig "Experiment/a" = Ok (blank "Experiment" "a")) as Hname by (vm_compute; reflexivity).
  assert (view one_experiment "Experiment" "c" = None) as Hc by (apply Hother; discriminate).
  destruct (rename_keeps_out decode_experiment encode_experiment false false "/phenix" (Some "/root") configure_none no_problem no_hooks (env "2024-01-01")
    one_experiment s' (experiment "c" "br-a") envs "Experiment/a" "a" d "br-a" r eq_refl (fun _ => env_healthy _) (env_healthy _) Hval Hn eq_refl
    one_readable Hname Hd Hb Hc eq_refl ltac:(discriminate) ltac:(discriminate) E) as [_ Hsame].
  split; [apply Hsame|]. rewrite Hsame. exact Hc.
Defined.

End SampleBridges.

(** ** Workflows, evaluated

    A workflow that creates an experiment from a plant topology, which includes
    a field topology: the refs of both while they are pending, what dry runs
    find, and an update whose range of VLANs is dropped. *)

From stdpp Require Import base option list gmap strings.
From S2P Require Import Prelude Text Url Hostname Document DocumentSpec Config Scenario V1 Experiment V1Spec Includes Configs Experiments.
From S2P Require Import Workflow WorkflowSpec.

Module SampleWorkflow.
Import SampleConfigs SampleIncludes.

Definition no_scenarios (c : Config) : res string (ScenarioSpec unit) := Err "no scenario".

(** The plant includes the field, which includes nothing. *)
Definition hosts (names : list string) : list (option (V1.Node unit)) := (fun name => Some (AddHardware (V1.new_node "VirtualMachine" name) "" 0 0)) <$> names.

Definition decode (c : Config) : res string (TopologySpec unit) :=
  if String.eqb (cf_Name c) "plant" then Ok {| ts_IncludeTopologies := ["field"]; ts_Nodes := hosts ["hmi"] |}
  else Ok {| ts_IncludeTopologies := []; ts_Nodes := hosts ["rtu-1"; "rtu-2"] |}.

Definition workflow : Spec := {|
  wf_Auto := Some {| au_Create := "exp"; au_Update := None; au_Restart := None |}; wf_Topology := "plant"; wf_Scenario := "";
  wf_VLANs := None; wf_Schedules := None; wf_DeployMode := ""; wf_UseGREMesh := false;
  wf_VLANRange := Some {| vr_Min := 100; vr_Max := 200 |}; wf_DefaultBridge := "" |}.

Definition planned : Plan := {| pl_Action := ActionCreateAndStart; pl_Experiment := "exp"; pl_Reason := "" |}.

Lemma planned_ok : NewPlan (any := unit) workflow "main" (Mapped [] "main") [] = Ok planned.
Proof. vm_compute. reflexivity. Qed.

Notation no_file := (fun _ : string => None : option (res cerror Config)).

(** A store of named topologies. *)
Definition topologies (l : list string) (q : Config) : res cerror Config := if bool_decide (cf_Name q ∈ l) then Ok (topology (cf_Name q)) else Err ErrNotExist.

Lemma plain_topology name : NameRegex name = true -> plain_name (topology name).
Proof. intros Hn. split; [by left|]. split; [apply kinds_named|done]. Qed.

Notation ref := (PendingRef no_scenarios decode).

Lemma PendingRef_roundtrip_witness :
  plain_name (topology "plant") /\ ref (topology "plant") = "Topology/plant?include=field" /\
  pendingConfigs [ref (topology "plant")] =
    Ok {[ "Topology/plant" := {| pc_described := true; pc_annotations := None; pc_from := []; pc_includes := ["field"] |} ]}.
Proof.
  assert (plain_name (topology "plant")) as Hp by (apply plain_topology; reflexivity).
  split; [exact Hp|]. split; [vm_compute; reflexivity|]. exact (PendingRef_roundtrip no_scenarios decode (topology "plant") Hp).
Defined.

(** The field is stored and the plant is not: the dry run finds what the apply
    will. *)
Lemma dry_run_complete_witness :
  exists prep, Prepare no_scenarios decode (topologies ["field"]) no_file 3 workflow planned None [ref (topology "plant")] = Ok prep /\
    pr_TopologyName prep = "plant".
Proof.
  assert (plain_name (topology "plant")) as Hp by (apply plain_topology; reflexivity).
  assert (exists prep', Prepare no_scenarios decode (stored_as (topologies ["field"]) (topology "plant") (topology "plant")) no_file 3 workflow planned None [] = Ok prep' /\
    pr_TopologyName prep' = "plant") as (prep' & E & Hn) by (eexists; split; [vm_compute; reflexivity|reflexivity]).
  destruct (dry_run_complete no_scenarios decode decode no_file 3 (topologies ["field"]) workflow planned None (topology "plant") (topology "plant") prep'
    Hp ltac:(repeat split) ltac:(intros s Hd; exact Hd) ltac:(left; split; reflexivity) E) as (prep & Hok & Hname & _).
  exists prep. split; [exact Hok|]. rewrite Hname. exact Hn.
Defined.

(** The plant is stored and the field is pending: the dry run fails, and the
    apply after it is stored would not. *)
Lemma dry_run_reads_stored_witness :
  (exists e, Prepare no_scenarios decode (topologies ["plant"]) no_file 3 workflow planned None [ref (topology "field")] = Err e) /\
  (exists prep, Prepare no_scenarios decode (stored_as (topologies ["plant"]) (topology "field") (topology "field")) no_file 3 workflow planned None [] = Ok prep).
Proof.
  split; [|eexists; vm_compute; reflexivity].
  assert (pendingConfigs [ref (topology "field")] = Ok {[ "Topology/field" := {| pc_described := false; pc_annotations := None; pc_from := []; pc_includes := [] |} ]}) as Hrefs
    by (vm_compute; reflexivity).
  apply (dry_run_reads_stored no_scenarios decode no_file 3 (topologies ["plant"]) workflow planned None [ref (topology "field")] _ (topology "plant")
    {| ts_IncludeTopologies := ["field"]; ts_Nodes := hosts ["hmi"] |} "field" (CError (Sprintf "could not find topology %s" [AStr "field"]))
    ltac:(discriminate) Hrefs ltac:(discriminate) eq_refl).
  - rewrite lookup_singleton_ne; [reflexivity|discriminate].
  - vm_compute. reflexivity.
  - split; [vm_compute; reflexivity|]. split; vm_compute; reflexivity.
  - left.
  - vm_compute. reflexivity.
Defined.

Definition experiment_of (bridge : string) (v : VLANSpec) : Experiments.Experiment unit := {|
  ex_Metadata := {| md_Name := "exp"; md_Created := ""; md_Updated := ""; md_Annotations := Some ∅ |};
  ex_Spec := {| Experiment.ExperimentName := "exp"; BaseDir := ""; DefaultBridge := bridge; es_Topology := None; es_Scenario := None; es_VLANs := Some v;
                es_Schedules := None; DeployMode := ""; UseGREMesh := false |};
  ex_Status := {| StartTime := ""; st_Schedules := None; st_Apps := None; st_VLANs := None; st_Frequency := None; st_Running := None; st_Cleanup := None |} |}.

Lemma CheckBridge_agrees_witness :
  Validate workflow = Ok tt /\ CheckBridge workflow planned [experiment_of "phenix" no_vlans] false = Ok tt /\
  exists e', choose_bridge false false "exp" (ex_Spec (experiment_of "phenix" no_vlans)) = Ok e' /\
    bridge_free "exp" (DefaultBridge e') [experiment_of "phenix" no_vlans] = Ok tt.
Proof.
  assert (Validate workflow = Ok tt) as Hv by (vm_compute; reflexivity). split; [exact Hv|].
  assert (CheckBridge workflow planned [experiment_of "phenix" no_vlans] false = Ok tt) as Hc by (vm_compute; reflexivity). split; [exact Hc|].
  exact (proj1 (CheckBridge_agrees workflow planned [experiment_of "phenix" no_vlans] false false (ex_Spec (experiment_of "phenix" no_vlans)) Hv ltac:(discriminate) eq_refl) Hc).
Defined.

(** One interface, in a VLAN that the workflow has no ID for. *)
Definition control : TopologySpec unit := {|
  ts_IncludeTopologies := [];
  ts_Nodes := [Some (with_network (V1.new_node "VirtualMachine" "hmi") (Some (set_interfaces no_network [Some (set_bridge (new_interface "ethernet" "eth0" "CONTROL") "" None)])))] |}.

Definition prepared : Prepared (any := unit) := {|
  pr_TopologyName := "plant"; pr_Topology := Some control; pr_ScenarioName := ""; pr_Scenario := None;
  pr_Aliases := vlanAliases control ∅; pr_Schedules := Some ∅ |}.

Lemma workflow_range_witness :
  exists exp', workflow_update "no-headnode" ["CONTROL"] workflow prepared "" (experiment_of "phenix" no_vlans) = Some exp' /\
    VLANMin workflow = 100 /\ exists v, es_VLANs (ex_Spec exp') = Some v /\ vl_Min v = 0 /\ vl_Max v = 0.
Proof.
  destruct (workflow_update "no-headnode" ["CONTROL"] workflow prepared "" (experiment_of "phenix" no_vlans)) as [exp'|] eqn:E; [|vm_compute in E; discriminate].
  exists exp'. split; [reflexivity|]. split; [reflexivity|].
  assert (pr_Aliases prepared = Some {[ "CONTROL" := 0 ]}) as Ha by (vm_compute; reflexivity).
  destruct (workflow_range ["CONTROL"] workflow prepared "" (experiment_of "phenix" no_vlans) exp' no_vlans "no-headnode" E eq_refl) as (v & Hv & _ & _ & _ & Hzero).
  { intros alias [id Hid]. rewrite Ha in Hid. cbn in Hid. apply lookup_singleton_Some in Hid as [<- _]. left. }
  exists v. split; [exact Hv|]. apply (Hzero control ∅ "CONTROL"); [reflexivity|reflexivity| |reflexivity].
  rewrite Ha. eexists. apply lookup_singleton_eq.
Defined.

End SampleWorkflow.

(** ** Settings, evaluated

    The settings of a server as texts of configs, in a database in memory. *)

From stdpp Require Import base option list gmap strings countable.
From S2P Require Import Prelude Text Url Document DocumentSpec Bolt DraftSample.
From S2P Require Import Config ConfigStore ConfigStoreSpec Settings SettingsSpec.

Module SampleSettings.
Import SampleDrafts SampleConfigs.

(** structs and mapstructure, for the four texts of a setting. *)
Definition encode_setting (s : Setting) : spec :=
  [("category", Str (sg_Category s)); ("name", Str (sg_Name s)); ("type", Str (sg_Type s)); ("value", Str (sg_Value s))].

Definition decode_setting (c : Config) : res string Setting :=
  match cf_Spec c with
  | Some [(_, Str category); (_, Str name); (_, Str typ); (_, Str value)] => Ok {| sg_Category := category; sg_Name := name; sg_Value := value; sg_Type := typ |}
  | _ => Err "no setting"
  end.

Lemma setting_codec s c : cf_Spec c = Some (encode_setting s) -> decode_setting (kept c) = Ok s.
Proof. intros E. cbn [kept bolt_view stored_form json form]. unfold decode_setting, form, texts_in. cbn [cf_Spec]. rewrite E. by destruct s. Qed.

Lemma setting_fold : canonicalKind "setting" = settingKind.
Proof. reflexivity. Qed.

Lemma default_storable d : d ∈ DefaultSettings -> storable (setting_config encode_setting d).
Proof.
  intros Hd. apply (store_storable (blank settingKind (store_name d))); [reflexivity..|]. apply storable_names; [reflexivity|..];
    unfold DefaultSettings in Hd; repeat (apply elem_of_cons in Hd as [->|Hd]; [reflexivity|]); by apply elem_of_nil in Hd.
Qed.

#[local] Instance classes : RuneClasses := {
  IsNumber c := (48 <=? c) && (c <=? 57); IsLower c := (97 <=? c) && (c <=? 122); IsUpper c := (65 <=? c) && (c <=? 90);
  IsSymbol c := c =? 43; IsPunct c := c =? 33 }.

Lemma empty_ok : settings_ok decode_setting empty_db.
Proof. intros name c. by rewrite empty_view. Qed.

(** All defaults, in a store that had none. *)
Definition defaults_db : MemBolt.t := snd (set_missing decode_setting encode_setting envs DefaultSettings [] empty_db).

Lemma defaults_ok : store_valid defaults_db /\ settings_ok decode_setting defaults_db.
Proof.
  unfold defaults_db. destruct (set_missing decode_setting encode_setting envs DefaultSettings [] empty_db) as [r s'] eqn:E.
  destruct (set_missing_ok decode_setting encode_setting setting_codec setting_fold default_storable DefaultSettings envs [] empty_db r s') as (H1 & H2 & _);
    [done|apply empty_valid|apply empty_ok|exact E|by split].
Qed.

Definition readable (s : MemBolt.t) (d : Setting) : bool :=
  match view s settingKind (store_name d) with Some c => match decode_setting c with Ok _ => true | Err _ => false end | None => false end.

Lemma readable_stored s d : readable s d = true -> exists x, stored decode_setting s (sg_Category d) (sg_Name d) x.
Proof.
  unfold readable. destruct (view s settingKind (store_name d)) as [c|] eqn:E; [|done]. destruct (decode_setting c) as [x|] eqn:Ex; [|done]. intros _. by exists x, c.
Qed.

Definition strict : PasswordSettings := {| LowercaseReq := true; UppercaseReq := true; NumberReq := true; SymbolReq := false; MinLength := 12 |}.

Definition stricter : MemBolt.t := snd (UpdatePasswordSettings decode_setting encode_setting envs strict defaults_db).

(** Saved, then a password of twelve with a letter of each case and a digit is
    valid, and one of eight is not. *)
Lemma password_settings_saved_witness :
  fst (GetPasswordSettings decode_setting encode_setting envs stricter) = Ok strict /\
  fst (IsPasswordValid decode_setting encode_setting envs "Abcdefghij12" stricter) = true /\
  fst (IsPasswordValid decode_setting encode_setting envs "Abcdef12" stricter) = false.
Proof.
  split; [|split; vm_compute; reflexivity]. destruct defaults_ok as [Hs Hok].
  assert (UpdatePasswordSettings decode_setting encode_setting envs strict defaults_db = (Ok tt, stricter)) as E.
  { unfold stricter. assert (fst (UpdatePasswordSettings decode_setting encode_setting envs strict defaults_db) = Ok tt) as Hf by (vm_compute; reflexivity).
    rewrite <- Hf. apply surjective_pairing. }
  destruct (password_settings_saved decode_setting encode_setting setting_codec setting_fold default_storable envs strict defaults_db stricter Hs Hok E) as (_ & _ & _ & Hget).
  destruct (GetPasswordSettings decode_setting encode_setting envs stricter) as [r s2] eqn:Eg. destruct (Hget envs r s2 Eg) as [_ Hr]. cbn [fst]. refine (Hr (fun n => env_healthy _) _).
  assert (forallb (readable stricter) DefaultSettings = true) as Hall by (vm_compute; reflexivity).
  intros d Hd. apply readable_stored. apply (proj1 (forallb_forall _ _) Hall). by apply list_elem_of_In.
Defined.

(** A minimum of 100 is of the right type, and locks everyone out. *)
Lemma min_length_locks_out_witness :
  exists s1, UpdateWithVerification decode_setting encode_setting (fun _ => false) envs "Password" "MinLength" "100" defaults_db = (Ok tt, s1) /\
  forall password, fst (IsPasswordValid decode_setting encode_setting envs password s1) = false.
Proof.
  destruct defaults_ok as [Hs Hok]. eexists (snd (UpdateWithVerification decode_setting encode_setting (fun _ => false) envs "Password" "MinLength" "100" defaults_db)).
  assert (fst (UpdateWithVerification decode_setting encode_setting (fun _ => false) envs "Password" "MinLength" "100" defaults_db) = Ok tt) as Hf by (vm_compute; reflexivity).
  split; [rewrite <- Hf; apply surjective_pairing|]. intros password.
  apply (min_length_locks_out decode_setting encode_setting setting_codec setting_fold default_storable (fun _ => false) envs "100" 100 defaults_db _ Hs Hok);
    [rewrite <- Hf; apply surjective_pairing|reflexivity|reflexivity].
Defined.

(** Only the first default is stored: nothing else is filled in. *)
Definition one_setting : MemBolt.t := snd (set_missing decode_setting encode_setting envs (take 1 DefaultSettings) [] empty_db).

Lemma SetDefaults_stops_witness :
  exists s', SetDefaults encode_setting envs one_setting = (Err (CWrapped (Sprintf "storing setting %s" [AStr "Password.NumberReq"]) ErrExist), s') /\
  view s' settingKind "Password.MinLength" = None.
Proof.
  destruct (SetDefaults encode_setting envs one_setting) as [r s'] eqn:E. exists s'.
  assert (r = Err (CWrapped (Sprintf "storing setting %s" [AStr "Password.NumberReq"]) ErrExist)) as Hr by (apply (f_equal fst) in E; vm_compute in E; rewrite <- E; reflexivity).
  split; [rewrite Hr; reflexivity|]. clear Hr.
  destruct (set_missing decode_setting encode_setting envs (take 1 DefaultSettings) [] empty_db) as [r0 s0] eqn:E0.
  assert (one_setting = s0) as H1 by (unfold one_setting; rewrite E0; reflexivity).
  destruct (set_missing_ok decode_setting encode_setting setting_codec setting_fold default_storable (take 1 DefaultSettings) envs [] empty_db r0 s0) as (Hs & Hok & _);
    [intros d Hd; apply list_elem_of_singleton in Hd as ->; left|apply empty_valid|apply empty_ok|exact E0|].
  rewrite <- H1 in Hs, Hok.
  destruct (SetDefaults_stops decode_setting encode_setting setting_codec setting_fold default_storable envs [] (default_of settingCategoryPassword "NumberReq" "bool" (FormatBool true))
    (drop 1 DefaultSettings) one_setting r s' eq_refl Hs Hok (fun _ => env_healthy _)) with (2 := E) as (_ & _ & _ & Hv).
  - apply readable_stored. vm_compute. reflexivity.
  - rewrite (Hv "Password.MinLength"); [vm_compute; reflexivity|]. apply not_elem_of_nil.
Defined.

End SampleSettings.
